(* ===== verification/_CoqProject ===== *)
-Q . S2P
Prelude.v
PyStr.v
Json.v
Graph.v
Pydantic.v
Nodes.v
Search.v
CompilerChecks.v
Capabilities.v
Compiler.v
CompilerSpec.v
Tables.v
Config.v
Bindings.v
RunModels.v
NodeIndex.v
Ready.v
Unlock.v
UnlockSpec.v
Retry.v
Claiming.v
Recovery.v
Cancellation.v
Schedule.v
Calendar.v
Scheduler.v
Fanout.v
Waits.v
Inputs.v
Testing.v
ControlNodes.v
Execute.v
Engine.v
Resume.v
Start.v
EngineSpec.v
ResumeSpec.v
Operator.v
Final.v
Correlation.v
Versioning.v
Automations.v
Inbox.v
Runtime.v
Retention.v
Webhooks.v
Quota.v
Accounts.v
Providers.v
Variants.v
Publishing.v
PublishingRows.v
Publisher.v
PublisherSpec.v
PublisherKeys.v
Settings.v
Approvals.v
ApprovalCards.v
ApprovalOutbound.v
ApprovalActions.v
ApprovalChannels.v
ApprovalSpec.v
NodesSpec.v
Inspection.v
