(* ===== verification/Prelude.v ===== *)
(** * ContentGenerator: the workflow engine, verified

    A development about four modules of the backend.  The workflow module
    (src/backend/modules/workflows/): the compiler that accepts or rejects a
    workflow graph, the versions a graph is published as, the engine that
    executes a version node by node, the leases under which workers execute
    nodes, and what starts runs: operators, the scheduler and signed webhooks.
    The publishing module (src/backend/modules/publishing/): the jobs that
    bring generated content to the accounts of a tenant, each attempt prepared
    durably before a provider is called.  Approvals
    (src/backend/modules/approvals/): the requests by which people decide about
    content over Telegram, WhatsApp and the dashboard, which publish it or
    resume the node of a workflow that waits for the decision.  The settings of
    a tenant (src/backend/modules/settings/), which the channels are configured
    by.

    ** How the program works, and which file models which part

    A workflow graph is a JSON document of nodes and edges.  The compiler
    decodes and checks it; a run of it is a row with one row per node (and per
    iteration of a fan-out node).  The engine marks root nodes READY; a worker
    claims a READY row under a token, executes the node, and writes success or
    failure; success unlocks the successors, a failure is retried by policy; a
    node that has to wait leaves a durable wait and is resumed by a token; rows
    whose claim expired are recovered; a run is finalized when no row is left
    to execute.  Automations start runs from slots of a schedule or from events
    of a webhook, each under a correlation id.

    - [Prelude]: record update, exceptions and the state monad with its weakest
      preconditions ([wp], [keeps]), list lemmas.
    - [PyStr], [Json]: the Python string methods and the JSON values the code
      uses, with the order of object keys.
    - [Search]: the work-list search shared by reachability checks.
    - [Graph], [Nodes]: graph_schema.py, nodes/base.py, registry.py.  The
      decoding of a document with every validator and its error; the contract
      of a node class as a record.
    - [Pydantic]: how a model reads the fields of a dictionary, over the class
      [Coercions] of the conversions of pydantic.
    - [CompilerChecks], [Compiler], [Capabilities]: compiler_checks.py,
      compiler_control.py, compiler_semantics.py, compiler.py,
      capability_context.py, platform_capabilities.py.
      [CompilerSpec] states what a valid graph is without any algorithm and
      refines [Compiler.validate_graph] to it.
    - [Tables]: models.py and the tables around a run; [Config]: config_merge.py,
      config_layers.py, config_resolver.py, config_snapshots.py, security.py;
      [Bindings]: the authorization of brands, versions and accounts.
    - [RunModels], [NodeIndex], [Ready]: run_models.py, engine_node_index.py,
      engine_ready.py, engine_status.py.  Rows carry every column; the store is
      the list of rows of each table, and objects shared through the index are
      modelled by looking the row up by its id.
    - [Unlock], [UnlockSpec]: engine_unlock.py.  The queue of the skip cascade
      is explicit; [UnlockSpec] says what unlocking promises.
    - [Retry]: node_retry.py, engine_failure.py.
    - [Claiming], [Recovery]: node_claiming.py, node_recovery.py.  A statement
      [update(...).where(...).returning(...)] is [Claiming.sql_update]: the
      rows satisfying the condition are rewritten and returned.
    - [Cancellation]: workflow_cancellation.py, occurrence_sync.py.
    - [Schedule], [Calendar], [Scheduler]: schedule_config.py,
      schedule_next.py, scheduler.py, scheduler_repository.py.  A time zone is
      a record of its offset function; the client side of [start_run] is the
      class [Scheduler.RunStarter], which [Final.engine_starter] implements.
    - [Fanout]: engine_fanout.py; [Waits]: wait_store.py, wait_persist.py,
      wait_recovery.py; [Inputs]: engine_inputs*.py on a heap of list objects,
      because the code extends lists that other nodes hold.
    - [Testing], [Execute]: testing_support.py, engine_execute.py.
    - [Engine], [Resume], [Start], [Operator]: engine.py, engine_dispatch.py,
      engine_node_task.py, engine_resume.py, engine_simulate.py,
      operator_recovery.py.  [EngineSpec] and [ResumeSpec] state what a pass,
      a task and a decision do.
    - [Final], [Correlation]: histories.  [Final.engine_step] is one operation of
      any of the files above, however it ended; the two files prove what holds
      through every sequence of them.
    - [Versioning]: versioning.py, repository.py; [Automations]:
      automation_service.py, automation_repository.py, automation_schemas.py,
      webhook_trigger_config.py.  Both act on [Tables.Session].
    - [Inbox], [Runtime], [Retention], [Webhooks]: the webhook rows of
      approvals/, operations/service.py and workers/runtime.py, retention.py,
      webhook_ingress.py with webhook_crypto.py.  They act on [Inbox.OpsWorld],
      which holds the engine's store, the other tables and what lies outside
      the database.
    - [Quota], [Accounts], [Providers], [Variants]: what publishing rests on:
      account_ops.py (counters in Redis), account_selection.py with the account
      queries of publishing/repository.py and core/rollout.py, core/http.py with
      the providers of provider_base.py, x_provider.py, bluesky_provider.py and
      providers.py, and variant_store.py.
    - [Publishing], [PublishingRows], [Publisher], [PublisherSpec]:
      publishing/models.py, job_claiming.py, failure_classification.py,
      attempt_lifecycle.py; the rows seen job by job with their invariant;
      job_executor.py, publish_orchestration.py and the worker's task; what
      every sequence of operations keeps.  They act on [Publishing.World]: the
      rows of a session, the rows last committed, Redis, and a log of the
      requests and of the calls of providers.
      [PublisherKeys]: what a publication never changes of a job, hence the
      idempotence of [publish_now] and the silence of dry runs.
    - [Settings]: settings/service.py, settings/repository.py.
    - [Approvals], [ApprovalCards], [ApprovalOutbound], [ApprovalActions],
      [ApprovalChannels]: the rows with workflows/approval_binding.py and the
      expiry task; callback_signing.py with the Telegram and WhatsApp providers;
      approval_helpers.py, approval_outbound.py and
      workflows/approval_delivery.py; approval_actions.py, revisions.py and
      workflows/nodes/approval.py; the callbacks and messages of Telegram, the
      webhook of WhatsApp and router.py.  [ApprovalSpec] states what they
      promise.
    - [ControlNodes]: workflows/nodes/condition_node.py, merge_nodes.py,
      pause_nodes.py, triggers.py and the stubs of nodes/base.py, as instances
      of the contract of [Nodes].  [NodesSpec]: what their outputs do to the
      engine, through [Unlock] and [Waits].
    - [Inspection]: payload_redact.py, run_inspection.py and the two routes of
      router_operator.py that show runs.

    ** What the theorems show

    - Compiler: [validate_graph_correct], accepted exactly when the declarative
      specification holds, on the correctness of the cycle and reachability
      searches.
    - Execution state: [is_ready_spec], [index_refines], [unlock_sound],
      [unlock_complete], [cascade_skip_terminates], [finalize_run_status_spec].
    - One node: [execute_ready_node_unbound], which says that the module as it
      stands cannot execute any node, and [execute_attempt_outcome], what its
      body does in a module that binds the two names it lacks;
      [explicit_binding_wins], [deep_merge_last_wins], [strip_secrets_spec],
      [resolve_node_config_spec].
    - Failure handling: [compute_backoff_seconds_spec], [claim_ready_node_spec],
      [stale_token_fenced], [recover_stale_spec], [cancel_run_spec].
    - Fan-out and waits: [materialize_fan_out_success_spec],
      [fan_out_keeps_slots], [waits_settle_once].
    - A run: [start_run_spec], [advance_dispatches_once], [task_gate],
      [resume_settles_once], [retry_from_node_spec].
    - Schedules: [parse_trigger_config_ok], [compute_next_run_at_after],
      [fire_one_at_most_once], [slot_key_spec].
    - Histories: [succeeded_is_final], [correlation_is_idempotent],
      [one_run_per_event], [published_versions_frozen].
    - Ingress and upkeep: [verify_generic_hmac_spec],
      [receive_workflow_webhook_spec], [scrub_old_node_payloads_spec].
    - Defects the model shows: [retention_never_reaches],
      [no_webhook_automations], [update_cannot_keep_a_target],
      [busy_account_is_refused_for_good], [variant_tweets_share_a_key],
      [late_answer_is_posted_twice], [cancelled_publication_is_repeated],
      [concurrent_output_lost], [resolution_mutates_outputs],
      [failed_delivery_is_not_retried], [resume_drops_iteration],
      [retries_miss_iterations], [unique_iteration_keys_collide].
    - Publishing: [publishing_invariant], [settled_jobs_are_never_called],
      [finalize_failure_spec], [ambiguous_attempt_is_no_guard]; what it rests on:
      [x_thread_spec], [request_spec], [resolve_social_accounts_spec],
      [quota_bounds_every_window];
      [publish_now_is_idempotent].
    - Approvals: [bound_decision_resumes_its_node], [approval_is_a_dry_run],
      [revision_spec], [asking_again_keeps_the_workflow],
      [publish_gate_drops_the_workflow], [orphan_blocks_expiry]; the channels:
      [verify_signed_callback_data_spec], [signed_button_verifies],
      [bad_signature_decides_nothing], [inbox_row_processed_once]; settings:
      [whatsapp_settings_read_back].
    - Nodes: [condition_announces_its_branch], [comparison_is_exact],
      [delay_wakes_at_its_end], [wait_expires_as_configured],
      [approval_expiries_disagree], [merge_exposes_nothing].
    - Inspection: [redact_value_spec], [serialize_node_run_spec],
      [detail_hides_secrets], [run_list_shows_secrets], [milliseconds_bounds].

    ** Fuel

    [CompilerChecks.dfs] descends once per unvisited node: fuel of the number
    of nodes plus one.  [Search.loop] pops each pushed edge once: fuel of the
    number of edges plus the roots.  [Unlock.cascade] takes a fuel that
    [UnlockSpec.cascade_skip_terminates] bounds by the number of edges plus
    one.  [Operator.reset_walk] pops each queued node and each edge at most
    once: fuel of both numbers.  [Engine.advance_loop] has the bound of the
    source's own loop, [Resume.simulate_loop] the hops of the source.
    [Inputs] reads nested values back from the heap with fuel of their depth.
    [Schedule] walks a daylight-saving gap minute by minute for at most the 180
    minutes of the source's [range].

    ** Conventions and limits

    Times are integers of microseconds since the epoch, and an operation reads
    the clock once.  Texts are lists of bytes; JSON numbers are
    integers; that limits what is said about the condition node, which compares
    and converts other numbers too ([ControlNodes.to_float]).
    Python floats are rationals [Q] where the code computes with them (the
    backoff): rounding is not modelled, overflow of [2 ** n] is.  Texts of
    messages raised by pydantic are abbreviated, structured details of an
    HTTPException are flattened.  A Python set that is iterated is iterated in
    the order of [elements]; a query without ORDER BY answers in table order,
    and rows that are equal for an ORDER BY keep that order.

    An operation is a transaction: concurrency shows as the ids other sessions
    hold locked, as the rows they commit while the operation runs
    ([ee_refresh], the racing rows of a delivery), and as the interleaving of
    whole operations in histories; statements that are conditional on a token
    are modelled one by one.  A session that raises is rolled back
    ([Automations.transaction], [Inbox.atomic]); messages already sent and ids
    already drawn stay.  [Execute] takes the two names its module forgets to
    import as an argument, so that what is said about the module as it stands
    ([Execute.module_globals]) and about one that binds them
    ([Execute.repaired_globals], which is not the module under src/) share one
    definition.

    Parameters: SHA-256 and HMAC, the JSON and UTF-8 codecs, the readers of
    datetimes and UUIDs, croniter, zoneinfo's data, pydantic's coercion of
    integers and booleans ([Pydantic.Coercions]), object storage, the source of random ids (injective
    where a theorem needs it), and the node implementations behind the node
    contract.

    In publishing a job is one session; the server's answer to the n-th request
    is an arbitrary function, a worker that dies or is cancelled during a call
    is the exception its call ends with, and the log of requests and calls is
    what the theorems about repeated posts count.

    Approvals act on [Approvals.World], which joins the engine's store and the
    tables of publishing, so that a decision runs the engine's own resumption
    and the publisher's own [publish_now].  Scores and confidences are in
    hundredths; Redis reads a clock of its own; a commit is recorded by the
    tables of publishing.  The generation of content, the cached lookup of a
    plan, and the handlers of briefs and tweets that share the Telegram webhook
    are parameters: they are other modules.

    ** Not modelled

    HTTP routers and rate limits, ORM sessions beyond rows and conditions,
    metrics, logging and the event loop of the workers are glue around the
    operations.  The nodes other than approval and control adapt services of other modules
    behind the contract of [Nodes].  Those modules - sources, stories, briefs,
    generation, video, chess - are prompts, numerical scoring, rendering and
    calls of models and engines, whose results this development takes as
    inputs.  Connecting accounts, users and sign-in are CRUD and cryptographic
    libraries.
*)
From Stdlib Require Export Ascii String ZArith Lia.
From stdpp Require Export base tactics option list gmap strings relations sorting.

Set Default Goal Selector "!".
Set Default Proof Using "Type*".

(** ** Record updates *)

(** [Settable R] is the eta expansion of a record type; a field setter is
    obtained from it by abstracting the projection.  [r <| f := v |>] is the
    attribute assignment [r.f = v] of the source. *)
Class Settable (R : Type) := mk_settable { settable_eta : R → R }.
Class Setter {R T : Type} (getter : R → T) := set_field : (T → T) → R → R.
Arguments set_field {R T} getter {_} _ _ /.

Ltac solve_setter :=
  match goal with
  | |- @Setter ?R ?T ?getter =>
      let s := constr:(_ : Settable R) in
      let s := eval hnf in s in
      match s with
      | mk_settable _ ?eta =>
          let p := eval pattern getter in eta in
          match p with
          | ?abs _ => let t := eval cbv beta in (fun f : T → T => abs (fun r => f (getter r))) in exact t
          end
      end
  end.
#[export] Hint Extern 1 (Setter _) => solve_setter : typeclass_instances.

Declare Scope record_scope.
Notation "r <| f := v |>" := (set_field f (λ _, v) r)
  (at level 12, left associativity, f constr at level 0, v constr at level 200) : record_scope.
Notation "r <| f ::= g |>" := (set_field f g r)
  (at level 12, left associativity, f constr at level 0, g constr at level 200) : record_scope.
#[global] Open Scope record_scope.

(** ** Exceptions and the state monad *)

(** The exceptions the modelled code raises or lets escape. *)
Inductive exn :=
  | HTTPException (status_code : Z) (detail : string)
  | HTTPStatusError (status_code : Z) (msg : string)
  | ValueError (msg : string)
  | KeyError (key : string)
  | NameError (name : string)
  | ValidationError (msg : string)
  | WorkflowNodeNotFoundError (msg : string)
  | OtherException (cls : string) (msg : string).

#[export] Instance exn_eq_dec : EqDecision exn.
Proof. solve_decision. Defined.

Inductive result (A : Type) := Ok (a : A) | Raise (e : exn).
Arguments Ok {A} _.
Arguments Raise {A} _.

#[export] Instance result_ret : MRet result := λ A a, Ok a.
#[export] Instance result_bind : MBind result := λ A B f r,
  match r with Ok a => f a | Raise e => Raise e end.

Definition is_ok {A} (r : result A) : bool := match r with Ok _ => true | Raise _ => false end.

(** [M W A]: a call that reads and writes the store [W]; an exception leaves
    the mutations made so far in place, as a Python exception does. *)
Definition M (W A : Type) := W → result A * W.

#[export] Instance M_ret {W} : MRet (M W) := λ A a w, (Ok a, w).
#[export] Instance M_bind {W} : MBind (M W) := λ A B k m w,
  match m w with
  | (Ok a, w') => k a w'
  | (Raise e, w') => (Raise e, w')
  end.
Definition raise {W A} (e : exn) : M W A := λ w, (Raise e, w).
Definition get_state {W} : M W W := λ w, (Ok w, w).
Definition put_state {W} (w : W) : M W unit := λ _, (Ok (), w).
Definition modify {W} (f : W → W) : M W unit := λ w, (Ok (), f w).
Definition lift {W A} (r : result A) : M W A := λ w, (r, w).

(** [try: m; except Exception as exc: handler(exc)] *)
Definition try_except {W A} (m : M W A) (handler : exn → M W A) : M W A := λ w,
  match m w with
  | (Raise e, w') => handler e w'
  | r => r
  end.

Fixpoint mfor {W A} (l : list A) (body : A → M W unit) : M W unit :=
  match l with
  | [] => mret ()
  | x :: l' => body x ≫= λ _, mfor l' body
  end.

Lemma M_bind_ok {W A B} (m : M W A) (k : A → M W B) w a w' :
  m w = (Ok a, w') → (m ≫= k) w = k a w'.
Proof. intros H. unfold mbind, M_bind. by rewrite H. Qed.

Lemma M_bind_raise {W A B} (m : M W A) (k : A → M W B) w e w' :
  m w = (Raise e, w') → (m ≫= k) w = (Raise e, w').
Proof. intros H. unfold mbind, M_bind. by rewrite H. Qed.

(** ** Postconditions of calls *)

(** The call returns a value satisfying [Q], or raises as [E] allows. *)
Definition wp {W A} (m : M W A) (Q : A → W → Prop) (E : exn → W → Prop) (w : W) : Prop :=
  match m w with
  | (Ok a, w') => Q a w'
  | (Raise e, w') => E e w'
  end.

Section wp.
Context {W : Type}.
Implicit Types (w : W) (E : exn → W → Prop).

Lemma wp_bind {A B} (m : M W A) (k : A → M W B) Q E w :
  wp m (λ a, wp (k a) Q E) E w → wp (m ≫= k) Q E w.
Proof. unfold wp, mbind, M_bind. by destruct (m w) as [[a|e] w']. Qed.

(** A call whose outcome is known. *)
Lemma wp_ok {A B} (m : M W A) (k : A → M W B) Q E a w w' :
  m w = (Ok a, w') → wp (k a) Q E w' → wp (m ≫= k) Q E w.
Proof. intros H. unfold wp, mbind, M_bind. by rewrite H. Qed.

Lemma wp_ret {A} (a : A) Q E w : Q a w → wp (mret a) Q E w.
Proof. done. Qed.

Lemma wp_get Q E w : Q w w → wp get_state Q E w.
Proof. done. Qed.

Lemma wp_modify f Q E w : Q () (f w) → wp (modify f) Q E w.
Proof. done. Qed.

Lemma wp_raise {A} e (Q : A → W → Prop) E w : E e w → wp (raise e) Q E w.
Proof. done. Qed.

Lemma wp_lift {A} (r : result A) Q E w :
  match r with Ok a => Q a w | Raise e => E e w end → wp (lift r) Q E w.
Proof. by destruct r. Qed.

Lemma wp_try {A} (m : M W A) h Q E w :
  wp m Q (λ e, wp (h e) Q E) w → wp (try_except m h) Q E w.
Proof. unfold wp, try_except. by destruct (m w) as [[a|e] w']. Qed.

Lemma wp_mono {A} (m : M W A) (Q Q' : A → W → Prop) E E' w :
  wp m Q E w → (∀ a w', Q a w' → Q' a w') → (∀ e w', E e w' → E' e w') → wp m Q' E' w.
Proof. unfold wp. destruct (m w) as [[a|e] w']; auto. Qed.

Lemma wp_mfor {A} (l : list A) (body : A → M W unit) (Inv : list A → W → Prop) Q E w :
  Inv l w → (∀ x rest w, Inv (x :: rest) w → wp (body x) (λ _, Inv rest) E w) →
  (∀ w, Inv [] w → Q () w) → wp (mfor l body) Q E w.
Proof.
  intros Hl Hbody Hend. revert w Hl. induction l as [|x rest IH]; intros w Hl.
  - by apply wp_ret, Hend.
  - cbn [mfor]. apply wp_bind. eapply wp_mono; [by apply Hbody|intros ? w1; by apply IH|done].
Qed.
End wp.

(** ** What a computation keeps, however it ends *)

Section keeps.
Context {W : Type} (P : W → Prop).

Definition keeps {A} (m : M W A) : Prop := ∀ w, P w → wp m (λ _, P) (λ _, P) w.

Lemma keeps_bind {A B} (m : M W A) (k : A → M W B) : keeps m → (∀ a, keeps (k a)) → keeps (m ≫= k).
Proof. intros Hm Hk w Hw. apply wp_bind. eapply wp_mono; [by apply Hm|intros a w'; apply Hk|done]. Qed.

(** The continuation of a read may use what holds of the state it read. *)
Lemma keeps_get {B} (k : W → M W B) : (∀ w, P w → wp (k w) (λ _, P) (λ _, P) w) → keeps (get_state ≫= k).
Proof. intros Hk w Hw. apply wp_bind, wp_get. by apply Hk. Qed.

Lemma keeps_ret {A} (a : A) : keeps (mret a).
Proof. intros w Hw. by apply wp_ret. Qed.

Lemma keeps_raise {A} e : keeps (raise (A:=A) e).
Proof. intros w Hw. by apply wp_raise. Qed.

Lemma keeps_lift {A} (r : result A) : keeps (lift r).
Proof. intros w Hw. apply wp_lift. by destruct r. Qed.

Lemma keeps_modify f : (∀ w, P w → P (f w)) → keeps (modify f).
Proof. intros Hf w Hw. by apply wp_modify, Hf. Qed.

Lemma keeps_try {A} (m : M W A) h : keeps m → (∀ e, keeps (h e)) → keeps (try_except m h).
Proof. intros Hm Hh w Hw. apply wp_try. eapply wp_mono; [by apply Hm|done|intros e w'; apply Hh]. Qed.

Lemma keeps_mfor {A} (l : list A) (body : A → M W unit) : (∀ x, x ∈ l → keeps (body x)) → keeps (mfor l body).
Proof.
  intros Hb w Hw. apply (wp_mfor l body (λ rest w, rest ⊆ l ∧ P w)); [done| |by intros ? []].
  intros x rest w' [Hsub Hp]. eapply wp_mono; [apply Hb; [set_solver|done]|intros [] w1 H1; set_solver|done].
Qed.

(** Used inside a [wp] proof: a step that keeps [P], then the rest. *)
Lemma wp_keep {A B} (m : M W A) (k : A → M W B) Q (w : W) :
  keeps m → P w → (∀ a w', P w' → wp (k a) Q (λ _, P) w') → wp (m ≫= k) Q (λ _, P) w.
Proof. intros Hm Hw Hk. apply wp_bind. eapply wp_mono; [by apply Hm|exact Hk|done]. Qed.

(** The state after the call. *)
Lemma keeps_snd {A} (m : M W A) w : keeps m → P w → P (m w).2.
Proof. intros H Hw. specialize (H w Hw). unfold wp in H. by destruct (m w) as [[] w']. Qed.
End keeps.

Lemma wp_snd {W A} (m : M W A) (P : W → Prop) w : wp m (λ _, P) (λ _, P) w → P (m w).2.
Proof. unfold wp. by destruct (m w) as [[] w']. Qed.

Lemma keeps_get_state {W} (P : W → Prop) : keeps P get_state.
Proof. by intros w Hw. Qed.

(** A state transformer that cannot fail. *)
Lemma keeps_fun {W A} (P : W → Prop) (m : M W A) : (∀ w, P w → P (m w).2) → keeps P m.
Proof. intros H w Hw. specialize (H w Hw). unfold wp. by destruct (m w) as [[] w']. Qed.
#[export] Hint Resolve keeps_ret keeps_raise keeps_lift keeps_get_state : keeps.

(** Walks through a computation down to the calls the hints know and the
    changes [modify] makes, which are left to [tac]. *)
Ltac solve_keeps tac :=
  repeat match goal with
  | |- keeps _ (mret _) => apply keeps_ret
  | |- keeps _ (_ ≫= _) => apply keeps_bind; [|intros ?]
  | |- keeps _ (modify _) => apply keeps_modify; intros ? ?; solve [tac]
  | |- keeps _ (try_except _ _) => apply keeps_try; [|intros ?]
  | |- keeps _ (mfor _ _) => apply keeps_mfor; intros ? _
  | |- keeps _ (match ?x with _ => _ end) => destruct x
  | |- keeps _ (let _ := _ in _) => cbv zeta
  | |- keeps _ _ => solve [eauto 3 with keeps]
  end.

(** ** Lists *)

Lemma existsb_False_Forall {A} (f : A → bool) l :
  existsb f l = false ↔ Forall (λ x, f x = false) l.
Proof.
  induction l as [|x l IH]; simpl; [by split|].
  rewrite orb_false_iff, Forall_cons, IH. done.
Qed.

Lemma existsb_True_Exists {A} (f : A → bool) l :
  existsb f l = true ↔ Exists (λ x, f x = true) l.
Proof.
  induction l as [|x l IH]; simpl.
  - split; [done|]. intros H; inversion H.
  - rewrite orb_true_iff, Exists_cons, IH. done.
Qed.

Lemma forallb_True_Forall {A} (f : A → bool) l :
  forallb f l = true ↔ Forall (λ x, f x = true) l.
Proof.
  induction l as [|x l IH]; simpl; [by split|].
  rewrite andb_true_iff, Forall_cons, IH. done.
Qed.

(** [bool(l) and all(p(x) for x in l)] *)
Definition nonempty_all {A} (p : A → bool) (l : list A) : bool :=
  match l with [] => false | _ => forallb p l end.

Lemma nonempty_all_spec {A} (p : A → bool) l :
  nonempty_all p l = true ↔ l ≠ [] ∧ ∀ x, x ∈ l → p x = true.
Proof.
  unfold nonempty_all. destruct l as [|x l]; [naive_solver|].
  rewrite forallb_True_Forall, Forall_forall. naive_solver.
Qed.

Lemma forallb_congr {A} (f g : A → bool) l : (∀ x, f x = g x) → forallb f l = forallb g l.
Proof. intros H. induction l as [|x l IH]; simpl; [done|]. by rewrite H, IH. Qed.

Lemma nonempty_all_congr {A} (f g : A → bool) l :
  (∀ x, f x = g x) → nonempty_all f l = nonempty_all g l.
Proof. intros H. unfold nonempty_all. destruct l; [done|]. by apply forallb_congr. Qed.

Lemma Forall2_impl_in {A B} (P Q : A → B → Prop) l k :
  Forall2 P l k → (∀ x y, x ∈ l → y ∈ k → P x y → Q x y) → Forall2 Q l k.
Proof.
  induction 1 as [|x y l k Hxy _ IH]; intros H; constructor.
  - apply H; [left|left|done].
  - apply IH. intros x' y' ??. apply H; by right.
Qed.

Lemma Forall2_elem_r {A B} (P : A → B → Prop) l k :
  Forall2 P l k → ∀ y, y ∈ k → ∃ x, x ∈ l ∧ P x y.
Proof.
  induction 1 as [|x y l k Hxy _ IH]; intros z Hz; [by apply not_elem_of_nil in Hz|].
  apply elem_of_cons in Hz as [->|Hz]; [exists x; split; [left|done]|].
  destruct (IH z Hz) as (x' & ? & ?). exists x'. split; [by right|done].
Qed.

Lemma Forall2_filter {A} (R : relation A) (p : A → bool) l l' :
  Forall2 R l l' → (∀ x y, R x y → p y = p x) → Forall2 R (List.filter p l) (List.filter p l').
Proof.
  intros Hl Hp. induction Hl as [|x y l l' Hxy _ IH]; simpl; [constructor|]. rewrite (Hp x y Hxy).
  destruct (p x); by try constructor.
Qed.

Lemma filter_sublist {A} (p : A → bool) l : List.filter p l `sublist_of` l.
Proof. induction l as [|x l IH]; simpl; [constructor|]. destruct (p x); by constructor. Qed.

Lemma filter_none {A} (p : A → bool) l : (∀ x, x ∈ l → p x = false) → List.filter p l = [].
Proof.
  induction l as [|x l IH]; intros H; [done|]. simpl. rewrite H by left. apply IH. intros y Hy. apply H. by right.
Qed.

(** A key without duplicates identifies the elements. *)
Lemma filter_all {A} (p : A → bool) l : (∀ x, x ∈ l → p x = true) → List.filter p l = l.
Proof.
  induction l as [|x l IH]; intros H; [done|]. cbn. rewrite (H x) by (by left). f_equal. apply IH.
  intros y Hy. apply H. by right.
Qed.

Lemma NoDup_fmap_inj_in {A B} (f : A → B) l x y :
  NoDup (f <$> l) → x ∈ l → y ∈ l → f x = f y → x = y.
Proof.
  intros Hnd [i Hi]%list_elem_of_lookup [j Hj]%list_elem_of_lookup E.
  assert (i = j) as ->; [|congruence].
  eapply NoDup_lookup; [exact Hnd|by rewrite list_lookup_fmap, Hi|].
  by rewrite list_lookup_fmap, Hj; simpl; rewrite E.
Qed.

(** What every iteration of a loop keeps, the loop keeps. *)
Lemma foldl_keeps {A S} (P : S → Prop) (f : S → A → S) (l : list A) :
  (∀ s x, P s → P (f s x)) → ∀ s, P s → P (foldl f s l).
Proof. intros H. induction l as [|x l IH]; intros s Hs; simpl; auto. Qed.

(** Python's [next((x for x in l if p x), None)]. *)
Lemma find_Some_elem {A} (f : A → bool) l x :
  List.find f l = Some x → x ∈ l ∧ f x = true.
Proof. intros H%List.find_some. by rewrite list_elem_of_In. Qed.

Lemma find_None_Forall {A} (f : A → bool) l :
  List.find f l = None ↔ Forall (λ x, f x = false) l.
Proof.
  induction l as [|x l IH]; simpl; [by split|].
  rewrite Forall_cons. destruct (f x); [naive_solver|]. rewrite IH. naive_solver.
Qed.

Lemma flat_map_nil {A B} (f : A → list B) l :
  flat_map f l = [] ↔ Forall (λ x, f x = []) l.
Proof.
  induction l as [|x l IH]; simpl; [by split|].
  rewrite app_nil, Forall_cons, IH. done.
Qed.

(** [len(l) == len(set(l))] *)
Lemma size_list_to_set_le `{Countable A} (l : list A) : size (list_to_set l : gset A) ≤ length l.
Proof.
  induction l as [|x l IH]; [done|]. rewrite list_to_set_cons, length_cons.
  rewrite size_union_alt, size_singleton.
  assert (size (list_to_set l ∖ {[x]} : gset A) ≤ size (list_to_set l : gset A)) by
    (apply subseteq_size; set_solver). lia.
Qed.

Lemma NoDup_size_list_to_set `{Countable A} (l : list A) :
  length l = size (list_to_set l : gset A) ↔ NoDup l.
Proof.
  split; [|intros; symmetry; by apply size_list_to_set].
  induction l as [|x l IH]; simpl; [constructor|].
  intros Hs. pose proof (size_list_to_set_le l) as Hle. destruct (decide (x ∈ l)) as [Hx|Hx].
  - assert ({[x]} ∪ list_to_set l =@{gset A} list_to_set l) as Heq by set_solver.
    rewrite Heq in Hs. lia.
  - rewrite size_union, size_singleton in Hs by set_solver. constructor; [done|]. apply IH. lia.
Qed.

Lemma dec_stable_iff {P : Prop} `{Decision P} : ¬ ¬ P ↔ P.
Proof. split; [apply dec_stable|auto]. Qed.

Lemma and_iff_congr (A A' B B' : Prop) : (A ↔ A') → (B ↔ B') → (A ∧ B ↔ A' ∧ B').
Proof. tauto. Qed.

(** A list is empty of a conditional error exactly when its guard is off. *)
Lemma guard_list_nil {A} (b : bool) (x : A) : (if b then [x] else []) = [] ↔ b = false.
Proof. by destruct b. Qed.

(** Sorting commutes with a map that keeps the order. *)
Section merge_sort_fmap.
Context {A B} (R : relation A) `{∀ x y, Decision (R x y)} (R' : relation B) `{∀ x y, Decision (R' x y)}
        (f : A → B).
Hypothesis f_key : ∀ x y, R' (f x) (f y) ↔ R x y.

Lemma list_merge_fmap l1 l2 :
  list_merge R' (f <$> l1) (f <$> l2) = f <$> list_merge R l1 l2.
Proof.
  revert l2. induction l1 as [|x1 l1 IH1]; intros l2; [by destruct l2|].
  induction l2 as [|x2 l2 IH2]; [done|].
  rewrite !fmap_cons, !list_merge_cons, (decide_ext _ _ _ _ (f_key x1 x2)), <- !fmap_cons, IH1, IH2.
  by case_decide.
Qed.

Lemma merge_sort_fmap l : merge_sort R' (f <$> l) = f <$> merge_sort R l.
Proof.
  unfold merge_sort. set (g := fmap (M:=option) (fmap (M:=list) f)).
  assert (∀ (st : list (option (list A))) (xs : list A), merge_list_to_stack R' (fmap (M:=list) g st) (f <$> xs) =
            fmap (M:=list) g (merge_list_to_stack R st xs)) as Hpush.
  { intros st. induction st as [|[ys|] st IH]; intros xs; [done| |done].
    simpl. by rewrite list_merge_fmap, IH. }
  assert (∀ st : list (option (list A)), merge_stack R' (fmap (M:=list) g st) = f <$> merge_stack R st) as Hst.
  { induction st as [|[ys|] st IH]; simpl; [done| |done].
    unfold fmap at 1 in IH. simpl in IH. by rewrite IH, list_merge_fmap. }
  assert (∀ st : list (option (list A)), merge_sort_aux R' (fmap (M:=list) g st) (f <$> l) =
            f <$> merge_sort_aux R st l) as Haux.
  { induction l as [|x l IH]; intros st; simpl; [by rewrite Hst|].
    rewrite <- IH, <- Hpush. done. }
  apply (Haux []).
Qed.
End merge_sort_fmap.

#[export] Hint Rewrite @app_nil @flat_map_nil @guard_list_nil : errs.

(** Case analysis on the scrutinee of the innermost [match] of the goal. *)
Ltac case_inner :=
  match goal with
  | |- context [match ?x with _ => _ end] =>
      lazymatch x with
      | context [match _ with _ => _ end] => fail
      | _ => let E := fresh "E" in destruct x eqn:E
      end
  end.
