(* ===== verification/PyStr.v ===== *)
(** * Python text

    Python [str] values restricted to Latin-1: a character is an [ascii], read
    as the code point of the same number, so the operations below are Python's
    on every text whose code points are under 256. *)
From stdpp Require Import pretty.
From S2P Require Import Prelude.

Module PyStr.
Local Open Scope string_scope.

Definition code (c : ascii) : nat := Ascii.nat_of_ascii c.

(** [str.isspace] on Latin-1: TAB to CR, FS to US, SPACE, NEL, NBSP. *)
Definition is_space (c : ascii) : bool :=
  let n := code c in
  ((9 <=? n) && (n <=? 13) || (28 <=? n) && (n <=? 32) || (n =? 133) || (n =? 160))%nat.

Definition is_digit (c : ascii) : bool :=
  let n := code c in ((48 <=? n) && (n <=? 57))%nat.

(** [str.lower] on Latin-1: A-Z and the accented capitals except the
    multiplication sign. *)
Definition lower_char (c : ascii) : ascii :=
  let n := code c in
  if ((65 <=? n) && (n <=? 90) || (192 <=? n) && (n <=? 222) && negb (n =? 215))%nat
  then Ascii.ascii_of_nat (n + 32) else c.

Fixpoint lower (s : string) : string :=
  match s with
  | "" => ""
  | String c s' => String (lower_char c) (lower s')
  end.

Fixpoint lstrip (s : string) : string :=
  match s with
  | "" => ""
  | String c s' => if is_space c then lstrip s' else s
  end.

Fixpoint rstrip (s : string) : string :=
  match s with
  | "" => ""
  | String c s' =>
      match rstrip s' with
      | "" => if is_space c then "" else String c ""
      | r => String c r
      end
  end.

Definition strip (s : string) : string := rstrip (lstrip s).

(** [bool(s)] *)
Definition truthy (s : string) : bool := match s with "" => false | _ => true end.

(** [a or b] on an optional text: [None] and the empty text are false. *)
Definition opt_truthy (s : option string) : bool :=
  match s with Some t => truthy t | None => false end.

(** [s[:n]] *)
Fixpoint take (n : nat) (s : string) : string :=
  match n, s with
  | S n', String c s' => String c (take n' s')
  | _, _ => ""
  end.

Fixpoint startswith (p s : string) : bool :=
  match p, s with
  | "", _ => true
  | String a p', String b s' => if Ascii.eqb a b then startswith p' s' else false
  | String _ _, "" => false
  end.

(** [sub in s] *)
Fixpoint contains (sub s : string) : bool :=
  startswith sub s || match s with "" => false | String _ s' => contains sub s' end.

Fixpoint endswith (suf s : string) : bool :=
  String.eqb suf s || match s with "" => false | String _ s' => endswith suf s' end.

Fixpoint replace_char (a b : ascii) (s : string) : string :=
  match s with
  | "" => ""
  | String c s' => String (if Ascii.eqb c a then b else c) (replace_char a b s')
  end.

(** [s.split(sep)] for a one-character separator: never empty. *)
Fixpoint split (sep : ascii) (s : string) : list string :=
  match s with
  | "" => [""]
  | String c s' =>
      if Ascii.eqb c sep then "" :: split sep s'
      else match split sep s' with
           | p :: ps => String c p :: ps
           | [] => [String c ""]
           end
  end.

Fixpoint join (sep : string) (l : list string) : string :=
  match l with
  | [] => ""
  | [s] => s
  | s :: l' => s +:+ sep +:+ join sep l'
  end.

Fixpoint all_chars (p : ascii → bool) (s : string) : bool :=
  match s with "" => true | String c s' => p c && all_chars p s' end.

(** [str(n)] *)
Definition of_Z (z : Z) : string := pretty z.

(** [str.isdigit] on Latin-1: the decimal digits and the three superscripts. *)
Definition is_digit_like (c : ascii) : bool :=
  let n := code c in is_digit c || ((n =? 178) || (n =? 179) || (n =? 185))%nat.

Definition isdigit (s : string) : bool := truthy s && all_chars is_digit_like s.

Fixpoint digits_value (acc : Z) (s : string) : Z :=
  match s with
  | "" => acc
  | String c s' => digits_value (acc * 10 + Z.of_nat (code c - 48)) s'
  end.

(** [int(s)] for a text of digit characters; superscripts are refused, and so
    are texts of more than 4300 digits. *)
Definition int_of_digits (s : string) : result Z :=
  if (4300 <? Z.of_nat (String.length s))%Z then
    Raise (ValueError "Exceeds the limit (4300 digits) for integer string conversion")
  else if truthy s && all_chars is_digit s then Ok (digits_value 0 s)
  else Raise (ValueError ("invalid literal for int() with base 10: " +:+ s)).

(** *** repr *)

Definition hex_digit (n : nat) : ascii :=
  Ascii.ascii_of_nat (if (n <? 10)%nat then 48 + n else 87 + n).

Definition printable (c : ascii) : bool :=
  let n := code c in
  ((32 <=? n) && (n <=? 126) || (161 <=? n) && negb (n =? 173))%nat.

Definition repr_char (quote : ascii) (c : ascii) : string :=
  let n := code c in
  if Ascii.eqb c quote || (n =? 92)%nat then String "\" (String c "")
  else if (n =? 9)%nat then "\t"
  else if (n =? 10)%nat then "\n"
  else if (n =? 13)%nat then "\r"
  else if printable c then String c ""
  else String "\" (String "x" (String (hex_digit (n / 16)) (String (hex_digit (n mod 16)) ""))).

Fixpoint repr_chars (quote : ascii) (s : string) : string :=
  match s with "" => "" | String c s' => repr_char quote c +:+ repr_chars quote s' end.

Definition dquote : ascii := Ascii.ascii_of_nat 34.

Definition repr (s : string) : string :=
  let q : ascii :=
    if contains "'" s && negb (contains (String dquote "") s) then dquote else "'"%char in
  String q (repr_chars q s) +:+ String q "".

(** *** sorted *)

Definition str_le (a b : string) : Prop := String.leb a b = true.
#[global] Instance str_le_dec a b : Decision (str_le a b).
Proof. unfold str_le. apply _. Defined.

(** [sorted(texts)]: by code points. *)
Definition sorted (l : list string) : list string := merge_sort str_le l.

Lemma sorted_perm l : sorted l ≡ₚ l.
Proof. apply merge_sort_Permutation. Qed.

Lemma elem_of_sorted x l : x ∈ sorted l ↔ x ∈ l.
Proof. by rewrite sorted_perm. Qed.

Lemma leb_total a b : str_le a b ∨ str_le b a.
Proof.
  unfold str_le, String.leb. rewrite (String.compare_antisym a b).
  destruct (String.compare b a); simpl; auto.
Qed.

#[global] Instance str_le_total : Total str_le.
Proof. intros a b. apply leb_total. Qed.

Lemma sorted_Sorted l : Sorted str_le (sorted l).
Proof. apply Sorted_merge_sort. apply _. Qed.

Lemma str_le_cons c s d t :
  str_le (String c s) (String d t) ↔
    (N_of_ascii c < N_of_ascii d)%N ∨ (c = d ∧ str_le s t).
Proof.
  unfold str_le, String.leb. simpl. unfold Ascii.compare.
  destruct (N.compare_spec (N_of_ascii c) (N_of_ascii d)) as [E|E|E].
  - assert (c = d) as -> by (by rewrite <- (ascii_N_embedding c), E, ascii_N_embedding).
    split; [by right|]. intros [?|[_ ?]]; [lia|done].
  - by split; [left|].
  - split; [done|]. intros [?|[-> _]]; lia.
Qed.

#[global] Instance str_le_trans : Transitive str_le.
Proof.
  intros a. induction a as [|c a IH]; intros b e.
  - by destruct e.
  - destruct b as [|d b]; [done|]. destruct e as [|f e]; [by intros _|].
    rewrite !str_le_cons. intros [?|[-> ?]] [?|[-> ?]]; [left; lia|by left..|].
    right. split; [done|]. by apply (IH b).
Qed.

#[global] Instance str_le_antisymm : AntiSymm (=) str_le.
Proof. intros a b. apply String.leb_antisym. Qed.

Lemma sorted_nil_iff l : sorted l = [] ↔ l = [].
Proof.
  split; intros H.
  - apply Permutation_nil. by rewrite <- H, sorted_perm.
  - by subst.
Qed.

(** *** strip *)

Definition no_edge_space (s : string) : Prop := strip s = s.

Lemma lstrip_head s : lstrip s = "" ∨ ∃ c s', lstrip s = String c s' ∧ is_space c = false.
Proof.
  induction s as [|c s IH]; simpl; [by left|].
  destruct (is_space c) eqn:E; [done|]. right; eauto.
Qed.

Lemma rstrip_idem s : rstrip (rstrip s) = rstrip s.
Proof.
  induction s as [|c s IH]; [done|]. simpl.
  destruct (rstrip s) as [|d r] eqn:E.
  - destruct (is_space c) eqn:Ec; simpl; [done|]. by rewrite Ec.
  - change (rstrip (String c (String d r)))
      with (match rstrip (String d r) with
            | "" => if is_space c then "" else String c ""
            | r0 => String c r0 end).
    by rewrite IH.
Qed.

Lemma rstrip_head c s : is_space c = false → ∃ r, rstrip (String c s) = String c r.
Proof.
  intros Hc. simpl. destruct (rstrip s); [|by eauto]. rewrite Hc. eauto.
Qed.

Lemma strip_idem s : strip (strip s) = strip s.
Proof.
  unfold strip. destruct (lstrip_head s) as [->|(c & s' & -> & Hc)]; [done|].
  destruct (rstrip_head c s' Hc) as [r Hr]. rewrite Hr.
  replace (lstrip (String c r)) with (String c r) by (simpl; by rewrite Hc).
  rewrite <- Hr. apply rstrip_idem.
Qed.

Lemma strip_length s : (String.length (strip s) ≤ String.length s)%nat.
Proof.
  assert (∀ s, String.length (lstrip s) ≤ String.length s)%nat as Hl.
  { clear. induction s as [|c s IH]; simpl; [lia|]. destruct (is_space c); simpl; lia. }
  assert (∀ s, String.length (rstrip s) ≤ String.length s)%nat as Hr.
  { clear. induction s as [|c s IH]; simpl; [lia|].
    destruct (rstrip s); [destruct (is_space c)|]; simpl in *; lia. }
  unfold strip. specialize (Hr (lstrip s)). specialize (Hl s). lia.
Qed.

Lemma take_length n s : (String.length (take n s) ≤ n)%nat.
Proof.
  revert s. induction n as [|n IH]; intros [|c s]; simpl; [lia..|]. specialize (IH s); lia.
Qed.

Lemma take_all n s : (String.length s ≤ n)%nat → take n s = s.
Proof.
  revert s. induction n as [|n IH]; intros [|c s]; simpl; intros; [done|lia|done|].
  f_equal. apply IH. lia.
Qed.

(** *** Concatenation *)

Lemma append_cons c s t : String c s +:+ t = String c (s +:+ t).
Proof. reflexivity. Qed.

Lemma append_nil_r s : s +:+ "" = s.
Proof. induction s as [|c s IH]; [done|]. by rewrite append_cons, IH. Qed.

Lemma append_assoc s t u : (s +:+ t) +:+ u = s +:+ (t +:+ u).
Proof. induction s as [|c s IH]; [done|]. by rewrite !append_cons, IH. Qed.

Lemma append_length s t : String.length (s +:+ t) = (String.length s + String.length t)%nat.
Proof. induction s as [|c s IH]; [done|]. rewrite append_cons. simpl. by rewrite IH. Qed.

Lemma append_inj_l s t u : s +:+ t = s +:+ u → t = u.
Proof. induction s as [|c s IH]; [done|]. rewrite !append_cons. intros [= H]. by apply IH. Qed.

Lemma take_append n s t : (n ≤ String.length s)%nat → take n (s +:+ t) = take n s.
Proof.
  revert s. induction n as [|n IH]; intros [|c s] Hn; [done|done|simpl in Hn; lia|].
  rewrite append_cons. simpl in *. rewrite IH; [done|lia].
Qed.

(** A text without the character [c]. *)
Definition lacks (c : ascii) (s : string) : bool := all_chars (λ x, negb (Ascii.eqb x c)) s.

Lemma lacks_sep c a d : lacks c (a +:+ String c d) = false.
Proof.
  induction a as [|x a IH]; unfold lacks in *.
  - change (negb (Ascii.eqb c c) && all_chars (λ x, negb (Ascii.eqb x c)) d = false). by rewrite Ascii.eqb_refl.
  - rewrite append_cons. cbn [all_chars]. by rewrite IH, andb_false_r.
Qed.

(** A text is split at its last separator in one way. *)
Lemma last_sep_inj c a a' d d' :
  lacks c d = true → lacks c d' = true → a +:+ String c d = a' +:+ String c d' → a = a' ∧ d = d'.
Proof.
  intros Hd Hd'. revert a'. induction a as [|x a IH]; intros [|x' a'] E.
  - split; [done|]. by injection E.
  - rewrite append_cons in E. injection E as E1 E2. change (d = a' +:+ String c d') in E2. subst d.
    by rewrite lacks_sep in Hd.
  - rewrite append_cons in E. injection E as E1 E2. change (a +:+ String c d = d') in E2. subst d'.
    by rewrite lacks_sep in Hd'.
  - rewrite !append_cons in E. injection E as -> E. by destruct (IH a' E) as [-> ->].
Qed.

(** The decimal digits of a number. *)
Lemma pretty_N_lacks c (n : N) : is_digit c = false → lacks c (pretty n) = true.
Proof.
  intros Hc. unfold pretty, pretty_N.
  assert (∀ m, Ascii.eqb (pretty_N_char m) c = false) as Hm.
  { intros m. apply Ascii.eqb_neq. intros <-. revert Hc. unfold pretty_N_char. by repeat case_match. }
  destruct (decide (n = 0%N)).
  { change (negb (Ascii.eqb (pretty_N_char 0) c) && true = true). by rewrite Hm. }
  enough (∀ m s, lacks c s = true → lacks c (pretty_N_go m s) = true) as H by (by apply H).
  clear n n0. intros n. induction (N.lt_wf_0 n) as [n _ IH]. intros s Hs.
  destruct (decide (0 < n)%N) as [Hn|Hn]; [|by replace n with 0%N by lia].
  rewrite pretty_N_go_step by done. apply IH; [by apply N.div_lt|].
  unfold lacks in *. cbn [all_chars]. by rewrite Hm, Hs.
Qed.

Lemma of_Z_lacks c n : is_digit c = false → (0 <= n)%Z → lacks c (of_Z n) = true.
Proof.
  intros Hc Hn. unfold of_Z. destruct n; [|by apply (pretty_N_lacks c (N.pos p))|lia].
  by apply (pretty_N_lacks c 0%N).
Qed.

Lemma truthy_false s : truthy s = false ↔ s = "".
Proof. by destruct s. Qed.

Example strip_ex : strip "  a b " = "a b". Proof. reflexivity. Qed.
Example split_ex : split "." "a.b..c" = ["a"; "b"; ""; "c"]. Proof. reflexivity. Qed.
Example repr_ex : repr "it's" = String dquote ("it's" +:+ String dquote ""). Proof. reflexivity. Qed.
Example repr_ex2 : repr (String "a" (String (Ascii.ascii_of_nat 10) "b")) = "'a\nb'". Proof. reflexivity. Qed.
Example sorted_ex : sorted ["b"; "a"; "B"] = ["B"; "a"; "b"]. Proof. vm_compute. reflexivity. Qed.

End PyStr.
