(* ===== verification/Json.v ===== *)
(** * Python dictionaries and JSON values

    A [dict] with text keys keeps insertion order: it is an association list
    whose keys are distinct.  JSON documents (graph configuration, node inputs
    and outputs, snapshots) are [json] values; a number is an integer.  That is
    a limit of the model: most of the code only copies other numbers, but the
    condition node also compares and converts them, and what is proved about it
    holds for documents whose numbers are integers. *)
From S2P Require Import Prelude PyStr.

Module Dict.
Section dict.
Context {V : Type}.
Implicit Types (d e : list (string * V)) (k : string) (v : V).

(** [d.get(k)] *)
Fixpoint get k d : option V :=
match d with
| [] => None
| (k', v) :: d' => if decide (k = k') then Some v else get k d'
end.

(** [k in d] *)
Definition mem k d : bool := bool_decide (is_Some (get k d)).

(** [d[k] = v]: in place when the key is present, at the end otherwise. *)
Fixpoint set k v d : list (string * V) :=
match d with
| [] => [(k, v)]
| (k', v') :: d' => if decide (k = k') then (k', v) :: d' else (k', v') :: set k v d'
end.

(** [d.update(e)]; also the dict display [{**d, **e}]. *)
Definition update d e : list (string * V) := foldl (λ acc kv, set kv.1 kv.2 acc) d e.

(** [d.setdefault(k, v)] *)
Definition setdefault k v d := if mem k d then d else set k v d.

(** [d.pop(k, None)] *)
Definition pop k d := List.filter (λ kv, negb (bool_decide (kv.1 = k))) d.

Definition keys d : list string := map fst d.
Definition wf d : Prop := NoDup (keys d).

Lemma get_set k k' v d : get k (set k' v d) = if decide (k = k') then Some v else get k d.
Proof.
induction d as [|[k0 v0] d IH]; simpl; [done|].
destruct (decide (k' = k0)) as [->|]; simpl.
- by destruct (decide (k = k0)).
- rewrite IH. destruct (decide (k = k0)) as [->|]; [|done].
  by rewrite decide_False by done.
Qed.

Lemma get_set_eq k v d : get k (set k v d) = Some v.
Proof. rewrite get_set. by rewrite decide_True. Qed.

Lemma get_set_ne k k' v d : k ≠ k' → get k (set k' v d) = get k d.
Proof. intros. rewrite get_set. by rewrite decide_False. Qed.

Lemma mem_set k k' v d : mem k (set k' v d) = bool_decide (k = k') || mem k d.
Proof. unfold mem. rewrite get_set. by repeat case_decide; repeat case_bool_decide; naive_solver. Qed.

Lemma get_elem k d v : get k d = Some v → (k, v) ∈ d.
Proof.
induction d as [|[k0 v0] d IH]; simpl; [done|]. destruct (decide (k = k0)) as [->|].
- intros [= ->]. left.
- intros. right. auto.
Qed.

Lemma get_None k d : get k d = None ↔ k ∉ keys d.
Proof.
induction d as [|[k0 v0] d IH]; simpl; [set_solver|].
destruct (decide (k = k0)) as [->|]; set_solver.
Qed.

Lemma get_is_Some k d : is_Some (get k d) ↔ k ∈ keys d.
Proof. rewrite <- not_eq_None_Some, get_None. destruct (decide (k ∈ keys d)); naive_solver. Qed.

Lemma elem_get k v d : wf d → (k, v) ∈ d → get k d = Some v.
Proof.
unfold wf. induction d as [|[k0 v0] d IH]; simpl; [set_solver|].
intros [Hk Hd]%NoDup_cons [[= -> ->]|Hin]%elem_of_cons.
- by rewrite decide_True.
- rewrite decide_False; [auto|]. intros ->. apply Hk.
  apply list_elem_of_fmap. by exists (k0, v).
Qed.

Lemma keys_set_elem k v d : k ∈ keys d → keys (set k v d) = keys d.
Proof.
induction d as [|[k0 v0] d IH]; simpl; [set_solver|].
destruct (decide (k = k0)) as [->|]; simpl; [done|].
intros [->|H]%elem_of_cons; [done|]. by rewrite IH.
Qed.

Lemma keys_set_not_elem k v d : k ∉ keys d → keys (set k v d) = keys d ++ [k].
Proof.
induction d as [|[k0 v0] d IH]; simpl; [done|].
intros [Hne H]%not_elem_of_cons. rewrite decide_False by done. simpl. by rewrite IH.
Qed.

Lemma wf_set k v d : wf d → wf (set k v d).
Proof.
unfold wf. intros H. destruct (decide (k ∈ keys d)) as [Hk|Hk].
- by rewrite keys_set_elem.
- rewrite keys_set_not_elem by done.
  apply NoDup_app; split_and!; [done|set_solver|apply NoDup_singleton].
Qed.

Lemma wf_update d e : wf d → wf (update d e).
Proof. unfold update. revert d. induction e as [|kv e IH]; simpl; auto using wf_set. Qed.

Lemma wf_setdefault k v d : wf d → wf (setdefault k v d).
Proof. unfold setdefault. destruct (mem k d); auto using wf_set. Qed.

Lemma update_app d e1 e2 : update d (e1 ++ e2) = update (update d e1) e2.
Proof. unfold update. apply foldl_app. Qed.

(** [d.update(e)]: the later binding wins. *)
Lemma get_update k d e : wf e →
get k (update d e) = match get k e with Some v => Some v | None => get k d end.
Proof.
unfold wf, update. revert d. induction e as [|[k0 v0] e IH]; intros d; simpl; [done|].
intros [Hk Hd]%NoDup_cons. rewrite IH by done. rewrite get_set.
destruct (decide (k = k0)) as [->|]; [|done].
assert (get k0 e = None) as -> by (by apply get_None). done.
Qed.

Lemma get_setdefault k k' v d :
get k (setdefault k' v d) =
match get k d with Some u => Some u | None => if decide (k = k') then Some v else None end.
Proof.
unfold setdefault, mem. case_bool_decide as H.
- destruct (get k d) eqn:E; [done|]. destruct (decide (k = k')) as [->|]; [|done].
  rewrite E in H. by destruct H.
- rewrite get_set. destruct (decide (k = k')) as [->|].
  + destruct (get k' d) eqn:E; [|done]. by destruct H.
  + by destruct (get k d).
Qed.

Lemma get_filter k (p : string → bool) d :
get k (List.filter (λ kv, p kv.1) d) = if p k then get k d else None.
Proof.
induction d as [|[k0 v0] d IH]; simpl; [by destruct (p k)|].
destruct (p k0) eqn:E; simpl; rewrite IH; destruct (decide (k = k0)) as [->|]; by rewrite ?E.
Qed.

End dict.

Definition mapv {V W} (f : V → W) (d : list (string * V)) : list (string * W) :=
  map (λ kv, (kv.1, f kv.2)) d.

Lemma get_mapv {V W} (f : V → W) k d : get k (mapv f d) = f <$> get k d.
Proof. induction d as [|[k0 v0] d IH]; simpl; [done|]. by case_decide. Qed.

Lemma keys_mapv {V W} (f : V → W) d : keys (mapv f d) = keys d.
Proof. unfold keys, mapv. rewrite map_map. done. Qed.

End Dict.
#[global] Arguments Dict.set {V} k v d : simpl nomatch.
#[export] Hint Resolve Dict.wf_set Dict.wf_update Dict.wf_setdefault : dict.

Notation dict V := (list (string * V)) (only parsing).

Inductive json :=
  | JNull
  | JBool (b : bool)
  | JInt (z : Z)
  | JStr (s : string)
  | JArr (l : list json)
  | JObj (o : list (string * json)).

Section json_ind.
Variable P : json → Prop.
Hypothesis Hnull : P JNull.
Hypothesis Hbool : ∀ b, P (JBool b).
Hypothesis Hint : ∀ z, P (JInt z).
Hypothesis Hstr : ∀ s, P (JStr s).
Hypothesis Harr : ∀ l, Forall P l → P (JArr l).
Hypothesis Hobj : ∀ o, Forall (λ kv, P kv.2) o → P (JObj o).

Fixpoint json_ind' (j : json) : P j :=
  match j with
  | JNull => Hnull
  | JBool b => Hbool b
  | JInt z => Hint z
  | JStr s => Hstr s
  | JArr l => Harr l ((fix go l : Forall P l :=
      match l with [] => Forall_nil_2 _ | x :: l' => Forall_cons_2 _ _ _ (json_ind' x) (go l') end) l)
  | JObj o => Hobj o ((fix go o : Forall (λ kv, P kv.2) o :=
      match o with [] => Forall_nil_2 _ | x :: o' => Forall_cons_2 _ _ _ (json_ind' x.2) (go o') end) o)
  end.
End json_ind.

Module Json.
Local Open Scope string_scope.

#[global] Instance json_eq_dec : EqDecision json.
Proof.
  refine (fix go (a b : json) : Decision (a = b) :=
    match a, b with
    | JNull, JNull => left eq_refl
    | JBool x, JBool y => cast_if (decide (x = y))
    | JInt x, JInt y => cast_if (decide (x = y))
    | JStr x, JStr y => cast_if (decide (x = y))
    | JArr x, JArr y => cast_if (@list_eq_dec _ go x y)
    | JObj x, JObj y => cast_if (@list_eq_dec _ (@prod_eq_dec _ _ _ go) x y)
    | _, _ => right _
    end); congruence.
Defined.

(** [bool(v)] *)
Definition truthy (v : json) : bool :=
  match v with
  | JNull => false
  | JBool b => b
  | JInt z => negb (Z.eqb z 0)
  | JStr s => PyStr.truthy s
  | JArr l => match l with [] => false | _ => true end
  | JObj o => match o with [] => false | _ => true end
  end.

(** [repr(v)] and [str(v)] *)
Fixpoint repr (v : json) : string :=
  match v with
  | JNull => "None"
  | JBool b => if b then "True" else "False"
  | JInt z => PyStr.of_Z z
  | JStr s => PyStr.repr s
  | JArr l => "[" +:+ PyStr.join ", " (map repr l) +:+ "]"
  | JObj o => "{" +:+ PyStr.join ", " (map (λ kv, PyStr.repr kv.1 +:+ ": " +:+ repr kv.2) o) +:+ "}"
  end.

Definition str (v : json) : string := match v with JStr s => s | _ => repr v end.

(** [d.get(k) or default] on a JSON object *)
Definition get_or (k : string) (o : dict json) (default : json) : json :=
  match Dict.get k o with Some v => if truthy v then v else default | None => default end.

(** [d.get(k)] with [None] for a missing key *)
Definition getn (k : string) (o : dict json) : json := default JNull (Dict.get k o).

(** [as_dict] / [as_mapping]: the object, or the empty object. *)
Definition as_dict (v : json) : dict json := match v with JObj o => o | _ => [] end.

Definition is_dict (v : json) : bool := match v with JObj _ => true | _ => false end.
Definition is_list (v : json) : bool := match v with JArr _ => true | _ => false end.

Definition opt_str (o : option string) : json := match o with Some s => JStr s | None => JNull end.

(** [v in (None, "", [], {})] *)
Definition is_blank (v : json) : bool :=
  match v with JNull | JStr "" | JArr [] | JObj [] => true | _ => false end.

Example str_ex : str (JArr [JStr "a"; JInt (-2); JObj [("k", JNull)]]) = "['a', -2, {'k': None}]".
Proof. reflexivity. Qed.
End Json.
