(* ===== verification/Graph.v ===== *)
(** * The canonical workflow graph (graph_schema.py)

    A persisted workflow version is a graph of typed nodes and of edges with
    optional branch labels and ports.  [model_validate] is the field validation
    pydantic runs on a decoded document; everything after it works on values of
    the records below. *)
From S2P Require Import Prelude PyStr Json.

Module Graph.
Local Open Scope string_scope.
Local Open Scope list_scope.

Inductive binding_source := SrcTrigger | SrcWorkflowInput | SrcConstant | SrcContext | SrcNode.

#[global] Instance binding_source_eq_dec : EqDecision binding_source.
Proof. solve_decision. Defined.

Record InputBinding := {
  ib_source : binding_source;
  ib_path : option string;
  ib_value : json;
  ib_node_id : option string;
  ib_port : option string;
}.

Record GraphNode := {
  gn_id : string;
  gn_type : string;
  gn_version : Z;
  gn_config : dict json;
  gn_input_bindings : dict InputBinding;
}.

Record GraphEdge := {
  ge_source : string;
  ge_target : string;
  ge_condition : option string;
  ge_source_port : option string;
  ge_target_port : option string;
}.

Record WorkflowGraph := {
  wg_schema_version : Z;
  wg_nodes : list GraphNode;
  wg_edges : list GraphEdge;
  wg_metadata : dict json;
}.

#[global] Instance eta_GraphNode : Settable GraphNode :=
  mk_settable _ (λ r, Build_GraphNode (gn_id r) (gn_type r) (gn_version r) (gn_config r)
    (gn_input_bindings r)).
#[global] Instance eta_WorkflowGraph : Settable WorkflowGraph :=
  mk_settable _ (λ r, Build_WorkflowGraph (wg_schema_version r) (wg_nodes r) (wg_edges r)
    (wg_metadata r)).

#[global] Instance InputBinding_eq_dec : EqDecision InputBinding.
Proof. solve_decision. Defined.
#[global] Instance GraphNode_eq_dec : EqDecision GraphNode.
Proof. solve_decision. Defined.
#[global] Instance GraphEdge_eq_dec : EqDecision GraphEdge.
Proof. solve_decision. Defined.

(** An edge without label or ports. *)
Definition plain_edge (s t : string) : GraphEdge :=
  {| ge_source := s; ge_target := t; ge_condition := None; ge_source_port := None;
     ge_target_port := None |}.

(** [GraphNode._strip_nonempty] *)
Definition strip_nonempty (value : string) : result string :=
  let cleaned := PyStr.strip value in
  if PyStr.truthy cleaned then Ok cleaned else Raise (ValidationError "must be non-empty").

(** [Field(min_length=1, max_length=128)] *)
Definition bounded_text (value : string) : result string :=
  if (Nat.leb 1 (String.length value) && Nat.leb (String.length value) 128)
  then Ok value else Raise (ValidationError "length must be between 1 and 128").

Definition validate_node (n : GraphNode) : result GraphNode :=
  i ← bounded_text (gn_id n); i ← strip_nonempty i;
  t ← bounded_text (gn_type n); t ← strip_nonempty t;
  if (gn_version n <? 1)%Z then Raise (ValidationError "version must be >= 1")
  else mret (n <| gn_id := i |> <| gn_type := t |>).

Definition validate_edge (e : GraphEdge) : result GraphEdge :=
  _ ← bounded_text (ge_source e); _ ← bounded_text (ge_target e); mret e.

Fixpoint rmap {A B} (f : A → result B) (l : list A) : result (list B) :=
  match l with
  | [] => Ok []
  | x :: l' => y ← f x; ys ← rmap f l'; mret (y :: ys)
  end.

(** [WorkflowGraph.model_validate] on a decoded document. *)
Definition model_validate (g : WorkflowGraph) : result WorkflowGraph :=
  if (wg_schema_version g <? 1)%Z then Raise (ValidationError "schema_version must be >= 1")
  else nodes ← rmap validate_node (wg_nodes g);
       edges ← rmap validate_edge (wg_edges g);
       mret (g <| wg_nodes := nodes |> <| wg_edges := edges |>).

Definition node_ids (g : WorkflowGraph) : gset string := list_to_set (gn_id <$> wg_nodes g).

(** [next((n for n in graph.nodes if n.id == node_id), None)] *)
Definition find_node (node_id : string) (g : WorkflowGraph) : option GraphNode :=
  List.find (λ n, bool_decide (gn_id n = node_id)) (wg_nodes g).

(** ** Field validation lemmas *)

Lemma rmap_Ok_Forall2 {A B} (f : A → result B) l l' :
  rmap f l = Ok l' ↔ Forall2 (λ x y, f x = Ok y) l l'.
Proof.
  revert l'. induction l as [|x l IH]; intros l'; simpl.
  - split; [intros [= <-]; constructor|by inversion 1].
  - unfold mbind, result_bind. destruct (f x) as [y|e] eqn:Ef.
    + destruct (rmap f l) as [ys|e] eqn:El.
      * split.
        -- intros [= <-]. constructor; [done|]. by apply IH.
        -- inversion 1 as [|? y' ? ys' H1 H2]; subst. apply IH in H2. simplify_eq.
           by rewrite Ef in H1; simplify_eq.
      * split; [done|]. inversion 1 as [|? y' ? ys' H1 H2]; subst. apply IH in H2. done.
    + split; [done|]. inversion 1; congruence.
Qed.

Lemma bounded_text_Ok v v' : bounded_text v = Ok v' → v' = v ∧ (1 ≤ String.length v ≤ 128)%nat.
Proof.
  unfold bounded_text. destruct (Nat.leb_spec 1 (String.length v));
    destruct (Nat.leb_spec (String.length v) 128); simpl; intros [= <-]; auto.
Qed.

Lemma strip_nonempty_Ok v v' : strip_nonempty v = Ok v' → v' = PyStr.strip v ∧ v' ≠ "".
Proof.
  unfold strip_nonempty. destruct (PyStr.truthy (PyStr.strip v)) eqn:E; intros [= <-].
  split; [done|]. intros H. by rewrite H in E.
Qed.

(** Validation is idempotent: it accepts its results unchanged. *)
Lemma validate_node_fixed n n' : validate_node n = Ok n' → validate_node n' = Ok n'.
Proof.
  assert (∀ v b s, bounded_text v = Ok b → strip_nonempty b = Ok s →
            bounded_text s = Ok s ∧ strip_nonempty s = Ok s) as Htext.
  { intros v b s [-> Hb]%bounded_text_Ok [-> Hs]%strip_nonempty_Ok. split.
    - unfold bounded_text. pose proof (PyStr.strip_length v).
      destruct (Nat.leb_spec 1 (String.length (PyStr.strip v))); [|by destruct (PyStr.strip v); simpl in *; [|lia]].
      destruct (Nat.leb_spec (String.length (PyStr.strip v)) 128); [done|lia].
    - unfold strip_nonempty. rewrite PyStr.strip_idem. by destruct (PyStr.strip v). }
  unfold validate_node, mbind, result_bind.
  destruct (bounded_text (gn_id n)) as [i0|] eqn:E1; [|done]. destruct (strip_nonempty i0) as [i|] eqn:E2; [|done].
  destruct (bounded_text (gn_type n)) as [t0|] eqn:E3; [|done]. destruct (strip_nonempty t0) as [t|] eqn:E4; [|done].
  destruct (gn_version n <? 1)%Z eqn:Ev; [done|]. intros [= <-]. cbn.
  destruct (Htext _ _ _ E1 E2) as [-> H1]. rewrite H1. destruct (Htext _ _ _ E3 E4) as [-> H2]. rewrite H2.
  by rewrite Ev.
Qed.

Lemma rmap_fixed {A} (f : A → result A) l l' :
  (∀ x y, f x = Ok y → f y = Ok y) → rmap f l = Ok l' → rmap f l' = Ok l'.
Proof.
  intros Hf H%rmap_Ok_Forall2. apply rmap_Ok_Forall2. induction H; constructor; eauto.
Qed.

Lemma model_validate_fixed g g' : model_validate g = Ok g' → model_validate g' = Ok g'.
Proof.
  unfold model_validate, mbind, result_bind. destruct (wg_schema_version g <? 1)%Z eqn:Ev; [done|].
  destruct (rmap validate_node _) as [ns|] eqn:En; [|done]. destruct (rmap validate_edge _) as [es|] eqn:Ee; [|done].
  intros [= <-]. cbn. rewrite Ev. rewrite (rmap_fixed _ _ _ validate_node_fixed En).
  erewrite rmap_fixed; [done| |exact Ee].
  intros x y. unfold validate_edge, mbind, result_bind. destruct (bounded_text (ge_source x)) eqn:E1; [|done].
  destruct (bounded_text (ge_target x)) eqn:E2; [|done]. intros [= <-]. by rewrite E1, E2.
Qed.

Lemma find_node_Some node_id g n : find_node node_id g = Some n → n ∈ wg_nodes g ∧ gn_id n = node_id.
Proof. intros [H1 H2]%find_Some_elem. by apply bool_decide_eq_true in H2. Qed.

End Graph.
