(* ===== verification/Pydantic.v ===== *)
(** * Reading the fields of a model

    How a pydantic model reads a dictionary: a field is absent, or its value is
    read, or the validation fails.  [Coercions] holds the lax conversions of
    pydantic, which the program relies on without implementing them. *)
From S2P Require Import Prelude PyStr Json Graph.

(** Lax conversion to [int] and to [bool]; [None]: the value is refused. *)
Class Coercions := {
  coerce_int : json → option Z;
  coerce_bool : json → option bool;
}.

(** Conversions that accept values of the type only. *)
Definition strict_coercions : Coercions := {|
  coerce_int := λ v, match v with JInt z => Some z | _ => None end;
  coerce_bool := λ v, match v with JBool b => Some b | _ => None end |}.

Module Pydantic.
Local Open Scope string_scope.

Definition invalid {A} (message : string) : result A := Raise (ValidationError message).
Definition required {A} : result A := invalid "Field required".

(** A field whose absence means [missing]. *)
Definition field {A} (read : json → result A) (k : string) (missing : result A) (d : dict json) : result A :=
  match Dict.get k d with None => missing | Some v => read v end.

Definition read_text (v : json) : result string :=
  match v with JStr s => Ok s | _ => invalid "Input should be a valid string" end.
Definition read_object (v : json) : result (dict json) :=
  match v with JObj o => Ok o | _ => invalid "Input should be a valid dictionary" end.
Definition read_array {A} (read : json → result A) (v : json) : result (list A) :=
  match v with JArr l => Graph.rmap read l | _ => invalid "Input should be a valid list" end.
Definition read_optional {A} (read : json → result A) (v : json) : result (option A) :=
  match v with JNull => Ok None | _ => x ← read v; Ok (Some x) end.
(** A dictionary whose values are read. *)
Definition read_map {A} (read : json → result A) (v : json) : result (dict A) :=
  o ← read_object v; Graph.rmap (λ kv, x ← read kv.2; Ok (kv.1, x)) o.

Section coercions.
Context {coercions : Coercions}.
Definition read_int (v : json) : result Z :=
  match coerce_int v with Some z => Ok z | None => invalid "Input should be a valid integer" end.
Definition read_bool (v : json) : result bool :=
  match coerce_bool v with Some b => Ok b | None => invalid "Input should be a valid boolean" end.
End coercions.

(** [extra="forbid"] *)
Definition forbid_extra (fields : list string) (d : dict json) : result unit :=
  if forallb (λ kv, bool_decide (kv.1 ∈ fields)) d then Ok () else invalid "Extra inputs are not permitted".
End Pydantic.
