(* ===== verification/Nodes.v ===== *)
(** * Workflow node contract and registry (nodes/base.py, registry.py)

    [WorkflowNode] is the abstract class every node implements: the engine and
    the compiler only use the class attributes and the four methods below, so
    they are proved for every registry. *)
From Stdlib Require Import QArith.
From S2P Require Import Prelude PyStr Json.

Module Nodes.
Local Open Scope string_scope.
Local Open Scope list_scope.
Local Open Scope Z_scope.

Inductive NodeResultStatus := RS_SUCCEEDED | RS_FAILED | RS_WAITING | RS_SKIPPED.
Inductive NodeImplementationStatus := STABLE | BETA | UNAVAILABLE.

#[global] Instance NodeResultStatus_eq_dec : EqDecision NodeResultStatus.
Proof. solve_decision. Defined.
#[global] Instance NodeImplementationStatus_eq_dec : EqDecision NodeImplementationStatus.
Proof. solve_decision. Defined.

Definition implementation_status_value (s : NodeImplementationStatus) : string :=
  match s with STABLE => "stable" | BETA => "beta" | UNAVAILABLE => "unavailable" end.

Record NodePort := {
  np_name : string;
  np_data_type : string;
  np_required : bool;
}.

(** Durations in seconds are exact rationals. *)
Record RetryPolicyDefaults := {
  rp_max_attempts : Z;
  rp_backoff_seconds : Q;
  rp_max_backoff_seconds : Q;
  rp_retry_on : list string;
}.

Definition default_retry_policy : RetryPolicyDefaults := {|
  rp_max_attempts := 3;
  rp_backoff_seconds := 2;
  rp_max_backoff_seconds := 300;
  rp_retry_on := ["transient"; "rate_limited"; "timeout"; "provider_unavailable"];
|}.

Record NodeResult := {
  res_status : NodeResultStatus;
  res_output : dict json;
  res_error : option (dict json);
  res_waiting_reason : option string;
}.

Record WorkflowNodeContext := {
  ctx_tenant_id : string;
  ctx_correlation_id : option string;
  ctx_workflow_run_id : option string;
  ctx_automation_id : option string;
  ctx_brand_id : option string;
  ctx_node_id : option string;
  ctx_node_run_id : option string;
  ctx_resume_token : option string;
  ctx_snapshot : dict json;
}.

Record WorkflowNode := {
  wn_type : string;
  wn_version : Z;
  wn_category : string;
  wn_implementation_status : NodeImplementationStatus;
  wn_input_ports : list NodePort;
  wn_output_ports : list NodePort;
  wn_required_capabilities : list string;
  wn_may_pause : bool;
  wn_retry_policy : RetryPolicyDefaults;
  wn_config_defaults : result (dict json);  (* ConfigSchema().model_dump() *)
  wn_config_fields : list string;  (* ConfigSchema.model_fields *)
  wn_validate_config : dict json → result (dict json);
  wn_validate_inputs : dict json → result (dict json);
  wn_validate_output : dict json → result (dict json);
  wn_execute : WorkflowNodeContext → dict json → dict json → result NodeResult;
}.

Definition is_executable (n : WorkflowNode) : bool :=
  negb (bool_decide (wn_implementation_status n = UNAVAILABLE)).

(** ** The registry: node type, then version *)

Definition registry := list (string * list (Z * WorkflowNode)).

Fixpoint vget (version : Z) (vs : list (Z * WorkflowNode)) : option WorkflowNode :=
  match vs with
  | [] => None
  | (v, n) :: vs' => if version =? v then Some n else vget version vs'
  end.

(** [max(versions)] *)
Definition max_version (vs : list (Z * WorkflowNode)) : Z :=
  match vs with [] => 0 | (v, _) :: vs' => foldl (λ m vn, Z.max m vn.1) v vs' end.

Definition register (node : WorkflowNode) (r : registry) : result registry :=
  let r := Dict.setdefault (wn_type node) [] r in
  let versions := default [] (Dict.get (wn_type node) r) in
  match vget (wn_version node) versions with
  | Some _ => Raise (ValueError ("Node '" +:+ wn_type node +:+ "' version "
                                 +:+ PyStr.of_Z (wn_version node) +:+ " already registered"))
  | None => Ok (Dict.set (wn_type node) (versions ++ [(wn_version node, node)]) r)
  end.

Definition get (node_type : string) (version : option Z) (r : registry) : result WorkflowNode :=
  match default [] (Dict.get node_type r) with
  | [] => Raise (WorkflowNodeNotFoundError ("Unknown workflow node type: " +:+ node_type))
  | versions =>
      let v := match version with Some v => v | None => max_version versions end in
      match vget v versions with
      | Some n => Ok n
      | None => Raise (WorkflowNodeNotFoundError
          ("Unknown workflow node type/version: " +:+ node_type +:+ "@v" +:+ PyStr.of_Z v))
      end
  end.

Definition has (node_type : string) (version : option Z) (r : registry) : bool :=
  is_ok (get node_type version r).

Fixpoint register_many (nodes : list WorkflowNode) (r : registry) : result registry :=
  match nodes with
  | [] => Ok r
  | n :: nodes' => r ← register n r; register_many nodes' r
  end.

(** Every entry of a registry sits under its own type and version. *)
Definition wf (r : registry) : Prop :=
  ∀ t vs, Dict.get t r = Some vs →
    ∀ v n, vget v vs = Some n → wn_type n = t ∧ wn_version n = v.

Lemma vget_app v vs n : vget (wn_version n) vs = None →
  vget v (vs ++ [(wn_version n, n)]) = if v =? wn_version n then Some n else vget v vs.
Proof.
  induction vs as [|[v0 n0] vs IH]; simpl; [done|].
  destruct (Z.eqb_spec (wn_version n) v0); [done|]. intros H.
  destruct (Z.eqb_spec v v0) as [->|].
  - destruct (Z.eqb_spec v0 (wn_version n)); [lia|done].
  - by apply IH.
Qed.

(** The registered implementation of a type and version, if any. *)
Definition find (t : string) (v : Z) (r : registry) : option WorkflowNode :=
  vget v (default [] (Dict.get t r)).

Lemma get_Ok_find t v r n : get t (Some v) r = Ok n ↔ find t v r = Some n.
Proof.
  unfold get, find. destruct (default [] (Dict.get t r)) as [|p vs]; [done|].
  destruct (vget v (p :: vs)); naive_solver.
Qed.

Lemma register_find n r r' t v :
  register n r = Ok r' →
  find (wn_type n) (wn_version n) r = None ∧
  find t v r' = if decide (t = wn_type n ∧ v = wn_version n) then Some n else find t v r.
Proof.
  unfold register, find. set (r0 := Dict.setdefault (wn_type n) [] r).
  assert (∀ t, default [] (Dict.get t r0) = default [] (Dict.get t r)) as Hr0.
  { intros t'. unfold r0. rewrite Dict.get_setdefault.
    destruct (Dict.get t' r); simpl; [done|]. by destruct (decide (t' = wn_type n)). }
  rewrite Hr0. destruct (vget (wn_version n) _) eqn:E; [done|]. intros [= <-].
  split; [done|]. rewrite Dict.get_set. destruct (decide (t = wn_type n)) as [->|Hne]; simpl.
  - rewrite vget_app by done. destruct (Z.eqb_spec v (wn_version n)) as [->|].
    + by rewrite decide_True.
    + by rewrite decide_False by naive_solver.
  - rewrite Hr0. by rewrite decide_False by naive_solver.
Qed.

End Nodes.
