(* ===== verification/Search.v ===== *)
(** * Worklist search over a graph given by its edge list

    The compiler and the operator actions walk graphs with a queue and a set of
    seen nodes.  [loop] is that walk; [push] is the list a loop appends after
    it has processed a node.  One termination measure and one invariant serve
    every such loop of the source. *)
From S2P Require Import Prelude.

Module Search.

(** [adjacency.get(x, [])] for the adjacency lists built from [E] in order. *)
Definition succs (E : list (string * string)) (x : string) : list string :=
  snd <$> List.filter (λ e, bool_decide (e.1 = x)) E.

Definition rel (E : list (string * string)) : relation string := λ x y, (x, y) ∈ E.

Lemma elem_of_succs E x y : y ∈ succs E x ↔ rel E x y.
Proof.
  unfold succs, rel. rewrite list_elem_of_fmap. split.
  - intros [[a b] [-> H]]. rewrite list_elem_of_In, List.filter_In in H.
    destruct H as [H Ha%bool_decide_eq_true_1]. simpl in *. subst. by apply list_elem_of_In.
  - intros H. exists (x, y). split; [done|]. apply list_elem_of_In, List.filter_In.
    split; [by apply list_elem_of_In|]. by apply bool_decide_eq_true_2.
Qed.

(** Edges whose source has not been processed yet. *)
Definition pending_edges (E : list (string * string)) (seen : gset string) : nat :=
  length (List.filter (λ e, bool_decide (e.1 ∉ seen)) E).

Lemma pending_edges_step E seen c : c ∉ seen →
  pending_edges E ({[c]} ∪ seen) + length (succs E c) = pending_edges E seen.
Proof.
  intros Hc. unfold pending_edges, succs. rewrite length_fmap.
  induction E as [|[a b] E IH]; simpl; [done|].
  repeat case_bool_decide; simpl in *; subst; try lia; set_solver.
Qed.

Lemma pending_edges_le E seen : pending_edges E seen ≤ length E.
Proof. unfold pending_edges. apply List.filter_length_le. Qed.

Section loop.
Context (E : list (string * string)) (push : gset string → string → list string).

Fixpoint loop (fuel : nat) (queue : list string) (seen : gset string) : gset string :=
  match fuel, queue with
  | S fuel, c :: q =>
      if bool_decide (c ∈ seen) then loop fuel q seen
      else let seen' := {[c]} ∪ seen in loop fuel (q ++ push seen' c) seen'
  | _, _ => seen
  end.

(** [push] appends successors only, and misses none that is not seen. *)
Context (push_sound : ∀ seen c y, y ∈ push seen c → rel E c y).
Context (push_complete : ∀ seen c y, rel E c y → y ∈ push seen c ∨ y ∈ seen).
Context (push_length : ∀ seen c, length (push seen c) ≤ length (succs E c)).

Definition frontier_closed (queue : list string) (seen : gset string) : Prop :=
  ∀ x y, x ∈ seen → rel E x y → y ∈ seen ∨ y ∈ queue.

Lemma loop_invariant fuel queue seen :
  length queue + pending_edges E seen ≤ fuel →
  frontier_closed queue seen →
  let s := loop fuel queue seen in
  seen ⊆ s ∧ (∀ x, x ∈ queue → x ∈ s) ∧ (∀ x y, x ∈ s → rel E x y → y ∈ s) ∧
  (∀ x, x ∈ s → x ∈ seen ∨ ∃ r, r ∈ queue ∧ rtc (rel E) r x).
Proof using push_sound push_complete push_length.
  revert queue seen. induction fuel as [|fuel IH]; intros [|c q] seen Hf Hcl; simpl in *; try lia.
  - split_and!; [done|set_solver| |set_solver]. intros x y Hx Hxy.
    destruct (Hcl x y Hx Hxy); [done|set_solver].
  - split_and!; [done|set_solver| |set_solver]. intros x y Hx Hxy.
    destruct (Hcl x y Hx Hxy); [done|set_solver].
  - case_bool_decide as Hc.
    + destruct (IH q seen) as (H1 & H2 & H3 & H4); [lia| |].
      { intros x y Hx Hxy. destruct (Hcl x y Hx Hxy) as [?|[->|?]%elem_of_cons]; auto. }
      split_and!; [done|set_solver|done|]. intros x Hx. destruct (H4 x Hx); set_solver.
    + pose proof (pending_edges_step E seen c Hc) as Hp.
      pose proof (push_length ({[c]} ∪ seen) c) as Hl.
      destruct (IH (q ++ push ({[c]} ∪ seen) c) ({[c]} ∪ seen)) as (H1 & H2 & H3 & H4).
      * rewrite length_app. lia.
      * intros x y [->%elem_of_singleton|Hx]%elem_of_union Hxy.
        -- destruct (push_complete ({[c]} ∪ seen) c y Hxy); set_solver.
        -- destruct (Hcl x y Hx Hxy) as [?|[->|?]%elem_of_cons]; set_solver.
      * split_and!; [set_solver|set_solver|done|]. intros x Hx.
        destruct (H4 x Hx) as [[->%elem_of_singleton|?]%elem_of_union|(r & [Hr|Hr]%elem_of_app & Hrx)].
        -- right. exists c. split; [left|constructor].
        -- by left.
        -- right. exists r. split; [by right|done].
        -- right. exists c. split; [left|]. by eapply rtc_l; [eapply push_sound|].
Qed.

(** The walk from [queue] sees exactly what is reachable from it. *)
Lemma loop_spec fuel queue x :
  length queue + length E ≤ fuel →
  x ∈ loop fuel queue ∅ ↔ ∃ r, r ∈ queue ∧ rtc (rel E) r x.
Proof using push_sound push_complete push_length.
  intros Hf. pose proof (pending_edges_le E ∅).
  destruct (loop_invariant fuel queue ∅) as (H1 & H2 & H3 & H4); [lia|by intros ?? ?%not_elem_of_empty|].
  split.
  - intros Hx. destruct (H4 x Hx); set_solver.
  - intros (r & Hr & Hrx). apply H2 in Hr. clear -H3 Hr Hrx.
    induction Hrx; eauto.
Qed.
End loop.

(** A search for [goal] that stops when a processed node has an edge to it. *)
Section goal.
Context (E : list (string * string)) (goal : string).

Fixpoint search (fuel : nat) (queue : list string) (seen : gset string) : bool :=
  match fuel, queue with
  | S fuel, c :: q =>
      if bool_decide (c ∈ seen) then search fuel q seen
      else
        let seen' := {[c]} ∪ seen in
        if bool_decide (goal ∈ succs E c) then true
        else search fuel (q ++ List.filter (λ y, bool_decide (y ∉ seen')) (succs E c)) seen'
  | _, _ => false
  end.

Lemma search_true fuel queue seen :
  search fuel queue seen = true → ∃ r, r ∈ queue ∧ tc (rel E) r goal.
Proof.
  revert queue seen. induction fuel as [|fuel IH]; intros [|c q] seen; simpl; try done.
  case_bool_decide; [intros (r & ? & ?)%IH; exists r; set_solver|].
  case_bool_decide as Hg.
  - intros _. exists c. split; [left|]. apply tc_once. by apply elem_of_succs.
  - intros (r & [Hr|Hr]%elem_of_app & Hrg)%IH; [exists r; set_solver|].
    exists c. split; [left|]. eapply tc_l; [|done].
    apply list_elem_of_In, List.filter_In in Hr. apply elem_of_succs, list_elem_of_In. by destruct Hr.
Qed.

Lemma frontier_closed_nil seen :
  frontier_closed E [] seen → (∀ x, x ∈ seen → ¬ rel E x goal) →
  seen ⊆ seen ∧ (∀ x, x ∈ [] → x ∈ seen) ∧ (∀ x y, x ∈ seen → rel E x y → y ∈ seen) ∧
  (∀ x, x ∈ seen → ¬ rel E x goal).
Proof.
  intros Hcl Hg. split_and!; [done|by intros ? ?%not_elem_of_nil| |done].
  intros x y Hx Hxy. by destruct (Hcl x y Hx Hxy) as [?|?%not_elem_of_nil].
Qed.

Lemma search_false fuel queue seen :
  length queue + pending_edges E seen ≤ fuel →
  frontier_closed E queue seen →
  (∀ x, x ∈ seen → ¬ rel E x goal) →
  search fuel queue seen = false →
  ∃ s : gset string, seen ⊆ s ∧ (∀ x, x ∈ queue → x ∈ s) ∧ (∀ x y, x ∈ s → rel E x y → y ∈ s) ∧
    (∀ x, x ∈ s → ¬ rel E x goal).
Proof.
  revert queue seen. induction fuel as [|fuel IH]; intros [|c q] seen Hf Hcl Hg; simpl in *; [|lia|..].
  { intros _. exists seen. by apply frontier_closed_nil. }
  { intros _. exists seen. by apply frontier_closed_nil. }
  case_bool_decide as Hc.
  - intros Hs. destruct (IH q seen) as (s & ? & ? & ? & ?); [lia| |done|done|].
    { intros x y Hx Hxy. destruct (Hcl x y Hx Hxy) as [?|[->|?]%elem_of_cons]; auto. }
    exists s. set_solver.
  - case_bool_decide as Hgc; [done|]. intros Hs.
    pose proof (pending_edges_step E seen c Hc) as Hp.
    set (new := List.filter _ _) in Hs.
    assert (length new ≤ length (succs E c)) by apply List.filter_length_le.
    destruct (IH (q ++ new) ({[c]} ∪ seen)) as (s & ? & ? & ? & ?); [..|done|].
    + rewrite length_app. lia.
    + intros x y [->%elem_of_singleton|Hx]%elem_of_union Hxy.
      * destruct (decide (y ∈ {[c]} ∪ seen)); [by left|]. right. apply elem_of_app. right.
        apply list_elem_of_In, List.filter_In. split; [by apply list_elem_of_In, elem_of_succs|].
        by apply bool_decide_eq_true_2.
      * destruct (Hcl x y Hx Hxy) as [?|[->|?]%elem_of_cons]; set_solver.
    + intros x [->%elem_of_singleton|Hx]%elem_of_union; [|by apply Hg].
      rewrite <- elem_of_succs. done.
    + exists s. set_solver.
Qed.

Lemma search_spec fuel start :
  S (length E) ≤ fuel → search fuel [start] ∅ = true ↔ tc (rel E) start goal.
Proof.
  intros Hf. split.
  - intros (r & ->%list_elem_of_singleton & H)%search_true. done.
  - intros Ht. destruct (search fuel [start] ∅) eqn:Es; [done|exfalso].
    pose proof (pending_edges_le E ∅).
    destruct (search_false fuel [start] ∅) as (s & _ & Hq & Hcl & Hno); simpl;
      [lia|by intros ?? ?%not_elem_of_empty|by intros ? ?%not_elem_of_empty|done|].
    assert (start ∈ s) as Hs by (apply Hq; left). clear -Hs Hcl Hno Ht.
    induction Ht as [x y Hxy|x y z Hxy ? IH]; [by eapply Hno|]. apply IH; eauto.
Qed.
End goal.

End Search.
