(* ===== verification/CompilerChecks.v ===== *)
(** * DAG structural checks (compiler_types.py, compiler_checks.py)

    Each check returns the list of compile errors it finds; an empty list means
    that the structural property holds. *)
From S2P Require Import Prelude PyStr Json Graph Nodes Search.

Module Checks.
Import Graph Nodes.
Local Open Scope string_scope.
Local Open Scope list_scope.

Record WorkflowCompileError := {
  ce_code : string;
  ce_message : string;
  ce_node_id : option string;
  ce_node_type : option string;
}.

#[global] Instance compile_error_eq_dec : EqDecision WorkflowCompileError.
Proof. solve_decision. Defined.

Definition err (code message : string) (node_id node_type : option string) : WorkflowCompileError :=
  {| ce_code := code; ce_message := message; ce_node_id := node_id; ce_node_type := node_type |}.

(** [f"'{s}'"] *)
Definition quoted (s : string) : string := "'" +:+ s +:+ "'".

(** The nodes the registry resolved, keyed by node id in graph order. *)
Notation resolved_nodes := (list (string * WorkflowNode)) (only parsing).

(** ** find_duplicate_node_ids *)

Fixpoint duplicates_from (seen : gset string) (nodes : list GraphNode) : list WorkflowCompileError :=
  match nodes with
  | [] => []
  | node :: nodes' =>
      if bool_decide (gn_id node ∈ seen) then
        err "duplicate_node_id" ("duplicate node id " +:+ quoted (gn_id node))
            (Some (gn_id node)) (Some (gn_type node)) :: duplicates_from seen nodes'
      else duplicates_from ({[gn_id node]} ∪ seen) nodes'
  end.

Definition find_duplicate_node_ids (nodes : list GraphNode) : list WorkflowCompileError :=
  duplicates_from ∅ nodes.

(** ** validate_edges *)

Definition edge_errors (node_ids : gset string) (edge : GraphEdge) : list WorkflowCompileError :=
  (if bool_decide (ge_source edge ∉ node_ids) then
     [err "dangling_edge_source" ("edge source " +:+ quoted (ge_source edge) +:+ " does not exist")
          (Some (ge_source edge)) None] else []) ++
  (if bool_decide (ge_target edge ∉ node_ids) then
     [err "dangling_edge_target" ("edge target " +:+ quoted (ge_target edge) +:+ " does not exist")
          (Some (ge_target edge)) None] else []) ++
  (if PyStr.truthy (ge_source edge) && PyStr.truthy (ge_target edge)
      && bool_decide (ge_source edge = ge_target edge) then
     [err "self_edge" ("edge cannot connect node " +:+ quoted (ge_source edge) +:+ " to itself")
          (Some (ge_source edge)) None] else []).

Definition validate_edges (graph : WorkflowGraph) (node_ids : gset string) : list WorkflowCompileError :=
  flat_map (edge_errors node_ids) (wg_edges graph).

(** ** detect_cycles *)

(** The (source, target) pairs of the edges between existing nodes, in order. *)
Definition internal_pairs (node_ids : gset string) (edges : list GraphEdge) : list (string * string) :=
  (λ e, (ge_source e, ge_target e)) <$>
    List.filter (λ e, bool_decide (ge_source e ∈ node_ids) && bool_decide (ge_target e ∈ node_ids)) edges.

Record dfs_state := {
  visiting : gset string;
  visited : gset string;
  cycle_errors : list WorkflowCompileError;
}.

(** [stack[stack.index(node_id):]] *)
Fixpoint stack_from (node_id : string) (stack : list string) : list string :=
  match stack with
  | [] => []
  | s :: stack' => if bool_decide (s = node_id) then stack else stack_from node_id stack'
  end.

Definition cycle_error (node_id : string) (stack : list string) : WorkflowCompileError :=
  err "cycle_detected"
    ("workflow graph contains a cycle: "
       +:+ PyStr.join " -> " (stack_from node_id stack ++ [node_id]))
    (Some node_id) None.

(** [for nxt in nodes: visit(nxt)] *)
Fixpoint visit_all (visit : string → dfs_state → option dfs_state) (nodes : list string)
    (st : dfs_state) : option dfs_state :=
  match nodes with
  | [] => Some st
  | nxt :: nodes' => st' ← visit nxt st; visit_all visit nodes' st'
  end.

(** [_dfs].  The recursion depth is the fuel: [None] is a depth it does not allow. *)
Fixpoint dfs (E : list (string * string)) (fuel : nat) (node_id : string) (stack : list string)
    (st : dfs_state) : option dfs_state :=
  match fuel with
  | O => None
  | S fuel =>
      if bool_decide (node_id ∈ visiting st) then
        Some {| visiting := visiting st; visited := visited st;
                cycle_errors := cycle_errors st ++ [cycle_error node_id stack] |}
      else if bool_decide (node_id ∈ visited st) then Some st
      else
        let st1 := {| visiting := {[node_id]} ∪ visiting st; visited := visited st;
                      cycle_errors := cycle_errors st |} in
        st2 ← visit_all (λ nxt s, dfs E fuel nxt (stack ++ [node_id]) s) (Search.succs E node_id) st1;
        Some {| visiting := visiting st2 ∖ {[node_id]}; visited := {[node_id]} ∪ visited st2;
                cycle_errors := cycle_errors st2 |}
  end.

(** [for node_id in sorted(node_ids): if node_id not in visited: _dfs(node_id, [])] *)
Definition dfs_root (E : list (string * string)) (fuel : nat) (r : string) (st : dfs_state)
    : option dfs_state :=
  if bool_decide (r ∈ visited st) then Some st else dfs E fuel r [] st.

(** A path visits a node at most once before it is reported, so one level per
    node and one more suffice. *)
Definition detect_cycles (node_ids : gset string) (edges : list GraphEdge)
    : option (list WorkflowCompileError) :=
  cycle_errors <$>
    visit_all (dfs_root (internal_pairs node_ids edges) (S (size node_ids)))
      (PyStr.sorted (elements node_ids))
      {| visiting := ∅; visited := ∅; cycle_errors := [] |}.

(** ** find_unreachable *)

(** The nodes the queue walk from [roots] sees. *)
Definition reach_from (E : list (string * string)) (roots : list string) : gset string :=
  Search.loop (λ seen c, List.filter (λ nxt, bool_decide (nxt ∉ seen)) (Search.succs E c))
    (length roots + length E) roots ∅.

Definition find_unreachable (node_ids : gset string) (edges : list GraphEdge) (roots : gset string)
    : list WorkflowCompileError :=
  if bool_decide (node_ids = ∅) then []
  else if bool_decide (roots = ∅) then
    [err "unreachable_nodes" "no trigger/root nodes; all nodes are unreachable" None None]
  else
    let seen := reach_from (internal_pairs node_ids edges) (PyStr.sorted (elements roots)) in
    map (λ node_id, err "unreachable_node"
           ("node " +:+ quoted node_id +:+ " is unreachable from trigger roots") (Some node_id) None)
        (PyStr.sorted (elements (node_ids ∖ seen))).

(** ** types_compatible *)

Definition type_aliases : dict string :=
  [("str", "string"); ("text", "string"); ("int", "number"); ("float", "number");
   ("bool", "boolean"); ("list", "array")].

Definition dealias (t : string) : string := default t (Dict.get t type_aliases).

Definition mem_str (s : string) (l : list string) : bool := bool_decide (s ∈ l).

Definition types_compatible (source_type target_type : string) : bool :=
  let src := PyStr.lower (PyStr.strip source_type) in
  let dst := PyStr.lower (PyStr.strip target_type) in
  if mem_str src ["any"; "object"] || mem_str dst ["any"; "object"] then true
  else if bool_decide (src = dst) then true
  else
    let src := dealias src in
    let dst := dealias dst in
    if bool_decide (src = dst) then true
    else if mem_str src ["string"; "uuid"] && mem_str dst ["string"; "uuid"] then true
    else bool_decide (src = "array") && PyStr.startswith "array" dst.

(** ** validate_port_compatibility *)

Definition any_compatible (outputs inputs : list NodePort) : bool :=
  existsb (λ o, existsb (λ i, types_compatible (np_data_type o) (np_data_type i)) inputs) outputs.

Definition ports_named (port : option string) (ports : list NodePort) : list NodePort :=
  match port with
  | Some p => if PyStr.truthy p then List.filter (λ q, bool_decide (np_name q = p)) ports else ports
  | None => ports
  end.

Definition port_errors (resolved : resolved_nodes) (edge : GraphEdge) : list WorkflowCompileError :=
  match Dict.get (ge_source edge) resolved, Dict.get (ge_target edge) resolved with
  | Some source, Some target =>
      match wn_output_ports source, wn_input_ports target with
      | [], _ | _, [] => []
      | all_out, all_in =>
          let out_ports := ports_named (ge_source_port edge) all_out in
          let in_ports := ports_named (ge_target_port edge) all_in in
          match out_ports, in_ports with
          | [], _ =>
              [err "unknown_source_port"
                 ("source port " +:+ quoted (default "" (ge_source_port edge)) +:+ " not on "
                    +:+ quoted (ge_source edge)) (Some (ge_source edge)) (Some (wn_type source))]
          | _, [] =>
              [err "unknown_target_port"
                 ("target port " +:+ quoted (default "" (ge_target_port edge)) +:+ " not on "
                    +:+ quoted (ge_target edge)) (Some (ge_target edge)) (Some (wn_type target))]
          | _, _ =>
              let required_inputs :=
                match List.filter np_required in_ports with [] => in_ports | req => req end in
              if any_compatible out_ports required_inputs then []
              else [err "incompatible_ports"
                      ("no compatible port types from " +:+ quoted (ge_source edge) +:+ " ("
                         +:+ wn_type source +:+ ") to " +:+ quoted (ge_target edge) +:+ " ("
                         +:+ wn_type target +:+ ")") (Some (ge_target edge)) (Some (wn_type target))]
          end
      end
  | _, _ => []
  end.

Definition validate_port_compatibility (edges : list GraphEdge) (resolved : resolved_nodes)
    : list WorkflowCompileError :=
  flat_map (port_errors resolved) edges.

(** ** validate_input_bindings *)

Definition binding_errors (node_ids : gset string) (port_names : list string) (node : GraphNode)
    (tb : string * InputBinding) : list WorkflowCompileError :=
  let '(target_port, binding) := tb in
  let here code msg := err code msg (Some (gn_id node)) (Some (gn_type node)) in
  (if bool_decide (port_names ≠ []) && negb (mem_str target_port port_names) then
     [here "unknown_binding_target"
        ("input binding target " +:+ quoted target_port +:+ " is not an input port on "
           +:+ quoted (gn_id node))] else []) ++
  (if bool_decide (ib_source binding = SrcNode) then
     if negb (PyStr.opt_truthy (ib_node_id binding)) then
       [here "invalid_binding" ("binding " +:+ quoted target_port +:+ " missing node_id")]
     else if bool_decide (default "" (ib_node_id binding) ∉ node_ids) then
       [here "invalid_binding"
          ("binding " +:+ quoted target_port +:+ " references unknown node "
             +:+ quoted (default "" (ib_node_id binding)))]
     else []
   else []) ++
  (if bool_decide (ib_source binding = SrcConstant) && bool_decide (ib_value binding = JNull)
      && negb (PyStr.opt_truthy (ib_path binding)) then
     [here "invalid_binding" ("constant binding " +:+ quoted target_port +:+ " requires value")]
   else []).

Definition validate_input_bindings (graph : WorkflowGraph) (resolved : resolved_nodes)
    : list WorkflowCompileError :=
  let ids := node_ids graph in
  flat_map (λ node,
    let port_names := match Dict.get (gn_id node) resolved with
                      | Some impl => np_name <$> wn_input_ports impl
                      | None => [] end in
    flat_map (binding_errors ids port_names node) (gn_input_bindings node)) (wg_nodes graph).

(** ** detect_cycles: proofs *)

Section cycles.
Context (V : gset string) (E : list (string * string)).
Context (E_internal : ∀ x y, Search.rel E x y → x ∈ V ∧ y ∈ V).
Notation R := (Search.rel E).

(** The walk restores [visiting] and only adds to [visited] and the errors. *)
Record dfs_extends (st st' : dfs_state) : Prop := {
  ext_visiting : visiting st' = visiting st;
  ext_visited : visited st ⊆ visited st';
  ext_errors : cycle_errors st `prefix_of` cycle_errors st';
}.

Lemma dfs_extends_refl st : dfs_extends st st.
Proof. by split. Qed.

Lemma dfs_extends_trans st1 st2 st3 :
  dfs_extends st1 st2 → dfs_extends st2 st3 → dfs_extends st1 st3.
Proof. intros [] []. split; [congruence|set_solver|by etrans]. Qed.

Lemma visit_all_extends visit nodes st st' :
  (∀ n s s', visit n s = Some s' → dfs_extends s s') →
  visit_all visit nodes st = Some st' → dfs_extends st st'.
Proof.
  intros Hv. revert st. induction nodes as [|n nodes IH]; intros st; simpl.
  - intros [= <-]. apply dfs_extends_refl.
  - destruct (visit n st) as [s|] eqn:Es; simpl; [|done]. intros H.
    eapply dfs_extends_trans; [by eapply Hv|by apply IH].
Qed.

Lemma dfs_extends_dfs fuel n stack st st' :
  dfs E fuel n stack st = Some st' → dfs_extends st st'.
Proof.
  revert n stack st st'. induction fuel as [|fuel IH]; intros n stack st st'; simpl; [done|].
  case_bool_decide as Hvg.
  { intros [= <-]. split; simpl; [done|done|by eexists]. }
  case_bool_decide as Hvd; [intros [= <-]; apply dfs_extends_refl|].
  destruct (visit_all _ _ _) as [st2|] eqn:E2; simpl; [|done]. intros [= <-].
  apply visit_all_extends in E2; [|intros; by eapply IH].
  destruct E2 as [H1 H2 H3]; simpl in *. split; simpl; [|set_solver|done].
  rewrite H1. apply leibniz_equiv. set_solver.
Qed.

(** Enough depth: the nodes on the stack are distinct members of [V]. *)
Lemma dfs_total fuel n stack st :
  n ∈ V → visiting st ⊆ V → size (V ∖ visiting st) < fuel →
  is_Some (dfs E fuel n stack st).
Proof using E_internal.
  revert n stack st. induction fuel as [|fuel IH]; intros n stack st Hn Hsub Hsz; [lia|]. simpl.
  case_bool_decide as Hvg; [done|]. case_bool_decide as Hvd; [done|].
  assert (size (V ∖ ({[n]} ∪ visiting st)) < fuel) as Hsz'.
  { assert (V ∖ ({[n]} ∪ visiting st) ⊂ V ∖ visiting st) as Hlt%subset_size by set_solver. lia. }
  assert (∀ ns s, (∀ y, y ∈ ns → y ∈ V) → visiting s = {[n]} ∪ visiting st →
    is_Some (visit_all (λ nxt s, dfs E fuel nxt (stack ++ [n]) s) ns s)) as Hall.
  { induction ns as [|y ns IHns]; intros s Hns Hvs; simpl; [done|].
    destruct (IH y (stack ++ [n]) s) as [s' Hs']; [set_solver|set_solver|by rewrite Hvs|].
    rewrite Hs'. simpl. apply IHns; [set_solver|].
    by rewrite (ext_visiting _ _ (dfs_extends_dfs _ _ _ _ _ Hs')). }
  destruct (Hall (Search.succs E n) {| visiting := {[n]} ∪ visiting st; visited := visited st;
    cycle_errors := cycle_errors st |}) as [st2 ->]; [|done|by eexists].
  intros y Hy%Search.elem_of_succs. by apply E_internal in Hy as [_ Hy].
Qed.

(** Every visited node starts no infinite path. *)
Definition visited_acc (st : dfs_state) : Prop := ∀ v, v ∈ visited st → Acc (flip R) v.

Lemma prefix_nil_eq {A} (l : list A) : l `prefix_of` [] → l = [].
Proof. intros [k Hk]. by destruct l. Qed.

Lemma visit_all_acc visit nodes st st' :
  (∀ n s s', visit n s = Some s' → dfs_extends s s') →
  (∀ n s s', visit n s = Some s' → cycle_errors s' = [] → visited_acc s →
     visited_acc s' ∧ n ∈ visited s') →
  visit_all visit nodes st = Some st' → cycle_errors st' = [] → visited_acc st →
  visited_acc st' ∧ (∀ n, n ∈ nodes → n ∈ visited st').
Proof.
  intros Hext Hv. revert st. induction nodes as [|n nodes IH]; intros st; simpl.
  - intros [= <-] ??. split; [done|set_solver].
  - destruct (visit n st) as [s|] eqn:Es; simpl; [|done]. intros Hall He Hacc.
    pose proof (visit_all_extends _ _ _ _ Hext Hall) as [_ Hvis Herr].
    rewrite He in Herr. apply prefix_nil_eq in Herr.
    destruct (Hv _ _ _ Es Herr Hacc) as [Hacc' Hn].
    destruct (IH s Hall He Hacc') as [? ?]. split; [done|]. set_solver.
Qed.

Lemma dfs_acc fuel n stack st st' :
  dfs E fuel n stack st = Some st' → cycle_errors st' = [] → visited_acc st →
  visited_acc st' ∧ n ∈ visited st'.
Proof.
  revert n stack st st'. induction fuel as [|fuel IH]; intros n stack st st'; simpl; [done|].
  case_bool_decide as Hvg.
  { intros [= <-]; simpl. intros H%app_nil. by destruct H. }
  case_bool_decide as Hvd; [by intros [= <-]|].
  destruct (visit_all _ _ _) as [st2|] eqn:E2; simpl; [|done]. intros [= <-] He Hacc.
  eapply visit_all_acc in E2; [|intros; by eapply dfs_extends_dfs|intros; by eapply IH|done|done].
  destruct E2 as [Hacc2 Hch]. split; [|set_solver].
  intros v [->%elem_of_singleton|Hv]%elem_of_union; [|by apply Hacc2].
  constructor. intros y Hy. apply Hacc2, Hch. by apply Search.elem_of_succs.
Qed.

(** A reported node lies on a cycle. *)
Definition on_cycle (e : WorkflowCompileError) : Prop :=
  ce_code e = "cycle_detected" ∧ ∃ n, ce_node_id e = Some n ∧ tc R n n.

Lemma dfs_errors fuel n stack st st' :
  dfs E fuel n stack st = Some st' →
  (∀ s, s ∈ visiting st → tc R s n) →
  Forall on_cycle (cycle_errors st) → Forall on_cycle (cycle_errors st').
Proof.
  revert n stack st st'. induction fuel as [|fuel IH]; intros n stack st st'; simpl; [done|].
  case_bool_decide as Hvg.
  { intros [= <-] Hs He; simpl. apply Forall_app. split; [done|]. apply Forall_singleton.
    split; [done|]. exists n. auto. }
  case_bool_decide as Hvd; [by intros [= <-]|].
  destruct (visit_all _ _ _) as [st2|] eqn:E2; simpl; [|done]. intros [= <-] Hs He. simpl.
  assert (∀ ns s, (∀ y, y ∈ ns → R n y) → visiting s = {[n]} ∪ visiting st →
    Forall on_cycle (cycle_errors s) →
    visit_all (λ nxt s, dfs E fuel nxt (stack ++ [n]) s) ns s = Some st2 →
    Forall on_cycle (cycle_errors st2)) as Hall.
  { induction ns as [|y ns IHns]; intros s Hns Hvs Hes; simpl; [by intros [= <-]|].
    destruct (dfs E fuel y (stack ++ [n]) s) as [s'|] eqn:Es'; simpl; [|done].
    apply IHns; [set_solver| |].
    - by rewrite (ext_visiting _ _ (dfs_extends_dfs _ _ _ _ _ Es')).
    - eapply IH; [done| |done]. rewrite Hvs. intros z [->%elem_of_singleton|Hz]%elem_of_union.
      + apply tc_once, Hns. left.
      + eapply tc_r; [by apply Hs|]. apply Hns. left. }
  eapply Hall; [intros y; by rewrite Search.elem_of_succs| | |exact E2]; done.
Qed.

Lemma acc_no_cycle x : Acc (flip R) x → ¬ tc R x x.
Proof.
  induction 1 as [x _ IH]. intros Ht. inversion Ht as [? ? Hxx|? y ? Hxy Hyx]; subst.
  - by apply (IH x).
  - apply (IH y Hxy). by eapply tc_r.
Qed.
Lemma no_cycle_on_acc :
  (∀ v, v ∈ V → Acc (flip R) v) → ∀ x, ¬ tc R x x.
Proof using E_internal.
  intros Hacc x Ht. assert (x ∈ V) as Hx.
  { inversion Ht as [? ? H|? ? ? H ?]; subst; by apply E_internal in H as [? ?]. }
  by apply (acc_no_cycle x); [apply Hacc|].
Qed.

Definition dfs_start : dfs_state := {| visiting := ∅; visited := ∅; cycle_errors := [] |}.

Lemma dfs_root_extends fuel r st st' :
  dfs_root E fuel r st = Some st' → dfs_extends st st'.
Proof.
  unfold dfs_root. case_bool_decide; [intros [= <-]; apply dfs_extends_refl|].
  apply dfs_extends_dfs.
Qed.

(** The walk over all roots: it returns, every error sits on a cycle, and
    with no error the graph has no cycle. *)
Lemma dfs_roots_spec roots :
  (∀ v, v ∈ roots ↔ v ∈ V) →
  ∃ st, visit_all (dfs_root E (S (size V))) roots dfs_start = Some st ∧
    Forall on_cycle (cycle_errors st) ∧
    (cycle_errors st = [] → ∀ x, ¬ tc R x x).
Proof using E_internal.
  intros Hroots.
  assert (∀ ns s, (∀ y, y ∈ ns → y ∈ V) → visiting s = ∅ → Forall on_cycle (cycle_errors s) →
    ∃ s', visit_all (dfs_root E (S (size V))) ns s = Some s' ∧ Forall on_cycle (cycle_errors s'))
    as Htot.
  { induction ns as [|n ns IH]; intros s Hns Hvs Hes; simpl; [by exists s|].
    assert (∃ s1, dfs_root E (S (size V)) n s = Some s1 ∧ Forall on_cycle (cycle_errors s1))
      as (s1 & Hs1 & He1).
    { unfold dfs_root. case_bool_decide; [by exists s|].
      destruct (dfs_total (S (size V)) n [] s) as [s1 Hs1]; [set_solver|set_solver| |].
      { rewrite Hvs. assert (V ∖ ∅ = V) as -> by set_solver. lia. }
      exists s1. split; [done|]. eapply dfs_errors; [done| |done]. rewrite Hvs. set_solver. }
    rewrite Hs1. simpl. apply IH; [set_solver| |done].
    by rewrite (ext_visiting _ _ (dfs_root_extends _ _ _ _ Hs1)). }
  destruct (Htot roots dfs_start) as (st & Hst & He); [set_solver|done|by constructor|].
  exists st. split_and!; [done|done|]. intros Hnil. apply no_cycle_on_acc.
  eapply visit_all_acc in Hst; [..|done|by intros ? ?%not_elem_of_empty].
  - destruct Hst as [Hacc Hall]. intros v Hv. by apply Hacc, Hall, Hroots.
  - intros n s s'. apply dfs_root_extends.
  - intros n s s'. unfold dfs_root. case_bool_decide; [by intros [= <-]|]. apply dfs_acc.
Qed.
End cycles.

Lemma internal_pairs_elem V edges x y :
  (x, y) ∈ internal_pairs V edges ↔
  x ∈ V ∧ y ∈ V ∧ ∃ e, e ∈ edges ∧ ge_source e = x ∧ ge_target e = y.
Proof.
  unfold internal_pairs. rewrite list_elem_of_fmap. split.
  - intros (e & [= -> ->] & H). apply list_elem_of_In, List.filter_In in H as [H Hb].
    apply andb_true_iff in Hb as [?%bool_decide_eq_true ?%bool_decide_eq_true].
    split_and!; [done|done|]. exists e. by rewrite list_elem_of_In.
  - intros (Hx & Hy & e & He & <- & <-). exists e. split; [done|].
    apply list_elem_of_In, List.filter_In. split; [by apply list_elem_of_In|].
    apply andb_true_iff. by rewrite !bool_decide_eq_true.
Qed.

(** The control-flow relation the compiler checks: edges between existing nodes. *)
Definition edge_rel (V : gset string) (edges : list GraphEdge) : relation string :=
  Search.rel (internal_pairs V edges).

Lemma edge_rel_internal V edges x y : edge_rel V edges x y → x ∈ V ∧ y ∈ V.
Proof. intros (? & ? & _)%internal_pairs_elem. done. Qed.

Lemma detect_cycles_spec V edges :
  ∃ errs, detect_cycles V edges = Some errs ∧
    Forall (on_cycle (internal_pairs V edges)) errs ∧
    (errs = [] ↔ ∀ x, ¬ tc (edge_rel V edges) x x).
Proof.
  destruct (dfs_roots_spec V (internal_pairs V edges)) with
    (roots := PyStr.sorted (elements V)) as (st & Hst & He & Hnil).
  - intros x y. apply edge_rel_internal.
  - intros v. by rewrite PyStr.elem_of_sorted, elem_of_elements.
  - exists (cycle_errors st). unfold detect_cycles. unfold dfs_start in Hst. rewrite Hst.
    split_and!; [done|done|]. split; [done|]. intros Hno.
    destruct (cycle_errors st) as [|e es]; [done|].
    apply Forall_cons in He as [(_ & n & _ & Hn) _]. by destruct (Hno n).
Qed.

(** [detect_cycles] always answers, reports only nodes that lie on a cycle,
    and reports nothing exactly when the graph has no cycle. *)
Theorem detect_cycles_correct V edges :
  ∃ errs, detect_cycles V edges = Some errs ∧
    Forall (on_cycle (internal_pairs V edges)) errs ∧
    (errs = [] ↔ ∀ x, ¬ tc (edge_rel V edges) x x).
Proof. apply detect_cycles_spec. Qed.

(** ** Reachability: proofs *)

Lemma reach_from_spec E roots x :
  x ∈ reach_from E roots ↔ ∃ r, r ∈ roots ∧ rtc (Search.rel E) r x.
Proof.
  unfold reach_from. apply (Search.loop_spec E); [..|done].
  - intros seen c y [H _]%list_elem_of_In%List.filter_In.
    by apply Search.elem_of_succs, list_elem_of_In.
  - intros seen c y Hcy. destruct (decide (y ∈ seen)); [by right|left].
    apply list_elem_of_In, List.filter_In. split; [by apply list_elem_of_In, Search.elem_of_succs|].
    by apply bool_decide_eq_true.
  - intros seen c. apply List.filter_length_le.
Qed.

Lemma find_unreachable_spec V edges roots :
  V ≠ ∅ → roots ≠ ∅ →
  ∃ ids, map ce_node_id (find_unreachable V edges roots) = Some <$> ids ∧
    NoDup ids ∧ Sorted PyStr.str_le ids ∧
    (∀ x, x ∈ ids ↔ x ∈ V ∧ ¬ ∃ r, r ∈ roots ∧ rtc (edge_rel V edges) r x).
Proof.
  intros HV Hr. unfold find_unreachable. rewrite !bool_decide_eq_false_2 by done.
  set (s := reach_from _ _). exists (PyStr.sorted (elements (V ∖ s))). split_and!.
  - rewrite map_map. done.
  - unfold PyStr.sorted. rewrite merge_sort_Permutation. apply NoDup_elements.
  - apply PyStr.sorted_Sorted.
  - intros x. rewrite PyStr.elem_of_sorted, elem_of_elements, elem_of_difference.
    unfold s. rewrite reach_from_spec.
    setoid_rewrite PyStr.elem_of_sorted. setoid_rewrite elem_of_elements. done.
Qed.

Lemma find_unreachable_nil V edges roots :
  V ≠ ∅ → find_unreachable V edges roots = [] →
  ∀ x, x ∈ V → ∃ r, r ∈ roots ∧ rtc (edge_rel V edges) r x.
Proof.
  intros HV Hnil x Hx. destruct (decide (roots = ∅)) as [->|Hr].
  { unfold find_unreachable in Hnil. rewrite bool_decide_eq_false_2 in Hnil by done. done. }
  destruct (find_unreachable_spec V edges roots HV Hr) as (ids & Hm & _ & _ & Hids).
  rewrite Hnil in Hm. destruct ids; [|done].
  destruct (decide (x ∈ reach_from (internal_pairs V edges) (elements roots))) as [H|H].
  - apply reach_from_spec in H as (r & ?%elem_of_elements & ?). by exists r.
  - exfalso. assert (x ∈ @nil string) as []%not_elem_of_nil. apply Hids. split; [done|].
    intros (r & ? & ?). apply H, reach_from_spec. exists r. by rewrite elem_of_elements.
Qed.

(** With at least one node and one root, [find_unreachable] names, in order
    and once each, exactly the nodes that no path from a root reaches; without
    a root it reports the whole graph once, and an empty graph not at all. *)
Theorem find_unreachable_correct V edges roots :
  if decide (V = ∅) then find_unreachable V edges roots = []
  else if decide (roots = ∅) then
    (λ e, (ce_code e, ce_node_id e)) <$> find_unreachable V edges roots = [("unreachable_nodes", None)]
  else ∃ ids, map ce_node_id (find_unreachable V edges roots) = Some <$> ids ∧
    NoDup ids ∧ Sorted PyStr.str_le ids ∧
    (∀ x, x ∈ ids ↔ x ∈ V ∧ ¬ ∃ r, r ∈ roots ∧ rtc (edge_rel V edges) r x).
Proof.
  case_decide as HV; [|case_decide as Hr].
  - unfold find_unreachable. by rewrite bool_decide_eq_true_2.
  - unfold find_unreachable. by rewrite bool_decide_eq_false_2, bool_decide_eq_true_2.
  - by apply find_unreachable_spec.
Qed.

(** ** Local checks: proofs *)

Lemma duplicates_from_nil seen nodes :
  duplicates_from seen nodes = [] ↔
  NoDup (gn_id <$> nodes) ∧ ∀ n, n ∈ nodes → gn_id n ∉ seen.
Proof.
  revert seen. induction nodes as [|n nodes IH]; intros seen; simpl.
  - split; [|done]. intros _. split; [constructor|set_solver].
  - case_bool_decide as Hn.
    + split; [done|]. intros [_ H]. destruct (H n); [left|done].
    + rewrite IH, NoDup_cons, list_elem_of_fmap. split.
      * intros [Hnd Hns]. split_and!; [|done|].
        -- intros (m & Hm & Hin). apply (Hns m Hin). set_solver.
        -- intros m [->|Hm]%elem_of_cons; [done|]. specialize (Hns m Hm). set_solver.
      * intros [[Hni Hnd] Hns]. split; [done|]. intros m Hm.
        apply not_elem_of_union. split; [|apply Hns; by right].
        intros Heq%elem_of_singleton. apply Hni. by exists m.
Qed.

Lemma find_duplicate_node_ids_nil nodes :
  find_duplicate_node_ids nodes = [] ↔ NoDup (gn_id <$> nodes).
Proof. unfold find_duplicate_node_ids. rewrite duplicates_from_nil. set_solver. Qed.

Lemma validate_edges_nil graph V :
  validate_edges graph V = [] ↔
  ∀ e, e ∈ wg_edges graph → ge_source e ∈ V ∧ ge_target e ∈ V ∧
    (ge_source e = ge_target e → ge_source e = "").
Proof.
  unfold validate_edges. rewrite flat_map_nil, Forall_forall.
  apply forall_proper. intros e. split; intros H He; specialize (H He); revert H;
    unfold edge_errors; rewrite !app_nil, !guard_list_nil, !bool_decide_eq_false, !dec_stable_iff,
      !andb_false_iff, bool_decide_eq_false, !PyStr.truthy_false.
  - intros (? & ? & H). split_and!; [done|done|]. intros Heq. rewrite Heq in *. naive_solver.
  - intros (? & ? & H). split_and!; [done|done|].
    destruct (decide (ge_source e = ge_target e)); [|by right]. left. left. auto.
Qed.

(** A declared binding names an input port of its node and, when it reads a
    node output, an existing node. *)
Lemma validate_input_bindings_nil graph resolved node tp b :
  validate_input_bindings graph resolved = [] →
  node ∈ wg_nodes graph → (tp, b) ∈ gn_input_bindings node →
  (∀ impl, Dict.get (gn_id node) resolved = Some impl → wn_input_ports impl ≠ [] →
     tp ∈ np_name <$> wn_input_ports impl) ∧
  (ib_source b = SrcNode → ∃ src, ib_node_id b = Some src ∧ src ∈ node_ids graph).
Proof.
  unfold validate_input_bindings. rewrite flat_map_nil, Forall_forall.
  intros H Hn Hb. specialize (H node Hn). simpl in H.
  rewrite flat_map_nil, Forall_forall in H. specialize (H _ Hb).
  unfold binding_errors in H. rewrite !app_nil, !guard_list_nil in H. destruct H as (H1 & H2 & _).
  split.
  - intros impl Himpl Hports. rewrite Himpl in H1.
    apply andb_false_iff in H1 as [H1|H1].
    + apply bool_decide_eq_false, dec_stable in H1. by apply fmap_nil_inv in H1.
    + apply negb_false_iff in H1. by apply bool_decide_eq_true in H1.
  - intros Hsrc. rewrite bool_decide_eq_true_2 in H2 by done.
    destruct (ib_node_id b) as [src|]; simpl in *; [|done].
    destruct (PyStr.truthy src); simpl in *; [|done].
    exists src. split; [done|]. destruct (decide (src ∈ node_ids graph)); [done|].
    by rewrite bool_decide_eq_true_2 in H2.
Qed.

Lemma types_compatible_refl t : types_compatible t t = true.
Proof.
  unfold types_compatible. destruct (_ || _); [done|]. by rewrite bool_decide_eq_true_2.
Qed.

End Checks.
