(* ===== verification/Capabilities.v ===== *)
(** * Platform capabilities and the compile context
    (publishing/platform_capabilities.py, workflows/capability_context.py)

    What a social account can carry: typed capabilities computed from provider
    defaults and account flags, the capability tags the compiler compares with
    node requirements, and the compile context that holds them per account. *)
From S2P Require Import Prelude PyStr Json Pydantic.

Module Caps.
Local Open Scope string_scope.
Local Open Scope list_scope.

Record PlatformCapabilities := {
  supports_text : bool;
  supports_images : bool;
  supports_video : bool;
  supports_audio : bool;
  supports_threads : bool;
  supports_native_scheduling : bool;
  max_text_length : option Z;
  max_images : option Z;
  max_video_duration_seconds : option Z;
  max_video_size_mb : option Z;
  supported_video_formats : list string;
  supported_image_formats : list string;
  provider_id : option string;
  raw_flags : dict string;
}.

#[global] Instance eta_PlatformCapabilities : Settable PlatformCapabilities :=
  mk_settable _ (λ r, Build_PlatformCapabilities (supports_text r) (supports_images r)
    (supports_video r) (supports_audio r) (supports_threads r) (supports_native_scheduling r)
    (max_text_length r) (max_images r) (max_video_duration_seconds r) (max_video_size_mb r)
    (supported_video_formats r) (supported_image_formats r) (provider_id r) (raw_flags r)).

Definition no_capabilities : PlatformCapabilities :=
  Build_PlatformCapabilities false false false false false false None None None None [] [] None [].

Definition opt_int (z : option Z) : json := match z with Some n => JInt n | None => JNull end.
Definition texts (l : list string) : json := JArr (map JStr l).

(** [PlatformCapabilities.model_dump(mode="json")] *)
Definition caps_dump (c : PlatformCapabilities) : dict json :=
  [("supports_text", JBool (supports_text c)); ("supports_images", JBool (supports_images c));
   ("supports_video", JBool (supports_video c)); ("supports_audio", JBool (supports_audio c));
   ("supports_threads", JBool (supports_threads c));
   ("supports_native_scheduling", JBool (supports_native_scheduling c));
   ("max_text_length", opt_int (max_text_length c)); ("max_images", opt_int (max_images c));
   ("max_video_duration_seconds", opt_int (max_video_duration_seconds c));
   ("max_video_size_mb", opt_int (max_video_size_mb c));
   ("supported_video_formats", texts (supported_video_formats c));
   ("supported_image_formats", texts (supported_image_formats c));
   ("provider_id", Json.opt_str (provider_id c)); ("raw_flags", JObj (Dict.mapv JStr (raw_flags c)))].

Definition capability_fields : list string :=
  ["supports_text"; "supports_images"; "supports_video"; "supports_audio"; "supports_threads";
   "supports_native_scheduling"; "max_text_length"; "max_images"; "max_video_duration_seconds"; "max_video_size_mb";
   "supported_video_formats"; "supported_image_formats"; "provider_id"; "raw_flags"].

(** [PlatformCapabilities.model_validate] of a dictionary. *)
Definition read_capabilities {coercions : Coercions} (d : dict json) : result PlatformCapabilities :=
  _ ← Pydantic.forbid_extra capability_fields d;
  let flag k := Pydantic.field Pydantic.read_bool k (Ok false) d in
  let bound k := Pydantic.field (Pydantic.read_optional Pydantic.read_int) k (Ok None) d in
  let formats k := Pydantic.field (Pydantic.read_array Pydantic.read_text) k (Ok []) d in
  text ← flag "supports_text"; images ← flag "supports_images"; video ← flag "supports_video";
  audio ← flag "supports_audio"; threads ← flag "supports_threads";
  scheduling ← flag "supports_native_scheduling";
  text_length ← bound "max_text_length"; max_images ← bound "max_images";
  video_duration ← bound "max_video_duration_seconds"; video_size ← bound "max_video_size_mb";
  video_formats ← formats "supported_video_formats"; image_formats ← formats "supported_image_formats";
  provider ← Pydantic.field (Pydantic.read_optional Pydantic.read_text) "provider_id" (Ok None) d;
  flags ← Pydantic.field (Pydantic.read_map Pydantic.read_text) "raw_flags" (Ok []) d;
  Ok (Build_PlatformCapabilities text images video audio threads scheduling text_length max_images video_duration
        video_size video_formats image_formats provider flags).

Definition TRUTHY : list string := ["true"; "1"; "yes"; "limited"; "on"].
Definition MEDIA_CAPABILITIES : list string := ["video"; "image"; "audio"; "tts"; "text"; "thread"].
Definition DEFAULT_RUNTIME_CAPABILITIES : list string := ["llm"; "publish"].

(** [flag_truthy] on the stringified flags of [flags_to_capabilities]. *)
Definition flag_truthy (value : option string) : bool :=
  match value with
  | None => false
  | Some s => bool_decide (PyStr.lower (PyStr.strip s) ∈ TRUTHY)
  end.

(** The provider catalogue of [platform_defaults]. *)
Definition catalog (key : string) : option PlatformCapabilities :=
  if String.eqb key "x" then Some (no_capabilities
      <| supports_text := true |> <| supports_images := true |> <| supports_threads := true |>
      <| max_text_length := Some 280%Z |> <| max_images := Some 4%Z |>
      <| supported_image_formats := ["jpg"; "png"; "gif"; "webp"] |> <| provider_id := Some "x" |>)
  else if String.eqb key "twitter" then Some (no_capabilities
      <| supports_text := true |> <| supports_images := true |> <| supports_threads := true |>
      <| max_text_length := Some 280%Z |> <| max_images := Some 4%Z |>
      <| provider_id := Some "twitter" |>)
  else if String.eqb key "bluesky" then Some (no_capabilities
      <| supports_text := true |> <| supports_images := true |>
      <| max_text_length := Some 300%Z |> <| max_images := Some 4%Z |>
      <| provider_id := Some "bluesky" |>)
  else if String.eqb key "instagram" then Some (no_capabilities
      <| supports_text := true |> <| supports_images := true |> <| supports_video := true |>
      <| max_text_length := Some 1000%Z |> <| max_images := Some 10%Z |>
      <| max_video_duration_seconds := Some 60%Z |>
      <| supported_image_formats := ["jpg"; "png"] |> <| supported_video_formats := ["mp4"] |>
      <| provider_id := Some "instagram" |>)
  else if String.eqb key "linkedin" then Some (no_capabilities
      <| supports_text := true |> <| supports_images := true |> <| supports_video := true |>
      <| max_text_length := Some 3000%Z |> <| max_images := Some 9%Z |>
      <| provider_id := Some "linkedin" |>)
  else if String.eqb key "youtube" then Some (no_capabilities
      <| supports_text := true |> <| supports_images := true |> <| supports_video := true |>
      <| supports_audio := true |> <| max_text_length := Some 1000%Z |>
      <| max_video_duration_seconds := Some 43200%Z |>
      <| supported_video_formats := ["mp4"; "mov"] |> <| supported_image_formats := ["jpg"; "png"] |>
      <| provider_id := Some "youtube" |>)
  else if String.eqb key "tiktok" then Some (no_capabilities
      <| supports_text := true |> <| supports_video := true |> <| supports_audio := true |>
      <| max_text_length := Some 400%Z |> <| max_video_duration_seconds := Some 180%Z |>
      <| supported_video_formats := ["mp4"] |> <| provider_id := Some "tiktok" |>)
  else None.

Definition platform_defaults (pid : option string) : PlatformCapabilities :=
  let key := PyStr.lower (PyStr.strip (default "" pid)) in
  match catalog key with
  | Some c => c
  | None => no_capabilities
      <| provider_id := if PyStr.truthy key then Some key else None |>
      <| supports_text := true |> <| max_text_length := Some 1000%Z |>
  end.

(** [raw.get(a) or raw.get(b)] *)
Definition first_flag (a b : string) (raw : dict string) : option string :=
  match Dict.get a raw with
  | Some s => if PyStr.truthy s then Some s else Dict.get b raw
  | None => Dict.get b raw
  end.

(** The numeric override of one flag: [None] leaves the default. *)
Definition numeric_flag (k : string) (raw : dict string) (current : option Z) : result (option Z) :=
  match Dict.get k raw with
  | Some s => if PyStr.isdigit s then n ← PyStr.int_of_digits s; mret (Some n) else mret current
  | None => mret current
  end.

Definition flags_to_capabilities (flags : dict json) (platform : option string)
    : result PlatformCapabilities :=
  let base := platform_defaults platform in
  let raw := Dict.mapv Json.str flags in
  let data := base <| raw_flags := raw |>
    <| provider_id := if PyStr.opt_truthy platform then platform else provider_id base |> in
  let data := if Dict.mem "text" raw
    then data <| supports_text := flag_truthy (Dict.get "text" raw) |> else data in
  let data := if Dict.mem "video" raw
    then data <| supports_video := flag_truthy (Dict.get "video" raw) |> else data in
  let data := if Dict.mem "image" raw || Dict.mem "images" raw
    then data <| supports_images := flag_truthy (first_flag "image" "images" raw) |> else data in
  let data := if Dict.mem "audio" raw
    then data <| supports_audio := flag_truthy (Dict.get "audio" raw) |> else data in
  let data := if Dict.mem "thread" raw || Dict.mem "threads" raw
    then data <| supports_threads := flag_truthy (first_flag "thread" "threads" raw) |> else data in
  let data := if Dict.mem "native_scheduling" raw
    then data <| supports_native_scheduling := flag_truthy (Dict.get "native_scheduling" raw) |>
    else data in
  t ← numeric_flag "max_text_length" raw (max_text_length data);
  i ← numeric_flag "max_images" raw (max_images data);
  d ← numeric_flag "max_video_duration_seconds" raw (max_video_duration_seconds data);
  m ← numeric_flag "max_video_size_mb" raw (max_video_size_mb data);
  mret (data <| max_text_length := t |> <| max_images := i |>
             <| max_video_duration_seconds := d |> <| max_video_size_mb := m |>).

Definition workflow_capability_tags (caps : PlatformCapabilities) (runtime : list string)
    : list string :=
  let tags :=
    (if supports_text caps then ["text"] else []) ++
    (if supports_images caps then ["image"] else []) ++
    (if supports_video caps then ["video"] else []) ++
    (if supports_audio caps then ["audio"; "tts"] else []) ++
    (if supports_threads caps then ["thread"] else []) ++
    (if supports_native_scheduling caps then ["native_scheduling"] else []) in
  foldl (λ tags item, if bool_decide (item ∈ tags) then tags else tags ++ [item]) tags runtime.

Definition capabilities_to_flag_dict (caps : PlatformCapabilities) : dict string :=
  let b (v : bool) := if v then "true" else "false" in
  let flags :=
    [("text", b (supports_text caps)); ("image", b (supports_images caps));
     ("video", b (supports_video caps)); ("audio", b (supports_audio caps));
     ("thread", b (supports_threads caps));
     ("native_scheduling", b (supports_native_scheduling caps))] in
  let flags := match max_text_length caps with
               | Some n => Dict.set "max_text_length" (PyStr.of_Z n) flags
               | None => flags end in
  Dict.update flags (List.filter (λ kv, negb (Dict.mem kv.1 flags)) (raw_flags caps)).

(** ** The compile context *)

(** Account ids are canonical UUID texts; the typed capabilities are the
    dictionaries the context holds, which a client may have written. *)
Record CompileContext := {
  social_account_ids : list string;
  account_capabilities : dict (list string);
  account_platform_capabilities : dict (dict json);
  account_platforms : dict string;
  account_statuses : dict string;
  require_publish_targets : bool;
  allow_multiple_triggers : bool;
  require_approval_before_publish : bool;
  require_capability_check : bool;
}.

#[global] Instance eta_CompileContext : Settable CompileContext :=
  mk_settable _ (λ r, Build_CompileContext (social_account_ids r) (account_capabilities r)
    (account_platform_capabilities r) (account_platforms r) (account_statuses r)
    (require_publish_targets r) (allow_multiple_triggers r) (require_approval_before_publish r)
    (require_capability_check r)).

Definition default_context : CompileContext :=
  Build_CompileContext [] [] [] [] [] true false true false.

Definition capabilities_from_account (platform : option string) (flags : dict json)
    (runtime : list string) : result (PlatformCapabilities * list string) :=
  caps ← flags_to_capabilities flags platform;
  mret (caps, workflow_capability_tags caps runtime).

Definition cap_maps := (dict (list string) * dict (dict json))%type.

(** One account of [merge_account_capability_maps]. *)
Definition merge_account (platforms : dict string) (flag_maps : dict (dict json))
    (runtime : list string) (prefer_existing : bool) (key : string) (m : cap_maps)
    : result cap_maps :=
  let '(tags_out, typed_out) := m in
  if prefer_existing && Dict.mem key tags_out && Dict.mem key typed_out then mret m
  else
    let platform := Dict.get key platforms in
    let flags := default [] (Dict.get key flag_maps) in
    if negb (PyStr.opt_truthy platform) && match flags with [] => true | _ => false end then mret m
    else
      ct ← capabilities_from_account platform flags runtime;
      mret (if negb prefer_existing || negb (Dict.mem key tags_out)
            then Dict.set key ct.2 tags_out else tags_out,
            Dict.set key (caps_dump ct.1) typed_out).

Fixpoint merge_accounts (platforms : dict string) (flag_maps : dict (dict json))
    (runtime : list string) (prefer_existing : bool) (ids : list string) (m : cap_maps)
    : result cap_maps :=
  match ids with
  | [] => mret m
  | key :: ids' =>
      m' ← merge_account platforms flag_maps runtime prefer_existing key m;
      merge_accounts platforms flag_maps runtime prefer_existing ids' m'
  end.

Definition merge_account_capability_maps (ids : list string) (platforms : dict string)
    (flag_maps : dict (dict json)) (existing_tags : dict (list string)) (runtime : list string)
    (prefer_existing : bool) : result cap_maps :=
  merge_accounts platforms flag_maps runtime prefer_existing ids
    (if prefer_existing then existing_tags else [], []).

(** The flags and platforms design-time dumps contribute ([prefer_existing]). *)
Definition adopt_dump (pf : dict string * dict (dict json)) (kd : string * dict json)
    : dict string * dict (dict json) :=
  let '(platforms, flag_maps) := pf in
  let '(key, dump) := kd in
  if Dict.mem key flag_maps then pf
  else
    let provider := Json.getn "provider_id" dump in
    (if negb (Dict.mem key platforms) && Json.truthy provider then Dict.set key (Json.str provider) platforms
     else platforms,
     match Json.getn "raw_flags" dump with JObj raw => Dict.set key raw flag_maps | _ => flag_maps end).

Definition enrich_compile_context (context : CompileContext) (platforms : dict string)
    (flag_maps : dict (dict json)) (prefer_existing : bool) : result CompileContext :=
  match social_account_ids context with
  | [] => mret context
  | ids =>
      let platforms := match platforms with [] => account_platforms context | _ => platforms end in
      let existing_typed :=
        if prefer_existing then account_platform_capabilities context else [] in
      let '(platforms, flag_maps) :=
        if prefer_existing then foldl adopt_dump (platforms, flag_maps) existing_typed
        else (platforms, flag_maps) in
      m ← merge_account_capability_maps ids platforms flag_maps
            (if prefer_existing then account_capabilities context else [])
            DEFAULT_RUNTIME_CAPABILITIES prefer_existing;
      let typed := if prefer_existing then Dict.update m.2 existing_typed else m.2 in
      mret (context <| account_capabilities := m.1 |> <| account_platform_capabilities := typed |>
                    <| account_platforms := platforms |>)
  end.

(** [client_context_to_seed] on a typed client context: ids and policy flags only. *)
Definition client_context_to_seed (client : option CompileContext) : CompileContext :=
  match client with
  | None => default_context
  | Some c => default_context
      <| social_account_ids := social_account_ids c |>
      <| require_publish_targets := require_publish_targets c |>
      <| allow_multiple_triggers := allow_multiple_triggers c |>
      <| require_approval_before_publish := require_approval_before_publish c |>
      <| require_capability_check := require_capability_check c |>
  end.

(** A [SocialAccount] row (publishing/models.py), as far as workflows read it. *)
Record SocialAccount := {
  sa_id : string;
  sa_tenant_id : string;
  sa_platform : string;
  sa_display_name : string;
  sa_handle : option string;
  sa_capability_flags : dict json;
  sa_settings : dict json;
  sa_status : string;
  sa_deleted_at : option Z;
}.

Definition RUNTIME_BLOCKED_STATUSES : list string := ["quarantined"; "disconnected"].

Definition maps_from_accounts (accounts : list SocialAccount)
    : dict string * dict (dict json) * dict string :=
  foldl (λ acc a, let '(p, f, s) := acc in
           (Dict.set (sa_id a) (sa_platform a) p, Dict.set (sa_id a) (sa_capability_flags a) f,
            Dict.set (sa_id a) (sa_status a) s)) ([], [], []) accounts.

(** [build_runtime_compile_context], given the account rows the repository
    returns for the requested ids; [authorized] is the outcome of
    [authorize_social_account_ids]. *)
Definition build_runtime_compile_context (client : option CompileContext)
    (authorized : result unit) (accounts : list SocialAccount) : result CompileContext :=
  let seed := client_context_to_seed client in
  match social_account_ids seed with
  | [] => mret seed
  | ids =>
      _ ← authorized;
      match List.filter (λ a, bool_decide (sa_status a ∈ RUNTIME_BLOCKED_STATUSES)) accounts with
      | [] =>
          let '(platforms, flags, statuses) := maps_from_accounts accounts in
          enriched ← enrich_compile_context seed platforms flags false;
          mret (enriched <| account_statuses := statuses |>)
      | blocked =>
          Raise (HTTPException 400
            ("Social accounts are quarantined or disconnected and cannot be used at runtime: "
               +:+ PyStr.join ", " (sa_id <$> blocked)))
      end
  end.
End Caps.
