(* ===== verification/Compiler.v ===== *)
(** * The workflow compiler (compiler_semantics.py, compiler_control.py, compiler.py)

    [validate_graph] runs every check and accepts a graph exactly when the list
    of errors is empty. *)
From S2P Require Import Prelude PyStr Json Graph Nodes Search CompilerChecks Pydantic Capabilities.

Module Compiler.
Import Graph Nodes Checks Caps.
Local Open Scope string_scope.
Local Open Scope list_scope.

(** ** Semantic rules *)

Definition is_trigger (n : WorkflowNode) : bool :=
  bool_decide (wn_category n = "triggers") || PyStr.endswith "_trigger" (wn_type n).

(** Ids of the resolved nodes that satisfy [p]. *)
Definition ids_where (p : WorkflowNode → bool) (resolved : resolved_nodes) : gset string :=
  list_to_set (fst <$> List.filter (λ kn, p kn.2) resolved).

Definition indegree (edges : list GraphEdge) (node_id : string) : nat :=
  length (List.filter (λ e, bool_decide (ge_target e = node_id)) edges).

Definition type_of (resolved : resolved_nodes) (node_id : string) : option string :=
  wn_type <$> Dict.get node_id resolved.

(** The iteration order of a Python set is unspecified: [elements] picks one. *)
Definition collect_trigger_errors (resolved : resolved_nodes) (edges : list GraphEdge)
    (allow_multiple : bool) : gset string * list WorkflowCompileError :=
  let triggers := ids_where is_trigger resolved in
  let incoming := flat_map (λ node_id,
    if Nat.ltb 0 (indegree edges node_id) then
      [err "trigger_has_incoming_edge"
         ("trigger " +:+ quoted node_id +:+ " must not have incoming edges")
         (Some node_id) (type_of resolved node_id)] else []) (elements triggers) in
  let count :=
    if bool_decide (triggers = ∅) then
      [err "missing_trigger" "workflow must include at least one trigger node" None None]
    else if Nat.ltb 1 (size triggers) && negb allow_multiple then
      [err "multiple_triggers"
         ("multiple trigger roots are not allowed ("
            +:+ PyStr.join ", " (PyStr.sorted (elements triggers)) +:+ ")") None None]
    else [] in
  (triggers, incoming ++ count).

(** Every declared edge, dangling or not: the adjacency of the approval check. *)
Definition all_pairs (edges : list GraphEdge) : list (string * string) :=
  (λ e, (ge_source e, ge_target e)) <$> edges.

(** [_reachable] *)
Definition reachable (E : list (string * string)) (start goal : string) : bool :=
  bool_decide (start = goal) || Search.search E goal (S (length E)) [start] ∅.

Definition approval_errors (E : list (string * string)) (require_before_publish : bool)
    (publish_id approval_id : string) : list WorkflowCompileError :=
  if reachable E publish_id approval_id then
    [err "approval_after_publish"
       ("approval " +:+ quoted approval_id +:+ " is downstream of publish " +:+ quoted publish_id)
       (Some approval_id) (Some "approval")]
  else if require_before_publish && negb (reachable E approval_id publish_id) then
    [err "approval_not_before_publish"
       ("approval " +:+ quoted approval_id +:+ " must precede publish " +:+ quoted publish_id
          +:+ " on some path") (Some approval_id) (Some "approval")]
  else [].

Definition has_type (t : string) (n : WorkflowNode) : bool := bool_decide (wn_type n = t).

Definition validate_approval_placement (resolved : resolved_nodes) (edges : list GraphEdge)
    (require_before_publish : bool) : list WorkflowCompileError :=
  let approvals := ids_where (has_type "approval") resolved in
  let publishes := ids_where (has_type "publish") resolved in
  if bool_decide (approvals = ∅) || bool_decide (publishes = ∅) then []
  else
    flat_map (λ publish_id,
      flat_map (approval_errors (all_pairs edges) require_before_publish publish_id)
        (elements approvals)) (elements publishes).

Definition validate_publish_targets (resolved : resolved_nodes) (context : CompileContext)
    : list WorkflowCompileError :=
  if negb (existsb (λ kn, has_type "publish" kn.2) resolved) then []
  else if negb (require_publish_targets context) then []
  else match social_account_ids context with
       | _ :: _ => []
       | [] => [err "missing_publish_targets"
                  "Publish node requires one or more social_account_ids in compile context"
                  None (Some "publish")]
       end.

Definition SOFT_CAPABILITIES : list string := ["chess"].

Definition hard_required (caps : list string) : list string :=
  List.filter (λ c, negb (bool_decide (c ∈ SOFT_CAPABILITIES))) caps.

Section coercions.
Context {coercions : Coercions}.

(** [_available_capability_tags]: tags, else typed capabilities, else platform. *)
Definition account_tags (ctx : CompileContext) (key : string) : result (list string) :=
  let by_platform :=
    let platform := default "" (Dict.get key (account_platforms ctx)) in
    if PyStr.truthy platform
    then workflow_capability_tags (platform_defaults (Some platform)) DEFAULT_RUNTIME_CAPABILITIES
    else [] in
  match default [] (Dict.get key (account_capabilities ctx)) with
  | [] =>
      match default [] (Dict.get key (account_platform_capabilities ctx)) with
      | [] => Ok by_platform
      | typed => caps ← read_capabilities typed; Ok (workflow_capability_tags caps DEFAULT_RUNTIME_CAPABILITIES)
      end
  | tags => Ok tags
  end.

Definition available_capability_tags (ctx : CompileContext) : result (list string) :=
  tags ← rmap (account_tags ctx) (social_account_ids ctx); Ok (concat tags).
End coercions.

(** [repr] of a list of texts, as the message prints it. *)
Definition repr_list (l : list string) : string :=
  "[" +:+ PyStr.join ", " (PyStr.repr <$> l) +:+ "]".

Definition capability_errors (available : list string) (kn : string * WorkflowNode)
    : list WorkflowCompileError :=
  let missing := List.filter (λ cap, negb (bool_decide (cap ∈ available)))
                   (hard_required (wn_required_capabilities kn.2)) in
  match missing with
  | [] => []
  | _ => [err "incompatible_capabilities"
            ("node " +:+ quoted kn.1 +:+ " requires capabilities " +:+ repr_list missing
               +:+ " not provided by selected accounts") (Some kn.1) (Some (wn_type kn.2))]
  end.

Definition validate_capabilities {coercions : Coercions} (resolved : resolved_nodes) (context : CompileContext)
    : result (list WorkflowCompileError) :=
  match social_account_ids context with
  | [] => mret []
  | _ =>
      ctx ← enrich_compile_context context [] [] true;
      available ← available_capability_tags ctx;
      let has_media_nodes := existsb (λ kn,
        existsb (λ c, bool_decide (c ∈ MEDIA_CAPABILITIES))
          (hard_required (wn_required_capabilities kn.2))) resolved in
      match available with
      | [] =>
          if negb (require_capability_check ctx || has_media_nodes) then mret []
          else mret [err "unknown_capabilities"
                       ("selected accounts have unresolved platform capabilities; "
                          +:+ "cannot validate media/runtime requirements") None None]
      | _ => mret (flat_map (capability_errors available) resolved)
      end
  end.

Definition executability_errors (kn : string * WorkflowNode) : list WorkflowCompileError :=
  if is_executable kn.2 then []
  else [err "node_not_executable"
          ("node " +:+ quoted kn.1 +:+ " (" +:+ wn_type kn.2 +:+ ") is "
             +:+ implementation_status_value (wn_implementation_status kn.2)
             +:+ " and cannot be published, run, or scheduled") (Some kn.1) (Some (wn_type kn.2))].

Definition validate_node_executability (resolved : resolved_nodes) : list WorkflowCompileError :=
  flat_map executability_errors resolved.

(** ** Control-flow rules *)

Definition outgoing (edges : list GraphEdge) (node_id : string) : list GraphEdge :=
  List.filter (λ e, bool_decide (ge_source e = node_id)) edges.
Definition incoming (edges : list GraphEdge) (node_id : string) : list GraphEdge :=
  List.filter (λ e, bool_decide (ge_target e = node_id)) edges.

Definition label_missing (label : option string) : bool :=
  match label with None => true | Some l => negb (PyStr.truthy (PyStr.strip l)) end.

(** [[str(label).strip() for label in labels if label]] *)
Definition stripped_labels (outs : list GraphEdge) : list string :=
  omap (λ e, match ge_condition e with
             | Some l => if PyStr.truthy l then Some (PyStr.strip l) else None
             | None => None end) outs.

Definition condition_errors (node_id : string) (outs : list GraphEdge) : list WorkflowCompileError :=
  if Nat.ltb (length outs) 2 then
    [err "condition_requires_branches"
       ("condition " +:+ quoted node_id +:+ " requires at least two outgoing edges")
       (Some node_id) (Some "condition")]
  else
    (if existsb (λ e, label_missing (ge_condition e)) outs then
       [err "condition_edge_labels_required"
          ("condition " +:+ quoted node_id +:+ " outgoing edges must each set condition labels")
          (Some node_id) (Some "condition")] else []) ++
    (let stripped := stripped_labels outs in
     if negb (Nat.eqb (length stripped) (size (list_to_set stripped : gset string))) then
       [err "condition_duplicate_labels"
          ("condition " +:+ quoted node_id +:+ " has duplicate edge condition labels")
          (Some node_id) (Some "condition")] else []).

Definition control_errors (edges : list GraphEdge) (kn : string * WorkflowNode)
    : list WorkflowCompileError :=
  let '(node_id, node) := kn in
  if has_type "condition" node then condition_errors node_id (outgoing edges node_id)
  else if has_type "merge" node then
    if Nat.ltb (length (incoming edges node_id)) 1 then
      [err "merge_requires_inputs"
         ("merge " +:+ quoted node_id +:+ " requires at least one incoming edge")
         (Some node_id) (Some "merge")] else []
  else if has_type "fan_out" node then
    match outgoing edges node_id with
    | [out] =>
        match ge_condition out with
        | Some _ => [err "fan_out_unconditional_edge"
                       ("fan_out " +:+ quoted node_id +:+ " outgoing edge must be unconditional")
                       (Some node_id) (Some "fan_out")]
        | None => []
        end
    | _ => [err "fan_out_single_successor"
              ("fan_out " +:+ quoted node_id +:+ " must have exactly one outgoing edge "
                 +:+ "(spawns one WorkflowNodeRun per item on that successor)")
              (Some node_id) (Some "fan_out")]
    end
  else [].

Definition validate_control_flow (graph : WorkflowGraph) (resolved : resolved_nodes)
    : list WorkflowCompileError :=
  flat_map (control_errors (wg_edges graph)) resolved.

(** ** validate_graph *)

Record WorkflowCompileResult := {
  cr_valid : bool;
  cr_errors : list WorkflowCompileError;
  cr_normalized_graph : option WorkflowGraph;
  cr_checksum : option string;
}.

(** One node of the resolution loop. *)
Definition resolve_node (reg : registry) (acc : resolved_nodes * list WorkflowCompileError)
    (node : GraphNode) : resolved_nodes * list WorkflowCompileError :=
  let '(resolved, errors) := acc in
  match Nodes.get (gn_type node) (Some (gn_version node)) reg with
  | Raise e =>
      (resolved, errors ++ [err "unknown_node_type"
         match e with WorkflowNodeNotFoundError m => PyStr.repr m | _ => "" end
         (Some (gn_id node)) (Some (gn_type node))])
  | Ok impl =>
      (Dict.set (gn_id node) impl resolved,
       errors ++ match wn_validate_config impl (gn_config node) with
                 | Ok _ => []
                 | Raise e =>
                     [err "invalid_config"
                        match e with ValidationError m | ValueError m | OtherException _ m => m
                                   | _ => "" end
                        (Some (gn_id node)) (Some (gn_type node))]
                 end)
  end.

Definition resolve_nodes (reg : registry) (nodes : list GraphNode)
    : resolved_nodes * list WorkflowCompileError :=
  foldl (resolve_node reg) ([], []) nodes.

(** The error list of a parsed graph. [detect_cycles] always answers (C1). *)
Definition graph_errors {coercions : Coercions} (reg : registry) (parsed : WorkflowGraph) (ctx : CompileContext)
    : result (list WorkflowCompileError) :=
  let ids := node_ids parsed in
  let edges := wg_edges parsed in
  let '(resolved, resolve_errors) := resolve_nodes reg (wg_nodes parsed) in
  let cycles := default [] (detect_cycles ids edges) in
  let '(triggers, trigger_errors) :=
    collect_trigger_errors resolved edges (allow_multiple_triggers ctx) in
  caps ← validate_capabilities resolved ctx;
  mret (find_duplicate_node_ids (wg_nodes parsed) ++ validate_edges parsed ids ++ resolve_errors
        ++ cycles ++ trigger_errors ++ find_unreachable ids edges triggers
        ++ validate_port_compatibility edges resolved ++ validate_input_bindings parsed resolved
        ++ validate_approval_placement resolved edges (require_approval_before_publish ctx)
        ++ validate_publish_targets resolved ctx ++ caps ++ validate_node_executability resolved
        ++ validate_control_flow parsed resolved).

Section validate.
Context {coercions : Coercions}.
(** [graph_checksum]: SHA-256 of the canonical JSON dump. *)
Context (graph_checksum : WorkflowGraph → string).

Definition validate_graph (reg : registry) (graph : WorkflowGraph) (ctx : CompileContext)
    : result WorkflowCompileResult :=
  match model_validate graph with
  | Raise e =>
      mret {| cr_valid := false;
              cr_errors := [err "invalid_graph"
                match e with ValidationError m => m | _ => "" end None None];
              cr_normalized_graph := None; cr_checksum := None |}
  | Ok parsed =>
      errors ← graph_errors reg parsed ctx;
      let valid := bool_decide (errors = []) in
      mret {| cr_valid := valid; cr_errors := errors;
              cr_normalized_graph := if valid then Some parsed else None;
              cr_checksum := if valid then Some (graph_checksum parsed) else None |}
  end.
End validate.

End Compiler.
