(* ===== verification/CompilerSpec.v ===== *)
(** * What the compiler promises, and that it keeps it

    [Valid] states declaratively when a workflow graph may be published and
    run; [validate_graph] accepts exactly those graphs. *)
From S2P Require Import Prelude PyStr Json Graph Nodes Search CompilerChecks Pydantic Capabilities Compiler.

Module CompilerSpec.
Import Graph Nodes Checks Caps Compiler.
Local Open Scope string_scope.
Local Open Scope list_scope.
Local Open Scope nat_scope.

(** The implementation of a graph node. *)
Definition impl_of (reg : registry) (n : GraphNode) : option WorkflowNode :=
  Nodes.find (gn_type n) (gn_version n) reg.

(** [node_is reg g p x]: node [x] of [g] is implemented by a node satisfying [p]. *)
Definition node_is (reg : registry) (g : WorkflowGraph) (p : WorkflowNode → bool) (x : string) : Prop :=
  ∃ n impl, n ∈ wg_nodes g ∧ gn_id n = x ∧ impl_of reg n = Some impl ∧ p impl = true.

(** Branches of a condition node: at least two, all labelled, labels distinct. *)
Definition branches_ok (outs : list GraphEdge) : Prop :=
  (2 ≤ length outs)%nat ∧
  ∃ labels, Forall2 (λ e l, ∃ s, ge_condition e = Some s ∧ PyStr.strip s = l ∧ l ≠ "") outs labels ∧
    NoDup labels.

Definition control_ok (edges : list GraphEdge) (x : string) (impl : WorkflowNode) : Prop :=
  (wn_type impl = "condition" → branches_ok (outgoing edges x)) ∧
  (wn_type impl = "merge" → incoming edges x ≠ []) ∧
  (wn_type impl = "fan_out" → ∃ e, outgoing edges x = [e] ∧ ge_condition e = None).

(** The ports an edge may use on one side. *)
Definition usable_inputs (e : GraphEdge) (target : WorkflowNode) : list NodePort :=
  let ins := ports_named (ge_target_port e) (wn_input_ports target) in
  match List.filter np_required ins with [] => ins | req => req end.

Definition ports_ok (source target : WorkflowNode) (e : GraphEdge) : Prop :=
  wn_output_ports source = [] ∨ wn_input_ports target = [] ∨
  ∃ o i, o ∈ ports_named (ge_source_port e) (wn_output_ports source) ∧ i ∈ usable_inputs e target ∧
    types_compatible (np_data_type o) (np_data_type i) = true.

Definition binding_ok (g : WorkflowGraph) (impl : WorkflowNode) (tb : string * InputBinding) : Prop :=
  (wn_input_ports impl ≠ [] → tb.1 ∈ np_name <$> wn_input_ports impl) ∧
  (ib_source tb.2 = SrcNode →
     ∃ src, ib_node_id tb.2 = Some src ∧ src ≠ "" ∧ src ∈ node_ids g) ∧
  (ib_source tb.2 = SrcConstant → ib_value tb.2 ≠ JNull ∨ PyStr.opt_truthy (ib_path tb.2) = true).

(** Capability rule for the accounts the context selects. *)
Definition capabilities_ok {coercions : Coercions} (reg : registry) (g : WorkflowGraph) (ctx : CompileContext) : Prop :=
  social_account_ids ctx = [] ∨
  ∃ ctx' tags, enrich_compile_context ctx [] [] true = Ok ctx' ∧ available_capability_tags ctx' = Ok tags ∧
    (tags = [] → require_capability_check ctx' = false) ∧
    ∀ x c, node_is reg g (λ impl, bool_decide (c ∈ hard_required (wn_required_capabilities impl))) x →
      (tags = [] → c ∉ MEDIA_CAPABILITIES) ∧ (tags ≠ [] → c ∈ tags).

(** The typed capabilities of an account that are read and cannot be: it has no
    capability tags and a dictionary that is not empty. *)
Definition unreadable_account {coercions : Coercions} (ctx : CompileContext) (key : string) (e : exn) : Prop :=
  key ∈ social_account_ids ctx ∧ default [] (Dict.get key (account_capabilities ctx)) = [] ∧
  ∃ typed, Dict.get key (account_platform_capabilities ctx) = Some typed ∧ typed ≠ [] ∧
    read_capabilities typed = Raise e.

Record Valid {coercions : Coercions} (reg : registry) (ctx : CompileContext) (g : WorkflowGraph) : Prop := {
  v_ids : NoDup (gn_id <$> wg_nodes g);
  v_edges : ∀ e, e ∈ wg_edges g → ge_source e ∈ node_ids g ∧ ge_target e ∈ node_ids g;
  v_acyclic : ∀ x, ¬ tc (edge_rel (node_ids g) (wg_edges g)) x x;
  v_nodes : ∀ n, n ∈ wg_nodes g → ∃ impl, impl_of reg n = Some impl ∧ is_executable impl = true ∧
    is_ok (wn_validate_config impl (gn_config n)) = true ∧
    control_ok (wg_edges g) (gn_id n) impl ∧
    (∀ tb, tb ∈ gn_input_bindings n → binding_ok g impl tb);
  v_ports : ∀ e ns nt si ti, e ∈ wg_edges g → ns ∈ wg_nodes g → nt ∈ wg_nodes g →
    gn_id ns = ge_source e → gn_id nt = ge_target e →
    impl_of reg ns = Some si → impl_of reg nt = Some ti → ports_ok si ti e;
  v_trigger_exists : ∃ t, node_is reg g is_trigger t;
  v_trigger_single : allow_multiple_triggers ctx = false →
    ∀ t t', node_is reg g is_trigger t → node_is reg g is_trigger t' → t = t';
  v_trigger_root : ∀ t e, node_is reg g is_trigger t → e ∈ wg_edges g → ge_target e ≠ t;
  v_reachable : ∀ n, n ∈ wg_nodes g → ∃ t, node_is reg g is_trigger t ∧
    rtc (edge_rel (node_ids g) (wg_edges g)) t (gn_id n);
  v_approval : ∀ a p, node_is reg g (has_type "approval") a → node_is reg g (has_type "publish") p →
    ¬ rtc (edge_rel (node_ids g) (wg_edges g)) p a ∧
    (require_approval_before_publish ctx = true → rtc (edge_rel (node_ids g) (wg_edges g)) a p);
  v_targets : (∃ p, node_is reg g (has_type "publish") p) → require_publish_targets ctx = true →
    social_account_ids ctx ≠ [];
  v_caps : capabilities_ok reg g ctx;
}.

(** ** Resolution *)

Definition config_ok (impl : WorkflowNode) (n : GraphNode) : bool :=
  is_ok (wn_validate_config impl (gn_config n)).

Lemma resolve_nodes_app reg nodes n :
  resolve_nodes reg (nodes ++ [n]) = resolve_node reg (resolve_nodes reg nodes) n.
Proof. unfold resolve_nodes. by rewrite foldl_app. Qed.

Lemma resolve_nodes_errors reg nodes :
  (resolve_nodes reg nodes).2 = [] ↔
  ∀ n, n ∈ nodes → ∃ impl, impl_of reg n = Some impl ∧ config_ok impl n = true.
Proof.
  induction nodes as [|n nodes IH] using rev_ind; [by split; intros; [set_solver|]|].
  rewrite resolve_nodes_app. unfold resolve_node.
  destruct (resolve_nodes reg nodes) as [res errs]. simpl in IH.
  assert ((∀ m, m ∈ nodes ++ [n] → ∃ impl, impl_of reg m = Some impl ∧ config_ok impl m = true) ↔
    (∀ m, m ∈ nodes → ∃ impl, impl_of reg m = Some impl ∧ config_ok impl m = true) ∧
    ∃ impl, impl_of reg n = Some impl ∧ config_ok impl n = true) as -> by set_solver.
  rewrite <- IH. unfold impl_of, config_ok.
  destruct (Nodes.get (gn_type n) (Some (gn_version n)) reg) as [impl|e] eqn:Eg; simpl.
  - apply get_Ok_find in Eg. rewrite Eg, app_nil.
    destruct (wn_validate_config impl (gn_config n)) as [?|?] eqn:Ec; split.
    + intros [? _]. split; [done|]. exists impl. by rewrite Ec.
    + by intros [? _].
    + by intros [_ ?].
    + intros [_ (? & [= <-] & Hc)]. by rewrite Ec in Hc.
  - rewrite app_nil. split; [by intros [_ ?]|]. intros [_ (impl & Hi & _)].
    apply get_Ok_find in Hi. congruence.
Qed.

Lemma resolve_nodes_get reg nodes x :
  NoDup (gn_id <$> nodes) →
  ∀ impl, Dict.get x (resolve_nodes reg nodes).1 = Some impl ↔
    ∃ n, n ∈ nodes ∧ gn_id n = x ∧ impl_of reg n = Some impl.
Proof.
  induction nodes as [|n nodes IH] using rev_ind; intros Hnd impl.
  { split; [done|]. intros (? & []%not_elem_of_nil & _). }
  rewrite fmap_app in Hnd. apply NoDup_app in Hnd as (Hnd & Hdisj & _). specialize (IH Hnd).
  rewrite resolve_nodes_app. unfold resolve_node.
  destruct (resolve_nodes reg nodes) as [res errs]. simpl in IH.
  assert ((∃ m, m ∈ nodes ++ [n] ∧ gn_id m = x ∧ impl_of reg m = Some impl) ↔
    (∃ m, m ∈ nodes ∧ gn_id m = x ∧ impl_of reg m = Some impl) ∨
    (gn_id n = x ∧ impl_of reg n = Some impl)) as -> by set_solver.
  assert (gn_id n = x → ¬ ∃ m, m ∈ nodes ∧ gn_id m = x ∧ impl_of reg m = Some impl) as Hfresh.
  { intros <- (m & Hm & Heq & _). apply (Hdisj (gn_id n)); [|set_solver].
    apply list_elem_of_fmap. by exists m. }
  rewrite <- IH in *. unfold impl_of.
  destruct (Nodes.get (gn_type n) (Some (gn_version n)) reg) as [i|e] eqn:Eg; simpl.
  - apply get_Ok_find in Eg. rewrite Eg, Dict.get_set. destruct (decide (x = gn_id n)); naive_solver.
  - assert (Nodes.find (gn_type n) (gn_version n) reg ≠ Some impl) by
      (rewrite <- get_Ok_find; congruence). naive_solver.
Qed.

Lemma resolve_nodes_wf reg nodes : Dict.wf (resolve_nodes reg nodes).1.
Proof.
  induction nodes as [|n nodes IH] using rev_ind; [constructor|].
  rewrite resolve_nodes_app. unfold resolve_node.
  destruct (resolve_nodes reg nodes) as [res errs]. simpl in IH.
  destruct (Nodes.get _ _ _); simpl; auto with dict.
Qed.

(** Membership in the resolved nodes of a graph. *)
Lemma resolved_elem reg nodes x impl :
  NoDup (gn_id <$> nodes) →
  (x, impl) ∈ (resolve_nodes reg nodes).1 ↔
  ∃ n, n ∈ nodes ∧ gn_id n = x ∧ impl_of reg n = Some impl.
Proof.
  intros Hnd. rewrite <- resolve_nodes_get by done. split.
  - apply Dict.elem_get, resolve_nodes_wf.
  - apply Dict.get_elem.
Qed.

Lemma ids_where_elem reg g p x :
  NoDup (gn_id <$> wg_nodes g) →
  x ∈ ids_where p (resolve_nodes reg (wg_nodes g)).1 ↔ node_is reg g p x.
Proof.
  intros Hnd. unfold ids_where, node_is. rewrite elem_of_list_to_set, list_elem_of_fmap. split.
  - intros ([y impl] & -> & [H Hp]%list_elem_of_In%List.filter_In).
    apply list_elem_of_In, resolved_elem in H as (n & ? & ? & ?); [|done]. by exists n, impl.
  - intros (n & impl & Hn & Hx & Hi & Hp). exists (x, impl). split; [done|].
    apply list_elem_of_In, List.filter_In. split; [|done].
    apply list_elem_of_In, resolved_elem; [done|]. by exists n.
Qed.

(** ** One lemma per check, on the nodes of a graph with distinct ids *)

Section checks.
Context {coercions : Coercions}.
Context (reg : registry) (g : WorkflowGraph) (Hnd : NoDup (gn_id <$> wg_nodes g)).
Notation resolved := (resolve_nodes reg (wg_nodes g)).1.
Notation nis p := (node_is reg g p).

Lemma trigger_errors_nil allow :
  (collect_trigger_errors resolved (wg_edges g) allow).2 = [] ↔
  (∀ t e, nis is_trigger t → e ∈ wg_edges g → ge_target e ≠ t) ∧ (∃ t, nis is_trigger t) ∧
  (allow = false → ∀ t t', nis is_trigger t → nis is_trigger t' → t = t').
Proof using Hnd.
  unfold collect_trigger_errors. simpl. set (T := ids_where is_trigger resolved).
  assert (∀ t, t ∈ T ↔ nis is_trigger t) as HT by (intros; by apply ids_where_elem).
  rewrite app_nil, flat_map_nil, Forall_forall. apply and_iff_congr.
  - setoid_rewrite guard_list_nil. setoid_rewrite elem_of_elements. setoid_rewrite HT.
    setoid_rewrite Nat.ltb_ge. unfold indegree. split.
    + intros H t e Ht He Het. specialize (H t Ht). apply Nat.le_0_r, length_zero_iff_nil in H.
      assert (e ∈ @nil GraphEdge) as []%not_elem_of_nil. rewrite <- H.
      apply list_elem_of_In, List.filter_In. split; [by apply list_elem_of_In|].
      by apply bool_decide_eq_true.
    + intros H t Ht. destruct (List.filter _ _) as [|e l] eqn:Ef; [done|].
      assert (e ∈ e :: l) as He by left. rewrite <- Ef in He.
      apply list_elem_of_In, List.filter_In in He as [He Het%bool_decide_eq_true].
      destruct (H t e); [done|by apply list_elem_of_In|done].
  - setoid_rewrite <- HT. case_bool_decide as He.
    + split; [done|]. intros [[t Ht] _]. by rewrite He in Ht.
    + assert (∃ t, t ∈ T) as Hex by (by apply set_choose_L).
      destruct (Nat.ltb_spec 1 (size T)) as [Hlt|Hle]; destruct allow; simpl.
      * naive_solver.
      * split; [done|]. intros [_ Hs]. exfalso. destruct Hex as [t Ht].
        assert (T ⊆ {[t]}) as Hsub%subseteq_size by (intros t' Ht'; rewrite (Hs eq_refl t' t Ht' Ht); set_solver).
        rewrite size_singleton in Hsub. lia.
      * naive_solver.
      * split; [|done]. intros _. split; [done|]. intros _ t t' Ht Ht'.
        assert ({[t]} ⊆ T) as Hsub%subseteq_size by set_solver. rewrite size_singleton in Hsub.
        apply (size_singleton_inv T); [lia|done..].
Qed.

Lemma approval_rel x y :
  (∀ e, e ∈ wg_edges g → ge_source e ∈ node_ids g ∧ ge_target e ∈ node_ids g) →
  Search.rel (all_pairs (wg_edges g)) x y ↔ edge_rel (node_ids g) (wg_edges g) x y.
Proof.
  intros Hin. unfold edge_rel, Search.rel. rewrite internal_pairs_elem.
  unfold all_pairs. rewrite list_elem_of_fmap. split.
  - intros (e & [= -> ->] & He). destruct (Hin e He). eauto 10.
  - intros (_ & _ & e & He & <- & <-). by exists e.
Qed.

Lemma reachable_spec E x y : reachable E x y = true ↔ rtc (Search.rel E) x y.
Proof.
  unfold reachable. rewrite orb_true_iff, bool_decide_eq_true, Search.search_spec by lia.
  by rewrite rtc_tc.
Qed.

Lemma reachable_spec_false E x y : reachable E x y = false ↔ ¬ rtc (Search.rel E) x y.
Proof. rewrite <- reachable_spec. by destruct (reachable E x y). Qed.

Lemma approval_errors_nil E req p a :
  approval_errors E req p a = [] ↔
  ¬ rtc (Search.rel E) p a ∧ (req = true → rtc (Search.rel E) a p).
Proof.
  unfold approval_errors. destruct (reachable E p a) eqn:Epa.
  - apply reachable_spec in Epa. naive_solver.
  - apply reachable_spec_false in Epa. rewrite guard_list_nil, andb_false_iff, negb_false_iff,
      reachable_spec. destruct req; naive_solver.
Qed.

Lemma approval_placement_nil req :
  validate_approval_placement resolved (wg_edges g) req = [] ↔
  ∀ a p, nis (has_type "approval") a → nis (has_type "publish") p →
    ¬ rtc (Search.rel (all_pairs (wg_edges g))) p a ∧
    (req = true → rtc (Search.rel (all_pairs (wg_edges g))) a p).
Proof using Hnd.
  unfold validate_approval_placement. setoid_rewrite <- ids_where_elem; [|done..].
  set (A := ids_where (has_type "approval") _). set (P := ids_where (has_type "publish") _).
  destruct (bool_decide (A = ∅) || bool_decide (P = ∅)) eqn:Eb.
  - split; [|done]. intros _ a p Ha Hp. 
    apply orb_true_iff in Eb as [H|H]; apply bool_decide_eq_true in H; set_solver.
  - rewrite flat_map_nil, Forall_forall. setoid_rewrite flat_map_nil.
    setoid_rewrite Forall_forall. setoid_rewrite elem_of_elements.
    setoid_rewrite approval_errors_nil. naive_solver.
Qed.

Lemma publish_targets_nil ctx :
  validate_publish_targets resolved ctx = [] ↔
  ((∃ p, nis (has_type "publish") p) → require_publish_targets ctx = true →
     social_account_ids ctx ≠ []).
Proof using Hnd.
  unfold validate_publish_targets.
  assert (existsb (λ kn, has_type "publish" kn.2) resolved = true ↔ ∃ p, nis (has_type "publish") p) as He.
  { rewrite existsb_True_Exists, Exists_exists. split.
    - intros ([x impl] & H & Hp). apply resolved_elem in H as (n & ? & ? & ?); [|done].
      by exists x, n, impl.
    - intros (x & n & impl & ? & ? & ? & ?). exists (x, impl). split; [|done].
      apply resolved_elem; [done|]. by exists n. }
  destruct (existsb _ _); simpl.
  - assert (∃ p, nis (has_type "publish") p) by (by apply He).
    destruct (require_publish_targets ctx), (social_account_ids ctx); simpl; naive_solver.
  - split; [|done]. intros _ H. apply He in H. done.
Qed.
Lemma resolved_flat_map_nil (f : string * WorkflowNode → list WorkflowCompileError) :
  flat_map f resolved = [] ↔
  ∀ n impl, n ∈ wg_nodes g → impl_of reg n = Some impl → f (gn_id n, impl) = [].
Proof using Hnd.
  rewrite flat_map_nil, Forall_forall. split.
  - intros H n impl Hn Hi. apply H, resolved_elem; [done|]. by exists n.
  - intros H [x impl] Hx. apply resolved_elem in Hx as (n & Hn & <- & Hi); auto.
Qed.

Lemma stripped_labels_all outs :
  existsb (λ e, label_missing (ge_condition e)) outs = false →
  Forall2 (λ e l, ∃ s, ge_condition e = Some s ∧ PyStr.strip s = l ∧ l ≠ "") outs
    (stripped_labels outs).
Proof.
  unfold stripped_labels. induction outs as [|e outs IH]; simpl; [by constructor|].
  intros [He Ho]%orb_false_iff. unfold label_missing in He.
  destruct (ge_condition e) as [l|] eqn:El; [|done].
  apply negb_false_iff in He. destruct (PyStr.truthy l) eqn:Et.
  - constructor; [|by apply IH]. exists l. split_and!; [done|done|].
    intros H. by rewrite H in He.
  - apply PyStr.truthy_false in Et. by subst.
Qed.

Lemma condition_errors_nil x outs : condition_errors x outs = [] ↔ branches_ok outs.
Proof.
  unfold condition_errors, branches_ok. destruct (Nat.ltb_spec (length outs) 2).
  { split; [done|]. intros [? _]. lia. }
  rewrite app_nil, !guard_list_nil, negb_false_iff, Nat.eqb_eq. split.
  - intros [Hl Hd]. split; [done|]. exists (stripped_labels outs).
    split; [by apply stripped_labels_all|]. by apply NoDup_size_list_to_set.
  - intros [_ (labels & HF & Hnd')].
    assert (existsb (λ e, label_missing (ge_condition e)) outs = false) as Hm.
    { apply existsb_False_Forall. clear -HF. induction HF as [|e l outs labels (s & He & <- & Hne) _ IH];
        constructor; [|done]. rewrite He. simpl. destruct (PyStr.strip s); done. }
    split; [done|]. pose proof (stripped_labels_all _ Hm) as HF'.
    assert (stripped_labels outs = labels) as ->.
    { clear -HF HF'. revert HF'. generalize (stripped_labels outs) as ls.
      induction HF as [|e l outs labels (s & He & <- & _) _ IH]; intros ls; inversion 1 as [|? ? ? ? (s' & He' & <- & _)]; subst; [done|].
      f_equal; [congruence|by apply IH]. }
    by apply NoDup_size_list_to_set.
Qed.

Lemma control_errors_nil edges x impl : control_errors edges (x, impl) = [] ↔ control_ok edges x impl.
Proof.
  unfold control_errors, control_ok, has_type.
  destruct (decide (wn_type impl = "condition")) as [->|Hc]; simpl.
  { rewrite condition_errors_nil. naive_solver. }
  rewrite (bool_decide_eq_false_2 (_ = "condition")) by done.
  destruct (decide (wn_type impl = "merge")) as [->|Hm]; simpl.
  { destruct (incoming edges x); simpl; naive_solver. }
  rewrite (bool_decide_eq_false_2 (_ = "merge")) by done.
  case_bool_decide as Hf; [|naive_solver].
  destruct (outgoing edges x) as [|e [|e' l]]; simpl; [naive_solver| |naive_solver].
  destruct (ge_condition e) eqn:Ec; naive_solver.
Qed.

Lemma capability_filter_nil (avail : list string) (impl : WorkflowNode) :
  List.filter (λ cap, negb (bool_decide (cap ∈ avail))) (hard_required (wn_required_capabilities impl)) = []
  ↔ ∀ c, c ∈ hard_required (wn_required_capabilities impl) → c ∈ avail.
Proof.
  induction (hard_required _) as [|c l IH]; simpl; [set_solver|].
  case_bool_decide; simpl; rewrite ?IH; set_solver.
Qed.

Lemma capabilities_ok_enriched ctx ctx' tags :
  social_account_ids ctx ≠ [] → enrich_compile_context ctx [] [] true = Ok ctx' →
  available_capability_tags ctx' = Ok tags →
  capabilities_ok reg g ctx ↔
    (tags = [] → require_capability_check ctx' = false ∧
      ∀ n impl c, n ∈ wg_nodes g → impl_of reg n = Some impl →
        c ∈ hard_required (wn_required_capabilities impl) → c ∉ MEDIA_CAPABILITIES) ∧
    (tags ≠ [] → ∀ n impl, n ∈ wg_nodes g → impl_of reg n = Some impl →
      ∀ c, c ∈ hard_required (wn_required_capabilities impl) → c ∈ tags).
Proof.
  intros Hids He Ha. unfold capabilities_ok, node_is. setoid_rewrite bool_decide_eq_true. split.
  - intros [?|(ctx0 & tags0 & Hc0 & Ha0 & H1 & H2)]; [done|]. rewrite He in Hc0. injection Hc0 as <-.
    rewrite Ha in Ha0. injection Ha0 as <-. split.
    + intros Hn. split; [auto|]. intros n impl c ???.
      apply (H2 (gn_id n) c); [by exists n, impl|done].
    + intros Hn n impl ?? c ?. apply (H2 (gn_id n) c); [by exists n, impl|done].
  - intros [H1 H2]. right. exists ctx', tags. split_and!; [done|done|naive_solver|].
    intros x c (n & impl & ? & <- & ? & ?). split; naive_solver.
Qed.

Lemma media_nodes_spec :
  existsb (λ kn, existsb (λ c, bool_decide (c ∈ MEDIA_CAPABILITIES))
    (hard_required (wn_required_capabilities kn.2))) resolved = true ↔
  ∃ n impl c, n ∈ wg_nodes g ∧ impl_of reg n = Some impl ∧
    c ∈ hard_required (wn_required_capabilities impl) ∧ c ∈ MEDIA_CAPABILITIES.
Proof using Hnd.
  rewrite existsb_True_Exists, Exists_exists. split.
  - intros ([x impl] & Hx & (c & Hc & Hm%bool_decide_eq_true)%existsb_True_Exists%Exists_exists).
    apply resolved_elem in Hx as (n & ? & <- & ?); [|done]. by exists n, impl, c.
  - intros (n & impl & c & Hn & Hi & Hc & Hm). exists (gn_id n, impl). split.
    + apply resolved_elem; [done|]. by exists n.
    + apply existsb_True_Exists, Exists_exists. exists c. split; [done|].
      by apply bool_decide_eq_true.
Qed.

Lemma capabilities_nil ctx caps :
  validate_capabilities resolved ctx = Ok caps →
  caps = [] ↔ capabilities_ok reg g ctx.
Proof using Hnd.
  unfold validate_capabilities.
  destruct (social_account_ids ctx) as [|a ids] eqn:Eids.
  { intros [= <-]. split; [|done]. by left. }
  destruct (enrich_compile_context ctx [] [] true) as [ctx'|e] eqn:Ee; [|done]. simpl.
  destruct (available_capability_tags ctx') as [avail|e] eqn:Ea; [|done]. simpl.
  rewrite (capabilities_ok_enriched ctx ctx' avail) by (done || by rewrite Eids).
  pose proof media_nodes_spec as Hm. destruct avail as [|t tags].
  - destruct (require_capability_check ctx'); simpl; [intros [= <-]; naive_solver|].
    destruct (existsb _ _); simpl; intros [= <-].
    + split; [done|]. intros [H _]. exfalso. destruct (H eq_refl) as [_ Hno].
      destruct (proj1 Hm eq_refl) as (n & impl & c & ? & ? & ? & ?). by eapply Hno.
    + split; [|done]. intros _. split; [|done]. intros _. split; [done|].
      intros n impl c ????. assert (false = true); [|done]. apply Hm. by exists n, impl, c.
  - intros [= <-]. rewrite resolved_flat_map_nil. unfold capability_errors. simpl.
    setoid_rewrite <- capability_filter_nil.
    split; [|intros [_ H] n impl Hn Hi; by rewrite (H ltac:(done) n impl Hn Hi)].
    intros H. split; [done|]. intros _ n impl Hn Hi. specialize (H n impl Hn Hi).
    by destruct (List.filter _ _).
Qed.

Lemma any_compatible_spec outs ins :
  any_compatible outs ins = true ↔
  ∃ o i, o ∈ outs ∧ i ∈ ins ∧ types_compatible (np_data_type o) (np_data_type i) = true.
Proof.
  unfold any_compatible. rewrite existsb_True_Exists, Exists_exists. split.
  - intros (o & Ho & (i & Hi & Ht)%existsb_True_Exists%Exists_exists). by exists o, i.
  - intros (o & i & Ho & Hi & Ht). exists o. split; [done|].
    apply existsb_True_Exists, Exists_exists. by exists i.
Qed.

Lemma port_errors_nil e si ti :
  Dict.get (ge_source e) resolved = Some si → Dict.get (ge_target e) resolved = Some ti →
  port_errors resolved e = [] ↔ ports_ok si ti e.
Proof.
  intros Hs Ht. unfold port_errors, ports_ok. rewrite Hs, Ht.
  destruct (wn_output_ports si) as [|o0 os] eqn:Eo; [naive_solver|].
  destruct (wn_input_ports ti) as [|i0 ins0] eqn:Ei; [naive_solver|].
  rewrite <- Eo, <- Ei. setoid_rewrite <- any_compatible_spec.
  destruct (ports_named (ge_source_port e) (wn_output_ports si)) as [|o os'] eqn:Eso.
  { split; [done|]. rewrite Eo, Ei. intros [?|[?|?]]; done. }
  destruct (ports_named (ge_target_port e) (wn_input_ports ti)) as [|i is'] eqn:Eti.
  - split; [done|]. rewrite Eo, Ei. intros [?|[?|H]]; [done|done|].
    apply any_compatible_spec in H as (? & j & _ & Hj & _). unfold usable_inputs in Hj.
    rewrite Eti in Hj. by apply not_elem_of_nil in Hj.
  - unfold usable_inputs. rewrite Eti. rewrite Eo, Ei.
    destruct (any_compatible _ _); naive_solver.
Qed.

Lemma binding_errors_nil n impl tb :
  binding_errors (node_ids g) (np_name <$> wn_input_ports impl) n tb = [] ↔ binding_ok g impl tb.
Proof.
  destruct tb as [tp b]. unfold binding_errors, binding_ok. simpl.
  rewrite !app_nil, !guard_list_nil. repeat apply and_iff_congr.
  - unfold mem_str. rewrite andb_false_iff, negb_false_iff, bool_decide_eq_true, bool_decide_eq_false.
    destruct (wn_input_ports impl); simpl; [naive_solver|].
    split; [|by right; auto]. intros [H|H]; [|done]. exfalso. by apply H.
  - destruct (decide (ib_source b = SrcNode)) as [Hs|Hs];
      [rewrite bool_decide_eq_true_2 by done|rewrite bool_decide_eq_false_2 by done; naive_solver].
    destruct (ib_node_id b) as [src|]; simpl; [|naive_solver].
    destruct src as [|c src]; simpl; [naive_solver|]. rewrite guard_list_nil, bool_decide_eq_false, dec_stable_iff.
    naive_solver.
  - rewrite !andb_false_iff, negb_false_iff, !bool_decide_eq_false.
    destruct (decide (ib_source b = SrcConstant)), (decide (ib_value b = JNull)); naive_solver.
Qed.
End checks.

Lemma find_unreachable_nil_iff V edges T :
  V ≠ ∅ → T ≠ ∅ →
  find_unreachable V edges T = [] ↔ ∀ x, x ∈ V → ∃ r, r ∈ T ∧ rtc (edge_rel V edges) r x.
Proof.
  intros HV HT. split; [by apply find_unreachable_nil|]. intros Hall.
  destruct (find_unreachable_spec V edges T HV HT) as (ids & Hm & _ & _ & Hids).
  destruct ids as [|x ids].
  - by destruct (find_unreachable V edges T).
  - exfalso. destruct (proj1 (Hids x)) as [Hx Hno]; [left|]. by apply Hno, Hall.
Qed.

(** ** The whole compiler *)

(** Under distinct ids and resolved nodes, the per-node part of [Valid] is what
    the executability, control-flow and binding checks decide. *)
Lemma node_checks_nil reg g :
  NoDup (gn_id <$> wg_nodes g) →
  (resolve_nodes reg (wg_nodes g)).2 = [] ∧
  validate_input_bindings g (resolve_nodes reg (wg_nodes g)).1 = [] ∧
  validate_node_executability (resolve_nodes reg (wg_nodes g)).1 = [] ∧
  validate_control_flow g (resolve_nodes reg (wg_nodes g)).1 = [] ↔
  ∀ n, n ∈ wg_nodes g → ∃ impl, impl_of reg n = Some impl ∧ is_executable impl = true ∧
    is_ok (wn_validate_config impl (gn_config n)) = true ∧
    control_ok (wg_edges g) (gn_id n) impl ∧
    (∀ tb, tb ∈ gn_input_bindings n → binding_ok g impl tb).
Proof.
  intros Hnd. unfold validate_node_executability, validate_control_flow, validate_input_bindings.
  rewrite resolve_nodes_errors, !resolved_flat_map_nil by done. unfold executability_errors. simpl.
  rewrite flat_map_nil, Forall_forall. setoid_rewrite control_errors_nil.
  assert (∀ n impl, n ∈ wg_nodes g → impl_of reg n = Some impl →
    Dict.get (gn_id n) (resolve_nodes reg (wg_nodes g)).1 = Some impl) as Hget.
  { intros n impl Hn Hi. apply resolve_nodes_get; [done|]. by exists n. }
  split.
  - intros (Hr & Hb & Hx & Hc) n Hn. destruct (Hr n Hn) as (impl & Hi & Hcfg). exists impl.
    specialize (Hb n Hn). specialize (Hx n impl Hn Hi). specialize (Hc n impl Hn Hi).
    rewrite (Hget n impl Hn Hi), flat_map_nil, Forall_forall in Hb.
    split_and!; [done|by destruct (is_executable impl)|done|done|].
    intros tb Htb. eapply binding_errors_nil. by apply Hb.
  - intros H. split_and!.
    + intros n Hn. destruct (H n Hn) as (impl & ? & _ & ? & _). by exists impl.
    + intros n Hn. destruct (H n Hn) as (impl & Hi & _ & _ & _ & Htb).
      rewrite (Hget n impl Hn Hi), flat_map_nil, Forall_forall. intros tb ?.
      by apply binding_errors_nil, Htb.
    + intros n impl Hn Hi. destruct (H n Hn) as (impl' & Hi' & Hx & _). simplify_eq. by rewrite Hx.
    + intros n impl Hn Hi. destruct (H n Hn) as (impl' & Hi' & _ & _ & Hc & _). by simplify_eq.
Qed.

Lemma ports_nil reg g :
  NoDup (gn_id <$> wg_nodes g) →
  validate_port_compatibility (wg_edges g) (resolve_nodes reg (wg_nodes g)).1 = [] ↔
  ∀ e ns nt si ti, e ∈ wg_edges g → ns ∈ wg_nodes g → nt ∈ wg_nodes g →
    gn_id ns = ge_source e → gn_id nt = ge_target e →
    impl_of reg ns = Some si → impl_of reg nt = Some ti → ports_ok si ti e.
Proof.
  intros Hnd. unfold validate_port_compatibility. rewrite flat_map_nil, Forall_forall. split.
  - intros H e ns nt si ti He Hns Hnt Es Et Hs Ht. eapply port_errors_nil; [| |by apply H].
    + apply resolve_nodes_get; [done|]. by exists ns.
    + apply resolve_nodes_get; [done|]. by exists nt.
  - intros H e He. unfold port_errors.
    destruct (Dict.get (ge_source e) _) as [si|] eqn:Es; [|done].
    destruct (Dict.get (ge_target e) _) as [ti|] eqn:Et; [|done].
    pose proof Es as Es'. pose proof Et as Et'.
    apply resolve_nodes_get in Es' as (ns & ? & ? & ?); [|done].
    apply resolve_nodes_get in Et' as (nt & ? & ? & ?); [|done].
    pose proof (proj2 (port_errors_nil reg g e si ti Es Et)) as Hok.
    unfold port_errors in Hok. rewrite Es, Et in Hok. apply Hok. by apply (H e ns nt).
Qed.

Lemma edges_nil g :
  (∀ e, e ∈ wg_edges g → ge_source e ≠ "") →
  validate_edges g (node_ids g) = [] ∧ (∀ x, ¬ tc (edge_rel (node_ids g) (wg_edges g)) x x) ↔
  (∀ e, e ∈ wg_edges g → ge_source e ∈ node_ids g ∧ ge_target e ∈ node_ids g) ∧
  (∀ x, ¬ tc (edge_rel (node_ids g) (wg_edges g)) x x).
Proof.
  intros Hne. rewrite validate_edges_nil. split.
  - intros [H Hac]. split; [|done]. intros e He. destruct (H e He) as (? & ? & _). done.
  - intros [H Hac]. split; [|done]. intros e He. destruct (H e He) as [Hs Ht].
    split_and!; [done|done|]. intros Heq. exfalso. apply (Hac (ge_source e)).
    apply tc_once, internal_pairs_elem. split_and!; [done|done|]. by exists e.
Qed.

Lemma approval_rtc g x y :
  (∀ e, e ∈ wg_edges g → ge_source e ∈ node_ids g ∧ ge_target e ∈ node_ids g) →
  rtc (Search.rel (all_pairs (wg_edges g))) x y ↔ rtc (edge_rel (node_ids g) (wg_edges g)) x y.
Proof.
  intros Hin. split; apply rtc_subrel; intros ??; by apply approval_rel.
Qed.

Lemma reach_nil reg g :
  NoDup (gn_id <$> wg_nodes g) → (∃ t, node_is reg g is_trigger t) →
  find_unreachable (node_ids g) (wg_edges g)
    (ids_where is_trigger (resolve_nodes reg (wg_nodes g)).1) = [] ↔
  ∀ n, n ∈ wg_nodes g → ∃ t, node_is reg g is_trigger t ∧
    rtc (edge_rel (node_ids g) (wg_edges g)) t (gn_id n).
Proof.
  intros Hnd [t Ht]. assert (t ∈ node_ids g) as Htin.
  { destruct Ht as (n & ? & Hn & <- & _). apply elem_of_list_to_set, list_elem_of_fmap. by exists n. }
  rewrite find_unreachable_nil_iff; [|set_solver|].
  - pose proof (λ x, ids_where_elem reg g is_trigger x Hnd) as HT. setoid_rewrite HT.
    unfold node_ids at 1. setoid_rewrite elem_of_list_to_set. setoid_rewrite list_elem_of_fmap.
    naive_solver.
  - intros He. apply (ids_where_elem _ _ _ _ Hnd) in Ht. rewrite He in Ht. set_solver.
Qed.

(** The structural checks that only look at the graph and the resolved nodes. *)
Lemma structure_nil {coercions : Coercions} reg g ctx :
  NoDup (gn_id <$> wg_nodes g) → (∀ e, e ∈ wg_edges g → ge_source e ≠ "") →
  let resolved := (resolve_nodes reg (wg_nodes g)).1 in
  (validate_edges g (node_ids g) = [] ∧ (∀ x, ¬ tc (edge_rel (node_ids g) (wg_edges g)) x x)) ∧
  ((collect_trigger_errors resolved (wg_edges g) (allow_multiple_triggers ctx)).2 = [] ∧
   find_unreachable (node_ids g) (wg_edges g) (ids_where is_trigger resolved) = []) ∧
  validate_port_compatibility (wg_edges g) resolved = [] ∧
  validate_approval_placement resolved (wg_edges g) (require_approval_before_publish ctx) = [] ∧
  validate_publish_targets resolved ctx = [] ∧
  capabilities_ok reg g ctx ∧
  ((resolve_nodes reg (wg_nodes g)).2 = [] ∧ validate_input_bindings g resolved = [] ∧
   validate_node_executability resolved = [] ∧ validate_control_flow g resolved = []) ↔
  Valid reg ctx g.
Proof.
  intros Hnd Hne resolved. unfold resolved. rewrite edges_nil, trigger_errors_nil, ports_nil,
    approval_placement_nil, publish_targets_nil, node_checks_nil by done. split.
  - intros ([Hin Hac] & [(Hr & Hex & Hs) Hu] & Hp & Ha & Hpt & Hca & Hn).
    rewrite reach_nil in Hu by done. split; try done.
    intros a p Haa Hpp. rewrite <- !approval_rtc by done. by apply Ha.
  - intros []. rewrite reach_nil by done. split_and!; try done.
    intros a p Haa Hpp. rewrite !approval_rtc by done. by apply v_approval0.
Qed.

Lemma graph_errors_nil {coercions : Coercions} reg g ctx errors :
  (∀ e, e ∈ wg_edges g → ge_source e ≠ "") →
  graph_errors reg g ctx = Ok errors → errors = [] ↔ Valid reg ctx g.
Proof.
  intros Hne. unfold graph_errors.
  destruct (detect_cycles_spec (node_ids g) (wg_edges g)) as (cyc & Hcyc & _ & Hcyc_nil).
  destruct (resolve_nodes reg (wg_nodes g)) as [resolved rerrs] eqn:Er.
  destruct (collect_trigger_errors resolved (wg_edges g) (allow_multiple_triggers ctx))
    as [T terrs] eqn:Et.
  destruct (validate_capabilities resolved ctx) as [caps|] eqn:Ec; [|done]. simpl.
  intros [= <-]. rewrite Hcyc. simpl. rewrite !app_nil, Hcyc_nil, find_duplicate_node_ids_nil.
  assert (T = ids_where is_trigger resolved) as -> by (by injection Et).
  assert (terrs = (collect_trigger_errors resolved (wg_edges g) (allow_multiple_triggers ctx)).2)
    as -> by (by rewrite Et).
  assert (resolved = (resolve_nodes reg (wg_nodes g)).1) as -> by (by rewrite Er).
  assert (rerrs = (resolve_nodes reg (wg_nodes g)).2) as -> by (by rewrite Er).
  pose proof (structure_nil reg g ctx) as Hst. simpl in Hst. split.
  - intros (Hnd & Hrest). rewrite (capabilities_nil reg g Hnd _ _ Ec) in Hrest. apply Hst; tauto.
  - intros Hv. pose proof (v_ids _ _ _ Hv) as Hnd. split; [done|].
    rewrite (capabilities_nil reg g Hnd _ _ Ec). apply Hst in Hv; tauto.
Qed.

Lemma model_validate_sources graph g e :
  model_validate graph = Ok g → e ∈ wg_edges g → ge_source e ≠ "".
Proof.
  unfold model_validate. destruct (_ <? 1)%Z; [done|].
  destruct (rmap validate_node _) as [ns|]; [|done]. simpl.
  destruct (rmap validate_edge (wg_edges graph)) as [es|] eqn:Ee; [|done]. intros [= <-]. simpl.
  intros He. apply rmap_Ok_Forall2 in Ee. apply list_elem_of_lookup in He as [i He].
  apply (Forall2_lookup_r _ _ _ _ _ Ee) in He as (e0 & _ & Hv).
  unfold validate_edge in Hv. destruct (bounded_text (ge_source e0)) as [v|] eqn:Eb; [|done].
  simpl in Hv. destruct (bounded_text (ge_target e0)); [|done]. injection Hv as <-.
  apply bounded_text_Ok in Eb as [_ Hl]. intros Hz. rewrite Hz in Hl. simpl in Hl. lia.
Qed.

Lemma account_tags_Raise {coercions : Coercions} ctx key e :
  key ∈ social_account_ids ctx → account_tags ctx key = Raise e → unreadable_account ctx key e.
Proof.
  unfold account_tags, unreadable_account. intros Hk. destruct (default [] (Dict.get key (account_capabilities ctx))); [|done].
  destruct (Dict.get key (account_platform_capabilities ctx)) as [[|kv typed]|]; [done| |done].
  cbn [from_option id default]. destruct (read_capabilities _) as [caps|e'] eqn:Er; [done|]. intros [= ->].
  split_and!; [done..|]. by exists (kv :: typed).
Qed.

Lemma bind_Raise {A B} (m : result A) (f : A → result B) e :
  m ≫= f = Raise e → m = Raise e ∨ ∃ a, m = Ok a ∧ f a = Raise e.
Proof. destruct m as [a|e']; [right; by exists a|]. intros [= ->]. by left. Qed.

(** A flag of digit characters that is no number. *)
Definition unreadable_number (e : exn) : Prop :=
  ∃ text, PyStr.isdigit text = true ∧ PyStr.int_of_digits text = Raise e.

Lemma numeric_flag_Raise k raw current e : numeric_flag k raw current = Raise e → unreadable_number e.
Proof.
  unfold numeric_flag, unreadable_number. destruct (Dict.get k raw) as [s|]; [|done].
  destruct (PyStr.isdigit s) eqn:Ed; [|done]. intros [H|(n & _ & ?)]%bind_Raise; [by exists s|done].
Qed.

Lemma flags_Raise flags platform e : flags_to_capabilities flags platform = Raise e → unreadable_number e.
Proof.
  unfold flags_to_capabilities. cbv zeta.
  do 4 (intros [H|(? & _ & H)]%bind_Raise; [by eapply numeric_flag_Raise|revert H]). done.
Qed.

Lemma merge_accounts_Raise platforms flag_maps runtime prefer ids m e :
  merge_accounts platforms flag_maps runtime prefer ids m = Raise e → unreadable_number e.
Proof.
  revert m. induction ids as [|key ids IH]; intros m; [done|]. simpl.
  intros [H|(m' & _ & H)]%bind_Raise; [|by eapply IH]. revert H. unfold merge_account. destruct m as [tags typed].
  destruct (prefer && _ && _); [done|]. destruct (negb _ && _); [done|].
  intros [H|(ct & _ & ?)]%bind_Raise; [|done]. revert H. unfold capabilities_from_account.
  intros [H|(caps & _ & ?)]%bind_Raise; [by eapply flags_Raise|done].
Qed.

Lemma enrich_Raise ctx platforms flag_maps prefer e :
  enrich_compile_context ctx platforms flag_maps prefer = Raise e → unreadable_number e.
Proof.
  unfold enrich_compile_context. destruct (social_account_ids ctx) as [|a ids]; [done|]. cbv zeta.
  destruct (if prefer then foldl _ _ _ else _) as [p f]. intros [H|(m & _ & ?)]%bind_Raise; [|done].
  by eapply merge_accounts_Raise.
Qed.

Lemma rmap_Raise {A B} (f : A → result B) l e : rmap f l = Raise e → ∃ x, x ∈ l ∧ f x = Raise e.
Proof.
  induction l as [|x l IH]; [done|]. simpl. destruct (f x) as [y|e'] eqn:Ef.
  - simpl. destruct (rmap f l); [done|]. intros [= ->]. destruct (IH eq_refl) as (z & ? & ?). exists z. set_solver.
  - intros [= ->]. exists x. set_solver.
Qed.

Lemma graph_errors_Raise {coercions : Coercions} reg g ctx e :
  graph_errors reg g ctx = Raise e →
  social_account_ids ctx ≠ [] ∧
  (enrich_compile_context ctx [] [] true = Raise e ∨
   ∃ ctx' key, enrich_compile_context ctx [] [] true = Ok ctx' ∧ unreadable_account ctx' key e).
Proof.
  unfold graph_errors. destruct (resolve_nodes _ _) as [resolved errs].
  destruct (collect_trigger_errors _ _ _) as [triggers terrs].
  destruct (validate_capabilities resolved ctx) as [caps|e'] eqn:E; [done|]. intros [= ->].
  unfold validate_capabilities in E. destruct (social_account_ids ctx); [done|]. split; [done|].
  destruct (enrich_compile_context ctx [] [] true) as [c|e'] eqn:Ee; [|left; by injection E as ->].
  right. simpl in E. unfold available_capability_tags in E.
  destruct (rmap (account_tags c) (social_account_ids c)) as [tags|e'] eqn:Et; simpl in E.
  - destruct (concat tags); [by destruct (negb _)|done].
  - injection E as ->. apply rmap_Raise in Et as (key & Hk & He). exists c, key. split; [done|].
    by apply account_tags_Raise.
Qed.

(** C5: The compiler answers, save for two faults of a design-time capability
    map of a selected account: a numeric flag that cannot be read as a number,
    and typed capabilities, of an account without tags, that fail validation.  It
    accepts a graph document exactly when it decodes to a graph satisfying
    [Valid], and then returns that graph as the normalized one, its checksum, and
    no errors. *)
Theorem validate_graph_correct {coercions : Coercions} checksum reg graph ctx :
  match validate_graph checksum reg graph ctx with
  | Ok r =>
      (cr_valid r = true ↔ ∃ g, model_validate graph = Ok g ∧ Valid reg ctx g) ∧
      (cr_valid r = true → ∃ g, model_validate graph = Ok g ∧ cr_normalized_graph r = Some g ∧
         cr_checksum r = Some (checksum g) ∧ cr_errors r = [])
  | Raise e =>
      is_ok (model_validate graph) = true ∧ social_account_ids ctx ≠ [] ∧
      (enrich_compile_context ctx [] [] true = Raise e ∨
       ∃ ctx' key, enrich_compile_context ctx [] [] true = Ok ctx' ∧ unreadable_account ctx' key e) ∧
      (enrich_compile_context ctx [] [] true = Raise e → unreadable_number e)
  end.
Proof.
  unfold validate_graph. destruct (model_validate graph) as [g|e] eqn:Em.
  - destruct (graph_errors reg g ctx) as [errors|e] eqn:Eg; simpl.
    + rewrite bool_decide_eq_true. pose proof (graph_errors_nil reg g ctx errors) as Hnil.
      rewrite Hnil by eauto using model_validate_sources. split; [naive_solver|].
      intros Hv. assert (errors = []) as -> by (apply Hnil; eauto using model_validate_sources).
      exists g. by rewrite bool_decide_eq_true_2.
    + destruct (graph_errors_Raise _ _ _ _ Eg) as [Hids He]. split_and!; [done..|]. apply enrich_Raise.
  - simpl. split; [|done]. split; [done|]. by intros (? & ? & _).
Qed.

(** A client that misspells one capability of an account without tags: the
    compiler raises instead of answering with an error. *)
Definition ex_client : CompileContext := default_context <| social_account_ids := ["a"] |>
  <| account_platform_capabilities := [("a", [("supports_tex", JBool true)])] |>.

Lemma misspelled_capability_raises :
  validate_graph (coercions := strict_coercions) (λ _, "") []
    {| wg_schema_version := 1; wg_nodes := []; wg_edges := []; wg_metadata := [] |} ex_client =
  Raise (ValidationError "Extra inputs are not permitted").
Proof. vm_compute. reflexivity. Qed.
End CompilerSpec.
