(* ===== verification/Tables.v ===== *)
(** * Rows of the tables around a run (workflows/models.py,
    content_strategy/models.py, publishing/models.py)

    Workflow versions, automations with their targets, brands, profiles and
    account links, with the columns the modelled code reads, and the queries
    several modules share.  A query without ORDER BY answers in table order. *)
From S2P Require Import Prelude PyStr Json Graph Capabilities.

Module Tables.
Import Graph Caps.
Local Open Scope string_scope.
Local Open Scope list_scope.

Inductive WorkflowDefinitionStatus := DRAFT | ACTIVE | ARCHIVED.
#[global] Instance WorkflowDefinitionStatus_eq_dec : EqDecision WorkflowDefinitionStatus.
Proof. solve_decision. Defined.

Record WorkflowDefinition := {
  wd_id : string;
  wd_tenant_id : string;
  wd_name : string;
  wd_slug : string;
  wd_description : option string;
  wd_status : WorkflowDefinitionStatus;
  wd_current_version_id : option string;
  wd_created_by_user_id : option string;
  wd_deleted_at : option Z;
}.
#[global] Instance eta_WorkflowDefinition : Settable WorkflowDefinition :=
  mk_settable _ (λ r, Build_WorkflowDefinition (wd_id r) (wd_tenant_id r) (wd_name r) (wd_slug r)
    (wd_description r) (wd_status r) (wd_current_version_id r) (wd_created_by_user_id r) (wd_deleted_at r)).

(** The graph document of a version is kept decoded; reading it validates its
    fields ([WorkflowGraph.model_validate]). *)
Record WorkflowVersion := {
  wv_id : string;
  wv_tenant_id : string;
  wv_workflow_definition_id : string;
  wv_version : Z;
  wv_graph_json : WorkflowGraph;
  wv_input_schema_json : dict json;
  wv_output_schema_json : dict json;
  wv_checksum : option string;
  wv_published_at : option Z;
  wv_created_by_user_id : option string;
}.
#[global] Instance eta_WorkflowVersion : Settable WorkflowVersion :=
  mk_settable _ (λ r, Build_WorkflowVersion (wv_id r) (wv_tenant_id r) (wv_workflow_definition_id r)
    (wv_version r) (wv_graph_json r) (wv_input_schema_json r) (wv_output_schema_json r) (wv_checksum r)
    (wv_published_at r) (wv_created_by_user_id r)).

Record Automation := {
  au_id : string;
  au_tenant_id : string;
  au_workflow_definition_id : string;
  au_workflow_version_id : string;
  au_brand_id : string;
  au_name : string;
  au_enabled : bool;
  au_trigger_type : string;
  au_trigger_config : dict json;
  au_timezone : string;
  au_next_run_at : option Z;
  au_last_run_at : option Z;
  au_deleted_at : option Z;
  au_settings : dict json;
  au_webhook_endpoint_id : option string;
}.
#[global] Instance eta_Automation : Settable Automation :=
  mk_settable _ (λ r, Build_Automation (au_id r) (au_tenant_id r) (au_workflow_definition_id r)
    (au_workflow_version_id r) (au_brand_id r) (au_name r) (au_enabled r) (au_trigger_type r)
    (au_trigger_config r) (au_timezone r) (au_next_run_at r) (au_last_run_at r) (au_deleted_at r)
    (au_settings r) (au_webhook_endpoint_id r)).

Record AutomationTarget := {
  at_id : string;
  at_tenant_id : string;
  at_automation_id : string;
  at_social_account_id : string;
  at_enabled : bool;
  at_deleted_at : option Z;
  at_overrides_json : dict json;
}.
#[global] Instance eta_AutomationTarget : Settable AutomationTarget :=
  mk_settable _ (λ r, Build_AutomationTarget (at_id r) (at_tenant_id r) (at_automation_id r)
    (at_social_account_id r) (at_enabled r) (at_deleted_at r) (at_overrides_json r)).

Record Brand := {
  br_id : string;
  br_tenant_id : string;
  br_name : string;
  br_niche : string;
  br_style_guide : dict json;
  br_allowed_topics : list json;
  br_blocked_topics : list json;
  br_target_platforms : list json;
  br_risk_policy : dict json;
  br_posting_policy : dict json;
  br_deleted_at : option Z;
}.

Record BrandProfile := {
  bp_id : string;
  bp_tenant_id : string;
  bp_brand_id : option string;
  bp_name : string;
  bp_niche : string;
  bp_tone : string;
  bp_audience : string;
  bp_voice_notes : option string;
  bp_preferred_platforms : list json;
  bp_default_cta : option string;
  bp_hashtags_strategy : string;
  bp_risk_tolerance : string;
  bp_require_whatsapp_approval : bool;
  bp_guardrails : dict json;
  bp_visual_style : dict json;
  bp_deleted_at : option Z;
}.

Record BrandSocialAccount := {
  bsa_tenant_id : string;
  bsa_brand_id : string;
  bsa_social_account_id : string;
  bsa_enabled : bool;
  bsa_default_content_format : option string;
  bsa_generation_overrides : dict json;
  bsa_publishing_policy : dict json;
  bsa_platform_policy : dict json;
  bsa_deleted_at : option Z;
}.

(** Profiles are kept in the order they were created. *)
Record Tables := {
  tb_definitions : list WorkflowDefinition;
  tb_versions : list WorkflowVersion;
  tb_automations : list Automation;
  tb_targets : list AutomationTarget;
  tb_brands : list Brand;
  tb_profiles : list BrandProfile;
  tb_brand_accounts : list BrandSocialAccount;
  tb_accounts : list SocialAccount;
}.
#[global] Instance eta_Tables : Settable Tables :=
  mk_settable _ (λ r, Build_Tables (tb_definitions r) (tb_versions r) (tb_automations r) (tb_targets r)
    (tb_brands r) (tb_profiles r) (tb_brand_accounts r) (tb_accounts r)).

(** An audit event (audit/models.py); its correlation id, severity and payload
    schema are left out. *)
Record AuditLog := {
  al_tenant_id : option string;
  al_actor_user_id : option string;
  al_action : string;
  al_entity_type : string;
  al_entity_id : option string;
  al_message : string;
  al_payload : dict json;
  al_outcome : option string;
}.

(** The session of a service: the tables it edits, the events it records, and
    how many random ids were drawn. *)
Record Session := {
  se_tables : Tables;
  se_uuids : nat;
  se_audit : list AuditLog;
}.
#[global] Instance eta_Session : Settable Session :=
  mk_settable _ (λ r, Build_Session (se_tables r) (se_uuids r) (se_audit r)).

(** [AuditService.record] *)
Definition record_audit (log : AuditLog) : M Session unit := modify (λ s, s <| se_audit ::= λ l, l ++ [log] |>).

(** [x.tenant_id == tenant_id and x.deleted_at is None] *)
Definition live (tenant_id row_tenant : string) (deleted_at : option Z) : bool :=
  bool_decide (row_tenant = tenant_id) && match deleted_at with None => true | Some _ => false end.

Definition get_version (tenant_id version_id : string) (t : Tables) : option WorkflowVersion :=
  List.find (λ v, bool_decide (wv_tenant_id v = tenant_id) && bool_decide (wv_id v = version_id))
    (tb_versions t).

(** [require_automation_for_tenant] and [load_automation] run one query. *)
Definition find_automation (tenant_id automation_id : string) (t : Tables) : option Automation :=
  List.find (λ a, live tenant_id (au_tenant_id a) (au_deleted_at a) &&
                  bool_decide (au_id a = automation_id)) (tb_automations t).

Definition find_brand (tenant_id brand_id : string) (t : Tables) : option Brand :=
  List.find (λ b, live tenant_id (br_tenant_id b) (br_deleted_at b) && bool_decide (br_id b = brand_id))
    (tb_brands t).

Definition get_social_accounts_by_ids (tenant_id : string) (account_ids : list string) (t : Tables)
    : list SocialAccount :=
  match account_ids with
  | [] => []
  | _ => List.filter (λ a, live tenant_id (sa_tenant_id a) (sa_deleted_at a) &&
                           bool_decide (sa_id a ∈ account_ids)) (tb_accounts t)
  end.

(** The enabled links of a brand to some accounts. *)
Definition brand_links (tenant_id brand_id : string) (account_ids : list string) (t : Tables)
    : list BrandSocialAccount :=
  List.filter (λ b, live tenant_id (bsa_tenant_id b) (bsa_deleted_at b) &&
                    bool_decide (bsa_brand_id b = brand_id) &&
                    bool_decide (bsa_social_account_id b ∈ account_ids) && bsa_enabled b)
    (tb_brand_accounts t).

End Tables.
