(* ===== verification/Config.v ===== *)
(** * Workflow configuration (config_merge.py, config_layers.py,
    config_resolver.py, config_snapshots.py)

    The settings of a node come from six layers merged in a fixed order, later
    layers winning; the result is frozen in the snapshot of the run.  Every
    layer outside the graph passes through [strip_secrets]. *)
From S2P Require Import Prelude PyStr Json Graph Nodes Capabilities Tables.

Module Config.
Import Graph Nodes Caps Tables.
Local Open Scope string_scope.
Local Open Scope list_scope.

(** ** config_merge.py *)

Definition SECRET_FRAGMENTS : list string :=
  ["token"; "secret"; "password"; "api_key"; "apikey"; "credential"; "private_key"; "refresh";
   "oauth"; "bearer"].

Definition KEY_ALIASES : list (string * string) := [("max_length", "max_tokens")].

Definition is_secret_key (key : string) : bool :=
  let lowered := PyStr.replace_char "-" "_" (PyStr.lower key) in
  existsb (λ frag, PyStr.contains frag lowered) SECRET_FRAGMENTS.

Fixpoint strip_secrets (value : json) : json :=
  match value with
  | JObj o =>
      JObj ((fix go (o : dict json) : dict json :=
        match o with
        | [] => []
        | (k, v) :: o' => if negb (is_secret_key k) then (k, strip_secrets v) :: go o' else go o'
        end) o)
  | JArr l => JArr (map strip_secrets l)
  | _ => value
  end.

(** [strip_secrets] on a mapping. *)
Definition strip_dict (o : dict json) : dict json := Json.as_dict (strip_secrets (JObj o)).

Definition apply_alias (out : dict json) (alias : string * string) : dict json :=
  match Dict.get alias.1 out with
  | Some v => if Dict.mem alias.2 out then out else Dict.set alias.2 v out
  | None => out
  end.

Definition apply_key_aliases (payload : dict json) : dict json := foldl apply_alias payload KEY_ALIASES.

(** One value of a later layer over what the result holds under its key.  The
    recursive call merges into a copy of the dictionary held there. *)
Fixpoint merge_value (old : option json) (value : json) : json :=
  match value, old with
  | JObj layer, Some (JObj held) =>
      JObj ((fix go (layer result : dict json) : dict json :=
        match layer with
        | [] => result
        | (k, v) :: layer' => go layer' (Dict.set k (merge_value (Dict.get k result) v) result)
        end) layer held)
  | _, _ => value
  end.

Definition merge_layer (result layer : dict json) : dict json :=
  foldl (λ result kv, Dict.set kv.1 (merge_value (Dict.get kv.1 result) kv.2) result) result layer.

Definition deep_merge (layers : list (dict json)) : dict json := foldl merge_layer [] layers.

Definition pick_allowed_keys (payload : dict json) (allowed : list string) : dict json :=
  List.filter (λ kv, bool_decide (kv.1 ∈ allowed)) payload.

(** ** config_layers.py *)

Definition load_automation (tenant_id : string) (automation_id : option string) (t : Tables)
    : option Automation :=
  match automation_id with Some i => find_automation tenant_id i t | None => None end.

Definition load_brand (tenant_id : string) (brand_id : option string) (t : Tables) : option Brand :=
  match brand_id with Some i => find_brand tenant_id i t | None => None end.

Definition load_profile (tenant_id : string) (brand_id : option string) (t : Tables)
    : option BrandProfile :=
  match brand_id with
  | None => None
  | Some i => List.find (λ p, live tenant_id (bp_tenant_id p) (bp_deleted_at p) &&
                              bool_decide (bp_brand_id p = Some i)) (tb_profiles t)
  end.

Definition account_le (a b : SocialAccount) : Prop := PyStr.str_le (sa_id a) (sa_id b).
#[global] Instance account_le_dec a b : Decision (account_le a b).
Proof. unfold account_le. apply _. Defined.

(** The targets, the accounts sorted by id, and the brand links per account. *)
Definition load_targets_and_accounts (tenant_id : string) (automation : option Automation)
    (brand_id : option string) (compile_context : option CompileContext) (t : Tables)
    : list AutomationTarget * list SocialAccount * dict BrandSocialAccount :=
  let targets := match automation with
    | Some a => List.filter (λ x, live tenant_id (at_tenant_id x) (at_deleted_at x) &&
                  bool_decide (at_automation_id x = au_id a) && at_enabled x) (tb_targets t)
    | None => [] end in
  let account_ids := at_social_account_id <$> targets in
  let account_ids := match account_ids, compile_context with
    | [], Some c => social_account_ids c
    | _, _ => account_ids end in
  let accounts := merge_sort account_le (get_social_accounts_by_ids tenant_id account_ids t) in
  let links := match brand_id, account_ids with
    | Some b, _ :: _ => brand_links tenant_id b account_ids t
    | _, _ => [] end in
  (targets, accounts, foldl (λ d b, Dict.set (bsa_social_account_id b) b d) [] links).

Definition opt_text (s : option string) : json := match s with Some x => JStr x | None => JNull end.

Definition brand_layer (brand : option Brand) (profile : option BrandProfile) : dict json :=
  let layer := match brand with
    | None => []
    | Some b => deep_merge
        [[]; br_style_guide b;
         [("niche", JStr (br_niche b)); ("allowed_topics", JArr (br_allowed_topics b));
          ("blocked_topics", JArr (br_blocked_topics b));
          ("target_platforms", JArr (br_target_platforms b))];
         br_risk_policy b; br_posting_policy b] end in
  let layer := match profile with
    | None => layer
    | Some p => deep_merge
        [layer;
         [("tone", JStr (bp_tone p)); ("audience", JStr (bp_audience p));
          ("voice_notes", opt_text (bp_voice_notes p)); ("niche", JStr (bp_niche p));
          ("default_cta", opt_text (bp_default_cta p));
          ("hashtags_strategy", JStr (bp_hashtags_strategy p));
          ("risk_tolerance", JStr (bp_risk_tolerance p));
          ("preferred_platforms", JArr (bp_preferred_platforms p))];
         bp_guardrails p; bp_visual_style p] end in
  strip_dict layer.

Definition automation_layers (automation : option Automation) : dict json * dict json :=
  match automation with
  | None => ([], [])
  | Some a =>
      let settings := au_settings a in
      (strip_dict (deep_merge [Json.as_dict (Json.getn "config" settings);
                               Json.as_dict (Json.getn "editorial" settings)]),
       strip_dict (Json.as_dict (Json.getn "node_overrides" settings)))
  end.

(** [{t.social_account_id: t for t in targets}.get(i)]: the last one. *)
Definition target_of (targets : list AutomationTarget) (i : string) : option AutomationTarget :=
  List.find (λ t, bool_decide (at_social_account_id t = i)) (reverse targets).

Definition account_bits (target : option AutomationTarget) (bsa : option BrandSocialAccount) : dict json :=
  deep_merge
    [default [] (at_overrides_json <$> target); default [] (bsa_generation_overrides <$> bsa);
     default [] (bsa_publishing_policy <$> bsa); default [] (bsa_platform_policy <$> bsa);
     match bsa with
     | Some b => if PyStr.opt_truthy (bsa_default_content_format b)
                 then [("default_content_format", opt_text (bsa_default_content_format b))] else []
     | None => [] end].

(** The overrides of one account for one node. *)
Definition override_node (node_overrides : dict json) (kv : string * json) : dict json :=
  Dict.set kv.1 (JObj (deep_merge [Json.as_dict (Json.getn kv.1 node_overrides); Json.as_dict kv.2]))
    node_overrides.

Definition account_step (targets : list AutomationTarget) (bsa_by_account : dict BrandSocialAccount)
    (acc : dict json * dict json) (account : SocialAccount) : dict json * dict json :=
  let bits := account_bits (target_of targets (sa_id account)) (Dict.get (sa_id account) bsa_by_account) in
  let per_node := Json.as_dict (Json.getn "node_overrides" bits) in
  (deep_merge [acc.1; Dict.pop "node_overrides" bits], foldl override_node acc.2 per_node).

Definition account_layers (targets : list AutomationTarget) (accounts : list SocialAccount)
    (bsa_by_account : dict BrandSocialAccount) : dict json * dict json :=
  let acc := foldl (account_step targets bsa_by_account) ([], []) accounts in
  (strip_dict acc.1, strip_dict acc.2).

Definition run_layer (initial_inputs trigger_payload run_config : dict json) : dict json :=
  strip_dict (deep_merge [Json.as_dict (Json.getn "config" initial_inputs);
                          Json.as_dict (Json.getn "config" trigger_payload); run_config]).

(** ** config_resolver.py *)

Definition PRECEDENCE : list string :=
  ["node_defaults"; "workflow_node_config"; "brand_profile"; "automation"; "social_account"; "run_params"].

(** The layers of a node in merge order, the defaults of its schema apart. *)
Record NodeLayers := {
  nl_graph_config : dict json;
  nl_brand : dict json;
  nl_automation : dict json;
  nl_automation_node : dict json;
  nl_account : dict json;
  nl_account_node : dict json;
  nl_run : dict json;
}.

Definition layers_of (l : NodeLayers) : list (dict json) :=
  [nl_graph_config l; nl_brand l; nl_automation l; nl_automation_node l; nl_account l; nl_account_node l;
   nl_run l].

Definition resolve_node_config (r : registry) (node_type : string) (node_version : Z) (l : NodeLayers)
    : result (dict json) :=
  impl ← get node_type (Some node_version) r;
  defaults ← wn_config_defaults impl;
  let merged := deep_merge (defaults :: (apply_key_aliases <$> layers_of l)) in
  wn_validate_config impl (pick_allowed_keys merged (wn_config_fields impl)).

(** ** config_snapshots.py *)

(** [CompileContext.model_dump(mode="json")] *)
Definition context_dump (c : CompileContext) : dict json :=
  [("social_account_ids", texts (social_account_ids c));
   ("account_capabilities", JObj (Dict.mapv texts (account_capabilities c)));
   ("account_platform_capabilities", JObj (Dict.mapv JObj (account_platform_capabilities c)));
   ("account_platforms", JObj (Dict.mapv JStr (account_platforms c)));
   ("account_statuses", JObj (Dict.mapv JStr (account_statuses c)));
   ("require_publish_targets", JBool (require_publish_targets c));
   ("allow_multiple_triggers", JBool (allow_multiple_triggers c));
   ("require_approval_before_publish", JBool (require_approval_before_publish c));
   ("require_capability_check", JBool (require_capability_check c))].

Definition typed_caps_dump (a : SocialAccount) : result json :=
  c ← flags_to_capabilities (sa_capability_flags a) (Some (sa_platform a)); mret (JObj (caps_dump c)).

Definition brand_snapshot (brand : option Brand) : json :=
  match brand with
  | None => JNull
  | Some b => strip_secrets (JObj
      [("id", JStr (br_id b)); ("name", JStr (br_name b)); ("niche", JStr (br_niche b));
       ("style_guide", JObj (br_style_guide b)); ("allowed_topics", JArr (br_allowed_topics b));
       ("blocked_topics", JArr (br_blocked_topics b));
       ("target_platforms", JArr (br_target_platforms b)); ("risk_policy", JObj (br_risk_policy b));
       ("posting_policy", JObj (br_posting_policy b))])
  end.

Definition profile_snapshot (profile : option BrandProfile) : json :=
  match profile with
  | None => JNull
  | Some p => strip_secrets (JObj
      [("id", JStr (bp_id p)); ("brand_id", opt_text (bp_brand_id p)); ("name", JStr (bp_name p));
       ("niche", JStr (bp_niche p)); ("tone", JStr (bp_tone p)); ("audience", JStr (bp_audience p));
       ("voice_notes", opt_text (bp_voice_notes p));
       ("preferred_platforms", JArr (bp_preferred_platforms p));
       ("default_cta", opt_text (bp_default_cta p));
       ("hashtags_strategy", JStr (bp_hashtags_strategy p));
       ("risk_tolerance", JStr (bp_risk_tolerance p));
       ("require_whatsapp_approval", JBool (bp_require_whatsapp_approval p));
       ("guardrails", JObj (bp_guardrails p)); ("visual_style", JObj (bp_visual_style p))])
  end.

Definition automation_snapshot (automation : option Automation) : json :=
  match automation with
  | None => JNull
  | Some a =>
      let part k := (k, JObj (Json.as_dict (Json.getn k (au_settings a)))) in
      strip_secrets (JObj
      [("id", JStr (au_id a)); ("name", JStr (au_name a)); ("brand_id", JStr (au_brand_id a));
       ("workflow_version_id", JStr (au_workflow_version_id a)); ("timezone", JStr (au_timezone a));
       ("settings", JObj [part "config"; part "editorial"; part "node_overrides"])])
  end.

(** The rest depends on the digest of a JSON document, 16 characters of the
    SHA-256 of its sorted text, and on the provider settings. *)
Section snapshot.
Context (digest : json → string) (llm_provider llm_model : string).

Definition variant_fingerprint (a : SocialAccount) : string :=
  sa_platform a +:+ ":" +:+ digest (JObj
    [("platform", JStr (sa_platform a)); ("capability_flags", JObj (sa_capability_flags a));
     ("settings", JObj (sa_settings a))]).

Definition account_snapshot (targets : list AutomationTarget) (bsa_by_account : dict BrandSocialAccount)
    (a : SocialAccount) : result json :=
  let bsa := Dict.get (sa_id a) bsa_by_account in
  let target := target_of targets (sa_id a) in
  caps ← typed_caps_dump a;
  mret (strip_secrets (JObj
    [("social_account_id", JStr (sa_id a)); ("platform", JStr (sa_platform a));
     ("handle", opt_text (sa_handle a)); ("display_name", JStr (sa_display_name a));
     ("capability_flags", JObj (sa_capability_flags a)); ("platform_capabilities", caps);
     ("variant_fingerprint", JStr (variant_fingerprint a));
     ("default_content_format", opt_text (bsa ≫= bsa_default_content_format));
     ("generation_overrides", JObj (default [] (bsa_generation_overrides <$> bsa)));
     ("target_overrides", JObj (default [] (at_overrides_json <$> target)))])).

Definition accounts_snapshot (accounts : list SocialAccount) (bsa_by_account : dict BrandSocialAccount)
    (targets : list AutomationTarget) : result (list json) :=
  rmap (account_snapshot targets bsa_by_account) accounts.

(** ** ConfigResolver.build_snapshot *)

Fixpoint resolve_nodes (r : registry) (layers : GraphNode → NodeLayers) (nodes : list GraphNode)
    (resolved : dict json) : result (dict json) :=
  match nodes with
  | [] => mret resolved
  | n :: nodes' =>
      c ← resolve_node_config r (gn_type n) (gn_version n) (layers n);
      resolve_nodes r layers nodes' (Dict.set (gn_id n) (JObj c) resolved)
  end.

Definition build_snapshot (r : registry) (t : Tables) (tenant_id : string) (graph : WorkflowGraph)
    (graph_checksum brand_id automation_id : option string) (compile_context : option CompileContext)
    (trigger_payload initial_inputs run_config : dict json) : result (dict json) :=
  let automation := load_automation tenant_id automation_id t in
  let brand_id := match automation, brand_id with
                  | Some a, None => Some (au_brand_id a) | _, _ => brand_id end in
  let brand := load_brand tenant_id brand_id t in
  let profile := load_profile tenant_id brand_id t in
  let '(targets, accounts, bsa_by_account) :=
    load_targets_and_accounts tenant_id automation brand_id compile_context t in
  let brand_cfg := brand_layer brand profile in
  let '(automation_cfg, automation_node_overrides) := automation_layers automation in
  let '(account_cfg, account_node_overrides) := account_layers targets accounts bsa_by_account in
  let run_cfg := run_layer initial_inputs trigger_payload run_config in
  resolved_node_configs ← resolve_nodes r (λ n, {|
      nl_graph_config := gn_config n; nl_brand := brand_cfg; nl_automation := automation_cfg;
      nl_automation_node := Json.as_dict (Json.getn (gn_id n) automation_node_overrides);
      nl_account := account_cfg;
      nl_account_node := Json.as_dict (Json.getn (gn_id n) account_node_overrides);
      nl_run := run_cfg |}) (wg_nodes graph) [];
  accounts_rows ← accounts_snapshot accounts bsa_by_account targets;
  mret
    [("initial_inputs", strip_secrets (JObj initial_inputs));
     ("compile_context", JObj (match compile_context with Some c => context_dump c | None => [] end));
     ("node_outputs", JObj []); ("graph_checksum", opt_text graph_checksum);
     ("config_precedence", texts PRECEDENCE); ("brand", brand_snapshot brand);
     ("brand_profile", profile_snapshot profile); ("automation", automation_snapshot automation);
     ("accounts", JArr accounts_rows); ("resolved_editorial", strip_secrets (JObj brand_cfg));
     ("resolved_node_configs", JObj resolved_node_configs);
     ("providers", JObj [("llm", JStr llm_provider); ("llm_model", JStr llm_model)]);
     ("run_params", strip_secrets (JObj run_cfg))].
End snapshot.

(** ** Reading a document along a path *)

(** The value under a path of keys: [Some None] is a mapping. *)
Fixpoint read (p : list string) (v : json) : option (option json) :=
  match p, v with
  | [], JObj _ => Some None
  | [], _ => Some (Some v)
  | k :: p', JObj o => Dict.get k o ≫= read p'
  | _ :: _, _ => None
  end.

(** A document decides a path when it gives it a value or rules one out. *)
Fixpoint decides (p : list string) (v : json) : bool :=
  match p, v with
  | [], _ => true
  | k :: p', JObj o => match Dict.get k o with Some x => decides p' x | None => false end
  | _ :: _, _ => true
  end.

(** The reference for merging: every path is read in the last layer that
    decides it. *)
Definition last_wins (layers : list (dict json)) (p : list string) : option (option json) :=
  List.find (decides p) (reverse (JObj <$> layers)) ≫= read p.

(** The keys of every dictionary of the document are distinct. *)
Fixpoint wf_json (v : json) : Prop :=
  match v with
  | JObj o => Dict.wf o ∧ (fix go (o : dict json) : Prop :=
                match o with [] => True | (_, v) :: o' => wf_json v ∧ go o' end) o
  | JArr l => (fix go (l : list json) : Prop := match l with [] => True | v :: l' => wf_json v ∧ go l' end) l
  | _ => True
  end.

Lemma wf_json_get o k v : wf_json (JObj o) → Dict.get k o = Some v → wf_json v.
Proof.
  intros [_ Ho]. revert Ho. induction o as [|[k0 v0] o IH]; simpl; [done|].
  intros [H1 H2]. case_decide; [congruence|auto].
Qed.

Lemma decides_read p v : decides p v = false → read p v = None.
Proof.
  revert v. induction p as [|k p IH]; intros v; [by destruct v|]. destruct v; simpl; try done.
  destruct (Dict.get k o) as [x|]; simpl; [apply IH|done].
Qed.

Lemma merge_value_obj layer held : merge_value (Some (JObj held)) (JObj layer) = JObj (merge_layer held layer).
Proof.
  simpl. f_equal. unfold merge_layer. revert held.
  induction layer as [|[k v] layer IH]; intros held; [done|]. simpl. by rewrite <- IH.
Qed.

Lemma get_merge_layer k held layer : Dict.wf layer →
  Dict.get k (merge_layer held layer) =
    match Dict.get k layer with
    | Some v => Some (merge_value (Dict.get k held) v)
    | None => Dict.get k held
    end.
Proof.
  unfold merge_layer, Dict.wf. revert held. induction layer as [|[k0 v0] layer IH]; intros held; simpl; [done|].
  intros [Hk Hd]%NoDup_cons. rewrite IH, !Dict.get_set by done.
  destruct (decide (k = k0)) as [->|]; [|done]. by apply Dict.get_None in Hk as ->.
Qed.

Lemma read_merge_value p old v : wf_json v →
  read p (merge_value old v) = if decides p v then read p v else old ≫= read p.
Proof.
  revert old v. induction p as [|k p IH]; intros old v Hv.
  { destruct v; try done. by destruct old as [[]|]. }
  assert (∀ o, v = JObj o → read (k :: p) v = if decides (k :: p) v then read (k :: p) v else None) as Hown.
  { intros o ->. destruct (decides (k :: p) (JObj o)) eqn:E; [done|]. by apply decides_read. }
  destruct v as [| | | | |layer]; try done. specialize (Hown layer eq_refl).
  destruct old as [[| | | | |held]|]; try done. rewrite merge_value_obj. simpl in *.
  rewrite get_merge_layer by apply Hv. destruct (Dict.get k layer) as [x|] eqn:Ex; [|done].
  simpl. rewrite IH by (by eapply wf_json_get). by destruct (decides p x).
Qed.

Lemma read_merge_layer k p result layer : wf_json (JObj layer) →
  read (k :: p) (JObj (merge_layer result layer)) =
    if decides (k :: p) (JObj layer) then read (k :: p) (JObj layer) else read (k :: p) (JObj result).
Proof. intros H. rewrite <- merge_value_obj, read_merge_value by done. done. Qed.

Lemma read_deep_merge layers k p :
  Forall (λ l, wf_json (JObj l)) layers →
  read (k :: p) (JObj (deep_merge layers)) = last_wins layers (k :: p).
Proof.
  unfold deep_merge, last_wins. induction layers as [|l layers IH] using rev_ind; [done|].
  rewrite Forall_app, Forall_singleton. intros [Hls Hl].
  rewrite foldl_app, fmap_app, reverse_app. simpl foldl. rewrite read_merge_layer, IH by done.
  cbn [fmap list_fmap reverse rev_append app List.find].
  by destruct (decides (k :: p) (JObj l)).
Qed.

(** C27: merging configuration layers agrees with the reference reading: the
    value under any path of keys is the one of the last layer that decides the
    path, where a layer decides it by holding a value there or by holding
    something other than a mapping on the way; mappings merge key by key at
    every depth. *)
Theorem deep_merge_last_wins layers k p :
  Forall (λ l, wf_json (JObj l)) layers →
  read (k :: p) (JObj (deep_merge layers)) = last_wins layers (k :: p).
Proof. apply read_deep_merge. Qed.

Definition ex_layers : list (dict json) :=
  [[("a", JInt 1); ("nested", JObj [("x", JInt 1)])]; [("a", JInt 2); ("nested", JObj [("y", JInt 2)])]].

Lemma deep_merge_last_wins_witness :
  deep_merge ex_layers = [("a", JInt 2); ("nested", JObj [("x", JInt 1); ("y", JInt 2)])] ∧
  read ["nested"; "x"] (JObj (deep_merge ex_layers)) = last_wins ex_layers ["nested"; "x"].
Proof.
  split; [vm_compute; reflexivity|]. apply (deep_merge_last_wins ex_layers "nested" ["x"]).
  repeat constructor; try (apply (bool_decide_unpack _); vm_compute; exact I).
Defined.

(** ** Secrets *)

(** No dictionary of the document has a secret-looking key. *)
Fixpoint clean (v : json) : bool :=
  match v with
  | JObj o => forallb (λ kv, negb (is_secret_key kv.1)) o &&
      (fix go (o : dict json) : bool := match o with [] => true | (_, v) :: o' => clean v && go o' end) o
  | JArr l => forallb clean l
  | _ => true
  end.

Lemma strip_obj o :
  strip_secrets (JObj o) =
    JObj (Dict.mapv strip_secrets (List.filter (λ kv, negb (is_secret_key kv.1)) o)).
Proof.
  simpl. f_equal. induction o as [|[k v] o IH]; [done|]. simpl.
  destruct (is_secret_key k); simpl; [done|]. by rewrite <- IH.
Qed.

Lemma clean_obj o :
  clean (JObj o) = true ↔ ∀ k v, (k, v) ∈ o → is_secret_key k = false ∧ clean v = true.
Proof.
  simpl. induction o as [|[k0 v0] o IH]; simpl; [set_solver|].
  assert (forallb (λ kv, negb (is_secret_key kv.1)) o && _ = true ↔ _) as IH' by exact IH.
  rewrite !andb_true_iff, negb_true_iff in *. split.
  - intros [[H1 H2] [H3 H4]] k v [[= -> ->]|Hin]%elem_of_cons; [done|]. by apply IH'.
  - intros H. destruct (H k0 v0) as [Hk Hv]; [left|]. destruct (proj2 IH') as [? ?]; [|done].
    intros k v Hin. apply H. by right.
Qed.

Lemma strip_clean v : clean (strip_secrets v) = true.
Proof.
  induction v as [| | | |l IH|o IH] using json_ind'; try done.
  - simpl. apply forallb_True_Forall, Forall_map. done.
  - rewrite strip_obj, clean_obj. intros k v Hin. apply list_elem_of_In, in_map_iff in Hin as ([k0 v0] & [= <- <-] & Hin).
    apply List.filter_In in Hin as [Hin Hk]. apply negb_true_iff in Hk. split; [done|].
    rewrite Forall_forall in IH. apply (IH (k0, v0)). by apply list_elem_of_In.
Qed.

Lemma strip_fixed v : clean v = true → strip_secrets v = v.
Proof.
  induction v as [| | | |l IH|o IH] using json_ind'; try done.
  - intros Hc. simpl. f_equal. apply forallb_True_Forall in Hc.
    induction l as [|x l IHl]; [done|]. apply Forall_cons in IH as [Hx IH]. apply Forall_cons in Hc as [Hcx Hc].
    simpl. rewrite Hx, IHl; done.
  - rewrite clean_obj. intros Hc. rewrite strip_obj. f_equal.
    induction o as [|[k v] o IHo]; [done|]. apply Forall_cons in IH as [Hv IH]. simpl.
    destruct (Hc k v) as [Hk Hcv]; [left|]. rewrite Hk. simpl in *. rewrite Hv by done. f_equal.
    apply IHo; [done|]. intros k' v' Hin. apply Hc. by right.
Qed.

Lemma get_strip k o :
  Dict.get k (Json.as_dict (strip_secrets (JObj o))) =
    if is_secret_key k then None else strip_secrets <$> Dict.get k o.
Proof.
  rewrite strip_obj. cbn [Json.as_dict]. rewrite Dict.get_mapv.
  rewrite (Dict.get_filter k (λ k, negb (is_secret_key k)) o). by destruct (is_secret_key k).
Qed.

Lemma read_strip p v :
  read p (strip_secrets v) =
    if existsb is_secret_key p then None else fmap (M:=option) strip_secrets <$> read p v.
Proof.
  revert v. induction p as [|k p IH]; intros v; [by destruct v|].
  destruct v as [| | | | |o]; try (simpl; by destruct (_ || _)).
  change (read (k :: p) (strip_secrets (JObj o))) with
    (Dict.get k (Json.as_dict (strip_secrets (JObj o))) ≫= read p).
  rewrite get_strip. simpl. destruct (is_secret_key k); [done|]. simpl.
  destruct (Dict.get k o) as [x|]; simpl; [apply IH|]. by destruct (existsb _ _).
Qed.

(** Stripping leaves no secret-looking key at any depth, lists included;
    it changes nothing in a document that has none, so stripping again is the
    identity; and under every path without a secret-looking key the value is
    kept. *)
Theorem strip_secrets_spec v :
  clean (strip_secrets v) = true ∧ strip_secrets (strip_secrets v) = strip_secrets v ∧
  (clean v = true → strip_secrets v = v) ∧
  ∀ p, read p (strip_secrets v) =
         if existsb is_secret_key p then None else fmap (M:=option) strip_secrets <$> read p v.
Proof.
  split_and!; [apply strip_clean|apply strip_fixed, strip_clean|apply strip_fixed|intros p; apply read_strip].
Qed.

(** ** security.py *)

Definition sanitize_mapping (value : option (dict json)) : dict json := strip_dict (default [] value).

(** The graph a version stores. *)
Definition sanitize_workflow_graph (graph : WorkflowGraph) : result WorkflowGraph :=
  parsed ← model_validate graph;
  model_validate (parsed
    <| wg_nodes ::= map (λ n, n <| gn_config := sanitize_mapping (Some (gn_config n)) |>) |>
    <| wg_metadata := sanitize_mapping (Some (wg_metadata parsed)) |>).

Lemma strip_dict_clean o : clean (JObj (strip_dict o)) = true.
Proof.
  unfold strip_dict. pose proof (strip_clean (JObj o)) as H. rewrite strip_obj in *. exact H.
Qed.

Lemma strip_dict_fixed o : strip_dict (strip_dict o) = strip_dict o.
Proof.
  unfold strip_dict at 1. rewrite strip_fixed; [done|]. apply strip_dict_clean.
Qed.

(** A graph the service would store as it is: validated, and without secrets. *)
Definition stable (g : WorkflowGraph) : Prop :=
  model_validate g = Ok g ∧ Forall (λ n, strip_dict (gn_config n) = gn_config n) (wg_nodes g) ∧
  strip_dict (wg_metadata g) = wg_metadata g.

Lemma sanitize_stable g p : sanitize_workflow_graph g = Ok p → stable p.
Proof.
  unfold sanitize_workflow_graph, mbind, result_bind. destruct (model_validate g) as [parsed|]; [|done].
  intros Hp. split; [by eapply model_validate_fixed|]. revert Hp.
  unfold model_validate, mbind, result_bind. destruct (_ <? _)%Z; [done|].
  destruct (rmap validate_node _) as [ns|] eqn:En; [|done]. destruct (rmap validate_edge _); [|done].
  intros [= <-]. cbn. split; [|apply strip_dict_fixed].
  apply rmap_Ok_Forall2 in En. cbn in En. apply Forall_forall. intros n Hn.
  destruct (Forall2_elem_r _ _ _ En n Hn) as (n0 & Hin & Hv).
  apply list_elem_of_In, in_map_iff in Hin as (n1 & <- & _). unfold validate_node, mbind, result_bind in Hv.
  repeat (case_match; [|done]). case_match; [done|]. injection Hv as <-. apply strip_dict_fixed.
Qed.

Lemma stable_sanitize g : stable g → sanitize_workflow_graph g = Ok g.
Proof.
  intros (Hv & Hn & Hm). unfold sanitize_workflow_graph, mbind, result_bind. rewrite Hv.
  change (sanitize_mapping (Some (wg_metadata g))) with (strip_dict (wg_metadata g)). rewrite Hm.
  assert (map (λ n, n <| gn_config := sanitize_mapping (Some (gn_config n)) |>) (wg_nodes g) = wg_nodes g) as E.
  { induction Hn as [|n l Hx _ IH]; [done|]. cbn [map]. rewrite IH. f_equal.
    change (sanitize_mapping (Some (gn_config n))) with (strip_dict (gn_config n)). rewrite Hx. by destruct n. }
  replace (_ <| wg_metadata := _ |>) with g; [done|]. destruct g. cbn in E |- *. by rewrite E.
Qed.

Lemma get_strip_secret k o : is_secret_key k = true → Dict.get k (strip_dict o) = None.
Proof. intros H. unfold strip_dict. by rewrite get_strip, H. Qed.

(** The layers of a run as the resolver computes them. *)
Lemma layers_clean brand profile automation targets accounts links inputs payload config l :
  l ∈ [brand_layer brand profile; (automation_layers automation).1; (automation_layers automation).2;
       (account_layers targets accounts links).1; (account_layers targets accounts links).2;
       run_layer inputs payload config] →
  ∃ o, l = strip_dict o.
Proof.
  assert (∃ o, (automation_layers automation).1 = strip_dict o) as H1
    by (destruct automation; [by eexists|by exists []]).
  assert (∃ o, (automation_layers automation).2 = strip_dict o) as H2
    by (destruct automation; [by eexists|by exists []]).
  rewrite !elem_of_cons. intros [->|[->|[->|[->|[->|[->|[]%not_elem_of_nil]]]]]]; by eauto.
Qed.

Lemma get_aliased k payload :
  Dict.get k (apply_key_aliases payload) =
    if decide (k = "max_tokens") then
      match Dict.get k payload with Some v => Some v | None => Dict.get "max_length" payload end
    else Dict.get k payload.
Proof.
  unfold apply_key_aliases, apply_alias, Dict.mem. cbn [KEY_ALIASES foldl fst snd].
  destruct (decide (k = "max_tokens")) as [->|Hne].
  - destruct (Dict.get "max_length" payload) as [v|]; [|by destruct (Dict.get "max_tokens" payload)].
    case_bool_decide as H; [by destruct H as [x ->]|].
    rewrite Dict.get_set_eq. destruct (Dict.get "max_tokens" payload); [|done]. by destruct H.
  - destruct (Dict.get "max_length" payload); [|done]. case_bool_decide; [done|]. by apply Dict.get_set_ne.
Qed.

Lemma validate_node_config n n' : validate_node n = Ok n' → gn_config n' = gn_config n.
Proof.
  unfold validate_node, mbind, result_bind. destruct (bounded_text (gn_id n)) as [i|]; [|done].
  destruct (strip_nonempty i); [|done]. destruct (bounded_text (gn_type n)) as [t|]; [|done].
  destruct (strip_nonempty t); [|done]. destruct (_ <? _)%Z; [done|]. by intros [= <-].
Qed.

(** The key max_tokens counts as a secret, so no brand, automation, account
    or run layer can set it: whatever a layer says under that name, the value
    that takes part in the merge is the one of its alias max_length.  A graph
    that was saved as a version has lost it as well. *)
Theorem max_tokens_is_stripped :
  (∀ brand profile automation targets accounts links inputs payload config l,
     l ∈ [brand_layer brand profile; (automation_layers automation).1; (automation_layers automation).2;
          (account_layers targets accounts links).1; (account_layers targets accounts links).2;
          run_layer inputs payload config] →
     Dict.get "max_tokens" (apply_key_aliases l) = Dict.get "max_length" l) ∧
  (∀ graph stored, sanitize_workflow_graph graph = Ok stored →
     ∀ n, n ∈ wg_nodes stored → Dict.get "max_tokens" (gn_config n) = None).
Proof.
  split.
  - intros * [o ->]%layers_clean. by rewrite get_aliased, get_strip_secret by (vm_compute; reflexivity).
  - intros graph stored. unfold sanitize_workflow_graph, mbind, result_bind.
    destruct (model_validate graph) as [parsed|]; [|done]. unfold model_validate.
    destruct (_ <? _)%Z; [done|]. unfold mbind, result_bind.
    destruct (rmap validate_node _) as [nodes|] eqn:En; [|done].
    destruct (rmap validate_edge _); [|done]. intros [= <-] n Hn. cbn in Hn.
    apply rmap_Ok_Forall2 in En. destruct (Forall2_elem_r _ _ _ En n Hn) as (n0 & Hin & Hv).
    cbn in Hin. apply list_elem_of_In, in_map_iff in Hin as (n1 & <- & _).
    rewrite (validate_node_config _ _ Hv). by apply get_strip_secret.
Qed.

(** ** The configuration of a node *)

Lemma get_pick_allowed k o allowed :
  Dict.get k (pick_allowed_keys o allowed) = if bool_decide (k ∈ allowed) then Dict.get k o else None.
Proof. exact (Dict.get_filter k (λ k', bool_decide (k' ∈ allowed)) o). Qed.

(** A node is configured by what validates after the merge: a field of its
    schema has, at every depth, the value of the last of the documented layers
    that decides it (schema defaults, graph, brand, automation, automation per
    node, account, account per node, run), and nothing outside the schema gets
    through. *)
Theorem resolve_node_config_spec r node_type version l impl defaults :
  get node_type (Some version) r = Ok impl → wn_config_defaults impl = Ok defaults →
  Forall (λ o, wf_json (JObj o)) (defaults :: (apply_key_aliases <$> layers_of l)) →
  ∃ merged, resolve_node_config r node_type version l = wn_validate_config impl merged ∧
    ∀ k p, read (k :: p) (JObj merged) =
      if bool_decide (k ∈ wn_config_fields impl)
      then last_wins (defaults :: (apply_key_aliases <$> layers_of l)) (k :: p) else None.
Proof.
  intros Hg Hd Hwf. unfold resolve_node_config, mbind, result_bind. rewrite Hg, Hd.
  eexists. split; [done|]. intros k p. cbn [read]. rewrite get_pick_allowed.
  case_bool_decide; [|done]. by apply (read_deep_merge _ k p).
Qed.

Definition ex_text : WorkflowNode := {|
  wn_type := "generate_text"; wn_version := 1; wn_category := "ai_content";
  wn_implementation_status := STABLE; wn_input_ports := []; wn_output_ports := [];
  wn_required_capabilities := ["llm"]; wn_may_pause := false; wn_retry_policy := default_retry_policy;
  wn_config_defaults := Ok [("max_tokens", JInt 800); ("task", JStr "default"); ("tone", JNull)];
  wn_config_fields := ["max_tokens"; "task"; "tone"];
  wn_validate_config := Ok; wn_validate_inputs := Ok; wn_validate_output := Ok;
  wn_execute := λ _ _ _, Raise (OtherException "RuntimeError" "no provider") |}.

(** A run that asks for 100 tokens gets the default; one that asks for a length
    of 100 gets it. *)
Definition ex_node_layers (k : string) : NodeLayers := {|
  nl_graph_config := []; nl_brand := [("tone", JStr "dry"); ("niche", JStr "chess")];
  nl_automation := [("tone", JStr "warm")]; nl_automation_node := []; nl_account := [];
  nl_account_node := []; nl_run := run_layer [] [] [(k, JInt 100)] |}.

Lemma resolve_node_config_spec_witness :
  (∃ merged, resolve_node_config [("generate_text", [(1%Z, ex_text)])] "generate_text" 1 (ex_node_layers "max_length")
       = wn_validate_config ex_text merged ∧ read ["tone"] (JObj merged) = Some (Some (JStr "warm"))) ∧
  resolve_node_config [("generate_text", [(1%Z, ex_text)])] "generate_text" 1 (ex_node_layers "max_length") =
    Ok [("max_tokens", JInt 100); ("task", JStr "default"); ("tone", JStr "warm")] ∧
  resolve_node_config [("generate_text", [(1%Z, ex_text)])] "generate_text" 1 (ex_node_layers "max_tokens") =
    Ok [("max_tokens", JInt 800); ("task", JStr "default"); ("tone", JStr "warm")].
Proof.
  split_and!; [|vm_compute; reflexivity..].
  destruct (resolve_node_config_spec [("generate_text", [(1%Z, ex_text)])] "generate_text" 1
    (ex_node_layers "max_length") ex_text [("max_tokens", JInt 800); ("task", JStr "default"); ("tone", JNull)])
    as (merged & H1 & H2).
  - reflexivity.
  - reflexivity.
  - repeat constructor; try (apply (bool_decide_unpack _); vm_compute; exact I).
  - exists merged. split; [exact H1|]. rewrite H2. vm_compute. reflexivity.
Defined.

End Config.
