(* ===== verification/Bindings.v ===== *)
(** * Authorization of run bindings (runtime_bindings.py,
    automation_integrity.py, security.py, publishing/account_selection.py)

    The automation, the brand and the social accounts a run is started with
    must belong to the tenant; automations also need a version of their
    definition and accounts linked to their brand. *)
From S2P Require Import Prelude PyStr Json Capabilities Tables.

Module Bindings.
Import Caps Tables.
Local Open Scope string_scope.
Local Open Scope list_scope.

Definition require_automation_for_tenant (tenant_id automation_id : string) (t : Tables)
    : result Automation :=
  match find_automation tenant_id automation_id t with
  | Some a => mret a
  | None => Raise (HTTPException 400 "Automation not found, deleted, or not in this tenant")
  end.

Definition require_active_brand (tenant_id brand_id : string) (t : Tables) : result Brand :=
  match find_brand tenant_id brand_id t with
  | Some b => mret b
  | None => Raise (HTTPException 400 "Brand not found, deleted, or not in this tenant")
  end.

Definition require_version_for_definition (tenant_id definition_id version_id : string)
    (require_published : bool) (t : Tables) : result WorkflowVersion :=
  match get_version tenant_id version_id t with
  | None => Raise (HTTPException 400 "Workflow version not found")
  | Some v =>
      if negb (bool_decide (wv_workflow_definition_id v = definition_id)) then
        Raise (HTTPException 400 "Workflow version does not belong to the selected definition")
      else if require_published && match wv_published_at v with None => true | Some _ => false end then
        Raise (HTTPException 400 "Workflow version is not published")
      else mret v
  end.

(** [assert_accounts_authorized]: every id was found, no account is
    quarantined, and none belongs to another tenant. *)
Definition assert_accounts_authorized (tenant_id : string) (requested_ids : list string)
    (found : list SocialAccount) : result unit :=
  let denied ids := Raise (HTTPException 403 ("Unauthorized or unknown social_account_ids: " +:+
                                              PyStr.join ", " ids)) in
  match List.filter (λ i, negb (bool_decide (i ∈ sa_id <$> found))) requested_ids with
  | (_ :: _) as missing => denied missing
  | [] =>
      match List.filter (λ a, bool_decide (sa_status a = "quarantined")) found with
      | (_ :: _) as quarantined =>
          Raise (HTTPException 400 ("Quarantined social_account_ids cannot be selected: " +:+
                                    PyStr.join ", " (sa_id <$> quarantined)))
      | [] =>
          match List.filter (λ a, negb (bool_decide (sa_tenant_id a = tenant_id))) found with
          | (_ :: _) as foreign => denied (sa_id <$> foreign)
          | [] => mret ()
          end
      end
  end.

Definition authorize_social_account_ids (tenant_id : string) (ids : list string) (t : Tables)
    : result unit :=
  match ids with
  | [] => mret ()
  | _ => assert_accounts_authorized tenant_id ids (get_social_accounts_by_ids tenant_id ids t)
  end.

Definition authorize_brand_linked_accounts (tenant_id brand_id : string) (ids : list string)
    (allow_unlinked_targets : bool) (t : Tables) : result unit :=
  _ ← authorize_social_account_ids tenant_id ids t;
  if match ids with [] => true | _ => false end || allow_unlinked_targets then mret ()
  else
    let linked := bsa_social_account_id <$> brand_links tenant_id brand_id ids t in
    match List.filter (λ i, negb (bool_decide (i ∈ linked))) ids with
    | [] => mret ()
    | missing => Raise (HTTPException 400
        ("Social accounts must be linked to the automation brand via BrandSocialAccount " +:+
         "(strict by default): " +:+ PyStr.join ", " missing))
    end.

Definition authorize_runtime_bindings (tenant_id : string) (automation_id brand_id : option string)
    (social_account_ids : list string) (t : Tables) : result unit :=
  automation ← match automation_id with
               | Some i => a ← require_automation_for_tenant tenant_id i t; mret (Some a)
               | None => mret None end;
  _ ← match brand_id with
      | None => mret ()
      | Some b =>
          _ ← require_active_brand tenant_id b t;
          match automation with
          | Some a => if bool_decide (au_brand_id a = b) then mret ()
                      else Raise (HTTPException 400 "brand_id does not match the selected automation brand")
          | None => mret ()
          end
      end;
  authorize_social_account_ids tenant_id social_account_ids t.

(** ** What an authorized account is *)

(** A live account of the tenant that is not quarantined. *)
Definition usable (tenant_id i : string) (t : Tables) : Prop :=
  ∃ a, a ∈ tb_accounts t ∧ sa_id a = i ∧ sa_tenant_id a = tenant_id ∧ sa_deleted_at a = None ∧
       sa_status a ≠ "quarantined".

Lemma get_accounts_elem tenant_id ids t a :
  a ∈ get_social_accounts_by_ids tenant_id ids t →
  a ∈ tb_accounts t ∧ sa_tenant_id a = tenant_id ∧ sa_deleted_at a = None ∧ sa_id a ∈ ids.
Proof.
  unfold get_social_accounts_by_ids, live. destruct ids as [|i ids]; [intros []%not_elem_of_nil|].
  rewrite list_elem_of_In, List.filter_In, !andb_true_iff, !bool_decide_eq_true, <- list_elem_of_In.
  intros (? & [? Hd] & ?). by destruct (sa_deleted_at a).
Qed.

Lemma filter_nil {A} (p : A → bool) l x : List.filter p l = [] → x ∈ l → p x = false.
Proof.
  intros H Hx. destruct (p x) eqn:E; [|done].
  assert (In x (List.filter p l)) as Hin by (apply List.filter_In; by rewrite <- list_elem_of_In).
  by rewrite H in Hin.
Qed.

Lemma authorize_usable tenant_id ids t :
  authorize_social_account_ids tenant_id ids t = Ok () → ∀ i, i ∈ ids → usable tenant_id i t.
Proof.
  unfold authorize_social_account_ids, assert_accounts_authorized. destruct ids as [|i0 ids0]; [set_solver|].
  set (ids := i0 :: ids0). set (found := get_social_accounts_by_ids _ _ _).
  destruct (List.filter _ ids) eqn:Hm; [|done]. destruct (List.filter _ found) eqn:Hq; [|done].
  intros _ i Hi. pose proof (filter_nil _ _ _ Hm Hi) as Hf%negb_false_iff%bool_decide_eq_true.
  apply list_elem_of_fmap in Hf as (a & -> & Ha).
  pose proof (filter_nil _ _ _ Hq Ha) as Hs%bool_decide_eq_false.
  apply get_accounts_elem in Ha as (? & ? & ? & _). by exists a.
Qed.

(** Bindings that pass are a live automation of the tenant, a live brand that is
    the automation's when both are given, and usable accounts. *)
Lemma authorize_runtime_bindings_Ok tenant_id automation_id brand_id ids t :
  authorize_runtime_bindings tenant_id automation_id brand_id ids t = Ok () →
  (∀ i, automation_id = Some i → ∃ a, find_automation tenant_id i t = Some a ∧
     ∀ b, brand_id = Some b → au_brand_id a = b) ∧
  (∀ b, brand_id = Some b → is_Some (find_brand tenant_id b t)) ∧
  ∀ i, i ∈ ids → usable tenant_id i t.
Proof.
  unfold authorize_runtime_bindings, require_automation_for_tenant, require_active_brand, mbind, result_bind.
  intros H. destruct automation_id as [i|].
  - destruct (find_automation tenant_id i t) as [a|] eqn:Ha; [|done]. cbn in H.
    destruct brand_id as [b|].
    + destruct (find_brand tenant_id b t) eqn:Hb; [|done]. cbn in H.
      case_bool_decide; [|done]. split_and!; [|naive_solver|by apply authorize_usable].
      intros ? [= <-]. exists a. split; [done|]. congruence.
    + split_and!; [|done|by apply authorize_usable]. intros ? [= <-]. by exists a.
  - cbn in H. split; [done|]. destruct brand_id as [b|]; [|split; [done|by apply authorize_usable]].
    destruct (find_brand tenant_id b t) eqn:Hb; [|done]. cbn in H.
    split; [naive_solver|by apply authorize_usable].
Qed.

(** Accounts an automation may use: usable and linked to its brand, unless
    links are waived. *)
Lemma authorize_brand_linked_Ok tenant_id brand_id ids allow t :
  authorize_brand_linked_accounts tenant_id brand_id ids allow t = Ok () → ∀ i, i ∈ ids →
  usable tenant_id i t ∧ (allow = false → i ∈ bsa_social_account_id <$> brand_links tenant_id brand_id ids t).
Proof.
  unfold authorize_brand_linked_accounts, mbind, result_bind.
  destruct (authorize_social_account_ids tenant_id ids t) as [[]|] eqn:Ha; [|done]. intros H i Hi.
  split; [by eapply authorize_usable|]. intros ->. destruct ids as [|i0 ids0]; [set_solver|].
  cbn [orb] in H. destruct (List.filter _ (i0 :: ids0)) eqn:Hf; [|done].
  by apply (filter_nil _ _ _ Hf) in Hi as ?%negb_false_iff%bool_decide_eq_true.
Qed.

Lemma require_version_Ok tenant_id definition_id version_id t v :
  require_version_for_definition tenant_id definition_id version_id true t = Ok v →
  get_version tenant_id version_id t = Some v ∧ wv_workflow_definition_id v = definition_id ∧
  is_Some (wv_published_at v).
Proof.
  unfold require_version_for_definition. destruct (get_version _ _ _) as [w|]; [|done].
  destruct (bool_decide (wv_workflow_definition_id w = definition_id)) eqn:E; [|done]. cbn [negb andb].
  destruct (wv_published_at w) eqn:Ep; [|done]. intros [= <-]. split_and!; [done| |by eexists].
  by apply bool_decide_eq_true in E.
Qed.

Lemma require_brand_Ok tenant_id brand_id t b :
  require_active_brand tenant_id brand_id t = Ok b → is_Some (find_brand tenant_id brand_id t).
Proof. unfold require_active_brand. by destruct (find_brand _ _ _). Qed.

End Bindings.
