(* ===== verification/RunModels.v ===== *)
(** * Durable execution state (run_models.py, occurrence_models.py)

    The rows of the workflow tables, with every column, and the store that
    holds them.  Ids are canonical UUID texts; instants are microseconds since
    the epoch; a table lists its rows in order of creation. *)
From S2P Require Import Prelude PyStr Json.

Module Models.
Local Open Scope string_scope.
Local Open Scope list_scope.

Inductive RunStatus :=
  | RUN_QUEUED | RUN_RUNNING | RUN_WAITING | RUN_SUCCEEDED | RUN_FAILED | RUN_CANCELLED.

Inductive NodeStatus :=
  | PENDING | READY | QUEUED | RUNNING | WAITING | SUCCEEDED | FAILED | SKIPPED | CANCELLED.

Inductive WaitStatus := WAIT_PENDING | WAIT_RESOLVED | WAIT_CANCELLED.
Inductive WaitType := DELAY | EVENT.
Inductive OccurrenceStatus := OCC_CLAIMED | OCC_STARTED | OCC_SUCCEEDED | OCC_SKIPPED | OCC_FAILED.

#[global] Instance RunStatus_eq_dec : EqDecision RunStatus.
Proof. solve_decision. Defined.
#[global] Instance NodeStatus_eq_dec : EqDecision NodeStatus.
Proof. solve_decision. Defined.
#[global] Instance WaitStatus_eq_dec : EqDecision WaitStatus.
Proof. solve_decision. Defined.
#[global] Instance WaitType_eq_dec : EqDecision WaitType.
Proof. solve_decision. Defined.
#[global] Instance OccurrenceStatus_eq_dec : EqDecision OccurrenceStatus.
Proof. solve_decision. Defined.

(** The text the status column stores. *)
Definition node_status_value (s : NodeStatus) : string :=
  match s with
  | PENDING => "pending" | READY => "ready" | QUEUED => "queued" | RUNNING => "running"
  | WAITING => "waiting" | SUCCEEDED => "succeeded" | FAILED => "failed" | SKIPPED => "skipped"
  | CANCELLED => "cancelled"
  end.

Definition run_status_value (s : RunStatus) : string :=
  match s with
  | RUN_QUEUED => "queued" | RUN_RUNNING => "running" | RUN_WAITING => "waiting"
  | RUN_SUCCEEDED => "succeeded" | RUN_FAILED => "failed" | RUN_CANCELLED => "cancelled"
  end.

Definition run_terminal (s : RunStatus) : bool :=
  match s with RUN_SUCCEEDED | RUN_FAILED | RUN_CANCELLED => true | _ => false end.

Record WorkflowRun := {
  wr_id : string;
  wr_tenant_id : string;
  wr_automation_id : option string;
  wr_workflow_definition_id : string;
  wr_workflow_version_id : string;
  wr_brand_id : option string;
  wr_trigger_type : string;
  wr_trigger_payload : dict json;
  wr_status : RunStatus;
  wr_context_snapshot : dict json;
  wr_started_at : option Z;
  wr_finished_at : option Z;
  wr_error_message : option string;
  wr_correlation_id : option string;
}.
#[global] Instance eta_WorkflowRun : Settable WorkflowRun :=
  mk_settable _ (λ r, Build_WorkflowRun (wr_id r) (wr_tenant_id r) (wr_automation_id r)
    (wr_workflow_definition_id r) (wr_workflow_version_id r) (wr_brand_id r) (wr_trigger_type r)
    (wr_trigger_payload r) (wr_status r) (wr_context_snapshot r) (wr_started_at r)
    (wr_finished_at r) (wr_error_message r) (wr_correlation_id r)).

Record WorkflowNodeRun := {
  nr_id : string;
  nr_tenant_id : string;
  nr_workflow_run_id : string;
  nr_node_id : string;
  nr_iteration_key : string;
  nr_node_type : string;
  nr_node_version : Z;
  nr_status : NodeStatus;
  nr_attempt : Z;
  nr_input_json : dict json;
  nr_output_json : dict json;
  nr_error_json : option (dict json);
  nr_task_execution_id : option string;
  nr_task_execution_ids : list string;
  nr_started_at : option Z;
  nr_finished_at : option Z;
  nr_waiting_reason : option string;
  nr_resume_token : option string;
  nr_claim_token : option string;
  nr_claim_expires_at : option Z;
  nr_claimed_at : option Z;
  nr_worker_task_id : option string;
  nr_next_attempt_at : option Z;
  nr_last_heartbeat_at : option Z;
  nr_execution_key : option string;
  nr_last_error : option string;
  nr_error_class : option string;
  nr_cancellation_requested : bool;
}.
#[global] Instance eta_WorkflowNodeRun : Settable WorkflowNodeRun :=
  mk_settable _ (λ r, Build_WorkflowNodeRun (nr_id r) (nr_tenant_id r) (nr_workflow_run_id r)
    (nr_node_id r) (nr_iteration_key r) (nr_node_type r) (nr_node_version r) (nr_status r)
    (nr_attempt r) (nr_input_json r) (nr_output_json r) (nr_error_json r) (nr_task_execution_id
    r) (nr_task_execution_ids r) (nr_started_at r) (nr_finished_at r) (nr_waiting_reason r)
    (nr_resume_token r) (nr_claim_token r) (nr_claim_expires_at r) (nr_claimed_at r)
    (nr_worker_task_id r) (nr_next_attempt_at r) (nr_last_heartbeat_at r) (nr_execution_key r)
    (nr_last_error r) (nr_error_class r) (nr_cancellation_requested r)).

Record WorkflowWait := {
  ww_id : string;
  ww_tenant_id : string;
  ww_workflow_run_id : string;
  ww_workflow_node_run_id : string;
  ww_resume_token : string;
  ww_wait_type : WaitType;
  ww_event_key : option string;
  ww_wake_at : option Z;
  ww_status : WaitStatus;
  ww_timeout_action : option string;
  ww_payload : dict json;
  ww_resolved_at : option Z;
  ww_resolved_outcome : option string;
}.
#[global] Instance eta_WorkflowWait : Settable WorkflowWait :=
  mk_settable _ (λ r, Build_WorkflowWait (ww_id r) (ww_tenant_id r) (ww_workflow_run_id r)
    (ww_workflow_node_run_id r) (ww_resume_token r) (ww_wait_type r) (ww_event_key r)
    (ww_wake_at r) (ww_status r) (ww_timeout_action r) (ww_payload r) (ww_resolved_at r)
    (ww_resolved_outcome r)).

Record AutomationOccurrence := {
  ao_id : string;
  ao_tenant_id : string;
  ao_automation_id : string;
  ao_scheduled_for : Z;
  ao_scheduled_occurrence : string;
  ao_workflow_run_id : option string;
  ao_status : OccurrenceStatus;
  ao_error_message : option string;
}.
#[global] Instance eta_AutomationOccurrence : Settable AutomationOccurrence :=
  mk_settable _ (λ r, Build_AutomationOccurrence (ao_id r) (ao_tenant_id r) (ao_automation_id r)
    (ao_scheduled_for r) (ao_scheduled_occurrence r) (ao_workflow_run_id r) (ao_status r)
    (ao_error_message r)).

(** A row of the task ledger (operations/models.py). *)
Record TaskExecution := {
  te_id : string;
  te_tenant_id : option string;
  te_task_name : string;
  te_queue_name : string;
  te_celery_task_id : option string;
  te_correlation_id : option string;
  te_status : string;
  te_progress : Z;
  te_attempt : Z;
  te_entity_type : option string;
  te_entity_id : option string;
  te_cancellable : bool;
  te_cancellation_requested : bool;
  te_cancelled_at : option Z;
  te_started_at : option Z;
  te_finished_at : option Z;
  te_payload : dict json;
  te_result : dict json;
  te_error_message : option string;
  te_created_at : Z;
}.
#[global] Instance eta_TaskExecution : Settable TaskExecution :=
  mk_settable _ (λ r, Build_TaskExecution (te_id r) (te_tenant_id r) (te_task_name r) (te_queue_name r)
    (te_celery_task_id r) (te_correlation_id r) (te_status r) (te_progress r) (te_attempt r)
    (te_entity_type r) (te_entity_id r) (te_cancellable r) (te_cancellation_requested r)
    (te_cancelled_at r) (te_started_at r) (te_finished_at r) (te_payload r) (te_result r)
    (te_error_message r) (te_created_at r)).

#[global] Instance TaskExecution_eq_dec : EqDecision TaskExecution.
Proof. solve_decision. Defined.
#[global] Instance WorkflowWait_eq_dec : EqDecision WorkflowWait.
Proof. solve_decision. Defined.
#[global] Instance WorkflowNodeRun_eq_dec : EqDecision WorkflowNodeRun.
Proof. solve_decision. Defined.

(** A fresh row, as [WorkflowNodeRun(...)] with the column defaults. *)
Definition new_node_run (id tenant_id run_id node_id node_type : string) (version : Z)
    (status : NodeStatus) (iteration_key : string) (input_json : dict json) : WorkflowNodeRun := {|
  nr_id := id; nr_tenant_id := tenant_id; nr_workflow_run_id := run_id; nr_node_id := node_id;
  nr_iteration_key := iteration_key; nr_node_type := node_type; nr_node_version := version;
  nr_status := status; nr_attempt := 0; nr_input_json := input_json; nr_output_json := [];
  nr_error_json := None; nr_task_execution_id := None; nr_task_execution_ids := [];
  nr_started_at := None; nr_finished_at := None; nr_waiting_reason := None;
  nr_resume_token := None; nr_claim_token := None; nr_claim_expires_at := None;
  nr_claimed_at := None; nr_worker_task_id := None; nr_next_attempt_at := None;
  nr_last_heartbeat_at := None; nr_execution_key := None; nr_last_error := None;
  nr_error_class := None; nr_cancellation_requested := false;
|}.

(** An approval request (approvals/models.py). *)
Inductive ApprovalStatus :=
  | APPROVAL_PENDING | APPROVAL_REVISION_REQUESTED | APPROVAL_APPROVED | APPROVAL_REJECTED
  | APPROVAL_EXPIRED.
#[global] Instance ApprovalStatus_eq_dec : EqDecision ApprovalStatus.
Proof. solve_decision. Defined.

Record ApprovalRequest := {
  ar_id : string;
  ar_tenant_id : string;
  ar_content_job_id : option string;
  ar_status : ApprovalStatus;
  ar_channel : string;
  ar_recipient : string;
  ar_provider : string;
  ar_provider_request_id : option string;
  ar_requested_at : option Z;
  ar_responded_at : option Z;
  ar_approved_by_user_id : option string;
  ar_revision_count : Z;
  ar_expires_at : option Z;
  ar_last_sent_at : option Z;
  ar_related_entity_type : option string;
  ar_related_entity_id : option string;
  ar_approval_type : string;
  ar_buttons_json : list string;
  ar_telegram_message_id : option string;
  ar_callback_verification_failures : Z;
  ar_callback_last_error : option string;
  ar_responded_by : option string;
  ar_response_payload_json : dict json;
  ar_created_at : Z;
}.
#[global] Instance eta_ApprovalRequest : Settable ApprovalRequest :=
  mk_settable _ (λ r, Build_ApprovalRequest (ar_id r) (ar_tenant_id r) (ar_content_job_id r) (ar_status r)
    (ar_channel r) (ar_recipient r) (ar_provider r) (ar_provider_request_id r) (ar_requested_at r)
    (ar_responded_at r) (ar_approved_by_user_id r) (ar_revision_count r) (ar_expires_at r) (ar_last_sent_at r)
    (ar_related_entity_type r) (ar_related_entity_id r) (ar_approval_type r) (ar_buttons_json r)
    (ar_telegram_message_id r) (ar_callback_verification_failures r) (ar_callback_last_error r)
    (ar_responded_by r) (ar_response_payload_json r) (ar_created_at r)).

(** Messages handed to the broker. *)
Inductive Task :=
  | ExecuteNodeTask (tenant_id run_id node_run_id claim_token : string)
  | AdvanceRunTask (tenant_id run_id : string) (countdown : Z)
  | ResumeNodeTask (tenant_id resume_token outcome : string) (decision : dict json) (countdown : Z)
  | RevokeTask (celery_task_id : string).

Record Store := {
  st_runs : list WorkflowRun;
  st_node_runs : list WorkflowNodeRun;
  st_waits : list WorkflowWait;
  st_occurrences : list AutomationOccurrence;
  st_task_executions : list TaskExecution;
  st_approvals : list ApprovalRequest;
  st_tasks : list Task;
  st_uuids : nat;  (* how many random ids were drawn *)
}.
#[global] Instance eta_Store : Settable Store :=
  mk_settable _ (λ r, Build_Store (st_runs r) (st_node_runs r) (st_waits r) (st_occurrences r)
    (st_task_executions r) (st_approvals r) (st_tasks r) (st_uuids r)).

Definition empty_store : Store := Build_Store [] [] [] [] [] [] [] 0.

(** ** Rows addressed by primary key *)

Section rows.
Context {R : Type} (key : R → string).

Definition row_by (id : string) (rows : list R) : option R :=
  List.find (λ r, bool_decide (key r = id)) rows.

(** Attribute assignments on the object with this id. *)
Definition set_row (id : string) (f : R → R) (rows : list R) : list R :=
  (λ r, if bool_decide (key r = id) then f r else r) <$> rows.

Lemma row_by_Some id rows r : row_by id rows = Some r → r ∈ rows ∧ key r = id.
Proof. intros [H1 H2]%find_Some_elem. by apply bool_decide_eq_true in H2. Qed.

Lemma row_by_elem id rows r :
  NoDup (key <$> rows) → r ∈ rows → key r = id → row_by id rows = Some r.
Proof.
  unfold row_by. induction rows as [|x rows IH]; simpl; [set_solver|].
  intros [Hx Hnd]%NoDup_cons [->|Hr]%elem_of_cons Hk.
  - by rewrite bool_decide_eq_true_2.
  - rewrite bool_decide_eq_false_2; [by apply IH|].
    intros Heq. apply Hx, list_elem_of_fmap. exists r. split; [congruence|done].
Qed.

Lemma set_row_keys id f rows :
  (∀ r, key (f r) = key r) → key <$> set_row id f rows = key <$> rows.
Proof.
  intros Hf. unfold set_row. rewrite <- list_fmap_compose. apply list_fmap_ext.
  intros ? r _. simpl. by case_bool_decide.
Qed.

Lemma set_row_length id f rows : length (set_row id f rows) = length rows.
Proof. apply length_fmap. Qed.

Lemma row_by_set_row id id' f rows :
  (∀ r, key (f r) = key r) →
  row_by id' (set_row id f rows) =
    if decide (id' = id) then f <$> row_by id rows else row_by id' rows.
Proof.
  intros Hf. unfold row_by, set_row. induction rows as [|r rows IH]; simpl; [by case_decide|].
  case_bool_decide as H; simpl; rewrite ?Hf; case_decide; subst;
    repeat case_bool_decide; simpl; naive_solver.
Qed.

(** Two assignments to one row are one. *)
Lemma set_row_set_row id f g rows :
  (∀ r, key (f r) = key r) → set_row id g (set_row id f rows) = set_row id (λ r, g (f r)) rows.
Proof.
  intros Hf. unfold set_row. rewrite <- list_fmap_compose. apply list_fmap_ext. intros ? r _. simpl.
  destruct (decide (key r = id)) as [E|E].
  - rewrite (bool_decide_eq_true_2 (key r = id)) by done. by rewrite Hf, bool_decide_eq_true_2.
  - rewrite (bool_decide_eq_false_2 (key r = id)) by done. by rewrite bool_decide_eq_false_2.
Qed.

(** The one row with an id is updated in its place. *)
Lemma set_row_split f l1 x l2 :
  NoDup (key <$> l1 ++ x :: l2) → set_row (key x) f (l1 ++ x :: l2) = l1 ++ f x :: l2.
Proof.
  intros Hnd. unfold set_row. rewrite fmap_app, fmap_cons, bool_decide_eq_true_2 by done.
  rewrite fmap_app, fmap_cons in Hnd. apply NoDup_app in Hnd as (_ & Hl1 & [Hl2 _]%NoDup_cons).
  assert (∀ l : list R, key x ∉ key <$> l →
            (λ r, if bool_decide (key r = key x) then f r else r) <$> l = l) as Hid.
  { intros l Hl. rewrite <- (list_fmap_id l) at 2. apply list_fmap_ext. intros i r Hr.
    rewrite bool_decide_eq_false_2; [done|]. intros E. apply Hl. rewrite <- E.
    apply list_elem_of_fmap_2. by eapply list_elem_of_lookup_2. }
  rewrite !Hid; [done|done|]. intros H. apply (Hl1 _ H). by left.
Qed.

(** A loop that updates, by id, each row of a snapshot. *)
Lemma foldl_set_row (g : R → R → R) nodes rows :
  (∀ n r, key (g n r) = key r) →
  NoDup (key <$> rows) → NoDup (key <$> nodes) → nodes ⊆ rows →
  ∃ rows', foldl (λ l n, set_row (key n) (g n) l) rows nodes = rows' ∧
    Forall2 (λ r r', (r ∈ nodes → r' = g r r) ∧ (r ∉ nodes → r' = r)) rows rows'.
Proof.
  intros Hg. revert rows. induction nodes as [|n nodes IH]; intros rows Hnd Hndn Hsub; simpl.
  { eexists. split; [done|]. apply Forall_Forall2_diag, Forall_forall. intros r _. split; [|done].
    intros H. by apply not_elem_of_nil in H. }
  rewrite fmap_cons in Hndn. apply NoDup_cons in Hndn as [Hnew Hndn].
  assert (∀ r, r ∈ nodes → key r ≠ key n) as Hne.
  { intros r Hr E. apply Hnew. rewrite <- E. by apply list_elem_of_fmap_2. }
  destruct (IH (set_row (key n) (g n) rows)) as (rows' & Heq & Hrel); try done.
  { by rewrite set_row_keys. }
  { intros r Hr. apply list_elem_of_fmap. exists r. split.
    - rewrite bool_decide_eq_false_2; [done|by apply Hne].
    - apply Hsub. by right. }
  exists rows'. split; [done|]. unfold set_row in Hrel. apply Forall2_fmap_l in Hrel.
  eapply Forall2_impl_in; [exact Hrel|]. intros r r' Hr Hr' [H1 H2].
  case_bool_decide as Hid.
  - assert (r = n) as ->.
    { assert (n ∈ rows) as Hin by (apply Hsub; left).
      pose proof (row_by_elem (key n) rows r Hnd Hr Hid).
      pose proof (row_by_elem (key n) rows n Hnd Hin eq_refl). congruence. }
    rewrite H2; [split; [done|]|].
    + intros H. destruct H. left.
    + intros H. apply Hne in H. by rewrite Hg in H.
  - split.
    + intros [->|H]%elem_of_cons; [done|]. by apply H1.
    + intros H. apply H2. intros Hin. apply H. by right.
Qed.
End rows.

Notation node_row := (row_by nr_id).
Notation set_node := (set_row nr_id).

End Models.
