(* ===== verification/NodeIndex.v ===== *)
(** * The node-run index (engine_node_index.py)

    The engine looks rows up by node id and by (node id, iteration key).
    [NodeRunIndex] is the indexed structure of the source; [bucket] is what it
    promises, computed from the rows, and the engine model uses the latter. *)
From S2P Require Import Prelude PyStr Json RunModels.

Module Index.
Import Models.
Local Open Scope string_scope.
Local Open Scope list_scope.

Notation rows := (list WorkflowNodeRun) (only parsing).

(** The sort key [((iteration_key or ""), str(id))]. *)
Definition row_le (a b : WorkflowNodeRun) : Prop :=
  if decide (nr_iteration_key a = nr_iteration_key b) then PyStr.str_le (nr_id a) (nr_id b)
  else PyStr.str_le (nr_iteration_key a) (nr_iteration_key b).
#[global] Instance row_le_dec a b : Decision (row_le a b).
Proof. unfold row_le. case_decide; apply _. Defined.

Definition sort_rows (l : rows) : rows := merge_sort row_le l.

(** ** The structure of the source *)

Record NodeRunIndex := {
  ix_rows : rows;
  ix_by_node : dict rows;
}.

Definition append_bucket (row : WorkflowNodeRun) (d : dict rows) : dict rows :=
  Dict.set (nr_node_id row) (default [] (Dict.get (nr_node_id row) d) ++ [row]) d.

(** [NodeRunIndex.__init__] *)
Definition index_of (l : rows) : NodeRunIndex := {|
  ix_rows := l;
  ix_by_node := Dict.mapv sort_rows (foldl (λ d r, append_bucket r d) [] l);
|}.

(** [NodeRunIndex.add] *)
Definition index_add (row : WorkflowNodeRun) (ix : NodeRunIndex) : NodeRunIndex := {|
  ix_rows := ix_rows ix ++ [row];
  ix_by_node :=
    let d := append_bucket row (ix_by_node ix) in
    Dict.set (nr_node_id row) (sort_rows (default [] (Dict.get (nr_node_id row) d))) d;
|}.

Definition of_node (node_id : string) (r : WorkflowNodeRun) : bool :=
  bool_decide (nr_node_id r = node_id).

(** The rows of one node in key order: what [_by_node] holds. *)
Definition bucket (node_id : string) (l : rows) : rows :=
  sort_rows (List.filter (of_node node_id) l).

Definition is_placeholder (r : WorkflowNodeRun) : bool := negb (PyStr.truthy (nr_iteration_key r)).

(** [__getitem__] / [get]: the placeholder row, else the first iteration. *)
Definition get (node_id : string) (l : rows) : option WorkflowNodeRun :=
  let b := bucket node_id l in
  match List.find is_placeholder b with
  | Some r => Some r
  | None => head b
  end.

Definition get_iteration (node_id key : string) (l : rows) : option WorkflowNodeRun :=
  List.find (λ r, bool_decide (nr_iteration_key r = key)) (bucket node_id l).

(** [iterations(node_id, include_placeholder=...)] *)
Definition iterations (node_id : string) (include_placeholder : bool) (l : rows) : rows :=
  let b := bucket node_id l in
  let real := List.filter (λ r, negb (is_placeholder r)) b in
  if bool_decide (real ≠ []) && negb include_placeholder then real
  else if include_placeholder then b
  else List.filter is_placeholder b.

(** [node_id in index] *)
Definition contains (node_id : string) (l : rows) : bool := existsb (of_node node_id) l.

Definition output_storage_key (node_id iteration_key : string) : string :=
  let key := PyStr.strip iteration_key in
  if PyStr.truthy key then node_id +:+ "#" +:+ key else node_id.

(** The stored output of one iteration row. *)
Definition row_output (node_outputs : dict json) (pid : string) (row : WorkflowNodeRun)
    : list (dict json) :=
  match Dict.get (output_storage_key pid (nr_iteration_key row)) node_outputs with
  | Some (JObj o) => [o]
  | _ => match nr_output_json row with [] => [] | o => [o] end
  end.

Definition upstream_of (node_outputs : dict json) (l : rows) (pid : string) : list (dict json) :=
  let iters := iterations pid false l in
  let expand := match iters with
                | [] => false
                | r :: rest => match rest with [] => negb (is_placeholder r) | _ => true end
                end in
  if expand then flat_map (row_output node_outputs pid) iters
  else match Dict.get pid node_outputs with Some (JObj o) => [o] | _ => [] end.

Definition collect_upstream_outputs (predecessor_ids : list string) (node_outputs : dict json)
    (l : rows) : list (dict json) :=
  flat_map (upstream_of node_outputs l) predecessor_ids.

(** ** Lookup lemmas *)

Lemma bucket_perm node_id l : bucket node_id l ≡ₚ List.filter (of_node node_id) l.
Proof. apply merge_sort_Permutation. Qed.

Lemma elem_of_bucket node_id l r : r ∈ bucket node_id l ↔ r ∈ l ∧ nr_node_id r = node_id.
Proof.
  rewrite bucket_perm, list_elem_of_In, List.filter_In, <- list_elem_of_In. unfold of_node.
  by rewrite bool_decide_eq_true.
Qed.

Lemma index_get_elem node_id l r : get node_id l = Some r → r ∈ l ∧ nr_node_id r = node_id.
Proof.
  unfold get. intros H. apply elem_of_bucket. destruct (List.find _ _) as [p|] eqn:E.
  - simplify_eq. by apply find_Some_elem in E as [? _].
  - destruct (bucket node_id l); simplify_eq/=. left.
Qed.

Lemma index_get_None node_id l : get node_id l = None ↔ ∀ r, r ∈ l → nr_node_id r ≠ node_id.
Proof.
  unfold get. split.
  - intros H r Hr Hn. assert (r ∈ bucket node_id l) as Hb by (by apply elem_of_bucket).
    destruct (List.find _ _); [done|]. destruct (bucket node_id l); [by apply not_elem_of_nil in Hb|done].
  - intros H. destruct (bucket node_id l) as [|r b] eqn:E; [done|].
    assert (r ∈ bucket node_id l) as Hr by (rewrite E; left).
    apply elem_of_bucket in Hr as [? ?]. by destruct (H r).
Qed.

Lemma contains_spec node_id l : contains node_id l = true ↔ is_Some (get node_id l).
Proof.
  unfold contains. rewrite <- not_eq_None_Some, index_get_None, existsb_True_Exists, Exists_exists.
  unfold of_node. split.
  - intros (r & Hr & Hb%bool_decide_eq_true) H. by apply (H r).
  - intros H. destruct (decide (Exists (λ r, nr_node_id r = node_id) l)) as [He|He].
    + apply Exists_exists in He as (r & ? & ?). exists r. split; [done|]. by apply bool_decide_eq_true.
    + exfalso. apply H. intros r Hr Heq. apply He, Exists_exists. by exists r.
Qed.

Lemma iterations_elem node_id b l r : r ∈ iterations node_id b l → r ∈ l ∧ nr_node_id r = node_id.
Proof.
  unfold iterations. intros H. apply elem_of_bucket. destruct (_ && _).
  - by apply list_elem_of_In, List.filter_In in H as [?%list_elem_of_In _].
  - destruct b; [done|]. by apply list_elem_of_In, List.filter_In in H as [?%list_elem_of_In _].
Qed.

Lemma iterations_all node_id l r :
  r ∈ iterations node_id true l ↔ r ∈ l ∧ nr_node_id r = node_id.
Proof. unfold iterations. rewrite andb_false_r. apply elem_of_bucket. Qed.

(** ** Updates that keep the keys of a row *)

(** [f] assigns attributes other than the id, the node and the iteration. *)
Definition keeps_keys (f : WorkflowNodeRun → WorkflowNodeRun) : Prop :=
  ∀ r, nr_id (f r) = nr_id r ∧ nr_node_id (f r) = nr_node_id r ∧
       nr_iteration_key (f r) = nr_iteration_key r.

Section keyed.
Context (f : WorkflowNodeRun → WorkflowNodeRun) (Hf : keeps_keys f).

Lemma filter_fmap_same (p : WorkflowNodeRun → bool) l :
  (∀ r, p (f r) = p r) → List.filter p (f <$> l) = f <$> List.filter p l.
Proof.
  intros Hp. induction l as [|r l IH]; [done|]. rewrite fmap_cons. cbn [List.filter].
  rewrite Hp, IH. by destruct (p r).
Qed.

Lemma find_fmap_same (p : WorkflowNodeRun → bool) l :
  (∀ r, p (f r) = p r) → List.find p (f <$> l) = f <$> List.find p l.
Proof.
  intros Hp. induction l as [|r l IH]; [done|]. rewrite fmap_cons. cbn [List.find].
  rewrite Hp, IH. by destruct (p r).
Qed.

Lemma is_placeholder_keyed r : is_placeholder (f r) = is_placeholder r.
Proof. unfold is_placeholder. by destruct (Hf r) as (_ & _ & ->). Qed.

Lemma bucket_fmap node_id l : bucket node_id (f <$> l) = f <$> bucket node_id l.
Proof.
  unfold bucket, sort_rows. rewrite filter_fmap_same.
  - apply merge_sort_fmap. intros x y. unfold row_le.
    destruct (Hf x) as (-> & _ & ->), (Hf y) as (-> & _ & ->). done.
  - intros r. unfold of_node. by destruct (Hf r) as (_ & -> & _).
Qed.

Lemma get_fmap node_id l : get node_id (f <$> l) = f <$> get node_id l.
Proof.
  unfold get. rewrite bucket_fmap, find_fmap_same by apply is_placeholder_keyed.
  destruct (List.find _ _); simpl; [done|]. by destruct (bucket node_id l).
Qed.

Lemma iterations_fmap node_id b l : iterations node_id b (f <$> l) = f <$> iterations node_id b l.
Proof.
  unfold iterations. rewrite bucket_fmap, !filter_fmap_same
    by (intros r; by rewrite is_placeholder_keyed).
  destruct (List.filter (λ r, negb (is_placeholder r)) (bucket node_id l)); simpl;
    destruct b; simpl; done.
Qed.
End keyed.

Lemma set_node_keeps id f : keeps_keys f →
  keeps_keys (λ r, if bool_decide (nr_id r = id) then f r else r).
Proof. intros Hf r. case_bool_decide; [apply Hf|done]. Qed.

Lemma get_set_node node_id id f l : keeps_keys f →
  get node_id (set_node id f l) =
    (λ r, if bool_decide (nr_id r = id) then f r else r) <$> get node_id l.
Proof. intros Hf. apply get_fmap. by apply set_node_keeps. Qed.

Lemma iterations_set_node node_id b id f l : keeps_keys f →
  iterations node_id b (set_node id f l) = set_node id f (iterations node_id b l).
Proof. intros Hf. apply iterations_fmap. by apply set_node_keeps. Qed.

(** Ids identify rows. *)
Definition unique_ids (l : rows) : Prop := NoDup (nr_id <$> l).

Lemma unique_ids_eq l r r' : unique_ids l → r ∈ l → r' ∈ l → nr_id r = nr_id r' → r = r'.
Proof.
  intros Hnd Hr Hr' E. pose proof (row_by_elem nr_id (nr_id r) l r Hnd Hr eq_refl) as H1.
  pose proof (row_by_elem nr_id (nr_id r) l r' Hnd Hr' (eq_sym E)) as H2. congruence.
Qed.

Lemma unique_ids_set_node id f l : keeps_keys f → unique_ids (set_node id f l) ↔ unique_ids l.
Proof. intros Hf. unfold unique_ids. rewrite set_row_keys; [done|]. intros r. apply Hf. Qed.

(** Setting the row of another node leaves a node's rows alone. *)
Lemma iterations_set_other node_id b id f l r :
  unique_ids l → r ∈ l → nr_id r = id → nr_node_id r ≠ node_id →
  set_node id f (iterations node_id b l) = iterations node_id b l.
Proof.
  intros Hnd Hr Hid Hn. unfold set_row. transitivity ((λ r, r) <$> iterations node_id b l).
  - apply list_fmap_ext. intros i x Hx%list_elem_of_lookup_2. apply iterations_elem in Hx as [Hx Hxn].
    case_bool_decide as Hd; [|done]. exfalso. assert (x = r) by (by apply (unique_ids_eq l); congruence).
    congruence.
  - by rewrite list_fmap_id.
Qed.

(** ** The index keeps its buckets sorted *)

#[global] Instance row_le_total : Total row_le.
Proof.
  intros a b. unfold row_le. destruct (decide (nr_iteration_key a = nr_iteration_key b)) as [E|E].
  - rewrite decide_True by done. apply PyStr.leb_total.
  - rewrite decide_False by congruence. apply PyStr.leb_total.
Qed.

#[global] Instance row_le_trans : Transitive row_le.
Proof.
  intros a b c. unfold row_le. repeat case_decide; intros Hab Hbc;
    try congruence; try (by etransitivity).
  match goal with H : nr_iteration_key a ≠ nr_iteration_key b |- _ => destruct H end.
  apply (anti_symm PyStr.str_le); congruence.

Qed.

Lemma row_le_antisymm a b : row_le a b → row_le b a → nr_id a = nr_id b.
Proof.
  unfold row_le. destruct (decide (nr_iteration_key a = nr_iteration_key b)) as [E|E].
  - rewrite decide_True by done. apply (anti_symm PyStr.str_le).
  - rewrite decide_False by congruence. intros H1 H2. destruct E. by apply (anti_symm PyStr.str_le).
Qed.

Lemma sort_rows_unique l1 l2 :
  unique_ids l1 → Sorted row_le l2 → l1 ≡ₚ l2 → sort_rows l1 = l2.
Proof.
  intros Hnd Hs Hp. apply (Sorted_unique_strong row_le).
  - intros x y Hx Hy ??. apply (unique_ids_eq l1); [done|..|by apply row_le_antisymm].
    + revert Hx. unfold sort_rows. by rewrite merge_sort_Permutation.
    + by rewrite Hp.
  - apply Sorted_merge_sort. apply _.
  - done.
  - unfold sort_rows. by rewrite merge_sort_Permutation.
Qed.

Lemma unique_ids_sub l l' : l' `sublist_of` l → unique_ids l → unique_ids l'.
Proof. intros Hs Hn. eapply sublist_NoDup; [done|]. by apply fmap_sublist. Qed.

(** [by_node n] of the rows seen so far, before the final sort. *)
Lemma append_bucket_get l n d :
  default [] (Dict.get n (foldl (λ d r, append_bucket r d) d l)) =
  default [] (Dict.get n d) ++ List.filter (of_node n) l.
Proof.
  revert d. induction l as [|r l IH]; intros d; simpl; [by rewrite app_nil_r|].
  rewrite IH. unfold append_bucket. rewrite Dict.get_set. unfold of_node.
  case_bool_decide as H; subst.
  - rewrite decide_True by done. simpl. by rewrite <- app_assoc.
  - by rewrite decide_False by congruence.
Qed.

(** What [_by_node[n]] of an index over [l] holds. *)
Definition buckets_of (ix : NodeRunIndex) (l : rows) : Prop :=
  ix_rows ix = l ∧ ∀ n, default [] (Dict.get n (ix_by_node ix)) = bucket n l.

Lemma index_of_buckets l : buckets_of (index_of l) l.
Proof.
  split; [done|]. intros n. simpl. rewrite Dict.get_mapv.
  pose proof (append_bucket_get l n []) as H. simpl in H. unfold bucket. rewrite <- H.
  by destruct (Dict.get n _).
Qed.

(** C22: building the index over the rows of a run, and then adding the rows
    fan-out creates one at a time, gives for every node the rows of that node in
    (iteration key, id) order: the dictionary of buckets of the source refines
    the lookup the engine relies on, as long as row ids are distinct. *)
Theorem index_refines l new :
  unique_ids (l ++ new) →
  let ix := foldl (λ ix r, index_add r ix) (index_of l) new in
  ix_rows ix = l ++ new ∧
  ∀ n, default [] (Dict.get n (ix_by_node ix)) = bucket n (l ++ new).
Proof.
  intros Hnd. enough (∀ ix, buckets_of ix l →
    buckets_of (foldl (λ ix r, index_add r ix) ix new) (l ++ new)) as H
    by apply H, index_of_buckets.
  revert l Hnd. induction new as [|r new IH]; intros l Hnd ix [Hr Hb]; simpl.
  { by rewrite app_nil_r. }
  rewrite cons_middle, app_assoc in Hnd |- *. apply IH; [done|]. split; simpl; [by rewrite Hr|].
  intros n. rewrite !Dict.get_set. unfold append_bucket. rewrite !Dict.get_set.
  unfold bucket. rewrite List.filter_app. cbn [List.filter]. unfold of_node at 2.
  destruct (decide (n = nr_node_id r)) as [->|Hn].
  - rewrite decide_True, bool_decide_eq_true_2 by done. simpl. rewrite Hb.
    symmetry. apply sort_rows_unique.
    + apply (unique_ids_sub ((l ++ [r]) ++ new)); [|done]. apply sublist_inserts_r.
      apply sublist_app; [apply filter_sublist|done].
    + apply Sorted_merge_sort. apply _.
    + unfold sort_rows. rewrite merge_sort_Permutation, bucket_perm. done.
  - rewrite bool_decide_eq_false_2 by congruence. by rewrite app_nil_r, Hb.
Qed.

Definition ex_index_row (id key : string) : WorkflowNodeRun :=
  new_node_run id "tenant" "run" "n" "text" 1 PENDING key [].

Lemma index_refines_witness :
  let ix := index_add (ex_index_row "b" "a") (index_of [ex_index_row "c" ""]) in
  ix_rows ix = [ex_index_row "c" ""; ex_index_row "b" "a"].
Proof.
  refine (proj1 (index_refines [ex_index_row "c" ""] [ex_index_row "b" "a"] _)).
  unfold unique_ids. apply (bool_decide_unpack _). vm_compute. exact I.
Defined.

End Index.
