(* ===== verification/Ready.v ===== *)
(** * Readiness of nodes and status of the run (engine_ready.py, engine_status.py)

    Which rows of a run may start, given the edges of the graph and the status
    of the predecessor rows (fan-out iterations included), and the status the
    run itself takes from its rows. *)
From S2P Require Import Prelude PyStr Json Graph RunModels NodeIndex.

Module Ready.
Import Graph Models.
Local Open Scope string_scope.
Local Open Scope list_scope.

Notation rows := (list WorkflowNodeRun) (only parsing).

Definition is_success (s : NodeStatus) : bool :=
  match s with SUCCEEDED | SKIPPED => true | _ => false end.
Definition is_open (s : NodeStatus) : bool :=
  match s with PENDING | READY | QUEUED | RUNNING | WAITING => true | _ => false end.
Definition is_terminal (s : NodeStatus) : bool :=
  match s with SUCCEEDED | SKIPPED | FAILED | CANCELLED => true | _ => false end.
(** [{PENDING, READY, QUEUED}]: rows that have not started. *)
Definition not_started (s : NodeStatus) : bool :=
  match s with PENDING | READY | QUEUED => true | _ => false end.

Definition has_status (s : NodeStatus) (r : WorkflowNodeRun) : bool :=
  bool_decide (nr_status r = s).

(** [predecessors(graph).get(node_id, [])] *)
Definition predecessors (graph : WorkflowGraph) (node_id : string) : list GraphEdge :=
  List.filter (λ e, bool_decide (ge_target e = node_id)) (wg_edges graph).

(** [successors(graph).get(node_id, [])] *)
Definition successors (graph : WorkflowGraph) (node_id : string) : list GraphEdge :=
  List.filter (λ e, bool_decide (ge_source e = node_id)) (wg_edges graph).

Definition root_node_ids (graph : WorkflowGraph) : list string :=
  List.filter (λ i, negb (bool_decide (i ∈ ge_target <$> wg_edges graph)))
    (gn_id <$> wg_nodes graph).

(** [_pred_rows] *)
Definition pred_rows (e : GraphEdge) (l : rows) : rows := Index.iterations (ge_source e) false l.

(** [_merge_mode] *)
Definition merge_mode (graph : WorkflowGraph) (node_id : string) : option string :=
  match find_node node_id graph with
  | Some n =>
      if bool_decide (gn_type n = "merge") then
        let mode := Json.getn "mode" (gn_config n) in
        Some (if Json.truthy mode then Json.str mode else "all")
      else None
  | None => None
  end.

(** [_branch_satisfied] *)
Definition branch_satisfied (e : GraphEdge) (row : WorkflowNodeRun) : bool :=
  if bool_decide (ge_condition e = Some "approved") then has_status SUCCEEDED row
  else is_success (nr_status row).

(** [_merge_any_ready] *)
Definition merge_any_ready (preds : list GraphEdge) (l : rows) : bool :=
  existsb (λ e, existsb (has_status SUCCEEDED) (pred_rows e l)) preds.

(** [_merge_all_ready] *)
Definition merge_all_ready (preds : list GraphEdge) (l : rows) : bool :=
  forallb (λ e, nonempty_all
    (λ row, negb (is_open (nr_status row)) && branch_satisfied e row) (pred_rows e l)) preds.

(** The loop of [is_ready] for nodes that are not merges. *)
Definition all_branches_ready (preds : list GraphEdge) (l : rows) : bool :=
  forallb (λ e, nonempty_all (branch_satisfied e) (pred_rows e l)) preds.

Definition is_ready (node_id : string) (graph : WorkflowGraph) (l : rows) : bool :=
  match Index.get node_id l with
  | None => false
  | Some current =>
      if negb (not_started (nr_status current)) then false
      else
        match predecessors graph node_id with
        | [] => true
        | preds =>
            match merge_mode graph node_id with
            | Some mode =>
                if String.eqb mode "any" then merge_any_ready preds l
                else if String.eqb mode "all" then merge_all_ready preds l
                else all_branches_ready preds l
            | None => all_branches_ready preds l
            end
        end
  end.

Definition ready_node_ids (graph : WorkflowGraph) (l : rows) : list string :=
  List.filter (λ i, Index.contains i l && is_ready i graph l) (gn_id <$> wg_nodes graph).

Definition run_is_waiting (l : rows) : bool := existsb (has_status WAITING) l.
Definition run_has_failure (l : rows) : bool := existsb (has_status FAILED) l.
Definition run_all_complete (l : rows) : bool :=
  match l with [] => false | _ => forallb (λ r, is_terminal (nr_status r)) l end.

(** The message [finalize_run_status] reads from the first failed row. *)
Definition failure_message (l : rows) : string :=
  match List.find (has_status FAILED) l with
  | Some failed =>
      let m := Json.getn "message" (default [] (nr_error_json failed)) in
      if Json.truthy m then Json.str m else "node failed"
  | None => "node failed"
  end.

Definition finalize_run_status (now : Z) (run : WorkflowRun) (l : rows) : WorkflowRun :=
  if bool_decide (wr_status run = RUN_CANCELLED) then
    match wr_finished_at run with
    | None => run <| wr_finished_at := Some now |>
    | Some _ => run
    end
  else if run_has_failure l then
    run <| wr_status := RUN_FAILED |> <| wr_error_message := Some (failure_message l) |>
        <| wr_finished_at := Some now |>
  else if run_is_waiting l then
    run <| wr_status := RUN_WAITING |> <| wr_finished_at := None |>
  else if run_all_complete l then
    if existsb (has_status CANCELLED) l then
      run <| wr_status := RUN_CANCELLED |> <| wr_finished_at := Some now |>
          <| wr_error_message :=
               if PyStr.opt_truthy (wr_error_message run) then wr_error_message run
               else Some "cancelled" |>
    else run <| wr_status := RUN_SUCCEEDED |> <| wr_finished_at := Some now |>
             <| wr_error_message := None |>
  else run <| wr_status := RUN_RUNNING |>.

(** ** What the engine means by ready *)

(** A finished predecessor row lets the edge's target start. *)
Definition lets_pass (e : GraphEdge) (row : WorkflowNodeRun) : Prop :=
  nr_status row = SUCCEEDED ∨ (nr_status row = SKIPPED ∧ ge_condition e ≠ Some "approved").

Definition branch_done (e : GraphEdge) (l : rows) : Prop :=
  pred_rows e l ≠ [] ∧ ∀ row, row ∈ pred_rows e l → lets_pass e row.

Definition branch_succeeded (e : GraphEdge) (l : rows) : Prop :=
  ∃ row, row ∈ pred_rows e l ∧ nr_status row = SUCCEEDED.

(** The predecessors of a node allow it to start. *)
Definition preds_done (graph : WorkflowGraph) (node_id : string) (l : rows) : Prop :=
  if decide (merge_mode graph node_id = Some "any")
  then predecessors graph node_id = [] ∨
       ∃ e, e ∈ predecessors graph node_id ∧ branch_succeeded e l
  else ∀ e, e ∈ predecessors graph node_id → branch_done e l.

Lemma elem_of_predecessors g i e :
  e ∈ predecessors g i ↔ e ∈ wg_edges g ∧ ge_target e = i.
Proof.
  unfold predecessors. by rewrite list_elem_of_In, List.filter_In, <- list_elem_of_In,
    bool_decide_eq_true.
Qed.

Lemma elem_of_successors g i e :
  e ∈ successors g i ↔ e ∈ wg_edges g ∧ ge_source e = i.
Proof.
  unfold successors. by rewrite list_elem_of_In, List.filter_In, <- list_elem_of_In,
    bool_decide_eq_true.
Qed.

Lemma has_status_true s r : has_status s r = true ↔ nr_status r = s.
Proof. apply bool_decide_eq_true. Qed.

Lemma branch_satisfied_spec e row : branch_satisfied e row = true ↔ lets_pass e row.
Proof.
  unfold branch_satisfied, lets_pass. case_bool_decide as H.
  - rewrite has_status_true. naive_solver.
  - destruct (nr_status row); naive_solver.
Qed.

Lemma satisfied_not_open e row :
  negb (is_open (nr_status row)) && branch_satisfied e row = branch_satisfied e row.
Proof.
  unfold branch_satisfied, has_status. by destruct (nr_status row); simpl; repeat case_bool_decide.
Qed.

Lemma branch_done_spec e l :
  nonempty_all (branch_satisfied e) (pred_rows e l) = true ↔ branch_done e l.
Proof.
  unfold branch_done. rewrite nonempty_all_spec. by setoid_rewrite branch_satisfied_spec.
Qed.

Lemma all_branches_ready_spec preds l :
  all_branches_ready preds l = true ↔ ∀ e, e ∈ preds → branch_done e l.
Proof.
  unfold all_branches_ready. rewrite forallb_True_Forall, Forall_forall.
  by setoid_rewrite branch_done_spec.
Qed.

(** The [_OPEN] test of merge-all is implied by the branch test. *)
Lemma merge_all_ready_eq preds l : merge_all_ready preds l = all_branches_ready preds l.
Proof.
  unfold merge_all_ready, all_branches_ready. apply forallb_congr. intros e.
  apply nonempty_all_congr. apply satisfied_not_open.
Qed.

Lemma merge_any_ready_spec preds l :
  merge_any_ready preds l = true ↔ ∃ e, e ∈ preds ∧ branch_succeeded e l.
Proof.
  unfold merge_any_ready, branch_succeeded. rewrite existsb_True_Exists, Exists_exists.
  setoid_rewrite existsb_True_Exists. setoid_rewrite Exists_exists.
  by setoid_rewrite has_status_true.
Qed.

Lemma is_ready_iff node_id g l :
  is_ready node_id g l = true ↔
    ∃ current, Index.get node_id l = Some current ∧ not_started (nr_status current) = true ∧
               preds_done g node_id l.
Proof.
  unfold is_ready, preds_done. destruct (Index.get node_id l) as [cur|]; [|naive_solver].
  destruct (not_started (nr_status cur)) eqn:Hc; cbn [negb]; [|naive_solver].
  destruct (predecessors g node_id) as [|e ps] eqn:Hp.
  { split; [|done]. intros _. exists cur. split_and!; [done..|]. case_decide; [by left|set_solver]. }
  destruct (merge_mode g node_id) as [mode|] eqn:Hm.
  - destruct (String.eqb_spec mode "any") as [->|Hany].
    + rewrite decide_True by done. cbn match. rewrite merge_any_ready_spec. naive_solver.
    + rewrite decide_False, merge_all_ready_eq by congruence.
      destruct (mode =? "all")%string; rewrite all_branches_ready_spec; naive_solver.
  - rewrite decide_False, all_branches_ready_spec by done. naive_solver.
Qed.

(** ** Readiness theorem *)

(** A node may start exactly when its row exists, has not started, and its
    predecessors are done: a merge in mode any needs one succeeded incoming row
    (or no incoming edge); every other node, whatever its merge mode, needs on
    each incoming edge at least one row, all of them succeeded, where a skipped
    row also counts unless the edge is the "approved" branch. *)
Theorem is_ready_spec node_id g l :
  is_ready node_id g l = true ↔
    ∃ current, Index.get node_id l = Some current ∧
      (nr_status current = PENDING ∨ nr_status current = READY ∨ nr_status current = QUEUED) ∧
      preds_done g node_id l.
Proof.
  rewrite is_ready_iff. split; intros (c & H1 & H2 & H3); exists c; split_and!; try done.
  - by destruct (nr_status c); auto.
  - by destruct H2 as [-> | [-> | ->]].
Qed.

(** ** Run status *)

Lemma run_has_failure_false l :
  run_has_failure l = false ↔ ∀ r, r ∈ l → nr_status r ≠ FAILED.
Proof.
  unfold run_has_failure. rewrite existsb_False_Forall, Forall_forall.
  unfold has_status. by setoid_rewrite bool_decide_eq_false.
Qed.

(** The status the rows of a run call for. *)
Inductive status_of_rows (l : rows) : RunStatus → Prop :=
  | status_failed r : r ∈ l → nr_status r = FAILED → status_of_rows l RUN_FAILED
  | status_waiting r : (∀ r', r' ∈ l → nr_status r' ≠ FAILED) →
      r ∈ l → nr_status r = WAITING → status_of_rows l RUN_WAITING
  | status_cancelled r :
      (∀ r', r' ∈ l → nr_status r' ∈ [SUCCEEDED; SKIPPED; CANCELLED]) →
      r ∈ l → nr_status r = CANCELLED → status_of_rows l RUN_CANCELLED
  | status_succeeded :
      l ≠ [] → (∀ r', r' ∈ l → nr_status r' ∈ [SUCCEEDED; SKIPPED]) →
      status_of_rows l RUN_SUCCEEDED
  | status_running :
      (∀ r', r' ∈ l → nr_status r' ∉ [FAILED; WAITING]) →
      (l = [] ∨ ∃ r, r ∈ l ∧ nr_status r ∈ [PENDING; READY; QUEUED; RUNNING]) →
      status_of_rows l RUN_RUNNING.

Lemma has_status_existsb s l :
  existsb (has_status s) l = true ↔ ∃ r, r ∈ l ∧ nr_status r = s.
Proof.
  rewrite existsb_True_Exists, Exists_exists. by setoid_rewrite has_status_true.
Qed.

Lemma run_all_complete_spec l :
  run_all_complete l = true ↔ l ≠ [] ∧ ∀ r, r ∈ l → is_terminal (nr_status r) = true.
Proof.
  unfold run_all_complete. destruct l as [|r l]; [naive_solver|].
  rewrite forallb_True_Forall, Forall_forall. naive_solver.
Qed.

(** A status no row of the list has, by what all rows have. *)
Lemma no_row_with (ss : list NodeStatus) s (l : rows) :
  (∀ r, r ∈ l → nr_status r ∈ ss) → s ∉ ss → ¬ ∃ r, r ∈ l ∧ nr_status r = s.
Proof. intros H Hs (r & Hr & <-). by apply Hs, H. Qed.

Lemma no_row_in (ss : list NodeStatus) s (l : rows) :
  (∀ r, r ∈ l → nr_status r ∉ ss) → s ∈ ss → ¬ ∃ r, r ∈ l ∧ nr_status r = s.
Proof. intros H Hs (r & Hr & <-). by apply (H r). Qed.

Definition some_row (s : NodeStatus) (l : rows) : Prop := ∃ r, r ∈ l ∧ nr_status r = s.
Definition some_unfinished (l : rows) : Prop :=
  l = [] ∨ ∃ r, r ∈ l ∧ nr_status r ∈ [PENDING; READY; QUEUED; RUNNING].

(** Each outcome in terms of which statuses occur. *)
Lemma status_of_rows_occurs l s : status_of_rows l s →
  match s with
  | RUN_FAILED => some_row FAILED l
  | RUN_WAITING => ¬ some_row FAILED l ∧ some_row WAITING l
  | RUN_CANCELLED => ¬ some_row FAILED l ∧ ¬ some_row WAITING l ∧ ¬ some_unfinished l ∧
                     some_row CANCELLED l
  | RUN_SUCCEEDED => ¬ some_row FAILED l ∧ ¬ some_row WAITING l ∧ ¬ some_unfinished l ∧
                     ¬ some_row CANCELLED l
  | RUN_RUNNING => ¬ some_row FAILED l ∧ ¬ some_row WAITING l ∧ some_unfinished l
  | RUN_QUEUED => False
  end.
Proof.
  assert (∀ ss, (∀ r', r' ∈ l → nr_status r' ∈ ss) → l ≠ [] →
            ss ⊆ [SUCCEEDED; SKIPPED; CANCELLED] → ¬ some_unfinished l) as Hfin.
  { intros ss Hall Hne Hss [?|(x & Hx & Hu)]; [done|]. apply Hall, Hss in Hx.
    destruct (nr_status x); set_solver. }
  destruct 1 as [r ??|r Hf ??|r Ha ??|Hne Ha|Ha Hu]; unfold some_row.
  - by exists r.
  - split; [|by exists r]. intros (x & Hx & ?). by apply (Hf x).
  - split_and!; [by apply (no_row_with _ _ _ Ha); set_solver..| |by exists r].
    apply (Hfin _ Ha); [by destruct l; [set_solver|]|done].
  - split_and!; [by apply (no_row_with _ _ _ Ha); set_solver..| |].
    + apply (Hfin _ Ha Hne). set_solver.
    + apply (no_row_with _ _ _ Ha). set_solver.
  - split_and!; [by apply (no_row_in _ _ _ Ha); set_solver..|done].
Qed.

Lemma status_of_rows_fun l s1 s2 : status_of_rows l s1 → status_of_rows l s2 → s1 = s2.
Proof. intros H1%status_of_rows_occurs H2%status_of_rows_occurs. destruct s1, s2; tauto. Qed.

(** The status [finalize_run_status] gives a run that is not cancelled. *)
Lemma finalize_status_of_rows now run l :
  wr_status run ≠ RUN_CANCELLED → status_of_rows l (wr_status (finalize_run_status now run l)).
Proof.
  intros Hc. unfold finalize_run_status. rewrite bool_decide_eq_false_2 by done.
  destruct (run_has_failure l) eqn:Hf.
  { apply has_status_existsb in Hf as (r & ? & ?). by apply (status_failed _ r). }
  rewrite run_has_failure_false in Hf.
  destruct (run_is_waiting l) eqn:Hw.
  { apply has_status_existsb in Hw as (r & ? & ?). by apply (status_waiting _ r). }
  assert (∀ r, r ∈ l → nr_status r ≠ WAITING) as Hw'.
  { intros r Hr E. apply not_true_iff_false in Hw. apply Hw, has_status_existsb. eauto. }
  destruct (run_all_complete l) eqn:Ha.
  - apply run_all_complete_spec in Ha as [Hne Ha].
    destruct (existsb (has_status CANCELLED) l) eqn:Hx.
    + apply has_status_existsb in Hx as (r & ? & ?). apply (status_cancelled _ r); [|done..].
      intros r' Hr'. pose proof (Ha _ Hr'). pose proof (Hf _ Hr').
      destruct (nr_status r'); try done; set_solver.
    + apply status_succeeded; [done|]. intros r' Hr'. pose proof (Ha _ Hr').
      pose proof (Hf _ Hr').
      assert (nr_status r' ≠ CANCELLED) as Hn.
      { intros E. apply not_true_iff_false in Hx. destruct Hx. apply has_status_existsb. eauto. }
      destruct (nr_status r'); try done; set_solver.
  - apply status_running.
    + intros r' Hr'. pose proof (Hf _ Hr'). pose proof (Hw' _ Hr'). set_solver.
    + destruct l as [|r0 l0] eqn:El; [by left|right]. rewrite <- El in *.
      destruct (decide (Exists (λ r, is_terminal (nr_status r) = false) l)) as [He|He].
      * apply Exists_exists in He as (r & Hr & Ht). exists r. split; [done|].
        pose proof (Hw' _ Hr). destruct (nr_status r); try done; set_solver.
      * exfalso. apply not_true_iff_false in Ha. apply Ha, run_all_complete_spec.
        split; [by subst|]. intros r Hr. destruct (is_terminal _) eqn:E; [done|].
        destruct He. apply Exists_exists. eauto.
Qed.

(** Finalization computes the run's status from its rows: a cancelled run
    stays cancelled whatever the rows say; otherwise the status is the one the
    rows call for (a failure first, then a wait, then completion; succeeded
    exactly when there are rows and all of them succeeded or were skipped).  A
    run that ends has its finish time, and finalizing again changes neither
    status nor error message. *)
Theorem finalize_run_status_spec now run l :
  let run' := finalize_run_status now run l in
  (wr_status run = RUN_CANCELLED → wr_status run' = RUN_CANCELLED ∧
     wr_error_message run' = wr_error_message run) ∧
  (wr_status run ≠ RUN_CANCELLED →
     ∀ s, wr_status run' = s ↔ status_of_rows l s) ∧
  (run_terminal (wr_status run') = true → is_Some (wr_finished_at run')) ∧
  (∀ now', let run'' := finalize_run_status now' run' l in
     wr_status run'' = wr_status run' ∧ wr_error_message run'' = wr_error_message run').
Proof.
  intros run'. split_and!.
  - intros Hc. subst run'. unfold finalize_run_status. rewrite bool_decide_eq_true_2 by done.
    by destruct (wr_finished_at run).
  - intros Hc s. pose proof (finalize_status_of_rows now run l Hc) as H. split.
    + by intros <-.
    + intros Hs. by apply (status_of_rows_fun l).
  - subst run'. unfold finalize_run_status. intros Ht. repeat case_match; simpl in *; try done; eauto.
  - intros now' run''. subst run' run''. unfold finalize_run_status.
    destruct (decide (wr_status run = RUN_CANCELLED)) as [E|E].
    + rewrite (bool_decide_eq_true_2 _ E). destruct (wr_finished_at run) eqn:Ef; simpl;
        rewrite ?E, ?Ef; by rewrite bool_decide_eq_true_2.
    + rewrite (bool_decide_eq_false_2 _ E).
      destruct (run_has_failure l); [done|]. destruct (run_is_waiting l); [done|].
      destruct (run_all_complete l); [|done]. by destruct (existsb _ _).
Qed.

End Ready.
