(* ===== verification/Unlock.v ===== *)
(** * Unlocking and skipping after a node succeeds (engine_unlock.py)

    When a node succeeds its pending successors that became ready are marked
    READY; if it announced a branch, the targets of the edges not taken are
    skipped together with the descendants all of whose predecessors are
    skipped.  [cascade] is the work queue of [cascade_skip]; [step] is the
    relation of row updates every operation of this file is made of. *)
From S2P Require Import Prelude PyStr Json Graph RunModels NodeIndex Ready.

Module Unlock.
Import Graph Models Ready.
Local Open Scope string_scope.
Local Open Scope list_scope.

Section unlock.
Context (now : Z) (graph : WorkflowGraph).

Definition mark_ready (r : WorkflowNodeRun) : WorkflowNodeRun := r <| nr_status := READY |>.

Definition skip_row (r : WorkflowNodeRun) : WorkflowNodeRun :=
  r <| nr_status := SKIPPED |> <| nr_finished_at := Some now |> <| nr_waiting_reason := None |>
    <| nr_error_json := None |>.

(** [if target is PENDING and is_ready(target): target.status = READY] *)
Definition try_unlock (target : string) (l : list WorkflowNodeRun)
    : list string * list WorkflowNodeRun :=
  match Index.get target l with
  | Some r =>
      if has_status PENDING r && is_ready target graph l
      then ([target], set_node (nr_id r) mark_ready l) else ([], l)
  | None => ([], l)
  end.

(** The loop over the outgoing edges of a node. *)
Fixpoint try_unlock_edges (es : list GraphEdge) (l : list WorkflowNodeRun)
    : list string * list WorkflowNodeRun :=
  match es with
  | [] => ([], l)
  | e :: es' =>
      let '(u, l) := try_unlock (ge_target e) l in
      let '(us, l) := try_unlock_edges es' l in (u ++ us, l)
  end.

(** [_all_preds_skipped] *)
Definition all_preds_skipped (node_id : string) (l : list WorkflowNodeRun) : bool :=
  match predecessors graph node_id with
  | [] => false
  | preds =>
      forallb (λ e, nonempty_all (has_status SKIPPED) (Index.iterations (ge_source e) true l)) preds
  end.

(** The edges of a node just skipped: enqueue the targets all of whose
    predecessors are skipped, unlock the joins that became ready. *)
Fixpoint cascade_edges (es : list GraphEdge) (queue : list string) (l : list WorkflowNodeRun)
    : list string * list WorkflowNodeRun :=
  match es with
  | [] => (queue, l)
  | e :: es' =>
      if all_preds_skipped (ge_target e) l
      then cascade_edges es' (queue ++ [ge_target e]) l
      else cascade_edges es' queue (try_unlock (ge_target e) l).2
  end.

(** The work queue of [cascade_skip]; [None] when out of fuel. *)
Fixpoint cascade (fuel : nat) (queue : list string) (l : list WorkflowNodeRun)
    : option (list string * list WorkflowNodeRun) :=
  match queue with
  | [] => Some ([], l)
  | current_id :: queue' =>
      match fuel with
      | O => None
      | S fuel =>
          match Index.get current_id l with
          | Some current =>
              if not_started (nr_status current) then
                let l := set_node (nr_id current) skip_row l in
                let '(queue', l) := cascade_edges (successors graph current_id) queue' l in
                match cascade fuel queue' l with
                | Some (skipped, l) => Some (current_id :: skipped, l)
                | None => None
                end
              else cascade fuel queue' l
          | None => cascade fuel queue' l
          end
      end
  end.

Definition cascade_fuel : nat := S (length (wg_edges graph)).

Definition cascade_skip (node_id : string) (l : list WorkflowNodeRun)
    : list string * list WorkflowNodeRun :=
  default ([], l) (cascade cascade_fuel [node_id] l).

(** [_unlock_joins_after_skip] *)
Definition unlock_joins_after_skip (skipped_id : string) (l : list WorkflowNodeRun)
    : list string * list WorkflowNodeRun :=
  try_unlock_edges (successors graph skipped_id) l.

(** The branch announced in a node's output. *)
Definition branch_of (output : option (dict json)) : option string :=
  match output with
  | Some o =>
      match Dict.get "branch" o with
      | Some (JStr raw) => if PyStr.truthy (PyStr.strip raw) then Some (PyStr.strip raw) else None
      | _ => None
      end
  | None => None
  end.

(** The loop over the edges of a node that announced [branch]. *)
Fixpoint unlock_branch (branch : string) (es : list GraphEdge) (l : list WorkflowNodeRun)
    : list string * list WorkflowNodeRun :=
  match es with
  | [] => ([], l)
  | e :: es' =>
      match Index.get (ge_target e) l with
      | None => unlock_branch branch es' l
      | Some _ =>
          let '(u, l) :=
            if bool_decide (ge_condition e = None ∨ ge_condition e = Some branch)
            then try_unlock (ge_target e) l
            else unlock_joins_after_skip (ge_target e) (cascade_skip (ge_target e) l).2 in
          let '(us, l) := unlock_branch branch es' l in (u ++ us, l)
      end
  end.

Definition unlock_after_node_success (source_id : string) (output : option (dict json))
    (l : list WorkflowNodeRun) : list string * list WorkflowNodeRun :=
  let outs := successors graph source_id in
  match branch_of output with
  | Some branch =>
      if existsb (λ e, PyStr.opt_truthy (ge_condition e)) outs
      then unlock_branch branch outs l
      else try_unlock_edges outs l
  | None => try_unlock_edges outs l
  end.

Definition unlock_downstream (source_id : string) (l : list WorkflowNodeRun)
    : list string * list WorkflowNodeRun := unlock_after_node_success source_id None l.

(** ** One update at a time *)

Inductive step (l : list WorkflowNodeRun) : list WorkflowNodeRun → Prop :=
  | step_ready t r : Index.get t l = Some r → nr_status r = PENDING → preds_done graph t l →
      step l (set_node (nr_id r) mark_ready l)
  | step_skip t r : Index.get t l = Some r → not_started (nr_status r) = true →
      step l (set_node (nr_id r) skip_row l).

Lemma mark_ready_keeps : Index.keeps_keys mark_ready.
Proof. done. Qed.
Lemma skip_row_keeps : Index.keeps_keys skip_row.
Proof. done. Qed.

Lemma is_ready_preds t l : is_ready t graph l = true → preds_done graph t l.
Proof. rewrite is_ready_iff. naive_solver. Qed.

Lemma is_ready_pending t l r : Index.get t l = Some r → nr_status r = PENDING →
  is_ready t graph l = true ↔ preds_done graph t l.
Proof.
  intros Hg Hp. rewrite is_ready_iff. split; [naive_solver|]. intros ?. exists r. by rewrite Hp.
Qed.

Lemma try_unlock_step t l : rtc step l (try_unlock t l).2.
Proof.
  unfold try_unlock. destruct (Index.get t l) as [r|] eqn:Hg; [|done].
  destruct (has_status PENDING r && is_ready t graph l) eqn:E; [|done].
  apply andb_true_iff in E as [Hp%has_status_true Hr%is_ready_preds]. simpl.
  apply rtc_once. by apply (step_ready _ t).
Qed.

Lemma try_unlock_edges_step es l : rtc step l (try_unlock_edges es l).2.
Proof.
  revert l. induction es as [|e es IH]; intros l; simpl; [done|].
  pose proof (try_unlock_step (ge_target e) l). destruct (try_unlock _ l) as [u l1].
  pose proof (IH l1). destruct (try_unlock_edges es l1). by etransitivity.
Qed.

Lemma cascade_edges_step es q l : rtc step l (cascade_edges es q l).2.
Proof.
  revert q l. induction es as [|e es IH]; intros q l; simpl; [done|].
  destruct (all_preds_skipped _ l); [apply IH|].
  etransitivity; [apply try_unlock_step|apply IH].
Qed.

Lemma cascade_step fuel q l res : cascade fuel q l = Some res → rtc step l res.2.
Proof.
  revert q l res. induction fuel as [|fuel IH]; intros [|x q] l res; simpl; try (by intros [= <-]).
  destruct (Index.get x l) as [r|] eqn:Hg; [|apply IH].
  destruct (not_started (nr_status r)) eqn:Hs; [|apply IH].
  pose proof (cascade_edges_step (successors graph x) q (set_node (nr_id r) skip_row l)) as H1.
  destruct (cascade_edges _ q _) as [q' l'].
  destruct (cascade fuel q' l') as [[sk l'']|] eqn:Hc; [|done]. intros [= <-]. simpl in *.
  apply IH in Hc. eapply rtc_l; [by apply (step_skip _ x)|]. by etransitivity.
Qed.

Lemma cascade_skip_step t l : rtc step l (cascade_skip t l).2.
Proof.
  unfold cascade_skip. destruct (cascade cascade_fuel [t] l) eqn:E; simpl; [|done].
  by apply cascade_step in E.
Qed.

Lemma unlock_branch_step b es l : rtc step l (unlock_branch b es l).2.
Proof.
  revert l. induction es as [|e es IH]; intros l; simpl; [done|].
  destruct (Index.get (ge_target e) l); [|apply IH].
  set (r1 := if bool_decide _ then _ else _).
  assert (rtc step l r1.2) as H1.
  { subst r1. case_bool_decide; [apply try_unlock_step|].
    etransitivity; [apply cascade_skip_step|apply try_unlock_edges_step]. }
  destruct r1 as [u l1]. pose proof (IH l1). destruct (unlock_branch b es l1). by etransitivity.
Qed.

Lemma unlock_step source output l : rtc step l (unlock_after_node_success source output l).2.
Proof.
  unfold unlock_after_node_success. destruct (branch_of output); [case_match|];
    auto using unlock_branch_step, try_unlock_edges_step.
Qed.

(** ** What a step changes *)

Definition evolves (r r' : WorkflowNodeRun) : Prop :=
  r' = r ∨ (nr_status r = PENDING ∧ r' = mark_ready r) ∨
  (not_started (nr_status r) = true ∧ r' = skip_row r).

Lemma evolves_trans r1 r2 r3 : evolves r1 r2 → evolves r2 r3 → evolves r1 r3.
Proof.
  intros [->|[[H1 ->]|[H1 ->]]]; [done|..].
  - intros [->|[[H2 _]|[H2 ->]]]; [by right; left|done|].
    right; right. split; [by rewrite H1|done].
  - intros [->|[[H2 _]|[H2 _]]]; [by right; right|done..].
Qed.

(** A step rewrites one row, which had not started. *)
Lemma step_inv l l' : step l l' → ∃ t r f,
  Index.get t l = Some r ∧ l' = set_node (nr_id r) f l ∧ not_started (nr_status r) = true ∧
  Index.keeps_keys f ∧ evolves r (f r) ∧ nr_status (f r) ≠ SUCCEEDED ∧
  ((f = mark_ready ∧ nr_status r = PENDING ∧ preds_done graph t l) ∨ f = skip_row).
Proof.
  destruct 1 as [t r Hg Hp Hd|t r Hg Hs].
  - exists t, r, mark_ready. split_and!; try done; [by rewrite Hp|by right; left|by left].
  - exists t, r, skip_row. split_and!; try done; [by right; right|by right].
Qed.

Lemma step_unique_ids l l' : step l l' → Index.unique_ids l → Index.unique_ids l'.
Proof.
  intros (t & r & f & _ & -> & _ & Hf & _)%step_inv. by rewrite Index.unique_ids_set_node.
Qed.

Lemma set_node_elem id f (l : list WorkflowNodeRun) x' :
  x' ∈ set_node id f l ↔ ∃ x, x ∈ l ∧ x' = if bool_decide (nr_id x = id) then f x else x.
Proof. unfold set_row. rewrite list_elem_of_fmap. naive_solver. Qed.

(** The row a step rewrites is the only one with its id. *)
Lemma step_other l t r x : Index.unique_ids l → Index.get t l = Some r → x ∈ l →
  nr_id x = nr_id r → x = r.
Proof. intros Hu [Hr _]%Index.index_get_elem Hx ?. by apply (Index.unique_ids_eq l). Qed.

Lemma step_evolves l l' : Index.unique_ids l → step l l' → Forall2 evolves l l'.
Proof.
  intros Hu (t & r & f & Hg & -> & _ & _ & He & _)%step_inv. unfold set_row.
  rewrite Forall2_fmap_r. apply Forall_Forall2_diag, Forall_forall. intros x Hx. simpl.
  case_bool_decide as Hid; [|by left]. by rewrite (step_other l t r x).
Qed.

Lemma steps_invariant (P : list WorkflowNodeRun → Prop) l l' :
  (∀ l1 l2, Index.unique_ids l1 → step l1 l2 → P l1 → P l2) →
  Index.unique_ids l → rtc step l l' → P l → P l'.
Proof.
  intros Hstep Hu Hs. induction Hs as [l|l1 l2 l3 H12 _ IH]; [done|].
  intros HP. apply IH; [by eapply step_unique_ids|]. by eapply Hstep.
Qed.

Lemma steps_unique_ids l l' : rtc step l l' → Index.unique_ids l → Index.unique_ids l'.
Proof. intros Hs Hu. apply (steps_invariant _ _ _) with (2 := Hu) (3 := Hs); [|done].
  intros ????. by eapply step_unique_ids. Qed.

Lemma steps_evolves l l' : Index.unique_ids l → rtc step l l' → Forall2 evolves l l'.
Proof.
  intros Hu Hs. apply (steps_invariant (λ l', Forall2 evolves l l') l l'); [|done..|].
  - intros l1 l2 Hu1 H12 H1. eapply Forall2_trans; [apply evolves_trans|done|].
    by apply step_evolves.
  - apply Forall_Forall2_diag, Forall_forall. by left.
Qed.

(** Rows that let a successor start stay as they are. *)
Lemma step_iterations l l' n b x :
  Index.unique_ids l → step l l' → x ∈ Index.iterations n b l →
  not_started (nr_status x) = false → x ∈ Index.iterations n b l'.
Proof.
  intros Hu (t & r & f & Hg & -> & Hns & Hf & _)%step_inv Hx Hs.
  rewrite Index.iterations_set_node by done. apply set_node_elem. exists x. split; [done|].
  case_bool_decide as Hid; [|done].
  apply Index.iterations_elem in Hx as [Hx _]. rewrite (step_other l t r x) in Hs by done. congruence.
Qed.

Lemma step_branch_done l l' e :
  Index.unique_ids l → step l l' → branch_done e l → branch_done e l'.
Proof.
  intros Hu (t & r & f & Hg & -> & Hns & Hf & _)%step_inv [Hne Hall].
  unfold branch_done, pred_rows in *. rewrite Index.iterations_set_node by done. split.
  - unfold set_row. by destruct (Index.iterations _ _ _).
  - intros x' (x & Hx & ->)%set_node_elem. pose proof (Hall _ Hx) as Hpass.
    case_bool_decide as Hid; [|done]. exfalso.
    apply Index.iterations_elem in Hx as [Hx _]. rewrite (step_other l t r x) in Hpass by done.
    destruct Hpass as [Hp|[Hp _]]; by rewrite Hp in Hns.
Qed.

Lemma step_preds_done l l' t :
  Index.unique_ids l → step l l' → preds_done graph t l → preds_done graph t l'.
Proof.
  intros Hu Hs. unfold preds_done. case_decide.
  - intros [?|(e & He & x & Hx & Hsx)]; [by left|]. right. exists e. split; [done|].
    exists x. split; [|done]. apply (step_iterations l); [done..|]. by rewrite Hsx.
  - intros Hall e He. by apply (step_branch_done l), Hall.
Qed.

Lemma step_all_skipped l l' t :
  Index.unique_ids l → step l l' → all_preds_skipped t l = true → all_preds_skipped t l' = true.
Proof.
  intros Hu Hs. unfold all_preds_skipped. destruct (predecessors graph t) as [|e0 es0]; [done|].
  rewrite !forallb_True_Forall. intros Hall0. eapply Forall_impl; [exact Hall0|]. intros e.
  destruct (step_inv _ _ Hs) as (t' & r & f & Hg & -> & Hns & Hf & _).
  rewrite Index.iterations_set_node by done.
  assert (∀ x, x ∈ Index.iterations (ge_source e) true l → x ∈ l) as Hin
    by (intros x Hx; by apply Index.iterations_elem in Hx as [? _]).
  rewrite !nonempty_all_spec. intros [Hne Hall]. split.
  - unfold set_row. by destruct (Index.iterations _ _ _).
  - intros y' (y & Hy & ->)%set_node_elem. case_bool_decide as Hid; [|by apply Hall].
    pose proof (Hall y Hy) as Hk%has_status_true. rewrite (step_other l t' r y) in Hk by auto.
    by rewrite Hk in Hns.
Qed.

(** ** Soundness *)

(** A row that is READY in [l'] was READY before or its predecessors are done. *)
Definition ready_sound (l l' : list WorkflowNodeRun) : Prop :=
  ∀ t r', Index.get t l' = Some r' → nr_status r' = READY →
    (∃ r, Index.get t l = Some r ∧ nr_status r = READY) ∨ preds_done graph t l'.

Lemma steps_ready_sound l l' : Index.unique_ids l → rtc step l l' → ready_sound l l'.
Proof.
  intros Hu Hs. apply (steps_invariant (ready_sound l) l l'); [|done..|].
  - intros l1 l2 Hu1 H12 IH t r' Hg' Hr'.
    destruct (step_inv _ _ H12) as (t0 & r0 & f & Hg & -> & Hns & Hf & _ & _ & Hcase).
    rewrite Index.get_set_node in Hg' by done.
    destruct (Index.get t l1) as [r1|] eqn:Hg1; [|done]. simplify_eq/=.
    case_bool_decide as Hid.
    + destruct Hcase as [(-> & Hp & Hd) | ->]; [|done]. right.
      assert (t = t0) as ->.
      { apply Index.index_get_elem in Hg1 as [Hin <-], Hg as [Hin0 <-].
        f_equal. by apply (Index.unique_ids_eq l1). }
      by apply (step_preds_done l1).
    + destruct (IH t r1 Hg1 Hr') as [?|Hd]; [by left|right]. by apply (step_preds_done l1).
  - intros t r' ??. left. by exists r'.
Qed.

(** ** Completeness *)

(** A node that could be unlocked and was not. *)
Definition pending_ready (l : list WorkflowNodeRun) (t : string) : Prop :=
  ∃ r, Index.get t l = Some r ∧ nr_status r = PENDING ∧ preds_done graph t l.

Definition targets (es : list GraphEdge) : list string := ge_target <$> es.

(** Rewriting [r] makes no successor ready unless the new row lets it pass. *)
Lemma preds_done_back l t r f t' :
  Index.unique_ids l → Index.get t l = Some r → Index.keeps_keys f →
  (∀ e, e ∈ predecessors graph t' → ge_source e = t → ¬ lets_pass e (f r)) →
  preds_done graph t' (set_node (nr_id r) f l) → preds_done graph t' l.
Proof.
  intros Hu Hg Hf Hno.
  assert (∀ e x, e ∈ predecessors graph t' → x ∈ pred_rows e l →
    lets_pass e (if bool_decide (nr_id x = nr_id r) then f x else x) →
    nr_id x ≠ nr_id r) as Hx.
  { intros e x He [Hx Hn]%Index.iterations_elem Hpass Hid.
    rewrite bool_decide_eq_true_2, (step_other l t r x) in Hpass by done.
    apply (Hno e He); [|done]. rewrite (step_other l t r x) in Hn by done.
    apply Index.index_get_elem in Hg as [_ Ht]. congruence. }
  assert (∀ e, pred_rows e (set_node (nr_id r) f l) = set_node (nr_id r) f (pred_rows e l)) as Hit
    by (intros e; by apply Index.iterations_set_node).
  unfold preds_done. case_decide.
  - intros [?|(e & He & x' & Hx' & Hs)]; [by left|]. right. exists e. split; [done|].
    rewrite Hit in Hx'. apply set_node_elem in Hx' as (x & Hxin & ->).
    exists x. split; [done|]. rewrite bool_decide_eq_false_2 in Hs; [done|].
    apply (Hx e); [done..|]. by left.
  - intros Hall e He. destruct (Hall e He) as [Hne Hpass]. rewrite Hit in Hne, Hpass. split.
    + intros E. by rewrite E in Hne.
    + intros x Hxin. pose proof (Hpass _ (proj2 (set_node_elem _ _ _ _) (ex_intro _ x (conj Hxin eq_refl)))) as Hp.
      pose proof (Hx e x He Hxin Hp). by rewrite bool_decide_eq_false_2 in Hp.
Qed.

Lemma pending_ready_mark l t r t' :
  Index.unique_ids l → Index.get t l = Some r →
  pending_ready (set_node (nr_id r) mark_ready l) t' → pending_ready l t' ∧ t' ≠ t.
Proof.
  intros Hu Hg (r' & Hg' & Hp & Hd). rewrite Index.get_set_node in Hg' by done.
  destruct (Index.get t' l) as [r1|] eqn:Hg1; [|done]. simplify_eq/=.
  case_bool_decide as Hid; [done|]. split.
  - exists r1. split_and!; [done..|]. apply (preds_done_back l t r mark_ready); try done.
    intros e _ _ [?|[??]]; done.
  - intros ->. congruence.
Qed.

Lemma pending_ready_skip l t r t' :
  Index.unique_ids l → Index.get t l = Some r →
  pending_ready (set_node (nr_id r) skip_row l) t' →
  t' ≠ t ∧ (pending_ready l t' ∨ t' ∈ targets (successors graph t)).
Proof.
  intros Hu Hg (r' & Hg' & Hp & Hd). rewrite Index.get_set_node in Hg' by done.
  destruct (Index.get t' l) as [r1|] eqn:Hg1; [|done]. simplify_eq/=.
  case_bool_decide as Hid; [done|]. split; [intros ->; congruence|].
  destruct (decide (t' ∈ targets (successors graph t))) as [?|Hn]; [by right|left].
  exists r1. split_and!; [done..|]. apply (preds_done_back l t r skip_row); try done.
  intros e [He Ht]%elem_of_predecessors Hs _. apply Hn. unfold targets.
  apply list_elem_of_fmap. exists e. split; [done|]. by apply elem_of_successors.
Qed.

Lemma try_unlock_pending t l t' : Index.unique_ids l →
  pending_ready (try_unlock t l).2 t' → pending_ready l t' ∧ t' ≠ t.
Proof.
  intros Hu. unfold try_unlock. destruct (Index.get t l) as [r|] eqn:Hg; simpl.
  - destruct (has_status PENDING r && is_ready t graph l) eqn:E; simpl.
    + by apply pending_ready_mark.
    + intros Hp. split; [done|]. intros ->. destruct Hp as (r' & Hg' & Hp & Hd). simplify_eq.
      apply not_true_iff_false in E. apply E, andb_true_iff. rewrite has_status_true.
      by rewrite (is_ready_pending t l r).
  - intros Hp. split; [done|]. intros ->. destruct Hp as (r' & Hg' & _). congruence.
Qed.

Lemma try_unlock_edges_pending es l t' : Index.unique_ids l →
  pending_ready (try_unlock_edges es l).2 t' → pending_ready l t' ∧ t' ∉ targets es.
Proof.
  revert l. induction es as [|e es IH]; intros l Hu; simpl.
  { intros H. split; [done|]. apply not_elem_of_nil. }
  pose proof (steps_unique_ids _ _ (try_unlock_step (ge_target e) l) Hu) as Hu1.
  pose proof (try_unlock_pending (ge_target e) l t' Hu) as H1.
  destruct (try_unlock (ge_target e) l) as [u l1]. pose proof (IH l1 Hu1) as H2.
  destruct (try_unlock_edges es l1) as [us l2]. simpl in *. intros Hp.
  destruct (H2 Hp) as [Hp1 Hn]. destruct (H1 Hp1). split; [done|].
  change (t' ∉ ge_target e :: targets es). by apply not_elem_of_cons.
Qed.

Lemma cascade_edges_pending (S : string → Prop) es q l :
  Index.unique_ids l →
  (∀ t, pending_ready l t → S t ∨ t ∈ q ∨ t ∈ targets es) →
  ∀ t, pending_ready (cascade_edges es q l).2 t → S t ∨ t ∈ (cascade_edges es q l).1.
Proof.
  revert q l. induction es as [|e es IH]; intros q l Hu Hinv t.
  { simpl. intros Hp. destruct (Hinv t Hp) as [?|[?|H]]; auto. by apply not_elem_of_nil in H. }
  simpl. destruct (all_preds_skipped _ l); apply IH.
  - done.
  - intros t' Hp. rewrite elem_of_app, list_elem_of_singleton.
    destruct (Hinv t' Hp) as [?|[?|[->|?]%elem_of_cons]]; auto.
  - eapply steps_unique_ids; [apply try_unlock_step|done].
  - intros t' [Hp Hn]%try_unlock_pending; [|done].
    destruct (Hinv t' Hp) as [?|[?|[->|?]%elem_of_cons]]; auto; done.
Qed.

Lemma cascade_pending (S : string → Prop) fuel q l res :
  Index.unique_ids l → (∀ t, pending_ready l t → S t ∨ t ∈ q) →
  cascade fuel q l = Some res → ∀ t, pending_ready res.2 t → S t.
Proof.
  revert q l res. induction fuel as [|fuel IH]; intros [|x q] l res Hu Hinv; simpl; try done.
  1,2: intros [= <-] t Hp; destruct (Hinv t Hp) as [?|H]; [done|by apply not_elem_of_nil in H].
  assert (∀ r, Index.get x l = Some r → nr_status r ≠ PENDING →
    ∀ t, pending_ready l t → S t ∨ t ∈ q) as Hskip.
  { intros r Hg Hr t Hp. destruct (Hinv t Hp) as [?|[->|?]%elem_of_cons]; auto.
    destruct Hp as (r' & ? & ? & _). congruence. }
  destruct (Index.get x l) as [r|] eqn:Hg.
  - destruct (not_started (nr_status r)) eqn:Hs.
    + set (l1 := set_node (nr_id r) skip_row l).
      assert (step l l1) as H01 by (by apply (step_skip _ x)).
      pose proof (step_unique_ids _ _ H01 Hu) as Hu1.
      pose proof (cascade_edges_pending S (successors graph x) q l1 Hu1) as He.
      pose proof (steps_unique_ids _ _ (cascade_edges_step (successors graph x) q l1) Hu1) as Hu2.
      destruct (cascade_edges _ q l1) as [q' l2]. simpl in He, Hu2.
      destruct (cascade fuel q' l2) as [[sk l3]|] eqn:Hc; [|done]. intros [= <-]. simpl.
      apply (IH q' l2 (sk, l3)); [done| |done]. apply He.
      intros t Hp. destruct (pending_ready_skip l x r t Hu Hg Hp) as [Hn [Hp'|?]]; [|auto].
      destruct (Hinv t Hp') as [?|[?|?]%elem_of_cons]; auto; done.
    + apply IH; [done|]. apply (Hskip r); [done|]. intros E. by rewrite E in Hs.
  - apply IH; [done|]. intros t Hp. destruct (Hinv t Hp) as [?|[->|?]%elem_of_cons]; auto.
    destruct Hp as (r' & ? & _). congruence.
Qed.

(** ** Termination of the work queue *)

Local Open Scope nat_scope.

Definition skippable_at (l : list WorkflowNodeRun) (n : string) : bool :=
  match Index.get n l with Some r => not_started (nr_status r) | None => false end.

(** The edges that can still enqueue something. *)
Definition live_edges (l : list WorkflowNodeRun) : nat :=
  length (List.filter (λ e, skippable_at l (ge_source e)) (wg_edges graph)).

Lemma step_skippable l l' n :
  Index.unique_ids l → step l l' → skippable_at l' n = true → skippable_at l n = true.
Proof.
  intros Hu (t & r & f & Hg & -> & Hns & Hf & _)%step_inv. unfold skippable_at.
  rewrite Index.get_set_node by done. destruct (Index.get n l) as [x|] eqn:Hx; simpl; [|done].
  case_bool_decide as Hid; [|done]. apply Index.index_get_elem in Hx as [Hx _].
  by rewrite (step_other l t r x).
Qed.

Lemma steps_skippable l l' n :
  Index.unique_ids l → rtc step l l' → skippable_at l' n = true → skippable_at l n = true.
Proof.
  intros Hu Hs. apply (steps_invariant (λ l', skippable_at l' n = true → skippable_at l n = true)
    l l'); try done. intros l1 l2 Hu1 H12 H1 H2. by eapply H1, step_skippable.
Qed.

Lemma filter_length_mono (es : list GraphEdge) (p p' : GraphEdge → bool) :
  (∀ e, p' e = true → p e = true) → length (List.filter p' es) ≤ length (List.filter p es).
Proof.
  intros H. induction es as [|e es IH]; simpl; [done|]. pose proof (H e).
  destruct (p' e), (p e); simpl; try lia; naive_solver.
Qed.

Lemma live_edges_steps l l' : Index.unique_ids l → rtc step l l' → live_edges l' ≤ live_edges l.
Proof.
  intros Hu Hs. apply filter_length_mono. intros e. by apply steps_skippable.
Qed.

Lemma live_edges_skip l x r :
  Index.get x l = Some r → Index.unique_ids l → not_started (nr_status r) = true →
  live_edges (set_node (nr_id r) skip_row l) + length (successors graph x) ≤ live_edges l.
Proof.
  intros Hg Hu Hns. unfold live_edges, successors.
  assert (step l (set_node (nr_id r) skip_row l)) as Hs by (by apply (step_skip _ x)).
  induction (wg_edges graph) as [|e es IH]; simpl; [done|].
  pose proof (step_skippable _ _ (ge_source e) Hu Hs) as Hm.
  case_bool_decide as He; simpl.
  - subst x. assert (skippable_at l (ge_source e) = true) as -> by (unfold skippable_at; by rewrite Hg).
    assert (skippable_at (set_node (nr_id r) skip_row l) (ge_source e) = false) as ->.
    { unfold skippable_at. rewrite Index.get_set_node, Hg by done. simpl.
      by rewrite bool_decide_eq_true_2. }
    simpl. lia.
  - destruct (skippable_at (set_node _ _ _) _), (skippable_at l _); simpl; try lia; naive_solver.
Qed.

Lemma cascade_edges_length es q l : length (cascade_edges es q l).1 ≤ length q + length es.
Proof.
  revert q l. induction es as [|e es IH]; intros q l; simpl; [lia|].
  destruct (all_preds_skipped _ l); etransitivity; try apply IH; [rewrite length_app; simpl|]; lia.
Qed.

Lemma cascade_total fuel q l :
  Index.unique_ids l → length q + live_edges l ≤ fuel → is_Some (cascade fuel q l).
Proof.
  revert q l. induction fuel as [|fuel IH]; intros [|x q] l Hu Hle; simpl in *; eauto; [lia|].
  destruct (Index.get x l) as [r|] eqn:Hg; [|apply IH; [done|lia]].
  destruct (not_started (nr_status r)) eqn:Hs; [|apply IH; [done|lia]].
  set (l1 := set_node (nr_id r) skip_row l).
  assert (step l l1) as H01 by (by apply (step_skip _ x)).
  pose proof (live_edges_skip l x r Hg Hu Hs) as Hm.
  pose proof (step_unique_ids _ _ H01 Hu) as Hu1.
  pose proof (cascade_edges_step (successors graph x) q l1) as H12.
  pose proof (live_edges_steps _ _ Hu1 H12) as Hm2. pose proof (steps_unique_ids _ _ H12 Hu1) as Hu2.
  pose proof (cascade_edges_length (successors graph x) q l1) as Hq.
  destruct (cascade_edges _ q l1) as [q' l2]. simpl in *.
  destruct (IH q' l2) as [[sk l3] ->]; [done|unfold l1 in *; lia|]. eauto.
Qed.

(** The fuel of [cascade_skip] is enough. *)
Lemma cascade_skip_Some x l :
  Index.unique_ids l → cascade cascade_fuel [x] l = Some (cascade_skip x l).
Proof.
  intros Hu. destruct (cascade_total cascade_fuel [x] l) as [res E]; [done| |].
  - unfold cascade_fuel, live_edges. simpl.
    pose proof (filter_length_mono (wg_edges graph) (λ _, true) (λ e, skippable_at l (ge_source e))).
    assert (∀ es : list GraphEdge, List.filter (λ _, true) es = es) as Hall
      by (intros es; induction es; simpl; congruence).
    rewrite Hall in *. naive_solver lia.
  - unfold cascade_skip. by rewrite E.
Qed.

(** The node at the head of the queue has started or is skipped at the end. *)
Lemma cascade_head fuel x q l res :
  Index.unique_ids l → cascade fuel (x :: q) l = Some res → skippable_at res.2 x = false.
Proof.
  intros Hu. destruct fuel as [|fuel]; simpl; [done|].
  assert (∀ l1 q1 res1, Index.unique_ids l1 → cascade fuel q1 l1 = Some res1 →
    skippable_at l1 x = false → skippable_at res1.2 x = false) as Hrest.
  { intros l1 q1 res1 Hu1 Hc%cascade_step Hx. apply not_true_iff_false. intros H.
    apply (steps_skippable l1) in H; [congruence|done..]. }
  destruct (Index.get x l) as [r|] eqn:Hg.
  - destruct (not_started (nr_status r)) eqn:Hs.
    + set (l1 := set_node (nr_id r) skip_row l).
      assert (step l l1) as H01 by (by apply (step_skip _ x)).
      pose proof (step_unique_ids _ _ H01 Hu) as Hu1.
      pose proof (cascade_edges_step (successors graph x) q l1) as H12.
      assert (skippable_at l1 x = false) as Hx.
      { unfold skippable_at, l1. rewrite Index.get_set_node, Hg by done. simpl.
        by rewrite bool_decide_eq_true_2. }
      destruct (cascade_edges _ q l1) as [q' l2]. simpl in H12.
      destruct (cascade fuel q' l2) as [[sk l3]|] eqn:Hc; [|done]. intros [= <-].
      apply (Hrest l2 q' (sk, l3)); [by eapply steps_unique_ids|done|].
      apply not_true_iff_false. intros H. apply (steps_skippable l1) in H; [congruence|done..].
    + intros Hc. apply (Hrest l q); [done..|]. unfold skippable_at. by rewrite Hg.
  - intros Hc. apply (Hrest l q); [done..|]. unfold skippable_at. by rewrite Hg.
Qed.

(** ** Skipping *)

(** The rows SKIPPED in [l] were so in [l0], or were asked for ([S]), or have
    only skipped predecessors. *)
Definition skip_inv (S : string → Prop) (l0 l : list WorkflowNodeRun) : Prop :=
  ∀ t r, Index.get t l = Some r → nr_status r = SKIPPED →
    (∃ r0, Index.get t l0 = Some r0 ∧ nr_status r0 = SKIPPED) ∨ S t ∨ all_preds_skipped t l = true.

Lemma skip_inv_step S l0 l l' t r f :
  Index.unique_ids l → step l l' → l' = set_node (nr_id r) f l → Index.keeps_keys f →
  Index.get t l = Some r → (nr_status (f r) = SKIPPED → S t ∨ all_preds_skipped t l = true) →
  skip_inv S l0 l → skip_inv S l0 l'.
Proof.
  intros Hu Hs -> Hf Hg Hnew Hinv t' r' Hg' Hr'. pose proof Hg' as Hg''.
  rewrite Index.get_set_node in Hg' by done. destruct (Index.get t' l) as [r1|] eqn:Hg1; [|done].
  simplify_eq/=. pose proof (step_all_skipped _ _ t' Hu Hs) as Hmono.
  case_bool_decide as Hid.
  - assert (r1 = r) as -> by (apply Index.index_get_elem in Hg1 as [? _]; by apply (step_other l t)).
    assert (t' = t) as ->.
    { apply Index.index_get_elem in Hg1 as [_ <-]. by apply Index.index_get_elem in Hg as [_ <-]. }
    destruct (Hnew Hr'); auto.
  - destruct (Hinv t' r1 Hg1 Hr') as [?|[?|?]]; auto.
Qed.

Lemma try_unlock_skip_inv S l0 t l :
  Index.unique_ids l → skip_inv S l0 l → skip_inv S l0 (try_unlock t l).2.
Proof.
  intros Hu Hinv. pose proof (try_unlock_step t l) as Hs. unfold try_unlock in *.
  destruct (Index.get t l) as [r|] eqn:Hg; [|done].
  destruct (has_status PENDING r && is_ready t graph l) eqn:E; [|done].
  apply andb_true_iff in E as [Hp%has_status_true Hr%is_ready_preds]. simpl.
  apply (skip_inv_step S l0 l _ t r mark_ready); try done. by apply (step_ready _ t).
Qed.

Lemma try_unlock_edges_skip_inv S l0 es l :
  Index.unique_ids l → skip_inv S l0 l → skip_inv S l0 (try_unlock_edges es l).2.
Proof.
  revert l. induction es as [|e es IH]; intros l Hu Hinv; simpl; [done|].
  pose proof (try_unlock_skip_inv S l0 (ge_target e) l Hu Hinv) as H1.
  pose proof (steps_unique_ids _ _ (try_unlock_step (ge_target e) l) Hu) as Hu1.
  destruct (try_unlock (ge_target e) l) as [u l1]. pose proof (IH l1 Hu1 H1) as H2.
  by destruct (try_unlock_edges es l1).
Qed.

Definition queue_ok (S : string → Prop) (q : list string) (l : list WorkflowNodeRun) : Prop :=
  ∀ x, x ∈ q → S x ∨ all_preds_skipped x l = true.

Lemma queue_ok_steps S q l l' :
  Index.unique_ids l → rtc step l l' → queue_ok S q l → queue_ok S q l'.
Proof.
  intros Hu Hs. apply (steps_invariant (queue_ok S q)); try done.
  intros l1 l2 ?? Hq x Hx. destruct (Hq x Hx); [by left|right]. by eapply step_all_skipped.
Qed.

Lemma cascade_edges_skip_inv S l0 es q l :
  Index.unique_ids l → queue_ok S q l → skip_inv S l0 l →
  queue_ok S (cascade_edges es q l).1 (cascade_edges es q l).2 ∧
  skip_inv S l0 (cascade_edges es q l).2.
Proof.
  revert q l. induction es as [|e es IH]; intros q l Hu Hq Hinv; simpl; [done|].
  destruct (all_preds_skipped _ l) eqn:Hs; apply IH; try done.
  - intros x [?| ->%list_elem_of_singleton]%elem_of_app; auto.
  - eapply steps_unique_ids; [apply try_unlock_step|done].
  - by eapply queue_ok_steps; [|apply try_unlock_step|].
  - by apply try_unlock_skip_inv.
Qed.

Lemma cascade_skip_inv S l0 fuel q l res :
  Index.unique_ids l → queue_ok S q l → skip_inv S l0 l →
  cascade fuel q l = Some res → skip_inv S l0 res.2.
Proof.
  revert q l res. induction fuel as [|fuel IH]; intros [|x q] l res Hu Hq Hinv; simpl; try done.
  1,2: by intros [= <-].
  assert (queue_ok S q l) as Hq' by (intros y Hy; apply Hq; by right).
  destruct (Index.get x l) as [r|] eqn:Hg; [|by apply IH].
  destruct (not_started (nr_status r)) eqn:Hs; [|by apply IH].
  set (l1 := set_node (nr_id r) skip_row l).
  assert (step l l1) as H01 by (by apply (step_skip _ x)).
  pose proof (step_unique_ids _ _ H01 Hu) as Hu1.
  assert (skip_inv S l0 l1) as Hinv1.
  { apply (skip_inv_step S l0 l _ x r skip_row); try done. intros _. apply Hq. by left. }
  destruct (cascade_edges_skip_inv S l0 (successors graph x) q l1) as [Hq2 Hinv2]; [done| |done|].
  { apply (queue_ok_steps S q l); [done|by apply rtc_once|done]. }
  pose proof (steps_unique_ids _ _ (cascade_edges_step (successors graph x) q l1) Hu1) as Hu2.
  destruct (cascade_edges _ q l1) as [q' l2]. simpl in *.
  destruct (cascade fuel q' l2) as [[sk l3]|] eqn:Hc; [|done]. intros [= <-].
  by apply (IH q' l2 (sk, l3)).
Qed.

(** ** No orphans *)

(** A node that has not started although all its predecessors were skipped. *)
Definition orphan (l : list WorkflowNodeRun) (t : string) : Prop :=
  skippable_at l t = true ∧ all_preds_skipped t l = true.

Lemma all_preds_skipped_back l t r f t' :
  Index.unique_ids l → Index.get t l = Some r → Index.keeps_keys f →
  (t' ∈ targets (successors graph t) → nr_status (f r) ≠ SKIPPED) →
  all_preds_skipped t' (set_node (nr_id r) f l) = true → all_preds_skipped t' l = true.
Proof.
  intros Hu Hg Hf Hno. unfold all_preds_skipped.
  destruct (predecessors graph t') as [|e0 es0] eqn:Hps; [done|]. rewrite <- Hps.
  rewrite !forallb_True_Forall, !Forall_forall. intros Hall e He. pose proof (Hall e He) as H.
  rewrite Index.iterations_set_node in H by done. apply nonempty_all_spec in H as [Hne Hsk].
  apply nonempty_all_spec. split; [intros E; by rewrite E in Hne|]. intros x Hx.
  pose proof (Hsk _ (proj2 (set_node_elem _ _ _ _) (ex_intro _ x (conj Hx eq_refl)))) as Hs.
  case_bool_decide as Hid; [|done]. exfalso. apply Index.iterations_elem in Hx as [Hx Hn].
  rewrite (step_other l t r x) in Hs, Hn by done. apply has_status_true in Hs.
  apply Hno in Hs; [done|]. apply list_elem_of_fmap. exists e.
  apply elem_of_predecessors in He as [He <-]. split; [done|]. apply elem_of_successors.
  apply Index.index_get_elem in Hg as [_ Hg]. by rewrite <- Hn, Hg.
Qed.

Lemma try_unlock_orphan t l t' :
  Index.unique_ids l → orphan (try_unlock t l).2 t' → orphan l t'.
Proof.
  intros Hu [H1 H2]. split; [by eapply steps_skippable, H1; [|apply try_unlock_step]|].
  revert H2. unfold try_unlock. destruct (Index.get t l) as [r|] eqn:Hg; [|done].
  destruct (_ && _); [|done]. by apply (all_preds_skipped_back l t r).
Qed.

Lemma try_unlock_edges_orphan es l t' :
  Index.unique_ids l → orphan (try_unlock_edges es l).2 t' → orphan l t'.
Proof.
  revert l. induction es as [|e es IH]; intros l Hu; simpl; [done|].
  pose proof (steps_unique_ids _ _ (try_unlock_step (ge_target e) l) Hu) as Hu1.
  pose proof (try_unlock_orphan (ge_target e) l t' Hu).
  destruct (try_unlock (ge_target e) l) as [u l1]. pose proof (IH l1 Hu1).
  destruct (try_unlock_edges es l1). simpl in *. auto.
Qed.

Lemma cascade_edges_orphan es q l :
  Index.unique_ids l → (∀ t, orphan l t → t ∈ q ∨ t ∈ targets es) →
  ∀ t, orphan (cascade_edges es q l).2 t → t ∈ (cascade_edges es q l).1.
Proof.
  revert q l. induction es as [|e es IH]; intros q l Hu Hinv t.
  { simpl. intros Hp. destruct (Hinv t Hp) as [?|H]; [done|]. by apply not_elem_of_nil in H. }
  simpl. destruct (all_preds_skipped (ge_target e) l) eqn:Hs; apply IH; clear t.
  - done.
  - intros t Hp. rewrite elem_of_app, list_elem_of_singleton.
    destruct (Hinv t Hp) as [?|[->|?]%elem_of_cons]; auto.
  - eapply steps_unique_ids; [apply try_unlock_step|done].
  - intros t Hp%try_unlock_orphan; [|done].
    destruct (Hinv t Hp) as [?|[->|?]%elem_of_cons]; auto. destruct Hp as [_ Hp]. congruence.
Qed.

Lemma cascade_orphan fuel q l res :
  Index.unique_ids l → (∀ t, orphan l t → t ∈ q) →
  cascade fuel q l = Some res → ∀ t, ¬ orphan res.2 t.
Proof.
  revert q l res. induction fuel as [|fuel IH]; intros [|x q] l res Hu Hinv; simpl; try done.
  1,2: intros [= <-] t Hp; apply Hinv in Hp; by apply not_elem_of_nil in Hp.
  assert (skippable_at l x = false → ∀ t, orphan l t → t ∈ q) as Hskip.
  { intros Hx t Hp. pose proof (Hinv t Hp) as Hin. apply elem_of_cons in Hin as [->|?]; [|done].
    destruct Hp. congruence. }
  destruct (Index.get x l) as [r|] eqn:Hg.
  - destruct (not_started (nr_status r)) eqn:Hs.
    + set (l1 := set_node (nr_id r) skip_row l).
      assert (step l l1) as H01 by (by apply (step_skip _ x)).
      pose proof (step_unique_ids _ _ H01 Hu) as Hu1.
      pose proof (cascade_edges_orphan (successors graph x) q l1 Hu1) as He.
      pose proof (steps_unique_ids _ _ (cascade_edges_step (successors graph x) q l1) Hu1) as Hu2.
      destruct (cascade_edges _ q l1) as [q' l2]. simpl in He, Hu2.
      destruct (cascade fuel q' l2) as [[sk l3]|] eqn:Hc; [|done]. intros [= <-]. simpl.
      apply (IH q' l2 (sk, l3)); [done| |done]. apply He. intros t [H1 H2].
      destruct (decide (t ∈ targets (successors graph x))) as [?|Hn]; [by right|left].
      assert (t ≠ x) as Htx.
      { intros ->. unfold skippable_at, l1 in H1. rewrite Index.get_set_node, Hg in H1 by done.
        simpl in H1. by rewrite bool_decide_eq_true_2 in H1. }
      assert (orphan l t) as Hp.
      { split; [by eapply step_skippable|].
        by apply (all_preds_skipped_back l x r skip_row t). }
      pose proof (Hinv t Hp) as Hin. by apply elem_of_cons in Hin as [?|?].
    + apply IH; [done|]. apply Hskip. unfold skippable_at. by rewrite Hg.
  - apply IH; [done|]. apply Hskip. unfold skippable_at. by rewrite Hg.
Qed.

(** ** The whole operation *)

Definition not_taken (branch : string) (e : GraphEdge) : Prop :=
  ge_condition e ≠ None ∧ ge_condition e ≠ Some branch.

Lemma unlock_branch_correct b es l :
  Index.unique_ids l →
  (∀ t, pending_ready l t → t ∈ targets es) → (∀ t, ¬ orphan l t) →
  let l' := (unlock_branch b es l).2 in
  (∀ t, ¬ pending_ready l' t) ∧ (∀ t, ¬ orphan l' t).
Proof.
  revert l. induction es as [|e es IH]; intros l Hu Hpend Horph; simpl.
  { split; [|done]. intros t Hp. apply Hpend in Hp. by apply not_elem_of_nil in Hp. }
  destruct (Index.get (ge_target e) l) as [r|] eqn:Hg.
  2: { apply IH; try done. intros t Hp. pose proof (Hpend t Hp) as Hin.
       apply elem_of_cons in Hin as [->|?]; [|done].
       destruct Hp as (r & ? & _). congruence. }
  set (r1 := if bool_decide _ then _ else _).
  assert (Index.unique_ids r1.2 ∧ (∀ t, pending_ready r1.2 t → t ∈ targets es) ∧
    (∀ t, ¬ orphan r1.2 t)) as (Hu1 & Hp1 & Ho1).
  { subst r1. case_bool_decide as Hc.
    - split_and!.
      + eapply steps_unique_ids; [apply try_unlock_step|done].
      + intros t [Hp Hn]%try_unlock_pending; [|done].
        by pose proof (Hpend t Hp) as [->|?]%elem_of_cons.
      + intros t Hp%try_unlock_orphan; [|done]. by apply (Horph t).
    - pose proof (cascade_skip_Some (ge_target e) l Hu) as Hcas.
      pose proof (steps_unique_ids _ _ (cascade_skip_step (ge_target e) l) Hu) as Hu1.
      unfold unlock_joins_after_skip. split_and!.
      + eapply steps_unique_ids; [apply try_unlock_edges_step|done].
      + intros t [Hp _]%try_unlock_edges_pending; [|done].
        apply (cascade_pending (λ t, t ∈ targets es) _ _ _ _ Hu) with (2 := Hcas); [|done].
        intros t' Hp'. pose proof (Hpend t' Hp') as [->|?]%elem_of_cons; [right|by left].
        by apply list_elem_of_singleton.
      + intros t Hp%try_unlock_edges_orphan; [|done].
        eapply (cascade_orphan _ _ _ _ Hu); [|exact Hcas|exact Hp]. intros ? Ho. by apply Horph in Ho. }
  destruct r1 as [u l1]. simpl in *. specialize (IH l1 Hu1 Hp1 Ho1).
  by destruct (unlock_branch b es l1).
Qed.

(** The same loop, for the rows it skips. *)
Lemma unlock_branch_skip_inv (S : string → Prop) l0 b es l :
  Index.unique_ids l → (∀ e, e ∈ es → not_taken b e → S (ge_target e)) → skip_inv S l0 l →
  skip_inv S l0 (unlock_branch b es l).2.
Proof.
  revert l. induction es as [|e es IH]; intros l Hu Hnt Hskip; simpl; [done|].
  assert (∀ e, e ∈ es → not_taken b e → S (ge_target e)) as Hnt'
    by (intros e' He'; apply Hnt; by right).
  destruct (Index.get (ge_target e) l) as [r|] eqn:Hg; [|by apply IH].
  set (r1 := if bool_decide _ then _ else _).
  assert (Index.unique_ids r1.2 ∧ skip_inv S l0 r1.2) as (Hu1 & Hs1).
  { subst r1. case_bool_decide as Hc.
    - split; [|by apply try_unlock_skip_inv].
      eapply steps_unique_ids; [apply try_unlock_step|done].
    - pose proof (cascade_skip_Some (ge_target e) l Hu) as Hcas.
      pose proof (steps_unique_ids _ _ (cascade_skip_step (ge_target e) l) Hu) as Hu1.
      unfold unlock_joins_after_skip. split.
      + eapply steps_unique_ids; [apply try_unlock_edges_step|done].
      + apply try_unlock_edges_skip_inv; [done|].
        apply (cascade_skip_inv S l0 _ _ _ _ Hu) with (3 := Hcas); [|done].
        intros x ->%list_elem_of_singleton. left. apply Hnt; [by left|]. unfold not_taken. tauto. }
  destruct r1 as [u l1]. simpl in *. specialize (IH l1 Hu1 Hnt' Hs1).
  by destruct (unlock_branch b es l1).
Qed.

Lemma unlock_skip_sound source output l :
  Index.unique_ids l →
  skip_inv (λ t, ∃ e b, e ∈ successors graph source ∧ ge_target e = t ∧
                        branch_of output = Some b ∧ not_taken b e)
    l (unlock_after_node_success source output l).2.
Proof.
  intros Hu. assert (∀ S, skip_inv S l l) as H0 by (intros S t r ??; left; by exists r).
  unfold unlock_after_node_success. destruct (branch_of output) as [b|];
    [case_match|]; try (by apply try_unlock_edges_skip_inv).
  apply unlock_branch_skip_inv; [done| |done]. intros e He Hn. by exists e, b.
Qed.

Lemma unlock_correct source output l :
  Index.unique_ids l →
  (∀ t, pending_ready l t → t ∈ targets (successors graph source)) → (∀ t, ¬ orphan l t) →
  let l' := (unlock_after_node_success source output l).2 in
  (∀ t, ¬ pending_ready l' t) ∧ (∀ t, ¬ orphan l' t).
Proof.
  intros Hu Hp Ho. unfold unlock_after_node_success.
  assert (∀ t, ¬ pending_ready (try_unlock_edges (successors graph source) l).2 t) as H1.
  { intros t [H1 H2]%try_unlock_edges_pending; [|done]. by apply H2, Hp. }
  assert (∀ t, ¬ orphan (try_unlock_edges (successors graph source) l).2 t) as H2.
  { intros t H2%try_unlock_edges_orphan; [|done]. by apply (Ho t). }
  destruct (branch_of output) as [b|]; [|done]. case_match; [|done].
  by apply unlock_branch_correct.
Qed.

End unlock.
End Unlock.
