(* ===== verification/UnlockSpec.v ===== *)
(** * What unlocking guarantees

    The contract of [unlock_after_node_success] towards the engine, proved from
    the step lemmas of [Unlock], with a run of a small branching graph. *)
From S2P Require Import Prelude PyStr Json Graph RunModels NodeIndex Ready Unlock.

Module UnlockSpec.
Import Graph Models Ready Unlock.
Local Open Scope string_scope.
Local Open Scope list_scope.

(** ** A run to evaluate on: a condition with two arms that join again *)

Definition ex_node (id type : string) : GraphNode :=
  {| gn_id := id; gn_type := type; gn_version := 1; gn_config := []; gn_input_bindings := [] |}.
Definition ex_edge (s t : string) (c : option string) : GraphEdge :=
  {| ge_source := s; ge_target := t; ge_condition := c; ge_source_port := None;
     ge_target_port := None |}.
Definition ex_graph : WorkflowGraph := {|
  wg_schema_version := 1;
  wg_nodes := [ex_node "c" "condition"; ex_node "a" "text"; ex_node "b" "text"; ex_node "b2" "text";
               ex_node "j" "merge"];
  wg_edges := [ex_edge "c" "a" (Some "yes"); ex_edge "c" "b" (Some "no"); ex_edge "b" "b2" None;
               ex_edge "a" "j" None; ex_edge "b2" "j" None];
  wg_metadata := [] |}.
Definition ex_row (id node : string) (s : NodeStatus) : WorkflowNodeRun :=
  new_node_run id "t" "run" node "text" 1 s "" [].
Definition ex_rows : list WorkflowNodeRun :=
  [ex_row "1" "c" SUCCEEDED; ex_row "2" "a" PENDING; ex_row "3" "b" PENDING;
   ex_row "4" "b2" PENDING; ex_row "5" "j" PENDING].
Definition ex_output : option (dict json) := Some [("branch", JStr " yes ")].

Example ex_unlock :
  (λ r, (nr_node_id r, nr_status r)) <$> (unlock_after_node_success 7 ex_graph "c" ex_output ex_rows).2
  = [("c", SUCCEEDED); ("a", READY); ("b", SKIPPED); ("b2", SKIPPED); ("j", PENDING)].
Proof. vm_compute. reflexivity. Qed.

Lemma ex_unique : Index.unique_ids ex_rows.
Proof. unfold Index.unique_ids. apply (bool_decide_unpack _). vm_compute. exact I. Defined.

Lemma pending_ready_iff g l t :
  pending_ready g l t ↔
    ∃ r, Index.get t l = Some r ∧ nr_status r = PENDING ∧ is_ready t g l = true.
Proof.
  unfold pending_ready. split; intros (r & Hg & Hp & Hd); exists r; split_and!; try done;
    by apply (is_ready_pending g t l r).
Qed.

(** C19: unlocking changes only rows that had not started: a row stays as it
    was, or goes from PENDING to READY with no other column touched, or goes
    from PENDING, READY or QUEUED to SKIPPED with its finish time set and its
    wait reason and error cleared.  A node that ends up READY either was READY
    or is ready in the final state; a node that ends up SKIPPED either was
    SKIPPED, or is the target of a branch the source did not take, or has only
    skipped predecessor rows. *)
Theorem unlock_sound now g source output l :
  Index.unique_ids l →
  let l' := (unlock_after_node_success now g source output l).2 in
  Forall2 (evolves now) l l' ∧
  (∀ t r', Index.get t l' = Some r' → nr_status r' = READY →
     (∃ r, Index.get t l = Some r ∧ nr_status r = READY) ∨ is_ready t g l' = true) ∧
  (∀ t r', Index.get t l' = Some r' → nr_status r' = SKIPPED →
     (∃ r, Index.get t l = Some r ∧ nr_status r = SKIPPED) ∨
     (∃ e b, e ∈ successors g source ∧ ge_target e = t ∧ branch_of output = Some b ∧
             not_taken b e) ∨
     all_preds_skipped g t l' = true).
Proof.
  intros Hu l'. pose proof (unlock_step now g source output l) as Hs. split_and!.
  - by apply (steps_evolves now g).
  - intros t r' Hg Hr. destruct (steps_ready_sound now g l l' Hu Hs t r' Hg Hr) as [?|Hd]; [by left|].
    right. apply is_ready_iff. exists r'. by rewrite Hr.
  - apply unlock_skip_sound; done.
Qed.

Lemma unlock_sound_witness :
  Index.unique_ids ex_rows ∧
  Forall2 (evolves 7) ex_rows (unlock_after_node_success 7 ex_graph "c" ex_output ex_rows).2.
Proof.
  split; [exact ex_unique|].
  exact (proj1 (unlock_sound 7 ex_graph "c" ex_output ex_rows ex_unique)).
Defined.

(** C20: unlocking forgets nothing.  If, when the source has just succeeded, the
    only pending nodes that are ready are successors of the source, and no
    node that has not started has only skipped predecessors, then afterwards no
    pending node is ready and still no unstarted node has only skipped
    predecessors: every node of the run that can go on was marked READY, and
    every node that never will was skipped. *)
Theorem unlock_complete now g source output l :
  Index.unique_ids l →
  (∀ t r, Index.get t l = Some r → nr_status r = PENDING → is_ready t g l = true →
     ∃ e, e ∈ successors g source ∧ ge_target e = t) →
  (∀ t r, Index.get t l = Some r → all_preds_skipped g t l = true →
     not_started (nr_status r) = false) →
  let l' := (unlock_after_node_success now g source output l).2 in
  (∀ t r, Index.get t l' = Some r → nr_status r = PENDING → is_ready t g l' = false) ∧
  (∀ t r, Index.get t l' = Some r → all_preds_skipped g t l' = true →
     not_started (nr_status r) = false).
Proof.
  intros Hu Hpend Horph l'.
  destruct (unlock_correct now g source output l Hu) as [Hp Ho].
  - intros t (r & Hg & Hr & Hd)%pending_ready_iff.
    destruct (Hpend t r Hg Hr Hd) as (e & He & <-). by apply list_elem_of_fmap_2.
  - intros t [Hs Ha]. unfold skippable_at in Hs. destruct (Index.get t l) as [r|] eqn:Hg; [|done].
    by rewrite (Horph t r Hg Ha) in Hs.
  - fold l' in Hp, Ho. split.
    + intros t r Hg Hr. apply not_true_iff_false. intros Hd. apply (Hp t).
      apply pending_ready_iff. by exists r.
    + intros t r Hg Ha. apply not_true_iff_false. intros Hs. apply (Ho t). split; [|done].
      unfold skippable_at. by rewrite Hg.
Qed.

(** Every node of the example has one of these rows. *)
Lemma ex_get t r : Index.get t ex_rows = Some r → r ∈ ex_rows ∧ nr_node_id r = t.
Proof. apply Index.index_get_elem. Defined.

Lemma unlock_complete_witness :
  is_ready "j" ex_graph (unlock_after_node_success 7 ex_graph "c" ex_output ex_rows).2 = false.
Proof.
  refine (proj1 (unlock_complete 7 ex_graph "c" ex_output ex_rows ex_unique _ _) "j" (ex_row "5" "j" PENDING)
    eq_refl eq_refl).
  - intros t r [Hr <-]%ex_get Hp. unfold ex_rows in Hr. revert Hp. set_unfold in Hr.
    destruct Hr as [->|[->|[->|[->|[->|[]]]]]]; try (by vm_compute).
    + intros _ _. exists (ex_edge "c" "a" (Some "yes")). split; [vm_compute; left|done].
    + intros _ _. exists (ex_edge "c" "b" (Some "no")). split; [vm_compute; right; left|done].
  - intros t r [Hr <-]%ex_get. unfold ex_rows in Hr. set_unfold in Hr.
    destruct Hr as [->|[->|[->|[->|[->|[]]]]]]; by vm_compute.
Defined.

(** C23: the work queue of [cascade_skip] empties within one more pop than the
    graph has edges, however the edges are laid out; afterwards the node it
    started from is no longer waiting to start, and if before it no unstarted
    node other than that one had only skipped predecessors, none has after. *)
Theorem cascade_skip_terminates now g x l :
  Index.unique_ids l →
  ∃ skipped l', cascade now g (S (length (wg_edges g))) [x] l = Some (skipped, l') ∧
    cascade_skip now g x l = (skipped, l') ∧
    (∀ r, Index.get x l' = Some r → not_started (nr_status r) = false) ∧
    ((∀ t, orphan g l t → t = x) → ∀ t, ¬ orphan g l' t).
Proof.
  intros Hu. pose proof (cascade_skip_Some now g x l Hu) as Hc.
  destruct (cascade_skip now g x l) as [sk l'] eqn:E. exists sk, l'. split_and!; try done.
  - intros r Hg. pose proof (cascade_head now g _ _ _ _ _ Hu Hc) as Hx.
    unfold skippable_at in Hx. simpl in Hx. by rewrite Hg in Hx.
  - intros Ho. apply (cascade_orphan now g _ _ _ _ Hu) with (2 := Hc).
    intros t Ht. apply list_elem_of_singleton. by apply Ho.
Qed.

Lemma cascade_skip_terminates_witness :
  ∃ skipped l', cascade 7 ex_graph 6 ["b"] ex_rows = Some (skipped, l').
Proof.
  destruct (cascade_skip_terminates 7 ex_graph "b" ex_rows ex_unique) as (sk & l' & H & _).
  exists sk, l'. exact H.
Defined.

End UnlockSpec.
