(* ===== verification/Retry.v ===== *)
(** * Retry classification and backoff (node_retry.py, engine_failure.py)

    Failures are classified, retried while the policy allows it, and delayed by
    an exponential backoff with jitter.  Seconds are exact rationals, the random
    draw of the jitter is an argument in [-1, 1], instants are microseconds. *)
From Stdlib Require Import QArith Qround Qminmax Lqa.
From S2P Require Import Prelude PyStr Json Nodes RunModels.

(** The settings the workflow engine reads. *)
Record Settings := {
  WORKFLOW_CLAIM_LEASE_SECONDS : Z;
  WORKFLOW_CLAIM_RECOVERY_BATCH_SIZE : nat;
  WORKFLOW_INLINE_NODE_EXECUTION : bool;
}.

Module Retry.
Import Nodes Models.
Local Open Scope string_scope.
Local Open Scope list_scope.
Local Open Scope Z_scope.

Inductive ErrorClass :=
  | TRANSIENT | RATE_LIMITED | TIMEOUT | PROVIDER_UNAVAILABLE | VALIDATION | PERMANENT
  | AUTHENTICATION | POLICY.

#[global] Instance ErrorClass_eq_dec : EqDecision ErrorClass.
Proof. solve_decision. Defined.

Definition error_class_value (c : ErrorClass) : string :=
  match c with
  | TRANSIENT => "transient" | RATE_LIMITED => "rate_limited" | TIMEOUT => "timeout"
  | PROVIDER_UNAVAILABLE => "provider_unavailable" | VALIDATION => "validation"
  | PERMANENT => "permanent" | AUTHENTICATION => "authentication" | POLICY => "policy"
  end.

Definition all_error_classes : list ErrorClass :=
  [TRANSIENT; RATE_LIMITED; TIMEOUT; PROVIDER_UNAVAILABLE; VALIDATION; PERMANENT;
   AUTHENTICATION; POLICY].

(** [ErrorClass(text)]; [None] is its ValueError. *)
Definition ErrorClass_of (text : string) : option ErrorClass :=
  List.find (λ c, String.eqb (error_class_value c) text) all_error_classes.

Definition NON_RETRYABLE_BY_DEFAULT : list string :=
  error_class_value <$> [VALIDATION; PERMANENT; AUTHENTICATION; POLICY].
Definition DEFAULT_RETRY_ON : list string :=
  error_class_value <$> [TRANSIENT; RATE_LIMITED; TIMEOUT; PROVIDER_UNAVAILABLE].

(** ** Backoff *)

Definition Qclamp01 (q : Q) : Q := Qmax 0 (Qmin 1 q).

(** [x or 300.0] on a duration. *)
Definition q_or (q d : Q) : Q := if Qeq_bool q 0 then d else q.

(** [compute_backoff_seconds]; [u] is [random.uniform(-1.0, 1.0)].  The power of
    two is an int, and multiplying a float by an int beyond the float range
    raises. *)
Definition compute_backoff_seconds (attempt : Z) (policy : RetryPolicyDefaults)
    (jitter_ratio u : Q) : result Q :=
  let attempt := Z.max 1 attempt in
  let base := rp_backoff_seconds policy in
  let max_backoff := q_or (rp_max_backoff_seconds policy) 300 in
  if 1024 <=? attempt - 1
  then Raise (OtherException "OverflowError" "int too large to convert to float")
  else
    let raw := Qmin max_backoff (base * inject_Z (2 ^ (attempt - 1))) in
    if Qle_bool raw 0 then Ok 0%Q
    else
      let jitter := (raw * Qclamp01 jitter_ratio * u)%Q in
      Ok (Qmax 0 (raw + jitter)).

(** [timedelta(seconds=q)] in microseconds, rounded half to even. *)
Definition timedelta_us (q : Q) : Z :=
  let x := (q * inject_Z 1000000)%Q in
  let f := Qfloor x in
  let r := (x - inject_Z f)%Q in
  match Qcompare r (1 # 2) with
  | Lt => f
  | Gt => f + 1
  | Eq => if Z.even f then f else f + 1
  end.

Definition next_attempt_at_for (cfg : Settings) (attempt : Z) (policy : RetryPolicyDefaults)
    (u : Q) (now : Z) : result Z :=
  if WORKFLOW_INLINE_NODE_EXECUTION cfg then mret now
  else delay ← compute_backoff_seconds attempt policy (1 # 5) u;
       mret (now + timedelta_us delay).

(** ** Classification *)

Definition should_retry (error_class : string) (attempt : Z) (policy : RetryPolicyDefaults) : bool :=
  if rp_max_attempts policy <=? attempt then false
  else
    let retry_on := PyStr.lower <$>
      match rp_retry_on policy with [] => DEFAULT_RETRY_ON | l => l end in
    let normalized := PyStr.lower
      (if PyStr.truthy error_class then error_class else error_class_value PERMANENT) in
    if bool_decide (normalized ∈ NON_RETRYABLE_BY_DEFAULT) && negb (bool_decide (normalized ∈ retry_on))
    then false else bool_decide (normalized ∈ retry_on).

(** A Python exception as the classifier sees it. *)
Record PyException := {
  exc_name : string;
  exc_message : string;
  exc_is_timeout : bool;      (* isinstance of TimeoutError *)
  exc_is_connection : bool;   (* isinstance of ConnectionError or OSError *)
}.

Definition any_in (tokens : list string) (text : string) : bool :=
  existsb (λ token, PyStr.contains token text) tokens.

Definition classify_exception (exc : PyException) : ErrorClass :=
  let name := PyStr.lower (exc_name exc) in
  let message := PyStr.lower (exc_message exc) in
  if exc_is_timeout exc then TIMEOUT
  else if PyStr.contains "timeout" name || PyStr.contains "timeout" message then TIMEOUT
  else if PyStr.contains "rate" message && PyStr.contains "limit" message then RATE_LIMITED
  else if PyStr.contains "429" message then RATE_LIMITED
  else if any_in ["401"; "403"; "unauthorized"; "forbidden"; "auth"] message then AUTHENTICATION
  else if any_in ["validation"; "invalid"; "schema"; "422"] message then VALIDATION
  else if any_in ["policy"; "blocked"; "denied"] message then POLICY
  else if existsb (λ token, PyStr.contains token name || PyStr.contains token message)
            ["connection"; "unavailable"; "connect"; "dns"; "network"] then PROVIDER_UNAVAILABLE
  else if exc_is_connection exc then PROVIDER_UNAVAILABLE
  else TRANSIENT.

Definition CODE_MAP : dict ErrorClass :=
  [("transient", TRANSIENT); ("timeout", TIMEOUT); ("rate_limited", RATE_LIMITED);
   ("rate_limit", RATE_LIMITED); ("provider_unavailable", PROVIDER_UNAVAILABLE);
   ("unavailable", PROVIDER_UNAVAILABLE); ("validation", VALIDATION); ("invalid", VALIDATION);
   ("invalid_node_output", PERMANENT); ("authentication", AUTHENTICATION);
   ("auth", AUTHENTICATION); ("policy", POLICY); ("permanent", PERMANENT);
   ("missing_db", PERMANENT); ("missing_graph_node", PERMANENT); ("execute_error", TRANSIENT);
   ("node_failed", TRANSIENT); ("claim_lease_expired", TRANSIENT)].

(** [d.get(k) or e] *)
Definition get_truthy (k : string) (d : dict json) (e : json) : json :=
  let v := Json.getn k d in if Json.truthy v then v else e.

Definition runtime_error (message : string) : PyException :=
  {| exc_name := "RuntimeError"; exc_message := message; exc_is_timeout := false;
     exc_is_connection := false |}.

Definition classify_error_payload (error : option (dict json)) : ErrorClass :=
  match error with
  | None | Some [] => PERMANENT
  | Some e =>
      let code := PyStr.lower (Json.str (get_truthy "code" e (get_truthy "error_class" e (JStr "")))) in
      let by_message := classify_exception
        (runtime_error (Json.str (get_truthy "message" e (JStr "")))) in
      match Dict.get code CODE_MAP with
      | Some c => c
      | None =>
          match Dict.get "error_class" e with
          | Some v => default by_message (ErrorClass_of (PyStr.lower (Json.str v)))
          | None => by_message
          end
      end
  end.

Definition error_message (error : option (dict json)) (fallback : string) : string :=
  match error with
  | None | Some [] => fallback
  | Some e =>
      let text := Json.str (get_truthy "message" e (get_truthy "code" e (JStr fallback))) in
      if Nat.leb (String.length text) 2000 then text else PyStr.take 2000 text
  end.

Definition schedule_run_advance (cfg : Settings) (tenant_id run_id : string) (delay_seconds : Q)
    (st : Store) : Store :=
  if WORKFLOW_INLINE_NODE_EXECUTION cfg then st
  else
    let countdown :=
      if Qle_bool delay_seconds 0 then 0 else Z.max 1 (Qceiling delay_seconds) in
    st <| st_tasks ::= λ ts, ts ++ [AdvanceRunTask tenant_id run_id countdown] |>.

(** [apply_side_effect_idempotency] *)
Definition apply_side_effect_idempotency (node_type : string) (inputs : dict json)
    (execution_key : option string) : dict json :=
  let given := Json.getn "idempotency_key" inputs in
  let key := if PyStr.opt_truthy execution_key then Json.opt_str execution_key else given in
  if String.eqb node_type "publish" && Json.truthy key && negb (Json.truthy given)
  then
    let k := Json.str key in
    Dict.set "idempotency_key"
      (JStr (if Nat.leb 8 (String.length k) then k else "wf-" +:+ k)) inputs
  else inputs.

(** ** persist_failure *)

Definition persist_failure (cfg : Settings) (now : Z) (u : Q) (policy : RetryPolicyDefaults)
    (error : dict json) (error_class : string) : M WorkflowNodeRun unit :=
  row ← get_state;
  let attempt := nr_attempt row in
  let message := error_message (Some error) "node failed" in
  _ ← modify (λ r, r <| nr_last_error := Some message |> <| nr_error_class := Some error_class |>
        <| nr_error_json := Some (Dict.set "error_class" (JStr error_class) error) |>);
  if should_retry error_class attempt policy then
    _ ← modify (λ r, r <| nr_status := READY |>);
    next ← lift (next_attempt_at_for cfg attempt policy u now);
    modify (λ r, r <| nr_next_attempt_at := Some next |> <| nr_finished_at := None |>)
  else
    modify (λ r, r <| nr_status := FAILED |> <| nr_finished_at := Some now |>
                   <| nr_next_attempt_at := None |>).

(** ** Backoff bounds *)

Local Open Scope Q_scope.

Lemma Qclamp01_bounds q : 0 <= Qclamp01 q /\ Qclamp01 q <= 1.
Proof.
  unfold Qclamp01. split; [apply Q.le_max_l|].
  apply Q.max_lub; [done|apply Q.le_min_l].
Qed.

(** A factor in [-1, 1] moves a quantity by at most itself. *)
Lemma jitter_bounds raw j u :
  0 <= raw → 0 <= j /\ j <= 1 → -1 <= u /\ u <= 1 →
  raw * (1 - j) <= raw + raw * j * u /\ raw + raw * j * u <= raw * (1 + j) /\
  0 <= raw + raw * j * u.
Proof.
  intros Hr [Hj0 Hj1] [Hu0 Hu1].
  assert (0 <= raw * j) as Hrj by (by apply Qmult_le_0_compat).
  assert (0 <= raw * (1 - j)) as H1 by (apply Qmult_le_0_compat; [done|lra]).
  assert (0 <= raw * j * (1 + u)) as H2 by (apply Qmult_le_0_compat; [done|lra]).
  assert (0 <= raw * j * (1 - u)) as H3 by (apply Qmult_le_0_compat; [done|lra]).
  split_and!; lra.
Qed.

Definition capped_backoff (attempt : Z) (policy : RetryPolicyDefaults) : Q :=
  Qmin (q_or (rp_max_backoff_seconds policy) 300)
       (rp_backoff_seconds policy * inject_Z (2 ^ (Z.max 1 attempt - 1))).

Lemma capped_backoff_nonneg attempt policy :
  0 <= rp_backoff_seconds policy → 0 <= rp_max_backoff_seconds policy →
  0 <= capped_backoff attempt policy.
Proof.
  intros Hb Hm. unfold capped_backoff. apply Q.min_glb.
  - unfold q_or. by destruct (Qeq_bool _ 0).
  - apply Qmult_le_0_compat; [done|]. change 0 with (inject_Z 0). rewrite <- Zle_Qle.
    apply Z.pow_nonneg. lia.
Qed.

Lemma compute_backoff_bounds attempt policy ratio u :
  0 <= rp_backoff_seconds policy → 0 <= rp_max_backoff_seconds policy →
  -1 <= u /\ u <= 1 → (attempt <= 1024)%Z →
  ∃ d, compute_backoff_seconds attempt policy ratio u = Ok d /\ 0 <= d /\
    capped_backoff attempt policy * (1 - Qclamp01 ratio) <= d /\
    d <= capped_backoff attempt policy * (1 + Qclamp01 ratio).
Proof.
  intros Hb Hm Hu Ha. unfold compute_backoff_seconds. fold (capped_backoff attempt policy).
  pose proof (capped_backoff_nonneg attempt policy Hb Hm) as Hraw.
  destruct (Z.leb_spec 1024 (Z.max 1 attempt - 1)); [lia|].
  set (raw := capped_backoff attempt policy) in *. pose proof (Qclamp01_bounds ratio) as Hj.
  destruct (Qle_bool raw 0) eqn:E.
  - apply Qle_bool_iff in E. exists 0. split_and!; [done|done|nra|nra].
  - destruct (jitter_bounds raw _ u Hraw Hj Hu) as (H1 & H2 & H3).
    eexists. split; [done|]. rewrite Q.max_r by done. done.
Qed.

Lemma timedelta_us_nonneg q : 0 <= q → (0 <= timedelta_us q)%Z.
Proof.
  intros Hq. unfold timedelta_us. cbv zeta.
  assert (0 <= Qfloor (q * inject_Z 1000000))%Z as Hf.
  { change 0%Z with (Qfloor 0). apply Qfloor_resp_le.
    apply Qmult_le_0_compat; [done|]. unfold Qle. simpl. lia. }
  destruct (Qcompare _ _); [destruct (Z.even _)|..]; lia.
Qed.

Local Open Scope Z_scope.

Lemma next_attempt_later cfg attempt policy u now :
  (0 <= rp_backoff_seconds policy)%Q → (0 <= rp_max_backoff_seconds policy)%Q →
  (-1 <= u)%Q ∧ (u <= 1)%Q → attempt <= 1024 →
  ∃ t, next_attempt_at_for cfg attempt policy u now = Ok t ∧ now <= t.
Proof.
  intros Hb Hm Hu Ha. unfold next_attempt_at_for.
  destruct (WORKFLOW_INLINE_NODE_EXECUTION cfg); [by exists now|].
  destruct (compute_backoff_bounds attempt policy (1 # 5) u Hb Hm Hu Ha) as (d & -> & Hd & _).
  exists (now + timedelta_us d). split; [done|]. pose proof (timedelta_us_nonneg d Hd). lia.
Qed.

(** ** What is retried *)

Lemma should_retry_iff error_class attempt policy :
  should_retry error_class attempt policy = true ↔
    attempt < rp_max_attempts policy ∧
    PyStr.lower (if PyStr.truthy error_class then error_class else "permanent") ∈
      PyStr.lower <$> match rp_retry_on policy with [] => DEFAULT_RETRY_ON | l => l end.
Proof.
  unfold should_retry. destruct (Z.leb_spec (rp_max_attempts policy) attempt).
  { split; [done|]. intros [? _]. lia. }
  simpl error_class_value. set (n := PyStr.lower _). set (l := PyStr.lower <$> _).
  destruct (decide (n ∈ l)) as [Hn|Hn].
  - rewrite (bool_decide_eq_true_2 _ Hn), andb_false_r. done.
  - rewrite (bool_decide_eq_false_2 _ Hn). split; [by destruct (_ && _)|naive_solver].
Qed.

Lemma error_message_length error fallback :
  (String.length fallback ≤ 2000)%nat → (String.length (error_message error fallback) ≤ 2000)%nat.
Proof.
  intros Hf. unfold error_message. destruct error as [[|kv e]|]; try done.
  set (t := Json.str _). destruct (Nat.leb_spec (String.length t) 2000); [done|].
  apply PyStr.take_length.
Qed.

(** A policy as the pydantic model accepts it. *)
Definition policy_ok (p : RetryPolicyDefaults) : Prop :=
  1 <= rp_max_attempts p ∧ (0 <= rp_backoff_seconds p)%Q ∧ (0 <= rp_max_backoff_seconds p)%Q.

Lemma default_policy_ok : policy_ok default_retry_policy.
Proof. unfold policy_ok. simpl. repeat split; try lia; unfold Qle; simpl; lia. Defined.

(** The backoff of attempt n never raises while 2^(n-1) fits a float and
    lies within the jitter ratio (clamped to [0, 1]) of
    min(max, base * 2^(n-1)), where a maximum of zero means 300 seconds: it is
    never negative and never beyond the maximum plus its jitter. *)
Theorem compute_backoff_seconds_spec attempt policy ratio u :
  policy_ok policy → attempt <= 1024 → (-1 <= u)%Q ∧ (u <= 1)%Q →
  let limit := q_or (rp_max_backoff_seconds policy) 300 in
  let raw := Qmin limit (rp_backoff_seconds policy * inject_Z (2 ^ (Z.max 1 attempt - 1)))%Q in
  let j := Qclamp01 ratio in
  ∃ d, compute_backoff_seconds attempt policy ratio u = Ok d ∧
    (0 <= d)%Q ∧ (raw * (1 - j) <= d)%Q ∧ (d <= raw * (1 + j))%Q ∧ (d <= limit * (1 + j))%Q.
Proof.
  intros (_ & Hb & Hm) Ha Hu limit raw j.
  destruct (compute_backoff_bounds attempt policy ratio u Hb Hm Hu Ha) as (d & Hd & H0 & H1 & H2).
  exists d. split_and!; try done. eapply Qle_trans; [exact H2|].
  apply Qmult_le_compat_r; [apply Q.le_min_l|].
  pose proof (Qclamp01_bounds ratio) as [? _]. subst j. lra.
Qed.

Lemma compute_backoff_seconds_spec_witness :
  ∃ d, compute_backoff_seconds 3 default_retry_policy (1 # 5) (1 # 2) = Ok d ∧ (d <= 300 * (1 + (1 # 5)))%Q.
Proof.
  destruct (compute_backoff_seconds_spec 3 default_retry_policy (1 # 5) (1 # 2))
    as (d & Hd & _ & _ & _ & H).
  - apply default_policy_ok.
  - lia.
  - split; unfold Qle; simpl; lia.
  - exists d. split; [exact Hd|exact H].
Defined.

(** The row a failed attempt leaves. *)
Definition failed_attempt (now : Z) (policy : RetryPolicyDefaults) (error_class : string)
    (row row' : WorkflowNodeRun) : Prop :=
  let retried :=
    nr_attempt row < rp_max_attempts policy ∧
    PyStr.lower (if PyStr.truthy error_class then error_class else "permanent") ∈
      PyStr.lower <$> match rp_retry_on policy with [] => DEFAULT_RETRY_ON | l => l end in
  (retried → nr_status row' = READY ∧ nr_finished_at row' = None ∧
             ∃ t, nr_next_attempt_at row' = Some t ∧ now <= t) ∧
  (¬ retried → nr_status row' = FAILED ∧ nr_finished_at row' = Some now ∧
               nr_next_attempt_at row' = None) ∧
  nr_attempt row' = nr_attempt row ∧ nr_error_class row' = Some error_class ∧
  (∃ e, nr_error_json row' = Some e ∧ Dict.get "error_class" e = Some (JStr error_class)) ∧
  (∃ m, nr_last_error row' = Some m ∧ (String.length m ≤ 2000)%nat).

Lemma persist_failure_id cfg now u policy error error_class row :
  nr_id (persist_failure cfg now u policy error error_class row).2 = nr_id row.
Proof.
  unfold persist_failure, mbind, M_bind, get_state, modify, lift. destruct (should_retry _ _ _); [|done].
  by destruct (next_attempt_at_for _ _ _ _ _).
Qed.

Lemma persist_failure_outcome cfg now u policy error error_class row :
  policy_ok policy → nr_attempt row <= 1024 → (-1 <= u)%Q ∧ (u <= 1)%Q →
  ∃ row', persist_failure cfg now u policy error error_class row = (Ok (), row') ∧
    failed_attempt now policy error_class row row' ∧
    nr_id row' = nr_id row ∧ nr_claim_token row' = nr_claim_token row ∧
    nr_execution_key row' = nr_execution_key row.
Proof.
  intros (_ & Hb & Hm) Ha Hu.
  assert (∃ m, Some (error_message (Some error) "node failed") = Some m ∧
               (String.length m ≤ 2000)%nat) as Hlen.
  { eexists. split; [done|]. apply error_message_length. simpl. lia. }
  assert (∃ e, Some (Dict.set "error_class" (JStr error_class) error) = Some e ∧
               Dict.get "error_class" e = Some (JStr error_class)) as Hcls.
  { eexists. split; [done|]. apply Dict.get_set_eq. }
  pose proof (should_retry_iff error_class (nr_attempt row) policy) as Hiff.
  unfold persist_failure. unfold mbind, M_bind. simpl.
  destruct (should_retry error_class (nr_attempt row) policy); simpl.
  - destruct (next_attempt_later cfg (nr_attempt row) policy u now Hb Hm Hu Ha) as (t & -> & Ht).
    eexists. split; [done|]. unfold failed_attempt. simpl. split; [|done].
    split_and!; try done; [intros _; eauto|]. intros Hn. destruct Hn. by apply Hiff.
  - eexists. split; [done|]. unfold failed_attempt. simpl. split; [|done].
    split_and!; try done. intros Hr. apply Hiff in Hr. done.
Qed.

(** A failed attempt is either scheduled again or final.  It is scheduled
    again, READY with a due time that is not in the past and no finish time,
    exactly when the attempt number is below the policy's maximum and the error
    class is one the policy retries (case-insensitively; an empty class counts
    as permanent, an empty policy list as the default one); otherwise the row is
    FAILED, finished now, with no due time.  In both cases the attempt counter
    is left alone, the class is recorded in the column and in the error object,
    and the stored message has at most 2000 characters. *)
Theorem persist_failure_spec cfg now u policy error error_class row :
  policy_ok policy → nr_attempt row <= 1024 → (-1 <= u)%Q ∧ (u <= 1)%Q →
  let '(res, row') := persist_failure cfg now u policy error error_class row in
  let retried :=
    nr_attempt row < rp_max_attempts policy ∧
    PyStr.lower (if PyStr.truthy error_class then error_class else "permanent") ∈
      PyStr.lower <$> match rp_retry_on policy with [] => DEFAULT_RETRY_ON | l => l end in
  res = Ok () ∧
  (retried → nr_status row' = READY ∧ nr_finished_at row' = None ∧
             ∃ t, nr_next_attempt_at row' = Some t ∧ now <= t) ∧
  (¬ retried → nr_status row' = FAILED ∧ nr_finished_at row' = Some now ∧
               nr_next_attempt_at row' = None) ∧
  nr_attempt row' = nr_attempt row ∧ nr_error_class row' = Some error_class ∧
  (∃ e, nr_error_json row' = Some e ∧ Dict.get "error_class" e = Some (JStr error_class)) ∧
  (∃ m, nr_last_error row' = Some m ∧ (String.length m ≤ 2000)%nat).
Proof.
  intros Hp Ha Hu.
  destruct (persist_failure_outcome cfg now u policy error error_class row Hp Ha Hu)
    as (row' & -> & H & _). by split.
Qed.

Definition ex_row : WorkflowNodeRun :=
  (new_node_run "id" "tenant" "run" "n" "text" 1 RUNNING "" []) <| nr_attempt := 1 |>.
Definition ex_settings : Settings := Build_Settings 900 50 false.

Lemma persist_failure_spec_witness :
  nr_status (persist_failure ex_settings 5 0 default_retry_policy
               [("message", JStr "boom")] "Transient" ex_row).2 = READY.
Proof.
  pose proof (persist_failure_spec ex_settings 5 0 default_retry_policy
    [("message", JStr "boom")] "Transient" ex_row default_policy_ok) as H.
  destruct (persist_failure _ _ _ _ _ _ _) as [res row'].
  destruct H as (_ & H & _).
  - simpl. lia.
  - split; unfold Qle; simpl; lia.
  - apply H. split; [simpl; lia|]. apply (bool_decide_unpack _). vm_compute. exact I.
Defined.

(** A class, once recorded in an error object that has no code of its own,
    is the class the object is given again: every error class survives being
    stored and re-read. *)
Theorem classify_error_payload_roundtrip c error :
  Json.truthy (Json.getn "code" error) = false →
  classify_error_payload (Some (Dict.set "error_class" (JStr (error_class_value c)) error)) = c.
Proof.
  intros Hc. unfold classify_error_payload.
  destruct (Dict.set "error_class" _ error) as [|kv e] eqn:E.
  { pose proof (Dict.get_set_eq "error_class" (JStr (error_class_value c)) error) as H.
    by rewrite E in H. }
  rewrite <- E. unfold get_truthy.
  assert (Json.getn "code" (Dict.set "error_class" (JStr (error_class_value c)) error) =
          Json.getn "code" error) as ->.
  { unfold Json.getn. by rewrite Dict.get_set_ne. }
  rewrite Hc. unfold Json.getn at 1 2. rewrite Dict.get_set_eq. by destruct c.
Qed.

Lemma classify_error_payload_roundtrip_witness :
  classify_error_payload (Some (Dict.set "error_class" (JStr "policy") [("message", JStr "timeout")]))
  = POLICY.
Proof. exact (classify_error_payload_roundtrip POLICY [("message", JStr "timeout")] eq_refl). Defined.

(** A publish node always runs with an idempotency key when its row has an
    execution key, and never has one of its own replaced; the key does not
    change on redelivery, and no other input is touched. *)
Theorem side_effect_idempotency_spec node_type inputs key :
  PyStr.truthy key = true →
  let inputs' := apply_side_effect_idempotency node_type inputs (Some key) in
  (node_type = "publish" → Json.truthy (Json.getn "idempotency_key" inputs') = true) ∧
  (Json.truthy (Json.getn "idempotency_key" inputs) = true → inputs' = inputs) ∧
  apply_side_effect_idempotency node_type inputs' (Some key) = inputs' ∧
  (∀ k, k ≠ "idempotency_key" → Dict.get k inputs' = Dict.get k inputs).
Proof.
  intros Hk inputs'. subst inputs'. unfold apply_side_effect_idempotency.
  assert (PyStr.opt_truthy (Some key) = true) as -> by done.
  cbn [Json.opt_str Json.truthy Json.str]. rewrite Hk.
  destruct (String.eqb_spec node_type "publish") as [->|Hn]; cbn [andb]; [|done].
  destruct (Json.truthy (Json.getn "idempotency_key" inputs)) eqn:Hg; cbn [negb]; [by rewrite Hg|].
  set (v := if Nat.leb 8 (String.length key) then key else "wf-" +:+ key).
  assert (PyStr.truthy v = true) as Hv by (subst v; by destruct (Nat.leb _ _)).
  unfold Json.getn in *. rewrite Dict.get_set_eq. simpl. rewrite Hv. simpl.
  split_and!; try done. intros k Hne. by apply Dict.get_set_ne.
Qed.

Lemma side_effect_idempotency_spec_witness :
  Json.truthy (Json.getn "idempotency_key"
    (apply_side_effect_idempotency "publish" [] (Some "run:node:v1"))) = true.
Proof. exact (proj1 (side_effect_idempotency_spec "publish" [] "run:node:v1" eq_refl) eq_refl). Defined.

(** The prefixed key is shorter than the eight characters it is meant to have. *)
Example short_idempotency_key :
  apply_side_effect_idempotency "publish" [] (Some "abc") = [("idempotency_key", JStr "wf-abc")].
Proof. reflexivity. Qed.

End Retry.
