(* ===== verification/Claiming.v ===== *)
(** * Claim leases on node rows (node_claiming.py)

    A worker owns a row through the claim token written by [claim_ready_node];
    every later statement is conditional on the token it was given.  A
    statement acts on the rows of the table in creation order; [locked] holds
    the ids other transactions have locked, which SKIP LOCKED passes over. *)
From S2P Require Import Prelude PyStr Json RunModels Retry.

Module Claiming.
Import Models.
Local Open Scope string_scope.
Local Open Scope list_scope.
Local Open Scope Z_scope.

Notation rows := (list WorkflowNodeRun) (only parsing).

(** [update(...).where(p).values(f).returning(...)], read as a single row. *)
Definition sql_update (p : WorkflowNodeRun → bool) (f : WorkflowNodeRun → WorkflowNodeRun) (l : rows)
    : option WorkflowNodeRun * rows :=
  (f <$> List.find p l, (λ r, if p r then f r else r) <$> l).

Definition is_status (s : NodeStatus) (r : WorkflowNodeRun) : bool := bool_decide (nr_status r = s).
Definition claim_active (r : WorkflowNodeRun) : bool := is_status QUEUED r || is_status RUNNING r.
Definition token_is (token : option string) (r : WorkflowNodeRun) : bool :=
  match token with
  | Some t => bool_decide (nr_claim_token r = Some t)
  | None => true
  end.
Definition row_is (tenant_id node_run_id : string) (r : WorkflowNodeRun) : bool :=
  bool_decide (nr_tenant_id r = tenant_id) && bool_decide (nr_id r = node_run_id).

(** [_clear_claim_values] *)
Definition clear_claim_values (r : WorkflowNodeRun) : WorkflowNodeRun :=
  r <| nr_claim_token := None |> <| nr_claim_expires_at := None |> <| nr_claimed_at := None |>
    <| nr_worker_task_id := None |> <| nr_last_heartbeat_at := None |>.

Definition build_execution_key (workflow_run_id node_id : string) (node_version : Z)
    (iteration_key : option string) : string :=
  let base := workflow_run_id +:+ ":" +:+ node_id +:+ ":v" +:+ PyStr.of_Z node_version in
  match iteration_key with
  | Some k => if PyStr.truthy k then base +:+ ":" +:+ k else base
  | None => base
  end.

Section claiming.
Context (cfg : Settings) (now : Z).

(** [now + timedelta(seconds=lease_seconds or settings...)] *)
Definition lease_end (lease_seconds : option Z) : Z :=
  let lease := match lease_seconds with
               | Some n => if n =? 0 then WORKFLOW_CLAIM_LEASE_SECONDS cfg else n
               | None => WORKFLOW_CLAIM_LEASE_SECONDS cfg
               end in
  now + 1000000 * lease.

Definition due (r : WorkflowNodeRun) : bool :=
  match nr_next_attempt_at r with None => true | Some t => t <=? now end.

Definition claimable (tenant_id workflow_run_id : string) (node_run_id : option string)
    (r : WorkflowNodeRun) : bool :=
  bool_decide (nr_tenant_id r = tenant_id) && bool_decide (nr_workflow_run_id r = workflow_run_id) &&
  is_status READY r && due r &&
  match node_run_id with Some i => bool_decide (nr_id r = i) | None => true end.

Definition claimed_row (token : string) (lease_seconds : option Z) (r : WorkflowNodeRun)
    : WorkflowNodeRun :=
  r <| nr_status := QUEUED |> <| nr_claim_token := Some token |>
    <| nr_claim_expires_at := Some (lease_end lease_seconds) |> <| nr_claimed_at := Some now |>
    <| nr_last_heartbeat_at := Some now |> <| nr_next_attempt_at := None |>
    <| nr_execution_key := Some (build_execution_key (nr_workflow_run_id r) (nr_node_id r)
         (if nr_node_version r =? 0 then 1 else nr_node_version r) (Some (nr_iteration_key r))) |>.

Definition claim_ready_node (locked : gset string) (token tenant_id workflow_run_id : string)
    (node_run_id : option string) (lease_seconds : option Z) (l : rows)
    : option WorkflowNodeRun * rows :=
  match List.find (λ r, claimable tenant_id workflow_run_id node_run_id r &&
                        negb (bool_decide (nr_id r ∈ locked))) l with
  | None => (None, l)
  | Some picked =>
      sql_update (λ r, bool_decide (nr_id r = nr_id picked) && is_status READY r && due r)
        (claimed_row token lease_seconds) l
  end.

Definition renew_node_claim (tenant_id node_run_id claim_token : string) (lease_seconds : option Z)
    (worker_task_id : option string) (l : rows) : option WorkflowNodeRun * rows :=
  sql_update (λ r, row_is tenant_id node_run_id r && token_is (Some claim_token) r && claim_active r)
    (λ r, let r := r <| nr_claim_expires_at := Some (lease_end lease_seconds) |>
                     <| nr_last_heartbeat_at := Some now |> in
          match worker_task_id with Some w => r <| nr_worker_task_id := Some w |> | None => r end) l.

Definition release_node_claim (tenant_id node_run_id : string) (claim_token : option string)
    (requeue : bool) (next_attempt_at : option Z) (l : rows) : option WorkflowNodeRun * rows :=
  sql_update (λ r, row_is tenant_id node_run_id r && token_is claim_token r)
    (λ r, let r := clear_claim_values r in
          if requeue then r <| nr_status := READY |> <| nr_next_attempt_at := next_attempt_at |>
          else r) l.

Definition complete_node (tenant_id node_run_id : string) (claim_token : option string) (l : rows)
    : option WorkflowNodeRun * rows :=
  sql_update (λ r, row_is tenant_id node_run_id r && token_is claim_token r) clear_claim_values l.

Definition fail_node (tenant_id node_run_id : string) (error : dict json)
    (claim_token error_class last_error : option string) (l : rows)
    : option WorkflowNodeRun * rows :=
  let message :=
    if PyStr.opt_truthy last_error then default "" last_error
    else Json.str (Retry.get_truthy "message" error (Retry.get_truthy "code" error (JStr "node failed"))) in
  let cls :=
    if PyStr.opt_truthy error_class then default "" error_class
    else Json.str (Retry.get_truthy "error_class" error (JStr "permanent")) in
  sql_update (λ r, row_is tenant_id node_run_id r && token_is claim_token r)
    (λ r, clear_claim_values r <| nr_status := FAILED |> <| nr_error_json := Some error |>
            <| nr_finished_at := Some now |> <| nr_next_attempt_at := None |>
            <| nr_last_error := Some (if Nat.leb (String.length message) 2000 then message
                                      else PyStr.take 2000 message) |>
            <| nr_error_class := Some cls |>) l.

Definition begun_row (worker_task_id task_execution_id : option string) (lease_seconds : option Z)
    (r : WorkflowNodeRun) : WorkflowNodeRun :=
  let r := r <| nr_status := RUNNING |> <| nr_claim_expires_at := Some (lease_end lease_seconds) |>
             <| nr_last_heartbeat_at := Some now |> in
  let r := if PyStr.opt_truthy worker_task_id then r <| nr_worker_task_id := worker_task_id |> else r in
  match task_execution_id with
  | Some te =>
      let r := r <| nr_task_execution_id := Some te |> in
      if bool_decide (te ∈ nr_task_execution_ids r) then r
      else r <| nr_task_execution_ids ::= λ l, l ++ [te] |>
  | None => r
  end.

Definition begin_node_execution (tenant_id node_run_id claim_token : string)
    (worker_task_id task_execution_id : option string) (lease_seconds : option Z) (l : rows)
    : option WorkflowNodeRun * rows :=
  match node_row node_run_id l with
  | None => (None, l)
  | Some node =>
      if negb (bool_decide (nr_tenant_id node = tenant_id)) ||
         negb (bool_decide (nr_claim_token node = Some claim_token)) then (None, l)
      else if nr_cancellation_requested node then (None, l)
      else if negb (claim_active node) then (None, l)
      else let f := begun_row worker_task_id task_execution_id lease_seconds in
           (Some (f node), set_node node_run_id f l)
  end.

Definition stale (r : WorkflowNodeRun) : bool :=
  claim_active r &&
  match nr_claim_expires_at r with Some t => t <=? now | None => false end.

Definition expires_le (a b : WorkflowNodeRun) : Prop :=
  default 0 (nr_claim_expires_at a) <= default 0 (nr_claim_expires_at b).
#[global] Instance expires_le_dec a b : Decision (expires_le a b).
Proof. unfold expires_le. apply _. Defined.

Definition list_stale_claimed_nodes (locked : gset string) (batch_size : option nat) (l : rows) : rows :=
  let size := match batch_size with
              | Some O | None => WORKFLOW_CLAIM_RECOVERY_BATCH_SIZE cfg
              | Some n => n
              end in
  firstn size (merge_sort expires_le
    (List.filter (λ r, stale r && negb (bool_decide (nr_id r ∈ locked))) l)).

End claiming.
(** ** One statement, one row *)

Notation unique_ids l := (NoDup (nr_id <$> l)).

Lemma sql_update_None p f l : (∀ r, r ∈ l → p r = false) → sql_update p f l = (None, l).
Proof.
  intros H. unfold sql_update. f_equal.
  - assert (List.find p l = None) as -> by (by apply find_None_Forall, Forall_forall). done.
  - transitivity ((λ r, r) <$> l); [|apply list_fmap_id]. apply list_fmap_ext.
    intros ? r Hr%list_elem_of_lookup_2. by rewrite H.
Qed.

(** A statement that names an id rewrites at most the row with that id. *)
Lemma sql_update_split p f l1 r l2 :
  unique_ids (l1 ++ r :: l2) → p r = true → (∀ x, p x = true → nr_id x = nr_id r) →
  sql_update p f (l1 ++ r :: l2) = (Some (f r), l1 ++ f r :: l2).
Proof.
  rewrite fmap_app, fmap_cons. intros Hnd Hp Hid.
  apply NoDup_app in Hnd as (_ & Hnd1 & [Hr _]%NoDup_cons).
  assert (∀ x, x ∈ l1 ∨ x ∈ l2 → p x = false) as Hothers.
  { intros x Hx. apply not_true_iff_false. intros Hpx. pose proof (Hid x Hpx) as Heq.
    destruct Hx as [Hx|Hx].
    - apply (Hnd1 (nr_id x)); [by apply list_elem_of_fmap_2|]. rewrite Heq. left.
    - apply Hr. rewrite <- Heq. by apply list_elem_of_fmap_2. }
  assert (∀ l : rows, (∀ x, x ∈ l → p x = false) → (λ r, if p r then f r else r) <$> l = l) as Hmap.
  { intros l Hl. transitivity ((λ r, r) <$> l); [|apply list_fmap_id]. apply list_fmap_ext.
    intros ? x Hx%list_elem_of_lookup_2. by rewrite Hl. }
  unfold sql_update. f_equal.
  - assert (List.find p (l1 ++ r :: l2) = Some r) as ->; [|done].
    revert Hothers. clear Hnd1. induction l1 as [|x l1 IH]; simpl; intros Ho; [by rewrite Hp|].
    rewrite (Ho x) by (left; left). apply IH. intros y [Hy|Hy]; apply Ho; [left; by right|by right].
  - rewrite fmap_app, fmap_cons, Hp. rewrite !Hmap by eauto. done.
Qed.

Lemma sql_update_at p f l r :
  unique_ids l → r ∈ l → p r = true → (∀ x, p x = true → nr_id x = nr_id r) →
  sql_update p f l = (Some (f r), set_node (nr_id r) f l).
Proof.
  intros Hnd (l1 & l2 & ->)%list_elem_of_split Hp Hid.
  rewrite (sql_update_split p f l1 r l2) by done. f_equal.
  pose proof (sql_update_split (λ x, bool_decide (nr_id x = nr_id r)) f l1 r l2 Hnd) as H.
  unfold sql_update, set_row in *. rewrite bool_decide_eq_true_2 in H by done.
  specialize (H eq_refl). assert (∀ A B (a a' : A) (b b' : B), (a, b) = (a', b') → b = b') as Hsnd
    by (intros; congruence).
  apply Hsnd in H; [done|]. intros x Hx. by apply bool_decide_eq_true in Hx.
Qed.

Lemma find_split {A} (p : A → bool) l x :
  List.find p l = Some x → ∃ l1 l2, l = l1 ++ x :: l2 ∧ p x = true ∧ Forall (λ y, p y = false) l1.
Proof.
  induction l as [|y l IH]; simpl; [done|]. destruct (p y) eqn:E.
  - intros [= <-]. exists [], l. by rewrite E.
  - intros (l1 & l2 & -> & ? & ?)%IH. exists (y :: l1), l2. split_and!; [done..|]. by constructor.
Qed.

(** ** Claiming *)

(** A claim either finds no unlocked row of the run that is READY and due,
    and then changes nothing, or takes the oldest such row and no other: that
    row becomes QUEUED under the new token with a lease counted from now and
    its deterministic execution key, and until it is released nobody else can
    claim it, whatever their clock, token or locks. *)
Theorem claim_ready_node_spec cfg now locked token tenant run nid lease l :
  unique_ids l →
  match claim_ready_node cfg now locked token tenant run nid lease l with
  | (None, l') =>
      l' = l ∧ ∀ r, r ∈ l → claimable now tenant run nid r = true → nr_id r ∈ locked
  | (Some n, l') =>
      ∃ l1 r l2, l = l1 ++ r :: l2 ∧ l' = l1 ++ n :: l2 ∧ n = claimed_row cfg now token lease r ∧
        claimable now tenant run nid r = true ∧ nr_id r ∉ locked ∧
        (∀ x, x ∈ l1 → claimable now tenant run nid x = true → nr_id x ∈ locked) ∧
        (∀ now' locked' token' tenant' run' lease',
           claim_ready_node cfg now' locked' token' tenant' run' (Some (nr_id n)) lease' l' = (None, l'))
  end.
Proof.
  intros Hnd. unfold claim_ready_node.
  destruct (List.find _ l) as [r|] eqn:E.
  - apply find_split in E as (l1 & l2 & -> & [Hc Hl]%andb_true_iff & Hall).
    apply negb_true_iff, bool_decide_eq_false in Hl.
    assert (is_status READY r = true ∧ due now r = true) as [Hs Hd].
    { unfold claimable in Hc. by repeat apply andb_true_iff in Hc as [Hc ?]. }
    rewrite sql_update_split; [|done|by rewrite bool_decide_eq_true_2, Hs, Hd|].
    2: { intros x Hx. repeat apply andb_true_iff in Hx as [Hx ?]. by apply bool_decide_eq_true in Hx. }
    exists l1, r, l2. split_and!; try done.
    + intros x Hx Hcx. rewrite Forall_forall in Hall. specialize (Hall x Hx). rewrite Hcx in Hall.
      by apply negb_false_iff, bool_decide_eq_true in Hall.
    + intros now' locked' token' tenant' run' lease'.
      destruct (List.find _ _) as [x|] eqn:E; [|done]. exfalso.
      apply find_Some_elem in E as [Hx [Hcx _]%andb_true_iff].
      unfold claimable in Hcx. apply andb_true_iff in Hcx as [Hcx Hid%bool_decide_eq_true].
      repeat apply andb_true_iff in Hcx as [Hcx ?]. simpl in Hid.
      rewrite fmap_app, fmap_cons in Hnd. apply NoDup_app in Hnd as (_ & Hnd1 & [Hnr _]%NoDup_cons).
      apply elem_of_app in Hx as [Hx|[->|Hx]%elem_of_cons].
      * apply (Hnd1 (nr_id x)); [by apply list_elem_of_fmap_2|]. rewrite Hid. left.
      * done.
      * apply Hnr. rewrite <- Hid. by apply list_elem_of_fmap_2.
  - apply find_None_Forall in E. rewrite Forall_forall in E. split; [done|].
    intros r Hr Hc. specialize (E r Hr). rewrite Hc in E.
    by apply negb_false_iff, bool_decide_eq_true in E.
Qed.

Definition ex_ready (id : string) : WorkflowNodeRun :=
  new_node_run id "tenant" "run" ("node-" +:+ id) "text" 1 READY "" [].
Definition ex_rows : rows := [ex_ready "a"; ex_ready "b"].

Lemma claim_ready_node_spec_witness :
  ∃ n l', claim_ready_node Retry.ex_settings 100 ∅ "tok" "tenant" "run" None None ex_rows = (Some n, l') ∧
    ∀ now' locked' token', claim_ready_node Retry.ex_settings now' locked' token' "tenant" "run"
      (Some (nr_id n)) None l' = (None, l').
Proof.
  pose proof (claim_ready_node_spec Retry.ex_settings 100 ∅ "tok" "tenant" "run" None None ex_rows) as H.
  assert (unique_ids ex_rows) as Hu by (apply (bool_decide_unpack _); vm_compute; exact I).
  specialize (H Hu). destruct (claim_ready_node _ _ _ _ _ _ _ _ ex_rows) as [[n|] l'] eqn:E.
  - exists n, l'. split; [reflexivity|]. intros now' locked' token'.
    destruct H as (l1 & r & l2 & _ & _ & _ & _ & _ & _ & H). apply H.
  - vm_compute in E. discriminate.
Defined.

(** ** Fencing *)

(** A statement of the claim protocol, with what it was called with. *)
Inductive claim_op :=
  | Claim (now : Z) (locked : gset string) (token tenant run : string) (nid : option string) (lease : option Z)
  | Renew (now : Z) (tenant nid token : string) (lease : option Z) (worker : option string)
  | Release (tenant nid : string) (token : option string) (requeue : bool) (next : option Z)
  | Complete (tenant nid : string) (token : option string)
  | FailNode (now : Z) (tenant nid : string) (error : dict json) (token cls last : option string)
  | Begin (now : Z) (tenant nid token : string) (worker task : option string) (lease : option Z).

Definition run_op (cfg : Settings) (op : claim_op) (l : rows) : option WorkflowNodeRun * rows :=
  match op with
  | Claim now locked token tenant run nid lease =>
      claim_ready_node cfg now locked token tenant run nid lease l
  | Renew now tenant nid token lease worker => renew_node_claim cfg now tenant nid token lease worker l
  | Release tenant nid token requeue next => release_node_claim tenant nid token requeue next l
  | Complete tenant nid token => complete_node tenant nid token l
  | FailNode now tenant nid error token cls last => fail_node now tenant nid error token cls last l
  | Begin now tenant nid token worker task lease =>
      begin_node_execution cfg now tenant nid token worker task lease l
  end.

Definition run_ops (cfg : Settings) (ops : list claim_op) (l : rows) : rows :=
  foldl (λ l op, (run_op cfg op l).2) l ops.

Definition mints (op : claim_op) : option string :=
  match op with Claim _ _ token _ _ _ _ => Some token | _ => None end.

(** The statement is conditional on holding [token] on row [i]. *)
Definition guarded_by (i token : string) (op : claim_op) : Prop :=
  match op with
  | Renew _ _ nid t _ _ | Begin _ _ nid t _ _ _ => nid = i ∧ t = token
  | Release _ nid t _ _ | Complete _ nid t | FailNode _ _ nid _ t _ _ => nid = i ∧ t = Some token
  | Claim _ _ _ _ _ _ _ => False
  end.

Definition not_holding (i token : string) (l : rows) : Prop :=
  ∀ r, r ∈ l → nr_id r = i → nr_claim_token r ≠ Some token.

Lemma map_not_holding i token (f : WorkflowNodeRun → WorkflowNodeRun) l :
  (∀ r, nr_id (f r) = nr_id r) →
  (∀ r, nr_claim_token (f r) = Some token → nr_claim_token r = Some token) →
  not_holding i token l → not_holding i token (f <$> l).
Proof.
  intros Hid Htok H r' (r & -> & Hr)%list_elem_of_fmap Hi Ht.
  rewrite Hid in Hi. apply Htok in Ht. by apply (H r).
Qed.

Lemma sql_update_not_holding i token p f l :
  (∀ r, nr_id (f r) = nr_id r) →
  (∀ r, nr_claim_token (f r) = Some token → nr_claim_token r = Some token) →
  not_holding i token l → not_holding i token (sql_update p f l).2.
Proof.
  intros Hid Htok. apply map_not_holding; intros r; destruct (p r); auto.
Qed.

Lemma begun_row_keys cfg now w te lease r :
  let r' := begun_row cfg now w te lease r in
  nr_id r' = nr_id r ∧ nr_claim_token r' = nr_claim_token r.
Proof.
  unfold begun_row. destruct (PyStr.opt_truthy w), te; simpl; repeat case_bool_decide; done.
Qed.

Lemma run_op_not_holding cfg i token op l :
  mints op ≠ Some token → not_holding i token l → not_holding i token (run_op cfg op l).2.
Proof.
  destruct op; simpl; intros Hm H.
  - unfold claim_ready_node. destruct (List.find _ l); [|done].
    apply sql_update_not_holding; [done| |done]. simpl. congruence.
  - apply sql_update_not_holding; [by destruct worker..|done].
  - apply sql_update_not_holding; [by destruct requeue..|done].
  - by apply sql_update_not_holding.
  - by apply sql_update_not_holding.
  - unfold begin_node_execution. destruct (node_row nid l) as [node|]; [|done].
    destruct (_ || _); [done|]. destruct (nr_cancellation_requested node); [done|].
    destruct (negb _); [done|].
    apply map_not_holding; [..|done]; intros r; destruct (begun_row_keys cfg now worker task lease r)
      as [Hk1 Hk2]; case_bool_decide; congruence.
Qed.

Lemma guarded_noop cfg i token op l :
  not_holding i token l → guarded_by i token op → run_op cfg op l = (None, l).
Proof.
  intros H. assert (∀ tenant r, r ∈ l → row_is tenant i r && token_is (Some token) r = false) as Hno.
  { intros tenant r Hr. apply not_true_iff_false. intros [[_ Hi]%andb_true_iff Ht]%andb_true_iff.
    apply bool_decide_eq_true in Hi. apply bool_decide_eq_true in Ht. by apply (H r). }
  destruct op; simpl; try done; intros [-> ->]; try (apply sql_update_None; by apply Hno).
  - apply sql_update_None. intros r Hr. by rewrite Hno.
  - unfold begin_node_execution. destruct (node_row i l) as [node|] eqn:E; [|done].
    apply row_by_Some in E as [Hin Hi].
    rewrite (bool_decide_eq_false_2 (nr_claim_token node = Some token)) by (by apply (H node)).
    by rewrite orb_true_r.
Qed.

(** C28: tokens fence.  Once a row no longer carries a worker's token (its lease
    was released, recovered, completed or re-claimed), then after any sequence
    of protocol statements in which that token is not minted again, every
    statement the late worker conditions on the token reports nothing and
    changes nothing. *)
Theorem stale_token_fenced cfg i token ops op l :
  not_holding i token l → Forall (λ o, mints o ≠ Some token) ops → guarded_by i token op →
  run_op cfg op (run_ops cfg ops l) = (None, run_ops cfg ops l).
Proof.
  intros H Hops Hg. apply (guarded_noop cfg i token); [|done].
  revert l H. induction Hops as [|o ops Ho _ IH]; intros l H; simpl; [done|].
  apply IH. by apply run_op_not_holding.
Qed.

Lemma stale_token_fenced_witness :
  run_op Retry.ex_settings (Complete "tenant" "a" (Some "old"))
    (run_ops Retry.ex_settings [Claim 100 ∅ "new" "tenant" "run" None None] ex_rows)
  = (None, run_ops Retry.ex_settings [Claim 100 ∅ "new" "tenant" "run" None None] ex_rows).
Proof.
  apply (stale_token_fenced Retry.ex_settings "a" "old").
  - intros r Hr _. set_unfold in Hr. destruct Hr as [->|[->|[]]]; vm_compute; discriminate.
  - constructor; [vm_compute; discriminate|constructor].
  - split; reflexivity.
Defined.

End Claiming.
