(* ===== verification/Recovery.v ===== *)
(** * Recovery of rows stranded by a dead worker (node_recovery.py)

    Rows whose claim lease ran out are released for another attempt when the
    node's policy allows one, and failed otherwise; the runs they belong to are
    advanced. *)
From Stdlib Require Import QArith.
From S2P Require Import Prelude PyStr Json Nodes RunModels Retry Claiming.

Module Recovery.
Import Nodes Models Retry Claiming.
Local Open Scope string_scope.
Local Open Scope list_scope.
Local Open Scope Z_scope.

Record recovery_result := {
  rr_node_run_id : string;
  rr_workflow_run_id : string;
  rr_tenant_id : string;
  rr_action : string;
  rr_attempt : Z;
  rr_max_attempts : Z;
}.

Section recovery.
(** [jitter] is the random draw made for each row. *)
Context (cfg : Settings) (reg : registry) (now : Z) (jitter : string → Q).

(** The policy of a row's node; an unknown type is failed closed. *)
Definition row_policy (node : WorkflowNodeRun) : RetryPolicyDefaults :=
  match get (nr_node_type node)
          (Some (if nr_node_version node =? 0 then 1 else nr_node_version node)) reg with
  | Ok impl => wn_retry_policy impl
  | Raise _ => Build_RetryPolicyDefaults 1 2 300 (rp_retry_on default_retry_policy)
  end.

Definition expired_message : string := "Worker claim lease expired".

Definition requeue_error (attempt : Z) : dict json :=
  [("code", JStr "claim_lease_expired"); ("message", JStr expired_message);
   ("error_class", JStr "transient"); ("attempt", JInt attempt)].

Definition exhausted_error (attempt max_attempts : Z) : dict json :=
  [("code", JStr "claim_lease_expired");
   ("message", JStr "Worker claim lease expired after max attempts");
   ("attempt", JInt attempt); ("max_attempts", JInt max_attempts);
   ("error_class", JStr "transient")].

Definition note_requeued (attempt : Z) (r : WorkflowNodeRun) : WorkflowNodeRun :=
  r <| nr_last_error := Some expired_message |> <| nr_error_class := Some "transient" |>
    <| nr_error_json := Some (requeue_error attempt) |>.

(** One iteration of the loop; the boolean says whether the run is advanced. *)
Definition recover_one (node : WorkflowNodeRun) : M Store (recovery_result * bool) :=
  let policy := row_policy node in
  let attempt := nr_attempt node in
  let result_with (action : string) :=
    {| rr_node_run_id := nr_id node; rr_workflow_run_id := nr_workflow_run_id node;
       rr_tenant_id := nr_tenant_id node; rr_action := action; rr_attempt := attempt;
       rr_max_attempts := rp_max_attempts policy |} in
  if should_retry "transient" attempt policy then
    next_at ← lift (next_attempt_at_for cfg attempt policy (jitter (nr_id node)) now);
    st ← get_state;
    let '(released, l) := release_node_claim (nr_tenant_id node) (nr_id node)
                            (nr_claim_token node) true (Some next_at) (st_node_runs st) in
    match released with
    | Some _ =>
        _ ← put_state (st <| st_node_runs := set_node (nr_id node) (note_requeued attempt) l |>);
        mret (result_with "requeued", true)
    | None => _ ← put_state (st <| st_node_runs := l |>); mret (result_with "release_missed", false)
    end
  else
    st ← get_state;
    let '(failed, l) := fail_node now (nr_tenant_id node) (nr_id node)
                          (exhausted_error attempt (rp_max_attempts policy)) (nr_claim_token node)
                          (Some "transient") (Some expired_message) (st_node_runs st) in
    _ ← put_state (st <| st_node_runs := l |>);
    match failed with
    | Some _ => mret (result_with "failed", true)
    | None => mret (result_with "fail_missed", false)
    end.

Fixpoint recover_loop (nodes : list WorkflowNodeRun) (targets : gset (string * string))
    : M Store (list recovery_result * gset (string * string)) :=
  match nodes with
  | [] => mret ([], targets)
  | node :: nodes' =>
      ra ← recover_one node;
      let targets := if ra.2 : bool then {[ (nr_tenant_id node, nr_workflow_run_id node) ]} ∪ targets
                     else targets in
      rest ← recover_loop nodes' targets;
      mret (ra.1 :: rest.1, rest.2)
  end.

Definition recover_stale_workflow_node_runs (locked : gset string) (batch_size : option nat)
    (enqueue_advance : bool) : M Store (list recovery_result) :=
  st ← get_state;
  let stale := list_stale_claimed_nodes cfg now locked batch_size (st_node_runs st) in
  rt ← recover_loop stale ∅;
  _ ← (if enqueue_advance && negb (WORKFLOW_INLINE_NODE_EXECUTION cfg)
       then modify (λ st, st <| st_tasks ::= λ ts, ts ++
              ((λ tr, AdvanceRunTask tr.1 tr.2 0) <$> elements (rt.2 : gset (string * string))) |>)
       else mret ());
  mret (rt.1 : list recovery_result).

(** ** The row a recovered row becomes *)

Definition requeued_row (next_at : Z) (r : WorkflowNodeRun) : WorkflowNodeRun :=
  note_requeued (nr_attempt r)
    (clear_claim_values r <| nr_status := READY |> <| nr_next_attempt_at := Some next_at |>).

Definition exhausted_row (r : WorkflowNodeRun) : WorkflowNodeRun :=
  clear_claim_values r <| nr_status := FAILED |>
    <| nr_error_json := Some (exhausted_error (nr_attempt r) (rp_max_attempts (row_policy r))) |>
    <| nr_finished_at := Some now |> <| nr_next_attempt_at := None |>
    <| nr_last_error := Some expired_message |> <| nr_error_class := Some "transient" |>.

Definition recovered (r r' : WorkflowNodeRun) : Prop :=
  (should_retry "transient" (nr_attempt r) (row_policy r) = true ∧
   ∃ t, now <= t ∧ r' = requeued_row t r) ∨
  (should_retry "transient" (nr_attempt r) (row_policy r) = false ∧ r' = exhausted_row r).

(** ** One row *)

Notation unique_ids l := (NoDup (nr_id <$> l)).

Definition jitter_ok : Prop := ∀ i, (-1 <= jitter i)%Q ∧ (jitter i <= 1)%Q.
Definition registry_ok : Prop := ∀ t v n, get t v reg = Ok n → policy_ok (wn_retry_policy n).

Lemma row_policy_ok node : registry_ok → policy_ok (row_policy node).
Proof.
  intros H. unfold row_policy. destruct (get _ _ reg) eqn:E; [by eapply H|].
  unfold policy_ok. simpl. repeat split; try lia; unfold Qle; simpl; lia.
Qed.

Lemma row_is_self r : row_is (nr_tenant_id r) (nr_id r) r && token_is (nr_claim_token r) r = true.
Proof.
  unfold row_is, token_is. rewrite !(bool_decide_eq_true_2 (_ = _)) by done.
  destruct (nr_claim_token r); [by rewrite bool_decide_eq_true_2|done].
Qed.

Lemma recover_one_spec node st :
  registry_ok → jitter_ok → nr_attempt node <= 1024 →
  unique_ids (st_node_runs st) → node ∈ st_node_runs st →
  ∃ res f, recover_one node st =
    (Ok (res, true), st <| st_node_runs := set_node (nr_id node) f (st_node_runs st) |>) ∧
    recovered node (f node) ∧ (∀ r, nr_id (f r) = nr_id r).
Proof.
  intros Hreg Hj Ha Hnd Hin. destruct (row_policy_ok node Hreg) as (_ & Hb & Hm).
  unfold recover_one. destruct (should_retry _ _ _) eqn:Hs.
  - destruct (next_attempt_later cfg (nr_attempt node) (row_policy node) (jitter (nr_id node)) now
                Hb Hm (Hj _) Ha) as (t & Hnext & Ht).
    unfold mbind, M_bind, lift, get_state. rewrite Hnext. unfold release_node_claim.
    rewrite (sql_update_at _ _ _ node) by (done || apply row_is_self ||
      (intros x [[_ Hx%bool_decide_eq_true]%andb_true_iff _]%andb_true_iff; done)).
    simpl. eexists _, _. split; [|split].
    + f_equal. rewrite set_row_set_row by done. reflexivity.
    + left. split; [done|]. by exists t.
    + done.
  - unfold mbind, M_bind, get_state, fail_node.
    rewrite (sql_update_at _ _ _ node) by (done || apply row_is_self ||
      (intros x [[_ Hx%bool_decide_eq_true]%andb_true_iff _]%andb_true_iff; done)).
    simpl. eexists _, _. split; [reflexivity|split]; [|done]. by right.
Qed.

(** ** The loop *)

Definition recovered_rows (nodes l l' : list WorkflowNodeRun) : Prop :=
  Forall2 (λ r r', (r ∈ nodes → recovered r r') ∧ (r ∉ nodes → r' = r)) l l'.

Definition run_of (r : WorkflowNodeRun) : string * string := (nr_tenant_id r, nr_workflow_run_id r).

Lemma recover_loop_spec nodes targets st :
  registry_ok → jitter_ok → (∀ r, r ∈ nodes → nr_attempt r <= 1024) →
  unique_ids (st_node_runs st) → unique_ids nodes → nodes ⊆ st_node_runs st →
  ∃ out l', recover_loop nodes targets st =
      (Ok (out, list_to_set (run_of <$> nodes) ∪ targets), st <| st_node_runs := l' |>) ∧
    recovered_rows nodes (st_node_runs st) l'.
Proof.
  intros Hreg Hj. revert targets st.
  induction nodes as [|node nodes IH]; intros targets st Ha Hnd Hndn Hsub.
  { exists [], (st_node_runs st). split.
    - simpl. unfold mret, M_ret. by destruct st; rewrite union_empty_l_L.
    - apply Forall_Forall2_diag, Forall_forall. intros r _. split; [|done].
      intros H. by apply not_elem_of_nil in H. }
  rewrite fmap_cons in Hndn. apply NoDup_cons in Hndn as [Hnew Hndn].
  destruct (recover_one_spec node st Hreg Hj) as (res & f & Hone & Hrec & Hf);
    [apply Ha; left|done|apply Hsub; left|].
  set (st1 := st <| st_node_runs := set_node (nr_id node) f (st_node_runs st) |>) in *.
  assert (unique_ids (st_node_runs st1)) as Hnd1 by (simpl; by rewrite set_row_keys).
  assert (∀ r, r ∈ nodes → nr_id r ≠ nr_id node) as Hne.
  { intros r Hr E. apply Hnew. rewrite <- E. by apply list_elem_of_fmap_2. }
  destruct (IH ({[run_of node]} ∪ targets) st1) as (out & l' & Hloop & Hl'); try done.
  { intros r Hr. apply Ha. by right. }
  { intros r Hr. simpl. apply list_elem_of_fmap. exists r. split.
    - rewrite bool_decide_eq_false_2; [done|by apply Hne].
    - apply Hsub. by right. }
  exists (res :: out), l'. split.
  - simpl. unfold mbind, M_bind. rewrite Hone. simpl.
    change ({[(nr_tenant_id node, nr_workflow_run_id node)]} ∪ targets) with ({[run_of node]} ∪ targets).
    rewrite Hloop. unfold mret, M_ret. f_equal. f_equal. f_equal. set_solver.
  - unfold recovered_rows in Hl' |- *. simpl in Hl'. unfold set_row in Hl'.
    apply Forall2_fmap_l in Hl'. eapply Forall2_impl_in; [exact Hl'|].
    intros r r' Hr Hr' [H1 H2]. case_bool_decide as Hid.
    + assert (r = node) as ->.
      { assert (node ∈ st_node_runs st) as Hin by (apply Hsub; left).
        pose proof (row_by_elem nr_id (nr_id node) _ r Hnd Hr Hid).
        pose proof (row_by_elem nr_id (nr_id node) _ node Hnd Hin eq_refl). congruence. }
      rewrite H2; [split; [done|]|].
      * intros H. destruct H. left.
      * intros H. apply Hne in H. by rewrite Hf in H.
    + split.
      * intros [->|H]%elem_of_cons; [done|]. by apply H1.
      * intros H. apply H2. intros Hin. apply H. by right.
Qed.

(** ** The batch *)

Lemma unique_ids_take n (l : list WorkflowNodeRun) : unique_ids l → unique_ids (firstn n l).
Proof.
  intros H. eapply sublist_NoDup; [exact H|]. apply fmap_sublist, sublist_take.
Qed.

Lemma unique_ids_filter (p : WorkflowNodeRun → bool) l : unique_ids l → unique_ids (List.filter p l).
Proof.
  intros H. eapply sublist_NoDup; [exact H|]. apply fmap_sublist.
  clear H. induction l as [|x l IH]; simpl; [done|]. destruct (p x); by constructor.
Qed.

Lemma list_stale_spec locked batch l :
  unique_ids l →
  let picked := list_stale_claimed_nodes cfg now locked batch l in
  unique_ids picked ∧ ∀ r, r ∈ picked → r ∈ l ∧ stale now r = true ∧ nr_id r ∉ locked.
Proof.
  intros Hnd picked. subst picked. unfold list_stale_claimed_nodes.
  set (fl := List.filter _ l). split.
  - apply unique_ids_take. rewrite (merge_sort_Permutation expires_le fl).
    by apply unique_ids_filter.
  - intros r Hr. apply (elem_of_sublist _ (merge_sort expires_le fl)) in Hr; [|apply sublist_take].
    rewrite merge_sort_Permutation in Hr. apply list_elem_of_In, List.filter_In in Hr as [Hr Hp].
    apply andb_true_iff in Hp as [Hs Hl%negb_true_iff]. apply bool_decide_eq_false in Hl.
    by rewrite list_elem_of_In.
Qed.

Lemma recovered_not_stale r r' : recovered r r' → stale now r' = false.
Proof. by intros [[_ (t & _ & ->)]|[_ ->]]. Qed.

End recovery.

(** Recovery of expired leases completes without an exception.  It rewrites
    exactly the rows of its batch: unlocked rows that are QUEUED or RUNNING under
    an expired lease.  Each of them loses its claim and goes back to READY, due
    not before now, when its attempts are not used up under its node's policy
    (an unknown node type allows a single attempt), and to FAILED otherwise;
    its attempt counter is kept.  None of them is stale afterwards, and each run
    concerned is advanced once. *)
Theorem recover_stale_spec cfg reg now jitter locked batch enqueue st :
  registry_ok reg → jitter_ok jitter →
  (∀ r, r ∈ st_node_runs st → nr_attempt r <= 1024) → NoDup (nr_id <$> st_node_runs st) →
  let picked := list_stale_claimed_nodes cfg now locked batch (st_node_runs st) in
  ∃ out st', recover_stale_workflow_node_runs cfg reg now jitter locked batch enqueue st = (Ok out, st') ∧
    Forall2 (λ r r',
      (r ∈ picked → recovered reg now r r' ∧ stale now r' = false ∧ nr_claim_token r' = None ∧
                    nr_attempt r' = nr_attempt r) ∧
      (r ∉ picked → r' = r)) (st_node_runs st) (st_node_runs st') ∧
    (∀ r, r ∈ picked → r ∈ st_node_runs st ∧ stale now r = true ∧ nr_id r ∉ locked) ∧
    ∃ new, st_tasks st' = st_tasks st ++ new ∧ NoDup new ∧
      ∀ t, t ∈ new ↔ enqueue = true ∧ WORKFLOW_INLINE_NODE_EXECUTION cfg = false ∧
        ∃ r, r ∈ picked ∧ t = AdvanceRunTask (nr_tenant_id r) (nr_workflow_run_id r) 0.
Proof.
  intros Hreg Hj Ha Hnd picked.
  destruct (list_stale_spec cfg now locked batch (st_node_runs st) Hnd) as [Hu Hin].
  destruct (recover_loop_spec cfg reg now jitter picked ∅ st Hreg Hj) as (out & l' & Hloop & Hl');
    [|done..| |].
  { intros r Hr. apply Ha. by apply Hin. }
  { intros r Hr. by apply Hin. }
  assert (Forall2 (λ r r',
      (r ∈ picked → recovered reg now r r' ∧ stale now r' = false ∧ nr_claim_token r' = None ∧
                    nr_attempt r' = nr_attempt r) ∧
      (r ∉ picked → r' = r)) (st_node_runs st) l') as Hrows.
  { eapply Forall2_impl; [exact Hl'|]. intros r r' [H1 H2]. split; [|done].
    intros Hr. specialize (H1 Hr). split_and!; [done|by eapply recovered_not_stale|..];
      by destruct H1 as [[_ (t & _ & ->)]|[_ ->]]. }
  unfold recover_stale_workflow_node_runs, mbind, M_bind, get_state.
  fold picked. rewrite Hloop. cbn [fst snd].
  destruct (enqueue && negb (WORKFLOW_INLINE_NODE_EXECUTION cfg)) eqn:Hen.
  - apply andb_true_iff in Hen as [-> Hinl%negb_true_iff].
    eexists _, _. split; [reflexivity|]. split; [exact Hrows|]. split; [exact Hin|].
    eexists. split; [reflexivity|]. split.
    + apply NoDup_fmap; [|apply NoDup_elements]. intros [a b] [c d] [= -> ->]. done.
    + intros t. rewrite list_elem_of_fmap. setoid_rewrite elem_of_elements.
      setoid_rewrite elem_of_union. setoid_rewrite elem_of_list_to_set.
      setoid_rewrite list_elem_of_fmap. unfold run_of. split.
      * intros ([a b] & -> & [(r & [= -> ->] & Hr)|H]); [|set_solver]. eauto.
      * intros (_ & _ & r & Hr & ->). exists (nr_tenant_id r, nr_workflow_run_id r). eauto 6.
  - eexists _, _. split; [reflexivity|]. split; [exact Hrows|]. split; [exact Hin|].
    exists []. split; [simpl; by rewrite app_nil_r|]. split; [constructor|].
    intros t. split; [intros H; by apply not_elem_of_nil in H|].
    intros (-> & Hinl & _). by rewrite Hinl in Hen.
Qed.

Definition ex_stale : WorkflowNodeRun :=
  new_node_run "a" "tenant" "run" "n" "text" 1 RUNNING "" []
    <| nr_claim_token := Some "tok" |> <| nr_claim_expires_at := Some 50 |>.
Definition ex_store : Store := empty_store <| st_node_runs := [ex_stale] |>.

Lemma recover_stale_spec_witness :
  ∃ out st', recover_stale_workflow_node_runs Retry.ex_settings [] 100 (λ _, 0%Q) ∅ None true ex_store
    = (Ok out, st') ∧ AdvanceRunTask "tenant" "run" 0 ∈ st_tasks st'.
Proof.
  destruct (recover_stale_spec Retry.ex_settings [] 100 (λ _, 0%Q) ∅ None true ex_store)
    as (out & st' & H & _ & _ & new & Htasks & _ & Hnew).
  - intros t v n Hg. unfold get in Hg. simpl in Hg. discriminate.
  - intros i. split; unfold Qle; simpl; lia.
  - intros r Hr. simpl in Hr. apply list_elem_of_singleton in Hr as ->. simpl. lia.
  - apply (bool_decide_unpack _). vm_compute. exact I.
  - exists out, st'. split; [exact H|]. rewrite Htasks. apply elem_of_app. right. apply Hnew.
    split; [reflexivity|split; [reflexivity|]]. exists ex_stale. split; [vm_compute; left|reflexivity].
Defined.

End Recovery.
