(* ===== verification/Cancellation.v ===== *)
(** * Cancellation and occurrence sync (workflow_cancellation.py,
    occurrence_sync.py)

    Cancelling a run marks the run, its unfinished rows and its pending waits,
    flags the task executions, asks the broker to drop the active tasks and
    propagates the outcome to the schedule slot the run was started for. *)
From S2P Require Import Prelude PyStr Json RunModels Retry Claiming.

Module Cancellation.
Import Models Claiming.
Local Open Scope string_scope.
Local Open Scope list_scope.
Local Open Scope Z_scope.

(** [result.scalar_one_or_none()] *)
Definition scalar_one_or_none {R} (l : list R) : result (option R) :=
  match l with
  | [] => Ok None
  | [x] => Ok (Some x)
  | _ => Raise (OtherException "MultipleResultsFound"
                  "Multiple rows were found when one or none was required")
  end.

(** A condition at most one row satisfies is looked up without error. *)
Lemma scalar_unique {R} (p : R → bool) (l : list R) :
  (∀ i j a b, l !! i = Some a → l !! j = Some b → p a = true → p b = true → i = j) →
  ∃ found, scalar_one_or_none (List.filter p l) = Ok found ∧ ∀ w, w ∈ l → p w = true → found = Some w.
Proof.
  induction l as [|x l IH]; intros Hu.
  { eexists. split; [done|]. intros w Hw. by apply not_elem_of_nil in Hw. }
  cbn [List.filter]. destruct (p x) eqn:Hx.
  - assert (∀ y, y ∈ l → p y = false) as Hno.
    { intros y [j Hj]%list_elem_of_lookup. destruct (p y) eqn:Hy; [|done].
      by specialize (Hu 0%nat (S j) x y eq_refl Hj Hx Hy). }
    rewrite (filter_none p l) by done.
    exists (Some x). split; [done|]. intros w [->|Hw]%elem_of_cons Hp; [done|]. by rewrite Hno in Hp.
  - destruct IH as (found & Hf & Hall).
    { intros i j a b Ha Hb Hpa Hpb. by injection (Hu (S i) (S j) a b Ha Hb Hpa Hpb). }
    exists found. split; [done|]. intros w [->|Hw]%elem_of_cons Hp; [congruence|by apply Hall].
Qed.

Lemma scalar_elem {R} (p : R → bool) l x :
  scalar_one_or_none (List.filter p l) = Ok (Some x) → x ∈ l ∧ p x = true.
Proof.
  intros H. assert (x ∈ List.filter p l) as Hx.
  { unfold scalar_one_or_none in H. destruct (List.filter p l) as [|y [|]]; simplify_eq. left. }
  by apply list_elem_of_In, List.filter_In in Hx as [?%list_elem_of_In ?].
Qed.

(** ** occurrence_sync.py *)

Definition occurrence_terminal (s : OccurrenceStatus) : bool :=
  match s with OCC_SUCCEEDED | OCC_FAILED | OCC_SKIPPED => true | _ => false end.

(** The assignments [sync_occurrence_for_run] makes on an open occurrence. *)
Definition sync_row (run : WorkflowRun) (occ : AutomationOccurrence) : AutomationOccurrence :=
  match wr_status run with
  | RUN_SUCCEEDED => occ <| ao_status := OCC_SUCCEEDED |> <| ao_error_message := None |>
  | RUN_FAILED =>
      let occ := occ <| ao_status := OCC_FAILED |> in
      if PyStr.opt_truthy (wr_error_message run)
      then occ <| ao_error_message := PyStr.take 2000 <$> wr_error_message run |> else occ
  | _ => occ <| ao_status := OCC_SKIPPED |> <| ao_error_message := Some "workflow run cancelled" |>
  end.

Definition run_occurrences (run_id : string) (st : Store) : list AutomationOccurrence :=
  List.filter (λ o, bool_decide (ao_workflow_run_id o = Some run_id)) (st_occurrences st).

Definition sync_occurrence_for_run (run : WorkflowRun) : M Store unit :=
  match wr_automation_id run with
  | None => mret ()
  | Some _ =>
      if negb (run_terminal (wr_status run)) then mret ()
      else
        st ← get_state;
        occ ← lift (scalar_one_or_none (run_occurrences (wr_id run) st));
        match occ with
        | None => mret ()
        | Some occ =>
            if occurrence_terminal (ao_status occ) then mret ()
            else modify (λ st, st <| st_occurrences ::= set_row ao_id (ao_id occ) (sync_row run) |>)
        end
  end.

(** ** workflow_cancellation.py *)

Section cancellation.
Context (now : Z).

Definition mark_node_cancelled (reason : string) (r : WorkflowNodeRun) : WorkflowNodeRun :=
  let r := clear_claim_values r <| nr_status := CANCELLED |> <| nr_finished_at := Some now |>
             <| nr_waiting_reason := None |> <| nr_next_attempt_at := None |>
             <| nr_cancellation_requested := true |> in
  match nr_error_json r with
  | None | Some [] => r <| nr_error_json := Some [("code", JStr "cancelled"); ("message", JStr reason)] |>
  | Some _ => r
  end.

(** [_flag_task_execution] *)
Definition flag_task_execution (task_execution_id : option string) (st : Store) : Store :=
  match task_execution_id with
  | None => st
  | Some i =>
      st <| st_task_executions ::= set_row te_id i (λ te,
        let te := te <| te_cancellation_requested := true |> in
        match te_cancelled_at te with None => te <| te_cancelled_at := Some now |> | Some _ => te end) |>
  end.

Definition request_celery_cancel (celery_task_id : option string) (st : Store) : Store :=
  match celery_task_id with
  | Some t =>
      if negb (PyStr.truthy t) || bool_decide (t ∈ ["inline"; "local"]) then st
      else st <| st_tasks ::= λ ts, ts ++ [RevokeTask t] |>
  | None => st
  end.

(** [_cancel_pending_waits] *)
Definition cancel_wait (tenant_id run_id : string) (w : WorkflowWait) : WorkflowWait :=
  if bool_decide (ww_tenant_id w = tenant_id) && bool_decide (ww_workflow_run_id w = run_id) &&
     bool_decide (ww_status w = WAIT_PENDING)
  then w <| ww_status := WAIT_CANCELLED |> <| ww_resolved_at := Some now |>
         <| ww_resolved_outcome := Some "cancelled" |>
  else w.

Definition cancel_reason : string := "cancelled by operator".

Definition immediate_cancel (s : NodeStatus) : bool :=
  match s with PENDING | READY | WAITING | FAILED => true | _ => false end.
Definition active (s : NodeStatus) : bool := match s with QUEUED | RUNNING => true | _ => false end.

(** Assignments on the row object with this id. *)
Definition update_row (i : string) (f : WorkflowNodeRun → WorkflowNodeRun) (st : Store) : Store :=
  st <| st_node_runs ::= set_node i f |>.

(** One iteration of the loop of [cancel_run]. *)
Definition cancel_node (node : WorkflowNodeRun) (st : Store) : Store :=
  let update := update_row (nr_id node) in
  if bool_decide (nr_status node = SUCCEEDED) then st
  else if bool_decide (nr_status node = CANCELLED)
  then update (λ r, r <| nr_cancellation_requested := true |>) st
  else if immediate_cancel (nr_status node)
  then flag_task_execution (nr_task_execution_id node) (update (mark_node_cancelled cancel_reason) st)
  else if active (nr_status node)
  then
    let st := update (λ r, r <| nr_cancellation_requested := true |>) st in
    let st := flag_task_execution (nr_task_execution_id node) st in
    let st := request_celery_cancel (nr_worker_task_id node) st in
    update (mark_node_cancelled cancel_reason) st
  else st.

Definition get_run (tenant_id run_id : string) (st : Store) : option WorkflowRun :=
  List.find (λ r, bool_decide (wr_tenant_id r = tenant_id) && bool_decide (wr_id r = run_id)) (st_runs st).

Definition list_node_runs (tenant_id run_id : string) (st : Store) : list WorkflowNodeRun :=
  List.filter (λ r, bool_decide (nr_tenant_id r = tenant_id) &&
                    bool_decide (nr_workflow_run_id r = run_id)) (st_node_runs st).

Definition set_run (run : WorkflowRun) (st : Store) : Store :=
  st <| st_runs ::= set_row wr_id (wr_id run) (λ _, run) |>.

Definition cancel_run (tenant_id run_id : string) : M Store WorkflowRun :=
  st ← get_state;
  match get_run tenant_id run_id st with
  | None => raise (HTTPException 404 "Workflow run not found")
  | Some run =>
      match wr_status run with
      | RUN_SUCCEEDED => raise (HTTPException 409 "Cannot cancel a succeeded run")
      | RUN_CANCELLED => mret run
      | RUN_QUEUED | RUN_RUNNING | RUN_WAITING | RUN_FAILED =>
          let nodes := list_node_runs tenant_id run_id st in
          _ ← modify (λ st, foldl (λ st n, cancel_node n st) st nodes);
          _ ← modify (λ st, st <| st_waits ::= fmap (cancel_wait tenant_id run_id) |>);
          let run := run <| wr_status := RUN_CANCELLED |> <| wr_finished_at := Some now |>
                         <| wr_error_message :=
                              if PyStr.opt_truthy (wr_error_message run) then wr_error_message run
                              else Some cancel_reason |> in
          _ ← modify (set_run run);
          _ ← sync_occurrence_for_run run;
          mret run
      end
  end.

Definition should_abort_node (node : WorkflowNodeRun) (run : WorkflowRun) : bool :=
  if bool_decide (wr_status run = RUN_CANCELLED) then true else nr_cancellation_requested node.

Definition abort_node_for_cancellation (tenant_id : string) (node : WorkflowNodeRun)
    (claim_token : option string) (reason : string) (st : Store) : Store :=
  let st := st <| st_node_runs ::= set_node (nr_id node) (λ r,
      let r := r <| nr_cancellation_requested := true |> in
      if bool_decide (nr_status r = SUCCEEDED) then r else mark_node_cancelled reason r) |> in
  let st := flag_task_execution (nr_task_execution_id node) st in
  st <| st_node_runs ::= λ l, (complete_node tenant_id (nr_id node) claim_token l).2 |>.

(** The row a cancelled run leaves for each of its rows. *)
Definition cancelled_row (r : WorkflowNodeRun) : WorkflowNodeRun :=
  match nr_status r with
  | SUCCEEDED | SKIPPED => r
  | CANCELLED => r <| nr_cancellation_requested := true |>
  | _ => mark_node_cancelled cancel_reason r
  end.

(** ** The loop over the rows *)

(** The assignments made on the row of [node]. *)
Definition cancel_assign (node r : WorkflowNodeRun) : WorkflowNodeRun :=
  match nr_status node with
  | SUCCEEDED | SKIPPED => r
  | CANCELLED => r <| nr_cancellation_requested := true |>
  | _ => mark_node_cancelled cancel_reason r
  end.

Lemma mark_node_cancelled_id reason r : nr_id (mark_node_cancelled reason r) = nr_id r.
Proof. unfold mark_node_cancelled. simpl. by destruct (nr_error_json r) as [[]|]. Qed.

Lemma cancel_assign_id n r : nr_id (cancel_assign n r) = nr_id r.
Proof. unfold cancel_assign. destruct (nr_status n); done || apply mark_node_cancelled_id. Qed.

Lemma set_node_id i (l : list WorkflowNodeRun) : set_node i (λ r, r) l = l.
Proof.
  unfold set_row. transitivity ((λ r, r) <$> l); [|apply list_fmap_id]. apply list_fmap_ext.
  intros ? r _. by case_bool_decide.
Qed.

Lemma mark_after_request r :
  mark_node_cancelled cancel_reason (r <| nr_cancellation_requested := true |>) =
  mark_node_cancelled cancel_reason r.
Proof. unfold mark_node_cancelled. simpl. by destruct (nr_error_json r) as [[]|]. Qed.

(** The columns and tables the steps of [cancel_node] leave alone. *)
Definition same_tables (st st' : Store) : Prop :=
  st_runs st' = st_runs st ∧ st_waits st' = st_waits st ∧ st_occurrences st' = st_occurrences st.

Lemma cancel_node_rows n st :
  st_node_runs (cancel_node n st) = set_node (nr_id n) (cancel_assign n) (st_node_runs st) ∧
  same_tables st (cancel_node n st).
Proof.
  assert (∀ te st, st_node_runs (flag_task_execution te st) = st_node_runs st ∧
    same_tables st (flag_task_execution te st)) as Hflag by (by intros []).
  assert (∀ t st, st_node_runs (request_celery_cancel t st) = st_node_runs st ∧
    same_tables st (request_celery_cancel t st)) as Hreq.
  { intros [t|] st'; [|done]. unfold request_celery_cancel. by destruct (_ || _). }
  assert (∀ i f st, st_node_runs (update_row i f st) = set_node i f (st_node_runs st) ∧
    same_tables st (update_row i f st)) as Hupd by done.
  unfold cancel_node, cancel_assign. unfold same_tables in *.
  destruct (nr_status n); cbn [bool_decide immediate_cancel active];
    repeat (case_bool_decide; [try done|]); cbv zeta; try done;
    try (by rewrite set_node_id);
    rewrite ?(proj1 (Hupd _ _ _)), ?(proj1 (Hreq _ _)), ?(proj1 (Hflag _ _)), ?(proj1 (Hupd _ _ _));
    (split; [|by destruct (nr_task_execution_id n), (nr_worker_task_id n); simpl; try done;
                destruct (_ || _)]); try done;
    rewrite set_row_set_row by done; unfold set_row; apply list_fmap_ext; intros ? r _;
    case_bool_decide; by rewrite ?mark_after_request.
Qed.

Lemma cancel_nodes_rows nodes st :
  let st' := foldl (λ st n, cancel_node n st) st nodes in
  st_node_runs st' = foldl (λ l n, set_node (nr_id n) (cancel_assign n) l) (st_node_runs st) nodes ∧
  same_tables st st'.
Proof.
  revert st. unfold same_tables. induction nodes as [|n nodes IH]; intros st; simpl; [done|].
  destruct (IH (cancel_node n st)) as (-> & -> & -> & ->).
  by destruct (cancel_node_rows n st) as (-> & -> & -> & ->).
Qed.

Lemma list_node_runs_elem tenant run st r :
  r ∈ list_node_runs tenant run st ↔
    r ∈ st_node_runs st ∧ nr_tenant_id r = tenant ∧ nr_workflow_run_id r = run.
Proof.
  unfold list_node_runs. rewrite list_elem_of_In, List.filter_In, <- list_elem_of_In, andb_true_iff.
  by rewrite !bool_decide_eq_true.
Qed.

Lemma filter_keys_NoDup (p : WorkflowNodeRun → bool) l :
  NoDup (nr_id <$> l) → NoDup (nr_id <$> List.filter p l).
Proof.
  intros H. eapply sublist_NoDup; [exact H|]. apply fmap_sublist.
  clear H. induction l as [|x l IH]; simpl; [done|]. destruct (p x); by constructor.
Qed.

(** ** Sync and lookup *)

Lemma sync_ok run st :
  (length (run_occurrences (wr_id run) st) ≤ 1)%nat →
  ∃ occs, sync_occurrence_for_run run st = (Ok (), st <| st_occurrences := occs |>).
Proof.
  intros H. assert (∃ occs, st = st <| st_occurrences := occs |>) as Hsame
    by (exists (st_occurrences st); by destruct st).
  assert (∃ occs, (Ok (), st) = (Ok (), st <| st_occurrences := occs |>)) as Hnop
    by (destruct Hsame as [occs Ho]; exists occs; by rewrite <- Ho).
  unfold sync_occurrence_for_run, mbind, M_bind, lift, get_state, mret, M_ret.
  destruct (wr_automation_id run); [|done].
  destruct (negb _); [done|].
  destruct (run_occurrences (wr_id run) st) as [|o [|o' os]]; simpl in *; [done| |lia].
  destruct (occurrence_terminal _); [done|]. eexists. reflexivity.
Qed.

Lemma get_run_set_run tenant run_id st run run' :
  get_run tenant run_id st = Some run → wr_tenant_id run' = tenant → wr_id run' = run_id →
  get_run tenant run_id (set_run run' st) = Some run'.
Proof.
  unfold get_run, set_run, set_row. intros Hf Ht Hi. apply find_Some_elem in Hf as [Hin Hp].
  simpl. rewrite Hi. induction (st_runs st) as [|x l IH]; [by apply not_elem_of_nil in Hin|].
  apply andb_true_iff in Hp as [_ Hp%bool_decide_eq_true].
  rewrite fmap_cons. cbn [List.find]. destruct (decide (wr_id x = run_id)) as [Hx|Hx].
  - by rewrite (bool_decide_eq_true_2 _ Hx), Ht, Hi, !bool_decide_eq_true_2.
  - rewrite (bool_decide_eq_false_2 _ Hx), (bool_decide_eq_false_2 _ Hx), andb_false_r. apply IH.
    apply elem_of_cons in Hin as [->|?]; done.
Qed.

Definition finished_status (s : NodeStatus) : Prop := s ∈ [SUCCEEDED; SKIPPED; CANCELLED].

Lemma cancelled_row_status r : finished_status (nr_status (cancelled_row r)).
Proof.
  unfold cancelled_row, finished_status. destruct (nr_status r) eqn:E;
    try (unfold mark_node_cancelled; simpl; destruct (nr_error_json r) as [[]|]; simpl; set_solver);
    simpl; rewrite ?E; set_solver.
Qed.

Lemma cancelled_row_run r :
  nr_tenant_id (cancelled_row r) = nr_tenant_id r ∧
  nr_workflow_run_id (cancelled_row r) = nr_workflow_run_id r.
Proof.
  unfold cancelled_row, mark_node_cancelled.
  destruct (nr_status r); simpl; destruct (nr_error_json r) as [[]|]; done.
Qed.

(** The store of a run cancelled while it could be. *)
Record run_cancelled (tenant run_id : string) (st st' : Store) (run' : WorkflowRun) : Prop := {
  rc_run : get_run tenant run_id st' = Some run';
  rc_status : wr_status run' = RUN_CANCELLED;
  rc_finished : wr_finished_at run' = Some now;
  rc_rows : Forall2 (λ r r',
      (nr_tenant_id r = tenant ∧ nr_workflow_run_id r = run_id → r' = cancelled_row r) ∧
      (¬ (nr_tenant_id r = tenant ∧ nr_workflow_run_id r = run_id) → r' = r))
    (st_node_runs st) (st_node_runs st');
  rc_unfinished : ∀ r', r' ∈ list_node_runs tenant run_id st' → finished_status (nr_status r');
  rc_waits : st_waits st' = cancel_wait tenant run_id <$> st_waits st;
}.

Lemma cancel_run_effect tenant run_id st run :
  NoDup (nr_id <$> st_node_runs st) → (length (run_occurrences run_id st) ≤ 1)%nat →
  get_run tenant run_id st = Some run →
  wr_status run ∉ [RUN_SUCCEEDED; RUN_CANCELLED] →
  ∃ run' st', cancel_run tenant run_id st = (Ok run', st') ∧ run_cancelled tenant run_id st st' run'.
Proof.
  intros Hnd Hocc Hrun Hst. set (nodes := list_node_runs tenant run_id st).
  set (run' := run <| wr_status := RUN_CANCELLED |> <| wr_finished_at := Some now |>
      <| wr_error_message := if PyStr.opt_truthy (wr_error_message run) then wr_error_message run
                             else Some cancel_reason |>).
  set (st1 := foldl (λ st n, cancel_node n st) st nodes).
  set (st2 := set_run run' (st1 <| st_waits ::= fmap (cancel_wait tenant run_id) |>)).
  destruct (cancel_nodes_rows nodes st) as (Hrows & Hruns & Hwaits & Hoccs). fold st1 in Hrows, Hruns, Hwaits, Hoccs.
  pose proof Hrun as Hrun'. apply find_Some_elem in Hrun' as [_ [Ht Hi]%andb_true_iff].
  apply bool_decide_eq_true in Ht, Hi.
  destruct (sync_ok run' st2) as (occs & Hsync).
  { unfold run_occurrences, st2. simpl. rewrite Hoccs, Hi. exact Hocc. }
  exists run', (st2 <| st_occurrences := occs |>). split.
  { unfold cancel_run, mbind, M_bind, get_state, modify. rewrite Hrun. fold nodes st1 run' st2.
    destruct (wr_status run); try (destruct Hst; set_solver).
    all: change (set_run run' _) with st2; by rewrite Hsync. }
  destruct (foldl_set_row nr_id cancel_assign nodes (st_node_runs st)) as (rows' & Hfold & Hrel).
  { apply cancel_assign_id. }
  { done. }
  { by apply filter_keys_NoDup. }
  { intros r Hr. by apply list_node_runs_elem in Hr as [? _]. }
  assert (Forall2 (λ r r',
      (nr_tenant_id r = tenant ∧ nr_workflow_run_id r = run_id → r' = cancelled_row r) ∧
      (¬ (nr_tenant_id r = tenant ∧ nr_workflow_run_id r = run_id) → r' = r))
    (st_node_runs st) (st_node_runs st1)) as Hall.
  { rewrite Hrows, Hfold. eapply Forall2_impl_in; [exact Hrel|]. intros r r' Hr _ [H1 H2].
    unfold nodes in H1, H2. rewrite list_node_runs_elem in H1, H2. split; [|naive_solver].
    intros [??]. rewrite H1 by done. unfold cancel_assign, cancelled_row. by destruct (nr_status r). }
  constructor; try done.
  - rewrite <- (get_run_set_run tenant run_id (st1 <| st_waits ::= fmap (cancel_wait tenant run_id) |>)
      run run'); [done| |done..]. unfold get_run. simpl. by rewrite Hruns.
  - intros r' Hr'. apply list_node_runs_elem in Hr' as (Hr' & Htr & Hir). simpl in Hr'.
    destruct (Forall2_elem_r _ _ _ Hall r' Hr') as (r & Hr & H1 & H2).
    destruct (decide (nr_tenant_id r = tenant ∧ nr_workflow_run_id r = run_id)) as [Hc|Hc].
    + rewrite H1 by done. apply cancelled_row_status.
    + rewrite H2 in Htr, Hir by done. destruct Hc. done.
  - simpl. by rewrite Hwaits.
Qed.

End cancellation.

(** Cancelling.  An unknown run is a 404 and a succeeded one a 409, both
    without effect; a cancelled run is returned as it is.  Any other run (at
    most one schedule slot points to it) becomes CANCELLED and finished; of its
    rows the succeeded and skipped ones are kept exactly as they are, and every
    other one is CANCELLED with its claim cleared, its cancellation flag set and
    an error recorded if it had none; no row of another run changes; its pending
    waits are cancelled; and cancelling again changes nothing more. *)
Theorem cancel_run_spec now tenant run_id st :
  NoDup (nr_id <$> st_node_runs st) →
  match get_run tenant run_id st with
  | None => cancel_run now tenant run_id st = (Raise (HTTPException 404 "Workflow run not found"), st)
  | Some run =>
      match wr_status run with
      | RUN_SUCCEEDED =>
          cancel_run now tenant run_id st = (Raise (HTTPException 409 "Cannot cancel a succeeded run"), st)
      | RUN_CANCELLED => cancel_run now tenant run_id st = (Ok run, st)
      | _ =>
          (length (run_occurrences run_id st) ≤ 1)%nat →
          ∃ run' st', cancel_run now tenant run_id st = (Ok run', st') ∧
            run_cancelled now tenant run_id st st' run' ∧
            (∀ w, w ∈ st_waits st' → ww_tenant_id w = tenant → ww_workflow_run_id w = run_id →
               ww_status w ≠ WAIT_PENDING) ∧
            ∀ now', cancel_run now' tenant run_id st' = (Ok run', st')
      end
  end.
Proof.
  intros Hnd. destruct (get_run tenant run_id st) as [run|] eqn:Hrun.
  2: { unfold cancel_run, mbind, M_bind, get_state. by rewrite Hrun. }
  destruct (wr_status run) eqn:Hst.
  4: { unfold cancel_run, mbind, M_bind, get_state. by rewrite Hrun, Hst. }
  5: { unfold cancel_run, mbind, M_bind, get_state. by rewrite Hrun, Hst. }
  all: intros Hocc; destruct (cancel_run_effect now tenant run_id st run Hnd Hocc Hrun)
    as (run' & st' & Hc & Heff); [rewrite Hst; set_solver|]; exists run', st';
    (split; [exact Hc|split; [exact Heff|split]]).
  all: try (intros now'; unfold cancel_run, mbind, M_bind, get_state;
    by rewrite (rc_run _ _ _ _ _ _ Heff), (rc_status _ _ _ _ _ _ Heff)).
  all: rewrite (rc_waits _ _ _ _ _ _ Heff); intros w (w0 & -> & _)%list_elem_of_fmap;
    unfold cancel_wait; destruct (_ && _) eqn:E; [done|]; intros Ht Hi Hp;
    by rewrite !bool_decide_eq_true_2 in E.
Qed.

Definition ex_run (s : RunStatus) : WorkflowRun :=
  {| wr_id := "run"; wr_tenant_id := "tenant"; wr_automation_id := None;
     wr_workflow_definition_id := "d"; wr_workflow_version_id := "v"; wr_brand_id := None;
     wr_trigger_type := "manual"; wr_trigger_payload := []; wr_status := s;
     wr_context_snapshot := []; wr_started_at := Some 1; wr_finished_at := None;
     wr_error_message := None; wr_correlation_id := None |}.
Definition ex_store : Store := empty_store <| st_runs := [ex_run RUN_RUNNING] |>
  <| st_node_runs := Claiming.ex_rows |>.

Lemma cancel_run_spec_witness :
  ∃ run' st', cancel_run 9 "tenant" "run" ex_store = (Ok run', st') ∧ wr_status run' = RUN_CANCELLED.
Proof.
  pose proof (cancel_run_spec 9 "tenant" "run" ex_store) as H.
  assert (NoDup (nr_id <$> st_node_runs ex_store)) as Hu
    by (apply (bool_decide_unpack _); vm_compute; exact I).
  specialize (H Hu). cbn in H.
  destruct H as (run' & st' & H1 & H2 & _); [lia|]. exists run', st'. split; [exact H1|].
  exact (rc_status _ _ _ _ _ _ H2).
Defined.

End Cancellation.
