(* ===== verification/Schedule.v ===== *)
(** * Schedules (schedule_config.py, schedule_next.py)

    Trigger configurations and the next fire time.  Instants are microseconds
    since the epoch; a local wall time is the number of microseconds a clock
    without zone would have counted, so days and hours are divisions.  A zone
    is its list of transitions, with the two lookups of [zoneinfo.ZoneInfo].
    Pydantic's coercion of a value to an int and croniter are parameters. *)
From S2P Require Import Prelude PyStr Json.

Module Schedule.
Local Open Scope string_scope.
Local Open Scope list_scope.
Local Open Scope Z_scope.

(** ** schedule_config.py *)

Inductive TriggerConfig :=
  | IntervalTriggerConfig (every_seconds : Z)
  | DailyTriggerConfig (at_ : string)
  | WeeklyTriggerConfig (days : list string) (at_ : string)
  | CronTriggerConfig (expr : string).

Definition weekday_names : list string := ["mon"; "tue"; "wed"; "thu"; "fri"; "sat"; "sun"].

(** [^\d{2}:\d{2}$] *)
Definition hhmm_pattern (s : string) : bool :=
  match s with
  | String a (String b (String c (String d (String e "")))) =>
      PyStr.is_digit a && PyStr.is_digit b && Ascii.eqb c ":" && PyStr.is_digit d && PyStr.is_digit e
  | _ => false
  end.

(** [WeeklyTriggerConfig._normalize_days] *)
Fixpoint normalize_days_from (value normalized : list string) : result (list string) :=
  match value with
  | [] => if bool_decide (normalized = []) then Raise (ValidationError "days must not be empty")
          else Ok normalized
  | day :: value' =>
      let key := PyStr.take 3 (PyStr.lower (PyStr.strip day)) in
      if negb (bool_decide (key ∈ weekday_names))
      then Raise (ValidationError ("invalid weekday '" +:+ day +:+ "'"))
      else normalize_days_from value'
             (if bool_decide (key ∈ normalized) then normalized else normalized ++ [key])
  end.
Definition normalize_days (value : list string) : result (list string) := normalize_days_from value [].

Section config.
(** The int pydantic reads from a JSON value, if it accepts the value. *)
Context (coerce_int : json → option Z).

Definition only_keys (allowed : list string) (payload : dict json) : bool :=
  forallb (λ k, bool_decide (k ∈ allowed)) (Dict.keys payload).

(** [kind: Literal[...] = ...] *)
Definition kind_literal (kind : string) (payload : dict json) : bool :=
  match Dict.get "kind" payload with
  | None => true
  | Some v => bool_decide (v = JStr kind)
  end.

Definition strings_of (v : json) : option (list string) :=
  match v with
  | JArr l => mapM (λ x, match x with JStr s => Some s | _ => None end) l
  | _ => None
  end.

Definition validate_interval (payload : dict json) : result TriggerConfig :=
  match Dict.get "every_seconds" payload ≫= coerce_int with
  | Some n =>
      if only_keys ["kind"; "every_seconds"] payload && kind_literal "interval" payload &&
         (60 <=? n) && (n <=? 86400 * 30)
      then Ok (IntervalTriggerConfig n) else Raise (ValidationError "IntervalTriggerConfig")
  | None => Raise (ValidationError "every_seconds")
  end.

Definition validate_daily (payload : dict json) : result TriggerConfig :=
  match Dict.get "at" payload with
  | Some (JStr at_) =>
      if only_keys ["kind"; "at"] payload && kind_literal "daily" payload && hhmm_pattern at_
      then Ok (DailyTriggerConfig at_) else Raise (ValidationError "DailyTriggerConfig")
  | _ => Raise (ValidationError "at")
  end.

Definition validate_weekly (payload : dict json) : result TriggerConfig :=
  match Dict.get "at" payload, Dict.get "days" payload ≫= strings_of with
  | Some (JStr at_), Some days =>
      if only_keys ["kind"; "days"; "at"] payload && kind_literal "weekly" payload &&
         hhmm_pattern at_ && negb (bool_decide (days = []))
      then ds ← normalize_days days; mret (WeeklyTriggerConfig ds at_)
      else Raise (ValidationError "WeeklyTriggerConfig")
  | _, _ => Raise (ValidationError "WeeklyTriggerConfig")
  end.

Definition validate_cron (payload : dict json) : result TriggerConfig :=
  match Dict.get "expr" payload with
  | Some (JStr expr) =>
      if only_keys ["kind"; "expr"] payload && kind_literal "cron" payload &&
         Nat.leb 5 (String.length expr) && Nat.leb (String.length expr) 128
      then Ok (CronTriggerConfig expr) else Raise (ValidationError "CronTriggerConfig")
  | _ => Raise (ValidationError "expr")
  end.

(** A [str | None] field of the envelope. *)
Definition opt_str_field (k : string) (payload : dict json) : result (option string) :=
  match Dict.get k payload with
  | None | Some JNull => Ok None
  | Some (JStr s) => Ok (Some s)
  | Some _ => Raise (ValidationError k)
  end.

(** [TriggerConfigEnvelope]: [kind] defaults to [type]. *)
Definition envelope_kind (payload : dict json) : result (option string) :=
  let data := match Dict.get "kind" payload, Dict.get "type" payload with
              | None, Some v => Dict.set "kind" v payload
              | _, _ => payload
              end in
  kind ← opt_str_field "kind" data;
  _ ← opt_str_field "type" data;
  mret kind.

Definition parse_trigger_config (raw : dict json) : result TriggerConfig :=
  k ← envelope_kind raw;
  let kind := PyStr.lower (PyStr.strip (default "" k)) in
  if String.eqb kind "interval" then validate_interval raw
  else if String.eqb kind "daily" then validate_daily raw
  else if String.eqb kind "weekly" then validate_weekly raw
  else if String.eqb kind "cron" then validate_cron raw
  else Raise (ValueError ("unsupported trigger kind '" +:+
                          (if PyStr.truthy kind then kind else "missing") +:+ "'")).

End config.

(** ** Zones *)

Definition us_minute : Z := 60000000.
Definition us_day : Z := 86400000000.

(** Offsets are microseconds east of UTC; a transition is an instant and the
    offset in force from it. *)
Record ZoneInfo := {
  tz_first : Z;
  tz_transitions : list (Z * Z);
}.

(** The offset chosen by a bisection of thresholds: [w] past the threshold of a
    transition selects its offset. *)
Fixpoint pick_offset (threshold : Z → Z → Z → Z) (before : Z) (ts : list (Z * Z)) (w : Z) : Z :=
  match ts with
  | [] => before
  | (t, after) :: ts' => if threshold t before after <=? w then pick_offset threshold after ts' w else before
  end.

(** The offset of an instant. *)
Definition utcoffset (tz : ZoneInfo) (u : Z) : Z :=
  pick_offset (λ t _ _, t) (tz_first tz) (tz_transitions tz) u.

(** [u.astimezone(tz)] as a wall time. *)
Definition to_local (tz : ZoneInfo) (u : Z) : Z := u + utcoffset tz u.

(** [wall.replace(tzinfo=tz, fold=0).astimezone(utc)]: with fold=0 a transition
    takes effect at the later of its two wall readings. *)
Definition to_utc (tz : ZoneInfo) (w : Z) : Z :=
  w - pick_offset (λ t before after, t + Z.max before after) (tz_first tz) (tz_transitions tz) w.

Definition weekday (w : Z) : Z := (w / us_day + 3) mod 7.

(** ** schedule_next.py *)

Definition weekday_index (d : string) : Z :=
  match list_find (λ n, n = d) weekday_names with Some (i, _) => Z.of_nat i | None => 0 end.

(** The minute-by-minute walk of [combine_local_wall_time]. *)
Fixpoint walk_gap (tz : ZoneInfo) (fuel : nat) (probe : Z) : option Z :=
  match fuel with
  | O => None
  | S fuel =>
      let back := to_local tz (to_utc tz probe) in
      if back / us_minute =? probe / us_minute then Some probe
      else walk_gap tz fuel (probe + us_minute)
  end.

(** The wall time of the candidate; its instant is [to_utc] of it. *)
Definition combine_local_wall_time (tz : ZoneInfo) (day hour minute : Z) : result Z :=
  match walk_gap tz 180 (day * us_day + (hour * 60 + minute) * us_minute) with
  | Some w => Ok w
  | None => Raise (ValueError "unable to resolve local wall time")
  end.

Definition digit2 (a b : ascii) : Z :=
  10 * (Z.of_nat (PyStr.code a) - 48) + (Z.of_nat (PyStr.code b) - 48).

(** [_parse_hhmm] on a text of the shape dd:dd. *)
Definition parse_hhmm (value : string) : result (Z * Z) :=
  match value with
  | String a (String b (String _ (String d (String e "")))) =>
      let hour := digit2 a b in
      let minute := digit2 d e in
      if (23 <? hour) || (59 <? minute)
      then Raise (ValueError ("invalid time '" +:+ value +:+ "'")) else Ok (hour, minute)
  | _ => Raise (ValueError "not enough values to unpack")
  end.

(** The loop over the next eight days of a weekly schedule. *)
Fixpoint weekly_from (tz : ZoneInfo) (wanted : list Z) (local_after hour minute : Z)
    (offsets : list Z) : result Z :=
  match offsets with
  | [] => Raise (ValueError "unable to compute weekly next_run_at")
  | offset :: offsets' =>
      let day := (local_after + offset * us_day) / us_day in
      candidate ← combine_local_wall_time tz day hour minute;
      if bool_decide (weekday candidate ∈ wanted) && (local_after <? candidate)
      then mret (to_utc tz candidate)
      else weekly_from tz wanted local_after hour minute offsets'
  end.

(** What croniter returns: an aware datetime or a naive one. *)
Inductive cron_time := CronAware (instant : Z) | CronNaive (wall : Z).

Section next.
Context (croniter : string → ZoneInfo → Z → result cron_time).
(** [ZoneInfo(name)]; [None] is ZoneInfoNotFoundError. *)
Context (zone : string → option ZoneInfo).

Definition resolve_tz (name : string) : result ZoneInfo :=
  match zone name with
  | Some tz => Ok tz
  | None => Raise (ValueError ("unknown timezone '" +:+ name +:+ "'"))
  end.

(** [compute_next_run_at] on a parsed configuration and an instant [base]. *)
Definition compute_next_run_at (cfg : TriggerConfig) (timezone_name : string) (base : Z) : result Z :=
  tz ← resolve_tz timezone_name;
  let local_after := to_local tz base in
  match cfg with
  | IntervalTriggerConfig every_seconds => mret (base + every_seconds * 1000000)
  | DailyTriggerConfig at_ =>
      hm ← parse_hhmm at_;
      let day := local_after / us_day in
      candidate ← combine_local_wall_time tz day hm.1 hm.2;
      candidate ← (if candidate <=? local_after
                   then combine_local_wall_time tz (day + 1) hm.1 hm.2 else mret candidate);
      mret (to_utc tz candidate)
  | WeeklyTriggerConfig days at_ =>
      hm ← parse_hhmm at_;
      weekly_from tz (weekday_index <$> days) local_after hm.1 hm.2 [0; 1; 2; 3; 4; 5; 6; 7]
  | CronTriggerConfig expr =>
      nxt ← croniter expr tz base;
      match nxt with
      | CronAware u => mret u
      | CronNaive w =>
          c ← combine_local_wall_time tz (w / us_day) (w mod us_day / (60 * us_minute))
                (w mod (60 * us_minute) / us_minute);
          mret (to_utc tz c)
      end
  end.

End next.
(** ** Configurations *)

Definition config_ok (cfg : TriggerConfig) : Prop :=
  match cfg with
  | IntervalTriggerConfig n => 60 <= n <= 2592000
  | DailyTriggerConfig at_ => hhmm_pattern at_ = true
  | WeeklyTriggerConfig days at_ =>
      hhmm_pattern at_ = true ∧ days ≠ [] ∧ NoDup days ∧ days ⊆ weekday_names
  | CronTriggerConfig expr => (5 ≤ String.length expr ≤ 128)%nat
  end.

Lemma normalize_days_from_ok value normalized days :
  NoDup normalized → normalized ⊆ weekday_names →
  normalize_days_from value normalized = Ok days →
  days ≠ [] ∧ NoDup days ∧ days ⊆ weekday_names.
Proof.
  revert normalized. induction value as [|d value IH]; intros normalized Hnd Hsub; cbn [normalize_days_from].
  - case_bool_decide; [done|]. by intros [= <-].
  - set (k := PyStr.take 3 _). destruct (negb (bool_decide (k ∈ weekday_names))) eqn:E; [done|].
    apply negb_false_iff, bool_decide_eq_true in E. apply IH; case_bool_decide as Hin; try done.
    + apply NoDup_app. split_and!; [done| |apply NoDup_singleton]. intros x Hx ->%list_elem_of_singleton. done.
    + intros x [?| ->%list_elem_of_singleton]%elem_of_app; [by apply Hsub|done].
Qed.

Lemma validate_ok coerce raw cfg :
  parse_trigger_config coerce raw = Ok cfg →
  config_ok cfg ∧ ∀ k, k ∈ Dict.keys raw → k ∈ ["kind"; "every_seconds"; "at"; "days"; "expr"].
Proof.
  assert (∀ allowed, allowed ⊆ ["kind"; "every_seconds"; "at"; "days"; "expr"] →
    only_keys allowed raw = true →
    ∀ k, k ∈ Dict.keys raw → k ∈ ["kind"; "every_seconds"; "at"; "days"; "expr"]) as Hkeys.
  { intros allowed Hsub Hk k Hin. unfold only_keys in Hk.
    apply forallb_True_Forall in Hk. rewrite Forall_forall in Hk.
    specialize (Hk k Hin). apply bool_decide_eq_true in Hk. by apply Hsub. }
  unfold parse_trigger_config, mbind, result_bind. destruct (envelope_kind raw); [|done].
  set (kind := PyStr.lower _).
  destruct (kind =? "interval")%string.
  { unfold validate_interval. destruct (Dict.get _ raw ≫= coerce) as [n|]; [|done].
    destruct (_ && _) eqn:E; [|done]. intros [= <-].
    apply andb_true_iff in E as [[[E1 E2]%andb_true_iff E3]%andb_true_iff E4].
    split; [simpl; lia|]. apply (Hkeys ["kind"; "every_seconds"]); [set_solver|done]. }
  destruct (kind =? "daily")%string.
  { unfold validate_daily. destruct (Dict.get "at" raw) as [[]|]; try done.
    destruct (_ && _) eqn:E; [|done]. intros [= <-].
    apply andb_true_iff in E as [[E1 E2]%andb_true_iff E3].
    split; [done|]. apply (Hkeys ["kind"; "at"]); [set_solver|done]. }
  destruct (kind =? "weekly")%string.
  { unfold validate_weekly. destruct (Dict.get "at" raw) as [[]|]; try done.
    destruct (Dict.get "days" raw ≫= strings_of) as [days|]; [|done].
    destruct (_ && _) eqn:E; [|done]. unfold mbind, result_bind.
    destruct (normalize_days days) as [ds|] eqn:Hds; [|done]. intros [= <-].
    apply andb_true_iff in E as [[[E1 E2]%andb_true_iff E3]%andb_true_iff E4].
    apply normalize_days_from_ok in Hds as (?&?&?); [|constructor|set_solver].
    split; [done|]. apply (Hkeys ["kind"; "days"; "at"]); [set_solver|done]. }
  destruct (kind =? "cron")%string; [|done].
  unfold validate_cron. destruct (Dict.get "expr" raw) as [[]|]; try done.
  destruct (_ && _) eqn:E; [|done]. intros [= <-].
  apply andb_true_iff in E as [[[E1 E2]%andb_true_iff E3%Nat.leb_le]%andb_true_iff E4%Nat.leb_le].
  split; [done|]. apply (Hkeys ["kind"; "expr"]); [set_solver|done].
Qed.

Lemma interval_bounds coerce raw n :
  parse_trigger_config coerce raw = Ok (IntervalTriggerConfig n) → 60 <= n <= 2592000.
Proof. by intros [H _]%validate_ok. Qed.

(** C29: parsing accepts only well-formed configurations: intervals between one
    minute and thirty days, times of the shape dd:dd, a non-empty duplicate-free
    list of weekday names, cron texts of 5 to 128 characters; whatever the
    payload spells, it must carry exactly the fields of its kind. *)
Theorem parse_trigger_config_ok coerce raw cfg :
  parse_trigger_config coerce raw = Ok cfg →
  config_ok cfg ∧ ∀ k, k ∈ Dict.keys raw → k ∈ ["kind"; "every_seconds"; "at"; "days"; "expr"].
Proof.
  apply validate_ok.
Qed.

Definition ex_coerce (v : json) : option Z := match v with JInt n => Some n | _ => None end.
Definition ex_weekly : dict json :=
  [("kind", JStr "weekly"); ("days", JArr [JStr "Monday"; JStr " FRI "; JStr "mon"]); ("at", JStr "08:30")].

Lemma parse_trigger_config_ok_witness :
  parse_trigger_config ex_coerce ex_weekly = Ok (WeeklyTriggerConfig ["mon"; "fri"] "08:30") ∧
  config_ok (WeeklyTriggerConfig ["mon"; "fri"] "08:30").
Proof.
  assert (parse_trigger_config ex_coerce ex_weekly = Ok (WeeklyTriggerConfig ["mon"; "fri"] "08:30")) as H
    by reflexivity.
  split; [exact H|]. exact (proj1 (parse_trigger_config_ok ex_coerce ex_weekly _ H)).
Defined.

(** The [type] alias of the envelope is not accepted by the configuration it
    dispatches to, which forbids the extra field. *)
Theorem type_alias_rejected coerce v :
  parse_trigger_config coerce [("type", JStr "interval"); ("every_seconds", v)] =
    Raise (ValidationError (if coerce v then "IntervalTriggerConfig" else "every_seconds")).
Proof.
  unfold parse_trigger_config, envelope_kind. simpl. unfold validate_interval. simpl.
  by destruct (coerce v).
Qed.

(** ** Fire times *)

Lemma walk_gap_spec tz fuel probe w :
  walk_gap tz fuel probe = Some w →
  probe <= w < probe + Z.of_nat fuel * us_minute ∧ (w - probe) mod us_minute = 0 ∧
  to_local tz (to_utc tz w) / us_minute = w / us_minute.
Proof.
  revert probe. induction fuel as [|fuel IH]; intros probe; [done|]. cbn [walk_gap].
  destruct (Z.eqb_spec (to_local tz (to_utc tz probe) / us_minute) (probe / us_minute)) as [E|E].
  - intros [= <-]. split_and!; [lia|unfold us_minute; lia|by rewrite Z.sub_diag|done].
  - intros (H1 & H2 & H3)%IH. split_and!; [unfold us_minute in *; lia..| |done].
    replace (w - probe) with ((w - (probe + us_minute)) + 1 * us_minute) by lia.
    by rewrite Z.mod_add.
Qed.

(** A candidate on a minute is read back no earlier than it is written. *)
Lemma combine_spec tz day hour minute w :
  combine_local_wall_time tz day hour minute = Ok w →
  day * us_day + (hour * 60 + minute) * us_minute <= w
    < day * us_day + (hour * 60 + minute + 180) * us_minute ∧
  w <= to_local tz (to_utc tz w) < w + us_minute.
Proof.
  unfold combine_local_wall_time.
  destruct (walk_gap tz 180 _) as [w'|] eqn:E; [|done]. intros [= ->].
  apply walk_gap_spec in E as (H1 & H2 & H3). split; [unfold us_minute, us_day in *; lia|].
  set (p := day * us_day + (hour * 60 + minute) * us_minute) in *.
  assert (w mod us_minute = 0) as Hw.
  { replace w with ((w - p) + ((day * 1440 + (hour * 60 + minute)) * us_minute))
      by (unfold p, us_day, us_minute; lia).
    rewrite Z.mod_add by done. exact H2. }
  pose proof (Z.div_mod w us_minute ltac:(done)) as D1.
  pose proof (Z.div_mod (to_local tz (to_utc tz w)) us_minute ltac:(done)) as D2.
  pose proof (Z.mod_pos_bound (to_local tz (to_utc tz w)) us_minute ltac:(done)). lia.
Qed.

(** The local clock has never read this time or later before this instant. *)
Definition clock_monotone_at (tz : ZoneInfo) (u : Z) : Prop := ∀ u', u' < u → to_local tz u' < to_local tz u.

Lemma later_wall_later_instant tz u w :
  clock_monotone_at tz u → to_local tz u < w → w <= to_local tz (to_utc tz w) → u < to_utc tz w.
Proof.
  intros Hm Hw Hb. destruct (Z.lt_trichotomy u (to_utc tz w)) as [?|[E|Hlt]]; [done| |].
  - rewrite <- E in Hb. lia.
  - specialize (Hm _ Hlt). lia.
Qed.

Lemma weekly_from_spec tz wanted local_after hour minute offsets t :
  weekly_from tz wanted local_after hour minute offsets = Ok t →
  ∃ day w, combine_local_wall_time tz day hour minute = Ok w ∧ t = to_utc tz w ∧
    local_after < w ∧ weekday w ∈ wanted.
Proof.
  induction offsets as [|o offsets IH]; [done|]. cbn [weekly_from]. unfold mbind, result_bind.
  destruct (combine_local_wall_time _ _ _ _) as [w|] eqn:E; [|done].
  destruct (_ && _) eqn:Hc; [|done]. intros [= <-].
  apply andb_true_iff in Hc as [Hd%bool_decide_eq_true Hlt].
  exists ((local_after + o * us_day) / us_day), w. split_and!; [done..|lia|done].
Qed.

Lemma parse_hhmm_bounds at_ h m :
  hhmm_pattern at_ = true → parse_hhmm at_ = Ok (h, m) → 0 <= h <= 23 ∧ 0 <= m <= 59.
Proof.
  destruct at_ as [|a [|b [|c [|d [|e [|]]]]]]; simpl; try done. intros Hp.
  assert (∀ x, PyStr.is_digit x = true → 48 <= Z.of_nat (PyStr.code x)) as Hd.
  { intros x Hx. unfold PyStr.is_digit in Hx. apply andb_true_iff in Hx as [Hx%Nat.leb_le _]. lia. }
  apply andb_true_iff in Hp as [[[[Ha%Hd Hb%Hd]%andb_true_iff _]%andb_true_iff Hd'%Hd]%andb_true_iff He%Hd].
  unfold digit2. destruct (_ || _) eqn:E; [done|]. apply orb_false_iff in E as [E1 E2].
  intros [= <- <-]. apply Z.ltb_ge in E1, E2.
  lia.
Qed.

(** When the local clock has never before the base instant read as late as
    it does there (no fold is open), the next run of an interval, daily or
    weekly schedule is strictly after the base.  An interval fires exactly its
    period later; a daily or weekly one fires at a local time that reads
    back to the configured hour and minute of some day, or to the first minute
    after it that exists, less than three hours later, and a weekly one on one
    of its days. *)
Theorem compute_next_run_at_after croniter zone cfg name tz base t :
  config_ok cfg → zone name = Some tz → clock_monotone_at tz base →
  (∀ expr, cfg ≠ CronTriggerConfig expr) →
  compute_next_run_at croniter zone cfg name base = Ok t →
  base < t ∧
  match cfg with
  | IntervalTriggerConfig n => t = base + n * 1000000
  | DailyTriggerConfig at_ | WeeklyTriggerConfig _ at_ =>
      ∃ h m day w, parse_hhmm at_ = Ok (h, m) ∧ t = to_utc tz w ∧
        day * us_day + (h * 60 + m) * us_minute <= w
          < day * us_day + (h * 60 + m + 180) * us_minute ∧
        w <= to_local tz t < w + us_minute ∧
        (∀ days at', cfg = WeeklyTriggerConfig days at' → weekday w ∈ weekday_index <$> days)
  | CronTriggerConfig _ => True
  end.
Proof.
  intros Hok Hz Hm Hnc. unfold compute_next_run_at, resolve_tz, mbind, result_bind, mret, result_ret.
  rewrite Hz. destruct cfg as [n|at_|days at_|expr]; simpl in Hok; [..|by destruct (Hnc expr)].
  - intros [= <-]. split; [lia|done].
  - destruct (parse_hhmm at_) as [[h m]|] eqn:Hp; [|done]. simpl.
    pose proof (parse_hhmm_bounds _ _ _ Hok Hp) as [Hh Hmn].
    set (day := to_local tz base / us_day).
    destruct (combine_local_wall_time tz day h m) as [w|] eqn:Hc; [|done].
    assert (∀ d w, combine_local_wall_time tz d h m = Ok w → to_local tz base < w →
      base < to_utc tz w ∧ ∃ h' m' day w', Ok (h, m) = Ok (h', m') ∧ to_utc tz w = to_utc tz w' ∧
        day * us_day + (h' * 60 + m') * us_minute <= w'
          < day * us_day + (h' * 60 + m' + 180) * us_minute ∧
        w' <= to_local tz (to_utc tz w) < w' + us_minute ∧
        (∀ days at', DailyTriggerConfig at_ = WeeklyTriggerConfig days at' →
           weekday w' ∈ weekday_index <$> days)) as Hfin.
    { intros d w' Hw Hlt. apply combine_spec in Hw as [H1 H2]. split.
      - apply later_wall_later_instant; [done|done|lia].
      - exists h, m, d, w'. split_and!; first [done|lia]. }
    destruct (Z.leb_spec w (to_local tz base)).
    + destruct (combine_local_wall_time tz (day + 1) h m) as [w'|] eqn:Hc'; [|done].
      intros [= <-]. apply (Hfin (day + 1)); [done|]. apply combine_spec in Hc' as [[H1 _] _].
      pose proof (Z.div_mod (to_local tz base) us_day ltac:(done)).
      pose proof (Z.mod_pos_bound (to_local tz base) us_day ltac:(done)).
      unfold day, us_day, us_minute in *. lia.
    + intros [= <-]. by apply (Hfin day).
  - destruct (parse_hhmm at_) as [[h m]|] eqn:Hp; [|done]. cbn [fst snd]. intros Hw.
    apply weekly_from_spec in Hw as (d & w & Hc & -> & Hlt & Hwd).
    apply combine_spec in Hc as [H1 H2]. split; [apply later_wall_later_instant; [done|done|lia]|].
    exists h, m, d, w. split_and!; try first [done|lia]. by intros ?? [= <- <-].
Qed.

(** Europe/Brussels around the changes of 2025. *)
Definition brussels_2025 : ZoneInfo := {|
  tz_first := 3600000000;
  tz_transitions := [(1743296400000000, 7200000000); (1761440400000000, 3600000000)] |}.
Definition ex_zone (name : string) : option ZoneInfo :=
  if String.eqb name "UTC" then Some (Build_ZoneInfo 0 [])
  else if String.eqb name "Europe/Brussels" then Some brussels_2025 else None.
Definition no_cron (_ : string) (_ : ZoneInfo) (_ : Z) : result cron_time := Raise (ValueError "cron").

(** 2025-03-30 02:30 does not exist: the run moves to 03:00 local, 01:00 UTC. *)
Example brussels_gap :
  compute_next_run_at no_cron ex_zone (DailyTriggerConfig "02:30") "Europe/Brussels" 1743292800000000
  = Ok 1743296400000000.
Proof. vm_compute. reflexivity. Qed.

Lemma compute_next_run_at_after_witness :
  1743292800000000 < 1743292800000000 + 90 * 1000000.
Proof.
  refine (proj1 (compute_next_run_at_after no_cron ex_zone (IntervalTriggerConfig 90) "UTC"
    (Build_ZoneInfo 0 []) 1743292800000000 _ _ _ _ _ _)).
  - simpl. lia.
  - reflexivity.
  - intros u' Hu. unfold to_local, utcoffset. simpl. lia.
  - intros expr. discriminate.
  - reflexivity.
Defined.

(** While an autumn fold is open the computed time can lie in the past: at
    02:15 CET on 2025-10-26 (the second 02:15 of that night) a daily 02:30
    schedule is given 02:30 CEST, 45 minutes before. *)
Theorem daily_next_in_fold_is_past :
  ∃ t, compute_next_run_at no_cron ex_zone (DailyTriggerConfig "02:30") "Europe/Brussels" 1761441300000000
    = Ok t ∧ t = 1761441300000000 - 45 * us_minute.
Proof. exists 1761438600000000. split; [vm_compute; reflexivity|reflexivity]. Qed.

End Schedule.
