(* ===== verification/Calendar.v ===== *)
(** * Dates and their texts (datetime.strftime, datetime.isoformat)

    The proleptic Gregorian date of a day count, and the two texts the program
    makes of a UTC instant (of years from 1000 on, whose four digits need no
    padding).  The text of a whole second determines it. *)
From stdpp Require Import pretty.
From S2P Require Import Prelude PyStr Json.

Module Calendar.
Local Open Scope string_scope.
Local Open Scope list_scope.
Local Open Scope Z_scope.

(** ** Civil dates *)

(** Year, month and day within a 400-year era, from the day of the era. *)
Definition civil_of_doe (doe : Z) : Z * Z * Z :=
  let yoe := (doe - doe / 1460 + doe / 36524 - doe / 146096) / 365 in
  let doy := doe - (365 * yoe + yoe / 4 - yoe / 100) in
  let mp := (5 * doy + 2) / 153 in
  let d := doy - (153 * mp + 2) / 5 + 1 in
  let m := if mp <? 10 then mp + 3 else mp - 9 in
  (if m <=? 2 then yoe + 1 else yoe, m, d).

Definition doe_of_civil (y m d : Z) : Z :=
  let yoe := if m <=? 2 then y - 1 else y in
  let mp := if 2 <? m then m - 3 else m + 9 in
  yoe * 365 + yoe / 4 - yoe / 100 + (153 * mp + 2) / 5 + d - 1.

(** The date of a number of days since 1970-01-01. *)
Definition civil_from_days (days : Z) : Z * Z * Z :=
  let z := days + 719468 in
  let '(y, m, d) := civil_of_doe (z mod 146097) in
  (400 * (z / 146097) + y, m, d).

Definition two_digits (n : Z) : string :=
  if n <? 10 then "0" +:+ PyStr.of_Z n else PyStr.of_Z n.

(** The date and time part shared by the two texts. *)
Definition date_time_text (seconds : Z) : string :=
  let '(y, m, d) := civil_from_days (seconds / 86400) in
  let s := seconds mod 86400 in
  PyStr.of_Z y +:+ "-" +:+ two_digits m +:+ "-" +:+ two_digits d +:+ "T" +:+
  two_digits (s / 3600) +:+ ":" +:+ two_digits (s mod 3600 / 60) +:+ ":" +:+ two_digits (s mod 60).

(** [u.strftime("%Y-%m-%dT%H:%M:%SZ")] of a UTC instant in microseconds. *)
Definition strftime_utc (u : Z) : string := date_time_text (u / 1000000) +:+ "Z".

Fixpoint zeros (n : nat) : string := match n with O => "" | S n => String "0" (zeros n) end.
Definition pad_left (n : nat) (s : string) : string := zeros (n - String.length s) +:+ s.

(** [u.isoformat()] of an aware UTC datetime. *)
Definition isoformat_utc (u : Z) : string :=
  let us := u mod 1000000 in
  date_time_text (u / 1000000) +:+
  (if us =? 0 then "" else "." +:+ pad_left 6 (PyStr.of_Z us)) +:+ "+00:00".

(** The UTC offset of an aware datetime, as isoformat prints it. *)
Definition offset_text (offset : Z) : string :=
  let a := Z.abs offset in
  let seconds := a / 1000000 mod 60 in let us := a mod 1000000 in
  (if offset <? 0 then "-" else "+") +:+ two_digits (a / 3600000000) +:+ ":" +:+
  two_digits (a / 60000000 mod 60) +:+
  (if (seconds =? 0) && (us =? 0) then "" else ":" +:+ two_digits seconds) +:+
  (if us =? 0 then "" else "." +:+ pad_left 6 (PyStr.of_Z us)).

(** [d.isoformat()] of an aware datetime: local time and offset in microseconds. *)
Definition isoformat_at (wall offset : Z) : string :=
  let us := wall mod 1000000 in
  date_time_text (wall / 1000000) +:+
  (if us =? 0 then "" else "." +:+ pad_left 6 (PyStr.of_Z us)) +:+ offset_text offset.

Example iso_offset_text : isoformat_at 1761442200000000 (-7200000000) = "2025-10-26T01:30:00-02:00".
Proof. vm_compute. reflexivity. Qed.
Example epoch_text : strftime_utc 0 = "1970-01-01T00:00:00Z".
Proof. vm_compute. reflexivity. Qed.
Example leap_text : strftime_utc 1709208000000000 = "2024-02-29T12:00:00Z".
Proof. vm_compute. reflexivity. Qed.
Example iso_text : isoformat_utc 1761438600000500 = "2025-10-26T00:30:00.000500+00:00".
Proof. vm_compute. reflexivity. Qed.

(** ** The date determines the day *)

Fixpoint check_from (test : Z → bool) (n : nat) (z : Z) : bool :=
  match n with
  | O => true
  | S n' => test z && check_from test n' (z + 1)
  end.

Lemma check_from_spec test n z x :
  check_from test n z = true → z <= x < z + Z.of_nat n → test x = true.
Proof.
  revert z. induction n as [|n IH]; intros z; [simpl; lia|]. cbn [check_from].
  intros [Ht Hc]%andb_true_iff Hx. destruct (Z.eq_dec x z) as [->|]; [done|].
  apply (IH (z + 1)); [done|lia].
Qed.

(** The year belongs to the era: March of year 0 to February of year 400. *)
Lemma year_of_era_bounds doe : 0 <= doe < 146097 →
  let yoe := (doe - doe / 1460 + doe / 36524 - doe / 146096) / 365 in
  0 <= yoe < 400 ∧ 0 <= doe - (365 * yoe + yoe / 4 - yoe / 100) < 366.
Proof. intros H. cbv zeta. Z.to_euclidean_division_equations. lia. Qed.

Lemma day_of_year_bounds doy : 0 <= doy < 366 →
  let mp := (5 * doy + 2) / 153 in
  0 <= mp < 12 ∧ 1 <= doy - (153 * mp + 2) / 5 + 1 <= 31.
Proof. intros H. cbv zeta. Z.to_euclidean_division_equations. lia. Qed.

Definition civil_test (doe : Z) : bool :=
  let '(y, m, d) := civil_of_doe doe in
  (doe_of_civil y m d =? doe) && (1 <=? m) && (m <=? 12) && (1 <=? d) && (d <=? 31) &&
  (0 <=? (if m <=? 2 then y - 1 else y)) && ((if m <=? 2 then y - 1 else y) <? 400).

Lemma civil_test_all doe : 0 <= doe < 146097 → civil_test doe = true.
Proof.
  intros H. unfold civil_test, civil_of_doe, doe_of_civil.
  destruct (year_of_era_bounds doe H) as [Hy Hd].
  set (yoe := (doe - _ + _ - _) / 365) in *. set (doy := doe - (365 * _ + _ - _)) in *.
  destruct (day_of_year_bounds doy Hd) as [Hm Hday].
  set (mp := (5 * doy + 2) / 153) in *. set (d := doy - _ + 1) in *.
  set (m := if mp <? 10 then mp + 3 else mp - 9).
  replace (if m <=? 2 then (if m <=? 2 then yoe + 1 else yoe) - 1
           else (if m <=? 2 then yoe + 1 else yoe)) with yoe by (destruct (m <=? 2); lia).
  replace (if 2 <? m then m - 3 else m + 9) with mp.
  2: { subst m. destruct (mp <? 10) eqn:?; [destruct (2 <? mp + 3) eqn:?|destruct (2 <? mp - 9) eqn:?]; lia. }
  assert (1 <= m <= 12) by (subst m; destruct (mp <? 10) eqn:?; lia).
  rewrite !andb_true_iff, Z.eqb_eq, !Z.leb_le, Z.ltb_lt. subst d doy. lia.
Qed.

Lemma civil_from_days_inj a b : civil_from_days a = civil_from_days b → a = b.
Proof.
  unfold civil_from_days.
  pose proof (Z.mod_pos_bound (a + 719468) 146097 ltac:(done)) as Ha.
  pose proof (Z.mod_pos_bound (b + 719468) 146097 ltac:(done)) as Hb.
  pose proof (civil_test_all _ Ha) as Ta. pose proof (civil_test_all _ Hb) as Tb.
  pose proof (Z.div_mod (a + 719468) 146097 ltac:(done)) as Da.
  pose proof (Z.div_mod (b + 719468) 146097 ltac:(done)) as Db.
  unfold civil_test in *. destruct (civil_of_doe _) as [[ya ma] da], (civil_of_doe _) as [[yb mb] db].
  repeat (apply andb_true_iff in Ta as [Ta ?]); repeat (apply andb_true_iff in Tb as [Tb ?]).
  apply Z.eqb_eq in Ta, Tb. intros [= Hy -> ->].
  assert ((a + 719468) / 146097 = (b + 719468) / 146097 ∧ ya = yb) as [Hera ->].
  { destruct (mb <=? 2); lia. }
  lia.
Qed.

Lemma civil_from_days_bounds a :
  let '(_, m, d) := civil_from_days a in 0 <= m < 100 ∧ 0 <= d < 100.
Proof.
  unfold civil_from_days.
  pose proof (civil_test_all _ (Z.mod_pos_bound (a + 719468) 146097 ltac:(done))) as Ta.
  unfold civil_test in *. destruct (civil_of_doe _) as [[y m] d].
  repeat (apply andb_true_iff in Ta as [Ta ?]). lia.
Qed.

(** ** The text determines the date *)

Lemma append_inj a b a' b' :
  a +:+ b = a' +:+ b' → String.length b = String.length b' → a = a' ∧ b = b'.
Proof.
  revert a'. induction a as [|c a IH]; intros [|c' a']; simpl; intros E Hl.
  - done.
  - apply (f_equal String.length) in E. cbn [String.length] in E. rewrite !PyStr.append_length in E.
    cbn [String.length] in *. lia.
  - apply (f_equal String.length) in E. cbn [String.length] in E. rewrite !PyStr.append_length in E.
    cbn [String.length] in *. lia.
  - injection E as -> E. by destruct (IH a' E Hl) as [-> ->].
Qed.

(** The number a text of two digits spells. *)
Definition two_digits_value (s : string) : Z :=
  match s with
  | String a (String b "") => 10 * (Z.of_nat (PyStr.code a) - 48) + (Z.of_nat (PyStr.code b) - 48)
  | _ => -1
  end.

Lemma two_digits_value_spec x : 0 <= x < 100 →
  String.length (two_digits x) = 2%nat ∧ two_digits_value (two_digits x) = x.
Proof.
  intros Hx.
  assert ((String.length (two_digits x) =? 2)%nat && (two_digits_value (two_digits x) =? x) = true) as H.
  { apply (check_from_spec (λ x, (String.length (two_digits x) =? 2)%nat &&
      (two_digits_value (two_digits x) =? x)) 100 0); [vm_compute; reflexivity|lia]. }
  apply andb_true_iff in H as [H1 H2]. split; [by apply Nat.eqb_eq|by apply Z.eqb_eq].
Qed.

Lemma length_two_digits n : 0 <= n < 100 → String.length (two_digits n) = 2%nat.
Proof. intros H. by apply two_digits_value_spec. Qed.

Lemma two_digits_inj n n' : 0 <= n < 100 → 0 <= n' < 100 → two_digits n = two_digits n' → n = n'.
Proof.
  intros [_ H]%two_digits_value_spec [_ H']%two_digits_value_spec E. congruence.
Qed.

Lemma two_digits_append n n' s s' :
  0 <= n < 100 → 0 <= n' < 100 → String.length s = String.length s' →
  two_digits n +:+ s = two_digits n' +:+ s' → n = n' ∧ s = s'.
Proof.
  intros Hn Hn' Hl E. destruct (append_inj _ _ _ _ E Hl) as [E1 E2].
  by split; [apply two_digits_inj|].
Qed.

Lemma date_time_text_inj a b : date_time_text a = date_time_text b → a = b.
Proof.
  unfold date_time_text.
  pose proof (civil_from_days_bounds (a / 86400)) as Ba.
  pose proof (civil_from_days_bounds (b / 86400)) as Bb.
  pose proof (civil_from_days_inj (a / 86400) (b / 86400)) as Hinj.
  destruct (civil_from_days (a / 86400)) as [[ya ma] da], (civil_from_days (b / 86400)) as [[yb mb] db].
  assert (∀ x, 0 <= x mod 86400 / 3600 < 100 ∧ 0 <= x mod 86400 mod 3600 / 60 < 100 ∧
    0 <= x mod 86400 mod 60 < 100) as Htime by (intros x; Z.to_euclidean_division_equations; lia).
  destruct (Htime a) as (?&?&?), (Htime b) as (?&?&?), Ba, Bb. intros E.
  apply append_inj in E as [Ey E];
    [|cbn [String.length String.append]; by rewrite !PyStr.append_length, !length_two_digits].
  apply (inj pretty) in Ey as ->.
  injection E as E. apply two_digits_append in E as [-> E];
    [|done..|cbn [String.length String.append]; by rewrite !PyStr.append_length, !length_two_digits].
  injection E as E. apply two_digits_append in E as [-> E];
    [|done..|cbn [String.length String.append]; by rewrite !PyStr.append_length, !length_two_digits].
  injection E as E. apply two_digits_append in E as [E1 E];
    [|done..|cbn [String.length String.append]; by rewrite !PyStr.append_length, !length_two_digits].
  injection E as E. apply two_digits_append in E as [E2 E];
    [|done..|cbn [String.length String.append]; by rewrite !PyStr.append_length, !length_two_digits].
  injection E as E3. apply two_digits_inj in E3; [|done..].
  specialize (Hinj eq_refl). Z.to_euclidean_division_equations; lia.
Qed.

(** Two instants have the same text exactly when they fall in the same second. *)
Lemma strftime_utc_inj a b : strftime_utc a = strftime_utc b ↔ a / 1000000 = b / 1000000.
Proof.
  split; [|by unfold strftime_utc; intros ->].
  unfold strftime_utc. intros E. apply append_inj in E as [E _]; [|done]. by apply date_time_text_inj.
Qed.

End Calendar.
