(* ===== verification/Scheduler.v ===== *)
(** * The automation scheduler (scheduler.py, scheduler_repository.py)

    Due automations are locked, their slot is claimed by inserting an
    occurrence whose (automation, key) pair is unique, their next run is
    computed, and a run is started for the slot.  Starting a run is the
    interface [RunStarter] the engine implements. *)
From S2P Require Import Prelude PyStr Json Tables RunModels Schedule Calendar.

Module Scheduler.
Import Models Tables Schedule.
Local Open Scope string_scope.
Local Open Scope list_scope.
Local Open Scope Z_scope.

Record World := {
  w_store : Store;
  w_automations : list Automation;
  w_targets : list AutomationTarget;
}.
#[global] Instance eta_World : Settable World :=
  mk_settable _ (λ r, Build_World (w_store r) (w_automations r) (w_targets r)).

Record TickResult := {
  tr_automation_id : string;
  tr_scheduled_occurrence : string;
  tr_workflow_run_id : option string;
  tr_status : string;
  tr_error : option string;
}.

(** The arguments the scheduler passes to [engine.start_run]. *)
Record StartRequest := {
  sr_tenant_id : string;
  sr_workflow_version_id : string;
  sr_trigger_payload : dict json;
  sr_initial_inputs : dict json;
  sr_automation_id : string;
  sr_brand_id : string;
  sr_correlation_id : string;
  sr_social_account_ids : list string;
  sr_require_publish_targets : bool;
  sr_trigger_type : string;
}.

(** What the scheduler relies on: starting a run (without advancing it) leaves
    the schedule slots alone, whether it succeeds or raises. *)
Class RunStarter := {
  start_run : StartRequest → M Store WorkflowRun;
  start_run_occurrences : ∀ req st, st_occurrences (start_run req st).2 = st_occurrences st;
}.

Definition SCHEDULE : string := "schedule".

(** [str(exc)] *)
Definition exn_str (e : exn) : string :=
  match e with
  | HTTPException code detail => PyStr.of_Z code +:+ ": " +:+ detail
  | HTTPStatusError _ m | ValueError m | ValidationError m | OtherException _ m => m
  | KeyError k => PyStr.repr k
  | NameError n => "name " +:+ PyStr.repr n +:+ " is not defined"
  | WorkflowNodeNotFoundError m => PyStr.repr m
  end.

(** What [_fire_one] stores of an exception: the detail of an HTTPException. *)
Definition failure_text (e : exn) : string :=
  match e with HTTPException _ detail => detail | _ => exn_str e end.

Definition automation_due (now : Z) (a : Automation) : bool :=
  au_enabled a && String.eqb (au_trigger_type a) SCHEDULE &&
  match au_deleted_at a with None => true | Some _ => false end &&
  match au_next_run_at a with Some t => t <=? now | None => false end.

Definition next_le (a b : Automation) : Prop :=
  default 0 (au_next_run_at a) <= default 0 (au_next_run_at b).
#[global] Instance next_le_dec a b : Decision (next_le a b).
Proof. unfold next_le. apply _. Defined.

(** [claim_due_automations]; [locked] are the ids other ticks hold. *)
Definition claim_due_automations (now : Z) (locked : gset string) (limit : nat)
    (autos : list Automation) : list Automation :=
  firstn limit (merge_sort next_le
    (List.filter (λ a, automation_due now a && negb (bool_decide (au_id a ∈ locked))) autos)).

Definition get_occurrence (automation_id key : string) (occs : list AutomationOccurrence)
    : option AutomationOccurrence :=
  List.find (λ o, bool_decide (ao_automation_id o = automation_id) &&
                  bool_decide (ao_scheduled_occurrence o = key)) occs.

Definition new_occurrence (id tenant_id automation_id key : string) (scheduled_for : Z)
    : AutomationOccurrence :=
  {| ao_id := id; ao_tenant_id := tenant_id; ao_automation_id := automation_id;
     ao_scheduled_for := scheduled_for; ao_scheduled_occurrence := key; ao_workflow_run_id := None;
     ao_status := OCC_CLAIMED; ao_error_message := None |}.

Definition list_enabled_targets (tenant_id automation_id : string) (targets : list AutomationTarget)
    : list AutomationTarget :=
  List.filter (λ t, bool_decide (at_tenant_id t = tenant_id) &&
    bool_decide (at_automation_id t = automation_id) && at_enabled t &&
    match at_deleted_at t with None => true | Some _ => false end) targets.

Section scheduler.
Context `{RunStarter}.
Context (coerce_int : json → option Z) (croniter : string → ZoneInfo → Z → result cron_time)
        (zone : string → option ZoneInfo) (uuid : nat → string).

(** [occurrence_key]: the microseconds are cleared before formatting. *)
Definition occurrence_key (scheduled_for : Z) : string := Calendar.strftime_utc scheduled_for.

Definition compute_next (a : Automation) (after : Z) : result Z :=
  cfg ← parse_trigger_config coerce_int (au_trigger_config a);
  compute_next_run_at croniter zone cfg
    (if PyStr.truthy (au_timezone a) then au_timezone a else "UTC") after.

Definition on_automation (i : string) (f : Automation → Automation) : M World unit :=
  modify (λ w, w <| w_automations ::= set_row au_id i f |>).
Definition on_occurrence (i : string) (f : AutomationOccurrence → AutomationOccurrence) : M World unit :=
  modify (λ w, w <| w_store ::= λ st, st <| st_occurrences ::= set_row ao_id i f |> |>).

(** [claim_occurrence]: the inserted row, or none when the slot is taken. *)
Definition claim_occurrence (tenant_id automation_id : string) (scheduled_for : Z) (key : string)
    : M World (option AutomationOccurrence) :=
  w ← get_state;
  match get_occurrence automation_id key (st_occurrences (w_store w)) with
  | Some _ => mret None
  | None =>
      let row := new_occurrence (uuid (st_uuids (w_store w))) tenant_id automation_id key scheduled_for in
      _ ← put_state (w <| w_store ::= λ st, st <| st_uuids ::= S |>
                            <| st_occurrences ::= λ l, l ++ [row] |> |>);
      mret (Some row)
  end.

(** A call of the engine on the store of the world. *)
Definition on_store {A} (m : M Store A) : M World A :=
  λ w, let '(r, st) := m (w_store w) in (r, w <| w_store := st |>).

Definition start_request (a : Automation) (scheduled_for : Z) (key : string)
    (targets : list AutomationTarget) : StartRequest :=
  let account_ids := at_social_account_id <$> list_enabled_targets (au_tenant_id a) (au_id a) targets in
  let settings := au_settings a in
  {| sr_tenant_id := au_tenant_id a;
     sr_workflow_version_id := au_workflow_version_id a;
     sr_trigger_payload := Dict.update
       [("scheduled_for", JStr (Calendar.isoformat_utc scheduled_for));
        ("scheduled_occurrence", JStr key); ("automation_id", JStr (au_id a))]
       (Json.as_dict (Json.getn "trigger_payload" settings));
     sr_initial_inputs := Json.as_dict (Json.getn "initial_inputs" settings);
     sr_automation_id := au_id a;
     sr_brand_id := au_brand_id a;
     sr_correlation_id := "sched:" +:+ au_id a +:+ ":" +:+ key;
     sr_social_account_ids := account_ids;
     sr_require_publish_targets := negb (bool_decide (account_ids = []));
     sr_trigger_type := SCHEDULE |}.

Definition tick_result (a : Automation) (key : string) (run : option string) (status : string)
    (error : option string) : TickResult :=
  {| tr_automation_id := au_id a; tr_scheduled_occurrence := key; tr_workflow_run_id := run;
     tr_status := status; tr_error := error |}.

(** A call whose exception the caller handles. *)
Definition try_call {W A} (m : M W A) : M W (result A) := λ w, let '(r, w') := m w in (Ok r, w').

Definition fire_one (a : Automation) (as_of : Z) (enqueue_advance : bool) : M World TickResult :=
  let scheduled_for := default as_of (au_next_run_at a) in
  let key := occurrence_key scheduled_for in
  occ ← claim_occurrence (au_tenant_id a) (au_id a) scheduled_for key;
  match compute_next a scheduled_for with
  | Raise e =>
      _ ← on_automation (au_id a) (λ a, a <| au_enabled := false |> <| au_next_run_at := None |>);
      _ ← match occ with
          | Some o => on_occurrence (ao_id o) (λ o, o <| ao_status := OCC_FAILED |>
                        <| ao_error_message := Some ("next_run_at compute failed: " +:+ exn_str e) |>)
          | None => mret ()
          end;
      mret (tick_result a key None "failed" (Some (exn_str e)))
  | Ok next =>
      _ ← on_automation (au_id a) (λ a, a <| au_next_run_at := Some next |>);
      match occ with
      | None => mret (tick_result a key None "skipped" None)
      | Some o =>
          w ← get_state;
          started ← try_call (on_store (start_run (start_request a scheduled_for key (w_targets w))));
          match started with
          | Raise e =>
              _ ← on_occurrence (ao_id o) (λ o, o <| ao_status := OCC_FAILED |>
                    <| ao_error_message := Some (failure_text e) |>);
              _ ← on_automation (au_id a) (λ a, a <| au_last_run_at := Some as_of |>);
              mret (tick_result a key None "failed" (Some (failure_text e)))
          | Ok run =>
              _ ← on_occurrence (ao_id o) (λ o, o <| ao_workflow_run_id := Some (wr_id run) |>
                    <| ao_status := OCC_STARTED |>);
              _ ← on_automation (au_id a) (λ a, a <| au_last_run_at := Some as_of |>);
              _ ← (if enqueue_advance
                   then modify (λ w, w <| w_store ::= λ st, st <| st_tasks ::= λ ts,
                          ts ++ [AdvanceRunTask (au_tenant_id a) (wr_id run) 0] |> |>)
                   else mret ());
              mret (tick_result a key (Some (wr_id run)) "started" None)
          end
      end
  end.

Fixpoint fire_all (due : list Automation) (as_of : Z) (enqueue_advance : bool)
    : M World (list TickResult) :=
  match due with
  | [] => mret []
  | a :: due' => r ← fire_one a as_of enqueue_advance; rs ← fire_all due' as_of enqueue_advance;
                 mret (r :: rs)
  end.

Definition tick (now : Z) (locked : gset string) (limit : nat) (enqueue_advance : bool)
    : M World (list TickResult) :=
  w ← get_state;
  fire_all (claim_due_automations now locked limit (w_automations w)) now enqueue_advance.

(** [sync_schedule_state] *)
Definition sync_schedule_state (a : Automation) (now : Z) (force_recompute : bool) : result Automation :=
  if negb (au_enabled a) then mret (a <| au_next_run_at := None |>)
  else if negb (String.eqb (au_trigger_type a) SCHEDULE) then mret (a <| au_next_run_at := None |>)
  else if force_recompute || match au_next_run_at a with None => true | Some _ => false end
  then next ← compute_next a now; mret (a <| au_next_run_at := Some next |>)
  else mret a.

(** ** Slots *)

(** The unique pair of an occurrence. *)
Definition slot (o : AutomationOccurrence) : string * string :=
  (ao_automation_id o, ao_scheduled_occurrence o).
Definition slots (w : World) : list (string * string) := slot <$> st_occurrences (w_store w).

Definition slot_of (a : Automation) (as_of : Z) : string * string :=
  (au_id a, occurrence_key (default as_of (au_next_run_at a))).

Lemma get_occurrence_slot i key occs :
  is_Some (get_occurrence i key occs) ↔ (i, key) ∈ slot <$> occs.
Proof.
  unfold get_occurrence. rewrite list_elem_of_fmap. split.
  - intros [o Ho]. apply find_Some_elem in Ho as [Hin [H1 H2]%andb_true_iff].
    apply bool_decide_eq_true in H1, H2. exists o. split; [unfold slot; congruence|done].
  - intros (o & Ho & Hin). apply not_eq_None_Some. intros Hn. apply find_None_Forall in Hn.
    rewrite Forall_forall in Hn. specialize (Hn o Hin). injection Ho as -> ->.
    by rewrite !bool_decide_eq_true_2 in Hn.
Qed.

Lemma slots_set_row i f occs :
  (∀ o, slot (f o) = slot o) → slot <$> set_row ao_id i f occs = slot <$> occs.
Proof.
  intros Hf. unfold set_row. rewrite <- list_fmap_compose. apply list_fmap_ext. intros ? o _. simpl.
  by case_bool_decide.
Qed.

(** The rows of an automation after its slot was handled. *)
Definition advanced (a : Automation) (as_of : Z) (b b' : Automation) : Prop :=
  if decide (au_id b = au_id a)
  then au_id b' = au_id b ∧
       match compute_next a (default as_of (au_next_run_at a)) with
       | Ok next => au_next_run_at b' = Some next ∧ au_enabled b' = au_enabled b
       | Raise _ => au_next_run_at b' = None ∧ au_enabled b' = false
       end
  else b' = b.

Lemma advanced_rows a as_of f l :
  (∀ b, au_id (f b) = au_id b ∧
     match compute_next a (default as_of (au_next_run_at a)) with
     | Ok next => au_next_run_at (f b) = Some next ∧ au_enabled (f b) = au_enabled b
     | Raise _ => au_next_run_at (f b) = None ∧ au_enabled (f b) = false
     end) →
  Forall2 (advanced a as_of) l (set_row au_id (au_id a) f l).
Proof.
  intros Hf. unfold set_row. rewrite Forall2_fmap_r. apply Forall_Forall2_diag, Forall_forall.
  intros b _. simpl. unfold advanced. by case_bool_decide; case_decide.
Qed.

Lemma set_row_compose i f g (l : list Automation) :
  (∀ b, au_id (f b) = au_id b) →
  set_row au_id i g (set_row au_id i f l) = set_row au_id i (λ b, g (f b)) l.
Proof.
  intros Hf. unfold set_row. rewrite <- list_fmap_compose. apply list_fmap_ext. intros ? b _. simpl.
  destruct (decide (au_id b = i)) as [E|E].
  - rewrite (bool_decide_eq_true_2 (au_id b = i)) by done. by rewrite Hf, bool_decide_eq_true_2.
  - rewrite (bool_decide_eq_false_2 (au_id b = i)) by done. by rewrite bool_decide_eq_false_2.
Qed.

Lemma fire_one_spec a as_of enq w :
  ∃ r w', fire_one a as_of enq w = (Ok r, w') ∧
    slots w' = slots w ++ (if decide (slot_of a as_of ∈ slots w) then [] else [slot_of a as_of]) ∧
    Forall2 (advanced a as_of) (w_automations w) (w_automations w') ∧
    w_targets w' = w_targets w ∧
    (slot_of a as_of ∈ slots w → w_store w' = w_store w ∧ tr_status r ∈ ["skipped"; "failed"]).
Proof.
  unfold fire_one, claim_occurrence, slot_of. set (s := default as_of (au_next_run_at a)).
  set (key := occurrence_key s). unfold slots.
  pose proof (get_occurrence_slot (au_id a) key (st_occurrences (w_store w))) as Hslot.
  set (row := new_occurrence (uuid (st_uuids (w_store w))) (au_tenant_id a) (au_id a) key s).
  unfold mbind, M_bind, get_state, put_state, mret, M_ret, on_automation, on_occurrence, modify.
  destruct (get_occurrence (au_id a) key (st_occurrences (w_store w))) as [o0|] eqn:Ho.
  - (* the slot is taken *)
    rewrite decide_True by (apply Hslot; eauto). rewrite app_nil_r.
    destruct (compute_next a s) as [next|e] eqn:Hn; cbn [fst snd]; (eexists _, _; split; [reflexivity|]);
      (split_and!; [reflexivity| |reflexivity|intros _; split; [by destruct w|simpl; set_solver]]);
      apply advanced_rows; intros b; fold s; by rewrite Hn.
  - rewrite decide_False by (intros Hin; apply Hslot in Hin as [? ?]; done).
    assert ((au_id a, key) ∉ slot <$> st_occurrences (w_store w)) as Hfree
      by (intros Hin; apply Hslot in Hin as [? ?]; done).
    destruct (compute_next a s) as [next|e] eqn:Hn; cbn [fst snd].
    + unfold try_call, on_store.
      match goal with |- context [start_run ?req ?st] =>
        pose proof (start_run_occurrences req st) as Hocc;
        destruct (start_run req st) as [[run|e] st2] end; simpl in Hocc;
        [destruct enq|]; (eexists _, _; split; [reflexivity|]); simpl;
        (split_and!; [|rewrite set_row_compose by done; apply advanced_rows; intros b; fold s; by rewrite Hn
                      |reflexivity|done]);
        rewrite slots_set_row by done; rewrite Hocc, fmap_app; done.
    + eexists _, _. split; [reflexivity|]. simpl. split_and!; [| |done|done].
      * rewrite slots_set_row by done. by rewrite fmap_app.
      * apply advanced_rows. intros b. fold s. by rewrite Hn.
Qed.

End scheduler.

(** C30: a schedule slot is fired at most once.  Handling a due automation never
    raises.  It takes the slot (automation, second of the scheduled time)
    exactly when nobody has it yet: the list of taken slots grows by that one
    slot or not at all, so slots stay unique; when it was taken, no run is
    started and nothing is enqueued.  In every case the automation moves on: it
    gets the next run computed after the scheduled time, or is disabled with no
    next run when none can be computed; other automations are untouched.  So
    handling the same slot again, in any later state, starts nothing. *)
Theorem fire_one_at_most_once `{RunStarter} coerce croniter zone uuid a as_of enq w :
  NoDup (slots w) →
  ∃ r w', fire_one coerce croniter zone uuid a as_of enq w = (Ok r, w') ∧
    NoDup (slots w') ∧ slot_of a as_of ∈ slots w' ∧
    (∀ x, x ∈ slots w' ↔ x ∈ slots w ∨ x = slot_of a as_of) ∧
    (slot_of a as_of ∈ slots w → w_store w' = w_store w ∧ tr_status r ∈ ["skipped"; "failed"]) ∧
    Forall2 (advanced coerce croniter zone a as_of) (w_automations w) (w_automations w') ∧
    (∀ w2 enq2, slots w' ⊆ slots w2 →
       ∃ r2 w2', fire_one coerce croniter zone uuid a as_of enq2 w2 = (Ok r2, w2') ∧
         w_store w2' = w_store w2 ∧ tr_status r2 ∈ ["skipped"; "failed"]).
Proof.
  intros Hnd. destruct (fire_one_spec coerce croniter zone uuid a as_of enq w)
    as (r & w' & Hf & Hs & Hrows & _ & Htaken).
  exists r, w'. split; [done|].
  assert (slot_of a as_of ∈ slots w') as Hin.
  { rewrite Hs. case_decide; [by rewrite app_nil_r|]. apply elem_of_app. right. left. }
  split_and!; try done.
  - rewrite Hs. case_decide as Hd; [by rewrite app_nil_r|]. apply NoDup_app.
    split_and!; [done| |apply NoDup_singleton]. intros x Hx ->%list_elem_of_singleton. done.
  - intros x. rewrite Hs. case_decide as Hd; [rewrite app_nil_r; naive_solver|].
    by rewrite elem_of_app, list_elem_of_singleton.
  - intros w2 enq2 Hsub. destruct (fire_one_spec coerce croniter zone uuid a as_of enq2 w2)
      as (r2 & w2' & Hf2 & _ & _ & _ & Htaken2).
    exists r2, w2'. split; [done|]. apply Htaken2. by apply Hsub.
Qed.

(** ** An evaluated tick *)

Definition ex_run (id : string) : WorkflowRun :=
  {| wr_id := id; wr_tenant_id := "tenant"; wr_automation_id := Some "auto";
     wr_workflow_definition_id := "d"; wr_workflow_version_id := "v"; wr_brand_id := None;
     wr_trigger_type := SCHEDULE; wr_trigger_payload := []; wr_status := RUN_RUNNING;
     wr_context_snapshot := []; wr_started_at := Some 1; wr_finished_at := None;
     wr_error_message := None; wr_correlation_id := None |}.
Definition ex_start (req : StartRequest) : M Store WorkflowRun :=
  _ ← modify (λ st, st <| st_runs ::= λ l, l ++ [ex_run (sr_correlation_id req)] |>);
  mret (ex_run (sr_correlation_id req)).
#[local] Instance ex_starter : RunStarter := { start_run := ex_start; start_run_occurrences := λ _ _, eq_refl }.

Definition ex_auto : Automation :=
  {| au_id := "auto"; au_tenant_id := "tenant"; au_workflow_definition_id := "d"; au_workflow_version_id := "v";
     au_brand_id := "b"; au_name := "A"; au_enabled := true; au_trigger_type := SCHEDULE;
     au_trigger_config := [("kind", JStr "interval"); ("every_seconds", JInt 90)];
     au_timezone := "UTC"; au_next_run_at := Some 1000000000; au_last_run_at := None;
     au_deleted_at := None; au_settings := []; au_webhook_endpoint_id := None |}.
Definition ex_world : World := {| w_store := empty_store; w_automations := [ex_auto]; w_targets := [] |}.
Definition ex_tick (w : World) : result (list TickResult) * World :=
  tick ex_coerce no_cron ex_zone (λ n, "uuid") 1000000500 ∅ 50 true w.

Example tick_starts_and_moves_on :
  (λ r, tr_status r) <$> default [] (match (ex_tick ex_world).1 with Ok l => Some l | _ => None end)
    = ["started"] ∧
  au_next_run_at <$> w_automations (ex_tick ex_world).2 = [Some 1090000000] ∧
  st_tasks (w_store (ex_tick ex_world).2) =
    [AdvanceRunTask "tenant" "sched:auto:1970-01-01T00:16:40Z" 0].
Proof. vm_compute. done. Qed.

Lemma fire_one_at_most_once_witness :
  ∃ r w', fire_one ex_coerce no_cron ex_zone (λ n, "uuid") ex_auto 1000000500 true ex_world = (Ok r, w') ∧
    ("auto", "1970-01-01T00:16:40Z") ∈ slots w'.
Proof.
  destruct (fire_one_at_most_once ex_coerce no_cron ex_zone (λ n, "uuid") ex_auto 1000000500 true ex_world)
    as (r & w' & H1 & _ & H2 & _).
  - constructor.
  - exists r, w'. split; [exact H1|exact H2].
Defined.

(** The slot key of an instant identifies its second, and an interval
    automation is always moved to another slot than the one it just handled. *)
Theorem slot_key_spec coerce croniter zone a s s' :
  (occurrence_key s = occurrence_key s' ↔ s / 1000000 = s' / 1000000) ∧
  (∀ n t, parse_trigger_config coerce (au_trigger_config a) = Ok (IntervalTriggerConfig n) →
     compute_next coerce croniter zone a s = Ok t → occurrence_key t ≠ occurrence_key s).
Proof.
  split; [apply Calendar.strftime_utc_inj|]. intros n t Hp Hc E.
  pose proof (interval_bounds _ _ _ Hp) as Hn. apply Calendar.strftime_utc_inj in E.
  unfold compute_next, mbind, result_bind in Hc. rewrite Hp in Hc.
  unfold compute_next_run_at, mbind, result_bind in Hc. destruct (resolve_tz _ _); [|done].
  injection Hc as <-. rewrite Z.add_comm, Z.mul_comm in E.
  replace (1000000 * n + s) with (s + n * 1000000) in E by lia.
  rewrite Z.div_add in E by done. lia.
Qed.

End Scheduler.
