(* ===== verification/Fanout.v ===== *)
(** * Fan-out iterations (engine_fanout.py)

    When a fan-out node succeeds, every node after it gets one READY row per
    item of its output, under an iteration key; an iteration that succeeds is
    carried on to the nodes after it, up to the merge that joins the items.
    [fresh n] is the n-th random id drawn for a new row. *)
From stdpp Require Import pretty.
From S2P Require Import Prelude PyStr Json Graph RunModels NodeIndex Ready Unlock.

Module Fanout.
Import Graph Models Ready Unlock.
Local Open Scope string_scope.
Local Open Scope list_scope.

(** ** Keys *)

(** [str(raw).strip()[:128]] when it is not blank *)
Definition key_text (v : json) : option string :=
  let text := PyStr.strip (Json.str v) in
  if PyStr.truthy text then Some (PyStr.take 128 text) else None.

(** The first usable field among [key], [id], [platform], [slug]. *)
Fixpoint key_field (fields : list string) (item : dict json) : option string :=
  match fields with
  | [] => None
  | f :: fields' =>
      match Json.getn f item with
      | JNull => key_field fields' item
      | raw => match key_text raw with Some k => Some k | None => key_field fields' item end
      end
  end.

Definition iteration_key_for_item (item : json) (index : nat) : string :=
  let by_index := "i" +:+ PyStr.of_Z (Z.of_nat index) in
  match item with
  | JObj o => default by_index (key_field ["key"; "id"; "platform"; "slug"] o)
  | JStr _ | JInt _ | JBool _ => default by_index (key_text item)
  | JNull | JArr _ => by_index
  end.

(** [f"{base}-{count}"[:128]] *)
Definition suffixed (base : string) (count : Z) : string :=
  PyStr.take 128 (base +:+ "-" +:+ PyStr.of_Z count).

Fixpoint unique_keys_from (index : nat) (seen : dict Z) (items : list json) : list (string * json) :=
  match items with
  | [] => []
  | item :: items' =>
      let base := iteration_key_for_item item index in
      let count := (default 0 (Dict.get base seen) + 1)%Z in
      let key := if (count =? 1)%Z then base else suffixed base count in
      (key, item) :: unique_keys_from (S index) (Dict.set base count seen) items'
  end.

Definition unique_iteration_keys (items : list json) : list (string * json) :=
  unique_keys_from 0 [] items.

(** [_seed_iteration_inputs] *)
Definition seed_iteration_inputs (item : json) (key fan_out_node_id : string) : dict json :=
  let payload := [("item", item); ("iteration_key", JStr key);
                  ("fan_out_node_id", JStr fan_out_node_id)] in
  match item with
  | JStr _ => Dict.set "text" item payload
  | JObj o => foldl (λ p kv, Dict.setdefault kv.1 kv.2 p) payload o
  | _ => payload
  end.

(** ** Rows *)

Section fanout.
Context (now : Z) (graph : WorkflowGraph) (tenant_id run_id : string) (fresh : nat → string).

(** The index, the number of ids drawn, and what the call returns. *)
Record FanState := { fs_rows : list WorkflowNodeRun; fs_next : nat; fs_out : list string }.

(** [placeholder.status = SKIPPED ...] on an unstarted placeholder. *)
Definition supersede (clear_error : bool) (r : WorkflowNodeRun) : WorkflowNodeRun :=
  let r := r <| nr_status := SKIPPED |> <| nr_finished_at := Some now |>
             <| nr_waiting_reason := Some "superseded_by_fan_out" |> in
  if clear_error then r <| nr_error_json := None |> else r.

Definition supersede_placeholder (clear_error : bool) (target_id : string)
    (l : list WorkflowNodeRun) : list WorkflowNodeRun :=
  match Index.get_iteration target_id "" l with
  | Some p => if not_started (nr_status p) then set_node (nr_id p) (supersede clear_error) l else l
  | None => l
  end.

Definition node_version (n : GraphNode) : Z := if (gn_version n =? 0)%Z then 1%Z else gn_version n.

(** [WorkflowNodeRun(..., status=READY, iteration_key=key, input_json=...)] *)
Definition iteration_row (n : nat) (graph_node : GraphNode) (target_id key : string)
    (input : dict json) : WorkflowNodeRun :=
  new_node_run (fresh n) tenant_id run_id target_id (gn_type graph_node) (node_version graph_node)
    READY key input.

(** [existing.status = READY; existing.input_json = {**..., **seed}] *)
Definition reseed (seed : dict json) (r : WorkflowNodeRun) : WorkflowNodeRun :=
  r <| nr_status := READY |> <| nr_input_json := Dict.update (nr_input_json r) seed |>.

(** One item for one successor. *)
Definition spawn_item (fan_out_node_id target_id : string) (graph_node : GraphNode)
    (st : FanState) (keyed : string * json) : FanState :=
  let seed := seed_iteration_inputs keyed.2 keyed.1 fan_out_node_id in
  match Index.get_iteration target_id keyed.1 (fs_rows st) with
  | Some existing =>
      {| fs_rows := if has_status PENDING existing
                    then set_node (nr_id existing) (reseed seed) (fs_rows st) else fs_rows st;
         fs_next := fs_next st;
         fs_out := fs_out st ++ [nr_id existing] |}
  | None =>
      let row := iteration_row (fs_next st) graph_node target_id keyed.1 seed in
      {| fs_rows := fs_rows st ++ [row]; fs_next := S (fs_next st);
         fs_out := fs_out st ++ [nr_id row] |}
  end.

(** One outgoing edge of the fan-out node. *)
Definition fan_out_edge (fan_out_node_id : string) (keyed : list (string * json))
    (st : FanState) (e : GraphEdge) : FanState :=
  match find_node (ge_target e) graph with
  | None => st
  | Some graph_node =>
      let l := supersede_placeholder true (ge_target e) (fs_rows st) in
      match keyed with
      | [] => {| fs_rows := (try_unlock_edges graph (successors graph (ge_target e)) l).2;
                 fs_next := fs_next st; fs_out := fs_out st |}
      | _ => foldl (spawn_item fan_out_node_id (ge_target e) graph_node)
               {| fs_rows := l; fs_next := fs_next st; fs_out := fs_out st |} keyed
      end
  end.

(** The ids of the rows created or found, in order. *)
Definition materialize_fan_out_success (fan_out_node_id : string) (output : dict json)
    (next : nat) (l : list WorkflowNodeRun) : FanState :=
  let items := match Json.getn "items" output with JArr items => items | _ => [] end in
  foldl (fan_out_edge fan_out_node_id (unique_iteration_keys items))
    {| fs_rows := l; fs_next := next; fs_out := [] |} (successors graph fan_out_node_id).

(** One outgoing edge of a node whose iteration succeeded. *)
Definition iterate_edge (iteration_key : string) (output : dict json) (st : FanState)
    (e : GraphEdge) : FanState :=
  let target_id := ge_target e in
  match find_node target_id graph with
  | None => st
  | Some graph_node =>
      let primary := Index.get target_id (fs_rows st) in
      let is_merge := bool_decide (gn_type graph_node = "merge") ||
        match primary with Some p => bool_decide (nr_node_type p = "merge") | None => false end in
      if is_merge then
        let '(u, l) := try_unlock graph target_id (fs_rows st) in
        {| fs_rows := l; fs_next := fs_next st; fs_out := fs_out st ++ u |}
      else
        match Index.get_iteration target_id iteration_key (fs_rows st) with
        | Some existing =>
            if has_status PENDING existing
            then {| fs_rows := set_node (nr_id existing) mark_ready (fs_rows st);
                    fs_next := fs_next st; fs_out := fs_out st ++ [target_id] |}
            else st
        | None =>
            let l := supersede_placeholder false target_id (fs_rows st) in
            let input := [("iteration_key", JStr iteration_key); ("upstream", JObj output)] in
            {| fs_rows := l ++ [iteration_row (fs_next st) graph_node target_id iteration_key input];
               fs_next := S (fs_next st);
               fs_out := fs_out st ++ [target_id] |}
        end
  end.

(** The ids of the nodes unlocked, in order. *)
Definition ensure_downstream_iteration (source_node_id iteration_key : string) (output : dict json)
    (next : nat) (l : list WorkflowNodeRun) : FanState :=
  let start := {| fs_rows := l; fs_next := next; fs_out := [] |} in
  if negb (PyStr.truthy iteration_key) then start
  else foldl (iterate_edge iteration_key output) start (successors graph source_node_id).

(** ** The rows of a key *)

Lemma get_iteration_None t key l :
  Index.get_iteration t key l = None ↔ ∀ r, r ∈ l → nr_node_id r = t → nr_iteration_key r ≠ key.
Proof.
  unfold Index.get_iteration. rewrite find_None_Forall, Forall_forall. split; intros H r.
  - intros Hr Ht. specialize (H r). rewrite Index.elem_of_bucket, bool_decide_eq_false in H. auto.
  - rewrite Index.elem_of_bucket, bool_decide_eq_false. intros [??]. auto.
Qed.

Lemma get_iteration_Some t key l r :
  Index.get_iteration t key l = Some r → r ∈ l ∧ nr_node_id r = t ∧ nr_iteration_key r = key.
Proof.
  intros [[??]%Index.elem_of_bucket ?%bool_decide_eq_true]%find_Some_elem. done.
Qed.

(** A row per node and iteration key: the unique constraint of the table. *)
Definition slot (r : WorkflowNodeRun) : string * string := (nr_node_id r, nr_iteration_key r).
Definition unique_slots (l : list WorkflowNodeRun) : Prop := NoDup (slot <$> l).

Lemma slots_set_node i f l : Index.keeps_keys f → slot <$> set_node i f l = slot <$> l.
Proof.
  intros Hf. unfold set_row. rewrite <- list_fmap_compose. apply list_fmap_ext. intros ? r _. simpl.
  case_bool_decide; [|done]. unfold slot. by destruct (Hf r) as (_ & -> & ->).
Qed.

Lemma unique_slots_add t key l r : slot r = (t, key) →
  Index.get_iteration t key l = None → unique_slots l → unique_slots (l ++ [r]).
Proof.
  unfold unique_slots. intros Hs Hn Hl. rewrite fmap_app. apply NoDup_app. split_and!; [done| |apply NoDup_singleton].
  intros x [y [-> Hy]]%list_elem_of_fmap Hx. cbn in Hx. rewrite Hs in Hx.
  apply list_elem_of_singleton in Hx. injection Hx as H1 H2.
  rewrite get_iteration_None in Hn. by apply (Hn y).
Qed.

Lemma supersede_keeps b : Index.keeps_keys (supersede b).
Proof. intros r. by destruct b. Qed.
Lemma reseed_keeps seed : Index.keeps_keys (reseed seed).
Proof. done. Qed.

Lemma slots_supersede b t l : slot <$> supersede_placeholder b t l = slot <$> l.
Proof.
  unfold supersede_placeholder. destruct (Index.get_iteration t "" l) as [p|]; [|done].
  destruct (not_started _); [|done]. apply slots_set_node, supersede_keeps.
Qed.

Lemma step_slots l l' : rtc (step now graph) l l' → slot <$> l' = slot <$> l.
Proof. induction 1 as [|l l' l'' H _ IH]; [done|]. rewrite IH. by destruct H; apply slots_set_node. Qed.

Lemma spawn_item_slots f t n st k :
  unique_slots (fs_rows st) → unique_slots (fs_rows (spawn_item f t n st k)).
Proof.
  unfold spawn_item. destruct (Index.get_iteration t k.1 (fs_rows st)) as [r|] eqn:E; cbn [fs_rows].
  - destruct (has_status PENDING r); [|done]. unfold unique_slots. by rewrite slots_set_node.
  - by apply (unique_slots_add t k.1).
Qed.

Lemma fan_out_edge_slots f keyed st e :
  unique_slots (fs_rows st) → unique_slots (fs_rows (fan_out_edge f keyed st e)).
Proof.
  unfold fan_out_edge. intros H. destruct (find_node (ge_target e) graph) as [n|]; [|done].
  assert (unique_slots (supersede_placeholder true (ge_target e) (fs_rows st))) as H1
    by (unfold unique_slots; by rewrite slots_supersede).
  destruct keyed as [|k keyed].
  - cbn [fs_rows]. unfold unique_slots. by rewrite (step_slots _ _ (try_unlock_edges_step _ _ _ _)).
  - apply (foldl_keeps (λ st, unique_slots (fs_rows st))); [apply spawn_item_slots|done].
Qed.

Lemma iterate_edge_slots key output st e :
  unique_slots (fs_rows st) → unique_slots (fs_rows (iterate_edge key output st e)).
Proof.
  unfold iterate_edge. intros H. destruct (find_node (ge_target e) graph) as [n|]; [|done].
  destruct (_ || _).
  - pose proof (try_unlock_step now graph (ge_target e) (fs_rows st)) as Hs.
    destruct (try_unlock _ _ _) as [u l]. cbn [fs_rows snd] in *. unfold unique_slots.
    by rewrite (step_slots _ _ Hs).
  - destruct (Index.get_iteration _ key (fs_rows st)) as [r|] eqn:E.
    + destruct (has_status PENDING r); [|done]. cbn [fs_rows]. unfold unique_slots.
      by rewrite slots_set_node.
    + cbn [fs_rows]. apply (unique_slots_add (ge_target e) key).
      * done.
      * rewrite get_iteration_None in E |- *. intros r Hr Ht Hk.
        assert (slot r ∈ slot <$> fs_rows st) as Hin.
        { rewrite <- (slots_supersede false (ge_target e)). by apply list_elem_of_fmap_2. }
        apply list_elem_of_fmap in Hin as (r' & [= H1 H2] & Hr'). apply (E r'); congruence.
      * unfold unique_slots. by rewrite slots_supersede.
Qed.

(** ** What the operations do to the index *)

(** Assignments to an unstarted row, and new rows under the next id. *)
Inductive fan_step : FanState → FanState → Prop :=
  | fan_set i f l next out out' :
      (∀ x, nr_id (f x) = nr_id x) → (∃ x, x ∈ l ∧ nr_id x = i ∧ not_started (nr_status x) = true) →
      fan_step {| fs_rows := l; fs_next := next; fs_out := out |}
               {| fs_rows := set_node i f l; fs_next := next; fs_out := out' |}
  | fan_append new l next out out' :
      nr_id new = fresh next → nr_tenant_id new = tenant_id → nr_workflow_run_id new = run_id →
      fan_step {| fs_rows := l; fs_next := next; fs_out := out |}
               {| fs_rows := l ++ [new]; fs_next := S next; fs_out := out' |}
  | fan_output l next out out' :
      fan_step {| fs_rows := l; fs_next := next; fs_out := out |}
               {| fs_rows := l; fs_next := next; fs_out := out' |}.

Lemma has_PENDING_not_started x : has_status PENDING x = true → not_started (nr_status x) = true.
Proof. unfold has_status. by intros ->%bool_decide_eq_true. Qed.

Lemma unlock_fan_steps l l' next out out' :
  rtc (step now graph) l l' →
  rtc fan_step {| fs_rows := l; fs_next := next; fs_out := out |}
               {| fs_rows := l'; fs_next := next; fs_out := out' |}.
Proof.
  intros Hs. induction Hs as [|l l1 l' H1 _ IH]; [apply rtc_once, fan_output|].
  eapply rtc_l; [|exact IH]. destruct H1 as [t x Hx Hp _|t x Hx Hn]; apply (fan_set _ _ _ _ out out); try done;
    exists x; apply Index.index_get_elem in Hx as [? _]; rewrite ?Hp; done.
Qed.

Lemma supersede_fan_steps b t l next out :
  rtc fan_step {| fs_rows := l; fs_next := next; fs_out := out |}
               {| fs_rows := supersede_placeholder b t l; fs_next := next; fs_out := out |}.
Proof.
  unfold supersede_placeholder. destruct (Index.get_iteration t "" l) as [p|] eqn:E; [|done].
  destruct (not_started (nr_status p)) eqn:Hs; [|done]. apply rtc_once, fan_set.
  - intros x. apply (supersede_keeps b x).
  - exists p. by apply get_iteration_Some in E as [? _].
Qed.

Lemma spawn_item_steps f t n st k : rtc fan_step st (spawn_item f t n st k).
Proof.
  destruct st as [l next out]. unfold spawn_item. cbn [fs_rows fs_next fs_out]. apply rtc_once.
  destruct (Index.get_iteration t k.1 l) as [e|] eqn:E; [|by apply fan_append].
  destruct (has_status PENDING e) eqn:Hp; [|apply fan_output]. apply fan_set; [done|].
  exists e. apply get_iteration_Some in E as [? _]. split_and!; [done|done|by apply has_PENDING_not_started].
Qed.

(** A loop of steps is steps. *)
Lemma foldl_steps {A} (f : FanState → A → FanState) xs st :
  (∀ st x, rtc fan_step st (f st x)) → rtc fan_step st (foldl f st xs).
Proof.
  intros Hf. revert st. induction xs as [|x xs IH]; intros st; [done|]. cbn.
  etransitivity; [apply Hf|apply IH].
Qed.

Lemma materialize_steps f output next l :
  rtc fan_step {| fs_rows := l; fs_next := next; fs_out := [] |} (materialize_fan_out_success f output next l).
Proof.
  unfold materialize_fan_out_success. apply foldl_steps. intros [l' next' out'] e. unfold fan_out_edge.
  destruct (find_node _ graph) as [n|]; [|done]. cbn [fs_rows fs_next fs_out].
  etransitivity; [apply (supersede_fan_steps true (ge_target e))|].
  destruct (unique_iteration_keys _) as [|k ks].
  - apply unlock_fan_steps, try_unlock_edges_step.
  - apply foldl_steps. intros. apply spawn_item_steps.
Qed.

Lemma ensure_steps src key output next l :
  rtc fan_step {| fs_rows := l; fs_next := next; fs_out := [] |}
    (ensure_downstream_iteration src key output next l).
Proof.
  unfold ensure_downstream_iteration. destruct (negb _); [done|]. apply foldl_steps.
  intros [l' next' out'] e. unfold iterate_edge. destruct (find_node _ graph) as [n|]; [|done].
  cbn [fs_rows fs_next fs_out]. destruct (_ || _).
  - pose proof (try_unlock_step now graph (ge_target e) l') as Hs. destruct (try_unlock _ _ _) as [u l1].
    by apply unlock_fan_steps.
  - destruct (Index.get_iteration _ key l') as [x|] eqn:E.
    + destruct (has_status PENDING x) eqn:Hp; [|done]. apply rtc_once, fan_set; [done|].
      exists x. apply get_iteration_Some in E as [? _].
      split_and!; [done|done|by apply has_PENDING_not_started].
    + eapply rtc_r; [apply (supersede_fan_steps false (ge_target e))|by apply fan_append].
Qed.

(** Ids stay distinct and those still to be drawn stay new; the rows added
    belong to the run and carry drawn ids; started rows are left alone. *)
Definition well_numbered (st : FanState) : Prop :=
  NoDup (nr_id <$> fs_rows st) ∧ ∀ n, (fs_next st ≤ n)%nat → fresh n ∉ nr_id <$> fs_rows st.

Lemma steps_well_numbered st st' :
  Inj (=) (=) fresh → rtc fan_step st st' → well_numbered st → well_numbered st'.
Proof.
  intros Hinj Hs. induction Hs as [|st st1 st' H1 _ IH]; [done|]. intros [Hnd Hfr]. apply IH.
  unfold well_numbered. destruct H1 as [i f l next out out' Hf _|new l next out out' Hid _ _|]; [| |done];
    cbn [fs_rows fs_next] in *; [by rewrite set_row_keys|].
  rewrite fmap_app. split.
  - apply NoDup_app. split_and!; [done| |apply NoDup_singleton].
    intros y Hy Hy'. apply list_elem_of_singleton in Hy'. cbn in Hy'. subst y. rewrite Hid in Hy.
    by apply (Hfr next).
  - intros n Hn. rewrite not_elem_of_app. split; [apply Hfr; lia|]. cbn. rewrite Hid, list_elem_of_singleton.
    intros Heq%(inj fresh). lia.
Qed.

Lemma steps_next_mono st st' : rtc fan_step st st' → (fs_next st ≤ fs_next st')%nat.
Proof.
  induction 1 as [|st st1 st' H1 _ IH]; [done|]. etransitivity; [|exact IH]. destruct H1; cbn; lia.
Qed.

Lemma steps_rows st st' x : rtc fan_step st st' → x ∈ fs_rows st' →
  nr_id x ∈ nr_id <$> fs_rows st ∨ ∃ n, (fs_next st ≤ n)%nat ∧ nr_id x = fresh n.
Proof.
  intros Hs Hx. assert (nr_id x ∈ nr_id <$> fs_rows st') as Hid by by apply list_elem_of_fmap_2.
  revert Hid. generalize (nr_id x). clear x Hx. intros i.
  induction Hs as [|st st1 st' H1 _ IH]; intros Hi; [by left|].
  destruct (IH Hi) as [Hin|(n & Hn & ->)].
  - destruct H1 as [j f l next out out' Hf _|new l next out out' Hid _ _|l next out out']; cbn [fs_rows fs_next] in *.
    + left. by rewrite set_row_keys in Hin.
    + rewrite fmap_app in Hin. apply elem_of_app in Hin as [?|Hin%list_elem_of_singleton]; [by left|].
      right. exists next. by rewrite Hin.
    + by left.
  - right. exists n. split; [|done]. etransitivity; [|exact Hn]. apply steps_next_mono. by apply rtc_once.
Qed.

(** The index keeps the started row [r] under its id. *)
Definition holds_started (r : WorkflowNodeRun) (st : FanState) : Prop :=
  well_numbered st ∧ node_row (nr_id r) (fs_rows st) = Some r ∧ not_started (nr_status r) = false.

Lemma steps_hold r st st' :
  Inj (=) (=) fresh → rtc fan_step st st' → holds_started r st → holds_started r st'.
Proof.
  intros Hinj Hs. induction Hs as [|st st1 st' H1 _ IH]; [done|]. intros (Hw & Hr & Hst). apply IH.
  split_and!; [by apply (steps_well_numbered st); [|apply rtc_once|]| |done].
  destruct H1 as [i f l next out out' Hf (x & Hx & Hi & Hs)|new l next out out' Hid _ _|];
    cbn [fs_rows] in *; [| |done].
  - rewrite row_by_set_row by done. destruct (decide (nr_id r = i)) as [Hri|]; [|done]. exfalso.
    pose proof (row_by_elem nr_id (nr_id r) l x (proj1 Hw) Hx ltac:(congruence)) as Hx'. congruence.
  - unfold row_by in *. clear -Hr. induction l as [|y l IHl]; [done|]. simpl in *.
    destruct (bool_decide _); [done|by apply IHl].
Qed.

(** ** One row per item *)

Definition new_rows (f t : string) (n : GraphNode) (next : nat) (keyed : list (string * json))
    : list WorkflowNodeRun :=
  imap (λ i k, iteration_row (next + i) n t k.1 (seed_iteration_inputs k.2 k.1 f)) keyed.

(** The items whose key did not come up before. *)
Fixpoint first_of_keys (seen : list string) (keyed : list (string * json)) : list (string * json) :=
  match keyed with
  | [] => []
  | k :: keyed => if bool_decide (k.1 ∈ seen) then first_of_keys seen keyed
                  else k :: first_of_keys (k.1 :: seen) keyed
  end.

Lemma first_of_keys_keys k seen keyed : k ∈ keyed.*1 → k ∉ seen → k ∈ (first_of_keys seen keyed).*1.
Proof.
  revert seen. induction keyed as [|x keyed IH]; intros seen; cbn; [by intros ?%not_elem_of_nil|].
  intros Hk Hs. case_bool_decide as Hx.
  - apply elem_of_cons in Hk as [->|Hk]; [done|by apply IH].
  - destruct (decide (k = x.1)) as [->|Hne]; [by left|]. right.
    apply elem_of_cons in Hk as [?|Hk]; [done|]. apply IH; [done|set_solver].
Qed.

Lemma first_of_keys_distinct seen keyed :
  NoDup keyed.*1 → (∀ k, k ∈ keyed.*1 → k ∉ seen) → first_of_keys seen keyed = keyed.
Proof.
  revert seen. induction keyed as [|x keyed IH]; intros seen; cbn; [done|].
  intros [Hx Hnd]%NoDup_cons Hs. rewrite bool_decide_eq_false_2 by (apply Hs; left). f_equal. apply IH; [done|].
  intros k Hk. assert (k ≠ x.1) by (intros ->; done). specialize (Hs k ltac:(by right)). set_solver.
Qed.

Lemma first_of_keys_sub k seen keyed : k ∈ (first_of_keys seen keyed).*1 → k ∈ keyed.*1.
Proof.
  revert seen. induction keyed as [|x keyed IH]; intros seen; cbn; [done|].
  case_bool_decide; [right; by eapply IH|]. intros [->|?]%elem_of_cons; [by left|right; by eapply IH].
Qed.

(** There is a row of the slot, and none is PENDING. *)
Definition settled_slot (t k : string) (rows : list WorkflowNodeRun) : Prop :=
  (∃ r, r ∈ rows ∧ nr_node_id r = t ∧ nr_iteration_key r = k) ∧
  ∀ r, r ∈ rows → nr_node_id r = t → nr_iteration_key r = k → nr_status r ≠ PENDING.

Lemma settled_slot_found t k rows :
  settled_slot t k rows → ∃ r, Index.get_iteration t k rows = Some r ∧ nr_status r ≠ PENDING.
Proof.
  intros [(r & Hr & Ht & Hk) Hall]. destruct (Index.get_iteration t k rows) as [r'|] eqn:E.
  - exists r'. split; [done|]. apply get_iteration_Some in E as (? & ? & ?). by apply Hall.
  - rewrite get_iteration_None in E. by destruct (E r).
Qed.

(** Each of the ids is that of the row of its item's key. *)
Definition row_ids (t : string) (rows : list WorkflowNodeRun) (keyed : list (string * json)) (ids : list string) : Prop :=
  Forall2 (λ k i, ∃ r, r ∈ rows ∧ nr_node_id r = t ∧ nr_iteration_key r = k.1 ∧ nr_id r = i) keyed ids.

Lemma spawn_new f t n seen keyed st :
  (∀ k, k ∈ keyed.*1 → k ∉ seen → Index.get_iteration t k (fs_rows st) = None) →
  (∀ k, k ∈ seen → settled_slot t k (fs_rows st)) →
  let st' := foldl (spawn_item f t n) st keyed in
  let firsts := first_of_keys seen keyed in
  fs_rows st' = fs_rows st ++ new_rows f t n (fs_next st) firsts ∧
  fs_next st' = fs_next st + length firsts ∧
  ∃ ids, fs_out st' = fs_out st ++ ids ∧ row_ids t (fs_rows st') keyed ids.
Proof.
  revert seen st. induction keyed as [|k keyed IH]; intros seen st Hnew Hold; cbv zeta.
  { cbn. rewrite app_nil_r, Nat.add_0_r. split_and!; [done..|]. exists []. rewrite app_nil_r. by split; [|constructor]. }
  rewrite fmap_cons in Hnew. cbn [foldl first_of_keys]. case_bool_decide as Hk.
  - destruct (settled_slot_found _ _ _ (Hold _ Hk)) as (r & Hr & Hs).
    assert (spawn_item f t n st k =
      {| fs_rows := fs_rows st; fs_next := fs_next st; fs_out := fs_out st ++ [nr_id r] |}) as ->.
    { unfold spawn_item. rewrite Hr. unfold has_status. by rewrite bool_decide_eq_false_2 by done. }
    destruct (IH seen {| fs_rows := fs_rows st; fs_next := fs_next st; fs_out := fs_out st ++ [nr_id r] |})
      as (H1 & H2 & ids & H3 & H4); [|done|].
    { intros k' Hk'. apply Hnew. by right. }
    cbn [fs_rows fs_next fs_out] in *. rewrite H1 in H4 |- *. split_and!; [done..|].
    exists (nr_id r :: ids). rewrite H3, <- app_assoc. split; [done|].
    constructor; [|done]. apply get_iteration_Some in Hr as (? & ? & ?). exists r. cbn. set_solver.
  - set (row := iteration_row (fs_next st) n t k.1 (seed_iteration_inputs k.2 k.1 f)).
    assert (spawn_item f t n st k =
      {| fs_rows := fs_rows st ++ [row]; fs_next := S (fs_next st); fs_out := fs_out st ++ [nr_id row] |}) as ->.
    { unfold spawn_item. by rewrite Hnew by (done || by left). }
    destruct (IH (k.1 :: seen) {| fs_rows := fs_rows st ++ [row]; fs_next := S (fs_next st);
        fs_out := fs_out st ++ [nr_id row] |}) as (H1 & H2 & ids & H3 & H4); cbn [fs_rows].
    { intros k' Hk' [Hne Hs]%not_elem_of_cons. specialize (Hnew k' ltac:(by right) Hs).
      rewrite get_iteration_None in Hnew |- *. intros r [Hr|Hr]%elem_of_app; [by apply Hnew|].
      apply list_elem_of_singleton in Hr as ->. intros _ E. by apply Hne. }
    { intros k' Hk'. destruct (decide (k' = k.1)) as [->|Hne]; split.
      - exists row. set_solver.
      - specialize (Hnew k.1 ltac:(by left) Hk). rewrite get_iteration_None in Hnew.
        intros r [Hr|Hr]%elem_of_app Ht E; [by destruct (Hnew r Hr Ht)|]. by apply list_elem_of_singleton in Hr as ->.
      - apply elem_of_cons in Hk' as [?|Hk']; [done|]. destruct (Hold k' Hk') as [(r & ? & ?) _]. exists r. set_solver.
      - apply elem_of_cons in Hk' as [?|Hk']; [done|]. destruct (Hold k' Hk') as [_ Hall].
        intros r [Hr|Hr]%elem_of_app Ht E; [by apply Hall|]. apply list_elem_of_singleton in Hr as ->. by destruct Hne. }
    cbn [fs_rows fs_next fs_out] in *. split_and!.
    + rewrite H1. unfold new_rows. rewrite imap_cons, Nat.add_0_r, <- app_assoc. cbn [app]. do 2 f_equal.
      apply imap_ext. intros i x _. simpl. by rewrite Nat.add_succ_r.
    + rewrite H2. cbn [length]. lia.
    + exists (nr_id row :: ids). rewrite H3, <- app_assoc. split; [done|]. constructor; [|done].
      exists row. rewrite H1. cbn. set_solver.
Qed.

(** Rows that are there and not PENDING are left alone. *)
Lemma spawn_again f t n keyed st :
  (∀ k, k ∈ keyed.*1 → ∃ r, Index.get_iteration t k (fs_rows st) = Some r ∧ nr_status r ≠ PENDING) →
  fs_rows (foldl (spawn_item f t n) st keyed) = fs_rows st ∧
  fs_next (foldl (spawn_item f t n) st keyed) = fs_next st.
Proof.
  revert st. induction keyed as [|k keyed IH]; intros st H; [done|]. cbn [foldl].
  destruct (H k.1) as (r & Hr & Hs); [left|].
  assert (∃ out, spawn_item f t n st k =
    {| fs_rows := fs_rows st; fs_next := fs_next st; fs_out := out |}) as [out ->].
  { unfold spawn_item. rewrite Hr. unfold has_status. rewrite bool_decide_eq_false_2 by done. by eexists. }
  destruct (IH {| fs_rows := fs_rows st; fs_next := fs_next st; fs_out := out |}) as [-> ->];
    [|done]. intros k' Hk'. apply H. by right.
Qed.

Lemma supersede_again b t l :
  (∀ r, r ∈ l → nr_node_id r = t → nr_iteration_key r = "" → not_started (nr_status r) = false) →
  supersede_placeholder b t l = l.
Proof.
  intros H. unfold supersede_placeholder. destruct (Index.get_iteration t "" l) as [p|] eqn:E; [|done].
  apply get_iteration_Some in E as (? & ? & ?). by rewrite H.
Qed.

Lemma supersede_done b t l r :
  unique_slots l → r ∈ supersede_placeholder b t l → nr_node_id r = t → nr_iteration_key r = "" →
  not_started (nr_status r) = false.
Proof.
  intros Hu Hr Ht Hk. unfold supersede_placeholder in Hr.
  destruct (Index.get_iteration t "" l) as [p|] eqn:Hp.
  2: { rewrite get_iteration_None in Hp. by apply (Hp r) in Hk. }
  pose proof (get_iteration_Some _ _ _ _ Hp) as (Hpl & Hpt & Hpk).
  assert (∀ r0, r0 ∈ l → slot r0 = slot r → r0 = p) as Heq.
  { intros r0 H0 Hs. apply (NoDup_fmap_inj_in slot l); [done..|]. rewrite Hs. unfold slot. congruence. }
  destruct (not_started (nr_status p)) eqn:Hn.
  - apply list_elem_of_fmap in Hr as (r0 & -> & H0).
    assert (r0 = p) as ->.
    { apply Heq; [done|]. unfold slot. case_bool_decide; [|done].
      by destruct (supersede_keeps b r0) as (_ & -> & ->). }
    rewrite bool_decide_eq_true_2 by done. by destruct b.
  - by rewrite (Heq r Hr eq_refl).
Qed.

(** ** Keys: lemmas *)

Definition bases_from (index : nat) (items : list json) : list string :=
  imap (λ i x, iteration_key_for_item x (index + i)) items.

Lemma bases_from_cons index x items :
  bases_from index (x :: items) = iteration_key_for_item x index :: bases_from (S index) items.
Proof.
  unfold bases_from. rewrite imap_cons, Nat.add_0_r. f_equal. apply imap_ext. intros i y _. simpl.
  f_equal. lia.
Qed.

Lemma take_truthy n s : n ≠ 0 → PyStr.truthy s = true → PyStr.truthy (PyStr.take n s) = true.
Proof. destruct n; [done|]. by destruct s. Qed.

Lemma key_text_truthy v k : key_text v = Some k → PyStr.truthy k = true.
Proof. unfold key_text. destruct (PyStr.truthy _) eqn:E; [|done]. intros <-%(inj Some). by apply take_truthy. Qed.

Lemma key_field_truthy fs o k : key_field fs o = Some k → PyStr.truthy k = true.
Proof.
  induction fs as [|f fs IH]; [done|]. cbn [key_field].
  destruct (Json.getn f o) eqn:E; [done|..];
    (destruct (key_text _) eqn:Ek; [intros [= <-]; by eapply key_text_truthy|done]).
Qed.

Lemma iteration_key_truthy x i : PyStr.truthy (iteration_key_for_item x i) = true.
Proof.
  unfold iteration_key_for_item. destruct x as [|b|z|s|l|o]; try done.
  4: destruct (key_field _ o) eqn:E; [by eapply key_field_truthy|done].
  all: destruct (key_text _) eqn:E; [by eapply key_text_truthy|done].
Qed.

Lemma suffixed_truthy b n : PyStr.truthy (suffixed b n) = true.
Proof. unfold suffixed. apply take_truthy; [done|]. by destruct b. Qed.

(** The n-th key of a base. *)
Definition nth_key (base : string) (n : Z) : string := if (n =? 1)%Z then base else suffixed base n.

Lemma unique_keys_from_items index seen items : (unique_keys_from index seen items).*2 = items.
Proof.
  revert index seen. induction items as [|x items IH]; intros index seen; [done|]. simpl. by rewrite IH.
Qed.

Lemma unique_keys_truthy index seen items k :
  k ∈ (unique_keys_from index seen items).*1 → PyStr.truthy k = true.
Proof.
  revert index seen. induction items as [|x items IH]; intros index seen; [intros H; by apply not_elem_of_nil in H|].
  simpl. intros [->|H]%elem_of_cons; [|by eapply IH].
  case_match; [apply iteration_key_truthy|apply suffixed_truthy].
Qed.

Lemma unique_keys_nth index seen items k :
  k ∈ (unique_keys_from index seen items).*1 →
  ∃ b n, k = nth_key b n ∧ b ∈ bases_from index items ∧
    (default 0 (Dict.get b seen) < n <= default 0 (Dict.get b seen) + Z.of_nat (length items))%Z.
Proof.
  revert index seen. induction items as [|x items IH]; intros index seen; [intros H; by apply not_elem_of_nil in H|].
  rewrite bases_from_cons. simpl. set (b0 := iteration_key_for_item x index).
  intros [->|H]%elem_of_cons.
  - exists b0, (default 0 (Dict.get b0 seen) + 1)%Z. split_and!; [done|left|lia|lia].
  - apply IH in H as (b & n & -> & Hb & Hn). rewrite Dict.get_set in Hn.
    exists b, n. split; [done|]. split; [by right|]. case_decide; subst; simpl in Hn; lia.
Qed.

Lemma unique_keys_NoDup index seen items (ok : string → Z → Prop) :
  (∀ b n, b ∈ bases_from index items →
     (default 0 (Dict.get b seen) < n <= default 0 (Dict.get b seen) + Z.of_nat (length items))%Z → ok b n) →
  (∀ b b' n n', ok b n → ok b' n' → nth_key b n = nth_key b' n' → b = b' ∧ n = n') →
  NoDup (unique_keys_from index seen items).*1.
Proof.
  intros Hok Hinj. revert index seen Hok.
  induction items as [|x items IH]; intros index seen Hok; simpl; [constructor|].
  rewrite bases_from_cons in Hok. set (b0 := iteration_key_for_item x index) in *.
  constructor.
  - intros (b & n & E & Hb & Hn)%unique_keys_nth. fold (nth_key b0 (default 0 (Dict.get b0 seen) + 1)%Z) in E.
    apply Hinj in E as [E1 E2].
    + rewrite <- E1, Dict.get_set_eq in Hn. simpl in Hn. lia.
    + apply Hok; [left|]. simpl. lia.
    + apply Hok; [by right|]. rewrite Dict.get_set in Hn. case_decide; subst; simpl in *; lia.
  - apply IH. intros b n Hb Hn. apply Hok; [by right|]. rewrite Dict.get_set in Hn.
    case_decide; subst; simpl in *; lia.
Qed.
End fanout.

Example keys_ex : unique_iteration_keys [JStr "x"; JObj [("id", JInt 7)]; JStr " x "; JNull] =
  [("x", JStr "x"); ("7", JObj [("id", JInt 7)]); ("x-2", JStr " x "); ("i3", JNull)].
Proof. vm_compute. reflexivity. Qed.

(** ** Correctness *)

(** The keys the items have before suffixes are added. *)
Definition item_bases (items : list json) : list string := bases_from 0 items.

(** No key looks like another key with a suffix, and the suffixes fit. *)
Definition suffixes_free (items : list json) : Prop :=
  ∀ b b' n, b ∈ item_bases items → b' ∈ item_bases items → (2 <= n <= Z.of_nat (length items))%Z →
    (String.length (b' +:+ "-" +:+ PyStr.of_Z n) ≤ 128)%nat ∧ b ≠ suffixed b' n.

(** The keys of a fan-out are never blank and go with the items in their
    order; they are pairwise distinct when no item's own key looks like another
    one with a number suffix and the suffixes fit in 128 characters. *)
Theorem unique_iteration_keys_distinct items :
  suffixes_free items →
  let keyed := unique_iteration_keys items in
  keyed.*2 = items ∧ (∀ k, k ∈ keyed.*1 → PyStr.truthy k = true) ∧ NoDup keyed.*1.
Proof.
  intros H. split_and!; [apply unique_keys_from_items|by apply unique_keys_truthy|].
  apply (unique_keys_NoDup 0 [] items
    (λ b n, b ∈ item_bases items ∧ (1 <= n <= Z.of_nat (length items))%Z)).
  - intros b n Hb Hn. simpl in Hn. split; [done|lia].
  - intros b b' n n' [Hb Hn] [Hb' Hn']. unfold nth_key.
    destruct (Z.eqb_spec n 1) as [->|], (Z.eqb_spec n' 1) as [->|].
    + done.
    + intros E. by destruct (H b b' n' Hb Hb' ltac:(lia)).
    + intros E. by destruct (H b' b n Hb' Hb ltac:(lia)).
    + destruct (H b b n Hb Hb ltac:(lia)) as [L _], (H b' b' n' Hb' Hb' ltac:(lia)) as [L' _].
      unfold suffixed. rewrite !PyStr.take_all by done. intros [-> E]%PyStr.last_sep_inj; [|apply PyStr.of_Z_lacks; [done|lia]..].
      apply (inj pretty) in E. done.
Qed.

Lemma unique_iteration_keys_distinct_witness :
  let keyed := unique_iteration_keys [JStr "x"; JStr "x"; JStr "y"] in
  keyed.*1 = ["x"; "x-2"; "y"] ∧ NoDup keyed.*1.
Proof.
  split; [vm_compute; reflexivity|].
  refine (proj2 (proj2 (unique_iteration_keys_distinct [JStr "x"; JStr "x"; JStr "y"] _))).
  assert (∀ n, (2 <= n <= 3)%Z → n = 2%Z ∨ n = 3%Z) as Hn by lia.
  intros b b' n Hb Hb' [-> | ->]%Hn; vm_compute in Hb, Hb';
    repeat (apply elem_of_cons in Hb as [->|Hb]); try (by apply not_elem_of_nil in Hb);
    repeat (apply elem_of_cons in Hb' as [->|Hb']); try (by apply not_elem_of_nil in Hb');
    (split; [apply (bool_decide_unpack _); vm_compute; exact I|by vm_compute]).
Defined.

(** Without that condition the de-duplicated keys can collide: an item
    whose own key is another one's with a suffix shares its key, and its row. *)
Theorem unique_iteration_keys_collide :
  ∃ items, ¬ NoDup (unique_iteration_keys items).*1.
Proof.
  exists [JStr "a"; JStr "a"; JStr "a-2"]. intros H.
  assert ((unique_iteration_keys [JStr "a"; JStr "a"; JStr "a-2"]).*1 = ["a"; "a-2"; "a-2"]) as E
    by (vm_compute; reflexivity).
  rewrite E in H. apply NoDup_cons in H as [_ H]. apply NoDup_cons in H as [H _]. apply H. left.
Qed.

(** C24: when a fan-out node with one outgoing edge succeeds for the first time, with
    at least one item, its successor's placeholder is superseded and exactly one READY
    row per iteration key is appended, seeded with the first item of that key; the call
    returns one row per item, that of its key.  Where the keys of the items are
    distinct, that is one row per item.  Doing it again changes no row and creates
    none. *)
Theorem materialize_fan_out_success_spec now graph tenant_id run_id fresh f output next l e n items :
  unique_slots l → successors graph f = [e] → find_node (ge_target e) graph = Some n →
  Dict.get "items" output = Some (JArr items) → items ≠ [] →
  (∀ r, r ∈ l → nr_node_id r = ge_target e → nr_iteration_key r = "") →
  let materialize := materialize_fan_out_success now graph tenant_id run_id fresh f output in
  let st := materialize next l in
  let keyed := unique_iteration_keys items in
  let firsts := first_of_keys [] keyed in
  let created := imap (λ i k,
    new_node_run (fresh (next + i)) tenant_id run_id (ge_target e) (gn_type n) (node_version n)
      READY k.1 (seed_iteration_inputs k.2 k.1 f)) firsts in
  fs_rows st = supersede_placeholder now true (ge_target e) l ++ created ∧
  row_ids (ge_target e) created keyed (fs_out st) ∧
  (NoDup keyed.*1 → firsts = keyed) ∧
  fs_rows (materialize (fs_next st) (fs_rows st)) = fs_rows st ∧
  fs_next (materialize (fs_next st) (fs_rows st)) = fs_next st.
Proof.
  intros Hu He Hn Hi Hne Hfirst materialize st keyed firsts created.
  set (t := ge_target e) in *.
  set (l0 := supersede_placeholder now true t l).
  assert (∀ m rows, materialize m rows =
    foldl (spawn_item tenant_id run_id fresh f t n)
      {| fs_rows := supersede_placeholder now true t rows; fs_next := m; fs_out := [] |} keyed) as Hmat.
  { intros m rows. unfold materialize, materialize_fan_out_success, Json.getn. rewrite He, Hi. simpl.
    unfold fan_out_edge. fold t. rewrite Hn. fold keyed. destruct keyed eqn:E; [|done].
    destruct items; [done|]. by simpl in E. }
  assert (∀ k, k ∈ keyed.*1 → PyStr.truthy k = true) as Htr by apply unique_keys_truthy.
  assert (∀ k, k ∈ keyed.*1 → Index.get_iteration t k l0 = None) as Hnew.
  { intros k Hk. apply get_iteration_None. intros r Hr Ht E.
    assert (slot r ∈ slot <$> l0) as Hin by (by apply list_elem_of_fmap_2).
    unfold l0 in Hin. rewrite slots_supersede in Hin. apply list_elem_of_fmap in Hin as (r' & [= H1 H2] & Hr').
    rewrite <- E, H2, (Hfirst r' Hr') in Hk by congruence. by apply Htr in Hk. }
  destruct (spawn_new tenant_id run_id fresh f t n [] keyed {| fs_rows := l0; fs_next := next; fs_out := [] |})
    as (Hrows & _ & ids & Hout & Hids); [by intros; apply Hnew|by intros ? ?%not_elem_of_nil|].
  unfold l0 in Hrows at 1 2, Hout, Hids. rewrite <- Hmat in Hrows, Hout, Hids. fold st in Hrows, Hout, Hids. fold l0 in Hrows.
  change (new_rows tenant_id run_id fresh f t n _ _) with created in Hrows. cbn [fs_rows fs_out app] in Hrows, Hout.
  assert (∀ k, k ∈ firsts.*1 → k ∈ keyed.*1) as Hsub by (intros k; apply first_of_keys_sub).
  split; [done|]. split.
  { rewrite Hout. eapply Forall2_impl_in; [exact Hids|].
    intros k id Hk _ (r & Hr & Ht & Hkr & Hid). exists r. split_and!; [|done..].
    rewrite Hrows in Hr. apply elem_of_app in Hr as [Hr|]; [|done]. exfalso.
    specialize (Hnew k.1 ltac:(by apply list_elem_of_fmap_2)). rewrite get_iteration_None in Hnew. by destruct (Hnew r Hr Ht). }
  split; [intros Hnd; apply first_of_keys_distinct; [done|by intros ? _ ?%not_elem_of_nil]|].
  rewrite Hrows.
  assert (supersede_placeholder now true t (l0 ++ created) = l0 ++ created) as Hplace.
  { apply supersede_again. intros r [Hr|Hr]%elem_of_app Ht Hk.
    - by apply (supersede_done now true t l r).
    - apply elem_of_lookup_imap in Hr as (i & k & -> & Hk'). cbn in Hk.
      assert (k.1 ∈ keyed.*1) as H%Htr by (apply Hsub, list_elem_of_fmap_2; by eapply list_elem_of_lookup_2).
      by rewrite Hk in H. }
  rewrite Hmat, Hplace. generalize (fs_next st) as m. intros m.
  apply (spawn_again _ _ _ _ _ _ _ {| fs_rows := l0 ++ created; fs_next := m; fs_out := [] |}).
  intros k Hk. cbn [fs_rows].
  apply settled_slot_found. split.
  - pose proof (first_of_keys_keys k [] keyed Hk (not_elem_of_nil _)) as Hf.
    apply list_elem_of_fmap in Hf as (k' & -> & [i Hi']%list_elem_of_lookup). eexists.
    split; [apply elem_of_app; right; apply elem_of_lookup_imap; by exists i, k'|done].
  - intros r [Hr|Hr]%elem_of_app Ht Hkr.
    + specialize (Hnew k Hk). rewrite get_iteration_None in Hnew. by destruct (Hnew r Hr Ht).
    + by apply elem_of_lookup_imap in Hr as (i & k' & -> & _).
Qed.

Definition ex_node (i t : string) : GraphNode :=
  {| gn_id := i; gn_type := t; gn_version := 1; gn_config := []; gn_input_bindings := [] |}.

Definition ex_graph : WorkflowGraph := {|
  wg_schema_version := 1;
  wg_nodes := [ex_node "f" "fan_out"; ex_node "b" "text"; ex_node "m" "merge"];
  wg_edges := [plain_edge "f" "b"; plain_edge "b" "m"];
  wg_metadata := [];
|}.

Definition ex_rows : list WorkflowNodeRun := [
  new_node_run "1" "T" "R" "f" "fan_out" 1 SUCCEEDED "" [];
  new_node_run "2" "T" "R" "b" "text" 1 PENDING "" [];
  new_node_run "3" "T" "R" "m" "merge" 1 PENDING "" []].

Definition ex_fresh (n : nat) : string := "id" +:+ PyStr.of_Z (Z.of_nat n).
Definition ex_output : dict json := [("items", JArr [JStr "x"; JStr "y"])].

Definition ex_state : FanState :=
  materialize_fan_out_success 9 ex_graph "T" "R" ex_fresh "f" ex_output 0 ex_rows.

Lemma materialize_fan_out_success_spec_witness :
  (λ r, (nr_id r, nr_status r, nr_iteration_key r)) <$> fs_rows ex_state =
    [("1", SUCCEEDED, ""); ("2", SKIPPED, ""); ("3", PENDING, "");
     ("id0", READY, "x"); ("id1", READY, "y")] ∧
  fs_rows (materialize_fan_out_success 9 ex_graph "T" "R" ex_fresh "f" ex_output
    (fs_next ex_state) (fs_rows ex_state)) = fs_rows ex_state.
Proof.
  split; [vm_compute; reflexivity|].
  refine (proj1 (proj2 (proj2 (proj2 (materialize_fan_out_success_spec 9 ex_graph "T" "R" ex_fresh "f"
    ex_output 0 ex_rows (plain_edge "f" "b") (ex_node "b" "text") [JStr "x"; JStr "y"] _ _ _ _ _ _)))));
    try reflexivity; try discriminate.
  - apply (bool_decide_unpack _). vm_compute. exact I.
  - apply (proj1 (Forall_forall (λ r, nr_node_id r = "b" → nr_iteration_key r = "") ex_rows)).
    apply (bool_decide_unpack _). vm_compute. exact I.
Defined.

(** Whatever the items and keys, neither fan-out nor the propagation of an
    iteration ever creates a second row for a node and iteration key, as the
    unique constraint of the table demands. *)
Theorem fan_out_keeps_slots now graph tenant_id run_id fresh source key output next l :
  unique_slots l →
  unique_slots (fs_rows (materialize_fan_out_success now graph tenant_id run_id fresh source output next l)) ∧
  unique_slots (fs_rows (ensure_downstream_iteration now graph tenant_id run_id fresh source key output next l)).
Proof.
  intros Hl. split.
  - apply (foldl_keeps (λ st, unique_slots (fs_rows st))); [apply fan_out_edge_slots|done].
  - unfold ensure_downstream_iteration. destruct (negb _); [done|].
    apply (foldl_keeps (λ st, unique_slots (fs_rows st))); [apply iterate_edge_slots|done].
Qed.

Lemma fan_out_keeps_slots_witness :
  slot <$> fs_rows (materialize_fan_out_success 9 ex_graph "T" "R" ex_fresh "f"
    [("items", JArr [JStr "a"; JStr "a"; JStr "a-2"])] 0 ex_rows) =
    [("f", ""); ("b", ""); ("m", ""); ("b", "a"); ("b", "a-2")] ∧
  unique_slots (fs_rows (materialize_fan_out_success 9 ex_graph "T" "R" ex_fresh "f"
    [("items", JArr [JStr "a"; JStr "a"; JStr "a-2"])] 0 ex_rows)).
Proof.
  split; [vm_compute; reflexivity|].
  refine (proj1 (fan_out_keeps_slots 9 ex_graph "T" "R" ex_fresh "f" "" _ 0 ex_rows _)).
  apply (bool_decide_unpack _). vm_compute. exact I.
Defined.

End Fanout.
