(* ===== verification/Waits.v ===== *)
(** * Durable waits (wait_store.py, wait_persist.py, wait_recovery.py)

    A node that pauses leaves a wait row: a deadline, an event to wait for, or
    both.  A wait is resolved once, by the event, by an operator or by the
    recovery of due waits; messages to the broker only make that faster.
    [now] is the reading of the clock, [fresh n] the n-th random id. *)
From S2P Require Import Prelude PyStr Json RunModels Retry Cancellation Calendar.

Module Waits.
Import Models.
Local Open Scope string_scope.
Local Open Scope list_scope.
Local Open Scope Z_scope.

Definition wait_type_value (t : WaitType) : string :=
  match t with DELAY => "delay" | EVENT => "event" end.

Definition wait_pending (w : WorkflowWait) : bool := bool_decide (ww_status w = WAIT_PENDING).

Section waits.
Context (now : Z) (fresh : nat → string).

(** ** wait_store.py *)

(** The partial unique indexes of the table: among pending waits a resume
    token is unique, and so is an event key of a tenant. *)
Definition pending_conflict (a b : WorkflowWait) : bool :=
  wait_pending a && wait_pending b &&
  (bool_decide (ww_resume_token a = ww_resume_token b) ||
   (bool_decide (ww_tenant_id a = ww_tenant_id b) && bool_decide (is_Some (ww_event_key a)) &&
    bool_decide (ww_event_key a = ww_event_key b))).

Definition create_wait (tenant_id workflow_run_id workflow_node_run_id resume_token : string)
    (wait_type : WaitType) (wake_at : option Z) (event_key timeout_action : option string)
    (payload : dict json) : M Store WorkflowWait :=
  st ← get_state;
  let row := {|
    ww_id := fresh (st_uuids st); ww_tenant_id := tenant_id; ww_workflow_run_id := workflow_run_id;
    ww_workflow_node_run_id := workflow_node_run_id; ww_resume_token := resume_token;
    ww_wait_type := wait_type; ww_event_key := event_key; ww_wake_at := wake_at;
    ww_status := WAIT_PENDING; ww_timeout_action := timeout_action; ww_payload := payload;
    ww_resolved_at := None; ww_resolved_outcome := None |} in
  if existsb (pending_conflict row) (st_waits st)
  then raise (OtherException "IntegrityError" "UNIQUE constraint failed: workflow_waits")
  else
    _ ← modify (λ st, st <| st_waits ::= λ l, l ++ [row] |> <| st_uuids ::= S |>);
    mret row.

Definition get_pending_by_resume_token (resume_token : string) (st : Store)
    : result (option WorkflowWait) :=
  Cancellation.scalar_one_or_none
    (List.filter (λ w, bool_decide (ww_resume_token w = resume_token) && wait_pending w) (st_waits st)).

Definition get_pending_by_event_key (tenant_id event_key : string) (st : Store)
    : result (option WorkflowWait) :=
  Cancellation.scalar_one_or_none
    (List.filter (λ w, bool_decide (ww_tenant_id w = tenant_id) &&
       bool_decide (ww_event_key w = Some event_key) && wait_pending w) (st_waits st)).

(** The values of the update in [mark_wait_resolved]. *)
Definition resolved_row (outcome : string) (payload : option (dict json)) (w : WorkflowWait)
    : WorkflowWait :=
  let w := w <| ww_status := WAIT_RESOLVED |> <| ww_resolved_at := Some now |>
             <| ww_resolved_outcome := Some outcome |> in
  match payload with Some p => w <| ww_payload := p |> | None => w end.

(** [update(WorkflowWait).where(id, pending).values(...).returning(...)] *)
Definition update_pending (wait_id : string) (f : WorkflowWait → WorkflowWait)
    (l : list WorkflowWait) : option WorkflowWait * list WorkflowWait :=
  let p w := bool_decide (ww_id w = wait_id) && wait_pending w in
  (f <$> List.find p l, (λ w, if p w then f w else w) <$> l).

Definition mark_wait_resolved (wait_id outcome : string) (payload_update : dict json)
    (l : list WorkflowWait) : option WorkflowWait * list WorkflowWait :=
  match payload_update with
  | [] => update_pending wait_id (resolved_row outcome None) l
  | _ =>
      match row_by ww_id wait_id l with
      | None => (None, l)
      | Some current =>
          if negb (wait_pending current) then (None, l)
          else update_pending wait_id
                 (resolved_row outcome (Some (Dict.update (ww_payload current) payload_update))) l
      end
  end.

(** A function of the wait table as a call on the store. *)
Definition on_waits {A} (f : list WorkflowWait → A * list WorkflowWait) : M Store A := λ st,
  let '(a, l) := f (st_waits st) in (Ok a, st <| st_waits := l |>).

Definition mark_wait_resolved_by_resume_token (resume_token outcome : string)
    (payload_update : dict json) : M Store (option WorkflowWait) :=
  st ← get_state;
  pending ← lift (get_pending_by_resume_token resume_token st);
  match pending with
  | None => mret None
  | Some w => on_waits (mark_wait_resolved (ww_id w) outcome payload_update)
  end.

Definition resolve_wait_by_event_key (tenant_id event_key : string) (payload : dict json)
    : M Store (option WorkflowWait) :=
  st ← get_state;
  pending ← lift (get_pending_by_event_key tenant_id event_key st);
  match pending with
  | None => mret None
  | Some w => on_waits (mark_wait_resolved (ww_id w) "received" [("event_payload", JObj payload)])
  end.

Definition wait_due (w : WorkflowWait) : bool :=
  wait_pending w && match ww_wake_at w with Some t => t <=? now | None => false end.

Definition wake_le (a b : WorkflowWait) : Prop :=
  default 0 (ww_wake_at a) <= default 0 (ww_wake_at b).
#[global] Instance wake_le_dec a b : Decision (wake_le a b).
Proof. unfold wake_le. apply _. Defined.

(** The ids picked: due, not locked by another transaction, oldest first. *)
Definition pick_due (locked : gset string) (batch_size : nat) (l : list WorkflowWait) : list string :=
  ww_id <$> firstn batch_size (merge_sort wake_le
    (List.filter (λ w, wait_due w && negb (bool_decide (ww_id w ∈ locked))) l)).

Definition due_outcome (w : WorkflowWait) : string :=
  if bool_decide (ww_wait_type w = DELAY) then "elapsed" else "expired".

Fixpoint claim_each (ids : list string) (l : list WorkflowWait)
    : list WorkflowWait * list WorkflowWait :=
  match ids with
  | [] => ([], l)
  | i :: ids' =>
      match row_by ww_id i l with
      | None => claim_each ids' l
      | Some row =>
          if negb (wait_pending row) then claim_each ids' l
          else
            let '(resolved, l) := mark_wait_resolved (ww_id row) (due_outcome row) [] l in
            let '(claimed, l) := claim_each ids' l in
            (match resolved with Some w => w :: claimed | None => claimed end, l)
      end
  end.

Definition claim_due_waits (locked : gset string) (batch_size : nat) (l : list WorkflowWait)
    : list WorkflowWait * list WorkflowWait :=
  claim_each (pick_due locked batch_size l) l.

(** [schedule_fast_wake]: whole seconds of the delay, truncated. *)
Definition schedule_fast_wake (tenant_id resume_token : string) (wake_at : Z) (outcome : string)
    (decision : dict json) (st : Store) : Store :=
  let countdown := Z.max 0 (Z.quot (wake_at - now) 1000000) in
  st <| st_tasks ::= λ ts, ts ++ [ResumeNodeTask tenant_id resume_token outcome decision countdown] |>.

(** ** wait_persist.py *)

(** [datetime.fromisoformat]: local time and offset, if any, in microseconds. *)
Context (fromisoformat : string → option (Z * option Z)).

(** [raw.replace("Z", "+00:00")] *)
Fixpoint replace_zulu (s : string) : string :=
  match s with
  | "" => ""
  | String c s' => if Ascii.eqb c "Z" then "+00:00" +:+ replace_zulu s' else String c (replace_zulu s')
  end.

Definition parse_resume_at (raw : json) : option (Z * Z) :=
  match raw with
  | JStr s =>
      if PyStr.truthy (PyStr.strip s) then
        match fromisoformat (replace_zulu s) with
        | Some (wall, offset) => Some (wall, default 0 offset)
        | None => None
        end
      else None
  | _ => None
  end.

(** [isinstance(v, int)]: a bool is an int. *)
Definition as_int (v : json) : option Z :=
  match v with JInt z => Some z | JBool b => Some (Z.b2z b) | _ => None end.

Definition positive_int (v : json) : option Z :=
  match as_int v with Some z => if 0 <? z then Some z else None | None => None end.

(** [str(d.get(k) or text)] *)
Definition str_or (k : string) (d : dict json) (text : string) : string :=
  Json.str (Retry.get_truthy k d (JStr text)).

Definition persist_delay (run : WorkflowRun) (node_run : WorkflowNodeRun) (token : string)
    (output : dict json) : M Store unit :=
  let '(wall, offset) := default (now + 1000000, 0) (parse_resume_at (Json.getn "resume_at" output)) in
  let resume_at := wall - offset in
  _ ← create_wait (wr_tenant_id run) (wr_id run) (nr_id node_run) token DELAY (Some resume_at) None None
        [("resume_at", JStr (Calendar.isoformat_at wall offset))];
  modify (schedule_fast_wake (wr_tenant_id run) token resume_at "elapsed" []).

Definition persist_event (run : WorkflowRun) (node_run : WorkflowNodeRun) (token : string)
    (output : dict json) : M Store unit :=
  let timeout := positive_int (Json.getn "timeout_seconds" output) in
  let wake_at := (λ t, now + 1000000 * t) <$> timeout in
  let timeout_action := (λ _, str_or "on_timeout" output "fail") <$> timeout in
  let event_key := match Json.getn "correlation_key" output with
                   | JNull => None
                   | v => let k := PyStr.strip (Json.str v) in if PyStr.truthy k then Some k else None
                   end in
  _ ← create_wait (wr_tenant_id run) (wr_id run) (nr_id node_run) token EVENT wake_at event_key
        timeout_action
        [("event", Json.getn "event" output); ("correlation_key", Json.opt_str event_key)];
  match wake_at with
  | Some t => modify (schedule_fast_wake (wr_tenant_id run) token t "expired"
      [("on_timeout", JStr (if PyStr.opt_truthy timeout_action then default "" timeout_action else "fail"))])
  | None => mret ()
  end.

Definition persist_approval (run : WorkflowRun) (node_run : WorkflowNodeRun) (token : string)
    (output : dict json) : M Store unit :=
  let timeout := default 86400 (positive_int (Json.getn "timeout_seconds" output)) in
  let on_timeout := str_or "on_timeout" output "stop" in
  let wake_at := now + 1000000 * timeout in
  let approval_request_id := Json.getn "approval_request_id" output in
  let event_key := if Json.truthy approval_request_id
                   then Some ("approval:" +:+ Json.str approval_request_id) else None in
  _ ← create_wait (wr_tenant_id run) (wr_id run) (nr_id node_run) token EVENT (Some wake_at) event_key
        (Some (if String.eqb on_timeout "continue" then "continue" else "fail"))
        [("kind", JStr "approval_timeout"); ("approval_request_id", approval_request_id);
         ("on_timeout", JStr on_timeout)];
  modify (schedule_fast_wake (wr_tenant_id run) token wake_at "expired" [("on_timeout", JStr on_timeout)]).

Definition persist_waiting_node (run : WorkflowRun) (node_run : WorkflowNodeRun)
    (output : dict json) (waiting_reason : option string) : M Store unit :=
  if negb (PyStr.opt_truthy (nr_resume_token node_run)) then mret ()
  else
    let token := default "" (nr_resume_token node_run) in
    let pauses_as t reason := String.eqb (nr_node_type node_run) t || bool_decide (waiting_reason = Some reason) in
    if pauses_as "delay" "delay_until" then persist_delay run node_run token output
    else if pauses_as "wait" "event_pending" then persist_event run node_run token output
    else if pauses_as "approval" "approval_pending" then persist_approval run node_run token output
    else mret ().

(** ** wait_recovery.py *)

(** [UUID(text)], as the canonical text of the id. *)
Context (uuid_of_text : string → option string).

Definition expire_bound_approval_request (payload : dict json) (st : Store) : Store :=
  if negb (bool_decide (Json.getn "kind" payload = JStr "approval_timeout")) then st
  else
    let raw_id := Json.getn "approval_request_id" payload in
    if negb (Json.truthy raw_id) then st
    else match uuid_of_text (Json.str raw_id) with
         | None => st
         | Some request_id =>
             st <| st_approvals ::= set_row ar_id request_id (λ r,
               if bool_decide (ar_status r = APPROVAL_PENDING) then r <| ar_status := APPROVAL_EXPIRED |>
               else r) |>
         end.

(** The decision handed to the resumption of an expired wait. *)
Definition expired_decision (wait : WorkflowWait) : dict json :=
  let on_timeout :=
    let v := Json.getn "on_timeout" (ww_payload wait) in
    if Json.truthy v then v else Json.opt_str (ww_timeout_action wait) in
  let on_timeout := if bool_decide (on_timeout = JStr "fail") then JStr "stop" else on_timeout in
  if Json.truthy on_timeout then [("on_timeout", on_timeout)] else [].

Definition wait_outcome (wait : WorkflowWait) : string :=
  if PyStr.opt_truthy (ww_resolved_outcome wait) then default "" (ww_resolved_outcome wait) else "elapsed".

(** What [wake_due_workflow_waits] reports of a wait. *)
Definition wake_result (wait : WorkflowWait) : dict json :=
  [("wait_id", JStr (ww_id wait)); ("tenant_id", JStr (ww_tenant_id wait));
   ("workflow_run_id", JStr (ww_workflow_run_id wait)); ("resume_token", JStr (ww_resume_token wait));
   ("outcome", JStr (wait_outcome wait))].

(** [resume tenant_id resume_token outcome decision] resumes the node at once. *)
Context (resume : string → string → string → dict json → M Store WorkflowRun).

Definition wake_one (enqueue_resume : bool) (wait : WorkflowWait) : M Store unit :=
  let outcome := wait_outcome wait in
  let expired := String.eqb outcome "expired" in
  let decision := if expired then expired_decision wait else [] in
  _ ← modify (λ st, if expired then expire_bound_approval_request (ww_payload wait) st else st);
  if enqueue_resume
  then modify (λ st, st <| st_tasks ::= λ ts,
         ts ++ [ResumeNodeTask (ww_tenant_id wait) (ww_resume_token wait) outcome decision 0] |>)
  else _ ← resume (ww_tenant_id wait) (ww_resume_token wait) outcome decision; mret ().

Definition wake_due_workflow_waits (locked : gset string) (batch_size : nat) (enqueue_resume : bool)
    : M Store (list (dict json)) :=
  claimed ← on_waits (claim_due_waits locked batch_size);
  _ ← mfor claimed (wake_one enqueue_resume);
  mret (wake_result <$> claimed).

(** ** Claiming due waits *)

Notation wait_ids l := (ww_id <$> l) (only parsing).

Lemma update_pending_unique i f l w :
  NoDup (wait_ids l) → row_by ww_id i l = Some w → wait_pending w = true →
  update_pending i f l = (Some (f w), set_row ww_id i f l).
Proof.
  intros Hnd Hw Hp. pose proof (row_by_Some _ _ _ _ Hw) as [Hin Hid].
  assert (∀ x, x ∈ l → ww_id x = i → x = w) as Hu.
  { intros x Hx Hxi. apply (NoDup_fmap_inj_in ww_id l); [done..|congruence]. }
  unfold update_pending. f_equal.
  - destruct (List.find _ l) as [x|] eqn:E.
    + apply find_Some_elem in E as [Hx [Hxi%bool_decide_eq_true _]%andb_true_iff]. by rewrite (Hu x).
    + apply find_None_Forall in E. rewrite Forall_forall in E. specialize (E w Hin). simpl in E.
      by rewrite Hp, (bool_decide_eq_true_2 _ Hid) in E.
  - unfold set_row. apply list_fmap_ext. intros ? x Hx%list_elem_of_lookup_2.
    case_bool_decide as Hxi; simpl; [|done]. by rewrite (Hu x), Hp.
Qed.

Lemma update_pending_settled i f l w :
  wait_pending w = false → w ∈ l → w ∈ (update_pending i f l).2.
Proof.
  intros Hp Hw. apply list_elem_of_fmap. exists w. by rewrite Hp, andb_false_r.
Qed.

Lemma mark_wait_resolved_shape i o u l :
  (mark_wait_resolved i o u l).2 = l ∨
  ∃ p, mark_wait_resolved i o u l = update_pending i (resolved_row o p) l.
Proof.
  unfold mark_wait_resolved. destruct u as [|kv u]; [right; by eexists|].
  destruct (row_by ww_id i l) as [w|]; [|by left]. destruct (negb _); [by left|right; by eexists].
Qed.

Lemma resolved_row_id o p w : ww_id (resolved_row o p w) = ww_id w.
Proof. by destruct p. Qed.

(** The row a claim leaves of a due wait. *)
Definition claimed_wait (w : WorkflowWait) : WorkflowWait := resolved_row (due_outcome w) None w.

Lemma claimed_wait_id w : ww_id (claimed_wait w) = ww_id w.
Proof. done. Qed.

Lemma claim_each_spec ws l :
  NoDup (wait_ids l) → NoDup (wait_ids ws) → ws ⊆ l → Forall (λ w, wait_pending w = true) ws →
  claim_each (wait_ids ws) l =
    (claimed_wait <$> ws, foldl (λ l w, set_row ww_id (ww_id w) claimed_wait l) l ws).
Proof.
  revert l. induction ws as [|w ws IH]; intros l Hnd Hws Hsub Hp; [done|].
  rewrite fmap_cons in Hws. apply NoDup_cons in Hws as [Hnew Hws]. apply Forall_cons in Hp as [Hw Hp].
  assert (row_by ww_id (ww_id w) l = Some w) as Hrow by (apply row_by_elem; [done|apply Hsub; left|done]).
  cbn [claim_each fmap list_fmap foldl]. rewrite Hrow, Hw. cbn [negb].
  assert (mark_wait_resolved (ww_id w) (due_outcome w) [] l =
    (Some (claimed_wait w), set_row ww_id (ww_id w) claimed_wait l)) as ->.
  { unfold mark_wait_resolved. rewrite (update_pending_unique _ _ l w) by done. f_equal.
    unfold set_row. apply list_fmap_ext. intros ? x Hx%list_elem_of_lookup_2.
    case_bool_decide as Hxi; [|done].
    assert (x = w) as -> by (apply (NoDup_fmap_inj_in ww_id l); [done..|apply Hsub; left|done]). done. }
  rewrite IH; [done|by rewrite set_row_keys|done| |done].
  intros x Hx. apply list_elem_of_fmap. exists x. split; [|apply Hsub; by right].
  rewrite bool_decide_eq_false_2; [done|]. intros E. apply Hnew. rewrite <- E. by apply list_elem_of_fmap_2.
Qed.

(** The waits a claim picks. *)
Definition picked_waits (locked : gset string) (batch_size : nat) (l : list WorkflowWait)
    : list WorkflowWait :=
  firstn batch_size (merge_sort wake_le
    (List.filter (λ w, wait_due w && negb (bool_decide (ww_id w ∈ locked))) l)).

Lemma picked_elem locked n l w :
  w ∈ picked_waits locked n l → w ∈ l ∧ wait_due w = true ∧ ww_id w ∉ locked.
Proof.
  intros H. assert (w ∈ List.filter (λ w, wait_due w && negb (bool_decide (ww_id w ∈ locked))) l) as Hf.
  { rewrite <- (merge_sort_Permutation wake_le). unfold picked_waits in H.
    rewrite <- (firstn_skipn n), elem_of_app. by left. }
  apply list_elem_of_In, List.filter_In in Hf as [?%list_elem_of_In [? Hl]%andb_true_iff].
  apply negb_true_iff, bool_decide_eq_false in Hl. done.
Qed.

Lemma picked_NoDup locked n l : NoDup (wait_ids l) → NoDup (wait_ids (picked_waits locked n l)).
Proof.
  intros H. unfold picked_waits.
  eapply sublist_NoDup; [|apply fmap_sublist, sublist_take]. rewrite merge_sort_Permutation.
  eapply sublist_NoDup; [exact H|]. apply fmap_sublist, filter_sublist.
Qed.

Lemma wait_due_pending w : wait_due w = true → wait_pending w = true.
Proof. unfold wait_due. by intros [? _]%andb_true_iff. Qed.

Lemma claim_due_waits_rows locked n l :
  NoDup (wait_ids l) →
  ∃ l', claim_due_waits locked n l = (claimed_wait <$> picked_waits locked n l, l') ∧
    Forall2 (λ w w', (w ∈ picked_waits locked n l → w' = claimed_wait w) ∧
                     (w ∉ picked_waits locked n l → w' = w)) l l'.
Proof.
  intros Hnd. unfold claim_due_waits, pick_due. fold (picked_waits locked n l).
  assert (Forall (λ w, wait_pending w = true) (picked_waits locked n l)) as Hp.
  { apply Forall_forall. intros w (_ & H%wait_due_pending & _)%picked_elem. done. }
  assert (picked_waits locked n l ⊆ l) as Hsub by (intros w (H & _)%picked_elem; done).
  pose proof (picked_NoDup locked n l Hnd) as Hpn.
  rewrite claim_each_spec by done.
  destruct (foldl_set_row ww_id (λ _, claimed_wait) (picked_waits locked n l) l) as (l' & -> & H);
    [done..|]. by exists l'.
Qed.

#[global] Instance wake_le_total : Total wake_le.
Proof. intros a b. unfold wake_le. lia. Qed.
#[global] Instance wake_le_trans : Transitive wake_le.
Proof. intros a b c. unfold wake_le. lia. Qed.

(** A due wait that is passed over is no older than the ones picked, and the
    batch is full. *)
Lemma picked_oldest locked n l w :
  w ∈ l → wait_due w = true → ww_id w ∉ locked → w ∉ picked_waits locked n l →
  length (picked_waits locked n l) = n ∧ ∀ p, p ∈ picked_waits locked n l → wake_le p w.
Proof.
  unfold picked_waits. set (s := merge_sort _ _). intros Hw Hd Hl Hn.
  assert (w ∈ s) as Hs.
  { unfold s. rewrite merge_sort_Permutation. apply list_elem_of_In, List.filter_In.
    rewrite <- list_elem_of_In, Hd, bool_decide_eq_false_2 by done. done. }
  rewrite <- (firstn_skipn n s), elem_of_app in Hs. destruct Hs as [Hs|Hs]; [done|].
  assert (n < length s)%nat as Hlen.
  { destruct (decide (n < length s)%nat); [done|]. rewrite skipn_all2 in Hs by lia.
    by apply not_elem_of_nil in Hs. }
  split; [rewrite length_take; lia|]. intros p Hp.
  assert (StronglySorted wake_le s) as Hss by (apply Sorted_StronglySorted, Sorted_merge_sort; apply _).
  rewrite <- (firstn_skipn n s) in Hss. apply StronglySorted_app in Hss as (H & _ & _). by apply H.
Qed.
End waits.

(** ** The life of a wait *)

(** Everything that writes the wait table, at any instant. *)
Inductive wait_step (st st' : Store) : Prop :=
  | step_create fresh tenant run node token ty wake ev action payload row :
      create_wait fresh tenant run node token ty wake ev action payload st = (Ok row, st') →
      wait_step st st'
  | step_resolve now i outcome upd :
      st_waits st' = (mark_wait_resolved now i outcome upd (st_waits st)).2 → wait_step st st'
  | step_claim now locked n :
      st_waits st' = (claim_due_waits now locked n (st_waits st)).2 → wait_step st st'
  | step_cancel now tenant run :
      st_waits st' = Cancellation.cancel_wait now tenant run <$> st_waits st → wait_step st st'
  | step_other : st_waits st' = st_waits st → wait_step st st'.

(** The unique indexes hold. *)
Definition no_conflicts (l : list WorkflowWait) : Prop :=
  ∀ i j a b, l !! i = Some a → l !! j = Some b → i ≠ j → pending_conflict a b = false.

(** A row that stays as it is, or settles without changing its keys. *)
Definition settles (w w' : WorkflowWait) : Prop := w' = w ∨ (wait_pending w = true ∧ wait_pending w' = false).

Lemma pending_conflict_settled_l a b : wait_pending a = false → pending_conflict a b = false.
Proof. unfold pending_conflict. by intros ->. Qed.
Lemma pending_conflict_settled_r a b : wait_pending b = false → pending_conflict a b = false.
Proof. unfold pending_conflict. intros ->. by rewrite andb_false_r. Qed.

Lemma pending_conflict_sym a b : pending_conflict a b = pending_conflict b a.
Proof.
  unfold pending_conflict. rewrite (andb_comm (wait_pending a)). f_equal. f_equal.
  - apply bool_decide_ext. naive_solver.
  - destruct (decide (ww_event_key a = ww_event_key b)) as [E|E].
    + rewrite E. f_equal. f_equal. apply bool_decide_ext. naive_solver.
    + rewrite (bool_decide_eq_false_2 (_ = ww_event_key b)), (bool_decide_eq_false_2 (_ = ww_event_key a)) by congruence.
      by rewrite !andb_false_r.
Qed.

Lemma settles_no_conflicts l l' : Forall2 settles l l' → no_conflicts l → no_conflicts l'.
Proof.
  intros Hs Hn i j a' b' Ha Hb Hij.
  destruct (Forall2_lookup_r _ _ _ _ _ Hs Ha) as (a & Hia & [->|[_ Hsa]]); [|by apply pending_conflict_settled_l].
  destruct (Forall2_lookup_r _ _ _ _ _ Hs Hb) as (b & Hjb & [->|[_ Hsb]]); [|by apply pending_conflict_settled_r].
  by apply (Hn i j).
Qed.

Lemma settles_refl l : Forall2 settles l l.
Proof. apply Forall_Forall2_diag, Forall_forall. intros w _. by left. Qed.

Lemma settles_trans l1 l2 l3 : Forall2 settles l1 l2 → Forall2 settles l2 l3 → Forall2 settles l1 l3.
Proof.
  apply Forall2_trans. intros x y z [->|[? Hy]] [->|[Hy' ?]]; [by left|by right|by right|congruence].
Qed.

Lemma settles_fmap (f : WorkflowWait → WorkflowWait) l :
  (∀ w, settles w (f w)) → Forall2 settles l (f <$> l).
Proof. intros H. apply Forall2_fmap_r, Forall_Forall2_diag, Forall_forall. auto. Qed.

Lemma update_pending_settles i f l :
  (∀ w, wait_pending (f w) = false) → Forall2 settles l (update_pending i f l).2.
Proof.
  intros H. apply settles_fmap. intros w.
  destruct (bool_decide (ww_id w = i)), (wait_pending w) eqn:E; simpl; try by left. by right.
Qed.

Lemma resolve_settles now i o u l : Forall2 settles l (mark_wait_resolved now i o u l).2.
Proof.
  destruct (mark_wait_resolved_shape now i o u l) as [->|[p ->]]; [apply settles_refl|].
  apply update_pending_settles. intros w. by destruct p.
Qed.

Lemma claim_each_settles now ids l : Forall2 settles l (claim_each now ids l).2.
Proof.
  revert l. induction ids as [|i ids IH]; intros l; cbn [claim_each]; [apply settles_refl|].
  destruct (row_by ww_id i l) as [w|]; [|apply IH]. destruct (negb _); [apply IH|].
  pose proof (resolve_settles now (ww_id w) (due_outcome w) [] l) as H1.
  destruct (mark_wait_resolved _ _ _ _ _) as [r l1]. pose proof (IH l1) as H2.
  destruct (claim_each now ids l1) as [c l2]. cbn [snd] in *. by eapply settles_trans.
Qed.

Lemma cancel_settles now tenant run l : Forall2 settles l (Cancellation.cancel_wait now tenant run <$> l).
Proof.
  apply settles_fmap. intros w. unfold Cancellation.cancel_wait, settles, wait_pending.
  destruct (bool_decide (ww_status w = WAIT_PENDING)) eqn:E; [|rewrite andb_false_r; by left].
  destruct (_ && _); [right; by split|by left].
Qed.

(** A step settles pending rows, and may append one pending row without conflict. *)
Lemma wait_step_shape st st' : wait_step st st' →
  ∃ l, Forall2 settles (st_waits st) l ∧
    (st_waits st' = l ∨
     ∃ row, st_waits st' = l ++ [row] ∧ Forall (λ w, pending_conflict row w = false) l).
Proof.
  intros [fresh tenant run node token ty wake ev action payload row E|now i o u E|now locked n E|now t r E|E].
  - exists (st_waits st). split; [apply settles_refl|]. right.
    unfold create_wait, mbind, M_bind, get_state, raise, modify, mret, M_ret in E. cbv zeta in E.
    destruct (existsb _ (st_waits st)) eqn:Ex; [done|]. injection E as <- <-.
    eexists. split; [done|]. by apply existsb_False_Forall.
  - eexists. split; [apply resolve_settles|by left].
  - eexists. split; [apply claim_each_settles|by left].
  - eexists. split; [apply cancel_settles|by left].
  - eexists. split; [apply settles_refl|by left].
Qed.

Lemma wait_step_no_conflicts st st' :
  wait_step st st' → no_conflicts (st_waits st) → no_conflicts (st_waits st').
Proof.
  intros (l & Hs & Hl)%wait_step_shape Hn. pose proof (settles_no_conflicts _ _ Hs Hn) as Hnl.
  destruct Hl as [->|(row & -> & Hrow)]; [done|]. rewrite Forall_forall in Hrow.
  assert (∀ k x, (l ++ [row]) !! k = Some x → l !! k = Some x ∨ (k = length l ∧ x = row)) as Hlk.
  { intros k x [?|[Hk Hx]]%lookup_app_Some; [by left|]. right.
    apply list_lookup_singleton_Some in Hx as [? ->]. split; [lia|done]. }
  intros i j a b [Ha|[-> ->]]%Hlk [Hb|[-> ->]]%Hlk Hij; [by apply (Hnl i j)| |by apply Hrow; eapply list_elem_of_lookup_2|done].
  rewrite pending_conflict_sym. apply Hrow. by eapply list_elem_of_lookup_2.
Qed.

Lemma wait_step_settled st st' w :
  wait_step st st' → w ∈ st_waits st → wait_pending w = false → w ∈ st_waits st'.
Proof.
  intros (l & Hs & Hl)%wait_step_shape [i Hi]%list_elem_of_lookup Hw.
  assert (w ∈ l) as Hin.
  { destruct (Forall2_lookup_l _ _ _ _ _ Hs Hi) as (w' & Hw' & [->|[? _]]); [by eapply list_elem_of_lookup_2|congruence]. }
  destruct Hl as [->|(row & -> & _)]; [done|]. apply elem_of_app. by left.
Qed.

(** ** Correctness *)

(** C25: through any sequence of creations, resolutions, claims of due waits and
    cancellations, by any number of workers, a wait that is no longer pending
    never changes again, and the pending waits keep distinct resume tokens and
    event keys, so that looking one up by its token never raises and finds the
    pending row with that token whenever there is one. *)
Theorem waits_settle_once st st' :
  rtc wait_step st st' → no_conflicts (st_waits st) →
  (∀ w, w ∈ st_waits st → wait_pending w = false → w ∈ st_waits st') ∧
  no_conflicts (st_waits st') ∧
  ∀ token, ∃ found, get_pending_by_resume_token token st' = Ok found ∧
    ∀ w, w ∈ st_waits st' → ww_resume_token w = token → wait_pending w = true → found = Some w.
Proof.
  intros Hs Hn. assert (no_conflicts (st_waits st')) as Hn'.
  { clear -Hs Hn. induction Hs; eauto using wait_step_no_conflicts. }
  split_and!; [|done|].
  - clear -Hs. induction Hs; eauto using wait_step_settled.
  - intros token. unfold get_pending_by_resume_token.
    destruct (Cancellation.scalar_unique (λ w, bool_decide (ww_resume_token w = token) && wait_pending w)
      (st_waits st')) as (found & Hf & Hall).
    { intros i j a b Ha Hb [Ha1%bool_decide_eq_true Ha2]%andb_true_iff [Hb1%bool_decide_eq_true Hb2]%andb_true_iff.
      destruct (decide (i = j)) as [|Hij]; [done|]. pose proof (Hn' i j a b Ha Hb Hij) as Hc.
      unfold pending_conflict in Hc. by rewrite Ha2, Hb2, bool_decide_eq_true_2 in Hc by congruence. }
    exists found. split; [done|]. intros w Hw Ht Hp. apply Hall; [done|].
    by rewrite Hp, bool_decide_eq_true_2.
Qed.

Definition ex_wait (i token : string) (wake : Z) : WorkflowWait := {|
  ww_id := i; ww_tenant_id := "T"; ww_workflow_run_id := "R"; ww_workflow_node_run_id := "n";
  ww_resume_token := token; ww_wait_type := DELAY; ww_event_key := None; ww_wake_at := Some wake;
  ww_status := WAIT_PENDING; ww_timeout_action := None; ww_payload := []; ww_resolved_at := None;
  ww_resolved_outcome := None |}.

Definition ex_wait_store : Store := empty_store <| st_waits := [ex_wait "1" "a" 5; ex_wait "2" "b" 50] |>.
Definition ex_resolved_store : Store :=
  ex_wait_store <| st_waits := (mark_wait_resolved 4 "1" "received" [("k", JNull)] (st_waits ex_wait_store)).2 |>.

Lemma waits_settle_once_witness :
  ww_status <$> st_waits ex_resolved_store = [WAIT_RESOLVED; WAIT_PENDING] ∧
  no_conflicts (st_waits ex_resolved_store).
Proof.
  split; [vm_compute; reflexivity|].
  refine (proj1 (proj2 (waits_settle_once ex_wait_store ex_resolved_store _ _))).
  - apply rtc_once. by apply (step_resolve _ _ 4 "1" "received" [("k", JNull)]).
  - intros [|[|i]] [|[|j]] a b Ha Hb Hij; simpl in Ha, Hb; simplify_eq; try done; vm_compute; reflexivity.
Defined.

(** A recovery pass claims the waits that are due and not locked, at most
    the batch size and oldest deadline first, and resolves each of them (elapsed
    for a delay, expired for an event) and nothing else: what it passes over is
    no older than what it took and the batch was full, and no later pass claims
    a wait again. *)
Theorem claim_due_waits_spec now locked n l :
  NoDup (ww_id <$> l) →
  let picked := picked_waits now locked n l in
  let claimed := claim_due_waits now locked n l in
  claimed.1 = claimed_wait now <$> picked ∧ (length picked ≤ n)%nat ∧
  (∀ w, w ∈ picked → w ∈ l ∧ wait_due now w = true ∧ ww_id w ∉ locked) ∧
  (∀ w, w ∈ l → wait_due now w = true → ww_id w ∉ locked → w ∉ picked →
     length picked = n ∧ ∀ p, p ∈ picked → wake_le p w) ∧
  Forall2 (λ w w', (w ∈ picked → w' = claimed_wait now w) ∧ (w ∉ picked → w' = w)) l claimed.2 ∧
  ∀ now' locked' n' w, w ∈ (claim_due_waits now' locked' n' claimed.2).1 →
    ww_id w ∉ ww_id <$> picked.
Proof.
  intros Hnd picked claimed. destruct (claim_due_waits_rows now locked n l Hnd) as (l' & Hc & Hl').
  fold picked in Hc, Hl'. subst claimed. rewrite Hc. cbn [fst snd]. split_and!; [done|..|done|].
  - unfold picked, picked_waits. rewrite length_take. lia.
  - intros w. apply picked_elem.
  - intros w. apply picked_oldest.
  - intros now' locked' n' w Hw Hin.
    assert (ww_id <$> l' = ww_id <$> l) as Hids.
    { symmetry. apply list_eq_Forall2, Forall2_fmap. eapply Forall2_impl; [exact Hl'|].
      intros x y [H1 H2]. destruct (decide (x ∈ picked)) as [Hx|Hx]; [by rewrite (H1 Hx)|by rewrite (H2 Hx)]. }
    destruct (claim_due_waits_rows now' locked' n' l') as (l'' & Hc' & _); [by rewrite Hids|].
    rewrite Hc' in Hw. apply list_elem_of_fmap in Hw as (w' & -> & Hw').
    apply picked_elem in Hw' as (Hw' & Hd%wait_due_pending & _).
    destruct (Forall2_elem_r _ _ _ Hl' w' Hw') as (w0 & Hw0 & H1 & H2).
    apply list_elem_of_fmap in Hin as (p & Hid & Hp). rewrite claimed_wait_id in Hid.
    destruct (decide (w0 ∈ picked)) as [Hx|Hx]; [by rewrite (H1 Hx) in Hd|].
    rewrite (H2 Hx) in Hid. apply Hx. replace w0 with p; [done|].
    apply (NoDup_fmap_inj_in ww_id l); [done| |done|done]. by apply picked_elem in Hp as [? _].
Qed.

Lemma claim_due_waits_spec_witness :
  (ww_id <$> (claim_due_waits 9 ∅ 5 (st_waits ex_wait_store)).1) = ["1"] ∧
  (length (picked_waits 9 ∅ 5 (st_waits ex_wait_store)) ≤ 5)%nat.
Proof.
  split; [vm_compute; reflexivity|].
  refine (proj1 (proj2 (claim_due_waits_spec 9 ∅ 5 (st_waits ex_wait_store) _))).
  apply (bool_decide_unpack _). vm_compute. exact I.
Defined.

(** ** Entering a wait *)

(** How a resumption reads the timeout action of its decision. *)
Definition continues (decision : dict json) : bool :=
  String.eqb (str_or "on_timeout" decision "stop") "continue".

(** The whole seconds of a fast wake. *)
Definition countdown (now wake_at : Z) : Z := Z.max 0 (Z.quot (wake_at - now) 1000000).

Lemma countdown_bounds now t :
  0 <= countdown now t ∧ now + 1000000 * countdown now t <= Z.max now t ∧
  t < now + 1000000 * (countdown now t + 1).
Proof. unfold countdown. Z.to_euclidean_division_equations. lia. Qed.

Definition wake_tasks (now : Z) (w : WorkflowWait) (decision : dict json) : list Task :=
  match ww_wake_at w with
  | None => []
  | Some t => [ResumeNodeTask (ww_tenant_id w) (ww_resume_token w) (due_outcome w) decision (countdown now t)]
  end.

(** The store after wait [w] was created and its fast wake scheduled. *)
Definition waiting_store (now : Z) (w : WorkflowWait) (decision : dict json) (st : Store) : Store :=
  st <| st_waits ::= λ l, l ++ [w] |> <| st_uuids ::= S |>
     <| st_tasks ::= λ ts, ts ++ wake_tasks now w decision |>.

Definition pauses (node_run : WorkflowNodeRun) (reason : option string) : Prop :=
  nr_node_type node_run ∈ ["delay"; "wait"; "approval"] ∨
  reason ∈ [Some "delay_until"; Some "event_pending"; Some "approval_pending"].

(** What the row left by a paused node is, and the decision of its fast wake. *)
Definition wait_for (now : Z) (run : WorkflowRun) (node_run : WorkflowNodeRun) (token : string)
    (w : WorkflowWait) (decision : dict json) : Prop :=
  wait_pending w = true ∧ ww_tenant_id w = wr_tenant_id run ∧ ww_workflow_run_id w = wr_id run ∧
  ww_workflow_node_run_id w = nr_id node_run ∧ ww_resume_token w = token ∧
  (ww_wait_type w = DELAY → is_Some (ww_wake_at w)) ∧
  (ww_wait_type w = EVENT → ∀ t, ww_wake_at w = Some t → now < t) ∧
  (is_Some (ww_wake_at w) → continues decision = continues (expired_decision w)).

Lemma create_wait_store fresh tenant run node token ty wake ev action payload st k :
  ∃ w, (create_wait fresh tenant run node token ty wake ev action payload ≫= k) st =
    (if existsb (pending_conflict w) (st_waits st)
     then (Raise (OtherException "IntegrityError" "UNIQUE constraint failed: workflow_waits"), st)
     else (k w (st <| st_waits ::= λ l, l ++ [w] |> <| st_uuids ::= S |>) : result unit * Store)) ∧
    w = {| ww_id := fresh (st_uuids st); ww_tenant_id := tenant; ww_workflow_run_id := run;
           ww_workflow_node_run_id := node; ww_resume_token := token; ww_wait_type := ty;
           ww_event_key := ev; ww_wake_at := wake; ww_status := WAIT_PENDING;
           ww_timeout_action := action; ww_payload := payload; ww_resolved_at := None;
           ww_resolved_outcome := None |}.
Proof.
  eexists. split; [|reflexivity]. unfold create_wait, mbind, M_bind, get_state, modify, raise, mret, M_ret.
  cbv zeta. by destruct (existsb _ _).
Qed.

Lemma positive_int_pos v z : positive_int v = Some z → 0 < z.
Proof.
  unfold positive_int. destruct (as_int v); [|done]. destruct (Z.ltb_spec 0 z0); [|done]. by intros [= <-].
Qed.

Lemma continues_text s : continues [("on_timeout", JStr s)] = String.eqb s "continue".
Proof. unfold continues, str_or, Retry.get_truthy. cbn. by destruct s. Qed.

(** The decision the recovery takes when the text of the action is [s]. *)
Lemma expired_text s :
  continues (let v := if bool_decide (JStr s = JStr "fail") then JStr "stop" else JStr s in
             if Json.truthy v then [("on_timeout", v)] else []) = String.eqb s "continue".
Proof.
  cbv zeta. destruct (decide (s = "fail")) as [->|Hs]; [done|].
  rewrite bool_decide_eq_false_2 by congruence. simpl. destruct (PyStr.truthy s) eqn:E.
  - apply continues_text.
  - by apply PyStr.truthy_false in E as ->.
Qed.

Section entering.
Context (now : Z) (fresh : nat → string) (fromisoformat : string → option (Z * option Z)).
Context (run : WorkflowRun) (node_run : WorkflowNodeRun) (token : string) (output : dict json).

(** [m] leaves one wait of the node, unless it would clash with a pending one. *)
Definition enters_wait (m : M Store unit) : Prop :=
  ∀ st, ∃ w decision, wait_for now run node_run token w decision ∧
    m st = if existsb (pending_conflict w) (st_waits st)
           then (Raise (OtherException "IntegrityError" "UNIQUE constraint failed: workflow_waits"), st)
           else (Ok (), waiting_store now w decision st).

Lemma persist_delay_enters : enters_wait (persist_delay now fresh fromisoformat run node_run token output).
Proof.
  intros st. unfold persist_delay. destruct (default _ _) as [wall offset].
  edestruct create_wait_store as (w & -> & Hw). exists w, []. split.
  - subst w. unfold wait_for. cbn. split_and!; eauto; done.
  - by subst w.
Qed.

Lemma persist_event_enters : enters_wait (persist_event now fresh run node_run token output).
Proof.
  intros st. unfold persist_event. destruct (positive_int _) as [t|] eqn:Ht; cbn [fmap option_fmap option_map].
  - apply positive_int_pos in Ht. set (s := str_or _ _ _).
    edestruct create_wait_store as (w & -> & Hw).
    exists w, [("on_timeout", JStr (if PyStr.truthy s then s else "fail"))]. split; [|by subst w].
    subst w. unfold wait_for, expired_decision. cbn [ww_status ww_tenant_id ww_workflow_run_id
      ww_workflow_node_run_id ww_resume_token ww_wait_type ww_wake_at ww_payload ww_timeout_action].
    split_and!; try done.
    + intros _ t' [= <-]. lia.
    + intros _. cbn [Json.getn Dict.get decide]. unfold Json.getn. simpl.
      rewrite continues_text. etransitivity; [|symmetry; apply expired_text].
      destruct (PyStr.truthy s) eqn:E; [done|]. by apply PyStr.truthy_false in E as ->.
  - edestruct create_wait_store as (w & -> & Hw). exists w, []. split.
    2: { subst w. unfold waiting_store, wake_tasks. simpl. rewrite app_nil_r. done. }
    subst w. unfold wait_for. cbn. by split_and!; [..|intros [? ?]].
Qed.

Lemma persist_approval_enters : enters_wait (persist_approval now fresh run node_run token output).
Proof.
  intros st. unfold persist_approval. set (t := default 86400 _). set (s := str_or _ _ _).
  assert (0 < t) as Ht.
  { unfold t. destruct (positive_int _) eqn:E; [by eapply positive_int_pos|done]. }
  edestruct create_wait_store as (w & -> & Hw). exists w, [("on_timeout", JStr s)]. split; [|by subst w].
  subst w. unfold wait_for, expired_decision. cbn [ww_status ww_tenant_id ww_workflow_run_id
    ww_workflow_node_run_id ww_resume_token ww_wait_type ww_wake_at ww_payload ww_timeout_action].
  split_and!; try done.
  - intros _ t' [= <-]. lia.
  - intros _. unfold Json.getn. simpl. rewrite continues_text.
    destruct (PyStr.truthy s) eqn:E.
    + etransitivity; [|symmetry; apply expired_text]. done.
    + apply PyStr.truthy_false in E. rewrite E. done.
Qed.

(** Entering a wait writes no node row. *)
Lemma enters_wait_rows m st : enters_wait m →
  wp m (λ _ st', st_node_runs st' = st_node_runs st ∧ (st_uuids st ≤ st_uuids st')%nat) (λ _ st', st' = st) st.
Proof.
  intros H. destruct (H st) as (w & d & _ & E). unfold wp. rewrite E.
  destruct (existsb _ _); [done|]. simpl. split; [done|lia].
Qed.

Lemma persist_waiting_rows reason st :
  default "" (nr_resume_token node_run) = token →
  wp (persist_waiting_node now fresh fromisoformat run node_run output reason)
    (λ _ st', st_node_runs st' = st_node_runs st ∧ (st_uuids st ≤ st_uuids st')%nat) (λ _ st', st' = st) st.
Proof.
  intros Ht. unfold persist_waiting_node. rewrite Ht. cbv zeta.
  destruct (negb _); [by split|]. repeat case_match;
    auto using enters_wait_rows, persist_delay_enters, persist_event_enters, persist_approval_enters.
  by split.
Qed.
End entering.

(** A node that pauses with a resume token leaves exactly one pending wait
    of its run and row under that token, unless the token or event key is already
    awaited, which raises and writes nothing.  Timeouts lie in the future, and the
    fast wake sent to the broker takes the same way on expiry as the recovery
    would; its countdown drops the fraction of a second, so it can arrive up to a
    second before the deadline.  Other nodes leave nothing. *)
Theorem persist_waiting_node_spec now fresh fromisoformat run node_run output reason st :
  let m := persist_waiting_node now fresh fromisoformat run node_run output reason in
  (nr_resume_token node_run = None ∨ nr_resume_token node_run = Some "" ∨ ¬ pauses node_run reason →
     m st = (Ok (), st)) ∧
  ∀ token, nr_resume_token node_run = Some token → token ≠ "" → pauses node_run reason →
    ∃ w decision, wait_for now run node_run token w decision ∧
      (∀ t, ww_wake_at w = Some t →
         now + 1000000 * countdown now t <= Z.max now t ∧ t < now + 1000000 * (countdown now t + 1)) ∧
      m st = if existsb (pending_conflict w) (st_waits st)
             then (Raise (OtherException "IntegrityError" "UNIQUE constraint failed: workflow_waits"), st)
             else (Ok (), waiting_store now w decision st).
Proof.
  intros m. subst m. unfold persist_waiting_node. split.
  - intros [Ht|[Ht|Hp]]; [by rewrite Ht..|]. destruct (negb _); [done|].
    unfold pauses in Hp. rewrite !elem_of_cons in Hp.
    destruct (String.eqb_spec (nr_node_type node_run) "delay"), (decide (reason = Some "delay_until"));
    destruct (String.eqb_spec (nr_node_type node_run) "wait"), (decide (reason = Some "event_pending"));
    destruct (String.eqb_spec (nr_node_type node_run) "approval"), (decide (reason = Some "approval_pending"));
      try (exfalso; apply Hp; tauto).
    by rewrite !bool_decide_eq_false_2 by done.
  - intros token Ht Hne Hp. rewrite Ht. cbn [PyStr.opt_truthy default].
    assert (PyStr.truthy token = true) as -> by (by destruct token). cbn [negb].
    assert (∀ m, enters_wait now run node_run token m → ∃ w decision,
      wait_for now run node_run token w decision ∧
      (∀ t, ww_wake_at w = Some t →
         now + 1000000 * countdown now t <= Z.max now t ∧ t < now + 1000000 * (countdown now t + 1)) ∧
      m st = if existsb (pending_conflict w) (st_waits st)
             then (Raise (OtherException "IntegrityError" "UNIQUE constraint failed: workflow_waits"), st)
             else (Ok (), waiting_store now w decision st)) as Hm.
    { intros m Hm. destruct (Hm st) as (w & d & H1 & H2). exists w, d. split; [done|]. split; [|done].
      intros t _. apply (countdown_bounds now t). }
    cbv zeta. destruct (String.eqb (nr_node_type node_run) "delay" || _) eqn:E1; [apply Hm, persist_delay_enters|].
    destruct (String.eqb (nr_node_type node_run) "wait" || _) eqn:E2; [apply Hm, persist_event_enters|].
    destruct (String.eqb (nr_node_type node_run) "approval" || _) eqn:E3; [apply Hm, persist_approval_enters|]. exfalso.
    apply orb_false_iff in E1 as [?%String.eqb_neq ?%bool_decide_eq_false],
      E2 as [?%String.eqb_neq ?%bool_decide_eq_false], E3 as [?%String.eqb_neq ?%bool_decide_eq_false].
    destruct Hp as [Hp|Hp]; rewrite !elem_of_cons in Hp; destruct Hp as [|[|[|Hp]]]; try done;
      by apply not_elem_of_nil in Hp.
Qed.

Definition ex_paused (token : option string) : WorkflowNodeRun :=
  new_node_run "n" "T" "R" "d" "delay" 1 WAITING "" [] <| nr_resume_token := token |>.
Definition ex_wait_run : WorkflowRun := {|
  wr_id := "R"; wr_tenant_id := "T"; wr_automation_id := None; wr_workflow_definition_id := "D";
  wr_workflow_version_id := "V"; wr_brand_id := None; wr_trigger_type := "manual";
  wr_trigger_payload := []; wr_status := RUN_WAITING; wr_context_snapshot := [];
  wr_started_at := None; wr_finished_at := None; wr_error_message := None;
  wr_correlation_id := None |}.

(** A deadline 1.5 seconds away is woken after one second: half a second early. *)
Lemma persist_waiting_node_spec_witness :
  st_tasks (persist_waiting_node 0 (λ _, "w") (λ _, Some (1500000, None)) ex_wait_run (ex_paused (Some "tok"))
    [("resume_at", JStr "1970-01-01T00:00:01.5")] (Some "delay_until") empty_store).2 =
    [ResumeNodeTask "T" "tok" "elapsed" [] 1] ∧
  persist_waiting_node 0 (λ _, "w") (λ _, None) ex_wait_run (ex_paused None) [] (Some "delay_until")
    empty_store = (Ok (), empty_store).
Proof.
  split; [vm_compute; reflexivity|].
  refine (proj1 (persist_waiting_node_spec 0 (λ _, "w") (λ _, None) ex_wait_run (ex_paused None) []
    (Some "delay_until") empty_store) _). left. reflexivity.
Defined.

(** ** Waking due waits *)

Definition resume_message (w : WorkflowWait) : Task :=
  ResumeNodeTask (ww_tenant_id w) (ww_resume_token w) (due_outcome w)
    (if String.eqb (due_outcome w) "expired" then expired_decision w else []) 0.

(** The approval requests after a list of waits was woken. *)
Definition expire_approvals (uuid_of_text : string → option string) (ws : list WorkflowWait)
    (st : Store) : list ApprovalRequest :=
  st_approvals (foldl (λ st w, if bool_decide (ww_wait_type w = DELAY) then st
                               else expire_bound_approval_request uuid_of_text (ww_payload w) st) st ws).

Lemma expire_only_approvals uuid p st :
  ∃ l, expire_bound_approval_request uuid p st = st <| st_approvals := l |>.
Proof.
  unfold expire_bound_approval_request.
  assert (st = st <| st_approvals := st_approvals st |>) as Hs by (by destruct st).
  destruct (negb _); [by eexists|]. destruct (negb _); [by eexists|].
  destruct (uuid _); by eexists.
Qed.

Lemma expire_congr uuid p st st' :
  st_approvals st = st_approvals st' →
  st_approvals (expire_bound_approval_request uuid p st) =
  st_approvals (expire_bound_approval_request uuid p st').
Proof.
  intros H. unfold expire_bound_approval_request.
  destruct (negb _); [done|]. destruct (negb _); [done|]. destruct (uuid _); [|done]. simpl. by rewrite H.
Qed.

Lemma wake_one_claimed now uuid resume w st :
  wake_one uuid resume true (claimed_wait now w) st =
    (Ok (), (if bool_decide (ww_wait_type w = DELAY) then st
             else expire_bound_approval_request uuid (ww_payload w) st)
            <| st_tasks ::= λ ts, ts ++ [resume_message w] |>).
Proof.
  unfold wake_one, resume_message, wait_outcome, claimed_wait, due_outcome, mbind, M_bind, modify.
  cbn. by destruct (bool_decide (ww_wait_type w = DELAY)).
Qed.

Definition expires (a0 a : ApprovalRequest) : Prop :=
  a = a0 ∨ (ar_status a0 = APPROVAL_PENDING ∧ a = a0 <| ar_status := APPROVAL_EXPIRED |>).

Lemma expire_approvals_expires uuid ws st :
  Forall2 expires (st_approvals st) (expire_approvals uuid ws st).
Proof.
  unfold expire_approvals. revert st. induction ws as [|w ws IH]; intros st; cbn [foldl].
  { apply Forall_Forall2_diag, Forall_forall. by left. }
  eapply (Forall2_trans expires expires); [|clear IH|apply IH].
  - intros x y z [->|[Hx ->]] [->|[Hy ->]]; [by left|by right|by right|done].
  - assert (Forall2 expires (st_approvals st) (st_approvals st)) as Hsame
      by (apply Forall_Forall2_diag, Forall_forall; by left).
    case_bool_decide; [done|]. unfold expire_bound_approval_request.
    destruct (negb _); [done|]. destruct (negb _); [done|]. destruct (uuid _); [|done].
    apply Forall2_fmap_r, Forall_Forall2_diag, Forall_forall. intros a _. unfold compose.
    case_bool_decide; [|by left]. case_bool_decide; [by right|by left].
Qed.

Lemma wake_all now uuid resume ws s s' :
  st_approvals s = st_approvals s' →
  mfor (claimed_wait now <$> ws) (wake_one uuid resume true) s' =
    (Ok (), s' <| st_approvals := expire_approvals uuid ws s |>
               <| st_tasks ::= λ ts, ts ++ (resume_message <$> ws) |>).
Proof.
  unfold expire_approvals. revert s s'. induction ws as [|w ws IH]; intros s s' Hs.
  - simpl. unfold mret, M_ret. f_equal. destruct s'. simpl in *. by rewrite Hs, app_nil_r.
  - rewrite fmap_cons. cbn [mfor foldl]. rewrite (M_bind_ok _ _ _ _ _ (wake_one_claimed _ _ _ _ _)).
    set (s1 := if bool_decide (ww_wait_type w = DELAY) then s else _). rewrite (IH s1).
    + f_equal. subst s1. destruct (bool_decide (ww_wait_type w = DELAY)).
      * simpl. by rewrite <- app_assoc.
      * destruct (expire_only_approvals uuid (ww_payload w) s') as [l ->]. simpl. by rewrite <- app_assoc.
    + subst s1. simpl. destruct (bool_decide (ww_wait_type w = DELAY)); [done|]. by apply expire_congr.
Qed.

(** A recovery pass that hands over to the broker claims its waits, sends
    exactly one resumption per claimed wait, with its outcome and the timeout
    action of an expired one, expires the pending approval requests bound to
    them, reports them in order, and touches nothing else. *)
Theorem wake_due_workflow_waits_spec now uuid resume locked n st :
  NoDup (ww_id <$> st_waits st) →
  let picked := picked_waits now locked n (st_waits st) in
  let st1 := st <| st_waits := (claim_due_waits now locked n (st_waits st)).2 |> in
  wake_due_workflow_waits now uuid resume locked n true st =
    (Ok (wake_result <$> (claimed_wait now <$> picked)),
     st1 <| st_approvals := expire_approvals uuid picked st |>
         <| st_tasks ::= λ ts, ts ++ (resume_message <$> picked) |>) ∧
  Forall2 expires (st_approvals st) (expire_approvals uuid picked st).
Proof.
  intros Hnd picked st1. split; [|apply expire_approvals_expires].
  destruct (claim_due_waits_rows now locked n (st_waits st) Hnd) as (l' & Hc & _).
  fold picked in Hc. subst st1. rewrite Hc. cbn [snd].
  unfold wake_due_workflow_waits, on_waits, mbind, M_bind. rewrite Hc.
  by rewrite (wake_all now uuid resume picked st) by done.
Qed.

Definition ex_no_resume (tenant token outcome : string) (decision : dict json) : M Store WorkflowRun :=
  raise (OtherException "unused" "").

Lemma wake_due_workflow_waits_spec_witness :
  st_tasks (wake_due_workflow_waits 9 (λ _, None) ex_no_resume ∅ 5 true ex_wait_store).2 =
    [ResumeNodeTask "T" "a" "elapsed" [] 0] ∧
  Forall2 expires (st_approvals ex_wait_store)
    (expire_approvals (λ _, None) (picked_waits 9 ∅ 5 (st_waits ex_wait_store)) ex_wait_store).
Proof.
  split; [vm_compute; reflexivity|].
  refine (proj2 (wake_due_workflow_waits_spec 9 (λ _, None) ex_no_resume ∅ 5 ex_wait_store _)).
  apply (bool_decide_unpack _). vm_compute. exact I.
Defined.

End Waits.
