(* ===== verification/Inputs.v ===== *)
(** * Node inputs (engine_inputs.py, engine_inputs_ports.py,
    engine_inputs_legacy.py, engine_inputs_bag.py)

    What a node receives: explicit bindings, values routed through edge ports,
    and what is left filled by name from the merged outputs upstream.  The port
    resolver extends lists in place, and those lists can belong to the recorded
    output of an upstream node, so it runs on a heap of list objects. *)
From S2P Require Import Prelude PyStr Json Graph Nodes.

Module Inputs.
Import Graph Nodes.
Local Open Scope string_scope.
Local Open Scope list_scope.

(** [a or b] *)
Definition jor (a b : json) : json := if Json.truthy a then a else b.
Definition empty_str : json := JStr "".
Definition empty_list : json := JArr [].

(** ** engine_inputs_bag.py *)

(** The merge, for plain values and for values on the heap. *)
Section bag.
Context {V : Type} (payload_of : dict V → dict V).

Definition merge_bag (initial_inputs trigger_payload : dict V) (upstream_outputs : list (dict V))
    : dict V :=
  let bag := Dict.update [] initial_inputs in
  let bag := Dict.update bag trigger_payload in
  let bag := Dict.update bag (payload_of trigger_payload) in
  foldl Dict.update bag upstream_outputs.
End bag.

Definition json_payload (trigger_payload : dict json) : dict json :=
  Json.as_dict (Json.getn "payload" trigger_payload).

Definition merge_upstream_bag (trigger_payload initial_inputs : dict json)
    (upstream_outputs : list (dict json)) : dict json :=
  merge_bag json_payload initial_inputs trigger_payload upstream_outputs.

(** ** engine_inputs_legacy.py *)

(** [l.extend(v)] for the value of a variant. *)
Definition extend_items (v : json) : result (list json) :=
  match v with
  | JArr l => Ok l
  | JStr s => Ok ((λ c, JStr (String c "")) <$> String.list_ascii_of_string s)
  | JObj o => Ok ((λ kv, JStr kv.1) <$> o)
  | JNull | JBool _ | JInt _ => Raise (OtherException "TypeError" "object is not iterable")
  end.

Fixpoint variant_accounts (variants : list json) : result (list json) :=
  match variants with
  | [] => Ok []
  | JObj variant :: rest =>
      here ← extend_items (jor (Json.getn "social_account_ids" variant) empty_list);
      there ← variant_accounts rest;
      mret (here ++ there)
  | _ :: rest => variant_accounts rest
  end.

Definition variant_ids (variants : list json) : list json :=
  flat_map (λ v, match v with
    | JObj variant => let i := Json.getn "id" variant in if Json.truthy i then [i] else []
    | _ => [] end) variants.

(** [collected or None] *)
Definition list_or_none (l : list json) : json := match l with [] => JNull | _ => JArr l end.

Section legacy.
Context (trigger_payload initial_inputs : dict json) (upstream_outputs : list (dict json)).
Context (run_id : option string).

Let bag : dict json := merge_upstream_bag trigger_payload initial_inputs upstream_outputs.
Let b (k : string) : json := Json.getn k bag.

Definition dict_or (a c : dict json) : dict json := match a with [] => c | _ => a end.

Definition legacy_webhook : dict json :=
  let payload := match trigger_payload with
    | [] => match Json.getn "payload" initial_inputs with JObj p => p | _ => initial_inputs end
    | p => p end in
  [("payload", JObj payload)].

Definition legacy_text : dict json :=
  let prompt := b "prompt" in
  let prompt := if Json.truthy prompt then prompt
                else match b "text" with JStr t => JStr t | _ => prompt end in
  [("prompt", jor prompt empty_str); ("system_hint", b "system_hint")].

Definition legacy_fact_review : dict json :=
  let generated := match b "generated_texts" with
    | JObj o => JObj o
    | _ => match b "text" with
           | JStr t => if PyStr.truthy t then JObj [("body", JStr t)] else JObj []
           | _ => JObj []
           end
    end in
  [("headline", jor (b "headline") (jor (b "title") (jor (b "text") empty_str)));
   ("summary", jor (b "summary") empty_str);
   ("claims", jor (b "claims") empty_list);
   ("keywords", jor (b "keywords") empty_list);
   ("topic", b "topic");
   ("generated_texts", generated);
   ("evidence_links", jor (b "evidence_links") empty_list);
   ("source_articles", jor (b "source_articles") empty_list);
   ("reviewer_issues", jor (b "reviewer_issues") empty_list)].

Definition legacy_image : dict json :=
  let keywords := match jor (b "keywords") empty_str with
    | JArr l => JStr (PyStr.join ", " (Json.str <$> l))
    | v => v end in
  [("content_job_id", b "content_job_id");
   ("headline", jor (b "headline") (jor (b "title") (jor (b "text") empty_str)));
   ("primary_topic", jor (b "primary_topic") (jor (b "topic") (JStr "general")));
   ("keywords", keywords)].

Definition legacy_publish : result (dict json) :=
  let idempotency := b "idempotency_key" in
  let idempotency := if Json.truthy idempotency then idempotency
    else match run_id with Some r => JStr ("wf-publish-" +:+ r) | None => idempotency end in
  let account_ids := b "social_account_ids" in
  account_ids ← (match Json.truthy account_ids, b "variants" with
    | false, JArr variants => l ← variant_accounts variants; mret (list_or_none l)
    | _, _ => mret account_ids end);
  let ids := jor (b "content_variant_ids") (b "variant_ids") in
  let ids := match Json.truthy ids, b "variants" with
    | false, JArr variants => list_or_none (variant_ids variants)
    | _, _ => ids end in
  mret [("content_job_id", b "content_job_id");
        ("approval_request_id", b "approval_request_id");
        ("social_account_ids", account_ids);
        ("content_variant_ids", ids);
        ("scheduled_for", b "scheduled_for");
        ("idempotency_key", idempotency)].

Definition legacy_transform : dict json :=
  let hashtags := match jor (b "hashtags") empty_list with JArr l => JArr l | _ => empty_list end in
  [("text", jor (jor (b "text") (b "canonical_text")) empty_str);
   ("title", b "title");
   ("hashtags", hashtags);
   ("social_account_ids", b "social_account_ids");
   ("content_job_id", b "content_job_id")].

Definition resolve_legacy_node_inputs (node_type : string) : result (dict json) :=
  if String.eqb node_type "manual_trigger" then
    mret [("payload", JObj (dict_or trigger_payload initial_inputs))]
  else if String.eqb node_type "webhook_trigger" then mret legacy_webhook
  else if String.eqb node_type "generate_text" then mret legacy_text
  else if String.eqb node_type "summarize" then
    mret [("text", jor (b "text") (jor (b "prompt") (jor (b "script") empty_str)))]
  else if String.eqb node_type "generate_script" then
    mret [("digest", b "digest");
          ("headline", jor (b "headline") (b "title"));
          ("summary", jor (b "summary") (jor (b "text") empty_str));
          ("article_points", jor (b "article_points") empty_list)]
  else if String.eqb node_type "fact_review" then mret legacy_fact_review
  else if String.eqb node_type "generate_image" then mret legacy_image
  else if String.eqb node_type "generate_tts" then
    mret [("content_job_id", b "content_job_id");
          ("headline", jor (b "headline") (jor (b "title") empty_str));
          ("summary", jor (b "summary") (jor (b "text") (jor (b "script") empty_str)));
          ("cta", jor (b "cta") empty_str)]
  else if String.eqb node_type "generate_video" then
    mret [("headline", jor (b "headline") (b "title"));
          ("summary", jor (b "summary") (jor (b "text") empty_str));
          ("article_points", jor (b "article_points") empty_list);
          ("script", b "script");
          ("content_job_id", b "content_job_id");
          ("cluster_id", b "cluster_id")]
  else if String.eqb node_type "generate_chess_video" then
    let source := jor (b "source_text") (jor (b "normalized_pgn") (jor (b "pgn")
                    (jor (b "text") empty_str))) in
    mret [("source_text", jor source JNull);
          ("chess_game_id", jor (b "chess_game_id") (b "game_id"));
          ("title", jor (b "title") (b "famous_title"));
          ("subtitle", b "subtitle")]
  else if String.eqb node_type "approval" then mret [("content_job_id", b "content_job_id")]
  else if String.eqb node_type "condition" then
    mret (Dict.update
      [("value", default (b "risk_score") (Dict.get "value" bag)); ("payload", JObj bag)]
      (List.filter (λ kv, negb (String.eqb kv.1 "payload")) bag))
  else if String.eqb node_type "delay" then mret []
  else if String.eqb node_type "wait" then
    mret [("correlation_key", b "correlation_key");
          ("payload", match b "payload" with JObj o => JObj o | _ => JObj [] end)]
  else if String.eqb node_type "fan_out" then
    mret [("items", match b "items" with JArr l => JArr l | _ => empty_list end);
          ("social_account_ids", jor (b "social_account_ids") empty_list)]
  else if String.eqb node_type "merge" then
    mret [("sources", JArr (JObj <$> upstream_outputs)); ("bag", JObj bag)]
  else if String.eqb node_type "platform_transform" then mret legacy_transform
  else if String.eqb node_type "publish" then legacy_publish
  else mret bag.
End legacy.

(** ** engine_inputs_ports.py *)

(** A list object: one of the recorded output of a node, under its key, or one
    made by the resolver. *)
Inductive addr := OutAddr (node key : string) | NewAddr (n : nat).
#[global] Instance addr_eq_dec : EqDecision addr.
Proof. solve_decision. Defined.

(** A value: JSON that is never mutated, a list object, or a dict the resolver made. *)
Inductive val := VJson (j : json) | VList (a : addr) | VDict (d : list (string * val)).

Record heap := { hp_lists : list (addr * list val); hp_next : nat }.

Fixpoint hfind (a : addr) (l : list (addr * list val)) : list val :=
  match l with
  | [] => []
  | (a', vs) :: l' => if decide (a = a') then vs else hfind a l'
  end.

Definition hread (a : addr) (h : heap) : list val := hfind a (hp_lists h).
Definition hwrite (a : addr) (vs : list val) (h : heap) : heap :=
  {| hp_lists := (a, vs) :: hp_lists h; hp_next := hp_next h |}.
Definition halloc (vs : list val) (h : heap) : addr * heap :=
  (NewAddr (hp_next h), {| hp_lists := (NewAddr (hp_next h), vs) :: hp_lists h; hp_next := S (hp_next h) |}).

(** The recorded outputs, their lists on the heap. *)
Definition load_value (node key : string) (v : json) : val :=
  match v with JArr _ => VList (OutAddr node key) | _ => VJson v end.
Definition load_output (node : string) (o : dict json) : dict val :=
  (λ kv, (kv.1, load_value node kv.1 kv.2)) <$> o.
Definition load_lists (node : string) (o : dict json) : list (addr * list val) :=
  flat_map (λ kv, match kv.2 with JArr l => [(OutAddr node kv.1, VJson <$> l)] | _ => [] end) o.
Definition load_heap (outputs : dict (dict json)) : heap := {|
  hp_lists := flat_map (λ no, load_lists no.1 no.2) outputs;
  hp_next := 0;
|}.

(** Reading a value back; [None] when lists contain each other too deeply. *)
Fixpoint reify (fuel : nat) (h : heap) (v : val) : option json :=
  match fuel with
  | O => match v with VJson j => Some j | _ => None end
  | S fuel =>
      match v with
      | VJson j => Some j
      | VList a => JArr <$> mapM (reify fuel h) (hread a h)
      | VDict d => JObj <$> mapM (λ kv, pair kv.1 <$> reify fuel h kv.2) d
      end
  end.

(** [current[part]] along a dotted path; [None] where the path leaves the dicts. *)
Fixpoint lookup_parts (parts : list string) (current : val) : val :=
  match parts with
  | [] => current
  | part :: rest =>
      let next := match current with
        | VDict d => Dict.get part d
        | VJson (JObj o) => VJson <$> Dict.get part o
        | _ => None end in
      match next with Some v => lookup_parts rest v | None => VJson JNull end
  end.

Definition lookup_dotted (data : val) (path : string) : val :=
  if PyStr.truthy path then lookup_parts (PyStr.split "." path) data else data.

Definition vtruthy (h : heap) (v : val) : bool :=
  match v with
  | VJson j => Json.truthy j
  | VList a => match hread a h with [] => false | _ => true end
  | VDict d => match d with [] => false | _ => true end
  end.

Section ports.
Context (trigger_payload initial_inputs run_context : dict json).

(** The recorded output of a node: [node_outputs.get(id) or {}]. *)
Definition output_of (outputs : dict (dict json)) (node_id : string) : dict val :=
  match Dict.get node_id outputs with Some o => load_output node_id o | None => [] end.

Definition opt_path (p : option string) : option string :=
  match p with Some s => if PyStr.truthy s then Some s else None | None => None end.

Definition resolve_binding (outputs : dict (dict json)) (binding : InputBinding) : val :=
  let at_path (d : dict json) :=
    match opt_path (ib_path binding) with
    | Some p => lookup_dotted (VJson (JObj d)) p
    | None => VJson (JObj d)
    end in
  match ib_source binding with
  | SrcConstant => VJson (ib_value binding)
  | SrcTrigger => at_path trigger_payload
  | SrcWorkflowInput => at_path initial_inputs
  | SrcContext => at_path run_context
  | SrcNode =>
      match opt_path (ib_node_id binding) with
      | None => VJson JNull
      | Some node_id =>
          let output := VDict (output_of outputs node_id) in
          match opt_path (ib_path binding), opt_path (ib_port binding) with
          | Some p, _ | None, Some p => lookup_dotted output p
          | None, None => output
          end
      end
  end.

(** The elements of a value that is a list. *)
Definition list_elements (h : heap) (v : val) : option (list val) :=
  match v with
  | VList a => Some (hread a h)
  | VJson (JArr l) => Some (VJson <$> l)
  | _ => None
  end.

Definition is_none (v : val) : bool := match v with VJson JNull => true | _ => false end.

(** [_assign_port]: a list already there is extended in place. *)
Definition assign_port (port_types : dict string) (port_name : string) (value : val)
    (st : dict val * heap) : dict val * heap :=
  let '(inputs, h) := st in
  if bool_decide (Dict.get port_name port_types = Some "array") then
    let existing := default (VJson JNull) (Dict.get port_name inputs) in
    if is_none existing then
      let '(a, h) := halloc (default [value] (list_elements h value)) h in
      (Dict.set port_name (VList a) inputs, h)
    else
      match existing with
      | VList a =>
          (inputs, hwrite a (hread a h ++ default [value] (list_elements h value)) h)
      | VJson (JArr l) =>
          (Dict.set port_name (VList (NewAddr (hp_next h))) inputs,
           (halloc ((VJson <$> l) ++ default [value] (list_elements h value)) h).2)
      | _ => (Dict.set port_name value inputs, h)
      end
  else (Dict.set port_name value inputs, h).

(** [_apply_edge] *)
Definition apply_edge (port_types : dict string) (e : GraphEdge) (source_output : dict val)
    (st : dict val * heap) : dict val * heap :=
  match opt_path (ge_source_port e), opt_path (ge_target_port e) with
  | Some sport, Some tport =>
      assign_port port_types tport (default (VJson JNull) (Dict.get sport source_output)) st
  | None, Some tport => assign_port port_types tport (VDict source_output) st
  | Some sport, None =>
      match Dict.get sport source_output with
      | Some v => (Dict.set sport v st.1, st.2)
      | None => st
      end
  | None, None => (foldl (λ inputs kv, Dict.setdefault kv.1 kv.2 inputs) st.1 source_output, st.2)
  end.

Definition incoming_edges (graph : WorkflowGraph) (node_id : string) : list GraphEdge :=
  List.filter (λ e, bool_decide (ge_target e = node_id)) (wg_edges graph).

(** Step 1: the explicit bindings. *)
Definition bind_inputs (outputs : dict (dict json)) (bindings : dict InputBinding) : dict val :=
  foldl (λ inputs kb, Dict.set kb.1 (resolve_binding outputs kb.2) inputs) [] bindings.

(** Step 2: the edges, unless their target port is bound. *)
Definition edge_step (outputs : dict (dict json)) (port_types : dict string)
    (bound : list string) (st : dict val * heap) (e : GraphEdge) : dict val * heap :=
  if match opt_path (ge_target_port e) with Some p => bool_decide (p ∈ bound) | None => false end then st
  else apply_edge port_types e (output_of outputs (ge_source e)) st.

(** Step 3: one declared port that is still missing. *)
Definition fill_port (bag : dict val) (no_incoming : bool) (upstream : list (dict val))
    (st : dict val * heap) (port : NodePort) : dict val * heap :=
  let name := np_name port in
  if Dict.mem name st.1 then st
  else match Dict.get name bag with
  | Some v => (Dict.set name v st.1, st.2)
  | None =>
      if String.eqb name "payload" && no_incoming
      then (Dict.set name (VJson (JObj (dict_or trigger_payload initial_inputs))) st.1, st.2)
      else if String.eqb name "bag" then (Dict.set name (VDict bag) st.1, st.2)
      else match upstream with
      | [] => st
      | _ =>
          if String.eqb (np_data_type port) "array" && String.eqb name "sources"
          then let '(a, h) := halloc (VDict <$> upstream) st.2 in (Dict.set name (VList a) st.1, h)
          else st
      end
  end.

Definition plain (d : dict json) : dict val := (λ kv, (kv.1, VJson kv.2)) <$> d.

Definition val_payload (d : dict val) : dict val :=
  match Dict.get "payload" d with Some (VJson (JObj o)) => plain o | _ => [] end.

(** The bag of the resolver. *)
Definition ports_bag (upstream : list (dict val)) : dict val :=
  merge_bag val_payload (plain initial_inputs) (plain trigger_payload) upstream.

Definition port_types_of (ports : list NodePort) : dict string :=
  foldl (λ d p, Dict.set (np_name p) (np_data_type p) d) [] ports.

(** The resolved inputs and the heap the recorded outputs are left in. *)
Definition resolve_ports_and_bindings (graph : WorkflowGraph) (graph_node : GraphNode)
    (outputs : dict (dict json)) (ports : list NodePort) : dict val * heap :=
  let port_types := port_types_of ports in
  let incoming := incoming_edges graph (gn_id graph_node) in
  let upstream := (λ e, output_of outputs (ge_source e)) <$> incoming in
  let bag := ports_bag upstream in
  let inputs := bind_inputs outputs (gn_input_bindings graph_node) in
  let bound := Dict.keys (gn_input_bindings graph_node) in
  let st := foldl (edge_step outputs port_types bound) (inputs, load_heap outputs) incoming in
  let st := foldl (fill_port bag (bool_decide (incoming = [])) upstream) st ports in
  match ports with
  | [] => (Dict.update bag st.1, st.2)
  | _ => st
  end.
End ports.

(** The recorded output of a node as the heap leaves it. *)
Definition recorded (fuel : nat) (h : heap) (node : string) (o : dict json) : option (dict json) :=
  mapM (λ kv, pair kv.1 <$> reify fuel h (load_value node kv.1 kv.2)) o.

(** ** engine_inputs.py *)

(** Containers nest through at most one dict between two lists extended by
    edges, so reading back takes two steps per edge and a few more. *)
Definition reify_fuel (graph : WorkflowGraph) : nat := 2 * length (wg_edges graph) + 8.

Definition circular {A} (v : option A) : result A :=
  match v with Some a => Ok a | None => Raise (ValueError "Circular reference detected") end.

(** The inputs, and the recorded outputs after resolution. *)
Definition resolve_node_inputs (node_type : string) (trigger_payload initial_inputs : dict json)
    (upstream_outputs : list (dict json)) (run_id : option string) (graph : WorkflowGraph)
    (graph_node : GraphNode) (node_outputs : dict (dict json)) (input_ports : list NodePort)
    (run_context : dict json) : result (dict json * dict (dict json)) :=
  if (2 <=? wg_schema_version graph)%Z then
    let incoming := incoming_edges graph (gn_id graph_node) in
    let outputs := match node_outputs with
      | [] => foldl (λ d eo, Dict.set (ge_source eo.1) eo.2 d) [] (zip incoming upstream_outputs)
      | _ => node_outputs end in
    let '(inputs, h) := resolve_ports_and_bindings trigger_payload initial_inputs run_context
      graph graph_node outputs input_ports in
    let fuel := reify_fuel graph in
    inputs ← circular (mapM (λ kv, pair kv.1 <$> reify fuel h kv.2) inputs);
    outputs ← circular (mapM (λ no, pair no.1 <$> recorded fuel h no.1 no.2) outputs);
    mret (inputs, match node_outputs with [] => [] | _ => outputs end)
  else
    inputs ← resolve_legacy_node_inputs trigger_payload initial_inputs upstream_outputs run_id node_type;
    mret (inputs, node_outputs).

(** ** Lemmas *)

Section resolved.
Context (trigger_payload initial_inputs run_context : dict json).
Context (graph : WorkflowGraph) (graph_node : GraphNode) (outputs : dict (dict json)).
Context (ports : list NodePort).

Let incoming := incoming_edges graph (gn_id graph_node).
Let bindings := gn_input_bindings graph_node.
Let bound := Dict.keys bindings.
Let types := port_types_of ports.

Lemma assign_port_other q tport v st :
  q ≠ tport → Dict.get q (assign_port types tport v st).1 = Dict.get q st.1.
Proof.
  intros Hq. destruct st as [inputs h]. unfold assign_port.
  destruct (bool_decide _); cbn [fst]; [|by rewrite Dict.get_set_ne].
  destruct (is_none _); [cbn; by rewrite Dict.get_set_ne|].
  destruct (default _ _) as [[]| |]; cbn; by rewrite ?Dict.get_set_ne.
Qed.

Lemma assign_port_wf tport v st : Dict.wf st.1 → Dict.wf (assign_port types tport v st).1.
Proof.
  intros H. destruct st as [inputs h]. unfold assign_port.
  destruct (bool_decide _); cbn [fst] in *; [|by apply Dict.wf_set].
  destruct (is_none _); [cbn; by apply Dict.wf_set|].
  destruct (default _ _) as [[]| |]; cbn; auto using Dict.wf_set.
Qed.

Lemma setdefault_all_keep q v (o d : dict val) :
  Dict.get q d = Some v → Dict.get q (foldl (λ d kv, Dict.setdefault kv.1 kv.2 d) d o) = Some v.
Proof.
  apply (foldl_keeps (λ d, Dict.get q d = Some v)). intros d' kv H. by rewrite Dict.get_setdefault, H.
Qed.

Lemma bind_inputs_get p b :
  Dict.wf bindings → Dict.get p bindings = Some b →
  Dict.get p (bind_inputs trigger_payload initial_inputs run_context outputs bindings) =
    Some (resolve_binding trigger_payload initial_inputs run_context outputs b).
Proof.
  intros Hwf Hb. unfold bind_inputs. set (f := resolve_binding _ _ _ _).
  assert (∀ l d, foldl (λ inputs kb, Dict.set kb.1 (f kb.2) inputs) d l = Dict.update d (Dict.mapv f l)) as Hf.
  { intros l. induction l as [|kb l IH]; intros d; [done|]. simpl. by rewrite IH. }
  rewrite Hf, Dict.get_update; [|unfold Dict.wf; by rewrite Dict.keys_mapv].
  by rewrite Dict.get_mapv, Hb.
Qed.

Lemma bind_inputs_unbound q :
  q ∉ bound → Dict.get q (bind_inputs trigger_payload initial_inputs run_context outputs bindings) = None.
Proof.
  unfold bind_inputs, bound. generalize bindings. intros l Hq.
  enough (∀ d, Dict.get q d = None → Dict.get q (foldl (λ inputs kb, Dict.set kb.1
    (resolve_binding trigger_payload initial_inputs run_context outputs kb.2) inputs) d l) = None) as H by by apply H.
  induction l as [|kb l IH]; intros d Hd; [done|]. simpl in Hq. apply not_elem_of_cons in Hq as [Hne Hq].
  simpl. apply IH; [done|]. by rewrite Dict.get_set_ne.
Qed.

Lemma bind_inputs_wf :
  Dict.wf (bind_inputs trigger_payload initial_inputs run_context outputs bindings).
Proof.
  apply (foldl_keeps Dict.wf); [|constructor]. intros d kb H. by apply Dict.wf_set.
Qed.

(** An edge that hands over a value under the bound name itself. *)
Definition overrides (p : string) (e : GraphEdge) : Prop :=
  opt_path (ge_target_port e) = None ∧ opt_path (ge_source_port e) = Some p.

Lemma edge_step_bound p v e st :
  p ∈ bound → ¬ overrides p e → Dict.get p st.1 = Some v →
  Dict.get p (edge_step outputs types bound st e).1 = Some v.
Proof.
  intros Hp He Hv. unfold edge_step, apply_edge, overrides in *.
  destruct (opt_path (ge_target_port e)) as [t|] eqn:Et.
  - case_bool_decide as Ht; [done|]. assert (p ≠ t) as Hne by congruence.
    destruct (opt_path (ge_source_port e)); by rewrite assign_port_other.
  - destruct (opt_path (ge_source_port e)) as [sp|] eqn:Es.
    + destruct (Dict.get sp _); [|done]. cbn. rewrite Dict.get_set_ne; [done|]. intros ->. by apply He.
    + cbn. by apply setdefault_all_keep.
Qed.

Lemma edge_step_wf e st : Dict.wf st.1 → Dict.wf (edge_step outputs types bound st e).1.
Proof.
  intros H. unfold edge_step, apply_edge. destruct (opt_path (ge_target_port e)) as [t|].
  - case_bool_decide; [done|]. destruct (opt_path (ge_source_port e)); by apply assign_port_wf.
  - destruct (opt_path (ge_source_port e)) as [sp|]; cbn [fst].
    + destruct (Dict.get sp _); [by apply Dict.wf_set|done].
    + apply (foldl_keeps Dict.wf); [|done]. intros d kv Hd. by apply Dict.wf_setdefault.
Qed.

Lemma fill_port_keep bag ni up st port p v :
  Dict.get p st.1 = Some v → Dict.get p (fill_port trigger_payload initial_inputs bag ni up st port).1 = Some v.
Proof.
  intros Hv. unfold fill_port. destruct (Dict.mem (np_name port) st.1) eqn:Hm; [done|].
  assert (p ≠ np_name port) as Hne.
  { intros ->. unfold Dict.mem in Hm. rewrite Hv in Hm. by rewrite bool_decide_eq_true_2 in Hm. }
  repeat case_match; cbn; by rewrite ?Dict.get_set_ne.
Qed.

Lemma fill_port_wf bag ni up st port :
  Dict.wf st.1 → Dict.wf (fill_port trigger_payload initial_inputs bag ni up st port).1.
Proof. intros H. unfold fill_port. repeat case_match; cbn; auto using Dict.wf_set. Qed.

(** ** Lists of recorded outputs *)

(** An edge that hands over values under their own names, [q] among them. *)
Definition names (q : string) (e : GraphEdge) : Prop :=
  opt_path (ge_target_port e) = None ∧
  match opt_path (ge_source_port e) with
  | Some sp => sp = q
  | None => q ∈ Dict.keys (output_of outputs (ge_source e))
  end.

(** Array ports fed by an edge that are not bound. *)
Definition collects (q : string) : Prop :=
  q ∉ bound ∧ Dict.get q types = Some "array" ∧
  ∃ e, e ∈ incoming ∧ opt_path (ge_target_port e) = Some q.

(** No port that collects a list is also filled under its own name. *)
Definition no_shared_list : Prop := ∀ q e, collects q → e ∈ incoming → ¬ names q e.

(** The lists of recorded outputs are those of [h0], and a collecting port
    holds nothing yet or a list of the resolver's own. *)
Definition untouched (h0 : heap) (st : dict val * heap) : Prop :=
  (∀ n k, hread (OutAddr n k) st.2 = hread (OutAddr n k) h0) ∧
  ∀ q, collects q → Dict.get q st.1 = None ∨ ∃ i, Dict.get q st.1 = Some (VList (NewAddr i)).

Lemma hread_alloc n k vs h : hread (OutAddr n k) (halloc vs h).2 = hread (OutAddr n k) h.
Proof. done. Qed.

Lemma assign_port_untouched h0 tport v st :
  tport ∉ bound → (∃ e, e ∈ incoming ∧ opt_path (ge_target_port e) = Some tport) →
  untouched h0 st → untouched h0 (assign_port types tport v st).
Proof.
  intros Hb He [Hh Hq]. destruct st as [inputs h]. cbn [fst snd] in *. unfold assign_port.
  destruct (decide (Dict.get tport types = Some "array")) as [Ht|Ht].
  - rewrite bool_decide_eq_true_2 by done.
    destruct (Hq tport) as [E|[i E]]; [done|..]; rewrite E; cbn [default is_none].
    + cbn [halloc]. split; cbn [fst snd]; [done|]. intros q Hc. rewrite Dict.get_set. case_decide; [right; by eexists|by apply Hq].
    + split; cbn [fst snd]; [|done]. intros n k. rewrite <- Hh. done.
  - rewrite bool_decide_eq_false_2 by done. split; [done|]. intros q Hc. cbn [fst].
    rewrite Dict.get_set_ne; [by apply Hq|]. intros ->. by destruct Hc as (_ & ? & _).
Qed.

Lemma setdefault_all_None q (o d : dict val) :
  q ∉ Dict.keys o → Dict.get q (foldl (λ d kv, Dict.setdefault kv.1 kv.2 d) d o) = Dict.get q d.
Proof.
  revert d. induction o as [|kv o IH]; intros d Hq; [done|]. simpl in *.
  apply not_elem_of_cons in Hq as [Hne Hq]. rewrite IH, Dict.get_setdefault by done.
  rewrite decide_False by done. by destruct (Dict.get q d).
Qed.

Lemma edge_step_untouched h0 st e :
  no_shared_list → e ∈ incoming → untouched h0 st → untouched h0 (edge_step outputs types bound st e).
Proof.
  intros Hns He Hu. unfold edge_step, apply_edge. destruct (opt_path (ge_target_port e)) as [t|] eqn:Et.
  - case_bool_decide as Hb; [done|].
    destruct (opt_path (ge_source_port e)); (apply assign_port_untouched; [done|by exists e|done]).
  - assert (∀ q, collects q → ¬ names q e) as Hn by (intros q Hc; by apply Hns).
    unfold names in Hn. rewrite Et in Hn. destruct Hu as [Hh Hq].
    destruct (opt_path (ge_source_port e)) as [sp|].
    + destruct (Dict.get sp _); [|done]. split; [done|]. intros q Hc. cbn [fst].
      rewrite Dict.get_set_ne; [by apply Hq|]. intros ->. by apply (Hn sp Hc).
    + split; [done|]. intros q Hc. cbn [fst]. rewrite setdefault_all_None; [by apply Hq|].
      intros Hin. by apply (Hn q Hc).
Qed.

Lemma edges_untouched h0 st es :
  no_shared_list → es ⊆ incoming → untouched h0 st →
  untouched h0 (foldl (edge_step outputs types bound) st es).
Proof.
  intros Hns. revert st. induction es as [|e es IH]; intros st Hsub Hu; [done|]. cbn [foldl].
  apply IH; [set_solver|]. apply edge_step_untouched; [done|set_solver|done].
Qed.

Lemma fill_port_heap bag ni up st port n k :
  hread (OutAddr n k) (fill_port trigger_payload initial_inputs bag ni up st port).2 =
  hread (OutAddr n k) st.2.
Proof. unfold fill_port, halloc. repeat case_match; done. Qed.

Lemma fill_ports_heap bag ni up ps st n k :
  hread (OutAddr n k) (foldl (fill_port trigger_payload initial_inputs bag ni up) st ps).2 =
  hread (OutAddr n k) st.2.
Proof.
  revert st. induction ps as [|p ps IH]; intros st; [done|]. simpl. by rewrite IH, fill_port_heap.
Qed.

Notation resolve := (resolve_ports_and_bindings trigger_payload initial_inputs run_context
  graph graph_node outputs ports).

Lemma resolve_heap n k :
  no_shared_list → hread (OutAddr n k) resolve.2 = hread (OutAddr n k) (load_heap outputs).
Proof.
  intros Hns. unfold resolve_ports_and_bindings.
  assert (∀ st : dict val * heap, (match ports with [] => (Dict.update (ports_bag trigger_payload initial_inputs
    ((λ e, output_of outputs (ge_source e)) <$> incoming)) st.1, st.2) | _ => st end).2 = st.2) as Hlast
    by (intros st; by case ports).
  rewrite Hlast, fill_ports_heap. set (st := (bind_inputs _ _ _ _ _, load_heap outputs)).
  assert (untouched (load_heap outputs) st) as Hst.
  { split; [done|]. intros q (Hq & _). left. by apply bind_inputs_unbound. }
  by apply (edges_untouched _ st incoming Hns ltac:(done) Hst).
Qed.

Lemma resolve_bound p b :
  Dict.wf bindings → Dict.get p bindings = Some b → (∀ e, e ∈ incoming → ¬ overrides p e) →
  Dict.get p resolve.1 = Some (resolve_binding trigger_payload initial_inputs run_context outputs b).
Proof.
  intros Hwf Hb He. unfold resolve_ports_and_bindings. fold incoming bindings bound types.
  set (v := resolve_binding _ _ _ _ _). set (st0 := (bind_inputs _ _ _ _ _, _)).
  set (st1 := foldl _ st0 incoming).
  assert (p ∈ bound) as Hp by (apply Dict.get_is_Some; by eexists).
  assert (Dict.wf st1.1 ∧ Dict.get p st1.1 = Some v) as [Hwf1 H1].
  { assert (∀ es st, es ⊆ incoming → Dict.wf st.1 ∧ Dict.get p st.1 = Some v →
      Dict.wf (foldl (edge_step outputs types bound) st es).1 ∧
      Dict.get p (foldl (edge_step outputs types bound) st es).1 = Some v) as H.
    { intros es. induction es as [|e es IH]; intros st Hsub [Hw Hg]; [done|]. cbn [foldl].
      apply IH; [set_solver|]. split; [by apply edge_step_wf|].
      apply edge_step_bound; [done|apply He; set_solver|done]. }
    apply H; [done|]. split; [apply bind_inputs_wf|by apply bind_inputs_get]. }
  set (st2 := foldl _ st1 ports).
  assert (Dict.wf st2.1 ∧ Dict.get p st2.1 = Some v) as [Hwf2 H2].
  { apply (foldl_keeps (λ st, Dict.wf st.1 ∧ Dict.get p st.1 = Some v)); [|done].
    intros st port [Hw Hg]. split; [by apply fill_port_wf|by apply fill_port_keep]. }
  clearbody st2. case ports; [|done]. cbn [fst]. by rewrite Dict.get_update, H2.
Qed.
End resolved.

(** ** Reading back *)

Lemma hfind_app a l1 l2 : a ∉ l1.*1 → hfind a (l1 ++ l2) = hfind a l2.
Proof.
  induction l1 as [|[a' vs] l1 IH]; intros Ha; [done|]. simpl in *.
  apply not_elem_of_cons in Ha as [Hne Ha]. rewrite decide_False by done. by apply IH.
Qed.

Lemma load_lists_find node o k l rest :
  Dict.wf o → Dict.get k o = Some (JArr l) →
  hfind (OutAddr node k) (load_lists node o ++ rest) = VJson <$> l.
Proof.
  intros _. induction o as [|[k' v] o IH]; [done|]. cbn [Dict.get]. intros H.
  unfold load_lists. cbn [flat_map snd fst]. rewrite <- app_assoc. fold (load_lists node o).
  case_decide as Hk; [injection H as ->; subst; simpl; by rewrite decide_True|].
  destruct v; simpl; try (by apply IH). rewrite decide_False by congruence. by apply IH.
Qed.

Lemma load_lists_other node o k n : node ≠ n → OutAddr n k ∉ (load_lists node o).*1.
Proof.
  intros Hne (x & E & Hx)%list_elem_of_fmap. unfold load_lists in Hx.
  apply list_elem_of_In, in_flat_map in Hx as (kv & _ & Hx). destruct kv.2; simpl in Hx; try done.
  destruct Hx as [<-|[]]. simpl in E. congruence.
Qed.

Lemma load_heap_read outputs n o k l :
  Dict.wf o → Dict.get n outputs = Some o → Dict.get k o = Some (JArr l) →
  hread (OutAddr n k) (load_heap outputs) = VJson <$> l.
Proof.
  intros Hwf. unfold hread, load_heap. cbn [hp_lists].
  induction outputs as [|[n' o'] outputs IH]; [done|]. cbn [Dict.get flat_map fst snd].
  case_decide as Hn.
  - intros [= ->] Hk. subst. by apply load_lists_find.
  - intros Ho Hk. rewrite hfind_app by (apply load_lists_other; congruence). by apply IH.
Qed.

Lemma reify_plain fuel h l : mapM (reify fuel h) (VJson <$> l) = Some l.
Proof.
  apply mapM_Some, Forall2_fmap_l, Forall_Forall2_diag, Forall_forall. intros v _. by destruct fuel.
Qed.

(** A heap that reads the lists of [outputs] unchanged records them unchanged. *)
Lemma recorded_kept fuel h outputs n o :
  (∀ n k, hread (OutAddr n k) h = hread (OutAddr n k) (load_heap outputs)) →
  Dict.wf o → Dict.get n outputs = Some o → recorded (S fuel) h n o = Some o.
Proof.
  intros Hh Hwf Hn. unfold recorded.
  assert (∀ kv, kv ∈ o → pair kv.1 <$> reify (S fuel) h (load_value n kv.1 kv.2) = Some kv) as H.
  { intros [k v] Hkv. apply Dict.elem_get in Hkv; [|done]. cbn [fst snd].
    destruct v; try done. cbn [load_value reify]. rewrite Hh, (load_heap_read _ _ o _ l) by done.
    by rewrite reify_plain. }
  apply mapM_Some, Forall_Forall2_diag, Forall_forall. done.
Qed.

(** ** Correctness *)

(** An explicit binding decides its port: whatever the edges, declared ports
    and upstream outputs are, the resolved input is the value of the binding,
    as long as no edge without target port hands over a source port of that
    very name. *)
Theorem explicit_binding_wins trigger_payload initial_inputs run_context graph graph_node outputs ports p b :
  Dict.wf (gn_input_bindings graph_node) → Dict.get p (gn_input_bindings graph_node) = Some b →
  (∀ e, e ∈ incoming_edges graph (gn_id graph_node) → ¬ overrides p e) →
  Dict.get p (resolve_ports_and_bindings trigger_payload initial_inputs run_context graph graph_node
    outputs ports).1 = Some (resolve_binding trigger_payload initial_inputs run_context outputs b).
Proof. apply resolve_bound. Qed.

Definition ex_edge (s t : string) (sp tp : option string) : GraphEdge :=
  {| ge_source := s; ge_target := t; ge_condition := None; ge_source_port := sp; ge_target_port := tp |}.
Definition ex_constant (v : json) : InputBinding :=
  {| ib_source := SrcConstant; ib_path := None; ib_value := v; ib_node_id := None; ib_port := None |}.
Definition ex_bound_node : GraphNode :=
  {| gn_id := "n"; gn_type := "summarize"; gn_version := 1; gn_config := [];
     gn_input_bindings := [("text", ex_constant (JStr "bound"))] |}.
Definition ex_text_port : NodePort := {| np_name := "text"; np_data_type := "string"; np_required := true |}.
Definition ex_port_graph (edges : list GraphEdge) : WorkflowGraph :=
  {| wg_schema_version := 2; wg_nodes := [ex_bound_node]; wg_edges := edges; wg_metadata := [] |}.
Definition ex_outputs : dict (dict json) := [("a", [("text", JStr "upstream")])].
Definition ex_resolve (edges : list GraphEdge) : dict val :=
  (resolve_ports_and_bindings [] [] [] (ex_port_graph edges) ex_bound_node ex_outputs [ex_text_port]).1.

Lemma explicit_binding_wins_witness :
  Dict.get "text" (ex_resolve [ex_edge "a" "n" (Some "text") (Some "text")]) = Some (VJson (JStr "bound")).
Proof.
  refine (explicit_binding_wins [] [] [] (ex_port_graph [ex_edge "a" "n" (Some "text") (Some "text")])
    ex_bound_node ex_outputs [ex_text_port] "text" (ex_constant (JStr "bound")) _ eq_refl _).
  - apply (bool_decide_unpack _). vm_compute. exact I.
  - intros e He [Ht _]. vm_compute in He. apply list_elem_of_singleton in He as ->. discriminate.
Defined.

(** Such an edge does override the binding, although the resolver documents
    that edges never do. *)
Theorem source_port_overrides_binding :
  ∃ graph graph_node outputs ports p b,
    Dict.get p (gn_input_bindings graph_node) = Some b ∧
    Dict.get p (resolve_ports_and_bindings [] [] [] graph graph_node outputs ports).1 ≠
      Some (resolve_binding [] [] [] outputs b).
Proof.
  exists (ex_port_graph [ex_edge "a" "n" (Some "text") None]), ex_bound_node, ex_outputs, [ex_text_port],
    "text", (ex_constant (JStr "bound")).
  split; [done|]. by vm_compute.
Qed.

(** Resolving the inputs of a node leaves the recorded outputs of all nodes as
    they were, unless an array port that collects values through an edge is also
    filled under its own name by another edge. *)
Theorem resolution_keeps_outputs trigger_payload initial_inputs run_context graph graph_node outputs ports n o :
  no_shared_list graph graph_node outputs ports → Dict.wf o → Dict.get n outputs = Some o →
  recorded (reify_fuel graph) (resolve_ports_and_bindings trigger_payload initial_inputs run_context
    graph graph_node outputs ports).2 n o = Some o.
Proof.
  intros Hns Hwf Ho. unfold reify_fuel. rewrite Nat.add_comm.
  apply (recorded_kept _ _ outputs); [|done|done]. intros n' k. by apply resolve_heap.
Qed.

Lemma resolution_keeps_outputs_witness :
  recorded (reify_fuel (ex_port_graph [])) (resolve_ports_and_bindings [] [] [] (ex_port_graph [])
    ex_bound_node [("a", [("items", JArr [JInt 1])])] []).2 "a" [("items", JArr [JInt 1])] =
  Some [("items", JArr [JInt 1])].
Proof.
  refine (resolution_keeps_outputs [] [] [] (ex_port_graph []) ex_bound_node
    [("a", [("items", JArr [JInt 1])])] [] "a" [("items", JArr [JInt 1])] _ _ eq_refl).
  - intros q e _ He. vm_compute in He. by apply not_elem_of_nil in He.
  - apply (bool_decide_unpack _). vm_compute. exact I.
Defined.

Definition ex_items_port : NodePort := {| np_name := "items"; np_data_type := "array"; np_required := true |}.
Definition ex_items_graph : WorkflowGraph :=
  {| wg_schema_version := 2; wg_nodes := []; wg_metadata := [];
     wg_edges := [plain_edge "a" "n"; ex_edge "c" "n" (Some "text") (Some "items")] |}.
Definition ex_items_outputs : dict (dict json) :=
  [("a", [("items", JArr [JInt 1])]); ("c", [("text", JStr "x")])].
Definition ex_items_node : GraphNode :=
  {| gn_id := "n"; gn_type := "t"; gn_version := 1; gn_config := []; gn_input_bindings := [] |}.

(** Otherwise the list of the upstream node is extended in place: its recorded
    output changes, and every further attempt of the node extends it again. *)
Theorem resolution_mutates_outputs :
  ∃ graph graph_node outputs1 outputs2 outputs3 ports inputs1 inputs2,
    resolve_node_inputs "t" [] [] [] None graph graph_node outputs1 ports [] = Ok (inputs1, outputs2) ∧
    resolve_node_inputs "t" [] [] [] None graph graph_node outputs2 ports [] = Ok (inputs2, outputs3) ∧
    outputs1 ≠ outputs2 ∧ outputs2 ≠ outputs3 ∧ inputs1 ≠ inputs2.
Proof.
  exists ex_items_graph, ex_items_node, ex_items_outputs,
    [("a", [("items", JArr [JInt 1; JStr "x"])]); ("c", [("text", JStr "x")])],
    [("a", [("items", JArr [JInt 1; JStr "x"; JStr "x"])]); ("c", [("text", JStr "x")])],
    [ex_items_port],
    [("items", JArr [JInt 1; JStr "x"])], [("items", JArr [JInt 1; JStr "x"; JStr "x"])].
  split; [vm_compute; reflexivity|]. split; [vm_compute; reflexivity|]. done.
Qed.

End Inputs.
