(* ===== verification/Testing.v ===== *)
(** * Dry runs and mocked generation (testing_support.py)

    The flags a run is started with for testing, and the fixed results that
    replace calls to language and media providers. *)
From S2P Require Import Prelude PyStr Json Nodes.

Module Testing.
Import Nodes.
Local Open Scope string_scope.
Local Open Scope list_scope.

Definition GENERATION_NODE_TYPES : list string :=
  ["generate_text"; "generate_canonical_content"; "summarize"; "generate_script"; "fact_review";
   "generate_image"; "generate_video"; "generate_tts"; "generate_chess_video";
   "generate_chess_narrative"].

Definition testing_flags (dry_run mock_generation simulate_approval : bool) : dict json :=
  [("dry_run", JBool dry_run); ("mock_generation", JBool mock_generation);
   ("simulate_approval", JBool simulate_approval)].

Definition merge_dry_run_config (run_config : dict json) (dry_run : bool) : dict json :=
  if dry_run then Dict.set "dry_run" (JBool true) run_config else run_config.

(** [str(inputs.get(k) or text)] *)
Definition str_input (k : string) (inputs : dict json) (text : string) : string :=
  Json.str (Json.get_or k inputs (JStr text)).

(** [len(v)]; numbers have none. *)
Definition py_len (v : json) : result Z :=
  match v with
  | JArr l => Ok (Z.of_nat (length l))
  | JObj o => Ok (Z.of_nat (length o))
  | JStr s => Ok (Z.of_nat (String.length s))
  | JNull | JBool _ | JInt _ => Raise (OtherException "TypeError" "object has no len()")
  end.

Definition mock_output (node_type : string) (inputs : dict json) : result (dict json) :=
  if String.eqb node_type "summarize" then
    mret [("text", JStr ("[mock summarize] " +:+ PyStr.take 200 (str_input "text" inputs "")));
          ("provider", JStr "mock")]
  else if String.eqb node_type "generate_canonical_content" then
    let plan_id := str_input "content_plan_id" inputs "00000000-0000-4000-8000-000000000002" in
    mret [("content_job_id", JStr "00000000-0000-4000-8000-000000000001");
          ("content_plan_id", JStr plan_id);
          ("text", JStr ("[mock canonical] plan=" +:+ PyStr.take 36 plan_id));
          ("status", JStr "completed"); ("risk_label", JStr "low"); ("asset_group_id", JNull);
          ("target_social_account_ids", JArr []); ("provider", JStr "mock")]
  else if String.eqb node_type "fact_review" then
    mret [("risk_label", JStr "low"); ("blocked", JBool false); ("fail_closed", JBool false);
          ("topic_categories", JArr []); ("reasons", JArr [JStr "mock"]); ("policy_flags", JArr []);
          ("review", JObj [("provider", JStr "mock")])]
  else if bool_decide (node_type ∈ ["generate_image"; "generate_video"; "generate_tts"]) then
    mret [("asset_url", JStr ("mock://" +:+ node_type)); ("provider", JStr "mock");
          ("mocked", JBool true)]
  else if String.eqb node_type "generate_chess_video" then
    mret [("chess_video_job_id", JStr "00000000-0000-4000-8000-0000000000c1");
          ("status", JStr "completed"); ("video_public_url", JStr "mock://chess-video");
          ("thumbnail_public_url", JNull); ("render_fingerprint", JStr "mock-fp");
          ("provider", JStr "mock"); ("mocked", JBool true)]
  else if String.eqb node_type "generate_chess_narrative" then
    let game_id := str_input "chess_game_id" inputs "00000000-0000-4000-8000-0000000000c2" in
    count ← py_len (Json.get_or "selected_moments" inputs (JArr []));
    mret [("chess_game_id", JStr game_id);
          ("narrative", JStr ("[mock narrative] game=" +:+ PyStr.take 36 game_id));
          ("moment_count", JInt count); ("provider", JStr "mock")]
  else
    let prompt := Json.str (Json.get_or "prompt" inputs (Json.get_or "topic" inputs (JStr "content"))) in
    mret [("text", JStr ("[mock " +:+ node_type +:+ "] " +:+ PyStr.take 240 prompt));
          ("provider", JStr "mock")].

Definition mock_generation_result (node_type : string) (inputs : dict json) : result NodeResult :=
  output ← mock_output node_type inputs;
  mret {| res_status := RS_SUCCEEDED; res_output := output; res_error := None;
          res_waiting_reason := None |}.

Definition maybe_mock_node_result (node_type : string) (inputs snapshot : dict json)
    : result (option NodeResult) :=
  match Json.getn "testing" snapshot with
  | JObj testing =>
      if negb (Json.truthy (Json.getn "mock_generation" testing)) then mret None
      else if negb (bool_decide (node_type ∈ GENERATION_NODE_TYPES)) then mret None
      else r ← mock_generation_result node_type inputs; mret (Some r)
  | _ => mret None
  end.

Definition simulated_approval_result (inputs : dict json) : NodeResult := {|
  res_status := RS_SUCCEEDED;
  res_output := [("approval_request_id", JStr "00000000-0000-4000-8000-000000000000");
                 ("status", JStr "approved"); ("channels", JArr [JStr "simulated"]);
                 ("simulated", JBool true); ("content_job_id", JStr (str_input "content_job_id" inputs ""))];
  res_error := None;
  res_waiting_reason := None;
|}.

(** Only the generation nodes of a run started with mocks are replaced, and
    their results always succeed. *)
Lemma maybe_mock_Some node_type inputs snapshot r :
  maybe_mock_node_result node_type inputs snapshot = Ok (Some r) →
  node_type ∈ GENERATION_NODE_TYPES ∧ res_status r = RS_SUCCEEDED.
Proof.
  unfold maybe_mock_node_result. destruct (Json.getn "testing" snapshot) as [| | | | |t]; try done.
  destruct (negb (Json.truthy _)); [done|]. case_bool_decide as Hin; [|done]. cbn [negb].
  unfold mock_generation_result, mbind, result_bind, mret, result_ret.
  destruct (mock_output node_type inputs); [|done]. intros H. by simplify_eq/=.
Qed.

End Testing.
