(* ===== verification/ControlNodes.v ===== *)
(** * The control and trigger nodes (nodes/condition_node.py,
    nodes/merge_nodes.py, nodes/pause_nodes.py, nodes/triggers.py)

    Instances of the node contract of [Nodes].  A validated model is the
    dictionary it dumps to; a datetime in it stays the JSON value it was read
    from.  Numbers of a document are integers (see [Json]): the condition node is
    modelled for those, and for texts that [float] reads, not for other numbers. *)
From Stdlib Require Import QArith.
From S2P Require Import Prelude PyStr Json Calendar Nodes.

Module ControlNodes.
Import Nodes.
Local Open Scope string_scope.
Local Open Scope list_scope.
Local Open Scope Z_scope.

(** ** Fields of a model *)

Definition invalid {A} (message : string) : result A := Raise (ValidationError message).
Definition required {A} : result A := invalid "Field required".

(** A field whose absence means [missing]. *)
Definition str_field (k : string) (missing : result string) (d : dict json) : result string :=
  match Dict.get k d with
  | None => missing
  | Some (JStr s) => Ok s
  | Some _ => invalid "Input should be a valid string"
  end.
Definition opt_str_field (k : string) (d : dict json) : result (option string) :=
  match Dict.get k d with
  | None | Some JNull => Ok None
  | Some (JStr s) => Ok (Some s)
  | Some _ => invalid "Input should be a valid string"
  end.
Definition dict_field (k : string) (missing : result (dict json)) (d : dict json) : result (dict json) :=
  match Dict.get k d with
  | None => missing
  | Some (JObj o) => Ok o
  | Some _ => invalid "Input should be a valid dictionary"
  end.
Definition list_field (k : string) (missing : result (list json)) (d : dict json) : result (list json) :=
  match Dict.get k d with
  | None => missing
  | Some (JArr l) => Ok l
  | Some _ => invalid "Input should be a valid list"
  end.
Definition choice_field (k dflt : string) (choices : list string) (d : dict json) : result string :=
  s ← str_field k (Ok dflt) d;
  if bool_decide (s ∈ choices) then Ok s else invalid "String should match pattern".

Fixpoint map_result {A B} (f : A → result B) (l : list A) : result (list B) :=
  match l with [] => Ok [] | x :: l' => y ← f x; ys ← map_result f l'; Ok (y :: ys) end.

Definition as_object (v : json) : result (dict json) :=
  match v with JObj o => Ok o | _ => invalid "Input should be a valid dictionary" end.

Definition opt_int (z : option Z) : json := match z with Some z => JInt z | None => JNull end.

(** ** Numbers *)

(** [float]: a rational, an infinity or no number. *)
Inductive pyfloat := Finite (q : Q) | Infinite (negative : bool) | NaN.

Definition round_half_even (m d : Z) : Z :=
  let q := m / d in let r := m mod d in
  if 2 * r <? d then q else if d <? 2 * r then q + 1 else if Z.even q then q else q + 1.

(** [float(z)] of an integer, which is an integer; [None]: it overflows. *)
Definition float_of_int (z : Z) : option Z :=
  let a := Z.abs z in
  if a <=? 2 ^ 53 then Some z
  else
    let e := Z.log2 a - 52 in
    let r := round_half_even a (2 ^ e) * 2 ^ e in
    if r <? 2 ^ 1024 then Some (Z.sgn z * r) else None.

Definition float_le (a b : pyfloat) : bool :=
  match a, b with
  | NaN, _ | _, NaN => false
  | Finite p, Finite q => Qle_bool p q
  | Infinite true, _ | _, Infinite false => true
  | _, _ => false
  end.
Definition float_lt (a b : pyfloat) : bool :=
  match a, b with NaN, _ | _, NaN => false | _, _ => negb (float_le b a) end.

(** ** Equality of values *)

Definition number_of (v : json) : option Z :=
  match v with JInt z => Some z | JBool b => Some (Z.b2z b) | _ => None end.

(** [a == b] *)
Fixpoint py_eq (a b : json) : bool :=
  match a, b with
  | JNull, JNull => true
  | JStr s, JStr t => String.eqb s t
  | JArr l, JArr l' =>
      (fix go l l' := match l, l' with
                      | [], [] => true
                      | x :: l, y :: l' => py_eq x y && go l l'
                      | _, _ => false
                      end) l l'
  | JObj o, JObj o' =>
      Nat.eqb (length o) (length o') &&
      (fix go o := match o with
                   | [] => true
                   | (k, x) :: o => match Dict.get k o' with Some y => py_eq x y | None => false end && go o
                   end) o
  | _, _ => match number_of a, number_of b with Some x, Some y => x =? y | _, _ => false end
  end.

Section nodes.
(** [now] is the reading of the clock; [float_of_text] is [float] of a text and
    [coerce_*] and [read_datetime] are the coercions of pydantic: a datetime is
    its local time and its offset, if any, in microseconds. *)
Context (now : Z) (float_of_text : string → option pyfloat) (coerce_int : json → option Z)
        (coerce_bool : json → option bool) (uuid_of_text : string → option string)
        (read_datetime : json → option (Z * option Z)).

Definition int_field (k : string) (missing : result Z) (d : dict json) : result Z :=
  match Dict.get k d with
  | None => missing
  | Some v => match coerce_int v with Some z => Ok z | None => invalid "Input should be a valid integer" end
  end.
(** [int | None] between two bounds *)
Definition opt_int_field (k : string) (dflt : option Z) (lo hi : Z) (d : dict json) : result (option Z) :=
  match Dict.get k d with
  | None => Ok dflt
  | Some JNull => Ok None
  | Some v => match coerce_int v with
              | Some z => if (lo <=? z) && (z <=? hi) then Ok (Some z) else invalid "Input is out of range"
              | None => invalid "Input should be a valid integer"
              end
  end.
Definition bool_field (k : string) (missing : result bool) (d : dict json) : result bool :=
  match Dict.get k d with
  | None => missing
  | Some v => match coerce_bool v with Some b => Ok b | None => invalid "Input should be a valid boolean" end
  end.
Definition read_uuid (v : json) : result string :=
  match v with
  | JStr s => match uuid_of_text s with Some u => Ok u | None => invalid "Input should be a valid UUID" end
  | _ => invalid "Input should be a valid UUID"
  end.
Definition opt_uuid_field (k : string) (d : dict json) : result (option string) :=
  match Dict.get k d with None | Some JNull => Ok None | Some v => u ← read_uuid v; Ok (Some u) end.

(** ** condition_node.py *)

Record ConditionConfig := {
  cc_field : string;
  cc_operator : string;
  cc_compare_to : json;
  cc_true_branch : string;
  cc_false_branch : string;
}.

Definition OPERATORS : list string := ["truthy"; "eq"; "neq"; "gt"; "gte"; "lt"; "lte"].

Definition read_condition_config (d : dict json) : result ConditionConfig :=
  field ← str_field "field" (Ok "value") d;
  operator ← choice_field "operator" "truthy" OPERATORS d;
  true_branch ← str_field "true_branch" (Ok "true") d;
  false_branch ← str_field "false_branch" (Ok "false") d;
  Ok {| cc_field := field; cc_operator := operator; cc_compare_to := Json.getn "compare_to" d;
        cc_true_branch := true_branch; cc_false_branch := false_branch |}.
Definition dump_condition_config (c : ConditionConfig) : dict json :=
  [("field", JStr (cc_field c)); ("operator", JStr (cc_operator c)); ("compare_to", cc_compare_to c);
   ("true_branch", JStr (cc_true_branch c)); ("false_branch", JStr (cc_false_branch c))].

(** The input keeps the fields it does not declare. *)
Definition validate_condition_input (d : dict json) : result (dict json) :=
  payload ← dict_field "payload" (Ok []) d;
  Ok ([("value", Json.getn "value" d); ("payload", JObj payload)] ++
      List.filter (λ kv, negb (bool_decide (kv.1 ∈ ["value"; "payload"]))) d).

Definition validate_condition_output (d : dict json) : result (dict json) :=
  branch ← str_field "branch" required d;
  matched ← bool_field "matched" required d;
  field ← str_field "field" required d;
  Ok [("branch", JStr branch); ("matched", JBool matched); ("evaluated_value", Json.getn "evaluated_value" d);
      ("field", JStr field)].

(** [float(v)] of a value whose numbers are integers; [None]: a TypeError or a
    ValueError, which [_eval] catches. *)
Definition to_float (v : json) : result (option pyfloat) :=
  match v with
  | JInt z => match float_of_int z with
              | Some f => Ok (Some (Finite (inject_Z f)))
              | None => Raise (OtherException "OverflowError" "int too large to convert to float")
              end
  | JBool b => Ok (Some (Finite (inject_Z (Z.b2z b))))
  | JStr s => Ok (float_of_text s)
  | _ => Ok None
  end.

Definition compare_floats (operator : string) (x y : pyfloat) : bool :=
  if String.eqb operator "gt" then float_lt y x
  else if String.eqb operator "gte" then float_le y x
  else if String.eqb operator "lt" then float_lt x y
  else if String.eqb operator "lte" then float_le x y
  else false.

Definition eval_condition (value : json) (operator : string) (compare_to : json) : result bool :=
  if String.eqb operator "truthy" then Ok (Json.truthy value)
  else if String.eqb operator "eq" then Ok (py_eq value compare_to)
  else if String.eqb operator "neq" then Ok (negb (py_eq value compare_to))
  else
    x ← to_float value;
    match x with
    | None => Ok false
    | Some x =>
        y ← to_float compare_to;
        match y with None => Ok false | Some y => Ok (compare_floats operator x y) end
    end.

Definition succeeded (output : dict json) : NodeResult :=
  {| res_status := RS_SUCCEEDED; res_output := output; res_error := None; res_waiting_reason := None |}.
Definition waiting (output : dict json) (reason : string) : NodeResult :=
  {| res_status := RS_WAITING; res_output := output; res_error := None; res_waiting_reason := Some reason |}.

(** The payload with the fields of the input over it. *)
Definition condition_bag (inputs : dict json) (payload : dict json) : dict json :=
  Dict.update payload (List.filter (λ kv, negb (bool_decide (kv.1 = "payload"))) inputs).

Definition execute_condition (inputs config : dict json) : result NodeResult :=
  inputs ← validate_condition_input inputs;
  cfg ← read_condition_config config;
  payload ← dict_field "payload" (Ok []) inputs;
  let evaluated := default (Json.getn "value" inputs) (Dict.get (cc_field cfg) (condition_bag inputs payload)) in
  matched ← eval_condition evaluated (cc_operator cfg) (cc_compare_to cfg);
  Ok (succeeded [("branch", JStr (if matched : bool then cc_true_branch cfg else cc_false_branch cfg));
                 ("matched", JBool matched); ("evaluated_value", evaluated); ("field", JStr (cc_field cfg))]).

Definition port (name data_type : string) (req : bool) : NodePort :=
  {| np_name := name; np_data_type := data_type; np_required := req |}.

Definition ConditionNode : WorkflowNode := {|
  wn_type := "condition"; wn_version := 1; wn_category := "control"; wn_implementation_status := STABLE;
  wn_input_ports := [port "value" "any" false; port "payload" "object" false];
  wn_output_ports := [port "branch" "string" true; port "matched" "boolean" true; port "evaluated_value" "any" false];
  wn_required_capabilities := []; wn_may_pause := false; wn_retry_policy := default_retry_policy;
  wn_config_defaults := c ← read_condition_config []; Ok (dump_condition_config c);
  wn_config_fields := ["field"; "operator"; "compare_to"; "true_branch"; "false_branch"];
  wn_validate_config := λ d, c ← read_condition_config d; Ok (dump_condition_config c);
  wn_validate_inputs := validate_condition_input; wn_validate_output := validate_condition_output;
  wn_execute := λ _ inputs config, execute_condition inputs config |}.

(** ** merge_nodes.py *)

Definition read_fan_out_mode (d : dict json) : result string := choice_field "mode" "list" ["list"; "account_ids"] d.

Definition validate_fan_out_input (d : dict json) : result (dict json) :=
  items ← list_field "items" (Ok []) d;
  ids ← list_field "social_account_ids" (Ok []) d;
  ids ← map_result read_uuid ids;
  Ok [("items", JArr items); ("social_account_ids", JArr (JStr <$> ids))].

Definition validate_fan_out_output (d : dict json) : result (dict json) :=
  items ← list_field "items" required d;
  count ← int_field "count" required d;
  mode ← str_field "mode" required d;
  Ok [("items", JArr items); ("count", JInt count); ("mode", JStr mode)].

Definition execute_fan_out (inputs config : dict json) : result NodeResult :=
  inputs ← validate_fan_out_input inputs;
  mode ← read_fan_out_mode config;
  typed_items ← list_field "items" required inputs;
  ids ← list_field "social_account_ids" required inputs;
  let items :=
    if String.eqb mode "account_ids" then match ids with [] => typed_items | _ => ids end
    else match typed_items with [] => ids | _ => typed_items end in
  Ok (succeeded [("items", JArr items); ("count", JInt (Z.of_nat (length items))); ("mode", JStr mode)]).

Definition FanOutNode : WorkflowNode := {|
  wn_type := "fan_out"; wn_version := 1; wn_category := "control"; wn_implementation_status := STABLE;
  wn_input_ports := [port "items" "array" false; port "social_account_ids" "array" false];
  wn_output_ports := [port "items" "array" true; port "count" "number" true; port "mode" "string" true];
  wn_required_capabilities := []; wn_may_pause := false; wn_retry_policy := default_retry_policy;
  wn_config_defaults := Ok [("mode", JStr "list")]; wn_config_fields := ["mode"];
  wn_validate_config := λ d, mode ← read_fan_out_mode d; Ok [("mode", JStr mode)];
  wn_validate_inputs := validate_fan_out_input; wn_validate_output := validate_fan_out_output;
  wn_execute := λ _ inputs config, execute_fan_out inputs config |}.

Definition read_merge_mode (d : dict json) : result string := choice_field "mode" "all" ["all"; "any"] d.

Definition read_merge_input (d : dict json) : result (list (dict json) * dict json) :=
  sources ← list_field "sources" (Ok []) d;
  sources ← map_result as_object sources;
  bag ← dict_field "bag" (Ok []) d;
  Ok (sources, bag).

Definition validate_merge_output (d : dict json) : result (dict json) :=
  merged ← dict_field "merged" required d;
  sources ← list_field "sources" required d;
  sources ← map_result as_object sources;
  mode ← str_field "mode" required d;
  source_count ← int_field "source_count" required d;
  Ok [("merged", JObj merged); ("sources", JArr (JObj <$> sources)); ("mode", JStr mode);
      ("source_count", JInt source_count)].

Definition merged_bag (bag : dict json) (sources : list (dict json)) : dict json := foldl Dict.update bag sources.

(** The output with the merged keys at its top level. *)
Definition execute_merge (inputs config : dict json) : result NodeResult :=
  '(sources, bag) ← read_merge_input inputs;
  mode ← read_merge_mode config;
  let merged := merged_bag bag sources in
  Ok (succeeded (Dict.update
    [("merged", JObj merged); ("sources", JArr (JObj <$> sources)); ("mode", JStr mode);
     ("source_count", JInt (Z.of_nat (length sources)))] merged)).

Definition MergeNode : WorkflowNode := {|
  wn_type := "merge"; wn_version := 1; wn_category := "control"; wn_implementation_status := STABLE;
  wn_input_ports := [port "sources" "array" false; port "bag" "object" false];
  wn_output_ports := [port "merged" "object" true; port "sources" "array" true; port "source_count" "number" true];
  wn_required_capabilities := []; wn_may_pause := false; wn_retry_policy := default_retry_policy;
  wn_config_defaults := Ok [("mode", JStr "all")]; wn_config_fields := ["mode"];
  wn_validate_config := λ d, mode ← read_merge_mode d; Ok [("mode", JStr mode)];
  wn_validate_inputs := λ d, '(sources, bag) ← read_merge_input d;
                             Ok [("sources", JArr (JObj <$> sources)); ("bag", JObj bag)];
  wn_validate_output := validate_merge_output;
  wn_execute := λ _ inputs config, execute_merge inputs config |}.

(** ** pause_nodes.py *)

(** The datetime as pydantic writes it in JSON. *)
Definition json_datetime (wall offset : Z) : string :=
  let us := wall mod 1000000 in
  Calendar.date_time_text (wall / 1000000) +:+
  (if us =? 0 then "" else "." +:+ Calendar.pad_left 6 (PyStr.of_Z us)) +:+
  (if offset =? 0 then "Z" else Calendar.offset_text offset).

Record DelayConfig := {
  dc_duration_seconds : option Z;
  dc_until : json;
}.

Definition datetime_of (v : json) : result (Z * option Z) :=
  match read_datetime v with Some d => Ok d | None => invalid "Input should be a valid datetime" end.

Definition read_delay_config (d : dict json) : result DelayConfig :=
  duration ← opt_int_field "duration_seconds" (Some 60) 1 604800 d;
  let until := Json.getn "until" d in
  _ ← match until with JNull => Ok () | v => _ ← datetime_of v; Ok () end;
  if bool_decide (until = JNull) && bool_decide (duration = None)
  then invalid "delay requires duration_seconds or until"
  else Ok {| dc_duration_seconds := duration; dc_until := until |}.
Definition dump_delay_config (c : DelayConfig) : dict json :=
  [("duration_seconds", opt_int (dc_duration_seconds c)); ("until", dc_until c)].

(** [int(duration or 1)] *)
Definition duration_of (c : DelayConfig) : Z :=
  match dc_duration_seconds c with Some d => if d =? 0 then 1 else d | None => 1 end.

Definition execute_delay (config : dict json) : result NodeResult :=
  cfg ← read_delay_config config;
  resume_at ← match dc_until cfg with
              | JNull => Ok (now + 1000000 * duration_of cfg, 0)
              | v => '(wall, offset) ← datetime_of v; Ok (wall, default 0 offset)
              end;
  Ok (waiting [("resume_at", JStr (json_datetime resume_at.1 resume_at.2)); ("scheduled", JBool true);
               ("status", JStr "pending")] "delay_until").

(** A naive datetime is written without offset. *)
Definition validate_delay_output (d : dict json) : result (dict json) :=
  resume_at ← match Dict.get "resume_at" d with Some v => datetime_of v | None => required end;
  scheduled ← bool_field "scheduled" (Ok true) d;
  status ← str_field "status" (Ok "pending") d;
  let '(wall, offset) := resume_at in
  let text := match offset with
              | Some o => json_datetime wall o
              | None => let s := json_datetime wall 0 in PyStr.take (String.length s - 1) s
              end in
  Ok [("resume_at", JStr text); ("scheduled", JBool scheduled); ("status", JStr status)].

Definition DelayNode : WorkflowNode := {|
  wn_type := "delay"; wn_version := 1; wn_category := "control"; wn_implementation_status := STABLE;
  wn_input_ports := [];
  wn_output_ports := [port "resume_at" "string" true; port "scheduled" "boolean" true; port "status" "string" true];
  wn_required_capabilities := []; wn_may_pause := true; wn_retry_policy := default_retry_policy;
  wn_config_defaults := c ← read_delay_config []; Ok (dump_delay_config c);
  wn_config_fields := ["duration_seconds"; "until"];
  wn_validate_config := λ d, c ← read_delay_config d; Ok (dump_delay_config c);
  wn_validate_inputs := λ _, Ok []; wn_validate_output := validate_delay_output;
  wn_execute := λ _ _ config, execute_delay config |}.

Record WaitConfig := {
  wcf_event : string;
  wcf_timeout_seconds : option Z;
  wcf_on_timeout : string;
}.

Definition read_wait_config (d : dict json) : result WaitConfig :=
  event ← choice_field "event" "manual" ["manual"; "webhook"] d;
  timeout ← opt_int_field "timeout_seconds" None 60 604800 d;
  on_timeout ← choice_field "on_timeout" "fail" ["fail"; "continue"] d;
  Ok {| wcf_event := event; wcf_timeout_seconds := timeout; wcf_on_timeout := on_timeout |}.
Definition dump_wait_config (c : WaitConfig) : dict json :=
  [("event", JStr (wcf_event c)); ("timeout_seconds", opt_int (wcf_timeout_seconds c));
   ("on_timeout", JStr (wcf_on_timeout c))].

Definition read_wait_input (d : dict json) : result (option string * dict json) :=
  correlation_key ← opt_str_field "correlation_key" d;
  payload ← dict_field "payload" (Ok []) d;
  Ok (correlation_key, payload).

Definition validate_wait_output (d : dict json) : result (dict json) :=
  status ← str_field "status" (Ok "pending") d;
  event ← str_field "event" required d;
  correlation_key ← opt_str_field "correlation_key" d;
  event_payload ← dict_field "event_payload" (Ok []) d;
  timeout ← match Dict.get "timeout_seconds" d with
            | None | Some JNull => Ok None
            | Some v => match coerce_int v with Some z => Ok (Some z) | None => invalid "Input should be a valid integer" end
            end;
  on_timeout ← opt_str_field "on_timeout" d;
  Ok [("status", JStr status); ("event", JStr event); ("correlation_key", Json.opt_str correlation_key);
      ("event_payload", JObj event_payload); ("timeout_seconds", opt_int timeout);
      ("on_timeout", Json.opt_str on_timeout)].

Definition execute_wait (inputs config : dict json) : result NodeResult :=
  '(correlation_key, payload) ← read_wait_input inputs;
  cfg ← read_wait_config config;
  let on_timeout := match wcf_timeout_seconds cfg with
                    | Some t => if t =? 0 then None else Some (wcf_on_timeout cfg) | None => None end in
  Ok (waiting [("status", JStr "pending"); ("event", JStr (wcf_event cfg));
               ("correlation_key", Json.opt_str correlation_key); ("event_payload", JObj payload);
               ("timeout_seconds", opt_int (wcf_timeout_seconds cfg)); ("on_timeout", Json.opt_str on_timeout)]
        "event_pending").

Definition WaitNode : WorkflowNode := {|
  wn_type := "wait"; wn_version := 1; wn_category := "control"; wn_implementation_status := STABLE;
  wn_input_ports := [port "correlation_key" "string" false; port "payload" "object" false];
  wn_output_ports := [port "status" "string" true; port "event" "string" true; port "event_payload" "object" false];
  wn_required_capabilities := []; wn_may_pause := true; wn_retry_policy := default_retry_policy;
  wn_config_defaults := c ← read_wait_config []; Ok (dump_wait_config c);
  wn_config_fields := ["event"; "timeout_seconds"; "on_timeout"];
  wn_validate_config := λ d, c ← read_wait_config d; Ok (dump_wait_config c);
  wn_validate_inputs := λ d, '(key, payload) ← read_wait_input d;
                             Ok [("correlation_key", Json.opt_str key); ("payload", JObj payload)];
  wn_validate_output := validate_wait_output;
  wn_execute := λ _ inputs config, execute_wait inputs config |}.

(** ** triggers.py *)

Definition validate_payload (d : dict json) : result (dict json) :=
  payload ← dict_field "payload" (Ok []) d; Ok [("payload", JObj payload)].

Definition validate_trigger_output (trigger_type : string) (d : dict json) : result (dict json) :=
  payload ← dict_field "payload" (Ok []) d;
  trigger_type ← str_field "trigger_type" (Ok trigger_type) d;
  Ok [("payload", JObj payload); ("trigger_type", JStr trigger_type)].

Definition execute_trigger (trigger_type : string) (inputs : dict json) : result NodeResult :=
  payload ← dict_field "payload" (Ok []) inputs;
  Ok (succeeded [("payload", JObj payload); ("trigger_type", JStr trigger_type)]).

Definition trigger_node (node_type trigger_type : string) (fields : list string)
    (validate_config : dict json → result (dict json)) : WorkflowNode := {|
  wn_type := node_type; wn_version := 1; wn_category := "triggers"; wn_implementation_status := STABLE;
  wn_input_ports := [port "payload" "object" false];
  wn_output_ports := [port "payload" "object" true; port "trigger_type" "string" true];
  wn_required_capabilities := []; wn_may_pause := false; wn_retry_policy := default_retry_policy;
  wn_config_defaults := validate_config []; wn_config_fields := fields; wn_validate_config := validate_config;
  wn_validate_inputs := validate_payload; wn_validate_output := validate_trigger_output trigger_type;
  wn_execute := λ _ inputs _, execute_trigger trigger_type inputs |}.

Definition ManualTriggerNode : WorkflowNode :=
  trigger_node "manual_trigger" "manual" ["label"] (λ d,
    label ← opt_str_field "label" d; Ok [("label", Json.opt_str label)]).

Definition WebhookTriggerNode : WorkflowNode :=
  trigger_node "webhook_trigger" "webhook" ["label"; "expected_endpoint_id"] (λ d,
    label ← opt_str_field "label" d;
    endpoint ← opt_str_field "expected_endpoint_id" d;
    if Nat.ltb 64 (String.length (default "" endpoint))
    then invalid "String should have at most 64 characters"
    else Ok [("label", Json.opt_str label); ("expected_endpoint_id", Json.opt_str endpoint)]).

(** ** nodes/base.py: nodes that are registered but not wired *)

(** A model without fields that forbids any. *)
Definition empty_model (d : dict json) : result (dict json) :=
  match d with [] => Ok [] | _ => invalid "Extra inputs are not permitted" end.

Definition make_stub_node (node_type category : string) (version : Z) (may_pause : bool)
    (required_capabilities : list string) : WorkflowNode := {|
  wn_type := node_type; wn_version := version; wn_category := category;
  wn_implementation_status := UNAVAILABLE; wn_input_ports := []; wn_output_ports := [];
  wn_required_capabilities := required_capabilities; wn_may_pause := may_pause;
  wn_retry_policy := default_retry_policy; wn_config_defaults := Ok []; wn_config_fields := [];
  wn_validate_config := empty_model; wn_validate_inputs := empty_model; wn_validate_output := empty_model;
  wn_execute := λ _ _ _, Raise (OtherException "WorkflowNodeNotImplementedError"
    ("Node '" +:+ node_type +:+ "' v" +:+ PyStr.of_Z version +:+ " is registered but not implemented yet")) |}.

Definition ScheduleTriggerNode : WorkflowNode := make_stub_node "schedule_trigger" "triggers" 1 false [].

(** ** nodes/approval.py: the output schema *)

Definition validate_approval_output (d : dict json) : result (dict json) :=
  approval_request_id ← opt_uuid_field "approval_request_id" d;
  status ← str_field "status" required d;
  channels ← list_field "channels" (Ok []) d;
  channels ← map_result (λ v, match v with JStr s => Ok s | _ => invalid "Input should be a valid string" end) channels;
  content_job_id ← opt_uuid_field "content_job_id" d;
  revision_count ← int_field "revision_count" (Ok 0) d;
  Ok [("approval_request_id", Json.opt_str approval_request_id); ("status", JStr status);
      ("channels", JArr (JStr <$> channels)); ("content_job_id", Json.opt_str content_job_id);
      ("revision_count", JInt revision_count)].
End nodes.
End ControlNodes.
