(* ===== verification/Execute.v ===== *)
(** * Execution of one node (engine_execute.py)

    The body of [execute_ready_node] over the names its module binds: the code
    reads the clock through [datetime] and records some failures through
    [_persist_failure].  [Globals] says which of these names exist, and
    [module_globals] is the module as it is, which binds neither. *)
From Stdlib Require Import QArith.
From S2P Require Import Prelude PyStr Json Graph Nodes RunModels NodeIndex Ready Unlock Retry.
From S2P Require Import Claiming Cancellation Fanout Waits Inputs Testing.

Module Execute.
Import Graph Nodes Models Cancellation.
Local Open Scope string_scope.
Local Open Scope list_scope.
Local Open Scope Z_scope.

(** ** Exceptions as the classifier sees them *)

Definition OS_ERRORS : list string :=
  ["OSError"; "ConnectionError"; "TimeoutError"; "BlockingIOError"; "ChildProcessError";
   "BrokenPipeError"; "ConnectionAbortedError"; "ConnectionRefusedError"; "ConnectionResetError";
   "FileExistsError"; "FileNotFoundError"; "InterruptedError"; "IsADirectoryError";
   "NotADirectoryError"; "PermissionError"; "ProcessLookupError"].

(** [type(exc).__name__] and [str(exc)] *)
Definition exn_name (e : exn) : string :=
  match e with
  | HTTPException _ _ => "HTTPException" | HTTPStatusError _ _ => "HTTPStatusError"
  | ValueError _ => "ValueError" | KeyError _ => "KeyError"
  | NameError _ => "NameError" | ValidationError _ => "ValidationError"
  | WorkflowNodeNotFoundError _ => "WorkflowNodeNotFoundError" | OtherException c _ => c
  end.

Definition exn_text (e : exn) : string :=
  match e with
  | HTTPException code detail => PyStr.of_Z code +:+ ": " +:+ detail
  | KeyError k => PyStr.repr k
  | NameError n => "name '" +:+ n +:+ "' is not defined"
  | HTTPStatusError _ m | ValueError m | ValidationError m | WorkflowNodeNotFoundError m | OtherException _ m => m
  end.

Definition py_exception (e : exn) : Retry.PyException := {|
  Retry.exc_name := exn_name e;
  Retry.exc_message := exn_text e;
  Retry.exc_is_timeout := String.eqb (exn_name e) "TimeoutError";
  Retry.exc_is_connection := bool_decide (exn_name e ∈ OS_ERRORS);
|}.

(** ** The surroundings of a call *)

Record Globals := { g_datetime : bool; g_private_persist_failure : bool }.

(** engine_execute.py imports neither name. *)
Definition module_globals : Globals := {| g_datetime := false; g_private_persist_failure := false |}.
(** A module that binds both names, which the one under src/ is not: with it one can
    say what its body does once a name resolves.  What is proved under this value is
    about such a module only. *)
Definition repaired_globals : Globals := {| g_datetime := true; g_private_persist_failure := true |}.

Record Env := {
  en_cfg : Settings;
  en_now : Z;
  en_jitter : Q;
  en_fresh : nat → string;
  en_registry : registry;
  en_fromisoformat : string → option (Z * option Z);
  en_globals : Globals;
}.

Section execute.
Context (env : Env).

(** [str(uuid.uuid4())] *)
Definition uuid4 : M Store string :=
  st ← get_state; _ ← modify (λ st, st <| st_uuids ::= S |>); mret (en_fresh env (st_uuids st)).

(** [datetime.now(timezone.utc)] in engine_execute.py *)
Definition clock : M Store Z :=
  if g_datetime (en_globals env) then mret (en_now env) else raise (NameError "datetime").

(** The row object of [node]. *)
Definition row_of (node : WorkflowNodeRun) (st : Store) : WorkflowNodeRun :=
  default node (node_row (nr_id node) (st_node_runs st)).
Definition assign (node : WorkflowNodeRun) (f : WorkflowNodeRun → WorkflowNodeRun) : M Store unit :=
  modify (update_row (nr_id node) f).

(** [persist_failure(run=..., node_run=node, impl=impl, ...)] *)
Definition fail_row (node : WorkflowNodeRun) (impl : WorkflowNode) (error : dict json)
    (error_class : string) : M Store unit := λ st,
  let '(res, row) := Retry.persist_failure (en_cfg env) (en_now env) (en_jitter env)
                       (wn_retry_policy impl) error error_class (row_of node st) in
  (res, update_row (nr_id node) (λ _, row) st).

(** [_persist_failure(...)] *)
Definition private_fail_row (node : WorkflowNodeRun) (impl : WorkflowNode) (error : dict json)
    (error_class : string) : M Store unit :=
  if g_private_persist_failure (en_globals env) then fail_row node impl error error_class
  else raise (NameError "_persist_failure").

(** The rows of a run after an operation on the index: rows of the index are
    the row objects, rows it added are new in the table. *)
Definition put_rows (l : list WorkflowNodeRun) (st : Store) : Store :=
  st <| st_node_runs ::= λ rows,
    ((λ r, default r (node_row (nr_id r) l)) <$> rows) ++
    List.filter (λ r, negb (bool_decide (nr_id r ∈ nr_id <$> rows))) l |>.

Definition on_index {A} (run : WorkflowRun) (f : list WorkflowNodeRun → A * list WorkflowNodeRun)
    : M Store A := λ st,
  let '(a, l) := f (list_node_runs (wr_tenant_id run) (wr_id run) st) in (Ok a, put_rows l st).

(** A fan-out operation: it also draws ids. *)
Definition on_fan_out (run : WorkflowRun)
    (f : nat → list WorkflowNodeRun → Fanout.FanState) : M Store unit := λ st,
  let s := f (st_uuids st) (list_node_runs (wr_tenant_id run) (wr_id run) st) in
  (Ok (), put_rows (Fanout.fs_rows s) st <| st_uuids := Fanout.fs_next s |>).

(** ** Inputs of the node *)

(** The values seeded on the row fill the inputs that are still blank. *)
Definition fill_blank (inputs : dict json) (kv : string * json) : dict json :=
  if Json.is_blank (Json.getn kv.1 inputs) then Dict.set kv.1 kv.2 inputs else inputs.

Definition seed_inputs (seeded inputs : dict json) : dict json :=
  let inputs := foldl fill_blank inputs (List.filter (λ kv, negb (String.eqb kv.1 "upstream")) seeded) in
  match Dict.get "upstream" seeded with
  | Some (JObj upstream) => foldl fill_blank inputs upstream
  | _ => inputs
  end.

Definition dict_outputs (node_outputs : dict json) : dict (dict json) :=
  flat_map (λ kv, match kv.2 with JObj o => [(kv.1, o)] | _ => [] end) node_outputs.

(** The recorded outputs, their lists as resolution left them. *)
Definition write_outputs (outputs : dict (dict json)) (node_outputs : dict json) : dict json :=
  (λ kv, match kv.2 with
         | JObj o => (kv.1, JObj (default o (Dict.get kv.1 outputs)))
         | _ => kv end) <$> node_outputs.

Definition prepare_inputs (run : WorkflowRun) (graph_node : GraphNode) (node : WorkflowNodeRun)
    (graph : WorkflowGraph) (rows : list WorkflowNodeRun) (impl : WorkflowNode)
    (node_outputs initial_inputs : dict json) : result (dict json * dict json) :=
  let preds := ge_source <$> Inputs.incoming_edges graph (gn_id graph_node) in
  let upstream := Index.collect_upstream_outputs preds node_outputs rows in
  resolved ← Inputs.resolve_node_inputs (gn_type graph_node) (wr_trigger_payload run) initial_inputs
    upstream (Some (wr_id run)) graph graph_node (dict_outputs node_outputs) (wn_input_ports impl)
    (wr_context_snapshot run);
  let inputs := seed_inputs (nr_input_json node) resolved.1 in
  let inputs := if String.eqb (gn_type graph_node) "merge"
                then Dict.set "sources" (JArr (JObj <$> upstream)) inputs else inputs in
  mret (inputs, write_outputs resolved.2 node_outputs).

(** ** Running the implementation *)

(** The row of an attempt that starts. *)
Definition started (now : Z) (inputs : dict json) (task_execution_id : option string)
    (r : WorkflowNodeRun) : WorkflowNodeRun :=
  let r := r <| nr_status := RUNNING |> <| nr_attempt := nr_attempt r + 1 |>
             <| nr_started_at := match nr_started_at r with Some t => Some t | None => Some now end |>
             <| nr_input_json := inputs |> <| nr_next_attempt_at := None |> in
  match task_execution_id with
  | None => r
  | Some te =>
      let r := r <| nr_task_execution_id := Some te |> in
      if bool_decide (te ∈ nr_task_execution_ids r) then r
      else r <| nr_task_execution_ids ::= λ l, l ++ [te] |>
  end.

Definition node_context (run : WorkflowRun) (graph_node : GraphNode) (node : WorkflowNodeRun)
    (resume_token : option string) : WorkflowNodeContext := {|
  ctx_tenant_id := wr_tenant_id run; ctx_correlation_id := wr_correlation_id run;
  ctx_workflow_run_id := Some (wr_id run); ctx_automation_id := wr_automation_id run;
  ctx_brand_id := wr_brand_id run; ctx_node_id := Some (gn_id graph_node);
  ctx_node_run_id := Some (nr_id node); ctx_resume_token := resume_token;
  ctx_snapshot := wr_context_snapshot run;
|}.

Definition node_config (run : WorkflowRun) (graph_node : GraphNode) : dict json :=
  let snapshot_cfg := Json.as_dict (Json.getn "resolved_node_configs" (wr_context_snapshot run)) in
  match Dict.get (gn_id graph_node) snapshot_cfg with
  | Some (JObj c) => c
  | _ => gn_config graph_node
  end.

Definition not_executable_error (graph_node : GraphNode) (impl : WorkflowNode) : dict json :=
  [("code", JStr "node_not_executable");
   ("message", JStr ("Node '" +:+ gn_type graph_node +:+ "' is " +:+
      implementation_status_value (wn_implementation_status impl) +:+ " and cannot execute"))].

(** The [try] block: [None] when the node was refused and its failure recorded. *)
Definition run_implementation (run : WorkflowRun) (graph_node : GraphNode) (node : WorkflowNodeRun)
    (impl : WorkflowNode) (ctx : WorkflowNodeContext) (inputs : dict json)
    : M Store (option NodeResult) :=
  typed_in ← lift (wn_validate_inputs impl inputs);
  typed_cfg ← lift (wn_validate_config impl (node_config run graph_node));
  mocked ← lift (Testing.maybe_mock_node_result (gn_type graph_node) inputs (wr_context_snapshot run));
  match mocked with
  | Some r => mret (Some r)
  | None =>
      if negb (is_executable impl) then
        _ ← private_fail_row node impl (not_executable_error graph_node impl) "permanent";
        mret None
      else
        r ← lift (wn_execute impl ctx typed_in typed_cfg);
        mret (Some r)
  end.

(** ** Recording the result *)

Definition finished_row (now : Z) (status : NodeStatus) (r : WorkflowNodeRun) : WorkflowNodeRun :=
  r <| nr_status := status |> <| nr_finished_at := Some now |> <| nr_error_json := None |>
    <| nr_last_error := None |> <| nr_error_class := None |> <| nr_next_attempt_at := None |>.

Definition waiting_row (reason : option string) (token : string) (r : WorkflowNodeRun)
    : WorkflowNodeRun :=
  r <| nr_status := WAITING |> <| nr_waiting_reason := reason |> <| nr_resume_token := Some token |>
    <| nr_finished_at := None |> <| nr_last_error := None |> <| nr_error_class := None |>
    <| nr_next_attempt_at := None |>.

Definition store_output (graph_node : GraphNode) (node : WorkflowNodeRun) (output node_outputs : dict json)
    : dict json :=
  let node_outputs := Dict.set (Index.output_storage_key (gn_id graph_node) (nr_iteration_key node))
                        (JObj output) node_outputs in
  if PyStr.truthy (nr_iteration_key node) then node_outputs
  else Dict.set (gn_id graph_node) (JObj output) node_outputs.

(** After success or skipping: fan out, carry the iteration on, or unlock. *)
Definition propagate (run : WorkflowRun) (graph : WorkflowGraph) (graph_node : GraphNode)
    (node : WorkflowNodeRun) (status : NodeResultStatus) (output : dict json) : M Store unit :=
  let now := en_now env in
  if String.eqb (gn_type graph_node) "fan_out" && bool_decide (status = RS_SUCCEEDED) then
    on_fan_out run (Fanout.materialize_fan_out_success now graph (wr_tenant_id run) (wr_id run)
      (en_fresh env) (gn_id graph_node) output)
  else if PyStr.truthy (nr_iteration_key node) then
    on_fan_out run (Fanout.ensure_downstream_iteration now graph (wr_tenant_id run) (wr_id run)
      (en_fresh env) (gn_id graph_node) (nr_iteration_key node) output)
  else _ ← on_index run (Unlock.unlock_after_node_success now graph (gn_id graph_node) (Some output));
       mret ().

Definition record_result (run : WorkflowRun) (graph : WorkflowGraph) (graph_node : GraphNode)
    (node : WorkflowNodeRun) (impl : WorkflowNode) (resume_token : option string) (res : NodeResult)
    (output node_outputs : dict json) : M Store (dict json) :=
  _ ← assign node (λ r, r <| nr_output_json := output |>);
  let node_outputs := store_output graph_node node output node_outputs in
  now_done ← clock;
  match res_status res with
  | RS_SUCCEEDED | RS_SKIPPED =>
      let status := match res_status res with RS_SUCCEEDED => SUCCEEDED | _ => SKIPPED end in
      _ ← assign node (finished_row now_done status);
      _ ← propagate run graph graph_node node (res_status res) output;
      mret node_outputs
  | RS_WAITING =>
      token ← (if PyStr.opt_truthy resume_token then mret (default "" resume_token) else uuid4);
      _ ← assign node (waiting_row (res_waiting_reason res) token);
      st ← get_state;
      _ ← Waits.persist_waiting_node (en_now env) (en_fresh env) (en_fromisoformat env) run
            (row_of node st) output (res_waiting_reason res);
      mret node_outputs
  | RS_FAILED =>
      let payload := match res_error res with
                     | Some ((_ :: _) as e) => e | _ => [("code", JStr "node_failed")] end in
      _ ← fail_row node impl payload
            (Retry.error_class_value (Retry.classify_error_payload (Some payload)));
      mret node_outputs
  end.

(** [None]: the output was refused and the failure recorded. *)
Definition validated_output (node : WorkflowNodeRun) (impl : WorkflowNode) (res : NodeResult)
    : M Store (option (dict json)) :=
  match res_status res with
  | RS_FAILED => mret (Some (res_output res))
  | _ =>
      match wn_validate_output impl (res_output res) with
      | Ok output => mret (Some output)
      | Raise e =>
          _ ← private_fail_row node impl
                [("code", JStr "invalid_node_output"); ("message", JStr (exn_text e))] "permanent";
          mret None
      end
  end.

(** The failure recorded when the implementation raises. *)
Definition execute_error (node : WorkflowNodeRun) (impl : WorkflowNode) (e : exn) : M Store unit :=
  fail_row node impl [("code", JStr "execute_error"); ("message", JStr (exn_text e))]
    (Retry.error_class_value (Retry.classify_exception (py_exception e))).

(** The execution key of the row. *)
Definition keyed (run : WorkflowRun) (graph_node : GraphNode) (r : WorkflowNodeRun) : WorkflowNodeRun :=
  if PyStr.opt_truthy (nr_execution_key r) then r
  else r <| nr_execution_key := Some (Claiming.build_execution_key (wr_id run) (gn_id graph_node)
         (Fanout.node_version graph_node)
         (if PyStr.truthy (nr_iteration_key r) then Some (nr_iteration_key r) else None)) |>.

(** The recorded outputs after the call. *)
Definition execute_ready_node (run : WorkflowRun) (graph_node : GraphNode) (node_run : WorkflowNodeRun)
    (graph : WorkflowGraph) (node_outputs initial_inputs : dict json)
    (task_execution_id : option string) : M Store (dict json) :=
  st ← get_state;
  let node := row_of node_run st in
  if bool_decide (nr_status node ∈ [SUCCEEDED; SKIPPED; WAITING]) then mret node_outputs
  else
    let rows := list_node_runs (wr_tenant_id run) (wr_id run) st in
    impl ← lift (get (gn_type graph_node) (Some (gn_version graph_node)) (en_registry env));
    prepared ← lift (prepare_inputs run graph_node node graph rows impl node_outputs initial_inputs);
    let '(inputs, node_outputs) := prepared in
    _ ← assign node (keyed run graph_node);
    let inputs := Retry.apply_side_effect_idempotency (gn_type graph_node) inputs
                    (nr_execution_key (keyed run graph_node node)) in
    now ← clock;
    _ ← assign node (started now inputs task_execution_id);
    resume_token ← (if wn_may_pause impl && negb (PyStr.opt_truthy (nr_resume_token node))
                    then token ← uuid4;
                         _ ← assign node (λ r, r <| nr_resume_token := Some token |>);
                         mret (Some token)
                    else mret (nr_resume_token node));
    let ctx := node_context run graph_node node resume_token in
    outcome ← try_except (run_implementation run graph_node node impl ctx inputs)
                (λ e, _ ← execute_error node impl e; mret None);
    match outcome with
    | None => mret node_outputs
    | Some res =>
        validated ← validated_output node impl res;
        match validated with
        | None => mret node_outputs
        | Some output =>
            record_result run graph graph_node node impl resume_token res output node_outputs
        end
    end.
End execute.

(** ** The row of an attempt, through the store *)

Section attempt.
Context (env : Env).

(** [r] is the row under [i]; ids are distinct and those still to be drawn are new. *)
Definition row_at (i : string) (r : WorkflowNodeRun) (st : Store) : Prop :=
  NoDup (nr_id <$> st_node_runs st) ∧ node_row i (st_node_runs st) = Some r ∧
  ∀ n, (st_uuids st ≤ n)%nat → en_fresh env n ∉ nr_id <$> st_node_runs st.

Lemma row_at_id i r st : row_at i r st → nr_id r = i ∧ r ∈ st_node_runs st.
Proof. intros (_ & [? ?]%row_by_Some & _). done. Qed.

Lemma row_at_row_of r node st : row_at (nr_id node) r st → row_of node st = r.
Proof. intros (_ & H & _). unfold row_of. by rewrite H. Qed.

Lemma row_at_update i r f st :
  (∀ x, nr_id (f x) = nr_id x) → row_at i r st → row_at i (f r) (update_row i f st).
Proof.
  intros Hf (Hnd & Hr & Hfr). unfold row_at.
  change (st_node_runs (update_row i f st)) with (set_node i f (st_node_runs st)).
  change (st_uuids (update_row i f st)) with (st_uuids st).
  rewrite !set_row_keys, row_by_set_row, decide_True, Hr by done. done.
Qed.

Lemma row_at_set i r r' st :
  nr_id r' = i → row_at i r st → row_at i r' (update_row i (λ _, r') st).
Proof.
  intros Hi H. assert (update_row i (λ _, r') st =
    update_row i (λ x, if bool_decide (nr_id x = i) then r' else x) st) as ->.
  { unfold update_row, set_row. destruct st. unfold set_field. simpl. f_equal.
    apply list_fmap_ext. intros ? x _. by case_bool_decide. }
  destruct (row_at_id _ _ _ H) as [Hri _].
  replace r' with (if bool_decide (nr_id r = i) then r' else r) at 1 by (by rewrite bool_decide_eq_true_2).
  apply (row_at_update i r (λ x, if bool_decide (nr_id x = i) then r' else x)); [|done].
  intros x. case_bool_decide; congruence.
Qed.

Lemma row_at_other i r st st' :
  st_node_runs st' = st_node_runs st → (st_uuids st ≤ st_uuids st')%nat → row_at i r st → row_at i r st'.
Proof.
  unfold row_at. intros -> Hle (? & ? & Hn). split_and!; [done..|]. intros n ?. apply Hn. lia.
Qed.

(** A row of the run's index. *)
Definition in_run (run : WorkflowRun) (r : WorkflowNodeRun) : Prop :=
  nr_tenant_id r = wr_tenant_id run ∧ nr_workflow_run_id r = wr_id run.

(** Writing back an index the fan-out operations and the unlocking worked on
    keeps every row that is not an unstarted row of the run. *)
Lemma put_rows_row_at run i r st s :
  Inj (=) (=) (en_fresh env) →
  row_at i r st → (in_run run r → Ready.not_started (nr_status r) = false) →
  rtc (Fanout.fan_step (wr_tenant_id run) (wr_id run) (en_fresh env))
    {| Fanout.fs_rows := list_node_runs (wr_tenant_id run) (wr_id run) st;
       Fanout.fs_next := st_uuids st; Fanout.fs_out := [] |} s →
  row_at i r (put_rows (Fanout.fs_rows s) st <| st_uuids := Fanout.fs_next s |>).
Proof.
  intros Hinj H Hstart Hs. pose proof (row_at_id _ _ _ H) as [Hi Hin]. destruct H as (Hnd & Hr & Hfr0).
  set (start := {| Fanout.fs_rows := list_node_runs _ _ st |}) in Hs.
  assert (Fanout.well_numbered (en_fresh env) start) as Hw.
  { split; cbn.
    - eapply sublist_NoDup; [exact Hnd|]. apply fmap_sublist, filter_sublist.
    - intros n Hn Hin'. apply (Hfr0 n Hn). apply list_elem_of_fmap in Hin' as (x & -> & [? _]%list_node_runs_elem).
      by apply list_elem_of_fmap_2. }
  pose proof (Fanout.steps_well_numbered _ _ _ _ _ Hinj Hs Hw) as [Hndl Hfr].
  pose proof (Fanout.steps_next_mono _ _ _ _ _ Hs) as Hle. cbn in Hle.
  assert (default r (node_row i (Fanout.fs_rows s)) = r) as Hkeep.
  { destruct (decide (in_run run r)) as [[Ht Hrun]|Hout].
    - assert (Fanout.holds_started (en_fresh env) r start) as Hh.
      { split_and!; [done| |by apply Hstart]. cbn. apply row_by_elem; [apply Hw| |done].
        by apply list_node_runs_elem. }
      destruct (Fanout.steps_hold _ _ _ _ _ _ Hinj Hs Hh) as (_ & Hl & _). subst i. by rewrite Hl.
    - destruct (node_row i (Fanout.fs_rows s)) as [x|] eqn:Ex; [|done].
      apply row_by_Some in Ex as [Hx Hxi].
      destruct (Fanout.steps_rows _ _ _ _ _ x Hs Hx) as [Hb|(n & Hn & Hxn)].
      + cbn in Hb. apply list_elem_of_fmap in Hb as (y & Hy & (Hyin & Hyt & Hyr)%list_node_runs_elem).
        pose proof (row_by_elem nr_id i (st_node_runs st) y Hnd Hyin ltac:(congruence)) as Hy'.
        destruct Hout. unfold in_run. split; congruence.
      + exfalso. apply (Hfr0 n Hn). rewrite <- Hxn, Hxi, <- Hi. by apply list_elem_of_fmap_2. }
  set (l := Fanout.fs_rows s) in *. set (rows := st_node_runs st) in *.
  assert (nr_id <$> ((λ r, default r (node_row (nr_id r) l)) <$> rows) = nr_id <$> rows) as Hids.
  { rewrite <- list_fmap_compose. apply list_fmap_ext. intros ? x _. simpl.
    destruct (node_row (nr_id x) l) eqn:E; [|done]. by apply row_by_Some in E as [_ ?]. }
  unfold row_at, put_rows. cbn [st_node_runs st_uuids]. unfold set_field. cbn [st_node_runs st_uuids].
  fold rows l. rewrite fmap_app, Hids. split_and!.
  - apply NoDup_app. split_and!; [done| |].
    + intros x Hx (y & -> & Hy)%list_elem_of_fmap. apply list_elem_of_In, List.filter_In in Hy as [_ Hy].
      apply negb_true_iff, bool_decide_eq_false in Hy. done.
    + eapply sublist_NoDup; [exact Hndl|]. apply fmap_sublist, filter_sublist.
  - subst i. set (added := List.filter _ l). clearbody added. clear -Hr Hkeep. unfold row_by in *.
    induction rows as [|x rows IH]; [done|].
    rewrite fmap_cons. cbn [app List.find] in *.
    destruct (bool_decide (nr_id x = nr_id r)) eqn:E.
    + injection Hr as ->. rewrite Hkeep. by rewrite bool_decide_eq_true_2.
    + destruct (List.find (λ r0, bool_decide (nr_id r0 = nr_id x)) l) as [y|] eqn:Ey; cbn [default id].
      * apply find_Some_elem in Ey as [_ Ey%bool_decide_eq_true]. rewrite Ey, E. by apply IH.
      * rewrite E. by apply IH.
  - intros n Hn. rewrite not_elem_of_app. split; [apply Hfr0; lia|].
    intros (y & Hy & Hyl)%list_elem_of_fmap. apply list_elem_of_In, List.filter_In in Hyl as [Hyl%list_elem_of_In _].
    apply (Hfr n Hn). rewrite Hy. by apply list_elem_of_fmap_2.
Qed.

(** ** Steps of an attempt *)

Hypothesis fresh_inj : Inj (=) (=) (en_fresh env).
Hypothesis fresh_truthy : ∀ n, PyStr.truthy (en_fresh env n) = true.
Context (run : WorkflowRun) (i : string).

Lemma wp_assign node r f st :
  nr_id node = i → (∀ x, nr_id (f x) = nr_id x) → row_at i r st →
  wp (assign node f) (λ _, row_at i (f r)) (λ _ _, False) st.
Proof. intros <- Hf H. by apply wp_modify, row_at_update. Qed.

Lemma wp_uuid4 r st : row_at i r st → 
  wp (uuid4 env) (λ t st', PyStr.truthy t = true ∧ row_at i r st') (λ _ _, False) st.
Proof.
  intros H. apply wp_bind, wp_get, wp_bind, wp_modify, wp_ret. split; [apply fresh_truthy|].
  apply (row_at_other _ _ st); [done|simpl; lia|done].
Qed.

Lemma wp_fail_row node r impl error cls st :
  nr_id node = i → row_at i r st →
  Retry.policy_ok (wn_retry_policy impl) → nr_attempt r <= 1024 →
  (-1 <= en_jitter env)%Q ∧ (en_jitter env <= 1)%Q →
  wp (fail_row env node impl error cls)
    (λ _ st', ∃ r', row_at i r' st' ∧ nr_claim_token r' = nr_claim_token r ∧
       Retry.failed_attempt (en_now env) (wn_retry_policy impl) cls r r') (λ _ _, False) st.
Proof.
  intros Hn H Hp Ha Hj. unfold wp, fail_row. subst i. rewrite (row_at_row_of r) by done.
  destruct (Retry.persist_failure_outcome (en_cfg env) (en_now env) (en_jitter env) (wn_retry_policy impl)
    error cls r Hp Ha Hj) as (r' & -> & Hf & Hid & Htok & _).
  exists r'. split; [|done]. apply (row_at_set _ r); [|done]. destruct (row_at_id _ _ _ H). congruence.
Qed.

Lemma wp_unlock now graph source output r st (Q : list string → Store → Prop) :
  row_at i r st → (in_run run r → Ready.not_started (nr_status r) = false) →
  (∀ u st', row_at i r st' → Q u st') →
  wp (on_index run (Unlock.unlock_after_node_success now graph source output)) Q (λ _ _, False) st.
Proof.
  intros H Hs HQ. unfold wp, on_index.
  pose proof (Unlock.unlock_step now graph source output
    (list_node_runs (wr_tenant_id run) (wr_id run) st)) as Hu.
  destruct (Unlock.unlock_after_node_success _ _ _ _ _) as [u l]. cbn [snd] in Hu. apply HQ.
  apply (Fanout.unlock_fan_steps _ _ (wr_tenant_id run) (wr_id run) (en_fresh env) _ _ (st_uuids st) [] []) in Hu.
  pose proof (put_rows_row_at run i r st _ fresh_inj H Hs Hu) as Hput.
  cbn in Hput. replace (put_rows l st) with (put_rows l st <| st_uuids := st_uuids st |>); [done|].
  by destruct st.
Qed.

Lemma wp_propagate graph graph_node node r status output st :
  row_at i r st → (in_run run r → Ready.not_started (nr_status r) = false) →
  wp (propagate env run graph graph_node node status output) (λ _, row_at i r) (λ _ _, False) st.
Proof.
  intros H Hs. unfold propagate. destruct (_ && _); [|destruct (PyStr.truthy _)].
  - unfold wp, on_fan_out. apply (put_rows_row_at _ _ _ _ _ fresh_inj H Hs).
    by apply (Fanout.materialize_steps (en_now env) graph).
  - unfold wp, on_fan_out. apply (put_rows_row_at _ _ _ _ _ fresh_inj H Hs).
    by apply (Fanout.ensure_steps (en_now env) graph).
  - apply wp_bind. by eapply (wp_unlock _ _ _ _ r).
Qed.

(** ** The row an attempt leaves *)

(** Finished, paused, or failed by the rules of retries. *)
Definition attempt_done (policy : RetryPolicyDefaults) (r0 r' : WorkflowNodeRun) : Prop :=
  nr_attempt r' = nr_attempt r0 + 1 ∧ nr_claim_token r' = nr_claim_token r0 ∧
  ((nr_status r' ∈ [SUCCEEDED; SKIPPED] ∧ nr_finished_at r' = Some (en_now env) ∧
    nr_error_json r' = None ∧ nr_next_attempt_at r' = None) ∨
   (nr_status r' = WAITING ∧ PyStr.opt_truthy (nr_resume_token r') = true ∧
    nr_finished_at r' = None ∧ nr_next_attempt_at r' = None) ∨
   ∃ cls, Retry.failed_attempt (en_now env) policy cls (r0 <| nr_attempt ::= λ a, a + 1 |>) r').

(** The row of a started attempt [r1] of [r0]. *)
Definition attempt_of (r0 r1 : WorkflowNodeRun) : Prop :=
  nr_attempt r1 = nr_attempt r0 + 1 ∧ nr_claim_token r1 = nr_claim_token r0 ∧ in_run run r1.

Hypothesis repaired : en_globals env = repaired_globals.
Hypothesis jitter_ok : (-1 <= en_jitter env)%Q ∧ (en_jitter env <= 1)%Q.
Context (node : WorkflowNodeRun) (node_id : nr_id node = i).
Context (impl : WorkflowNode) (policy : Retry.policy_ok (wn_retry_policy impl)).
Context (r0 : WorkflowNodeRun) (attempts : nr_attempt r0 <= 1023).

Notation done_row r' := (attempt_done (wn_retry_policy impl) r0 r').

Lemma wp_attempt_fails r1 error cls st :
  attempt_of r0 r1 → row_at i r1 st →
  wp (fail_row env node impl error cls) (λ _ st', ∃ r', row_at i r' st' ∧ done_row r') (λ _ _, False) st.
Proof.
  intros (Ha & Ht & _) H. eapply wp_mono; [apply (wp_fail_row node r1); [done..|lia|done]| |done].
  intros [] st' (r' & Hr' & Htok & Hf). exists r'. split; [done|].
  unfold attempt_done, Retry.failed_attempt in *. simpl in *. rewrite Ha in Hf.
  destruct Hf as (H1 & H2 & H3 & H4). split_and!; [done|congruence|]. right. right. exists cls. done.
Qed.

Lemma wp_private_fails r1 error cls st :
  attempt_of r0 r1 → row_at i r1 st →
  wp (private_fail_row env node impl error cls) (λ _ st', ∃ r', row_at i r' st' ∧ done_row r')
    (λ _ _, False) st.
Proof. unfold private_fail_row. rewrite repaired. cbn. by apply wp_attempt_fails. Qed.

Lemma wp_run_implementation graph_node ctx inputs r1 st :
  attempt_of r0 r1 → row_at i r1 st →
  wp (try_except (run_implementation env run graph_node node impl ctx inputs)
        (λ e, execute_error env node impl e ≫= λ _, mret None))
    (λ o st', match o with
              | Some _ => row_at i r1 st'
              | None => ∃ r', row_at i r' st' ∧ done_row r' end) (λ _ _, False) st.
Proof.
  intros Ha H. apply wp_try.
  assert (∀ e st, row_at i r1 st → wp (execute_error env node impl e ≫= λ _, mret None)
    (λ o st', match o : option NodeResult with
              | Some _ => row_at i r1 st'
              | None => ∃ r', row_at i r' st' ∧ done_row r' end) (λ _ _, False) st) as Herr.
  { intros e st' H'. apply wp_bind. eapply wp_mono; [by apply (wp_attempt_fails r1)| |done].
    intros [] st'' Hr. by apply wp_ret. }
  unfold run_implementation.
  apply wp_bind, wp_lift. destruct (wn_validate_inputs impl inputs) as [ti|e]; [|by apply Herr].
  apply wp_bind, wp_lift. destruct (wn_validate_config impl _) as [tc|e]; [|by apply Herr].
  apply wp_bind, wp_lift. destruct (Testing.maybe_mock_node_result _ _ _) as [[m|]|e]; [done| |by apply Herr].
  destruct (negb _).
  - apply wp_bind. eapply wp_mono; [by apply (wp_private_fails r1)| |by intros ? ? []].
    intros [] st' Hr. by apply wp_ret.
  - apply wp_bind, wp_lift. destruct (wn_execute impl ctx ti tc); [done|by apply Herr].
Qed.

Lemma wp_record_result graph graph_node token res output node_outputs r1 st :
  attempt_of r0 r1 → nr_resume_token r1 = token → row_at i r1 st →
  wp (record_result env run graph graph_node node impl token res output node_outputs)
    (λ _ st', ∃ r', row_at i r' st' ∧ done_row r')
    (λ _ st', ∃ r', row_at i r' st' ∧ done_row r' ∧ nr_status r' = WAITING) st.
Proof.
  intros (Ha & Ht & Hrun) Htok H. unfold record_result, clock. rewrite repaired.
  apply wp_bind. eapply wp_mono; [by apply (wp_assign node r1)| |done]. intros [] st1 H1.
  set (r2 := r1 <| nr_output_json := output |>) in *. apply wp_bind, wp_ret.
  assert (attempt_of r0 r2) as Hr2 by done.
  assert (∀ s, s ∈ [SUCCEEDED; SKIPPED] → wp (assign node (finished_row (en_now env) s) ≫= λ _,
      propagate env run graph graph_node node (res_status res) output ≫= λ _,
      mret (store_output graph_node node output node_outputs))
    (λ _ st', ∃ r', row_at i r' st' ∧ done_row r') 
    (λ _ st', ∃ r', row_at i r' st' ∧ done_row r' ∧ nr_status r' = WAITING) st1) as Hfin.
  { intros s Hs. apply wp_bind. eapply wp_mono; [by apply (wp_assign node r2)| |done]. intros [] st2 H2.
    set (r3 := finished_row (en_now env) s r2) in *. apply wp_bind.
    eapply wp_mono; [apply (wp_propagate graph graph_node node r3); [done|intros _]| |done].
    { rewrite !elem_of_cons in Hs. destruct Hs as [->|[->|[]%not_elem_of_nil]]; done. }
    intros [] st3 H3. apply wp_ret. exists r3. split; [done|].
    unfold attempt_done. split_and!; [done|done|]. left. by split_and!. }
  destruct (res_status res) eqn:Er.
  - apply Hfin. set_solver.
  - apply wp_bind. eapply wp_mono; [by apply (wp_attempt_fails r2)| |done]. intros [] st2 H2. by apply wp_ret.
  - apply wp_bind. eapply (wp_mono _ (λ t st', PyStr.truthy t = true ∧ row_at i r2 st') _ (λ _ _, False)); [| |done].
    { destruct (PyStr.opt_truthy token) eqn:Et; [apply wp_ret|by apply wp_uuid4].
      split; [by destruct token|done]. }
    intros t st2 [Htt H2]. apply wp_bind. eapply wp_mono; [by apply (wp_assign node r2)| |done].
    intros [] st3 H3. set (r3 := waiting_row (res_waiting_reason res) t r2) in *.
    apply wp_bind, wp_get, wp_bind. subst i. rewrite (row_at_row_of r3) by done.
    assert (done_row r3) as Hd.
    { unfold attempt_done. split_and!; [done|done|]. right. left. done. }
    eapply wp_mono; [by apply (Waits.persist_waiting_rows _ _ _ run r3 t output)| |].
    + intros [] st4 [E1 E2]. apply wp_ret. exists r3. split; [|done]. by apply (row_at_other _ _ st3).
    + intros e st4 ->. by exists r3.
  - apply Hfin. set_solver.
Qed.
Lemma wp_validated_output res r1 st :
  attempt_of r0 r1 → row_at i r1 st →
  wp (validated_output env node impl res)
    (λ o st', match o with
              | Some _ => row_at i r1 st'
              | None => ∃ r', row_at i r' st' ∧ done_row r' end) (λ _ _, False) st.
Proof.
  intros Ha H. unfold validated_output.
  destruct (res_status res); try (by apply wp_ret);
    destruct (wn_validate_output impl (res_output res)); try (by apply wp_ret);
    apply wp_bind; (eapply wp_mono; [by apply (wp_private_fails r1)| |done]);
    intros [] st' Hr; by apply wp_ret.
Qed.

(** The body after the row was marked RUNNING. *)
Lemma wp_attempt graph graph_node inputs node_outputs r1 st :
  attempt_of r0 r1 → row_at i r1 st →
  wp (outcome ← try_except (run_implementation env run graph_node node impl
                    (node_context run graph_node node (nr_resume_token r1)) inputs)
                (λ e, _ ← execute_error env node impl e; mret None);
      match outcome with
      | None => mret node_outputs
      | Some res =>
          validated ← validated_output env node impl res;
          match validated with
          | None => mret node_outputs
          | Some output =>
              record_result env run graph graph_node node impl (nr_resume_token r1) res output node_outputs
          end
      end)
    (λ _ st', ∃ r', row_at i r' st' ∧ done_row r')
    (λ _ st', ∃ r', row_at i r' st' ∧ done_row r' ∧ nr_status r' = WAITING) st.
Proof.
  intros Ha H. apply wp_bind. eapply wp_mono; [by apply (wp_run_implementation _ _ _ r1)| |by intros ? ? []].
  intros [res|] st1 H1; [|by apply wp_ret].
  apply wp_bind. eapply wp_mono; [by apply (wp_validated_output res r1)| |by intros ? ? []].
  intros [output|] st2 H2; [|by apply wp_ret]. by apply (wp_record_result _ _ _ _ _ _ r1).
Qed.
End attempt.
Lemma started_fields now inputs te r :
  let r' := started now inputs te r in
  nr_id r' = nr_id r ∧ nr_status r' = RUNNING ∧ nr_attempt r' = nr_attempt r + 1 ∧
  nr_resume_token r' = nr_resume_token r ∧ nr_claim_token r' = nr_claim_token r ∧
  nr_tenant_id r' = nr_tenant_id r ∧ nr_workflow_run_id r' = nr_workflow_run_id r.
Proof. unfold started. destruct te; [|done]. by case_bool_decide. Qed.

Lemma keyed_fields run graph_node r :
  let r' := keyed run graph_node r in
  nr_id r' = nr_id r ∧ nr_status r' = nr_status r ∧ nr_attempt r' = nr_attempt r ∧
  nr_resume_token r' = nr_resume_token r ∧ nr_claim_token r' = nr_claim_token r ∧
  nr_tenant_id r' = nr_tenant_id r ∧ nr_workflow_run_id r' = nr_workflow_run_id r.
Proof. unfold keyed. by destruct (PyStr.opt_truthy _). Qed.

(** An execution that begins on [r0] of [st]: what the store holds at the end
    of each way out. *)
Definition attempt_ends (env : Env) (i : string) (policy : RetryPolicyDefaults) (r0 : WorkflowNodeRun)
    (begins : Prop) (st : Store) {A} (m : M Store A) : Prop :=
  wp m (λ _ st', begins ∧ ∃ r', row_at env i r' st' ∧ attempt_done env policy r0 r')
       (λ _ st', (¬ begins ∧ st' = st) ∨
          begins ∧ ∃ r', row_at env i r' st' ∧ attempt_done env policy r0 r' ∧ nr_status r' = WAITING) st.

(** What the body does in a module that binds both names, which the one under src/
    does not: an execution of a row that is not settled always leaves the row finished, paused or failed by its retry
    policy: the attempt counter grows by exactly one, the claim token stays,
    the outcome of a success carries its finish time and no error, a pause
    carries a resume token, and whatever the node raises becomes a recorded
    failure.  The call itself raises only when the inputs cannot be resolved,
    and then without any effect, or on a pause whose wait cannot be stored,
    and then with the row already WAITING. *)
Theorem execute_attempt_outcome env run graph_node node_run graph node_outputs initial_inputs te r0 st
    impl :
  Inj (=) (=) (en_fresh env) → (∀ n, PyStr.truthy (en_fresh env n) = true) →
  en_globals env = repaired_globals → (-1 <= en_jitter env)%Q ∧ (en_jitter env <= 1)%Q →
  get (gn_type graph_node) (Some (gn_version graph_node)) (en_registry env) = Ok impl →
  Retry.policy_ok (wn_retry_policy impl) →
  row_at env (nr_id node_run) r0 st → in_run run r0 →
  nr_status r0 ∉ [SUCCEEDED; SKIPPED; WAITING] → nr_attempt r0 <= 1023 →
  attempt_ends env (nr_id node_run) (wn_retry_policy impl) r0
    (is_ok (prepare_inputs run graph_node r0 graph
       (list_node_runs (wr_tenant_id run) (wr_id run) st) impl node_outputs initial_inputs) = true) st
    (execute_ready_node env run graph_node node_run graph node_outputs initial_inputs te).
Proof.
  intros Hinj Htr Hrep Hj Hreg Hpol H Hrun Hs Ha. unfold attempt_ends, execute_ready_node.
  apply wp_bind, wp_get. rewrite (row_at_row_of env r0) by done.
  rewrite bool_decide_eq_false_2 by done. pose proof (row_at_id _ _ _ _ H) as [Hid _].
  apply wp_bind, wp_lift. rewrite Hreg.
  apply wp_bind, wp_lift. destruct (prepare_inputs _ _ _ _ _ _ _ _) as [[inputs outputs]|e]; [|by left].
  pose proof (keyed_fields run graph_node r0) as (Kid & Kst & Kat & Ktok & Kcl & Kte & Kwf).
  set (rk := keyed run graph_node r0) in *.
  set (inputs' := Retry.apply_side_effect_idempotency _ _ _). clearbody inputs'.
  apply wp_bind. eapply wp_mono; [apply (wp_assign env (nr_id node_run) r0 r0 (keyed run graph_node))| |done];
    [done|intros x; by apply keyed_fields|done|].
  intros [] st1 H1. fold rk in H1. unfold clock. rewrite Hrep. apply wp_bind, wp_ret.
  pose proof (started_fields (en_now env) inputs' te rk) as (Sid & Sst & Sat & Stok & Scl & Ste & Swf).
  set (rs := started _ _ _ rk) in *.
  apply wp_bind. eapply wp_mono;
    [apply (wp_assign env (nr_id node_run) r0 rk (started (en_now env) inputs' te))| |done];
    [done|intros x; by apply started_fields|done|].
  intros [] st2 H2. fold rs in H2.
  assert (attempt_of run r0 rs) as Hrs.
  { destruct Hrun. unfold attempt_of, in_run. split_and!; congruence. }
  apply wp_bind.
  eapply (wp_mono _ (λ token st', ∃ r1, row_at env (nr_id node_run) r1 st' ∧ attempt_of run r0 r1 ∧
    nr_resume_token r1 = token) _ (λ _ _, False)); [| |done].
  - destruct (_ && _).
    + apply wp_bind. eapply wp_mono; [by apply (wp_uuid4 env Htr (nr_id node_run) rs)| |done]. intros token st3 [_ H3].
      apply wp_bind. eapply wp_mono; [by apply (wp_assign env (nr_id node_run) r0 rs)| |done].
      intros [] st4 H4. apply wp_ret. eexists. split; [exact H4|]. done.
    + apply wp_ret. exists rs. split_and!; [done..|congruence].
  - intros token st3 (r1 & H3 & Hr1 & <-).
    eapply wp_mono; [by apply (wp_attempt env Hinj Htr run _ Hrep Hj r0 Hid impl Hpol r0 Ha _ _ _ _ r1)
                    |intros ? ? Hr; by split|intros ? ? Hr; right; by split].
Qed.

(** [env] with the names the module itself binds. *)
Definition in_module (env : Env) : Env := {|
  en_cfg := en_cfg env; en_now := en_now env; en_jitter := en_jitter env; en_fresh := en_fresh env;
  en_registry := en_registry env; en_fromisoformat := en_fromisoformat env;
  en_globals := module_globals |}.

(** C26: as the module under src/ stands, no node can be executed: a row that is
    already settled is returned unchanged, and every other call raises before the
    row is started.  It raises what the lookup of the implementation or the
    resolution of the inputs raises, without effect, or else NameError, because the
    clock is read through a name that is not imported; then at most the execution
    key of the row has changed. *)
Theorem execute_ready_node_unbound env run graph_node node_run graph node_outputs initial_inputs te st :
  let node := row_of node_run st in
  let '(res, st') := execute_ready_node (in_module env) run graph_node node_run graph node_outputs
                       initial_inputs te st in
  if bool_decide (nr_status node ∈ [SUCCEEDED; SKIPPED; WAITING]) then res = Ok node_outputs ∧ st' = st
  else
    match impl ← get (gn_type graph_node) (Some (gn_version graph_node)) (en_registry env);
          prepare_inputs run graph_node node graph
            (list_node_runs (wr_tenant_id run) (wr_id run) st) impl node_outputs initial_inputs with
    | Raise e => res = Raise e ∧ st' = st
    | Ok _ => res = Raise (NameError "datetime") ∧ st' = update_row (nr_id node) (keyed run graph_node) st
    end.
Proof.
  cbv zeta. unfold execute_ready_node, mbind at 1, M_bind, get_state.
  destruct (bool_decide _) eqn:Es; [done|]. cbn [en_registry in_module].
  unfold lift at 1, mbind, M_bind, result_bind.
  destruct (get _ _ _) as [impl|e]; [|done].
  unfold lift. destruct (prepare_inputs _ _ _ _ _ _ _ _) as [[inputs outputs]|e]; done.
Qed.

(** ** An execution *)

Fixpoint unary_id (n : nat) : string := match n with O => "i" | S n => String "i" (unary_id n) end.

Lemma unary_id_inj : Inj (=) (=) unary_id.
Proof. intros n. induction n as [|n IH]; intros [|m]; simpl; [done|by destruct m|by destruct n|].
  intros H. f_equal. apply IH. congruence.
Qed.

Definition ex_echo : WorkflowNode := {|
  wn_type := "echo"; wn_version := 1; wn_category := "control"; wn_implementation_status := STABLE;
  wn_input_ports := []; wn_output_ports := []; wn_required_capabilities := []; wn_may_pause := false;
  wn_retry_policy := default_retry_policy;
  wn_config_defaults := Ok []; wn_config_fields := [];
  wn_validate_config := Ok; wn_validate_inputs := Ok; wn_validate_output := Ok;
  wn_execute := λ _ inputs _, Ok {| res_status := RS_SUCCEEDED; res_output := [("seen", JObj inputs)];
    res_error := None; res_waiting_reason := None |} |}.

Definition ex_env : Env := {|
  en_cfg := {| WORKFLOW_CLAIM_LEASE_SECONDS := 60; WORKFLOW_CLAIM_RECOVERY_BATCH_SIZE := 10;
               WORKFLOW_INLINE_NODE_EXECUTION := false |};
  en_now := 1000; en_jitter := 0; en_fresh := unary_id; en_registry := [("echo", [(1, ex_echo)])];
  en_fromisoformat := λ _, None; en_globals := repaired_globals |}.

Definition ex_graph_node : GraphNode := {|
  gn_id := "A"; gn_type := "echo"; gn_version := 1; gn_config := []; gn_input_bindings := [] |}.
Definition ex_graph : WorkflowGraph := {|
  wg_schema_version := 1; wg_nodes := [ex_graph_node]; wg_edges := []; wg_metadata := [] |}.
Definition ex_queued : WorkflowNodeRun :=
  new_node_run "n" "T" "R" "A" "echo" 1 QUEUED "" [] <| nr_claim_token := Some "c" |>.
Definition ex_store : Store := empty_store <| st_node_runs := [ex_queued] |>.

Lemma execute_attempt_outcome_witness :
  (nr_status <$> st_node_runs (execute_ready_node ex_env Waits.ex_wait_run ex_graph_node ex_queued ex_graph
     [] [] None ex_store).2) = [SUCCEEDED] ∧
  attempt_ends ex_env "n" default_retry_policy ex_queued
    (is_ok (prepare_inputs Waits.ex_wait_run ex_graph_node ex_queued ex_graph [ex_queued] ex_echo [] []) = true)
    ex_store (execute_ready_node ex_env Waits.ex_wait_run ex_graph_node ex_queued ex_graph [] [] None).
Proof.
  split; [vm_compute; reflexivity|].
  apply (execute_attempt_outcome ex_env Waits.ex_wait_run ex_graph_node ex_queued ex_graph [] [] None
    ex_queued ex_store ex_echo).
  - exact unary_id_inj.
  - intros []; reflexivity.
  - reflexivity.
  - split; unfold Qle; simpl; lia.
  - reflexivity.
  - apply Retry.default_policy_ok.
  - split; [|split; [reflexivity|]].
    + apply NoDup_singleton.
    + intros n _. simpl. rewrite list_elem_of_singleton. destruct n; discriminate.
  - split; reflexivity.
  - apply (bool_decide_unpack _). vm_compute. exact I.
  - simpl. lia.
Defined.
End Execute.
