(* ===== verification/Engine.v ===== *)
(** * The workflow engine (engine.py, engine_dispatch.py, engine_node_task.py)

    [advance] claims the READY rows of a run and hands each to a worker;
    [execute_claimed_node_run] executes one claimed row.  Inline mode executes
    the claimed rows inside [advance]: that call never asks for follow-ups, so
    the recursion between the two has depth one and needs no fuel beyond the
    loop bound of [advance].

    The run object is the row of the store under its id. *)
From Stdlib Require Import QArith.
From S2P Require Import Prelude PyStr Json Graph Pydantic Nodes Compiler Tables RunModels NodeIndex Ready.
From S2P Require Import Retry Claiming Cancellation Fanout Waits Execute.

Module Engine.
Import Graph Nodes Tables Models Cancellation.
Local Open Scope string_scope.
Local Open Scope list_scope.
Local Open Scope Z_scope.

(** The surroundings of the engine: those of node execution, the tables it
    only reads, the digests, the provider settings, the rows other transactions
    hold locked, and what they did to the run row by the time it is refreshed. *)
Record EngineEnv := {
  ee_exec : Execute.Env;
  ee_tables : Tables;
  ee_coercions : Coercions;
  ee_checksum : WorkflowGraph → string;
  ee_digest : json → string;
  ee_llm_provider : string;
  ee_llm_model : string;
  ee_locked : gset string;
  ee_refresh : WorkflowRun → WorkflowRun;
}.

Section engine.
Context (env : EngineEnv).

Definition cfg : Settings := Execute.en_cfg (ee_exec env).
Definition now : Z := Execute.en_now (ee_exec env).

(** The attributes of a run object, and assignments to them. *)
Definition run_row (run_id : string) (st : Store) : option WorkflowRun := row_by wr_id run_id (st_runs st).
Definition assign_run (run_id : string) (f : WorkflowRun → WorkflowRun) : M Store unit :=
  modify (λ st, st <| st_runs ::= set_row wr_id run_id f |>).

Definition require_run (tenant_id run_id : string) : M Store WorkflowRun :=
  st ← get_state;
  match get_run tenant_id run_id st with
  | Some run => mret run
  | None => raise (HTTPException 404 "Workflow run not found")
  end.

(** [get_version] followed by [WorkflowGraph.model_validate]. *)
Definition load_graph (tenant_id version_id : string) : M Store WorkflowGraph :=
  match get_version tenant_id version_id (ee_tables env) with
  | Some v => lift (model_validate (wv_graph_json v))
  | None => raise (HTTPException 404 "Workflow version not found")
  end.

(** [engine._node_map] *)
Definition node_map (tenant_id run_id : string) : M Store (list WorkflowNodeRun) :=
  st ← get_state; mret (list_node_runs tenant_id run_id st).

(** [finalize_run_status(run, node_runs)] *)
Definition finalize (tenant_id run_id : string) : M Store unit :=
  rows ← node_map tenant_id run_id;
  assign_run run_id (λ run, Ready.finalize_run_status now run rows).

(** [sync_occurrence_for_run(db, run)] *)
Definition sync_occurrence (run_id : string) : M Store unit :=
  st ← get_state;
  match run_row run_id st with Some run => sync_occurrence_for_run run | None => mret () end.

(** A statement on the node rows. *)
Definition on_rows {A} (f : list WorkflowNodeRun → A * list WorkflowNodeRun) : M Store A := λ st,
  let '(a, l) := f (st_node_runs st) in (Ok a, st <| st_node_runs := l |>).

(** ** engine_dispatch.py *)

Definition enqueue_claimed_node (tenant_id run_id : string) (node : WorkflowNodeRun) : M Store unit :=
  if negb (PyStr.opt_truthy (nr_claim_token node)) then
    raise (ValueError "claimed node missing claim_token")
  else if WORKFLOW_INLINE_NODE_EXECUTION cfg then mret ()
  else modify (λ st, st <| st_tasks ::= λ l,
         l ++ [ExecuteNodeTask tenant_id run_id (nr_id node) (default "" (nr_claim_token node))] |>).

(** [runs.claim_ready_node(...)]: the token is drawn first. *)
Definition claim (tenant_id run_id : string) (node_run_id : option string)
    : M Store (option WorkflowNodeRun) :=
  token ← Execute.uuid4 (ee_exec env);
  on_rows (Claiming.claim_ready_node cfg now (ee_locked env) token tenant_id run_id node_run_id None).

(** ** engine_node_task.py *)

Definition task_result (run : WorkflowRun) (more : list (string * string)) : list (string * string) :=
  [("workflow_run_id", wr_id run); ("status", run_status_value (wr_status run))] ++ more.

(** [{n.id: n for n in graph.nodes}.get(node_id)] *)
Definition graph_node_of (node_id : string) (graph : WorkflowGraph) : option GraphNode :=
  List.find (λ n, bool_decide (gn_id n = node_id)) (reverse (wg_nodes graph)).

(** The row a cancelled run leaves of an attempt that did not succeed. *)
Definition cancel_race_row (r : WorkflowNodeRun) : WorkflowNodeRun :=
  let r := r <| nr_cancellation_requested := true |> <| nr_status := CANCELLED |> in
  match nr_error_json r with
  | None | Some [] =>
      r <| nr_error_json := Some [("code", JStr "cancelled"); ("message", JStr "cancelled")] |>
  | Some _ => r
  end.

(** A claimed row of a run that already ended. *)
Definition skip_terminal (tenant_id node_run_id claim_token : string) (run : WorkflowRun)
    : M Store (list (string * string)) :=
  st ← get_state;
  let abort_pending := match node_row node_run_id (st_node_runs st) with
    | Some pending =>
        if bool_decide (nr_tenant_id pending = tenant_id) &&
           bool_decide (nr_status pending ∈ [QUEUED; RUNNING; READY]) then
          modify (abort_node_for_cancellation now tenant_id pending
            (if bool_decide (nr_claim_token pending = Some claim_token) then Some claim_token else None)
            "cancelled")
        else mret ()
    | None => mret () end in
  _ ← abort_pending;
  mret (task_result run [("skipped", "terminal")]).

(** The body once the row is RUNNING and not aborted: the row that was
    executed, or [None] when the graph has no such node. *)
Definition execute_begun (tenant_id claim_token : string) (task_execution_id : option string)
    (run : WorkflowRun) (node : WorkflowNodeRun) : M Store (option WorkflowNodeRun) :=
  graph ← load_graph tenant_id (wr_workflow_version_id run);
  match graph_node_of (nr_node_id node) graph with
  | None =>
      let message := "node " +:+ nr_node_id node +:+ " missing" in
      _ ← on_rows (Claiming.fail_node now tenant_id (nr_id node)
            [("code", JStr "missing_graph_node"); ("message", JStr message)]
            (Some claim_token) (Some "permanent") (Some message));
      _ ← finalize tenant_id (wr_id run);
      mret None
  | Some graph_node =>
      let snapshot := wr_context_snapshot run in
      let node_outputs := Json.as_dict (Json.getn "node_outputs" snapshot) in
      let initial_inputs := Json.as_dict (Json.getn "initial_inputs" snapshot) in
      outputs ← Execute.execute_ready_node (ee_exec env) run graph_node node graph node_outputs
                  initial_inputs task_execution_id;
      _ ← assign_run (wr_id run) (ee_refresh env);
      st ← get_state;
      let finished := Execute.row_of node st in
      let run := default run (run_row (wr_id run) st) in
      _ ← (if negb (bool_decide (nr_status finished = SUCCEEDED)) && should_abort_node finished run
           then Execute.assign node cancel_race_row else mret ());
      _ ← on_rows (Claiming.complete_node tenant_id (nr_id node) (Some claim_token));
      _ ← assign_run (wr_id run) (λ r, r <| wr_context_snapshot :=
            Dict.set "node_outputs" (JObj outputs) snapshot |>);
      _ ← finalize tenant_id (wr_id run);
      _ ← sync_occurrence (wr_id run);
      st ← get_state;
      mret (Some (Execute.row_of node st))
  end.

(** Everything but the follow-ups: the result of an early return, or the row
    that was executed. *)
Definition run_claimed (tenant_id run_id node_run_id claim_token : string)
    (worker_task_id task_execution_id : option string)
    : M Store (list (string * string) + WorkflowNodeRun) :=
  run ← require_run tenant_id run_id;
  if run_terminal (wr_status run) then
    r ← skip_terminal tenant_id node_run_id claim_token run; mret (inl r)
  else
    begun ← on_rows (Claiming.begin_node_execution cfg now tenant_id node_run_id claim_token worker_task_id
                task_execution_id None);
    match begun with
    | None => mret (inl [("workflow_run_id", run_id); ("status", "claim_rejected");
                         ("node_run_id", node_run_id)])
    | Some node =>
        if should_abort_node node run then
          _ ← modify (abort_node_for_cancellation now tenant_id node (Some claim_token) "cancelled");
          _ ← finalize tenant_id run_id;
          st ← get_state;
          mret (inl (task_result (default run (run_row run_id st))
                  [("node_run_id", nr_id node); ("node_status", node_status_value CANCELLED);
                   ("skipped", "cancelled")]))
        else
          finished ← execute_begun tenant_id claim_token task_execution_id run node;
          match finished with
          | Some row => mret (inr row)
          | None => st ← get_state; mret (inl (task_result (default run (run_row run_id st)) []))
          end
    end.

(** [drain_inline_claimed_nodes] *)
Definition drain_one (tenant_id run_id : string) (node : WorkflowNodeRun) : M Store unit :=
  st ← get_state;
  let node := Execute.row_of node st in
  if negb (PyStr.opt_truthy (nr_claim_token node)) then mret ()
  else
    _ ← run_claimed tenant_id run_id (nr_id node) (default "" (nr_claim_token node)) (Some "inline") None;
    mret ().
Definition drain_inline_claimed_nodes (tenant_id run_id : string) (claimed : list WorkflowNodeRun)
    : M Store unit := mfor claimed (drain_one tenant_id run_id).

(** ** engine.py: advance *)

(** One row of the claim loop. *)
Definition claim_one (tenant_id run_id : string) (row : WorkflowNodeRun)
    : M Store (option WorkflowNodeRun) :=
  claimed ← claim tenant_id run_id (Some (nr_id row));
  match claimed with
  | None => mret None
  | Some node => _ ← enqueue_claimed_node tenant_id run_id node; mret (Some node)
  end.

Fixpoint claim_batch (tenant_id run_id : string) (claimable : list WorkflowNodeRun)
    : M Store (list WorkflowNodeRun) :=
  match claimable with
  | [] => mret []
  | row :: rest =>
      claimed ← claim_one tenant_id run_id row;
      batch ← claim_batch tenant_id run_id rest;
      mret (option_list claimed ++ batch)
  end.

Definition ready_rows (l : list WorkflowNodeRun) : list WorkflowNodeRun :=
  List.filter (Ready.has_status READY) l.

(** Promotion of a PENDING row whose predecessors are done. *)
Definition promote_one (tenant_id run_id : string) (node_id : string) : M Store unit :=
  rows ← node_map tenant_id run_id;
  match Index.get node_id rows with
  | Some row => if Ready.has_status PENDING row
                then Execute.assign row (λ r, r <| nr_status := READY |>) else mret ()
  | None => mret ()
  end.

Definition find_claimable (tenant_id run_id : string) (graph : WorkflowGraph) (rows : list WorkflowNodeRun)
    : M Store (list WorkflowNodeRun) :=
  match ready_rows rows with
  | (_ :: _) as claimable => mret claimable
  | [] =>
      _ ← mfor (Ready.ready_node_ids graph rows) (promote_one tenant_id run_id);
      rows ← node_map tenant_id run_id;
      mret (ready_rows rows)
  end.

(** The drain loop: whether it returned from [advance]. *)
Fixpoint advance_loop (n : nat) (tenant_id run_id : string) (graph : WorkflowGraph) : M Store bool :=
  match n with
  | O => mret false
  | S n' =>
      rows ← node_map tenant_id run_id;
      if Ready.run_is_waiting rows || Ready.run_has_failure rows then mret false
      else
        claimable ← find_claimable tenant_id run_id graph rows;
        batch ← claim_batch tenant_id run_id claimable;
        match batch with
        | [] => mret false
        | _ =>
            if WORKFLOW_INLINE_NODE_EXECUTION cfg then
              _ ← drain_inline_claimed_nodes tenant_id run_id batch;
              run ← require_run tenant_id run_id;
              if run_terminal (wr_status run) || bool_decide (wr_status run = RUN_WAITING) then mret true
              else advance_loop n' tenant_id run_id graph
            else mret false
        end
  end.

Definition loop_bound (graph : WorkflowGraph) : nat :=
  Nat.max (Nat.max 8 (length (wg_nodes graph) * 4)) 32.

Definition advance (tenant_id run_id : string) : M Store WorkflowRun :=
  run ← require_run tenant_id run_id;
  if run_terminal (wr_status run) then mret run
  else
    graph ← load_graph tenant_id (wr_workflow_version_id run);
    returned ← advance_loop (loop_bound graph) tenant_id run_id graph;
    if (returned : bool) then require_run tenant_id run_id
    else
      _ ← finalize tenant_id run_id;
      _ ← sync_occurrence run_id;
      require_run tenant_id run_id.

(** ** engine_node_task.py: the worker entry *)

(** The delay before the run is advanced again, a second draw of the jitter. *)
Definition retry_delay (jitter : Q) (finished : WorkflowNodeRun) : Q :=
  match get (nr_node_type finished)
          (Some (if nr_node_version finished =? 0 then 1 else nr_node_version finished))
          (Execute.en_registry (ee_exec env)) with
  | Ok impl =>
      match Retry.compute_backoff_seconds
              (if nr_attempt finished =? 0 then 1 else nr_attempt finished) (wn_retry_policy impl)
              (1 # 5) jitter with
      | Ok d => d
      | Raise _ => 2
      end
  | Raise _ => 2
  end.

Definition followups (jitter : Q) (tenant_id run_id : string) (finished : WorkflowNodeRun) : M Store unit :=
  st ← get_state;
  if bool_decide (nr_status finished = READY) && bool_decide (is_Some (nr_next_attempt_at finished)) then
    _ ← modify (Retry.schedule_run_advance cfg tenant_id run_id (retry_delay jitter finished));
    if WORKFLOW_INLINE_NODE_EXECUTION cfg then _ ← advance tenant_id run_id; mret () else mret ()
  else if bool_decide ((wr_status <$> run_row run_id st) = Some RUN_RUNNING) then
    _ ← advance tenant_id run_id; mret ()
  else mret ().

Definition execute_claimed_node_run (jitter : Q) (tenant_id run_id node_run_id claim_token : string)
    (worker_task_id task_execution_id : option string) : M Store (list (string * string)) :=
  outcome ← run_claimed tenant_id run_id node_run_id claim_token worker_task_id task_execution_id;
  match outcome with
  | inl r => mret r
  | inr finished =>
      _ ← followups jitter tenant_id run_id finished;
      run ← require_run tenant_id run_id;
      st ← get_state;
      mret (task_result run
        [("node_run_id", nr_id finished);
         ("node_status", node_status_value (nr_status (Execute.row_of finished st)))])
  end.
End engine.

(** ** The run object *)

Lemma get_run_assign tenant_id run_id f st :
  (∀ r, wr_tenant_id (f r) = wr_tenant_id r ∧ wr_id (f r) = wr_id r) →
  get_run tenant_id run_id (st <| st_runs ::= set_row wr_id run_id f |>) = f <$> get_run tenant_id run_id st.
Proof.
  intros Hf. unfold get_run. change (st_runs (st <| st_runs ::= set_row wr_id run_id f |>))
    with (set_row wr_id run_id f (st_runs st)). unfold set_row.
  induction (st_runs st) as [|r l IH]; [done|]. rewrite fmap_cons. cbn [List.find].
  destruct (decide (wr_id r = run_id)) as [E|E].
  - rewrite (bool_decide_eq_true_2 (wr_id r = run_id)) by done. destruct (Hf r) as [-> ->].
    rewrite (bool_decide_eq_true_2 (wr_id r = run_id)), !andb_true_r by done.
    destruct (bool_decide _); [done|exact IH].
  - rewrite !(bool_decide_eq_false_2 (wr_id r = run_id)) by done. rewrite !andb_false_r. exact IH.
Qed.

Lemma get_run_rows tenant_id run_id st st' :
  st_runs st' = st_runs st → get_run tenant_id run_id st' = get_run tenant_id run_id st.
Proof. unfold get_run. by intros ->. Qed.

Lemma get_run_Some tenant_id run_id st run :
  get_run tenant_id run_id st = Some run →
  run ∈ st_runs st ∧ wr_tenant_id run = tenant_id ∧ wr_id run = run_id.
Proof.
  unfold get_run. intros [Hr [H1 H2]%andb_true_iff]%find_Some_elem.
  by apply bool_decide_eq_true in H1, H2.
Qed.

Lemma load_graph_same env tenant_id version_id st : (load_graph env tenant_id version_id st).2 = st.
Proof. unfold load_graph. destruct (get_version _ _ _) as [v|]; [|done]. unfold lift. by destruct (model_validate _). Qed.
End Engine.
