(* ===== verification/Resume.v ===== *)
(** * Resuming paused nodes (engine_resume.py, engine_simulate.py)

    A decision from outside ends a WAITING row: it succeeds or fails, its wait
    is settled, later rows are unlocked and the run is advanced.  The node
    itself is never executed again. *)
From S2P Require Import Prelude PyStr Json Graph Tables RunModels NodeIndex Ready Unlock Cancellation Waits.
From S2P Require Import Execute Engine.

Module Resume.
Import Graph Tables Models Cancellation Engine.
Local Open Scope string_scope.
Local Open Scope list_scope.
Local Open Scope Z_scope.

Definition SUCCESS_OUTCOMES : list string := ["approved"; "elapsed"; "received"].
Definition FAIL_OUTCOMES : list string := ["rejected"; "expired"].
Definition VALID_OUTCOMES : list string := SUCCESS_OUTCOMES ++ FAIL_OUTCOMES.

(** [runs.get_by_resume_token] *)
Definition get_by_resume_token (tenant_id resume_token : string) (st : Store)
    : result (option WorkflowNodeRun) :=
  scalar_one_or_none (List.filter (λ r, bool_decide (nr_tenant_id r = tenant_id) &&
                                        bool_decide (nr_resume_token r = Some resume_token)) (st_node_runs st)).

(** [dict(node_run.output_json or {})] with the decision and the outcome. *)
Definition decided_output (normalized : string) (decision : dict json) (r : WorkflowNodeRun) : dict json :=
  Dict.set "status" (JStr normalized)
    (Dict.set "decision" (JStr normalized) (Dict.update (nr_output_json r) decision)).

(** How a decision ends the wait. *)
Inductive ending := EndSuccess | EndTimedOut | EndFailure.
#[global] Instance ending_eq_dec : EqDecision ending.
Proof. solve_decision. Defined.

Definition ending_of (normalized : string) (decision : dict json) : ending :=
  if bool_decide (normalized ∈ SUCCESS_OUTCOMES) then EndSuccess
  else if String.eqb normalized "expired" && Waits.continues decision then EndTimedOut
  else EndFailure.

Definition ended_output (e : ending) (output : dict json) : dict json :=
  match e with EndTimedOut => Dict.set "status" (JStr "timed_out") output | _ => output end.

(** The row of the ended wait. *)
Definition ended_row (now : Z) (e : ending) (normalized : string) (output : dict json) (r : WorkflowNodeRun)
    : WorkflowNodeRun :=
  let r := r <| nr_output_json := output |> <| nr_finished_at := Some now |> <| nr_waiting_reason := None |> in
  match e with
  | EndSuccess | EndTimedOut => r <| nr_status := SUCCEEDED |> <| nr_error_json := None |>
  | EndFailure =>
      let code_prefix := if String.eqb (nr_node_type r) "approval" then "approval" else "wait" in
      r <| nr_status := FAILED |> <| nr_error_json := Some
        [("code", JStr (code_prefix +:+ "_" +:+ normalized));
         ("message", JStr ("Wait/approval " +:+ normalized))] |>
  end.

Section resume.
Context (env : EngineEnv).

(** The body once the row is known to be waiting, up to the advance. *)
Definition end_wait (tenant_id resume_token normalized : string) (decision : dict json)
    (run : WorkflowRun) (node : WorkflowNodeRun) : M Store unit :=
  graph ← load_graph env tenant_id (wr_workflow_version_id run);
  let snapshot := wr_context_snapshot run in
  let node_outputs := Json.as_dict (Json.getn "node_outputs" snapshot) in
  let e := ending_of normalized decision in
  let output := ended_output e (decided_output normalized decision node) in
  _ ← Execute.assign node (ended_row (now env) e normalized output);
  _ ← match e with
      | EndFailure => mret ()
      | _ =>
          _ ← Execute.on_index run
                (Unlock.unlock_after_node_success (now env) graph (nr_node_id node) (Some output));
          assign_run (wr_id run) (λ r, r <| wr_status := RUN_RUNNING |>)
      end;
  _ ← (if bool_decide (nr_node_type node ∈ ["delay"; "wait"; "approval"]) then
         _ ← Waits.mark_wait_resolved_by_resume_token (now env) resume_token normalized
               (match decision with [] => [] | _ => [("decision", JObj decision)] end);
         mret ()
       else mret ());
  _ ← assign_run (wr_id run) (λ r, r <| wr_context_snapshot :=
        Dict.set "node_outputs" (JObj (Dict.set (nr_node_id node) (JObj output) node_outputs)) snapshot |>);
  _ ← finalize env tenant_id (wr_id run);
  sync_occurrence (wr_id run).

Definition resume_waiting_node (tenant_id : string) (resume_token : option string) (outcome : string)
    (decision : dict json) (advance_run : bool) : M Store WorkflowRun :=
  let normalized := PyStr.lower (PyStr.strip outcome) in
  if negb (bool_decide (normalized ∈ VALID_OUTCOMES)) then
    raise (HTTPException 422 ("Unsupported resume outcome '" +:+ outcome +:+ "'"))
  else if negb (PyStr.opt_truthy resume_token) then
    raise (HTTPException 422 "resume_token is required")
  else
    let token := default "" resume_token in
    st ← get_state;
    found ← lift (get_by_resume_token tenant_id token st);
    match found with
    | None => raise (HTTPException 404 "Waiting node not found for resume token")
    | Some node =>
        run ← require_run tenant_id (nr_workflow_run_id node);
        if bool_decide (nr_status node = SUCCEEDED) && bool_decide (normalized ∈ SUCCESS_OUTCOMES) then
          if advance_run && bool_decide (wr_status run ∈ [RUN_QUEUED; RUN_RUNNING; RUN_WAITING])
          then advance env tenant_id (wr_id run) else mret run
        else if bool_decide (nr_status node = FAILED) && bool_decide (normalized ∈ FAIL_OUTCOMES) then
          mret run
        else if negb (bool_decide (nr_status node = WAITING)) then
          raise (HTTPException 409 ("Node is not waiting (status=" +:+
                                    node_status_value (nr_status node) +:+ ")"))
        else
          _ ← end_wait tenant_id token normalized decision run node;
          run ← require_run tenant_id (wr_id run);
          if advance_run && bool_decide (wr_status run = RUN_RUNNING)
          then advance env tenant_id (wr_id run) else mret run
    end.

(** ** engine_simulate.py *)

Definition simulated_decision (prior : dict json) : dict json :=
  [("simulated", JBool true); ("source", JStr "dry_run");
   ("content_job_id", Json.getn "content_job_id" prior);
   ("approval_request_id", Json.getn "approval_request_id" prior);
   ("revision_count", default (JInt 0) (Dict.get "revision_count" prior))].

Definition simulable (r : WorkflowNodeRun) : bool :=
  Ready.has_status WAITING r && PyStr.opt_truthy (nr_resume_token r) &&
  String.eqb (nr_node_type r) "approval".

Fixpoint simulate_loop (hops : nat) (tenant_id : string) (run : WorkflowRun) : M Store WorkflowRun :=
  match hops with
  | O => mret run
  | S hops' =>
      if negb (bool_decide (wr_status run = RUN_WAITING)) then mret run
      else
        nodes ← node_map tenant_id (wr_id run);
        match List.find simulable nodes with
        | None => mret run
        | Some waiting =>
            run ← resume_waiting_node tenant_id (nr_resume_token waiting) "approved"
                    (simulated_decision (nr_output_json waiting)) true;
            simulate_loop hops' tenant_id run
        end
  end.

Definition auto_simulate_approvals (tenant_id run_id : string) (max_hops : nat) : M Store WorkflowRun :=
  st ← get_state;
  match get_run tenant_id run_id st with
  | None => raise (ValueError ("Workflow run not found: " +:+ run_id))
  | Some run => simulate_loop max_hops tenant_id run
  end.
End resume.
End Resume.
