(* ===== verification/Start.v ===== *)
(** * Starting a run (engine.py, [WorkflowEngine.start_run])

    A published version, authorized bindings and a graph that still compiles
    become one run with one row per node; the configuration of the nodes is
    frozen in its snapshot. *)
From S2P Require Import Prelude PyStr Json Graph Pydantic Nodes Capabilities Compiler Tables Config Bindings.
From S2P Require Import RunModels Ready Cancellation Scheduler Testing Execute Engine Resume.

Module Start.
Import Graph Nodes Caps Tables Models Cancellation Engine.
Local Open Scope string_scope.
Local Open Scope list_scope.
Local Open Scope Z_scope.

(** The arguments of [start_run]. *)
Record StartArgs := {
  sg_tenant_id : string;
  sg_workflow_version_id : string;
  sg_trigger_payload : dict json;
  sg_initial_inputs : dict json;
  sg_automation_id : option string;
  sg_brand_id : option string;
  sg_correlation_id : option string;
  sg_compile_context : option CompileContext;
  sg_trigger_type : string;
  sg_run_config : dict json;
  sg_advance : bool;
  sg_dry_run : bool;
  sg_mock_generation : bool;
  sg_simulate_approval : bool;
}.

(** [runs.get_run_by_correlation]: the newest of them. *)
Definition get_run_by_correlation (tenant_id correlation_id : string) (st : Store) : option WorkflowRun :=
  List.find (λ r, bool_decide (wr_tenant_id r = tenant_id) &&
                  bool_decide (wr_correlation_id r = Some correlation_id)) (reverse (st_runs st)).

Section start.
Context (env : EngineEnv).

(** Everything read before the first write: the graph that will run and the
    snapshot of its configuration. *)
Definition prepare_run (args : StartArgs) : result (WorkflowGraph * dict json) :=
  let t := ee_tables env in
  let tenant_id := sg_tenant_id args in
  let client_ids := match sg_compile_context args with Some c => social_account_ids c | None => [] end in
  _ ← Bindings.authorize_runtime_bindings tenant_id (sg_automation_id args) (sg_brand_id args) client_ids t;
  compile_context ← build_runtime_compile_context (sg_compile_context args)
    (Bindings.authorize_social_account_ids tenant_id client_ids t)
    (get_social_accounts_by_ids tenant_id client_ids t);
  match get_version tenant_id (sg_workflow_version_id args) t with
  | None => Raise (HTTPException 404 "Workflow version not found")
  | Some version =>
      res ← Compiler.validate_graph (coercions := ee_coercions env) (ee_checksum env) (Execute.en_registry (ee_exec env))
              (wv_graph_json version) compile_context;
      match Compiler.cr_normalized_graph res with
      | None => Raise (HTTPException 422 "Cannot start invalid workflow")
      | Some normalized =>
          graph ← model_validate normalized;
          snapshot ← Config.build_snapshot (ee_digest env) (ee_llm_provider env) (ee_llm_model env)
            (Execute.en_registry (ee_exec env)) t tenant_id graph (Compiler.cr_checksum res)
            (sg_brand_id args) (sg_automation_id args) (Some compile_context) (sg_trigger_payload args)
            (sg_initial_inputs args) (Testing.merge_dry_run_config (sg_run_config args) (sg_dry_run args));
          mret (graph, Dict.set "testing" (JObj (Testing.testing_flags (sg_dry_run args)
                         (sg_mock_generation args) (sg_simulate_approval args))) snapshot)
      end
  end.

Definition effective_trigger_type (args : StartArgs) : string :=
  let t := if sg_dry_run args && String.eqb (sg_trigger_type args) "manual" then "dry_run"
           else sg_trigger_type args in
  if PyStr.truthy t then t else "manual".

Definition new_run (run_id : string) (args : StartArgs) (version : WorkflowVersion) (snapshot : dict json)
    : WorkflowRun := {|
  wr_id := run_id; wr_tenant_id := sg_tenant_id args; wr_automation_id := sg_automation_id args;
  wr_workflow_definition_id := wv_workflow_definition_id version; wr_workflow_version_id := wv_id version;
  wr_brand_id := sg_brand_id args; wr_trigger_type := effective_trigger_type args;
  wr_trigger_payload := sg_trigger_payload args; wr_status := RUN_QUEUED;
  wr_context_snapshot := snapshot; wr_started_at := Some (now env); wr_finished_at := None;
  wr_error_message := None; wr_correlation_id := sg_correlation_id args |}.

Definition initial_status (graph : WorkflowGraph) (n : GraphNode) : NodeStatus :=
  if bool_decide (gn_id n ∈ Ready.root_node_ids graph) then READY else PENDING.

(** [add_node_run(WorkflowNodeRun(...))] for one node of the graph. *)
Definition add_node (tenant_id run_id : string) (graph : WorkflowGraph) (n : GraphNode) : M Store unit :=
  id ← Execute.uuid4 (ee_exec env);
  modify (λ st, st <| st_node_runs ::= λ l,
    l ++ [new_node_run id tenant_id run_id (gn_id n) (gn_type n) (gn_version n) (initial_status graph n)
            "" []] |>).

(** The run and its rows. *)
Definition create_run (args : StartArgs) (version : WorkflowVersion) (graph : WorkflowGraph)
    (snapshot : dict json) : M Store string :=
  run_id ← Execute.uuid4 (ee_exec env);
  _ ← modify (λ st, st <| st_runs ::= λ l, l ++ [new_run run_id args version snapshot] |>);
  _ ← mfor (wg_nodes graph) (add_node (sg_tenant_id args) run_id graph);
  _ ← assign_run run_id (λ r, r <| wr_status := RUN_RUNNING |>);
  mret run_id.

Definition start_run (args : StartArgs) : M Store WorkflowRun :=
  let tenant_id := sg_tenant_id args in
  match get_version tenant_id (sg_workflow_version_id args) (ee_tables env) with
  | None => raise (HTTPException 404 "Workflow version not found")
  | Some version =>
      if match wv_published_at version with None => true | Some _ => false end then
        raise (HTTPException 400 "Workflow version is not published")
      else
        st ← get_state;
        let existing := match sg_correlation_id args with
          | Some c => if PyStr.truthy c then get_run_by_correlation tenant_id c st else None
          | None => None end in
        match existing with
        | Some run =>
            if sg_advance args && bool_decide (wr_status run ∈ [RUN_QUEUED; RUN_RUNNING])
            then advance env tenant_id (wr_id run) else mret run
        | None =>
            prepared ← lift (prepare_run args);
            run_id ← create_run args version prepared.1 prepared.2;
            if sg_advance args then
              run ← advance env tenant_id run_id;
              if sg_simulate_approval args
              then Resume.auto_simulate_approvals env tenant_id (wr_id run) 8 else mret run
            else require_run tenant_id run_id
        end
  end.

(** ** What a start does without advancing *)

(** The row of the [k]-th node when [u] ids were drawn before. *)
Definition initial_row (tenant_id run_id : string) (graph : WorkflowGraph) (u : nat) (k : nat) (n : GraphNode)
    : WorkflowNodeRun :=
  new_node_run (Execute.en_fresh (ee_exec env) (u + k)) tenant_id run_id (gn_id n) (gn_type n)
    (gn_version n) (initial_status graph n) "" [].

Lemma add_nodes_rows tenant_id run_id graph nodes st :
  mfor nodes (add_node tenant_id run_id graph) st =
    (Ok (), st <| st_uuids := st_uuids st + length nodes |>%nat
               <| st_node_runs ::= λ l, l ++ imap (initial_row tenant_id run_id graph (st_uuids st)) nodes |>).
Proof.
  revert st. induction nodes as [|n nodes IH]; intros st.
  { destruct st. cbn. unfold set_field. simpl. by rewrite Nat.add_0_r, app_nil_r. }
  cbn [mfor]. unfold mbind at 1, M_bind. unfold add_node at 1, Execute.uuid4, mbind, M_bind, get_state, modify.
  cbn. rewrite IH. destruct st as [? ? ? ? ? ? ? st_uuids]. unfold set_field. cbn. rewrite Nat.add_succ_r, <- app_assoc. cbn.
  assert (imap (initial_row tenant_id run_id graph st_uuids ∘ S) nodes =
          imap (initial_row tenant_id run_id graph (S st_uuids)) nodes) as ->.
  { apply imap_ext. intros k x _. unfold initial_row. simpl. by rewrite Nat.add_succ_r. }
  unfold initial_row at 2. by rewrite Nat.add_0_r.
Qed.

(** The store after a run was created. *)
Definition created (args : StartArgs) (version : WorkflowVersion) (graph : WorkflowGraph)
    (snapshot : dict json) (st : Store) : WorkflowRun * Store :=
  let run := new_run (Execute.en_fresh (ee_exec env) (st_uuids st)) args version snapshot
               <| wr_status := RUN_RUNNING |> in
  (run, st <| st_uuids := S (st_uuids st) + length (wg_nodes graph) |>%nat
           <| st_runs ::= λ l, l ++ [run] |>
           <| st_node_runs ::= λ l, l ++
                imap (initial_row (sg_tenant_id args) (wr_id run) graph (S (st_uuids st))) (wg_nodes graph) |>).

Lemma create_run_created args version graph snapshot st :
  Execute.en_fresh (ee_exec env) (st_uuids st) ∉ wr_id <$> st_runs st →
  create_run args version graph snapshot st =
    (Ok (wr_id (created args version graph snapshot st).1), (created args version graph snapshot st).2).
Proof.
  intros Hnew. unfold create_run, Execute.uuid4, mbind, M_bind, get_state, modify, mret, M_ret.
  cbn [mfor]. rewrite add_nodes_rows. unfold assign_run, modify, created. cbn. destruct st as [runs].
  unfold set_field. cbn in *. do 2 f_equal. unfold set_row. rewrite fmap_app. cbn.
  rewrite bool_decide_eq_true_2 by done. f_equal. rewrite <- (list_fmap_id runs) at 2. apply list_fmap_ext.
  intros ? r Hr%list_elem_of_lookup_2. rewrite bool_decide_eq_false_2; [done|].
  intros E. apply Hnew. rewrite <- E. by apply list_elem_of_fmap_2.
Qed.

Lemma created_found args version graph snapshot st :
  Execute.en_fresh (ee_exec env) (st_uuids st) ∉ wr_id <$> st_runs st →
  let '(run, st') := created args version graph snapshot st in
  get_run (sg_tenant_id args) (wr_id run) st' = Some run ∧
  (∀ c, sg_correlation_id args = Some c → get_run_by_correlation (sg_tenant_id args) c st' = Some run).
Proof.
  intros Hnew. cbn. split.
  - unfold get_run. cbn. unfold set_field. cbn.
    assert (List.find (λ r, bool_decide (wr_tenant_id r = sg_tenant_id args) &&
      bool_decide (wr_id r = Execute.en_fresh (ee_exec env) (st_uuids st))) (st_runs st) = None) as Hno.
    { apply find_None_Forall, Forall_forall. intros r Hr. apply andb_false_iff. right.
      apply bool_decide_eq_false. intros E. apply Hnew. rewrite <- E. by apply list_elem_of_fmap_2. }
    clear Hnew. revert Hno. induction (st_runs st) as [|r l IH]; cbn; [by rewrite !bool_decide_eq_true_2|].
    destruct (bool_decide _ && _); [done|]. apply IH.
  - intros c Hc. unfold get_run_by_correlation. cbn -[reverse]. unfold set_field. cbn -[reverse].
    rewrite rev_append_rev, rev_app_distr. cbn. rewrite !bool_decide_eq_true_2; [done| |done]. done.
Qed.

(** A start that does not advance, as an equation. *)
Lemma start_run_equation args st :
  sg_advance args = false → Execute.en_fresh (ee_exec env) (st_uuids st) ∉ wr_id <$> st_runs st →
  start_run args st =
    match get_version (sg_tenant_id args) (sg_workflow_version_id args) (ee_tables env) with
    | None => (Raise (HTTPException 404 "Workflow version not found"), st)
    | Some version =>
        match wv_published_at version with
        | None => (Raise (HTTPException 400 "Workflow version is not published"), st)
        | Some _ =>
            match match sg_correlation_id args with
                  | Some c => if PyStr.truthy c then get_run_by_correlation (sg_tenant_id args) c st else None
                  | None => None end with
            | Some run => (Ok run, st)
            | None =>
                match prepare_run args with
                | Raise e => (Raise e, st)
                | Ok (graph, snapshot) =>
                    let '(run, st') := created args version graph snapshot st in (Ok run, st')
                end
            end
        end
    end.
Proof.
  intros Ha Hnew. unfold start_run. rewrite Ha. destruct (get_version _ _ _) as [version|]; [|done].
  destruct (wv_published_at version); [|done]. unfold mbind at 1, M_bind, get_state.
  destruct (match sg_correlation_id args with Some _ => _ | None => _ end) as [run|]; [done|].
  unfold lift, mbind, M_bind. destruct (prepare_run args) as [[graph snapshot]|]; [|done].
  cbn [fst snd]. rewrite create_run_created by done.
  pose proof (created_found args version graph snapshot st Hnew) as Hf.
  destruct (created _ _ _ _ st) as [run st'] eqn:E. cbn [fst snd]. unfold require_run, mbind, M_bind, get_state.
  destruct Hf as [-> _]. done.
Qed.

Lemma start_keeps_occurrences args st :
  sg_advance args = false → st_occurrences (start_run args st).2 = st_occurrences st.
Proof.
  intros Ha. unfold start_run. destruct (get_version _ _ _) as [version|]; [|done].
  destruct (wv_published_at version); [|done]. unfold mbind at 1, M_bind, get_state. rewrite Ha.
  destruct (match sg_correlation_id args with Some _ => _ | None => _ end) as [run|]; [done|].
  unfold lift, mbind, M_bind. destruct (prepare_run args) as [[graph snapshot]|]; [|done].
  unfold create_run, Execute.uuid4, mbind, M_bind, get_state, modify, mret, M_ret. cbn [fst snd].
  rewrite add_nodes_rows. unfold assign_run, modify, require_run, mbind, M_bind, get_state.
  by destruct (get_run _ _ _).
Qed.

(** The scheduler's call of [start_run]. *)
Definition scheduled_args (r : Scheduler.StartRequest) : StartArgs := {|
  sg_tenant_id := Scheduler.sr_tenant_id r; sg_workflow_version_id := Scheduler.sr_workflow_version_id r;
  sg_trigger_payload := Scheduler.sr_trigger_payload r; sg_initial_inputs := Scheduler.sr_initial_inputs r;
  sg_automation_id := Some (Scheduler.sr_automation_id r); sg_brand_id := Some (Scheduler.sr_brand_id r);
  sg_correlation_id := Some (Scheduler.sr_correlation_id r);
  sg_compile_context := Some (default_context <| social_account_ids := Scheduler.sr_social_account_ids r |>
     <| require_publish_targets := Scheduler.sr_require_publish_targets r |>);
  sg_trigger_type := Scheduler.sr_trigger_type r; sg_run_config := []; sg_advance := false;
  sg_dry_run := false; sg_mock_generation := false; sg_simulate_approval := false |}.

(** The engine keeps what the scheduler relies on. *)
#[global] Instance engine_starter : Scheduler.RunStarter := {
  Scheduler.start_run := λ r, start_run (scheduled_args r);
  Scheduler.start_run_occurrences := λ r st, start_keeps_occurrences (scheduled_args r) st eq_refl;
}.
End start.

Lemma start_run_existing env args st version run c :
  sg_advance args = false → sg_correlation_id args = Some c → PyStr.truthy c = true →
  get_version (sg_tenant_id args) (sg_workflow_version_id args) (ee_tables env) = Some version →
  is_Some (wv_published_at version) → get_run_by_correlation (sg_tenant_id args) c st = Some run →
  start_run env args st = (Ok run, st).
Proof.
  intros Ha Hc Ht Hv [t Hp] Hr. unfold start_run. rewrite Ha, Hc, Hv, Hp, Ht.
  unfold mbind at 1, M_bind, get_state. by rewrite Hr.
Qed.

(** A node starts READY exactly when no edge enters it. *)
Definition entry_status (graph : WorkflowGraph) (n : GraphNode) : NodeStatus :=
  if bool_decide (gn_id n ∈ ge_target <$> wg_edges graph) then PENDING else READY.

Lemma initial_status_entry graph n : n ∈ wg_nodes graph → initial_status graph n = entry_status graph n.
Proof.
  intros Hn. unfold initial_status, entry_status, Ready.root_node_ids.
  rewrite (bool_decide_ext (gn_id n ∈ List.filter _ _) (gn_id n ∉ ge_target <$> wg_edges graph)).
  - by repeat case_bool_decide.
  - rewrite list_elem_of_In, List.filter_In, <- list_elem_of_In, negb_true_iff, bool_decide_eq_false.
    split; [by intros [_ ?]|]. split; [by apply list_elem_of_fmap_2|done].
Qed.

Lemma initial_rows_Forall2 env tenant_id run_id graph u nodes : nodes ⊆ wg_nodes graph →
  Forall2 (λ n r, nr_node_id r = gn_id n ∧ nr_node_type r = gn_type n ∧ nr_node_version r = gn_version n ∧
      nr_tenant_id r = tenant_id ∧ nr_workflow_run_id r = run_id ∧ nr_attempt r = 0 ∧
      nr_status r = entry_status graph n)
    nodes (imap (initial_row env tenant_id run_id graph u) nodes).
Proof.
  revert u. induction nodes as [|n nodes IH]; intros u Hsub; constructor.
  { split_and!; [done..|]. apply initial_status_entry, Hsub. left. }
  replace (imap _ nodes) with (imap (initial_row env tenant_id run_id graph (S u)) nodes).
  { apply IH. intros x Hx. apply Hsub. by right. }
  apply imap_ext. intros k x _. unfold initial_row. simpl. by rewrite Nat.add_succ_r.
Qed.

(** C15: starting a run without advancing it either raises without any effect,
    or returns the newest run of the same correlation id without any effect, or
    creates exactly one run: of a published version, with bindings and a graph
    that passed their checks, RUNNING, with the prepared snapshot, and exactly
    one unstarted row per node of the graph, PENDING when an edge enters the node
    and READY otherwise, no task being enqueued.  With a correlation id, the same start
    again returns that run and changes nothing. *)
Theorem start_run_spec env args st :
  sg_advance args = false →
  (∀ n, (st_uuids st ≤ n)%nat → Execute.en_fresh (ee_exec env) n ∉ wr_id <$> st_runs st) →
  let '(res, st') := start_run env args st in
  match res with
  | Raise _ => st' = st
  | Ok run =>
      (st' = st ∧ ∃ c, sg_correlation_id args = Some c ∧
         get_run_by_correlation (sg_tenant_id args) c st = Some run) ∨
      ∃ version graph snapshot rows,
        get_version (sg_tenant_id args) (sg_workflow_version_id args) (ee_tables env) = Some version ∧
        is_Some (wv_published_at version) ∧ prepare_run env args = Ok (graph, snapshot) ∧
        wr_status run = RUN_RUNNING ∧ wr_context_snapshot run = snapshot ∧
        wr_tenant_id run = sg_tenant_id args ∧ wr_workflow_version_id run = wv_id version ∧
        st_runs st' = st_runs st ++ [run] ∧ st_node_runs st' = st_node_runs st ++ rows ∧
        Forall2 (λ n r, nr_node_id r = gn_id n ∧ nr_node_type r = gn_type n ∧
            nr_node_version r = gn_version n ∧ nr_tenant_id r = wr_tenant_id run ∧
            nr_workflow_run_id r = wr_id run ∧ nr_attempt r = 0 ∧ nr_status r = entry_status graph n)
          (wg_nodes graph) rows ∧
        st_tasks st' = st_tasks st ∧ st_waits st' = st_waits st ∧ st_occurrences st' = st_occurrences st ∧
        ∀ c, sg_correlation_id args = Some c → PyStr.truthy c = true →
          start_run env args st' = (Ok run, st')
  end.
Proof.
  intros Ha Hfresh. assert (Execute.en_fresh (ee_exec env) (st_uuids st) ∉ wr_id <$> st_runs st) as Hnew by auto.
  rewrite start_run_equation by done. destruct (get_version _ _ _) as [version|] eqn:Hv; [|done].
  destruct (wv_published_at version) as [t|] eqn:Hp; [|done].
  destruct (match sg_correlation_id args with Some _ => _ | None => _ end) as [run|] eqn:Hex.
  { left. split; [done|]. destruct (sg_correlation_id args) as [c|]; [|done]. exists c.
    by destruct (PyStr.truthy c). }
  destruct (prepare_run env args) as [[graph snapshot]|] eqn:Hprep; [|done].
  pose proof (created_found env args version graph snapshot st Hnew) as Hf.
  unfold created in *. cbv zeta in *. right.
  eexists version, graph, snapshot, _. split_and!; try done.
  - by apply initial_rows_Forall2.
  - intros c Hc Ht. apply (start_run_existing _ _ _ version _ c); try done. by apply Hf.
Qed.

(** ** A start *)

Definition ex_trigger : WorkflowNode := {|
  wn_type := "manual_trigger"; wn_version := 1; wn_category := "trigger"; wn_implementation_status := STABLE;
  wn_input_ports := []; wn_output_ports := []; wn_required_capabilities := []; wn_may_pause := false;
  wn_retry_policy := default_retry_policy; wn_config_defaults := Ok []; wn_config_fields := [];
  wn_validate_config := Ok; wn_validate_inputs := Ok; wn_validate_output := Ok;
  wn_execute := λ _ _ _, Ok {| res_status := RS_SUCCEEDED; res_output := [("ok", JBool true)];
    res_error := None; res_waiting_reason := None |} |}.

Definition ex_exec : Execute.Env := {|
  Execute.en_cfg := Execute.en_cfg Execute.ex_env; Execute.en_now := 1000; Execute.en_jitter := Execute.en_jitter Execute.ex_env;
  Execute.en_fresh := Execute.unary_id;
  Execute.en_registry := [("manual_trigger", [(1, ex_trigger)]); ("echo", [(1, Execute.ex_echo)])];
  Execute.en_fromisoformat := λ _, None; Execute.en_globals := Execute.repaired_globals |}.

Definition ex_graph : WorkflowGraph := {|
  wg_schema_version := 1;
  wg_nodes := [{| gn_id := "start"; gn_type := "manual_trigger"; gn_version := 1; gn_config := [];
                  gn_input_bindings := [] |}; Execute.ex_graph_node];
  wg_edges := [plain_edge "start" "A"]; wg_metadata := [] |}.

Definition ex_env : EngineEnv := {|
  ee_exec := ex_exec;
  ee_tables := {| tb_definitions := []; tb_versions := [{| wv_id := "V"; wv_tenant_id := "T"; wv_workflow_definition_id := "D";
                    wv_version := 1; wv_graph_json := ex_graph; wv_input_schema_json := []; wv_output_schema_json := [];
                    wv_checksum := None; wv_published_at := Some 1; wv_created_by_user_id := None |}];
                  tb_automations := []; tb_targets := []; tb_brands := []; tb_profiles := [];
                  tb_brand_accounts := []; tb_accounts := [] |};
  ee_coercions := strict_coercions; ee_checksum := λ _, "sum"; ee_digest := λ _, "digest"; ee_llm_provider := "p"; ee_llm_model := "m";
  ee_locked := ∅; ee_refresh := λ r, r |}.

Definition ex_args : StartArgs := {|
  sg_tenant_id := "T"; sg_workflow_version_id := "V"; sg_trigger_payload := []; sg_initial_inputs := [];
  sg_automation_id := None; sg_brand_id := None; sg_correlation_id := Some "c"; sg_compile_context := None;
  sg_trigger_type := "manual"; sg_run_config := []; sg_advance := false; sg_dry_run := false;
  sg_mock_generation := false; sg_simulate_approval := false |}.

Definition ex_started : Store := (start_run ex_env ex_args empty_store).2.

Lemma start_run_spec_witness :
  nr_status <$> st_node_runs ex_started = [READY; PENDING] ∧
  match start_run ex_env ex_args empty_store with
  | (Ok run, st') => start_run ex_env ex_args st' = (Ok run, st')
  | (Raise _, _) => False
  end.
Proof.
  split; [vm_compute; reflexivity|].
  pose proof (start_run_spec ex_env ex_args empty_store eq_refl
    (λ n _ H, match not_elem_of_nil (A:=string) _ H with end)) as Hspec.
  destruct (start_run ex_env ex_args empty_store) as [[run|e] st'] eqn:E.
  - destruct Hspec as [[_ (c & _ & Hc)]|(version & graph & snapshot & rows & _ & _ & _ & _ & _ & _ & _ & _ & _ & _ & _ & _ & _ & Hagain)].
    + discriminate.
    + apply (Hagain "c"); reflexivity.
  - vm_compute in E. discriminate.
Defined.

(** The same engine, executing inline. *)
Definition inline_env (globals : Execute.Globals) : EngineEnv := {|
  ee_exec := {|
    Execute.en_cfg := {| Retry.WORKFLOW_CLAIM_LEASE_SECONDS := 60;
                         Retry.WORKFLOW_CLAIM_RECOVERY_BATCH_SIZE := 10;
                         Retry.WORKFLOW_INLINE_NODE_EXECUTION := true |};
    Execute.en_now := 1000; Execute.en_jitter := Execute.en_jitter Execute.ex_env;
    Execute.en_fresh := Execute.unary_id; Execute.en_registry := Execute.en_registry ex_exec;
    Execute.en_fromisoformat := λ _, None; Execute.en_globals := globals |};
  ee_tables := ee_tables ex_env; ee_coercions := strict_coercions; ee_checksum := λ _, "sum"; ee_digest := λ _, "digest";
  ee_llm_provider := "p"; ee_llm_model := "m"; ee_locked := ∅; ee_refresh := λ r, r |}.

(** The whole run, start to end, with and without the missing names. *)
Example inline_run :
  (let '(r, st) := advance (inline_env Execute.repaired_globals) "T" "i" ex_started in
   (wr_status <$> st_runs st, nr_status <$> st_node_runs st, nr_attempt <$> st_node_runs st)) =
    ([RUN_SUCCEEDED], [SUCCEEDED; SUCCEEDED], [1; 1]) ∧
  (let '(r, st) := advance (inline_env Execute.module_globals) "T" "i" ex_started in
   (match r with Raise e => Some e | Ok _ => None end, nr_status <$> st_node_runs st)) =
    (Some (NameError "datetime"), [RUNNING; PENDING]).
Proof. vm_compute. done. Qed.
End Start.
