(* ===== verification/EngineSpec.v ===== *)
(** * What the engine promises its workers

    One pass of [advance] hands every claimable row to exactly one task, under
    a token of its own; a task whose token is not the one of its row, or whose
    row or run moved on, has no effect. *)
From Stdlib Require Import QArith.
From S2P Require Import Prelude PyStr Json Graph Pydantic Nodes Tables RunModels NodeIndex Ready.
From S2P Require Import Retry Claiming Cancellation Execute Engine Start.

Module EngineSpec.
Import Graph Nodes Tables Models Claiming Cancellation Engine.
Local Open Scope string_scope.
Local Open Scope list_scope.
Local Open Scope Z_scope.

Section dispatch.
Context (env : EngineEnv).

Notation fresh := (Execute.en_fresh (ee_exec env)).

(** A READY row a pass can claim now. *)
Definition handed (r : WorkflowNodeRun) : bool :=
  due (now env) r && negb (bool_decide (nr_id r ∈ ee_locked env)).

Definition handed_row (token : string) (r : WorkflowNodeRun) : WorkflowNodeRun :=
  claimed_row (cfg env) (now env) token None r.

(** The rows a pass over [todo] claims, when [u] ids were drawn before. *)
Fixpoint handed_out (u : nat) (todo : list WorkflowNodeRun) : list WorkflowNodeRun :=
  match todo with
  | [] => []
  | r :: rest => (if handed r then [handed_row (fresh u) r] else []) ++ handed_out (S u) rest
  end.

(** The rows after those of [batch] were written. *)
Definition replaced (batch l : list WorkflowNodeRun) : list WorkflowNodeRun :=
  (λ r, default r (node_row (nr_id r) batch)) <$> l.

Definition node_task (tenant_id run_id : string) (r : WorkflowNodeRun) : Task :=
  ExecuteNodeTask tenant_id run_id (nr_id r) (default "" (nr_claim_token r)).

(** The claim of one row by its id. *)
Lemma claim_at token r l :
  unique_ids l → r ∈ l → nr_status r = READY →
  claim_ready_node (cfg env) (now env) (ee_locked env) token (nr_tenant_id r) (nr_workflow_run_id r)
      (Some (nr_id r)) None l =
    if handed r then (Some (handed_row token r), set_node (nr_id r) (handed_row token) l) else (None, l).
Proof.
  intros Hnd Hr Hs. unfold claim_ready_node.
  assert (∀ x, x ∈ l → nr_id x = nr_id r → x = r) as Hone
    by (intros x Hx; by apply (NoDup_fmap_inj_in nr_id l)).
  set (p := λ x, claimable _ _ _ _ x && _).
  assert (∀ x, x ∈ l → p x = true → x = r ∧ handed r = true) as Hp.
  { intros x Hx [Hc Hl]%andb_true_iff. unfold claimable in Hc. apply andb_true_iff in Hc as [Hc Hid%bool_decide_eq_true].
    apply andb_true_iff in Hc as [_ Hd]. assert (x = r) as -> by by apply Hone. split; [done|].
    unfold handed. by rewrite Hd, Hl. }
  destruct (handed r) eqn:Hh.
  - assert (p r = true) as Hpr.
    { subst p. unfold handed in Hh. apply andb_true_iff in Hh as [Hd ->]. unfold claimable, is_status.
      rewrite Hs, Hd, !bool_decide_eq_true_2 by done. done. }
    destruct (List.find p l) as [x|] eqn:E.
    2: { apply find_None_Forall in E. rewrite Forall_forall in E. rewrite (E r Hr) in Hpr. done. }
    apply find_Some_elem in E as [Hx Hpx]. destruct (Hp x Hx Hpx) as [-> _].
    apply sql_update_at; [done|done| |].
    + unfold is_status. apply andb_true_iff in Hh as [-> _]. by rewrite !bool_decide_eq_true_2.
    + intros x [[Hid%bool_decide_eq_true _]%andb_true_iff _]%andb_true_iff. done.
  - destruct (List.find p l) as [x|] eqn:E; [|done].
    apply find_Some_elem in E as [Hx Hpx]. by destruct (Hp x Hx Hpx).
Qed.

Lemma handed_id u todo r : r ∈ handed_out u todo → ∃ r0 k,
  r0 ∈ todo ∧ handed r0 = true ∧ r = handed_row (fresh (u + k)) r0 ∧ (k < length todo)%nat.
Proof.
  revert u. induction todo as [|x todo IH]; intros u; [by intros ?%not_elem_of_nil|].
  cbn [handed_out]. intros [Hr|Hr]%elem_of_app.
  - destruct (handed x) eqn:E; [|by apply not_elem_of_nil in Hr]. apply list_elem_of_singleton in Hr as ->.
    exists x, 0%nat. rewrite Nat.add_0_r. split_and!; [left|done|done|simpl; lia].
  - destruct (IH _ Hr) as (r0 & k & ? & ? & -> & ?). exists r0, (S k). rewrite Nat.add_succ_r.
    split_and!; [by right|done|done|simpl; lia].
Qed.

Lemma handed_all u todo r : r ∈ todo → handed r = true → ∃ token, handed_row token r ∈ handed_out u todo.
Proof.
  revert u. induction todo as [|x todo IH]; intros u; [by intros ?%not_elem_of_nil|].
  intros [->|Hr]%elem_of_cons Hh; cbn [handed_out].
  - rewrite Hh. exists (fresh u). left.
  - destruct (IH (S u) Hr Hh) as [token Ht]. exists token. apply elem_of_app. by right.
Qed.

Lemma handed_ids u todo : (nr_id <$> handed_out u todo) `sublist_of` (nr_id <$> todo).
Proof.
  revert u. induction todo as [|x todo IH]; intros u; [done|]. cbn [handed_out].
  destruct (handed x); cbn; [by apply sublist_skip|by apply sublist_cons].
Qed.

Lemma handed_tokens u todo : Inj (=) (=) fresh → NoDup (nr_claim_token <$> handed_out u todo).
Proof.
  intros Hinj. revert u. induction todo as [|x todo IH]; intros u; [constructor|]. cbn [handed_out].
  destruct (handed x); cbn; [|apply IH]. constructor; [|apply IH].
  intros (b & Hb & (r & k & _ & _ & -> & _)%handed_id)%list_elem_of_fmap.
  injection Hb as Hb%(inj fresh). lia.
Qed.

(** The row of an id that is not in the batch is kept. *)
Lemma replaced_nil l : replaced [] l = l.
Proof. unfold replaced. cbn. apply list_fmap_id. Qed.

Lemma not_handed_row u todo i : i ∉ nr_id <$> todo → node_row i (handed_out u todo) = None.
Proof.
  intros Hi. apply find_None_Forall, Forall_forall. intros r (r0 & k & Hr0 & _ & -> & _)%handed_id.
  apply bool_decide_eq_false. intros <-. apply Hi. exact (list_elem_of_fmap_2 nr_id _ _ Hr0).
Qed.

Lemma replaced_step token r batch l :
  node_row (nr_id r) batch = None → (∀ x, x ∈ l → nr_id x = nr_id r → x = r) →
  replaced batch (set_node (nr_id r) (handed_row token) l) = replaced (handed_row token r :: batch) l.
Proof.
  intros Hb Hone. unfold replaced, set_row. rewrite <- list_fmap_compose. apply list_fmap_ext.
  intros ? x Hx%list_elem_of_lookup_2. cbn. case_bool_decide as E.
  - assert (x = r) as -> by by apply Hone. change (nr_id (handed_row token r)) with (nr_id r).
    rewrite Hb. unfold row_by. cbn. by rewrite bool_decide_eq_true_2.
  - unfold row_by. cbn. by rewrite (bool_decide_eq_false_2 (nr_id r = nr_id x)) by congruence.
Qed.

Hypothesis celery : WORKFLOW_INLINE_NODE_EXECUTION (cfg env) = false.
Hypothesis tokens : ∀ n, PyStr.truthy (fresh n) = true.
Context (tenant_id run_id : string).

Lemma claim_one_equation r st :
  NoDup (nr_id <$> st_node_runs st) → r ∈ list_node_runs tenant_id run_id st → nr_status r = READY →
  claim_one env tenant_id run_id r st =
    if handed r then
      (Ok (Some (handed_row (fresh (st_uuids st)) r)),
       st <| st_uuids ::= S |> <| st_node_runs ::= set_node (nr_id r) (handed_row (fresh (st_uuids st))) |>
          <| st_tasks ::= λ l, l ++ [node_task tenant_id run_id (handed_row (fresh (st_uuids st)) r)] |>)
    else (Ok None, st <| st_uuids ::= S |>).
Proof.
  intros Hnd (Hin & Ht & Hrun)%list_node_runs_elem Hs.
  unfold claim_one, claim, Execute.uuid4, on_rows, mbind, M_bind, get_state, modify, mret, M_ret.
  pose proof (claim_at (fresh (st_uuids st)) r (st_node_runs st) Hnd Hin Hs) as Hc. rewrite Ht, Hrun in Hc.
  change (st_node_runs (st <| st_uuids ::= S |>)) with (st_node_runs st). rewrite Hc.
  destruct (handed r); [|destruct st; reflexivity].
  assert (nr_claim_token (handed_row (fresh (st_uuids st)) r) = Some (fresh (st_uuids st))) as Htok by done.
  unfold node_task, enqueue_claimed_node. generalize dependent (handed_row (fresh (st_uuids st)) r). intros row _ Htok.
  generalize (set_node (nr_id r) (handed_row (fresh (st_uuids st)))). intros put.
  rewrite Htok. cbn [PyStr.opt_truthy]. rewrite tokens. cbn [negb]. rewrite celery. reflexivity.
Qed.

(** Everything a pass over the READY rows [todo] does. *)
Lemma claim_batch_spec todo st :
  NoDup (nr_id <$> st_node_runs st) → NoDup (nr_id <$> todo) →
  (∀ r, r ∈ todo → r ∈ list_node_runs tenant_id run_id st ∧ nr_status r = READY) →
  let batch := handed_out (st_uuids st) todo in
  claim_batch env tenant_id run_id todo st =
    (Ok batch, st <| st_uuids ::= λ u, u + length todo |>%nat <| st_node_runs ::= replaced batch |>
                  <| st_tasks ::= λ l, l ++ (node_task tenant_id run_id <$> batch) |>).
Proof.
  cbv zeta. revert st. induction todo as [|r todo IH]; intros st Hnd Hndt Htodo.
  { destruct st. cbn -[replaced]. unfold set_field. cbn -[replaced]. by rewrite replaced_nil, app_nil_r, Nat.add_0_r. }
  rewrite fmap_cons in Hndt. apply NoDup_cons in Hndt as [Hr Hndt].
  destruct (Htodo r ltac:(left)) as [Hin Hs]. pose proof Hin as (Hin' & _)%list_node_runs_elem.
  cbn [claim_batch handed_out]. unfold mbind at 1, M_bind. rewrite claim_one_equation by done.
  destruct (handed r) eqn:Hh; cbn [option_list app].
  - set (st1 := st <| st_uuids ::= S |> <| st_node_runs ::= _ |> <| st_tasks ::= _ |>).
    assert (st_node_runs st1 = set_node (nr_id r) (handed_row (fresh (st_uuids st))) (st_node_runs st)) as Hrows by done.
    unfold mbind, M_bind. rewrite IH; [|by rewrite Hrows, set_row_keys|done|].
    + cbn [mret M_ret option_list app]. destruct st as [? rows ? ? ? ? ? u]. unfold set_field. cbn -[replaced set_row].
      rewrite replaced_step; [|by apply not_handed_row|intros x Hx; by apply (NoDup_fmap_inj_in nr_id rows)].
      by rewrite Nat.add_succ_r, <- app_assoc.
    + intros x Hx. destruct (Htodo x ltac:(by right)) as [(Hx1 & Hx2 & Hx3)%list_node_runs_elem Hxs].
      split; [|done]. apply list_node_runs_elem. rewrite Hrows. split; [|done]. apply list_elem_of_fmap. exists x.
      rewrite bool_decide_eq_false_2; [done|]. intros E. apply Hr. rewrite <- E. by apply list_elem_of_fmap_2.
  - unfold mbind, M_bind. rewrite IH; [|done|done|].
    + destruct st. unfold set_field. cbn -[replaced]. by rewrite Nat.add_succ_r.
    + intros x Hx. apply (Htodo x). by right.
Qed.

(** ** Promotion *)

Definition in_run (r : WorkflowNodeRun) : Prop := nr_tenant_id r = tenant_id ∧ nr_workflow_run_id r = run_id.

(** Without READY rows, those of the nodes that became ready are promoted. *)
Definition promoted (graph : WorkflowGraph) (rows : list WorkflowNodeRun) (r r' : WorkflowNodeRun) : Prop :=
  r' = r ∨ (ready_rows rows = [] ∧ in_run r ∧ nr_status r = PENDING ∧
            nr_node_id r ∈ Ready.ready_node_ids graph rows ∧ r' = r <| nr_status := READY |>).

Lemma promoted_ids graph rows l l' : Forall2 (promoted graph rows) l l' → nr_id <$> l' = nr_id <$> l.
Proof.
  induction 1 as [|? ? ? ? Hxy _ IH]; [done|]. rewrite !fmap_cons, IH. f_equal.
  by destruct Hxy as [->|(_ & _ & _ & _ & ->)].
Qed.

Lemma ready_rows_elem l r : r ∈ ready_rows l ↔ r ∈ l ∧ nr_status r = READY.
Proof.
  unfold ready_rows. rewrite list_elem_of_In, List.filter_In, <- list_elem_of_In. unfold Ready.has_status.
  by rewrite bool_decide_eq_true.
Qed.

Lemma wp_promote_one graph st node_id s :
  let rows := list_node_runs tenant_id run_id st in
  NoDup (nr_id <$> st_node_runs st) → ready_rows rows = [] → node_id ∈ Ready.ready_node_ids graph rows →
  (∃ l, s = st <| st_node_runs := l |> ∧ Forall2 (promoted graph rows) (st_node_runs st) l) →
  wp (promote_one tenant_id run_id node_id)
    (λ _ s, ∃ l, s = st <| st_node_runs := l |> ∧ Forall2 (promoted graph rows) (st_node_runs st) l)
    (λ _ _, False) s.
Proof.
  intros rows Hnd Hno Hid (l & -> & Hl). unfold promote_one, node_map.
  apply wp_bind, wp_bind, wp_get, wp_ret.
  destruct (Index.get node_id _) as [row|] eqn:Eg; [|apply wp_ret; by exists l].
  destruct (Ready.has_status PENDING row) eqn:Ep; [|apply wp_ret; by exists l].
  apply bool_decide_eq_true in Ep. apply Index.index_get_elem in Eg as [(Hrow & Ht & Hrun)%list_node_runs_elem Hn].
  apply wp_modify. exists (set_node (nr_id row) (λ r, r <| nr_status := READY |>) l). split; [done|].
  unfold set_row. apply Forall2_fmap_r. eapply Forall2_impl_in; [exact Hl|]. intros r x Hr Hx Hp. cbn [compose].
  case_bool_decide as E; [|done]. change (st_node_runs (st <| st_node_runs := l |>)) with l in Hrow.
  assert (nr_id <$> l = nr_id <$> st_node_runs st) as Hids by by eapply promoted_ids.
  assert (x = row) as -> by (apply (NoDup_fmap_inj_in nr_id l); [by rewrite Hids|done..]).
  destruct Hp as [->|(_ & _ & _ & _ & ->)]; [|discriminate]. right. split_and!; [done..|by rewrite Hn|done].
Qed.

Lemma find_claimable_spec graph st :
  NoDup (nr_id <$> st_node_runs st) →
  let rows := list_node_runs tenant_id run_id st in
  ∃ l, let st0 := st <| st_node_runs := l |> in
    find_claimable tenant_id run_id graph rows st = (Ok (ready_rows (list_node_runs tenant_id run_id st0)), st0) ∧
    Forall2 (promoted graph rows) (st_node_runs st) l.
Proof.
  intros Hnd rows. unfold find_claimable. destruct (ready_rows rows) as [|r l] eqn:E.
  - assert (wp (mfor (Ready.ready_node_ids graph rows) (promote_one tenant_id run_id))
      (λ _ s, ∃ l, s = st <| st_node_runs := l |> ∧ Forall2 (promoted graph rows) (st_node_runs st) l)
      (λ _ _, False) st) as Hwp.
    { apply (wp_mfor _ _ (λ rest s, rest ⊆ Ready.ready_node_ids graph rows ∧
        ∃ l, s = st <| st_node_runs := l |> ∧ Forall2 (promoted graph rows) (st_node_runs st) l)).
      - split; [done|]. exists (st_node_runs st). split; [by destruct st|].
        apply Forall_Forall2_diag, Forall_forall. intros r _. by left.
      - intros n rest s [Hsub Hs]. eapply wp_mono; [apply (wp_promote_one graph); [done|done|apply Hsub; left|done]| |done].
        intros [] s' Hs'. split; [intros y Hy; apply Hsub; by right|done].
      - by intros s [_ Hs]. }
    unfold wp in Hwp. unfold mbind at 1, M_bind. destruct (mfor _ _ st) as [[[]|e] s]; [|done].
    destruct Hwp as (l & -> & Hl). exists l. split; [done|done].
  - exists (st_node_runs st). cbn -[ready_rows list_node_runs]. split.
    + rewrite <- E. by destruct st.
    + apply Forall_Forall2_diag, Forall_forall. intros x _. by left.
Qed.

(** ** One pass *)

Definition blocked (rows : list WorkflowNodeRun) : bool := Ready.run_is_waiting rows || Ready.run_has_failure rows.

(** Ending the pass touches neither node rows nor messages. *)
Definition same_work (st s : Store) : Prop := st_node_runs s = st_node_runs st ∧ st_tasks s = st_tasks st.

Lemma keeps_end_pass st :
  keeps (same_work st) (_ ← finalize env tenant_id run_id; _ ← sync_occurrence run_id; require_run tenant_id run_id).
Proof.
  assert (∀ s, same_work st s → wp (require_run tenant_id run_id) (λ _, same_work st) (λ _, same_work st) s) as Hreq.
  { intros s Hs. unfold require_run. apply wp_bind, wp_get. destruct (get_run _ _ _); [by apply wp_ret|by apply wp_raise]. }
  intros s Hs. apply wp_bind. unfold finalize, node_map, assign_run. apply wp_bind, wp_bind, wp_get, wp_ret, wp_modify.
  apply wp_bind. unfold sync_occurrence. apply wp_bind, wp_get.
  set (s1 := s <| st_runs ::= _ |>). assert (same_work st s1) as H1 by exact Hs. clearbody s1.
  destruct (run_row run_id s1) as [run|]; [|by apply wp_ret, Hreq].
  unfold sync_occurrence_for_run. destruct (wr_automation_id run); [|by apply wp_ret, Hreq].
  destruct (negb _); [by apply wp_ret, Hreq|]. apply wp_bind, wp_get, wp_bind, wp_lift.
  destruct (scalar_one_or_none _) as [[occ|]|e]; [|by apply wp_ret, Hreq|done].
  destruct (occurrence_terminal _); [by apply wp_ret, Hreq|]. by apply wp_modify, Hreq.
Qed.

Lemma advance_loop_celery n graph st :
  NoDup (nr_id <$> st_node_runs st) →
  let rows := list_node_runs tenant_id run_id st in
  ∃ l, let st0 := st <| st_node_runs := l |> in
    let batch := if blocked rows then []
                 else handed_out (st_uuids st) (ready_rows (list_node_runs tenant_id run_id st0)) in
    ∃ st', advance_loop env (S n) tenant_id run_id graph st = (Ok false, st') ∧
      Forall2 (promoted graph rows) (st_node_runs st) l ∧ st_node_runs st' = replaced batch l ∧
      st_tasks st' = st_tasks st ++ (node_task tenant_id run_id <$> batch).
Proof.
  intros Hnd rows. cbn [advance_loop]. unfold mbind at 1, M_bind, node_map, mbind at 1, M_bind, get_state, mret at 1, M_ret.
  fold rows. fold (blocked rows). destruct (blocked rows) eqn:Hb.
  { exists (st_node_runs st). eexists. split; [done|]. split_and!.
    - apply Forall_Forall2_diag, Forall_forall. intros x _. by left.
    - by rewrite replaced_nil.
    - by rewrite app_nil_r. }
  destruct (find_claimable_spec graph st Hnd) as (l & Hf & Hl). fold rows in Hf, Hl.
  unfold mbind at 1, M_bind. rewrite Hf. exists l. set (st0 := st <| st_node_runs := l |>) in *. cbv zeta.
  set (todo := ready_rows (list_node_runs tenant_id run_id st0)) in *.
  assert (nr_id <$> l = nr_id <$> st_node_runs st) as Hids by by eapply promoted_ids.
  assert (NoDup (nr_id <$> st_node_runs st0)) as Hnd0 by by (cbn; rewrite Hids).
  unfold mbind at 1, M_bind. rewrite claim_batch_spec.
  - change (st_uuids st0) with (st_uuids st). set (batch := handed_out (st_uuids st) todo).
    destruct batch as [|b batch]; [|rewrite celery]; (eexists; split; [reflexivity|]; by split_and!).
  - done.
  - subst todo. eapply sublist_NoDup; [exact Hnd0|]. apply fmap_sublist.
    etransitivity; [apply filter_sublist|apply filter_sublist].
  - intros r Hr. by apply ready_rows_elem.
Qed.

Lemma advance_pass st run graph :
  NoDup (nr_id <$> st_node_runs st) → get_run tenant_id run_id st = Some run → run_terminal (wr_status run) = false →
  load_graph env tenant_id (wr_workflow_version_id run) st = (Ok graph, st) →
  let rows := list_node_runs tenant_id run_id st in
  let st' := (advance env tenant_id run_id st).2 in
  ∃ mid, let batch := if blocked rows then []
      else handed_out (st_uuids st) (ready_rows (list_node_runs tenant_id run_id (st <| st_node_runs := mid |>))) in
    Forall2 (promoted graph rows) (st_node_runs st) mid ∧ st_node_runs st' = replaced batch mid ∧
    st_tasks st' = st_tasks st ++ (node_task tenant_id run_id <$> batch).
Proof.
  intros Hnd Hrun Hlive Hg rows st'. subst st'.
  assert (∃ n, loop_bound graph = S n) as [n Hn].
  { unfold loop_bound. exists (Nat.pred (Nat.max (Nat.max 8 (length (wg_nodes graph) * 4)) 32)). lia. }
  destruct (advance_loop_celery n graph st Hnd) as (mid & st1 & Hloop & Hmid & Hrows & Htasks).
  exists mid. fold rows in Hmid, Hrows, Htasks. cbv zeta.
  assert (require_run tenant_id run_id st = (Ok run, st)) as Hreq.
  { unfold require_run, mbind, M_bind, get_state. by rewrite Hrun. }
  unfold advance. rewrite (M_bind_ok _ _ _ _ _ Hreq), Hlive, (M_bind_ok _ _ _ _ _ Hg), Hn, (M_bind_ok _ _ _ _ _ Hloop).
  destruct (keeps_snd _ _ _ (keeps_end_pass st1) (conj eq_refl eq_refl)) as [Hr1 Ht1].
  split_and!; [done|by rewrite <- Hrows|by rewrite <- Htasks].
Qed.
End dispatch.

(** C4: in worker mode a pass over a live run sends exactly one task per row it
    claims, and claims exactly the READY rows of the run that are due and not
    locked, after promoting the rows of nodes that became ready when there were
    none.  Every task carries the token just stored on its row, no two rows
    share a token, every other row is kept, and a run that waits or has failed
    rows is given no task. *)
Theorem advance_dispatches_once env tenant_id run_id st run graph :
  WORKFLOW_INLINE_NODE_EXECUTION (cfg env) = false →
  (∀ n, PyStr.truthy (Execute.en_fresh (ee_exec env) n) = true) → Inj (=) (=) (Execute.en_fresh (ee_exec env)) →
  NoDup (nr_id <$> st_node_runs st) → get_run tenant_id run_id st = Some run → run_terminal (wr_status run) = false →
  load_graph env tenant_id (wr_workflow_version_id run) st = (Ok graph, st) →
  let rows := list_node_runs tenant_id run_id st in
  let st' := (advance env tenant_id run_id st).2 in
  ∃ mid batch,
    Forall2 (promoted tenant_id run_id graph rows) (st_node_runs st) mid ∧
    st_node_runs st' = replaced batch mid ∧
    st_tasks st' = st_tasks st ++ (node_task tenant_id run_id <$> batch) ∧
    NoDup (nr_id <$> batch) ∧ NoDup (nr_claim_token <$> batch) ∧
    (∀ b, b ∈ batch → ∃ r token, r ∈ mid ∧ b = handed_row env token r) ∧
    ∀ r, r ∈ mid → (∃ token, handed_row env token r ∈ batch) ↔
      blocked rows = false ∧ in_run tenant_id run_id r ∧ nr_status r = READY ∧ handed env r = true.
Proof.
  intros Hc Htok Hinj Hnd Hrun Hlive Hg rows st'. subst st'.
  destruct (advance_pass env Hc Htok tenant_id run_id st run graph Hnd Hrun Hlive Hg) as (mid & Hmid & Hrows & Htasks).
  fold rows in Hmid, Hrows, Htasks. set (todo := ready_rows _) in *. set (batch := if blocked rows then [] else _) in *.
  assert (nr_id <$> mid = nr_id <$> st_node_runs st) as Hids by by eapply promoted_ids.
  assert (∀ r, r ∈ todo ↔ r ∈ mid ∧ in_run tenant_id run_id r ∧ nr_status r = READY) as Htodo.
  { intros r. subst todo. rewrite ready_rows_elem, list_node_runs_elem. unfold in_run. cbn. tauto. }
  exists mid, batch. split_and!; [done..| | | |].
  - subst batch. destruct (blocked rows); [constructor|]. eapply sublist_NoDup; [|apply handed_ids].
    apply (sublist_NoDup _ (nr_id <$> mid)); [by rewrite Hids|]. apply fmap_sublist.
    subst todo. etransitivity; [apply filter_sublist|]. apply (filter_sublist _ mid).
  - subst batch. destruct (blocked rows); [constructor|by apply handed_tokens].
  - intros b Hb. subst batch. destruct (blocked rows); [by apply not_elem_of_nil in Hb|].
    apply handed_id in Hb as (r & k & Hr & _ & -> & _). apply Htodo in Hr as [Hr _]. eauto.
  - intros r Hr. subst batch. split.
    + intros (token & Hb). destruct (blocked rows); [by apply not_elem_of_nil in Hb|].
      apply handed_id in Hb as (r0 & k & Hr0 & Hh & E & _). apply Htodo in Hr0 as (Hr0 & Hin & Hs).
      assert (r = r0) as ->; [|done]. apply (NoDup_fmap_inj_in nr_id mid); [by rewrite Hids|done|done|].
      change (nr_id (handed_row env token r) = nr_id (handed_row env (Execute.en_fresh (ee_exec env) (st_uuids st + k)) r0)).
      by rewrite E.
    + intros (-> & Hin & Hs & Hh). apply handed_all; [by apply Htodo|done].
Qed.

Lemma advance_dispatches_once_witness :
  st_tasks (advance Start.ex_env "T" "i" Start.ex_started).2 = [ExecuteNodeTask "T" "i" "ii" (Execute.unary_id 3)] ∧
  ∃ mid batch, st_node_runs (advance Start.ex_env "T" "i" Start.ex_started).2 = replaced batch mid ∧
    st_tasks (advance Start.ex_env "T" "i" Start.ex_started).2 =
      st_tasks Start.ex_started ++ (node_task "T" "i" <$> batch) ∧ NoDup (nr_claim_token <$> batch).
Proof.
  split; [vm_compute; reflexivity|].
  destruct (get_run "T" "i" Start.ex_started) as [run|] eqn:Hrun; [|vm_compute in Hrun; discriminate].
  assert (load_graph Start.ex_env "T" (wr_workflow_version_id run) Start.ex_started = (Ok Start.ex_graph, Start.ex_started)) as Hg.
  { vm_compute in Hrun. injection Hrun as <-. vm_compute. reflexivity. }
  destruct (advance_dispatches_once Start.ex_env "T" "i" Start.ex_started run Start.ex_graph) as
    (mid & batch & _ & Hrows & Htasks & _ & Hnd & _).
  - reflexivity.
  - intros [|n]; reflexivity.
  - apply Execute.unary_id_inj.
  - apply (bool_decide_unpack _). vm_compute. exact I.
  - exact Hrun.
  - vm_compute in Hrun. injection Hrun as <-. reflexivity.
  - exact Hg.
  - exists mid, batch. exact (conj Hrows (conj Htasks Hnd)).
Defined.

(** ** The gate of a task *)

(** The row a task may execute: it carries the task's token and is still claimed. *)
Definition executable_by (tenant_id token : string) (r : WorkflowNodeRun) : Prop :=
  nr_tenant_id r = tenant_id ∧ nr_claim_token r = Some token ∧ nr_cancellation_requested r = false ∧
  nr_status r ∈ [QUEUED; RUNNING].

Lemma begin_rejected env tenant_id j token worker te l :
  (∀ r, node_row j l = Some r → ¬ executable_by tenant_id token r) →
  begin_node_execution (cfg env) (now env) tenant_id j token worker te None l = (None, l).
Proof.
  intros H. unfold begin_node_execution. destruct (node_row j l) as [r|]; [|done].
  specialize (H r eq_refl). unfold executable_by in H.
  destruct (decide (nr_tenant_id r = tenant_id)) as [Ht|]; [|by rewrite (bool_decide_eq_false_2 (nr_tenant_id r = tenant_id))].
  destruct (decide (nr_claim_token r = Some token)) as [Hk|].
  2: { rewrite (bool_decide_eq_false_2 (nr_claim_token r = Some token)), orb_true_r by done. done. }
  rewrite !bool_decide_eq_true_2 by done. cbn [negb orb]. destruct (nr_cancellation_requested r); [done|].
  destruct (claim_active r) eqn:Ha; [|done]. destruct H. split_and!; [done..|].
  unfold claim_active, is_status in Ha. apply orb_true_iff in Ha as [Ha%bool_decide_eq_true|Ha%bool_decide_eq_true];
    rewrite Ha; [left|right; left].
Qed.

(** What a task of a run that already ended leaves of the rows. *)
Definition after_end (now : Z) (tenant_id j token : string) (st : Store) : Store :=
  match node_row j (st_node_runs st) with
  | Some r =>
      if decide (nr_tenant_id r = tenant_id ∧ nr_status r ∈ [QUEUED; RUNNING; READY])
      then abort_node_for_cancellation now tenant_id r
             (if bool_decide (nr_claim_token r = Some token) then Some token else None) "cancelled" st
      else st
  | None => st
  end.

(** C14: a task executes nothing unless the run is still open and the row carries
    the token of the task and is still claimed.  Without a run it raises.  Once the
    run ended it does cancel the row, whatever token that carries, if it is a READY,
    QUEUED or RUNNING one of the tenant, and changes nothing otherwise.  While the
    run is open, with another token, a finished row, a row of another tenant or a
    requested cancellation it reports the rejection and changes nothing at all,
    however often the broker delivers it. *)
Theorem task_gate env jitter tenant_id run_id j token worker te st :
  match get_run tenant_id run_id st with
  | None => execute_claimed_node_run env jitter tenant_id run_id j token worker te st =
              (Raise (HTTPException 404 "Workflow run not found"), st)
  | Some run =>
      (run_terminal (wr_status run) = true →
       execute_claimed_node_run env jitter tenant_id run_id j token worker te st =
         (Ok (task_result run [("skipped", "terminal")]), after_end (now env) tenant_id j token st)) ∧
      (run_terminal (wr_status run) = false →
       (∀ r, node_row j (st_node_runs st) = Some r → ¬ executable_by tenant_id token r) →
       execute_claimed_node_run env jitter tenant_id run_id j token worker te st =
         (Ok [("workflow_run_id", run_id); ("status", "claim_rejected"); ("node_run_id", j)], st))
  end.
Proof.
  unfold execute_claimed_node_run, run_claimed, require_run, mbind, M_bind, get_state.
  destruct (get_run tenant_id run_id st) as [run|]; [|done]. cbn [mret M_ret]. split.
  - intros ->. unfold skip_terminal, after_end, mbind, M_bind, get_state.
    destruct (node_row j (st_node_runs st)) as [r|]; [|done]. case_decide as H.
    + destruct H as [H1 H2]. by rewrite (bool_decide_eq_true_2 _ H1), (bool_decide_eq_true_2 _ H2).
    + destruct (bool_decide (nr_tenant_id r = tenant_id) && bool_decide (nr_status r ∈ [QUEUED; RUNNING; READY])) eqn:E; [|done].
      apply andb_true_iff in E as [?%bool_decide_eq_true ?%bool_decide_eq_true]. tauto.
  - intros -> H. unfold on_rows. rewrite begin_rejected by done. by destruct st.
Qed.

(** ** Outputs of concurrent workers *)

(** Two nodes without edges, the first of them claimed. *)
Definition par_graph : WorkflowGraph := {|
  wg_schema_version := 1; wg_nodes := [Execute.ex_graph_node; Execute.ex_graph_node <| gn_id := "B" |>];
  wg_edges := []; wg_metadata := [] |}.

(** By the time the run row is refreshed, [refresh] has happened to it. *)
Definition par_env (refresh : WorkflowRun → WorkflowRun) : EngineEnv := {|
  ee_exec := ee_exec Start.ex_env;
  ee_tables := {| tb_definitions := []; tb_versions := [{| wv_id := "V"; wv_tenant_id := "T"; wv_workflow_definition_id := "D";
                    wv_version := 1; wv_graph_json := par_graph; wv_input_schema_json := []; wv_output_schema_json := [];
                    wv_checksum := None; wv_published_at := Some 1; wv_created_by_user_id := None |}];
                  tb_automations := []; tb_targets := []; tb_brands := []; tb_profiles := [];
                  tb_brand_accounts := []; tb_accounts := [] |};
  ee_coercions := strict_coercions; ee_checksum := λ _, "sum"; ee_digest := λ _, "digest"; ee_llm_provider := "p"; ee_llm_model := "m";
  ee_locked := ∅; ee_refresh := refresh |}.

Definition par_run : WorkflowRun := {|
  wr_id := "R"; wr_tenant_id := "T"; wr_automation_id := None; wr_workflow_definition_id := "D";
  wr_workflow_version_id := "V"; wr_brand_id := None; wr_trigger_type := "manual"; wr_trigger_payload := [];
  wr_status := RUN_RUNNING; wr_context_snapshot := []; wr_started_at := None; wr_finished_at := None;
  wr_error_message := None; wr_correlation_id := None |}.

Definition par_store : Store := empty_store <| st_runs := [par_run] |>
  <| st_node_runs := [Execute.ex_queued <| nr_claim_token := Some "tok" |> <| nr_status := QUEUED |>;
                      new_node_run "2" "T" "R" "B" "echo" 1 SUCCEEDED "" []] |>.

Definition recorded (st : Store) : option (list string) :=
  (λ r, (Json.as_dict (Json.getn "node_outputs" (wr_context_snapshot r))).*1) <$> row_by wr_id "R" (st_runs st).

(** The other worker's commit: the output of node B. *)
Definition record_B (r : WorkflowRun) : WorkflowRun :=
  r <| wr_context_snapshot := [("node_outputs", JObj [("B", JObj [("x", JInt 1)])])] |>.

(** Outputs that another worker records while a node executes are lost.
    The snapshot of the run is read before the execution and written back after
    it, although the run row was refreshed in between: with B's output in the
    refreshed row, only A's output is recorded in the end. *)
Theorem concurrent_output_lost :
  let st := run_claimed (par_env record_B) "T" "R" (nr_id Execute.ex_queued) "tok" None None par_store in
  is_ok st.1 = true ∧ recorded st.2 = Some ["A"] ∧
  recorded (par_store <| st_runs ::= set_row wr_id "R" record_B |>) = Some ["B"].
Proof. vm_compute. done. Qed.

(** A task left over from an earlier claim of the row. *)
Lemma task_gate_witness :
  execute_claimed_node_run (par_env (λ r, r)) (0 # 1) "T" "R" (nr_id Execute.ex_queued) "old" None None par_store =
    (Ok [("workflow_run_id", "R"); ("status", "claim_rejected"); ("node_run_id", nr_id Execute.ex_queued)], par_store).
Proof.
  refine (proj2 (task_gate (par_env (λ r, r)) (0 # 1) "T" "R" (nr_id Execute.ex_queued) "old" None None par_store) eq_refl _).
  intros r Hr. vm_compute in Hr. injection Hr as <-. intros (_ & H & _). discriminate.
Defined.
End EngineSpec.
