(* ===== verification/ResumeSpec.v ===== *)
(** * Resumptions settle a wait once

    A decision settles the paused row, its wait and its run; a later decision
    under the same token at most lets an open run advance. *)
From S2P Require Import Prelude PyStr Json Graph Pydantic Tables RunModels NodeIndex Ready Unlock Cancellation Waits.
From S2P Require Import Fanout Execute Engine Resume Start.

Module ResumeSpec.
Import Graph Tables Models Cancellation Engine Resume.
Local Open Scope string_scope.
Local Open Scope list_scope.
Local Open Scope Z_scope.

Lemma evolves_keys now r r' : Unlock.evolves now r r' →
  nr_id r' = nr_id r ∧ nr_tenant_id r' = nr_tenant_id r ∧ nr_workflow_run_id r' = nr_workflow_run_id r ∧
  nr_resume_token r' = nr_resume_token r ∧ (Ready.not_started (nr_status r) = false → r' = r).
Proof.
  intros [->|[[Hs ->]|[Hs ->]]]; (split_and!; [done..|]); intros H; [done| |congruence].
  by rewrite Hs in H.
Qed.

(** Writing an evolved index back. *)
Lemma put_evolved now tenant_id run_id st l :
  NoDup (nr_id <$> st_node_runs st) → Forall2 (Unlock.evolves now) (list_node_runs tenant_id run_id st) l →
  Forall2 (Unlock.evolves now) (st_node_runs st) (st_node_runs (Execute.put_rows l st)).
Proof.
  intros Hnd Hl. set (rows := st_node_runs st) in *.
  assert (nr_id <$> l = nr_id <$> list_node_runs tenant_id run_id st) as Hids.
  { clear -Hl. induction Hl as [|? ? ? ? Hxy _ IH]; [done|]. rewrite !fmap_cons, IH. f_equal. by destruct (evolves_keys _ _ _ Hxy). }
  assert (NoDup (nr_id <$> l)) as Hndl.
  { rewrite Hids. eapply sublist_NoDup; [exact Hnd|]. apply fmap_sublist, filter_sublist. }
  assert (List.filter (λ r, negb (bool_decide (nr_id r ∈ nr_id <$> rows))) l = []) as Hnone.
  { apply filter_none. intros x Hx. apply negb_false_iff, bool_decide_eq_true.
    apply (list_elem_of_fmap_2 nr_id) in Hx. rewrite Hids in Hx.
    apply list_elem_of_fmap in Hx as (y & -> & [Hy _]%list_node_runs_elem). by apply list_elem_of_fmap_2. }
  unfold Execute.put_rows. cbn. unfold set_field. cbn. fold rows. rewrite Hnone, app_nil_r.
  apply Forall2_fmap_r, Forall_Forall2_diag, Forall_forall. intros r Hr. cbn [compose].
  destruct (node_row (nr_id r) l) as [x|] eqn:E; [cbn|by left].
  apply row_by_Some in E as [Hx Hi]. destruct (Forall2_elem_r _ _ _ Hl x Hx) as (y & Hy & He).
  apply list_node_runs_elem in Hy as [Hy _]. destruct (evolves_keys _ _ _ He) as [Hxy _].
  assert (y = r) as ->; [|done]. apply (NoDup_fmap_inj_in nr_id rows); [done..|congruence].
Qed.

Lemma unlock_rows now run graph source output st : NoDup (nr_id <$> st_node_runs st) →
  ∃ u l, Execute.on_index run (Unlock.unlock_after_node_success now graph source output) st =
           (Ok u, st <| st_node_runs := l |>) ∧
    Forall2 (Unlock.evolves now) (st_node_runs st) l.
Proof.
  intros Hnd. unfold Execute.on_index.
  pose proof (Unlock.unlock_step now graph source output (list_node_runs (wr_tenant_id run) (wr_id run) st)) as Hs.
  destruct (Unlock.unlock_after_node_success _ _ _ _ _) as [u l]. cbn [snd] in Hs.
  exists u, (st_node_runs (Execute.put_rows l st)). split; [done|].
  apply (put_evolved now (wr_tenant_id run) (wr_id run)); [done|].
  apply (Unlock.steps_evolves now graph); [|done]. eapply sublist_NoDup; [exact Hnd|]. apply fmap_sublist, filter_sublist.
Qed.

(** ** The wait *)

Lemma resolve_pending now i outcome payload l w :
  NoDup (ww_id <$> l) → row_by ww_id i l = Some w → Waits.wait_pending w = true →
  ∃ p, Waits.mark_wait_resolved now i outcome payload l =
    (Some (Waits.resolved_row now outcome p w), set_row ww_id i (Waits.resolved_row now outcome p) l).
Proof.
  intros Hnd Hw Hp. unfold Waits.mark_wait_resolved. destruct payload as [|kv d].
  - exists None. by apply Waits.update_pending_unique.
  - rewrite Hw, Hp. eexists. by apply Waits.update_pending_unique.
Qed.

Definition awaits (token : string) (w : WorkflowWait) : Prop :=
  Waits.wait_pending w = true ∧ ww_resume_token w = token.

Lemma resolve_settles_token now token outcome payload st :
  Waits.no_conflicts (st_waits st) → NoDup (ww_id <$> st_waits st) →
  ∃ found l, Waits.mark_wait_resolved_by_resume_token now token outcome payload st =
      (Ok found, st <| st_waits := l |>) ∧
    Forall2 Waits.settles (st_waits st) l ∧ ∀ w, w ∈ l → ¬ awaits token w.
Proof.
  intros Hn Hnd. unfold Waits.mark_wait_resolved_by_resume_token, Waits.get_pending_by_resume_token.
  destruct (scalar_unique (λ w, bool_decide (ww_resume_token w = token) && Waits.wait_pending w) (st_waits st))
    as (found & Hf & Hall).
  { intros i j a b Ha Hb [Ta%bool_decide_eq_true Pa]%andb_true_iff [Tb%bool_decide_eq_true Pb]%andb_true_iff.
    destruct (decide (i = j)) as [|Hij]; [done|]. pose proof (Hn i j a b Ha Hb Hij) as Hc.
    unfold Waits.pending_conflict in Hc. rewrite Pa, Pb, bool_decide_eq_true_2 in Hc by congruence. done. }
  unfold mbind, M_bind, get_state, lift. rewrite Hf. destruct found as [w|].
  - assert (w ∈ st_waits st ∧ ww_resume_token w = token ∧ Waits.wait_pending w = true) as (Hw & Ht & Hp).
    { apply scalar_elem in Hf as [Hw [?%bool_decide_eq_true ?]%andb_true_iff]. done. }
    assert (row_by ww_id (ww_id w) (st_waits st) = Some w) as Hrow by by apply row_by_elem.
    destruct (resolve_pending now (ww_id w) outcome payload (st_waits st) w Hnd Hrow Hp) as [p E].
    unfold Waits.on_waits. rewrite E. do 2 eexists. split; [done|].
    pose proof (Waits.resolve_settles now (ww_id w) outcome payload (st_waits st)) as Hs. rewrite E in Hs.
    split; [exact Hs|]. intros x (y & -> & Hy)%list_elem_of_fmap [Hxp Hxt]. case_bool_decide as Hid.
    + by destruct p.
    + apply Hid. f_equal. specialize (Hall y Hy). rewrite bool_decide_eq_true_2 in Hall by done.
      specialize (Hall Hxp). congruence.
  - exists None, (st_waits st). split; [by destruct st|]. split; [apply Waits.settles_refl|].
    intros w Hw [Hp Ht]. specialize (Hall w Hw). rewrite bool_decide_eq_true_2 in Hall by done. by specialize (Hall Hp).
Qed.

(** ** The end of the wait *)

Section ending.
Context (env : EngineEnv) (tenant_id token normalized : string) (decision : dict json).
Context (run : WorkflowRun) (node : WorkflowNodeRun).

Notation e := (ending_of normalized decision).
Notation output := (ended_output e (decided_output normalized decision node)).
Notation ended := (ended_row (now env) e normalized output).

(** The run after the decision, before its status is worked out. *)
Definition decided_run (r : WorkflowRun) : WorkflowRun :=
  let r := match e with EndFailure => r | _ => r <| wr_status := RUN_RUNNING |> end in
  r <| wr_context_snapshot := Dict.set "node_outputs"
    (JObj (Dict.set (nr_node_id node) (JObj output)
       (Json.as_dict (Json.getn "node_outputs" (wr_context_snapshot run))))) (wr_context_snapshot run) |>.

(** What the resumption leaves of the rows and waits. *)
Definition settled_by (st st' : Store) : Prop :=
  Forall2 (λ r r', nr_id r = nr_id node ∧ r' = ended r ∨
                   nr_id r ≠ nr_id node ∧ Unlock.evolves (now env) r r' ∧ (e = EndFailure → r' = r))
    (st_node_runs st) (st_node_runs st') ∧
  Forall2 Waits.settles (st_waits st) (st_waits st') ∧
  (nr_node_type node ∈ ["delay"; "wait"; "approval"] → ∀ w, w ∈ st_waits st' → ¬ awaits token w).

Lemma finalize_keeps now r l :
  wr_tenant_id (Ready.finalize_run_status now r l) = wr_tenant_id r ∧
  wr_id (Ready.finalize_run_status now r l) = wr_id r.
Proof. unfold Ready.finalize_run_status. repeat case_match; done. Qed.

Lemma ended_rows l l' :
  Forall2 (Unlock.evolves (now env)) (set_node (nr_id node) ended l) l' →
  (e = EndFailure → l' = set_node (nr_id node) ended l) →
  Forall2 (λ r r', nr_id r = nr_id node ∧ r' = ended r ∨
                   nr_id r ≠ nr_id node ∧ Unlock.evolves (now env) r r' ∧ (e = EndFailure → r' = r)) l l'.
Proof.
  intros Hl Hfail. destruct (decide (e = EndFailure)) as [E|E].
  - rewrite (Hfail E). unfold set_row. apply Forall2_fmap_r, Forall_Forall2_diag, Forall_forall. intros r _.
    cbn [compose]. case_bool_decide; [by left|right]. split_and!; [done|by left|done].
  - unfold set_row in Hl. rewrite Forall2_fmap_l in Hl. eapply Forall2_impl; [exact Hl|]. intros r r' H. cbn [compose] in H.
    case_bool_decide as Hr; [left|right; by split_and!]. split; [done|].
    apply (evolves_keys _ _ _ H). by destruct e.
Qed.

Lemma end_wait_settles st graph :
  load_graph env tenant_id (wr_workflow_version_id run) st = (Ok graph, st) →
  get_run tenant_id (wr_id run) st = Some run →
  NoDup (nr_id <$> st_node_runs st) → node_row (nr_id node) (st_node_runs st) = Some node →
  nr_status node = WAITING → Waits.no_conflicts (st_waits st) → NoDup (ww_id <$> st_waits st) →
  (length (run_occurrences (wr_id run) st) ≤ 1)%nat →
  wp (end_wait env tenant_id token normalized decision run node)
    (λ _ st', settled_by st st' ∧ get_run tenant_id (wr_id run) st' =
       Some (Ready.finalize_run_status (now env) (decided_run run) (list_node_runs tenant_id (wr_id run) st')))
    (λ _ _, False) st.
Proof.
  intros Hg Hrun Hnd Hnode Hw Hn Hndw Ho. apply (wp_ok _ _ _ _ _ _ _ Hg). cbv zeta.
  apply wp_bind, wp_modify. set (st1 := update_row (nr_id node) ended st).
  assert (st_node_runs st1 = set_node (nr_id node) ended (st_node_runs st)) as Hrows1 by done.
  assert (∀ r, nr_id (ended r) = nr_id r) as Hid by (intros r; by destruct e).
  set (opened := match e with EndFailure => run | _ => run <| wr_status := RUN_RUNNING |> end).
  apply wp_bind. eapply (wp_mono _ (λ _ st2,
    Forall2 (Unlock.evolves (now env)) (st_node_runs st1) (st_node_runs st2) ∧
    (e = EndFailure → st_node_runs st2 = st_node_runs st1) ∧ st_waits st2 = st_waits st ∧
    st_occurrences st2 = st_occurrences st ∧ get_run tenant_id (wr_id run) st2 = Some opened) _ (λ _ _, False)); [| |done].
  { destruct (unlock_rows (now env) run graph (nr_node_id node) (Some output) st1) as (u & l & Hu & Hl).
    { by rewrite Hrows1, set_row_keys. }
    assert (get_run tenant_id (wr_id run) (st1 <| st_node_runs := l |>) = Some run) as Hrun1 by exact Hrun.
    subst opened. destruct e.
    1, 2: apply (wp_ok _ _ _ _ _ _ _ Hu), wp_modify; split_and!; try done;
      rewrite get_run_assign by done; by rewrite Hrun1.
    apply wp_ret. split_and!; try done. apply Forall_Forall2_diag, Forall_forall. intros r _. by left. }
  intros [] st2 (Hl & Hfail & Hwaits & Hocc & Hrun2).
  (* the wait *)
  apply wp_bind. eapply (wp_mono _ (λ _ st3, st_node_runs st3 = st_node_runs st2 ∧ st_runs st3 = st_runs st2 ∧
    st_occurrences st3 = st_occurrences st ∧ Forall2 Waits.settles (st_waits st) (st_waits st3) ∧
    (nr_node_type node ∈ ["delay"; "wait"; "approval"] → ∀ w, w ∈ st_waits st3 → ¬ awaits token w)) _ (λ _ _, False));
    [| |done].
  { case_bool_decide as Hty.
    - destruct (resolve_settles_token (now env) token normalized
        (match decision with [] => [] | _ => [("decision", JObj decision)] end) st2) as (found & lw & Hr & Hs & Hno);
        [by rewrite Hwaits..|]. apply (wp_ok _ _ _ _ _ _ _ Hr), wp_ret. rewrite Hwaits in Hs. by split_and!.
    - apply wp_ret. rewrite Hwaits. split_and!; [done..|apply Waits.settles_refl|done]. }
  intros [] st3 (Hrows3 & Hruns3 & Hocc3 & Hs3 & Hno3).
  (* the run *)
  apply wp_bind, wp_modify. set (f := λ r : WorkflowRun, r <| wr_context_snapshot := _ |>).
  set (st4 := st3 <| st_runs ::= set_row wr_id (wr_id run) f |>).
  assert (get_run tenant_id (wr_id run) st4 = Some (f opened)) as Hrun4.
  { subst st4. rewrite get_run_assign by done. by rewrite (get_run_rows _ _ st2), Hrun2. }
  apply wp_bind. unfold finalize, node_map, assign_run.
  apply wp_bind, wp_bind, wp_get, wp_ret, wp_modify. set (rows := list_node_runs tenant_id (wr_id run) st4).
  set (st5 := st4 <| st_runs ::= _ |>).
  assert (get_run tenant_id (wr_id run) st5 = Some (Ready.finalize_run_status (now env) (f opened) rows)) as Hrun5.
  { subst st5. rewrite get_run_assign by (intros; apply finalize_keeps). by rewrite Hrun4. }
  unfold sync_occurrence. apply wp_bind, wp_get.
  assert (∃ occs, (match run_row (wr_id run) st5 with Some r => sync_occurrence_for_run r | None => mret () end) st5 =
    (Ok (), st5 <| st_occurrences := occs |>)) as [occs Hsync].
  { destruct (run_row (wr_id run) st5) as [r|] eqn:Er; [|exists (st_occurrences st5); by destruct st5].
    apply sync_ok. apply row_by_Some in Er as [_ ->]. unfold run_occurrences.
    change (st_occurrences st5) with (st_occurrences st3). by rewrite Hocc3. }
  unfold wp. rewrite Hsync. split; [|done]. split_and!; [|done|done].
  change (st_node_runs (st5 <| st_occurrences := occs |>)) with (st_node_runs st3). rewrite Hrows3.
  rewrite Hrows1 in Hl, Hfail.
  by apply ended_rows.
Qed.
End ending.

(** ** Later decisions *)

(** How a resumption goes on when it is allowed to advance the run. *)
Definition go_on env (tenant_id : string) (advances : bool) (run : WorkflowRun) : M Store WorkflowRun :=
  if advances then advance env tenant_id (wr_id run) else mret run.
Definition is_open (run : WorkflowRun) : bool := bool_decide (wr_status run ∈ [RUN_QUEUED; RUN_RUNNING; RUN_WAITING]).

(** The resumption of a row that was found, as one case analysis. *)
Lemma resume_equation env tenant_id token outcome decision adv st node run :
  let normalized := PyStr.lower (PyStr.strip outcome) in
  normalized ∈ VALID_OUTCOMES → PyStr.truthy token = true →
  get_by_resume_token tenant_id token st = Ok (Some node) →
  get_run tenant_id (nr_workflow_run_id node) st = Some run →
  resume_waiting_node env tenant_id (Some token) outcome decision adv st =
    if bool_decide (nr_status node = SUCCEEDED) && bool_decide (normalized ∈ SUCCESS_OUTCOMES)
    then go_on env tenant_id (adv && is_open run) run st
    else if bool_decide (nr_status node = FAILED) && bool_decide (normalized ∈ FAIL_OUTCOMES) then (Ok run, st)
    else if negb (bool_decide (nr_status node = WAITING)) then
      (Raise (HTTPException 409 ("Node is not waiting (status=" +:+ node_status_value (nr_status node) +:+ ")")), st)
    else (_ ← end_wait env tenant_id token normalized decision run node;
          run' ← require_run tenant_id (wr_id run);
          go_on env tenant_id (adv && bool_decide (wr_status run' = RUN_RUNNING)) run') st.
Proof.
  intros normalized Hv Ht Hf Hrun. unfold resume_waiting_node. cbv zeta. fold normalized.
  rewrite (bool_decide_eq_true_2 _ Hv). cbn [negb PyStr.opt_truthy]. rewrite Ht. cbn [negb default].
  rewrite (M_bind_ok get_state _ st st st eq_refl).
  rewrite (M_bind_ok (lift _) _ st (Some node) st) by (unfold lift; cbn [id]; by rewrite Hf).
  rewrite (M_bind_ok (require_run _ _) _ st run st)
    by (unfold require_run, mbind, M_bind, get_state; by rewrite Hrun).
  unfold go_on, is_open. repeat (case_match; try done).
Qed.

(** A row that no longer waits is not touched by a decision: the call answers or
    raises, and only a success told again lets an open run advance. *)
Lemma late_decision env tenant_id token outcome decision adv st node :
  get_by_resume_token tenant_id token st = Ok (Some node) → nr_status node ≠ WAITING →
  (resume_waiting_node env tenant_id (Some token) outcome decision adv st).2 = st ∨
  (adv = true ∧ nr_status node = SUCCEEDED ∧ PyStr.lower (PyStr.strip outcome) ∈ SUCCESS_OUTCOMES ∧
   ∃ run, get_run tenant_id (nr_workflow_run_id node) st = Some run ∧ is_open run = true ∧
     resume_waiting_node env tenant_id (Some token) outcome decision adv st = advance env tenant_id (wr_id run) st).
Proof.
  intros Hf Hs.
  destruct (decide (PyStr.lower (PyStr.strip outcome) ∈ VALID_OUTCOMES)) as [Hv|Hv].
  2: { left. unfold resume_waiting_node. cbv zeta. by rewrite (bool_decide_eq_false_2 _ Hv). }
  destruct (PyStr.truthy token) eqn:Ht.
  2: { left. unfold resume_waiting_node. cbv zeta. rewrite (bool_decide_eq_true_2 _ Hv). cbn [negb PyStr.opt_truthy].
       by rewrite Ht. }
  destruct (get_run tenant_id (nr_workflow_run_id node) st) as [run|] eqn:Hrun.
  - rewrite (resume_equation _ _ _ _ _ _ _ node run) by done.
    destruct (bool_decide (nr_status node = SUCCEEDED) && _) eqn:E1.
    + apply andb_true_iff in E1 as [E1%bool_decide_eq_true_1 E2%bool_decide_eq_true_1].
      destruct (adv && is_open run) eqn:E; [|by left]. apply andb_true_iff in E as [-> E]. right. by eauto 10.
    + left. destruct (bool_decide (nr_status node = FAILED) && _); [done|]. by rewrite (bool_decide_eq_false_2 _ Hs).
  - left. unfold resume_waiting_node. cbv zeta. rewrite (bool_decide_eq_true_2 _ Hv). cbn [negb PyStr.opt_truthy].
    rewrite Ht. cbn [negb default]. rewrite (M_bind_ok get_state _ st st st eq_refl).
    rewrite (M_bind_ok (lift _) _ st (Some node) st) by (unfold lift; cbn [id]; by rewrite Hf).
    unfold require_run, mbind, M_bind, get_state. by rewrite Hrun.
Qed.

Lemma scalar_Some {R} (l : list R) x : scalar_one_or_none l = Ok (Some x) ↔ l = [x].
Proof. unfold scalar_one_or_none. destruct l as [|y [|]]; split; intros H; simplify_eq; done. Qed.

Lemma settled_found env tenant_id token normalized decision node st st' :
  settled_by env token normalized decision node st st' →
  get_by_resume_token tenant_id token st = Ok (Some node) →
  let e := ending_of normalized decision in
  get_by_resume_token tenant_id token st' =
    Ok (Some (ended_row (now env) e normalized (ended_output e (decided_output normalized decision node)) node)).
Proof.
  intros (Hrows & _) Hf. unfold get_by_resume_token in *. apply scalar_Some in Hf. apply scalar_Some.
  eapply Forall2_filter in Hrows as Hfl.
  - rewrite Hf in Hfl. apply Forall2_cons_inv_l in Hfl as (r' & l' & [[_ ->]|[H _]] & Hl' & ->); [|done].
    by apply Forall2_nil_inv_l in Hl' as ->.
  - intros r r' [[_ ->]|(_ & Hev & _)].
    + by destruct (ending_of normalized decision).
    + by destruct (evolves_keys _ _ _ Hev) as (_ & -> & _ & -> & _).
Qed.

Definition settled_status (e : ending) : NodeStatus := match e with EndFailure => FAILED | _ => SUCCEEDED end.

(** The answer to a decision about a row it has settled already. *)
Lemma repeat_answer env tenant_id token outcome decision adv st node run :
  let normalized := PyStr.lower (PyStr.strip outcome) in
  let e := ending_of normalized decision in
  normalized ∈ VALID_OUTCOMES → PyStr.truthy token = true →
  get_by_resume_token tenant_id token st = Ok (Some node) → nr_status node = settled_status e →
  get_run tenant_id (nr_workflow_run_id node) st = Some run →
  resume_waiting_node env tenant_id (Some token) outcome decision adv st =
    match e with
    | EndSuccess => go_on env tenant_id (adv && is_open run) run st
    | EndTimedOut => (Raise (HTTPException 409 "Node is not waiting (status=succeeded)"), st)
    | EndFailure => (Ok run, st)
    end.
Proof.
  intros normalized e Hv Ht Hf Hs Hrun. rewrite (resume_equation _ _ _ _ _ _ _ node run) by done.
  fold normalized. rewrite Hs. subst e. unfold ending_of. destruct (decide (normalized ∈ SUCCESS_OUTCOMES)) as [Ho|Ho].
  { by rewrite !(bool_decide_eq_true_2 _ Ho). }
  rewrite !(bool_decide_eq_false_2 _ Ho). destruct (String.eqb normalized "expired" && _); [done|].
  assert (normalized ∈ FAIL_OUTCOMES) as Hfo by (apply elem_of_app in Hv as [?|?]; done).
  by rewrite (bool_decide_eq_true_2 _ Hfo).
Qed.

(** C16: a valid decision about a waiting row settles it once.  It first makes the
    row SUCCEEDED or FAILED as the outcome says, with the decision in its output;
    other rows are only unlocked or skipped, and untouched when the wait failed; no
    pending wait is left under the token; the run records the output and gets the
    status its rows call for.  Then it answers with that run or, when it may advance
    and the run is RUNNING, advances it.  Afterwards, in whatever store the token
    finds a row with that status, no decision whatsoever does more than advance the
    run: only a success told again does that, while the run is open, and all other
    decisions change nothing.  The same decision is answered with the run, except
    that one expired wait that went on is answered with a conflict. *)
Theorem resume_settles_once env tenant_id token outcome decision adv st node run graph :
  let normalized := PyStr.lower (PyStr.strip outcome) in
  let e := ending_of normalized decision in
  let resume := resume_waiting_node env tenant_id (Some token) in
  normalized ∈ VALID_OUTCOMES → PyStr.truthy token = true →
  get_by_resume_token tenant_id token st = Ok (Some node) → nr_status node = WAITING →
  get_run tenant_id (nr_workflow_run_id node) st = Some run →
  load_graph env tenant_id (wr_workflow_version_id run) st = (Ok graph, st) →
  NoDup (nr_id <$> st_node_runs st) → Waits.no_conflicts (st_waits st) → NoDup (ww_id <$> st_waits st) →
  (length (run_occurrences (wr_id run) st) ≤ 1)%nat →
  (∃ run' st' row, settled_by env token normalized decision node st st' ∧
    run' = Ready.finalize_run_status (now env) (decided_run normalized decision run node run)
             (list_node_runs tenant_id (wr_id run) st') ∧
    resume outcome decision adv st =
      go_on env tenant_id (adv && bool_decide (wr_status run' = RUN_RUNNING)) run' st' ∧
    get_by_resume_token tenant_id token st' = Ok (Some row) ∧ nr_status row = settled_status e ∧
    get_run tenant_id (nr_workflow_run_id row) st' = Some run') ∧
  (∀ later row, get_by_resume_token tenant_id token later = Ok (Some row) → nr_status row = settled_status e →
    (∀ outcome' decision' adv',
      (resume outcome' decision' adv' later).2 = later ∨
      (adv' = true ∧ e ≠ EndFailure ∧ PyStr.lower (PyStr.strip outcome') ∈ SUCCESS_OUTCOMES ∧
       ∃ open_run, get_run tenant_id (nr_workflow_run_id row) later = Some open_run ∧ is_open open_run = true ∧
         resume outcome' decision' adv' later = advance env tenant_id (wr_id open_run) later)) ∧
    (∀ run' adv', get_run tenant_id (nr_workflow_run_id row) later = Some run' →
      resume outcome decision adv' later =
        match e with
        | EndSuccess => go_on env tenant_id (adv' && is_open run') run' later
        | EndTimedOut => (Raise (HTTPException 409 "Node is not waiting (status=succeeded)"), later)
        | EndFailure => (Ok run', later)
        end)).
Proof.
  intros normalized e resume Hv Ht Hf Hw Hrun Hg Hnd Hn Hndw Ho. split.
  - pose proof (get_run_Some _ _ _ _ Hrun) as (_ & _ & Hrid).
    assert (node_row (nr_id node) (st_node_runs st) = Some node) as Hnode.
    { apply row_by_elem; [done| |done]. by apply scalar_elem in Hf as [? _]. }
    pose proof (end_wait_settles env tenant_id token normalized decision run node st graph Hg) as Hend.
    rewrite Hrid in Hend at 1. specialize (Hend Hrun Hnd Hnode Hw Hn Hndw Ho).
    unfold wp in Hend. destruct (end_wait _ _ _ _ _ _ _ st) as [[[]|?] st'] eqn:Ee; [|done].
    destruct Hend as [Hset Hrun']. set (run' := Ready.finalize_run_status _ _ _) in *.
    pose proof (settled_found _ _ _ _ _ _ _ _ Hset Hf) as Hf'. cbv zeta in Hf'.
    fold normalized e in Hf'. set (row := ended_row _ _ _ _ _) in Hf'.
    assert (nr_status row = settled_status e) as Hstatus by (subst row; by destruct e).
    assert (nr_workflow_run_id row = wr_id run) as Hrow by (subst row; rewrite Hrid; by destruct e).
    exists run', st', row. split_and!; [done|done| |done|done|by rewrite Hrow].
    subst resume. cbv beta. rewrite (resume_equation _ _ _ _ _ _ _ node run) by done. fold normalized.
    rewrite Hw, !(bool_decide_eq_false_2 (WAITING = _)) by discriminate. cbn [andb].
    rewrite bool_decide_eq_true_2 by done. cbn [negb]. rewrite (M_bind_ok _ _ _ () st') by done.
    unfold require_run, mbind, M_bind, get_state. by rewrite Hrun'.
  - intros later row Hl Hs. split.
    + intros outcome' decision' adv'.
      destruct (late_decision env tenant_id token outcome' decision' adv' later row Hl) as [?|(?&Hsucc&?&?)];
        [rewrite Hs; by destruct e|by left|right]. split_and!; [done| |done..].
      rewrite Hs in Hsucc. by destruct e.
    + intros run' adv' Hr. by apply (repeat_answer env tenant_id token outcome decision adv' later row run').
Qed.

(** An approval that waits. *)
Definition ex_paused : WorkflowNodeRun :=
  new_node_run "n" "T" "R" "A" "approval" 1 WAITING "" [] <| nr_resume_token := Some "a" |>.
Definition ex_waiting : Store := empty_store <| st_runs := [Waits.ex_wait_run] |>
  <| st_node_runs := [ex_paused] |> <| st_waits := [Waits.ex_wait "1" "a" 5] |>.

(** Its expiry goes on and advances the run, and delivering it again is answered with a conflict. *)
Lemma resume_settles_once_witness :
  let go := resume_waiting_node Start.ex_env "T" (Some "a") "expired" [("on_timeout", JStr "continue")] in
  nr_status <$> st_node_runs (go false ex_waiting).2 = [SUCCEEDED] ∧
  ww_status <$> st_waits (go false ex_waiting).2 = [WAIT_RESOLVED] ∧
  ∃ run' st', go true ex_waiting = go_on Start.ex_env "T" (bool_decide (wr_status run' = RUN_RUNNING)) run' st' ∧
    go true st' = (Raise (HTTPException 409 "Node is not waiting (status=succeeded)"), st').
Proof.
  cbv zeta. split; [vm_compute; reflexivity|]. split; [vm_compute; reflexivity|].
  destruct (resume_settles_once Start.ex_env "T" "a" "expired" [("on_timeout", JStr "continue")] true ex_waiting ex_paused
    Waits.ex_wait_run Start.ex_graph) as ((run' & st' & row & _ & _ & H1 & Hf & Hs & Hr) & H2).
  - apply (bool_decide_unpack _). vm_compute. exact I.
  - reflexivity.
  - vm_compute. reflexivity.
  - reflexivity.
  - reflexivity.
  - vm_compute. reflexivity.
  - apply (bool_decide_unpack _). vm_compute. exact I.
  - intros [|i] [|j] a b Ha Hb Hij; try done; by rewrite lookup_nil in Ha || rewrite lookup_nil in Hb.
  - apply (bool_decide_unpack _). vm_compute. exact I.
  - vm_compute. lia.
  - exists run', st'. split; [exact H1|]. exact (proj2 (H2 st' row Hf Hs) run' true Hr).
Defined.

(** ** Iterations *)

(** An approval inside a fan-out, one iteration of it waiting. *)
Definition iter_graph : WorkflowGraph := {|
  wg_schema_version := 1;
  wg_nodes := [Fanout.ex_node "f" "fan_out"; Fanout.ex_node "b" "approval"; Fanout.ex_node "t" "text";
               Fanout.ex_node "m" "merge"];
  wg_edges := [plain_edge "f" "b"; plain_edge "b" "t"; plain_edge "t" "m"]; wg_metadata := [] |}.
Definition iter_env : EngineEnv := {|
  ee_exec := ee_exec Start.ex_env;
  ee_tables := {| tb_definitions := []; tb_versions := [{| wv_id := "V"; wv_tenant_id := "T"; wv_workflow_definition_id := "D";
                    wv_version := 1; wv_graph_json := iter_graph; wv_input_schema_json := []; wv_output_schema_json := [];
                    wv_checksum := None; wv_published_at := Some 1%Z; wv_created_by_user_id := None |}];
                  tb_automations := []; tb_targets := []; tb_brands := []; tb_profiles := [];
                  tb_brand_accounts := []; tb_accounts := [] |};
  ee_coercions := strict_coercions; ee_checksum := λ _, "sum"; ee_digest := λ _, "digest"; ee_llm_provider := "p"; ee_llm_model := "m";
  ee_locked := ∅; ee_refresh := λ r, r |}.
Definition iter_rows : list WorkflowNodeRun := [
  new_node_run "1" "T" "R" "f" "fan_out" 1 SUCCEEDED "" [];
  new_node_run "2" "T" "R" "b" "approval" 1 SKIPPED "" [];
  new_node_run "3" "T" "R" "b" "approval" 1 WAITING "x" [] <| nr_resume_token := Some "a" |>;
  new_node_run "4" "T" "R" "t" "text" 1 PENDING "" [];
  new_node_run "5" "T" "R" "m" "merge" 1 PENDING "" []].
Definition iter_store : Store := empty_store <| st_runs := [Waits.ex_wait_run] |> <| st_node_runs := iter_rows |>.
Definition slots (l : list WorkflowNodeRun) : list (string * string * NodeStatus) := (λ r, (Fanout.slot r, nr_status r)) <$> l.

(** Resuming an iteration of a fan-out does not carry the iteration on.  A
    node that succeeds inside an iteration hands the iteration to the rows
    behind it; the resumption unlocks the node behind it as a whole instead, so
    that node runs once without the item, and it has no row for the iteration. *)
Theorem resume_drops_iteration :
  slots (st_node_runs (resume_waiting_node iter_env "T" (Some "a") "approved" [] false iter_store).2) =
    [("f", "", SUCCEEDED); ("b", "", SKIPPED); ("b", "x", SUCCEEDED); ("t", "", READY); ("m", "", PENDING)] ∧
  slots (Fanout.fs_rows (Fanout.ensure_downstream_iteration 9 iter_graph "T" "R" Fanout.ex_fresh "b" "x" [] 0
      (set_node "3" (λ r, r <| nr_status := SUCCEEDED |>) iter_rows))) =
    [("f", "", SUCCEEDED); ("b", "", SKIPPED); ("b", "x", SUCCEEDED); ("t", "", SKIPPED); ("m", "", PENDING);
     ("t", "x", READY)].
Proof. vm_compute. done. Qed.
End ResumeSpec.
