(* ===== verification/Operator.v ===== *)
(** * Operator recovery (operator_recovery.py)

    An operator retries a failed node, retries from a failed node with
    everything behind it, or resumes a waiting node by its name. *)
From S2P Require Import Prelude PyStr Json Graph Search Tables RunModels Ready Claiming Cancellation Waits.
From S2P Require Import Execute Engine Resume Start.

Module Operator.
Import Graph Models Claiming Cancellation Engine.
Local Open Scope string_scope.
Local Open Scope list_scope.
Local Open Scope Z_scope.

(** [_RESET_DESCENDANT]: every status but SUCCEEDED. *)
Definition reset_descendant (s : NodeStatus) : bool :=
  match s with
  | PENDING | READY | QUEUED | RUNNING | WAITING | FAILED | SKIPPED | CANCELLED => true
  | SUCCEEDED => false
  end.

(** The assignments of [_reset_failed_to_ready]. *)
Definition ready_again (r : WorkflowNodeRun) : WorkflowNodeRun :=
  clear_claim_values r <| nr_status := READY |> <| nr_error_json := None |> <| nr_last_error := None |>
    <| nr_error_class := None |> <| nr_waiting_reason := None |> <| nr_finished_at := None |>
    <| nr_next_attempt_at := None |> <| nr_cancellation_requested := false |>.

Definition reset_failed_to_ready (node : WorkflowNodeRun) : M Store unit :=
  if bool_decide (nr_status node = SUCCEEDED) then
    raise (HTTPException 409 "Cannot retry a succeeded node")
  else if negb (bool_decide (nr_status node = FAILED)) then
    raise (HTTPException 409 ("Node '" +:+ nr_node_id node +:+ "' is " +:+
      node_status_value (nr_status node) +:+ "; only failed nodes can be retried"))
  else Execute.assign node ready_again.

(** The assignments of [_reset_descendant_to_pending]. *)
Definition pending_again (r : WorkflowNodeRun) : WorkflowNodeRun :=
  clear_claim_values r <| nr_status := PENDING |> <| nr_error_json := None |> <| nr_last_error := None |>
    <| nr_error_class := None |> <| nr_waiting_reason := None |> <| nr_resume_token := None |>
    <| nr_input_json := [] |> <| nr_output_json := [] |> <| nr_started_at := None |>
    <| nr_finished_at := None |> <| nr_next_attempt_at := None |> <| nr_cancellation_requested := false |>.

Definition reset_descendant_to_pending (r : WorkflowNodeRun) : WorkflowNodeRun :=
  if bool_decide (nr_status r = SUCCEEDED) then r
  else if negb (reset_descendant (nr_status r)) then r
  else pending_again r.

Definition reopen_run (r : WorkflowRun) : WorkflowRun :=
  r <| wr_status := RUN_RUNNING |> <| wr_error_message := None |> <| wr_finished_at := None |>.

(** [next((n for n in nodes if n.node_id == node_id), None)] *)
Definition first_row (node_id : string) (nodes : list WorkflowNodeRun) : option WorkflowNodeRun :=
  List.find (λ n, bool_decide (nr_node_id n = node_id)) nodes.

(** [{n.node_id: n for n in nodes}.get(node_id)] *)
Definition last_row (node_id : string) (nodes : list WorkflowNodeRun) : option WorkflowNodeRun :=
  first_row node_id (reverse nodes).

Definition not_found (node_id : string) : exn :=
  HTTPException 404 ("Node '" +:+ node_id +:+ "' not found on run").

Section operator.
Context (env : EngineEnv).

(** The run an operator may retry. *)
Definition retryable_run (tenant_id run_id : string) : M Store WorkflowRun :=
  run ← require_run tenant_id run_id;
  match wr_status run with
  | RUN_CANCELLED => raise (HTTPException 409 "Cannot retry a cancelled run")
  | RUN_SUCCEEDED => raise (HTTPException 409 "Cannot retry a succeeded run")
  | _ => mret run
  end.

Definition advance_if (advance_run : bool) (tenant_id run_id : string) : M Store WorkflowRun :=
  if advance_run then advance env tenant_id run_id else require_run tenant_id run_id.

Definition retry_node (tenant_id run_id node_id : string) (advance_run : bool) : M Store WorkflowRun :=
  _ ← retryable_run tenant_id run_id;
  nodes ← node_map tenant_id run_id;
  match first_row node_id nodes with
  | None => raise (not_found node_id)
  | Some target =>
      _ ← reset_failed_to_ready target;
      _ ← assign_run run_id reopen_run;
      advance_if advance_run tenant_id run_id
  end.

(** The walk over the descendants: each is reset when it is first met. *)
Fixpoint reset_walk (E : list (string * string)) (nodes : list WorkflowNodeRun) (fuel : nat)
    (queue : list string) (seen : gset string) (st : Store) : Store :=
  match fuel, queue with
  | S fuel, current :: queue =>
      if bool_decide (current ∈ seen) then reset_walk E nodes fuel queue seen st
      else
        let st := match last_row current nodes with
                  | Some row => update_row (nr_id row) reset_descendant_to_pending st
                  | None => st end in
        reset_walk E nodes fuel (queue ++ Search.succs E current) ({[current]} ∪ seen) st
  | _, _ => st
  end.

Definition edge_pairs (graph : WorkflowGraph) : list (string * string) :=
  (λ e, (ge_source e, ge_target e)) <$> wg_edges graph.

(** The queue grows by the edges of a node once: two per edge of the graph are
    enough. *)
Definition reset_descendants (graph : WorkflowGraph) (nodes : list WorkflowNodeRun) (node_id : string)
    : Store → Store :=
  let E := edge_pairs graph in
  let queue := Search.succs E node_id in
  reset_walk E nodes (length queue + length E) queue ∅.

Definition retry_from_node (tenant_id run_id node_id : string) (advance_run : bool) : M Store WorkflowRun :=
  run ← retryable_run tenant_id run_id;
  graph ← load_graph env (wr_tenant_id run) (wr_workflow_version_id run);
  nodes ← node_map tenant_id run_id;
  match last_row node_id nodes with
  | None => raise (not_found node_id)
  | Some target =>
      if bool_decide (nr_status target = SUCCEEDED) then
        raise (HTTPException 409 "Cannot retry from a succeeded node")
      else if negb (bool_decide (nr_status target = FAILED)) then
        raise (HTTPException 409 ("Node '" +:+ node_id +:+ "' is " +:+
          node_status_value (nr_status target) +:+ "; retry-from requires failed"))
      else
        _ ← reset_failed_to_ready target;
        _ ← modify (reset_descendants graph nodes node_id);
        _ ← assign_run run_id reopen_run;
        advance_if advance_run tenant_id run_id
  end.

Definition resume_node (tenant_id run_id node_id outcome : string) (decision : dict json)
    (advance_run : bool) : M Store WorkflowRun :=
  run ← require_run tenant_id run_id;
  if bool_decide (wr_status run = RUN_CANCELLED) then
    raise (HTTPException 409 "Cannot resume a cancelled run")
  else
    nodes ← node_map tenant_id run_id;
    match first_row node_id nodes with
    | None => raise (not_found node_id)
    | Some target =>
        if negb (bool_decide (nr_status target = WAITING)) || negb (PyStr.opt_truthy (nr_resume_token target))
        then raise (HTTPException 409 ("Node '" +:+ node_id +:+ "' is not resumable"))
        else Resume.resume_waiting_node env tenant_id (nr_resume_token target) outcome decision advance_run
    end.
End operator.

(** ** The descendants that are reset *)

Lemma last_row_Some node_id nodes r : last_row node_id nodes = Some r → r ∈ nodes ∧ nr_node_id r = node_id.
Proof.
  unfold last_row, first_row. intros [Hr Hn]%find_Some_elem. apply bool_decide_eq_true in Hn.
  by rewrite elem_of_reverse in Hr.
Qed.

(** [r] is the row of its node that a retry resets. *)
Definition is_last (nodes : list WorkflowNodeRun) (r : WorkflowNodeRun) : bool :=
  bool_decide (nr_id <$> last_row (nr_node_id r) nodes = Some (nr_id r)).

(** The rows after the nodes in [met] were reset. *)
Definition reset_met (nodes : list WorkflowNodeRun) (met : gset string) (l : list WorkflowNodeRun)
    : list WorkflowNodeRun :=
  (λ r, if is_last nodes r && bool_decide (nr_node_id r ∈ met) then reset_descendant_to_pending r else r) <$> l.

Lemma reset_alt r :
  reset_descendant_to_pending r = if bool_decide (nr_status r = SUCCEEDED) then r else pending_again r.
Proof.
  unfold reset_descendant_to_pending. case_bool_decide as H; [done|].
  assert (reset_descendant (nr_status r) = true) as -> by by destruct (nr_status r). done.
Qed.

Lemma reset_keeps r :
  let r' := reset_descendant_to_pending r in
  nr_id r' = nr_id r ∧ nr_node_id r' = nr_node_id r ∧ reset_descendant_to_pending r' = r'.
Proof.
  cbv zeta. rewrite !reset_alt. case_bool_decide as H; [by rewrite bool_decide_eq_true_2|].
  split_and!; [done|done|]. change (nr_status (pending_again r)) with PENDING.
  rewrite bool_decide_eq_false_2 by discriminate. clear H. destruct r. vm_compute. reflexivity.
Qed.


Lemma reset_met_keys nodes met l : nr_id <$> reset_met nodes met l = nr_id <$> l.
Proof.
  unfold reset_met. rewrite <- list_fmap_compose. apply list_fmap_ext. intros ? r _. simpl.
  destruct (_ && _); [apply reset_keeps|done].
Qed.

(** The snapshot names the node of each row. *)
Definition names_rows (nodes l : list WorkflowNodeRun) : Prop :=
  ∀ n r, n ∈ nodes → r ∈ l → nr_id r = nr_id n → nr_node_id r = nr_node_id n.

Lemma names_reset_met nodes met l : names_rows nodes l → names_rows nodes (reset_met nodes met l).
Proof.
  intros H n r Hn (r0 & -> & Hr0)%list_elem_of_fmap. destruct (_ && _); [|by apply H].
  destruct (reset_keeps r0) as (-> & -> & _). by apply H.
Qed.

(** Resetting the row of one node. *)
Lemma reset_one_rows nodes current st :
  names_rows nodes (st_node_runs st) →
  st_node_runs (match last_row current nodes with
                | Some row => update_row (nr_id row) reset_descendant_to_pending st
                | None => st end) = reset_met nodes {[current]} (st_node_runs st).
Proof.
  intros Hnames. transitivity ((λ r, if bool_decide (Some (nr_id r) = nr_id <$> last_row current nodes)
    then reset_descendant_to_pending r else r) <$> st_node_runs st).
  - destruct (last_row current nodes) as [row|]; cbn.
    + unfold set_field, set_row. cbn. apply list_fmap_ext. intros ? r _.
      destruct (decide (nr_id r = nr_id row)) as [E|E].
      * by rewrite !bool_decide_eq_true_2 by congruence.
      * by rewrite !bool_decide_eq_false_2 by congruence.
    + symmetry. rewrite <- (list_fmap_id (st_node_runs st)) at 2. apply list_fmap_ext. done.
  - apply list_fmap_ext. intros ? r Hr%list_elem_of_lookup_2. unfold is_last.
    destruct (decide (nr_node_id r = current)) as [E|E].
    + rewrite E, (bool_decide_eq_true_2 (current ∈ {[current]})), andb_true_r by set_solver.
      repeat case_bool_decide; congruence.
    + rewrite (bool_decide_eq_false_2 (nr_node_id r ∈ {[current]})), andb_false_r by set_solver.
      rewrite bool_decide_eq_false_2; [done|]. intros H. destruct (last_row current nodes) as [row|] eqn:El; [|done].
      injection H as H. apply last_row_Some in El as [Hrow Hc]. destruct E. rewrite <- Hc. by apply Hnames.
Qed.

Lemma reset_met_twice nodes a b l :
  reset_met nodes a (reset_met nodes b l) = reset_met nodes (a ∪ b) l.
Proof.
  unfold reset_met. rewrite <- list_fmap_compose. apply list_fmap_ext. intros ? r _. simpl.
  destruct (reset_keeps r) as (Hid & Hnode & Hidem).
  assert (∀ r', nr_id r' = nr_id r → nr_node_id r' = nr_node_id r → is_last nodes r' = is_last nodes r) as Hlast
    by (unfold is_last; by intros ? -> ->).
  destruct (is_last nodes r) eqn:E; cbn; [|by rewrite E].
  destruct (decide (nr_node_id r ∈ b)) as [Hb|Hb].
  - rewrite (bool_decide_eq_true_2 (nr_node_id r ∈ b)), Hlast, Hnode by done.
    rewrite (bool_decide_eq_true_2 (nr_node_id r ∈ a ∪ b)) by set_solver. cbn.
    by case_bool_decide.
  - rewrite (bool_decide_eq_false_2 (nr_node_id r ∈ b)), E by done. cbn.
    repeat case_bool_decide; set_solver.
Qed.

Lemma loop_mono push fuel queue seen : seen ⊆ Search.loop push fuel queue seen.
Proof.
  revert queue seen. induction fuel as [|fuel IH]; intros [|c q] seen; simpl; try done.
  case_bool_decide; [apply IH|]. etransitivity; [|apply IH]. set_solver.
Qed.

Lemma reset_walk_rows E nodes fuel queue seen st :
  names_rows nodes (st_node_runs st) →
  st_node_runs (reset_walk E nodes fuel queue seen st) =
    reset_met nodes (Search.loop (λ _ c, Search.succs E c) fuel queue seen ∖ seen) (st_node_runs st).
Proof.
  revert queue seen st. induction fuel as [|fuel IH]; intros [|c q] seen st Hnames; simpl.
  1-3: unfold reset_met; rewrite <- (list_fmap_id (st_node_runs st)) at 1; apply list_fmap_ext; intros ? r _;
    rewrite (bool_decide_eq_false_2 (nr_node_id r ∈ seen ∖ seen)), andb_false_r by set_solver; done.
  case_bool_decide as Hc; [by apply IH|]. cbv zeta.
  set (st1 := match last_row c nodes with Some _ => _ | None => _ end).
  pose proof (reset_one_rows nodes c st Hnames) as H1. fold st1 in H1.
  rewrite IH, H1 by (rewrite H1; by apply names_reset_met).
  rewrite reset_met_twice. pose proof (loop_mono (λ _ c, Search.succs E c) fuel (q ++ Search.succs E c) ({[c]} ∪ seen)).
  f_equal. set (s := Search.loop _ _ _ _) in *. apply set_eq. intros x. set_unfold.
  destruct (decide (x = c)) as [->|]; naive_solver.
Qed.

Lemma reset_walk_runs E nodes fuel queue seen st :
  st_runs (reset_walk E nodes fuel queue seen st) = st_runs st.
Proof.
  revert queue seen st. induction fuel as [|fuel IH]; intros [|c q] seen st; simpl; try done.
  case_bool_decide; [apply IH|]. rewrite IH. by destruct (last_row c nodes).
Qed.

Lemma retryable_run_equation tenant_id run_id st :
  ∃ e, retryable_run tenant_id run_id st =
    match get_run tenant_id run_id st with
    | None => (Raise (HTTPException 404 "Workflow run not found"), st)
    | Some run => if decide (wr_status run ∈ [RUN_CANCELLED; RUN_SUCCEEDED]) then (Raise e, st) else (Ok run, st)
    end.
Proof.
  unfold retryable_run, require_run, mbind, M_bind, get_state.
  destruct (get_run tenant_id run_id st) as [run|]; [|by exists (KeyError "")].
  cbn. destruct (wr_status run);
    first [exists (KeyError ""); reflexivity|eexists; reflexivity].
Qed.

(** The nodes behind a node, and the row a retry from [target] leaves. *)
Definition behind (graph : WorkflowGraph) (node_id : string) : gset string :=
  let E := edge_pairs graph in
  let queue := Search.succs E node_id in
  Search.loop (λ _ c, Search.succs E c) (length queue + length E) queue ∅.

Definition retried_row (graph : WorkflowGraph) (nodes : list WorkflowNodeRun) (node_id : string)
    (target r : WorkflowNodeRun) : WorkflowNodeRun :=
  let r0 := if bool_decide (nr_id r = nr_id target) then ready_again r else r in
  if is_last nodes r && bool_decide (nr_node_id r ∈ behind graph node_id)
  then reset_descendant_to_pending r0 else r0.

Lemma elem_of_behind graph node_id x :
  x ∈ behind graph node_id ↔ tc (Search.rel (edge_pairs graph)) node_id x.
Proof.
  unfold behind. rewrite (Search.loop_spec (edge_pairs graph)); [|intros ? ? ?; by rewrite Search.elem_of_succs
    |intros ? ? ? H; left; by apply Search.elem_of_succs|done|done].
  split.
  - intros (y & Hy%Search.elem_of_succs & Hyx). by eapply tc_rtc_r; [apply tc_once|].
  - intros [x' y Hxy|x' y z Hxy H]; exists y; rewrite Search.elem_of_succs;
      (split; [done|]); [reflexivity|by apply tc_rtc].
Qed.

Lemma walk_retried graph nodes node_id target st :
  NoDup (nr_id <$> st_node_runs st) → nodes ⊆ st_node_runs st →
  st_node_runs (reset_descendants graph nodes node_id (update_row (nr_id target) ready_again st)) =
    retried_row graph nodes node_id target <$> st_node_runs st.
Proof.
  intros Hnd Hsub. unfold reset_descendants. rewrite reset_walk_rows.
  2: { intros n r Hn (r0 & -> & Hr0)%list_elem_of_fmap E.
       assert (nr_id r0 = nr_id n) as E0 by (by case_bool_decide).
       pose proof (row_by_elem nr_id (nr_id n) _ r0 Hnd Hr0 E0).
       pose proof (row_by_elem nr_id (nr_id n) _ n Hnd (Hsub n Hn) eq_refl).
       assert (r0 = n) as -> by congruence. by case_bool_decide. }
  rewrite difference_empty_L. fold (behind graph node_id). cbn. unfold set_field, set_row, reset_met. cbn.
  rewrite <- list_fmap_compose. apply list_fmap_ext. intros ? r _. unfold retried_row. cbv zeta. cbn [compose].
  set (r0 := if bool_decide (nr_id r = nr_id target) then ready_again r else r).
  assert (is_last nodes r0 = is_last nodes r ∧ nr_node_id r0 = nr_node_id r) as [-> ->]
    by (subst r0; by case_bool_decide).
  done.
Qed.

(** What retrying from a node requires of the store: a run of the tenant that is
    neither cancelled nor succeeded, a readable graph, and a FAILED newest row. *)
Definition retries_from env tenant_id run_id node_id st (run : WorkflowRun) (graph : WorkflowGraph)
    (target : WorkflowNodeRun) : Prop :=
  get_run tenant_id run_id st = Some run ∧ wr_status run ∉ [RUN_CANCELLED; RUN_SUCCEEDED] ∧
  load_graph env (wr_tenant_id run) (wr_workflow_version_id run) st = (Ok graph, st) ∧
  last_row node_id (list_node_runs tenant_id run_id st) = Some target ∧ nr_status target = FAILED.

Lemma retry_from_node_equation env tenant_id run_id node_id adv st :
  (∃ run graph target, retries_from env tenant_id run_id node_id st run graph target ∧
     ∃ st1, st1 = (assign_run run_id reopen_run (reset_descendants graph (list_node_runs tenant_id run_id st) node_id
                     (update_row (nr_id target) ready_again st))).2 ∧
       retry_from_node env tenant_id run_id node_id adv st = advance_if env adv tenant_id run_id st1) ∨
  ((∃ e, retry_from_node env tenant_id run_id node_id adv st = (Raise e, st)) ∧
   ∀ run graph target, ¬ retries_from env tenant_id run_id node_id st run graph target).
Proof.
  unfold retry_from_node, retries_from. unfold mbind, M_bind.
  destruct (retryable_run_equation tenant_id run_id st) as [e0 ->].
  destruct (get_run tenant_id run_id st) as [run|] eqn:Hrun.
  2: { right. split; [by eexists|]. intros ??? (? & _). simplify_eq. }
  case_decide as Hst.
  { right. split; [by eexists|]. intros ??? (? & ? & _). by simplify_eq. }
  pose proof (load_graph_same env (wr_tenant_id run) (wr_workflow_version_id run) st) as Hsame.
  destruct (load_graph env _ _ st) as [[graph|e] st0] eqn:Hg; cbn in Hsame; subst st0.
  2: { right. split; [by eexists|]. intros ??? (? & _ & ? & _). simplify_eq. congruence. }
  unfold node_map, mbind, M_bind, get_state, mret, M_ret.
  destruct (last_row node_id _) as [target|] eqn:Ht.
  2: { right. split; [by eexists|]. intros ??? (_ & _ & _ & ? & _). simplify_eq. }
  destruct (decide (nr_status target = FAILED)) as [Hf|Hf].
  2: { right. split; [|intros ??? (_ & _ & _ & ? & ?); by simplify_eq].
       rewrite (bool_decide_eq_false_2 _ Hf). by destruct (bool_decide _); eexists. }
  left. exists run, graph, target. split; [done|]. eexists. split; [done|].
  rewrite (bool_decide_eq_false_2 (_ = SUCCEEDED)) by congruence. rewrite (bool_decide_eq_true_2 _ Hf). cbn [negb].
  unfold reset_failed_to_ready. rewrite (bool_decide_eq_false_2 (_ = SUCCEEDED)) by congruence.
  rewrite (bool_decide_eq_true_2 _ Hf). done.
Qed.

(** C18: retrying from a node requires a run that is neither cancelled nor succeeded,
    a readable graph, and that the node's newest row is FAILED; otherwise it raises
    without any effect.  Where it is possible, the run is RUNNING again without error
    or finish time, that row is READY for another attempt, and the newest row of every
    node behind it, at any distance, is back to PENDING with nothing left of its
    attempts; rows that succeeded and all other rows are kept as they are.  The call
    then answers with that run or, as the operator's routes ask for, advances the run
    from exactly that store. *)
Theorem retry_from_node_spec env tenant_id run_id node_id adv st :
  NoDup (nr_id <$> st_node_runs st) →
  let nodes := list_node_runs tenant_id run_id st in
  (∀ run graph target, retries_from env tenant_id run_id node_id st run graph target →
    ∃ st1,
      retry_from_node env tenant_id run_id node_id adv st =
        (if adv then advance env tenant_id run_id st1 else (Ok (reopen_run run), st1)) ∧
      get_run tenant_id run_id st1 = Some (reopen_run run) ∧
      st_node_runs st1 = retried_row graph nodes node_id target <$> st_node_runs st ∧
      (∀ x, x ∈ behind graph node_id ↔ tc (Search.rel (edge_pairs graph)) node_id x) ∧
      ∀ r, r ∈ st_node_runs st → nr_status r = SUCCEEDED → r ∈ st_node_runs st1) ∧
  ((∀ run graph target, ¬ retries_from env tenant_id run_id node_id st run graph target) →
    ∃ e, retry_from_node env tenant_id run_id node_id adv st = (Raise e, st)).
Proof.
  intros Hnd nodes.
  destruct (retry_from_node_equation env tenant_id run_id node_id adv st)
    as [(run0 & graph0 & target0 & Hcan0 & st1 & -> & ->)|[Hraise Hno]].
  2: { split; [intros ??? Hcan; by destruct (Hno _ _ _ Hcan)|done]. }
  split; [|intros Hno; by destruct (Hno _ _ _ Hcan0)].
  intros run graph target Hcan.
  assert (run0 = run ∧ graph0 = graph ∧ target0 = target) as (-> & -> & ->).
  { destruct Hcan0 as (Hr0 & _ & Hg0 & Ht0 & _), Hcan as (Hr & _ & Hg & Ht & _).
    rewrite Hr in Hr0. injection Hr0 as <-. rewrite Hg in Hg0. injection Hg0 as <-.
    rewrite Ht in Ht0. by injection Ht0 as <-. }
  clear Hcan0. destruct Hcan as (Hrun & _ & _ & Ht & Hf). fold nodes in Ht |- *.
  set (st0 := reset_descendants graph nodes node_id _).
  assert (get_run tenant_id run_id st0 = Some run) as Hrun0.
  { rewrite (get_run_rows _ _ st); [done|]. unfold st0, reset_descendants. by rewrite reset_walk_runs. }
  assert (nodes ⊆ st_node_runs st) as Hsub by (intros r [? _]%list_node_runs_elem; done).
  pose proof (walk_retried graph nodes node_id target st Hnd Hsub) as Hrows. fold st0 in Hrows.
  set (st1 := (assign_run run_id reopen_run st0).2).
  assert (get_run tenant_id run_id st1 = Some (reopen_run run)) as Hrun1
    by (change st1 with (st0 <| st_runs ::= set_row wr_id run_id reopen_run |>); by rewrite get_run_assign, Hrun0).
  exists st1. split_and!; [|done|done|intros x; apply elem_of_behind|].
  - unfold advance_if. destruct adv; [done|]. unfold require_run, mbind, M_bind, get_state. by rewrite Hrun1.
  - intros r Hr Hsucc. change (st_node_runs st1) with (st_node_runs st0). rewrite Hrows. apply list_elem_of_fmap.
    exists r. split; [|done].
    assert (nr_id r ≠ nr_id target) as Hne.
    { intros E. assert (nr_status target = SUCCEEDED); [|congruence]. rewrite <- Hsucc. f_equal.
      apply last_row_Some in Ht as [Ht _]. symmetry. apply (NoDup_fmap_inj_in nr_id (st_node_runs st)); auto. }
    unfold retried_row. rewrite (bool_decide_eq_false_2 _ Hne), reset_alt, (bool_decide_eq_true_2 _ Hsucc).
    by destruct (_ && _).
Qed.

(** A failed first node, and the node behind it that was skipped. *)
Definition ex_failed : Store := empty_store
  <| st_runs := [Waits.ex_wait_run <| wr_status := RUN_FAILED |>] |>
  <| st_node_runs := [new_node_run "1" "T" "R" "start" "manual_trigger" 1 FAILED "" [];
                      new_node_run "2" "T" "R" "A" "echo" 1 SKIPPED "" []] |>.

Lemma retry_from_node_spec_witness :
  (nr_status <$> st_node_runs (retry_from_node Start.ex_env "T" "R" "start" false ex_failed).2) = [READY; PENDING] ∧
  ∃ graph target st1,
    retry_from_node Start.ex_env "T" "R" "start" true ex_failed = advance Start.ex_env "T" "R" st1 ∧
    st_node_runs st1 = retried_row graph (list_node_runs "T" "R" ex_failed) "start" target <$> st_node_runs ex_failed.
Proof.
  split; [vm_compute; reflexivity|].
  destruct (retry_from_node_spec Start.ex_env "T" "R" "start" true ex_failed) as [H _].
  { apply (bool_decide_unpack _). vm_compute. exact I. }
  destruct (H (Waits.ex_wait_run <| wr_status := RUN_FAILED |>) Start.ex_graph
    (new_node_run "1" "T" "R" "start" "manual_trigger" 1 FAILED "" [])) as (st1 & H1 & _ & H2 & _).
  - split; [reflexivity|]. split; [apply (bool_decide_unpack _); vm_compute; exact I|].
    split; [vm_compute; reflexivity|]. split; reflexivity.
  - exists Start.ex_graph, (new_node_run "1" "T" "R" "start" "manual_trigger" 1 FAILED "" []), st1. exact (conj H1 H2).
Defined.

(** An iteration of a fan-out node that failed. *)
Definition ex_iteration_failed : Store := empty_store
  <| st_runs := [Waits.ex_wait_run <| wr_status := RUN_FAILED |>] |>
  <| st_node_runs := [new_node_run "1" "T" "R" "A" "echo" 1 SKIPPED "" [];
                      new_node_run "2" "T" "R" "A" "echo" 1 FAILED "x" [];
                      new_node_run "3" "T" "R" "A" "echo" 1 SUCCEEDED "y" []] |>.

(** The operator's retries look at one row of a node: [retry_node] at its first
    one, which is the superseded placeholder, [retry_from_node] at its last one.
    A failed iteration in between cannot be retried. *)
Theorem retries_miss_iterations :
  (retry_node Start.ex_env "T" "R" "A" false ex_iteration_failed).1 =
    Raise (HTTPException 409 "Node 'A' is skipped; only failed nodes can be retried") ∧
  (retry_from_node Start.ex_env "T" "R" "A" false ex_iteration_failed).1 =
    Raise (HTTPException 409 "Cannot retry from a succeeded node").
Proof. vm_compute. done. Qed.
End Operator.
