(* ===== verification/Final.v ===== *)
(** * Succeeded rows are final

    A node run that succeeded is never executed again, failed, cancelled or
    reset, and neither its output nor anything else about the attempt changes:
    only its claim and its cancellation flag may.  The invariant is proved of
    each operation of the engine, whether it returns or raises, and then of
    every history of operations. *)
From S2P Require Import Prelude PyStr Json Graph Nodes Tables RunModels NodeIndex Ready Unlock.
From S2P Require Import Retry Claiming Recovery Cancellation Scheduler Fanout Waits Execute Engine Resume Start.
From S2P Require Import Operator.

Module Final.
Import Graph Nodes Models Claiming Cancellation Engine Start.
Local Open Scope string_scope.
Local Open Scope list_scope.
Local Open Scope Z_scope.

(** The row without its claim and cancellation flag. *)
Definition core (r : WorkflowNodeRun) : WorkflowNodeRun :=
  clear_claim_values r <| nr_cancellation_requested := false |>.

(** The row under [i] succeeded with core [c]. *)
Definition succeeded (c : WorkflowNodeRun) (r : WorkflowNodeRun) : Prop :=
  nr_status r = SUCCEEDED ∧ core r = c.

Lemma succeeded_clear c r : succeeded c r → succeeded c (clear_claim_values r).
Proof. intros [Hs <-]. split; [done|]. clear Hs. destruct r. vm_compute. reflexivity. Qed.

Lemma succeeded_request c r b : succeeded c r → succeeded c (r <| nr_cancellation_requested := b |>).
Proof. intros [Hs <-]. split; [done|]. clear Hs. destruct r. vm_compute. reflexivity. Qed.

Section final.
Context (fresh : nat → string) (fresh_inj : Inj (=) (=) fresh).
Context (i : string) (c : WorkflowNodeRun).

(** Ids are distinct, those still to be drawn are new, and the row under [i]
    succeeded with core [c]. *)
Definition final (st : Store) : Prop :=
  NoDup (nr_id <$> st_node_runs st) ∧
  (∃ r, node_row i (st_node_runs st) = Some r ∧ succeeded c r) ∧
  ∀ n, (st_uuids st ≤ n)%nat → fresh n ∉ nr_id <$> st_node_runs st.

(** ** Changes of the store that keep it *)

Lemma final_map (g : WorkflowNodeRun → WorkflowNodeRun) st st' :
  st_node_runs st' = g <$> st_node_runs st → (st_uuids st ≤ st_uuids st')%nat →
  (∀ r, r ∈ st_node_runs st → nr_id (g r) = nr_id r) →
  (∀ r, r ∈ st_node_runs st → succeeded c r → nr_id r = i → succeeded c (g r)) →
  final st → final st'.
Proof.
  intros Hrows Hle Hid Hg (Hnd & (r & Hr & Hs) & Hfr). unfold final. rewrite Hrows.
  assert (nr_id <$> (g <$> st_node_runs st) = nr_id <$> st_node_runs st) as Hids.
  { rewrite <- list_fmap_compose. apply list_fmap_ext. intros ? x Hx%list_elem_of_lookup_2. by apply Hid. }
  rewrite Hids. split_and!; [done| |intros n Hn; apply Hfr; lia].
  pose proof (row_by_Some _ _ _ _ Hr) as [Hin Hi]. exists (g r). split; [|by apply Hg].
  apply row_by_elem; [by rewrite Hids|by apply list_elem_of_fmap_2|by rewrite Hid].
Qed.

Lemma final_other st st' :
  st_node_runs st' = st_node_runs st → (st_uuids st ≤ st_uuids st')%nat → final st → final st'.
Proof.
  intros Hrows Hle. apply (final_map (λ r, r)); [|done..]. by rewrite list_fmap_id.
Qed.

Lemma final_update j f st :
  (∀ r, nr_id r = j → nr_id (f r) = j) → (j = i → ∀ r, succeeded c r → succeeded c (f r)) →
  final st → final (update_row j f st).
Proof.
  intros Hf Hj. apply (final_map (λ r, if bool_decide (nr_id r = j) then f r else r)); [done|done| |].
  - intros r _. case_bool_decide as H; [rewrite H; auto|done].
  - intros r _ Hs Hi. case_bool_decide; [|done]. apply Hj; [congruence|done].
Qed.

Lemma final_append new st st' :
  nr_id new = fresh (st_uuids st) → st_node_runs st' = st_node_runs st ++ [new] →
  st_uuids st' = S (st_uuids st) → final st → final st'.
Proof.
  intros Hid Hrows Hu (Hnd & (r & Hr & Hs) & Hfr). unfold final. rewrite Hrows, Hu, fmap_app. split_and!.
  - apply NoDup_app. split_and!; [done| |apply NoDup_singleton].
    intros y Hy Hy'%list_elem_of_singleton. subst y. rewrite Hid in Hy. by apply (Hfr (st_uuids st)).
  - exists r. split; [|done]. clear -Hr. unfold row_by in *.
    induction (st_node_runs st) as [|x l IH]; [done|]. simpl in *. destruct (bool_decide _); auto.
  - intros n Hn. rewrite not_elem_of_app. split; [apply Hfr; lia|]. cbn. rewrite Hid, list_elem_of_singleton.
    intros E%(inj fresh). lia.
Qed.

(** The row a lookup by another condition finds is another row. *)
Lemma final_elsewhere st r : final st → r ∈ st_node_runs st → nr_status r ≠ SUCCEEDED → nr_id r ≠ i.
Proof.
  intros (Hnd & (r0 & Hr0 & Hs & _) & _) Hr Hne E.
  pose proof (row_by_elem nr_id i _ r Hnd Hr E). congruence.
Qed.

(** A statement that rewrites the rows satisfying [p]. *)
Lemma final_sql (p : WorkflowNodeRun → bool) f st :
  (∀ r, nr_id (f r) = nr_id r) → (∀ r, r ∈ st_node_runs st → p r = true → succeeded c r → nr_id r = i → succeeded c (f r)) →
  final st → final (st <| st_node_runs := (sql_update p f (st_node_runs st)).2 |>).
Proof.
  intros Hf Hp. apply (final_map (λ r, if p r then f r else r)); [done|done| |].
  - intros r _. by destruct (p r).
  - intros r Hr Hs Hi. destruct (p r) eqn:E; auto.
Qed.

(** ** The steps the operations are made of *)

Lemma keeps_assign node f :
  (∀ r, nr_id (f r) = nr_id r) → nr_id node ≠ i → keeps final (Execute.assign node f).
Proof. intros Hf Hi. apply keeps_modify. intros st. apply final_update; [by intros r <-|done]. Qed.

Lemma keeps_assign_run run_id f : keeps final (assign_run run_id f).
Proof. apply keeps_modify. intros st. by apply (final_other st). Qed.

Lemma keeps_sync_run run : keeps final (sync_occurrence_for_run run).
Proof.
  unfold sync_occurrence_for_run. destruct (wr_automation_id run); [|apply keeps_ret].
  destruct (negb _); [apply keeps_ret|]. apply keeps_get. intros st Hst.
  eapply wp_keep; [apply keeps_lift|done|]. intros [occ|] st' H'; [|by apply wp_ret].
  destruct (occurrence_terminal _); [by apply wp_ret|]. apply wp_modify. by apply (final_other st').
Qed.

Lemma keeps_sync run_id : keeps final (sync_occurrence run_id).
Proof.
  apply keeps_get. intros st Hst. destruct (run_row run_id st) as [run|]; [by apply keeps_sync_run|by apply wp_ret].
Qed.

Lemma keeps_node_map tenant_id run_id : keeps final (node_map tenant_id run_id).
Proof. apply keeps_get. intros st Hst. by apply wp_ret. Qed.

Lemma keeps_finalize env tenant_id run_id : keeps final (finalize env tenant_id run_id).
Proof. apply keeps_bind; [apply keeps_node_map|]. intros rows. apply keeps_assign_run. Qed.

Lemma keeps_require_run tenant_id run_id : keeps final (require_run tenant_id run_id).
Proof.
  apply keeps_get. intros st Hst. destruct (get_run _ _ st); [by apply wp_ret|by apply wp_raise].
Qed.

Lemma keeps_load_graph env tenant_id version_id : keeps final (load_graph env tenant_id version_id).
Proof. unfold load_graph. destruct (Tables.get_version _ _ _); [apply keeps_lift|apply keeps_raise]. Qed.

(** ** One attempt of a node *)

Section attempt.
Context (x : Execute.Env) (x_fresh : Execute.en_fresh x = fresh).

Lemma final_row_at st : final st ↔ ∃ r, Execute.row_at x i r st ∧ succeeded c r.
Proof. unfold final, Execute.row_at. rewrite x_fresh. clear. firstorder. Qed.

(** The operations on the index of a run keep started rows. *)
Lemma final_put_rows run st s :
  rtc (Fanout.fan_step (wr_tenant_id run) (wr_id run) (Execute.en_fresh x))
    {| Fanout.fs_rows := list_node_runs (wr_tenant_id run) (wr_id run) st;
       Fanout.fs_next := st_uuids st; Fanout.fs_out := [] |} s →
  final st → final (Execute.put_rows (Fanout.fs_rows s) st <| st_uuids := Fanout.fs_next s |>).
Proof.
  intros Hs (r & Hr & Hok)%final_row_at. apply final_row_at. exists r. split; [|done].
  apply (Execute.put_rows_row_at _ run); [by rewrite x_fresh|done| |done]. intros _. by destruct Hok as [-> _].
Qed.

Lemma keeps_unlock run now graph source output :
  keeps final (Execute.on_index run (Unlock.unlock_after_node_success now graph source output)).
Proof using x_fresh fresh_inj.
  intros st (r & Hr & Hok)%final_row_at. eapply wp_mono.
  - apply (Execute.wp_unlock x ltac:(by rewrite x_fresh) run i now graph source output r st (λ _, Execute.row_at x i r)); [done| |done].
    intros _. by destruct Hok as [-> _].
  - intros ? st' H. apply final_row_at. by exists r.
  - done.
Qed.

Lemma keeps_propagate run graph graph_node node status output :
  keeps final (Execute.propagate x run graph graph_node node status output).
Proof.
  intros st (r & Hr & Hok)%final_row_at. eapply wp_mono.
  - apply (Execute.wp_propagate x ltac:(by rewrite x_fresh) run i graph graph_node node r); [done|].
    intros _. by destruct Hok as [-> _].
  - intros ? st' H. apply final_row_at. by exists r.
  - done.
Qed.

Lemma keeps_uuid4 : keeps final (Execute.uuid4 x).
Proof.
  apply keeps_get. intros st Hst. apply wp_bind, wp_modify, wp_ret. apply (final_other st); [done|simpl; lia|done].
Qed.

Lemma keeps_clock : keeps final (Execute.clock x).
Proof. unfold Execute.clock. destruct (Execute.g_datetime _); auto with keeps. Qed.

Section node.
Context (node : WorkflowNodeRun) (elsewhere : nr_id node ≠ i).

Lemma keeps_fail_row impl error cls : keeps final (Execute.fail_row x node impl error cls).
Proof using elsewhere.
  intros st Hst. unfold wp, Execute.fail_row.
  pose proof (Retry.persist_failure_id (Execute.en_cfg x) (Execute.en_now x) (Execute.en_jitter x)
    (wn_retry_policy impl) error cls (Execute.row_of node st)) as Hid.
  destruct (Retry.persist_failure _ _ _ _ _ _ _) as [res row]. cbn [snd] in Hid.
  assert (nr_id row = nr_id node) as Hrow.
  { rewrite Hid. unfold Execute.row_of. destruct (node_row _ _) eqn:E; [|done]. by apply row_by_Some in E as [_ ?]. }
  destruct res; (apply final_update; [done|done|done]).
Qed.

#[local] Hint Resolve keeps_fail_row keeps_clock keeps_uuid4 : keeps.

Lemma keeps_private_fail impl error cls : keeps final (Execute.private_fail_row x node impl error cls).
Proof using elsewhere. unfold Execute.private_fail_row. destruct (Execute.g_private_persist_failure _); auto with keeps. Qed.
#[local] Hint Resolve keeps_private_fail : keeps.

Lemma keeps_run_implementation run graph_node impl ctx inputs :
  keeps final (try_except (Execute.run_implementation x run graph_node node impl ctx inputs)
    (λ e, Execute.execute_error x node impl e ≫= λ _, mret None)).
Proof using elsewhere.
  apply keeps_try; [|intros e; apply keeps_bind; unfold Execute.execute_error; auto with keeps].
  unfold Execute.run_implementation.
  do 3 (apply keeps_bind; [auto with keeps|intros ?]). case_match; [auto with keeps|].
  destruct (negb _); (apply keeps_bind; [auto with keeps|intros ?]); auto with keeps.
Qed.

Lemma keeps_validated_output impl res : keeps final (Execute.validated_output x node impl res).
Proof using elsewhere.
  unfold Execute.validated_output. destruct (res_status res); auto with keeps;
    destruct (wn_validate_output _ _); auto with keeps; apply keeps_bind; auto with keeps.
Qed.

Lemma keeps_record_result run graph graph_node impl token res output node_outputs :
  keeps final (Execute.record_result x run graph graph_node node impl token res output node_outputs).
Proof using elsewhere x_fresh fresh_inj.
  unfold Execute.record_result. apply keeps_bind; [by apply keeps_assign|intros _].
  apply keeps_bind; [auto with keeps|intros now].
  destruct (res_status res).
  1, 4: apply keeps_bind; [by apply keeps_assign|intros _]; apply keeps_bind; [apply keeps_propagate|auto with keeps].
  - apply keeps_bind; [auto with keeps|intros _]; auto with keeps.
  - apply keeps_bind; [destruct (PyStr.opt_truthy token); auto with keeps|intros t].
    apply keeps_bind; [by apply keeps_assign|intros _]. apply keeps_get. intros st Hst.
    apply (wp_keep final); [|done|intros ? st' H'; by apply wp_ret].
    intros st' H'. eapply wp_mono; [by eapply Waits.persist_waiting_rows| |by intros e w ->].
    intros [] w [E1 E2]. by apply (final_other st').
Qed.
End node.

Lemma row_of_elsewhere node st :
  final st → nr_status (Execute.row_of node st) ≠ SUCCEEDED → nr_id (Execute.row_of node st) ≠ i.
Proof.
  intros Hst Hne. unfold Execute.row_of in *. destruct (node_row (nr_id node) (st_node_runs st)) as [r|] eqn:E.
  - apply row_by_Some in E as [Hr _]. by apply (final_elsewhere st).
  - intros Hi. cbn in Hi. destruct Hst as (_ & (r & Hr & _) & _). rewrite Hi in E. congruence.
Qed.

Lemma keeps_execute run graph_node node graph outputs initial te :
  keeps final (Execute.execute_ready_node x run graph_node node graph outputs initial te).
Proof.
  apply keeps_get. intros st Hst. cbv zeta. set (row := Execute.row_of node st).
  case_bool_decide as Hset; [by apply wp_ret|].
  assert (nr_id row ≠ i) as Hne.
  { apply row_of_elsewhere; [done|]. intros E. apply Hset. subst row. rewrite E. set_solver. }
  set (rows := list_node_runs _ _ _). clearbody row rows.
  match goal with |- wp ?m _ _ _ => enough (keeps final m) as H by exact (H st Hst) end.
  clear st Hst Hset.
  apply keeps_bind; [auto with keeps|intros impl].
  apply keeps_bind; [auto with keeps|intros [inputs outs]].
  apply keeps_bind; [by apply keeps_assign; [intros; apply Execute.keyed_fields|]|intros _].
  apply keeps_bind; [apply keeps_clock|intros now].
  apply keeps_bind; [by apply keeps_assign; [intros; apply Execute.started_fields|]|intros _].
  apply keeps_bind.
  { destruct (_ && _); [|auto with keeps]. apply keeps_bind; [apply keeps_uuid4|intros t].
    apply keeps_bind; [by apply keeps_assign|auto with keeps]. }
  intros token. apply keeps_bind; [by apply keeps_run_implementation|intros [res|]; [|auto with keeps]].
  apply keeps_bind; [by apply keeps_validated_output|intros [output|]; [|auto with keeps]].
  by apply keeps_record_result.
Qed.
End attempt.

(** ** Statements on claimed rows *)

Lemma keeps_rows {A} (f : list WorkflowNodeRun → A * list WorkflowNodeRun) :
  (∀ st, final st → final (st <| st_node_runs := (f (st_node_runs st)).2 |>)) → keeps final (on_rows f).
Proof. intros Hf st Hst. unfold wp, on_rows. specialize (Hf st Hst). by destruct (f _). Qed.

Lemma final_complete tenant_id j token st :
  final st → final (st <| st_node_runs := (complete_node tenant_id j token (st_node_runs st)).2 |>).
Proof. apply final_sql; [done|]. intros r _ _ Hs _. by apply succeeded_clear. Qed.

Lemma final_abort now tenant_id node token reason st :
  final st → final (abort_node_for_cancellation now tenant_id node token reason st).
Proof.
  intros Hst. unfold abort_node_for_cancellation. cbv zeta.
  set (st1 := st <| st_node_runs ::= _ |>).
  assert (final st1) as H1.
  { subst st1. apply (final_update (nr_id node) (λ r, let r := r <| nr_cancellation_requested := true |> in
      if bool_decide (nr_status r = SUCCEEDED) then r else mark_node_cancelled now reason r)); [|intros _|done].
    - intros r <-. cbv zeta. case_bool_decide; [done|]. by rewrite mark_node_cancelled_id.
    - intros r Hs. cbv zeta. rewrite bool_decide_eq_true_2 by apply Hs. by apply succeeded_request. }
  apply (final_complete tenant_id (nr_id node) token (flag_task_execution now (nr_task_execution_id node) st1)).
  apply (final_other st1); unfold flag_task_execution; by destruct (nr_task_execution_id node).
Qed.

Lemma keeps_complete tenant_id j token : keeps final (on_rows (complete_node tenant_id j token)).
Proof. apply keeps_rows. intros st. apply final_complete. Qed.

Lemma keeps_fail_node now tenant_id j error token cls message :
  j ≠ i → keeps final (on_rows (fail_node now tenant_id j error token cls message)).
Proof.
  intros Hj. apply keeps_rows. intros st. apply final_sql; [done|].
  intros r _ [[_ Hr%bool_decide_eq_true]%andb_true_iff _]%andb_true_iff _ Hi. congruence.
Qed.

Lemma final_claim cfg now locked token tenant_id run_id j lease st :
  final st → final (st <| st_node_runs :=
    (claim_ready_node cfg now locked token tenant_id run_id j lease (st_node_runs st)).2 |>).
Proof.
  intros Hst. unfold claim_ready_node. destruct (List.find _ _) as [picked|]; [|by destruct st].
  apply final_sql; [done| |done].
  intros r _ [[_ Hr%bool_decide_eq_true]%andb_true_iff _]%andb_true_iff [Hs _] _. congruence.
Qed.

(** A row handed to a worker is not the succeeded one. *)
Lemma wp_begin cfg now tenant_id j token worker te lease st : final st →
  wp (on_rows (begin_node_execution cfg now tenant_id j token worker te lease))
    (λ o st', final st' ∧ ∀ node, o = Some node → nr_id node ≠ i) (λ _, final) st.
Proof.
  intros Hst. unfold wp, on_rows, begin_node_execution.
  destruct (node_row j (st_node_runs st)) as [node|] eqn:E; [|by destruct st].
  destruct (_ || _); [by destruct st|]. destruct (nr_cancellation_requested node); [by destruct st|].
  destruct (claim_active node) eqn:Ha; [|by destruct st]. cbn [negb].
  apply row_by_Some in E as [Hin Hj].
  assert (nr_id node ≠ i) as Hne.
  { apply (final_elsewhere st); [done..|]. intros Hs. unfold claim_active, is_status in Ha.
    rewrite Hs in Ha. done. }
  split; [|intros ? [= <-]; by rewrite (proj1 (begun_row_keys _ _ _ _ _ _))].
  apply (final_update j); [|congruence|done]. intros r <-. apply begun_row_keys.
Qed.

(** ** The engine *)

Section engine.
Context (env : EngineEnv) (env_fresh : Execute.en_fresh (ee_exec env) = fresh).

#[local] Hint Resolve keeps_require_run keeps_load_graph keeps_node_map keeps_finalize keeps_assign_run
  keeps_sync keeps_sync_run keeps_complete keeps_execute keeps_uuid4 : keeps.

Lemma keeps_read {B} (f : Store → B) : keeps final (st ← get_state; mret (f st)).
Proof. apply keeps_get. intros st Hst. by apply wp_ret. Qed.
#[local] Hint Resolve keeps_read : keeps.

Lemma keeps_skip_terminal tenant_id j token run : keeps final (skip_terminal env tenant_id j token run).
Proof.
  apply keeps_get. intros st Hst. cbv zeta. apply (wp_keep final); [|done|intros ? st' ?; by apply wp_ret].
  destruct (node_row j _) as [pending|]; [|auto with keeps]. destruct (_ && _); [|auto with keeps].
  apply keeps_modify. intros st'. apply final_abort.
Qed.

(** After the execution: the row may be cancelled unless it succeeded. *)
Lemma keeps_cancel_race node f : (∀ r, nr_id (f r) = nr_id r) → nr_id node ≠ i →
  ∀ b : bool, keeps final (if b then Execute.assign node f else mret ()).
Proof. intros Hf Hn []; [by apply keeps_assign|apply keeps_ret]. Qed.

Lemma cancel_race_id r : nr_id (cancel_race_row r) = nr_id r.
Proof. unfold cancel_race_row. cbn. by destruct (nr_error_json r) as [[]|]. Qed.

Lemma keeps_execute_begun tenant_id token te run node :
  nr_id node ≠ i → keeps final (execute_begun env tenant_id token te run node).
Proof using env_fresh fresh_inj.
  intros Hne. apply keeps_bind; [auto with keeps|intros graph].
  destruct (graph_node_of _ _) as [graph_node|].
  - cbv zeta. apply keeps_bind; [by apply keeps_execute|intros outs].
    apply keeps_bind; [auto with keeps|intros _]. apply keeps_get. intros st Hst.
    apply (wp_keep final); [by apply keeps_cancel_race; [apply cancel_race_id|]|done|intros _ st1 H1].
    apply (wp_keep final); [auto with keeps|done|intros _ st2 H2].
    apply (wp_keep final); [auto with keeps|done|intros _ st3 H3].
    apply (wp_keep final); [auto with keeps|done|intros _ st4 H4].
    apply (wp_keep final); [auto with keeps|done|intros _ st5 H5].
    by apply keeps_read.
  - apply keeps_bind; [by apply keeps_fail_node|intros _]. apply keeps_bind; auto with keeps.
Qed.

Lemma keeps_run_claimed tenant_id run_id j token worker te :
  keeps final (run_claimed env tenant_id run_id j token worker te).
Proof using env_fresh fresh_inj.
  apply keeps_bind; [auto with keeps|intros run]. destruct (run_terminal _).
  { apply keeps_bind; [apply keeps_skip_terminal|auto with keeps]. }
  intros st Hst. apply wp_bind. eapply wp_mono; [by apply wp_begin| |done].
  intros [node|] st1 [H1 Hne]; [|by apply wp_ret]. specialize (Hne node eq_refl).
  destruct (should_abort_node node run).
  - apply wp_bind, wp_modify. assert (final (abort_node_for_cancellation (now env) tenant_id node (Some token)
      "cancelled" st1)) as H2 by by apply final_abort. revert H2. generalize (abort_node_for_cancellation
      (now env) tenant_id node (Some token) "cancelled" st1). intros st2 H2.
    apply (wp_keep final); [auto with keeps|done|intros _ st3 H3]. by apply keeps_read.
  - apply (wp_keep final); [by apply keeps_execute_begun|done|intros [row|] st2 H2]; [by apply wp_ret|].
    by apply keeps_read.
Qed.

Lemma keeps_drain tenant_id run_id claimed : keeps final (drain_inline_claimed_nodes env tenant_id run_id claimed).
Proof using env_fresh fresh_inj.
  apply keeps_mfor. intros node _. apply keeps_get. intros st Hst. cbv zeta.
  destruct (negb _); [by apply wp_ret|].
  apply (wp_keep final); [apply keeps_run_claimed|done|intros ? st' ?; by apply wp_ret].
Qed.

Lemma keeps_enqueue tenant_id run_id node : keeps final (enqueue_claimed_node env tenant_id run_id node).
Proof.
  unfold enqueue_claimed_node. destruct (negb _); [auto with keeps|].
  destruct (Retry.WORKFLOW_INLINE_NODE_EXECUTION _); [auto with keeps|]. apply keeps_modify. intros st. by apply (final_other st).
Qed.

Lemma keeps_claim_batch tenant_id run_id claimable : keeps final (claim_batch env tenant_id run_id claimable).
Proof using env_fresh fresh_inj.
  induction claimable as [|row rest IH]; [apply keeps_ret|]. cbn [claim_batch].
  apply keeps_bind; [|intros o; apply keeps_bind; auto with keeps].
  apply keeps_bind; [|intros [node|]; [|auto with keeps]; apply keeps_bind; [apply keeps_enqueue|auto with keeps]].
  apply keeps_bind; [by apply keeps_uuid4|intros token]. apply keeps_rows. intros st. apply final_claim.
Qed.

Lemma keeps_find_claimable tenant_id run_id graph rows : keeps final (find_claimable tenant_id run_id graph rows).
Proof.
  unfold find_claimable. destruct (ready_rows rows); [|auto with keeps].
  apply keeps_bind; [|intros _; apply keeps_bind; auto with keeps].
  apply keeps_mfor. intros node_id _ st Hst. apply wp_bind, wp_ret.
  destruct (Index.get node_id _) as [row|] eqn:E; [|by apply wp_ret].
  destruct (Ready.has_status PENDING row) eqn:Hp; [|by apply wp_ret].
  apply keeps_assign; [done| |done]. apply (final_elsewhere st); [done| |].
  - apply Index.index_get_elem in E as [[E _]%list_node_runs_elem _]. done.
  - apply bool_decide_eq_true in Hp. congruence.
Qed.

Lemma keeps_advance_loop n tenant_id run_id graph : keeps final (advance_loop env n tenant_id run_id graph).
Proof using env_fresh fresh_inj.
  induction n as [|n IH]; [apply keeps_ret|]. cbn [advance_loop].
  apply keeps_bind; [auto with keeps|intros rows]. destruct (_ || _); [auto with keeps|].
  apply keeps_bind; [apply keeps_find_claimable|intros claimable].
  apply keeps_bind; [apply keeps_claim_batch|intros [|node batch]]; [auto with keeps|].
  destruct (Retry.WORKFLOW_INLINE_NODE_EXECUTION _); [|auto with keeps].
  apply keeps_bind; [apply keeps_drain|intros _]. apply keeps_bind; [auto with keeps|intros run].
  destruct (_ || _); auto with keeps.
Qed.

Lemma keeps_advance tenant_id run_id : keeps final (advance env tenant_id run_id).
Proof using env_fresh fresh_inj.
  apply keeps_bind; [auto with keeps|intros run]. destruct (run_terminal _); [auto with keeps|].
  apply keeps_bind; [auto with keeps|intros graph]. apply keeps_bind; [apply keeps_advance_loop|intros []]; [auto with keeps|].
  do 2 (apply keeps_bind; [auto with keeps|intros _]). auto with keeps.
Qed.
#[local] Hint Resolve keeps_advance : keeps.

Lemma keeps_execute_claimed jitter tenant_id run_id j token worker te :
  keeps final (execute_claimed_node_run env jitter tenant_id run_id j token worker te).
Proof using env_fresh fresh_inj.
  apply keeps_bind; [apply keeps_run_claimed|intros [r|finished]]; [auto with keeps|].
  apply keeps_bind; [|intros _; apply keeps_bind; auto with keeps].
  apply keeps_get. intros st Hst. destruct (_ && _).
  - apply wp_bind, wp_modify. destruct (Retry.WORKFLOW_INLINE_NODE_EXECUTION _).
    + apply (wp_keep final); [auto with keeps| |intros ? st' ?; by apply wp_ret].
      unfold Retry.schedule_run_advance. case_match; [done|]. by apply (final_other st).
    + apply wp_ret. unfold Retry.schedule_run_advance. case_match; [done|]. by apply (final_other st).
  - case_bool_decide; [|by apply wp_ret].
    apply (wp_keep final); [auto with keeps|done|intros ? st' ?; by apply wp_ret].
Qed.
#[local] Hint Resolve keeps_execute_claimed : keeps.

(** ** Resumption *)

Lemma keeps_waits {A} (f : list WorkflowWait → A * list WorkflowWait) : keeps final (Waits.on_waits f).
Proof. intros st Hst. unfold wp, Waits.on_waits. destruct (f _). by apply (final_other st). Qed.

Lemma keeps_resolve now token outcome payload :
  keeps final (Waits.mark_wait_resolved_by_resume_token now token outcome payload).
Proof.
  apply keeps_get. intros st Hst. apply (wp_keep final); [apply keeps_lift|done|].
  intros [w|] st' H'; [by apply keeps_waits|by apply wp_ret].
Qed.

Lemma ended_row_id now e normalized output r : nr_id (Resume.ended_row now e normalized output r) = nr_id r.
Proof. by destruct e. Qed.

Lemma keeps_end_wait tenant_id token normalized decision run node :
  nr_id node ≠ i → keeps final (Resume.end_wait env tenant_id token normalized decision run node).
Proof using env_fresh fresh_inj.
  intros Hne. apply keeps_bind; [auto with keeps|intros graph]. cbv zeta.
  apply keeps_bind; [by apply keeps_assign; [intros; apply ended_row_id|]|intros _].
  apply keeps_bind.
  { destruct (Resume.ending_of normalized decision); [..|auto with keeps];
      (apply keeps_bind; [by eapply keeps_unlock|auto with keeps]). }
  intros _. apply keeps_bind.
  { destruct (bool_decide _); [|auto with keeps]. apply keeps_bind; [apply keeps_resolve|auto with keeps]. }
  intros _. apply keeps_bind; [auto with keeps|intros _]. apply keeps_bind; [auto with keeps|intros _].
  auto with keeps.
Qed.

Lemma by_token_elem tenant_id token st node :
  Resume.get_by_resume_token tenant_id token st = Ok (Some node) → node ∈ st_node_runs st.
Proof. by intros [? _]%scalar_elem. Qed.

Lemma keeps_resume tenant_id token outcome decision advance_run :
  keeps final (Resume.resume_waiting_node env tenant_id token outcome decision advance_run).
Proof using env_fresh fresh_inj.
  unfold Resume.resume_waiting_node. cbv zeta. destruct (negb _); [auto with keeps|].
  destruct (negb _); [auto with keeps|]. apply keeps_get. intros st Hst.
  destruct (Resume.get_by_resume_token tenant_id _ st) as [[node|]|e] eqn:E.
  2-3: by apply wp_bind, wp_lift, wp_raise || by apply wp_bind, wp_lift.
  apply by_token_elem in E. apply wp_bind, wp_lift.
  assert (nr_status node ≠ SUCCEEDED → nr_id node ≠ i) as Hne by by apply (final_elsewhere st).
  match goal with |- wp ?m _ _ _ => enough (keeps final m) as H by exact (H st Hst) end.
  apply keeps_bind; [auto with keeps|intros run].
  destruct (_ && _). { destruct (_ && _); auto with keeps. }
  destruct (_ && _); [auto with keeps|]. case_bool_decide as Hw; cbn [negb]; [|auto with keeps].
  apply keeps_bind; [apply keeps_end_wait, Hne; congruence|intros _].
  apply keeps_bind; [auto with keeps|intros run']. destruct (_ && _); auto with keeps.
Qed.
#[local] Hint Resolve keeps_resume : keeps.

Lemma keeps_simulate tenant_id run_id hops : keeps final (Resume.auto_simulate_approvals env tenant_id run_id hops).
Proof using env_fresh fresh_inj.
  apply keeps_get. intros st Hst. destruct (get_run _ _ st) as [run|]; [|by apply wp_raise].
  enough (keeps final (Resume.simulate_loop env hops tenant_id run)) as H by by apply H. clear st Hst.
  revert run. induction hops as [|hops IH]; intros run; [apply keeps_ret|]. cbn [Resume.simulate_loop].
  destruct (negb _); [auto with keeps|]. apply keeps_bind; [auto with keeps|intros nodes].
  destruct (List.find _ _) as [waiting|]; [|auto with keeps]. apply keeps_bind; auto with keeps.
Qed.
#[local] Hint Resolve keeps_simulate : keeps.

(** ** Starting *)

Lemma keeps_add_node tenant_id run_id graph n : keeps final (Start.add_node env tenant_id run_id graph n).
Proof.
  intros st Hst. unfold Start.add_node. apply wp_bind, wp_bind, wp_get, wp_bind, wp_modify, wp_ret, wp_modify.
  by apply (final_append (new_node_run (Execute.en_fresh (ee_exec env) (st_uuids st)) tenant_id run_id (gn_id n)
    (gn_type n) (gn_version n) (Start.initial_status graph n) "" []) st); [rewrite <- env_fresh|..].
Qed.

Lemma keeps_start args : keeps final (Start.start_run env args).
Proof using env_fresh fresh_inj.
  unfold Start.start_run. cbv zeta. destruct (Tables.get_version _ _ _) as [version|]; [|auto with keeps].
  destruct (match Tables.wv_published_at version with None => true | Some _ => false end); [auto with keeps|].
  apply keeps_get. intros st Hst.
  destruct (match sg_correlation_id args with Some _ => _ | None => _ end) as [run|].
  { destruct (_ && _); [by apply keeps_advance|by apply wp_ret]. }
  match goal with |- wp ?m _ _ _ => enough (keeps final m) as H by exact (H st Hst) end. clear st Hst.
  apply keeps_bind; [auto with keeps|intros [graph snapshot]]. apply keeps_bind.
  - apply keeps_bind; [by apply keeps_uuid4|intros run_id].
    apply keeps_bind; [apply keeps_modify; intros st; by apply (final_other st)|intros _].
    apply keeps_bind; [apply keeps_mfor; intros n _; apply keeps_add_node|intros _].
    apply keeps_bind; auto with keeps.
  - intros run_id. destruct (sg_advance args); [|auto with keeps].
    apply keeps_bind; [auto with keeps|intros run]. destruct (sg_simulate_approval args); auto with keeps.
Qed.
#[local] Hint Resolve keeps_start : keeps.

(** ** Operators *)

Lemma keeps_retryable tenant_id run_id : keeps final (Operator.retryable_run tenant_id run_id).
Proof. apply keeps_bind; [auto with keeps|intros run]. destruct (wr_status run); auto with keeps. Qed.

Lemma keeps_advance_if b tenant_id run_id : keeps final (Operator.advance_if env b tenant_id run_id).
Proof using env_fresh fresh_inj. destruct b; cbn; auto with keeps. Qed.
#[local] Hint Resolve keeps_retryable keeps_advance_if : keeps.

(** Only a failed row is made ready again. *)
Lemma keeps_reset_failed target : (nr_status target ≠ SUCCEEDED → nr_id target ≠ i) →
  keeps final (Operator.reset_failed_to_ready target).
Proof.
  intros Hne. unfold Operator.reset_failed_to_ready. case_bool_decide; [auto with keeps|].
  destruct (negb _); [auto with keeps|]. apply keeps_assign; [done|auto].
Qed.

Lemma final_reset_walk E nodes fuel queue seen st :
  final st → final (Operator.reset_walk E nodes fuel queue seen st).
Proof.
  revert queue seen st. induction fuel as [|fuel IH]; intros [|current queue] seen st Hst; try done. cbn.
  case_bool_decide; [by apply IH|]. apply IH. destruct (Operator.last_row current nodes) as [row|]; [|done].
  apply final_update; [|intros _|done].
  - intros r Hr. by rewrite (proj1 (Operator.reset_keeps r)).
  - intros r Hs. by rewrite Operator.reset_alt, bool_decide_eq_true_2 by apply Hs.
Qed.

Lemma first_row_elem node_id tenant_id run_id st r :
  Operator.first_row node_id (list_node_runs tenant_id run_id st) = Some r → r ∈ st_node_runs st.
Proof. by intros [[? _]%list_node_runs_elem _]%find_Some_elem. Qed.

Lemma keeps_retry_node tenant_id run_id node_id b :
  keeps final (Operator.retry_node env tenant_id run_id node_id b).
Proof using env_fresh fresh_inj.
  apply keeps_bind; [auto with keeps|intros _]. intros st Hst. apply wp_bind, wp_ret.
  destruct (Operator.first_row _ _) as [target|] eqn:E; [|by apply wp_raise]. apply first_row_elem in E.
  apply (wp_keep final); [apply keeps_reset_failed; by apply (final_elsewhere st)|done|intros _ st1 H1].
  apply (wp_keep final); [auto with keeps|done|intros _ st2 H2]. by apply keeps_advance_if.
Qed.

Lemma keeps_retry_from tenant_id run_id node_id b :
  keeps final (Operator.retry_from_node env tenant_id run_id node_id b).
Proof using env_fresh fresh_inj.
  apply keeps_bind; [auto with keeps|intros run]. apply keeps_bind; [auto with keeps|intros graph].
  intros st Hst. apply wp_bind, wp_ret.
  destruct (Operator.last_row _ _) as [target|] eqn:E; [|by apply wp_raise].
  apply Operator.last_row_Some in E as [[E _]%list_node_runs_elem _].
  case_bool_decide; [by apply wp_raise|]. destruct (negb _); [by apply wp_raise|].
  apply (wp_keep final); [apply keeps_reset_failed; by apply (final_elsewhere st)|done|intros _ st1 H1].
  apply (wp_keep final); [apply keeps_modify; intros s; apply final_reset_walk|done|intros _ st2 H2].
  apply (wp_keep final); [auto with keeps|done|intros _ st3 H3]. by apply keeps_advance_if.
Qed.

Lemma keeps_resume_node tenant_id run_id node_id outcome decision b :
  keeps final (Operator.resume_node env tenant_id run_id node_id outcome decision b).
Proof using env_fresh fresh_inj.
  apply keeps_bind; [auto with keeps|intros run]. case_bool_decide; [auto with keeps|].
  apply keeps_bind; [auto with keeps|intros nodes]. destruct (Operator.first_row _ _); [|auto with keeps].
  destruct (_ || _); auto with keeps.
Qed.

(** ** Cancellation, recovery and waking *)

Lemma final_flag now te st : final st → final (flag_task_execution now te st).
Proof. by destruct te; [apply (final_other st)|]. Qed.

Lemma final_celery t st : final st → final (request_celery_cancel t st).
Proof. unfold request_celery_cancel. destruct t; [|done]. destruct (_ || _); [done|]. by apply (final_other st). Qed.

Lemma final_cancel_node now node st : (nr_status node ≠ SUCCEEDED → nr_id node ≠ i) →
  final st → final (cancel_node now node st).
Proof.
  intros Hne Hst. unfold cancel_node. cbv zeta.
  assert (∀ s, final s → final (update_row (nr_id node) (λ r, r <| nr_cancellation_requested := true |>) s)) as Hreq.
  { intros s Hs. apply final_update; [done|intros _ r; apply succeeded_request|done]. }
  assert (nr_status node ≠ SUCCEEDED → ∀ s, final s →
    final (update_row (nr_id node) (mark_node_cancelled now cancel_reason) s)) as Hmark.
  { intros Hn s Hs. apply final_update; [|by intros ?%Hne|done]. intros r <-. apply mark_node_cancelled_id. }
  case_bool_decide as Hs; [done|]. case_bool_decide; [by apply Hreq|].
  destruct (immediate_cancel _); [by apply final_flag, Hmark|]. destruct (active _); [|done].
  by apply Hmark, final_celery, final_flag, Hreq.
Qed.

Lemma keeps_cancel now tenant_id run_id : keeps final (cancel_run now tenant_id run_id).
Proof.
  apply keeps_get. intros st Hst. destruct (get_run _ _ st) as [run|]; [|by apply wp_raise].
  assert (∀ n, n ∈ list_node_runs tenant_id run_id st → nr_status n ≠ SUCCEEDED → nr_id n ≠ i) as Hne.
  { intros n [Hn _]%list_node_runs_elem. by apply (final_elsewhere st). }
  revert Hne. generalize (list_node_runs tenant_id run_id st). intros nodes Hne.
  match goal with |- wp ?m _ _ _ => enough (keeps final m) as H by exact (H st Hst) end. clear st Hst.
  destruct (wr_status run); auto with keeps; cbv zeta.
  all: apply keeps_bind; [|intros _].
  1, 3, 5, 7: apply keeps_modify; revert Hne; induction nodes as [|n nodes IH]; intros Hne s Hs; [done|];
    cbn [foldl]; apply IH; [intros; apply Hne; [by right|done]|];
    apply final_cancel_node; [apply Hne; left|done].
  all: apply keeps_bind; [apply keeps_modify; intros s; by apply (final_other s)|intros _];
    apply keeps_bind; [apply keeps_modify; intros s; by apply (final_other s)|intros _];
    apply keeps_bind; auto with keeps.
Qed.

Lemma keeps_recover_one reg jitter node : nr_id node ≠ i →
  keeps final (Recovery.recover_one (cfg env) reg (now env) jitter node).
Proof.
  intros Hne. unfold Recovery.recover_one. cbv zeta.
  assert (∀ t r, row_is t (nr_id node) r = true → nr_id r ≠ i) as Hid.
  { intros t r [_ Hr%bool_decide_eq_true]%andb_true_iff. congruence. }
  destruct (Retry.should_retry _ _ _).
  - apply keeps_bind; [auto with keeps|intros t]. apply keeps_get. intros st Hst.
    pose proof (final_sql (λ r, row_is (nr_tenant_id node) (nr_id node) r && token_is (nr_claim_token node) r)
      (λ r, clear_claim_values r <| nr_status := READY |> <| nr_next_attempt_at := Some t |>) st) as H.
    unfold release_node_claim. destruct (sql_update _ _ _) as [released l]. cbn [snd] in H.
    assert (final (st <| st_node_runs := l |>)) as H1.
    { apply H; [done| |done]. intros r _ [Hr _]%andb_true_iff _ Hi. by apply Hid in Hr. }
    destruct released; apply wp_bind, wp_ret; cbn; [|done].
    apply (final_map (λ r, if bool_decide (nr_id r = nr_id node) then Recovery.note_requeued (nr_attempt node) r
      else r) (st <| st_node_runs := l |>)); [done|done|..|done]; intros r _; [by case_bool_decide|].
    intros Hs Hi. rewrite bool_decide_eq_false_2; [done|congruence].
  - apply keeps_get. intros st Hst.
    pose proof (keeps_fail_node (now env) (nr_tenant_id node) (nr_id node)
      (Recovery.exhausted_error (nr_attempt node) (rp_max_attempts (Recovery.row_policy reg node)))
      (nr_claim_token node) (Some "transient") (Some Recovery.expired_message) Hne st Hst) as H.
    unfold wp, on_rows in H. destruct (fail_node _ _ _ _ _ _ _ _) as [failed l].
    apply wp_bind, wp_ret. by destruct failed; apply wp_ret.
Qed.

Lemma keeps_recover reg jitter locked batch enqueue :
  keeps final (Recovery.recover_stale_workflow_node_runs (cfg env) reg (now env) jitter locked batch enqueue).
Proof.
  apply keeps_get. intros st Hst. cbv zeta. set (stale := list_stale_claimed_nodes _ _ _ _ _).
  assert (∀ n, n ∈ stale → nr_id n ≠ i) as Hne.
  { intros n Hn. pose proof Hst as [Hnd _].
    destruct (Recovery.list_stale_spec (cfg env) (now env) locked batch (st_node_runs st) Hnd) as [_ Hin].
    destruct (Hin n Hn) as (Hn' & Hs & _). apply (final_elsewhere st); [done..|]. intros E. unfold Claiming.stale, claim_active, is_status in Hs. by rewrite E in Hs. }
  apply (wp_keep final); [|done|].
  - generalize (∅ : gset (string * string)). clear Hst. clearbody stale. induction stale as [|n l IH]; intros targets.
    { apply keeps_ret. }
    cbn [Recovery.recover_loop]. apply keeps_bind; [apply keeps_recover_one, Hne; left|intros ra].
    apply keeps_bind; [apply IH; intros ??; apply Hne; by right|auto with keeps].
  - intros rt st1 H1. apply (wp_keep final); [|done|intros ? st2 H2; by apply wp_ret].
    destruct (_ && _); [|auto with keeps]. apply keeps_modify. intros s. by apply (final_other s).
Qed.

Lemma keeps_wake uuid_of_text resume locked batch enqueue :
  (∀ t token o d, keeps final (resume t token o d)) →
  keeps final (Waits.wake_due_workflow_waits (now env) uuid_of_text resume locked batch enqueue).
Proof.
  intros Hr. apply keeps_bind; [apply keeps_waits|intros claimed]. apply keeps_bind; [|auto with keeps].
  apply keeps_mfor. intros w _. unfold Waits.wake_one. cbv zeta. apply keeps_bind.
  - apply keeps_modify. intros s Hs. destruct (String.eqb _ _); [|done].
    unfold Waits.expire_bound_approval_request. repeat case_match; try done.
  - intros _. destruct enqueue; [|apply keeps_bind; auto with keeps].
    apply keeps_modify. intros s. by apply (final_other s).
Qed.

(** ** The scheduler *)

Definition world_final (w : Scheduler.World) : Prop := final (Scheduler.w_store w).

Lemma keeps_on_automation j f : keeps world_final (Scheduler.on_automation j f).
Proof. by apply keeps_modify. Qed.

Lemma keeps_on_occurrence j f : keeps world_final (Scheduler.on_occurrence j f).
Proof. apply keeps_modify. intros w. by apply final_other. Qed.
#[local] Hint Resolve keeps_on_automation keeps_on_occurrence : keeps.

Lemma keeps_claim_occurrence uuid tenant_id j at_ key :
  keeps world_final (Scheduler.claim_occurrence uuid tenant_id j at_ key).
Proof.
  apply keeps_get. intros w Hw. destruct (Scheduler.get_occurrence _ _ _); [by apply wp_ret|].
  apply wp_bind. cbn. apply (final_other (Scheduler.w_store w)); [done|simpl; lia|done].
Qed.

Lemma keeps_fire_one coerce croniter zone uuid a as_of enqueue :
  keeps world_final (Scheduler.fire_one (H:=engine_starter env) coerce croniter zone uuid a as_of enqueue).
Proof using env_fresh fresh_inj.
  unfold Scheduler.fire_one. cbv zeta. apply keeps_bind; [apply keeps_claim_occurrence|intros occ].
  destruct (Scheduler.compute_next _ _ _ _ _) as [next|e].
  - apply keeps_bind; [auto with keeps|intros _]. destruct occ as [o|]; [|auto with keeps].
    apply keeps_get. intros w Hw. apply (wp_keep world_final); [|done|].
    + intros w1 H1. pose proof (keeps_start (scheduled_args (Scheduler.start_request a
        (default as_of (Tables.au_next_run_at a)) (Scheduler.occurrence_key (default as_of (Tables.au_next_run_at a)))
        (Scheduler.w_targets w))) _ H1) as Hs. unfold wp, Scheduler.try_call, Scheduler.on_store in *. cbn.
      destruct (start_run env _ _) as [[run|e] st]; exact Hs.
    + intros [run|e] w1 H1.
      * apply (wp_keep world_final); [auto with keeps|done|intros _ w2 H2].
        apply (wp_keep world_final); [auto with keeps|done|intros _ w3 H3].
        apply (wp_keep world_final); [|done|intros _ w4 H4; by apply wp_ret].
        destruct enqueue; [|auto with keeps]. apply keeps_modify. intros s. by apply final_other.
      * apply (wp_keep world_final); [auto with keeps|done|intros _ w2 H2].
        apply (wp_keep world_final); [auto with keeps|done|intros _ w3 H3; by apply wp_ret].
  - apply keeps_bind; [auto with keeps|intros _].
    apply keeps_bind; [destruct occ; auto with keeps|auto with keeps].
Qed.

Lemma keeps_tick coerce croniter zone uuid now locked limit enqueue :
  keeps world_final (Scheduler.tick (H:=engine_starter env) coerce croniter zone uuid now locked limit enqueue).
Proof using env_fresh fresh_inj.
  apply keeps_get. intros w Hw. set (due := Scheduler.claim_due_automations _ _ _ _). clearbody due.
  enough (keeps world_final (Scheduler.fire_all (H:=engine_starter env) coerce croniter zone uuid due now enqueue))
    as H by by apply H.
  clear w Hw. induction due as [|a due IH]; [apply keeps_ret|]. cbn [Scheduler.fire_all].
  apply keeps_bind; [apply keeps_fire_one|intros r]. apply keeps_bind; auto with keeps.
Qed.
End engine.
End final.

(** ** Histories *)

(** Ids come from [fresh], and the other transactions that touch a run row do
    not rename the run. *)
Definition ok_env (fresh : nat → string) (env : EngineEnv) : Prop :=
  Execute.en_fresh (ee_exec env) = fresh ∧
  ∀ r, wr_id (ee_refresh env r) = wr_id r ∧ wr_tenant_id (ee_refresh env r) = wr_tenant_id r ∧
       wr_correlation_id (ee_refresh env r) = wr_correlation_id r.

(** One operation, however it ended. *)
Inductive engine_step (fresh : nat → string) (st : Store) : Store → Prop :=
  | step_start env args : ok_env fresh env →
      engine_step fresh st (start_run env args st).2
  | step_advance env t r : ok_env fresh env →
      engine_step fresh st (advance env t r st).2
  | step_execute env jitter t r n token worker te : ok_env fresh env →
      engine_step fresh st (execute_claimed_node_run env jitter t r n token worker te st).2
  | step_resume env t token outcome decision b : ok_env fresh env →
      engine_step fresh st (Resume.resume_waiting_node env t token outcome decision b st).2
  | step_simulate env t r hops : ok_env fresh env →
      engine_step fresh st (Resume.auto_simulate_approvals env t r hops st).2
  | step_retry_node env t r n b : ok_env fresh env →
      engine_step fresh st (Operator.retry_node env t r n b st).2
  | step_retry_from env t r n b : ok_env fresh env →
      engine_step fresh st (Operator.retry_from_node env t r n b st).2
  | step_resume_node env t r n outcome decision b : ok_env fresh env →
      engine_step fresh st (Operator.resume_node env t r n outcome decision b st).2
  | step_cancel now t r : engine_step fresh st (cancel_run now t r st).2
  | step_recover env reg jitter locked batch enqueue :
      engine_step fresh st
        (Recovery.recover_stale_workflow_node_runs (cfg env) reg (now env) jitter locked batch enqueue st).2
  | step_wake env uuid_of_text locked batch enqueue : ok_env fresh env →
      engine_step fresh st (Waits.wake_due_workflow_waits (now env) uuid_of_text
        (λ t token o d, Resume.resume_waiting_node env t (Some token) o d true) locked batch enqueue st).2
  | step_tick env coerce croniter zone as_of locked limit enqueue w :
      ok_env fresh env → Scheduler.w_store w = st →
      engine_step fresh st (Scheduler.w_store
        (Scheduler.tick (H:=engine_starter env) coerce croniter zone fresh as_of locked limit enqueue w).2).

Lemma step_final fresh i c st st' :
  Inj (=) (=) fresh → engine_step fresh st st' → final fresh i c st → final fresh i c st'.
Proof.
  intros Hinj Hs Hst. destruct Hs; try match goal with H : ok_env _ _ |- _ => destruct H as [? _] end.
  all: match goal with |- final _ _ _ (Scheduler.w_store _) => idtac | _ => apply keeps_snd; [|done] end.
  - by apply keeps_start.
  - by apply keeps_advance.
  - by apply keeps_execute_claimed.
  - by apply keeps_resume.
  - by apply keeps_simulate.
  - by apply keeps_retry_node.
  - by apply keeps_retry_from.
  - by apply keeps_resume_node.
  - apply keeps_cancel.
  - apply keeps_recover.
  - apply keeps_wake. intros. by apply keeps_resume.
  - subst st. apply (keeps_snd (world_final fresh i c)); [by apply keeps_tick|done].
Qed.

Lemma steps_final fresh i c st st' :
  Inj (=) (=) fresh → rtc (engine_step fresh) st st' → final fresh i c st → final fresh i c st'.
Proof. intros Hinj. induction 1; eauto using step_final. Qed.

(** C1: a node run that succeeded is final.  Through every history of starts,
    advances, executions of claimed rows, resumptions, operator retries,
    cancellations, recoveries, wakes and scheduler ticks, at any times and
    whether the operations return or raise, the row stays SUCCEEDED with the
    same attempt count, inputs, output, times and every other column but its
    claim and its cancellation flag. *)
Theorem succeeded_is_final fresh st st' i r :
  Inj (=) (=) fresh → NoDup (nr_id <$> st_node_runs st) →
  (∀ n, (st_uuids st ≤ n)%nat → fresh n ∉ nr_id <$> st_node_runs st) →
  node_row i (st_node_runs st) = Some r → nr_status r = SUCCEEDED →
  rtc (engine_step fresh) st st' →
  ∃ r', node_row i (st_node_runs st') = Some r' ∧ nr_status r' = SUCCEEDED ∧ core r' = core r.
Proof.
  intros Hinj Hnd Hfresh Hr Hs Hsteps.
  assert (final fresh i (core r) st) as Hst by (split_and!; [done|by exists r|done]).
  destruct (steps_final fresh i (core r) st st') as (_ & (r' & Hr' & Hok & Hc) & _); [done..|by exists r'].
Qed.

Lemma ex_ok_env : ok_env Execute.unary_id ex_env.
Proof. by split. Qed.

(** The first node of the run succeeded, the second one failed. *)
Definition ex_half : Store :=
  ex_started <| st_runs ::= fmap (λ r, r <| wr_status := RUN_FAILED |>) |>
    <| st_node_runs ::= set_node "ii" (λ r, r <| nr_status := SUCCEEDED |> <| nr_output_json := [("ok", JBool true)] |>) |>
    <| st_node_runs ::= set_node "iii" (λ r, r <| nr_status := FAILED |>) |>.

(** The failed node is retried, then the run is cancelled. *)
Definition ex_history : Store :=
  (cancel_run 7 "T" "i" (Operator.retry_from_node ex_env "T" "i" "A" true ex_half).2).2.

Lemma succeeded_is_final_witness :
  (nr_status <$> st_node_runs ex_history) = [SUCCEEDED; CANCELLED] ∧
  ∃ r r', node_row "ii" (st_node_runs ex_half) = Some r ∧
    node_row "ii" (st_node_runs ex_history) = Some r' ∧ nr_status r' = SUCCEEDED ∧ core r' = core r.
Proof.
  split; [vm_compute; reflexivity|].
  destruct (node_row "ii" (st_node_runs ex_half)) as [r|] eqn:Hr; [|vm_compute in Hr; discriminate].
  assert (nr_id <$> st_node_runs ex_half = [Execute.unary_id 1; Execute.unary_id 2]) as Hids by reflexivity.
  destruct (succeeded_is_final Execute.unary_id ex_half ex_history "ii" r) as (r' & H1 & H2 & H3).
  - apply Execute.unary_id_inj.
  - apply (bool_decide_unpack _). vm_compute. exact I.
  - intros n Hn. rewrite Hids. change (st_uuids ex_half) with 3%nat in Hn.
    intros [E%Execute.unary_id_inj|[E%Execute.unary_id_inj|[]%not_elem_of_nil]%elem_of_cons]%elem_of_cons; lia.
  - exact Hr.
  - vm_compute in Hr. injection Hr as <-. reflexivity.
  - unfold ex_history. apply (rtc_l _ _ (Operator.retry_from_node ex_env "T" "i" "A" true ex_half).2).
    + exact (step_retry_from _ _ ex_env "T" "i" "A" true ex_ok_env).
    + apply rtc_once. exact (step_cancel _ _ 7 "T" "i").
  - exists r, r'. exact (conj eq_refl (conj H1 (conj H2 H3))).
Defined.
End Final.
