(* ===== verification/Correlation.v ===== *)
(** * Correlation ids are idempotency keys

    Starting a run under a correlation id that a run of the tenant already
    carries hands out that run.  This file proves what follows for whole
    histories of the engine: no operation renames or loses a run, and two runs
    of a tenant never share a correlation id, whatever happened in between.
    The scheduler and the webhooks rely on it to start one run per slot and per
    event. *)
From S2P Require Import Prelude PyStr Json Graph Nodes Tables RunModels NodeIndex Ready Unlock Retry Claiming.
From S2P Require Import Recovery Cancellation Scheduler Fanout Waits Execute Engine Resume Start Operator Final Search.

Module Correlation.
Import Graph Nodes Models Claiming Cancellation Engine Start Final.
Local Open Scope string_scope.
Local Open Scope list_scope.
Local Open Scope Z_scope.

(** What identifies a run. *)
Definition run_key (r : WorkflowRun) : string * string * option string :=
  (wr_id r, wr_tenant_id r, wr_correlation_id r).
Definition run_keys (st : Store) : list (string * string * option string) := run_key <$> st_runs st.

(** The (tenant, correlation id) of the runs that have one. *)
Definition correlated (k : string * string * option string) : option (string * string) :=
  match k.2 with Some c => if PyStr.truthy c then Some (k.1.2, c) else None | None => None end.

Section kept.
Context (fresh : nat → string) (U : nat) (K : list (string * string * option string)).

(** The runs of [K] come first, nobody shares a correlation id, ids are
    distinct and not to be drawn again, and at least [U] were drawn. *)
Definition kept (st : Store) : Prop :=
  NoDup (omap correlated (run_keys st)) ∧ K `prefix_of` run_keys st ∧ NoDup (wr_id <$> st_runs st) ∧
  (∀ n, (st_uuids st ≤ n)%nat → fresh n ∉ wr_id <$> st_runs st) ∧ (U ≤ st_uuids st)%nat.

Lemma run_ids_keys (l : list WorkflowRun) : wr_id <$> l = (λ k, k.1.1) <$> (run_key <$> l).
Proof. by rewrite <- list_fmap_compose. Qed.

Lemma kept_same st st' : run_keys st' = run_keys st → (st_uuids st ≤ st_uuids st')%nat → kept st → kept st'.
Proof.
  intros H Hle (H1 & H2 & H3 & H4 & H5). unfold kept. rewrite H, run_ids_keys. fold (run_keys st'). rewrite H.
  rewrite run_ids_keys in H3. split_and!; [done..| |lia]. intros n Hn. unfold run_keys. rewrite <- run_ids_keys.
  apply H4. lia.
Qed.

(** Everything but the run table is free to change. *)
Lemma kept_other st st' : st_runs st' = st_runs st → (st_uuids st ≤ st_uuids st')%nat → kept st → kept st'.
Proof. intros H. apply kept_same. unfold run_keys. by rewrite H. Qed.

Lemma run_keys_set_row i f l : (∀ r, run_key (f r) = run_key r) → run_key <$> set_row wr_id i f l = run_key <$> l.
Proof.
  intros Hf. unfold set_row. rewrite <- list_fmap_compose. apply list_fmap_ext. intros ? r _. simpl.
  by case_bool_decide.
Qed.

Ltac kept_done :=
  eapply kept_other; [| |eassumption]; cbn; repeat case_match; done || lia.
Ltac keep := solve_keeps ltac:(kept_done).

Lemma keeps_other {A} (m : M Store A) :
  (∀ st, st_runs (m st).2 = st_runs st ∧ (st_uuids st ≤ st_uuids (m st).2)%nat) → keeps kept m.
Proof. intros H. apply keeps_fun. intros st. apply kept_other; apply H. Qed.

(** ** The steps of the engine *)

Lemma keyed_assign_run i f : (∀ r, run_key (f r) = run_key r) → keeps kept (assign_run i f).
Proof. intros Hf. apply keeps_modify. intros st. apply kept_same; [by apply run_keys_set_row|done]. Qed.

Lemma finalized_key now run rows : run_key (Ready.finalize_run_status now run rows) = run_key run.
Proof. unfold Ready.finalize_run_status, run_key. repeat case_match; done. Qed.

Lemma keeps_on_rows {A} (f : list WorkflowNodeRun → A * list WorkflowNodeRun) : keeps kept (on_rows f).
Proof. apply keeps_other. intros st. unfold on_rows. by destruct (f _). Qed.
Lemma keeps_on_index {A} run (f : list WorkflowNodeRun → A * list WorkflowNodeRun) : keeps kept (Execute.on_index run f).
Proof. apply keeps_other. intros st. unfold Execute.on_index. by destruct (f _). Qed.
Lemma keeps_on_fan_out run f :
  (∀ u l, (u ≤ Fanout.fs_next (f u l))%nat) → keeps kept (Execute.on_fan_out run f).
Proof. intros H. apply keeps_other. intros st. split; [done|apply H]. Qed.
Lemma keyed_fail_row x node impl error cls : keeps kept (Execute.fail_row x node impl error cls).
Proof. apply keeps_other. intros st. unfold Execute.fail_row. by destruct (Retry.persist_failure _ _ _ _ _ _ _). Qed.
Lemma keeps_on_waits {A} (f : list WorkflowWait → A * list WorkflowWait) : keeps kept (Waits.on_waits f).
Proof. apply keeps_other. intros st. unfold Waits.on_waits. by destruct (f _). Qed.
Lemma keyed_finalize env t r : keeps kept (finalize env t r).
Proof.
  unfold finalize. apply keeps_bind; [unfold node_map; keep|]. intros rows. apply keyed_assign_run.
  intros. apply finalized_key.
Qed.
#[local] Hint Resolve keeps_on_rows keeps_on_index keyed_fail_row keeps_on_waits keyed_finalize : keeps.

Lemma keyed_assign node f : keeps kept (Execute.assign node f).
Proof. unfold Execute.assign. keep. Qed.
Lemma keyed_uuid4 x : keeps kept (Execute.uuid4 x).
Proof. unfold Execute.uuid4. keep. Qed.
Lemma keyed_clock x : keeps kept (Execute.clock x).
Proof. unfold Execute.clock. keep. Qed.
Lemma keeps_create_wait draw t r n token ty wake event action payload :
  keeps kept (Waits.create_wait draw t r n token ty wake event action payload).
Proof. unfold Waits.create_wait. keep. Qed.
#[local] Hint Resolve keyed_assign keyed_uuid4 keyed_clock keeps_create_wait : keeps.

Lemma keeps_persist_waiting now draw parse run node output reason :
  keeps kept (Waits.persist_waiting_node now draw parse run node output reason).
Proof.
  unfold Waits.persist_waiting_node, Waits.persist_delay, Waits.persist_event, Waits.persist_approval. keep.
Qed.
Lemma keyed_private_fail x node impl error cls : keeps kept (Execute.private_fail_row x node impl error cls).
Proof. unfold Execute.private_fail_row. keep. Qed.
Lemma keyed_propagate x run graph gn node s output : keeps kept (Execute.propagate x run graph gn node s output).
Proof.
  unfold Execute.propagate. keep; apply keeps_on_fan_out; intros u l.
  - apply (Fanout.steps_next_mono _ _ _ _ _ (Fanout.materialize_steps _ _ _ _ _ _ _ _ _)).
  - apply (Fanout.steps_next_mono _ _ _ _ _ (Fanout.ensure_steps _ _ _ _ _ _ _ _ _ _)).
Qed.
#[local] Hint Resolve keeps_persist_waiting keyed_private_fail keyed_propagate : keeps.

Lemma keyed_execute x run gn node graph outputs initial te :
  keeps kept (Execute.execute_ready_node x run gn node graph outputs initial te).
Proof.
  unfold Execute.execute_ready_node, Execute.run_implementation, Execute.execute_error, Execute.validated_output,
    Execute.record_result. keep.
Qed.
Lemma keyed_sync i : keeps kept (sync_occurrence i).
Proof. unfold sync_occurrence, sync_occurrence_for_run. keep. Qed.
Lemma keeps_require t r : keeps kept (require_run t r).
Proof. unfold require_run. keep. Qed.
Lemma keeps_graph env t v : keeps kept (load_graph env t v).
Proof. unfold load_graph. keep. Qed.
Lemma keeps_abort now t node token reason : keeps kept (modify (abort_node_for_cancellation now t node token reason)).
Proof.
  apply keeps_other. intros st. unfold abort_node_for_cancellation, flag_task_execution. cbn.
  by destruct (nr_task_execution_id node).
Qed.
#[local] Hint Resolve keyed_execute keyed_sync keeps_require keeps_graph keeps_abort : keeps.
#[local] Hint Extern 1 (keeps kept (assign_run _ _)) => apply keyed_assign_run; solve [done|auto with keeps] : keeps.

Section engine.
Context (env : EngineEnv) (refresh_key : ∀ r, run_key (ee_refresh env r) = run_key r).
#[local] Hint Resolve refresh_key : keeps.

Lemma keyed_skip_terminal t n token run : keeps kept (skip_terminal env t n token run).
Proof. unfold skip_terminal. keep. Qed.
Lemma keyed_run_claimed t r n token worker te : keeps kept (run_claimed env t r n token worker te).
Proof. unfold run_claimed, execute_begun, node_map. pose proof keyed_skip_terminal. keep. Qed.
#[local] Hint Resolve keyed_run_claimed : keeps.

Lemma keyed_claim_batch t r claimable : keeps kept (claim_batch env t r claimable).
Proof. induction claimable; cbn [claim_batch]; unfold claim_one, claim, enqueue_claimed_node; keep. Qed.
Lemma keyed_find_claimable t r graph rows : keeps kept (find_claimable t r graph rows).
Proof. unfold find_claimable, promote_one, node_map. keep. Qed.
#[local] Hint Resolve keyed_claim_batch keyed_find_claimable : keeps.

Lemma keyed_advance_loop n t r graph : keeps kept (advance_loop env n t r graph).
Proof. induction n; cbn [advance_loop]; unfold drain_inline_claimed_nodes, drain_one, node_map; keep. Qed.
#[local] Hint Resolve keyed_advance_loop : keeps.

Lemma keyed_advance t r : keeps kept (advance env t r).
Proof. unfold advance. keep. Qed.
#[local] Hint Resolve keyed_advance : keeps.


Lemma keyed_execute_claimed jitter t r n token worker te :
  keeps kept (execute_claimed_node_run env jitter t r n token worker te).
Proof. unfold execute_claimed_node_run, followups, Retry.schedule_run_advance. keep. Qed.

Lemma keyed_resume t token outcome decision b :
  keeps kept (Resume.resume_waiting_node env t token outcome decision b).
Proof.
  unfold Resume.resume_waiting_node, Resume.end_wait, Waits.mark_wait_resolved_by_resume_token. keep.
Qed.
#[local] Hint Resolve keyed_execute_claimed keyed_resume : keeps.

Lemma keyed_simulate t r hops : keeps kept (Resume.auto_simulate_approvals env t r hops).
Proof.
  assert (∀ run, keeps kept (Resume.simulate_loop env hops t run)) as H;
    [|unfold Resume.auto_simulate_approvals; keep].
  induction hops; intros run; cbn [Resume.simulate_loop]; unfold node_map; keep.
Qed.
#[local] Hint Resolve keyed_simulate : keeps.

(** ** Operators, cancellation, recovery and waking *)

Lemma keeps_reset_walk E nodes fuel queue seen : keeps kept (modify (Operator.reset_walk E nodes fuel queue seen)).
Proof.
  apply keeps_other. intros st. cbn [modify snd].
  enough (∀ st, st_runs (Operator.reset_walk E nodes fuel queue seen st) = st_runs st ∧
                st_uuids (Operator.reset_walk E nodes fuel queue seen st) = st_uuids st) as H
    by (destruct (H st) as [-> ->]; split; lia || done).
  clear st. revert queue seen. induction fuel as [|fuel IH]; intros [|c q] seen st; try done. cbn.
  case_bool_decide; [apply IH|]. destruct (IH (q ++ Search.succs E c) ({[c]} ∪ seen)
    (match Operator.last_row c nodes with
     | Some row => update_row (nr_id row) Operator.reset_descendant_to_pending st | None => st end)) as [H1 H2].
  destruct (Operator.last_row c nodes); by rewrite H1, H2.
Qed.
#[local] Hint Resolve keeps_reset_walk : keeps.

Lemma keyed_retry_node t r n b : keeps kept (Operator.retry_node env t r n b).
Proof.
  unfold Operator.retry_node, Operator.retryable_run, Operator.reset_failed_to_ready, Operator.advance_if, node_map. keep.
Qed.
Lemma keyed_retry_from t r n b : keeps kept (Operator.retry_from_node env t r n b).
Proof.
  unfold Operator.retry_from_node, Operator.retryable_run, Operator.reset_failed_to_ready, Operator.advance_if,
    Operator.reset_descendants, node_map. keep.
Qed.
Lemma keyed_resume_node t r n outcome decision b : keeps kept (Operator.resume_node env t r n outcome decision b).
Proof. unfold Operator.resume_node, Operator.retryable_run, node_map. keep. Qed.

Lemma cancelled_nodes now nodes st :
  st_runs (foldl (λ st n, cancel_node now n st) st nodes) = st_runs st ∧
  st_uuids (foldl (λ st n, cancel_node now n st) st nodes) = st_uuids st.
Proof.
  revert st. induction nodes as [|n l IH]; intros st; [done|]. cbn [foldl].
  destruct (IH (cancel_node now n st)) as [-> ->].
  unfold cancel_node, request_celery_cancel, flag_task_execution, update_row. repeat case_match; done.
Qed.

Lemma keyed_cancel now t r : keeps kept (cancel_run now t r).
Proof.
  apply keeps_get. intros st Hst. destruct (get_run t r st) as [run|] eqn:Hrun; [|by apply wp_raise].
  apply find_Some_elem in Hrun as [Hin _].
  assert (∀ run', run_key run' = run_key run →
    wp (_ ← modify (λ st', foldl (λ st n, cancel_node now n st) st' (list_node_runs t r st));
        _ ← modify (λ st, st <| st_waits ::= fmap (cancel_wait now t r) |>);
        _ ← modify (set_run run'); _ ← sync_occurrence_for_run run'; mret run') (λ _, kept) (λ _, kept) st) as H;
    [|destruct (wr_status run); first [by apply wp_raise|by apply wp_ret|cbv zeta; by apply H]].
  intros run' Hkey. apply wp_bind, wp_modify, wp_bind, wp_modify, wp_bind, wp_modify.
  apply (wp_keep kept); [unfold sync_occurrence_for_run; keep| |intros; by apply wp_ret].
  destruct (cancelled_nodes now (list_node_runs t r st) st) as [Hr Hu].
  apply (kept_same st); [|cbn; by rewrite Hu|done]. unfold run_keys, set_run. cbn -[set_row]. rewrite Hr.
  unfold set_row. rewrite <- list_fmap_compose. apply list_fmap_ext. intros ? x Hx%list_elem_of_lookup_2. simpl.
  case_bool_decide as Hid; [|done]. rewrite Hkey.
  destruct Hst as (_ & _ & Hnd & _). f_equal.
  eapply (NoDup_fmap_inj_in wr_id); [done|done..|]. rewrite Hid. injection Hkey; congruence.
Qed.


Lemma keyed_recover reg jitter locked batch enqueue :
  keeps kept (Recovery.recover_stale_workflow_node_runs (cfg env) reg (now env) jitter locked batch enqueue).
Proof.
  unfold Recovery.recover_stale_workflow_node_runs.
  assert (∀ nodes targets, keeps kept (Recovery.recover_loop (cfg env) reg (now env) jitter nodes targets)) as H;
    [|keep].
  induction nodes as [|n l IH]; intros targets; cbn [Recovery.recover_loop]; [keep|].
  apply keeps_bind; [|intros ?; keep]. unfold Recovery.recover_one. cbv zeta.
  destruct (Retry.should_retry _ _ _); [apply keeps_bind; [apply keeps_lift|intros t]|];
    apply keeps_get; intros st Hst.
  - destruct (release_node_claim _ _ _ _ _ _) as [[released|] rows];
      apply wp_bind; by apply (kept_other st).
  - destruct (fail_node _ _ _ _ _ _ _ _) as [[failed|] rows]; apply wp_bind; by apply (kept_other st).
Qed.

Lemma keeps_expire uuid_of_text payload st : kept st → kept (Waits.expire_bound_approval_request uuid_of_text payload st).
Proof. unfold Waits.expire_bound_approval_request. repeat case_match; try done. Qed.

Lemma keyed_wake uuid_of_text resume locked batch enqueue :
  (∀ t token o d, keeps kept (resume t token o d)) →
  keeps kept (Waits.wake_due_workflow_waits (now env) uuid_of_text resume locked batch enqueue).
Proof.
  intros Hr. unfold Waits.wake_due_workflow_waits, Waits.wake_one.
  solve_keeps ltac:(first [kept_done|case_match; [by apply keeps_expire|done]]).
Qed.

(** ** Starting *)

Lemma not_correlated st t c :
  get_run_by_correlation t c st = None → (t, c) ∉ omap correlated (run_keys st).
Proof.
  intros H%find_None_Forall Hin. apply list_elem_of_omap in Hin as (k & Hk & Hc).
  apply list_elem_of_fmap in Hk as (r & -> & Hr). rewrite Forall_forall in H.
  specialize (H r ltac:(by apply elem_of_reverse)). unfold correlated, run_key in Hc. cbn in Hc.
  destruct (wr_correlation_id r) as [c'|]; [|done]. destruct (PyStr.truthy c'); [|done]. injection Hc as <- <-.
  by rewrite !bool_decide_eq_true_2 in H.
Qed.

Context (env_fresh : Execute.en_fresh (ee_exec env) = fresh) (fresh_inj : Inj (=) (=) fresh).

(** A run that shares its correlation id with nobody is added. *)
Lemma kept_append run st :
  wr_id run = fresh (st_uuids st) → (∀ p, correlated (run_key run) = Some p → p ∉ omap correlated (run_keys st)) →
  kept st → kept (st <| st_uuids ::= S |> <| st_runs ::= λ l, l ++ [run] |>).
Proof.
  intros Hid Hc (H1 & H2 & H3 & H4 & H5). unfold kept, run_keys. cbn. rewrite !fmap_app. cbn. split_and!.
  - rewrite omap_app. cbn. destruct (correlated (run_key run)) as [p|] eqn:E; [|by rewrite app_nil_r].
    apply NoDup_app. split_and!; [done| |apply NoDup_singleton].
    intros x Hx ->%list_elem_of_singleton. by apply (Hc p).
  - by apply prefix_app_r.
  - apply NoDup_app. split_and!; [done| |apply NoDup_singleton].
    intros x Hx ->%list_elem_of_singleton. rewrite Hid in Hx. by apply (H4 (st_uuids st)).
  - intros n Hn. rewrite not_elem_of_app. split; [apply H4; lia|]. rewrite list_elem_of_singleton, Hid.
    intros E%(inj fresh). lia.
  - lia.
Qed.

(** The run a start under a free correlation id adds. *)
Lemma kept_new_run args version snapshot st :
  match sg_correlation_id args with
  | Some c => if PyStr.truthy c then get_run_by_correlation (sg_tenant_id args) c st else None
  | None => None end = None →
  kept st →
  kept (st <| st_uuids ::= S |>
           <| st_runs ::= λ l, l ++ [new_run env (fresh (st_uuids st)) args version snapshot] |>).
Proof.
  intros Hex Hst. apply kept_append; [done| |done]. intros p. unfold correlated, run_key. cbn.
  destruct (sg_correlation_id args) as [c|]; [|done]. destruct (PyStr.truthy c); [|done].
  intros [= <-]. by apply not_correlated.
Qed.

Lemma keyed_start args : keeps kept (start_run env args).
Proof.
  unfold start_run. cbv zeta. destruct (Tables.get_version _ _ _) as [version|]; [|apply keeps_raise].
  destruct (match Tables.wv_published_at version with None => true | Some _ => false end); [apply keeps_raise|].
  apply keeps_get. intros st Hst.
  destruct (match sg_correlation_id args with Some _ => _ | None => _ end) as [run|] eqn:Hex.
  { destruct (_ && _); [by apply keyed_advance|by apply wp_ret]. }
  apply wp_bind, wp_lift. destruct (prepare_run env args) as [[graph snapshot]|]; [|done].
  unfold create_run. apply wp_bind, wp_bind. unfold Execute.uuid4. apply wp_bind, wp_get, wp_bind, wp_modify, wp_ret.
  apply wp_bind, wp_modify. rewrite env_fresh.
  pose proof (kept_new_run args version snapshot st Hex Hst) as H1.
  apply (wp_mono _ (λ _, kept) _ (λ _, kept)); [| |done].
  { match goal with |- wp ?m _ _ _ => enough (keeps kept m) as H by exact (H _ H1) end. unfold add_node. keep. }
  intros run_id st2 H2.
  match goal with |- wp ?m _ _ _ => enough (keeps kept m) as H' by by apply H' end.
  pose proof keyed_simulate. keep.
Qed.

(** ** The scheduler *)

Definition world_kept (w : Scheduler.World) : Prop := kept (Scheduler.w_store w).

Lemma keeps_on_store {A} (m : M Store A) : keeps kept m → keeps world_kept (Scheduler.try_call (Scheduler.on_store m)).
Proof.
  intros H. apply keeps_fun. intros w Hw. specialize (H _ Hw). unfold wp, Scheduler.try_call, Scheduler.on_store in *.
  by destruct (m _) as [[] st].
Qed.

Ltac keep_world := solve_keeps ltac:(unfold world_kept in *; first [assumption|kept_done]).

Lemma keyed_claim_occurrence uuid t a s key : keeps world_kept (Scheduler.claim_occurrence uuid t a s key).
Proof.
  apply keeps_get. intros w Hw. destruct (Scheduler.get_occurrence _ _ _); [by apply wp_ret|].
  apply wp_bind. by apply (kept_other (Scheduler.w_store w)); [|cbn; lia|].
Qed.
#[local] Hint Resolve keyed_start keeps_on_store keyed_claim_occurrence : keeps.

Lemma keyed_tick coerce croniter zone uuid now locked limit enqueue :
  keeps world_kept (Scheduler.tick (H:=engine_starter env) coerce croniter zone uuid now locked limit enqueue).
Proof.
  unfold Scheduler.tick. apply keeps_bind; [apply keeps_get_state|intros w].
  generalize (Scheduler.claim_due_automations now locked limit (Scheduler.w_automations w)). intros due.
  induction due as [|a due IH]; cbn [Scheduler.fire_all]; [apply keeps_ret|].
  apply keeps_bind; [|intros ?; keep_world].
  unfold Scheduler.fire_one, Scheduler.on_automation, Scheduler.on_occurrence.
  keep_world.
  all: apply keeps_on_store, keyed_start.
Qed.
End engine.
End kept.

(** ** Histories *)

Lemma step_kept fresh U K st st' :
  Inj (=) (=) fresh → engine_step fresh st st' → kept fresh U K st → kept fresh U K st'.
Proof.
  intros Hinj Hs Hst. destruct Hs; try match goal with H : ok_env _ _ |- _ => destruct H as [Hf Hr] end;
    try (assert (∀ r, run_key (ee_refresh env r) = run_key r) as Hk
           by (intros x; destruct (Hr x) as (E1 & E2 & E3); unfold run_key; by rewrite E1, E2, E3)).
  all: match goal with |- kept _ _ _ (Scheduler.w_store _) => idtac | _ => apply keeps_snd; [|done] end.
  - by apply keyed_start.
  - by apply keyed_advance.
  - by apply keyed_execute_claimed.
  - by apply keyed_resume.
  - by apply keyed_simulate.
  - by apply keyed_retry_node.
  - by apply keyed_retry_from.
  - by apply keyed_resume_node.
  - apply keyed_cancel.
  - apply keyed_recover.
  - apply keyed_wake. intros. by apply keyed_resume.
  - subst st. apply (keeps_snd (world_kept fresh U K)); [by apply keyed_tick|done].
Qed.

Lemma steps_kept fresh U K st st' :
  Inj (=) (=) fresh → rtc (engine_step fresh) st st' → kept fresh U K st → kept fresh U K st'.
Proof. intros Hinj. induction 1; eauto using step_kept. Qed.

(** Two runs of a tenant with one correlation id are the same run. *)
Lemma correlated_unique st r r' c :
  NoDup (omap correlated (run_keys st)) → r ∈ st_runs st → r' ∈ st_runs st →
  wr_tenant_id r = wr_tenant_id r' → wr_correlation_id r = Some c → wr_correlation_id r' = Some c →
  PyStr.truthy c = true → wr_id r = wr_id r'.
Proof.
  intros H1 Hr Hr' Ht Hc Hc' Hne.
  assert (∀ x, wr_tenant_id x = wr_tenant_id r → wr_correlation_id x = Some c →
            correlated (run_key x) = Some (wr_tenant_id r, c)) as Hk.
  { intros x Hxt Hxc. unfold correlated, run_key. cbn. by rewrite Hxc, Hne, Hxt. }
  unfold run_keys in H1.
  induction (st_runs st) as [|x l IH]; [by apply not_elem_of_nil in Hr|].
  rewrite fmap_cons in H1. cbn in H1.
  assert (∀ y, y ∈ l → wr_tenant_id y = wr_tenant_id r → wr_correlation_id y = Some c →
            (wr_tenant_id r, c) ∈ omap correlated (run_key <$> l)) as Hin.
  { intros y Hy Hyt Hyc. apply list_elem_of_omap. exists (run_key y). split; [by apply list_elem_of_fmap_2|by apply Hk]. }
  apply elem_of_cons in Hr as [->|Hr], Hr' as [->|Hr']; [done| | |].
  - rewrite (Hk x) in H1 by done. apply NoDup_cons in H1 as [H1 _]. destruct H1. by apply (Hin r').
  - rewrite (Hk x) in H1 by done. apply NoDup_cons in H1 as [H1 _]. destruct H1. by apply (Hin r).
  - apply IH; [|done..]. destruct (correlated (run_key x)); [by apply NoDup_cons in H1 as [_ ?]|done].
Qed.

(** C3: a correlation id starts one run.  Through every history of engine
    operations, returning or raising, in which ids are drawn once: the runs
    that exist keep their id, tenant and correlation id, and a run with the
    tenant and (non-empty) correlation id of another one is that run, however
    much later it is looked at and however often a start with that correlation
    id was repeated. *)
Theorem correlation_is_idempotent fresh st st' :
  Inj (=) (=) fresh → NoDup (wr_id <$> st_runs st) →
  (∀ n, (st_uuids st ≤ n)%nat → fresh n ∉ wr_id <$> st_runs st) →
  NoDup (omap correlated (run_keys st)) →
  rtc (engine_step fresh) st st' →
  run_keys st `prefix_of` run_keys st' ∧ NoDup (wr_id <$> st_runs st') ∧
  ∀ r r' c, r ∈ st_runs st' → r' ∈ st_runs st' → wr_tenant_id r = wr_tenant_id r' →
    wr_correlation_id r = Some c → wr_correlation_id r' = Some c → PyStr.truthy c = true → wr_id r = wr_id r'.
Proof.
  intros Hinj Hids Hfresh Hcorr Hsteps.
  assert (kept fresh 0 (run_keys st) st) as Hst by (split_and!; [done..|lia]).
  destruct (steps_kept fresh 0 (run_keys st) st st' Hinj Hsteps Hst) as (H1 & H2 & H3 & _).
  split_and!; [done..|]. intros r r' c Hr Hr' Ht Hc Hc' Hne. by apply (correlated_unique st' r r' c).
Qed.

(** ** What a start hands out *)

Section returns.
Context (fresh : nat → string) (U : nat) (fresh_inj : Inj (=) (=) fresh) (env : EngineEnv) (env_ok : ok_env fresh env).

(** The run the caller gets is the row of the table. *)
Definition is_run (t i : string) (run : WorkflowRun) (st : Store) : Prop :=
  run ∈ st_runs st ∧ wr_id run = i ∧ wr_tenant_id run = t.

Lemma wp_require t i K st : kept fresh U K st →
  wp (require_run t i) (λ run st', kept fresh U K st' ∧ is_run t i run st') (λ _, kept fresh U K) st.
Proof.
  intros Hst. apply wp_bind, wp_get. destruct (get_run t i st) as [run|] eqn:E; [|by apply wp_raise].
  apply wp_ret. split; [done|]. apply find_Some_elem in E as [Hin E].
  by apply andb_true_iff in E as [?%bool_decide_eq_true ?%bool_decide_eq_true].
Qed.

Lemma refresh_key r : run_key (ee_refresh env r) = run_key r.
Proof. destruct env_ok as [_ H]. destruct (H r) as (E1 & E2 & E3). unfold run_key. by rewrite E1, E2, E3. Qed.

Lemma wp_advance t i K st : kept fresh U K st →
  wp (advance env t i) (λ run st', kept fresh U K st' ∧ is_run t i run st') (λ _, kept fresh U K) st.
Proof.
  intros Hst. apply wp_bind. eapply wp_mono; [by apply wp_require| |done]. intros run st1 [H1 Hrun].
  destruct (run_terminal _); [by apply wp_ret|].
  apply (wp_keep (kept fresh U K)); [by apply keeps_graph|done|intros graph st2 H2].
  apply (wp_keep (kept fresh U K)); [apply keyed_advance_loop, refresh_key|done|intros b st3 H3].
  destruct b; [by apply wp_require|].
  apply (wp_keep (kept fresh U K)); [apply keyed_finalize|done|intros _ st4 H4].
  apply (wp_keep (kept fresh U K)); [apply keyed_sync|done|intros _ st5 H5]. by apply wp_require.
Qed.

Lemma key_of_id K st k r :
  kept fresh U K st → k ∈ K → r ∈ st_runs st → wr_id r = k.1.1 → run_key r = k.
Proof.
  intros (_ & [L HL] & Hnd & _ & _) Hk Hr Hid.
  assert (k ∈ run_keys st) as Hin by (rewrite HL; apply elem_of_app; by left).
  apply list_elem_of_fmap in Hin as (r' & -> & Hr').
  by rewrite (NoDup_fmap_inj_in wr_id (st_runs st) r r' Hnd Hr Hr' Hid).
Qed.

Lemma kept_create args version graph snapshot c K st :
  sg_correlation_id args = Some c → PyStr.truthy c = true →
  get_run_by_correlation (sg_tenant_id args) c st = None → kept fresh U K st →
  wp (create_run env args version graph snapshot)
    (λ i st', kept fresh U K st' ∧ (i, sg_tenant_id args, Some c) ∈ run_keys st') (λ _, kept fresh U K) st.
Proof.
  intros Hc Ht Hex Hst. destruct env_ok as [env_fresh _].
  unfold create_run. apply wp_bind. unfold Execute.uuid4. apply wp_bind, wp_get, wp_bind, wp_modify, wp_ret.
  apply wp_bind, wp_modify. rewrite env_fresh.
  pose proof (kept_new_run fresh U K env fresh_inj args version snapshot st) as H1. rewrite Hc, Ht in H1.
  specialize (H1 Hex Hst).
  match type of H1 with kept _ _ _ ?s => set (st1 := s) in * end.
  assert ((fresh (st_uuids st), sg_tenant_id args, Some c) ∈ run_keys st1) as Hk.
  { unfold run_keys, st1. cbn. rewrite fmap_app. apply elem_of_app. right. rewrite <- Hc. by left. }
  assert (kept fresh U (run_keys st1) st1) as H2 by (destruct H1 as (? & _ & ? & ? & ?); by split_and!).
  assert (∀ st', kept fresh U (run_keys st1) st' → kept fresh U K st') as Hweak.
  { intros st' (? & Hp & ? & ? & ?). split_and!; try done. etransitivity; [apply H1|exact Hp]. }
  revert H2 Hk. generalize (fresh (st_uuids st)). intros rid H2 Hk.
  apply (wp_mono _ (λ i st', i = rid ∧ kept fresh U (run_keys st1) st') _ (λ _, kept fresh U (run_keys st1))).
  - apply (wp_keep (kept fresh U (run_keys st1))); [|done|intros _ st2 H3].
    { apply keeps_mfor. intros n _. apply keeps_bind; [by apply keyed_uuid4|intros i].
      apply keeps_modify. intros w. by apply kept_other. }
    apply (wp_keep (kept fresh U (run_keys st1))); [by apply keyed_assign_run|done|intros _ st3 H4].
    by apply wp_ret.
  - intros i st' [-> H3]. split; [by apply Hweak|]. destruct H3 as (_ & Hp & _).
    eapply elem_of_prefix; [exact Hk|exact Hp].
  - auto.
Qed.

(** A start under a correlation id hands out the run that carries it. *)
Lemma start_returns args K st c :
  kept fresh U K st → sg_correlation_id args = Some c → PyStr.truthy c = true → sg_simulate_approval args = false →
  wp (start_run env args)
    (λ run st', kept fresh U K st' ∧ run ∈ st_runs st' ∧ run_key run = (wr_id run, sg_tenant_id args, Some c))
    (λ _, kept fresh U K) st.
Proof.
  intros Hst Hc Htruthy Hsim. unfold start_run. cbv zeta.
  destruct (Tables.get_version _ _ _) as [version|]; [|by apply wp_raise].
  destruct (match Tables.wv_published_at version with None => true | Some _ => false end); [by apply wp_raise|].
  apply wp_bind, wp_get. rewrite Hc, Htruthy, Hsim.
  assert (∀ k st', k ∈ run_keys st' → k.1.2 = sg_tenant_id args → k.2 = Some c → kept fresh U K st' → kept fresh U (run_keys st') st' →
    ∀ m, (∀ K', kept fresh U K' st' → wp m (λ run st2, kept fresh U K' st2 ∧ is_run (sg_tenant_id args) k.1.1 run st2)
            (λ _, kept fresh U K') st') →
    wp m (λ run st2, kept fresh U K st2 ∧ run ∈ st_runs st2 ∧ run_key run = (wr_id run, sg_tenant_id args, Some c))
      (λ _, kept fresh U K) st') as Hall.
  { intros k st' Hk Ht Hkc HK HK' m Hm. pose proof (Hm K HK) as W1. pose proof (Hm _ HK') as W2. unfold wp in *.
    destruct (m st') as [[run|e] st2]; [|done]. destruct W1 as [H1 (Hin & Hi & _)], W2 as [H2 _].
    split_and!; [done|done|]. rewrite (key_of_id _ _ _ _ H2 Hk Hin Hi), Hi. destruct k as [[]]. cbn in *. by subst. }
  assert (∀ st', kept fresh U K st' → kept fresh U (run_keys st') st') as Hself.
  { intros st' (H1 & _ & H3 & H4 & H5). by split_and!. }
  destruct (get_run_by_correlation _ c st) as [run|] eqn:Hex.
  { apply find_Some_elem in Hex as [Hin [Ht%bool_decide_eq_true Hrc%bool_decide_eq_true]%andb_true_iff].
    apply (proj1 (elem_of_reverse _ _)) in Hin.
    destruct (_ && _).
    - apply (Hall (run_key run)); [by apply list_elem_of_fmap_2|done|done|done|by apply Hself|].
      intros K' HK'. by apply wp_advance.
    - apply wp_ret. split_and!; [done|done|]. unfold run_key. by rewrite Ht, Hrc. }
  apply wp_bind, wp_lift. destruct (prepare_run env args) as [[graph snapshot]|]; [|done].
  apply wp_bind. eapply wp_mono; [by apply kept_create| |done]. intros i st2 (H2 & Hk).
  apply (Hall (i, sg_tenant_id args, Some c)); [done..|by apply Hself|]. intros K' HK'.
  destruct (sg_advance args); [|by apply wp_require].
  apply wp_bind. eapply wp_mono; [by apply wp_advance| |done]. intros run st3 H3. by apply wp_ret.
Qed.
End returns.

(** The run is started, cancelled, and asked for again. *)
Definition ex_again : Store := (start_run ex_env ex_args (cancel_run 7 "T" "i" ex_started).2).2.

Lemma correlation_is_idempotent_witness :
  wr_id <$> st_runs ex_again = ["i"] ∧
  ∀ r r', r ∈ st_runs ex_again → r' ∈ st_runs ex_again → wr_tenant_id r = wr_tenant_id r' →
    wr_correlation_id r = Some "c" → wr_correlation_id r' = Some "c" → wr_id r = wr_id r'.
Proof.
  split; [vm_compute; reflexivity|].
  destruct (correlation_is_idempotent Execute.unary_id empty_store ex_again) as (_ & _ & H).
  - apply Execute.unary_id_inj.
  - constructor.
  - intros n _. apply not_elem_of_nil.
  - constructor.
  - apply (rtc_l _ _ ex_started); [exact (step_start _ empty_store ex_env ex_args ex_ok_env)|].
    apply (rtc_l _ _ (cancel_run 7 "T" "i" ex_started).2); [exact (step_cancel _ _ 7 "T" "i")|].
    apply rtc_once. exact (step_start _ _ ex_env ex_args ex_ok_env).
  - intros r r' H1 H2 Ht Hc Hc'. exact (H r r' "c" H1 H2 Ht Hc Hc' eq_refl).
Defined.
End Correlation.
