(* ===== verification/Versioning.v ===== *)
(** * Definitions and versions of workflows (versioning.py, repository.py)

    A definition is the shell of numbered versions.  Saving a draft edits the
    newest version while it is unpublished and adds the next number otherwise;
    publishing compiles the version, stores the normalized graph and freezes
    the row.  The invariant [catalogue] describes the tables these operations
    keep, and [revised] how much they may change of rows that exist. *)
From S2P Require Import Prelude PyStr Json Graph Pydantic Nodes CompilerChecks Capabilities Compiler CompilerSpec.
From S2P Require Import Tables Config RunModels Execute Start.

Module Versioning.
Import Graph Nodes Caps Compiler Tables Models Config.
Local Open Scope string_scope.
Local Open Scope list_scope.
Local Open Scope Z_scope.

(** ** repository.py *)

Definition get_definition (tenant_id definition_id : string) (t : Tables) : option WorkflowDefinition :=
  List.find (λ d, live tenant_id (wd_tenant_id d) (wd_deleted_at d) && bool_decide (wd_id d = definition_id))
    (tb_definitions t).

Definition get_definition_by_slug (tenant_id slug : string) (t : Tables) : option WorkflowDefinition :=
  List.find (λ d, live tenant_id (wd_tenant_id d) (wd_deleted_at d) && bool_decide (wd_slug d = slug))
    (tb_definitions t).

(** The versions of a definition. *)
Definition version_of (tenant_id definition_id : string) (v : WorkflowVersion) : bool :=
  bool_decide (wv_tenant_id v = tenant_id) && bool_decide (wv_workflow_definition_id v = definition_id).
Definition versions_of (tenant_id definition_id : string) (t : Tables) : list WorkflowVersion :=
  List.filter (version_of tenant_id definition_id) (tb_versions t).

Definition newer (a b : WorkflowVersion) : Prop := wv_version b <= wv_version a.
#[global] Instance newer_dec a b : Decision (newer a b).
Proof. unfold newer. apply _. Defined.

Definition list_versions (tenant_id definition_id : string) (t : Tables) : list WorkflowVersion :=
  merge_sort newer (versions_of tenant_id definition_id t).

Definition latest_version (tenant_id definition_id : string) (t : Tables) : option WorkflowVersion :=
  head (list_versions tenant_id definition_id t).

(** [int(max(version) or 0) + 1] *)
Definition next_version_number (tenant_id definition_id : string) (t : Tables) : Z :=
  default 0 (foldr (λ v acc, Some (Z.max (wv_version v) (default (wv_version v) acc))) None
               (versions_of tenant_id definition_id t)) + 1.

Definition on_tables (f : Tables → Tables) : M Session unit := modify (λ s, s <| se_tables ::= f |>).

(** A row that repeats the unique (tenant, slug) does not go in: the unique
    constraint counts the deleted definitions that the query leaves out. *)
Definition add_definition (d : WorkflowDefinition) : M Session WorkflowDefinition :=
  s ← get_state;
  if existsb (λ x, bool_decide (wd_tenant_id x = wd_tenant_id d) && bool_decide (wd_slug x = wd_slug d))
       (tb_definitions (se_tables s))
  then raise (OtherException "IntegrityError" "uq_workflow_definitions_tenant_id_slug")
  else _ ← on_tables (λ t, t <| tb_definitions ::= λ l, l ++ [d] |>); mret d.

(** Unique are also (tenant, definition, version). *)
Definition add_version (v : WorkflowVersion) : M Session WorkflowVersion :=
  s ← get_state;
  if existsb (λ x, version_of (wv_tenant_id v) (wv_workflow_definition_id v) x &&
                   (wv_version x =? wv_version v)) (tb_versions (se_tables s))
  then raise (OtherException "IntegrityError" "uq_workflow_versions_tenant_definition_version")
  else _ ← on_tables (λ t, t <| tb_versions ::= λ l, l ++ [v] |>); mret v.

Definition is_published (v : WorkflowVersion) : bool :=
  match wv_published_at v with None => false | Some _ => true end.

Definition assert_mutable (v : WorkflowVersion) : result unit :=
  if is_published v
  then Raise (OtherException "PermissionError"
                ("WorkflowVersion " +:+ wv_id v +:+ " is published and immutable"))
  else mret ().

Definition mark_published (checksum : string) (now : Z) (v : WorkflowVersion) : WorkflowVersion :=
  v <| wv_published_at := Some now |> <| wv_checksum := Some checksum |>.

(** ** versioning.py *)

Section versioning.
Context (uuid : nat → string).

(** The id the database row gets. *)
Definition fresh_id : M Session string :=
  s ← get_state; _ ← modify (λ s, s <| se_uuids ::= S |>); mret (uuid (se_uuids s)).

Definition require_definition (tenant_id definition_id : string) : M Session WorkflowDefinition :=
  s ← get_state;
  match get_definition tenant_id definition_id (se_tables s) with
  | Some d => mret d
  | None => raise (HTTPException 404 "Workflow definition not found")
  end.

Definition create_definition (tenant_id name slug : string) (description created_by_user_id : option string)
    : M Session WorkflowDefinition :=
  s ← get_state;
  match get_definition_by_slug tenant_id slug (se_tables s) with
  | Some _ => raise (HTTPException 409 ("slug " +:+ Checks.quoted slug +:+ " already exists"))
  | None =>
      i ← fresh_id;
      add_definition
        {| wd_id := i; wd_tenant_id := tenant_id; wd_name := name; wd_slug := slug;
           wd_description := description; wd_status := DRAFT; wd_current_version_id := None;
           wd_created_by_user_id := created_by_user_id; wd_deleted_at := None |}
  end.

(** [sanitize_mapping(given or stored)] *)
Definition given_or (given : option (dict json)) (stored : dict json) : dict json :=
  sanitize_mapping (match given with Some ((_ :: _) as g) => Some g | _ => Some stored end).

Definition drafted (parsed : WorkflowGraph) (input_schema output_schema : option (dict json))
    (v : WorkflowVersion) : WorkflowVersion :=
  v <| wv_graph_json := parsed |>
    <| wv_input_schema_json := given_or input_schema (wv_input_schema_json v) |>
    <| wv_output_schema_json := given_or output_schema (wv_output_schema_json v) |>
    <| wv_checksum := None |>.

Definition on_version (i : string) (f : WorkflowVersion → WorkflowVersion) : M Session unit :=
  on_tables (λ t, t <| tb_versions ::= set_row wv_id i f |>).
Definition on_definition (i : string) (f : WorkflowDefinition → WorkflowDefinition) : M Session unit :=
  on_tables (λ t, t <| tb_definitions ::= set_row wd_id i f |>).

Definition save_draft (tenant_id definition_id : string) (graph : WorkflowGraph)
    (created_by_user_id : option string) (input_schema output_schema : option (dict json))
    : M Session WorkflowVersion :=
  definition ← require_definition tenant_id definition_id;
  parsed ← lift (sanitize_workflow_graph graph);
  s ← get_state;
  let add :=
    i ← fresh_id;
    add_version
      {| wv_id := i; wv_tenant_id := tenant_id; wv_workflow_definition_id := wd_id definition;
         wv_version := next_version_number tenant_id definition_id (se_tables s); wv_graph_json := parsed;
         wv_input_schema_json := sanitize_mapping input_schema;
         wv_output_schema_json := sanitize_mapping output_schema; wv_checksum := None;
         wv_published_at := None; wv_created_by_user_id := created_by_user_id |} in
  match latest_version tenant_id definition_id (se_tables s) with
  | Some latest =>
      if is_published latest then add
      else
        _ ← lift (assert_mutable latest);
        _ ← on_version (wv_id latest) (drafted parsed input_schema output_schema);
        mret (drafted parsed input_schema output_schema latest)
  | None => add
  end.

(** The version a publication concerns. *)
Definition publish_candidate (tenant_id : string) (definition : WorkflowDefinition) (definition_id : string)
    (version_id : option string) : M Session WorkflowVersion :=
  s ← get_state;
  match version_id with
  | Some i =>
      match get_version tenant_id i (se_tables s) with
      | Some v =>
          if negb (bool_decide (wv_workflow_definition_id v = wd_id definition))
          then raise (HTTPException 404 "Workflow version not found") else mret v
      | None => raise (HTTPException 404 "Workflow version not found")
      end
  | None =>
      match latest_version tenant_id definition_id (se_tables s) with
      | Some v => mret v
      | None => raise (HTTPException 400 "No draft version to publish")
      end
  end.

(** New publishes use the port and binding resolver. *)
Definition bump_schema_version (g : WorkflowGraph) : WorkflowGraph :=
  if wg_schema_version g <? 2 then g <| wg_schema_version := 2 |> else g.

Definition publish {coercions : Coercions} (graph_checksum : WorkflowGraph → string) (reg : registry)
    (tenant_id definition_id : string) (version_id : option string) (context : option CompileContext)
    (now : Z) : M Session WorkflowVersion :=
  definition ← require_definition tenant_id definition_id;
  version ← publish_candidate tenant_id definition definition_id version_id;
  if is_published version then raise (HTTPException 409 "Version already published")
  else
    result ← lift (validate_graph graph_checksum reg (wv_graph_json version) (default default_context context));
    if negb (cr_valid result) then raise (HTTPException 422 "Workflow graph failed validation")
    else
      match cr_checksum result with
      | None => raise (OtherException "AssertionError" "")
      | Some checksum =>
          graph ← match cr_normalized_graph result with
                  | Some g => g ← lift (sanitize_workflow_graph g); mret (bump_schema_version g)
                  | None => mret (wv_graph_json version)
                  end;
          let publish_row v := mark_published checksum now (v <| wv_graph_json := graph |>) in
          _ ← on_version (wv_id version) publish_row;
          _ ← on_definition (wd_id definition) (λ d, d <| wd_current_version_id := Some (wv_id version) |>
                                                       <| wd_status := ACTIVE |>);
          mret (publish_row version)
      end.
End versioning.

(** ** Lookups *)

Lemma versions_of_elem tenant_id definition_id t v :
  v ∈ versions_of tenant_id definition_id t ↔
  v ∈ tb_versions t ∧ wv_tenant_id v = tenant_id ∧ wv_workflow_definition_id v = definition_id.
Proof.
  unfold versions_of, version_of.
  by rewrite list_elem_of_In, List.filter_In, andb_true_iff, !bool_decide_eq_true, <- list_elem_of_In.
Qed.

#[local] Instance newer_total : Total newer.
Proof. intros a b. unfold newer. lia. Qed.
#[local] Instance newer_trans : Transitive newer.
Proof. intros a b c. unfold newer. lia. Qed.

Lemma latest_version_Some tenant_id definition_id t v :
  latest_version tenant_id definition_id t = Some v →
  v ∈ versions_of tenant_id definition_id t ∧
  ∀ w, w ∈ versions_of tenant_id definition_id t → wv_version w <= wv_version v.
Proof.
  unfold latest_version, list_versions. pose proof (merge_sort_Permutation newer (versions_of tenant_id definition_id t)) as Hp.
  pose proof (StronglySorted_merge_sort newer (versions_of tenant_id definition_id t)) as Hs.
  destruct (merge_sort _ _) as [|x l]; [done|]. intros [= ->]. split; [rewrite <- Hp; left|].
  intros w. rewrite <- Hp. intros [->|Hw]%elem_of_cons; [done|]. inversion Hs as [|?? _ Hf]; subst.
  rewrite Forall_forall in Hf. by apply Hf.
Qed.

Lemma latest_version_None tenant_id definition_id t :
  latest_version tenant_id definition_id t = None → versions_of tenant_id definition_id t = [].
Proof.
  unfold latest_version, list_versions. pose proof (merge_sort_Permutation newer (versions_of tenant_id definition_id t)) as Hp.
  destruct (merge_sort _ _); [|done]. intros _. by apply Permutation_nil_l in Hp.
Qed.

Lemma get_version_Some tenant_id i t v :
  get_version tenant_id i t = Some v → v ∈ tb_versions t ∧ wv_tenant_id v = tenant_id ∧ wv_id v = i.
Proof. intros [Hin H]%find_Some_elem. by apply andb_true_iff in H as [?%bool_decide_eq_true ?%bool_decide_eq_true]. Qed.

Lemma get_definition_Some tenant_id i t d :
  get_definition tenant_id i t = Some d → d ∈ tb_definitions t ∧ wd_tenant_id d = tenant_id ∧ wd_id d = i.
Proof.
  intros [Hin H]%find_Some_elem. apply andb_true_iff in H as [H ?%bool_decide_eq_true].
  by apply andb_true_iff in H as [?%bool_decide_eq_true _].
Qed.

(** ** The invariant *)

Definition same_definition (v w : WorkflowVersion) : Prop :=
  wv_tenant_id v = wv_tenant_id w ∧ wv_workflow_definition_id v = wv_workflow_definition_id w.

(** The versions of every definition are numbered 1, 2, 3, … in the order they
    were added. *)
Definition numbered (t : Tables) : Prop := ∀ tenant_id definition_id,
  wv_version <$> versions_of tenant_id definition_id t =
  seqZ 1 (Z.of_nat (length (versions_of tenant_id definition_id t))).

(** A definition that points at a version is active, and the version is a
    published one of its own. *)
Definition current_ok (t : Tables) (d : WorkflowDefinition) : Prop := ∀ i,
  wd_current_version_id d = Some i → wd_status d = ACTIVE ∧
  ∃ v, v ∈ tb_versions t ∧ wv_id v = i ∧ version_of (wd_tenant_id d) (wd_id d) v = true ∧ is_published v = true.

Record catalogue (uuid : nat → string) (s : Session) : Prop := {
  cat_ids : NoDup (wv_id <$> tb_versions (se_tables s));
  cat_definition_ids : NoDup (wd_id <$> tb_definitions (se_tables s));
  cat_fresh : ∀ n, (se_uuids s ≤ n)%nat →
    uuid n ∉ wv_id <$> tb_versions (se_tables s) ∧ uuid n ∉ wd_id <$> tb_definitions (se_tables s);
  cat_numbered : numbered (se_tables s);
  cat_one_draft : ∀ v w, v ∈ tb_versions (se_tables s) → w ∈ tb_versions (se_tables s) → same_definition v w →
    wv_version v < wv_version w → is_published v = true;
  cat_checksum : ∀ v, v ∈ tb_versions (se_tables s) → is_published v = true → is_Some (wv_checksum v);
  cat_stable : ∀ v, v ∈ tb_versions (se_tables s) → stable (wv_graph_json v);
  cat_current : ∀ d, d ∈ tb_definitions (se_tables s) → current_ok (se_tables s) d;
}.

(** No published row is lost or changed. *)
Definition frozen (s0 s : Session) : Prop := ∀ v,
  v ∈ tb_versions (se_tables s0) → is_published v = true → v ∈ tb_versions (se_tables s).

Lemma next_version_number_spec tenant_id definition_id t : numbered t →
  next_version_number tenant_id definition_id t = Z.of_nat (length (versions_of tenant_id definition_id t)) + 1.
Proof.
  intros Hn. specialize (Hn tenant_id definition_id). unfold next_version_number. f_equal.
  generalize dependent (versions_of tenant_id definition_id t). intros l Hl.
  assert (∀ k (l : list WorkflowVersion), wv_version <$> l = seqZ k (Z.of_nat (length l)) → l ≠ [] →
    foldr (λ v acc, Some (Z.max (wv_version v) (default (wv_version v) acc))) None l =
      Some (k + Z.of_nat (length l) - 1)) as H.
  { clear. intros k l. revert k. induction l as [|v l IH]; intros k Hl Hne; [done|]. rewrite length_cons in Hl.
    rewrite seqZ_cons in Hl by lia. injection Hl as Hv Hl. rewrite Nat2Z.inj_succ, Z.pred_succ in Hl.
    simpl foldr. destruct l as [|w l]; [simpl; f_equal; lia|].
    rewrite (IH _ Hl) by done. cbn [default from_option]. rewrite !length_cons. unfold id. f_equal. lia. }
  destruct l as [|v l]; [done|]. rewrite (H 1) by done. cbn [default from_option]. unfold id. lia.
Qed.

Lemma numbered_bound t v : numbered t → v ∈ tb_versions t →
  wv_version v <= Z.of_nat (length (versions_of (wv_tenant_id v) (wv_workflow_definition_id v) t)).
Proof.
  intros Hn Hv. specialize (Hn (wv_tenant_id v) (wv_workflow_definition_id v)).
  assert (wv_version v ∈ wv_version <$> versions_of (wv_tenant_id v) (wv_workflow_definition_id v) t) as H.
  { apply list_elem_of_fmap. exists v. by rewrite versions_of_elem. }
  rewrite Hn in H. apply elem_of_seqZ in H. lia.
Qed.

(** ** The three ways rows change *)

Section changes.
Context (uuid : nat → string) `{!Inj (=) (=) uuid}.

(** An operation that keeps the invariant and every published row. *)
Definition kept (s0 s : Session) : Prop := catalogue uuid s ∧ frozen s0 s.

Lemma set_row_ids {R} (key : R → string) i f (l : list R) :
  (∀ r, key (f r) = key r) → key <$> set_row key i f l = key <$> l.
Proof.
  intros Hf. unfold set_row. rewrite <- list_fmap_compose. apply list_fmap_ext. intros ? r _. simpl.
  by case_bool_decide.
Qed.

Lemma set_row_elem {R} (key : R → string) i f (l : list R) r :
  r ∈ set_row key i f l ↔ (∃ x, x ∈ l ∧ key x = i ∧ r = f x) ∨ (r ∈ l ∧ key r ≠ i).
Proof.
  unfold set_row. rewrite list_elem_of_fmap. split.
  - intros (x & -> & Hx). case_bool_decide; [left; by exists x|by right].
  - intros [(x & Hx & Hi & ->)|[Hr Hi]].
    + exists x. by rewrite bool_decide_eq_true_2.
    + exists r. by rewrite bool_decide_eq_false_2.
Qed.

Lemma fresh_id_kept s0 s : kept s0 s → kept s0 (s <| se_uuids ::= S |>).
Proof.
  intros [[] Hf]. split; [|done]. constructor; try done. cbn. intros n Hn. apply cat_fresh0. lia.
Qed.

(** A new definition. *)
Lemma add_definition_kept s0 s d n :
  kept s0 s → se_uuids s = S n →
  (uuid n ∉ wd_id <$> tb_definitions (se_tables s)) → wd_id d = uuid n → wd_current_version_id d = None →
  kept s0 (s <| se_tables ::= λ t, t <| tb_definitions ::= λ l, l ++ [d] |> |>).
Proof.
  intros [[] Hf] Hu Hfr Hd Hc. split; [|done]. constructor; try done; cbn.
  - rewrite fmap_app. apply NoDup_app. split_and!; [done| |apply NoDup_singleton].
    intros x Hx ->%list_elem_of_singleton. by rewrite Hd in Hx.
  - intros m Hm. destruct (cat_fresh0 m Hm) as [H1 H2]. split; [done|]. rewrite fmap_app, not_elem_of_app.
    split; [done|]. intros E%list_elem_of_singleton. rewrite Hd in E. apply (inj uuid) in E. lia.
  - intros x [Hx| ->%list_elem_of_singleton]%elem_of_app; [by apply cat_current0|].
    intros i. by rewrite Hc.
Qed.

(** A new draft with the next number, behind published versions. *)
Lemma add_version_kept s0 s v n :
  kept s0 s → se_uuids s = S n → uuid n ∉ wv_id <$> tb_versions (se_tables s) →
  wv_id v = uuid n → is_published v = false →
  wv_version v = next_version_number (wv_tenant_id v) (wv_workflow_definition_id v) (se_tables s) →
  (∀ w, w ∈ tb_versions (se_tables s) → same_definition w v → is_published w = true) →
  stable (wv_graph_json v) →
  kept s0 (s <| se_tables ::= λ t, t <| tb_versions ::= λ l, l ++ [v] |> |>).
Proof.
  intros [[] Hf] Hu Hfr Hid Hpub Hnum Hall Hst.
  rewrite next_version_number_spec in Hnum by done. split.
  - constructor; cbn; try done.
    + rewrite fmap_app. apply NoDup_app. split_and!; [done| |apply NoDup_singleton].
      intros x Hx ->%list_elem_of_singleton. by rewrite Hid in Hx.
    + intros m Hm. destruct (cat_fresh0 m Hm) as [H1 H2]. split; [|done]. rewrite fmap_app, not_elem_of_app.
      split; [done|]. intros E%list_elem_of_singleton. rewrite Hid in E. apply (inj uuid) in E. lia.
    + intros tenant definition. unfold versions_of. cbn. rewrite List.filter_app.
      pose proof (cat_numbered0 tenant definition) as Hn. unfold versions_of in Hn. cbn [List.filter].
      destruct (version_of tenant definition v) eqn:Ev; [|by rewrite app_nil_r].
      unfold version_of in Ev. apply andb_true_iff in Ev as [<-%bool_decide_eq_true <-%bool_decide_eq_true].
      rewrite fmap_app, Hn, length_app, Nat2Z.inj_add, seqZ_app by lia. f_equal.
      unfold seqZ. change (Z.to_nat (Z.of_nat (length [v]))) with 1%nat. cbn -[Z.add Z.of_nat].
      rewrite Hnum. unfold versions_of. f_equal. lia.
    + intros x y [Hx| ->%list_elem_of_singleton]%elem_of_app [Hy| ->%list_elem_of_singleton]%elem_of_app Hs Hlt.
      * by eapply cat_one_draft0.
      * by apply Hall.
      * pose proof (numbered_bound _ _ cat_numbered0 Hy) as Hb. destruct Hs as [E1 E2]. rewrite <- E1, <- E2 in Hb. lia.
      * lia.
    + intros x [Hx| ->%list_elem_of_singleton]%elem_of_app Hp; [by apply cat_checksum0|congruence].
    + intros x [Hx| ->%list_elem_of_singleton]%elem_of_app; [by apply cat_stable0|done].
    + intros d Hd i Hi. destruct (cat_current0 d Hd i Hi) as [? (w & ? & ?)]. split; [done|].
      exists w. split; [apply elem_of_app; by left|done].
  - intros w Hw Hp. cbn. apply elem_of_app. left. by apply Hf.
Qed.

(** An edit of a draft that stays in its place, published with a checksum or
    not at all. *)
Lemma set_draft_kept s0 s v f :
  kept s0 s → v ∈ tb_versions (se_tables s) → is_published v = false →
  (∀ w, wv_id (f w) = wv_id w ∧ wv_tenant_id (f w) = wv_tenant_id w ∧
        wv_workflow_definition_id (f w) = wv_workflow_definition_id w ∧ wv_version (f w) = wv_version w) →
  (is_published (f v) = true → is_Some (wv_checksum (f v))) → stable (wv_graph_json (f v)) →
  kept s0 (s <| se_tables ::= λ t, t <| tb_versions ::= set_row wv_id (wv_id v) f |> |>).
Proof.
  intros [[] Hf] Hv Hdraft Hkeep Hsum Hst.
  assert (∀ x, x ∈ tb_versions (se_tables s) → wv_id x = wv_id v → x = v) as Huniq.
  { intros x Hx E. by eapply (NoDup_fmap_inj_in wv_id). }
  assert (∀ x, x ∈ tb_versions (se_tables s) → is_published x = true →
            x ∈ set_row wv_id (wv_id v) f (tb_versions (se_tables s))) as Hstay.
  { intros x Hx Hp. apply set_row_elem. right. split; [done|]. intros E. rewrite (Huniq x Hx E) in Hp. congruence. }
  split.
  - constructor; cbn; try done.
    + rewrite set_row_ids; [done|]. intros; apply Hkeep.
    + intros m Hm. rewrite set_row_ids by (intros; apply Hkeep). by apply cat_fresh0.
    + intros tenant definition. unfold versions_of. cbn.
      assert (∀ l, wv_version <$> List.filter (version_of tenant definition) (set_row wv_id (wv_id v) f l) =
                   wv_version <$> List.filter (version_of tenant definition) l) as Hsame.
      { induction l as [|x l IH]; [done|]. cbn.
        assert (version_of tenant definition (if bool_decide (wv_id x = wv_id v) then f x else x) =
                version_of tenant definition x) as ->.
        { case_bool_decide; [|done]. unfold version_of. by destruct (Hkeep x) as (_ & -> & -> & _). }
        destruct (version_of tenant definition x); cbn; [|done]. f_equal; [|done].
        case_bool_decide; [apply Hkeep|done]. }
      pose proof (cat_numbered0 tenant definition) as Hn. unfold versions_of in Hn. rewrite Hsame, Hn.
      f_equal. f_equal. rewrite <- (length_fmap wv_version (List.filter _ (set_row _ _ _ _))), Hsame. by rewrite length_fmap.
    + intros x y Hx Hy Hs Hlt. apply set_row_elem in Hx as [(x0 & Hx & Ex & ->)|[Hx Ex]].
      * apply Huniq in Ex as ->; [|done]. exfalso.
        enough (is_published v = true) by congruence.
        apply set_row_elem in Hy as [(y0 & Hy & Ey & ->)|[Hy Ey]].
        -- apply Huniq in Ey as ->; [|done]. lia.
        -- apply (cat_one_draft0 v y); [done|done| |by destruct (Hkeep v) as (_ & _ & _ & <-)].
           destruct (Hkeep v) as (_ & E1 & E2 & _). destruct Hs as [E3 E4]. split; congruence.
      * apply set_row_elem in Hy as [(y0 & Hy & Ey & ->)|[Hy Ey]].
        -- apply (cat_one_draft0 x y0); [done|done| |by destruct (Hkeep y0) as (_ & _ & _ & <-)].
           destruct (Hkeep y0) as (_ & E1 & E2 & _). destruct Hs as [E3 E4]. split; congruence.
        -- by apply (cat_one_draft0 x y).
    + intros x Hx Hp. apply set_row_elem in Hx as [(x0 & Hx & Ex & ->)|[Hx Ex]].
      * apply Huniq in Ex as ->; [|done]. by apply Hsum.
      * by apply cat_checksum0.
    + intros x Hx. apply set_row_elem in Hx as [(x0 & Hx & Ex & ->)|[Hx Ex]]; [|by apply cat_stable0].
      by apply Huniq in Ex as ->.
    + intros d Hd i Hi. destruct (cat_current0 d Hd i Hi) as [? (w & Hw & ? & ? & ?)]. split; [done|].
      exists w. split; [by apply Hstay|done].
  - intros w Hw Hp. cbn. apply Hstay; [by apply Hf|done].
Qed.

(** A definition is pointed at one of its published versions. *)
Lemma set_current_kept s0 s d v :
  kept s0 s → d ∈ tb_definitions (se_tables s) → v ∈ tb_versions (se_tables s) → is_published v = true →
  version_of (wd_tenant_id d) (wd_id d) v = true →
  kept s0 (s <| se_tables ::= λ t, t <| tb_definitions ::= set_row wd_id (wd_id d)
            (λ d, d <| wd_current_version_id := Some (wv_id v) |> <| wd_status := ACTIVE |>) |> |>).
Proof.
  intros [[] Hf] Hd Hv Hp Hof. split; [|done]. constructor; cbn; try done.
  - by rewrite set_row_ids.
  - intros m Hm. rewrite set_row_ids by done. by apply cat_fresh0.
  - intros x Hx. apply set_row_elem in Hx as [(x0 & Hx & Ex & ->)|[Hx Ex]]; [|by apply cat_current0].
    assert (x0 = d) as -> by (by eapply (NoDup_fmap_inj_in wd_id)).
    intros i [= <-]. split; [done|]. by exists v.
Qed.

(** ** The operations keep the invariant *)

Lemma wp_fresh_id {A} (k : string → M Session A) Q E s :
  wp (k (uuid (se_uuids s))) Q E (s <| se_uuids ::= S |>) → wp (fresh_id uuid ≫= k) Q E s.
Proof. done. Qed.

Lemma wp_require_definition {A} tenant_id i (k : WorkflowDefinition → M Session A) Q E s :
  (∀ d, get_definition tenant_id i (se_tables s) = Some d → wp (k d) Q E s) →
  E (HTTPException 404 "Workflow definition not found") s →
  wp (require_definition tenant_id i ≫= k) Q E s.
Proof.
  intros Hk He. apply wp_bind. unfold require_definition. apply wp_bind, wp_get.
  destruct (get_definition _ _ _); [by apply Hk|by apply wp_raise].
Qed.

Lemma create_definition_kept s0 tenant_id name slug description user :
  keeps (kept s0) (create_definition uuid tenant_id name slug description user).
Proof.
  apply keeps_get. intros s Hs. destruct (get_definition_by_slug _ _ _); [by apply wp_raise|].
  apply wp_fresh_id. unfold add_definition. apply wp_bind, wp_get.
  destruct (existsb _ _); [apply wp_raise; by apply fresh_id_kept|].
  apply wp_bind, wp_modify, wp_ret.
  apply (add_definition_kept s0 (s <| se_uuids ::= S |>) _ (se_uuids s)); try done; [by apply fresh_id_kept|].
  by apply (cat_fresh uuid s (proj1 Hs)).
Qed.

Lemma save_draft_kept s0 tenant_id definition_id graph user input_schema output_schema :
  keeps (kept s0) (save_draft uuid tenant_id definition_id graph user input_schema output_schema).
Proof.
  intros s Hs. apply wp_require_definition; [|done]. intros d Hd.
  apply get_definition_Some in Hd as (_ & _ & Hdid).
  apply wp_bind, wp_lift. destruct (sanitize_workflow_graph graph) as [parsed|e] eqn:Hg; [|done].
  apply sanitize_stable in Hg. apply wp_bind, wp_get.
  set (add := fresh_id uuid ≫= _).
  assert (∀ Hall : (∀ w, w ∈ versions_of tenant_id definition_id (se_tables s) → is_published w = true),
    wp add (λ _, kept s0) (λ _, kept s0) s) as Hadd.
  { intros Hall. apply wp_fresh_id. unfold add_version. apply wp_bind, wp_get.
    destruct (existsb _ _); [apply wp_raise; by apply fresh_id_kept|].
    apply wp_bind, wp_modify, wp_ret.
    apply (add_version_kept s0 (s <| se_uuids ::= S |>) _ (se_uuids s)); try done; [by apply fresh_id_kept| | |].
    - by apply (cat_fresh uuid s (proj1 Hs)).
    - cbn. by rewrite Hdid.
    - cbn. intros w Hw [E1 E2]. apply Hall, versions_of_elem. cbn in E1, E2. by rewrite Hdid in E2. }
  destruct (latest_version _ _ _) as [latest|] eqn:Hl.
  - apply latest_version_Some in Hl as [Hin Hmax].
    destruct (is_published latest) eqn:Hp.
    + apply Hadd. intros w Hw. pose proof (Hmax w Hw) as Hle.
      destruct (decide (wv_version w < wv_version latest)) as [Hlt|Hge].
      * apply versions_of_elem in Hw as (Hw & ? & ?), Hin as (Hin & ? & ?).
        apply (cat_one_draft uuid s (proj1 Hs) w latest); [done|done|split; congruence|done].
      * assert (w = latest) as ->; [|done].
        eapply (NoDup_fmap_inj_in wv_version); [|done|done|lia].
        rewrite (cat_numbered uuid s (proj1 Hs)). apply NoDup_seqZ.
    + unfold assert_mutable. rewrite Hp. apply wp_bind, wp_lift, wp_bind, wp_modify, wp_ret.
      apply versions_of_elem in Hin as (Hin & _). apply set_draft_kept; try done.
      intros Hp'. change (is_published latest = true) in Hp'. congruence.
  - apply Hadd. intros w. by rewrite (latest_version_None _ _ _ Hl), elem_of_nil.
Qed.

(** What a publication works on. *)
Lemma publish_candidate_ok tenant_id definition_id version_id s d :
  get_definition tenant_id definition_id (se_tables s) = Some d →
  wp (publish_candidate tenant_id d definition_id version_id)
    (λ v s', s' = s ∧ v ∈ tb_versions (se_tables s) ∧ version_of (wd_tenant_id d) (wd_id d) v = true)
    (λ _ s', s' = s) s.
Proof.
  intros (_ & Ht & Hi)%get_definition_Some. unfold publish_candidate. apply wp_bind, wp_get.
  unfold version_of. destruct version_id as [i|].
  - destruct (get_version _ _ _) as [v|] eqn:Hv; [|by apply wp_raise].
    apply get_version_Some in Hv as (Hin & Hvt & _).
    destruct (bool_decide (wv_workflow_definition_id v = wd_id d)) eqn:E; [|by apply wp_raise].
    apply wp_ret. split_and!; [done..|]. by rewrite Ht, bool_decide_eq_true_2.
  - destruct (latest_version _ _ _) as [v|] eqn:Hv; [|by apply wp_raise].
    apply latest_version_Some in Hv as [(Hin & Hvt & Hvd)%versions_of_elem _]. apply wp_ret.
    split_and!; [done..|]. by rewrite Ht, Hi, !bool_decide_eq_true_2.
Qed.

Lemma bump_stable g : stable g → stable (bump_schema_version g).
Proof.
  unfold bump_schema_version. destruct (wg_schema_version g <? 2); [|done]. intros (Hv & Hn & Hm).
  split_and!; [|done|done]. unfold model_validate, mbind, result_bind in *.
  destruct (wg_schema_version g <? 1); [done|]. cbn. destruct (rmap validate_node _); [|done].
  destruct (rmap validate_edge _); [|done]. destruct g as [? nodes edges ?]. cbn in Hv |- *. by injection Hv as -> ->.
Qed.

Lemma publish_kept {coercions : Coercions} s0 checksum reg tenant_id definition_id version_id context now :
  keeps (kept s0) (publish checksum reg tenant_id definition_id version_id context now).
Proof.
  intros s Hs. apply wp_require_definition; [|done]. intros d Hd.
  apply wp_bind. eapply wp_mono; [by apply publish_candidate_ok| |by intros ? ? ->].
  intros v s' (-> & Hin & Hof). apply get_definition_Some in Hd as (Hdin & _ & _).
  destruct (is_published v) eqn:Hp; [by apply wp_raise|]. apply wp_bind, wp_lift.
  destruct (validate_graph _ _ _ _) as [result|e]; [|done].
  destruct (cr_valid result); [|by apply wp_raise]. cbn [negb].
  destruct (cr_checksum result) as [sum|]; [|by apply wp_raise].
  apply wp_bind. apply (wp_mono _ (λ g s', s' = s ∧ stable g) _ (λ _ s', s' = s)); [| |by intros ? ? ->].
  { destruct (cr_normalized_graph result) as [g|]; [|by apply wp_ret; split; [|apply (cat_stable uuid s (proj1 Hs))]].
    apply wp_bind, wp_lift. destruct (sanitize_workflow_graph g) eqn:Hg; [|done]. apply wp_ret. split; [done|].
    by eapply bump_stable, sanitize_stable. }
  intros g s' [-> Hg]. apply wp_bind, wp_modify, wp_bind, wp_modify, wp_ret.
  set (f := λ v, mark_published _ _ _).
  apply (set_current_kept s0 (s <| se_tables ::= λ t, t <| tb_versions ::= set_row wv_id (wv_id v) f |> |>) d (f v)).
  - apply set_draft_kept; done.
  - done.
  - cbn. apply set_row_elem. left. by exists v.
  - done.
  - done.
Qed.
End changes.

(** ** Histories of the service *)

Section history.
Context {coercions : Coercions} (uuid : nat → string) (checksum : WorkflowGraph → string) (reg : registry).

(** A call of the service, however it ends. *)
Inductive revision (s : Session) : Session → Prop :=
  | rev_create tenant_id name slug description user :
      revision s (create_definition uuid tenant_id name slug description user s).2
  | rev_save tenant_id definition_id graph user input_schema output_schema :
      revision s (save_draft uuid tenant_id definition_id graph user input_schema output_schema s).2
  | rev_publish tenant_id definition_id version_id context now :
      revision s (publish checksum reg tenant_id definition_id version_id context now s).2.
End history.

(** C13: published versions are immutable.  In every history of creating
    definitions, saving drafts and publishing, in which each call may also
    fail, every published row stays in the table as it is; and the catalogue
    stays in order: the versions of a definition are numbered 1, 2, 3, …,
    only the newest can be a draft, every published one has its checksum, and
    a definition points only at a published version of its own, and is then
    active. *)
Theorem published_versions_frozen {coercions : Coercions} uuid checksum reg s s' :
  Inj (=) (=) uuid → catalogue uuid s → rtc (revision uuid checksum reg) s s' →
  catalogue uuid s' ∧ ∀ v, v ∈ tb_versions (se_tables s) → is_published v = true → v ∈ tb_versions (se_tables s').
Proof.
  intros Hinj Hs Hsteps. change (kept uuid s s').
  assert (∀ s0 s s', kept uuid s0 s → rtc (revision uuid checksum reg) s s' → kept uuid s0 s') as H;
    [|apply (H s s s'); [by split; [|intros v]|done]].
  clear s s' Hs Hsteps. intros s0 s s' H Hsteps. induction Hsteps as [s|s s1 s' Hstep _ IH]; [done|]. apply IH. clear IH.
  destruct Hstep; apply (keeps_snd (kept uuid s0)); try done.
  - by apply create_definition_kept.
  - by apply save_draft_kept.
  - by apply publish_kept.
Qed.

(** ** Publication *)

(** Raising the schema version changes no check of the compiler. *)
Lemma validate_stable {coercions : Coercions} checksum reg g ctx r :
  stable g → validate_graph checksum reg g ctx = Ok r → cr_valid r = true →
  let accepted g := {| cr_valid := true; cr_errors := []; cr_normalized_graph := Some g;
                       cr_checksum := Some (checksum g) |} in
  r = accepted g ∧
  validate_graph checksum reg (bump_schema_version g) ctx = Ok (accepted (bump_schema_version g)).
Proof.
  intros Hst Hr Hvalid. pose proof (bump_stable _ Hst) as (Hb & _ & _). destruct Hst as (Hv & _ & _).
  unfold validate_graph in *. rewrite Hb. rewrite Hv in Hr.
  assert (graph_errors reg (bump_schema_version g) ctx = graph_errors reg g ctx) as ->
    by (unfold bump_schema_version; by destruct (_ <? 2)).
  destruct (graph_errors reg g ctx) as [errors|e]; [|done]. unfold mbind, result_bind, mret, result_ret in *.
  injection Hr as <-. cbn in Hvalid. rewrite Hvalid. apply bool_decide_eq_true in Hvalid. by rewrite Hvalid.
Qed.

(** What publishing does.  It publishes an unpublished version of the
    definition, the given one or the newest, whose graph compiles in the given
    context; the row keeps its number and schemas, its graph is stored with a
    schema version of at least 2, and the definition becomes active and points
    at it.  What is stored compiles again in that context, as starting a run
    requires, to itself.  The checksum it keeps is that of the graph before the
    schema version was raised.  A publication that raises changes nothing. *)
Theorem publish_spec {coercions : Coercions} uuid checksum reg tenant_id definition_id version_id context now s :
  catalogue uuid s →
  wp (publish checksum reg tenant_id definition_id version_id context now)
    (λ v s', ∃ v0,
      v0 ∈ tb_versions (se_tables s) ∧ version_of tenant_id definition_id v0 = true ∧ is_published v0 = false ∧
      (∀ i, version_id = Some i → wv_id v0 = i) ∧
      (∀ w, w ∈ versions_of tenant_id definition_id (se_tables s) → wv_version w <= wv_version v0) ∧
      v = mark_published (checksum (wv_graph_json v0)) now
            (v0 <| wv_graph_json := bump_schema_version (wv_graph_json v0) |>) ∧
      2 <= wg_schema_version (wv_graph_json v) ∧
      validate_graph checksum reg (wv_graph_json v) (default default_context context) =
        Ok {| cr_valid := true; cr_errors := []; cr_normalized_graph := Some (wv_graph_json v);
              cr_checksum := Some (checksum (wv_graph_json v)) |} ∧
      v ∈ tb_versions (se_tables s') ∧
      ∃ d, d ∈ tb_definitions (se_tables s') ∧ wd_id d = definition_id ∧ wd_tenant_id d = tenant_id ∧
           wd_status d = ACTIVE ∧ wd_current_version_id d = Some (wv_id v))
    (λ _ s', s' = s) s.
Proof.
  intros Hs.
  apply wp_require_definition; [|done]. intros d Hd.
  apply wp_bind. eapply (wp_mono _ (λ v s', s' = s ∧ v ∈ tb_versions (se_tables s) ∧
    version_of (wd_tenant_id d) (wd_id d) v = true ∧ ∀ i, version_id = Some i → wv_id v = i) _ (λ _ s', s' = s)).
  - pose proof (publish_candidate_ok tenant_id definition_id version_id s d Hd) as H. revert H.
    unfold wp. destruct (publish_candidate _ _ _ _ s) as [[v|e] s'] eqn:Ec; [|done].
    intros (-> & Hin & Hof). split_and!; [done..|]. intros i ->. revert Ec.
    unfold publish_candidate, mbind, M_bind, get_state. destruct (get_version _ _ _) as [w|] eqn:Hg; [|done].
    destruct (negb _); [done|]. intros [= ->]. by apply get_version_Some in Hg as (_ & _ & ?).
  - apply get_definition_Some in Hd as (Hdin & Hdt & Hdi).
    intros v s' (-> & Hin & Hof & Hid). rewrite Hdt, Hdi in Hof.
    destruct (is_published v) eqn:Hp; [by apply wp_raise|]. apply wp_bind, wp_lift.
    destruct (validate_graph _ _ _ _) as [result|e] eqn:Hr; [|done].
    destruct (cr_valid result) eqn:Hvalid; [|by apply wp_raise]. cbn [negb].
    pose proof (cat_stable uuid s Hs v Hin) as Hst.
    destruct (validate_stable _ _ _ _ _ Hst Hr Hvalid) as [-> Hb]. cbn [cr_checksum cr_normalized_graph].
    rewrite (stable_sanitize _ Hst). apply wp_bind, wp_bind, wp_lift, wp_ret.
    apply wp_bind, wp_modify, wp_bind, wp_modify, wp_ret. exists v.
    split_and!; try done.
    + intros w Hw. destruct (decide (wv_version v < wv_version w)) as [Hlt|]; [|lia].
      apply versions_of_elem in Hw as (Hw & ? & ?). unfold version_of in Hof.
      apply andb_true_iff in Hof as [?%bool_decide_eq_true ?%bool_decide_eq_true].
      enough (is_published v = true) by congruence.
      apply (cat_one_draft uuid s Hs v w); try done. split; congruence.
    + cbn. unfold bump_schema_version. destruct (Z.ltb_spec (wg_schema_version (wv_graph_json v)) 2); [done|lia].
    + cbn. apply set_row_elem. left. by exists v.
    + eexists. split_and!; [apply set_row_elem; left; exists d; by split_and!|done..].
  - by intros ? ? ->.
Qed.

(** ** A definition from its creation to its second draft *)

#[local] Existing Instance strict_coercions.

Definition empty_session : Session := {|
  se_tables := {| tb_definitions := []; tb_versions := []; tb_automations := []; tb_targets := [];
                  tb_brands := []; tb_profiles := []; tb_brand_accounts := []; tb_accounts := [] |};
  se_uuids := 0; se_audit := [] |}.

Lemma empty_catalogue uuid : catalogue uuid empty_session.
Proof. constructor; cbn; try (intros; set_solver); constructor. Qed.

Definition ex_create : M Session WorkflowDefinition :=
  create_definition Execute.unary_id "T" "Post" "post" None None.
Definition ex_save : M Session WorkflowVersion :=
  save_draft Execute.unary_id "T" (Execute.unary_id 0) Start.ex_graph None None None.
Definition ex_publish : M Session WorkflowVersion :=
  publish (λ g, PyStr.of_Z (wg_schema_version g)) (Execute.en_registry Start.ex_exec) "T" (Execute.unary_id 0)
    None None 7.

Definition ex_session : Session := (ex_save (ex_create empty_session).2).2.

Lemma ex_catalogue : catalogue Execute.unary_id ex_session.
Proof.
  pose proof Execute.unary_id_inj as Hinj.
  assert (kept Execute.unary_id empty_session empty_session) as H by (split; [apply empty_catalogue|by intros v]).
  apply (keeps_snd (kept Execute.unary_id empty_session)); [by apply save_draft_kept|].
  apply keeps_snd; [by apply create_definition_kept|done].
Qed.

(** The stored checksum is the one of schema version 1, the graph has version 2. *)
Example publish_twice :
  (λ v, (wv_version v, wg_schema_version (wv_graph_json v), wv_checksum v)) <$>
    tb_versions (se_tables (ex_save (ex_publish ex_session).2).2) = [(1, 2, Some "1"); (2, 1, None)] ∧
  (ex_publish (ex_publish ex_session).2).1 = Raise (HTTPException 409 "Version already published").
Proof. vm_compute. done. Qed.

Lemma published_versions_frozen_witness :
  ∃ v, v ∈ tb_versions (se_tables (ex_publish ex_session).2) ∧ is_published v = true ∧
       v ∈ tb_versions (se_tables (ex_save (ex_publish ex_session).2).2).
Proof.
  pose (reg := Execute.en_registry Start.ex_exec). pose (sum := λ g, PyStr.of_Z (wg_schema_version g)).
  pose (s1 := (ex_publish ex_session).2).
  destruct (published_versions_frozen Execute.unary_id sum reg ex_session s1 Execute.unary_id_inj ex_catalogue)
    as [Hcat _].
  { apply rtc_once. exact (rev_publish _ sum reg ex_session "T" (Execute.unary_id 0) None None 7). }
  destruct (published_versions_frozen Execute.unary_id sum reg s1 (ex_save s1).2 Execute.unary_id_inj Hcat) as [_ Hf].
  { apply rtc_once. exact (rev_save _ sum reg s1 "T" (Execute.unary_id 0) Start.ex_graph None None None). }
  destruct (tb_versions (se_tables s1)) as [|v l] eqn:E; [by vm_compute in E|].
  assert (is_published v = true) as Hp by (vm_compute in E; injection E as <- _; reflexivity).
  exists v. fold s1. rewrite E. split; [left|]. split; [exact Hp|]. apply Hf; [left|exact Hp].
Defined.

Lemma publish_spec_witness :
  ∃ v s', ex_publish ex_session = (Ok v, s') ∧ v ∈ tb_versions (se_tables s') ∧ 2 <= wg_schema_version (wv_graph_json v).
Proof.
  pose proof (publish_spec Execute.unary_id (λ g, PyStr.of_Z (wg_schema_version g)) (Execute.en_registry Start.ex_exec)
    "T" (Execute.unary_id 0) None None 7 ex_session ex_catalogue) as H. unfold ex_publish.
  revert H. cbv beta delta [wp]. destruct (publish _ _ _ _ _ _ _ ex_session) as [[v|e] s'] eqn:E; intros H;
    [|by vm_compute in E].
  destruct H as (v0 & _ & _ & _ & _ & _ & _ & H2 & _ & Hin & _). exists v, s'. exact (conj eq_refl (conj Hin H2)).
Defined.

End Versioning.
