(* ===== verification/Automations.v ===== *)
(** * Creating and updating automations (automation_service.py,
    automation_repository.py, webhook_trigger_config.py, automation_schemas.py)

    An automation binds a published version to a brand, a trigger and account
    targets.  The operations run on the [Session] of the service; the request
    handler rolls the session back when one of them raises.  Bodies of requests
    are already decoded; pydantic's lax reading of integers and booleans and
    the random endpoint token are arguments. *)
From S2P Require Import Prelude PyStr Json Capabilities Tables Config Bindings RunModels Schedule.
From S2P Require Import Calendar Scheduler Execute Versioning.

Module Automations.
Import Caps Tables Models Schedule Config Bindings Scheduler Versioning.
Local Open Scope string_scope.
Local Open Scope list_scope.
Local Open Scope Z_scope.

(** ** webhook_trigger_config.py *)

Record WebhookTriggerConfig := {
  wc_endpoint_id : string;
  wc_signing_secret_ref : string;
  wc_provider : string;
  wc_signature_header : string;
  wc_timestamp_header : string;
  wc_idempotency_header : string;
  wc_max_skew_seconds : Z;
  wc_require_timestamp : bool;
}.

Definition is_alnum (c : ascii) : bool :=
  let n := PyStr.code c in
  (Nat.leb 48 n && Nat.leb n 57) || (Nat.leb 65 n && Nat.leb n 90) || (Nat.leb 97 n && Nat.leb n 122).

(** [_ENDPOINT_RE] and [_REF_RE], matched against stripped texts. *)
Definition endpoint_re (s : string) : bool :=
  PyStr.all_chars (λ c, is_alnum c || bool_decide (c ∈ ["_"; "-"]%char)) s &&
  Nat.leb 8 (String.length s) && Nat.leb (String.length s) 64.
Definition ref_re (s : string) : bool :=
  PyStr.all_chars (λ c, is_alnum c || bool_decide (c ∈ ["_"; "."; ":"; "/"; "-"]%char)) s &&
  Nat.leb 1 (String.length s) && Nat.leb (String.length s) 256.

(** A text field with its length bounds; without a default it is required. *)
Definition text_field (key : string) (fallback : option string) (shortest longest : nat) (o : dict json)
    : result string :=
  match Dict.get key o with
  | None => match fallback with Some d => mret d | None => Raise (ValidationError "Field required") end
  | Some (JStr s) =>
      if Nat.leb shortest (String.length s) && Nat.leb (String.length s) longest then mret s
      else Raise (ValidationError "String should have a length in its bounds")
  | Some _ => Raise (ValidationError "Input should be a valid string")
  end.

Definition check_endpoint (value : string) : result string :=
  let raw := PyStr.strip value in
  if endpoint_re raw then mret raw
  else Raise (ValidationError "endpoint_id must be 8-64 chars [A-Za-z0-9_-]").

Definition check_secret_ref (value : string) : result string :=
  let raw := PyStr.strip value in
  if existsb (λ tok, PyStr.contains tok (PyStr.lower raw)) ["password"; "secret="; "token="]
  then Raise (ValidationError "signing_secret_ref must be a reference id, not a raw secret")
  else if ref_re raw then mret raw else Raise (ValidationError "invalid signing_secret_ref").

Section webhook_config.
Context (coerce_int : json → option Z) (coerce_bool : json → option bool).

(** [WebhookTriggerConfig.model_validate] *)
Definition parse_webhook_trigger_config (raw : dict json) : result WebhookTriggerConfig :=
  endpoint ← text_field "endpoint_id" None 8 64 raw; endpoint ← check_endpoint endpoint;
  secret_ref ← text_field "signing_secret_ref" None 1 256 raw; secret_ref ← check_secret_ref secret_ref;
  provider ← text_field "provider" (Some "generic_hmac") 0 12 raw;
  _ ← if bool_decide (provider ∈ ["generic_hmac"; "hmac_sha256"]) then mret ()
      else Raise (ValidationError "String should match pattern");
  signature ← text_field "signature_header" (Some "X-SignalForge-Signature") 0 128 raw;
  timestamp ← text_field "timestamp_header" (Some "X-SignalForge-Timestamp") 0 128 raw;
  idempotency ← text_field "idempotency_header" (Some "X-Idempotency-Key") 0 128 raw;
  skew ← match Dict.get "max_skew_seconds" raw with
         | None => mret 300
         | Some v => match coerce_int v with
                     | Some n => if (30 <=? n) && (n <=? 3600) then mret n
                                 else Raise (ValidationError "Input should be between 30 and 3600")
                     | None => Raise (ValidationError "Input should be a valid integer")
                     end
         end;
  require ← match Dict.get "require_timestamp" raw with
            | None => mret true
            | Some v => match coerce_bool v with
                        | Some b => mret b
                        | None => Raise (ValidationError "Input should be a valid boolean")
                        end
            end;
  mret {| wc_endpoint_id := endpoint; wc_signing_secret_ref := secret_ref; wc_provider := provider;
          wc_signature_header := signature; wc_timestamp_header := timestamp;
          wc_idempotency_header := idempotency; wc_max_skew_seconds := skew;
          wc_require_timestamp := require |}.

Definition dump_webhook_config (c : WebhookTriggerConfig) : dict json :=
  [("endpoint_id", JStr (wc_endpoint_id c)); ("signing_secret_ref", JStr (wc_signing_secret_ref c));
   ("provider", JStr (wc_provider c)); ("signature_header", JStr (wc_signature_header c));
   ("timestamp_header", JStr (wc_timestamp_header c)); ("idempotency_header", JStr (wc_idempotency_header c));
   ("max_skew_seconds", JInt (wc_max_skew_seconds c)); ("require_timestamp", JBool (wc_require_timestamp c))].

(** [s.replace(a, "")] *)
Fixpoint remove_char (a : ascii) (s : string) : string :=
  match s with
  | "" => ""
  | String c s' => if bool_decide (c = a) then remove_char a s' else String c (remove_char a s')
  end.

(** [random] is the value of [secrets.token_urlsafe(16)]. *)
Definition new_endpoint_id (random : string) : string :=
  PyStr.take 24 (remove_char "_" (remove_char "-" random)).

Definition BANNED_SECRETS : list string := ["signing_secret"; "secret"; "webhook_secret"; "hmac_secret"].

Definition normalize_webhook_trigger_config (raw : dict json) (existing_endpoint_id : option string)
    (random : string) : result (dict json) :=
  let payload :=
    if Json.truthy (Json.getn "endpoint_id" raw) then raw
    else Dict.set "endpoint_id"
           (JStr (match existing_endpoint_id with
                  | Some e => if PyStr.truthy e then e else new_endpoint_id random
                  | None => new_endpoint_id random end)) raw in
  let ref := Json.getn "signing_secret_ref" payload in
  if negb (Dict.mem "signing_secret_ref" payload) ||
     negb (PyStr.truthy (PyStr.strip (if Json.truthy ref then Json.str ref else "")))
  then Raise (ValueError "signing_secret_ref is required for webhook triggers")
  else
    cfg ← parse_webhook_trigger_config (foldl (λ o banned, Dict.pop banned o) payload BANNED_SECRETS);
    mret (dump_webhook_config cfg).
End webhook_config.

(** ** automation_repository.py *)

Definition integrity_error {A} (constraint : string) : M Session A :=
  raise (OtherException "IntegrityError" constraint).

Definition get_automation (tenant_id automation_id : string) : M Session (option Automation) :=
  s ← get_state; mret (find_automation tenant_id automation_id (se_tables s)).

(** The endpoint of a row is unique among the rows that have one. *)
Definition endpoint_taken (a : Automation) (l : list Automation) : bool :=
  match au_webhook_endpoint_id a with
  | Some e => existsb (λ b, negb (bool_decide (au_id b = au_id a)) &&
                            bool_decide (au_webhook_endpoint_id b = Some e)) l
  | None => false
  end.

Definition add_automation (a : Automation) : M Session unit :=
  s ← get_state;
  if endpoint_taken a (tb_automations (se_tables s)) then integrity_error "uq_automations_webhook_endpoint_id"
  else on_tables (λ t, t <| tb_automations ::= λ l, l ++ [a] |>).

(** A flush of the changed row. *)
Definition write_automation (a : Automation) : M Session unit :=
  s ← get_state;
  if endpoint_taken a (tb_automations (se_tables s)) then integrity_error "uq_automations_webhook_endpoint_id"
  else on_tables (λ t, t <| tb_automations ::= set_row au_id (au_id a) (λ _, a) |>).

Definition target_of (tenant_id automation_id : string) (x : AutomationTarget) : bool :=
  live tenant_id (at_tenant_id x) (at_deleted_at x) && bool_decide (at_automation_id x = automation_id).
Definition list_targets (tenant_id automation_id : string) (t : Tables) : list AutomationTarget :=
  List.filter (target_of tenant_id automation_id) (tb_targets t).

(** The unique (tenant, automation, account) of a target counts deleted rows. *)
Definition target_key (x : AutomationTarget) : string * string * string :=
  (at_tenant_id x, at_automation_id x, at_social_account_id x).

Section service.
Context (uuid : nat → string).

Definition add_target (tenant_id automation_id account_id : string) : M Session unit :=
  i ← fresh_id uuid;
  s ← get_state;
  if existsb (λ x, bool_decide (target_key x = (tenant_id, automation_id, account_id))) (tb_targets (se_tables s))
  then integrity_error "uq_automation_targets_tenant_automation_account"
  else on_tables (λ t, t <| tb_targets ::= λ l, l ++
         [{| at_id := i; at_tenant_id := tenant_id; at_automation_id := automation_id;
             at_social_account_id := account_id; at_enabled := true; at_deleted_at := None;
             at_overrides_json := [] |}] |>).

Definition replace_targets (tenant_id automation_id : string) (social_account_ids : list string) (now : Z)
    : M Session unit :=
  _ ← on_tables (λ t, t <| tb_targets ::= map (λ x,
        if target_of tenant_id automation_id x then x <| at_deleted_at := Some now |> else x) |>);
  mfor social_account_ids (add_target tenant_id automation_id).

(** ** automation_service.py *)

Record AutomationCreateRequest := {
  acr_name : string;
  acr_workflow_definition_id : string;
  acr_workflow_version_id : option string;
  acr_brand_id : option string;
  acr_enabled : bool;
  acr_trigger_type : string;
  acr_trigger_config : dict json;
  acr_timezone : string;
  acr_social_account_ids : list string;
  acr_settings : dict json;
  acr_allow_unlinked_targets : bool;
}.

Record AutomationUpdateRequest := {
  aur_name : option string;
  aur_workflow_version_id : option string;
  aur_brand_id : option string;
  aur_enabled : option bool;
  aur_trigger_type : option string;
  aur_trigger_config : option (dict json);
  aur_timezone : option string;
  aur_social_account_ids : option (list string);
  aur_settings : option (dict json);
  aur_allow_unlinked_targets : bool;
}.

Record AutomationTargetResponse := {
  atr_id : string;
  atr_social_account_id : string;
  atr_enabled : bool;
  atr_overrides_json : dict json;
}.

(** The response has a field for the webhook endpoint that [_to_response] never
    fills; its two timestamps are not kept. *)
Record AutomationResponse := {
  ar_id : string;
  ar_tenant_id : string;
  ar_workflow_definition_id : string;
  ar_workflow_version_id : string;
  ar_brand_id : string;
  ar_name : string;
  ar_enabled : bool;
  ar_trigger_type : string;
  ar_trigger_config : dict json;
  ar_timezone : string;
  ar_next_run_at : option Z;
  ar_last_run_at : option Z;
  ar_settings : dict json;
  ar_webhook_endpoint_id : option string;
  ar_targets : list AutomationTargetResponse;
}.

Definition to_response (tenant_id : string) (row : Automation) (t : Tables) : AutomationResponse :=
  {| ar_id := au_id row; ar_tenant_id := au_tenant_id row;
     ar_workflow_definition_id := au_workflow_definition_id row;
     ar_workflow_version_id := au_workflow_version_id row; ar_brand_id := au_brand_id row;
     ar_name := au_name row; ar_enabled := au_enabled row; ar_trigger_type := au_trigger_type row;
     ar_trigger_config := sanitize_mapping (Some (au_trigger_config row)); ar_timezone := au_timezone row;
     ar_next_run_at := au_next_run_at row; ar_last_run_at := au_last_run_at row;
     ar_settings := sanitize_mapping (Some (au_settings row)); ar_webhook_endpoint_id := None;
     ar_targets := (λ x, {| atr_id := at_id x; atr_social_account_id := at_social_account_id x;
                            atr_enabled := at_enabled x;
                            atr_overrides_json := sanitize_mapping (Some (at_overrides_json x)) |})
                     <$> list_targets tenant_id (au_id row) t |}.

Definition list_brands (tenant_id : string) (t : Tables) : list Brand :=
  List.filter (λ b, live tenant_id (br_tenant_id b) (br_deleted_at b)) (tb_brands t).

Definition default_brand_id (tenant_id : string) (t : Tables) : option string :=
  br_id <$> head (list_brands tenant_id t).

Definition is_webhook (trigger_type : string) : bool := bool_decide (trigger_type ∈ ["webhook"; "event"]).

(** A [ValueError] of the normalization, pydantic's included, answers 422. *)
Definition or_422 {A} (r : result A) : result A :=
  match r with
  | Raise (ValueError m) | Raise (ValidationError m) => Raise (HTTPException 422 m)
  | r => r
  end.

Definition audit_automation (tenant_id : string) (actor : option string) (action automation_id message : string)
    (payload : dict json) : M Session unit :=
  record_audit {| al_tenant_id := Some tenant_id; al_actor_user_id := actor; al_action := action;
                  al_entity_type := "automation"; al_entity_id := Some automation_id; al_message := message;
                  al_payload := payload; al_outcome := Some "success" |}.

(** [str(trigger_config["endpoint_id"])] *)
Definition endpoint_text (cfg : dict json) : string := Json.str (Json.getn "endpoint_id" cfg).

Context (coerce_int : json → option Z) (coerce_bool : json → option bool)
        (croniter : string → ZoneInfo → Z → result cron_time) (zone : string → option ZoneInfo).

Notation normalize := (normalize_webhook_trigger_config coerce_int coerce_bool).

(** The trigger a new automation gets, with its endpoint. *)
Definition created_trigger (payload : AutomationCreateRequest) (random : string)
    : result (dict json * option string) :=
  let trigger_config := sanitize_mapping (Some (acr_trigger_config payload)) in
  if is_webhook (acr_trigger_type payload) then
    cfg ← or_422 (normalize trigger_config None random);
    mret (cfg, Some (endpoint_text cfg))
  else mret (trigger_config, None).

Definition create_automation (tenant_id : string) (payload : AutomationCreateRequest) (actor : option string)
    (now : Z) (random : string) : M Session AutomationResponse :=
  s ← get_state;
  let t := se_tables s in
  definition ← lift match get_definition tenant_id (acr_workflow_definition_id payload) t with
                    | Some d => mret d
                    | None => Raise (HTTPException 404 "Workflow definition not found") end;
  version_id ← lift match acr_workflow_version_id payload with
                    | Some i => mret i
                    | None => match wd_current_version_id definition with
                              | Some i => mret i
                              | None => Raise (HTTPException 400 "Workflow has no published version") end
                    end;
  _ ← lift (require_version_for_definition tenant_id (acr_workflow_definition_id payload) version_id true t);
  brand_id ← lift match acr_brand_id payload with
                  | Some i => mret i
                  | None => match default_brand_id tenant_id t with
                            | Some i => mret i
                            | None => Raise (HTTPException 400 "No brand available for automation") end
                  end;
  _ ← lift (require_active_brand tenant_id brand_id t);
  _ ← lift (authorize_brand_linked_accounts tenant_id brand_id (acr_social_account_ids payload)
              (acr_allow_unlinked_targets payload) t);
  trigger ← lift (created_trigger payload random);
  i ← fresh_id uuid;
  let automation :=
    {| au_id := i; au_tenant_id := tenant_id;
       au_workflow_definition_id := acr_workflow_definition_id payload; au_workflow_version_id := version_id;
       au_brand_id := brand_id; au_name := PyStr.strip (acr_name payload); au_enabled := acr_enabled payload;
       au_trigger_type := acr_trigger_type payload; au_trigger_config := trigger.1;
       au_timezone := acr_timezone payload; au_next_run_at := None; au_last_run_at := None;
       au_deleted_at := None; au_settings := sanitize_mapping (Some (acr_settings payload));
       au_webhook_endpoint_id := trigger.2 |} in
  _ ← add_automation automation;
  _ ← match acr_social_account_ids payload with
      | [] => mret ()
      | ids => replace_targets tenant_id i ids now
      end;
  automation ← lift (sync_schedule_state coerce_int croniter zone automation now true);
  _ ← write_automation automation;
  _ ← audit_automation tenant_id actor "automations.created" i "Automation created"
        [("enabled", JBool (au_enabled automation));
         ("target_count", JInt (Z.of_nat (length (acr_social_account_ids payload))));
         ("workflow_definition_id", JStr (acr_workflow_definition_id payload));
         ("allow_unlinked_targets", JBool (acr_allow_unlinked_targets payload))];
  s ← get_state;
  mret (to_response tenant_id automation (se_tables s)).

(** The trigger part of an update; the type was already assigned. *)
Definition updated_trigger (payload : AutomationUpdateRequest) (random : string) (a : Automation)
    : result Automation :=
  let webhook_now := match aur_trigger_type payload with Some ty => is_webhook ty | None => false end in
  if match aur_trigger_config payload with Some _ => true | None => false end || webhook_now then
    let raw_cfg := match aur_trigger_config payload with
                   | Some c => sanitize_mapping (Some c) | None => au_trigger_config a end in
    if is_webhook (au_trigger_type a) then
      cfg ← or_422 (normalize raw_cfg (au_webhook_endpoint_id a) random);
      mret (a <| au_webhook_endpoint_id := Some (endpoint_text cfg) |> <| au_trigger_config := cfg |>)
    else mret (a <| au_webhook_endpoint_id := None |> <| au_trigger_config := raw_cfg |>)
  else match aur_trigger_type payload with
       | Some ty => if is_webhook ty then mret a else mret (a <| au_webhook_endpoint_id := None |>)
       | None => mret a
       end.

(** The attribute assignments of an update, in order. *)
Definition updated_row (tenant_id : string) (payload : AutomationUpdateRequest) (random : string) (t : Tables)
    (a : Automation) : result Automation :=
  let a := match aur_name payload with Some n => a <| au_name := PyStr.strip n |> | None => a end in
  a ← match aur_workflow_version_id payload with
      | Some i => _ ← require_version_for_definition tenant_id (au_workflow_definition_id a) i true t;
                  mret (a <| au_workflow_version_id := i |>)
      | None => mret a end;
  a ← match aur_brand_id payload with
      | Some i => _ ← require_active_brand tenant_id i t; mret (a <| au_brand_id := i |>)
      | None => mret a end;
  let a := match aur_enabled payload with Some b => a <| au_enabled := b |> | None => a end in
  let a := match aur_trigger_type payload with Some ty => a <| au_trigger_type := ty |> | None => a end in
  a ← updated_trigger payload random a;
  let a := match aur_timezone payload with Some z => a <| au_timezone := z |> | None => a end in
  mret (match aur_settings payload with
        | Some o => a <| au_settings := sanitize_mapping (Some o) |> | None => a end).

Definition is_given {A} (o : option A) : bool := match o with Some _ => true | None => false end.

Definition schedule_dirty (payload : AutomationUpdateRequest) : bool :=
  is_given (aur_enabled payload) || is_given (aur_trigger_type payload) ||
  is_given (aur_trigger_config payload) || is_given (aur_timezone payload).

Definition update_automation (tenant_id automation_id : string) (payload : AutomationUpdateRequest)
    (actor : option string) (now : Z) (random : string) : M Session AutomationResponse :=
  found ← get_automation tenant_id automation_id;
  match found with
  | None => raise (HTTPException 404 "Automation not found")
  | Some row =>
      s ← get_state;
      let t := se_tables s in
      automation ← lift (updated_row tenant_id payload random t row);
      _ ← (if is_given (aur_social_account_ids payload) || is_given (aur_brand_id payload) then
             let target_ids := match aur_social_account_ids payload with
                               | Some ids => ids
                               | None => at_social_account_id <$> list_targets tenant_id (au_id row) t end in
             lift (authorize_brand_linked_accounts tenant_id (au_brand_id automation) target_ids
                     (aur_allow_unlinked_targets payload) t)
           else mret ());
      _ ← match aur_social_account_ids payload with
          | Some ids =>
              _ ← replace_targets tenant_id (au_id row) ids now;
              audit_automation tenant_id actor "automations.targets_changed" (au_id row)
                "Automation targets updated"
                [("target_count", JInt (Z.of_nat (length ids)));
                 ("allow_unlinked_targets", JBool (aur_allow_unlinked_targets payload))]
          | None => mret ()
          end;
      _ ← write_automation automation;
      automation ← (if schedule_dirty payload
                    then a ← lift (sync_schedule_state coerce_int croniter zone automation now true);
                         _ ← write_automation a; mret a
                    else mret automation);
      _ ← match aur_enabled payload with
          | Some b => if Bool.eqb b (au_enabled row) then mret ()
                      else audit_automation tenant_id actor "automations.enabled_changed" (au_id row)
                             "Automation enabled flag changed"
                             [("enabled", JBool (au_enabled automation)); ("previous", JBool (au_enabled row))]
          | None => mret ()
          end;
      s ← get_state;
      mret (to_response tenant_id automation (se_tables s))
  end.

(** [get_db]: the session commits, or rolls back and the exception goes on. *)
Definition transaction {A} (m : M Session A) : M Session A := λ s,
  match m s with
  | (Ok a, s') => (Ok a, s')
  | (Raise e, _) => (Raise e, s)
  end.
End service.

(** ** Targets *)

Section targets.
Context (uuid : nat → string).

Definition target_keys (s : Session) : list (string * string * string) :=
  target_key <$> tb_targets (se_tables s).

(** Adding one target per account succeeds exactly when no key is repeated. *)
Lemma add_targets_spec tenant_id automation_id ids s :
  wp (mfor ids (add_target uuid tenant_id automation_id))
    (λ _ s', NoDup ids ∧ (∀ i, i ∈ ids → (tenant_id, automation_id, i) ∉ target_keys s) ∧
       ∃ rows, s' = s <| se_uuids ::= λ n, (n + length ids)%nat |>
                      <| se_tables ::= λ t, t <| tb_targets ::= λ l, l ++ rows |> |> ∧
         Forall2 (λ i x, target_key x = (tenant_id, automation_id, i) ∧ at_enabled x = true ∧
                         at_deleted_at x = None) ids rows)
    (λ e _, e = OtherException "IntegrityError" "uq_automation_targets_tenant_automation_account") s.
Proof.
  revert s. induction ids as [|i ids IH]; intros s.
  { apply wp_ret. split_and!; [constructor|set_solver|]. exists []. split; [|constructor].
    destruct s as [[] u a]. cbn. by rewrite app_nil_r, Nat.add_0_r. }
  cbn [mfor]. apply wp_bind. unfold add_target. apply wp_fresh_id, wp_bind, wp_get.
  destruct (existsb _ _) eqn:Ex; [by apply wp_raise|]. apply wp_modify.
  eapply wp_mono; [apply IH| |done]. intros [] s' (Hnd & Hfree & rows & -> & Hrows). cbn in Hfree.
  assert ((tenant_id, automation_id, i) ∉ target_keys s) as Hi.
  { apply existsb_False_Forall in Ex. rewrite Forall_forall in Ex. intros (x & Hx & Hin)%list_elem_of_fmap.
    specialize (Ex x Hin). cbn in Ex. by rewrite bool_decide_eq_true_2 in Ex. }
  unfold target_keys in Hfree. cbn in Hfree. split_and!.
  - constructor; [|done]. intros Hin. apply (Hfree i Hin). rewrite fmap_app. apply elem_of_app. right. by left.
  - intros j [->|Hj]%elem_of_cons; [done|]. intros Hin. apply (Hfree j Hj). rewrite fmap_app. apply elem_of_app. by left.
  - match goal with |- context [[?x]] => exists (x :: rows) end. split.
    + destruct s as [[] u a]. cbn. rewrite <- app_assoc. cbn. rewrite Nat.add_succ_r. reflexivity.
    + by constructor.
Qed.

Lemma replace_targets_spec tenant_id automation_id ids now s :
  wp (replace_targets uuid tenant_id automation_id ids now)
    (λ _ s', NoDup ids ∧ (∀ i, i ∈ ids → (tenant_id, automation_id, i) ∉ target_keys s) ∧
       ∃ rows, s' = s <| se_uuids ::= λ n, (n + length ids)%nat |>
                      <| se_tables ::= λ t, t <| tb_targets ::= λ l, map (λ x,
                           if target_of tenant_id automation_id x then x <| at_deleted_at := Some now |> else x) l
                           ++ rows |> |> ∧
         Forall2 (λ i x, target_key x = (tenant_id, automation_id, i) ∧ at_enabled x = true ∧
                         at_deleted_at x = None) ids rows)
    (λ e _, e = OtherException "IntegrityError" "uq_automation_targets_tenant_automation_account") s.
Proof.
  unfold replace_targets. apply wp_bind, wp_modify. eapply wp_mono; [apply add_targets_spec| |done].
  intros [] s' (Hnd & Hfree & rows & -> & Hrows). split; [done|]. split; [|by exists rows].
  intros i Hi Hin. apply (Hfree i Hi). unfold target_keys in *. cbn.
  change (map ?f ?l) with (f <$> l). rewrite <- list_fmap_compose.
  erewrite list_fmap_ext; [exact Hin|]. intros ? x _. cbn. by destruct (target_of _ _ x).
Qed.

End targets.

Section calls.
Context (uuid : nat → string) (coerce_int : json → option Z) (coerce_bool : json → option bool)
        (croniter : string → Schedule.ZoneInfo → Z → result Schedule.cron_time)
        (zone : string → option Schedule.ZoneInfo).

Notation create := (create_automation uuid coerce_int coerce_bool croniter zone).
Notation update := (update_automation uuid coerce_int coerce_bool croniter zone).

(** The targets of an automation cannot be edited: an update that lists an
    account the automation has, or once had, always raises, because the
    replaced rows are only marked deleted while the unique constraint on
    (tenant, automation, account) counts them. *)
Theorem update_cannot_keep_a_target tenant_id automation_id payload actor now random s ids i :
  aur_social_account_ids payload = Some ids → i ∈ ids →
  (tenant_id, automation_id, i) ∈ target_keys s →
  ∃ e, transaction (update tenant_id automation_id payload actor now random) s = (Raise e, s).
Proof.
  intros Hids Hi Hkey.
  enough (wp (update tenant_id automation_id payload actor now random) (λ _ _, False) (λ _ _, True) s) as H.
  { unfold wp in H. unfold transaction. destruct (update _ _ _ _ _ _ s) as [[] s']; [done|by eexists]. }
  unfold update_automation. apply wp_bind. unfold get_automation. apply wp_bind, wp_get, wp_ret.
  destruct (find_automation _ _ _) as [row|] eqn:Hrow; [|by apply wp_raise].
  apply find_Some_elem in Hrow as [_ [_ Hid%bool_decide_eq_true]%andb_true_iff].
  apply wp_bind, wp_get, wp_bind, wp_lift. destruct (updated_row _ _ _ _ _ _ _) as [a|]; [|done].
  apply wp_bind, (wp_mono _ (λ _ s', s' = s) _ (λ _ _, True)); [| |done].
  { destruct (_ || _); [|done]. apply wp_lift. by destruct (authorize_brand_linked_accounts _ _ _ _ _). }
  intros _ s' ->. rewrite Hids. apply wp_bind, wp_bind.
  eapply wp_mono; [apply replace_targets_spec| |done]. intros [] s' (_ & Hfree & _).
  rewrite Hid in Hfree. by destruct (Hfree i Hi).
Qed.

(** ** Webhook triggers *)

Definition no_ref (o : dict json) : Prop := Dict.get "signing_secret_ref" o = None.

(** Neither a webhook automation nor one that could become one. *)
Definition plain (a : Automation) : Prop :=
  is_webhook (au_trigger_type a) = false ∧ au_webhook_endpoint_id a = None ∧ no_ref (au_trigger_config a).

Lemma sanitized_no_ref o : no_ref (sanitize_mapping o).
Proof. unfold no_ref, sanitize_mapping. apply get_strip_secret. vm_compute. reflexivity. Qed.

Lemma normalize_no_ref raw existing random :
  no_ref raw →
  normalize_webhook_trigger_config coerce_int coerce_bool raw existing random =
    Raise (ValueError "signing_secret_ref is required for webhook triggers").
Proof.
  intros H. unfold normalize_webhook_trigger_config.
  assert (∀ p : dict json, Dict.get "signing_secret_ref" p = None → Dict.mem "signing_secret_ref" p = false) as Hm.
  { intros p Hp. unfold Dict.mem. by rewrite Hp. }
  destruct (Json.truthy (Json.getn "endpoint_id" raw)); rewrite Hm; try done.
  by rewrite Dict.get_set_ne.
Qed.

Lemma created_trigger_plain payload random r :
  created_trigger coerce_int coerce_bool payload random = Ok r →
  is_webhook (acr_trigger_type payload) = false ∧ r = (sanitize_mapping (Some (acr_trigger_config payload)), None).
Proof.
  unfold created_trigger. destruct (is_webhook _); [|by intros [= <-]].
  rewrite normalize_no_ref; [done|apply sanitized_no_ref].
Qed.

(** The row of an automation under the update of its trigger. *)
Lemma updated_trigger_plain payload random a a' :
  au_webhook_endpoint_id a = None → no_ref (au_trigger_config a) →
  (aur_trigger_type payload = None → is_webhook (au_trigger_type a) = false) →
  (∀ ty, aur_trigger_type payload = Some ty → au_trigger_type a = ty) →
  updated_trigger coerce_int coerce_bool payload random a = Ok a' → plain a'.
Proof.
  intros He Hc Hnone Hsome. unfold updated_trigger.
  assert (no_ref (match aur_trigger_config payload with Some c => sanitize_mapping (Some c)
                  | None => au_trigger_config a end)) as Hraw.
  { destruct (aur_trigger_config payload); [apply sanitized_no_ref|done]. }
  destruct (match aur_trigger_config payload with Some _ => true | None => false end || _) eqn:Eor.
  - destruct (is_webhook (au_trigger_type a)) eqn:Ew; [by rewrite normalize_no_ref|]. by intros [= <-].
  - destruct (aur_trigger_type payload) as [ty|]; [|by intros [= <-]; split; [apply Hnone|]].
    destruct (is_webhook ty) eqn:Ety; intros [= <-].
    + by rewrite orb_true_r in Eor.
    + split; [by rewrite (Hsome ty)|done].
Qed.


(** What a successful update of the row is. *)
Lemma updated_row_plain tenant_id payload random t a a' :
  plain a → updated_row coerce_int coerce_bool tenant_id payload random t a = Ok a' →
  plain a' ∧ au_id a' = au_id a.
Proof.
  intros (H1 & H2 & H3). unfold updated_row, mbind, result_bind.
  set (a0 := match aur_name payload with Some n => _ | None => a end).
  assert (plain a0 ∧ au_id a0 = au_id a) as [Ha0 Hi0] by (unfold a0; by destruct (aur_name payload)).
  clearbody a0. clear H1 H2 H3.
  destruct (match aur_workflow_version_id payload with Some _ => _ | None => _ end) as [a1|] eqn:E1; [|done].
  assert (plain a1 ∧ au_id a1 = au_id a0) as [Ha1 Hi1].
  { destruct (aur_workflow_version_id payload); [|by injection E1 as <-].
    destruct (require_version_for_definition _ _ _ _ _); [by injection E1 as <-|done]. }
  clear E1. destruct (match aur_brand_id payload with Some _ => _ | None => _ end) as [a2|] eqn:E2; [|done].
  assert (plain a2 ∧ au_id a2 = au_id a1) as [Ha2 Hi2].
  { destruct (aur_brand_id payload); [|by injection E2 as <-].
    destruct (require_active_brand _ _ _); [by injection E2 as <-|done]. }
  clear E2. set (a3 := match aur_enabled payload with Some b => _ | None => a2 end).
  assert (plain a3 ∧ au_id a3 = au_id a2) as [(Ht3 & He3 & Hc3) Hi3] by (unfold a3; by destruct (aur_enabled payload)).
  clearbody a3. set (a4 := match aur_trigger_type payload with Some ty => _ | None => a3 end).
  destruct (updated_trigger coerce_int coerce_bool payload random a4) as [a5|] eqn:E5; [|done].
  assert (plain a5 ∧ au_id a5 = au_id a4) as [Ha5 Hi5].
  { split; [eapply updated_trigger_plain; [..|exact E5]; unfold a4; by destruct (aur_trigger_type payload); intros; simplify_eq|].
    revert E5. clear. unfold updated_trigger, mbind, result_bind, or_422.
    repeat (case_match; try done); by intros [= <-]. }
  assert (au_id a4 = au_id a3) as Hi4 by (unfold a4; by destruct (aur_trigger_type payload)).
  assert (au_id a5 = au_id a) as Hi by congruence.
  clear - Ha5 Hi. intros [= <-]. destruct (aur_timezone payload), (aur_settings payload); by split.
Qed.

Lemma sync_plain a now force a' :
  sync_schedule_state coerce_int croniter zone a now force = Ok a' → plain a → plain a' ∧ au_id a' = au_id a.
Proof.
  unfold sync_schedule_state, mbind, result_bind. destruct (negb (au_enabled a)); [by intros [= <-]|].
  destruct (negb _); [by intros [= <-]|]. destruct (_ || _); [|by intros [= <-]].
  destruct (compute_next _ _ _ _ _); [by intros [= <-]|done].
Qed.

Definition all_plain (s : Session) : Prop := ∀ a, a ∈ tb_automations (se_tables s) → plain a.

Lemma write_plain a : plain a → keeps all_plain (write_automation a).
Proof.
  intros Ha. apply keeps_get. intros s Hs. destruct (endpoint_taken _ _); [by apply wp_raise|].
  apply wp_modify. intros b. cbn. intros [(x & _ & _ & ->)|[Hb _]]%set_row_elem; [done|by apply Hs].
Qed.

Lemma add_plain a : plain a → keeps all_plain (add_automation a).
Proof.
  intros Ha. apply keeps_get. intros s Hs. destruct (endpoint_taken _ _); [by apply wp_raise|].
  apply wp_modify. intros b. cbn. intros [Hb| ->%list_elem_of_singleton]%elem_of_app; [by apply Hs|done].
Qed.

Lemma replace_targets_plain tenant_id automation_id ids now :
  keeps all_plain (replace_targets uuid tenant_id automation_id ids now).
Proof.
  apply keeps_bind; [by apply keeps_modify|]. intros _. apply keeps_mfor. intros i _.
  unfold add_target. intros s Hs. apply wp_fresh_id, wp_bind, wp_get. destruct (existsb _ _); [by apply wp_raise|].
  by apply wp_modify.
Qed.

Lemma audit_plain tenant_id actor action i message payload :
  keeps all_plain (audit_automation tenant_id actor action i message payload).
Proof. by apply keeps_modify. Qed.

Lemma create_plain tenant_id payload actor now random : keeps all_plain (create tenant_id payload actor now random).
Proof.
  apply keeps_get. intros s Hs. cbv zeta.
  do 6 (apply wp_keep; [apply keeps_lift|done|intros ? ? ?]).
  apply wp_bind, wp_lift. destruct (created_trigger _ _ _ _) as [r|] eqn:Hr; [|done].
  apply created_trigger_plain in Hr as [Hw ->]. apply wp_fresh_id. cbn [fst snd].
  set (row := Build_Automation _ _ _ _ _ _ _ _ _ _ _ _ _ _ _).
  assert (plain row) as Hrow by (split_and!; [done|done|apply sanitized_no_ref]).
  apply wp_keep; [by apply add_plain|done|intros [] ? ?].
  apply wp_keep; [|done|intros [] ? ?].
  { destruct (acr_social_account_ids payload); [apply keeps_ret|apply replace_targets_plain]. }
  apply wp_bind, wp_lift. destruct (sync_schedule_state _ _ _ _ _ _) as [row'|] eqn:Hsync; [|done].
  apply sync_plain in Hsync as [Hrow' _]; [|done].
  apply wp_keep; [by apply write_plain|done|intros [] ? ?].
  apply wp_keep; [apply audit_plain|done|intros [] ? ?]. by apply wp_bind, wp_get, wp_ret.
Qed.

Lemma update_plain tenant_id automation_id payload actor now random :
  keeps all_plain (update tenant_id automation_id payload actor now random).
Proof.
  intros s Hs. unfold update_automation. apply wp_bind. unfold get_automation. apply wp_bind, wp_get, wp_ret.
  destruct (find_automation _ _ _) as [row|] eqn:Hrow; [|by apply wp_raise].
  apply find_Some_elem in Hrow as [Hin _]. apply wp_bind, wp_get, wp_bind, wp_lift.
  destruct (updated_row _ _ _ _ _ _ _) as [a|] eqn:Ha; [|done].
  apply updated_row_plain in Ha as [Ha _]; [|by apply Hs].
  apply wp_keep; [|done|intros [] ? ?].
  { destruct (_ || _); [apply keeps_lift|apply keeps_ret]. }
  apply wp_keep; [|done|intros [] ? ?].
  { destruct (aur_social_account_ids payload); [|apply keeps_ret].
    apply keeps_bind; [apply replace_targets_plain|intros _; apply audit_plain]. }
  apply wp_keep; [by apply write_plain|done|intros [] ? ?].
  apply wp_keep; [|done|intros a' ? ?].
  { destruct (schedule_dirty payload); [|apply keeps_ret]. intros s' Hs'. apply wp_bind, wp_lift.
    destruct (sync_schedule_state _ _ _ _ _ _) as [row'|] eqn:Hsync; [|done].
    apply sync_plain in Hsync as [Hrow' _]; [|done].
    apply wp_keep; [by apply write_plain|done|intros; by apply wp_ret]. }
  apply wp_keep; [|done|intros [] ? ?].
  { destruct (aur_enabled payload); [|apply keeps_ret]. destruct (Bool.eqb _ _); [apply keeps_ret|apply audit_plain]. }
  by apply wp_bind, wp_get, wp_ret.
Qed.

(** ** What a new automation is *)

(** Random ids are not in use. *)
Definition fresh_ids (s : Session) : Prop := ∀ n, (se_uuids s ≤ n)%nat →
  uuid n ∉ au_id <$> tb_automations (se_tables s) ∧ uuid n ∉ at_automation_id <$> tb_targets (se_tables s).

Lemma wp_transaction {A} (m : M Session A) Q s :
  wp m Q (λ _ _, True) s → wp (transaction m) Q (λ _ s', s' = s) s.
Proof. unfold wp, transaction. by destruct (m s) as [[] s']. Qed.

Lemma wp_lift_ok {A B} (r : result A) (k : A → M Session B) Q s :
  (∀ a, r = Ok a → wp (k a) Q (λ _ _, True) s) → wp (lift r ≫= k) Q (λ _ _, True) s.
Proof. intros H. apply wp_bind, wp_lift. destruct r; [by apply H|done]. Qed.

(** Both writes of a row that is last in its table. *)
Lemma wp_add_last {A} a (k : unit → M Session A) Q s :
  wp (k ()) Q (λ _ _, True) (s <| se_tables ::= λ t, t <| tb_automations ::= λ l, l ++ [a] |> |>) →
  wp (add_automation a ≫= k) Q (λ _ _, True) s.
Proof.
  intros H. apply wp_bind. unfold add_automation. apply wp_bind, wp_get.
  destruct (endpoint_taken _ _); [by apply wp_raise|by apply wp_modify].
Qed.

Lemma set_row_last (a b : Automation) l :
  au_id b = au_id a → au_id a ∉ au_id <$> l → set_row au_id (au_id b) (λ _, b) (l ++ [a]) = l ++ [b].
Proof.
  intros Hab Hl. unfold set_row. rewrite fmap_app. cbn. rewrite bool_decide_eq_true_2 by done. f_equal.
  induction l as [|x l IH]; [done|]. rewrite fmap_cons in *. apply not_elem_of_cons in Hl as [Hx Hl].
  rewrite bool_decide_eq_false_2 by congruence. f_equal. by apply IH.
Qed.

Lemma unowned_targets tenant_id i now l : i ∉ at_automation_id <$> l →
  map (λ x, if target_of tenant_id i x then x <| at_deleted_at := Some now |> else x) l = l.
Proof.
  induction l as [|x l IH]; [done|]. rewrite fmap_cons, not_elem_of_cons. intros [Hx Hl]. cbn [map].
  unfold target_of. rewrite (bool_decide_eq_false_2 (at_automation_id x = i)) by congruence.
  rewrite andb_false_r. f_equal. by apply IH.
Qed.

(** The next run a schedule gives a row. *)
Definition scheduled (now : Z) (row : Automation) : Prop :=
  if au_enabled row && String.eqb (au_trigger_type row) SCHEDULE
  then compute_next coerce_int croniter zone (row <| au_next_run_at := None |>) now =
         match au_next_run_at row with Some n => Ok n | None => Raise (ValueError "") end
       ∧ is_Some (au_next_run_at row)
  else au_next_run_at row = None.

Lemma sync_scheduled now a b :
  au_next_run_at a = None → sync_schedule_state coerce_int croniter zone a now true = Ok b →
  scheduled now b ∧ ∃ n, b = a <| au_next_run_at := n |>.
Proof.
  intros Hn. unfold sync_schedule_state, scheduled, mbind, result_bind.
  destruct (au_enabled a) eqn:Ee; cbn [negb]; [|intros [= <-]; split; [cbn; by rewrite Ee|by eexists]].
  destruct (String.eqb _ SCHEDULE) eqn:Et; cbn [negb]; [|intros [= <-]; split; [cbn; by rewrite Ee, Et|by eexists]].
  destruct (compute_next _ _ _ a now) as [n|] eqn:Ec; [|done]. intros [= <-]. split; [|by eexists].
  cbn. rewrite Ee, Et. split; [|by eexists]. exact Ec.
Qed.

(** A created automation is sound.  Creation either raises and leaves no
    trace, or appends one row and one audit event: the version is a published
    one of the definition, the brand is live, each listed account got exactly
    one enabled target, is a usable account of the tenant and is linked to the
    brand unless that was waived, trigger and settings hold no secret, and the
    next run is the one the schedule gives, if any.  No other row of the
    tables changes. *)
Theorem create_automation_spec tenant_id payload actor now random s :
  fresh_ids s →
  let t := se_tables s in
  wp (transaction (create tenant_id payload actor now random))
    (λ response s', ∃ row targets log,
       tb_automations (se_tables s') = tb_automations t ++ [row] ∧
       tb_targets (se_tables s') = tb_targets t ++ targets ∧ se_audit s' = se_audit s ++ [log] ∧
       tb_versions (se_tables s') = tb_versions t ∧ tb_definitions (se_tables s') = tb_definitions t ∧
       response = to_response tenant_id row (se_tables s') ∧
       al_action log = "automations.created" ∧ al_entity_id log = Some (au_id row) ∧
       au_tenant_id row = tenant_id ∧ au_name row = PyStr.strip (acr_name payload) ∧
       au_enabled row = acr_enabled payload ∧ au_trigger_type row = acr_trigger_type payload ∧
       (∃ v, get_version tenant_id (au_workflow_version_id row) t = Some v ∧ is_Some (wv_published_at v) ∧
             wv_workflow_definition_id v = au_workflow_definition_id row) ∧
       is_Some (find_brand tenant_id (au_brand_id row) t) ∧
       Forall2 (λ i x, target_key x = (tenant_id, au_id row, i) ∧ at_enabled x = true ∧ at_deleted_at x = None)
         (acr_social_account_ids payload) targets ∧ NoDup (acr_social_account_ids payload) ∧
       (∀ i, i ∈ acr_social_account_ids payload → usable tenant_id i t ∧
          (acr_allow_unlinked_targets payload = false →
             i ∈ bsa_social_account_id <$> brand_links tenant_id (au_brand_id row)
                   (acr_social_account_ids payload) t)) ∧
       clean (JObj (au_trigger_config row)) = true ∧ clean (JObj (au_settings row)) = true ∧
       scheduled now row)
    (λ _ s', s' = s) s.
Proof.
  intros Hfresh t. apply wp_transaction. apply wp_bind, wp_get. fold t.
  apply wp_lift_ok. intros definition _. apply wp_lift_ok. intros version_id _.
  apply wp_lift_ok. intros v (Hv & Hvd & Hvp)%require_version_Ok.
  apply wp_lift_ok. intros brand_id _. apply wp_lift_ok. intros b Hb%require_brand_Ok.
  apply wp_lift_ok. intros [] Hauth. apply wp_lift_ok. intros r [_ ->]%created_trigger_plain.
  destruct (Hfresh (se_uuids s)) as [Hf1 Hf2]; [done|].
  apply wp_fresh_id. cbn [fst snd]. set (row := Build_Automation _ _ _ _ _ _ _ _ _ _ _ _ _ _ _).
  apply wp_add_last. set (s1 := _ <| se_tables ::= _ |>).
  apply wp_bind, (wp_mono _ (λ _ s2, NoDup (acr_social_account_ids payload) ∧ ∃ rows n,
    s2 = s1 <| se_uuids := n |> <| se_tables ::= λ t, t <| tb_targets ::= λ l, l ++ rows |> |> ∧
    Forall2 (λ i x, target_key x = (tenant_id, au_id row, i) ∧ at_enabled x = true ∧ at_deleted_at x = None)
      (acr_social_account_ids payload) rows) _ (λ _ _, True)); [| |done].
  { destruct (acr_social_account_ids payload) as [|i0 ids0].
    - apply wp_ret. split; [constructor|]. exists [], (se_uuids s1). split; [|constructor].
      destruct s as [[] ? ?]. unfold s1. cbn. by rewrite app_nil_r.
    - eapply wp_mono; [apply replace_targets_spec| |done]. intros [] s2 (Hnd & _ & rows & -> & Hrows).
      split; [done|]. exists rows, (se_uuids s1 + length (i0 :: ids0))%nat. split; [|done].
      pose proof (unowned_targets tenant_id (uuid (se_uuids s)) now (tb_targets (se_tables s1)) Hf2) as E.
      unfold s1 in *. clear - E. destruct s as [[] ? ?]. cbn in E |- *. by rewrite E. }
  intros [] s2 (Hnd & rows & n & -> & Hrows). apply wp_lift_ok. intros row' Hsync.
  apply sync_scheduled in Hsync as [Hsched [next ->]]; [|done].
  apply wp_bind. unfold write_automation at 1. apply wp_bind, wp_get.
  destruct (endpoint_taken _ _); [by apply wp_raise|]. apply wp_modify, wp_bind, wp_modify, wp_bind, wp_get, wp_ret.
  set (row' := row <| au_next_run_at := next |>) in *. exists row', rows. eexists. split_and!; [|reflexivity|reflexivity|reflexivity|reflexivity|reflexivity|..]; try done.
  - pose proof (set_row_last row row' (tb_automations t) eq_refl Hf1) as E. exact E.
  - by exists v.
  - by apply (authorize_brand_linked_Ok _ _ _ _ _ Hauth).
  - apply strip_dict_clean.
  - apply strip_dict_clean.
Qed.

(** A request to the service, in its transaction. *)
Inductive automation_request (s : Session) : Session → Prop :=
  | req_create tenant_id payload actor now random :
      automation_request s (transaction (create tenant_id payload actor now random) s).2
  | req_update tenant_id automation_id payload actor now random :
      automation_request s (transaction (update tenant_id automation_id payload actor now random) s).2.

Lemma transaction_plain {A} (m : M Session A) : keeps all_plain m → keeps all_plain (transaction m).
Proof.
  intros H s Hs. specialize (H s Hs). unfold wp, transaction in *. by destruct (m s) as [[] s'].
Qed.

(** No automation can get a webhook or event trigger.  Starting from tables
    without such automations, every history of create and update requests
    leaves none: the trigger configuration is stripped of secret-looking keys
    before the required key signing_secret_ref, which is one, is looked up.
    So a create request for such a trigger never succeeds, in any state. *)
Theorem no_webhook_automations s s' :
  rtc automation_request s s' → all_plain s →
  all_plain s' ∧
  ∀ tenant_id payload actor now random, is_webhook (acr_trigger_type payload) = true →
    ∃ e, transaction (create tenant_id payload actor now random) s' = (Raise e, s').
Proof.
  intros Hsteps Hs. split.
  - revert Hs. induction Hsteps as [s|s s1 s' Hstep _ IH]; [done|]. intros Hs. apply IH.
    destruct Hstep; apply keeps_snd; try done; apply transaction_plain; [apply create_plain|apply update_plain].
  - intros tenant_id payload actor now random Hw.
    assert (wp (create tenant_id payload actor now random) (λ _ _, False) (λ _ _, True) s') as H.
    { apply wp_bind, wp_get. cbv zeta. do 6 (apply wp_lift_ok; intros ? _). apply wp_lift_ok.
      intros r [Hr _]%created_trigger_plain. congruence. }
    unfold wp in H. unfold transaction. destruct (create _ _ _ _ _ s') as [[] ?]; [done|by eexists].
Qed.
End calls.

(** ** A brand, an account and a published version *)

Definition ex_account : SocialAccount :=
  {| sa_id := "acc"; sa_tenant_id := "T"; sa_platform := "x"; sa_display_name := "X"; sa_handle := None; sa_settings := []; sa_status := "active"; sa_capability_flags := [];
     sa_deleted_at := None |}.
Definition ex_brand : Brand :=
  {| br_id := "B"; br_tenant_id := "T"; br_name := "Brand"; br_niche := "n"; br_style_guide := [];
     br_allowed_topics := []; br_blocked_topics := []; br_target_platforms := []; br_risk_policy := [];
     br_posting_policy := []; br_deleted_at := None |}.
Definition ex_link : BrandSocialAccount :=
  {| bsa_tenant_id := "T"; bsa_brand_id := "B"; bsa_social_account_id := "acc"; bsa_enabled := true;
     bsa_default_content_format := None; bsa_generation_overrides := []; bsa_publishing_policy := [];
     bsa_platform_policy := []; bsa_deleted_at := None |}.

Definition ex_office : Session :=
  (ex_publish ex_session).2 <| se_tables ::= λ t,
    {| tb_definitions := tb_definitions t; tb_versions := tb_versions t; tb_automations := []; tb_targets := [];
       tb_brands := [ex_brand]; tb_profiles := []; tb_brand_accounts := [ex_link]; tb_accounts := [ex_account] |} |>.

Definition ex_request (trigger_type : string) (config : dict json) : AutomationCreateRequest :=
  {| acr_name := " Daily "; acr_workflow_definition_id := Execute.unary_id 0; acr_workflow_version_id := None;
     acr_brand_id := None; acr_enabled := true; acr_trigger_type := trigger_type; acr_trigger_config := config;
     acr_timezone := "UTC"; acr_social_account_ids := ["acc"]; acr_settings := [];
     acr_allow_unlinked_targets := false |}.

Definition ex_coerce_bool (v : json) : option bool := match v with JBool b => Some b | _ => None end.
Definition ex_make (request : AutomationCreateRequest) : M Session AutomationResponse :=
  transaction (create_automation Execute.unary_id ex_coerce ex_coerce_bool no_cron ex_zone "T" request None
    1000000000 "AAAABBBBCCCCDDDDEEEEFF").
Definition ex_every : AutomationCreateRequest :=
  ex_request "schedule" [("kind", JStr "interval"); ("every_seconds", JInt 90)].
Definition ex_hook : AutomationCreateRequest :=
  ex_request "webhook" [("endpoint_id", JStr "endpoint_1"); ("signing_secret_ref", JStr "refs/webhook")].
Definition ex_retarget (ids : list string) : AutomationUpdateRequest :=
  {| aur_name := None; aur_workflow_version_id := None; aur_brand_id := None; aur_enabled := None;
     aur_trigger_type := None; aur_trigger_config := None; aur_timezone := None;
     aur_social_account_ids := Some ids; aur_settings := None; aur_allow_unlinked_targets := false |}.
Definition ex_made : Session := (ex_make ex_every ex_office).2.

Example automation_requests :
  (λ a, (au_name a, au_brand_id a, au_next_run_at a)) <$> tb_automations (se_tables ex_made)
    = [("Daily", "B", Some 1090000000)] ∧
  (λ x, (at_social_account_id x, at_enabled x)) <$> tb_targets (se_tables ex_made) = [("acc", true)] ∧
  (ex_make ex_hook ex_office).1 =
    Raise (HTTPException 422 "signing_secret_ref is required for webhook triggers") ∧
  (transaction (update_automation Execute.unary_id ex_coerce ex_coerce_bool no_cron ex_zone "T"
     (Execute.unary_id 2) (ex_retarget ["acc"]) None 1 "") ex_made).1 =
    Raise (OtherException "IntegrityError" "uq_automation_targets_tenant_automation_account").
Proof. vm_compute. done. Qed.

Lemma ex_fresh_ids : fresh_ids Execute.unary_id ex_office.
Proof. intros n _. split; apply not_elem_of_nil. Qed.

Lemma create_automation_spec_witness :
  ∃ response s' row, ex_make ex_every ex_office = (Ok response, s') ∧
    tb_automations (se_tables s') = [row] ∧ is_Some (find_brand "T" (au_brand_id row) (se_tables ex_office)).
Proof.
  pose proof (create_automation_spec Execute.unary_id ex_coerce ex_coerce_bool no_cron ex_zone "T" ex_every None
    1000000000 "AAAABBBBCCCCDDDDEEEEFF" ex_office ex_fresh_ids) as H. unfold ex_make.
  revert H. cbv beta zeta delta [wp]. destruct (transaction _ ex_office) as [[response|e] s'] eqn:E; intros H;
    [|by vm_compute in E].
  destruct H as (row & targets & log & H1 & _ & _ & _ & _ & _ & _ & _ & _ & _ & _ & _ & _ & Hb & _).
  exists response, s', row. exact (conj eq_refl (conj H1 Hb)).
Defined.

Lemma update_cannot_keep_a_target_witness :
  ∃ e, transaction (update_automation Execute.unary_id ex_coerce ex_coerce_bool no_cron ex_zone "T"
    (Execute.unary_id 2) (ex_retarget ["acc"]) None 1 "") ex_made = (Raise e, ex_made).
Proof.
  apply (update_cannot_keep_a_target Execute.unary_id ex_coerce ex_coerce_bool no_cron ex_zone "T" _ _ _ _ _ _ ["acc"] "acc").
  - reflexivity.
  - left.
  - apply (bool_decide_unpack _). vm_compute. exact I.
Defined.

Lemma no_webhook_automations_witness :
  all_plain ex_made ∧ ∃ e, ex_make ex_hook ex_made = (Raise e, ex_made).
Proof.
  destruct (no_webhook_automations Execute.unary_id ex_coerce ex_coerce_bool no_cron ex_zone ex_office ex_made) as [H1 H2].
  - apply rtc_once. exact (req_create _ _ _ _ _ ex_office "T" ex_every None 1000000000 "AAAABBBBCCCCDDDDEEEEFF").
  - intros a Ha. by apply not_elem_of_nil in Ha.
  - split; [exact H1|]. by apply H2.
Defined.

End Automations.
