(* ===== verification/Inbox.v ===== *)
(** * Received webhooks and the world of the background jobs
    (approvals/models.py, approvals/repository.py)

    The inbox rows with every column, the queries on them, and the state the
    webhook ingress, the retention job and the task ledger share: the engine's
    store, the other tables, the broker, the replay keys and the archive. *)
From S2P Require Import Prelude PyStr Json Tables RunModels.

Module Inbox.
Import Tables Models.
Local Open Scope string_scope.
Local Open Scope list_scope.
Local Open Scope Z_scope.

Record WebhookInbox := {
  wi_id : string;
  wi_tenant_id : option string;
  wi_provider : string;
  wi_event_type : string;
  wi_dedupe_key : string;
  wi_payload : dict json;
  wi_received_at : option Z;
  wi_processed_at : option Z;
  wi_signature_valid : bool;
  wi_status : string;
  wi_error_message : option string;
}.
#[global] Instance eta_WebhookInbox : Settable WebhookInbox :=
  mk_settable _ (λ r, Build_WebhookInbox (wi_id r) (wi_tenant_id r) (wi_provider r) (wi_event_type r)
    (wi_dedupe_key r) (wi_payload r) (wi_received_at r) (wi_processed_at r) (wi_signature_valid r)
    (wi_status r) (wi_error_message r)).
#[global] Instance WebhookInbox_eq_dec : EqDecision WebhookInbox.
Proof. solve_decision. Defined.

(** Rows live in [ow_store], [ow_tables] and [ow_inbox].  The rest is outside
    the database: the inbox ids handed to the broker, the replay keys of Redis
    with their expiry, the objects of the archive. *)
Record OpsWorld := {
  ow_store : Store;
  ow_tables : Tables;
  ow_inbox : list WebhookInbox;
  ow_inbox_tasks : list string;
  ow_replay : list (string * Z);
  ow_objects : list (string * string);
}.
#[global] Instance eta_OpsWorld : Settable OpsWorld :=
  mk_settable _ (λ r, Build_OpsWorld (ow_store r) (ow_tables r) (ow_inbox r) (ow_inbox_tasks r)
    (ow_replay r) (ow_objects r)).

Definition empty_tables : Tables := Build_Tables [] [] [] [] [] [] [] [].

(** A call on the engine's store. *)
Definition on_store {A} (m : M Store A) : M OpsWorld A :=
  λ w, let '(r, st) := m (ow_store w) in (r, w <| ow_store := st |>).

(** [db.rollback()]: the rows are those of before; sent messages, drawn ids and
    what is outside the database stay. *)
Definition rolled_back (before after : OpsWorld) : OpsWorld :=
  after <| ow_store := ow_store before <| st_tasks := st_tasks (ow_store after) |>
                                       <| st_uuids := st_uuids (ow_store after) |> |>
        <| ow_tables := ow_tables before |> <| ow_inbox := ow_inbox before |>.

(** A session that ends with the call: commit, or rollback and raise. *)
Definition atomic {A} (m : M OpsWorld A) : M OpsWorld A := λ w,
  match m w with
  | (Ok a, w') => (Ok a, w')
  | (Raise e, w') => (Raise e, rolled_back w w')
  end.

(** The default of the id columns. *)
Definition new_id (uuid : nat → string) : M OpsWorld string :=
  w ← get_state;
  let u := st_uuids (ow_store w) in
  _ ← put_state (w <| ow_store ::= λ st, st <| st_uuids := S u |> |>);
  mret (uuid u).

(** ** approvals/repository.py *)

Definition get_webhook_by_dedupe_key (key : string) (inbox : list WebhookInbox) : option WebhookInbox :=
  List.find (λ x, bool_decide (wi_dedupe_key x = key)) inbox.

Definition get_pending_webhook (inbox_id : string) (inbox : list WebhookInbox) : option WebhookInbox :=
  row_by wi_id inbox_id inbox.

(** The insert is refused when the dedupe key is taken. *)
Definition create_webhook (row : WebhookInbox) : M OpsWorld unit :=
  w ← get_state;
  match get_webhook_by_dedupe_key (wi_dedupe_key row) (ow_inbox w) with
  | Some _ => raise (OtherException "IntegrityError" "webhooks_inbox_dedupe_key_key")
  | None => modify (λ w, w <| ow_inbox ::= λ l, l ++ [row] |>)
  end.

(** Attribute assignments on an inbox row. *)
Definition assign_inbox (inbox_id : string) (f : WebhookInbox → WebhookInbox) : M OpsWorld unit :=
  modify (λ w, w <| ow_inbox ::= set_row wi_id inbox_id f |>).

(** ** Lemmas *)

Lemma get_webhook_Some key inbox x :
  get_webhook_by_dedupe_key key inbox = Some x → x ∈ inbox ∧ wi_dedupe_key x = key.
Proof. intros [H1 H2]%find_Some_elem. by apply bool_decide_eq_true in H2. Qed.

Lemma get_webhook_None key inbox :
  get_webhook_by_dedupe_key key inbox = None → key ∉ wi_dedupe_key <$> inbox.
Proof.
  intros H%find_None_Forall. rewrite Forall_forall in H. intros (x & -> & Hx)%list_elem_of_fmap.
  specialize (H x Hx). by rewrite bool_decide_eq_true_2 in H.
Qed.

Lemma get_webhook_app key l k :
  get_webhook_by_dedupe_key key (l ++ k) =
    match get_webhook_by_dedupe_key key l with Some x => Some x | None => get_webhook_by_dedupe_key key k end.
Proof.
  unfold get_webhook_by_dedupe_key. induction l as [|x l IH]; [done|]. cbn. by case_bool_decide.
Qed.

Lemma get_webhook_elem inbox x :
  NoDup (wi_dedupe_key <$> inbox) → x ∈ inbox → get_webhook_by_dedupe_key (wi_dedupe_key x) inbox = Some x.
Proof. intros Hnd Hx. by apply (row_by_elem wi_dedupe_key). Qed.

(** What an atomic call guarantees of the rolled back world. *)
Lemma wp_atomic {A} (m : M OpsWorld A) Q E w :
  wp m Q (λ e w', E e (rolled_back w w')) w → wp (atomic m) Q E w.
Proof. unfold wp, atomic. by destruct (m w) as [[]]. Qed.

Lemma wp_on_store {A} (m : M Store A) (Q : A → OpsWorld → Prop) (E : exn → OpsWorld → Prop) w :
  wp m (λ a st, Q a (w <| ow_store := st |>)) (λ e st, E e (w <| ow_store := st |>)) (ow_store w) →
  wp (on_store m) Q E w.
Proof. unfold wp, on_store. by destruct (m (ow_store w)) as [[]]. Qed.

Lemma wp_new_id {B} uuid (k : string → M OpsWorld B) Q E w :
  wp (k (uuid (st_uuids (ow_store w)))) Q E (w <| ow_store ::= λ st, st <| st_uuids ::= S |> |>) →
  wp (new_id uuid ≫= k) Q E w.
Proof. intros H. exact H. Qed.
End Inbox.
