(* ===== verification/Runtime.v ===== *)
(** * The task ledger (operations/service.py, operations/repository.py,
    workers/runtime.py)

    Every background task runs between two writes of the ledger: its row is
    committed as running first; what the task did commits with the row marked
    completed, or is rolled back and the row marked failed. *)
From S2P Require Import Prelude PyStr Json Tables RunModels Calendar Scheduler Execute Inbox.

Module Runtime.
Import Tables Models Inbox.
Local Open Scope string_scope.
Local Open Scope list_scope.
Local Open Scope Z_scope.

(** The arguments of [run_async_task] that identify the task. *)
Record TaskSpec := {
  ts_task_name : string;
  ts_queue_name : string;
  ts_tenant_id : option string;
  ts_entity_type : option string;
  ts_entity_id : option string;
  ts_celery_task_id : option string;
  ts_correlation_id : option string;
  ts_payload : dict json;
}.

Section runtime.
Context (uuid : nat → string) (now : Z).

Definition new_task_execution (id : string) (t : TaskSpec) (cancellable : bool) : TaskExecution := {|
  te_id := id; te_tenant_id := ts_tenant_id t; te_task_name := ts_task_name t;
  te_queue_name := ts_queue_name t; te_celery_task_id := ts_celery_task_id t;
  te_correlation_id := ts_correlation_id t; te_status := "running"; te_progress := 0; te_attempt := 1;
  te_entity_type := ts_entity_type t; te_entity_id := ts_entity_id t; te_cancellable := cancellable;
  te_cancellation_requested := false; te_cancelled_at := None; te_started_at := Some now;
  te_finished_at := None; te_payload := ts_payload t; te_result := []; te_error_message := None;
  te_created_at := now |}.

Definition on_task_rows (f : list TaskExecution → list TaskExecution) : M OpsWorld unit :=
  modify (λ w, w <| ow_store ::= λ st, st <| st_task_executions ::= f |> |>).

Definition start_task (t : TaskSpec) (cancellable : bool) : M OpsWorld string :=
  id ← new_id uuid;
  _ ← on_task_rows (λ l, l ++ [new_task_execution id t cancellable]);
  mret id.

Definition update_progress (id : string) (progress : Z) (result : option (dict json)) : M OpsWorld unit :=
  on_task_rows (set_row te_id id (λ r,
    let r := r <| te_progress := progress |> in
    match result with Some x => r <| te_result := x |> | None => r end)).

Definition finished_task (status : string) (result : dict json) (error_message : option string)
    (r : TaskExecution) : TaskExecution :=
  r <| te_status := status |> <| te_result := result |> <| te_error_message := error_message |>
    <| te_progress ::= λ p, if String.eqb status "completed" then 100 else p |>
    <| te_finished_at := Some now |>.

(** [finish_task] on the row [db.get] finds. *)
Definition finish_task (id status : string) (result : dict json) (error_message : option string)
    : M OpsWorld unit :=
  on_task_rows (set_row te_id id (finished_task status result error_message)).

Definition run_async_task {A} (t : TaskSpec) (operation : M OpsWorld A) : M OpsWorld A :=
  id ← start_task t false;
  outcome ← Scheduler.try_call (atomic operation);
  match outcome with
  | Ok a => _ ← finish_task id "completed" [("status", JStr "ok")] None; mret a
  | Raise e => _ ← finish_task id "failed" [] (Some (Scheduler.exn_str e)); raise e
  end.
End runtime.

(** ** The status page of the workers *)

Record RecentTask := {
  rt_task_name : string;
  rt_status : string;
  rt_progress : Z;
  rt_started_at : option string;
  rt_finished_at : option string;
}.

Record QueueStatus := {
  qs_queue_name : string;
  qs_running : Z;
  qs_failed : Z;
  qs_completed : Z;
  qs_recent_tasks : list RecentTask;
}.
#[global] Instance eta_QueueStatus : Settable QueueStatus :=
  mk_settable _ (λ r, Build_QueueStatus (qs_queue_name r) (qs_running r) (qs_failed r) (qs_completed r)
    (qs_recent_tasks r)).

Definition created_desc (a b : TaskExecution) : Prop := te_created_at b <= te_created_at a.
#[global] Instance created_desc_dec a b : Decision (created_desc a b).
Proof. unfold created_desc. apply _. Defined.

Definition list_recent (limit : nat) (rows : list TaskExecution) : list TaskExecution :=
  firstn limit (merge_sort created_desc rows).

Definition count_task (b : QueueStatus) (t : TaskExecution) : QueueStatus :=
  let b := if String.eqb (te_status t) "running" then b <| qs_running ::= Z.add 1 |>
           else if String.eqb (te_status t) "failed" then b <| qs_failed ::= Z.add 1 |>
           else if String.eqb (te_status t) "completed" then b <| qs_completed ::= Z.add 1 |>
           else b in
  if Nat.ltb (length (qs_recent_tasks b)) 5 then
    b <| qs_recent_tasks ::= λ l, l ++
      [{| rt_task_name := te_task_name t; rt_status := te_status t; rt_progress := te_progress t;
          rt_started_at := Calendar.isoformat_utc <$> te_started_at t;
          rt_finished_at := Calendar.isoformat_utc <$> te_finished_at t |}] |>
  else b.

Definition group_task (grouped : dict QueueStatus) (t : TaskExecution) : dict QueueStatus :=
  let queue := te_queue_name t in
  let bucket := default {| qs_queue_name := queue; qs_running := 0; qs_failed := 0; qs_completed := 0;
                           qs_recent_tasks := [] |} (Dict.get queue grouped) in
  Dict.set queue (count_task bucket t) grouped.

Definition worker_status (rows : list TaskExecution) : list QueueStatus :=
  map snd (foldl group_task [] (list_recent 100 rows)).

(** ** A task is all or nothing *)

(** Rolling back commutes with the ledger's writes before the operation. *)
Lemma wp_run_async_task {A} uuid now t (operation : M OpsWorld A) (w : OpsWorld) :
  let id := uuid (st_uuids (ow_store w)) in
  let started := w <| ow_store ::= λ st, st <| st_uuids ::= S |>
                    <| st_task_executions ::= λ l, l ++ [new_task_execution now id t false] |> |> in
  let finish status result message w' :=
    w' <| ow_store ::= λ st, st <| st_task_executions ::=
          set_row te_id id (finished_task now status result message) |> |> in
  run_async_task uuid now t operation w =
    match operation started with
    | (Ok a, w') => (Ok a, finish "completed" [("status", JStr "ok")] None w')
    | (Raise e, w') => (Raise e, finish "failed" [] (Some (Scheduler.exn_str e)) (rolled_back started w'))
    end.
Proof.
  destruct w as [[] tables inbox tasks replay objects].
  lazy -[set_row finished_task rolled_back new_task_execution Scheduler.exn_str].
  by destruct (operation _) as [[a|e] w'].
Qed.

(** What a row shows of the task when its operation failed. *)
Definition failed_row (id : string) (t : TaskSpec) (now : Z) (e : exn) : TaskExecution :=
  finished_task now "failed" [] (Some (Scheduler.exn_str e)) (new_task_execution now id t false).

(** A failing task leaves only its ledger row.  Whatever the operation of a
    background task did before it raised, the task raises the same exception,
    and every table is as before it started, but for one new row of the ledger
    that says failed and carries the text of the exception. *)
Theorem failed_task_leaves_its_row {A} uuid now t (operation : M OpsWorld A) (w : OpsWorld) e w' :
  NoDup (te_id <$> st_task_executions (ow_store w)) →
  uuid (st_uuids (ow_store w)) ∉ te_id <$> st_task_executions (ow_store w) →
  run_async_task uuid now t operation w = (Raise e, w') →
  let id := uuid (st_uuids (ow_store w)) in
  ow_store w' = ow_store w <| st_task_executions ::= λ l, l ++ [failed_row id t now e] |>
                  <| st_tasks := st_tasks (ow_store w') |> <| st_uuids := st_uuids (ow_store w') |> ∧
  ow_tables w' = ow_tables w ∧ ow_inbox w' = ow_inbox w.
Proof.
  intros Hnd Hid. rewrite wp_run_async_task. cbv zeta.
  destruct (operation _) as [[a|e'] w1]; intros H; [done|].
  pose proof (f_equal fst H) as He. apply (f_equal snd) in H. cbn -[set_row finished_task new_task_execution] in He, H. injection He as ->. rewrite <- H. clear H. cbv zeta.
  split_and!; [|done..]. cbn -[set_row finished_task new_task_execution].
  set (id := uuid _). set (row := new_task_execution now id t false).
  change id with (te_id row). rewrite (set_row_split te_id _ _ row []); [done|]. rewrite fmap_app.
  apply NoDup_app. split_and!; [done|set_solver|apply NoDup_singleton].
Qed.

(** ** The counts of the status page *)

Definition in_queue (queue : string) (l : list TaskExecution) : list TaskExecution :=
  List.filter (λ t, String.eqb (te_queue_name t) queue) l.
Definition count_status (status : string) (l : list TaskExecution) : Z :=
  Z.of_nat (length (List.filter (λ t, String.eqb (te_status t) status) l)).

(** A bucket after the tasks [l] of its queue. *)
Definition counted (queue : string) (l : list TaskExecution) (b : QueueStatus) : Prop :=
  qs_queue_name b = queue ∧ qs_running b = count_status "running" l ∧
  qs_failed b = count_status "failed" l ∧ qs_completed b = count_status "completed" l ∧
  rt_task_name <$> qs_recent_tasks b = te_task_name <$> firstn 5 l.

Lemma count_status_snoc status l t :
  count_status status (l ++ [t]) = (if String.eqb (te_status t) status then 1 else 0) + count_status status l.
Proof.
  unfold count_status. rewrite List.filter_app, length_app. cbn.
  destruct (String.eqb (te_status t) status); cbn; lia.
Qed.

Lemma count_task_counted queue l b t : counted queue l b → counted queue (l ++ [t]) (count_task b t).
Proof.
  intros (Hq & Hr & Hf & Hc & Hn). unfold counted, count_task. rewrite !count_status_snoc.
  assert (length (qs_recent_tasks b) = length (firstn 5 l)) as Hlen.
  { apply (f_equal length) in Hn. by rewrite !length_fmap in Hn. }
  rewrite length_firstn in Hlen.
  set (b1 := if String.eqb (te_status t) "running" then _ else _).
  assert (qs_queue_name b1 = queue ∧
    qs_running b1 = (if String.eqb (te_status t) "running" then 1 else 0) + count_status "running" l ∧
    qs_failed b1 = (if String.eqb (te_status t) "failed" then 1 else 0) + count_status "failed" l ∧
    qs_completed b1 = (if String.eqb (te_status t) "completed" then 1 else 0) + count_status "completed" l ∧
    qs_recent_tasks b1 = qs_recent_tasks b) as (E1 & E2 & E3 & E4 & E5).
  { unfold b1. destruct (String.eqb_spec (te_status t) "running") as [E|_]; [rewrite ?E; cbn; split_and!; done || lia|].
    destruct (String.eqb_spec (te_status t) "failed") as [E|_]; [rewrite ?E; cbn; split_and!; done || lia|].
    destruct (String.eqb_spec (te_status t) "completed") as [E|_]; rewrite ?E; cbn; split_and!; done || lia. }
  rewrite E5. destruct (Nat.ltb_spec (length (qs_recent_tasks b)) 5) as [Hlt|Hge].
  - cbn. split_and!; try done. rewrite E5, fmap_app, Hn. cbn.
    rewrite (firstn_all2 (n:=5) l), (firstn_all2 (n:=5) (l ++ [t])) by (rewrite ?length_app; cbn; lia).
    by rewrite fmap_app.
  - split_and!; try done. rewrite E5, Hn. f_equal. rewrite firstn_app.
    replace (5 - length l)%nat with 0%nat by lia. cbn. by rewrite app_nil_r.
Qed.

Lemma group_tasks_spec l :
  let d := foldl group_task [] l in
  Dict.wf d ∧ (∀ queue b, Dict.get queue d = Some b → counted queue (in_queue queue l) b) ∧
  ∀ queue, Dict.get queue d = None ↔ in_queue queue l = [].
Proof.
  cbv zeta. induction l as [|t l (Hwf & Hc & Hn)] using rev_ind; [by split_and!; [constructor|..]|].
  rewrite foldl_app. cbn [foldl]. set (d := foldl group_task [] l) in *. unfold group_task. cbv zeta.
  assert (∀ queue, in_queue queue (l ++ [t]) =
            in_queue queue l ++ (if String.eqb (te_queue_name t) queue then [t] else [])) as Hq.
  { intros queue. unfold in_queue. by rewrite List.filter_app. }
  split_and!.
  - by apply Dict.wf_set.
  - intros queue b. rewrite Dict.get_set, Hq. case_decide as E.
    + subst queue. intros [= <-]. rewrite String.eqb_refl. apply count_task_counted.
      destruct (Dict.get (te_queue_name t) d) as [b|] eqn:Hg; [by apply Hc|].
      apply Hn in Hg. rewrite Hg. by split_and!.
    + intros Hg. rewrite (proj2 (String.eqb_neq _ _)) by congruence. rewrite app_nil_r. by apply Hc.
  - intros queue. rewrite Dict.get_set, Hq. case_decide as E.
    + subst queue. rewrite String.eqb_refl. split; [done|]. by intros [_ ?]%app_eq_nil.
    + rewrite (proj2 (String.eqb_neq _ _)) by congruence. rewrite app_nil_r. apply Hn.
Qed.

(** The status page counts the recent tasks.  Each queue with one of the
    hundred latest tasks has one entry, and the entry counts the running,
    failed and completed ones of the queue and names its first five. *)
Theorem worker_status_counts rows :
  let recent := list_recent 100 rows in
  NoDup (qs_queue_name <$> worker_status rows) ∧
  (∀ queue, queue ∈ qs_queue_name <$> worker_status rows ↔ queue ∈ te_queue_name <$> recent) ∧
  ∀ b, b ∈ worker_status rows → counted (qs_queue_name b) (in_queue (qs_queue_name b) recent) b.
Proof.
  cbv zeta. set (recent := list_recent 100 rows).
  destruct (group_tasks_spec recent) as (Hwf & Hc & Hn). unfold worker_status. fold recent.
  set (d := foldl group_task [] recent) in *.
  assert (qs_queue_name <$> map snd d = Dict.keys d) as Hkeys.
  { change (map snd d) with (snd <$> d). unfold Dict.keys. rewrite <- list_fmap_compose.
    change (map fst d) with (fst <$> d). apply list_fmap_ext. intros i [queue b] Hi. cbn.
    apply list_elem_of_lookup_2 in Hi. apply (Hc queue b). by apply Dict.elem_get. }
  rewrite Hkeys. split_and!; [done| |].
  - intros queue. rewrite <- Dict.get_is_Some, <- not_eq_None_Some, Hn, list_elem_of_fmap. unfold in_queue.
    split.
    + intros Hne. destruct (List.filter _ recent) as [|t l] eqn:E; [done|]. exists t.
      assert (In t (List.filter (λ t, String.eqb (te_queue_name t) queue) recent)) as Hin by (rewrite E; by left).
      apply filter_In in Hin as [Hin Hq%String.eqb_eq]. split; [done|]. by apply list_elem_of_In.
    + intros (t & -> & Ht) E. assert (In t []) as []. rewrite <- E.
      apply filter_In. split; [by apply list_elem_of_In|apply String.eqb_refl].
  - intros b Hb. apply list_elem_of_fmap in Hb as ([queue b'] & -> & Hb). cbn.
    apply Dict.elem_get in Hb; [|done]. pose proof (Hc _ _ Hb) as Hb'. by rewrite (proj1 Hb').
Qed.

(** ** Examples *)

Definition ex_spec : TaskSpec := {|
  ts_task_name := "run_workflow_retention"; ts_queue_name := "generation"; ts_tenant_id := None;
  ts_entity_type := None; ts_entity_id := None; ts_celery_task_id := None; ts_correlation_id := None;
  ts_payload := [] |}.
Definition ex_world : OpsWorld := {|
  ow_store := empty_store; ow_tables := empty_tables; ow_inbox := []; ow_inbox_tasks := [];
  ow_replay := []; ow_objects := [] |}.

(** Sends a message, then fails. *)
Definition ex_operation : M OpsWorld unit :=
  _ ← modify (λ w, w <| ow_inbox_tasks ::= cons "row" |>); raise (ValueError "boom").

Lemma failed_task_leaves_its_row_witness :
  ∃ w', run_async_task Execute.unary_id 5 ex_spec ex_operation ex_world = (Raise (ValueError "boom"), w') ∧
    te_status <$> st_task_executions (ow_store w') = ["failed"] ∧ ow_inbox_tasks w' = ["row"] ∧
    ow_inbox w' = [].
Proof.
  eexists. split; [vm_compute; reflexivity|].
  split_and!; [vm_compute; reflexivity..|].
  exact (proj2 (proj2 (failed_task_leaves_its_row Execute.unary_id 5 ex_spec ex_operation ex_world
    (ValueError "boom") _ (NoDup_nil_2) (not_elem_of_nil _) eq_refl))).
Defined.
End Runtime.
