(* ===== verification/Retention.v ===== *)
(** * Retention of old payloads (retention.py)

    The job that replaces the payloads of old node rows and webhooks by a stub
    and deletes old rows of the task ledger, a batch of each per run.  The
    object storage is a parameter: whether it is configured and which uploads
    succeed. *)
From S2P Require Import Prelude PyStr Json Tables RunModels Calendar Inbox.

Module Retention.
Import Tables Models Inbox.
Local Open Scope string_scope.
Local Open Scope list_scope.
Local Open Scope Z_scope.

Definition TERMINAL_NODE_STATUSES : list NodeStatus := [SUCCEEDED; FAILED; CANCELLED; SKIPPED].
Definition FINISHED_TASK_STATUSES : list string := ["completed"; "failed"; "cancelled"; "revoked"].
Definition WEBHOOK_DONE_STATUSES : list string := ["processed"; "error"; "duplicate"].
Definition SCRUB_MARKER : string := "_retention".

(** The fields of the settings. *)
Record RetentionSettings := {
  WORKFLOW_RETENTION_ENABLED : bool;
  WORKFLOW_RETENTION_NODE_PAYLOAD_DAYS : Z;
  WORKFLOW_RETENTION_TASK_EXECUTION_DAYS : Z;
  WORKFLOW_RETENTION_WEBHOOK_PAYLOAD_DAYS : Z;
  WORKFLOW_RETENTION_BATCH_SIZE : nat;
  WORKFLOW_RETENTION_ARCHIVE_TO_STORAGE : bool;
}.

Definition is_already_scrubbed (payload : dict json) : bool :=
  match Json.getn SCRUB_MARKER payload with
  | JObj marker => bool_decide (Dict.get "scrubbed" marker = Some (JBool true))
  | _ => false
  end.

(** [bool(payload) and not _is_already_scrubbed(payload)] *)
Definition has_live (payload : dict json) : bool :=
  Json.truthy (JObj payload) && negb (is_already_scrubbed payload).

(** ** The queries *)

(** [x is not None and x < bound] *)
Definition before (bound : Z) (x : option Z) : bool := match x with Some t => t <? bound | None => false end.

Definition instant_le {R} (at_ : R → option Z) (a b : R) : Prop := default 0 (at_ a) <= default 0 (at_ b).
#[global] Instance instant_le_dec {R} (at_ : R → option Z) a b : Decision (instant_le at_ a b).
Proof. unfold instant_le. apply _. Defined.

(** The oldest rows that satisfy a condition. *)
Definition oldest {R} (at_ : R → option Z) (p : R → bool) (limit : nat) (rows : list R) : list R :=
  firstn limit (merge_sort (instant_le at_) (List.filter p rows)).

Definition old_node (older_than : Z) (r : WorkflowNodeRun) : bool :=
  bool_decide (nr_status r ∈ TERMINAL_NODE_STATUSES) && before older_than (nr_finished_at r).
Definition old_webhook (older_than : Z) (r : WebhookInbox) : bool :=
  bool_decide (wi_status r ∈ WEBHOOK_DONE_STATUSES) && before older_than (wi_received_at r).
Definition old_task (older_than : Z) (r : TaskExecution) : bool :=
  bool_decide (te_status r ∈ FINISHED_TASK_STATUSES) &&
  match te_finished_at r with Some t => t <? older_than | None => te_created_at r <? older_than end.

Section retention.
Context (cfg : RetentionSettings) (now : Z) (dumps : json → string) (storage_configured : bool)
        (upload : string → string → bool).

Definition scrub_stub (archived_object_key : option string) : dict json :=
  let marker := [("scrubbed", JBool true); ("scrubbed_at", JStr (Calendar.isoformat_utc now));
                 ("reason", JStr "age_policy")] in
  [(SCRUB_MARKER, JObj match archived_object_key with
                       | Some key => if PyStr.truthy key then Dict.set "archive_object_key" (JStr key) marker
                                     else marker
                       | None => marker
                       end)].

Definition archive_key (kind : string) (tenant_id : option string) (entity_id : string) : string :=
  let tenant_part := match tenant_id with
                     | Some t => if PyStr.truthy t then t else "unknown" | None => "unknown" end in
  "retention/" +:+ kind +:+ "/tenants/" +:+ tenant_part +:+ "/" +:+ entity_id +:+ ".json".

Definition maybe_archive_payload (kind : string) (tenant_id : option string) (entity_id : string)
    (payload : dict json) : M OpsWorld (option string) :=
  if negb (WORKFLOW_RETENTION_ARCHIVE_TO_STORAGE cfg) then mret None
  else if negb (Json.truthy (JObj payload)) || is_already_scrubbed payload then mret None
  else if negb storage_configured then mret None
  else
    let object_key := archive_key kind tenant_id entity_id in
    let body := dumps (JObj payload) in
    if upload object_key body
    then _ ← modify (λ w, w <| ow_objects ::= λ l, l ++ [(object_key, body)] |>); mret (Some object_key)
    else mret None.

(** *** Node rows *)

Definition scrub_node (stub : dict json) (node : WorkflowNodeRun) (r : WorkflowNodeRun) : WorkflowNodeRun :=
  let r := if has_live (nr_input_json node) || negb (is_already_scrubbed (nr_input_json node))
           then r <| nr_input_json := stub |> else r in
  if has_live (nr_output_json node) || negb (is_already_scrubbed (nr_output_json node))
  then r <| nr_output_json := stub |> else r.

(** What is archived of a row. *)
Definition combined (node : WorkflowNodeRun) : dict json :=
  (if has_live (nr_input_json node) then [("input_json", JObj (nr_input_json node))] else []) ++
  (if has_live (nr_output_json node) then [("output_json", JObj (nr_output_json node))] else []).

Definition on_node_row (id : string) (f : WorkflowNodeRun → WorkflowNodeRun) : M OpsWorld unit :=
  modify (λ w, w <| ow_store ::= λ st, st <| st_node_runs ::= set_node id f |> |>).

Fixpoint scrub_nodes (batch_size : nat) (nodes : list WorkflowNodeRun) (scrubbed : nat) : M OpsWorld nat :=
  match nodes with
  | [] => mret scrubbed
  | node :: nodes' =>
      if Nat.leb batch_size scrubbed then mret scrubbed
      else if is_already_scrubbed (nr_input_json node) && is_already_scrubbed (nr_output_json node)
      then scrub_nodes batch_size nodes' scrubbed
      else if negb (has_live (nr_input_json node)) && negb (has_live (nr_output_json node))
      then scrub_nodes batch_size nodes' scrubbed
      else
        key ← maybe_archive_payload "workflow_node_run" (Some (nr_tenant_id node)) (nr_id node) (combined node);
        _ ← on_node_row (nr_id node) (scrub_node (scrub_stub key) node);
        scrub_nodes batch_size nodes' (S scrubbed)
  end.

Definition scrub_old_node_payloads (older_than : Z) (batch_size : nat) : M OpsWorld nat :=
  w ← get_state;
  scrub_nodes batch_size
    (oldest nr_finished_at (old_node older_than) (batch_size * 3) (st_node_runs (ow_store w))) 0.

(** *** The task ledger *)

(** Deleting a row of the ledger clears the node rows that name it. *)
Definition delete_tasks (ids : list string) (st : Store) : Store :=
  st <| st_task_executions ::= List.filter (λ t, negb (bool_decide (te_id t ∈ ids))) |>
     <| st_node_runs ::= map (λ r,
          match nr_task_execution_id r with
          | Some i => if bool_decide (i ∈ ids) then r <| nr_task_execution_id := None |> else r
          | None => r
          end) |>.

Definition delete_old_task_executions (older_than : Z) (batch_size : nat) : M OpsWorld nat :=
  w ← get_state;
  let ids := te_id <$> oldest (λ t, Some (te_created_at t)) (old_task older_than) batch_size
                         (st_task_executions (ow_store w)) in
  match ids with
  | [] => mret 0%nat
  | _ => _ ← modify (λ w, w <| ow_store ::= delete_tasks ids |>); mret (length ids)
  end.

(** *** Webhooks *)

Fixpoint scrub_webhooks (batch_size : nat) (rows : list WebhookInbox) (scrubbed : nat) : M OpsWorld nat :=
  match rows with
  | [] => mret scrubbed
  | inbox :: rows' =>
      if Nat.leb batch_size scrubbed then mret scrubbed
      else if is_already_scrubbed (wi_payload inbox) then scrub_webhooks batch_size rows' scrubbed
      else
        key ← (if negb (Json.truthy (JObj (wi_payload inbox))) then mret None
               else maybe_archive_payload "webhook_inbox" (wi_tenant_id inbox) (wi_id inbox) (wi_payload inbox));
        _ ← assign_inbox (wi_id inbox) (λ r, r <| wi_payload := scrub_stub key |>);
        scrub_webhooks batch_size rows' (S scrubbed)
  end.

Definition scrub_old_webhook_payloads (older_than : Z) (batch_size : nat) : M OpsWorld nat :=
  w ← get_state;
  scrub_webhooks batch_size
    (oldest wi_received_at (old_webhook older_than) (batch_size * 2) (ow_inbox w)) 0.

(** *** One run of the job *)

Record RetentionSummary := {
  rs_enabled : bool;
  rs_nodes_scrubbed : nat;
  rs_task_executions_deleted : nat;
  rs_webhooks_scrubbed : nat;
  rs_cutoffs : option (string * string * string);
}.

(** [clock - timedelta(days=n)] *)
Definition cutoff (days : Z) : Z := now - days * 86400000000.

Definition run_workflow_retention (batch_size : option nat) : M OpsWorld RetentionSummary :=
  if negb (WORKFLOW_RETENTION_ENABLED cfg) then
    mret {| rs_enabled := false; rs_nodes_scrubbed := 0; rs_task_executions_deleted := 0;
            rs_webhooks_scrubbed := 0; rs_cutoffs := None |}
  else
    let size := default (WORKFLOW_RETENTION_BATCH_SIZE cfg) batch_size in
    let node_cutoff := cutoff (WORKFLOW_RETENTION_NODE_PAYLOAD_DAYS cfg) in
    let task_cutoff := cutoff (WORKFLOW_RETENTION_TASK_EXECUTION_DAYS cfg) in
    let webhook_cutoff := cutoff (WORKFLOW_RETENTION_WEBHOOK_PAYLOAD_DAYS cfg) in
    nodes ← scrub_old_node_payloads node_cutoff size;
    tasks ← delete_old_task_executions task_cutoff size;
    webhooks ← scrub_old_webhook_payloads webhook_cutoff size;
    mret {| rs_enabled := true; rs_nodes_scrubbed := nodes; rs_task_executions_deleted := tasks;
            rs_webhooks_scrubbed := webhooks;
            rs_cutoffs := Some (Calendar.isoformat_utc node_cutoff, Calendar.isoformat_utc task_cutoff,
                                Calendar.isoformat_utc webhook_cutoff) |}.
End retention.

(** ** The oldest rows *)

Lemma filter_perm {A} (p : A → bool) l l' : l ≡ₚ l' → List.filter p l ≡ₚ List.filter p l'.
Proof.
  induction 1 as [|x l l' _ IH|x y l|l1 l2 l3 _ IH1 _ IH2]; cbn; [done| | |by etransitivity].
  - destruct (p x); by rewrite IH.
  - destruct (p x), (p y); done || constructor.
Qed.

Section oldest.
Context {R : Type} (at_ : R → option Z).

Lemma elem_of_oldest p n rows r : r ∈ oldest at_ p n rows → r ∈ rows ∧ p r = true.
Proof.
  unfold oldest. intros H. apply (sublist_subseteq _ _ (sublist_take _ n)) in H.
  rewrite (merge_sort_Permutation (instant_le at_)) in H.
  apply list_elem_of_In, filter_In in H as [H ?]. split; [by apply list_elem_of_In|done].
Qed.

Lemma oldest_NoDup_fmap {K} (key : R → K) p n rows : NoDup (key <$> rows) → NoDup (key <$> oldest at_ p n rows).
Proof.
  intros H. unfold oldest. eapply sublist_NoDup; [|apply fmap_sublist, sublist_take].
  rewrite (merge_sort_Permutation (instant_le at_)).
  eapply sublist_NoDup; [exact H|apply fmap_sublist, Prelude.filter_sublist].
Qed.

#[local] Instance instant_le_trans : Transitive (instant_le at_).
Proof. intros x y z. unfold instant_le. lia. Qed.
#[local] Instance instant_le_total : Total (instant_le at_).
Proof. intros x y. unfold instant_le. lia. Qed.

(** A row with a full batch of strictly older ones before it is not among the
    oldest, in whichever order equal instants come. *)
Definition older (bound x : R) : bool := default 0 (at_ x) <? default 0 (at_ bound).

Lemma oldest_excludes p n rows r :
  (n ≤ length (List.filter (λ x, p x && older r x) rows))%nat → r ∉ oldest at_ p n rows.
Proof.
  unfold oldest. intros Hn Hin. set (l := merge_sort (instant_le at_) (List.filter p rows)) in *.
  assert (StronglySorted (instant_le at_) l) as Hsorted by apply (StronglySorted_merge_sort (instant_le at_)).
  assert (length (List.filter (λ x, p x && older r x) rows) = length (List.filter (older r) l)) as Hlen.
  { transitivity (length (List.filter (older r) (List.filter p rows))).
    - f_equal. clear. induction rows as [|x rows IH]; [done|]. cbn. destruct (p x); cbn; [|done].
      destruct (older r x); by rewrite IH.
    - apply Permutation_length, filter_perm. symmetry. apply (merge_sort_Permutation (instant_le at_)). }
  rewrite Hlen in Hn. apply list_elem_of_split in Hin as (l1 & l2 & Hl).
  assert (l = l1 ++ r :: l2 ++ drop n l) as Hsplit.
  { rewrite <- (take_drop n l) at 1. rewrite Hl. by rewrite <- app_assoc. }
  assert (length l1 < n)%nat as Hl1.
  { assert (length (take n l) ≤ n)%nat by apply firstn_le_length. rewrite Hl, length_app in H. cbn in H. lia. }
  rewrite Hsplit, List.filter_app, length_app in Hn.
  assert (List.filter (older r) (r :: l2 ++ drop n l) = []) as Hnone.
  { apply Prelude.filter_none. rewrite Hsplit in Hsorted.
    assert (StronglySorted (instant_le at_) (r :: l2 ++ drop n l)) as Hs2.
    { clear -Hsorted. induction l1 as [|x l1 IH]; [done|]. apply IH. by inversion Hsorted. }
    apply StronglySorted_inv in Hs2 as [_ Hall]. intros x [->|Hx]%elem_of_cons; apply Z.ltb_ge; [done|].
    rewrite Forall_forall in Hall. by apply Hall. }
  rewrite Hnone in Hn. cbn in Hn.
  assert (length (List.filter (older r) l1) ≤ length l1)%nat by apply List.filter_length_le. lia.
Qed.
End oldest.

(** ** What scrubbing does to the rows *)

Definition needs_scrub (r : WorkflowNodeRun) : bool :=
  has_live (nr_input_json r) || has_live (nr_output_json r).
Definition live_rows (l : list WorkflowNodeRun) : nat := length (List.filter needs_scrub l).

(** [r'] is [r] with both payloads replaced, or already replaced before. *)
Definition scrubbed_to (r r' : WorkflowNodeRun) : Prop :=
  needs_scrub r = true ∧ ∃ i o, r' = r <| nr_input_json := i |> <| nr_output_json := o |> ∧
    is_already_scrubbed i = true ∧ is_already_scrubbed o = true.

Lemma scrub_stub_scrubbed now key : is_already_scrubbed (scrub_stub now key) = true.
Proof. destruct key as [[]|]; reflexivity. Qed.

Lemma has_live_scrubbed p : is_already_scrubbed p = true → has_live p = false.
Proof. unfold has_live. intros ->. apply andb_false_r. Qed.

Lemma scrubbed_to_done r r' : scrubbed_to r r' → needs_scrub r' = false.
Proof.
  intros (_ & i & o & -> & Hi & Ho). unfold needs_scrub. cbn. by rewrite !has_live_scrubbed.
Qed.

Lemma scrubbed_to_id r r' : scrubbed_to r r' → nr_id r' = nr_id r.
Proof. by intros (_ & i & o & -> & _). Qed.

Lemma scrub_node_to now key r : needs_scrub r = true → scrubbed_to r (scrub_node (scrub_stub now key) r r).
Proof.
  intros Hr. split; [done|]. pose proof (scrub_stub_scrubbed now key) as Hs. set (stub := scrub_stub now key) in *.
  assert (∀ p, ∃ q, (if has_live p || negb (is_already_scrubbed p) then stub else p) = q ∧
            is_already_scrubbed q = true) as Hq.
  { intros p. eexists. split; [done|]. destruct (has_live p); [done|]. cbn. by destruct (is_already_scrubbed p) eqn:E. }
  destruct (Hq (nr_input_json r)) as (i & Hi & Hi'), (Hq (nr_output_json r)) as (o & Ho & Ho').
  exists i, o. split_and!; [|done..]. subst i o. unfold scrub_node. by destruct r, (_ || _), (_ || _).
Qed.

(** Only the node rows and the archive may differ. *)
Definition only_nodes (w w' : OpsWorld) : Prop :=
  w' = w <| ow_store ::= λ st, st <| st_node_runs := st_node_runs (ow_store w') |> |>
         <| ow_objects := ow_objects w' |>.

Definition node_rows (w : OpsWorld) : list WorkflowNodeRun := st_node_runs (ow_store w).

Lemma only_nodes_refl w : only_nodes w w.
Proof. by destruct w as [[]]. Qed.

Lemma only_nodes_trans w1 w2 w3 : only_nodes w1 w2 → only_nodes w2 w3 → only_nodes w1 w3.
Proof. unfold only_nodes. intros H1 H2. rewrite H2, H1. by destruct w1 as [[]]. Qed.

Section scrub.
Context (cfg : RetentionSettings) (now : Z) (dumps : json → string) (storage_configured : bool)
        (upload : string → string → bool).

Lemma wp_archive {A} kind t i payload (k : option string → M OpsWorld A) Q E w :
  (∀ key objects, wp (k key) Q E (w <| ow_objects := objects |>)) →
  wp (maybe_archive_payload cfg dumps storage_configured upload kind t i payload ≫= k) Q E w.
Proof.
  intros H. apply wp_bind. unfold maybe_archive_payload.
  assert (∀ key, wp (k key) Q E w) as H'.
  { intros key. specialize (H key (ow_objects w)). by destruct w. }
  repeat case_match; try by apply wp_ret. apply wp_bind, wp_modify, wp_ret, H.
Qed.

(** After the rows [nodes] of a snapshot, with [k] of the batch used before and
    [n] after them. *)
Definition scrub_post (batch : nat) (nodes : list WorkflowNodeRun) (k : nat) (w : OpsWorld) (n : nat)
    (w' : OpsWorld) : Prop :=
  (k ≤ n ≤ batch)%nat ∧ only_nodes w w' ∧
  Forall2 (λ r r', r' = r ∨ r ∈ nodes ∧ scrubbed_to r r') (node_rows w) (node_rows w') ∧
  (live_rows (node_rows w') + n)%nat = (live_rows (node_rows w) + k)%nat ∧
  ((n < batch)%nat → ∀ r', r' ∈ node_rows w' → nr_id r' ∈ nr_id <$> nodes → needs_scrub r' = false).

Lemma scrubbed_more node nodes l l' :
  Forall2 (λ r r', r' = r ∨ r ∈ nodes ∧ scrubbed_to r r') l l' →
  Forall2 (λ r r', r' = r ∨ r ∈ node :: nodes ∧ scrubbed_to r r') l l'.
Proof.
  intros H. eapply Forall2_impl; [exact H|]. intros r r' [->|[Hr Hs]]; [by left|right].
  split; [by right|done].
Qed.

Lemma scrub_post_skip batch node nodes k w n w' :
  NoDup (nr_id <$> node_rows w) → node ∈ node_rows w → needs_scrub node = false →
  scrub_post batch nodes k w n w' → scrub_post batch (node :: nodes) k w n w'.
Proof.
  intros Hnd Hin Hno (Hn & Hw & Hrows & Hlive & Hdone). split_and!; [lia..|done|by apply scrubbed_more|done|].
  intros Hlt r' Hr' [E|Hr]%elem_of_cons; [|by apply Hdone].
  destruct (Forall2_elem_r _ _ _ Hrows r' Hr') as (r & Hr & [->|[_ H]]); [|by eapply scrubbed_to_done].
  by rewrite (NoDup_fmap_inj_in nr_id _ r node Hnd Hr Hin E).
Qed.

Lemma scrub_post_step batch node node' nodes l1 l2 k w w1 n w' :
  NoDup (nr_id <$> node_rows w) → nr_id node ∉ nr_id <$> nodes → scrubbed_to node node' →
  node_rows w = l1 ++ node :: l2 → node_rows w1 = l1 ++ node' :: l2 → only_nodes w w1 →
  scrub_post batch nodes (S k) w1 n w' → scrub_post batch (node :: nodes) k w n w'.
Proof.
  intros Hnd Hnew Hto Hrows Hrows1 Honly (Hn & Hw & Hrel & Hlive & Hdone).
  assert (nr_id <$> node_rows w1 = nr_id <$> node_rows w) as Hids.
  { by rewrite Hrows1, Hrows, !fmap_app, !fmap_cons, (scrubbed_to_id _ _ Hto). }
  assert (live_rows (node_rows w) = S (live_rows (node_rows w1))) as Hlive1.
  { unfold live_rows. rewrite Hrows, Hrows1, !List.filter_app, !length_app. cbn.
    rewrite (proj1 Hto), (scrubbed_to_done _ _ Hto). cbn. lia. }
  split_and!; [lia..|by eapply only_nodes_trans| |lia|].
  - rewrite Hrows1 in Hrel. rewrite Hrows.
    apply Forall2_app_inv_l in Hrel as (l1' & l' & Hl1 & Hrel & ->).
    apply Forall2_cons_inv_l in Hrel as (x & l2' & Hx & Hl2 & ->).
    apply Forall2_app; [by apply scrubbed_more|]. constructor; [|by apply scrubbed_more].
    right. split; [by left|]. destruct Hx as [->|[Hx _]]; [done|]. destruct Hnew.
    rewrite <- (scrubbed_to_id _ _ Hto). by apply list_elem_of_fmap_2.
  - intros Hlt r' Hr' [E|Hin]%elem_of_cons; [|by apply Hdone].
    destruct (Forall2_elem_r _ _ _ Hrel r' Hr') as (r & Hr & [->|[_ H]]); [|by eapply scrubbed_to_done].
    assert (node' ∈ node_rows w1) as Hin by (rewrite Hrows1; apply elem_of_app; right; by left).
    assert (r = node') as -> by (eapply (NoDup_fmap_inj_in nr_id (node_rows w1)); [by rewrite Hids|done..|];
      by rewrite E, (scrubbed_to_id _ _ Hto)).
    by eapply scrubbed_to_done.
Qed.

Lemma scrub_post_refl batch nodes k w :
  (k ≤ batch)%nat → (nodes = [] ∨ (batch ≤ k)%nat) → scrub_post batch nodes k w k w.
Proof.
  intros Hk Hend. split_and!; [lia..|apply only_nodes_refl| |lia|].
  - apply Forall_Forall2_diag, Forall_forall. by left.
  - destruct Hend as [->|Hfull]; [set_solver|lia].
Qed.

(** The rows of a snapshot are scrubbed in order until the batch is full. *)
Lemma scrub_nodes_spec batch nodes k w :
  NoDup (nr_id <$> node_rows w) → NoDup (nr_id <$> nodes) → nodes ⊆ node_rows w → (k ≤ batch)%nat →
  wp (scrub_nodes cfg now dumps storage_configured upload batch nodes k)
    (scrub_post batch nodes k w) (λ _ _, False) w.
Proof.
  revert k w. induction nodes as [|node nodes IH]; intros k w Hnd Hndn Hsub Hk.
  { apply wp_ret, scrub_post_refl; auto. }
  cbn [scrub_nodes]. destruct (Nat.leb_spec batch k) as [Hfull|Hroom].
  { apply wp_ret, scrub_post_refl; auto. }
  rewrite fmap_cons in Hndn. apply NoDup_cons in Hndn as [Hnew Hndn].
  assert (node ∈ node_rows w) as Hin by (apply Hsub; by left).
  assert (needs_scrub node = false → wp (scrub_nodes cfg now dumps storage_configured upload batch nodes k)
            (scrub_post batch (node :: nodes) k w) (λ _ _, False) w) as Hskip.
  { intros Hno. eapply wp_mono; [apply IH; [done..|set_solver|done]| |done].
    intros n w'. by apply scrub_post_skip. }
  destruct (_ && is_already_scrubbed (nr_output_json node)) eqn:Hboth.
  { apply Hskip. apply andb_true_iff in Hboth as [H1 H2]. unfold needs_scrub. by rewrite !has_live_scrubbed. }
  destruct (negb (has_live (nr_input_json node)) && _) eqn:Hnone.
  { apply Hskip. apply andb_true_iff in Hnone as [H1%negb_true_iff H2%negb_true_iff].
    unfold needs_scrub. by rewrite H1, H2. }
  assert (needs_scrub node = true) as Hneeds.
  { unfold needs_scrub. clear -Hnone. by destruct (has_live (nr_input_json node)), (has_live (nr_output_json node)). }
  apply wp_archive. intros key objects. apply wp_bind, wp_modify.
  apply list_elem_of_split in Hin as (l1 & l2 & Hrows).
  pose proof (scrub_node_to now key node Hneeds) as Hto. set (node' := scrub_node (scrub_stub now key) node node) in *.
  set (w1 := w <| ow_objects := objects |> <| ow_store ::= _ |>).
  assert (node_rows w1 = l1 ++ node' :: l2) as Hrows1.
  { unfold w1, node_rows. cbn. fold (node_rows w). rewrite Hrows. apply set_row_split. by rewrite <- Hrows. }
  eapply wp_mono; [apply (IH (S k) w1)|intros n w'; apply (scrub_post_step batch node node' nodes l1 l2 k w w1)|done].
  - by rewrite Hrows1, fmap_app, fmap_cons, (scrubbed_to_id _ _ Hto), <- fmap_cons, <- fmap_app, <- Hrows.
  - done.
  - intros x Hx. assert (x ∈ node_rows w) as Hxw by (apply Hsub; by right).
    rewrite Hrows in Hxw. rewrite Hrows1. apply elem_of_app in Hxw as [Hx1|[->|Hx2]%elem_of_cons]; [set_solver| |set_solver].
    destruct Hnew. by apply list_elem_of_fmap_2.
  - lia.
  - done.
  - done.
  - done.
  - done.
  - done.
  - by destruct w as [[]].
Qed.

(** What a scrub does.  It never fails and uses at most its batch; every
    node row is kept as it was, or it was terminal, finished before the cutoff
    and had a payload, and both its payloads are stubs now, the rest being
    unchanged; the number of rows with a payload drops by exactly the number
    returned; and when the batch was not used up, none of the oldest rows it
    looked at has a payload left. *)
Theorem scrub_old_node_payloads_spec older_than batch w :
  NoDup (nr_id <$> node_rows w) →
  wp (scrub_old_node_payloads cfg now dumps storage_configured upload older_than batch)
    (λ n w', (n ≤ batch)%nat ∧ only_nodes w w' ∧
       Forall2 (λ r r', r' = r ∨ old_node older_than r = true ∧ scrubbed_to r r')
         (node_rows w) (node_rows w') ∧
       (live_rows (node_rows w') + n)%nat = live_rows (node_rows w) ∧
       ((n < batch)%nat → ∀ r r', r ∈ oldest nr_finished_at (old_node older_than) (batch * 3) (node_rows w) →
          r' ∈ node_rows w' → nr_id r' = nr_id r → needs_scrub r' = false))
    (λ _ _, False) w.
Proof.
  intros Hnd. apply wp_bind, wp_get. set (nodes := oldest _ _ _ _).
  eapply wp_mono; [apply scrub_nodes_spec; [done| | |lia]| |done].
  - by apply oldest_NoDup_fmap.
  - intros r Hr. by apply elem_of_oldest in Hr as [Hr _].
  - intros n w' (Hn & Honly & Hrows & Hlive & Hdone). split_and!; [lia|done| |lia|].
    + eapply Forall2_impl; [exact Hrows|]. intros r r' [->|[Hr Hs]]; [by left|right].
      split; [|done]. by apply elem_of_oldest in Hr as [_ Hr].
    + intros Hlt r r' Hr Hr' Hid. apply Hdone; [done..|]. rewrite Hid. by apply list_elem_of_fmap_2.
Qed.

(** ** Rows the scrub never reaches *)

(** What the query reads of a row. *)
Definition node_key (r : WorkflowNodeRun) : string * NodeStatus * option Z := (nr_id r, nr_status r, nr_finished_at r).

Lemma scrubbed_to_key r r' : scrubbed_to r r' → node_key r' = node_key r.
Proof. by intros (_ & i & o & -> & _). Qed.

(** The rows that are older than the cutoff and finished before the row [r]. *)
Definition earlier_rows (older_than : Z) (r : WorkflowNodeRun) (rows : list WorkflowNodeRun) : list WorkflowNodeRun :=
  List.filter (λ x, old_node older_than x && older nr_finished_at r x) rows.

Lemma earlier_rows_keys older_than r rows rows' :
  Forall2 (λ x y, node_key y = node_key x) rows rows' →
  length (earlier_rows older_than r rows') = length (earlier_rows older_than r rows).
Proof.
  induction 1 as [|x y l l' Hxy _ IH]; [done|]. unfold earlier_rows in *. cbn.
  assert (old_node older_than y = old_node older_than x ∧ older nr_finished_at r y = older nr_finished_at r x) as [-> ->].
  { injection Hxy as _ Hs Hf. unfold old_node, older. by rewrite Hs, Hf. }
  destruct (_ && _); cbn; by rewrite IH.
Qed.

Lemma old_node_later c c' r : c <= c' → old_node c r = true → old_node c' r = true.
Proof.
  unfold old_node. intros Hle [-> H]%andb_true_iff. cbn. destruct (nr_finished_at r); cbn in *; [|done].
  apply Z.ltb_lt in H. apply Z.ltb_lt. lia.
Qed.

Lemma earlier_rows_later c c' r rows :
  c <= c' → (length (earlier_rows c r rows) ≤ length (earlier_rows c' r rows))%nat.
Proof.
  intros Hle. unfold earlier_rows. induction rows as [|x rows IH]; [done|]. cbn.
  destruct (old_node c x) eqn:E; [rewrite (old_node_later _ _ _ Hle E); cbn; destruct (older _ _ _); cbn; lia|].
  cbn. destruct (_ && _); cbn; lia.
Qed.

(** Runs of the scrub at the cutoffs [cs], one after the other. *)
Definition scrub_rounds (batch : nat) (cs : list Z) (w : OpsWorld) : OpsWorld :=
  foldl (λ w c, (scrub_old_node_payloads cfg now dumps storage_configured upload c batch w).2) w cs.

(** A run keeps the row, and keeps the rows before it older. *)
Lemma scrub_keeps_others batch c c' w r :
  NoDup (nr_id <$> node_rows w) → (batch * 3 ≤ length (earlier_rows c r (node_rows w)))%nat → c <= c' →
  r ∈ node_rows w →
  let w' := (scrub_old_node_payloads cfg now dumps storage_configured upload c' batch w).2 in
  NoDup (nr_id <$> node_rows w') ∧ (batch * 3 ≤ length (earlier_rows c r (node_rows w')))%nat ∧ r ∈ node_rows w'.
Proof.
  intros Hnd Hlen Hc Hr. cbv zeta. set (nodes := oldest nr_finished_at (old_node c') (batch * 3) (node_rows w)).
  assert (r ∉ nodes) as Hno.
  { apply oldest_excludes. etransitivity; [exact Hlen|]. by apply earlier_rows_later. }
  assert (wp (scrub_old_node_payloads cfg now dumps storage_configured upload c' batch)
    (scrub_post batch nodes 0 w) (λ _ _, False) w) as H.
  { apply wp_bind, wp_get. apply scrub_nodes_spec; [done|by apply oldest_NoDup_fmap| |lia].
    intros x Hx. by apply elem_of_oldest in Hx as [Hx _]. }
  unfold wp in H. destruct (scrub_old_node_payloads _ _ _ _ _ _ _ _) as [[n|e] w2]; [|done]. cbn.
  destruct H as (_ & _ & Hrows & _). clearbody nodes.
  assert (Forall2 (λ x y, node_key y = node_key x) (node_rows w) (node_rows w2)) as Hkeys.
  { eapply Forall2_impl; [exact Hrows|]. intros x y [->|[_ H]]; [done|by apply scrubbed_to_key]. }
  split_and!.
  - assert (nr_id <$> node_rows w2 = nr_id <$> node_rows w) as ->; [|done].
    clear -Hkeys. induction Hkeys as [|x y l l' Hxy _ IH]; [done|]. rewrite !fmap_cons, IH. by injection Hxy as ->.
  - by rewrite (earlier_rows_keys c r _ _ Hkeys).
  - clear -Hrows Hr Hno. induction Hrows as [|x y l l' Hxy _ IH]; [done|].
    apply elem_of_cons in Hr as [->|Hr]; [|right; by apply IH].
    destruct Hxy as [->|[H _]]; [by left|done].
Qed.

(** C21: rows the retention never reaches.  The query takes the oldest three
    batches without leaving out the rows that were already scrubbed.  So once
    three batches of rows that are older than the cutoff finished strictly before a
    row, that row keeps its payload through any number of runs, however late their
    cutoffs and in whichever order the database returns rows of the same instant. *)
Theorem retention_never_reaches batch c cs w r :
  NoDup (nr_id <$> node_rows w) → (batch * 3 ≤ length (earlier_rows c r (node_rows w)))%nat →
  Forall (Z.le c) cs → r ∈ node_rows w → r ∈ node_rows (scrub_rounds batch cs w).
Proof.
  intros Hnd Hlen Hcs Hr. unfold scrub_rounds. revert w Hnd Hlen Hr.
  induction Hcs as [|c' cs Hc Hcs IH]; [done|]. intros w Hnd Hlen Hr.
  destruct (scrub_keeps_others batch c c' w r) as (H1 & H2 & H3); [done..|]. by apply IH.
Qed.
End scrub.

(** ** The task ledger and the inbox *)

Lemma oldest_perm {R} (at_ : R → option Z) p n rows :
  ∃ l, List.filter p rows ≡ₚ oldest at_ p n rows ++ l ∧
       length (oldest at_ p n rows) = Nat.min n (length (List.filter p rows)).
Proof.
  exists (skipn n (merge_sort (instant_le at_) (List.filter p rows))). unfold oldest.
  rewrite firstn_skipn, length_firstn, !(merge_sort_Permutation (instant_le at_)). by split.
Qed.

(** Dropping the rows with the ids of a part of the table. *)
Lemma drop_ids (gone tasks : list TaskExecution) (p : TaskExecution → bool) rest :
  NoDup (te_id <$> tasks) → gone ⊆ tasks → List.filter p tasks ≡ₚ gone ++ rest →
  let left_ := List.filter (λ t, negb (bool_decide (te_id t ∈ te_id <$> gone))) tasks in
  (∀ t, t ∈ tasks → (t ∈ left_ ↔ t ∉ gone)) ∧ List.filter p left_ ≡ₚ rest.
Proof.
  intros Hnd Hsub Hp. cbv zeta. set (keep := λ t, negb (bool_decide (te_id t ∈ te_id <$> gone))).
  assert (∀ t, t ∈ tasks → (keep t = true ↔ t ∉ gone)) as Hkeep.
  { intros t Ht. unfold keep. rewrite negb_true_iff, bool_decide_eq_false. split; intros H Hin; apply H.
    - by apply list_elem_of_fmap_2.
    - apply list_elem_of_fmap in Hin as (x & E & Hx).
      by rewrite (NoDup_fmap_inj_in te_id tasks t x Hnd Ht (Hsub _ Hx) E). }
  split.
  - intros t Ht. rewrite <- Hkeep by done. rewrite !list_elem_of_In, filter_In. rewrite list_elem_of_In in Ht. tauto.
  - assert (List.filter p (List.filter keep tasks) = List.filter keep (List.filter p tasks)) as ->.
    { clear. induction tasks as [|t l IH]; [done|]. cbn.
      destruct (keep t) eqn:E1, (p t) eqn:E2; cbn; rewrite ?E1, ?E2; by rewrite ?IH. }
    rewrite (filter_perm keep _ _ Hp), List.filter_app.
    assert (NoDup (gone ++ rest)) as Hnd'.
    { rewrite <- Hp. apply (NoDup_fmap_1 te_id). eapply sublist_NoDup; [exact Hnd|].
      apply fmap_sublist, Prelude.filter_sublist. }
    apply NoDup_app in Hnd' as (_ & Hdis & _).
    assert (∀ t, t ∈ gone ++ rest → t ∈ tasks) as Hin.
    { intros t. rewrite <- Hp, !list_elem_of_In, filter_In. tauto. }
    rewrite (Prelude.filter_none keep gone), (filter_all keep rest); [done| |].
    + intros t Ht. apply Hkeep; [apply Hin, elem_of_app; by right|]. intros H. by apply (Hdis t).
    + intros t Ht. apply not_true_iff_false. rewrite Hkeep; [tauto|]. by apply Hsub.
Qed.

Definition task_rows (w : OpsWorld) : list TaskExecution := st_task_executions (ow_store w).
Definition old_tasks (older_than : Z) (w : OpsWorld) : nat := length (List.filter (old_task older_than) (task_rows w)).

(** Node rows name ledger rows that exist. *)
Definition tasks_known (w : OpsWorld) : Prop :=
  ∀ r i, r ∈ node_rows w → nr_task_execution_id r = Some i → i ∈ te_id <$> task_rows w.

(** The ledger is emptied of its old rows.  A run deletes as many of the
    finished rows older than the cutoff as fit the batch, so that repeating it
    reaches all of them; it deletes no other row, changes none, and leaves no
    node row naming a row that is gone. *)
Theorem delete_old_task_executions_spec older_than batch w :
  NoDup (te_id <$> task_rows w) →
  wp (delete_old_task_executions older_than batch)
    (λ n w', n = Nat.min batch (old_tasks older_than w) ∧
       old_tasks older_than w' = (old_tasks older_than w - batch)%nat ∧
       task_rows w' `sublist_of` task_rows w ∧
       (∀ t, t ∈ task_rows w → t ∉ task_rows w' → old_task older_than t = true) ∧
       (tasks_known w → tasks_known w'))
    (λ _ _, False) w.
Proof.
  intros Hnd. apply wp_bind, wp_get. fold (task_rows w).
  set (gone := oldest _ (old_task older_than) batch (task_rows w)).
  destruct (oldest_perm (λ t, Some (te_created_at t)) (old_task older_than) batch (task_rows w)) as (rest & Hp & Hlen).
  fold gone in Hp, Hlen.
  assert (gone ⊆ task_rows w) as Hsub by (intros t Ht; by apply elem_of_oldest in Ht as [Ht _]).
  destruct (drop_ids gone (task_rows w) (old_task older_than) rest Hnd Hsub Hp) as [Hleft Hrest].
  assert (old_tasks older_than w = length gone + length rest)%nat as Hold.
  { unfold old_tasks. by rewrite Hp, length_app. }
  fold (old_tasks older_than w) in Hlen.
  destruct gone as [|t0 gone'] eqn:Hgone.
  { apply wp_ret. cbn in Hlen, Hold. split_and!; [lia| |done|done|done].
    enough (batch = 0 ∨ old_tasks older_than w = 0)%nat by lia. lia. }
  rewrite <- Hgone in *. cbv zeta. destruct (te_id <$> gone) as [|i ids] eqn:Hids at 1; [by rewrite Hgone in Hids|].
  clear Hids i ids.
  apply wp_bind, wp_modify, wp_ret. rewrite length_fmap.
  set (w' := w <| ow_store ::= _ |>).
  assert (task_rows w' = List.filter (λ t, negb (bool_decide (te_id t ∈ te_id <$> gone))) (task_rows w)) as Htasks by done.
  split_and!; [lia| | | |].
  - unfold old_tasks at 1. rewrite Htasks, Hrest. lia.
  - rewrite Htasks. apply Prelude.filter_sublist.
  - intros t Ht Hno. rewrite Htasks, Hleft in Hno by done. apply dec_stable in Hno.
    by apply elem_of_oldest in Hno as [_ ?].
  - intros Hknown r i Hr Hi. unfold w', node_rows in Hr. cbn in Hr.
    apply list_elem_of_In, in_map_iff in Hr as (r0 & E & Hr0%list_elem_of_In).
    assert (nr_task_execution_id r0 = Some i ∧ i ∉ te_id <$> gone) as [H0 Hng].
    { destruct (nr_task_execution_id r0) as [j|] eqn:Hj; [|by subst r; rewrite Hj in Hi].
      case_bool_decide as Hin; subst r; [done|]. rewrite Hj in Hi. by injection Hi as ->. }
    destruct (proj1 (list_elem_of_fmap _ _ _) (Hknown _ _ Hr0 H0)) as (t & -> & Ht).
    apply list_elem_of_fmap_2. rewrite Htasks, Hleft by done. intros Hin. apply Hng. by apply list_elem_of_fmap_2.
Qed.

(** ** What the job leaves of the inbox and of the runs *)

Definition stubbed (x x' : WebhookInbox) : Prop :=
  x' = x ∨ ∃ p, is_already_scrubbed p = true ∧ x' = x <| wi_payload := p |>.

Lemma stubbed_trans x y z : stubbed x y → stubbed y z → stubbed x z.
Proof.
  intros [->|(p & Hp & ->)] [->|(q & Hq & ->)]; [by left|right; eauto..].
Qed.

Lemma stubbed_fields x x' : stubbed x x' →
  wi_id x' = wi_id x ∧ wi_dedupe_key x' = wi_dedupe_key x ∧ wi_status x' = wi_status x.
Proof. by intros [->|(p & _ & ->)]. Qed.

(** Runs, drawn ids and the other tables are untouched, messages too; a webhook
    row is as it was, or its payload became a stub. *)
Definition after_retention (w w' : OpsWorld) : Prop :=
  st_runs (ow_store w') = st_runs (ow_store w) ∧ st_uuids (ow_store w') = st_uuids (ow_store w) ∧
  ow_tables w' = ow_tables w ∧ ow_inbox_tasks w' = ow_inbox_tasks w ∧
  Forall2 stubbed (ow_inbox w) (ow_inbox w').

Section job.
Context (cfg : RetentionSettings) (now : Z) (dumps : json → string) (storage_configured : bool)
        (upload : string → string → bool) (w0 : OpsWorld).

Ltac keep_rows := solve_keeps ltac:(unfold after_retention in *; cbn in *; naive_solver).

Lemma keeps_archive kind t i payload :
  keeps (after_retention w0) (maybe_archive_payload cfg dumps storage_configured upload kind t i payload).
Proof. unfold maybe_archive_payload. keep_rows. Qed.
#[local] Hint Resolve keeps_archive : keeps.

Lemma keeps_scrub_nodes batch nodes k :
  keeps (after_retention w0) (scrub_nodes cfg now dumps storage_configured upload batch nodes k).
Proof.
  revert k. induction nodes as [|node nodes IH]; intros k; [apply keeps_ret|]. cbn [scrub_nodes].
  repeat case_match; try solve [apply keeps_ret|apply IH].
  apply keeps_bind; [apply keeps_archive|intros key]. apply keeps_bind; [|auto].
  unfold on_node_row. keep_rows.
Qed.

Lemma keeps_stub_inbox id key : keeps (after_retention w0) (assign_inbox id (λ r, r <| wi_payload := scrub_stub now key |>)).
Proof.
  apply keeps_modify. intros w (H1 & H2 & H3 & H4 & H5). split_and!; [done..|]. cbn.
  unfold set_row. apply Forall2_fmap_r. eapply Forall2_impl; [exact H5|]. intros x y Hxy. simpl.
  case_bool_decide; [|done]. eapply stubbed_trans; [exact Hxy|]. right. eexists. split; [|done].
  apply scrub_stub_scrubbed.
Qed.

Lemma keeps_scrub_webhooks batch rows k :
  keeps (after_retention w0) (scrub_webhooks cfg now dumps storage_configured upload batch rows k).
Proof.
  revert k. induction rows as [|row rows IH]; intros k; [apply keeps_ret|]. cbn [scrub_webhooks].
  repeat case_match; try solve [apply keeps_ret|apply IH];
    (apply keeps_bind; [first [apply keeps_ret|apply keeps_archive]|intros key]);
    (apply keeps_bind; [apply keeps_stub_inbox|auto]).
Qed.

Lemma keeps_run_retention size :
  keeps (after_retention w0) (run_workflow_retention cfg now dumps storage_configured upload size).
Proof.
  unfold run_workflow_retention. case_match; [apply keeps_ret|].
  apply keeps_bind; [apply keeps_get; intros w Hw; by apply keeps_scrub_nodes|intros n].
  apply keeps_bind; [|intros m].
  { apply keeps_get. intros w Hw. cbv zeta. case_match; [by apply wp_ret|].
    apply wp_bind, wp_modify, wp_ret. exact Hw. }
  apply keeps_bind; [apply keeps_get; intros w Hw; by apply keeps_scrub_webhooks|intros k]. apply keeps_ret.
Qed.
End job.

Lemma after_retention_refl w : after_retention w w.
Proof. split_and!; [done..|]. apply Forall_Forall2_diag, Forall_forall. by left. Qed.

(** What one run of the job leaves, returning or not. *)
Lemma run_retention_after cfg now dumps storage_configured upload size w :
  after_retention w (run_workflow_retention cfg now dumps storage_configured upload size w).2.
Proof. apply keeps_snd; [apply keeps_run_retention|apply after_retention_refl]. Qed.

(** ** Examples *)

Definition ex_cfg : RetentionSettings := {|
  WORKFLOW_RETENTION_ENABLED := true; WORKFLOW_RETENTION_NODE_PAYLOAD_DAYS := 30;
  WORKFLOW_RETENTION_TASK_EXECUTION_DAYS := 14; WORKFLOW_RETENTION_WEBHOOK_PAYLOAD_DAYS := 14;
  WORKFLOW_RETENTION_BATCH_SIZE := 1; WORKFLOW_RETENTION_ARCHIVE_TO_STORAGE := true |}.

Definition ex_row (id : string) (finished : Z) : WorkflowNodeRun :=
  new_node_run id "T" "R" id "core.noop" 1 SUCCEEDED "" [] <| nr_finished_at := Some finished |>
    <| nr_output_json := [("big", JStr "text")] |> <| nr_task_execution_id := Some "t1" |>.
Definition ex_rows : list WorkflowNodeRun := [ex_row "d" 4; ex_row "b" 2; ex_row "a" 1; ex_row "c" 3].

Definition ex_task (id status : string) (created : Z) : TaskExecution := {|
  te_id := id; te_tenant_id := None; te_task_name := "t"; te_queue_name := "q"; te_celery_task_id := None;
  te_correlation_id := None; te_status := status; te_progress := 0; te_attempt := 1; te_entity_type := None;
  te_entity_id := None; te_cancellable := false; te_cancellation_requested := false; te_cancelled_at := None;
  te_started_at := None; te_finished_at := None; te_payload := []; te_result := []; te_error_message := None;
  te_created_at := created |}.

Definition ex_old : OpsWorld := {|
  ow_store := empty_store <| st_node_runs := ex_rows |>
    <| st_task_executions := [ex_task "t1" "completed" 1; ex_task "t2" "running" 1; ex_task "t3" "failed" 3] |>;
  ow_tables := empty_tables; ow_inbox := []; ow_inbox_tasks := []; ow_replay := []; ow_objects := [] |}.

Definition ex_scrub := scrub_old_node_payloads ex_cfg 100 Json.repr true (λ _ _, true).

Lemma scrub_old_node_payloads_spec_witness :
  ∃ w', ex_scrub 10 2 ex_old = (Ok 2%nat, w') ∧ (live_rows (node_rows w') + 2)%nat = live_rows ex_rows ∧
    is_already_scrubbed <$> (nr_output_json <$> node_rows w') = [false; true; true; false].
Proof.
  pose proof (scrub_old_node_payloads_spec ex_cfg 100 Json.repr true (λ _ _, true) 10 2 ex_old
    ltac:(apply (bool_decide_unpack _); vm_compute; exact I)) as H.
  revert H. unfold ex_scrub. cbv beta delta [wp].
  destruct (scrub_old_node_payloads _ _ _ _ _ _ _ ex_old) as [[n|e] w'] eqn:E; intros H; [|done].
  assert (n = 2%nat) as -> by (vm_compute in E; congruence).
  exists w'. split; [done|]. split; [exact (proj1 (proj2 (proj2 (proj2 H))))|].
  vm_compute in E. injection E as <-. reflexivity.
Defined.

(** Three rows of one instant keep the batches of one row busy. *)
Definition ex_busy : OpsWorld := ex_old <| ow_store ::= λ st, st
  <| st_node_runs := [ex_row "d" 4; ex_row "b" 2; ex_row "a" 2; ex_row "c" 2] |> |>.

Lemma retention_never_reaches_witness :
  needs_scrub (ex_row "d" 4) = true ∧
  ex_row "d" 4 ∈ node_rows (scrub_rounds ex_cfg 100 Json.repr true (λ _ _, true) 1 [10; 20; 30; 40; 50] ex_busy).
Proof.
  split; [reflexivity|].
  apply (retention_never_reaches ex_cfg 100 Json.repr true (λ _ _, true) 1 10 [10; 20; 30; 40; 50] ex_busy).
  - apply (bool_decide_unpack _). vm_compute. exact I.
  - vm_compute. lia.
  - repeat constructor; lia.
  - by left.
Defined.

Lemma delete_old_task_executions_spec_witness :
  ∃ w', delete_old_task_executions 5 1 ex_old = (Ok 1%nat, w') ∧ old_tasks 5 ex_old = 2%nat ∧
    old_tasks 5 w' = 1%nat ∧ te_id <$> task_rows w' = ["t2"; "t3"].
Proof.
  pose proof (delete_old_task_executions_spec 5 1 ex_old
    ltac:(apply (bool_decide_unpack _); vm_compute; exact I)) as H.
  revert H. cbv beta delta [wp].
  destruct (delete_old_task_executions 5 1 ex_old) as [[n|e] w'] eqn:E; intros H; [|done].
  assert (n = 1%nat) as -> by (vm_compute in E; congruence).
  exists w'. split; [done|]. split; [reflexivity|]. split; [exact (proj1 (proj2 H))|].
  vm_compute in E. injection E as <-. reflexivity.
Defined.
End Retention.
