(* ===== verification/Webhooks.v ===== *)
(** * Workflow webhooks (webhook_ingress.py, webhook_crypto.py,
    core/security.py)

    A signed request becomes a row of the inbox, once per event, and the row
    becomes a run, once per row.  SHA-256, HMAC, the JSON codec and the reading
    of UUIDs are arguments; texts and bodies are bytes. *)
From S2P Require Import Prelude PyStr Json Tables Config RunModels Calendar Scheduler Execute.
From S2P Require Import Engine Resume Start Final Correlation Automations Inbox Runtime Retention.

Module Webhooks.
Import Tables Models Config Scheduler Engine Start Final Correlation Automations Inbox Runtime Retention.
Local Open Scope string_scope.
Local Open Scope list_scope.
Local Open Scope Z_scope.

(** ** webhook_crypto.py *)

(** The digits of an [int] literal: single underscores may separate them. *)
Fixpoint int_digits (after_digit : bool) (acc : Z) (s : string) : option Z :=
  match s with
  | "" => if after_digit then Some acc else None
  | String c s' =>
      if PyStr.is_digit c then int_digits true (acc * 10 + Z.of_nat (PyStr.code c - 48)) s'
      else if after_digit && bool_decide (c = "_"%char) then int_digits false acc s'
      else None
  end.

Fixpoint digit_count (s : string) : nat :=
  match s with "" => 0 | String c s' => (if PyStr.is_digit c then 1 else 0) + digit_count s' end%nat.

(** [int(text)]: at most 4300 digits are converted. *)
Definition python_int (text : string) : option Z :=
  let s := PyStr.strip text in
  let magnitude s := if Nat.leb (digit_count s) 4300 then int_digits false 0 s else None in
  match s with
  | String "-" s' => Z.opp <$> magnitude s'
  | String "+" s' => magnitude s'
  | _ => magnitude s
  end.

Definition parse_timestamp (raw : option string) : option Z :=
  match raw with
  | Some text => if PyStr.truthy (PyStr.strip text) then python_int (PyStr.strip text) else None
  | None => None
  end.

(** [s.split(sep, 1)] when [sep] occurs. *)
Fixpoint split_once (sep : ascii) (s : string) : option (string * string) :=
  match s with
  | "" => None
  | String c s' => if bool_decide (c = sep) then Some ("", s')
                   else '(a, b) ← split_once sep s'; Some (String c a, b)
  end.

(** The signature a header carries, and the timestamp that goes with it. *)
Definition read_signature (signature_header : string) (timestamp : option Z) : string * option Z :=
  let header := PyStr.strip signature_header in
  if PyStr.startswith "sha256=" (PyStr.lower header) then
    (match split_once "=" header with Some (_, v) => PyStr.strip v | None => header end, timestamp)
  else if PyStr.contains "," header && PyStr.contains "v1=" header then
    let parts : dict string := foldl (λ o kv, Dict.set kv.1 kv.2 o) []
                                 (omap (split_once "=") (PyStr.split "," header)) in
    (PyStr.strip (default "" (Dict.get "v1" parts)),
     match timestamp, Dict.get "t" parts with
     | None, Some t => if PyStr.truthy t then parse_timestamp (Some t) else None
     | _, _ => timestamp
     end)
  else (header, timestamp).

Definition is_ascii (s : string) : bool := PyStr.all_chars (λ c, Nat.ltb (PyStr.code c) 128) s.

(** [hmac.compare_digest] of two texts. *)
Definition compare_digest (a b : string) : result bool :=
  if is_ascii a && is_ascii b then Ok (String.eqb a b)
  else Raise (OtherException "TypeError" "comparing strings with non-ASCII characters is not supported").

Section crypto.
Context (sha256_hex : string → string) (hmac_sha256_hex : string → string → string).

Definition verify_generic_hmac (secret body : string) (signature_header : option string)
    (timestamp : option Z) (max_skew_seconds clock : Z) (require_timestamp : bool) : result bool :=
  match signature_header with
  | None => Ok false
  | Some signature_header =>
      if negb (PyStr.truthy secret) || negb (PyStr.truthy signature_header) then Ok false
      else
        let '(provided, timestamp) := read_signature signature_header timestamp in
        let check signed := compare_digest (hmac_sha256_hex secret signed) provided in
        if require_timestamp then
          match timestamp with
          | None => Ok false
          | Some t => if max_skew_seconds <? Z.abs (clock - t) then Ok false
                      else check (PyStr.of_Z t +:+ "." +:+ body)
          end
        else check body
  end.

Definition stable_event_id (idempotency_key : option string) (body : string) : string :=
  match idempotency_key with
  | Some k => if PyStr.truthy k && PyStr.truthy (PyStr.strip k) then sha256_hex (PyStr.strip k)
              else sha256_hex body
  | None => sha256_hex body
  end.

Definition sanitize_trigger_payload (payload : dict json) : dict json := Config.strip_dict payload.
End crypto.

(** ** webhook_ingress.py *)

(** What the endpoint answers. *)
Record WebhookAccepted := {
  wa_inbox_id : string;
  wa_workflow_run_id : json;
  wa_deduped : bool;
  wa_status : string;
}.

(** What processing an inbox row answers. *)
Record ProcessResult := { pr_status : string; pr_workflow_run_id : json }.

(** The engine reads the tables of the moment. *)
Definition with_tables (env : EngineEnv) (t : Tables) : EngineEnv := {|
  ee_exec := ee_exec env; ee_tables := t; ee_coercions := ee_coercions env; ee_checksum := ee_checksum env; ee_digest := ee_digest env;
  ee_llm_provider := ee_llm_provider env; ee_llm_model := ee_llm_model env; ee_locked := ee_locked env;
  ee_refresh := ee_refresh env |}.

Record IngressEnv := {
  ie_engine : EngineEnv;
  ie_secrets : dict string;  (* settings.external_secret_references *)
  ie_sha256 : string → string;
  ie_hmac : string → string → string;
  ie_loads : string → option json;  (* json.loads of UTF-8 text *)
  ie_dumps : json → string;
  ie_decode_ignore : string → string;  (* bytes.decode("utf-8", errors="ignore") *)
  ie_coerce_int : json → option Z;
  ie_coerce_bool : json → option bool;
  ie_uuid_of_text : string → option string;
  ie_redis_up : bool;
}.

Section ingress.
Context (env : IngressEnv).

Definition uuids : nat → string := Execute.en_fresh (ee_exec (ie_engine env)).
Definition now : Z := Engine.now (ie_engine env).

(** [resolve_secret_reference] *)
Definition resolve_secret_reference (reference : option string) : option string :=
  match reference with
  | None => None
  | Some r => let normalized := PyStr.strip r in
              if PyStr.truthy normalized then Dict.get normalized (ie_secrets env) else None
  end.

Definition endpoint_automation (endpoint_id : string) (a : Automation) : bool :=
  bool_decide (au_webhook_endpoint_id a = Some endpoint_id) &&
  match au_deleted_at a with None => true | Some _ => false end && is_webhook (au_trigger_type a).

(** [scalar_one_or_none] *)
Definition get_automation_by_endpoint (endpoint_id : string) : M OpsWorld (option Automation) :=
  w ← get_state;
  match List.filter (endpoint_automation endpoint_id) (tb_automations (ow_tables w)) with
  | [] => mret None
  | [a] => mret (Some a)
  | _ => raise (OtherException "MultipleResultsFound" "Multiple rows were found when one or none was required")
  end.

(** [SET key 1 NX EX ttl]; without Redis every key is new. *)
Definition reserve_replay (key : string) (ttl_seconds : Z) : M OpsWorld bool :=
  if negb (ie_redis_up env) then mret true
  else
    w ← get_state;
    if existsb (λ kt, bool_decide (kt.1 = key) && (now <? kt.2)) (ow_replay w) then mret false
    else _ ← modify (λ w, w <| ow_replay ::= λ l, (key, now + 1000000 * ttl_seconds) :: l |>); mret true.

(** Header names are compared in lower case; the last of equal names counts. *)
Definition lowered_headers (headers : dict string) : dict string :=
  foldl (λ o kv, Dict.set (PyStr.lower kv.1) kv.2 o) [] headers.
Definition header (headers : dict string) (name : string) : option string :=
  Dict.get (PyStr.lower name) (lowered_headers headers).

(** What a row that was there before answers. *)
Definition already_received (existing : WebhookInbox) : WebhookAccepted :=
  {| wa_inbox_id := wi_id existing;
     wa_workflow_run_id := Json.getn "workflow_run_id" (wi_payload existing);
     wa_deduped := true; wa_status := wi_status existing |}.

Definition parse_body (raw_body : string) : dict json :=
  match ie_loads env raw_body with
  | Some (JObj o) => o
  | Some v => [("value", v)]
  | None => [("raw_text", JStr (ie_decode_ignore env raw_body))]
  end.

Definition dedupe_key_of (tenant_id endpoint_id event_id : string) : string :=
  "wf:" +:+ tenant_id +:+ ":" +:+ endpoint_id +:+ ":" +:+ event_id.

Definition received_row (id : string) (a : Automation) (endpoint_id event_id raw_body : string) : WebhookInbox := {|
  wi_id := id; wi_tenant_id := Some (au_tenant_id a); wi_provider := "workflow_webhook";
  wi_event_type := "automation:" +:+ au_id a;
  wi_dedupe_key := dedupe_key_of (au_tenant_id a) endpoint_id event_id;
  wi_payload := [("automation_id", JStr (au_id a)); ("endpoint_id", JStr endpoint_id);
                 ("event_id", JStr event_id);
                 ("body_json", JStr (ie_dumps env (JObj (sanitize_trigger_payload (parse_body raw_body)))))];
  wi_received_at := Some now; wi_processed_at := None; wi_signature_valid := true;
  wi_status := "received"; wi_error_message := None |}.

(** The inbox row becomes a run.  Both error outcomes are committed. *)
Definition start_args (a : Automation) (trigger_payload : dict json) (correlation_id : string) : StartArgs := {|
  sg_tenant_id := au_tenant_id a; sg_workflow_version_id := au_workflow_version_id a;
  sg_trigger_payload := trigger_payload; sg_initial_inputs := [("payload", JObj trigger_payload)];
  sg_automation_id := Some (au_id a); sg_brand_id := Some (au_brand_id a);
  sg_correlation_id := Some correlation_id; sg_compile_context := None; sg_trigger_type := "webhook";
  sg_run_config := []; sg_advance := true; sg_dry_run := false; sg_mock_generation := false;
  sg_simulate_approval := false |}.

(** A received row holds a dumped object; of another value only a sequence of
    pairs would be a mapping, and is not kept here. *)
Definition trigger_payload_of (payload : dict json) : dict json :=
  let body := Json.getn "body_json" payload in
  match (if Json.truthy body then body else JStr "{}") with
  | JStr text => match ie_loads env text with
                 | Some (JObj o) => Config.sanitize_mapping (Some o)
                 | Some v => if Json.truthy v then [] else Config.sanitize_mapping None
                 | None => []
                 end
  | _ => []
  end.

Definition event_id_of (inbox : WebhookInbox) : string :=
  let v := Json.getn "event_id" (wi_payload inbox) in
  if Json.truthy v then Json.str v else wi_dedupe_key inbox.

Definition correlation_of (automation_id event_id : string) : string :=
  PyStr.take 128 ("wh:" +:+ automation_id +:+ ":" +:+ event_id).

Definition fail_inbox (inbox_id message : string) : M OpsWorld ProcessResult :=
  _ ← assign_inbox inbox_id (λ r, r <| wi_status := "error" |> <| wi_error_message := Some message |>);
  mret {| pr_status := "error"; pr_workflow_run_id := JNull |}.

(** [db.get(Automation, UUID(...))] reads deleted rows too. *)
Definition automation_of (payload : dict json) (t : Tables) : result (option Automation) :=
  match ie_uuid_of_text env (Json.str (Json.getn "automation_id" payload)) with
  | None => Raise (ValueError "badly formed hexadecimal UUID string")
  | Some i => Ok (row_by au_id i (tb_automations t))
  end.

Definition run_inbox (inbox : WebhookInbox) (a : Automation) : M OpsWorld ProcessResult :=
  _ ← assign_inbox (wi_id inbox) (λ r, r <| wi_status := "processing" |>);
  w ← get_state;
  run ← on_store (start_run (with_tables (ie_engine env) (ow_tables w))
          (start_args a (trigger_payload_of (wi_payload inbox)) (correlation_of (au_id a) (event_id_of inbox))));
  _ ← assign_inbox (wi_id inbox) (λ r,
        r <| wi_payload := Dict.set "workflow_run_id" (JStr (wr_id run)) (wi_payload inbox) |>
          <| wi_status := "processed" |> <| wi_processed_at := Some now |>);
  _ ← modify (λ w, w <| ow_tables ::= λ t, t <| tb_automations ::=
        set_row au_id (au_id a) (λ a, a <| au_last_run_at := Some now |>) |> |>);
  mret {| pr_status := "processed"; pr_workflow_run_id := JStr (wr_id run) |}.

Definition process_workflow_webhook_inbox (inbox_id : string) : M OpsWorld ProcessResult :=
  w ← get_state;
  match get_pending_webhook inbox_id (ow_inbox w) with
  | None => mret {| pr_status := "missing"; pr_workflow_run_id := JNull |}
  | Some inbox =>
      if String.eqb (wi_status inbox) "processed" then
        mret {| pr_status := "processed"; pr_workflow_run_id := Json.getn "workflow_run_id" (wi_payload inbox) |}
      else if negb (bool_decide (wi_status inbox ∈ ["received"; "error"])) then
        mret {| pr_status := wi_status inbox; pr_workflow_run_id := JNull |}
      else if negb (Json.truthy (Json.getn "automation_id" (wi_payload inbox))) then
        fail_inbox inbox_id "missing automation_id"
      else
        automation ← lift (automation_of (wi_payload inbox) (ow_tables w));
        match automation with
        | Some a => if au_enabled a then run_inbox inbox a else fail_inbox inbox_id "automation unavailable"
        | None => fail_inbox inbox_id "automation unavailable"
        end
  end.

(** The row is inserted and committed, or another request was faster: [racing]
    are the rows other sessions commit in between. *)
Definition insert_received (racing : list WebhookInbox) (row : WebhookInbox) : M OpsWorld (option WebhookInbox) :=
  _ ← modify (λ w, w <| ow_inbox ::= λ l, l ++ racing |>);
  try_except (_ ← create_webhook row; mret None) (λ e,
    w ← get_state;
    match get_webhook_by_dedupe_key (wi_dedupe_key row) (ow_inbox w) with
    | None => raise e
    | Some existing => mret (Some existing)
    end).

(** The automation of the endpoint and the id of the event, of an authentic
    request. *)
Definition check_request (endpoint_id raw_body : string) (headers : dict string)
    : M OpsWorld (Automation * WebhookTriggerConfig * string) :=
  found ← get_automation_by_endpoint endpoint_id;
  automation ← lift match found with
                    | Some a => if au_enabled a then Ok a else Raise (HTTPException 404 "Webhook endpoint not found")
                    | None => Raise (HTTPException 404 "Webhook endpoint not found") end;
  cfg ← lift match parse_webhook_trigger_config (ie_coerce_int env) (ie_coerce_bool env)
                     (au_trigger_config automation) with
             | Ok c => Ok c
             | Raise e => Raise (HTTPException 503 ("Invalid webhook config: " +:+ exn_str e)) end;
  secret ← lift match resolve_secret_reference (Some (wc_signing_secret_ref cfg)) with
                | Some s => if PyStr.truthy s then Ok s
                            else Raise (HTTPException 503 "Webhook signing secret not configured")
                | None => Raise (HTTPException 503 "Webhook signing secret not configured") end;
  valid ← lift (verify_generic_hmac (ie_hmac env) secret raw_body (header headers (wc_signature_header cfg))
                  (parse_timestamp (header headers (wc_timestamp_header cfg))) (wc_max_skew_seconds cfg)
                  (now / 1000000) (wc_require_timestamp cfg));
  if negb valid then raise (HTTPException 403 "Invalid webhook signature")
  else mret (automation, cfg,
             stable_event_id (ie_sha256 env) (header headers (wc_idempotency_header cfg)) raw_body).

(** The event becomes an inbox row and is processed or handed to the broker. *)
Definition accept_event (automation : Automation) (endpoint_id event_id raw_body : string)
    (process_inline : bool) (racing : list WebhookInbox) : M OpsWorld WebhookAccepted :=
  w ← get_state;
  match get_webhook_by_dedupe_key (dedupe_key_of (au_tenant_id automation) endpoint_id event_id) (ow_inbox w) with
  | Some existing => mret (already_received existing)
  | None =>
      id ← new_id uuids;
      winner ← insert_received racing (received_row id automation endpoint_id event_id raw_body);
      match winner with
      | Some existing => mret (already_received existing)
      | None =>
          if process_inline then
            result ← atomic (process_workflow_webhook_inbox id);
            mret {| wa_inbox_id := id; wa_workflow_run_id := pr_workflow_run_id result;
                    wa_deduped := false; wa_status := pr_status result |}
          else
            _ ← modify (λ w, w <| ow_inbox_tasks ::= λ l, l ++ [id] |>);
            mret {| wa_inbox_id := id; wa_workflow_run_id := JNull; wa_deduped := false;
                    wa_status := "received" |}
      end
  end.

Definition receive_workflow_webhook (endpoint_id raw_body : string) (headers : dict string)
    (process_inline : bool) (racing : list WebhookInbox) : M OpsWorld WebhookAccepted :=
  '(automation, cfg, event_id) ← check_request endpoint_id raw_body headers;
  _ ← reserve_replay ("wf_webhook_replay:" +:+ endpoint_id +:+ ":" +:+ event_id)
        (Z.max (wc_max_skew_seconds cfg * 2) 120);
  accept_event automation endpoint_id event_id raw_body process_inline racing.

(** The public endpoint (router_webhooks.py), after its rate limits. *)
Definition ingest_workflow_webhook (endpoint_id raw_body : string) (headers : dict string)
    (inline_node_execution : bool) (racing : list WebhookInbox) : M OpsWorld WebhookAccepted :=
  if 256000 <? Z.of_nat (String.length raw_body) then raise (HTTPException 413 "Webhook body too large")
  else receive_workflow_webhook endpoint_id raw_body headers inline_node_execution racing.

(** The background task (task_defs/workflows.py). *)
Definition process_task_spec (celery_id : option string) (inbox_id : string) (payload : dict json) : TaskSpec := {|
  ts_task_name := "process_workflow_webhook_inbox"; ts_queue_name := "generation"; ts_tenant_id := None;
  ts_entity_type := Some "webhook_inbox"; ts_entity_id := Some inbox_id; ts_celery_task_id := celery_id;
  ts_correlation_id := celery_id; ts_payload := payload |}.

Definition process_workflow_webhook_inbox_task (celery_id : option string) (inbox_id : string)
    (payload : dict json) : M OpsWorld ProcessResult :=
  run_async_task uuids now (process_task_spec celery_id inbox_id payload) (process_workflow_webhook_inbox inbox_id).
End ingress.

(** ** Signatures *)

Lemma compare_digest_spec a b : is_ascii a = true →
  (compare_digest a b = Ok true ↔ b = a) ∧ ((∃ e, compare_digest a b = Raise e) ↔ is_ascii b = false).
Proof.
  intros Ha. unfold compare_digest. rewrite Ha. destruct (is_ascii b) eqn:Hb; cbn.
  - split; [|naive_solver]. destruct (String.eqb_spec a b); naive_solver.
  - split; [|naive_solver]. split; [done|]. intros ->. congruence.
Qed.

(** [m] is the text whose digest the request has to present. *)
Definition signed_message (secret body : string) (signature_header : option string) (timestamp : option Z)
    (skew clock : Z) (require : bool) (m : string) : Prop :=
  ∃ h, signature_header = Some h ∧ secret ≠ "" ∧ h ≠ "" ∧
    if require then ∃ t, (read_signature h timestamp).2 = Some t ∧ Z.abs (clock - t) <= skew ∧
                         m = PyStr.of_Z t +:+ "." +:+ body
    else m = body.

Section signatures.
Context (hmac_sha256_hex : string → string → string).

Lemma verify_cases secret body signature_header timestamp skew clock require :
  let verify := verify_generic_hmac hmac_sha256_hex secret body signature_header timestamp skew clock require in
  let signed := signed_message secret body signature_header timestamp skew clock require in
  let provided := (read_signature (default "" signature_header) timestamp).1 in
  (verify = Ok false ∧ ∀ m, ¬ signed m) ∨
  ∃ m, (∀ m', signed m' ↔ m' = m) ∧ verify = compare_digest (hmac_sha256_hex secret m) provided.
Proof.
  cbv zeta. unfold verify_generic_hmac, signed_message. destruct signature_header as [h|]; cbn [from_option id].
  2: { left. split; [done|]. by intros m (? & [=] & _). }
  destruct (PyStr.truthy secret) eqn:Hs; cbn [negb orb].
  2: { left. apply PyStr.truthy_false in Hs. split; [done|]. intros m (? & _ & Hne & _). by apply Hne. }
  destruct (PyStr.truthy h) eqn:Hh; cbn [negb].
  2: { left. apply PyStr.truthy_false in Hh. split; [done|]. intros m (? & [= <-] & _ & Hne & _). by apply Hne. }
  assert (secret ≠ "") as Hs' by (intros ->; done). assert (h ≠ "") as Hh' by (intros ->; done).
  destruct (read_signature h timestamp) as [provided ts] eqn:Hread. cbn [fst].
  destruct require; [|right; exists body; split; [|done]].
  - destruct ts as [t|].
    + destruct (Z.ltb_spec skew (Z.abs (clock - t))) as [Hfar|Hnear].
      * left. split; [done|]. intros m (h' & [= <-] & _ & _ & t' & E & ? & _). rewrite Hread in E.
        injection E as <-. lia.
      * right. exists (PyStr.of_Z t +:+ "." +:+ body). split; [|done]. intros m. split.
        -- intros (h' & [= <-] & _ & _ & t' & E & _ & ->). rewrite Hread in E. by injection E as <-.
        -- intros ->. exists h. split_and!; [done..|]. exists t. by rewrite Hread.
    + left. split; [done|]. intros m (h' & [= <-] & _ & _ & t' & E & _). by rewrite Hread in E.
  - intros m. split; [by intros (h' & _ & _ & _ & ->)|]. intros ->. by exists h.
Qed.

(** Which requests are authentic.  Verification accepts a request exactly
    when there is a secret and a signature, and the signature is the keyed
    digest of the body, preceded by the timestamp where one is required, and
    the timestamp is then within the allowed distance of the clock.  It raises,
    instead of refusing, exactly when the comparison is reached with a
    signature that is not ASCII. *)
Theorem verify_generic_hmac_spec secret body signature_header timestamp skew clock require :
  (∀ key message, is_ascii (hmac_sha256_hex key message) = true) →
  let verify := verify_generic_hmac hmac_sha256_hex secret body signature_header timestamp skew clock require in
  let signed := signed_message secret body signature_header timestamp skew clock require in
  let provided := (read_signature (default "" signature_header) timestamp).1 in
  (verify = Ok true ↔ ∃ m, signed m ∧ provided = hmac_sha256_hex secret m) ∧
  ((∃ e, verify = Raise e) ↔ ∃ m, signed m ∧ is_ascii provided = false).
Proof.
  intros Hex. cbv zeta.
  destruct (verify_cases secret body signature_header timestamp skew clock require) as [[-> Hno]|(m & Hm & ->)].
  - split; [split; [done|by intros (m & ?%Hno & _)]|split; [by intros [e ?]|by intros (m & ?%Hno & _)]].
  - destruct (compare_digest_spec (hmac_sha256_hex secret m)
      (read_signature (default "" signature_header) timestamp).1 (Hex _ _)) as [-> ->].
    split; split; [intros H; exists m; by rewrite Hm|by intros (m' & ->%Hm & H)|
                   intros H; exists m; by rewrite Hm|by intros (m' & _ & H)].
Qed.
End signatures.

(** ** Histories *)

Section histories.
Context (fresh : nat → string) (fresh_inj : Inj (=) (=) fresh) (owner : string → string)
        (uuid_of_text : string → option string).

(** Ids come from [fresh], UUIDs are read as [uuid_of_text] says. *)
Definition ok_ingress (env : IngressEnv) : Prop :=
  ok_env fresh (ie_engine env) ∧ ie_uuid_of_text env = uuid_of_text.

(** The run of a processed row: started for the automation the row names, under
    the correlation id of its event.  The retention may have taken the payload. *)
Definition run_of_row (keys : list (string * string * option string)) (x : WebhookInbox) : Prop :=
  is_already_scrubbed (wi_payload x) = true ∨
  ∃ aid i, uuid_of_text (Json.str (Json.getn "automation_id" (wi_payload x))) = Some aid ∧
    Json.getn "workflow_run_id" (wi_payload x) = JStr i ∧
    (i, owner aid, Some (correlation_of aid (event_id_of x))) ∈ keys.

Definition row_ok (keys : list (string * string * option string)) (x : WebhookInbox) : Prop :=
  wi_status x = "processed" → run_of_row keys x.

Definition known_owners (t : Tables) : Prop := ∀ a, a ∈ tb_automations t → au_tenant_id a = owner (au_id a).

Notation drawn w := (st_uuids (ow_store w)).
Notation keys w := (run_keys (ow_store w)).

Definition hook_inv (w : OpsWorld) : Prop :=
  kept fresh 0 [] (ow_store w) ∧ known_owners (ow_tables w) ∧
  NoDup (wi_dedupe_key <$> ow_inbox w) ∧ NoDup (wi_id <$> ow_inbox w) ∧
  (∀ n, (drawn w ≤ n)%nat → fresh n ∉ wi_id <$> ow_inbox w) ∧ Forall (row_ok (keys w)) (ow_inbox w).

(** A row stays where it is, and once processed only its payload may go. *)
Definition row_le (x x' : WebhookInbox) : Prop :=
  wi_id x' = wi_id x ∧ wi_dedupe_key x' = wi_dedupe_key x ∧ (wi_status x = "processed" → stubbed x x').

Definition hook_le (w w' : OpsWorld) : Prop :=
  ∃ inbox new, ow_inbox w' = inbox ++ new ∧ Forall2 row_le (ow_inbox w) inbox.

Definition after (w w' : OpsWorld) : Prop :=
  hook_inv w' ∧ hook_le w w' ∧ (drawn w ≤ drawn w')%nat.

Lemma row_le_refl x : row_le x x.
Proof. split_and!; [done..|]. by left. Qed.

#[local] Instance row_le_trans : Transitive row_le.
Proof.
  intros x y z (E1 & E2 & H1) (E3 & E4 & H2). split_and!; [congruence..|]. intros Hx. specialize (H1 Hx).
  eapply stubbed_trans; [exact H1|]. apply H2. by rewrite (proj2 (proj2 (stubbed_fields _ _ H1))).
Qed.

Lemma hook_le_refl w : hook_le w w.
Proof.
  exists (ow_inbox w), []. split; [by rewrite app_nil_r|]. apply Forall_Forall2_diag, Forall_forall.
  intros x _. apply row_le_refl.
Qed.

Lemma hook_le_trans w1 w2 w3 : hook_le w1 w2 → hook_le w2 w3 → hook_le w1 w3.
Proof.
  intros (l1 & n1 & E1 & H1) (l2 & n2 & E2 & H2). rewrite E1 in H2.
  apply Forall2_app_inv_l in H2 as (l2a & l2b & Ha & Hb & ->). exists l2a, (l2b ++ n2).
  split; [by rewrite E2, app_assoc|]. by trans l1.
Qed.

Lemma after_trans w1 w2 w3 : after w1 w2 → after w2 w3 → after w1 w3.
Proof.
  intros (_ & H1 & L1) (H2 & H3 & L2). split_and!; [done|by eapply hook_le_trans|lia].
Qed.

Lemma row_ok_more ks ks' x : ks `prefix_of` ks' → row_ok ks x → row_ok ks' x.
Proof.
  intros [k ->] H Hx. destruct (H Hx) as [?|(a & i & Ha & Hi & Hin)]; [by left|right].
  exists a, i. split_and!; [done..|]. apply elem_of_app. by left.
Qed.

Lemma kept_self st : kept fresh 0 [] st → kept fresh (st_uuids st) (run_keys st) st.
Proof. intros (H1 & _ & H3 & H4 & _). split_and!; [done|done|done|done|lia]. Qed.

Lemma kept_base U K st : kept fresh U K st → kept fresh 0 [] st.
Proof. intros (H1 & _ & H3 & H4 & _). split_and!; [done|by apply prefix_nil|done|done|lia]. Qed.

(** Rows change in place; a processed row keeps what it has. *)
Lemma after_rows w w' :
  hook_inv w → kept fresh (drawn w) (keys w) (ow_store w') → known_owners (ow_tables w') →
  Forall2 (λ x x', row_le x x' ∧ (wi_status x ≠ "processed" → row_ok (keys w') x')) (ow_inbox w) (ow_inbox w') →
  after w w'.
Proof.
  intros (_ & _ & Hk & Hi & Hf & Hok) Hst Howner Hrows.
  assert (∀ {B} (f : WebhookInbox → B), (∀ x x', row_le x x' → f x' = f x) →
    f <$> ow_inbox w' = f <$> ow_inbox w) as Hmap.
  { intros B f Hle. clear -Hrows Hle. induction Hrows as [|x x' l l' [Hx _] _ IH]; [done|].
    by rewrite !fmap_cons, IH, (Hle x x'). }
  pose proof Hst as (_ & Hpre & _ & _ & Hu). split_and!; [split_and!|exists (ow_inbox w'), []; split|done].
  - by eapply kept_base.
  - done.
  - rewrite (Hmap _ wi_dedupe_key); [done|]. by intros x x' (_ & ? & _).
  - rewrite (Hmap _ wi_id); [done|]. by intros x x' (? & _).
  - intros n Hn. rewrite (Hmap _ wi_id); [apply Hf; lia|]. by intros x x' (? & _).
  - clear -Hok Hrows Hpre. revert Hok.
    induction Hrows as [|x x' l l' [(_ & Hkey & Hle) Hnew] _ IH]; intros Hok; [constructor|].
    apply Forall_cons in Hok as [Hx Hok]. constructor; [|by apply IH].
    destruct (decide (wi_status x = "processed")) as [E|E]; [|by apply Hnew].
    intros _. destruct (Hle E) as [->|(p & Hp & ->)]; [|by left].
    by apply (row_ok_more _ _ x Hpre).
  - by rewrite app_nil_r.
  - eapply Forall2_impl; [exact Hrows|]. by intros x x' [? _].
Qed.

(** Nothing but the other fields changed. *)
Lemma after_same w w' :
  hook_inv w → st_runs (ow_store w') = st_runs (ow_store w) → (drawn w ≤ drawn w')%nat →
  known_owners (ow_tables w') → ow_inbox w' = ow_inbox w → after w w'.
Proof.
  intros Hw Hr Hu Ho Hi. pose proof Hw as (Hst & _ & _ & _ & _ & Hok). apply after_rows; [done| |done|].
  - eapply kept_other; [exact Hr|exact Hu|]. by apply kept_self.
  - rewrite Hi. assert (keys w' = keys w) as -> by (unfold run_keys; by rewrite Hr).
    apply Forall_Forall2_diag. eapply Forall_impl; [exact Hok|]. intros x Hx. split; [apply row_le_refl|done].
Qed.

Lemma after_refl w : hook_inv w → after w w.
Proof. intros Hw. by apply after_same; [|..|apply Hw|]. Qed.

(** *** Processing *)

Lemma ok_with_tables env t : ok_env fresh env → ok_env fresh (with_tables env t).
Proof. done. Qed.

Lemma after_rolled_back w w' : hook_inv w → (drawn w ≤ drawn w')%nat → after w (rolled_back w w').
Proof. intros Hw Hu. apply after_same; [done|done|done|apply Hw|done]. Qed.

(** One inbox row is replaced. *)
Lemma after_assign w i f :
  hook_inv w → (∀ x, wi_id (f x) = wi_id x ∧ wi_dedupe_key (f x) = wi_dedupe_key x) →
  (∀ x, x ∈ ow_inbox w → wi_id x = i → wi_status x ≠ "processed" ∧ row_ok (keys w) (f x)) →
  after w (w <| ow_inbox ::= set_row wi_id i f |>).
Proof.
  intros Hw Hf Hi. pose proof Hw as (Hst & Ho & _ & _ & _ & Hok). apply after_rows; [done|by apply kept_self|done|].
  cbn. unfold set_row. apply Forall2_fmap_r. cbn. apply Forall_Forall2_diag, Forall_forall. intros x Hx. simpl.
  rewrite Forall_forall in Hok. case_bool_decide as Hid.
  - destruct (Hi x Hx Hid) as [Hne Hr]. destruct (Hf x) as [E1 E2]. split; [split_and!; [done|done|by intros ?]|done].
  - split; [apply row_le_refl|auto].
Qed.

Lemma wp_fail_inbox inbox_id message x w :
  hook_inv w → get_pending_webhook inbox_id (ow_inbox w) = Some x → wi_status x ≠ "processed" →
  wp (fail_inbox inbox_id message) (λ _ w', after w w') (λ _ w', (drawn w ≤ drawn w')%nat) w.
Proof.
  intros Hw Hx Hne. apply wp_bind, wp_modify, wp_ret. apply after_assign; [done|done|].
  intros y Hy Hid. split; [|done]. apply row_by_Some in Hx as [Hx Hxid].
  destruct Hw as (_ & _ & _ & Hnd & _). by rewrite (NoDup_fmap_inj_in wi_id _ y x Hnd Hy Hx) by congruence.
Qed.

(** The row after its run was started. *)
Definition processed_row (now : Z) (run_id : string) (x : WebhookInbox) : WebhookInbox :=
  x <| wi_payload := Dict.set "workflow_run_id" (JStr run_id) (wi_payload x) |>
    <| wi_status := "processed" |> <| wi_processed_at := Some now |>.

Lemma processed_row_ok ks now run_id aid x :
  uuid_of_text (Json.str (Json.getn "automation_id" (wi_payload x))) = Some aid →
  (run_id, owner aid, Some (correlation_of aid (event_id_of x))) ∈ ks →
  row_ok ks (processed_row now run_id x).
Proof.
  intros Ha Hk _. right. exists aid, run_id. unfold event_id_of, Json.getn in *. cbn.
  by rewrite Dict.get_set_eq, !Dict.get_set_ne.
Qed.

Lemma wp_run_inbox env x a w :
  ok_ingress env → hook_inv w → x ∈ ow_inbox w → wi_status x ≠ "processed" → a ∈ tb_automations (ow_tables w) →
  uuid_of_text (Json.str (Json.getn "automation_id" (wi_payload x))) = Some (au_id a) →
  wp (run_inbox env x a) (λ _ w', after w w') (λ _ w', (drawn w ≤ drawn w')%nat) w.
Proof.
  intros [Henv _] Hw Hx Hne Ha Haid. pose proof Hw as (Hst & Ho & _ & Hnd & _ & Hok).
  unfold run_inbox. apply wp_bind, wp_modify. apply wp_bind, wp_get. apply wp_bind, wp_on_store. cbn [ow_store].
  set (c := correlation_of (au_id a) (event_id_of x)).
  eapply wp_mono; [apply (start_returns fresh (drawn w) fresh_inj
    (with_tables (ie_engine env) (ow_tables w)) (ok_with_tables _ _ Henv) _ (keys w) _ c); [by apply kept_self|done..]
    | |by intros e st (_ & _ & _ & _ & ?)].
  intros run st' (Hkept & Hrun & Hkey). apply wp_bind, wp_modify, wp_bind, wp_modify, wp_ret.
  apply after_rows; [done|done| |].
  - intros b Hb. cbn in Hb. unfold set_row in Hb. apply list_elem_of_fmap in Hb as (b0 & -> & Hb0).
    case_bool_decide; exact (Ho b0 Hb0).
  - cbn -[set_row]. rewrite set_row_set_row by done. unfold set_row. apply Forall2_fmap_r. cbn.
    apply Forall_Forall2_diag, Forall_forall. intros y Hy. simpl. rewrite Forall_forall in Hok.
    case_bool_decide as Hid.
    + rewrite (NoDup_fmap_inj_in wi_id _ y x Hnd Hy Hx Hid). split; [split_and!; [done|done|by intros ?]|]. intros _.
      apply (processed_row_ok _ (now env) (wr_id run) (au_id a) x); [done|]. cbn [sg_tenant_id start_args] in Hkey.
      rewrite (Ho a Ha) in Hkey. fold c. rewrite <- Hkey. by apply list_elem_of_fmap_2.
    + split; [apply row_le_refl|]. intros _. eapply row_ok_more; [|by apply Hok]. apply Hkept.
Qed.

Lemma wp_process env inbox_id w : ok_ingress env → hook_inv w →
  wp (process_workflow_webhook_inbox env inbox_id) (λ _ w', after w w') (λ _ w', (drawn w ≤ drawn w')%nat) w.
Proof.
  intros Henv Hw. apply wp_bind, wp_get. destruct (get_pending_webhook _ _) as [x|] eqn:Hx; [|by apply wp_ret, after_refl].
  destruct (String.eqb_spec (wi_status x) "processed") as [E|Hne]; [by apply wp_ret, after_refl|].
  destruct (negb (bool_decide _)); [by apply wp_ret, after_refl|].
  destruct (negb (Json.truthy _)); [by eapply wp_fail_inbox|].
  apply wp_bind, wp_lift. unfold automation_of. rewrite (proj2 Henv).
  destruct (uuid_of_text _) as [i|] eqn:Hi; [|done].
  destruct (row_by au_id i _) as [a|] eqn:Ha; [|by eapply wp_fail_inbox].
  apply row_by_Some in Ha as [Ha <-]. apply row_by_Some in Hx as [Hx Hid].
  destruct (au_enabled a); [by apply wp_run_inbox|].
  eapply wp_fail_inbox; [done| |done]. destruct Hw as (_ & _ & _ & Hnd & _). by apply (row_by_elem wi_id).
Qed.

(** *** Receiving *)

(** Rows other sessions may add: new keys, new ids that are not drawn again,
    and nothing is processed yet. *)
Definition addable (w : OpsWorld) (rows : list WebhookInbox) : Prop :=
  NoDup (wi_dedupe_key <$> ow_inbox w ++ rows) ∧ NoDup (wi_id <$> ow_inbox w ++ rows) ∧
  (∀ n, (drawn w ≤ n)%nat → fresh n ∉ wi_id <$> rows) ∧ Forall (λ x, wi_status x ≠ "processed") rows.

Lemma after_append w rows :
  hook_inv w → addable w rows → after w (w <| ow_inbox ::= λ l, l ++ rows |>).
Proof.
  intros (Hst & Ho & _ & _ & Hf & Hok) (Hk & Hi & Hn & Hp). split_and!; [split_and!|exists (ow_inbox w), rows; split|].
  - done.
  - done.
  - done.
  - done.
  - intros n Hle. cbn. rewrite fmap_app. intros [H|H]%elem_of_app; [by apply (Hf n)|by apply (Hn n)].
  - cbn. apply Forall_app. split; [done|]. eapply Forall_impl; [exact Hp|]. by intros x H ?.
  - done.
  - apply Forall_Forall2_diag, Forall_forall. intros x _. apply row_le_refl.
  - done.
Qed.

Lemma wp_insert_received racing row w :
  hook_inv w → addable w racing → wi_status row ≠ "processed" →
  wi_id row ∉ wi_id <$> ow_inbox w ++ racing → (∀ n, (drawn w ≤ n)%nat → fresh n ≠ wi_id row) →
  wp (insert_received racing row) (λ _ w', after w w') (λ _ _, False) w.
Proof.
  intros Hw Hracing Hst Hid Hfresh. apply wp_bind, wp_modify.
  pose proof (after_append _ _ Hw Hracing) as H1. set (w1 := w <| ow_inbox ::= _ |>) in *.
  apply wp_try. unfold create_webhook. apply wp_bind, wp_bind, wp_get.
  destruct (get_webhook_by_dedupe_key _ _) as [x|] eqn:Hx.
  - apply wp_raise. apply wp_bind, wp_get. rewrite Hx. by apply wp_ret.
  - apply wp_modify, wp_ret. eapply after_trans; [exact H1|]. apply (after_append w1 [row]); [apply H1|].
    destruct Hracing as (Hk & Hi & Hn & Hp). split_and!.
    + rewrite fmap_app. apply NoDup_app. split_and!; [done| |apply NoDup_singleton].
      intros k Hk' ->%list_elem_of_singleton. by apply get_webhook_None in Hx.
    + rewrite fmap_app. apply NoDup_app. split_and!; [done| |apply NoDup_singleton].
      by intros k Hk' ->%list_elem_of_singleton.
    + intros n Hle H%list_elem_of_singleton. by apply (Hfresh n).
    + by apply Forall_singleton.
Qed.

Lemma wp_atomic_process env id w : ok_ingress env → hook_inv w →
  wp (atomic (process_workflow_webhook_inbox env id)) (λ _ w', after w w') (λ _ w', after w w') w.
Proof.
  intros Henv Hw. apply wp_atomic. eapply wp_mono; [by apply wp_process|done|].
  intros e w' H. by apply after_rolled_back.
Qed.

Lemma wp_reserve {A} env key ttl (k : bool → M OpsWorld A) Q E w :
  (∀ ok replay, wp (k ok) Q E (w <| ow_replay := replay |>)) → wp (reserve_replay env key ttl ≫= k) Q E w.
Proof.
  intros H. assert (∀ ok, wp (k ok) Q E w) as H' by (intros ok; specialize (H ok (ow_replay w)); by destruct w).
  apply wp_bind. unfold reserve_replay. case_match; [by apply wp_ret|]. apply wp_bind, wp_get.
  case_match; [by apply wp_ret|]. apply wp_bind, wp_modify, wp_ret, H.
Qed.

Lemma wp_accept env a endpoint_id event_id raw_body inline racing w :
  ok_ingress env → hook_inv w → addable w racing →
  wp (accept_event env a endpoint_id event_id raw_body inline racing)
    (λ _ w', after w w') (λ _ w', after w w') w.
Proof.
  intros Henv Hw Hracing. pose proof Hracing as (Hk & Hi & Hn & Hp). apply wp_bind, wp_get.
  destruct (get_webhook_by_dedupe_key _ _); [by apply wp_ret, after_refl|].
  apply wp_new_id. set (w1 := w <| ow_store ::= _ |>).
  assert (after w w1) as H1 by (apply after_same; [done|done|cbn; lia|apply Hw|done]).
  assert (uuids env = fresh) as -> by apply Henv.
  apply wp_bind. eapply wp_mono; [apply wp_insert_received| |done].
  - apply H1.
  - split_and!; [done|done| |done]. intros n Hle. apply Hn. cbn in Hle. lia.
  - done.
  - cbn. rewrite fmap_app. intros [H|H]%elem_of_app; [|by apply (Hn (drawn w))].
    destruct Hw as (_ & _ & _ & _ & Hf & _). by apply (Hf (drawn w)).
  - cbn. intros n Hle E%fresh_inj. lia.
  - intros winner w2 H2. assert (after w w2) as H by by eapply after_trans.
    destruct winner; [by apply wp_ret|]. destruct inline.
    + apply wp_bind. eapply wp_mono; [apply wp_atomic_process; [done|apply H]| |].
      * intros r w3 H3. apply wp_ret. by eapply after_trans.
      * intros e w3 H3. by eapply after_trans.
    + apply wp_bind, wp_modify, wp_ret. eapply after_trans; [exact H|].
      apply after_same; [apply H|done|done|apply H|done].
Qed.

Lemma keeps_check env endpoint_id raw_body headers w :
  keeps (λ w', w' = w) (check_request env endpoint_id raw_body headers).
Proof. unfold check_request, get_automation_by_endpoint. solve_keeps ltac:(done). Qed.

Lemma wp_receive env endpoint_id raw_body headers inline racing w :
  ok_ingress env → hook_inv w → addable w racing →
  wp (receive_workflow_webhook env endpoint_id raw_body headers inline racing)
    (λ _ w', after w w') (λ _ w', after w w') w.
Proof.
  intros Henv Hw Hracing. pose proof (after_refl _ Hw) as Hrefl. apply wp_bind.
  eapply wp_mono; [by apply keeps_check| |by intros e w' ->]. intros [[a cfg] event_id] w' ->.
  apply wp_reserve. intros _ replay. set (w1 := w <| ow_replay := replay |>).
  assert (hook_inv w1) as H1 by exact Hw. assert (addable w1 racing) as H2 by exact Hracing.
  exact (wp_accept env a endpoint_id event_id raw_body inline racing w1 Henv H1 H2).
Qed.

(** *** Every operation *)

(** One operation of the ingress, the workers or the engine, however it ended.
    Automations may be edited at any time but keep their owners. *)
Inductive hook_step (w : OpsWorld) : OpsWorld → Prop :=
  | hook_receive env endpoint_id raw_body headers inline racing :
      ok_ingress env → addable w racing →
      hook_step w (ingest_workflow_webhook env endpoint_id raw_body headers inline racing w).2
  | hook_process env celery_id inbox_id payload : ok_ingress env →
      hook_step w (process_workflow_webhook_inbox_task env celery_id inbox_id payload w).2
  | hook_engine st : engine_step fresh (ow_store w) st → hook_step w (w <| ow_store := st |>)
  | hook_edit t : known_owners t → hook_step w (w <| ow_tables := t |>)
  | hook_retention cfg now dumps configured upload size :
      hook_step w (run_workflow_retention cfg now dumps configured upload size w).2.

Lemma task_after env celery_id inbox_id payload w : ok_ingress env → hook_inv w →
  after w (process_workflow_webhook_inbox_task env celery_id inbox_id payload w).2.
Proof.
  intros Henv Hw. unfold process_workflow_webhook_inbox_task. rewrite wp_run_async_task. cbv zeta.
  set (w1 := w <| ow_store ::= _ |>).
  assert (after w w1) as H1 by (apply after_same; [done|done|cbn; lia|apply Hw|done]).
  pose proof (wp_process env inbox_id w1 Henv (proj1 H1)) as H. unfold wp in H.
  assert (∀ w2 id f, after w1 w2 → after w (w2 <| ow_store ::= λ st, st <| st_task_executions ::= set_row te_id id f |> |>)) as Hend.
  { intros w2 id f H2. eapply after_trans; [exact H1|]. eapply after_trans; [exact H2|].
    by apply after_same; [apply H2|..|apply H2|]. }
  destruct (process_workflow_webhook_inbox env inbox_id w1) as [[r|e] w2]; apply Hend; [done|].
  apply after_rolled_back; [apply H1|done].
Qed.

Lemma after_retention_inv w w' : hook_inv w → after_retention w w' → after w w'.
Proof.
  intros Hw (Hr & Hu & Ht & _ & Hi). pose proof Hw as (Hst & Ho & _ & _ & _ & Hok).
  apply after_rows; [done| |by rewrite Ht|].
  - eapply kept_other; [exact Hr|by rewrite Hu|]. by apply kept_self.
  - assert (keys w' = keys w) as -> by (unfold run_keys; by rewrite Hr).
    apply Forall2_same_length_lookup_2; [by eapply Forall2_length|]. intros i x x' Hx Hx'.
    pose proof (Forall2_lookup_lr _ _ _ _ _ _ Hi Hx Hx') as Hs. destruct (stubbed_fields _ _ Hs) as (E1 & E2 & E3).
    split; [by split_and!|]. intros Hne E. by rewrite E3 in E.
Qed.

Lemma step_after w w' : hook_inv w → hook_step w w' → after w w'.
Proof.
  intros Hw Hs. destruct Hs as [env e b h inline racing Henv Hr|env c i p Henv|st Hst|t Ht|cfg now d c u size].
  - unfold ingest_workflow_webhook. destruct (256000 <? _); [by apply after_refl|].
    exact (wp_snd _ _ _ (wp_receive env e b h inline racing w Henv Hw Hr)).
  - by apply task_after.
  - pose proof Hw as (Hk & Ho & _ & _ & _ & Hok).
    pose proof (step_kept _ _ _ _ _ fresh_inj Hst (kept_self _ Hk)) as Hk'. apply after_rows; [done|done|done|].
    cbn. apply Forall_Forall2_diag. eapply Forall_impl; [exact Hok|]. intros x Hx. split; [apply row_le_refl|].
    intros _. eapply row_ok_more; [|exact Hx]. apply Hk'.
  - by apply after_same.
  - apply after_retention_inv; [done|apply run_retention_after].
Qed.

Lemma steps_after w w' : hook_inv w → rtc hook_step w w' → after w w'.
Proof.
  intros Hw Hs. induction Hs as [w|w1 w2 w3 Hs _ IH]; [by apply after_refl|].
  pose proof (step_after _ _ Hw Hs) as H. eapply after_trans; [exact H|]. apply IH, H.
Qed.
End histories.

(** C2: one run per event.  Whatever sequence of deliveries, racing requests,
    tasks, engine operations, edits of automations and runs of the retention
    job happens, and whichever of them fail: an event has one inbox row; no row
    is lost or moved, and a row that was processed stays so and keeps its
    payload until the retention replaces it; and the run such a row names was
    started for the automation it names, under the correlation id of the event,
    and is the only run of the tenant with that correlation id. *)
Theorem one_run_per_event fresh owner uuid_of_text w w' :
  Inj (=) (=) fresh → hook_inv fresh owner uuid_of_text w → rtc (hook_step fresh owner uuid_of_text) w w' →
  NoDup (wi_dedupe_key <$> ow_inbox w') ∧ hook_le w w' ∧
  ∀ x, x ∈ ow_inbox w' → wi_status x = "processed" → is_already_scrubbed (wi_payload x) = false →
    ∃ aid run, uuid_of_text (Json.str (Json.getn "automation_id" (wi_payload x))) = Some aid ∧
      Json.getn "workflow_run_id" (wi_payload x) = JStr (wr_id run) ∧ run ∈ st_runs (ow_store w') ∧
      wr_tenant_id run = owner aid ∧ wr_correlation_id run = Some (correlation_of aid (event_id_of x)) ∧
      ∀ r, r ∈ st_runs (ow_store w') → wr_tenant_id r = wr_tenant_id run →
        wr_correlation_id r = wr_correlation_id run → wr_id r = wr_id run.
Proof.
  intros Hinj Hw Hs. destruct (steps_after fresh Hinj owner uuid_of_text w w' Hw Hs) as (Hinv & Hle & _).
  destruct Hinv as (Hst & _ & Hk & _ & _ & Hok). split_and!; [done..|]. intros x Hx Hp Hscrub.
  rewrite Forall_forall in Hok. destruct (Hok x Hx Hp) as [?|(aid & i & Ha & Hi & Hrun)]; [congruence|].
  apply list_elem_of_fmap in Hrun as (run & E & Hrun). injection E as -> Et Ec.
  exists aid, run. split_and!; [done..|]. intros r Hr Ht Hc. rewrite <- Ec in Hc.
  by apply (correlated_unique (ow_store w') r run (correlation_of aid (event_id_of x))); [apply Hst|..].
Qed.

(** ** Deliveries *)

Lemma insert_received_eq racing row w :
  insert_received racing row w =
    let w1 := w <| ow_inbox ::= λ l, l ++ racing |> in
    match get_webhook_by_dedupe_key (wi_dedupe_key row) (ow_inbox w ++ racing) with
    | Some x => (Ok (Some x), w1)
    | None => (Ok None, w1 <| ow_inbox ::= λ l, l ++ [row] |>)
    end.
Proof.
  unfold insert_received. rewrite (M_bind_ok _ _ w () (w <| ow_inbox ::= λ l, l ++ racing |>)) by done. cbv zeta.
  set (w1 := w <| ow_inbox ::= λ l, l ++ racing |>). unfold try_except, create_webhook.
  change (ow_inbox w ++ racing) with (ow_inbox w1).
  destruct (get_webhook_by_dedupe_key (wi_dedupe_key row) (ow_inbox w1)) as [x|] eqn:Hx.
  - rewrite (M_bind_raise _ _ _ (OtherException "IntegrityError" "webhooks_inbox_dedupe_key_key") w1).
    + rewrite (M_bind_ok _ _ w1 w1 w1) by done. by rewrite Hx.
    + rewrite (M_bind_ok _ _ w1 w1 w1) by done. by rewrite Hx.
  - rewrite (M_bind_ok _ _ w1 () (w1 <| ow_inbox ::= λ l, l ++ [row] |>)); [done|].
    rewrite (M_bind_ok _ _ w1 w1 w1) by done. by rewrite Hx.
Qed.

Definition accepted (id status : string) (run : json) : WebhookAccepted :=
  {| wa_inbox_id := id; wa_workflow_run_id := run; wa_deduped := false; wa_status := status |}.

(** A new row processed within the request: the answer carries the outcome, and
    what is raised undoes everything but the row, which is committed already. *)
Definition processed_inline env (id : string) (w : OpsWorld) : result WebhookAccepted * OpsWorld :=
  match process_workflow_webhook_inbox env id w with
  | (Ok r, w') => (Ok (accepted id (pr_status r) (pr_workflow_run_id r)), w')
  | (Raise e, w') => (Raise e, rolled_back w w')
  end.

Lemma accept_event_eq env a endpoint_id event_id raw_body inline racing w :
  let key := dedupe_key_of (au_tenant_id a) endpoint_id event_id in
  let id := uuids env (st_uuids (ow_store w)) in
  let w2 := w <| ow_store ::= λ st, st <| st_uuids ::= S |> |> <| ow_inbox ::= λ l, l ++ racing |> in
  let w3 := w2 <| ow_inbox ::= λ l, l ++ [received_row env id a endpoint_id event_id raw_body] |> in
  accept_event env a endpoint_id event_id raw_body inline racing w =
    match get_webhook_by_dedupe_key key (ow_inbox w), get_webhook_by_dedupe_key key (ow_inbox w ++ racing) with
    | Some x, _ => (Ok (already_received x), w)
    | None, Some x => (Ok (already_received x), w2)
    | None, None => if inline then processed_inline env id w3
                    else (Ok (accepted id "received" JNull), w3 <| ow_inbox_tasks ::= λ l, l ++ [id] |>)
    end.
Proof.
  cbv zeta. unfold accept_event. rewrite (M_bind_ok _ _ w w w) by done.
  destruct (get_webhook_by_dedupe_key _ (ow_inbox w)) as [x|]; [done|].
  set (w1 := w <| ow_store ::= λ st, st <| st_uuids ::= S |> |>).
  rewrite (M_bind_ok _ _ w (uuids env (st_uuids (ow_store w))) w1) by done.
  set (row := received_row _ _ _ _ _ _). pose proof (insert_received_eq racing row w1) as Hins. cbv zeta in Hins.
  change (wi_dedupe_key row) with (dedupe_key_of (au_tenant_id a) endpoint_id event_id) in Hins.
  change (ow_inbox w1) with (ow_inbox w) in Hins.
  destruct (get_webhook_by_dedupe_key _ (ow_inbox w ++ racing)) as [x|]; rewrite (M_bind_ok _ _ _ _ _ Hins); [done|].
  destruct inline; [|done]. subst row. set (w3 := w1 <| ow_inbox ::= _ |> <| ow_inbox ::= _ |>).
  unfold processed_inline, atomic, mbind at 1, M_bind at 1.
  by destruct (process_workflow_webhook_inbox _ _ w3) as [[r|e] w4].
Qed.

(** C17: what a delivery does.  A request that fails a check changes nothing.
    An authentic one whose event is known answers with the row of the event and
    changes no table.  Otherwise, when another session was faster, it answers with
    the row of that session and adds nothing itself; and when none was, it adds one
    row, received at this moment.  That row is sent to be processed, or processed
    within the request: then the answer is the outcome of processing it, and what
    the processing raises is raised, with every table but that row undone. *)
Theorem receive_workflow_webhook_spec env endpoint_id raw_body headers inline racing w :
  match (check_request env endpoint_id raw_body headers w).1 with
  | Raise e => receive_workflow_webhook env endpoint_id raw_body headers inline racing w = (Raise e, w)
  | Ok (a, cfg, event_id) =>
      let key := dedupe_key_of (au_tenant_id a) endpoint_id event_id in
      ∃ replay, let w1 := w <| ow_replay := replay |> in
      let id := uuids env (st_uuids (ow_store w)) in
      let w2 := w1 <| ow_store ::= λ st, st <| st_uuids ::= S |> |> <| ow_inbox ::= λ l, l ++ racing |> in
      let w3 := w2 <| ow_inbox ::= λ l, l ++ [received_row env id a endpoint_id event_id raw_body] |> in
      receive_workflow_webhook env endpoint_id raw_body headers inline racing w =
        match get_webhook_by_dedupe_key key (ow_inbox w), get_webhook_by_dedupe_key key (ow_inbox w ++ racing) with
        | Some x, _ => (Ok (already_received x), w1)
        | None, Some x => (Ok (already_received x), w2)
        | None, None => if inline then processed_inline env id w3
                        else (Ok (accepted id "received" JNull), w3 <| ow_inbox_tasks ::= λ l, l ++ [id] |>)
        end
  end.
Proof.
  pose proof (keeps_check env endpoint_id raw_body headers w w eq_refl) as Hc. unfold wp in Hc.
  unfold receive_workflow_webhook.
  destruct (check_request env endpoint_id raw_body headers w) as [[[[a cfg] event_id]|e] w0] eqn:E; subst w0; cbn [fst];
    [|by apply M_bind_raise].
  cbv zeta. rewrite (M_bind_ok _ _ _ _ _ E).
  set (key := dedupe_key_of _ _ _).
  assert (∃ replay ok, reserve_replay env ("wf_webhook_replay:" +:+ endpoint_id +:+ ":" +:+ event_id)
            (Z.max (wc_max_skew_seconds cfg * 2) 120) w = (Ok ok, w <| ow_replay := replay |>)) as (replay & ok & Hr).
  { unfold reserve_replay. destruct (negb _); [exists (ow_replay w); eexists; by destruct w|].
    rewrite (M_bind_ok _ _ _ w w) by done. destruct (existsb _ _); [exists (ow_replay w); eexists; by destruct w|].
    by eexists _, _. }
  exists replay. rewrite (M_bind_ok _ _ _ _ _ Hr). set (w1 := w <| ow_replay := replay |>).
  pose proof (accept_event_eq env a endpoint_id event_id raw_body inline racing w1) as Ha. cbv zeta in Ha. fold key in Ha.
  rewrite Ha. reflexivity.
Qed.

Lemma keeps_process env id tasks :
  keeps (λ w, ow_inbox_tasks w = tasks) (process_workflow_webhook_inbox env id).
Proof.
  assert (∀ i f, keeps (λ w, ow_inbox_tasks w = tasks) (assign_inbox i f)) as Hassign by (intros; by apply keeps_modify).
  assert (∀ {A} (m : M Store A), keeps (λ w, ow_inbox_tasks w = tasks) (on_store m)) as Hstore.
  { intros A m w Hw. apply wp_on_store. unfold wp. by destruct (m (ow_store w)) as [[]]. }
  unfold process_workflow_webhook_inbox, fail_inbox, run_inbox.
  solve_keeps ltac:(first [done|apply Hassign|apply Hstore]).
Qed.

(** A failed delivery is not tried again.  When processing a new event in
    the request raises, its row stays received and nothing is sent to the
    broker; and whenever the event is delivered again, the answer is that row,
    and nothing is changed and nothing sent. *)
Theorem failed_delivery_is_not_retried env a endpoint_id event_id raw_body racing w e w' :
  let key := dedupe_key_of (au_tenant_id a) endpoint_id event_id in
  get_webhook_by_dedupe_key key (ow_inbox w ++ racing) = None →
  accept_event env a endpoint_id event_id raw_body true racing w = (Raise e, w') →
  ow_inbox_tasks w' = ow_inbox_tasks w ∧
  ∃ x, x ∈ ow_inbox w' ∧ wi_dedupe_key x = key ∧ wi_status x = "received" ∧
    ∀ env' a' raw_body' inline racing', au_tenant_id a' = au_tenant_id a →
      accept_event env' a' endpoint_id event_id raw_body' inline racing' w' = (Ok (already_received x), w').
Proof.
  cbv zeta. set (key := dedupe_key_of _ _ _). intros Hnone.
  rewrite get_webhook_app in Hnone. destruct (get_webhook_by_dedupe_key key (ow_inbox w)) eqn:Hold; [done|].
  unfold accept_event at 1. rewrite (M_bind_ok _ _ w w w) by done. fold key. rewrite Hold.
  set (w1 := w <| ow_store ::= λ st, st <| st_uuids ::= S |> |>).
  rewrite (M_bind_ok _ _ w (uuids env (st_uuids (ow_store w))) w1) by done.
  set (row := received_row _ _ _ _ _ _). pose proof (insert_received_eq racing row w1) as Hins. cbv zeta in Hins.
  change (wi_dedupe_key row) with key in Hins. change (ow_inbox w1) with (ow_inbox w) in Hins.
  rewrite get_webhook_app, Hold, Hnone in Hins. rewrite (M_bind_ok _ _ _ _ _ Hins).
  set (w2 := w1 <| ow_inbox ::= _ |> <| ow_inbox ::= _ |>). clear Hins.
  assert (ow_inbox w2 = ow_inbox w ++ racing ++ [row]) as Hinbox by by rewrite app_assoc.
  pose proof (keeps_process env (uuids env (st_uuids (ow_store w))) (ow_inbox_tasks w) w2 eq_refl) as Hp.
  unfold wp in Hp. unfold atomic.
  destruct (process_workflow_webhook_inbox _ _ w2) as [[r|e'] w3] eqn:Hrun.
  { rewrite (M_bind_ok _ _ w2 r w3) by by rewrite Hrun. done. }
  rewrite (M_bind_raise _ _ w2 e' (rolled_back w2 w3)) by by rewrite Hrun.
  intros H. injection H as -> <-. split; [done|]. exists row.
  change (ow_inbox (rolled_back w2 w3)) with (ow_inbox w2). split_and!; [|done|done|].
  - rewrite Hinbox. set_solver.
  - intros env' a' raw_body' inline racing' Ha. unfold accept_event.
    rewrite (M_bind_ok _ _ _ (rolled_back w2 w3) (rolled_back w2 w3)) by done. rewrite Ha. fold key.
    change (ow_inbox (rolled_back w2 w3)) with (ow_inbox w2).
    rewrite Hinbox, !get_webhook_app, Hold, Hnone. cbn. by rewrite bool_decide_eq_true_2.
Qed.

(** ** Examples *)

Definition ex_automation : Automation := {|
  au_id := "A1"; au_tenant_id := "T"; au_workflow_definition_id := "D"; au_workflow_version_id := "V";
  au_brand_id := "B"; au_name := "hook"; au_enabled := true; au_trigger_type := "webhook";
  au_trigger_config := [("endpoint_id", JStr "endpoint1"); ("signing_secret_ref", JStr "vault/hook")];
  au_timezone := "UTC"; au_next_run_at := None; au_last_run_at := None; au_deleted_at := None; au_settings := [];
  au_webhook_endpoint_id := Some "endpoint1" |}.
Definition ex_brand : Brand := {|
  br_id := "B"; br_tenant_id := "T"; br_name := "Brand"; br_niche := ""; br_style_guide := [];
  br_allowed_topics := []; br_blocked_topics := []; br_target_platforms := []; br_risk_policy := [];
  br_posting_policy := []; br_deleted_at := None |}.

Definition ex_hook_world : OpsWorld := {|
  ow_store := empty_store;
  ow_tables := ee_tables Start.ex_env <| tb_automations := [ex_automation] |> <| tb_brands := [ex_brand] |>;
  ow_inbox := []; ow_inbox_tasks := []; ow_replay := []; ow_objects := [] |}.

(** Digests that only depend on the key; a body is one text. *)
Definition ex_hmac (key message : string) : string := if String.eqb key "s3" then "d1" else "d2".
Definition ex_ingress : IngressEnv := {|
  ie_engine := Start.ex_env; ie_secrets := [("vault/hook", "s3")]; ie_sha256 := λ s, s; ie_hmac := ex_hmac;
  ie_loads := λ _, Some (JObj [("topic", JStr "x")]); ie_dumps := Json.repr; ie_decode_ignore := λ s, s;
  ie_coerce_int := λ _, None; ie_coerce_bool := λ _, None; ie_uuid_of_text := Some; ie_redis_up := true |}.
Definition ex_headers : dict string :=
  [("x-signalforge-timestamp", "0"); ("X-SignalForge-Signature", "sha256=d1"); ("X-Idempotency-Key", "e1")].

(** A delivery, its task, and the delivery again. *)
Definition ex_delivery : M OpsWorld WebhookAccepted :=
  ingest_workflow_webhook ex_ingress "endpoint1" "{}" ex_headers false [].
Definition ex_delivered : OpsWorld := (ex_delivery ex_hook_world).2.
Definition ex_ran : OpsWorld := (process_workflow_webhook_inbox_task ex_ingress None "i" [] ex_delivered).2.

Example ex_delivery_runs :
  match ex_delivery ex_hook_world with (Ok a, _) => wa_status a | _ => "" end = "received" ∧
  ow_inbox_tasks ex_delivered = ["i"] ∧
  (wi_status <$> ow_inbox ex_ran) = ["processed"] ∧
  (wr_correlation_id <$> st_runs (ow_store ex_ran)) = [Some "wh:A1:e1"] ∧
  match ex_delivery ex_ran with (Ok a, _) => (wa_deduped a, wa_workflow_run_id a) | _ => (false, JNull) end = (true, JStr "iii").
Proof. by vm_compute. Qed.

Lemma ex_hook_inv : hook_inv Execute.unary_id (λ _, "T") Some ex_hook_world.
Proof.
  split_and!; [split_and!| | | | |].
  - constructor.
  - apply prefix_nil.
  - constructor.
  - intros n _. apply not_elem_of_nil.
  - cbn. lia.
  - intros a Ha. cbn in Ha. by apply list_elem_of_singleton in Ha as ->.
  - constructor.
  - constructor.
  - intros n _. apply not_elem_of_nil.
  - constructor.
Qed.

Lemma ex_ok_ingress : ok_ingress Execute.unary_id Some ex_ingress.
Proof. split; [apply ex_ok_env|done]. Qed.

Lemma ex_addable w : hook_inv Execute.unary_id (λ _, "T") Some w → addable Execute.unary_id w [].
Proof.
  intros (_ & _ & Hk & Hi & _). split_and!; [by rewrite app_nil_r..| |constructor].
  intros n _. apply not_elem_of_nil.
Qed.

(** The event is delivered, processed, and delivered again. *)
Lemma ex_history_steps :
  rtc (hook_step Execute.unary_id (λ _, "T") Some) ex_hook_world (ex_delivery ex_ran).2.
Proof.
  pose proof Execute.unary_id_inj as Hinj.
  assert (hook_step Execute.unary_id (λ _, "T") Some ex_hook_world ex_delivered) as H1.
  { apply hook_receive; [apply ex_ok_ingress|apply ex_addable, ex_hook_inv]. }
  pose proof (step_after _ Hinj _ _ _ _ ex_hook_inv H1) as (I1 & _).
  assert (hook_step Execute.unary_id (λ _, "T") Some ex_delivered ex_ran) as H2 by apply hook_process, ex_ok_ingress.
  pose proof (step_after _ Hinj _ _ _ _ I1 H2) as (I2 & _).
  apply (rtc_l _ _ _ _ H1), (rtc_l _ _ _ _ H2), rtc_once.
  apply hook_receive; [apply ex_ok_ingress|by apply ex_addable].
Qed.

Lemma one_run_per_event_witness :
  (wi_dedupe_key <$> ow_inbox (ex_delivery ex_ran).2) = ["wf:T:endpoint1:e1"] ∧
  ∀ x, x ∈ ow_inbox (ex_delivery ex_ran).2 → wi_status x = "processed" →
    is_already_scrubbed (wi_payload x) = false →
    ∃ aid run, Json.getn "workflow_run_id" (wi_payload x) = JStr (wr_id run) ∧ wr_tenant_id run = "T" ∧
      wr_correlation_id run = Some (correlation_of aid (event_id_of x)).
Proof.
  split; [vm_compute; reflexivity|]. intros x Hx Hp Hs.
  destruct (one_run_per_event Execute.unary_id (λ _, "T") Some ex_hook_world (ex_delivery ex_ran).2
    Execute.unary_id_inj ex_hook_inv ex_history_steps) as (_ & _ & H).
  destruct (H x Hx Hp Hs) as (aid & run & _ & H1 & _ & H2 & H3 & _). by exists aid, run.
Defined.

(** A request signed a second before the clock. *)
Lemma verify_generic_hmac_spec_witness :
  verify_generic_hmac ex_hmac "s3" "{}" (Some "t=99,v1=d1") None 300 100 true = Ok true.
Proof.
  refine (proj2 (proj1 (verify_generic_hmac_spec ex_hmac "s3" "{}" (Some "t=99,v1=d1") None 300 100 true _)) _).
  - intros key message. unfold ex_hmac. by destruct (String.eqb key "s3").
  - exists "99.{}". split; [|reflexivity]. exists "t=99,v1=d1". split_and!; [done..|]. exists 99.
    split_and!; [reflexivity|lia|reflexivity].
Defined.

(** The version of the automation is gone: every attempt to start it fails. *)
Definition ex_broken : OpsWorld := ex_hook_world <| ow_tables ::= λ t, t <| tb_versions := [] |> |>.

Lemma failed_delivery_is_not_retried_witness :
  ∃ w', accept_event ex_ingress ex_automation "endpoint1" "e1" "{}" true [] ex_broken =
          (Raise (HTTPException 404 "Workflow version not found"), w') ∧
    ∃ x, x ∈ ow_inbox w' ∧ wi_status x = "received" ∧
      accept_event ex_ingress ex_automation "endpoint1" "e1" "{}" true [] w' = (Ok (already_received x), w').
Proof.
  pose proof (failed_delivery_is_not_retried ex_ingress ex_automation "endpoint1" "e1" "{}" [] ex_broken
    (HTTPException 404 "Workflow version not found")) as H.
  destruct (accept_event ex_ingress ex_automation "endpoint1" "e1" "{}" true [] ex_broken) as [[r|e] w'] eqn:E;
    [by vm_compute in E|].
  assert (e = HTTPException 404 "Workflow version not found") as -> by (vm_compute in E; congruence).
  exists w'. split; [done|]. destruct (H w' eq_refl eq_refl) as (_ & x & Hx & _ & Hs & Hagain).
  exists x. split_and!; [done|done|]. by apply Hagain.
Defined.
End Webhooks.
