(* ===== verification/Quota.v ===== *)
(** * Hourly quotas of the social accounts (publishing/account_ops.py)

    The counters in Redis that limit how often an account publishes and is
    retried: what a window lets through, and what it does to an account that
    keeps asking. *)
From S2P Require Import Prelude PyStr Json.
From stdpp Require Import sorting gmap strings.

Module Quota.
Local Open Scope string_scope.
Local Open Scope list_scope.
Local Open Scope Z_scope.

(** ** Redis *)

(** A counter with the instant it expires, in microseconds. *)
Definition Counters := gmap string (Z * Z).

Definition second : Z := 1000000.

(** The value of a key that has not expired. *)
Definition live (now : Z) (key : string) (c : Counters) : option (Z * Z) :=
  match c !! key with
  | Some (n, expires_at) => if now <? expires_at then Some (n, expires_at) else None
  | None => None
  end.

(** [INCR key] and [EXPIRE key seconds] in one pipeline. *)
Definition incr_expire (now : Z) (key : string) (window_seconds : Z) : M Counters Z :=
  c ← get_state;
  let n := match live now key c with Some (n, _) => n + 1 | None => 1 end in
  _ ← put_state (<[key := (n, now + window_seconds * second)]> c);
  mret n.

(** [TTL key]: the rounded seconds that are left, -2 without the key. *)
Definition ttl (now : Z) (key : string) (c : Counters) : Z :=
  match live now key c with
  | Some (_, expires_at) => (expires_at - now + second / 2) / second
  | None => -2
  end.

(** ** The limits of an account *)

(** The digits of an [int] literal, with single underscores between digits. *)
Fixpoint digits_value (acc : Z) (after_digit : bool) (s : string) : option Z :=
  match s with
  | EmptyString => if after_digit then Some acc else None
  | String c s' =>
      if PyStr.is_digit c then digits_value (acc * 10 + (Z.of_nat (PyStr.code c) - 48)) true s'
      else if after_digit && bool_decide (c = "_"%char) then digits_value acc false s'
      else None
  end.

(** [int(text)] *)
Definition int_of_text (text : string) : option Z :=
  match PyStr.strip text with
  | String "-" s => Z.opp <$> digits_value 0 false s
  | String "+" s => digits_value 0 false s
  | s => digits_value 0 false s
  end.

Definition account_limit (setting : string) (default_limit : Z) (settings : option (dict json)) : Z :=
  match settings with
  | Some settings =>
      match Json.getn setting settings with
      | JNull => default_limit
      | raw => match int_of_text (Json.str raw) with
               | Some n => Z.max 1 n
               | None => default_limit
               end
      end
  | None => default_limit
  end.

(** The argument is the settings of the account, if there is one. *)
Definition account_publish_limit : Z → option (dict json) → Z := account_limit "max_publishes_per_hour".
Definition account_retry_limit : Z → option (dict json) → Z := account_limit "max_retries_per_hour".

Definition account_quota_key (tenant_id social_account_id action : string) : string :=
  "rate_limit:account:" +:+ tenant_id +:+ ":" +:+ social_account_id +:+ ":" +:+ action.

(** ** Consuming the quota *)

Record AccountQuotaDecision := {
  qd_allowed : bool;
  qd_retry_after_seconds : Z;
  qd_key : string;
  qd_action : string;
}.

(** The pipeline runs at [now], the query of the rest time at [later]. *)
Definition consume_account_quota (now later : Z) (tenant_id social_account_id action : string)
    (max_attempts window_seconds : Z) : M Counters AccountQuotaDecision :=
  let key := account_quota_key tenant_id social_account_id action in
  count ← incr_expire now key window_seconds;
  if max_attempts <? count then
    c ← get_state;
    let t := ttl later key c in
    mret {| qd_allowed := false; qd_retry_after_seconds := Z.max (if t =? 0 then window_seconds else t) 1;
            qd_key := key; qd_action := action |}
  else mret {| qd_allowed := true; qd_retry_after_seconds := 0; qd_key := key; qd_action := action |}.

Definition consume_publish_quota (default_limit now later : Z) (tenant_id account_id : string)
    (settings : dict json) : M Counters AccountQuotaDecision :=
  consume_account_quota now later tenant_id account_id "publish"
    (account_publish_limit default_limit (Some settings)) 3600.

Definition consume_retry_quota (default_limit now later : Z) (tenant_id account_id : string)
    (settings : dict json) : M Counters AccountQuotaDecision :=
  consume_account_quota now later tenant_id account_id "retry"
    (account_retry_limit default_limit (Some settings)) 3600.

(** ** The limits are positive *)

Lemma account_limit_pos setting n settings : 1 ≤ n → 1 ≤ account_limit setting n settings.
Proof. intros Hn. unfold account_limit. repeat case_match; lia. Qed.

Example limit_of_settings :
  account_publish_limit 30 (Some [("max_publishes_per_hour", JStr " 1_2 ")]) = 12 ∧
  account_publish_limit 30 (Some [("max_publishes_per_hour", JStr "-4")]) = 1 ∧
  account_publish_limit 30 (Some [("max_publishes_per_hour", JStr "often")]) = 30.
Proof. by vm_compute. Qed.

(** ** The requests of one account *)

Section requests.
Context (tenant_id account_id action : string) (limit window_seconds : Z).
Hypothesis limit_pos : 1 ≤ limit.
Hypothesis window_pos : 0 < window_seconds.

Definition key : string := account_quota_key tenant_id account_id action.
Definition window : Z := window_seconds * second.

(** The decisions on requests at these instants. *)
Fixpoint decisions (times : list Z) (c : Counters) : list (Z * bool) :=
  match times with
  | [] => []
  | now :: times' =>
      match consume_account_quota now now tenant_id account_id action limit window_seconds c with
      | (Ok d, c') => (now, qd_allowed d) :: decisions times' c'
      | (Raise _, c') => decisions times' c'
      end
  end.

Definition next_count (now : Z) (c : Counters) : Z :=
  match live now key c with Some (n, _) => n + 1 | None => 1 end.

Lemma consume_eq now later c :
  ∃ d, consume_account_quota now later tenant_id account_id action limit window_seconds c =
         (Ok d, <[key := (next_count now c, now + window)]> c) ∧
       qd_allowed d = (next_count now c <=? limit).
Proof.
  unfold consume_account_quota.
  rewrite (M_bind_ok _ _ c (next_count now c) (<[key := (next_count now c, now + window)]> c)) by reflexivity.
  destruct (limit <? next_count now c) eqn:E; (eexists; split; [reflexivity|]); simpl; lia.
Qed.

Lemma decisions_cons now times c :
  decisions (now :: times) c =
    (now, next_count now c <=? limit) :: decisions times (<[key := (next_count now c, now + window)]> c).
Proof. simpl. destruct (consume_eq now now c) as (d & -> & ->). done. Qed.

(** The allowed requests of the window that starts at [t]. *)
Definition allowed_in (t : Z) (ds : list (Z * bool)) : nat :=
  length (List.filter (λ d : Z * bool, (d.2 && (t <=? d.1)) && (d.1 <? t + window)) ds).

Lemma allowed_in_cons t x (b : bool) ds :
  allowed_in t ((x, b) :: ds) =
    if (b && (t <=? x)) && (x <? t + window) then S (allowed_in t ds) else allowed_in t ds.
Proof. unfold allowed_in. simpl. by case_match. Qed.

Lemma allowed_in_late t times c : Forall (λ x, t + window ≤ x) times → allowed_in t (decisions times c) = 0%nat.
Proof.
  intros H. revert c. induction H as [|x times Hx _ IH]; intros c; [done|].
  rewrite decisions_cons, allowed_in_cons.
  replace (x <? t + window) with false by lia. rewrite andb_false_r. apply IH.
Qed.

(** What is left of the window of a counter that was last used at [last]. *)
Lemma allowed_after t times c n last :
  c !! key = Some (n, last + window) → t ≤ last → StronglySorted Z.le (last :: times) →
  Z.of_nat (allowed_in t (decisions times c)) ≤ Z.max 0 (limit - n).
Proof.
  revert c n last. induction times as [|x times IH]; intros c n last Hc Ht Hs; [cbn; lia|].
  apply StronglySorted_inv in Hs as [Hs Hlast]. apply Forall_cons in Hlast as [Hx _].
  destruct (decide (x < t + window)) as [Hin|Hout].
  - rewrite decisions_cons. unfold next_count, live. rewrite Hc.
    replace (x <? last + window) with true by lia.
    set (c' := <[_ := _]> c).
    specialize (IH c' (n + 1) x (lookup_insert_eq _ _ _) ltac:(lia) Hs).
    rewrite allowed_in_cons. destruct (n + 1 <=? limit) eqn:E; cbn [andb]; repeat case_match; lia.
  - rewrite allowed_in_late; [lia|]. constructor; [lia|].
    apply StronglySorted_inv in Hs as [_ Hall]. eapply Forall_impl; [exact Hall|]. simpl. lia.
Qed.

(** C31: In any stretch of time as long as the window, at most the limit of
    the requests of an account are allowed. *)
Theorem quota_bounds_every_window t times c :
  StronglySorted Z.le times → (∀ n e, c !! key = Some (n, e) → 0 ≤ n) →
  Z.of_nat (allowed_in t (decisions times c)) ≤ limit.
Proof.
  intros Hs. revert c. induction times as [|x times IH]; intros c Hc; [cbn; lia|].
  assert (1 ≤ next_count x c) as Hn.
  { unfold next_count, live. destruct (c !! key) as [[n e]|] eqn:E; [|lia]. case_match; [|lia].
    specialize (Hc _ _ eq_refl). case_match; [|done]. simplify_eq. lia. }
  rewrite decisions_cons. set (c' := <[key := _]> c).
  destruct (decide (t ≤ x)) as [Hle|Hgt].
  - pose proof (allowed_after t times c' _ x (lookup_insert_eq _ _ _) Hle Hs) as H.
    rewrite allowed_in_cons. destruct (next_count x c <=? limit) eqn:E; cbn [andb]; repeat case_match; lia.
  - apply StronglySorted_inv in Hs as [Hs _].
    rewrite allowed_in_cons. replace (t <=? x) with false by lia. rewrite andb_false_r. apply (IH Hs).
    intros n e He. assert (Some (n, e) = Some (next_count x c, x + window)) as [= -> _]; [|lia].
    rewrite <- He. apply lookup_insert_eq.
Qed.

(** Each request comes before the window of the one before it is over. *)
Fixpoint busy (last : Z) (times : list Z) : Prop :=
  match times with
  | [] => True
  | now :: times' => now < last + window ∧ busy now times'
  end.

(** Every request restarts the window, a refused one too: an account that
    has used up its quota and keeps asking within the window is refused for
    good, however long it goes on. *)
Theorem busy_account_is_refused_for_good last times n c :
  c !! key = Some (n, last + window) → limit ≤ n → busy last times →
  Forall (λ d, d.2 = false) (decisions times c).
Proof.
  revert last n c. induction times as [|x times IH]; intros last n c Hc Hn Hb; [constructor|].
  destruct Hb as [Hx Hb]. rewrite decisions_cons. unfold next_count, live. rewrite Hc.
  replace (x <? last + window) with true by lia.
  constructor; [simpl; lia|]. eapply IH; [apply lookup_insert_eq|lia|done].
Qed.
End requests.

(** Two jobs of an account with one publish an hour, half an hour apart, each
    put off by an hour when it is refused. *)
Fixpoint half_hours (k : nat) (start : Z) : list Z :=
  match k with O => [] | S k => start :: half_hours k (start + 1800 * second) end.

Lemma half_hours_busy k start : busy 3600 (start - 1800 * second) (half_hours k start).
Proof.
  revert start. induction k as [|k IH]; intros start; [exact I|]. split; [unfold window, second; lia|].
  specialize (IH (start + 1800 * second)).
  by replace (start + 1800 * second - 1800 * second) with start in IH by lia.
Qed.

Lemma busy_account_witness :
  Forall (λ d, d.2 = false)
    (decisions "t" "a" "publish" 1 3600 (half_hours 5000 (1800 * second))
       {[ key "t" "a" "publish" := (1, 0 + window 3600) ]}).
Proof.
  apply (busy_account_is_refused_for_good "t" "a" "publish" 1 3600 0 _ 1).
  - reflexivity.
  - lia.
  - exact (half_hours_busy 5000 (1800 * second)).
Defined.

Lemma quota_bounds_every_window_witness :
  Z.of_nat (allowed_in 3600 (1 * second)
    (decisions "t" "a" "publish" 2 3600 [0; 5; 1000000; 2000000; 3700 * second; 8000 * second] ∅)) ≤ 2.
Proof.
  apply (quota_bounds_every_window "t" "a" "publish" 2 3600); [lia|..].
  - repeat constructor; unfold second; lia.
  - intros n e H. discriminate H.
Defined.

Example decisions_of_a_window :
  decisions "t" "a" "publish" 2 3600 [0; 5; 1000000; 2000000; 3700 * second; 8000 * second] ∅ =
    [(0, true); (5, true); (1000000, false); (2000000, false); (3700 * second, true); (8000 * second, true)].
Proof. by vm_compute. Qed.
End Quota.
