(* ===== verification/Accounts.v ===== *)
(** * Social accounts and the choice of the accounts to publish to
    (publishing/models.py, publishing/repository.py,
    publishing/account_selection.py, core/rollout.py)

    The account rows, the queries on them, the rollout gate that may collapse
    a choice to one account per platform, and the resolution of a request to
    accounts of the tenant.  SHA-256, the JSON printer and the reader of UUIDs
    are parameters. *)
From S2P Require Import Prelude PyStr Json Tables RunModels Calendar.
From stdpp Require Import sorting gmap strings.

Module Accounts.
Local Open Scope string_scope.
Local Open Scope list_scope.
Local Open Scope Z_scope.

Definition QUARANTINED : string := "quarantined".

Record SocialAccount := {
  sa_id : string;
  sa_tenant_id : string;
  sa_platform : string;
  sa_display_name : string;
  sa_handle : option string;
  sa_account_external_id : option string;
  sa_status : string;
  sa_auth_type : string;
  sa_capability_flags : dict json;
  sa_settings : dict json;
  sa_account_metadata : dict json;
  sa_last_synced_at : option Z;
  sa_legacy_connected_account_id : option string;
  sa_quarantine_reason : option string;
  sa_created_at : Z;
  sa_deleted_at : option Z;
}.

Record ConnectedAccount := {
  ca_id : string;
  ca_tenant_id : string;
  ca_social_account_id : option string;
  ca_platform : string;
  ca_account_name : string;
  ca_auth_type : string;
  ca_credential_ref : option string;
  ca_scopes : list string;
  ca_account_metadata : dict json;
  ca_status : string;
  ca_created_at : Z;
  ca_deleted_at : option Z;
}.

Record SocialAccountToken := {
  tk_id : string;
  tk_social_account_id : string;
  tk_access_token_encrypted : string;
  tk_refresh_token_encrypted : option string;
  tk_scopes : list string;
  tk_is_active : bool;
  tk_binding_version : Z;
  tk_created_at : Z;
  tk_deleted_at : option Z;
}.

(** ** repository.py *)

Definition is_live (deleted_at : option Z) : bool := match deleted_at with None => true | Some _ => false end.

(** [ORDER BY created_at ASC] and [DESC] *)
Definition created_le {R} (created_at : R → Z) (a b : R) : Prop := created_at a <= created_at b.
#[global] Instance created_le_dec {R} (created_at : R → Z) a b : Decision (created_le created_at a b).
Proof. unfold created_le. apply _. Defined.
Definition created_ge {R} (created_at : R → Z) (a b : R) : Prop := created_at b <= created_at a.
#[global] Instance created_ge_dec {R} (created_at : R → Z) a b : Decision (created_ge created_at a b).
Proof. unfold created_ge. apply _. Defined.
Definition oldest_first {R} (created_at : R → Z) (rows : list R) : list R := merge_sort (created_le created_at) rows.
Definition newest_first {R} (created_at : R → Z) (rows : list R) : list R := merge_sort (created_ge created_at) rows.

Definition list_social_accounts (tenant_id : string) (rows : list SocialAccount) : list SocialAccount :=
  oldest_first sa_created_at
    (List.filter (λ a, bool_decide (sa_tenant_id a = tenant_id) && is_live (sa_deleted_at a) &&
                       negb (bool_decide (sa_status a = QUARANTINED))) rows).

Definition get_social_account (tenant_id account_id : string) (rows : list SocialAccount) : option SocialAccount :=
  List.find (λ a, bool_decide (sa_tenant_id a = tenant_id) && bool_decide (sa_id a = account_id) &&
                  is_live (sa_deleted_at a)) rows.

Definition get_social_accounts_by_ids (tenant_id : string) (account_ids : list string)
    (rows : list SocialAccount) : list SocialAccount :=
  List.filter (λ a, bool_decide (sa_tenant_id a = tenant_id) && bool_decide (sa_id a ∈ account_ids) &&
                    is_live (sa_deleted_at a)) rows.

Definition get_social_account_by_platform (tenant_id platform : string) (rows : list SocialAccount) :
    option SocialAccount :=
  head (oldest_first sa_created_at
    (List.filter (λ a, bool_decide (sa_tenant_id a = tenant_id) && bool_decide (sa_platform a = platform) &&
                       is_live (sa_deleted_at a) && negb (bool_decide (sa_status a = QUARANTINED))) rows)).

Definition get_connected_account_by_platform (tenant_id platform : string) (rows : list ConnectedAccount) :
    option ConnectedAccount :=
  head (oldest_first ca_created_at
    (List.filter (λ a, bool_decide (ca_tenant_id a = tenant_id) && bool_decide (ca_platform a = platform) &&
                       is_live (ca_deleted_at a) && negb (bool_decide (ca_status a = QUARANTINED))) rows)).

Definition get_connected_for_social (tenant_id social_account_id : string) (rows : list ConnectedAccount) :
    option ConnectedAccount :=
  head (oldest_first ca_created_at
    (List.filter (λ a, bool_decide (ca_tenant_id a = tenant_id) &&
                       bool_decide (ca_social_account_id a = Some social_account_id) &&
                       is_live (ca_deleted_at a)) rows)).

(** The active token, else the newest one that is not deleted. *)
Definition get_token_for_account (social_account_id : string) (rows : list SocialAccountToken) :
    option SocialAccountToken :=
  let mine := List.filter (λ t, bool_decide (tk_social_account_id t = social_account_id) &&
                                is_live (tk_deleted_at t)) rows in
  match head (newest_first tk_created_at (List.filter tk_is_active mine)) with
  | Some token => Some token
  | None => head (newest_first tk_created_at mine)
  end.

(** ** rollout.py *)

Inductive RolloutMode := OFF | SHADOW | CANARY | ON.
#[global] Instance RolloutMode_eq_dec : EqDecision RolloutMode.
Proof. solve_decision. Defined.

Definition parse_rollout_mode (raw : option string) : RolloutMode :=
  let text := match raw with Some s => if PyStr.truthy s then s else "on" | None => "on" end in
  let value := PyStr.lower (PyStr.strip text) in
  if bool_decide (value = "off") then OFF
  else if bool_decide (value = "shadow") then SHADOW
  else if bool_decide (value = "canary") then CANARY
  else ON.

Definition parse_tenant_allowlist (raw : string) : list string :=
  List.filter PyStr.truthy (map PyStr.strip (PyStr.split "," raw)).

(** [int(text, 16)] on lower-case hexadecimal digits. *)
Fixpoint hex_value (acc : Z) (s : string) : Z :=
  match s with
  | EmptyString => acc
  | String c s' =>
      let n := Z.of_nat (PyStr.code c) in
      hex_value (acc * 16 + (if n <? 58 then n - 48 else n - 87)) s'
  end.

(** [str(getattr(account, "platform", "") or "unknown")] *)
Definition platform_or_unknown (a : SocialAccount) : string :=
  if PyStr.truthy (sa_platform a) then sa_platform a else "unknown".

(** The first account of each platform, with the platforms seen before. *)
Fixpoint collapse_from (seen : list string) (accounts : list SocialAccount) : list SocialAccount :=
  match accounts with
  | [] => []
  | a :: accounts' =>
      let platform := platform_or_unknown a in
      if bool_decide (platform ∈ seen) then collapse_from seen accounts'
      else a :: collapse_from (platform :: seen) accounts'
  end.
Definition collapse_one_per_platform : list SocialAccount → list SocialAccount := collapse_from [].

Record MultiAccountDecision := {
  mad_mode : RolloutMode;
  mad_multi_account_enabled : bool;
  mad_shadow : bool;
  mad_reason : string;
  mad_selected_count : nat;
  mad_collapsed_count : nat;
}.

(** The fields of the settings. *)
Record RolloutSettings := {
  MULTI_ACCOUNT_ROLLOUT_MODE : option string;
  MULTI_ACCOUNT_CANARY_PERCENT : Z;
  MULTI_ACCOUNT_CANARY_TENANT_IDS : string;
}.

Section rollout.
Context (sha256_hex : string → string).

Definition tenant_canary_bucket (tenant_id : string) : Z :=
  hex_value 0 (PyStr.take 8 (sha256_hex ("multi-account:" +:+ tenant_id))) mod 100.

Definition decide_multi_account (accounts : list SocialAccount) (tenant_id : string) (mode : RolloutMode)
    (canary_percent : Z) (allowlist : list string) : MultiAccountDecision :=
  let selected := length accounts in
  let collapsed := length (collapse_one_per_platform accounts) in
  let decision enabled shadow reason count :=
    {| mad_mode := mode; mad_multi_account_enabled := enabled; mad_shadow := shadow; mad_reason := reason;
       mad_selected_count := count; mad_collapsed_count := collapsed |} in
  match mode with
  | ON => decision true false "rollout_on" selected
  | OFF => decision false false "rollout_off" collapsed
  | SHADOW => decision true true (if Nat.ltb collapsed selected then "shadow_compare" else "shadow_single") selected
  | CANARY =>
      if bool_decide (tenant_id ∈ allowlist) then decision true false "canary_allowlist" selected
      else
        let pct := Z.max 0 (Z.min 100 canary_percent) in
        if tenant_canary_bucket tenant_id <? pct then decision true false "canary_percent" selected
        else decision false false "canary_excluded" collapsed
  end.

Definition apply_multi_account_gate (accounts : list SocialAccount) (tenant_id : string) (mode : RolloutMode)
    (canary_percent : Z) (allowlist : list string) : list SocialAccount * MultiAccountDecision :=
  let decision := decide_multi_account accounts tenant_id mode canary_percent allowlist in
  (if mad_multi_account_enabled decision then accounts else collapse_one_per_platform accounts, decision).

(** ** account_selection.py *)

Context (cfg : RolloutSettings) (dumps_sorted : json → string) (uuid_of_text : string → option string).

Definition variant_fingerprint (a : SocialAccount) : string :=
  let payload := JObj [("platform", JStr (sa_platform a)); ("capability_flags", JObj (sa_capability_flags a));
                       ("settings", JObj (sa_settings a))] in
  sa_platform a +:+ ":" +:+ PyStr.take 16 (sha256_hex (dumps_sorted payload)).

(** The intent is "publish" in every call. *)
Definition build_publish_idempotency_key (content_job_id social_account_id : string) (scheduled_for : option Z)
    (dry_run : bool) (client_key content_variant_id : option string) : string :=
  match client_key with
  | Some key =>
      if PyStr.truthy key then
        match content_variant_id with
        | Some v => key +:+ ":" +:+ social_account_id +:+ ":" +:+ v
        | None => key +:+ ":" +:+ social_account_id
        end
      else PyStr.join ":" ([content_job_id; social_account_id] ++ option_list content_variant_id ++
             [match scheduled_for with Some t => Calendar.isoformat_utc t | None => "immediate" end; "publish";
              if dry_run then "dry" else "live"])
  | None => PyStr.join ":" ([content_job_id; social_account_id] ++ option_list content_variant_id ++
              [match scheduled_for with Some t => Calendar.isoformat_utc t | None => "immediate" end; "publish";
               if dry_run then "dry" else "live"])
  end.

Definition unauthorized (ids : list string) : exn :=
  HTTPException 403 ("Unauthorized or unknown social_account_ids: " +:+ PyStr.join ", " ids).

Definition assert_accounts_authorized (tenant_id : string) (requested_ids : list string)
    (found : list SocialAccount) : result () :=
  let missing := List.filter (λ i, negb (bool_decide (i ∈ sa_id <$> found))) requested_ids in
  match missing with
  | _ :: _ => Raise (unauthorized missing)
  | [] =>
      let quarantined := sa_id <$> List.filter (λ a, bool_decide (sa_status a = QUARANTINED)) found in
      match quarantined with
      | _ :: _ => Raise (HTTPException 400
          ("Quarantined social_account_ids cannot be selected: " +:+ PyStr.join ", " quarantined))
      | [] =>
          let foreign := sa_id <$> List.filter (λ a, negb (bool_decide (sa_tenant_id a = tenant_id))) found in
          match foreign with
          | _ :: _ => Raise (unauthorized foreign)
          | [] => Ok ()
          end
      end
  end.

Definition parse_stored_account_ids (raw : list string) : list string := omap uuid_of_text raw.

Definition gated_accounts (tenant_id : string) (accounts : list SocialAccount) : list SocialAccount :=
  (apply_multi_account_gate accounts tenant_id (parse_rollout_mode (MULTI_ACCOUNT_ROLLOUT_MODE cfg))
     (MULTI_ACCOUNT_CANARY_PERCENT cfg) (parse_tenant_allowlist (MULTI_ACCOUNT_CANARY_TENANT_IDS cfg))).1.

(** [[by_id[i] for i in ids if i in by_id]]; of equal ids the last account counts. *)
Definition in_request_order (ids : list string) (found : list SocialAccount) : list SocialAccount :=
  omap (λ i, List.find (λ a, bool_decide (sa_id a = i)) (reverse found)) ids.

Definition by_ids (tenant_id : string) (ids : list string) (rows : list SocialAccount) :
    result (list SocialAccount) :=
  let found := get_social_accounts_by_ids tenant_id ids rows in
  _ ← assert_accounts_authorized tenant_id ids found;
  mret (gated_accounts tenant_id (in_request_order ids found)).

Fixpoint by_platforms (tenant_id : string) (platforms : list string) (rows : list SocialAccount) :
    result (list SocialAccount) :=
  match platforms with
  | [] => mret []
  | platform :: platforms' =>
      match get_social_account_by_platform tenant_id platform rows with
      | None => Raise (HTTPException 400 ("No social account configured for " +:+ platform))
      | Some a => l ← by_platforms tenant_id platforms' rows; mret (a :: l)
      end
  end.

(** [None] and the empty list are both false. *)
Definition resolve_social_accounts (tenant_id : string) (social_account_ids platforms stored_account_ids : list string)
    (rows : list SocialAccount) : result (list SocialAccount) :=
  match social_account_ids with
  | _ :: _ => by_ids tenant_id social_account_ids rows
  | [] =>
      match parse_stored_account_ids stored_account_ids with
      | (_ :: _) as stored => by_ids tenant_id stored rows
      | [] =>
          match platforms with
          | _ :: _ => l ← by_platforms tenant_id platforms rows; mret (gated_accounts tenant_id l)
          | [] => mret []
          end
      end
  end.
End rollout.

(** ** Collapsing *)

Lemma collapse_from_sublist seen l : collapse_from seen l `sublist_of` l.
Proof.
  revert seen. induction l as [|a l IH]; intros seen; simpl; [done|].
  case_bool_decide; [by apply sublist_cons|by apply sublist_skip].
Qed.

Lemma collapse_from_platforms seen l :
  NoDup (platform_or_unknown <$> collapse_from seen l) ∧
  ∀ a, a ∈ collapse_from seen l → platform_or_unknown a ∉ seen.
Proof.
  revert seen. induction l as [|a l IH]; intros seen; simpl.
  - split; [constructor|]. intros a []%elem_of_nil.
  - case_bool_decide as Hs; [apply IH|]. destruct (IH (platform_or_unknown a :: seen)) as [IH1 IH2]. split.
    + rewrite fmap_cons. constructor; [|done]. intros (b & Hb & Hin)%list_elem_of_fmap.
      apply (IH2 _ Hin). rewrite <- Hb. by left.
    + intros b [->|Hin]%elem_of_cons; [done|]. specialize (IH2 _ Hin). set_solver.
Qed.

(** Every platform of the choice keeps an account. *)
Lemma collapse_from_covers seen l a :
  a ∈ l → platform_or_unknown a ∈ seen ∨ ∃ b, b ∈ collapse_from seen l ∧ platform_or_unknown b = platform_or_unknown a.
Proof.
  revert seen. induction l as [|x l IH]; intros seen; [by intros []%elem_of_nil|].
  intros [->|Ha]%elem_of_cons; simpl; case_bool_decide as Hs.
  - by left.
  - right. exists x. split; [by left|done].
  - by apply IH.
  - destruct (IH (platform_or_unknown x :: seen) Ha) as [[->|?]%elem_of_cons|(b & Hb & Hp)]; [|by left|].
    + right. exists x. split; [by left|done].
    + right. exists b. split; [by right|done].
Qed.

Lemma gated_sublist sha cfg t l : gated_accounts sha cfg t l `sublist_of` l.
Proof. unfold gated_accounts, apply_multi_account_gate. simpl. case_match; [done|apply collapse_from_sublist]. Qed.

(** ** Resolution *)

(** A row the tenant may publish with. *)
Definition usable (tenant_id : string) (a : SocialAccount) : Prop :=
  sa_tenant_id a = tenant_id ∧ sa_deleted_at a = None ∧ sa_status a ≠ QUARANTINED.

Lemma is_live_true d : is_live d = true ↔ d = None.
Proof. by destruct d. Qed.

Lemma elem_of_found t ids rows a :
  a ∈ get_social_accounts_by_ids t ids rows ↔
  a ∈ rows ∧ sa_tenant_id a = t ∧ sa_id a ∈ ids ∧ sa_deleted_at a = None.
Proof.
  unfold get_social_accounts_by_ids. rewrite list_elem_of_In, filter_In, <- list_elem_of_In.
  rewrite !andb_true_iff, !bool_decide_eq_true, is_live_true. tauto.
Qed.

Lemma assert_ok t ids found :
  assert_accounts_authorized t ids found = Ok () ↔
  (∀ i, i ∈ ids → i ∈ sa_id <$> found) ∧
  (∀ a, a ∈ found → sa_status a ≠ QUARANTINED ∧ sa_tenant_id a = t).
Proof.
  assert (∀ {A B} (f : A → B) (p : A → bool) (l : list A),
    f <$> List.filter p l = [] ↔ ∀ x, x ∈ l → p x = false) as Hnil.
  { intros A B f p l. split.
    - intros H%fmap_nil_inv x Hx. destruct (p x) eqn:E; [|done].
      assert (x ∈ List.filter p l) as Hin by (apply list_elem_of_In, filter_In; by rewrite <- list_elem_of_In).
      rewrite H in Hin. by apply elem_of_nil in Hin.
    - intros H. by rewrite (filter_none p l). }
  unfold assert_accounts_authorized.
  rewrite <- (list_fmap_id (List.filter _ ids)).
  destruct (id <$> List.filter _ ids) as [|m ms] eqn:E1; cycle 1.
  { split; [done|]. intros [Hin _]. rewrite (filter_none _ ids) in E1; [done|].
    intros i Hi. by rewrite bool_decide_eq_true_2 by auto. }
  rewrite Hnil in E1.
  destruct (sa_id <$> List.filter _ found) as [|q qs] eqn:E2; cycle 1.
  { split; [done|]. intros [_ Hf]. rewrite (filter_none _ found) in E2; [done|].
    intros a Ha. apply bool_decide_eq_false_2. by apply Hf. }
  rewrite Hnil in E2.
  destruct (sa_id <$> List.filter (λ a, negb _) found) as [|f fs] eqn:E3; cycle 1.
  { split; [done|]. intros [_ Hf]. rewrite (filter_none _ found) in E3; [done|].
    intros a Ha. rewrite bool_decide_eq_true_2; [done|]. by apply Hf. }
  rewrite Hnil in E3. split; [intros _|done]. split.
  - intros i Hi. specialize (E1 i Hi). apply negb_false_iff, bool_decide_eq_true in E1. done.
  - intros a Ha. specialize (E2 a Ha). specialize (E3 a Ha). apply bool_decide_eq_false in E2.
    apply negb_false_iff, bool_decide_eq_true in E3. done.
Qed.

Lemma in_request_order_found ids found a : a ∈ in_request_order ids found → a ∈ found ∧ sa_id a ∈ ids.
Proof.
  unfold in_request_order. rewrite list_elem_of_omap. intros (i & Hi & [Hin Hid]%find_Some_elem).
  apply bool_decide_eq_true in Hid as <-. split; [by rewrite elem_of_reverse in Hin|done].
Qed.

Lemma in_request_order_cons i ids found :
  in_request_order (i :: ids) found =
    match List.find (λ a, bool_decide (sa_id a = i)) (reverse found) with
    | Some a => a :: in_request_order ids found
    | None => in_request_order ids found
    end.
Proof. reflexivity. Qed.

Lemma in_request_order_ids ids found :
  (∀ i, i ∈ ids → i ∈ sa_id <$> found) → sa_id <$> in_request_order ids found = ids.
Proof.
  induction ids as [|i ids IH]; intros H; [done|]. rewrite in_request_order_cons.
  destruct (List.find _ (reverse found)) as [a|] eqn:E.
  - apply find_Some_elem in E as [_ Hid]. apply bool_decide_eq_true in Hid as <-. rewrite fmap_cons, IH; [done|].
    intros j Hj. apply H. by right.
  - exfalso. specialize (H i ltac:(by left)). apply list_elem_of_fmap in H as (a & -> & Ha).
    apply find_None_Forall in E. rewrite Forall_forall in E. specialize (E a).
    rewrite elem_of_reverse, bool_decide_eq_true_2 in E by done. by specialize (E Ha).
Qed.

Section resolve.
Context (sha256_hex : string → string) (cfg : RolloutSettings) (uuid_of_text : string → option string).
Context (tenant_id : string) (rows : list SocialAccount).
Notation resolve := (resolve_social_accounts sha256_hex cfg uuid_of_text tenant_id).

(** Whether the gate serves several accounts of a platform. *)
Definition multi_account (accounts : list SocialAccount) : bool :=
  mad_multi_account_enabled
    (decide_multi_account sha256_hex accounts tenant_id (parse_rollout_mode (MULTI_ACCOUNT_ROLLOUT_MODE cfg))
       (MULTI_ACCOUNT_CANARY_PERCENT cfg) (parse_tenant_allowlist (MULTI_ACCOUNT_CANARY_TENANT_IDS cfg))).

Lemma by_ids_ok ids l :
  by_ids sha256_hex cfg tenant_id ids rows = Ok l →
  (∀ a, a ∈ l → a ∈ rows ∧ usable tenant_id a) ∧
  ∃ chosen, sa_id <$> chosen = ids ∧ l = if multi_account chosen then chosen else collapse_one_per_platform chosen.
Proof.
  unfold by_ids. set (found := get_social_accounts_by_ids tenant_id ids rows).
  destruct (assert_accounts_authorized tenant_id ids found) as [[]|e] eqn:E; [|done].
  apply assert_ok in E as [E1 E2]. intros [= <-]. split.
  - intros a Ha. apply (sublist_subseteq _ _ (gated_sublist sha256_hex cfg tenant_id _)) in Ha.
    apply in_request_order_found in Ha as [Ha _]. destruct (E2 a Ha) as [? ?].
    apply elem_of_found in Ha as (? & ? & _ & ?). done.
  - exists (in_request_order ids found). split; [by apply in_request_order_ids|reflexivity].
Qed.

Lemma by_platforms_ok platforms l :
  by_platforms tenant_id platforms rows = Ok l →
  sa_platform <$> l = platforms ∧ ∀ a, a ∈ l → a ∈ rows ∧ usable tenant_id a.
Proof.
  revert l. induction platforms as [|p platforms IH]; intros l; simpl.
  { intros [= <-]. split; [done|]. by intros a []%elem_of_nil. }
  destruct (get_social_account_by_platform _ _ _) as [a|] eqn:E; [|done].
  destruct (by_platforms tenant_id platforms rows) as [l'|] eqn:El; [|done]. intros [= <-].
  destruct (IH l' eq_refl) as [IH1 IH2].
  assert (a ∈ rows ∧ sa_platform a = p ∧ usable tenant_id a) as (Ha & Hp & Hu).
  { unfold get_social_account_by_platform in E.
    assert (a ∈ oldest_first sa_created_at (List.filter _ rows)) as Hin by (eapply head_Some_elem_of, E).
    unfold oldest_first in Hin. rewrite (merge_sort_Permutation (created_le sa_created_at)) in Hin.
    apply list_elem_of_In, filter_In in Hin as [Hin Hc]. rewrite <- list_elem_of_In in Hin.
    rewrite !andb_true_iff, !bool_decide_eq_true, is_live_true, negb_true_iff, bool_decide_eq_false in Hc.
    destruct Hc as (((? & ?) & ?) & ?). done. }
  split; [by rewrite fmap_cons, Hp, IH1|]. intros b [->|Hb]%elem_of_cons; [done|by apply IH2].
Qed.

Lemma by_ids_is_ok ids :
  NoDup (sa_id <$> rows) →
  is_ok (by_ids sha256_hex cfg tenant_id ids rows) = true ↔
  ∀ i, i ∈ ids → ∃ a, a ∈ rows ∧ sa_id a = i ∧ usable tenant_id a.
Proof.
  intros Hnd. unfold by_ids. set (found := get_social_accounts_by_ids tenant_id ids rows).
  trans (assert_accounts_authorized tenant_id ids found = Ok ()).
  { destruct (assert_accounts_authorized tenant_id ids found) as [[]|e]; [done|]. by split. }
  rewrite assert_ok. split.
  - intros [H1 H2] i Hi. apply H1, list_elem_of_fmap in Hi as (a & -> & Ha). exists a.
    destruct (H2 a Ha). apply elem_of_found in Ha as (? & ? & ? & ?). done.
  - intros H. split.
    + intros i Hi. destruct (H i Hi) as (a & Ha & <- & (? & ? & ?)). apply list_elem_of_fmap_2, elem_of_found. done.
    + intros a (Ha & Ht & Hid & Hd)%elem_of_found. destruct (H _ Hid) as (b & Hb & Hab & (? & ? & ?)).
      assert (b = a) as -> by (by eapply (NoDup_fmap_inj_in sa_id rows)). done.
Qed.

(** What the accounts were chosen by: the request names accounts, else the
    content job stores some, else the platforms count. *)
Definition names (social_account_ids platforms stored : list string) (chosen : list SocialAccount) : Prop :=
  match social_account_ids, parse_stored_account_ids uuid_of_text stored with
  | _ :: _, _ => sa_id <$> chosen = social_account_ids
  | [], (_ :: _) as ids => sa_id <$> chosen = ids
  | [], [] => sa_platform <$> chosen = platforms
  end.

(** The accounts resolved for a request are live accounts of the tenant
    that are not quarantined; they are those the request names, in its order,
    or the first of each platform among them where the rollout gate is closed.
    A request that names accounts is refused exactly when one of them is not
    such an account. *)
Theorem resolve_social_accounts_spec social_account_ids platforms stored :
  NoDup (sa_id <$> rows) →
  (∀ l, resolve social_account_ids platforms stored rows = Ok l →
     (∀ a, a ∈ l → a ∈ rows ∧ usable tenant_id a) ∧
     ∃ chosen, names social_account_ids platforms stored chosen ∧
       l = (if multi_account chosen then chosen else collapse_one_per_platform chosen) ∧
       (multi_account chosen = false → NoDup (platform_or_unknown <$> l))) ∧
  (social_account_ids ≠ [] →
     is_ok (resolve social_account_ids platforms stored rows) = true ↔
     ∀ i, i ∈ social_account_ids → ∃ a, a ∈ rows ∧ sa_id a = i ∧ usable tenant_id a).
Proof.
  intros Hnd. split.
  - intros l Hl.
    assert ((∀ a, a ∈ l → a ∈ rows ∧ usable tenant_id a) ∧ ∃ chosen, names social_account_ids platforms stored chosen ∧
      l = if multi_account chosen then chosen else collapse_one_per_platform chosen) as [H1 (chosen & H2 & H3)].
    { unfold resolve_social_accounts in Hl. unfold names. destruct social_account_ids as [|i ids].
      - destruct (parse_stored_account_ids uuid_of_text stored) as [|i ids].
        + destruct platforms as [|p platforms].
          * injection Hl as <-. split; [by intros a []%elem_of_nil|]. exists []. split; [done|by case_match].
          * destruct (by_platforms tenant_id (p :: platforms) rows) as [l'|e] eqn:E; [|done].
            injection Hl as <-. destruct (by_platforms_ok _ _ E) as [E1 E2]. split; [|by exists l'].
            intros a Ha. apply E2, (sublist_subseteq _ _ (gated_sublist sha256_hex cfg tenant_id l')), Ha.
        + destruct (by_ids_ok _ _ Hl) as [? (chosen & ? & ?)]. split; [done|]. by exists chosen.
      - destruct (by_ids_ok _ _ Hl) as [? (chosen & ? & ?)]. split; [done|]. by exists chosen; split. }
    split; [done|]. exists chosen. split_and!; [done..|]. intros Hm. rewrite H3, Hm. apply collapse_from_platforms.
  - intros Hne. destruct social_account_ids as [|i ids]; [done|]. by apply by_ids_is_ok.
Qed.
End resolve.

(** Two accounts of a platform and a quarantined one, behind a closed gate. *)
Definition ex_account (id platform status : string) : SocialAccount :=
  {| sa_id := id; sa_tenant_id := "t"; sa_platform := platform; sa_display_name := id; sa_handle := None;
     sa_account_external_id := None; sa_status := status; sa_auth_type := "oauth"; sa_capability_flags := [];
     sa_settings := []; sa_account_metadata := []; sa_last_synced_at := None;
     sa_legacy_connected_account_id := None; sa_quarantine_reason := None; sa_created_at := 0;
     sa_deleted_at := None |}.
Definition ex_accounts : list SocialAccount :=
  [ex_account "a1" "x" "connected"; ex_account "a2" "x" "connected"; ex_account "a3" "bluesky" "quarantined"].
Definition ex_gate (mode : string) : RolloutSettings :=
  {| MULTI_ACCOUNT_ROLLOUT_MODE := Some mode; MULTI_ACCOUNT_CANARY_PERCENT := 0;
     MULTI_ACCOUNT_CANARY_TENANT_IDS := " u, t ," |}.

Lemma resolve_social_accounts_spec_witness :
  resolve_social_accounts id (ex_gate " OFF ") Some "t" ["a2"; "a1"] [] [] ex_accounts =
    Ok [ex_account "a2" "x" "connected"] ∧
  (∀ a, a ∈ [ex_account "a2" "x" "connected"] → a ∈ ex_accounts ∧ usable "t" a) ∧
  is_ok (resolve_social_accounts id (ex_gate "canary") Some "t" ["a3"] [] [] ex_accounts) ≠ true.
Proof.
  assert (NoDup (sa_id <$> ex_accounts)) as Hnd by (apply (bool_decide_unpack _); reflexivity).
  assert (resolve_social_accounts id (ex_gate " OFF ") Some "t" ["a2"; "a1"] [] [] ex_accounts =
    Ok [ex_account "a2" "x" "connected"]) as H by reflexivity.
  split; [exact H|]. split.
  - destruct (resolve_social_accounts_spec id (ex_gate " OFF ") Some "t" ex_accounts ["a2"; "a1"] [] [] Hnd) as [H1 _].
    destruct (H1 _ H) as [H2 _]. exact H2.
  - destruct (resolve_social_accounts_spec id (ex_gate "canary") Some "t" ex_accounts ["a3"] [] [] Hnd) as [_ H2].
    rewrite (H2 ltac:(done)). intros H3. destruct (H3 "a3" ltac:(by left)) as (a & Ha & Hid & (_ & _ & Hq)).
    unfold ex_accounts in Ha. rewrite !elem_of_cons in Ha. destruct Ha as [->|[->|[->|Ha]]].
    + discriminate Hid.
    + discriminate Hid.
    + by apply Hq.
    + by apply elem_of_nil in Ha.
Defined.
End Accounts.
