(* ===== verification/Providers.v ===== *)
(** * Publishing providers and their requests
    (core/http.py, publishing/provider_base.py, publishing/x_provider.py,
    publishing/bluesky_provider.py, publishing/providers.py)

    The retrying request all providers share, the four providers behind one
    interface, and their choice.  The servers are a parameter: what each
    request is answered. *)
From S2P Require Import Prelude PyStr Json Calendar Accounts.

Module Providers.
Import Accounts.
Local Open Scope string_scope.
Local Open Scope list_scope.
Local Open Scope Z_scope.

(** ** The web *)

Record Request := {
  rq_method : string;
  rq_url : string;
  rq_headers : list (string * string);
  rq_json : json;
  rq_content : string;
}.

(** A body that is no JSON has no [rs_json]; [rs_error] is the text httpx gives
    an error of this response. *)
Record Response := {
  rs_status_code : Z;
  rs_json : option json;
  rs_content : string;
  rs_error : string;
}.

(** The requests sent so far, and how many clock readings and UUIDs were taken. *)
Record Web := {
  web_sent : list Request;
  web_ticks : nat;
  web_uuids : nat;
}.
#[global] Instance eta_Web : Settable Web :=
  mk_settable _ (λ w, Build_Web (web_sent w) (web_ticks w) (web_uuids w)).

Definition TIMEOUT_ERRORS : list string :=
  ["TimeoutException"; "ConnectTimeout"; "ReadTimeout"; "WriteTimeout"; "PoolTimeout"].
Definition TRANSPORT_ERRORS : list string :=
  TIMEOUT_ERRORS ++
  ["TransportError"; "NetworkError"; "ConnectError"; "ReadError"; "WriteError"; "CloseError"; "ProtocolError";
   "LocalProtocolError"; "RemoteProtocolError"; "ProxyError"; "UnsupportedProtocol"].

(** [isinstance(exc, httpx.TransportError)]: the timeouts are among them. *)
Definition is_transport_error (e : exn) : bool :=
  match e with OtherException cls _ => bool_decide (cls ∈ TRANSPORT_ERRORS) | _ => false end.

(** [asyncio.CancelledError] is no [Exception]. *)
Definition is_exception (e : exn) : bool :=
  match e with OtherException cls _ => negb (bool_decide (cls = "CancelledError")) | _ => true end.

(** [try: m; except Exception as exc: handler(exc)] *)
Definition except_exception {W A} (m : M W A) (handler : exn → M W A) : M W A :=
  try_except m (λ e, if is_exception e then handler e else raise e).

(** [d.get(k, default)] on a value that has to be a dict. *)
Definition json_get (k : string) (dflt v : json) : result json :=
  match v with
  | JObj o => Ok (default dflt (Dict.get k o))
  | _ => Raise (OtherException "AttributeError" "object has no attribute 'get'")
  end.

(** The ids of X are texts; another value is rendered. *)
Definition id_text (v : json) : option string :=
  match v with JNull => None | v => Some (Json.str v) end.

Definition or_empty (s : option string) : string := default "" s.

(** ** Posts *)

(** A generated asset, or the view of a variant that stands for one. *)
Record Asset := {
  as_id : string;
  as_asset_type : string;
  as_platform : option string;
  as_text_content : option string;
  as_public_url : option string;
  as_mime_type : string;
  as_checksum : option string;
  as_metadata : dict json;
}.

Record PublishResult := {
  pr_status : string;
  pr_external_post_id : option string;
  pr_external_post_url : option string;
  pr_payload : dict json;
  pr_manual_required : bool;
}.
#[global] Instance eta_PublishResult : Settable PublishResult :=
  mk_settable _ (λ r, Build_PublishResult (pr_status r) (pr_external_post_id r) (pr_external_post_url r)
    (pr_payload r) (pr_manual_required r)).

Record AuthValidationResult := {
  av_is_valid : bool;
  av_account_status : string;
  av_detail : option string;
}.

Record DraftResult := {
  dr_status : string;
  dr_preview_text : string;
  dr_payload : dict json;
}.

Record SchedulingResult := {
  sr_status : string;
  sr_scheduled_for : option Z;
  sr_native_supported : bool;
  sr_payload : dict json;
}.

Record PublishingProvider := {
  platform : string;
  validate_auth : SocialAccount → AuthValidationResult;
  create_draft : list Asset → DraftResult;
  publish_now : SocialAccount → list Asset → string → M Web PublishResult;
  fetch_post_url : SocialAccount → option string → dict json → option string;
}.

Definition is_text_variant (a : Asset) : bool := bool_decide (as_asset_type a = "text_variant").
Definition has_text (a : Asset) : bool := is_text_variant a && PyStr.opt_truthy (as_text_content a).
Definition nat_text (n : nat) : string := PyStr.of_Z (Z.of_nat n).

Definition base_create_draft (assets : list Asset) : DraftResult :=
  let preview_text := match List.find has_text assets with
                      | Some a => PyStr.strip (or_empty (as_text_content a))
                      | None => ""
                      end in
  {| dr_status := "draft_created"; dr_preview_text := PyStr.take 300 preview_text;
     dr_payload := [("asset_count", JStr (nat_text (length assets)))] |}.

(** No provider overrides it. *)
Definition schedule_publish (assets : list Asset) (scheduled_for : Z) : SchedulingResult :=
  {| sr_status := "scheduled_application_fallback"; sr_scheduled_for := Some scheduled_for;
     sr_native_supported := false;
     sr_payload := [("mode", JStr "application_fallback"); ("asset_count", JStr (nat_text (length assets)))] |}.

(** ** The texts of a thread *)

Definition X_MAX_CHARS : nat := 280.

(** The character "…" is not in Latin-1, SUBSTITUTE stands for it. *)
Definition ellipsis : string := String (Ascii.ascii_of_nat 26) "".

(** [s[n:]] *)
Fixpoint drop (n : nat) (s : string) : string :=
  match n, s with
  | S n', String _ s' => drop n' s'
  | _, _ => s
  end.

(** [s.rfind(" ", 0, n)]; [None] is -1. *)
Fixpoint rfind_space (n : nat) (s : string) : option nat :=
  match n, s with
  | S n', String c s' =>
      match rfind_space n' s' with
      | Some i => Some (S i)
      | None => if bool_decide (c = " "%char) then Some O else None
      end
  | _, _ => None
  end.

Definition split_at (content : string) : nat :=
  default (X_MAX_CHARS - 3)%nat (rfind_space (X_MAX_CHARS - 3) content).

(** The [while] loop, with fuel for one round per character. *)
Fixpoint split_text (fuel : nat) (content : string) : list string :=
  match fuel with
  | O => []
  | S fuel =>
      if Nat.ltb X_MAX_CHARS (String.length content) then
        (PyStr.take (split_at content) content +:+ ellipsis)
          :: split_text fuel (PyStr.strip (drop (split_at content) content))
      else if PyStr.truthy content then [content] else []
  end.

Definition thread_of (text : string) : list string :=
  let content := PyStr.strip text in split_text (S (String.length content)) content.

Definition x_select_text (assets : list Asset) : list string :=
  match flat_map (λ a, thread_of (or_empty (as_text_content a))) (List.filter has_text assets) with
  | [] => [""]
  | texts => texts
  end.

Definition MEDIA_ASSET_TYPES : list string := ["image"; "thumbnail"].
Definition media_assets (assets : list Asset) : list Asset :=
  List.filter (λ a, bool_decide (as_asset_type a ∈ MEDIA_ASSET_TYPES) && PyStr.opt_truthy (as_public_url a)) assets.

Definition bsky_select_text (assets : list Asset) : string :=
  match List.find has_text assets with
  | Some a => PyStr.take 300 (PyStr.strip (or_empty (as_text_content a)))
  | None => ""
  end.

(** The fields of the settings. *)
Record WebSettings := {
  HTTP_MAX_RETRIES : nat;
  X_API_BASE : string;
  X_UPLOAD_BASE : string;
  BSKY_PDS_BASE : string;
  SOCIAL_DRY_RUN_BY_DEFAULT : bool;
}.

Section web.
Context (cfg : WebSettings) (answer : nat → Request → result Response) (time : nat → Z) (uuid : nat → string)
        (sha256_hex : string → string).

Definition utcnow : M Web Z :=
  w ← get_state;
  _ ← put_state (w <| web_ticks ::= S |>);
  mret (time (web_ticks w)).

Definition uuid4 : M Web string :=
  w ← get_state;
  _ ← put_state (w <| web_uuids ::= S |>);
  mret (uuid (web_uuids w)).

(** ** http.py *)

(** One network attempt. *)
Definition send (r : Request) : M Web Response :=
  w ← get_state;
  _ ← put_state (w <| web_sent ::= λ l, l ++ [r] |>);
  lift (answer (length (web_sent w)) r).

(** [for attempt in range(retries + 1)]: a refused or broken attempt is sent
    again until the last one.  The waits in between are not modelled. *)
Fixpoint request_attempts (retries : nat) (r : Request) : M Web Response := λ w,
  match retries with
  | O => send r w
  | S retries' =>
      match send r w with
      | (Ok response, w') =>
          if bool_decide (rs_status_code response = 429) then request_attempts retries' r w' else (Ok response, w')
      | (Raise e, w') =>
          if is_transport_error e then request_attempts retries' r w' else (Raise e, w')
      end
  end.

Definition request (r : Request) : M Web Response := request_attempts (HTTP_MAX_RETRIES cfg) r.

Definition raise_for_status (response : Response) : result () :=
  let s := rs_status_code response in
  if (200 <=? s) && (s <? 300) then Ok () else Raise (HTTPStatusError s (rs_error response)).

Definition response_json (response : Response) : result json :=
  match rs_json response with Some v => Ok v | None => Raise (ValueError "Expecting value") end.

(** ** provider_base.py *)

Definition StubPublishingProvider (p : string) : PublishingProvider := {|
  platform := p;
  validate_auth := λ _, {| av_is_valid := true; av_account_status := "connected"; av_detail := Some "stub_provider" |};
  create_draft := base_create_draft;
  publish_now := λ _ assets publish_attempt_key,
    external_id ← (if PyStr.truthy publish_attempt_key
                   then mret (PyStr.take 32 (sha256_hex publish_attempt_key)) else uuid4);
    mret {| pr_status := "succeeded"; pr_external_post_id := Some external_id;
            pr_external_post_url := Some ("https://example.invalid/" +:+ p +:+ "/" +:+ external_id);
            pr_payload := [("mode", JStr "stub"); ("asset_count", JStr (nat_text (length assets)));
                           ("publish_attempt_key", JStr publish_attempt_key)];
            pr_manual_required := false |};
  fetch_post_url := λ _ _ _, None |}.

Definition no_credentials : string := "Provider credentials or API capability unavailable".

Definition ManualFallbackProvider (p : string) : PublishingProvider := {|
  platform := p;
  validate_auth := λ _, {| av_is_valid := false; av_account_status := "needs_reauth";
                           av_detail := Some no_credentials |};
  create_draft := base_create_draft;
  publish_now := λ _ _ _,
    mret {| pr_status := "manual_required"; pr_external_post_id := None; pr_external_post_url := None;
            pr_payload := [("reason", JStr no_credentials)]; pr_manual_required := true |};
  fetch_post_url := λ _ _ _, None |}.

(** ** x_provider.py *)

(** The cache holds the media uploaded by this provider object. *)
Definition x_upload_media_id (access_token : string) (asset : Asset) (publish_attempt_key : string)
    (cache : list (string * string)) : M Web (option string * list (string * string)) :=
  if negb (PyStr.opt_truthy (as_public_url asset)) then mret (None, cache)
  else
    let name := if PyStr.opt_truthy (as_checksum asset) then or_empty (as_checksum asset)
                else or_empty (as_public_url asset) in
    let cache_key := publish_attempt_key +:+ ":" +:+ name in
    match (if PyStr.truthy publish_attempt_key then Dict.get cache_key cache else None) with
    | Some media_id => mret (Some media_id, cache)
    | None =>
        except_exception
          (dl ← request {| rq_method := "GET"; rq_url := or_empty (as_public_url asset); rq_headers := [];
                           rq_json := JNull; rq_content := "" |};
           _ ← lift (raise_for_status dl);
           resp ← request {| rq_method := "POST"; rq_url := X_UPLOAD_BASE cfg +:+ "/1.1/media/upload.json";
                             rq_headers := [("Authorization", "Bearer " +:+ access_token)];
                             rq_json := JNull; rq_content := rs_content dl |};
           _ ← lift (raise_for_status resp);
           data ← lift (response_json resp);
           media_id ← lift (json_get "media_id_string" JNull data);
           let media_id := id_text media_id in
           if PyStr.opt_truthy media_id && PyStr.truthy publish_attempt_key
           then mret (media_id, Dict.set cache_key (or_empty media_id) cache)
           else mret (media_id, cache))
          (λ _, mret (None, cache))
    end.

Fixpoint x_upload_all (access_token : string) (assets : list Asset) (publish_attempt_key : string)
    (cache : list (string * string)) : M Web (list string) :=
  match assets with
  | [] => mret []
  | asset :: assets' =>
      '(media_id, cache) ← x_upload_media_id access_token asset publish_attempt_key cache;
      media_ids ← x_upload_all access_token assets' publish_attempt_key cache;
      mret (if PyStr.opt_truthy media_id then or_empty media_id :: media_ids else media_ids)
  end.

Definition tweets_url : string := X_API_BASE cfg +:+ "/2/tweets".

Definition x_post_tweet (access_token text : string) (reply_to_id : option string) (media_ids : list string)
    (publish_attempt_key : string) : M Web json :=
  let body :=
    [("text", JStr text)] ++
    (if PyStr.opt_truthy reply_to_id
     then [("reply", JObj [("in_reply_to_tweet_id", JStr (or_empty reply_to_id))])] else []) ++
    (match media_ids with [] => [] | _ => [("media", JObj [("media_ids", JArr (JStr <$> media_ids))])] end) in
  let headers :=
    [("Authorization", "Bearer " +:+ access_token); ("Content-Type", "application/json")] ++
    (if PyStr.truthy publish_attempt_key then [("Idempotency-Key", PyStr.take 128 publish_attempt_key)] else []) in
  response ← request {| rq_method := "POST"; rq_url := tweets_url; rq_headers := headers;
                        rq_json := JObj body; rq_content := "" |};
  _ ← lift (raise_for_status response);
  lift (response_json response).

(** The texts from index [i] on; the result is the first id. *)
Fixpoint x_post_thread (access_token : string) (i : nat) (texts media_ids : list string)
    (publish_attempt_key : string) (first_id last_id : option string) : M Web (option string) :=
  match texts with
  | [] => mret first_id
  | text :: texts' =>
      data ← x_post_tweet access_token text last_id (if Nat.eqb i 0 then media_ids else [])
               (if PyStr.truthy publish_attempt_key then publish_attempt_key +:+ ":" +:+ nat_text i else "");
      inner ← lift (json_get "data" (JObj []) data);
      tweet_id ← lift (json_get "id" JNull inner);
      x_post_thread access_token (S i) texts' media_ids publish_attempt_key
        (match first_id with None => id_text tweet_id | Some _ => first_id end) (id_text tweet_id)
  end.

Definition x_handle (a : SocialAccount) : string :=
  if PyStr.opt_truthy (sa_handle a) then or_empty (sa_handle a)
  else if PyStr.opt_truthy (sa_account_external_id a) then or_empty (sa_account_external_id a) else "user".

Definition x_publish_now (access_token : string) (dry_run : bool) (account : SocialAccount) (assets : list Asset)
    (publish_attempt_key : string) : M Web PublishResult :=
  if dry_run then
    external_id ← (if PyStr.truthy publish_attempt_key
                   then mret ("dry-run-" +:+ PyStr.take 24 (sha256_hex publish_attempt_key))
                   else u ← uuid4; mret ("dry-run-" +:+ u));
    mret {| pr_status := "succeeded_dry_run"; pr_external_post_id := Some external_id;
            pr_external_post_url := Some ("https://x.com/i/web/status/" +:+ external_id);
            pr_payload := [("mode", JStr "dry_run"); ("publish_attempt_key", JStr publish_attempt_key)];
            pr_manual_required := false |}
  else
    media_ids ← x_upload_all access_token (media_assets assets) publish_attempt_key [];
    let texts := x_select_text assets in
    first_id ← x_post_thread access_token 0 texts media_ids publish_attempt_key None None;
    mret {| pr_status := "succeeded"; pr_external_post_id := first_id;
            pr_external_post_url :=
              if PyStr.opt_truthy first_id
              then Some ("https://x.com/" +:+ x_handle account +:+ "/status/" +:+ or_empty first_id) else None;
            pr_payload := [("tweet_count", JStr (nat_text (length texts))); ("first_tweet_id", JStr (or_empty first_id));
                           ("media_count", JStr (nat_text (length media_ids)));
                           ("publish_attempt_key", JStr publish_attempt_key)];
            pr_manual_required := false |}.

Definition XPublishingProvider (access_token : string) (dry_run : bool) : PublishingProvider := {|
  platform := "x";
  validate_auth := λ _, {| av_is_valid := PyStr.truthy access_token;
                           av_account_status := if PyStr.truthy access_token then "connected" else "needs_reauth";
                           av_detail := Some (if PyStr.truthy access_token then "bearer_token_present"
                                              else "missing_access_token") |};
  create_draft := λ assets,
    let texts := x_select_text assets in
    {| dr_status := "draft_created"; dr_preview_text := PyStr.take 280 (default "" (head texts));
       dr_payload := [("tweet_count", JStr (nat_text (length texts))); ("platform", JStr "x")] |};
  publish_now := x_publish_now access_token dry_run;
  fetch_post_url := λ account external_post_id _,
    if PyStr.opt_truthy external_post_id
    then Some ("https://x.com/" +:+ x_handle account +:+ "/status/" +:+ or_empty external_post_id) else None |}.

(** ** bluesky_provider.py *)

Definition bsky_upload_blob (access_token : string) (asset : Asset) : M Web json :=
  if negb (PyStr.opt_truthy (as_public_url asset)) then mret JNull
  else
    except_exception
      (dl ← request {| rq_method := "GET"; rq_url := or_empty (as_public_url asset); rq_headers := [];
                       rq_json := JNull; rq_content := "" |};
       _ ← lift (raise_for_status dl);
       resp ← request {| rq_method := "POST"; rq_url := BSKY_PDS_BASE cfg +:+ "/xrpc/com.atproto.repo.uploadBlob";
                         rq_headers := [("Authorization", "Bearer " +:+ access_token);
                                        ("Content-Type", if PyStr.truthy (as_mime_type asset) then as_mime_type asset
                                                         else "application/octet-stream")];
                         rq_json := JNull; rq_content := rs_content dl |};
       _ ← lift (raise_for_status resp);
       data ← lift (response_json resp);
       lift (json_get "blob" JNull data))
      (λ _, mret JNull).

Fixpoint bsky_upload_all (access_token : string) (assets : list Asset) : M Web (list json) :=
  match assets with
  | [] => mret []
  | asset :: assets' =>
      blob ← bsky_upload_blob access_token asset;
      blobs ← bsky_upload_all access_token assets';
      mret (if Json.truthy blob then JObj [("alt", JStr ""); ("image", blob)] :: blobs else blobs)
  end.

Definition create_record_url : string := BSKY_PDS_BASE cfg +:+ "/xrpc/com.atproto.repo.createRecord".

(** [text.split("/")[-1]] *)
Definition last_segment (text : string) : string := default "" (last (PyStr.split "/" text)).

(** [isoformat().replace("+00:00", "Z")] of an instant in UTC. *)
Definition iso_z (t : Z) : string :=
  let s := Calendar.isoformat_utc t in PyStr.take (String.length s - 6) s +:+ "Z".

Definition bsky_handle (did : string) (a : SocialAccount) : string :=
  if PyStr.opt_truthy (sa_handle a) then or_empty (sa_handle a) else did.

Definition bsky_publish_now (access_token did : string) (dry_run : bool) (account : SocialAccount)
    (assets : list Asset) (publish_attempt_key : string) : M Web PublishResult :=
  if dry_run then
    u ← uuid4;
    let cid := "dry-run-" +:+ u in
    mret {| pr_status := "succeeded_dry_run"; pr_external_post_id := Some cid;
            pr_external_post_url := Some ("https://bsky.app/profile/" +:+ did +:+ "/post/" +:+ cid);
            pr_payload := [("mode", JStr "dry_run")]; pr_manual_required := false |}
  else
    now ← utcnow;
    blob_refs ← bsky_upload_all access_token (media_assets assets);
    let record :=
      [("$type", JStr "app.bsky.feed.post"); ("text", JStr (bsky_select_text assets));
       ("createdAt", JStr (iso_z now))] ++
      (match blob_refs with
       | [] => []
       | _ => [("embed", JObj [("$type", JStr "app.bsky.embed.images"); ("images", JArr blob_refs)])]
       end) in
    response ← request {| rq_method := "POST"; rq_url := create_record_url;
                          rq_headers := [("Authorization", "Bearer " +:+ access_token);
                                         ("Content-Type", "application/json")];
                          rq_json := JObj [("repo", JStr did); ("collection", JStr "app.bsky.feed.post");
                                           ("record", JObj record)];
                          rq_content := "" |};
    _ ← lift (raise_for_status response);
    data ← lift (response_json response);
    cid ← lift (json_get "cid" (JStr "") data);
    uri ← lift (json_get "uri" (JStr "") data);
    rkey ← lift (match uri with
                 | JStr s => Ok (last_segment s)
                 | _ => Raise (OtherException "AttributeError" "object has no attribute 'split'")
                 end);
    mret {| pr_status := "succeeded"; pr_external_post_id := id_text cid;
            pr_external_post_url :=
              Some ("https://bsky.app/profile/" +:+ bsky_handle did account +:+ "/post/" +:+ rkey);
            pr_payload := [("cid", cid); ("uri", uri); ("image_count", JStr (nat_text (length blob_refs)));
                           ("publish_attempt_key", JStr publish_attempt_key)];
            pr_manual_required := false |}.

Definition BlueskyPublishingProvider (access_token did : string) (dry_run : bool) : PublishingProvider :=
  let is_valid := PyStr.truthy access_token && PyStr.truthy did in {|
  platform := "bluesky";
  validate_auth := λ _, {| av_is_valid := is_valid;
                           av_account_status := if is_valid then "connected" else "needs_reauth";
                           av_detail := Some (if is_valid then "atproto_credentials_present"
                                              else "missing_access_token_or_did") |};
  create_draft := λ assets,
    {| dr_status := "draft_created"; dr_preview_text := PyStr.take 300 (bsky_select_text assets);
       dr_payload := [("platform", JStr "bluesky"); ("image_count", JStr (nat_text (length (media_assets assets))))] |};
  publish_now := bsky_publish_now access_token did dry_run;
  fetch_post_url := λ account _ payload,
    let uri := Json.str (default (JStr "") (Dict.get "uri" payload)) in
    if PyStr.truthy uri
    then Some ("https://bsky.app/profile/" +:+ bsky_handle did account +:+ "/post/" +:+ last_segment uri)
    else None |}.

(** ** providers.py *)

Definition try_real_provider (p access_token account_external_id : string) (dry_run : bool) :
    option PublishingProvider :=
  if bool_decide (p = "x") && PyStr.truthy access_token then Some (XPublishingProvider access_token dry_run)
  else if bool_decide (p = "bluesky") && PyStr.truthy access_token && PyStr.truthy account_external_id
  then Some (BlueskyPublishingProvider access_token account_external_id dry_run)
  else None.

Definition stub_or_manual (p : string) (prefer_stub : bool) : PublishingProvider :=
  if prefer_stub then StubPublishingProvider p else ManualFallbackProvider p.

Definition get_provider (p : string) (use_stub : bool) (access_token account_external_id : string)
    (dry_run : bool) : PublishingProvider :=
  let is_dry_run := dry_run || (use_stub && negb (PyStr.truthy access_token)) in
  let prefer_stub := is_dry_run || SOCIAL_DRY_RUN_BY_DEFAULT cfg in
  match try_real_provider p access_token account_external_id is_dry_run with
  | Some real => real
  | None => stub_or_manual p (if bool_decide (p ∈ ["x"; "bluesky"]) then is_dry_run else prefer_stub)
  end.
End web.

(** ** The texts of a thread *)

(** The characters of a text that are not white space. *)
Fixpoint ink (s : string) : string :=
  match s with
  | EmptyString => ""
  | String c s' => if PyStr.is_space c then ink s' else String c (ink s')
  end.

Lemma ink_app s t : ink (s +:+ t) = ink s +:+ ink t.
Proof. induction s as [|c s IH]; [done|]. simpl. case_match; simpl; by rewrite IH. Qed.

Lemma ink_lstrip s : ink (PyStr.lstrip s) = ink s.
Proof. induction s as [|c s IH]; [done|]. simpl. destruct (PyStr.is_space c) eqn:E; [done|]. simpl. by rewrite E. Qed.

Lemma ink_rstrip s : ink (PyStr.rstrip s) = ink s.
Proof.
  induction s as [|c s IH]; [done|]. simpl. destruct (PyStr.rstrip s) as [|d r] eqn:E.
  - simpl in IH. rewrite <- IH. destruct (PyStr.is_space c) eqn:Ec; [done|]. simpl. by rewrite Ec.
  - rewrite <- IH. reflexivity.
Qed.

Lemma ink_strip s : ink (PyStr.strip s) = ink s.
Proof. unfold PyStr.strip. by rewrite ink_rstrip, ink_lstrip. Qed.

Lemma take_drop_text n s : PyStr.take n s +:+ drop n s = s.
Proof.
  revert s. induction n as [|n IH]; intros [|c s]; [done..|].
  change (String c (PyStr.take n s +:+ drop n s) = String c s). by rewrite IH.
Qed.

Lemma drop_length n s : String.length (drop n s) = (String.length s - n)%nat.
Proof. revert s. induction n as [|n IH]; intros [|c s]; simpl; [done..|]. apply IH. Qed.

Lemma rfind_space_lt n s i : rfind_space n s = Some i → (i < n)%nat.
Proof.
  revert s i. induction n as [|n IH]; intros [|c s] i; simpl; [done..|].
  destruct (rfind_space n s) as [j|] eqn:E; [intros [= <-]; specialize (IH _ _ E); lia|].
  case_bool_decide; [|done]. intros [= <-]. lia.
Qed.

(** What is left of a stripped text. *)
Lemma rstrip_nil_of_lstrip s : PyStr.lstrip s = "" → PyStr.rstrip s = "".
Proof.
  induction s as [|c s IH]; [done|]. simpl. destruct (PyStr.is_space c) eqn:E; [|done].
  intros H. by rewrite IH.
Qed.

Lemma rstrip_suffix s t : PyStr.rstrip (s +:+ t) = s +:+ t → PyStr.rstrip t = t.
Proof.
  induction s as [|c s IH]; [done|]. simpl. intros H. apply IH.
  destruct (PyStr.rstrip (s +:+ t)) as [|d r] eqn:E.
  - destruct (PyStr.is_space c); [done|]. by injection H as <-.
  - by injection H as ->.
Qed.

Lemma strip_fixed_rstrip s : PyStr.strip s = s → PyStr.rstrip s = s.
Proof. intros H. rewrite <- H at 1. unfold PyStr.strip at 1. rewrite PyStr.rstrip_idem. exact H. Qed.

Lemma strip_nonempty s : PyStr.rstrip s = s → s ≠ "" → PyStr.strip s ≠ "".
Proof.
  intros Hr Hs. unfold PyStr.strip. destruct (PyStr.lstrip_head s) as [Hl|(c & s' & Hl & Hc)].
  - apply rstrip_nil_of_lstrip in Hl. congruence.
  - rewrite Hl. destruct (PyStr.rstrip_head c s' Hc) as [r ->]. done.
Qed.

Lemma rfind_space_pos n s i : PyStr.strip s = s → rfind_space n s = Some i → (0 < i)%nat.
Proof.
  intros Hs Hi. destruct i as [|i]; [|lia]. exfalso. destruct n as [|n], s as [|c s]; simpl in Hi; [done..|].
  destruct (rfind_space n s); [done|]. case_bool_decide as Hc; [|done]. subst c.
  pose proof (PyStr.strip_length s) as H. change (PyStr.strip s) with (PyStr.strip (String " " s)) in H.
  rewrite Hs in H. simpl in H. lia.
Qed.

(** The pieces of a thread with the ellipsis on all but the last. *)
Fixpoint marked (pieces : list string) : list string :=
  match pieces with
  | [] => []
  | [p] => [p]
  | p :: pieces' => (p +:+ ellipsis) :: marked pieces'
  end.

Lemma marked_cons p pieces : pieces ≠ [] → marked (p :: pieces) = (p +:+ ellipsis) :: marked pieces.
Proof. by destruct pieces. Qed.

Definition joined (pieces : list string) : string := foldr (λ p acc, p +:+ acc) "" pieces.

Lemma split_at_bounds content : PyStr.strip content = content → (0 < split_at content ≤ X_MAX_CHARS - 3)%nat.
Proof.
  intros Hs. unfold split_at. destruct (rfind_space _ content) as [i|] eqn:E; cbn [from_option id].
  - pose proof (rfind_space_pos _ _ _ Hs E). pose proof (rfind_space_lt _ _ _ E). lia.
  - unfold X_MAX_CHARS. lia.
Qed.

Lemma split_text_S fuel content :
  split_text (S fuel) content =
    if Nat.ltb X_MAX_CHARS (String.length content) then
      (PyStr.take (split_at content) content +:+ ellipsis)
        :: split_text fuel (PyStr.strip (drop (split_at content) content))
    else if PyStr.truthy content then [content] else [].
Proof. reflexivity. Qed.

Lemma split_text_spec fuel content :
  PyStr.strip content = content → (String.length content < fuel)%nat →
  ∃ pieces, split_text fuel content = marked pieces ∧ ink (joined pieces) = ink content ∧
    Forall (λ t, t ≠ "" ∧ String.length t ≤ X_MAX_CHARS)%nat (split_text fuel content) ∧
    (content ≠ "" → pieces ≠ []).
Proof.
  revert content. induction fuel as [|fuel IH]; intros content Hs Hlen; [lia|]. rewrite split_text_S.
  destruct (Nat.ltb_spec X_MAX_CHARS (String.length content)) as [Hlong|Hshort]; cycle 1.
  { destruct content as [|c content]; simpl; [by exists []|].
    exists [String c content]. split_and!; [done| |by constructor|done].
    change (joined [String c content]) with (String c content +:+ ""). by rewrite ink_app, PyStr.append_nil_r. }
  pose proof (split_at_bounds content Hs) as Hk. set (k := split_at content) in *. unfold X_MAX_CHARS in Hlong, Hk.
  assert (drop k content ≠ "") as Hd.
  { intros H. apply (f_equal String.length) in H. rewrite drop_length in H. simpl in H. lia. }
  assert (PyStr.strip (drop k content) ≠ "") as Hrest.
  { apply strip_nonempty; [|done]. apply (rstrip_suffix (PyStr.take k content)).
    rewrite take_drop_text. by apply strip_fixed_rstrip. }
  destruct (IH (PyStr.strip (drop k content))) as (pieces & H1 & H2 & H3 & H4).
  { apply PyStr.strip_idem. }
  { pose proof (PyStr.strip_length (drop k content)). rewrite drop_length in *. lia. }
  exists (PyStr.take k content :: pieces). rewrite marked_cons by auto. split_and!.
  - by rewrite H1.
  - change (joined (PyStr.take k content :: pieces)) with (PyStr.take k content +:+ joined pieces).
    by rewrite ink_app, H2, ink_strip, <- ink_app, take_drop_text.
  - constructor; [|done]. rewrite PyStr.append_length. pose proof (PyStr.take_length k content). simpl.
    unfold X_MAX_CHARS. split; [|lia]. by destruct (PyStr.take k content).
  - done.
Qed.

(** The texts of a thread: the loop ends with the text cut into pieces, all
    but the last with an ellipsis, none empty and none longer than 280
    characters, and the pieces put together are the text up to white space.
    The texts of a post are never none. *)
Theorem x_thread_spec (text : string) (assets : list Asset) :
  (∃ pieces, thread_of text = marked pieces ∧ ink (joined pieces) = ink text) ∧
  Forall (λ t, t ≠ "" ∧ String.length t ≤ X_MAX_CHARS)%nat (thread_of text) ∧
  (thread_of text = [] ↔ ink text = "") ∧
  x_select_text assets ≠ [] ∧ Forall (λ t, String.length t ≤ X_MAX_CHARS)%nat (x_select_text assets).
Proof.
  assert (∀ t, ∃ pieces, thread_of t = marked pieces ∧ ink (joined pieces) = ink t ∧
    Forall (λ t, t ≠ "" ∧ String.length t ≤ X_MAX_CHARS)%nat (thread_of t) ∧ (PyStr.strip t ≠ "" → pieces ≠ [])) as H.
  { intros t. unfold thread_of.
    destruct (split_text_spec (S (String.length (PyStr.strip t))) (PyStr.strip t)) as (ps & H1 & H2 & H3 & H4).
    - apply PyStr.strip_idem.
    - lia.
    - exists ps. by rewrite <- (ink_strip t). }
  destruct (H text) as (ps & H1 & H2 & H3 & H4). split_and!; [by exists ps|done|..].
  - rewrite H1. split.
    + destruct ps as [|p [|q ps]]; [|done..]. intros _. by rewrite <- H2.
    + intros Hi. destruct ps as [|p ps]; [done|]. exfalso. rewrite H1 in H3.
      destruct (decide (PyStr.strip text = "")) as [He|He].
      { unfold thread_of in H1. rewrite He in H1. by destruct ps. }
      destruct (PyStr.lstrip_head text) as [Hl|(c & s' & Hl & Hc)]; [by unfold PyStr.strip in He; rewrite Hl in He|].
      rewrite <- (ink_lstrip text), Hl in Hi. simpl in Hi. by rewrite Hc in Hi.
  - unfold x_select_text. by case_match.
  - unfold x_select_text. set (l := flat_map _ _).
    assert (Forall (λ t, String.length t ≤ X_MAX_CHARS)%nat l) as Hl.
    { unfold l. clear -H. induction (List.filter has_text assets) as [|a l IH]; [constructor|]. simpl.
      apply Forall_app_2; [|done]. destruct (H (or_empty (as_text_content a))) as (_ & _ & _ & H' & _).
      eapply Forall_impl; [exact H'|]. simpl. tauto. }
    destruct l; [by repeat constructor|done].
Qed.

(** ** Requests *)

Section requests.
Context (cfg : WebSettings) (answer : nat → Request → result Response).

(** What makes [request] send again. *)
Definition retriable (r : result Response) : bool :=
  match r with Ok response => bool_decide (rs_status_code response = 429) | Raise e => is_transport_error e end.

Lemma request_attempts_spec retries r w :
  ∃ k, (k ≤ retries)%nat ∧
    request_attempts answer retries r w =
      (answer (length (web_sent w) + k)%nat r, w <| web_sent := web_sent w ++ replicate (S k) r |>) ∧
    (∀ i, (i < k)%nat → retriable (answer (length (web_sent w) + i)%nat r) = true) ∧
    ((k < retries)%nat → retriable (answer (length (web_sent w) + k)%nat r) = false).
Proof.
  revert w. induction retries as [|retries IH]; intros w.
  { exists 0%nat. rewrite Nat.add_0_r. split_and!; [lia|by destruct w|lia|lia]. }
  destruct (retriable (answer (length (web_sent w)) r)) eqn:E; cycle 1.
  { exists 0%nat. rewrite Nat.add_0_r. split_and!; [lia| |lia|done]. simpl.
    change (send answer r w) with (answer (length (web_sent w)) r, w <| web_sent ::= λ l, l ++ [r] |>).
    unfold retriable in E. destruct (answer (length (web_sent w)) r); rewrite E; by destruct w. }
  destruct (IH (w <| web_sent ::= λ l, l ++ [r] |>)) as (k & H1 & H2 & H3 & H4).
  simpl in H2, H3, H4. rewrite length_app in H2, H3, H4. simpl in H2, H3, H4.
  replace (length (web_sent w) + 1 + k)%nat with (length (web_sent w) + S k)%nat in H2, H4 by lia.
  exists (S k). split_and!; [lia| | |intros; apply H4; lia].
  - simpl. change (send answer r w) with (answer (length (web_sent w)) r, w <| web_sent ::= λ l, l ++ [r] |>).
    unfold retriable in E. destruct (answer (length (web_sent w)) r); rewrite E, H2; f_equal; simpl;
      by rewrite <- app_assoc.
  - intros [|i] Hi; [by rewrite Nat.add_0_r|]. specialize (H3 i ltac:(lia)).
    by replace (length (web_sent w) + S i)%nat with (length (web_sent w) + 1 + i)%nat by lia.
Qed.

(** [request] sends the same request again, whatever its method, after
    every answer 429, timeout or broken connection, up to the configured number
    of retries, and gives the answer to the last sending. *)
Theorem request_spec r w :
  ∃ k, (k ≤ HTTP_MAX_RETRIES cfg)%nat ∧
    request cfg answer r w =
      (answer (length (web_sent w) + k)%nat r, w <| web_sent := web_sent w ++ replicate (S k) r |>) ∧
    (∀ i, (i < k)%nat → retriable (answer (length (web_sent w) + i)%nat r) = true) ∧
    ((k < HTTP_MAX_RETRIES cfg)%nat → retriable (answer (length (web_sent w) + k)%nat r) = false).
Proof. apply request_attempts_spec. Qed.
(** *** The keys of a thread's tweets *)

(** What was sent since has the property. *)
Definition sent_only (P : Request → Prop) (w w' : Web) : Prop :=
  ∃ new, web_sent w' = web_sent w ++ new ∧ Forall P new.

Lemma sent_only_trans P w1 w2 w3 : sent_only P w1 w2 → sent_only P w2 w3 → sent_only P w1 w3.
Proof.
  intros (n1 & H1 & F1) (n2 & H2 & F2). exists (n1 ++ n2). rewrite H2, H1, app_assoc. split; [done|by apply Forall_app].
Qed.

Lemma wp_request {A} (P : Request → Prop) r (k : Response → M Web A) Q E w :
  P r →
  (∀ x w', sent_only P w w' → match x with Ok a => wp (k a) Q E w' | Raise e => E e w' end) →
  wp (request cfg answer r ≫= k) Q E w.
Proof.
  intros Hr H. apply wp_bind. unfold wp. destruct (request_attempts_spec (HTTP_MAX_RETRIES cfg) r w) as (n & _ & Heq & _).
  unfold request. rewrite Heq. specialize (H (answer (length (web_sent w) + n)%nat r) (w <| web_sent := web_sent w ++ replicate (S n) r |>)).
  assert (sent_only P w (w <| web_sent := web_sent w ++ replicate (S n) r |>)) as Hs.
  { exists (replicate (S n) r). split; [done|]. apply Forall_forall. by intros x [-> _]%elem_of_replicate. }
  specialize (H Hs). by destruct (answer _ _).
Qed.

Definition has_key (key : string) (r : Request) : Prop := Dict.get "Idempotency-Key" (rq_headers r) = Some key.

Lemma x_post_tweet_key token text reply media key Q E w :
  PyStr.truthy key = true →
  (∀ w', sent_only (has_key (PyStr.take 128 key)) w w' → (∀ v, Q v w') ∧ (∀ e, E e w')) →
  wp (x_post_tweet cfg answer token text reply media key) Q E w.
Proof.
  intros Hk H. unfold x_post_tweet. cbn zeta. rewrite Hk. apply (wp_request (has_key (PyStr.take 128 key))); [reflexivity|].
  intros [response|e] w' Hs; [|by apply H]. apply wp_bind, wp_lift. destruct (raise_for_status response); [|by apply H].
  apply wp_lift. destruct (response_json response); by apply H.
Qed.

(** Every request of a thread carries the key of the attempt and its index, cut
    to 128 characters. *)
Lemma x_post_thread_keys token i texts media key first last (w0 w : Web) :
  let P := λ r, ∃ n : nat, has_key (PyStr.take 128 (key +:+ ":" +:+ nat_text n)) r in
  PyStr.truthy key = true → sent_only P w0 w →
  wp (x_post_thread cfg answer token i texts media key first last) (λ _, sent_only P w0) (λ _, sent_only P w0) w.
Proof.
  intros P Hk. revert i first last w. induction texts as [|t texts IH]; intros i first last w Hw; cbn [x_post_thread].
  { by apply wp_ret. }
  rewrite Hk. apply wp_bind, x_post_tweet_key; [by destruct key|]. intros w' Hs.
  assert (sent_only P w0 w') as Hw'.
  { eapply sent_only_trans; [exact Hw|]. destruct Hs as (new & ? & Hnew). exists new. split; [done|].
    eapply Forall_impl; [exact Hnew|]. intros r Hr. by exists i. }
  split; [|done]. intros v. apply wp_bind, wp_lift. destruct (json_get "data" (JObj []) v); [|done].
  apply wp_bind, wp_lift. destruct (json_get "id" JNull a); [|done]. by apply IH.
Qed.
End requests.
End Providers.
