(* ===== verification/Variants.v ===== *)
(** * Content jobs, assets and variants
    (content_generation/models.py, content_generation/repository.py,
    content_generation/variant_store.py)

    The content a publishing job reads: the generated assets, the variants made
    for accounts, and the snapshot of a variant that travels in the payload of
    a publishing job. *)
From S2P Require Import Prelude PyStr Json Tables RunModels Accounts Providers.

Module Variants.
Import Accounts Providers.
Local Open Scope string_scope.
Local Open Scope list_scope.

Record ContentJob := {
  cj_id : string;
  cj_tenant_id : string;
  cj_content_plan_id : string;
  cj_grounding_bundle : json;
  cj_target_social_account_ids : list string;
}.

Record GeneratedAsset := {
  ga_content_job_id : string;
  ga_asset : Asset;
  ga_variant_label : option string;
  ga_created_at : Z;
  ga_deleted_at : option Z;
}.

Record ContentVariant := {
  cv_id : string;
  cv_tenant_id : string;
  cv_content_job_id : string;
  cv_workflow_run_id : option string;
  cv_fingerprint : string;
  cv_platform : string;
  cv_text : string;
  cv_title : option string;
  cv_description : option string;
  cv_tags : list string;
  cv_media_refs : list json;
  cv_created_at : Z;
  cv_deleted_at : option Z;
}.

(** A target is a variant and an account. *)
Record ContentVariantTarget := {
  vt_variant_id : string;
  vt_social_account_id : string;
}.
#[global] Instance ContentVariantTarget_eq_dec : EqDecision ContentVariantTarget.
Proof. solve_decision. Defined.

Record VariantSnapshot := {
  vs_variant_id : string;
  vs_content_job_id : string;
  vs_fingerprint : string;
  vs_platform : string;
  vs_text : string;
  vs_title : option string;
  vs_description : option string;
  vs_tags : list string;
  vs_media_refs : list json;
  vs_social_account_ids : list string;
}.

(** ** repository.py *)

Definition get_job (tenant_id job_id : string) (jobs : list ContentJob) : option ContentJob :=
  List.find (λ j, bool_decide (cj_id j = job_id) && bool_decide (cj_tenant_id j = tenant_id)) jobs.

Definition asset_rows (job_id : string) (assets : list GeneratedAsset) : list GeneratedAsset :=
  oldest_first ga_created_at
    (List.filter (λ a, bool_decide (ga_content_job_id a = job_id) && is_live (ga_deleted_at a)) assets).
Definition list_assets (job_id : string) (assets : list GeneratedAsset) : list Asset :=
  ga_asset <$> asset_rows job_id assets.

(** ** The variant store *)

Definition snapshot_from_row (v : ContentVariant) (targets : list ContentVariantTarget) : VariantSnapshot := {|
  vs_variant_id := cv_id v; vs_content_job_id := cv_content_job_id v; vs_fingerprint := cv_fingerprint v;
  vs_platform := cv_platform v; vs_text := cv_text v; vs_title := cv_title v; vs_description := cv_description v;
  vs_tags := cv_tags v; vs_media_refs := cv_media_refs v; vs_social_account_ids := vt_social_account_id <$> targets |}.

Definition as_provider_payload (s : VariantSnapshot) : dict json :=
  [("content_variant_id", JStr (vs_variant_id s)); ("variant_fingerprint", JStr (vs_fingerprint s));
   ("variant_platform", JStr (vs_platform s)); ("variant_text", JStr (vs_text s));
   ("variant_title", JStr (or_empty (vs_title s))); ("variant_description", JStr (or_empty (vs_description s)));
   ("variant_tags", JStr (PyStr.join "," (vs_tags s))); ("variant_source", JStr "content_variant")].

(** The text of the variant, then the assets that are no texts. *)
Definition assets_from_variant_snapshot (s : VariantSnapshot) (media : list Asset) : list Asset :=
  {| as_id := ""; as_asset_type := "text_variant"; as_platform := Some (vs_platform s);
     as_text_content := Some (vs_text s); as_public_url := None; as_mime_type := "text/plain"; as_checksum := None;
     as_metadata := [("content_variant_id", JStr (vs_variant_id s)); ("fingerprint", JStr (vs_fingerprint s));
                     ("title", JStr (or_empty (vs_title s))); ("description", JStr (or_empty (vs_description s)));
                     ("tags", JArr (JStr <$> vs_tags s))] |}
  :: List.filter (λ a, negb (bool_decide (as_asset_type a ∈ ["text_variant"; "text"]))) media.

(** [str(raw.get(k) or "")] *)
Definition text_or_empty (k : string) (raw : dict json) : string := Json.str (Json.get_or k raw (JStr "")).

Definition some_text (s : string) : option string := if PyStr.truthy s then Some s else None.

Definition NIL_UUID : string := "00000000-0000-0000-0000-000000000000".

Definition snapshot_from_provider_payload (uuid_of_text : string → option string) (raw : dict json) :
    option VariantSnapshot :=
  if negb (bool_decide (text_or_empty "variant_source" raw = "content_variant")) then None
  else
    let variant_id_raw := Json.get_or "content_variant_id" raw (JStr "") in
    let text := PyStr.strip (text_or_empty "variant_text" raw) in
    if negb (Json.truthy variant_id_raw) || negb (PyStr.truthy text) then None
    else
      match uuid_of_text (Json.str variant_id_raw) with
      | None => None
      | Some variant_id =>
          Some {| vs_variant_id := variant_id; vs_content_job_id := NIL_UUID;
                  vs_fingerprint := text_or_empty "variant_fingerprint" raw;
                  vs_platform := text_or_empty "variant_platform" raw; vs_text := text;
                  vs_title := some_text (text_or_empty "variant_title" raw);
                  vs_description := some_text (text_or_empty "variant_description" raw);
                  vs_tags := List.filter PyStr.truthy (PyStr.split "," (text_or_empty "variant_tags" raw));
                  vs_media_refs := []; vs_social_account_ids := [] |}
      end.

(** The rows of the store. *)
Record VariantRows := {
  vr_variants : list ContentVariant;
  vr_targets : list ContentVariantTarget;
}.
#[global] Instance eta_VariantRows : Settable VariantRows :=
  mk_settable _ (λ r, Build_VariantRows (vr_variants r) (vr_targets r)).

Definition get_by_fingerprint (tenant_id content_job_id fingerprint : string) (rows : VariantRows) :
    option ContentVariant :=
  List.find (λ v, bool_decide (cv_tenant_id v = tenant_id) && bool_decide (cv_content_job_id v = content_job_id) &&
                  bool_decide (cv_fingerprint v = fingerprint) && is_live (cv_deleted_at v)) (vr_variants rows).

Definition get_variant (tenant_id variant_id : string) (rows : VariantRows) : option ContentVariant :=
  List.find (λ v, bool_decide (cv_id v = variant_id) && bool_decide (cv_tenant_id v = tenant_id) &&
                  is_live (cv_deleted_at v)) (vr_variants rows).

Definition list_for_job (tenant_id content_job_id : string) (rows : VariantRows) : list ContentVariant :=
  oldest_first cv_created_at
    (List.filter (λ v, bool_decide (cv_tenant_id v = tenant_id) && bool_decide (cv_content_job_id v = content_job_id) &&
                       is_live (cv_deleted_at v)) (vr_variants rows)).

Definition list_targets (variant_id : string) (rows : VariantRows) : list ContentVariantTarget :=
  List.filter (λ t, bool_decide (vt_variant_id t = variant_id)) (vr_targets rows).

Definition get_snapshot (tenant_id variant_id : string) (rows : VariantRows) : option VariantSnapshot :=
  (λ v, snapshot_from_row v (list_targets (cv_id v) rows)) <$> get_variant tenant_id variant_id rows.

Fixpoint first_preferred (tenant_id content_job_id social_account_id : string) (preferred : list string)
    (rows : VariantRows) : option VariantSnapshot :=
  match preferred with
  | [] => None
  | variant_id :: preferred' =>
      match get_snapshot tenant_id variant_id rows with
      | Some snap =>
          if bool_decide (vs_content_job_id snap = content_job_id) &&
             bool_decide (social_account_id ∈ vs_social_account_ids snap)
          then Some snap else first_preferred tenant_id content_job_id social_account_id preferred' rows
      | None => first_preferred tenant_id content_job_id social_account_id preferred' rows
      end
  end.

Definition resolve_for_account (tenant_id content_job_id social_account_id : string) (preferred : list string)
    (rows : VariantRows) : option VariantSnapshot :=
  match preferred with
  | _ :: _ => first_preferred tenant_id content_job_id social_account_id preferred rows
  | [] =>
      (λ v, snapshot_from_row v (list_targets (cv_id v) rows)) <$>
        List.find (λ v, bool_decide (social_account_id ∈ vt_social_account_id <$> list_targets (cv_id v) rows))
          (list_for_job tenant_id content_job_id rows)
  end.

(** [_sync_targets]: the targets outside [wanted] go, the missing ones come. *)
Definition sync_targets (variant_id : string) (wanted : list string) (rows : VariantRows) : VariantRows :=
  let existing := vt_social_account_id <$> list_targets variant_id rows in
  rows <| vr_targets :=
    List.filter (λ t, negb (bool_decide (vt_variant_id t = variant_id)) ||
                      bool_decide (vt_social_account_id t ∈ wanted)) (vr_targets rows) ++
    ((λ a, {| vt_variant_id := variant_id; vt_social_account_id := a |}) <$>
       List.filter (λ a, negb (bool_decide (a ∈ existing))) (remove_dups wanted)) |>.
End Variants.
