(* ===== verification/Publishing.v ===== *)
(** * Publishing jobs, their claims and their attempts
    (publishing/models.py, publishing/repository.py, publishing/job_claiming.py,
    publishing/failure_classification.py, publishing/attempt_lifecycle.py)

    The rows of publishing, the lease a worker takes on a job, the recovery of
    leases that ran out, and the two ends of an attempt. *)
From S2P Require Import Prelude PyStr Json Calendar Tables RunModels Execute Quota Accounts Providers Variants.
From stdpp Require Import sorting gmap strings.

Module PublishingJobStatus.
Inductive t :=
  | PENDING | SCHEDULED | CLAIMED | RUNNING | SUCCEEDED | SUCCEEDED_DRY_RUN | FAILED | CANCELLED | DEAD
  | MANUAL_REQUIRED.
#[global] Instance t_eq_dec : EqDecision t.
Proof. solve_decision. Defined.
Definition value (s : t) : string :=
  match s with
  | PENDING => "pending" | SCHEDULED => "scheduled" | CLAIMED => "claimed" | RUNNING => "running"
  | SUCCEEDED => "succeeded" | SUCCEEDED_DRY_RUN => "succeeded_dry_run" | FAILED => "failed"
  | CANCELLED => "cancelled" | DEAD => "dead" | MANUAL_REQUIRED => "manual_required"
  end.
End PublishingJobStatus.

Module PublishingAttemptStatus.
Inductive t := PREPARED | SUCCEEDED | FAILED_TRANSIENT | FAILED_PERMANENT | AMBIGUOUS.
#[global] Instance t_eq_dec : EqDecision t.
Proof. solve_decision. Defined.
End PublishingAttemptStatus.

Module Publishing.
Import Accounts Providers Variants.
Local Open Scope string_scope.
Local Open Scope list_scope.
Local Open Scope Z_scope.

Record PublishingJob := {
  pj_id : string;
  pj_tenant_id : string;
  pj_content_job_id : string;
  pj_social_account_id : option string;
  pj_content_variant_id : option string;
  pj_connected_account_id : option string;
  pj_approval_request_id : option string;
  pj_platform : string;
  pj_status : PublishingJobStatus.t;
  pj_provider : string;
  pj_idempotency_key : string;
  pj_dry_run : bool;
  pj_scheduled_for : option Z;
  pj_published_at : option Z;
  pj_claimed_at : option Z;
  pj_claim_expires_at : option Z;
  pj_worker_id : option string;
  pj_retry_count : Z;
  pj_dead_lettered_at : option Z;
  pj_dead_letter_reason : option string;
  pj_failure_reason : option string;
  pj_provider_payload : dict json;
  pj_external_post_id : option string;
  pj_external_post_url : option string;
  pj_current_attempt_key : option string;
  pj_created_at : Z;
}.
#[global] Instance eta_PublishingJob : Settable PublishingJob :=
  mk_settable _ (λ j, Build_PublishingJob (pj_id j) (pj_tenant_id j) (pj_content_job_id j) (pj_social_account_id j)
    (pj_content_variant_id j) (pj_connected_account_id j) (pj_approval_request_id j) (pj_platform j) (pj_status j)
    (pj_provider j) (pj_idempotency_key j) (pj_dry_run j) (pj_scheduled_for j) (pj_published_at j) (pj_claimed_at j)
    (pj_claim_expires_at j) (pj_worker_id j) (pj_retry_count j) (pj_dead_lettered_at j) (pj_dead_letter_reason j)
    (pj_failure_reason j) (pj_provider_payload j) (pj_external_post_id j) (pj_external_post_url j)
    (pj_current_attempt_key j) (pj_created_at j)).

Record PublishingAttempt := {
  pa_id : string;
  pa_publishing_job_id : string;
  pa_attempt_number : Z;
  pa_attempt_key : string;
  pa_status : PublishingAttemptStatus.t;
  pa_worker_id : option string;
  pa_error_class : option string;
  pa_error_message : option string;
  pa_external_post_id : option string;
  pa_external_post_url : option string;
  pa_provider_payload : dict json;
  pa_started_at : Z;
  pa_finished_at : option Z;
}.
#[global] Instance eta_PublishingAttempt : Settable PublishingAttempt :=
  mk_settable _ (λ a, Build_PublishingAttempt (pa_id a) (pa_publishing_job_id a) (pa_attempt_number a)
    (pa_attempt_key a) (pa_status a) (pa_worker_id a) (pa_error_class a) (pa_error_message a)
    (pa_external_post_id a) (pa_external_post_url a) (pa_provider_payload a) (pa_started_at a) (pa_finished_at a)).

Record PublishedPost := {
  pp_id : string;
  pp_tenant_id : string;
  pp_social_account_id : option string;
  pp_publishing_job_id : string;
  pp_platform : string;
  pp_post_type : string;
  pp_external_post_id : option string;
  pp_external_url : option string;
  pp_status : string;
  pp_published_at : option Z;
  pp_raw_payload : dict json;
  pp_analytics_sync_state : string;
  pp_account_display_snapshot : dict json;
  pp_created_at : Z;
}.

(** A story cluster, as far as publishing reads and writes it. *)
Record StoryCluster := {
  sc_id : string;
  sc_tenant_id : string;
  sc_workflow_state : string;
  sc_deleted_at : option Z;
}.
#[global] Instance eta_StoryCluster : Settable StoryCluster :=
  mk_settable _ (λ c, Build_StoryCluster (sc_id c) (sc_tenant_id c) (sc_workflow_state c) (sc_deleted_at c)).

(** The tables publishing writes. *)
Record Rows := {
  rw_jobs : list PublishingJob;
  rw_attempts : list PublishingAttempt;
  rw_posts : list PublishedPost;
  rw_clusters : list StoryCluster;
  rw_audit : list Tables.AuditLog;
}.
#[global] Instance eta_Rows : Settable Rows :=
  mk_settable _ (λ r, Build_Rows (rw_jobs r) (rw_attempts r) (rw_posts r) (rw_clusters r) (rw_audit r)).

(** A session over the tables: its rows, the rows as last committed, and what is
    outside the database: Redis, the web, and a log of the calls of a provider's
    [publish_now], each with its job and attempt key. *)
Record World := {
  pw_rows : Rows;
  pw_committed : Rows;
  pw_counters : Quota.Counters;
  pw_web : Web;
  pw_calls : list (string * string);
}.
#[global] Instance eta_World : Settable World :=
  mk_settable _ (λ w, Build_World (pw_rows w) (pw_committed w) (pw_counters w) (pw_web w) (pw_calls w)).

(** The tables publishing only reads. *)
Record Library := {
  lb_accounts : list SocialAccount;
  lb_connected : list ConnectedAccount;
  lb_tokens : list SocialAccountToken;
  lb_content_jobs : list ContentJob;
  lb_assets : list GeneratedAsset;
  lb_variants : VariantRows;
}.

(** The fields of the settings. *)
Record PublishingSettings := {
  PUBLISHING_CLAIM_BATCH_SIZE : nat;
  PUBLISHING_CLAIM_LEASE_SECONDS : Z;
  PUBLISHING_MAX_ATTEMPTS : Z;
  PUBLISHING_ACCOUNT_MAX_PUBLISHES_PER_HOUR : Z;
  PUBLISHING_ACCOUNT_MAX_RETRIES_PER_HOUR : Z;
}.

Definition seconds (n : Z) : Z := n * 1000000.

(** ** Sessions *)

Definition on_rows (f : Rows → Rows) : M World unit := modify (λ w, w <| pw_rows ::= f |>).
Definition commit : M World unit := modify (λ w, w <| pw_committed := pw_rows w |>).
Definition rolled_back (w : World) : World := w <| pw_rows := pw_committed w |>.

Definition on_web {A} (m : M Web A) : M World A :=
  λ w, let '(r, web) := m (pw_web w) in (r, w <| pw_web := web |>).
Definition on_counters {A} (m : M Quota.Counters A) : M World A :=
  λ w, let '(r, c) := m (pw_counters w) in (r, w <| pw_counters := c |>).

(** A session that commits at the end and rolls back when the call raises. *)
Definition in_session {A} (m : M World A) : M World A := λ w,
  match m w with
  | (Ok a, w') => (Ok a, w' <| pw_committed := pw_rows w' |>)
  | (Raise e, w') => (Raise e, rolled_back w')
  end.

Definition row_of (job_id : string) (rows : Rows) : option PublishingJob := Models.row_by pj_id job_id (rw_jobs rows).

(** The attributes of a job object. *)
Definition the_job (job_id : string) : M World PublishingJob :=
  w ← get_state;
  match row_of job_id (pw_rows w) with
  | Some j => mret j
  | None => raise (OtherException "ObjectDeletedError" job_id)
  end.

Definition assign_job (job_id : string) (f : PublishingJob → PublishingJob) : M World unit :=
  on_rows (λ r, r <| rw_jobs ::= Models.set_row pj_id job_id f |>).
Definition assign_attempt (attempt_key : string) (f : PublishingAttempt → PublishingAttempt) : M World unit :=
  on_rows (λ r, r <| rw_attempts ::= Models.set_row pa_attempt_key attempt_key f |>).

(** The three columns of a lease are cleared together. *)
Definition release (j : PublishingJob) : PublishingJob :=
  j <| pj_claimed_at := None |> <| pj_claim_expires_at := None |> <| pj_worker_id := None |>.

(** [{**(job.provider_payload or {}), **items}] *)
Definition add_payload (items : dict json) (j : PublishingJob) : PublishingJob :=
  j <| pj_provider_payload ::= λ p, Dict.update p items |>.

(** ** repository.py *)

Definition get_publishing_job (tenant_id job_id : string) (rows : Rows) : option PublishingJob :=
  List.find (λ j, bool_decide (pj_id j = job_id) && bool_decide (pj_tenant_id j = tenant_id)) (rw_jobs rows).

Definition get_job_by_idempotency (idempotency_key : string) (rows : Rows) : option PublishingJob :=
  List.find (λ j, bool_decide (pj_idempotency_key j = idempotency_key)) (rw_jobs rows).

Definition get_published_post_for_job (job_id : string) (rows : Rows) : option PublishedPost :=
  head (newest_first pp_created_at (List.filter (λ p, bool_decide (pp_publishing_job_id p = job_id)) (rw_posts rows))).

Definition get_attempt_by_key (attempt_key : string) (rows : Rows) : option PublishingAttempt :=
  List.find (λ a, bool_decide (pa_attempt_key a = attempt_key)) (rw_attempts rows).

Definition number_ge (a b : PublishingAttempt) : Prop := pa_attempt_number b <= pa_attempt_number a.
#[global] Instance number_ge_dec a b : Decision (number_ge a b).
Proof. unfold number_ge. apply _. Defined.

(** The attempt with the highest number. *)
Definition get_latest_attempt (job_id : string) (rows : Rows) : option PublishingAttempt :=
  head (merge_sort number_ge
    (List.filter (λ a, bool_decide (pa_publishing_job_id a = job_id)) (rw_attempts rows))).

(** The insertions, refused when a unique constraint is violated. *)
Definition create_publishing_job (job : PublishingJob) : M World unit :=
  w ← get_state;
  if existsb (λ j, bool_decide (pj_id j = pj_id job) || bool_decide (pj_idempotency_key j = pj_idempotency_key job))
       (rw_jobs (pw_rows w))
  then raise (OtherException "IntegrityError" "uq_publishing_jobs_idempotency_key")
  else on_rows (λ r, r <| rw_jobs ::= λ l, l ++ [job] |>).

Definition create_attempt (attempt : PublishingAttempt) : M World unit :=
  w ← get_state;
  if existsb (λ a, bool_decide (pa_attempt_key a = pa_attempt_key attempt) ||
                   (bool_decide (pa_publishing_job_id a = pa_publishing_job_id attempt) &&
                    bool_decide (pa_attempt_number a = pa_attempt_number attempt)))
       (rw_attempts (pw_rows w))
  then raise (OtherException "IntegrityError" "uq_publishing_attempts_attempt_key")
  else on_rows (λ r, r <| rw_attempts ::= λ l, l ++ [attempt] |>).

Definition create_published_post (post : PublishedPost) : M World unit :=
  on_rows (λ r, r <| rw_posts ::= λ l, l ++ [post] |>).

(** ** failure_classification.py *)

Inductive PublishErrorClass := TRANSIENT | PERMANENT | AMBIGUOUS.
#[global] Instance PublishErrorClass_eq_dec : EqDecision PublishErrorClass.
Proof. solve_decision. Defined.
Definition error_class_value (c : PublishErrorClass) : string :=
  match c with TRANSIENT => "transient" | PERMANENT => "permanent" | AMBIGUOUS => "ambiguous" end.

Definition TRANSIENT_STATUS : list Z := [408; 425; 429; 500; 502; 503; 504].

Definition classify_publish_error (e : exn) : PublishErrorClass :=
  let by_message :=
    let message := PyStr.lower (Execute.exn_text e) in
    if PyStr.contains "timeout" message || PyStr.contains "timed out" message then AMBIGUOUS else TRANSIENT in
  match e with
  | OtherException cls _ =>
      if bool_decide (cls ∈ TIMEOUT_ERRORS ++ ["TimeoutError"; "CancelledError"]) then AMBIGUOUS
      else if bool_decide (cls ∈ TRANSPORT_ERRORS) then TRANSIENT
      else by_message
  | HTTPStatusError status _ =>
      if bool_decide (status ∈ TRANSIENT_STATUS) then TRANSIENT
      else if (400 <=? status) && (status <? 500) then PERMANENT else TRANSIENT
  | HTTPException status _ =>
      if bool_decide (status ∈ TRANSIENT_STATUS) || (500 <=? status) then TRANSIENT
      else if (400 <=? status) && (status <? 500) then PERMANENT else TRANSIENT
  | _ => by_message
  end.

Section publishing.
Context (cfg : PublishingSettings) (time : nat → Z) (uuid : nat → string).

Definition now_utc : M World Z := on_web (utcnow time).
Definition new_id : M World string := on_web (uuid4 uuid).

(** ** job_claiming.py *)

Definition instant_or (d : Z) (t : option Z) : Z := default d t.

(** [scheduled_for ASC NULLS FIRST, created_at ASC] *)
Definition due_le (a b : PublishingJob) : Prop :=
  match pj_scheduled_for a, pj_scheduled_for b with
  | None, Some _ => True
  | Some _, None => False
  | None, None => pj_created_at a <= pj_created_at b
  | Some s, Some t => s < t ∨ (s = t ∧ pj_created_at a <= pj_created_at b)
  end.
#[global] Instance due_le_dec a b : Decision (due_le a b).
Proof. unfold due_le. repeat case_match; apply _. Defined.

Definition DUE_STATUS : list PublishingJobStatus.t := [PublishingJobStatus.PENDING; PublishingJobStatus.SCHEDULED].

Definition reached (now : Z) (t : option Z) : bool := match t with Some t => t <=? now | None => true end.

Definition claimable (now : Z) (j : PublishingJob) : bool :=
  bool_decide (pj_status j ∈ DUE_STATUS) && reached now (pj_scheduled_for j) &&
  (bool_decide (pj_claimed_at j = None) || reached now (pj_claim_expires_at j)).

Definition claim_of (now expires : Z) (worker_id : string) (j : PublishingJob) : PublishingJob :=
  j <| pj_status := PublishingJobStatus.CLAIMED |> <| pj_claimed_at := Some now |>
    <| pj_claim_expires_at := Some expires |> <| pj_worker_id := Some worker_id |>.

Definition expires_le (a b : PublishingJob) : Prop :=
  instant_or 0 (pj_claim_expires_at a) <= instant_or 0 (pj_claim_expires_at b).
#[global] Instance expires_le_dec a b : Decision (expires_le a b).
Proof. unfold expires_le. apply _. Defined.

Definition LEASED_STATUS : list PublishingJobStatus.t := [PublishingJobStatus.CLAIMED; PublishingJobStatus.RUNNING].

Definition stale (now : Z) (j : PublishingJob) : bool :=
  bool_decide (pj_status j ∈ LEASED_STATUS) &&
  match pj_claim_expires_at j with Some t => t <=? now | None => false end.

(** What recovery makes of a job whose lease ran out. *)
Definition recover_job (now : Z) (latest : option PublishingAttempt) (j : PublishingJob) : PublishingJob :=
  let requeue :=
    add_payload [("stale_claim_recovery", JStr "requeued"); ("recovered_at", JStr (Calendar.isoformat_utc now))]
      (release (j <| pj_status := PublishingJobStatus.SCHEDULED |> <| pj_scheduled_for := Some now |>)) in
  match latest with
  | Some a =>
      match pa_status a with
      | PublishingAttemptStatus.SUCCEEDED =>
          if bool_decide (pj_status j ∈ [PublishingJobStatus.SUCCEEDED; PublishingJobStatus.SUCCEEDED_DRY_RUN]) then j
          else add_payload [("recovery_actions", JStr "reconcile_provider_post,manual_finalize");
                            ("stale_claim_recovery", JStr "manual_required_after_success")]
                 (release (j <| pj_status := PublishingJobStatus.MANUAL_REQUIRED |>
                             <| pj_failure_reason := Some "stale_claim_after_provider_success" |>))
      | PublishingAttemptStatus.AMBIGUOUS =>
          add_payload [("recovery_actions",
                        JStr "reconcile_provider_post,manual_delete_if_duplicate,retry_publish");
                       ("stale_claim_recovery", JStr "manual_required_ambiguous")]
            (release (j <| pj_status := PublishingJobStatus.MANUAL_REQUIRED |>
                        <| pj_failure_reason := Some (if PyStr.opt_truthy (pa_error_message a)
                                                      then or_empty (pa_error_message a)
                                                      else "stale_claim_ambiguous_attempt") |>))
      | _ => requeue
      end
  | None => requeue
  end.

(** [locked] are the rows other transactions hold, which both queries skip. *)
Definition recover_stale_claims (locked : string → bool) (now : Z) (batch_size : nat) : M World unit :=
  w ← get_state;
  let stale_jobs := firstn batch_size (merge_sort expires_le
    (List.filter (λ j, stale now j && negb (locked (pj_id j))) (rw_jobs (pw_rows w)))) in
  mfor stale_jobs (λ j, assign_job (pj_id j) (recover_job now (get_latest_attempt (pj_id j) (pw_rows w)))).

(** The ids of the claimed jobs. *)
Definition claim_due_jobs (locked : string → bool) (worker_id : string) (batch_size : option nat)
    (lease_seconds : option Z) : M World (list string) :=
  now ← now_utc;
  let size := match batch_size with Some (S n) => S n | _ => PUBLISHING_CLAIM_BATCH_SIZE cfg end in
  let lease := match lease_seconds with Some n => if n =? 0 then PUBLISHING_CLAIM_LEASE_SECONDS cfg else n
               | None => PUBLISHING_CLAIM_LEASE_SECONDS cfg end in
  _ ← recover_stale_claims locked now size;
  w ← get_state;
  let job_ids := pj_id <$> firstn size (merge_sort due_le
    (List.filter (λ j, claimable now j && negb (locked (pj_id j))) (rw_jobs (pw_rows w)))) in
  _ ← mfor job_ids (λ i, assign_job i (claim_of now (now + seconds lease) worker_id));
  mret job_ids.

(** ** attempt_lifecycle.py *)

Definition build_recovery_actions (platform : string) (failure_reason : option string) : list string :=
  ["retry_publish"; "open_manual_publish_runbook"; "reauthorize_account"] ++
  (if PyStr.opt_truthy failure_reason then ["review_failure:" +:+ PyStr.take 80 (or_empty failure_reason)] else []) ++
  (if bool_decide (platform ∈ ["x"; "bluesky"]) then ["manual_delete_if_duplicate"] else []).

Definition build_attempt_key (idempotency_key : string) (attempt_number : Z) : string :=
  idempotency_key +:+ ":attempt:" +:+ PyStr.of_Z attempt_number.

(** The attempt that is prepared, by its key. *)
Definition prepare_attempt (job_id : string) (worker_id : option string) : M World string :=
  w ← get_state;
  match get_published_post_for_job job_id (pw_rows w) with
  | Some _ => raise (HTTPException 409 "Publishing job already has a published post")
  | None =>
      job ← the_job job_id;
      let attempt_number := pj_retry_count job + 1 in
      let attempt_key := build_attempt_key (pj_idempotency_key job) attempt_number in
      let existing_attempt := get_attempt_by_key attempt_key (pw_rows w) in
      now ← now_utc;
      _ ← match existing_attempt with
          | Some a =>
              match pa_status a with
              | PublishingAttemptStatus.SUCCEEDED =>
                  raise (HTTPException 409 "Publish attempt already succeeded")
              | PublishingAttemptStatus.AMBIGUOUS =>
                  raise (HTTPException 409 "Previous attempt is ambiguous; reconcile before retrying")
              | _ =>
                  assign_attempt attempt_key (λ a,
                    a <| pa_status := PublishingAttemptStatus.PREPARED |> <| pa_worker_id := worker_id |>
                      <| pa_started_at := now |> <| pa_finished_at := None |> <| pa_error_class := None |>
                      <| pa_error_message := None |>)
              end
          | None =>
              i ← new_id;
              create_attempt {| pa_id := i; pa_publishing_job_id := job_id; pa_attempt_number := attempt_number;
                pa_attempt_key := attempt_key; pa_status := PublishingAttemptStatus.PREPARED;
                pa_worker_id := worker_id; pa_error_class := None; pa_error_message := None;
                pa_external_post_id := None; pa_external_post_url := None; pa_provider_payload := [];
                pa_started_at := now; pa_finished_at := None |}
          end;
      _ ← assign_job job_id (λ j,
            let j := j <| pj_status := PublishingJobStatus.RUNNING |>
                       <| pj_current_attempt_key := Some attempt_key |>
                       <| pj_claimed_at ::= λ c, Some (default now c) |>
                       <| pj_claim_expires_at := Some (now + seconds (PUBLISHING_CLAIM_LEASE_SECONDS cfg)) |> in
            if PyStr.opt_truthy worker_id then j <| pj_worker_id := worker_id |> else j);
      mret attempt_key
  end.

(** The attempt object behind a key. *)
Definition the_attempt (attempt_key : string) : M World PublishingAttempt :=
  w ← get_state;
  match get_attempt_by_key attempt_key (pw_rows w) with
  | Some a => mret a
  | None => raise (OtherException "ObjectDeletedError" attempt_key)
  end.

Definition record_audit (log : Tables.AuditLog) : M World unit := on_rows (λ r, r <| rw_audit ::= λ l, l ++ [log] |>).

Definition build_account_display_snapshot (a : SocialAccount) : dict json :=
  [("social_account_id", JStr (sa_id a)); ("platform", JStr (sa_platform a)); ("display_name", JStr (sa_display_name a));
   ("handle", JStr (or_empty (sa_handle a))); ("account_external_id", JStr (or_empty (sa_account_external_id a)));
   ("status", JStr (sa_status a)); ("auth_type", JStr (sa_auth_type a))].

(** The status a result leads to. *)
Definition success_status (result : PublishResult) : PublishingJobStatus.t :=
  if pr_manual_required result then PublishingJobStatus.MANUAL_REQUIRED
  else if bool_decide (pr_status result = PublishingJobStatus.value PublishingJobStatus.SUCCEEDED_DRY_RUN)
  then PublishingJobStatus.SUCCEEDED_DRY_RUN
  else PublishingJobStatus.SUCCEEDED.

(** What one publication says of itself. *)
Record Publication := {
  pu_account : SocialAccount;
  pu_result : PublishResult;
  pu_draft_preview : string;
  pu_draft_status : string;
  pu_auth_status : string;
  pu_post_type : string;
}.

Definition succeed_job (now : Z) (attempt_key : string) (p : Publication) (j : PublishingJob) : PublishingJob :=
  let result := pu_result p in
  release (j <| pj_status := success_status result |> <| pj_published_at := Some now |>
             <| pj_external_post_id := pr_external_post_id result |>
             <| pj_external_post_url := pr_external_post_url result |> <| pj_failure_reason := None |>
             <| pj_provider_payload :=
                  Dict.update (pr_payload result)
                    [("draft_preview", JStr (pu_draft_preview p)); ("draft_status", JStr (pu_draft_status p));
                     ("publish_attempt_key", JStr attempt_key); ("auth_status", JStr (pu_auth_status p));
                     ("recovery_actions",
                      JStr (PyStr.join "," (build_recovery_actions (pj_platform j) None)))] |>).

(** [plan] is what the cached lookup of the content plan gives: the cluster of
    the plan. *)
Definition mark_published (tenant_id : string) (content_job : option ContentJob)
    (cluster_of_plan : string → string → option string) : M World unit :=
  match content_job with
  | Some cj =>
      match cluster_of_plan tenant_id (cj_content_plan_id cj) with
      | Some cluster_id =>
          on_rows (λ r, r <| rw_clusters ::= map (λ c,
            if bool_decide (sc_id c = cluster_id) && bool_decide (sc_tenant_id c = tenant_id) &&
               is_live (sc_deleted_at c)
            then c <| sc_workflow_state := "published" |> else c) |>)
      | None => mret ()
      end
  | None => mret ()
  end.

Definition finalize_success (lib : Library) (cluster_of_plan : string → string → option string)
    (tenant_id job_id attempt_key : string) (p : Publication) : M World unit :=
  now ← now_utc;
  let result := pu_result p in
  _ ← assign_job job_id (succeed_job now attempt_key p);
  _ ← assign_attempt attempt_key (λ a,
        a <| pa_status := PublishingAttemptStatus.SUCCEEDED |> <| pa_finished_at := Some now |>
          <| pa_external_post_id := pr_external_post_id result |>
          <| pa_external_post_url := pr_external_post_url result |>
          <| pa_provider_payload := pr_payload result |>);
  job ← the_job job_id;
  w ← get_state;
  _ ← match get_published_post_for_job job_id (pw_rows w) with
      | Some _ => mret ()
      | None =>
          i ← new_id;
          create_published_post
            {| pp_id := i; pp_tenant_id := tenant_id; pp_social_account_id := Some (sa_id (pu_account p));
               pp_publishing_job_id := job_id; pp_platform := pj_platform job; pp_post_type := pu_post_type p;
               pp_external_post_id := pr_external_post_id result; pp_external_url := pj_external_post_url job;
               pp_status := if pr_manual_required result then "manual" else "live";
               pp_published_at := pj_published_at job; pp_raw_payload := pr_payload result;
               pp_analytics_sync_state := "pending";
               pp_account_display_snapshot := build_account_display_snapshot (pu_account p);
               pp_created_at := now |}
      end;
  _ ← record_audit
        {| Tables.al_tenant_id := Some tenant_id; Tables.al_actor_user_id := None;
           Tables.al_action := "publishing.job_executed"; Tables.al_entity_type := "publishing_job";
           Tables.al_entity_id := Some job_id; Tables.al_message := "Publishing job executed";
           Tables.al_payload := [("platform", JStr (pj_platform job));
                                 ("status", JStr (PublishingJobStatus.value (pj_status job)));
                                 ("attempt_key", JStr attempt_key)];
           Tables.al_outcome := None |};
  mark_published tenant_id (get_job tenant_id (pj_content_job_id job) (lb_content_jobs lib)) cluster_of_plan.

(** [timedelta(minutes=2 ** attempt_number)] *)
Definition backoff_minutes (attempt_number : Z) : Z := 2 ^ attempt_number.

(** What a failure makes of the job, given the number and the key of the
    attempt and the number of attempts allowed. *)
Definition fail_job (max_attempts now : Z) (attempt_number : Z) (attempt_key message : string)
    (c : PublishErrorClass) (j : PublishingJob) : PublishingJob :=
  let actions := build_recovery_actions (pj_platform j) (Some message) in
  let tail := [("error_class", JStr (error_class_value c)); ("attempt_key", JStr attempt_key)] in
  let j := release (j <| pj_failure_reason := Some message |>
                      <| pj_retry_count := Z.max (pj_retry_count j) attempt_number |>) in
  if bool_decide (c = AMBIGUOUS) then
    add_payload ([("recovery_actions", JStr (PyStr.join "," (actions ++ ["reconcile_provider_post"])))] ++ tail)
      (j <| pj_status := PublishingJobStatus.MANUAL_REQUIRED |>)
  else if bool_decide (c = PERMANENT) || (max_attempts <=? attempt_number) then
    add_payload ([("recovery_actions", JStr (PyStr.join "," actions)); ("dead_letter", JStr "true")] ++ tail)
      (j <| pj_status := PublishingJobStatus.DEAD |> <| pj_dead_lettered_at := Some now |>
         <| pj_dead_letter_reason := Some message |>)
  else
    let at_ := now + seconds (60 * backoff_minutes attempt_number) in
    add_payload ([("recovery_actions", JStr (PyStr.join "," actions));
                  ("next_retry_at", JStr (Calendar.isoformat_utc at_));
                  ("backoff_minutes", JStr (PyStr.of_Z (backoff_minutes attempt_number)))] ++ tail)
      (j <| pj_status := PublishingJobStatus.SCHEDULED |> <| pj_scheduled_for := Some at_ |>).

Definition failed_attempt_status (c : PublishErrorClass) : PublishingAttemptStatus.t :=
  match c with
  | AMBIGUOUS => PublishingAttemptStatus.AMBIGUOUS
  | PERMANENT => PublishingAttemptStatus.FAILED_PERMANENT
  | TRANSIENT => PublishingAttemptStatus.FAILED_TRANSIENT
  end.

Definition finalize_failure (job_id attempt_key : string) (e : exn) (c : PublishErrorClass) : M World unit :=
  now ← now_utc;
  let message := PyStr.take 500 (Execute.exn_text e) in
  attempt ← the_attempt attempt_key;
  _ ← assign_job job_id (fail_job (PUBLISHING_MAX_ATTEMPTS cfg) now (pa_attempt_number attempt) attempt_key message c);
  _ ← assign_attempt attempt_key (λ a,
        a <| pa_finished_at := Some now |> <| pa_error_class := Some (error_class_value c) |>
          <| pa_error_message := Some message |> <| pa_status := failed_attempt_status c |>);
  job ← the_job job_id;
  if bool_decide (pj_status job = PublishingJobStatus.DEAD) then
    record_audit
      {| Tables.al_tenant_id := Some (pj_tenant_id job); Tables.al_actor_user_id := None;
         Tables.al_action := "publishing.dead_lettered"; Tables.al_entity_type := "publishing_job";
         Tables.al_entity_id := Some job_id; Tables.al_message := "Publishing job moved to dead-letter state";
         Tables.al_payload := [("platform", JStr (pj_platform job)); ("failure_reason", JStr message);
                               ("error_class", JStr (error_class_value c))];
         Tables.al_outcome := Some "dead_lettered" |}
  else mret ().
End publishing.
End Publishing.
