(* ===== verification/PublishingRows.v ===== *)
(** * The rows of publishing, job by job

    The tables of publishing seen as one view per job, the invariant of the
    rows, and what preparing, failing and finishing an attempt do to it. *)
From S2P Require Import Prelude PyStr Json Calendar Tables RunModels Quota Accounts Providers Variants Publishing.
From stdpp Require Import sorting gmap strings pretty.

Module PublishingRows.
Import Accounts Providers Variants Publishing.
Local Open Scope string_scope.
Local Open Scope list_scope.
Local Open Scope Z_scope.

(** ** Keys of attempts *)

Lemma attempt_key_inj k1 k2 n1 n2 :
  0 <= n1 → 0 <= n2 → build_attempt_key k1 n1 = build_attempt_key k2 n2 → k1 = k2 ∧ n1 = n2.
Proof.
  intros H1 H2. unfold build_attempt_key.
  change (":attempt:" +:+ PyStr.of_Z n1) with (":attempt" +:+ String ":" (PyStr.of_Z n1)).
  change (":attempt:" +:+ PyStr.of_Z n2) with (":attempt" +:+ String ":" (PyStr.of_Z n2)).
  rewrite <- !PyStr.append_assoc.
  intros [Hk Hn]%PyStr.last_sep_inj; [|by apply PyStr.of_Z_lacks..].
  apply Calendar.append_inj in Hk as [-> _]; [|done]. split; [done|]. by apply (inj pretty) in Hn.
Qed.

(** ** Rows by job *)

Section views.
Implicit Types (r : Rows) (k : string).

Definition jobs_of k r : list PublishingJob := List.filter (λ j, bool_decide (pj_id j = k)) (rw_jobs r).
Definition attempts_of k r : list PublishingAttempt :=
  List.filter (λ a, bool_decide (pa_publishing_job_id a = k)) (rw_attempts r).
Definition posts_of k r : list PublishedPost :=
  List.filter (λ p, bool_decide (pp_publishing_job_id p = k)) (rw_posts r).

Definition View : Type := list PublishingJob * list PublishingAttempt * list PublishedPost.
Definition view k r : View := (jobs_of k r, attempts_of k r, posts_of k r).

Definition ambiguous (a : PublishingAttempt) : Prop := pa_status a = PublishingAttemptStatus.AMBIGUOUS.

(** What holds of an attempt of the job [j] with the posts [ps]. *)
Record attempt_ok (j : PublishingJob) (attempts : list PublishingAttempt) (ps : list PublishedPost)
    (a : PublishingAttempt) : Prop := {
  ao_key : pa_attempt_key a = build_attempt_key (pj_idempotency_key j) (pa_attempt_number a);
  ao_number : 1 <= pa_attempt_number a <= pj_retry_count j + 1;
  ao_open : pa_attempt_number a = pj_retry_count j + 1 →
    pa_status a = PublishingAttemptStatus.PREPARED ∨ pa_status a = PublishingAttemptStatus.SUCCEEDED;
  ao_succeeded : pa_status a = PublishingAttemptStatus.SUCCEEDED → ps ≠ [];
  ao_ambiguous : ambiguous a →
    pj_status j = PublishingJobStatus.MANUAL_REQUIRED ∧
    Forall (λ b, pa_attempt_number b <= pa_attempt_number a) attempts;
}.

Definition view_ok (v : View) : Prop :=
  let '(js, attempts, ps) := v in
  match js with
  | [] => attempts = [] ∧ ps = []
  | [j] => 0 <= pj_retry_count j ∧ NoDup (pa_attempt_number <$> attempts) ∧
           Forall (attempt_ok j attempts ps) attempts ∧ (length ps ≤ 1)%nat
  | _ => False
  end.

(** The invariant of the rows. *)
Record rows_ok r : Prop := {
  ok_view : ∀ k, view_ok (view k r);
  ok_keys : NoDup (pj_idempotency_key <$> rw_jobs r);
}.

Definition settled k r : Prop := posts_of k r ≠ [] ∨ Exists ambiguous (attempts_of k r).

Lemma elem_of_jobs_of k r j : j ∈ jobs_of k r ↔ j ∈ rw_jobs r ∧ pj_id j = k.
Proof. unfold jobs_of. by rewrite list_elem_of_In, filter_In, <- list_elem_of_In, bool_decide_eq_true. Qed.
Lemma elem_of_attempts_of k r a : a ∈ attempts_of k r ↔ a ∈ rw_attempts r ∧ pa_publishing_job_id a = k.
Proof. unfold attempts_of. by rewrite list_elem_of_In, filter_In, <- list_elem_of_In, bool_decide_eq_true. Qed.

Lemma row_of_jobs_of k r : row_of k r = head (jobs_of k r).
Proof.
  unfold row_of, Models.row_by, jobs_of. induction (rw_jobs r) as [|j l IH]; [done|]. simpl. by case_bool_decide.
Qed.

(** The one row of a job, with its attempts and posts. *)
Lemma view_of_row k r j :
  rows_ok r → row_of k r = Some j →
  jobs_of k r = [j] ∧ pj_id j = k ∧ 0 <= pj_retry_count j ∧ NoDup (pa_attempt_number <$> attempts_of k r) ∧
  Forall (attempt_ok j (attempts_of k r) (posts_of k r)) (attempts_of k r) ∧ (length (posts_of k r) ≤ 1)%nat.
Proof.
  intros Hok Hj. rewrite row_of_jobs_of in Hj. pose proof (ok_view _ Hok k) as Hv. unfold view, view_ok in Hv.
  destruct (jobs_of k r) as [|j' [|]] eqn:E; [done| |done]. injection Hj as ->.
  assert (j ∈ jobs_of k r) as [_ Hid]%elem_of_jobs_of by (rewrite E; by left). done.
Qed.

Lemma jobs_of_row k r : rows_ok r → row_of k r = None → view k r = ([], [], []).
Proof.
  intros Hok Hj. rewrite row_of_jobs_of in Hj. pose proof (ok_view _ Hok k) as Hv. unfold view, view_ok in *.
  destruct (jobs_of k r) as [|j' [|]]; [|done..]. by destruct Hv as [-> ->].
Qed.

Lemma jobs_of_elem r j : rows_ok r → j ∈ rw_jobs r → row_of (pj_id j) r = Some j.
Proof.
  intros Hok Hj. rewrite row_of_jobs_of. pose proof (ok_view _ Hok (pj_id j)) as Hv. unfold view, view_ok in Hv.
  assert (j ∈ jobs_of (pj_id j) r) as Hin by by apply elem_of_jobs_of.
  destruct (jobs_of (pj_id j) r) as [|j' [|]] eqn:E; [by apply elem_of_nil in Hin| |done].
  by apply list_elem_of_singleton in Hin as ->.
Qed.

Lemma ids_NoDup r : rows_ok r → NoDup (pj_id <$> rw_jobs r).
Proof.
  intros Hok. pose proof (ok_view _ Hok) as Hv. clear Hok. revert Hv. unfold view, jobs_of.
  generalize (rw_jobs r) as l. intros l Hv.
  assert (∀ k, (length (List.filter (λ j, bool_decide (pj_id j = k)) l) ≤ 1)%nat) as H.
  { intros k. specialize (Hv k). unfold view_ok in Hv. repeat case_match; simpl in *; (lia || done). }
  clear Hv. induction l as [|j l IH]; [constructor|]. rewrite fmap_cons. constructor.
  - intros (j' & Hid & Hj')%list_elem_of_fmap. specialize (H (pj_id j)). simpl in H.
    rewrite bool_decide_eq_true_2 in H by done. simpl in H.
    assert (j' ∈ List.filter (λ x, bool_decide (pj_id x = pj_id j)) l) as Hin.
    { apply list_elem_of_In, filter_In. rewrite bool_decide_eq_true. by rewrite <- list_elem_of_In. }
    destruct (List.filter _ l); [by apply elem_of_nil in Hin|simpl in H; lia].
  - apply IH. intros k. specialize (H k). simpl in H. case_bool_decide; simpl in H; lia.
Qed.

(** The attempt behind the key of a job's attempt is one of the job. *)
Lemma attempt_by_key k r j n :
  rows_ok r → row_of k r = Some j → 0 <= n →
  (∀ a, a ∈ rw_attempts r → pa_attempt_key a = build_attempt_key (pj_idempotency_key j) n ↔
        a ∈ attempts_of k r ∧ pa_attempt_number a = n).
Proof.
  intros Hok Hj Hn a Ha. split.
  - intros Hk. destruct (row_of (pa_publishing_job_id a) r) as [j'|] eqn:E; cycle 1.
    { apply jobs_of_row in E; [|done]. assert (a ∈ attempts_of (pa_publishing_job_id a) r) as Hin
        by by apply elem_of_attempts_of.
      injection E as _ E _. rewrite E in Hin. by apply elem_of_nil in Hin. }
    destruct (view_of_row _ _ _ Hok E) as (Hjs' & Hid' & _ & _ & Hao & _).
    rewrite Forall_forall in Hao. destruct (Hao a) as [Hkey Hnum _ _ _]; [by apply elem_of_attempts_of|].
    rewrite Hkey in Hk. apply attempt_key_inj in Hk as [Hkk Hnn]; [|lia..].
    destruct (view_of_row _ _ _ Hok Hj) as (Hjs & Hid & _).
    assert (j' = j) as ->.
    { apply (NoDup_fmap_inj_in pj_idempotency_key (rw_jobs r)); [apply (ok_keys _ Hok)| | |done].
      - apply (elem_of_jobs_of (pa_publishing_job_id a)). rewrite Hjs'. by left.
      - apply (elem_of_jobs_of k). rewrite Hjs. by left. }
    split; [|done]. apply elem_of_attempts_of. split; [done|]. congruence.
  - intros [Ha' <-]. destruct (view_of_row _ _ _ Hok Hj) as (_ & _ & _ & _ & Hao & _).
    rewrite Forall_forall in Hao. by apply Hao.
Qed.

Lemma get_attempt_by_key_Some key r a :
  get_attempt_by_key key r = Some a → a ∈ rw_attempts r ∧ pa_attempt_key a = key.
Proof. intros [H1 H2]%find_Some_elem. by apply bool_decide_eq_true in H2. Qed.

Lemma get_attempt_by_key_None key r a : get_attempt_by_key key r = None → a ∈ rw_attempts r → pa_attempt_key a ≠ key.
Proof.
  intros H%find_None_Forall Ha Hk. rewrite Forall_forall in H. specialize (H a Ha).
  by rewrite bool_decide_eq_true_2 in H.
Qed.

Lemma get_post_None k r : get_published_post_for_job k r = None ↔ posts_of k r = [].
Proof.
  unfold get_published_post_for_job, newest_first. fold (posts_of k r).
  pose proof (merge_sort_Permutation (created_ge pp_created_at) (posts_of k r)) as Hp.
  split; intros H.
  - destruct (merge_sort _ (posts_of k r)) eqn:E; [|done]. by apply Permutation_nil_l in Hp.
  - rewrite H. done.
Qed.

(** The latest attempt has the highest number. *)
Lemma latest_is_max k r a :
  a ∈ attempts_of k r → Forall (λ b, pa_attempt_number b <= pa_attempt_number a) (attempts_of k r) →
  NoDup (pa_attempt_number <$> attempts_of k r) → get_latest_attempt k r = Some a.
Proof.
  intros Ha Hmax Hnd. unfold get_latest_attempt. fold (attempts_of k r).
  pose proof (merge_sort_Permutation number_ge (attempts_of k r)) as Hp.
  assert (StronglySorted number_ge (merge_sort number_ge (attempts_of k r))) as Hs.
  { apply (@StronglySorted_merge_sort _ number_ge); intros ?; unfold number_ge; intros; lia. }
  destruct (merge_sort number_ge (attempts_of k r)) as [|b l] eqn:E.
  { symmetry in Hp. apply Permutation_nil_r in Hp. rewrite Hp in Ha. by apply elem_of_nil in Ha. }
  simpl. f_equal.
  assert (b ∈ attempts_of k r) as Hb by (rewrite <- Hp; by left).
  apply (NoDup_fmap_inj_in pa_attempt_number (attempts_of k r)); [done..|].
  rewrite Forall_forall in Hmax. specialize (Hmax b Hb).
  assert (a ∈ b :: l) as Hab by by rewrite Hp.
  apply elem_of_cons in Hab as [->|Hal]; [done|].
  apply StronglySorted_inv in Hs as [_ Hall]. rewrite Forall_forall in Hall. specialize (Hall a Hal).
  unfold number_ge in Hall. lia.
Qed.
End views.

(** ** Updates of the rows *)

Section updates.
Implicit Types (r : Rows) (k i : string).

Definition set_job i (f : PublishingJob → PublishingJob) r : Rows := r <| rw_jobs ::= Models.set_row pj_id i f |>.
Definition set_attempt key (f : PublishingAttempt → PublishingAttempt) r : Rows :=
  r <| rw_attempts ::= Models.set_row pa_attempt_key key f |>.

(** What no operation changes of a job or an attempt. *)
Definition same_job (j j' : PublishingJob) : Prop :=
  pj_id j' = pj_id j ∧ pj_idempotency_key j' = pj_idempotency_key j.
Definition same_attempt (a a' : PublishingAttempt) : Prop :=
  pa_publishing_job_id a' = pa_publishing_job_id a ∧ pa_attempt_key a' = pa_attempt_key a ∧
  pa_attempt_number a' = pa_attempt_number a.

Lemma filter_set_row {R} (key : R → string) (p : R → bool) i f (l : list R) :
  (∀ x, p (f x) = p x) → List.filter p (Models.set_row key i f l) = Models.set_row key i f (List.filter p l).
Proof.
  intros Hp. unfold Models.set_row. induction l as [|x l IH]; [done|]. rewrite fmap_cons. simpl.
  case_bool_decide as E; rewrite ?Hp; destruct (p x) eqn:Hx; rewrite IH; try done.
  - rewrite fmap_cons. by rewrite bool_decide_eq_true_2.
  - rewrite fmap_cons. by rewrite bool_decide_eq_false_2.
Qed.

Lemma jobs_of_set_job k i f r :
  (∀ j, pj_id (f j) = pj_id j) → jobs_of k (set_job i f r) = if decide (k = i) then f <$> jobs_of k r else jobs_of k r.
Proof.
  intros Hf. unfold jobs_of, set_job. simpl. rewrite filter_set_row by (intros; by rewrite Hf).
  unfold Models.set_row. case_decide as Hk.
  - apply list_fmap_ext. intros n j Hj%list_elem_of_lookup_2. apply elem_of_jobs_of in Hj as [_ Hj].
    by rewrite bool_decide_eq_true_2 by congruence.
  - rewrite <- (list_fmap_id (List.filter _ _)) at 2. apply list_fmap_ext.
    intros n j Hj%list_elem_of_lookup_2. apply elem_of_jobs_of in Hj as [_ Hj].
    by rewrite bool_decide_eq_false_2 by congruence.
Qed.

Lemma attempts_of_set_attempt k key f r :
  (∀ a, same_attempt a (f a)) →
  attempts_of k (set_attempt key f r) = Models.set_row pa_attempt_key key f (attempts_of k r).
Proof.
  intros Hf. unfold attempts_of, set_attempt. simpl. apply filter_set_row. intros a. by destruct (Hf a) as [-> _].
Qed.

Definition add_attempt (a : PublishingAttempt) r : Rows := r <| rw_attempts ::= λ l, l ++ [a] |>.

Lemma attempts_of_add k a r :
  attempts_of k (add_attempt a r) =
    if decide (pa_publishing_job_id a = k) then attempts_of k r ++ [a] else attempts_of k r.
Proof.
  unfold attempts_of, add_attempt. simpl. rewrite List.filter_app. simpl. case_bool_decide; case_decide; try done.
  by rewrite app_nil_r.
Qed.

Lemma keys_set_job i f r :
  (∀ j, same_job j (f j)) → pj_idempotency_key <$> rw_jobs (set_job i f r) = pj_idempotency_key <$> rw_jobs r.
Proof.
  intros Hf. unfold set_job, Models.set_row. simpl. rewrite <- list_fmap_compose. apply list_fmap_ext.
  intros n j _. simpl. case_bool_decide; [|done]. by destruct (Hf j).
Qed.

(** The rows differ in the job [i] at most. *)
Definition only_job i r r' : Prop :=
  (∀ k, k ≠ i → view k r' = view k r) ∧ pj_idempotency_key <$> rw_jobs r' = pj_idempotency_key <$> rw_jobs r.

Lemma only_job_refl i r : only_job i r r.
Proof. done. Qed.

Lemma only_job_trans i r1 r2 r3 : only_job i r1 r2 → only_job i r2 r3 → only_job i r1 r3.
Proof. intros [H1 K1] [H2 K2]. split; [|congruence]. intros k Hk. by rewrite H2, H1. Qed.

Lemma rows_ok_only i r r' : rows_ok r → only_job i r r' → view_ok (view i r') → rows_ok r'.
Proof.
  intros Hok [Hv Hk] Hi. split.
  - intros k. destruct (decide (k = i)) as [->|Hne]; [done|]. rewrite Hv by done. apply (ok_view _ Hok).
  - rewrite Hk. apply (ok_keys _ Hok).
Qed.

Lemma only_set_job i f r : (∀ j, same_job j (f j)) → only_job i r (set_job i f r).
Proof.
  intros Hf. split; [|by apply keys_set_job]. intros k Hk. unfold view. rewrite jobs_of_set_job by (intros; apply Hf).
  by rewrite decide_False.
Qed.

Lemma row_of_set_job k i f r :
  (∀ j, pj_id (f j) = pj_id j) → row_of k (set_job i f r) = if decide (k = i) then f <$> row_of k r else row_of k r.
Proof.
  intros Hf. rewrite !row_of_jobs_of, jobs_of_set_job by done. case_decide; [|done]. by destruct (jobs_of k r).
Qed.

Lemma view_set_job i f r j :
  rows_ok r → row_of i r = Some j → (∀ j, same_job j (f j)) →
  view i (set_job i f r) = ([f j], attempts_of i r, posts_of i r).
Proof.
  intros Hok Hj Hf. destruct (view_of_row _ _ _ Hok Hj) as [Hjs _]. unfold view.
  rewrite jobs_of_set_job by (intros; apply Hf). by rewrite decide_True, Hjs by done.
Qed.

(** A job that changes its columns, not its count of retries, and is not taken
    away from an operator who has to look at an ambiguous attempt. *)
Lemma set_job_ok i f r j :
  rows_ok r → row_of i r = Some j → (∀ j, same_job j (f j)) → pj_retry_count (f j) = pj_retry_count j →
  (Exists ambiguous (attempts_of i r) → pj_status (f j) = pj_status j) →
  rows_ok (set_job i f r).
Proof.
  intros Hok Hj Hf Hret Hamb. apply (rows_ok_only i r); [done|by apply only_set_job|].
  rewrite (view_set_job i f r j) by done.
  destruct (view_of_row _ _ _ Hok Hj) as (_ & _ & Hr & Hnd & Hao & Hps). simpl. rewrite Hret.
  split_and!; [done..| |done]. rewrite Forall_forall in *. intros a Ha. destruct (Hao a Ha) as [K N O S A].
  split; rewrite ?Hret; [|done..|].
  - rewrite K. by destruct (Hf j) as [_ ->].
  - intros H. rewrite Hamb by (apply Exists_exists; eauto). by apply A.
Qed.
End updates.

(** ** The operations on one job *)

Section wps.
Context (time : nat → Z) (uuid : nat → string).

(** The clock, the ids and Redis touch no row. *)
Lemma wp_now {A} (k : Z → M World A) Q E w :
  (∀ t web, wp (k t) Q E (w <| pw_web := web |>)) → wp (now_utc time ≫= k) Q E w.
Proof. intros H. exact (H (time (web_ticks (pw_web w))) (pw_web w <| web_ticks ::= S |>)). Qed.

Lemma wp_row_id {A} (k : string → M World A) Q E w :
  (∀ i web, wp (k i) Q E (w <| pw_web := web |>)) → wp (new_id uuid ≫= k) Q E w.
Proof. intros H. exact (H (uuid (web_uuids (pw_web w))) (pw_web w <| web_uuids ::= S |>)). Qed.

Lemma wp_the_job {A} i (k : PublishingJob → M World A) Q E w j :
  row_of i (pw_rows w) = Some j → wp (k j) Q E w → wp (the_job i ≫= k) Q E w.
Proof. intros Hj H. apply wp_bind. unfold the_job. apply wp_bind, wp_get. by rewrite Hj. Qed.

(** A call whose outcome is known. *)
Lemma wp_value {A} (m : M World A) Q E a w w' : m w = (Ok a, w') → Q a w' → wp m Q E w.
Proof. intros H. unfold wp. by rewrite H. Qed.

Lemma wp_on_rows {A} f (k : unit → M World A) Q E w :
  wp (k ()) Q E (w <| pw_rows ::= f |>) → wp (on_rows f ≫= k) Q E w.
Proof. intros H. exact H. Qed.

Lemma wp_on_rows_tail f (Q : unit → World → Prop) E w : Q () (w <| pw_rows ::= f |>) → wp (on_rows f) Q E w.
Proof. done. Qed.
End wps.

Section one_job.
Implicit Types (r : Rows) (i : string).

Definition clear i r : Prop := ¬ Exists ambiguous (attempts_of i r).

Lemma clear_Forall i r : clear i r ↔ Forall (λ a, ¬ ambiguous a) (attempts_of i r).
Proof. unfold clear. rewrite Exists_exists, Forall_forall. naive_solver. Qed.

Lemma numbers_set_row key f (l : list PublishingAttempt) :
  (∀ a, same_attempt a (f a)) →
  pa_attempt_number <$> Models.set_row pa_attempt_key key f l = pa_attempt_number <$> l.
Proof.
  intros Hf. unfold Models.set_row. rewrite <- list_fmap_compose. apply list_fmap_ext.
  intros n a _. simpl. case_bool_decide; [|done]. apply Hf.
Qed.

(** The attempts a job may have while none of them is ambiguous. *)
Lemma view_ok_clear j attempts ps :
  0 <= pj_retry_count j → NoDup (pa_attempt_number <$> attempts) → (length ps ≤ 1)%nat →
  Forall (λ a, pa_attempt_key a = build_attempt_key (pj_idempotency_key j) (pa_attempt_number a) ∧
               1 <= pa_attempt_number a <= pj_retry_count j + 1 ∧
               (pa_attempt_number a = pj_retry_count j + 1 →
                pa_status a = PublishingAttemptStatus.PREPARED ∨ pa_status a = PublishingAttemptStatus.SUCCEEDED) ∧
               (pa_status a = PublishingAttemptStatus.SUCCEEDED → ps ≠ []) ∧ ¬ ambiguous a) attempts →
  view_ok ([j], attempts, ps).
Proof.
  intros Hr Hnd Hps Hall. split_and!; [done..| |done]. eapply Forall_impl; [exact Hall|].
  intros a (? & ? & ? & ? & ?). by split.
Qed.

Lemma attempt_ok_clear i r j a :
  rows_ok r → row_of i r = Some j → clear i r → a ∈ attempts_of i r →
  pa_attempt_key a = build_attempt_key (pj_idempotency_key j) (pa_attempt_number a) ∧
  1 <= pa_attempt_number a <= pj_retry_count j + 1 ∧
  (pa_attempt_number a = pj_retry_count j + 1 →
   pa_status a = PublishingAttemptStatus.PREPARED ∨ pa_status a = PublishingAttemptStatus.SUCCEEDED) ∧
  (pa_status a = PublishingAttemptStatus.SUCCEEDED → posts_of i r ≠ []) ∧ ¬ ambiguous a.
Proof.
  intros Hok Hj Hc Ha. destruct (view_of_row _ _ _ Hok Hj) as (_ & _ & _ & _ & Hao & _).
  rewrite Forall_forall in Hao. destruct (Hao a Ha). split_and!; try done; try lia.
  apply clear_Forall in Hc. rewrite Forall_forall in Hc. by apply Hc.
Qed.

(** The state in which the provider is called: attempt [a] of job [j] is open. *)
Record open_attempt i r j a : Prop := {
  oa_ok : rows_ok r;
  oa_row : row_of i r = Some j;
  oa_clear : clear i r;
  oa_in : a ∈ attempts_of i r;
  oa_number : pa_attempt_number a = pj_retry_count j + 1;
  oa_status : pa_status a = PublishingAttemptStatus.PREPARED;
  oa_posts : posts_of i r = [];
}.

(** The rows [r'] have, for the job [i], the attempts of [r] with the attempt
    [a] in the place of number [n]. *)
Record opens i n r r' a : Prop := {
  op_jobs : rw_jobs r' = rw_jobs r;
  op_posts : rw_posts r' = rw_posts r;
  op_others : ∀ k, k ≠ i → attempts_of k r' = attempts_of k r;
  op_numbers : NoDup (pa_attempt_number <$> attempts_of i r');
  op_in : a ∈ attempts_of i r';
  op_number : pa_attempt_number a = n;
  op_old : ∀ b, b ∈ attempts_of i r' → b = a ∨ (b ∈ attempts_of i r ∧ pa_attempt_number b ≠ n);
}.

Lemma opens_open_attempt i r r' j a g :
  rows_ok r → row_of i r = Some j → clear i r → posts_of i r = [] →
  opens i (pj_retry_count j + 1) r r' a → pa_status a = PublishingAttemptStatus.PREPARED →
  pa_attempt_key a = build_attempt_key (pj_idempotency_key j) (pj_retry_count j + 1) →
  (∀ j, same_job j (g j) ∧ pj_retry_count (g j) = pj_retry_count j) →
  open_attempt i (set_job i g r') (g j) a ∧ only_job i r (set_job i g r').
Proof.
  intros Hok Hj Hc Hp [Hj' Hps' Ha' Hnd' Ha Hn Hb] Hst Hk Hg.
  destruct (view_of_row _ _ _ Hok Hj) as (Hjs & Hid & Hr & _).
  assert (posts_of i r' = []) as Hp' by (unfold posts_of; by rewrite Hps').
  assert (only_job i r r') as Ho'.
  { split; [|by rewrite Hj']. intros k Hne. unfold view, jobs_of, posts_of. by rewrite Hj', Ha', Hps'. }
  assert (row_of i r' = Some j) as Hrow by (unfold row_of; by rewrite Hj').
  assert (clear i r') as Hc'.
  { apply clear_Forall, Forall_forall. intros b Hbin. destruct (Hb b Hbin) as [->|[Hb1 _]].
    - unfold ambiguous. by rewrite Hst.
    - by apply (attempt_ok_clear _ _ _ _ Hok Hj Hc Hb1). }
  assert (rows_ok r') as Hok'.
  { apply (rows_ok_only i r); [done..|]. unfold view. rewrite Hp'.
    replace (jobs_of i r') with [j] by (unfold jobs_of; by rewrite Hj'). apply view_ok_clear; [done..|simpl; lia|].
    apply Forall_forall. intros b Hbin. destruct (Hb b Hbin) as [->|[Hb1 Hb2]].
    - rewrite Hk, Hn, Hst. split_and!; [done|lia..|by left|done|]. unfold ambiguous. by rewrite Hst.
    - destruct (attempt_ok_clear _ _ _ _ Hok Hj Hc Hb1) as (? & ? & ? & HS & ?). rewrite Hp in HS. done. }
  split; [split; try done|].
  - apply (set_job_ok _ _ _ j); [done..|intros; apply Hg|apply Hg|by intros ?%Hc'].
  - rewrite row_of_set_job by (intros; apply Hg). by rewrite decide_True, Hrow.
  - rewrite Hn. by destruct (Hg j) as [_ ->].
  - eapply only_job_trans; [exact Ho'|]. apply only_set_job, Hg.
Qed.

(** An attempt is updated. *)
Lemma opens_again i r j a f :
  rows_ok r → row_of i r = Some j → a ∈ attempts_of i r →
  (∀ a, same_attempt a (f a)) →
  opens i (pa_attempt_number a) r (set_attempt (pa_attempt_key a) f r) (f a).
Proof.
  intros Hok Hj Ha Hf. destruct (view_of_row _ _ _ Hok Hj) as (_ & _ & _ & Hnd & Hao & _).
  rewrite Forall_forall in Hao. destruct (Hao a Ha) as [Hak Hn _ _ _].
  pose proof (attempt_by_key i r j (pa_attempt_number a) Hok Hj ltac:(lia)) as Hkey. rewrite <- Hak in Hkey.
  assert (∀ b k, b ∈ attempts_of k r → b ∈ rw_attempts r ∧ pa_publishing_job_id b = k) as Hin
    by (intros b k; apply elem_of_attempts_of).
  split; try done; [..|by destruct (Hf a) as (_ & _ & ->)|].
  - intros k Hne. rewrite attempts_of_set_attempt by done.
    rewrite <- (list_fmap_id (attempts_of k r)) at 2. apply list_fmap_ext.
    intros m b Hb%list_elem_of_lookup_2. rewrite bool_decide_eq_false_2; [done|]. intros Hbk.
    destruct (Hin _ _ Hb) as [Hb1 Hb2]. destruct (proj1 (Hkey b Hb1) Hbk) as [[_ ?]%Hin _]. congruence.
  - rewrite attempts_of_set_attempt by done. by rewrite numbers_set_row.
  - rewrite attempts_of_set_attempt by done. apply list_elem_of_fmap. exists a. by rewrite bool_decide_eq_true_2.
  - rewrite attempts_of_set_attempt by done. intros b (b0 & -> & Hb0)%list_elem_of_fmap.
    destruct (Hin _ _ Hb0) as [Hb1 _]. case_bool_decide as Hbk.
    + left. destruct (proj1 (Hkey b0 Hb1) Hbk) as [_ Hbn]. f_equal.
      by apply (NoDup_fmap_inj_in pa_attempt_number (attempts_of i r)).
    + right. split; [done|]. intros Hbn. by apply Hbk, Hkey.
Qed.

(** A new attempt is added. *)
Lemma opens_new i r j a :
  rows_ok r → row_of i r = Some j → pa_publishing_job_id a = i → 0 <= pa_attempt_number a →
  (∀ b, b ∈ attempts_of i r → pa_attempt_number b ≠ pa_attempt_number a) →
  opens i (pa_attempt_number a) r (add_attempt a r) a.
Proof.
  intros Hok Hj Hi Hn Hnew. destruct (view_of_row _ _ _ Hok Hj) as (_ & _ & _ & Hnd & _).
  assert (attempts_of i (add_attempt a r) = attempts_of i r ++ [a]) as Hadd
    by (rewrite attempts_of_add; by rewrite decide_True).
  split; try done.
  - intros k Hne. rewrite attempts_of_add. by rewrite decide_False by congruence.
  - rewrite Hadd, fmap_app. apply NoDup_app. split_and!; [done| |apply NoDup_singleton].
    intros m (b & -> & Hb)%list_elem_of_fmap Hm. apply list_elem_of_singleton in Hm. by apply (Hnew b Hb).
  - rewrite Hadd. apply elem_of_app. right. by apply list_elem_of_singleton.
  - rewrite Hadd. intros b [Hb|Hb]%elem_of_app; [right; by auto|]. left. by apply list_elem_of_singleton in Hb.
Qed.

(** The insertion of an attempt whose key is new. *)
Lemma create_attempt_eq a w j :
  rows_ok (pw_rows w) → row_of (pa_publishing_job_id a) (pw_rows w) = Some j → 0 <= pa_attempt_number a →
  pa_attempt_key a = build_attempt_key (pj_idempotency_key j) (pa_attempt_number a) →
  get_attempt_by_key (pa_attempt_key a) (pw_rows w) = None →
  create_attempt a w = (Ok (), w <| pw_rows ::= add_attempt a |>) ∧
  ∀ b, b ∈ attempts_of (pa_publishing_job_id a) (pw_rows w) → pa_attempt_number b ≠ pa_attempt_number a.
Proof.
  intros Hok Hj Hn Hk Hnone.
  pose proof (attempt_by_key _ (pw_rows w) j (pa_attempt_number a) Hok Hj Hn) as Hkey. rewrite <- Hk in Hkey.
  assert (∀ b, b ∈ rw_attempts (pw_rows w) → pa_attempt_key b ≠ pa_attempt_key a) as Hnk
    by (intros b; by apply get_attempt_by_key_None).
  assert (∀ b, b ∈ attempts_of (pa_publishing_job_id a) (pw_rows w) → pa_attempt_number b ≠ pa_attempt_number a) as Hnn.
  { intros b Hb Hbn. assert (b ∈ rw_attempts (pw_rows w)) as Hb1 by by apply elem_of_attempts_of in Hb as [? _].
    by apply (Hnk b Hb1), Hkey. }
  split; [|done]. unfold create_attempt. rewrite (M_bind_ok _ _ w w w) by done.
  case_match eqn:Ex; [exfalso|done].
  apply existsb_exists in Ex as (b & Hb%list_elem_of_In & Hbb). apply orb_true_iff in Hbb as [Hbb|Hbb].
  - apply bool_decide_eq_true in Hbb. by apply (Hnk b Hb).
  - apply andb_true_iff in Hbb as [Hb1%bool_decide_eq_true Hb2%bool_decide_eq_true].
    apply (Hnn b); [by apply elem_of_attempts_of|done].
Qed.

Lemma prepare_ok cfg time uuid i worker w j (Q : string → World → Prop) (E : exn → World → Prop) :
  rows_ok (pw_rows w) → row_of i (pw_rows w) = Some j → clear i (pw_rows w) →
  (posts_of i (pw_rows w) ≠ [] → ∀ e, E e w) →
  (posts_of i (pw_rows w) = [] → ∀ r' j' a web,
     open_attempt i r' j' a → only_job i (pw_rows w) r' → same_job j j' → pj_retry_count j' = pj_retry_count j →
     Q (pa_attempt_key a) (w <| pw_rows := r' |> <| pw_web := web |>)) →
  wp (prepare_attempt cfg time uuid i worker) Q E w.
Proof.
  intros Hok Hj Hc HE HQ. unfold prepare_attempt. apply wp_bind, wp_get.
  destruct (get_published_post_for_job i (pw_rows w)) as [p|] eqn:Hp.
  { apply wp_raise, HE. intros H%get_post_None. congruence. }
  apply get_post_None in Hp. specialize (HQ Hp). clear HE.
  eapply wp_the_job; [exact Hj|]. cbn zeta. set (n := pj_retry_count j + 1). set (key := build_attempt_key _ n).
  apply wp_now. intros t web. destruct (view_of_row _ _ _ Hok Hj) as (_ & _ & Hr & _).
  set (g := λ j0 : PublishingJob, if PyStr.opt_truthy worker then _ else _).
  assert (∀ j, same_job j (g j) ∧ pj_retry_count (g j) = pj_retry_count j) as Hg.
  { intros j0. unfold g. by case_match. }
  assert (∀ r' a web, opens i n (pw_rows w) r' a → pa_status a = PublishingAttemptStatus.PREPARED →
    pa_attempt_key a = key →
    Q key (w <| pw_rows := set_job i g r' |> <| pw_web := web |>)) as Hend.
  { intros r' a web' Hop Hst Hk. rewrite <- Hk.
    destruct (opens_open_attempt i (pw_rows w) r' j a g) as [Ho1 Ho2]; [done..|]. by apply (HQ _ (g j)); try apply Hg. }
  destruct (get_attempt_by_key key (pw_rows w)) as [a|] eqn:Ea.
  - apply get_attempt_by_key_Some in Ea as [Ha Hak].
    destruct (proj1 (attempt_by_key i (pw_rows w) j n Hok Hj ltac:(lia) a Ha) Hak) as [Hai Han].
    destruct (attempt_ok_clear _ _ _ _ Hok Hj Hc Hai) as (_ & _ & Ho & HS & _). specialize (Ho Han).
    destruct (pa_status a) eqn:Hst; [|by destruct (HS eq_refl)|by destruct Ho..].
    set (f := λ a : PublishingAttempt, _). apply wp_on_rows, wp_on_rows, wp_ret.
    apply (Hend (set_attempt key f (pw_rows w)) (f a) web); [|done..].
    rewrite <- Hak, <- Han. by apply (opens_again i (pw_rows w) j a f).
  - apply wp_bind, wp_row_id. intros u web'. set (new := Build_PublishingAttempt _ _ _ _ _ _ _ _ _ _ _ _ _).
    destruct (create_attempt_eq new (w <| pw_web := web |> <| pw_web := web' |>) j) as [Hce Hnn]; [done|done|simpl; lia|done..|].
    eapply wp_value; [exact Hce|].
    apply wp_on_rows, wp_ret. apply (Hend (add_attempt new (pw_rows w)) new web'); [|done..].
    apply (opens_new i (pw_rows w) j new); [done..|simpl; lia|exact Hnn].
Qed.

(** ** The ends of an attempt *)

Definition same_tables r r' : Prop :=
  rw_jobs r' = rw_jobs r ∧ rw_attempts r' = rw_attempts r ∧ rw_posts r' = rw_posts r.

Lemma same_tables_view k r r' : same_tables r r' → view k r' = view k r.
Proof. intros (H1 & H2 & H3). unfold view, jobs_of, attempts_of, posts_of. by rewrite H1, H2, H3. Qed.

Lemma wp_audit log (Q : unit → World → Prop) E w :
  (∀ r', same_tables (pw_rows w) r' → Q () (w <| pw_rows := r' |>)) → wp (record_audit log) Q E w.
Proof. intros H. by apply wp_modify, (H (_ <| rw_audit ::= _ |>)). Qed.

(** The job and its open attempt change, the posts may grow by one. *)
Lemma close_attempt i r j a f g r' :
  open_attempt i r j a → (∀ a, same_attempt a (f a)) → (∀ j, same_job j (g j)) →
  rw_jobs r' = rw_jobs (set_job i g r) → rw_attempts r' = rw_attempts (set_attempt (pa_attempt_key a) f r) →
  (∀ k, k ≠ i → posts_of k r' = posts_of k r) → (length (posts_of i r') ≤ 1)%nat →
  pj_retry_count j <= pj_retry_count (g j) →
  (pj_retry_count (g j) = pj_retry_count j →
   pa_status (f a) = PublishingAttemptStatus.PREPARED ∨ pa_status (f a) = PublishingAttemptStatus.SUCCEEDED) →
  pj_retry_count (g j) <= pj_retry_count j + 1 →
  (pa_status (f a) = PublishingAttemptStatus.SUCCEEDED → posts_of i r' ≠ []) →
  (ambiguous (f a) → pj_status (g j) = PublishingJobStatus.MANUAL_REQUIRED) →
  rows_ok r' ∧ only_job i r r' ∧ row_of i r' = Some (g j).
Proof.
  intros [Hok Hj Hc Ha Hn Hst Hp] Hf Hg Hjobs Hatt Hpo Hpl Hret Hopen Hret' Hsucc Hamb.
  destruct (view_of_row _ _ _ Hok Hj) as (Hjs & Hid & Hr & _).
  pose proof (opens_again i r j a f Hok Hj Ha Hf) as [_ _ Hoth Hnd' Hin' Hn' Hold].
  set (ra := set_attempt (pa_attempt_key a) f r) in *.
  assert (∀ k, attempts_of k r' = attempts_of k ra) as Hatt' by (intros k; unfold attempts_of; by rewrite Hatt).
  assert (only_job i r r') as Ho.
  { destruct (only_set_job i g r Hg) as [Hv Hkk]. split; [|by rewrite Hjobs].
    intros k Hk. specialize (Hv k Hk). injection Hv as Hv. unfold view. rewrite Hatt', Hoth, Hpo by done.
    replace (jobs_of k r') with (jobs_of k (set_job i g r)) by (unfold jobs_of; by rewrite Hjobs). by rewrite Hv. }
  assert (jobs_of i r' = [g j]) as Hjs'.
  { pose proof (view_set_job i g r j Hok Hj Hg) as Hv. injection Hv as Hv. rewrite <- Hv. unfold jobs_of. by rewrite Hjobs. }
  split_and!; [|done|by rewrite row_of_jobs_of, Hjs'].
  apply (rows_ok_only i r); [done..|]. unfold view. rewrite Hjs', Hatt'. split_and!; [lia|done| |done].
  assert (∀ b, b ∈ attempts_of i ra → pa_attempt_number b <= pa_attempt_number (f a)) as Hmax.
  { intros b Hb. rewrite Hn', Hn. destruct (Hold b Hb) as [->|[Hb1 _]]; [lia|].
    by destruct (attempt_ok_clear _ _ _ _ Hok Hj Hc Hb1) as (_ & ? & _); lia. }
  apply Forall_forall. intros b Hb. destruct (Hold b Hb) as [->|[Hb1 Hb2]].
  - destruct (Hf a) as (_ & Hk & _). destruct (attempt_ok_clear _ _ _ _ Hok Hj Hc Ha) as (Hka & ? & _).
    split; rewrite ?Hn'; [|lia| |done|].
    + rewrite Hk, Hka. by destruct (Hg j) as [_ ->].
    + intros E. apply Hopen. lia.
    + intros Hfa. split; [by apply Hamb|]. rewrite <- Hn'. by apply Forall_forall.
  - destruct (attempt_ok_clear _ _ _ _ Hok Hj Hc Hb1) as (Hkb & Hnb & _ & HS & Hna). rewrite Hp in HS.
    split; [|lia|lia|by intros ?%HS|by intros ?%Hna]. rewrite Hkb. by destruct (Hg j) as [_ ->].
Qed.

Lemma fail_job_same m t n key msg c j :
  same_job j (fail_job m t n key msg c j) ∧
  pj_retry_count (fail_job m t n key msg c j) = Z.max (pj_retry_count j) n ∧
  (c = AMBIGUOUS → pj_status (fail_job m t n key msg c j) = PublishingJobStatus.MANUAL_REQUIRED).
Proof. unfold fail_job. repeat case_bool_decide; simpl; try case_match; by repeat split. Qed.

Lemma open_attempt_by_key i r j a : open_attempt i r j a → get_attempt_by_key (pa_attempt_key a) r = Some a.
Proof.
  intros [Hok Hj _ Hin _ _ _]. pose proof Hin as [Ha Hai]%elem_of_attempts_of.
  destruct (get_attempt_by_key (pa_attempt_key a) r) as [b|] eqn:Eb; [|by apply (get_attempt_by_key_None _ _ a) in Eb].
  apply get_attempt_by_key_Some in Eb as [Hb Hbk]. f_equal.
  destruct (view_of_row _ _ _ Hok Hj) as (_ & _ & Hr & Hnd & Hao & _).
  rewrite Forall_forall in Hao. destruct (Hao a Hin) as [Hk Hb1 _ _ _]. rewrite Hk in Hbk.
  apply (attempt_by_key i r j (pa_attempt_number a) Hok Hj ltac:(lia) b Hb) in Hbk as [Hbi Hbn].
  by apply (NoDup_fmap_inj_in pa_attempt_number (attempts_of i r)).
Qed.

Definition fail_attempt (now : Z) (message : string) (c : PublishErrorClass) (a : PublishingAttempt) : PublishingAttempt :=
  a <| pa_finished_at := Some now |> <| pa_error_class := Some (error_class_value c) |>
    <| pa_error_message := Some message |> <| pa_status := failed_attempt_status c |>.

(** The rows after a failure, without the audit. *)
Definition failed_rows cfg now i a message c r : Rows :=
  set_attempt (pa_attempt_key a) (fail_attempt now message c)
    (set_job i (fail_job (PUBLISHING_MAX_ATTEMPTS cfg) now (pa_attempt_number a) (pa_attempt_key a) message c) r).

Lemma row_of_failed cfg now i j a message c r :
  row_of i r = Some j →
  row_of i (failed_rows cfg now i a message c r) =
    Some (fail_job (PUBLISHING_MAX_ATTEMPTS cfg) now (pa_attempt_number a) (pa_attempt_key a) message c j).
Proof.
  intros Hrow. set (g := fail_job _ _ _ _ _ _). change (row_of i (set_job i g r) = Some (g j)).
  rewrite row_of_set_job by (intros; by apply fail_job_same). by rewrite decide_True, Hrow.
Qed.

Lemma finalize_failure_eq cfg time i w j a e c :
  open_attempt i (pw_rows w) j a →
  let now := time (web_ticks (pw_web w)) in
  ∃ r', finalize_failure cfg time i (pa_attempt_key a) e c w =
          (Ok (), w <| pw_rows := r' |> <| pw_web ::= λ v, v <| web_ticks ::= S |> |>) ∧
        same_tables (failed_rows cfg now i a (PyStr.take 500 (Execute.Execute.exn_text e)) c (pw_rows w)) r'.
Proof.
  intros Hopen now. pose proof (open_attempt_by_key _ _ _ _ Hopen) as Hka. set (msg := PyStr.take 500 _).
  pose proof (row_of_failed cfg now i j a msg c _ (oa_row _ _ _ _ Hopen)) as Hrow.
  set (r1 := failed_rows cfg now i a msg c (pw_rows w)) in *. set (g := fail_job _ _ _ _ _ _) in Hrow.
  set (w1 := w <| pw_web ::= λ v, v <| web_ticks ::= S |> |>). set (w2 := w1 <| pw_rows := r1 |>).
  unfold finalize_failure. rewrite (M_bind_ok _ _ w now w1) by done. cbn zeta.
  rewrite (M_bind_ok (the_attempt _) _ w1 a w1)
    by (unfold the_attempt; rewrite (M_bind_ok _ _ w1 w1 w1) by done; change (pw_rows w1) with (pw_rows w); by rewrite Hka).
  rewrite (M_bind_ok (assign_job _ _) _ w1 () (w1 <| pw_rows ::= set_job i g |>)) by done.
  rewrite (M_bind_ok (assign_attempt _ _) _ _ () w2) by done.
  rewrite (M_bind_ok (the_job i) _ w2 (g j) w2)
    by (unfold the_job; rewrite (M_bind_ok _ _ w2 w2 w2) by done; change (pw_rows w2) with r1; by rewrite Hrow).
  case_bool_decide; [|by exists r1]. by eexists (r1 <| rw_audit ::= λ l, l ++ [_] |>).
Qed.

Lemma finalize_failure_ok cfg time i w j a e c (Q : unit → World → Prop) E :
  open_attempt i (pw_rows w) j a →
  (∀ r' j' web, rows_ok r' → only_job i (pw_rows w) r' → row_of i r' = Some j' → posts_of i r' = [] →
     Q () (w <| pw_rows := r' |> <| pw_web := web |>)) →
  wp (finalize_failure cfg time i (pa_attempt_key a) e c) Q E w.
Proof.
  intros Hopen HQ. destruct (finalize_failure_eq cfg time i w j a e c Hopen) as (r' & Heq & S1 & S2 & S3).
  eapply wp_value; [exact Heq|]. set (now := time _) in *. set (msg := PyStr.take 500 _) in *.
  set (g := fail_job (PUBLISHING_MAX_ATTEMPTS cfg) now (pa_attempt_number a) (pa_attempt_key a) msg c).
  pose proof (fail_job_same (PUBLISHING_MAX_ATTEMPTS cfg) now (pa_attempt_number a) (pa_attempt_key a) msg c j)
    as (_ & Hs2 & Hs3). fold g in Hs2, Hs3. rewrite (oa_number _ _ _ _ Hopen) in Hs2.
  assert (posts_of i r' = []) as Hp' by (unfold posts_of; rewrite S3; apply (oa_posts _ _ _ _ Hopen)).
  destruct (close_attempt i (pw_rows w) j a (fail_attempt now msg c) g r') as (Hok & Ho & Hrow);
    [done|done|intros; apply fail_job_same|done|done| | |lia|lia|lia| | |].
  - intros k _. unfold posts_of. by rewrite S3.
  - rewrite Hp'. simpl. lia.
  - intros Hst. exfalso. by destruct c.
  - intros Hst. apply Hs3. by destruct c.
  - by apply (HQ r' (g j)).
Qed.

Lemma open_set_job i r j a g :
  open_attempt i r j a → (∀ j, same_job j (g j) ∧ pj_retry_count (g j) = pj_retry_count j) →
  open_attempt i (set_job i g r) (g j) a.
Proof.
  intros [Hok Hj Hc Ha Hn Hst Hp] Hg. split; try done.
  - apply (set_job_ok _ _ _ j); [done..|intros; apply Hg|apply Hg|by intros ?%Hc].
  - rewrite row_of_set_job by (intros; apply Hg). by rewrite decide_True, Hj.
  - rewrite Hn. by destruct (Hg j) as [_ ->].
Qed.

Lemma wp_mark_published t cj plans (Q : unit → World → Prop) E w :
  (∀ r', same_tables (pw_rows w) r' → Q () (w <| pw_rows := r' |>)) → wp (mark_published t cj plans) Q E w.
Proof.
  intros H. unfold mark_published.
  assert (Q () w) as HQ by (specialize (H (pw_rows w) ltac:(done)); by destruct w).
  destruct cj as [cj|]; [|by apply wp_ret]. case_match; [|by apply wp_ret]. by apply wp_modify, (H (_ <| rw_clusters ::= _ |>)).
Qed.

Lemma posts_of_add k p r :
  posts_of k (r <| rw_posts ::= λ l, l ++ [p] |>) =
    if decide (pp_publishing_job_id p = k) then posts_of k r ++ [p] else posts_of k r.
Proof.
  unfold posts_of. simpl. rewrite List.filter_app. simpl. case_bool_decide; case_decide; try done. by rewrite app_nil_r.
Qed.

Lemma finalize_success_ok time uuid lib plans t i w j a p (Q : unit → World → Prop) E :
  open_attempt i (pw_rows w) j a →
  (∀ r' j' web, rows_ok r' → only_job i (pw_rows w) r' → row_of i r' = Some j' → posts_of i r' ≠ [] →
     Q () (w <| pw_rows := r' |> <| pw_web := web |>)) →
  wp (finalize_success time uuid lib plans t i (pa_attempt_key a) p) Q E w.
Proof.
  intros Hopen HQ. unfold finalize_success. apply wp_now. intros now web. cbn zeta.
  set (g := succeed_job _ _ _). set (f := λ a : PublishingAttempt, _). apply wp_on_rows, wp_on_rows.
  set (r1 := set_attempt (pa_attempt_key a) f (set_job i g (pw_rows w))).
  assert (row_of i r1 = Some (g j)) as Hrow.
  { change (row_of i r1) with (row_of i (set_job i g (pw_rows w))). rewrite row_of_set_job by done.
    by rewrite decide_True, (oa_row _ _ _ _ Hopen). }
  eapply wp_the_job; [exact Hrow|]. apply wp_bind, wp_get.
  assert (posts_of i r1 = []) as Hp1 by exact (oa_posts _ _ _ _ Hopen).
  apply wp_bind. destruct (get_published_post_for_job i _) as [x|] eqn:Ex.
  { apply (proj2 (get_post_None i r1)) in Hp1. change (get_published_post_for_job i r1 = Some x) in Ex. congruence. }
  apply wp_row_id. intros u web'. apply wp_on_rows_tail. set (post := Build_PublishedPost _ _ _ _ _ _ _ _ _ _ _ _ _ _).
  apply wp_bind, wp_audit. intros r2 Hr2. apply wp_mark_published. intros r3 Hr3.
  assert (same_tables (r1 <| rw_posts ::= λ l, l ++ [post] |>) r3) as (S1 & S2 & S3).
  { destruct Hr2 as (A1 & A2 & A3), Hr3 as (B1 & B2 & B3). split_and!; by etransitivity. }
  assert (∀ k, posts_of k r3 = if decide (i = k) then posts_of k (pw_rows w) ++ [post] else posts_of k (pw_rows w)) as Hpo.
  { intros k. pose proof (posts_of_add k post r1) as H. unfold posts_of in *. by rewrite S3, H. }
  assert (posts_of i r3 = [post]) as Hpi by (rewrite Hpo, decide_True by done; by rewrite (oa_posts _ _ _ _ Hopen)).
  destruct (close_attempt i (pw_rows w) j a f g r3) as (? & ? & ?);
    [done|done|done|done|done| |by rewrite Hpi|done|by right|simpl; lia|by rewrite Hpi|done|].
  - intros k Hk. rewrite Hpo. by rewrite decide_False.
  - apply (HQ r3 (g j) web'); [done..|]. by rewrite Hpi.
Qed.
(** ** Failures *)

(** A failed attempt: an ambiguous failure leaves the job to an operator, a
    permanent one or the last allowed attempt puts it among the dead letters,
    and any other makes it due again after [2 ^ n] minutes, [n] the number of
    the attempt.  The lease is released, the attempt is counted and keeps what
    went wrong, and no post comes of it. *)
Theorem finalize_failure_spec cfg time i w j a e c :
  open_attempt i (pw_rows w) j a →
  ∃ now w' j' a', finalize_failure cfg time i (pa_attempt_key a) e c w = (Ok (), w') ∧
    row_of i (pw_rows w') = Some j' ∧ get_attempt_by_key (pa_attempt_key a) (pw_rows w') = Some a' ∧
    posts_of i (pw_rows w') = [] ∧ pj_retry_count j' = pa_attempt_number a ∧
    (pj_claimed_at j', pj_claim_expires_at j', pj_worker_id j') = (None, None, None) ∧
    pa_error_message a' = Some (PyStr.take 500 (Execute.Execute.exn_text e)) ∧ pa_finished_at a' = Some now ∧
    match c with
    | AMBIGUOUS =>
        pj_status j' = PublishingJobStatus.MANUAL_REQUIRED ∧ pa_status a' = PublishingAttemptStatus.AMBIGUOUS
    | PERMANENT =>
        pj_status j' = PublishingJobStatus.DEAD ∧ pa_status a' = PublishingAttemptStatus.FAILED_PERMANENT ∧
        pj_dead_lettered_at j' = Some now
    | TRANSIENT =>
        pa_status a' = PublishingAttemptStatus.FAILED_TRANSIENT ∧
        if PUBLISHING_MAX_ATTEMPTS cfg <=? pa_attempt_number a
        then pj_status j' = PublishingJobStatus.DEAD ∧ pj_dead_lettered_at j' = Some now
        else pj_status j' = PublishingJobStatus.SCHEDULED ∧
             pj_scheduled_for j' = Some (now + seconds (60 * 2 ^ pa_attempt_number a))
    end.
Proof.
  intros Hopen. destruct (finalize_failure_eq cfg time i w j a e c Hopen) as (r' & Heq & S1 & S2 & S3).
  set (now := time _) in *. set (msg := PyStr.take 500 _) in *. rewrite Heq.
  pose proof (fail_job_same (PUBLISHING_MAX_ATTEMPTS cfg) now (pa_attempt_number a) (pa_attempt_key a) msg c j)
    as (_ & Hret & _). pose proof (oa_number _ _ _ _ Hopen) as Hn.
  exists now, (w <| pw_rows := r' |> <| pw_web ::= λ v, v <| web_ticks ::= S |> |>).
  eexists _, (fail_attempt now msg c a). split_and!; [done|..].
  - rewrite <- (row_of_failed cfg now i j a msg c _ (oa_row _ _ _ _ Hopen)). unfold row_of. simpl. by rewrite S1.
  - change (Models.row_by pa_attempt_key (pa_attempt_key a) (rw_attempts r') = Some (fail_attempt now msg c a)).
    rewrite S2. unfold failed_rows. simpl. rewrite Models.row_by_set_row by done. rewrite decide_True by done.
    pose proof (open_attempt_by_key _ _ _ _ Hopen) as Hka. unfold get_attempt_by_key in Hka.
    unfold Models.row_by. by rewrite Hka.
  - unfold posts_of. simpl. rewrite S3. exact (oa_posts _ _ _ _ Hopen).
  - lia.
  - unfold fail_job. by repeat case_match.
  - done.
  - done.
  - unfold fail_job. destruct c; cbn; [|done|done]. split; [done|]. by destruct (_ <=? _).
Qed.
(** ** Ambiguous attempts *)

(** The guard of [prepare_attempt] against an ambiguous attempt never
    fires: it looks at the attempt with the next number, and an ambiguous
    attempt has been counted.  A job whose last attempt is ambiguous is prepared
    again under a new key. *)
Theorem ambiguous_attempt_is_no_guard cfg time uuid i worker w j a :
  rows_ok (pw_rows w) → row_of i (pw_rows w) = Some j → posts_of i (pw_rows w) = [] →
  a ∈ attempts_of i (pw_rows w) → ambiguous a →
  ∃ key w' j', prepare_attempt cfg time uuid i worker w = (Ok key, w') ∧
    key = build_attempt_key (pj_idempotency_key j) (pj_retry_count j + 1) ∧ key ≠ pa_attempt_key a ∧
    row_of i (pw_rows w') = Some j' ∧ pj_status j' = PublishingJobStatus.RUNNING.
Proof.
  intros Hok Hj Hp Ha Hamb. destruct (view_of_row _ _ _ Hok Hj) as (_ & Hid & Hr & _ & Hao & _).
  rewrite Forall_forall in Hao. destruct (Hao a Ha) as [Hk Hn Ho _ Hmax].
  assert (pa_attempt_number a ≤ pj_retry_count j) as Hle.
  { destruct (decide (pa_attempt_number a = pj_retry_count j + 1)) as [E|]; [|lia].
    unfold ambiguous in Hamb. rewrite Hamb in Ho. by destruct (Ho E). }
  destruct (Hmax Hamb) as [_ Hall]. rewrite Forall_forall in Hall.
  set (key := build_attempt_key (pj_idempotency_key j) (pj_retry_count j + 1)).
  assert (get_attempt_by_key key (pw_rows w) = None) as Hnone.
  { destruct (get_attempt_by_key key (pw_rows w)) as [b|] eqn:Eb; [|done].
    apply get_attempt_by_key_Some in Eb as [Hb Hbk].
    apply (attempt_by_key i (pw_rows w) j (pj_retry_count j + 1) Hok Hj ltac:(lia) b Hb) in Hbk as [Hbi Hbn].
    specialize (Hall b Hbi). simpl in Hall. lia. }
  assert (wp (prepare_attempt cfg time uuid i worker)
    (λ k w', k = key ∧ ∃ j', row_of i (pw_rows w') = Some j' ∧ pj_status j' = PublishingJobStatus.RUNNING)
    (λ _ _, False) w) as Hwp.
  { unfold prepare_attempt. apply wp_bind, wp_get. rewrite (proj2 (get_post_None _ _) Hp).
    eapply wp_the_job; [exact Hj|]. cbn zeta. apply wp_now. intros t web. fold key. rewrite Hnone.
    apply wp_bind, wp_row_id. intros u web'. set (new := Build_PublishingAttempt _ _ _ _ _ _ _ _ _ _ _ _ _).
    destruct (create_attempt_eq new (w <| pw_web := web |> <| pw_web := web' |>) j) as [Hce _];
      [done|done|simpl; lia|done..|].
    eapply wp_value; [exact Hce|]. apply wp_on_rows, wp_ret. split; [done|]. match goal with |- context [set_field rw_jobs (Models.set_row pj_id i ?f)] => set (g := f) end.
    exists (g j). split; [|unfold g; by case_match].
    change (row_of i (set_job i g (pw_rows w)) = Some (g j)). rewrite row_of_set_job by (intros; unfold g; by case_match).
    by rewrite decide_True, Hj. }
  unfold wp in Hwp. destruct (prepare_attempt cfg time uuid i worker w) as [[k|e] w'] eqn:E; [|done].
  destruct Hwp as [-> (j' & ? & ?)]. exists key, w', j'. split_and!; try done.
  rewrite Hk. intros Hkk. apply attempt_key_inj in Hkk as [_ ?]; lia.
Qed.

End one_job.

(** ** A job with one attempt *)

(** Rows of a single job. *)
Lemma single_job_ok j attempts ps clusters audit :
  Forall (λ a, pa_publishing_job_id a = pj_id j) attempts → Forall (λ p, pp_publishing_job_id p = pj_id j) ps →
  view_ok ([j], attempts, ps) → rows_ok (Build_Rows [j] attempts ps clusters audit).
Proof.
  intros Ha Hp Hv. split; [|apply NoDup_singleton]. intros k.
  assert (∀ {A} (f : A → string) l, Forall (λ x, f x = pj_id j) l →
    List.filter (λ x, bool_decide (f x = k)) l = if decide (pj_id j = k) then l else []) as Hf.
  { intros A g l Hall. induction Hall as [|x l Hx _ IH]; [by case_decide|]. simpl. rewrite Hx, IH.
    case_bool_decide; by case_decide. }
  unfold view, jobs_of, attempts_of, posts_of. cbn [rw_jobs rw_attempts rw_posts].
  rewrite (Hf _ pj_id [j]) by by repeat constructor. rewrite !Hf by done. by case_decide.
Qed.

Definition ex_job (status : PublishingJobStatus.t) (retries : Z) : PublishingJob := {|
  pj_id := "j1"; pj_tenant_id := "t"; pj_content_job_id := "c1"; pj_social_account_id := Some "a1";
  pj_content_variant_id := None; pj_connected_account_id := None; pj_approval_request_id := None;
  pj_platform := "x"; pj_status := status; pj_provider := "x"; pj_idempotency_key := "k"; pj_dry_run := false;
  pj_scheduled_for := None; pj_published_at := None; pj_claimed_at := Some 0; pj_claim_expires_at := Some 900;
  pj_worker_id := Some "w"; pj_retry_count := retries; pj_dead_lettered_at := None; pj_dead_letter_reason := None;
  pj_failure_reason := None; pj_provider_payload := []; pj_external_post_id := None; pj_external_post_url := None;
  pj_current_attempt_key := Some "k:attempt:1"; pj_created_at := 0 |}.
Definition ex_attempt (status : PublishingAttemptStatus.t) : PublishingAttempt := {|
  pa_id := "p1"; pa_publishing_job_id := "j1"; pa_attempt_number := 1; pa_attempt_key := "k:attempt:1";
  pa_status := status; pa_worker_id := Some "w"; pa_error_class := None; pa_error_message := None;
  pa_external_post_id := None; pa_external_post_url := None; pa_provider_payload := []; pa_started_at := 0;
  pa_finished_at := None |}.
Definition ex_rows (status : PublishingJobStatus.t) (retries : Z) (attempt : PublishingAttemptStatus.t) : Rows :=
  Build_Rows [ex_job status retries] [ex_attempt attempt] [] [] [].
Definition ex_session (r : Rows) : World := Build_World r r ∅ (Build_Web [] 0 0) [].
Definition ex_settings : PublishingSettings := Build_PublishingSettings 50 900 3 30 10.

Lemma ex_open :
  open_attempt "j1" (ex_rows PublishingJobStatus.RUNNING 0 PublishingAttemptStatus.PREPARED)
    (ex_job PublishingJobStatus.RUNNING 0) (ex_attempt PublishingAttemptStatus.PREPARED).
Proof.
  split; try done; [|by intros [[=]|H%Exists_nil]%Exists_cons|by left].
  apply single_job_ok; [by repeat constructor..|]. split_and!; [done|apply NoDup_singleton| |simpl; lia].
  repeat constructor; simpl; try done; auto.
Qed.

Lemma ex_ambiguous_ok : rows_ok (ex_rows PublishingJobStatus.MANUAL_REQUIRED 1 PublishingAttemptStatus.AMBIGUOUS).
Proof.
  apply single_job_ok; [by repeat constructor..|]. split_and!; [done|apply NoDup_singleton| |simpl; lia].
  repeat constructor; simpl; try done; lia.
Qed.

Lemma finalize_failure_spec_witness :
  ∃ now w' j', finalize_failure ex_settings (λ n, Z.of_nat n) "j1" "k:attempt:1" (OtherException "ReadError" "reset")
      TRANSIENT (ex_session (ex_rows PublishingJobStatus.RUNNING 0 PublishingAttemptStatus.PREPARED)) = (Ok (), w') ∧
    row_of "j1" (pw_rows w') = Some j' ∧ pj_status j' = PublishingJobStatus.SCHEDULED ∧
    pj_scheduled_for j' = Some (now + seconds 120).
Proof.
  destruct (finalize_failure_spec ex_settings (λ n, Z.of_nat n) "j1"
    (ex_session (ex_rows PublishingJobStatus.RUNNING 0 PublishingAttemptStatus.PREPARED))
    (ex_job PublishingJobStatus.RUNNING 0) (ex_attempt PublishingAttemptStatus.PREPARED)
    (OtherException "ReadError" "reset") TRANSIENT ex_open)
    as (now & w' & j' & a' & H & Hj & _ & _ & _ & _ & _ & _ & _ & Hs & Ht).
  by exists now, w', j'.
Defined.

Lemma ambiguous_attempt_is_no_guard_witness :
  ∃ w', prepare_attempt ex_settings (λ n, Z.of_nat n) (λ _, "p2") "j1" (Some "w")
      (ex_session (ex_rows PublishingJobStatus.MANUAL_REQUIRED 1 PublishingAttemptStatus.AMBIGUOUS)) =
    (Ok "k:attempt:2", w').
Proof.
  destruct (ambiguous_attempt_is_no_guard ex_settings (λ n, Z.of_nat n) (λ _, "p2") "j1" (Some "w")
    (ex_session (ex_rows PublishingJobStatus.MANUAL_REQUIRED 1 PublishingAttemptStatus.AMBIGUOUS))
    (ex_job PublishingJobStatus.MANUAL_REQUIRED 1) (ex_attempt PublishingAttemptStatus.AMBIGUOUS)
    ex_ambiguous_ok eq_refl eq_refl ltac:(by left) eq_refl) as (key & w' & j' & H & -> & _).
  by exists w'.
Defined.
End PublishingRows.
