(* ===== verification/Publisher.v ===== *)
(** * Publishing a job (publishing/job_executor.py,
    publishing/publish_orchestration.py, workers/task_defs/publishing.py)

    The execution of one job with its commits around the call of the provider,
    the worker's round over the due jobs, and the operator's calls: publish,
    cancel and retry. *)
From S2P Require Import Prelude PyStr Json Calendar Tables RunModels Quota Accounts Providers Variants Publishing.
From stdpp Require Import sorting gmap strings.

Module Publisher.
Import Accounts Providers Variants Publishing.
Local Open Scope string_scope.
Local Open Scope list_scope.
Local Open Scope Z_scope.

(** What publishing is surrounded by: the settings, the web, the clock, the
    ids, SHA-256, the reader of UUIDs, the secrets, the cached lookup from a
    content plan to its cluster, the JSON printer and the time zones. *)
Record Environment := {
  ev_publishing : PublishingSettings;
  ev_web : WebSettings;
  ev_rollout : RolloutSettings;
  ev_answer : nat → Request → result Response;
  ev_time : nat → Z;
  ev_uuid : nat → string;
  ev_sha256_hex : string → string;
  ev_uuid_of_text : string → option string;
  ev_decrypt_secret : string → string;
  ev_resolve_secret_reference : string → option string;
  ev_cluster_of_plan : string → string → option string;
  ev_dumps_sorted : json → string;
  ev_tenant_timezone : string → option string;
  ev_local_to_utc : string → option (Z → Z);
}.

(** [payload.scheduled_for]: an instant with a time zone, or a local time. *)
Inductive ScheduledFor := Aware (utc : Z) | Naive (local : Z).

Record PublishNowRequest := {
  pq_content_job_id : string;
  pq_platforms : list string;
  pq_social_account_ids : list string;
  pq_content_variant_ids : list string;
  pq_scheduled_for : option ScheduledFor;
  pq_dry_run : bool;
  pq_idempotency_key : option string;
}.

Record PublishingJobActionResponse := {
  ra_job_id : string;
  ra_status : PublishingJobStatus.t;
  ra_detail : string;
}.

Section publisher.
Context (env : Environment) (lib : Library).

Definition utc_now : M World Z := now_utc (ev_time env).

(** ** job_executor.py *)

(** The job is put off when the account has used up its quota. *)
Definition maybe_defer_rate_limit (tenant_id job_id : string) (commit_boundaries : bool) : M World bool :=
  job ← the_job job_id;
  match pj_social_account_id job with
  | None => mret false
  | Some account_id =>
      match get_social_account tenant_id account_id (lb_accounts lib) with
      | None => mret false
      | Some account =>
          t ← utc_now; t' ← utc_now;
          quota ← on_counters (Quota.consume_publish_quota
            (PUBLISHING_ACCOUNT_MAX_PUBLISHES_PER_HOUR (ev_publishing env)) t t' tenant_id (sa_id account)
            (sa_settings account));
          if Quota.qd_allowed quota then mret false
          else
            now ← utc_now;
            let at_ := now + seconds (Quota.qd_retry_after_seconds quota) in
            _ ← assign_job job_id (λ j,
                  add_payload [("account_rate_limited", JStr "true"); ("social_account_id", JStr (sa_id account));
                               ("retry_after_seconds", JStr (PyStr.of_Z (Quota.qd_retry_after_seconds quota)));
                               ("next_retry_at", JStr (Calendar.isoformat_utc at_))]
                    (release (j <| pj_status := PublishingJobStatus.SCHEDULED |>
                                <| pj_scheduled_for := Some at_ |>)));
            _ ← (if commit_boundaries then commit else mret ());
            mret true
      end
  end.

Definition fail_and_raise {A} (job_id attempt_key : string) (e : exn) (c : PublishErrorClass)
    (commit_boundaries : bool) : M World A :=
  _ ← finalize_failure (ev_publishing env) (ev_time env) job_id attempt_key e c;
  _ ← (if commit_boundaries then commit else mret ());
  raise e.

Definition resolve_access_token (token_row : option SocialAccountToken) : string :=
  let access_token := match token_row with
                      | Some t => ev_decrypt_secret env (tk_access_token_encrypted t) | None => "" end in
  if PyStr.startswith "secret-ref:" access_token
  then or_empty (ev_resolve_secret_reference env (drop 11 access_token))
  else access_token.

(** [str(risk_review.get("label") or grounding.get("risk_label") or "low")] *)
Definition risk_label_from_content_job (cj : ContentJob) : result string :=
  let grounding := Json.as_dict (cj_grounding_bundle cj) in
  label ← json_get "label" JNull (default (JObj []) (Dict.get "risk_review" grounding));
  mret (Json.str (if Json.truthy label then label else Json.get_or "risk_label" grounding (JStr "low"))).

Definition resolve_publish_assets (tenant_id : string) (job : PublishingJob) (assets : list Asset) : list Asset :=
  let snapshot :=
    match snapshot_from_provider_payload (ev_uuid_of_text env) (pj_provider_payload job) with
    | Some s => Some s
    | None => match pj_content_variant_id job with
              | Some v => get_snapshot tenant_id v (lb_variants lib)
              | None => None
              end
    end in
  match snapshot with Some s => assets_from_variant_snapshot s assets | None => assets end.

(** The call of [publish_now] is logged with the job it is for. *)
Definition run_provider_publish (provider : PublishingProvider) (account : SocialAccount) (assets : list Asset)
    (job_id attempt_key : string) (use_stub : bool) : M World (AuthValidationResult * DraftResult * PublishResult) :=
  let validation := validate_auth provider account in
  if negb (av_is_valid validation) && negb use_stub then
    raise (HTTPException 400 (if PyStr.opt_truthy (av_detail validation) then or_empty (av_detail validation)
                              else "Publishing credentials are invalid"))
  else
    let draft := create_draft provider assets in
    _ ← modify (λ w, w <| pw_calls ::= λ l, l ++ [(job_id, attempt_key)] |>);
    result ← on_web (publish_now provider account assets attempt_key);
    let result :=
      if negb (PyStr.opt_truthy (pr_external_post_url result)) && PyStr.opt_truthy (pr_external_post_id result)
      then result <| pr_external_post_url :=
                       fetch_post_url provider account (pr_external_post_id result) (pr_payload result) |>
      else result in
    mret (validation, draft, result).

Definition is_stub (account : SocialAccount) : bool :=
  bool_decide (Dict.get "mode" (sa_account_metadata account) = Some (JStr "stub")).

Definition provider_for (platform : string) (account : SocialAccount) (access_token : string) (dry_run : bool) :
    PublishingProvider :=
  get_provider (ev_web env) (ev_answer env) (ev_time env) (ev_uuid env) (ev_sha256_hex env)
    platform (is_stub account) access_token (or_empty (sa_account_external_id account)) dry_run.

Definition publish_job (tenant_id job_id : string) (worker_id : option string) (commit_boundaries : bool) :
    M World unit :=
  deferred ← maybe_defer_rate_limit tenant_id job_id commit_boundaries;
  if deferred : bool then mret ()
  else
    attempt_key ← prepare_attempt (ev_publishing env) (ev_time env) (ev_uuid env) job_id worker_id;
    _ ← (if commit_boundaries then commit else mret ());
    job ← the_job job_id;
    let social_account :=
      match pj_social_account_id job with
      | Some account_id => get_social_account tenant_id account_id (lb_accounts lib)
      | None => None
      end in
    match social_account with
    | None =>
        fail_and_raise job_id attempt_key (HTTPException 400 "No connected social account for publishing job")
          PERMANENT commit_boundaries
    | Some account =>
        match get_job tenant_id (pj_content_job_id job) (lb_content_jobs lib) with
        | None =>
            fail_and_raise job_id attempt_key (HTTPException 404 "Content job not found") PERMANENT commit_boundaries
        | Some content_job =>
            label ← lift (risk_label_from_content_job content_job);
            if bool_decide (label = "blocked") then
              fail_and_raise job_id attempt_key
                (HTTPException 422 "Risk review blocked this content from publishing") PERMANENT commit_boundaries
            else
              let assets := resolve_publish_assets tenant_id job (list_assets (cj_id content_job) (lb_assets lib)) in
              let access_token := resolve_access_token (get_token_for_account (sa_id account) (lb_tokens lib)) in
              let provider := provider_for (pj_platform job) account access_token (pj_dry_run job) in
              '(validation, draft, result) ←
                except_exception (run_provider_publish provider account assets job_id attempt_key (is_stub account))
                  (λ e, fail_and_raise job_id attempt_key e (classify_publish_error e) commit_boundaries);
              let post_type :=
                if existsb (λ a, bool_decide (as_asset_type a = "video")) assets then "video" else "text" in
              _ ← assign_job job_id (λ j, j <| pj_provider := platform provider |>);
              _ ← finalize_success (ev_time env) (ev_uuid env) lib (ev_cluster_of_plan env) tenant_id job_id
                    attempt_key
                    {| pu_account := account; pu_result := result; pu_draft_preview := dr_preview_text draft;
                       pu_draft_status := dr_status draft; pu_auth_status := av_account_status validation;
                       pu_post_type := post_type |};
              if commit_boundaries then commit else mret ()
        end
    end.

(** ** publish_orchestration.py *)

(** The worker's round; the result is the jobs published or put off. *)
Fixpoint execute_claimed (worker_id : string) (claimed : list string) : M World (list string) :=
  match claimed with
  | [] => mret []
  | job_id :: claimed' =>
      executed ← except_exception
        (job ← the_job job_id;
         _ ← publish_job (pj_tenant_id job) job_id (Some worker_id) true;
         mret [job_id])
        (λ _, mret []);
      rest ← execute_claimed worker_id claimed';
      mret (executed ++ rest)
  end.

Definition execute_due_jobs (locked : string → bool) (worker_id : string) : M World (list string) :=
  claimed ← claim_due_jobs (ev_publishing env) (ev_time env) locked worker_id None None;
  _ ← commit;
  execute_claimed worker_id claimed.

(** The task of the worker; [acquired] is the lock on the round. *)
Definition publish_due_jobs_task (acquired : bool) (locked : string → bool) (request_id : option string) :
    M World (list string) :=
  let worker_id := if PyStr.opt_truthy request_id then or_empty request_id else "beat-worker" in
  in_session (if acquired then execute_due_jobs locked worker_id else mret []).

Definition CANCELLABLE : list PublishingJobStatus.t :=
  [PublishingJobStatus.SCHEDULED; PublishingJobStatus.PENDING; PublishingJobStatus.FAILED].

Definition cancel_scheduled_job (tenant_id job_id : string) : M World PublishingJobActionResponse :=
  w ← get_state;
  match get_publishing_job tenant_id job_id (pw_rows w) with
  | None => raise (HTTPException 404 "Publishing job not found")
  | Some job =>
      if negb (bool_decide (pj_status job ∈ CANCELLABLE)) then
        raise (HTTPException 409 "Only pending or scheduled jobs can be cancelled")
      else
        _ ← assign_job job_id (λ j,
              add_payload [("recovery_actions", JStr "retry_publish")]
                (release (j <| pj_status := PublishingJobStatus.CANCELLED |>
                            <| pj_failure_reason := Some "cancelled_by_operator" |> <| pj_scheduled_for := None |>)));
        mret {| ra_job_id := job_id; ra_status := PublishingJobStatus.CANCELLED;
                ra_detail := "Publishing job cancelled" |}
  end.

Definition RETRYABLE : list PublishingJobStatus.t :=
  [PublishingJobStatus.FAILED; PublishingJobStatus.DEAD; PublishingJobStatus.CANCELLED;
   PublishingJobStatus.MANUAL_REQUIRED].

(** The quota of retries of the job's account, if it has one. *)
Definition check_retry_quota (tenant_id : string) (job : PublishingJob) : M World unit :=
  match pj_social_account_id job with
  | None => mret ()
  | Some account_id =>
      match get_social_account tenant_id account_id (lb_accounts lib) with
      | None => mret ()
      | Some account =>
          t ← utc_now; t' ← utc_now;
          quota ← on_counters (Quota.consume_retry_quota
            (PUBLISHING_ACCOUNT_MAX_RETRIES_PER_HOUR (ev_publishing env)) t t' tenant_id (sa_id account)
            (sa_settings account));
          if Quota.qd_allowed quota then mret ()
          else raise (HTTPException 429 ("Account retry budget exhausted. Try again in " +:+
                        PyStr.of_Z (Quota.qd_retry_after_seconds quota) +:+ " seconds."))
      end
  end.

Definition retry_job (tenant_id job_id : string) : M World PublishingJobActionResponse :=
  w ← get_state;
  match get_publishing_job tenant_id job_id (pw_rows w) with
  | None => raise (HTTPException 404 "Publishing job not found")
  | Some job =>
      if negb (bool_decide (pj_status job ∈ RETRYABLE)) then
        raise (HTTPException 409 "Only failed, dead-lettered, cancelled, or manual jobs can be retried")
      else if bool_decide (pa_status <$> get_latest_attempt job_id (pw_rows w) =
                             Some PublishingAttemptStatus.AMBIGUOUS) then
        raise (HTTPException 409 "Ambiguous attempt requires provider reconciliation before retry")
      else
        _ ← check_retry_quota tenant_id job;
        _ ← assign_job job_id (λ j,
              add_payload [("retried_by_operator", JStr "true")]
                (release (j <| pj_status := PublishingJobStatus.PENDING |> <| pj_failure_reason := None |>
                            <| pj_dead_letter_reason := None |> <| pj_dead_lettered_at := None |>
                            <| pj_scheduled_for := None |>)));
        mret {| ra_job_id := job_id; ra_status := PublishingJobStatus.PENDING;
                ra_detail := "Publishing job queued for retry" |}
  end.

(** [schedule_local_to_utc] *)
Definition schedule_local_to_utc (t : ScheduledFor) (tenant_timezone : string) : Z :=
  match t with
  | Aware utc => utc
  | Naive local =>
      let name := PyStr.strip (if PyStr.truthy tenant_timezone then tenant_timezone else "UTC") in
      match ev_local_to_utc env (if PyStr.truthy name then name else "UTC") with
      | Some zone => zone local
      | None => local
      end
  end.

Definition detected_platforms (assets : list Asset) : list string :=
  remove_dups (omap (λ a, if PyStr.opt_truthy (as_platform a) && is_text_variant a then as_platform a else None) assets).

(** The accounts of a request. *)
Definition target_accounts (tenant_id : string) (payload : PublishNowRequest) (content_job : ContentJob)
    (assets : list Asset) : result (list SocialAccount) :=
  let resolve := resolve_social_accounts (ev_sha256_hex env) (ev_rollout env) (ev_uuid_of_text env) tenant_id in
  let detected := PyStr.sorted (detected_platforms assets) in
  let explicit := match pq_social_account_ids payload, cj_target_social_account_ids content_job with
                  | [], [] => false | _, _ => true end in
  let legacy_platforms := match pq_platforms payload with
                          | [] => if explicit then None else Some detected
                          | platforms => Some platforms
                          end in
  accounts ← resolve (pq_social_account_ids payload) (default [] legacy_platforms)
               (cj_target_social_account_ids content_job) (lb_accounts lib);
  accounts ← match accounts, legacy_platforms, detected with
             | [], None, _ :: _ => resolve [] detected [] (lb_accounts lib)
             | _, _, _ => mret accounts
             end;
  match accounts with
  | [] => Raise (HTTPException 400 "No target social accounts available for publish")
  | _ => mret accounts
  end.

(** The job for an account: the existing one, or a new one. *)
Definition job_for_account (tenant_id : string) (approval_request_id : option string) (payload : PublishNowRequest)
    (content_job : ContentJob) (assets : list Asset) (tenant_timezone : string) (scheduled_for : option Z)
    (account : SocialAccount) : M World (string * bool) :=
  let variant_snap := resolve_for_account tenant_id (cj_id content_job) (sa_id account)
                        (pq_content_variant_ids payload) (lb_variants lib) in
  match pq_content_variant_ids payload, variant_snap with
  | _ :: _, None =>
      raise (HTTPException 400
        ("No ContentVariant among content_variant_ids targets social_account_id=" +:+ sa_id account))
  | _, _ =>
      let content_variant_id := vs_variant_id <$> variant_snap in
      let idempotency_key :=
        build_publish_idempotency_key (cj_id content_job) (sa_id account) scheduled_for (pq_dry_run payload)
          (pq_idempotency_key payload) content_variant_id in
      w ← get_state;
      match get_job_by_idempotency idempotency_key (pw_rows w) with
      | Some existing => mret (pj_id existing, false)
      | None =>
          let connected_account :=
            match get_connected_for_social tenant_id (sa_id account) (lb_connected lib) with
            | Some c => Some c
            | None => get_connected_account_by_platform tenant_id (sa_platform account) (lb_connected lib)
            end in
          let schedule_assets := match variant_snap with
                                 | Some s => assets_from_variant_snapshot s assets | None => assets end in
          let schedule_result := (λ t, schedule_publish schedule_assets t) <$> scheduled_for in
          let provider_payload :=
            Dict.update
              [("variant_fingerprint",
                JStr match variant_snap with
                     | Some s => vs_fingerprint s
                     | None => variant_fingerprint (ev_sha256_hex env) (ev_dumps_sorted env) account
                     end);
               ("tenant_timezone", JStr tenant_timezone);
               ("scheduled_for_utc",
                JStr match scheduled_for with Some t => Calendar.isoformat_utc t | None => "" end)]
              (match variant_snap with Some s => as_provider_payload s | None => [] end) in
          i ← new_id (ev_uuid env);
          now ← utc_now;
          _ ← create_publishing_job
                {| pj_id := i; pj_tenant_id := tenant_id; pj_content_job_id := cj_id content_job;
                   pj_social_account_id := Some (sa_id account); pj_content_variant_id := content_variant_id;
                   pj_connected_account_id := ca_id <$> connected_account;
                   pj_approval_request_id := approval_request_id; pj_platform := sa_platform account;
                   pj_status := if bool_decide (scheduled_for = None) then PublishingJobStatus.PENDING
                                else PublishingJobStatus.SCHEDULED;
                   pj_provider := Json.str (default (JStr "stub") (Dict.get "mode" (sa_account_metadata account)));
                   pj_idempotency_key := idempotency_key; pj_dry_run := pq_dry_run payload;
                   pj_scheduled_for := scheduled_for; pj_published_at := None; pj_claimed_at := None;
                   pj_claim_expires_at := None; pj_worker_id := None; pj_retry_count := 0;
                   pj_dead_lettered_at := None; pj_dead_letter_reason := None; pj_failure_reason := None;
                   pj_provider_payload :=
                     match schedule_result with
                     | Some s => Dict.update provider_payload
                         (Dict.update (sr_payload s)
                            [("native_scheduling_supported", JStr (if sr_native_supported s then "true" else "false"))])
                     | None => provider_payload
                     end;
                   pj_external_post_id := None; pj_external_post_url := None; pj_current_attempt_key := None;
                   pj_created_at := now |};
          mret (i, true)
      end
  end.

Fixpoint jobs_for_accounts (f : SocialAccount → M World (string * bool)) (accounts : list SocialAccount) :
    M World (list (string * bool)) :=
  match accounts with
  | [] => mret []
  | a :: accounts' => j ← f a; js ← jobs_for_accounts f accounts'; mret (j :: js)
  end.

(** The ids of the jobs, old and new. *)
Definition publish_now (tenant_id : string) (approval_request_id : option string) (payload : PublishNowRequest) :
    M World (list string) :=
  match get_job tenant_id (pq_content_job_id payload) (lb_content_jobs lib) with
  | None => raise (HTTPException 404 "Content job not found")
  | Some content_job =>
      let assets := list_assets (cj_id content_job) (lb_assets lib) in
      accounts ← lift (target_accounts tenant_id payload content_job assets);
      let tenant_timezone := match ev_tenant_timezone env tenant_id with
                             | Some z => if PyStr.truthy z then z else "UTC" | None => "UTC" end in
      let scheduled_for := (λ t, schedule_local_to_utc t tenant_timezone) <$> pq_scheduled_for payload in
      jobs ← jobs_for_accounts
               (job_for_account tenant_id approval_request_id payload content_job assets tenant_timezone scheduled_for)
               accounts;
      _ ← (if bool_decide (scheduled_for = None)
           then mfor (fst <$> List.filter snd jobs) (λ job_id, publish_job tenant_id job_id None true)
           else mret ());
      mret (fst <$> jobs)
  end.
End publisher.
End Publisher.
