(* ===== verification/PublisherSpec.v ===== *)
(** * What publishing guarantees

    Publishing one job, the worker's rounds and the operator's calls against
    the invariant of the rows, and the jobs that no sequence of operations calls
    a provider for again. *)
From S2P Require Import Prelude PyStr Json Calendar Tables RunModels Quota Accounts Providers Variants Publishing.
From S2P Require Import PublishingRows Publisher.
From stdpp Require Import sorting gmap strings pretty.

Module PublisherSpec.
Import Accounts Providers Variants Publishing PublishingRows Publisher.
Local Open Scope string_scope.
Local Open Scope list_scope.
Local Open Scope Z_scope.

(** ** Publishing one job *)

Section publish.
Context (env : Environment) (lib : Library).
Implicit Types (i k : string) (w : World).

Definition calls_of k w : list (string * string) := List.filter (λ c, bool_decide (c.1 = k)) (pw_calls w).

Definition world_ok w : Prop := rows_ok (pw_rows w) ∧ rows_ok (pw_committed w).

(** Publishing the job [i] leaves the other jobs alone; a commit writes their
    rows as they were. *)
Definition frame i w w' : Prop :=
  only_job i (pw_rows w) (pw_rows w') ∧
  ∀ k, k ≠ i → calls_of k w' = calls_of k w ∧
    (view k (pw_committed w') = view k (pw_committed w) ∨ view k (pw_committed w') = view k (pw_rows w)).

Record published i w w' : Prop := {
  pb_ok : world_ok w';
  pb_frame : frame i w w';
  pb_row : is_Some (row_of i (pw_rows w'));
  pb_settled : posts_of i (pw_rows w) ≠ [] →
    calls_of i w' = calls_of i w ∧ posts_of i (pw_rows w') = posts_of i (pw_rows w) ∧
    (view i (pw_committed w') = view i (pw_committed w) ∨
     posts_of i (pw_committed w') = posts_of i (pw_rows w));
}.

Lemma calls_of_add k i key l :
  k ≠ i → List.filter (λ c : string * string, bool_decide (c.1 = k)) (l ++ [(i, key)]) =
          List.filter (λ c : string * string, bool_decide (c.1 = k)) l.
Proof. intros Hk. rewrite List.filter_app. simpl. rewrite bool_decide_eq_false_2 by done. apply app_nil_r. Qed.

Lemma published_intro i w r' c' counters web calls :
  posts_of i (pw_rows w) = [] → rows_ok r' → only_job i (pw_rows w) r' → is_Some (row_of i r') →
  rows_ok c' → c' = pw_committed w ∨ only_job i (pw_rows w) c' →
  calls = pw_calls w ∨ (∃ key, calls = pw_calls w ++ [(i, key)]) →
  published i w (Build_World r' c' counters web calls).
Proof.
  intros Hp Hr Ho Hrow Hc Hoc Hcalls. split; [done| |done|by rewrite Hp].
  split; [done|]. intros k Hk. split.
  - unfold calls_of. simpl. destruct Hcalls as [->|(key & ->)]; [done|by apply calls_of_add].
  - simpl. destruct Hoc as [->|[Hv _]]; [by left|right; by apply Hv].
Qed.

Lemma published_id i w w' :
  world_ok w → is_Some (row_of i (pw_rows w)) →
  pw_rows w' = pw_rows w → pw_committed w' = pw_committed w → pw_calls w' = pw_calls w → published i w w'.
Proof.
  intros Hok Hrow Hr Hc Hk. split.
  - unfold world_ok. by rewrite Hr, Hc.
  - unfold frame, calls_of. rewrite Hr, Hc, Hk. split; [done|]. intros k _. split; [done|by left].
  - by rewrite Hr.
  - unfold calls_of. rewrite Hr, Hc, Hk. intros _. split_and!; [done..|by left].
Qed.

Lemma wp_on_web {A B} (m : M Web A) (k : A → M World B) Q E w :
  (∀ r web, match r with
            | Ok a => wp (k a) Q E (w <| pw_web := web |>)
            | Raise e => E e (w <| pw_web := web |>)
            end) → wp (on_web m ≫= k) Q E w.
Proof.
  intros H. unfold wp, mbind, M_bind, on_web. destruct (m (pw_web w)) as [[a|e] web]; [exact (H (Ok a) web)|exact (H (Raise e) web)].
Qed.

Lemma wp_quota {A} t t' tenant account action limit window (k : Quota.AccountQuotaDecision → M World A) Q E w :
  (∀ d c, wp (k d) Q E (w <| pw_counters := c |>)) →
  wp (on_counters (Quota.consume_account_quota t t' tenant account action limit window) ≫= k) Q E w.
Proof.
  intros H. unfold wp, mbind, M_bind, on_counters.
  destruct (Quota.consume_eq tenant account action limit window t t' (pw_counters w)) as (d & -> & _).
  exact (H d _).
Qed.

Lemma wp_maybe_commit {A} (b : bool) (k : unit → M World A) Q E w :
  wp (k ()) Q E (if b then w <| pw_committed := pw_rows w |> else w) →
  wp ((if b then commit else mret ()) ≫= k) Q E w.
Proof. by destruct b. Qed.

Lemma wp_commit_end (b : bool) Q E w :
  Q () (if b then w <| pw_committed := pw_rows w |> else w) → wp (if b then commit else mret ()) Q E w.
Proof. by destruct b. Qed.

Lemma maybe_defer_ok tenant i (b : bool) w j (Q : bool → World → Prop) E :
  row_of i (pw_rows w) = Some j →
  (∀ c web, Q false (w <| pw_counters := c |> <| pw_web := web |>)) →
  (∀ (g : PublishingJob → PublishingJob) c web, (∀ j : PublishingJob, same_job j (g j) ∧ pj_retry_count (g j) = pj_retry_count j) →
     let w' := w <| pw_rows ::= set_job i g |> <| pw_counters := c |> <| pw_web := web |> in
     Q true (if b then w' <| pw_committed := pw_rows w' |> else w')) →
  wp (maybe_defer_rate_limit env lib tenant i b) Q E w.
Proof.
  intros Hj Hf Ht. unfold maybe_defer_rate_limit. eapply wp_the_job; [exact Hj|].
  assert (wp (mret false : M World bool) Q E w) as Hret.
  { apply wp_ret. specialize (Hf (pw_counters w) (pw_web w)). by destruct w. }
  destruct (pj_social_account_id j); [|done]. destruct (get_social_account _ _ _) as [account|]; [|done].
  unfold utc_now. apply wp_now. intros t web. apply wp_now. intros t' web'. unfold Quota.consume_publish_quota. apply wp_quota. intros d c.
  destruct (Quota.qd_allowed d).
  - apply wp_ret. exact (Hf c web').
  - apply wp_now. intros now web''. cbn zeta. set (g := λ j : PublishingJob, add_payload _ _).
    apply wp_on_rows, wp_maybe_commit, wp_ret. specialize (Ht g c web'' ltac:(done)). by destruct b.
Qed.

Lemma run_provider_ok provider account assets i key stub w (Q : AuthValidationResult * DraftResult * PublishResult → World → Prop) E :
  (∀ calls web, calls = pw_calls w ∨ (∃ key, calls = pw_calls w ++ [(i, key)]) →
     (∀ x, Q x (w <| pw_calls := calls |> <| pw_web := web |>)) ∧
     (∀ e, E e (w <| pw_calls := calls |> <| pw_web := web |>))) →
  wp (run_provider_publish provider account assets i key stub) Q E w.
Proof.
  intros H. unfold run_provider_publish. destruct (_ && _).
  - apply wp_raise. destruct (H (pw_calls w) (pw_web w)) as [_ He]; [by left|].
    match goal with |- E ?e _ => specialize (He e) end. by destruct w.
  - destruct (H (pw_calls w ++ [(i, key)]) (pw_web w)) as [_ _]; [by right; exists key|].
    apply wp_bind, wp_modify, wp_on_web. intros r web.
    destruct (H (pw_calls w ++ [(i, key)]) web) as [Hq He]; [by right; exists key|].
    destruct r; [apply wp_ret, Hq|apply He].
Qed.

Lemma fail_and_raise_ok {A} i w j a e c (b : bool) (Q : A → World → Prop) (E : exn → World → Prop) :
  open_attempt i (pw_rows w) j a →
  (∀ r' web, rows_ok r' → only_job i (pw_rows w) r' → is_Some (row_of i r') →
     E e (if b then w <| pw_rows := r' |> <| pw_committed := r' |> <| pw_web := web |>
          else w <| pw_rows := r' |> <| pw_web := web |>)) →
  wp (fail_and_raise env i (pa_attempt_key a) e c b) Q E w.
Proof.
  intros Hopen HE. unfold fail_and_raise. apply wp_bind. eapply finalize_failure_ok; [exact Hopen|].
  intros r' j' web Hok Ho Hrow _. apply wp_maybe_commit, wp_raise.
  specialize (HE r' web Hok Ho ltac:(by exists j')). by destruct b.
Qed.
(** Between the preparation and the end of an attempt of the job [i]. *)
Record underway i w w2 : Prop := {
  uw_ok : rows_ok (pw_rows w2);
  uw_only : only_job i (pw_rows w) (pw_rows w2);
  uw_committed : pw_committed w2 = pw_committed w ∨ pw_committed w2 = pw_rows w2;
  uw_calls : pw_calls w2 = pw_calls w ∨ (∃ key, pw_calls w2 = pw_calls w ++ [(i, key)]);
}.

Lemma published_end i w w2 r' (b : bool) web :
  world_ok w → posts_of i (pw_rows w) = [] → underway i w w2 →
  rows_ok r' → only_job i (pw_rows w2) r' → is_Some (row_of i r') →
  published i w (if b then w2 <| pw_rows := r' |> <| pw_committed := r' |> <| pw_web := web |>
                 else w2 <| pw_rows := r' |> <| pw_web := web |>).
Proof.
  intros [_ Hc] Hp [U1 U2 U3 U4] Hr Ho Hrow.
  assert (only_job i (pw_rows w) r') as Ho' by (eapply only_job_trans; [exact U2|exact Ho]).
  destruct b.
  - apply published_intro; try done. by right.
  - apply published_intro; try done; simpl; destruct U3 as [->| ->]; auto.
Qed.

Lemma published_stop i w w2 :
  world_ok w → posts_of i (pw_rows w) = [] → underway i w w2 → is_Some (row_of i (pw_rows w2)) → published i w w2.
Proof.
  intros Hw Hp Huw Hrow. pose proof Huw as [Hr _ _ _].
  pose proof (published_end i w w2 (pw_rows w2) false (pw_web w2) Hw Hp Huw Hr (only_job_refl _ _) Hrow) as H.
  by destruct w2.
Qed.

Lemma underway_web i w w2 calls web :
  underway i w w2 → calls = pw_calls w ∨ (∃ key, calls = pw_calls w ++ [(i, key)]) →
  underway i w (w2 <| pw_calls := calls |> <| pw_web := web |>).
Proof. by intros [? ? ? _]. Qed.

Lemma publish_job_ok tenant i worker (b : bool) w j :
  world_ok w → row_of i (pw_rows w) = Some j → clear i (pw_rows w) →
  wp (publish_job env lib tenant i worker b) (λ _, published i w) (λ _, published i w) w.
Proof.
  intros Hw Hj Hc. pose proof Hw as [Hok _]. unfold publish_job. apply wp_bind.
  eapply maybe_defer_ok; [exact Hj|..]; cycle 1.
  { intros g c web Hg w'. apply wp_ret. assert (rows_ok (pw_rows w')) as Hok'.
    { apply (set_job_ok _ _ _ j); [done..|intros; apply Hg|apply Hg|by intros ?%Hc]. }
    assert (only_job i (pw_rows w) (pw_rows w')) as Ho by apply only_set_job, Hg.
    assert (is_Some (row_of i (pw_rows w'))) as Hrow.
    { exists (g j). simpl. rewrite row_of_set_job by (intros; apply Hg). by rewrite decide_True, Hj. }
    destruct Hw as [_ Hw]. destruct b.
    - split; [by split| |done|intros _; split_and!; [done..|by right]].
      split; [done|]. intros k Hk. split; [done|]. right. by apply Ho.
    - split; [by split| |done|intros _; split_and!; [done..|by left]].
      split; [done|]. intros k Hk. split; [done|]. by left. }
  intros c web. cbn beta iota. apply wp_bind. set (w1 := w <| pw_counters := c |> <| pw_web := web |>).
  apply (prepare_ok _ _ _ i worker w1 j); [done..|intros; by apply published_id|].
  intros Hp r1 j1 a web1 Hopen Ho _ _. apply wp_maybe_commit.
  match goal with |- wp _ _ _ ?x => set (w2 := x) end.
  assert (pw_rows w2 = r1) as Hr2 by by destruct b.
  assert (underway i w w2) as Huw.
  { split; rewrite ?Hr2; [apply (oa_ok _ _ _ _ Hopen)|done|destruct b; by auto|left; by destruct b]. }
  assert (pw_calls w2 = pw_calls w) as Hcalls2 by by destruct b.
  rewrite <- Hr2 in Hopen. clearbody w2. change (posts_of i (pw_rows w) = []) in Hp. clear r1 Hr2 Ho w1.
  eapply wp_the_job; [apply (oa_row _ _ _ _ Hopen)|].
  assert (∀ e c, wp (fail_and_raise env i (pa_attempt_key a) e c b) (λ _ : unit, published i w) (λ _, published i w) w2) as Hfail.
  { intros e k. eapply fail_and_raise_ok; [exact Hopen|]. intros. by apply published_end. }
  destruct (match pj_social_account_id j1 with Some _ => _ | None => _ end) as [account|]; [|apply Hfail].
  destruct (get_job _ _ _) as [cj|]; [|apply Hfail].
  apply wp_bind, wp_lift. destruct (risk_label_from_content_job cj) as [label|e]; cycle 1.
  { apply published_stop; [done..|]. exists j1. apply (oa_row _ _ _ _ Hopen). }
  case_bool_decide; [apply Hfail|]. cbn zeta. apply wp_bind. unfold except_exception. apply wp_try.
  apply run_provider_ok. intros calls web2 Hcalls. rewrite Hcalls2 in Hcalls.
  set (w3 := w2 <| pw_calls := calls |> <| pw_web := web2 |>).
  assert (underway i w w3) as Huw3 by by apply underway_web.
  split; [intros [[validation draft] result]|intros e].
  - cbn beta iota zeta. set (g := λ j : PublishingJob, j <| pj_provider := _ |>). apply wp_on_rows.
    assert (open_attempt i (set_job i g (pw_rows w3)) (g j1) a) as Hopen3 by by apply open_set_job.
    apply wp_bind. eapply finalize_success_ok; [exact Hopen3|]. intros r4 j4 web4 Hok4 Ho4 Hrow4 _.
    apply wp_commit_end. set (w4 := w3 <| pw_rows ::= set_job i g |>) in *.
    assert (only_job i (pw_rows w3) r4) as Ho by (eapply only_job_trans; [|exact Ho4]; by apply only_set_job).
    pose proof (published_end i w w3 r4 b web4 Hw Hp Huw3 Hok4 Ho ltac:(by exists j4)) as Hend. by destruct b.
  - case_match; [|apply wp_raise].
    + apply (fail_and_raise_ok _ w3 j1 a); [done|]. intros. by apply published_end.
    + apply published_stop; [done..|]. exists j1. apply (oa_row _ _ _ _ Hopen).
Qed.
(** ** Rounds and calls of the operator *)

(** A job nothing is done for any more: it has a post, or an ambiguous attempt
    an operator has to look at. *)
Definition settled_in k w : Prop := settled k (pw_rows w) ∧ settled k (pw_committed w).

Record progress w w' : Prop := {
  pg_ok : world_ok w';
  pg_settled : ∀ k, settled_in k w → settled_in k w' ∧ calls_of k w' = calls_of k w;
}.

Lemma progress_trans w1 w2 w3 : progress w1 w2 → progress w2 w3 → progress w1 w3.
Proof.
  intros [_ H1] [O2 H2]. split; [done|]. intros k Hk. destruct (H1 k Hk) as [Hk2 Hc2].
  destruct (H2 k Hk2) as [? ->]. done.
Qed.

Lemma settled_view k r r' : view k r' = view k r → settled k r → settled k r'.
Proof. unfold view, settled. by intros [= _ -> ->]. Qed.

Lemma published_progress i w w' : clear i (pw_rows w) → published i w w' → progress w w'.
Proof.
  intros Hc [Hok [Ho Hf] _ Hs]. split; [done|]. intros k [Hk1 Hk2].
  destruct (decide (k = i)) as [->|Hne].
  - destruct Hk1 as [Hp|Ha]; [|by apply Hc in Ha]. destruct (Hs Hp) as (Hcalls & Hp' & Hcp).
    split; [|done]. split; [left; by rewrite Hp'|]. destruct Hcp as [Hv|Hcp]; [by apply (settled_view i (pw_committed w))|].
    left. by rewrite Hcp.
  - destruct (Hf k Hne) as [Hcalls Hcv]. destruct Ho as [Hv _]. split; [|done].
    split; [by apply (settled_view k (pw_rows w)); [apply Hv|]|].
    destruct Hcv as [Hcv|Hcv]; [by apply (settled_view k (pw_committed w))|by apply (settled_view k (pw_rows w))].
Qed.

(** Columns of jobs changed or jobs were added, nothing else. *)
Record quiet w w' : Prop := {
  qu_ok : rows_ok (pw_rows w');
  qu_attempts : rw_attempts (pw_rows w') = rw_attempts (pw_rows w);
  qu_posts : rw_posts (pw_rows w') = rw_posts (pw_rows w);
  qu_committed : pw_committed w' = pw_committed w;
  qu_calls : pw_calls w' = pw_calls w;
  qu_rows : ∀ k, is_Some (row_of k (pw_rows w)) → is_Some (row_of k (pw_rows w'));
}.

Lemma quiet_trans w1 w2 w3 : quiet w1 w2 → quiet w2 w3 → quiet w1 w3.
Proof. intros [? ? ? ? ? ?] [? ? ? ? ? ?]. split; try congruence; auto. Qed.

Lemma quiet_same w w' :
  rows_ok (pw_rows w) → pw_rows w' = pw_rows w → pw_committed w' = pw_committed w → pw_calls w' = pw_calls w → quiet w w'.
Proof. intros Hok Hr Hc Hk. by split; rewrite ?Hr. Qed.

Lemma quiet_clear i w w' : quiet w w' → clear i (pw_rows w') ↔ clear i (pw_rows w).
Proof. intros [_ Ha _ _ _ _]. unfold clear, attempts_of. by rewrite Ha. Qed.

Lemma quiet_progress w w' : world_ok w → quiet w w' → progress w w'.
Proof.
  intros [_ Hc] [Hr Ha Hp Hcc Hk _]. split; [by split; rewrite ?Hcc|]. intros k [Hk1 Hk2].
  unfold settled_in, settled, calls_of, attempts_of, posts_of in *. by rewrite Ha, Hp, Hcc, Hk.
Qed.

Lemma commit_progress w : world_ok w → progress w (w <| pw_committed := pw_rows w |>).
Proof. intros [Hr _]. split; [done|]. by intros k [Hk _]. Qed.

(** A job that no operator has to look at has no ambiguous attempt. *)
Lemma not_manual_clear i r j :
  rows_ok r → row_of i r = Some j → pj_status j ≠ PublishingJobStatus.MANUAL_REQUIRED → clear i r.
Proof.
  intros Hok Hj Hst (a & Ha & Hamb)%Exists_exists. destruct (view_of_row _ _ _ Hok Hj) as (_ & _ & _ & _ & Hao & _).
  rewrite Forall_forall in Hao. by destruct (Hao a Ha) as [_ _ _ _ [? _]].
Qed.

Lemma assign_job_quiet i (f : PublishingJob → PublishingJob) w :
  rows_ok (pw_rows w) → is_Some (row_of i (pw_rows w)) → clear i (pw_rows w) →
  (∀ j, same_job j (f j) ∧ pj_retry_count (f j) = pj_retry_count j) →
  quiet w (w <| pw_rows ::= set_job i f |>).
Proof.
  intros Hok [j Hj] Hc Hf. split; try done.
  - apply (set_job_ok _ _ _ j); [done..|intros; apply Hf|apply Hf|by intros ?%Hc].
  - intros k [j' Hk]. simpl. rewrite row_of_set_job by (intros; apply Hf). case_decide; rewrite Hk; by eexists.
Qed.

(** The same assignment to several jobs. *)
Lemma mfor_assign_quiet {A} (l : list A) (id_of : A → string) (f : A → PublishingJob → PublishingJob) w :
  rows_ok (pw_rows w) →
  (∀ x, x ∈ l → is_Some (row_of (id_of x) (pw_rows w)) ∧ clear (id_of x) (pw_rows w)) →
  (∀ x j, same_job j (f x j) ∧ pj_retry_count (f x j) = pj_retry_count j) →
  ∃ w', mfor l (λ x, assign_job (id_of x) (f x)) w = (Ok (), w') ∧ quiet w w'.
Proof.
  intros Hok Hl Hf. revert w Hok Hl. induction l as [|x l IH]; intros w Hok Hl.
  { exists w. split; [done|]. by apply quiet_same. }
  destruct (Hl x ltac:(by left)) as [Hrow Hc].
  pose proof (assign_job_quiet (id_of x) (f x) w Hok Hrow Hc (Hf x)) as Hq.
  destruct (IH (w <| pw_rows ::= set_job (id_of x) (f x) |>)) as (w' & Hw' & Hq').
  - apply (qu_ok _ _ Hq).
  - intros y Hy. destruct (Hl y ltac:(by right)) as [Hy1 Hy2]. split; [by apply (qu_rows _ _ Hq)|].
    by apply (quiet_clear _ _ _ Hq).
  - exists w'. split; [|by eapply quiet_trans]. cbn [mfor].
    by rewrite (M_bind_ok _ _ w () (w <| pw_rows ::= set_job (id_of x) (f x) |>)).
Qed.

Lemma elem_of_batch {R : PublishingJob → PublishingJob → Prop} `{∀ a b, Decision (R a b)} n p l j :
  j ∈ firstn n (merge_sort R (List.filter p l)) → j ∈ l ∧ p j = true.
Proof.
  intros Hj. apply (sublist_subseteq _ _ (sublist_take _ n)) in Hj. rewrite (merge_sort_Permutation R) in Hj.
  apply list_elem_of_In, filter_In in Hj as [Hj ?]. split; [by apply list_elem_of_In|done].
Qed.

Lemma recover_job_same now latest j :
  same_job j (recover_job now latest j) ∧ pj_retry_count (recover_job now latest j) = pj_retry_count j.
Proof. unfold recover_job. repeat case_match; by repeat split. Qed.

Lemma recover_quiet locked now n w :
  rows_ok (pw_rows w) → ∃ w', recover_stale_claims locked now n w = (Ok (), w') ∧ quiet w w'.
Proof.
  intros Hok. unfold recover_stale_claims. rewrite (M_bind_ok _ _ w w w) by done.
  apply (mfor_assign_quiet _ pj_id (λ j, recover_job now (get_latest_attempt (pj_id j) (pw_rows w)))); [done| |].
  - intros j (Hj & Hst)%elem_of_batch. pose proof (jobs_of_elem _ _ Hok Hj) as Hrow. split; [by exists j|].
    apply (not_manual_clear _ _ j Hok Hrow). intros Hm. unfold stale in Hst. by rewrite Hm in Hst.
  - intros x j. apply recover_job_same.
Qed.

(** The claim: the claimed jobs exist, are different, and none needs an operator. *)
Lemma claim_quiet cfg locked worker bs ls w :
  rows_ok (pw_rows w) →
  ∃ ids w', claim_due_jobs cfg (ev_time env) locked worker bs ls w = (Ok ids, w') ∧ quiet w w' ∧ NoDup ids ∧
    ∀ i, i ∈ ids → is_Some (row_of i (pw_rows w')) ∧ clear i (pw_rows w').
Proof.
  intros Hok. unfold claim_due_jobs. set (t := ev_time env (web_ticks (pw_web w))).
  set (w0 := w <| pw_web ::= λ v, v <| web_ticks ::= S |> |>).
  rewrite (M_bind_ok _ _ w t w0) by done. cbn zeta. set (size := match bs with Some (S n) => S n | _ => _ end).
  destruct (recover_quiet locked t size w0) as (w1 & Hw1 & Hq1); [done|].
  rewrite (M_bind_ok _ _ w0 () w1) by done. rewrite (M_bind_ok _ _ w1 w1 w1) by done.
  pose proof (qu_ok _ _ Hq1) as Hok1. set (jobs := firstn size _).
  assert (∀ j, j ∈ jobs → j ∈ rw_jobs (pw_rows w1) ∧ clear (pj_id j) (pw_rows w1)) as Hjobs.
  { intros j (Hj & Hst)%elem_of_batch. split; [done|]. apply (not_manual_clear _ _ j Hok1 (jobs_of_elem _ _ Hok1 Hj)).
    intros Hm. unfold claimable in Hst. by rewrite Hm in Hst. }
  set (f := claim_of t _ worker).
  destruct (mfor_assign_quiet (pj_id <$> jobs) id (λ _, f) w1) as (w2 & Hw2 & Hq2); [done| |done|].
  { intros i (j & -> & Hj)%list_elem_of_fmap. destruct (Hjobs j Hj) as [Hj1 Hj2]. split; [|done].
    exists j. by apply jobs_of_elem. }
  exists (pj_id <$> jobs), w2. split_and!.
  - by rewrite (M_bind_ok _ _ w1 () w2).
  - eapply quiet_trans; [|exact Hq2]. eapply quiet_trans; [|exact Hq1]. by apply quiet_same.
  - unfold jobs. eapply sublist_NoDup; [|apply fmap_sublist, sublist_take].
    rewrite (merge_sort_Permutation due_le).
    eapply sublist_NoDup; [apply (ids_NoDup _ Hok1)|apply fmap_sublist, Prelude.filter_sublist].
  - intros i (j & -> & Hj)%list_elem_of_fmap. destruct (Hjobs j Hj) as [Hj1 Hj2].
    split; [|by apply (quiet_clear _ _ _ Hq2)]. apply (qu_rows _ _ Hq2). exists j. by apply jobs_of_elem.
Qed.
Lemma row_of_view k r r' : view k r' = view k r → row_of k r' = row_of k r.
Proof. unfold view. rewrite !row_of_jobs_of. by intros [= -> _ _]. Qed.

(** Jobs that exist and need no operator. *)
Definition ready (ids : list string) w : Prop :=
  NoDup ids ∧ ∀ i, i ∈ ids → is_Some (row_of i (pw_rows w)) ∧ clear i (pw_rows w).

Lemma ready_published i ids w w' : ready (i :: ids) w → published i w w' → ready ids w'.
Proof.
  intros [[Hi Hnd]%NoDup_cons Hall] [_ [[Hv _] _] _ _]. split; [done|]. intros k Hk.
  destruct (Hall k ltac:(by right)) as [H1 H2]. assert (k ≠ i) as Hne by congruence. specialize (Hv k Hne).
  split; [by rewrite (row_of_view _ _ _ Hv)|]. unfold clear in *. by injection Hv as _ -> _.
Qed.

Lemma execute_claimed_progress worker ids w :
  world_ok w → ready ids w →
  wp (execute_claimed env lib worker ids) (λ _, progress w) (λ _, progress w) w.
Proof.
  revert w. induction ids as [|i ids IH]; intros w Hw Hready; cbn [execute_claimed].
  { apply wp_ret. split; [done|]. done. }
  pose proof Hready as [Hnd Hall]. destruct (Hall i ltac:(by left)) as [[j Hj] Hc].
  apply wp_bind. unfold except_exception. apply wp_try, wp_bind.
  unfold the_job at 1. apply wp_bind, wp_get. rewrite Hj. apply wp_ret, wp_bind.
  assert (∀ (l : list string) w', published i w w' →
    wp (rest ← execute_claimed env lib worker ids; mret (l ++ rest)) (λ _, progress w) (λ _, progress w) w') as Hrest.
  { intros l w' Hpub. pose proof (published_progress i w w' Hc Hpub) as Hp. apply wp_bind.
    eapply wp_mono; [apply (IH w' (pg_ok _ _ Hp) (ready_published _ _ _ _ Hready Hpub))|..].
    - intros rest w'' Hp'. apply wp_ret. by eapply progress_trans.
    - intros e w'' Hp'. by eapply progress_trans. }
  eapply wp_mono; [apply (publish_job_ok _ _ _ _ w j Hw Hj Hc)|..].
  - intros ? w' Hpub. apply wp_ret. by apply Hrest.
  - intros e w' Hpub. destruct (is_exception e); [apply wp_ret; by apply Hrest|].
    apply wp_raise. by apply (published_progress i).
Qed.

Lemma progress_refl w : world_ok w → progress w w.
Proof. by split. Qed.

Lemma execute_due_jobs_progress locked worker w :
  world_ok w → wp (execute_due_jobs env lib locked worker) (λ _, progress w) (λ _, progress w) w.
Proof.
  intros Hw. unfold execute_due_jobs.
  destruct (claim_quiet (ev_publishing env) locked worker None None w (proj1 Hw)) as (ids & w1 & H1 & Hq & Hnd & Hids).
  eapply wp_ok; [exact H1|]. pose proof (quiet_progress _ _ Hw Hq) as Hp1.
  pose proof (commit_progress w1 (pg_ok _ _ Hp1)) as Hp2.
  apply wp_bind, wp_modify. eapply wp_mono; [apply execute_claimed_progress; [apply (pg_ok _ _ Hp2)|by split]|..];
    intros ? w' Hp3; eapply progress_trans; [exact Hp1| |exact Hp1|]; by eapply progress_trans.
Qed.

(** A session ends with what it committed. *)
Lemma in_session_progress {A} (m : M World A) w :
  wp m (λ _, progress w) (λ _, progress w) w → progress w (in_session m w).2.
Proof.
  unfold wp, in_session. destruct (m w) as [[a|e] w'] eqn:E; intros Hp.
  - eapply progress_trans; [exact Hp|]. apply commit_progress, (pg_ok _ _ Hp).
  - destruct Hp as [[_ Hc] Hs]. split; [done|]. intros k Hk. by destruct (Hs k Hk) as [[_ ?] ?].
Qed.

Lemma get_publishing_job_row tenant i r j : rows_ok r → get_publishing_job tenant i r = Some j → row_of i r = Some j.
Proof.
  intros Hok [Hj Hc]%find_Some_elem. apply andb_true_iff in Hc as [<-%bool_decide_eq_true _]. by apply jobs_of_elem.
Qed.

Lemma assign_job_progress i (f : PublishingJob → PublishingJob) w :
  world_ok w → is_Some (row_of i (pw_rows w)) → clear i (pw_rows w) →
  (∀ j, same_job j (f j) ∧ pj_retry_count (f j) = pj_retry_count j) →
  progress w (w <| pw_rows ::= set_job i f |>).
Proof. intros Hw Hi Hc Hf. apply quiet_progress; [done|]. apply assign_job_quiet; try done. apply Hw. Qed.

Lemma cancel_progress tenant i w :
  world_ok w → wp (cancel_scheduled_job tenant i) (λ _, progress w) (λ _, progress w) w.
Proof.
  intros Hw. unfold cancel_scheduled_job. apply wp_bind, wp_get.
  destruct (get_publishing_job tenant i (pw_rows w)) as [j|] eqn:Ej; [|by apply wp_raise, progress_refl].
  case_bool_decide as Hst; [|by apply wp_raise, progress_refl].
  apply get_publishing_job_row in Ej; [|apply Hw]. apply wp_on_rows, wp_ret.
  apply assign_job_progress; [done|by exists j| |done].
  apply (not_manual_clear _ _ j (proj1 Hw) Ej). intros Hm. rewrite Hm in Hst. by apply (bool_decide_pack _) in Hst.
Qed.

(** The operator may retry what has no ambiguous attempt. *)
Lemma not_latest_clear i r j :
  rows_ok r → row_of i r = Some j →
  pa_status <$> get_latest_attempt i r ≠ Some PublishingAttemptStatus.AMBIGUOUS → clear i r.
Proof.
  intros Hok Hj Hl (a & Ha & Hamb)%Exists_exists.
  destruct (view_of_row _ _ _ Hok Hj) as (_ & _ & _ & Hnd & Hao & _). rewrite Forall_forall in Hao.
  destruct (Hao a Ha) as [_ _ _ _ Hmax]. destruct (Hmax Hamb) as [_ Hm].
  rewrite (latest_is_max i r a Ha Hm Hnd) in Hl. apply Hl. simpl. by rewrite Hamb.
Qed.

Lemma check_retry_quota_quiet tenant j w :
  rows_ok (pw_rows w) → wp (check_retry_quota env lib tenant j) (λ _, quiet w) (λ _, quiet w) w.
Proof.
  intros Hok. unfold check_retry_quota. destruct (pj_social_account_id j); [|by apply wp_ret, quiet_same].
  destruct (get_social_account _ _ _) as [account|]; [|by apply wp_ret, quiet_same].
  unfold utc_now. apply wp_now. intros t web. apply wp_now. intros t' web'. unfold Quota.consume_retry_quota.
  apply wp_quota. intros d c. destruct (Quota.qd_allowed d); [apply wp_ret|apply wp_raise]; by apply quiet_same.
Qed.

Lemma retry_progress tenant i w :
  world_ok w → wp (retry_job env lib tenant i) (λ _, progress w) (λ _, progress w) w.
Proof.
  intros Hw. unfold retry_job. apply wp_bind, wp_get.
  destruct (get_publishing_job tenant i (pw_rows w)) as [j|] eqn:Ej; [|by apply wp_raise, progress_refl].
  case_bool_decide as Hst; [|by apply wp_raise, progress_refl]. cbn [negb].
  case_bool_decide as Hl; [by apply wp_raise, progress_refl|].
  apply get_publishing_job_row in Ej; [|apply Hw]. pose proof (not_latest_clear _ _ _ (proj1 Hw) Ej Hl) as Hc.
  apply wp_bind. eapply wp_mono; [apply check_retry_quota_quiet, Hw|..].
  - intros ? w1 Hq. pose proof (quiet_progress _ _ Hw Hq) as Hp. apply wp_on_rows, wp_ret.
    eapply progress_trans; [exact Hp|]. apply assign_job_progress; [apply (pg_ok _ _ Hp)| | |done].
    + apply (qu_rows _ _ Hq). by exists j.
    + by apply (quiet_clear _ _ _ Hq).
  - intros e w1 Hq. by apply quiet_progress.
Qed.
(** *** New jobs *)

Definition add_job (j : PublishingJob) (r : Rows) : Rows := r <| rw_jobs ::= λ l, l ++ [j] |>.

Lemma row_of_add_job k j r :
  row_of k (add_job j r) = match row_of k r with Some x => Some x | None => if decide (pj_id j = k) then Some j else None end.
Proof.
  unfold row_of, Models.row_by, add_job. simpl. induction (rw_jobs r) as [|x l IH]; simpl.
  - by case_bool_decide; case_decide.
  - by case_bool_decide.
Qed.

Lemma create_job_quiet j w :
  rows_ok (pw_rows w) → 0 <= pj_retry_count j →
  wp (create_publishing_job j)
    (λ _ w', quiet w w' ∧ row_of (pj_id j) (pw_rows w) = None ∧ is_Some (row_of (pj_id j) (pw_rows w')) ∧
             clear (pj_id j) (pw_rows w')) (λ _, quiet w) w.
Proof.
  intros Hok Hr. unfold create_publishing_job. apply wp_bind, wp_get. case_match eqn:Ex.
  { by apply wp_raise, quiet_same. }
  apply existsb_False_Forall in Ex. rewrite Forall_forall in Ex.
  assert (∀ x, x ∈ rw_jobs (pw_rows w) → pj_id x ≠ pj_id j ∧ pj_idempotency_key x ≠ pj_idempotency_key j) as Hnew.
  { intros x Hx. specialize (Ex x Hx). apply orb_false_iff in Ex as [?%bool_decide_eq_false ?%bool_decide_eq_false]. done. }
  assert (row_of (pj_id j) (pw_rows w) = None) as Hnone.
  { destruct (row_of (pj_id j) (pw_rows w)) as [x|] eqn:E; [|done]. apply Models.row_by_Some in E as [Hx Hid].
    by destruct (Hnew x Hx). }
  pose proof (jobs_of_row _ _ Hok Hnone) as Hv. apply wp_modify.
  assert (quiet w (w <| pw_rows ::= add_job j |>)) as Hq.
  { split; try done.
    - split.
      + intros k. unfold view, jobs_of. simpl. rewrite List.filter_app. simpl. fold (jobs_of k (pw_rows w)).
        change (attempts_of k _) with (attempts_of k (pw_rows w)). change (posts_of k _) with (posts_of k (pw_rows w)).
        case_bool_decide as Hk; [|rewrite app_nil_r; apply (ok_view _ Hok)]. subst k.
        unfold view in Hv. injection Hv as -> -> ->. simpl. by repeat constructor.
      + simpl. rewrite fmap_app. apply NoDup_app. split_and!; [apply (ok_keys _ Hok)| |apply NoDup_singleton].
        intros k (x & -> & Hx)%list_elem_of_fmap Hk%list_elem_of_singleton. by destruct (Hnew x Hx).
    - intros k [x Hx]. change (is_Some (row_of k (add_job j (pw_rows w)))). rewrite row_of_add_job, Hx. by exists x. }
  split; [done|]. split_and!; [done|..].
  - exists j. change (row_of (pj_id j) (add_job j (pw_rows w)) = Some j). rewrite row_of_add_job, Hnone.
    by rewrite decide_True.
  - apply (quiet_clear _ _ _ Hq). unfold clear. injection Hv as _ -> _. by intros []%Exists_nil.
Qed.

(** New ids have no row before, and are ready to be published. *)
Definition fresh_jobs (ids : list string) w w' : Prop :=
  quiet w w' ∧ ready ids w' ∧ ∀ i, i ∈ ids → row_of i (pw_rows w) = None.

Lemma job_for_account_ok tenant approval payload cj assets tz scheduled account w :
  rows_ok (pw_rows w) →
  wp (job_for_account env lib tenant approval payload cj assets tz scheduled account)
    (λ x, fresh_jobs (if snd x : bool then [fst x] else []) w) (λ _, quiet w) w.
Proof.
  intros Hok. unfold job_for_account. cbn zeta. set (snap := resolve_for_account _ _ _ _ _).
  assert (∀ m : M World (string * bool), wp m (λ x, fresh_jobs (if snd x : bool then [fst x] else []) w) (λ _, quiet w) w →
    wp (match pq_content_variant_ids payload, snap with
        | _ :: _, None => raise (HTTPException 400
            ("No ContentVariant among content_variant_ids targets social_account_id=" +:+ sa_id account))
        | _, _ => m
        end) (λ x, fresh_jobs (if snd x : bool then [fst x] else []) w) (λ _, quiet w) w) as Hm.
  { intros m H. destruct (pq_content_variant_ids payload), snap; try done; by apply wp_raise, quiet_same. }
  apply Hm. apply wp_bind, wp_get. destruct (get_job_by_idempotency _ _) as [x|].
  { apply wp_ret. split_and!; [by apply quiet_same|split; [constructor|by intros ? []%elem_of_nil]|by intros ? []%elem_of_nil]. }
  apply wp_row_id. intros i web. unfold utc_now. apply wp_now. intros now web'. apply wp_bind.
  set (job := Build_PublishingJob _ _ _ _ _ _ _ _ _ _ _ _ _ _ _ _ _ _ _ _ _ _ _ _ _ _).
  set (w1 := w <| pw_web := web |> <| pw_web := web' |>).
  eapply wp_mono; [by apply (create_job_quiet job w1)|..].
  - intros ? w' (Hq & Hnone & Hsome & Hc). apply wp_ret. simpl. split_and!.
    + eapply quiet_trans; [|exact Hq]. by apply quiet_same.
    + split; [apply NoDup_singleton|]. by intros k ->%list_elem_of_singleton.
    + by intros k ->%list_elem_of_singleton.
  - intros e w' Hq. eapply quiet_trans; [|exact Hq]. by apply quiet_same.
Qed.

Lemma ready_quiet ids w w' : quiet w w' → ready ids w → ready ids w'.
Proof.
  intros Hq [Hnd Hall]. split; [done|]. intros i Hi. destruct (Hall i Hi). split; [by apply (qu_rows _ _ Hq)|].
  by apply (quiet_clear _ _ _ Hq).
Qed.

Lemma jobs_for_accounts_ok f accounts w :
  (∀ a w, rows_ok (pw_rows w) →
     wp (f a) (λ x, fresh_jobs (if snd x : bool then [fst x] else []) w) (λ _, quiet w) w) →
  rows_ok (pw_rows w) →
  wp (jobs_for_accounts f accounts) (λ js, fresh_jobs (fst <$> List.filter snd js) w) (λ _, quiet w) w.
Proof.
  intros Hf. revert w. induction accounts as [|a accounts IH]; intros w Hok; cbn [jobs_for_accounts].
  { apply wp_ret. split_and!; [by apply quiet_same|split; [constructor|by intros ? []%elem_of_nil]|by intros ? []%elem_of_nil]. }
  apply wp_bind. eapply wp_mono; [by apply Hf| |done]. intros [i b] w1 (Hq1 & Hr1 & Hn1). simpl in *.
  apply wp_bind. eapply wp_mono; [apply IH, (qu_ok _ _ Hq1)|..].
  - intros js w2 (Hq2 & Hr2 & Hn2). apply wp_ret. simpl. split_and!; [by eapply quiet_trans|..].
    + destruct b; [|done]. pose proof (ready_quiet _ _ _ Hq2 Hr1) as [_ Hr1']. destruct Hr2 as [Hnd2 Hr2].
      rewrite fmap_cons. split.
      * constructor; [|done]. intros Hi. destruct Hr1 as [_ Hr1]. destruct (Hr1 i ltac:(by left)) as [[x Hx] _].
        specialize (Hn2 i Hi). congruence.
      * intros k [->|Hk]%elem_of_cons; [apply Hr1'; by left|by apply Hr2].
    + assert (∀ k, k ∈ fst <$> List.filter snd js → row_of k (pw_rows w) = None) as Hold.
      { intros k Hk. specialize (Hn2 k Hk). destruct (row_of k (pw_rows w)) as [x|] eqn:E; [|done].
        destruct (qu_rows _ _ Hq1 k ltac:(by exists x)) as [y Hy]. congruence. }
      destruct b; [|done]. rewrite fmap_cons. intros k [->|Hk]%elem_of_cons; [apply Hn1; by left|by apply Hold].
  - intros e w2 Hq2. by eapply quiet_trans.
Qed.

Lemma publish_now_progress tenant approval payload w :
  world_ok w → wp (publish_now env lib tenant approval payload) (λ _, progress w) (λ _, progress w) w.
Proof.
  intros Hw. unfold publish_now. destruct (get_job _ _ _) as [cj|]; [|by apply wp_raise, progress_refl].
  cbn zeta. apply wp_bind, wp_lift. destruct (target_accounts _ _ _ _ _ _) as [accounts|e]; [|by apply progress_refl].
  set (f := job_for_account env lib _ _ _ _ _ _ _). apply wp_bind.
  eapply wp_mono; [apply (jobs_for_accounts_ok f accounts w); [intros; by apply job_for_account_ok|apply Hw]|..].
  - intros js w1 (Hq & Hready & _). pose proof (quiet_progress _ _ Hw Hq) as Hp1. apply wp_bind.
    case_bool_decide; [|by apply wp_ret, wp_ret].
    apply (wp_mfor _ _ (λ ids w', progress w w' ∧ ready ids w')); [done| |by intros ? [? _]].
    intros i rest w2 [Hp2 Hr2]. pose proof Hr2 as [_ Hall]. destruct (Hall i ltac:(by left)) as [[j Hj] Hc].
    eapply wp_mono; [apply (publish_job_ok _ _ _ _ w2 j (pg_ok _ _ Hp2) Hj Hc)|..].
    + intros ? w3 Hpub. split; [|by eapply ready_published]. eapply progress_trans; [exact Hp2|].
      by apply (published_progress i).
    + intros e w3 Hpub. eapply progress_trans; [exact Hp2|]. by apply (published_progress i).
  - intros e w1 Hq. by apply quiet_progress.
Qed.
End publish.

(** ** Sequences of operations *)

(** One operation in a session of its own: the worker's round, whichever rows
    others hold and however the provider answers, or a call of an operator.
    Settings, servers, clock and the tables that are only read may differ from
    one operation to the next. *)
Inductive step (w : World) : World → Prop :=
  | step_round env lib acquired locked request_id :
      step w (publish_due_jobs_task env lib acquired locked request_id w).2
  | step_publish env lib tenant approval payload :
      step w (in_session (publish_now env lib tenant approval payload) w).2
  | step_cancel tenant i : step w (in_session (cancel_scheduled_job tenant i) w).2
  | step_retry env lib tenant i : step w (in_session (retry_job env lib tenant i) w).2
  | step_outside counters web : step w (w <| pw_counters := counters |> <| pw_web := web |>).

Lemma step_progress w w' : world_ok w → step w w' → progress w w'.
Proof.
  intros Hw []; try apply in_session_progress.
  - destruct acquired; [by apply execute_due_jobs_progress|by apply wp_ret, progress_refl].
  - by apply publish_now_progress.
  - by apply cancel_progress.
  - by apply retry_progress.
  - apply quiet_progress; [done|]. apply quiet_same; by try apply Hw.
Qed.

Lemma steps_progress w w' : world_ok w → rtc step w w' → progress w w'.
Proof.
  intros Hw Hs. induction Hs as [w|w w1 w2 Hstep _ IH]; [by apply progress_refl|].
  pose proof (step_progress _ _ Hw Hstep) as Hp. eapply progress_trans; [exact Hp|]. apply IH, (pg_ok _ _ Hp).
Qed.

Definition empty_rows : Rows := Build_Rows [] [] [] [] [].

Lemma empty_rows_ok : rows_ok empty_rows.
Proof. by repeat constructor. Qed.

(** A key that is unique within each group, and whose value gives the group. *)
Lemma NoDup_by_groups {A K} (g : A → string) (key : A → K) (l : list A) :
  (∀ k, NoDup (key <$> List.filter (λ a, bool_decide (g a = k)) l)) →
  (∀ a b, a ∈ l → b ∈ l → key a = key b → g a = g b) → NoDup (key <$> l).
Proof.
  induction l as [|a l IH]; intros Hgroup Hkey; [constructor|]. rewrite fmap_cons. constructor.
  - intros (b & Hab & Hb)%list_elem_of_fmap. specialize (Hgroup (g a)). simpl in Hgroup.
    rewrite bool_decide_eq_true_2 in Hgroup by done. rewrite fmap_cons in Hgroup.
    apply NoDup_cons in Hgroup as [Hn _]. apply Hn. rewrite Hab. apply list_elem_of_fmap_2, list_elem_of_In, filter_In.
    rewrite bool_decide_eq_true. split; [by apply list_elem_of_In|]. symmetry. apply Hkey; [by left|by right|done].
  - apply IH; [|intros; apply Hkey; by try right]. intros k. specialize (Hgroup k). simpl in Hgroup.
    case_bool_decide; [|done]. rewrite fmap_cons in Hgroup. by apply NoDup_cons in Hgroup as [_ ?].
Qed.

Lemma rows_ok_unique r :
  rows_ok r → NoDup (pp_publishing_job_id <$> rw_posts r) ∧ NoDup (pa_attempt_key <$> rw_attempts r).
Proof.
  intros Hok. split.
  - apply (NoDup_by_groups pp_publishing_job_id); [|done]. intros k. change (List.filter _ _) with (posts_of k r).
    pose proof (ok_view _ Hok k) as Hv. unfold view, view_ok in Hv.
    destruct (jobs_of k r) as [|j [|]]; [destruct Hv as [_ ->]; constructor| |done].
    destruct Hv as (_ & _ & _ & Hlen). destruct (posts_of k r) as [|p [|]]; [constructor|apply NoDup_singleton|].
    simpl in Hlen. lia.
  - assert (∀ a, a ∈ rw_attempts r → ∃ j, row_of (pa_publishing_job_id a) r = Some j ∧
      attempt_ok j (attempts_of (pa_publishing_job_id a) r) (posts_of (pa_publishing_job_id a) r) a ∧ 0 <= pj_retry_count j)
      as Hatt.
    { intros a Ha. assert (a ∈ attempts_of (pa_publishing_job_id a) r) as Hin by by apply elem_of_attempts_of.
      destruct (row_of (pa_publishing_job_id a) r) as [j|] eqn:Ej.
      - exists j. destruct (view_of_row _ _ _ Hok Ej) as (_ & _ & Hr & _ & Hao & _). rewrite Forall_forall in Hao.
        split; [done|]. by split; [apply Hao|].
      - apply jobs_of_row in Ej; [|done]. injection Ej as _ E _. rewrite E in Hin. by apply elem_of_nil in Hin. }
    apply (NoDup_by_groups pa_publishing_job_id).
    + intros k. change (List.filter _ _) with (attempts_of k r). pose proof (ok_view _ Hok k) as Hv.
      unfold view, view_ok in Hv. destruct (jobs_of k r) as [|j [|]]; [destruct Hv as [-> _]; constructor| |done].
      destruct Hv as (Hr & Hnd & Hao & _). apply NoDup_fmap_2_strong; [|by apply (NoDup_fmap_1 pa_attempt_number)].
      intros a b Ha Hb Hab. rewrite Forall_forall in Hao. destruct (Hao a Ha) as [Ka Na _ _ _], (Hao b Hb) as [Kb Nb _ _ _].
      rewrite Ka, Kb in Hab. apply attempt_key_inj in Hab as [_ Hn]; [|lia..].
      by apply (NoDup_fmap_inj_in pa_attempt_number (attempts_of k r)).
    + intros a b Ha Hb Hab. destruct (Hatt a Ha) as (ja & Hja & [Ka Na _ _ _] & Hra), (Hatt b Hb) as (jb & Hjb & [Kb Nb _ _ _] & Hrb).
      rewrite Ka, Kb in Hab. apply attempt_key_inj in Hab as [Hk _]; [|lia..].
      apply Models.row_by_Some in Hja as [Hja Hia], Hjb as [Hjb Hib].
      assert (ja = jb) as -> by (eapply (NoDup_fmap_inj_in pj_idempotency_key); [apply (ok_keys _ Hok)|done..]).
      congruence.
Qed.

(** C7: However the operations follow one another and whatever the providers,
    the clock and the worker's crashes do, the rows keep their invariant: a job
    has at most one post; its attempts have different numbers, and a key each
    that no other attempt has; an attempt that succeeded has the post; an
    ambiguous attempt is the last of its job, which waits for an operator. *)
Theorem publishing_invariant w w' :
  pw_rows w = empty_rows → pw_committed w = empty_rows → rtc step w w' → world_ok w' ∧
  NoDup (pp_publishing_job_id <$> rw_posts (pw_rows w')) ∧ NoDup (pa_attempt_key <$> rw_attempts (pw_rows w')).
Proof.
  intros Hr Hc Hs. assert (world_ok w) as Hw by (split; rewrite ?Hr, ?Hc; apply empty_rows_ok).
  pose proof (pg_ok _ _ (steps_progress w w' Hw Hs)) as Hw'. split; [done|]. apply rows_ok_unique, Hw'.
Qed.

(** C6: A job with a post, or with an ambiguous attempt, stays so, and no
    provider is called for it again, whatever operations follow: rounds of the
    worker, retries, cancellations and publications. *)
Theorem settled_jobs_are_never_called w w' k :
  rows_ok (pw_rows w) → pw_committed w = pw_rows w → rtc step w w' → settled k (pw_rows w) →
  settled k (pw_rows w') ∧ calls_of k w' = calls_of k w.
Proof.
  intros Hok Hc Hs Hk.
  assert (world_ok w) as Hw by (split; by rewrite ?Hc).
  destruct (pg_settled _ _ (steps_progress w w' Hw Hs) k) as [[? _] ?]; [split; by rewrite ?Hc|done].
Qed.

(** ** The keys X is given *)

Lemma join_length sep l :
  l ≠ [] → String.length (PyStr.join sep l) =
    (foldr (λ s n, String.length s + n) 0 l + (length l - 1) * String.length sep)%nat.
Proof.
  induction l as [|s [|t l] IH]; [done|intros _; simpl; lia|]. intros _.
  change (PyStr.join sep (s :: t :: l)) with (s +:+ sep +:+ PyStr.join sep (t :: l)).
  rewrite !PyStr.append_length, IH by done. simpl. lia.
Qed.

(** X is sent an idempotency key of at most 128 characters, the key of the
    attempt and the index of the tweet cut off.  The key of a job for a variant
    (its three ids are UUIDs of 36 characters) is longer than that already, so
    every tweet of a thread is sent under one key, and so is every tweet of
    every later attempt. *)
Theorem variant_tweets_share_a_key cfg answer token content_job_id account_id variant_id scheduled_for dry_run n
    texts media first last w :
  String.length content_job_id = 36%nat → String.length account_id = 36%nat → String.length variant_id = 36%nat →
  let key := build_publish_idempotency_key content_job_id account_id scheduled_for dry_run None (Some variant_id) in
  wp (x_post_thread cfg answer token 0 texts media (build_attempt_key key n) first last)
    (λ _, sent_only (has_key (PyStr.take 128 key)) w) (λ _, sent_only (has_key (PyStr.take 128 key)) w) w.
Proof.
  intros H1 H2 H3 key.
  assert (128 ≤ String.length key)%nat as Hlen.
  { unfold key, build_publish_idempotency_key. rewrite join_length by done. simpl. rewrite H1, H2, H3.
    assert (5 ≤ String.length match scheduled_for with Some t => Calendar.isoformat_utc t | None => "immediate" end)%nat as Hs.
    { destruct scheduled_for; [|simpl; lia]. unfold Calendar.isoformat_utc. rewrite !PyStr.append_length. simpl. lia. }
    destruct dry_run; simpl; lia. }
  assert (∀ i, PyStr.take 128 (build_attempt_key key n +:+ ":" +:+ nat_text i) = PyStr.take 128 key) as Hcut.
  { intros i. unfold build_attempt_key. rewrite PyStr.append_assoc. by apply PyStr.take_append. }
  assert (∀ w', sent_only (λ r, ∃ i, has_key (PyStr.take 128 (build_attempt_key key n +:+ ":" +:+ nat_text i)) r) w w' →
    sent_only (has_key (PyStr.take 128 key)) w w') as Himpl.
  { intros w' (new & Hnew & Hall). exists new. split; [done|]. eapply Forall_impl; [exact Hall|].
    intros r [i Hr]. by rewrite Hcut in Hr. }
  eapply wp_mono; [apply (x_post_thread_keys cfg answer token 0 texts media (build_attempt_key key n) first last w w)|..].
  - unfold build_attempt_key. destruct key; [simpl in Hlen; lia|done].
  - by exists []; rewrite app_nil_r.
  - intros ? w'. apply Himpl.
  - intros ? w'. apply Himpl.
Qed.

(** ** A tenant with one Bluesky account *)

Definition ex_bsky : SocialAccount := {|
  sa_id := "a1"; sa_tenant_id := "t"; sa_platform := "bluesky"; sa_display_name := "A"; sa_handle := Some "a.example";
  sa_account_external_id := Some "did:plc:a"; sa_status := "connected"; sa_auth_type := "oauth";
  sa_capability_flags := []; sa_settings := []; sa_account_metadata := [("mode", JStr "real")];
  sa_last_synced_at := None; sa_legacy_connected_account_id := None; sa_quarantine_reason := None;
  sa_created_at := 0; sa_deleted_at := None |}.
Definition ex_token : SocialAccountToken := {|
  tk_id := "k1"; tk_social_account_id := "a1"; tk_access_token_encrypted := "token";
  tk_refresh_token_encrypted := None; tk_scopes := []; tk_is_active := true; tk_binding_version := 1;
  tk_created_at := 0; tk_deleted_at := None |}.
Definition ex_text : Asset := {|
  as_id := "g1"; as_asset_type := "text_variant"; as_platform := Some "bluesky"; as_text_content := Some "Hello.";
  as_public_url := None; as_mime_type := "text/plain"; as_checksum := None; as_metadata := [] |}.
Definition ex_library : Library := {|
  lb_accounts := [ex_bsky]; lb_connected := []; lb_tokens := [ex_token];
  lb_content_jobs := [{| cj_id := "c1"; cj_tenant_id := "t"; cj_content_plan_id := "p1";
                         cj_grounding_bundle := JObj []; cj_target_social_account_ids := [] |}];
  lb_assets := [{| ga_content_job_id := "c1"; ga_asset := ex_text; ga_variant_label := None; ga_created_at := 0; ga_deleted_at := None |}];
  lb_variants := Build_VariantRows [] [] |}.

(** The clock advances by 1000 seconds with each reading. *)
Definition ex_env (answer : nat → Request → result Response) : Environment := {|
  ev_publishing := Build_PublishingSettings 50 900 3 30 10;
  ev_web := Build_WebSettings 1 "https://api.x.com" "https://upload.twitter.com" "https://bsky.social" true;
  ev_rollout := Accounts.ex_gate "on"; ev_answer := answer; ev_time := λ n, Z.of_nat n * 1000000000;
  ev_uuid := λ n, "id" +:+ nat_text n; ev_sha256_hex := id; ev_uuid_of_text := Some; ev_decrypt_secret := id;
  ev_resolve_secret_reference := λ _, None; ev_cluster_of_plan := λ _ _, None; ev_dumps_sorted := Json.repr;
  ev_tenant_timezone := λ _, None; ev_local_to_utc := λ _, None |}.

Definition ex_request : PublishNowRequest := Build_PublishNowRequest "c1" [] ["a1"] [] None false None.
Definition ex_world : World := Build_World empty_rows empty_rows ∅ (Build_Web [] 0 0) [].

(** The server creates a record, times out, or the worker is cancelled. *)
Definition created : result Response :=
  Ok {| rs_status_code := 200; rs_json := Some (JObj [("cid", JStr "c"); ("uri", JStr "at://a/p/r1")]);
        rs_content := ""; rs_error := "" |}.
Definition timed_out : result Response := Raise (OtherException "ReadTimeout" "").
Definition worker_cancelled : result Response := Raise (OtherException "CancelledError" "").

Definition ex_published (answer : nat → Request → result Response) : World :=
  (in_session (publish_now (ex_env answer) ex_library "t" None ex_request) ex_world).2.
Definition ex_round (answer : nat → Request → result Response) (w : World) : World :=
  (publish_due_jobs_task (ex_env answer) ex_library true (λ _, false) (Some "worker") w).2.

Definition job_statuses (w : World) : list PublishingJobStatus.t := pj_status <$> rw_jobs (pw_rows w).
Definition posts_created (w : World) : nat :=
  length (List.filter (λ r, bool_decide (rq_url r = "https://bsky.social/xrpc/com.atproto.repo.createRecord"))
                      (web_sent (pw_web w))).

Example publication_succeeds :
  let w := ex_published (λ _ _, created) in
  job_statuses w = [PublishingJobStatus.SUCCEEDED] ∧ length (rw_posts (pw_rows w)) = 1%nat ∧ posts_created w = 1%nat.
Proof. vm_compute. repeat split. Qed.

(** A post whose answer is late is sent again within one call of the provider. *)
Example late_answer_is_posted_twice :
  let w := ex_published (λ n _, if Nat.eqb n 0 then timed_out else created) in
  job_statuses w = [PublishingJobStatus.SUCCEEDED] ∧ length (pw_calls w) = 1%nat ∧ posts_created w = 2%nat.
Proof. vm_compute. repeat split. Qed.

(** A publication the worker was cancelled in is recovered and done again under
    the same attempt; Bluesky is given no key to tell the two posts apart. *)
Example cancelled_publication_is_repeated :
  let answer := λ n (_ : Request), if Nat.eqb n 0 then worker_cancelled else created in
  let w := ex_published answer in
  job_statuses w = [PublishingJobStatus.RUNNING] ∧
  pa_status <$> rw_attempts (pw_rows w) = [PublishingAttemptStatus.PREPARED] ∧
  job_statuses (ex_round answer w) = [PublishingJobStatus.SUCCEEDED] ∧
  pw_calls (ex_round answer w) =
    [("id0", "c1:a1:immediate:publish:live:attempt:1"); ("id0", "c1:a1:immediate:publish:live:attempt:1")] ∧
  posts_created (ex_round answer w) = 2%nat.
Proof. vm_compute. repeat split. Qed.

(** Without credentials the job is dead, not left to an operator. *)
Example no_credentials_is_dead :
  let lib := {| lb_accounts := lb_accounts ex_library; lb_connected := []; lb_tokens := [];
                lb_content_jobs := lb_content_jobs ex_library; lb_assets := lb_assets ex_library;
                lb_variants := lb_variants ex_library |} in
  let w := (in_session (publish_now (ex_env (λ _ _, created)) lib "t" None ex_request) ex_world).2 in
  job_statuses w = [PublishingJobStatus.DEAD] ∧ posts_created w = 0%nat.
Proof. vm_compute. repeat split. Qed.

(** ** Instances of the theorems *)

Lemma ex_published_step answer : rtc step ex_world (ex_published answer).
Proof. exact (rtc_once _ _ (step_publish ex_world (ex_env answer) ex_library "t" None ex_request)). Qed.

Lemma ex_round_step answer w : step w (ex_round answer w).
Proof. exact (step_round w (ex_env answer) ex_library true (λ _, false) (Some "worker")). Qed.

Lemma ex_published_ok answer : world_ok (ex_published answer).
Proof.
  exact (pg_ok _ _ (steps_progress ex_world (ex_published answer) (conj empty_rows_ok empty_rows_ok)
                      (ex_published_step answer))).
Qed.

Lemma publishing_invariant_witness :
  let w' := ex_round (λ _ _, created) (ex_published (λ n _, if Nat.eqb n 0 then worker_cancelled else created)) in
  world_ok w' ∧ length (rw_posts (pw_rows w')) = 1%nat.
Proof.
  split; [|vm_compute; reflexivity].
  exact (proj1 (publishing_invariant ex_world _ eq_refl eq_refl
    (rtc_r _ _ _ (ex_published_step _) (ex_round_step (λ _ _, created) _)))).
Defined.

Lemma settled_jobs_are_never_called_witness :
  let w := ex_published (λ _ _, timed_out) in
  job_statuses w = [PublishingJobStatus.MANUAL_REQUIRED] ∧ length (calls_of "id0" w) = 1%nat ∧
  calls_of "id0" (ex_round (λ _ _, created) w) = calls_of "id0" w.
Proof.
  split_and!; [vm_compute; reflexivity..|].
  assert (settled "id0" (pw_rows (ex_published (λ _ _, timed_out)))) as Hs.
  { right. apply Exists_exists. eexists. split; [|].
    2: { instantiate (1 := default (ex_attempt PublishingAttemptStatus.PREPARED)
           (head (attempts_of "id0" (pw_rows (ex_published (λ _ _, timed_out)))))). vm_compute. reflexivity. }
    vm_compute. left. }
  exact (proj2 (settled_jobs_are_never_called _ _ "id0" (proj1 (ex_published_ok (λ _ _, timed_out)))
    ltac:(vm_compute; reflexivity) (rtc_once _ _ (ex_round_step (λ _ _, created) _)) Hs)).
Defined.

Definition ex_uuid : string := "00000000-0000-0000-0000-000000000000".

Lemma variant_tweets_share_a_key_witness :
  let key := build_publish_idempotency_key ex_uuid ex_uuid None false None (Some ex_uuid) in
  String.length key = 133%nat ∧
  wp (x_post_thread (ev_web (ex_env (λ _ _, created))) (λ _ _, created) "token" 0 ["one"; "two"] []
       (build_attempt_key key 1) None None)
    (λ _, sent_only (has_key (PyStr.take 128 key)) (Build_Web [] 0 0))
    (λ _, sent_only (has_key (PyStr.take 128 key)) (Build_Web [] 0 0)) (Build_Web [] 0 0).
Proof. split; [by vm_compute|]. by apply variant_tweets_share_a_key. Defined.
End PublisherSpec.
