(* ===== verification/PublisherKeys.v ===== *)
(** * What a publication never changes of a job

    The id, the idempotency key and the dry-run flag of a job are those it was
    created with: [same_origin].  From that, the idempotence of [publish_now]
    (publishing/publish_orchestration.py). *)
From S2P Require Import Prelude PyStr Json Tables RunModels Quota Accounts Providers Variants Publishing PublishingRows.
From S2P Require Import Publisher PublisherSpec.

Module PublisherKeys.
Import Accounts Providers Variants Publishing Publisher PublishingRows.PublishingRows PublisherSpec.PublisherSpec.
Local Open Scope string_scope.
Local Open Scope list_scope.
Local Open Scope Z_scope.

Definition same_origin (j j' : PublishingJob) : Prop :=
  pj_id j' = pj_id j ∧ pj_idempotency_key j' = pj_idempotency_key j ∧ pj_dry_run j' = pj_dry_run j.

Lemma recover_job_origin now latest j : same_origin j (recover_job now latest j).
Proof. unfold recover_job. by repeat case_match. Qed.
Lemma fail_job_origin m t n key msg c j : same_origin j (fail_job m t n key msg c j).
Proof. unfold fail_job. cbv zeta. by repeat case_match. Qed.

(** What holds of the rows and of the requests sent is kept by a publication
    when the origin of a job does not change it, nor the other tables, and the
    publication by its provider keeps it, for a job that can be there. *)
Section origins.
Context (env : Environment) (lib : Library) (job_id : string) (Φ : Rows → list Request → Prop).
Notation P := (λ w, Φ (pw_rows w) (web_sent (pw_web w))).
Hypothesis Φ_job : ∀ i f r s, (∀ j, same_origin j (f j)) → Φ r s → Φ (set_job i f r) s.
Hypothesis Φ_rest : ∀ r r' s, rw_jobs r' = rw_jobs r → Φ r s → Φ r' s.
Hypothesis Φ_call : ∀ r s job account token assets key,
  row_of job_id r = Some job → Φ r s →
  keeps P (on_web (Providers.publish_now (provider_for env (pj_platform job) account token (pj_dry_run job)) account assets key)).
Notation kept := (keeps P).

Lemma origin_ticks {A} (m : M Web A) : (∀ w, web_sent (m w).2 = web_sent w) → kept (on_web m).
Proof.
  intros Hm. apply keeps_fun. intros w Hw. unfold on_web. specialize (Hm (pw_web w)). destruct (m _) as [r w'].
  cbn in Hm |- *. by rewrite Hm.
Qed.
Lemma origin_now time : kept (now_utc time).
Proof. by apply origin_ticks. Qed.
Lemma origin_id uuid : kept (new_id uuid).
Proof. by apply origin_ticks. Qed.
Lemma origin_counters {A} (m : M Quota.Counters A) : kept (on_counters m).
Proof. apply keeps_fun. intros w Hw. unfold on_counters. by destruct (m _). Qed.
Lemma origin_commit : kept commit.
Proof. by apply keeps_modify. Qed.
Lemma origin_job i f : (∀ j, same_origin j (f j)) → kept (assign_job i f).
Proof. intros Hf. apply keeps_modify. intros w Hw. exact (Φ_job i f (pw_rows w) _ Hf Hw). Qed.
Lemma origin_rest f : (∀ r, rw_jobs (f r) = rw_jobs r) → kept (on_rows f).
Proof. intros Hf. apply keeps_modify. intros w Hw. exact (Φ_rest (pw_rows w) (f (pw_rows w)) _ (Hf _) Hw). Qed.
Lemma origin_attempt k f : kept (assign_attempt k f).
Proof. by apply origin_rest. Qed.
Lemma origin_the_job i : kept (the_job i).
Proof. unfold the_job. solve_keeps done. Qed.

Hint Resolve origin_now origin_id origin_counters origin_commit origin_attempt origin_the_job : keeps.

Ltac origins := repeat first
  [ match goal with |- keeps _ (on_rows _) => by apply origin_rest end
  | match goal with |- keeps _ (assign_job _ _) => apply origin_job; first [done|intros j; by repeat case_match] end
  | match goal with |- keeps _ (modify _) => by apply keeps_modify end
  | match goal with |- keeps _ (_ ≫= _) => apply keeps_bind; [|intros ?] end
  | match goal with |- keeps _ (mfor _ _) => apply keeps_mfor; intros ? _ end
  | match goal with |- keeps _ (try_except _ _) => apply keeps_try; [|intros ?] end
  | match goal with |- keeps _ (match ?x with _ => _ end) => destruct x end
  | progress cbv zeta
  | solve [eauto 3 with keeps] ].

Lemma origin_defer t i b : kept (maybe_defer_rate_limit env lib t i b).
Proof. unfold maybe_defer_rate_limit, utc_now. origins. Qed.

Lemma origin_prepare cfg time uuid i worker : kept (prepare_attempt cfg time uuid i worker).
Proof. unfold prepare_attempt, create_attempt. origins. Qed.

Lemma origin_failure cfg time i key e c : kept (finalize_failure cfg time i key e c).
Proof.
  unfold finalize_failure, the_attempt, record_audit. origins. apply origin_job, fail_job_origin.
Qed.

Lemma origin_fail {A} i key e c b : kept (fail_and_raise (A:=A) env i key e c b).
Proof. unfold fail_and_raise. pose proof origin_failure. origins. Qed.

Lemma origin_provider provider account assets i key stub :
  (∀ assets key, kept (on_web (Providers.publish_now provider account assets key))) →
  kept (run_provider_publish provider account assets i key stub).
Proof. intros H. unfold run_provider_publish. origins. Qed.

Lemma origin_success time uuid plans t i key p : kept (finalize_success time uuid lib plans t i key p).
Proof. unfold finalize_success, create_published_post, record_audit, mark_published. origins. Qed.

(** Reading a job: it is one that can be there. *)
Lemma origin_read {A} (k : PublishingJob → M World A) :
  (∀ job r s, row_of job_id r = Some job → Φ r s → kept (k job)) → kept (the_job job_id ≫= k).
Proof.
  intros Hk w Hw. apply wp_bind. unfold the_job. apply wp_bind, wp_get. destruct (row_of job_id (pw_rows w)) as [j|] eqn:E.
  - apply wp_ret. by apply (Hk j (pw_rows w) (web_sent (pw_web w)) E Hw).
  - by apply wp_raise.
Qed.

Lemma origin_publish_job t worker b : kept (publish_job env lib t job_id worker b).
Proof.
  pose proof origin_defer. pose proof origin_prepare. pose proof @origin_fail. pose proof origin_success.
  unfold publish_job, except_exception. apply keeps_bind; [done|intros []; [by apply keeps_ret|]].
  apply keeps_bind; [done|intros key]. apply keeps_bind; [by destruct b; auto with keeps|intros _].
  apply origin_read. intros job r s Hjob Hr. cbv zeta.
  assert (∀ account token assets key stub,
    kept (run_provider_publish (provider_for env (pj_platform job) account token (pj_dry_run job)) account assets job_id key stub))
    as Hcall by (intros; apply origin_provider; intros; by eapply Φ_call).
  origins.
Qed.
End origins.

(** ** Publishing twice *)

(** The job that has a key. *)
Definition found (key i : string) (r : Rows) : Prop := ∃ j, get_job_by_idempotency key r = Some j ∧ pj_id j = i.

Lemma found_set_job key i i' f r : (∀ j, same_origin j (f j)) → found key i r → found key i (set_job i' f r).
Proof.
  intros Hf (j & Hj & <-). unfold found, get_job_by_idempotency, set_job, Models.set_row in *.
  revert Hj. change (rw_jobs (r <| rw_jobs ::= ?g |>)) with (g (rw_jobs r)). induction (rw_jobs r) as [|x l IH]; [done|].
  cbn [List.find fmap list_fmap].
  set (x' := if bool_decide (pj_id x = i') then f x else x).
  assert (pj_id x' = pj_id x ∧ pj_idempotency_key x' = pj_idempotency_key x) as [H1 H2].
  { subst x'. case_bool_decide; [|done]. destruct (Hf x) as (? & ? & _). done. }
  rewrite H2. case_bool_decide; [|done]. intros [= ->]. by exists x'.
Qed.

Lemma found_rest key i r r' : rw_jobs r' = rw_jobs r → found key i r → found key i r'.
Proof. unfold found, get_job_by_idempotency. by intros ->. Qed.

Lemma find_app {A} (p : A → bool) l k :
  List.find p (l ++ k) = match List.find p l with Some x => Some x | None => List.find p k end.
Proof. induction l as [|x l IH]; [done|]. cbn. by destruct (p x). Qed.

Lemma found_add key i j r : found key i r → found key i (add_job j r).
Proof.
  intros (x & Hx & Hi). exists x. split; [|done]. unfold get_job_by_idempotency in *.
  change (rw_jobs (add_job j r)) with (rw_jobs r ++ [j]). by rewrite find_app, Hx.
Qed.

Lemma found_new j r :
  get_job_by_idempotency (pj_idempotency_key j) r = None → found (pj_idempotency_key j) (pj_id j) (add_job j r).
Proof.
  intros H. exists j. split; [|done]. unfold get_job_by_idempotency in *.
  change (rw_jobs (add_job j r)) with (rw_jobs r ++ [j]). rewrite find_app, H. cbn. by rewrite bool_decide_eq_true_2.
Qed.

Section twice.
Context (env : Environment) (lib : Library) (tenant_id : string) (approval : option string) (payload : PublishNowRequest)
        (cj : ContentJob) (assets : list Asset) (timezone : string) (scheduled_for : option Z).
Notation job_for := (job_for_account env lib tenant_id approval payload cj assets timezone scheduled_for).

Definition snapshot_for (a : SocialAccount) : option VariantSnapshot :=
  resolve_for_account tenant_id (cj_id cj) (sa_id a) (pq_content_variant_ids payload) (lb_variants lib).

(** The idempotency key of the job for an account. *)
Definition key_for (a : SocialAccount) : string :=
  build_publish_idempotency_key (cj_id cj) (sa_id a) scheduled_for (pq_dry_run payload) (pq_idempotency_key payload)
    (vs_variant_id <$> snapshot_for a).

(** A variant was asked for, and none is for the account. *)
Definition targeted (a : SocialAccount) : bool :=
  match pq_content_variant_ids payload, snapshot_for a with _ :: _, None => false | _, _ => true end.

Lemma job_for_found a i w :
  targeted a = true → found (key_for a) i (pw_rows w) → job_for a w = (Ok (i, false), w).
Proof.
  intros Ht (j & Hj & <-). unfold job_for_account, targeted, key_for, snapshot_for in *. cbv zeta.
  destruct (pq_content_variant_ids payload), (resolve_for_account _ _ _ _ _); try done;
    (erewrite M_bind_ok by reflexivity); by rewrite Hj.
Qed.

(** A call that leaves the rows alone. *)
Lemma wp_rows {A B} (m : M World A) (k : A → M World B) Q w :
  (∀ w, pw_rows (m w).2 = pw_rows w) → (∀ a w', pw_rows w' = pw_rows w → wp (k a) Q (λ _ _, True) w') →
  wp (m ≫= k) Q (λ _ _, True) w.
Proof.
  intros Hm Hk. unfold wp, mbind, M_bind. specialize (Hm w). destruct (m w) as [[a|e] w'] eqn:E; [|done].
  exact (Hk a w' Hm).
Qed.

Lemma rows_on_web {A} (m : M Web A) w : pw_rows (on_web m w).2 = pw_rows w.
Proof. unfold on_web. by destruct (m _). Qed.

Lemma wp_create_job {B} j (k : unit → M World B) Q w :
  (∀ w', pw_rows w' = add_job j (pw_rows w) → wp (k ()) Q (λ _ _, True) w') →
  wp (create_publishing_job j ≫= k) Q (λ _ _, True) w.
Proof.
  intros Hk. unfold create_publishing_job. apply wp_bind, wp_bind, wp_get. case_match; [by apply wp_raise|].
  apply wp_modify. by apply Hk.
Qed.

Lemma wp_job_for a w :
  wp (job_for a) (λ p w', targeted a = true ∧ found (key_for a) p.1 (pw_rows w') ∧
                          ∀ k i, found k i (pw_rows w) → found k i (pw_rows w')) (λ _ _, True) w.
Proof.
  unfold job_for_account, targeted, key_for. cbv zeta. fold (snapshot_for a).
  destruct (pq_content_variant_ids payload), (snapshot_for a); try (by apply wp_raise).
  all: apply wp_bind, wp_get.
  all: match goal with |- wp (match ?x with Some _ => _ | None => _ end) _ _ _ => destruct x eqn:E end.
  all: try (apply wp_ret; split; [done|split; [by eexists|done]]).
  all: apply wp_rows; [apply rows_on_web|]; intros i w1 H1.
  all: apply wp_rows; [apply rows_on_web|]; intros now w2 H2.
  all: apply wp_create_job; intros w3 H3; apply wp_ret; cbn [fst]; rewrite H3, H2, H1.
  all: split; [done|split; [|intros k i'; apply found_add]].
  all: match goal with |- found _ _ (add_job ?j ?r) => exact (found_new j r E) end.
Qed.

Definition all_found (accounts : list SocialAccount) (ids : list string) (r : Rows) : Prop :=
  Forall2 (λ a i, targeted a = true ∧ found (key_for a) i r) accounts ids.

Lemma wp_jobs_for accounts w :
  wp (jobs_for_accounts job_for accounts)
    (λ jobs w', all_found accounts (fst <$> jobs) (pw_rows w') ∧ ∀ k i, found k i (pw_rows w) → found k i (pw_rows w'))
    (λ _ _, True) w.
Proof.
  revert w. induction accounts as [|a accounts IH]; intros w; cbn [jobs_for_accounts].
  { apply wp_ret. split; [by constructor|done]. }
  apply wp_bind. eapply wp_mono; [apply wp_job_for| |done]. intros p w1 (Ht & Hp & H1).
  apply wp_bind. eapply wp_mono; [apply IH| |done]. intros ps w2 [Hps H2]. apply wp_ret.
  split; [constructor; [split; [done|by apply H2]|done]|by eauto].
Qed.

Lemma jobs_for_again accounts ids w :
  all_found accounts ids (pw_rows w) →
  jobs_for_accounts job_for accounts w = (Ok ((λ i, (i, false)) <$> ids), w).
Proof.
  induction 1 as [|a i accounts ids [Ht Hf] _ IH]; [done|]. cbn [jobs_for_accounts].
  rewrite (M_bind_ok _ _ _ _ _ (job_for_found a i w Ht Hf)). by rewrite (M_bind_ok _ _ _ _ _ IH).
Qed.

Lemma keeps_all_found accounts ids job_id worker b :
  keeps (λ w, all_found accounts ids (pw_rows w)) (publish_job env lib tenant_id job_id worker b).
Proof.
  apply (origin_publish_job env lib job_id (λ r _, all_found accounts ids r)).
  - intros i f r _ Hf H. eapply Forall2_impl; [exact H|]. intros a i' [Ht Hi]. split; [done|]. by apply found_set_job.
  - intros r r' _ Hr H. eapply Forall2_impl; [exact H|]. intros a i' [Ht Hi]. split; [done|]. by eapply found_rest.
  - intros _ _ job account token assets' key _ _. apply keeps_fun. intros w Hw. unfold on_web. by destruct (Providers.publish_now _ _ _ _ _).
Qed.
End twice.

Lemma no_new_jobs (ids : list string) : List.filter snd ((λ i, (i, false)) <$> ids) = [].
Proof. by induction ids. Qed.

(** C12: Publishing twice is publishing once.  When a request to publish has been
    answered, the same request again is answered with the same jobs and changes
    nothing at all: no job is created, no provider is called, no counter and no
    clock is touched. *)
Theorem publish_now_is_idempotent env lib tenant_id approval payload w ids w' :
  publish_now env lib tenant_id approval payload w = (Ok ids, w') →
  publish_now env lib tenant_id approval payload w' = (Ok ids, w').
Proof.
  unfold publish_now. destruct (get_job _ _ _) as [cj|]; [|done]. cbv zeta.
  destruct (target_accounts env lib tenant_id payload cj _) as [accounts|e] eqn:Ea; [|done].
  set (assets := list_assets _ _). set (tz := match ev_tenant_timezone env tenant_id with Some _ => _ | None => _ end).
  set (at_ := (λ t, schedule_local_to_utc env t tz) <$> pq_scheduled_for payload). intros Hrun.
  rewrite (M_bind_ok _ _ w accounts w) in Hrun by done. rewrite (M_bind_ok _ _ w' accounts w') by done.
  set (A := all_found lib tenant_id payload cj at_ accounts) in *.
  match type of Hrun with ?m w = _ =>
    assert (wp m (λ ids w', A ids (pw_rows w')) (λ _ _, True) w) as H end.
  { apply wp_bind. eapply wp_mono; [apply wp_jobs_for| |done]. intros jobs w1 [H1 _].
    apply wp_bind. apply (wp_mono _ (λ _ w2, A (fst <$> jobs) (pw_rows w2)) _ (λ _ w2, A (fst <$> jobs) (pw_rows w2))).
    - refine (_ w1 H1). case_bool_decide; [|apply keeps_ret]. apply keeps_mfor. intros i _. by apply keeps_all_found.
    - intros _ w2 H2. by apply wp_ret.
    - done. }
  unfold wp in H. rewrite Hrun in H. cbn beta iota in H.
  rewrite (M_bind_ok _ _ _ _ _ (jobs_for_again env lib tenant_id approval payload cj assets tz at_ accounts ids w' H)).
  rewrite no_new_jobs. cbn [fmap list_fmap mfor].
  rewrite (M_bind_ok _ _ w' () w') by (by case_bool_decide). cbn. by rewrite <- list_fmap_compose, list_fmap_id.
Qed.

Lemma publish_now_is_idempotent_witness :
  let w' := (publish_now (ex_env (λ _ _, created)) ex_library "t" None ex_request ex_world).2 in
  length (rw_posts (pw_rows w')) = 1%nat ∧
  publish_now (ex_env (λ _ _, created)) ex_library "t" None ex_request w' = (Ok ["id0"], w').
Proof.
  split; [vm_compute; reflexivity|].
  exact (publish_now_is_idempotent (ex_env (λ _ _, created)) ex_library "t" None ex_request ex_world ["id0"]
    (publish_now (ex_env (λ _ _, created)) ex_library "t" None ex_request ex_world).2
    ltac:(vm_compute; reflexivity)).
Defined.
(** ** Dry runs *)

(** The jobs are those of [old], of which none is gone, and dry runs. *)
Definition dry_after (old : list string) (r : Rows) : Prop :=
  old ⊆ pj_id <$> rw_jobs r ∧ ∀ j, j ∈ rw_jobs r → pj_id j ∈ old ∨ pj_dry_run j = true.

Lemma dry_after_start r : dry_after (pj_id <$> rw_jobs r) r.
Proof. split; [done|]. intros j Hj. left. by apply list_elem_of_fmap_2. Qed.

Lemma dry_after_set old i f r : (∀ j, same_origin j (f j)) → dry_after old r → dry_after old (set_job i f r).
Proof.
  intros Hf [H1 H2]. unfold dry_after, set_job, Models.set_row.
  change (rw_jobs (r <| rw_jobs ::= ?g |>)) with (g (rw_jobs r)). split.
  - rewrite <- list_fmap_compose. erewrite list_fmap_ext; [exact H1|]. intros k j _. cbn. case_bool_decide; [|done].
    apply (Hf j).
  - intros j (j0 & -> & Hj0)%list_elem_of_fmap. destruct (Hf j0) as (Hi & _ & Hd). specialize (H2 j0 Hj0).
    case_bool_decide; [by rewrite Hi, Hd|done].
Qed.

Lemma dry_after_rest old r r' : rw_jobs r' = rw_jobs r → dry_after old r → dry_after old r'.
Proof. unfold dry_after. by intros ->. Qed.

Lemma dry_after_add old j r : pj_dry_run j = true → dry_after old r → dry_after old (add_job j r).
Proof.
  intros Hj [H1 H2]. unfold dry_after. change (rw_jobs (add_job j r)) with (rw_jobs r ++ [j]). split.
  - rewrite fmap_app. set_solver.
  - intros x [Hx| ->%list_elem_of_singleton]%elem_of_app; [by apply H2|by right].
Qed.

(** A provider asked for a dry run, or without credentials, sends nothing. *)
Lemma dry_provider_sends_nothing env p account token dry assets key w :
  dry = true → web_sent (Providers.publish_now (provider_for env p account token dry) account assets key w).2 = web_sent w.
Proof.
  intros ->. unfold provider_for, get_provider, try_real_provider, stub_or_manual. cbn [orb].
  assert ((if bool_decide (p ∈ ["x"; "bluesky"]) then true else true) = true) as -> by by case_match.
  destruct (bool_decide (p = "x") && _); [cbn; by destruct (PyStr.truthy key)|].
  destruct (bool_decide (p = "bluesky") && _ && _); [done|]. cbn. by destruct (PyStr.truthy key).
Qed.

Section dry.
Context (env : Environment) (lib : Library) (old : list string) (sent : list Request).

(** Nothing was sent, and only dry runs were added. *)
Notation kept := (keeps (λ w, dry_after old (pw_rows w) ∧ web_sent (pw_web w) = sent)).

Lemma dry_publish_job t i worker b :
  i ∉ old → kept (publish_job env lib t i worker b).
Proof.
  intros Hi. apply (origin_publish_job env lib i (λ r s, dry_after old r ∧ s = sent)).
  - intros k f r s Hf [H Hs]. by split; [apply dry_after_set|].
  - intros r r' s Hr [H Hs]. by split; [apply (dry_after_rest old r)|].
  - intros r s job account token assets key [Hin Hid]%RunModels.Models.row_by_Some [[_ Hd] _].
    assert (pj_dry_run job = true) as Hdry by (destruct (Hd job Hin); [congruence|done]).
    apply keeps_fun. intros w [H Hs]. unfold on_web.
    pose proof (dry_provider_sends_nothing env (pj_platform job) account token (pj_dry_run job) assets key (pw_web w) Hdry)
      as Hw. destruct (Providers.publish_now _ _ _ _ _) as [r' web]. cbn in Hw |- *. by rewrite Hw.
Qed.
Section requested.
Context (tenant_id : string) (approval : option string) (payload : PublishNowRequest) (cj : ContentJob)
        (assets : list Asset) (timezone : string) (scheduled_for : option Z).
Hypothesis dry : pq_dry_run payload = true.
Notation P := (λ w, dry_after old (pw_rows w) ∧ web_sent (pw_web w) = sent).
Notation job_for := (job_for_account env lib tenant_id approval payload cj assets timezone scheduled_for).

Lemma dry_create j :
  pj_dry_run j = true → ∀ w, P w → wp (create_publishing_job j) (λ _ w, pj_id j ∉ old ∧ P w) (λ _, P) w.
Proof.
  intros Hj w [H Hs]. unfold create_publishing_job. apply wp_bind, wp_get.
  destruct (existsb _ _) eqn:E; [by apply wp_raise|]. apply wp_modify. split; [|by split; [apply dry_after_add|]].
  intros Hin%(proj1 H). apply list_elem_of_fmap in Hin as (x & Hid & Hx).
  assert (existsb (λ j', bool_decide (pj_id j' = pj_id j) ||
            bool_decide (pj_idempotency_key j' = pj_idempotency_key j)) (rw_jobs (pw_rows w)) = true) as E'.
  { apply existsb_exists. exists x. split; [by apply list_elem_of_In|]. by rewrite bool_decide_eq_true_2. }
  congruence.
Qed.

Lemma dry_job_for a w :
  P w → wp (job_for a) (λ p w, (p.2 = true → p.1 ∉ old) ∧ P w) (λ _, P) w.
Proof.
  intros Hw. unfold job_for_account. cbv zeta.
  destruct (pq_content_variant_ids payload), (resolve_for_account _ _ _ _ _); try (by apply wp_raise).
  all: apply wp_bind, wp_get; case_match; [by apply wp_ret|].
  all: apply wp_keep; [by apply keeps_fun|done|intros i w1 H1].
  all: apply wp_keep; [by apply keeps_fun|done|intros now w2 H2].
  all: apply wp_bind; eapply wp_mono; [by apply dry_create|intros _ w3 [Hi H3]; by apply wp_ret|done].
Qed.

Lemma dry_jobs_for accounts w :
  P w → wp (jobs_for_accounts job_for accounts) (λ jobs w, (∀ i, (i, true) ∈ jobs → i ∉ old) ∧ P w) (λ _, P) w.
Proof.
  revert w. induction accounts as [|a accounts IH]; intros w Hw; cbn [jobs_for_accounts].
  { apply wp_ret. split; [by intros i ?%not_elem_of_nil|done]. }
  apply wp_bind. eapply wp_mono; [by apply dry_job_for| |done]. intros p w1 [Hp H1].
  apply wp_bind. eapply wp_mono; [by apply IH| |done]. intros ps w2 [Hps H2]. apply wp_ret. split; [|done].
  intros i [<-|Hi]%elem_of_cons; [by apply Hp|by apply Hps].
Qed.
End requested.

Lemma dry_publish_now tenant_id approval payload :
  pq_dry_run payload = true → kept (publish_now env lib tenant_id approval payload).
Proof.
  intros Hd w Hw. unfold publish_now. case_match; [|by apply wp_raise]. cbv zeta.
  apply wp_keep; [apply keeps_lift|done|intros accounts w1 H1].
  apply wp_bind. eapply wp_mono; [by apply dry_jobs_for| |done]. intros jobs w2 [Hj H2].
  apply wp_keep; [|done|intros _ w3 H3; by apply wp_ret].
  case_bool_decide; [|apply keeps_ret]. apply keeps_mfor. intros i Hi. apply dry_publish_job.
  apply list_elem_of_fmap in Hi as ([i' b] & -> & Hi). apply list_elem_of_In, filter_In in Hi as [Hi%list_elem_of_In Hb].
  cbn in Hb. subst b. by apply Hj.
Qed.
End dry.

End PublisherKeys.
