(* ===== verification/Settings.v ===== *)
(** * Tenants and their settings (identity_access/models.py,
    settings/service.py, settings/repository.py, core/security.py)

    The flat settings of a tenant, the WhatsApp and Telegram configurations
    read from them over the global defaults, and their updates. *)
From S2P Require Import Prelude PyStr Json Tables RunModels.

Module Settings.
Import Models.
Local Open Scope string_scope.
Local Open Scope list_scope.

Record Tenant := {
  tn_id : string;
  tn_name : string;
  tn_slug : string;
  tn_status : string;
  tn_plan_tier : string;
  tn_timezone : string;
  tn_settings : dict string;
}.
#[global] Instance eta_Tenant : Settable Tenant :=
  mk_settable _ (λ t, Build_Tenant (tn_id t) (tn_name t) (tn_slug t) (tn_status t) (tn_plan_tier t) (tn_timezone t)
    (tn_settings t)).

Definition TELEGRAM_BOT_TOKEN_KEY : string := "approval.telegram_bot_token_encrypted".
Definition TELEGRAM_CHAT_ID_KEY : string := "approval.telegram_chat_id".
Definition TELEGRAM_ENABLED_KEY : string := "approval.telegram_enabled".
Definition WHATSAPP_RECIPIENT_KEY : string := "approval.whatsapp_recipient".
Definition WHATSAPP_PROVIDER_KEY : string := "approval.whatsapp_provider".
Definition WHATSAPP_PHONE_NUMBER_ID_KEY : string := "approval.whatsapp_phone_number_id".
Definition WHATSAPP_BUSINESS_ACCOUNT_ID_KEY : string := "approval.whatsapp_business_account_id".
Definition WHATSAPP_VERIFY_TOKEN_KEY : string := "approval.whatsapp_verify_token".
Definition WHATSAPP_ACCESS_TOKEN_KEY : string := "approval.whatsapp_access_token_encrypted".
Definition WHATSAPP_APP_SECRET_KEY : string := "approval.whatsapp_app_secret_encrypted".
Definition WHATSAPP_ACCESS_TOKEN_SECRET_REF_KEY : string := "approval.whatsapp_access_token_secret_ref".
Definition WHATSAPP_APP_SECRET_SECRET_REF_KEY : string := "approval.whatsapp_app_secret_secret_ref".
Definition TELEGRAM_BOT_TOKEN_SECRET_REF_KEY : string := "approval.telegram_bot_token_secret_ref".

Record WhatsAppRuntimeConfig := {
  wc_provider : string;
  wc_recipient : string;
  wc_access_token : string;
  wc_phone_number_id : string;
  wc_business_account_id : string;
  wc_verify_token : string;
  wc_app_secret : string;
}.

Record TelegramRuntimeConfig := {
  tg_bot_token : string;
  tg_chat_id : string;
  tg_enabled : bool;
}.

(** The fields of the process settings; encryption is a parameter, decryption
    fails on a text that is no token. *)
Record AppSettings := {
  WHATSAPP_PROVIDER : string;
  WHATSAPP_ACCESS_TOKEN : string;
  WHATSAPP_PHONE_NUMBER_ID : string;
  WHATSAPP_BUSINESS_ACCOUNT_ID : string;
  WHATSAPP_VERIFY_TOKEN : string;
  WHATSAPP_APP_SECRET : string;
  WHATSAPP_DEFAULT_RECIPIENT : string;
  TELEGRAM_CALLBACK_SIGNING_SECRET : string;
  TELEGRAM_WEBHOOK_SECRET : string;
  JWT_SECRET : string;
  external_secret_references : dict string;
  encrypt_secret : string → string;
  decrypt_secret : string → result string;
}.

(** A field of an update: [None] is not in [model_fields_set]. *)
Notation field := (option (option string)) (only parsing).

Record TenantSettingsRequest := {
  tq_name : option string;
  tq_timezone : option string;
  tq_settings : dict string;
}.

Record WhatsAppSettingsRequest := {
  wq_recipient : field;
  wq_provider : field;
  wq_phone_number_id : field;
  wq_business_account_id : field;
  wq_verify_token : field;
  wq_access_token : field;
  wq_access_token_secret_ref : field;
  wq_app_secret : field;
  wq_app_secret_secret_ref : field;
}.

Record WhatsAppSettingsResponse := {
  ws_recipient : string;
  ws_provider : string;
  ws_phone_number_id : string;
  ws_business_account_id : string;
  ws_verify_token : string;
  ws_access_token_configured : bool;
  ws_app_secret_configured : bool;
  ws_access_token_secret_ref : option string;
  ws_app_secret_secret_ref : option string;
  ws_using_tenant_recipient : bool;
  ws_using_tenant_credentials : bool;
}.

Record TelegramSettingsRequest := {
  gq_bot_token : field;
  gq_bot_token_secret_ref : field;
  gq_chat_id : field;
  gq_enabled : option (option bool);
}.

Record TelegramSettingsResponse := {
  gs_bot_token_configured : bool;
  gs_bot_token_secret_ref : option string;
  gs_chat_id : string;
  gs_enabled : bool;
}.

(** [settings.get(key) or base] *)
Definition get_or (key : string) (s : dict string) (base : string) : string :=
  match Dict.get key s with Some v => if PyStr.truthy v then v else base | None => base end.

(** [_normalize_setting_value] *)
Definition normalize_setting_value (value : option string) : string :=
  match value with Some v => if PyStr.truthy v then PyStr.strip v else "" | None => "" end.

(** One field of an update: stored when it is not blank, removed when it is. *)
Definition update_field (key : string) (store : string → string) (value : field) (s : dict string) : dict string :=
  match value with
  | None => s
  | Some v => let normalized := normalize_setting_value v in
              if PyStr.truthy normalized then Dict.set key (store normalized) s else Dict.pop key s
  end.

Definition get_tenant (tenant_id : string) (tenants : list Tenant) : option Tenant := row_by tn_id tenant_id tenants.

Definition get_tenant_settings (tenant_id : string) : M (list Tenant) Tenant :=
  tenants ← get_state;
  match get_tenant tenant_id tenants with
  | Some tenant => mret tenant
  | None => raise (HTTPException 404 "Tenant not found")
  end.

Definition assign_tenant (tenant_id : string) (f : Tenant → Tenant) : M (list Tenant) unit :=
  modify (set_row tn_id tenant_id f).

Definition update_tenant_settings (tenant_id : string) (payload : TenantSettingsRequest) : M (list Tenant) Tenant :=
  tenant ← get_tenant_settings tenant_id;
  _ ← assign_tenant tenant_id (λ t,
        t <| tn_name ::= λ n, default n (tq_name payload) |>
          <| tn_timezone ::= λ z, default z (tq_timezone payload) |>
          <| tn_settings ::= λ s, Dict.update s (tq_settings payload) |>);
  get_tenant_settings tenant_id.

Section settings.
Context (cfg : AppSettings).

Definition resolve_secret_reference (reference : option string) : option string :=
  match reference with
  | None => None
  | Some r => let normalized := PyStr.strip r in
              if PyStr.truthy normalized then Dict.get normalized (external_secret_references cfg) else None
  end.

(** [resolve_secret_reference(ref) or token] *)
Definition or_reference (reference : option string) (token : string) : string :=
  match resolve_secret_reference reference with Some v => if PyStr.truthy v then v else token | None => token end.

(** [decrypt_secret(encrypted) if encrypted else base] *)
Definition decrypted_or (key : string) (s : dict string) (base : string) : result string :=
  match Dict.get key s with Some v => if PyStr.truthy v then decrypt_secret cfg v else Ok base | None => Ok base end.

Definition global_whatsapp_runtime_config : WhatsAppRuntimeConfig := {|
  wc_provider := WHATSAPP_PROVIDER cfg; wc_recipient := WHATSAPP_DEFAULT_RECIPIENT cfg;
  wc_access_token := WHATSAPP_ACCESS_TOKEN cfg; wc_phone_number_id := WHATSAPP_PHONE_NUMBER_ID cfg;
  wc_business_account_id := WHATSAPP_BUSINESS_ACCOUNT_ID cfg; wc_verify_token := WHATSAPP_VERIFY_TOKEN cfg;
  wc_app_secret := WHATSAPP_APP_SECRET cfg |}.

(** [resolve_whatsapp_runtime_config] on the settings of the tenant. *)
Definition whatsapp_config_of (s : dict string) : result WhatsAppRuntimeConfig :=
  let base := global_whatsapp_runtime_config in
  access_token ← decrypted_or WHATSAPP_ACCESS_TOKEN_KEY s (wc_access_token base);
  app_secret ← decrypted_or WHATSAPP_APP_SECRET_KEY s (wc_app_secret base);
  Ok {| wc_provider := get_or WHATSAPP_PROVIDER_KEY s (wc_provider base);
        wc_recipient := get_or WHATSAPP_RECIPIENT_KEY s (wc_recipient base);
        wc_access_token := or_reference (Dict.get WHATSAPP_ACCESS_TOKEN_SECRET_REF_KEY s) access_token;
        wc_phone_number_id := get_or WHATSAPP_PHONE_NUMBER_ID_KEY s (wc_phone_number_id base);
        wc_business_account_id := get_or WHATSAPP_BUSINESS_ACCOUNT_ID_KEY s (wc_business_account_id base);
        wc_verify_token := get_or WHATSAPP_VERIFY_TOKEN_KEY s (wc_verify_token base);
        wc_app_secret := or_reference (Dict.get WHATSAPP_APP_SECRET_SECRET_REF_KEY s) app_secret |}.

Definition resolve_whatsapp_runtime_config (tenant_id : string) : M (list Tenant) WhatsAppRuntimeConfig :=
  tenant ← get_tenant_settings tenant_id;
  lift (whatsapp_config_of (tn_settings tenant)).

Definition CREDENTIAL_KEYS : list string :=
  [WHATSAPP_PROVIDER_KEY; WHATSAPP_PHONE_NUMBER_ID_KEY; WHATSAPP_BUSINESS_ACCOUNT_ID_KEY; WHATSAPP_VERIFY_TOKEN_KEY;
   WHATSAPP_ACCESS_TOKEN_KEY; WHATSAPP_APP_SECRET_KEY].

Definition get_whatsapp_settings (tenant_id : string) : M (list Tenant) WhatsAppSettingsResponse :=
  tenant ← get_tenant_settings tenant_id;
  let s := tn_settings tenant in
  runtime ← resolve_whatsapp_runtime_config tenant_id;
  mret {| ws_recipient := wc_recipient runtime; ws_provider := wc_provider runtime;
          ws_phone_number_id := wc_phone_number_id runtime;
          ws_business_account_id := wc_business_account_id runtime; ws_verify_token := wc_verify_token runtime;
          ws_access_token_configured := PyStr.truthy (wc_access_token runtime);
          ws_app_secret_configured := PyStr.truthy (wc_app_secret runtime);
          ws_access_token_secret_ref := Dict.get WHATSAPP_ACCESS_TOKEN_SECRET_REF_KEY s;
          ws_app_secret_secret_ref := Dict.get WHATSAPP_APP_SECRET_SECRET_REF_KEY s;
          ws_using_tenant_recipient := Dict.mem WHATSAPP_RECIPIENT_KEY s;
          ws_using_tenant_credentials := existsb (λ k, Dict.mem k s) CREDENTIAL_KEYS |}.

(** The three maps from the fields of the request to the keys. *)
Definition plain_fields (p : WhatsAppSettingsRequest) : list (string * field) :=
  [(WHATSAPP_RECIPIENT_KEY, wq_recipient p); (WHATSAPP_PROVIDER_KEY, wq_provider p);
   (WHATSAPP_PHONE_NUMBER_ID_KEY, wq_phone_number_id p); (WHATSAPP_BUSINESS_ACCOUNT_ID_KEY, wq_business_account_id p);
   (WHATSAPP_VERIFY_TOKEN_KEY, wq_verify_token p)].
Definition secret_fields (p : WhatsAppSettingsRequest) : list (string * field) :=
  [(WHATSAPP_ACCESS_TOKEN_KEY, wq_access_token p); (WHATSAPP_APP_SECRET_KEY, wq_app_secret p)].
Definition secret_ref_fields (p : WhatsAppSettingsRequest) : list (string * field) :=
  [(WHATSAPP_ACCESS_TOKEN_SECRET_REF_KEY, wq_access_token_secret_ref p);
   (WHATSAPP_APP_SECRET_SECRET_REF_KEY, wq_app_secret_secret_ref p)].

Definition update_fields (store : string → string) (fields : list (string * field)) (s : dict string) : dict string :=
  foldl (λ s kv, update_field kv.1 store kv.2 s) s fields.

Definition updated_whatsapp (payload : WhatsAppSettingsRequest) (s : dict string) : dict string :=
  update_fields id (secret_ref_fields payload)
    (update_fields (encrypt_secret cfg) (secret_fields payload) (update_fields id (plain_fields payload) s)).

Definition update_whatsapp_settings (tenant_id : string) (payload : WhatsAppSettingsRequest) :
    M (list Tenant) WhatsAppSettingsResponse :=
  tenant ← get_tenant_settings tenant_id;
  _ ← assign_tenant tenant_id (λ t, t <| tn_settings := updated_whatsapp payload (tn_settings tenant) |>);
  get_whatsapp_settings tenant_id.

Definition find_tenant_id_by_whatsapp_phone_number_id (phone_number_id : string) (tenants : list Tenant) :
    option string :=
  let normalized := normalize_setting_value (Some phone_number_id) in
  if negb (PyStr.truthy normalized) then None
  else tn_id <$> List.find (λ t, bool_decide (Dict.get WHATSAPP_PHONE_NUMBER_ID_KEY (tn_settings t) = Some normalized))
                   tenants.

(** [s.get(TELEGRAM_ENABLED_KEY, "false").lower() == "true"] *)
Definition telegram_enabled (s : dict string) : bool :=
  String.eqb (PyStr.lower (default "false" (Dict.get TELEGRAM_ENABLED_KEY s))) "true".

Definition get_telegram_settings (tenant_id : string) : M (list Tenant) TelegramSettingsResponse :=
  tenant ← get_tenant_settings tenant_id;
  let s := tn_settings tenant in
  mret {| gs_bot_token_configured := PyStr.opt_truthy (Dict.get TELEGRAM_BOT_TOKEN_KEY s);
          gs_bot_token_secret_ref := Dict.get TELEGRAM_BOT_TOKEN_SECRET_REF_KEY s;
          gs_chat_id := default "" (Dict.get TELEGRAM_CHAT_ID_KEY s); gs_enabled := telegram_enabled s |}.

Definition updated_telegram (payload : TelegramSettingsRequest) (s : dict string) : dict string :=
  let s := update_field TELEGRAM_BOT_TOKEN_KEY (encrypt_secret cfg) (gq_bot_token payload) s in
  let s := update_field TELEGRAM_BOT_TOKEN_SECRET_REF_KEY id (gq_bot_token_secret_ref payload) s in
  let s := update_field TELEGRAM_CHAT_ID_KEY id (gq_chat_id payload) s in
  match gq_enabled payload with
  | Some (Some enabled) => Dict.set TELEGRAM_ENABLED_KEY (if enabled then "true" else "false") s
  | _ => s
  end.

Definition update_telegram_settings (tenant_id : string) (payload : TelegramSettingsRequest) :
    M (list Tenant) TelegramSettingsResponse :=
  tenant ← get_tenant_settings tenant_id;
  _ ← assign_tenant tenant_id (λ t, t <| tn_settings := updated_telegram payload (tn_settings tenant) |>);
  get_telegram_settings tenant_id.

Definition telegram_config_of (s : dict string) : result TelegramRuntimeConfig :=
  let reference := Dict.get TELEGRAM_BOT_TOKEN_SECRET_REF_KEY s in
  bot_token ← (if PyStr.truthy (or_reference reference "") then Ok (or_reference reference "")
               else decrypted_or TELEGRAM_BOT_TOKEN_KEY s "");
  Ok {| tg_bot_token := bot_token; tg_chat_id := default "" (Dict.get TELEGRAM_CHAT_ID_KEY s);
        tg_enabled := telegram_enabled s |}.

Definition resolve_telegram_runtime_config (tenant_id : string) : M (list Tenant) TelegramRuntimeConfig :=
  tenant ← get_tenant_settings tenant_id;
  lift (telegram_config_of (tn_settings tenant)).

Definition verify_whatsapp_verify_token (verify_token : string) (tenants : list Tenant) : bool :=
  if String.eqb verify_token (WHATSAPP_VERIFY_TOKEN cfg) then true
  else
    let normalized := normalize_setting_value (Some verify_token) in
    if negb (PyStr.truthy normalized) then false
    else existsb (λ t, bool_decide (Dict.get WHATSAPP_VERIFY_TOKEN_KEY (tn_settings t) = Some normalized)) tenants.

Definition telegram_callback_signing_secret : string :=
  if PyStr.truthy (TELEGRAM_CALLBACK_SIGNING_SECRET cfg) then TELEGRAM_CALLBACK_SIGNING_SECRET cfg
  else JWT_SECRET cfg.
End settings.

(** ** What is written is what is read *)

(** What a field of an update makes of a setting that had the value [before]. *)
Definition wanted (value : field) (before base : string) : string :=
  match value with
  | None => before
  | Some v => let n := normalize_setting_value v in if PyStr.truthy n then n else base
  end.
Definition field_after (store : string → string) (value : field) (before : option string) : option string :=
  match value with
  | None => before
  | Some v => let n := normalize_setting_value v in if PyStr.truthy n then Some (store n) else None
  end.

Lemma get_pop {V} k k' (d : dict V) : Dict.get k (Dict.pop k' d) = if decide (k = k') then None else Dict.get k d.
Proof.
  unfold Dict.pop. induction d as [|[j v] d IH]; cbn -[bool_decide]; [by case_decide|].
  case_bool_decide as Hj; cbn -[bool_decide]; rewrite IH; repeat case_decide; congruence.
Qed.

Lemma get_update_field k k' store value s :
  Dict.get k (update_field k' store value s) =
    if decide (k = k') then field_after store value (Dict.get k s) else Dict.get k s.
Proof.
  unfold update_field, field_after. destruct value as [v|]; [|by case_decide]. cbv zeta.
  destruct (PyStr.truthy _); [by rewrite Dict.get_set|].
  apply get_pop.
Qed.

(** The value a plain setting and a secret have after the update. *)
Lemma get_or_after key value s s' base :
  Dict.get key s' = field_after id value (Dict.get key s) → get_or key s' base = wanted value (get_or key s base) base.
Proof.
  unfold get_or, field_after, wanted. intros ->. destruct value as [v|]; [|done]. cbv zeta.
  destruct (PyStr.truthy (normalize_setting_value v)) eqn:E; [|done]. cbn in E |- *. by rewrite E.
Qed.

Lemma get_tenant_settings_ok tenant_id tenants t :
  get_tenant tenant_id tenants = Some t → get_tenant_settings tenant_id tenants = (Ok t, tenants).
Proof.
  intros H. change ((match get_tenant tenant_id tenants with
    | Some tenant => mret tenant | None => raise (HTTPException 404 "Tenant not found") end
    : M (list Tenant) Tenant) tenants = (Ok t, tenants)). by rewrite H.
Qed.

Section cipher.
Context (cfg : AppSettings).
Hypothesis decrypt_encrypt : ∀ s, decrypt_secret cfg (encrypt_secret cfg s) = Ok s.
Hypothesis encrypted_nonempty : ∀ s, PyStr.truthy (encrypt_secret cfg s) = true.

Lemma decrypted_after key value s s' base before :
  decrypted_or cfg key s base = Ok before →
  Dict.get key s' = field_after (encrypt_secret cfg) value (Dict.get key s) →
  decrypted_or cfg key s' base = Ok (wanted value before base).
Proof.
  unfold decrypted_or at 2. intros Hb ->. unfold field_after, wanted. destruct value as [v|]; [|exact Hb]. cbv zeta.
  destruct (PyStr.truthy _) eqn:E; [|done]. by rewrite encrypted_nonempty, decrypt_encrypt.
Qed.

(** C34: A WhatsApp configuration reads back as it was written.  When the stored
    secrets of a tenant can be decrypted, an update succeeds, and what the
    channels then resolve is, field by field: the stripped text of a field the
    request names, the global default where the text is blank, and what was
    resolved before where the request does not name the field; a resolvable
    secret reference still wins over a stored secret.  No other tenant is
    changed. *)
Theorem whatsapp_settings_read_back tenant_id payload tenants t access_token app_secret :
  get_tenant tenant_id tenants = Some t →
  decrypted_or cfg WHATSAPP_ACCESS_TOKEN_KEY (tn_settings t) (WHATSAPP_ACCESS_TOKEN cfg) = Ok access_token →
  decrypted_or cfg WHATSAPP_APP_SECRET_KEY (tn_settings t) (WHATSAPP_APP_SECRET cfg) = Ok app_secret →
  let s := tn_settings t in
  let '(answer, tenants') := update_whatsapp_settings cfg tenant_id payload tenants in
  is_ok answer = true ∧
  (∀ other, other ≠ tenant_id → get_tenant other tenants' = get_tenant other tenants) ∧
  resolve_whatsapp_runtime_config cfg tenant_id tenants' =
    (Ok {| wc_provider := wanted (wq_provider payload) (get_or WHATSAPP_PROVIDER_KEY s (WHATSAPP_PROVIDER cfg))
                            (WHATSAPP_PROVIDER cfg);
           wc_recipient := wanted (wq_recipient payload)
                             (get_or WHATSAPP_RECIPIENT_KEY s (WHATSAPP_DEFAULT_RECIPIENT cfg))
                             (WHATSAPP_DEFAULT_RECIPIENT cfg);
           wc_access_token :=
             or_reference cfg (field_after id (wq_access_token_secret_ref payload)
                                 (Dict.get WHATSAPP_ACCESS_TOKEN_SECRET_REF_KEY s))
               (wanted (wq_access_token payload) access_token (WHATSAPP_ACCESS_TOKEN cfg));
           wc_phone_number_id := wanted (wq_phone_number_id payload)
                                   (get_or WHATSAPP_PHONE_NUMBER_ID_KEY s (WHATSAPP_PHONE_NUMBER_ID cfg))
                                   (WHATSAPP_PHONE_NUMBER_ID cfg);
           wc_business_account_id := wanted (wq_business_account_id payload)
                                       (get_or WHATSAPP_BUSINESS_ACCOUNT_ID_KEY s (WHATSAPP_BUSINESS_ACCOUNT_ID cfg))
                                       (WHATSAPP_BUSINESS_ACCOUNT_ID cfg);
           wc_verify_token := wanted (wq_verify_token payload)
                                (get_or WHATSAPP_VERIFY_TOKEN_KEY s (WHATSAPP_VERIFY_TOKEN cfg))
                                (WHATSAPP_VERIFY_TOKEN cfg);
           wc_app_secret :=
             or_reference cfg (field_after id (wq_app_secret_secret_ref payload)
                                 (Dict.get WHATSAPP_APP_SECRET_SECRET_REF_KEY s))
               (wanted (wq_app_secret payload) app_secret (WHATSAPP_APP_SECRET cfg)) |}, tenants').
Proof.
  intros Ht Htok Hsec s.
  set (t' := t <| tn_settings := updated_whatsapp cfg payload s |>).
  set (tenants' := set_row tn_id tenant_id (λ t, t <| tn_settings := updated_whatsapp cfg payload s |>) tenants).
  assert (∀ id, get_tenant id tenants' = if decide (id = tenant_id) then Some t' else get_tenant id tenants) as Hget.
  { intros id. unfold tenants', get_tenant. rewrite row_by_set_row by done. by unfold get_tenant in Ht; rewrite Ht. }
  assert (get_tenant tenant_id tenants' = Some t') as Ht' by (by rewrite Hget, decide_True).
  match goal with |- context [(Ok ?c, _)] => assert (whatsapp_config_of cfg (tn_settings t') = Ok c) as Hc end.
  { change (tn_settings t') with (updated_whatsapp cfg payload s). unfold whatsapp_config_of.
    rewrite (decrypted_after WHATSAPP_ACCESS_TOKEN_KEY (wq_access_token payload) s _ _ _ Htok);
      [|by unfold updated_whatsapp, update_fields; cbn -[update_field]; rewrite !get_update_field].
    rewrite (decrypted_after WHATSAPP_APP_SECRET_KEY (wq_app_secret payload) s _ _ _ Hsec);
      [|by unfold updated_whatsapp, update_fields; cbn -[update_field]; rewrite !get_update_field].
    cbn -[get_or Dict.get updated_whatsapp or_reference]. do 3 f_equal.
    all: first [apply get_or_after|f_equal].
    all: by unfold updated_whatsapp, update_fields; cbn -[update_field]; rewrite !get_update_field. }
  pose proof (get_tenant_settings_ok _ _ _ Ht') as Hg. pose proof (get_tenant_settings_ok _ _ _ Ht) as Hg0.
  assert (update_whatsapp_settings cfg tenant_id payload tenants = get_whatsapp_settings cfg tenant_id tenants') as Hu.
  { unfold update_whatsapp_settings. by rewrite (M_bind_ok _ _ _ _ _ Hg0). }
  rewrite Hu. unfold get_whatsapp_settings. rewrite (M_bind_ok _ _ _ _ _ Hg).
  assert (resolve_whatsapp_runtime_config cfg tenant_id tenants' = (whatsapp_config_of cfg (tn_settings t'), tenants')) as Hr.
  { unfold resolve_whatsapp_runtime_config. by rewrite (M_bind_ok _ _ _ _ _ Hg). }
  rewrite Hc in Hr. rewrite (M_bind_ok _ _ _ _ _ Hr). split_and!; [done| |exact Hr].
  intros other Hne. by rewrite Hget, decide_False.
Qed.
End cipher.

Definition ex_settings : AppSettings := {|
  WHATSAPP_PROVIDER := "stub"; WHATSAPP_ACCESS_TOKEN := ""; WHATSAPP_PHONE_NUMBER_ID := "";
  WHATSAPP_BUSINESS_ACCOUNT_ID := ""; WHATSAPP_VERIFY_TOKEN := "dev-verify-token"; WHATSAPP_APP_SECRET := "";
  WHATSAPP_DEFAULT_RECIPIENT := "+10000000000"; TELEGRAM_CALLBACK_SIGNING_SECRET := ""; TELEGRAM_WEBHOOK_SECRET := "";
  JWT_SECRET := "jwt"; external_secret_references := [("wa", "from-the-vault")];
  encrypt_secret := λ s, String "!" s;
  decrypt_secret := λ s, match s with String "!" s' => Ok s' | _ => Raise (ValueError "Invalid encrypted secret") end |}.

Definition ex_tenants : list Tenant :=
  [{| tn_id := "t1"; tn_name := "One"; tn_slug := "one"; tn_status := "trial"; tn_plan_tier := "starter";
      tn_timezone := "UTC"; tn_settings := [(WHATSAPP_PROVIDER_KEY, "meta"); (TELEGRAM_ENABLED_KEY, "true")] |};
   {| tn_id := "t2"; tn_name := "Two"; tn_slug := "two"; tn_status := "trial"; tn_plan_tier := "starter";
      tn_timezone := "UTC"; tn_settings := [] |}].

Definition ex_update : WhatsAppSettingsRequest := {|
  wq_recipient := Some (Some " +49123 "); wq_provider := None; wq_phone_number_id := Some (Some "42");
  wq_business_account_id := Some None; wq_verify_token := None; wq_access_token := Some (Some "secret");
  wq_access_token_secret_ref := None; wq_app_secret := None; wq_app_secret_secret_ref := Some (Some "wa") |}.

Lemma whatsapp_settings_read_back_witness :
  let tenants' := (update_whatsapp_settings ex_settings "t1" ex_update ex_tenants).2 in
  resolve_whatsapp_runtime_config ex_settings "t1" tenants' =
    (Ok {| wc_provider := "meta"; wc_recipient := "+49123"; wc_access_token := "secret"; wc_phone_number_id := "42";
           wc_business_account_id := ""; wc_verify_token := "dev-verify-token"; wc_app_secret := "from-the-vault" |},
     tenants').
Proof.
  exact (proj2 (proj2 (whatsapp_settings_read_back ex_settings (λ s, eq_refl) (λ s, eq_refl) "t1" ex_update ex_tenants
    {| tn_id := "t1"; tn_name := "One"; tn_slug := "one"; tn_status := "trial"; tn_plan_tier := "starter";
       tn_timezone := "UTC"; tn_settings := [(WHATSAPP_PROVIDER_KEY, "meta"); (TELEGRAM_ENABLED_KEY, "true")] |}
    "" "" eq_refl eq_refl eq_refl))).
Defined.
End Settings.
