(* ===== verification/Approvals.v ===== *)
(** * Approval requests (approvals/models.py, approvals/repository.py,
    workflows/approval_binding.py, workers/task_defs/approvals.py)

    The world an approval acts on, the queries on the requests, their binding
    to a paused node, and the expiry of requests nobody answered. *)
From S2P Require Import Prelude PyStr Json Calendar Tables RunModels Inbox Resume Runtime.
From S2P Require Import Accounts Providers Variants Publishing Publisher Engine Settings.

Module Approvals.
Import Models Inbox Variants Engine.
Local Open Scope string_scope.
Local Open Scope list_scope.
Local Open Scope Z_scope.

(** ** Data *)

Definition status_value (s : ApprovalStatus) : string :=
  match s with
  | APPROVAL_PENDING => "pending" | APPROVAL_REVISION_REQUESTED => "revision_requested"
  | APPROVAL_APPROVED => "approved" | APPROVAL_REJECTED => "rejected" | APPROVAL_EXPIRED => "expired"
  end.

(** The confidence is in hundredths. *)
Record ApprovalMessage := {
  am_approval_request_id : string;
  am_direction : string;
  am_channel : string;
  am_provider_message_id : option string;
  am_message_type : string;
  am_raw_text : option string;
  am_parsed_intent : string;
  am_intent_confidence : Z;
  am_user_feedback : option string;
  am_payload : dict json;
}.

(** A trend candidate, as far as approvals read and write it; the score is in
    hundredths. *)
Record TrendCandidate := {
  tc_id : string;
  tc_tenant_id : string;
  tc_status : string;
  tc_primary_topic : string;
  tc_final_score : Z;
  tc_evidence_links : list string;
  tc_score_explanation : dict json;
}.
#[global] Instance eta_TrendCandidate : Settable TrendCandidate :=
  mk_settable _ (λ c, Build_TrendCandidate (tc_id c) (tc_tenant_id c) (tc_status c) (tc_primary_topic c)
    (tc_final_score c) (tc_evidence_links c) (tc_score_explanation c)).

(** A content plan as its cached lookup gives it. *)
Record ContentPlan := {
  cp_story_cluster_id : string;
  cp_target_platforms : list string;
  cp_tone : string;
}.

(** A request for other content (content_generation/models.py). *)
Record ContentRevision := {
  cr_tenant_id : string;
  cr_content_job_id : string;
  cr_revision_number : Z;
  cr_feedback : string;
  cr_source_channel : string;
  cr_status : string;
  cr_requested_by_user_id : option string;
  cr_diff_summary : option string;
  cr_revision_payload : dict json;
}.

(** The session of the approval service: the engine's store, which holds the
    requests, with the inbox; the tables of publishing, which hold the clusters
    and the audit events, with the web and the clock; the content library; the
    messages, in the order they were created; the candidates, the revisions and
    the tenants.  The pending revisions are in Redis: a chat with the request
    its next message is about, and when that expires. *)
Record World := {
  ap_ops : OpsWorld;
  ap_publishing : Publishing.World;
  ap_library : Publishing.Library;
  ap_messages : list ApprovalMessage;
  ap_candidates : list TrendCandidate;
  ap_content_revisions : list ContentRevision;
  ap_tenants : list Settings.Tenant;
  ap_pending_revisions : list (string * (string * Z));
}.
#[global] Instance eta_World : Settable World :=
  mk_settable _ (λ w, Build_World (ap_ops w) (ap_publishing w) (ap_library w) (ap_messages w) (ap_candidates w)
    (ap_content_revisions w) (ap_tenants w) (ap_pending_revisions w)).

(** A datetime: the local time and the offset, if any, in microseconds. *)
Notation datetime := (Z * option Z)%type (only parsing).

(** What the service is surrounded by: the engine and publishing, the settings,
    HMAC, the cached lookup of content plans, the generation of content, the
    JSON and UTF-8 codecs and the reader of datetimes. *)
Record ApprovalEnv := {
  ae_engine : EngineEnv;
  ae_publisher : Publisher.Environment;
  ae_settings : Settings.AppSettings;
  ae_hmac : string → string → string;
  ae_plan : string → string → option ContentPlan;
  ae_generate : string → string → string → string → list string → M World string;
  ae_loads : string → option json;
  ae_dumps : json → string;
  ae_decode_ignore : string → string;
  ae_fromisoformat : string → option datetime;
}.

Definition store (w : World) : Store := ow_store (ap_ops w).

Definition on_ops {A} (m : M OpsWorld A) : M World A :=
  λ w, let '(r, o) := m (ap_ops w) in (r, w <| ap_ops := o |>).
Definition on_engine {A} (m : M Store A) : M World A := on_ops (on_store m).
Definition on_publishing {A} (m : Publishing.Library → M Publishing.World A) : M World A :=
  λ w, let '(r, p) := m (ap_library w) (ap_publishing w) in (r, w <| ap_publishing := p |>).
Definition on_web {A} (m : M Providers.Web A) : M World A := on_publishing (λ _, Publishing.on_web m).
Definition on_tenants {A} (m : M (list Settings.Tenant) A) : M World A :=
  λ w, let '(r, l) := m (ap_tenants w) in (r, w <| ap_tenants := l |>).
(** [db.commit()], as the tables of publishing record it. *)
Definition commit : M World unit := on_publishing (λ _, Publishing.commit).

(** ** repository.py *)

Definition get_request_by_id (request_id : string) (st : Store) : option ApprovalRequest :=
  row_by ar_id request_id (st_approvals st).

Definition get_request (tenant_id request_id : string) (st : Store) : option ApprovalRequest :=
  List.find (λ r, bool_decide (ar_id r = request_id) && bool_decide (ar_tenant_id r = tenant_id)) (st_approvals st).

Definition list_requests (tenant_id : string) (limit : nat) (st : Store) : list ApprovalRequest :=
  firstn limit (Accounts.newest_first ar_created_at
    (List.filter (λ r, bool_decide (ar_tenant_id r = tenant_id)) (st_approvals st))).

Definition get_request_for_content_job (content_job_id : string) (st : Store) : option ApprovalRequest :=
  head (Accounts.newest_first ar_created_at
    (List.filter (λ r, bool_decide (ar_content_job_id r = Some content_job_id)) (st_approvals st))).

Definition get_request_for_related_entity (tenant_id related_entity_type related_entity_id approval_type : string)
    (st : Store) : option ApprovalRequest :=
  head (Accounts.newest_first ar_created_at
    (List.filter (λ r, bool_decide (ar_tenant_id r = tenant_id) &&
                       bool_decide (ar_related_entity_type r = Some related_entity_type) &&
                       bool_decide (ar_related_entity_id r = Some related_entity_id) &&
                       bool_decide (ar_approval_type r = approval_type)) (st_approvals st))).

Definition expired_pending (now : Z) (r : ApprovalRequest) : bool :=
  bool_decide (ar_status r = APPROVAL_PENDING) &&
  match ar_expires_at r with Some t => t <=? now | None => false end.

Definition list_expired_pending_requests (now : Z) (st : Store) : list ApprovalRequest :=
  List.filter (expired_pending now) (st_approvals st).

(** Attributes of a request object, and assignments to them. *)
Definition set_request (request_id : string) (f : ApprovalRequest → ApprovalRequest) (st : Store) : Store :=
  st <| st_approvals ::= set_row ar_id request_id f |>.
Definition assign_request (request_id : string) (f : ApprovalRequest → ApprovalRequest) : M World unit :=
  modify (λ w, w <| ap_ops ::= λ o, o <| ow_store ::= set_request request_id f |> |>).
Definition the_request (request_id : string) : M World ApprovalRequest :=
  w ← get_state;
  match get_request_by_id request_id (store w) with
  | Some r => mret r
  | None => raise (OtherException "ObjectDeletedError" request_id)
  end.

Definition create_message (m : ApprovalMessage) : M World unit :=
  modify (λ w, w <| ap_messages ::= λ l, l ++ [m] |>).

Definition record_audit (log : Tables.AuditLog) : M World unit :=
  on_publishing (λ _, Publishing.record_audit log).

(** ** approval_binding.py *)

Definition WORKFLOW_BINDING_KEY : string := "workflow".

Definition status_outcome (s : ApprovalStatus) : option string :=
  match s with
  | APPROVAL_APPROVED => Some "approved" | APPROVAL_REJECTED => Some "rejected" | APPROVAL_EXPIRED => Some "expired"
  | _ => None
  end.

Definition binding_of (payload : dict json) : option (dict json) :=
  match Dict.get WORKFLOW_BINDING_KEY payload with
  | Some (JObj binding) => if Json.truthy (Json.getn "resume_token" binding) then Some binding else None
  | _ => None
  end.

Definition get_workflow_binding (r : ApprovalRequest) : option (dict json) := binding_of (ar_response_payload_json r).

Definition build_workflow_binding (workflow_run_id workflow_node_run_id node_id resume_token : option string)
    (on_timeout : string) (allow_revision : bool) (channels : list string) : dict json :=
  [("workflow_run_id", Json.opt_str workflow_run_id); ("workflow_node_run_id", Json.opt_str workflow_node_run_id);
   ("node_id", Json.opt_str node_id); ("resume_token", Json.opt_str resume_token); ("on_timeout", JStr on_timeout);
   ("allow_revision", JBool allow_revision); ("channels", JArr (JStr <$> channels))].

(** [{**base, **update}] with the binding of [base] kept. *)
Definition merge_payload_preserving_workflow (existing update : dict json) : dict json :=
  let merged := Dict.update existing update in
  match Dict.get WORKFLOW_BINDING_KEY existing with
  | Some (JObj binding) =>
      if Dict.mem WORKFLOW_BINDING_KEY update then merged else Dict.set WORKFLOW_BINDING_KEY (JObj binding) merged
  | _ => merged
  end.

Definition stamp_workflow_binding (binding : option (dict json)) (r : ApprovalRequest) : ApprovalRequest :=
  match binding with
  | Some ((_ :: _) as b) => r <| ar_response_payload_json ::= Dict.set WORKFLOW_BINDING_KEY (JObj b) |>
  | _ => r
  end.

(** The iteration over a value: of a text its characters, of an object its keys. *)
Fixpoint characters (s : string) : list string :=
  match s with EmptyString => [] | String c s' => String c "" :: characters s' end.

Definition iterate (v : json) : result (list json) :=
  match v with
  | JArr l => Ok l
  | JStr s => Ok (JStr <$> characters s)
  | JObj o => Ok (JStr <$> Dict.keys o)
  | _ => Raise (OtherException "TypeError" "object is not iterable")
  end.

(** [list(value or [])] *)
Definition list_or_empty (v : json) : result (list json) := if Json.truthy v then iterate v else Ok [].

(** What the paused node is told of the decision. *)
Definition decision_of (r : ApprovalRequest) (binding : dict json) (channels : list json) : dict json :=
  [("approval_request_id", JStr (ar_id r)); ("status", JStr (status_value (ar_status r)));
   ("content_job_id", Json.opt_str (ar_content_job_id r)); ("revision_count", JInt (ar_revision_count r));
   ("on_timeout", default (JStr "stop") (Dict.get "on_timeout" binding)); ("channels", JArr channels)].

Definition maybe_resume_workflow_from_approval (env : EngineEnv) (r : ApprovalRequest) : M Store unit :=
  match get_workflow_binding r, status_outcome (ar_status r) with
  | Some binding, Some outcome =>
      channels ← lift (list_or_empty (Json.getn "channels" binding));
      _ ← Resume.resume_waiting_node env (ar_tenant_id r) (Some (Json.str (Json.getn "resume_token" binding)))
            outcome (decision_of r binding channels) true;
      mret ()
  | _, _ => mret ()
  end.

(** ** Expiry (workers/task_defs/approvals.py) *)

(** The rows of the loop are objects: each is read as the loop reaches it. *)
Definition expire_request (env : EngineEnv) (request_id : string) : M Store unit :=
  _ ← modify (set_request request_id (λ r, r <| ar_status := APPROVAL_EXPIRED |>));
  st ← get_state;
  match get_request_by_id request_id st with
  | Some r => maybe_resume_workflow_from_approval env r
  | None => mret ()
  end.

Definition expire_stale_approvals (env : EngineEnv) (now : Z) : M OpsWorld nat :=
  w ← get_state;
  let expired := ar_id <$> list_expired_pending_requests now (ow_store w) in
  _ ← on_store (mfor expired (expire_request env));
  mret (length expired).

Definition expire_task_spec : Runtime.TaskSpec := {|
  Runtime.ts_task_name := "expire_stale_approvals"; Runtime.ts_queue_name := "approvals";
  Runtime.ts_tenant_id := None; Runtime.ts_entity_type := Some "approval_request"; Runtime.ts_entity_id := None;
  Runtime.ts_celery_task_id := None; Runtime.ts_correlation_id := None; Runtime.ts_payload := [] |}.

Definition expire_stale_approvals_task (uuid : nat → string) (env : EngineEnv) (now : Z) : M OpsWorld nat :=
  Runtime.run_async_task uuid now expire_task_spec (expire_stale_approvals env now).
End Approvals.
