(* ===== verification/ApprovalCards.v ===== *)
(** * The messages of the approval channels (approvals/callback_signing.py,
    approvals/telegram_provider.py, approvals/telegram_asset_cards.py,
    approvals/telegram_topic_cards.py, approvals/whatsapp_providers.py)

    The signed data of the buttons, the cards and texts sent, and what is read
    from an answer.  HMAC and SHA-256 are parameters. *)
From S2P Require Import Prelude PyStr Json Calendar Tables RunModels Webhooks Accounts Providers Publisher Settings Approvals.

Module ApprovalCards.
Import Providers Settings Approvals.
Local Open Scope string_scope.
Local Open Scope list_scope.
Local Open Scope Z_scope.

(** [s.upper()] on ASCII *)
Definition upper_char (c : ascii) : ascii :=
  let n := PyStr.code c in if Nat.leb 97 n && Nat.leb n 122 then Ascii.ascii_of_nat (n - 32) else c.
Fixpoint upper (s : string) : string :=
  match s with "" => "" | String c s' => String (upper_char c) (upper s') end.

Definition newline : string := String (Ascii.ascii_of_nat 10) "".
Definition lines (l : list string) : string := PyStr.join newline l.
Definition paragraphs (l : list string) : string := PyStr.join (newline +:+ newline) l.

(** [f"{z:.2f}"] of hundredths *)
Definition hundredths (z : Z) : string :=
  (if z <? 0 then "-" else "") +:+ PyStr.of_Z (Z.abs z / 100) +:+ "." +:+ Calendar.two_digits (Z.abs z mod 100).

(** What a provider answers when a message was sent. *)
Record SendResult := { sr_provider : string; sr_message_id : string }.
Definition send_payload (r : SendResult) : dict json :=
  [("provider", JStr (sr_provider r)); ("message_id", JStr (sr_message_id r))].

Record TelegramProvider := {
  tp_bot_token : string;
  tp_chat_id : string;
  tp_mock : bool;
}.

(** The id and the message id of an answer are texts when the provider sends
    texts; they are stored as they are. *)
Record ParsedWhatsAppMessage := {
  pm_approval_request_id : option string;
  pm_raw_text : string;
  pm_intent : string;
  pm_confidence : Z;
  pm_feedback : option string;
  pm_provider_message_id : json;
}.

Inductive WhatsAppProvider := StubWhatsAppProvider | MetaWhatsAppCloudProvider (config : WhatsAppRuntimeConfig).

Definition _RISK_EMOJI : dict string :=
  [("safe", "🟢"); ("sensitive", "🟡"); ("risky", "🟠"); ("unsafe", "🔴"); ("low", "🟢"); ("medium", "🟡");
   ("high", "🟠"); ("blocked", "🔴")].

(** [s.partition(" ")[2]] *)
Fixpoint after_space (s : string) : string :=
  match s with "" => "" | String c s' => if bool_decide (c = " "%char) then s' else after_space s' end.

(** [s.split(" ", maxsplit=1)], when there is a space. *)
Fixpoint has_space (s : string) : bool :=
  match s with "" => false | String c s' => bool_decide (c = " "%char) || has_space s' end.

Definition py_text (v : json) : result string :=
  match v with JStr s => Ok s | _ => Raise (OtherException "AttributeError" "object has no attribute 'lower'") end.

Section cards.
Context (env : ApprovalEnv).

Notation cfg := (Publisher.ev_web (ae_publisher env)).
Notation answer := (Publisher.ev_answer (ae_publisher env)).
Notation sha256_hex := (Publisher.ev_sha256_hex (ae_publisher env)).
Notation dumps_sorted := (Publisher.ev_dumps_sorted (ae_publisher env)).

(** ** callback_signing.py *)

Definition sign_telegram_callback (payload : string) : string :=
  PyStr.take 10 (ae_hmac env (telegram_callback_signing_secret (ae_settings env)) payload).

Definition build_signed_callback_data (action identifier : string) : string :=
  let payload := action +:+ ":" +:+ identifier in
  payload +:+ ":" +:+ sign_telegram_callback payload.

Definition verify_signed_callback_data (data : string) : result (bool * string * string) :=
  match PyStr.split ":" data with
  | [] | [_] => Ok (false, "", "")
  | [action; identifier] => Ok (true, action, identifier)
  | action :: identifier :: signature :: _ =>
      valid ← Webhooks.compare_digest signature (sign_telegram_callback (action +:+ ":" +:+ identifier));
      Ok (valid, action, identifier)
  end.

(** ** telegram_provider.py *)

Definition get_telegram_provider (bot_token chat_id : string) : TelegramProvider := {|
  tp_bot_token := bot_token; tp_chat_id := chat_id;
  tp_mock := negb (PyStr.truthy bot_token) || PyStr.startswith "mock" bot_token || String.eqb bot_token "test-bot-token" |}.

Definition telegram_post (p : TelegramProvider) (method : string) (body : dict json) : M Web Response :=
  request cfg answer
    {| rq_method := "POST"; rq_url := "https://api.telegram.org/bot" +:+ tp_bot_token p +:+ "/" +:+ method;
       rq_headers := []; rq_json := JObj body; rq_content := "" |}.

(** [sendMessage] and the id in its answer. *)
Definition post_card (p : TelegramProvider) (body : dict json) : M Web SendResult :=
  response ← telegram_post p "sendMessage" body;
  _ ← lift (raise_for_status response);
  data ← lift (response_json response);
  result ← lift (json_get "result" (JObj []) data);
  message_id ← lift (json_get "message_id" (JStr "") result);
  mret {| sr_provider := "telegram"; sr_message_id := Json.str message_id |}.

(** The mock answers a digest of the arguments. *)
Definition mock_card (kwargs : dict json) : M Web SendResult :=
  mret {| sr_provider := "telegram-mock"; sr_message_id := PyStr.take 12 (sha256_hex (dumps_sorted (JObj kwargs))) |}.

Definition button (text action identifier : string) : json :=
  JObj [("text", JStr text); ("callback_data", JStr (build_signed_callback_data action identifier))].

Definition card (p : TelegramProvider) (text : string) (rows : list (list json)) : dict json :=
  [("chat_id", JStr (tp_chat_id p)); ("text", JStr text); ("parse_mode", JStr "HTML");
   ("reply_markup", JObj [("inline_keyboard", JArr (JArr <$> rows))])].

Definition send_message (p : TelegramProvider) (text : string) (approval_request_id : option string) : M Web SendResult :=
  if tp_mock p then
    mret {| sr_provider := "telegram-mock";
            sr_message_id := PyStr.take 12 (sha256_hex (text +:+ ":" +:+ or_empty approval_request_id)) |}
  else
    let body := [("chat_id", JStr (tp_chat_id p)); ("text", JStr text); ("parse_mode", JStr "HTML")] in
    post_card p
      (if PyStr.opt_truthy approval_request_id then
         let id := or_empty approval_request_id in
         body ++ [("reply_markup", JObj [("inline_keyboard",
                    JArr [JArr [button "✅ Confirm" "approve" id; button "❌ Reject" "reject" id;
                                button "✏️ Update" "revise" id]])])]
       else body).

Definition edit_message (p : TelegramProvider) (chat_id message_id new_text : string) : M Web unit :=
  if tp_mock p then mret ()
  else _ ← telegram_post p "editMessageText"
             [("chat_id", JStr chat_id); ("message_id", JStr message_id); ("text", JStr new_text);
              ("parse_mode", JStr "HTML"); ("reply_markup", JObj [("inline_keyboard", JArr [])])];
       mret ().

Definition answer_callback (p : TelegramProvider) (callback_query_id text : string) : M Web unit :=
  if tp_mock p then mret ()
  else _ ← telegram_post p "answerCallbackQuery"
             [("callback_query_id", JStr callback_query_id); ("text", JStr text)];
       mret ().

(** ** telegram_asset_cards.py, telegram_topic_cards.py *)

Definition send_asset_card (p : TelegramProvider) (headline : string) (platform_previews : list string)
    (approval_request_id risk_level : string) : M Web SendResult :=
  if tp_mock p then
    mock_card [("headline", JStr headline); ("platform_previews", JArr (JStr <$> platform_previews));
               ("approval_request_id", JStr approval_request_id); ("risk_level", JStr risk_level)]
  else
    let risk_emoji := default "⚪" (Dict.get risk_level _RISK_EMOJI) in
    let previews := paragraphs ((λ s, "<i>" +:+ s +:+ "</i>") <$> firstn 3 platform_previews) in
    let previews_text := if PyStr.truthy previews then previews else "<i>No preview available</i>" in
    let text := paragraphs ["<b>🎨 Content Ready — Asset Approval</b>  " +:+ risk_emoji;
                            "<b>" +:+ headline +:+ "</b>"; "<b>Review label:</b> " +:+ risk_level; previews_text] in
    let b text action := button text action approval_request_id in
    post_card p (card p text
      [[b "✅ Approve Assets" "approve"; b "❌ Reject" "reject"; b "✏️ Revise" "revise"];
       [b "✂️ Trim" "trim"; b "🎯 Edit CTA" "edit_cta"]; [b "📣 Publish Gate" "publish_gate"]]).

Definition send_publish_card (p : TelegramProvider) (headline approval_request_id : string) (platforms : list string)
    (scheduled_for : option string) (risk_level : string) : M Web SendResult :=
  if tp_mock p then
    mock_card [("headline", JStr headline); ("approval_request_id", JStr approval_request_id);
               ("platforms", JArr (JStr <$> platforms)); ("scheduled_for", Json.opt_str scheduled_for);
               ("risk_level", JStr risk_level)]
  else
    let text := paragraphs ["<b>🚀 Publish Approval</b>";
      lines ["<b>" +:+ headline +:+ "</b>"; "<b>Platforms:</b> " +:+ PyStr.join ", " platforms;
             "<b>Review label:</b> " +:+ risk_level;
             "<b>Schedule:</b> " +:+ (if PyStr.opt_truthy scheduled_for then or_empty scheduled_for
                                      else "Publish now")]] in
    let b text action := button text action approval_request_id in
    post_card p (card p text
      ([[b "✅ Approve All" "approve_publish"; b "⏸ Hold" "hold_publish"; b "🛑 Cancel" "cancel_publish"]] ++
       ((λ platform, [b ("Only " +:+ upper platform) ("approve_" +:+ platform)]) <$> firstn 4 platforms) ++
       [[b "🕒 Schedule Later" "schedule_publish"]])).

Definition send_topic_card (p : TelegramProvider) (title : string) (score : Z) (why_now : string)
    (evidence_links : list string) (risk_level callback_id : string) : M Web SendResult :=
  if tp_mock p then
    mock_card [("title", JStr title); ("score", JInt score); ("why_now", JStr why_now);
               ("evidence_links", JArr (JStr <$> evidence_links)); ("risk_level", JStr risk_level);
               ("callback_id", JStr callback_id)]
  else
    let evidence := lines ((λ link, "• " +:+ link) <$> firstn 3 evidence_links) in
    let evidence_text := if PyStr.truthy evidence then evidence else "• No evidence links" in
    let text := paragraphs ["<b>📡 Topic Approval</b>";
      lines ["<b>" +:+ title +:+ "</b>"; "<b>Score:</b> " +:+ hundredths score; "<b>Why now:</b> " +:+ why_now;
             "<b>Risk:</b> " +:+ risk_level; "<b>Review label:</b> " +:+ risk_level];
      lines ["<b>Evidence:</b>"; evidence_text]] in
    let b text action := button text action callback_id in
    post_card p (card p text
      [[b "✅ Approve Topic" "approve_topic"; b "❌ Reject" "reject_topic"];
       [b "🛡 Safer Angle" "safer_topic"; b "⏸ Hold" "hold_topic"]; [b "♻️ Regen Brief" "regen_topic"]]).

(** ** whatsapp_providers.py *)

Definition get_whatsapp_provider (config : WhatsAppRuntimeConfig) : WhatsAppProvider :=
  if String.eqb (wc_provider config) "meta" && PyStr.truthy (wc_access_token config) &&
     PyStr.truthy (wc_phone_number_id config)
  then MetaWhatsAppCloudProvider config else StubWhatsAppProvider.

(** [payload.get("messages", [{}])[0].get("id")] *)
Definition first_message_id (payload : json) : result json :=
  messages ← json_get "messages" (JArr [JObj []]) payload;
  match messages with
  | JArr (m :: _) => json_get "id" JNull m
  | JArr [] => Raise (OtherException "IndexError" "list index out of range")
  | JObj _ => Raise (KeyError "0")
  | JStr (String c _) => json_get "id" JNull (JStr (String c ""))
  | JStr "" => Raise (OtherException "IndexError" "string index out of range")
  | _ => Raise (OtherException "TypeError" "object is not subscriptable")
  end.

Definition send_whatsapp (p : WhatsAppProvider) (to text : string) : M Web SendResult :=
  match p with
  | StubWhatsAppProvider => mret {| sr_provider := "stub"; sr_message_id := PyStr.take 16 (sha256_hex text) |}
  | MetaWhatsAppCloudProvider config =>
      response ← request cfg answer
        {| rq_method := "POST";
           rq_url := "https://graph.facebook.com/v20.0/" +:+ wc_phone_number_id config +:+ "/messages";
           rq_headers := [("Authorization", "Bearer " +:+ wc_access_token config)];
           rq_json := JObj [("messaging_product", JStr "whatsapp"); ("to", JStr to); ("type", JStr "text");
                            ("text", JObj [("body", JStr text)])];
           rq_content := "" |};
      _ ← lift (raise_for_status response);
      payload ← lift (response_json response);
      message_id ← lift (first_message_id payload);
      mret {| sr_provider := "meta"; sr_message_id := Json.str message_id |}
  end.

Definition verify_signature (p : WhatsAppProvider) (body : string) (signature : option string) : result bool :=
  match p with
  | StubWhatsAppProvider => Ok true
  | MetaWhatsAppCloudProvider config =>
      if negb (PyStr.opt_truthy signature) || negb (PyStr.truthy (wc_app_secret config)) then Ok false
      else Webhooks.compare_digest ("sha256=" +:+ ae_hmac env (wc_app_secret config) body) (or_empty signature)
  end.

(** [UUID(request_id) if request_id else None] *)
Definition uuid_or_none (request_id : json) : result (option string) :=
  if negb (Json.truthy request_id) then Ok None
  else match request_id with
       | JStr s => match Publisher.ev_uuid_of_text (ae_publisher env) s with
                   | Some u => Ok (Some u)
                   | None => Raise (ValueError "badly formed hexadecimal UUID string")
                   end
       | _ => Raise (OtherException "AttributeError" "object has no attribute 'replace'")
       end.

(** The feedback of the stub: the text after the first word, then after the
    first word of that when there is a second. *)
Definition stub_feedback (raw_text : string) : string :=
  let rest := PyStr.strip (after_space raw_text) in
  let feedback := if PyStr.truthy rest then rest else "Please revise" in
  if has_space feedback then after_space feedback else feedback.

Definition stub_parse (payload : json) : result (list ParsedWhatsAppMessage) :=
  text ← json_get "text" (JStr "") payload;
  request_id ← json_get "approval_request_id" JNull payload;
  message_id ← json_get "message_id" JNull payload;
  let raw_text := Json.str text in
  let lowered := PyStr.strip (PyStr.lower raw_text) in
  let '(intent, confidence, feedback) :=
    if PyStr.startswith "approve" lowered then ("approve", 98, None)
    else if PyStr.startswith "reject" lowered then ("reject", 95, None)
    else if PyStr.startswith "revise" lowered then ("revise", 95, Some (stub_feedback raw_text))
    else ("unknown", 40, None) in
  id ← uuid_or_none request_id;
  Ok [{| pm_approval_request_id := id; pm_raw_text := raw_text; pm_intent := intent; pm_confidence := confidence;
         pm_feedback := feedback; pm_provider_message_id := message_id |}].

Definition meta_intent (lowered : string) : string :=
  if PyStr.startswith "approve" lowered then "approve"
  else if PyStr.startswith "revise" lowered then "revise"
  else if PyStr.startswith "reject" lowered then "reject" else "unknown".

Definition meta_message (message : json) : result ParsedWhatsAppMessage :=
  text ← json_get "text" (JObj []) message;
  body ← json_get "body" (JStr "") text;
  text ← py_text body;
  let intent := meta_intent (PyStr.lower text) in
  message_id ← json_get "id" JNull message;
  Ok {| pm_approval_request_id := None; pm_raw_text := text; pm_intent := intent;
        pm_confidence := if String.eqb intent "unknown" then 35 else 90;
        pm_feedback := if String.eqb intent "revise" then Some (PyStr.strip (after_space text)) else None;
        pm_provider_message_id := message_id |}.

(** [for x in items: ...], collecting. *)
Fixpoint collect {A} (f : json → result (list A)) (items : list json) : result (list A) :=
  match items with
  | [] => Ok []
  | x :: items' => l ← f x; l' ← collect f items'; Ok (l ++ l')
  end.

(** [for x in v.get(k, []): ...] *)
Definition for_each {A} (k : string) (f : json → result (list A)) (v : json) : result (list A) :=
  items ← json_get k (JArr []) v;
  items ← iterate items;
  collect f items.

Definition meta_parse (payload : json) : result (list ParsedWhatsAppMessage) :=
  for_each "entry" (for_each "changes" (λ change,
    value ← json_get "value" (JObj []) change;
    for_each "messages" (λ m, p ← meta_message m; Ok [p]) value)) payload.

Definition parse_payload (p : WhatsAppProvider) (payload : json) : result (list ParsedWhatsAppMessage) :=
  match p with StubWhatsAppProvider => stub_parse payload | MetaWhatsAppCloudProvider _ => meta_parse payload end.
End cards.
End ApprovalCards.
