(* ===== verification/ApprovalOutbound.v ===== *)
(** * Asking for approval (approvals/approval_helpers.py,
    approvals/approval_outbound.py, workflows/approval_delivery.py,
    workflows/nodes/approval.py)

    A request is created or refreshed for its content, and delivered over the
    channels; the node of a workflow that asks binds the request to itself. *)
From S2P Require Import Prelude PyStr Json Calendar Tables RunModels NodeIndex Nodes Inbox Webhooks.
From S2P Require Import Accounts Providers Variants Publishing Publisher Settings Approvals ApprovalCards.

Module ApprovalOutbound.
Import Models Inbox Providers Variants Settings Approvals ApprovalCards.
Local Open Scope string_scope.
Local Open Scope list_scope.
Local Open Scope Z_scope.

(** [d.isoformat()] *)
Definition isoformat (d : datetime) : string :=
  match d with
  | (wall, Some offset) => Calendar.isoformat_at wall offset
  | (wall, None) => let us := wall mod 1000000 in
      Calendar.date_time_text (wall / 1000000) +:+
      (if us =? 0 then "" else "." +:+ Calendar.pad_left 6 (PyStr.of_Z us))
  end.

Definition hours (n : Z) : Z := n * 3600000000.

(** ** approval_helpers.py *)

(** The label is the text of whatever the review or the bundle holds. *)
Definition risk_payload_for_job (cj : ContentJob) : string * dict json :=
  let grounding := Json.as_dict (cj_grounding_bundle cj) in
  let review := Json.as_dict (default (JObj []) (Dict.get "risk_review" grounding)) in
  (Json.str (Json.get_or "label" review (Json.get_or "risk_label" grounding (JStr "low"))), review).
Definition risk_items (risk : string * dict json) : dict json :=
  [("risk_label", JStr risk.1); ("risk_review", JObj risk.2)].

(** The loop that returns the first truthy id. *)
Fixpoint first_found (f : json → result (option string)) (items : list json) : result (option string) :=
  match items with
  | [] => Ok None
  | x :: items' => found ← f x; match found with Some s => Ok (Some s) | None => first_found f items' end
  end.
Definition search_each (k : string) (f : json → result (option string)) (v : json) : result (option string) :=
  items ← json_get k (JArr []) v;
  items ← iterate items;
  first_found f items.

Definition extract_phone_number_id (payload : json) : result (option string) :=
  search_each "entry" (search_each "changes" (λ change,
    value ← json_get "value" (JObj []) change;
    metadata ← json_get "metadata" (JObj []) value;
    phone_number_id ← json_get "phone_number_id" JNull metadata;
    Ok (if Json.truthy phone_number_id then Some (Json.str phone_number_id) else None))) payload.

(** The token "test-bot-token" is not special here. *)
Definition telegram_provider (bot_token chat_id : string) : TelegramProvider :=
  if PyStr.startswith "mock" bot_token || negb (PyStr.truthy bot_token)
  then get_telegram_provider bot_token chat_id
  else {| tp_bot_token := bot_token; tp_chat_id := chat_id; tp_mock := false |}.

Definition none_text (s : option string) : string := default "None" s.

Section outbound.
Context (env : ApprovalEnv).

Definition utc_now : M World Z := on_publishing (λ _, Publishing.now_utc (Publisher.ev_time (ae_publisher env))).
Definition new_id : M World string := on_publishing (λ _, Publishing.new_id (Publisher.ev_uuid (ae_publisher env))).

Definition find_job (tenant_id content_job_id : string) (w : World) : option ContentJob :=
  get_job tenant_id content_job_id (Publishing.lb_content_jobs (ap_library w)).
Definition text_variants (content_job_id : string) (w : World) : list GeneratedAsset :=
  List.filter (λ a, is_text_variant (ga_asset a)) (asset_rows content_job_id (Publishing.lb_assets (ap_library w))).

Definition content_job_or_404 (tenant_id content_job_id : string) : M World ContentJob :=
  w ← get_state;
  match find_job tenant_id content_job_id w with
  | Some j => mret j
  | None => raise (HTTPException 404 "Content job not found")
  end.

Definition build_summary_text (tenant_id content_job_id approval_request_id : string) : M World string :=
  job ← content_job_or_404 tenant_id content_job_id;
  w ← get_state;
  let previews := (λ a, none_text (as_platform (ga_asset a)) +:+ "/" +:+ none_text (ga_variant_label a) +:+ ": " +:+
                        none_text (as_text_content (ga_asset a))) <$> firstn 4 (text_variants (cj_id job) w) in
  mret (lines ["Approval request " +:+ approval_request_id; "Reply with one of:"; "- APPROVE " +:+ approval_request_id;
               "- REVISE " +:+ approval_request_id +:+ " <feedback>"; "- REJECT " +:+ approval_request_id; "";
               "Preview:"; lines previews]).

(** The headline and the previews of the asset card. *)
Definition build_telegram_asset_previews (tenant_id content_job_id : string) : M World (string * list string) :=
  w ← get_state;
  match find_job tenant_id content_job_id w with
  | None => mret ("Content ready for review", [])
  | Some job =>
      headline ← lift (json_get "headline" (JStr "Content ready for review") (cj_grounding_bundle job));
      let preview a :=
        let platform := or_empty (as_platform (ga_asset a)) in
        "[" +:+ upper (if PyStr.truthy platform then platform else "UNKNOWN") +:+ "] " +:+
        PyStr.take 200 (or_empty (as_text_content (ga_asset a))) in
      mret (Json.str headline, preview <$> firstn 3 (text_variants (cj_id job) w))
  end.

Definition telegram_runtime (tenant_id : string) : M World (TelegramRuntimeConfig * option TelegramProvider) :=
  config ← on_tenants (resolve_telegram_runtime_config (ae_settings env) tenant_id);
  if negb (tg_enabled config) || negb (PyStr.truthy (tg_chat_id config)) then mret (config, None)
  else
    mret (config, Some (telegram_provider (tg_bot_token config) (tg_chat_id config))).

(** What a request is asked about. *)
Record Subject := {
  sb_content_job_id : option string;
  sb_recipient : string;
  sb_provider : string;
  sb_approval_type : string;
  sb_related_entity_type : option string;
  sb_related_entity_id : option string;
  sb_buttons_json : list string;
  sb_expires_in_hours : Z;
}.

Definition refreshed (s : Subject) (now : Z) (r : ApprovalRequest) : ApprovalRequest :=
  r <| ar_status := APPROVAL_PENDING |> <| ar_recipient := sb_recipient s |> <| ar_provider := sb_provider s |>
    <| ar_approval_type := sb_approval_type s |> <| ar_related_entity_type := sb_related_entity_type s |>
    <| ar_related_entity_id := sb_related_entity_id s |> <| ar_buttons_json := sb_buttons_json s |>
    <| ar_expires_at := Some (now + hours (sb_expires_in_hours s)) |> <| ar_callback_last_error := None |>.

Definition new_request (id tenant_id : string) (s : Subject) (requested_at expires_from created_at : Z) :
    ApprovalRequest := {|
  ar_id := id; ar_tenant_id := tenant_id; ar_content_job_id := sb_content_job_id s; ar_status := APPROVAL_PENDING;
  ar_channel := "telegram"; ar_recipient := sb_recipient s; ar_provider := sb_provider s;
  ar_provider_request_id := None; ar_requested_at := Some requested_at; ar_responded_at := None;
  ar_approved_by_user_id := None; ar_revision_count := 0;
  ar_expires_at := Some (expires_from + hours (sb_expires_in_hours s)); ar_last_sent_at := None;
  ar_related_entity_type := sb_related_entity_type s; ar_related_entity_id := sb_related_entity_id s;
  ar_approval_type := sb_approval_type s; ar_buttons_json := sb_buttons_json s; ar_telegram_message_id := None;
  ar_callback_verification_failures := 0; ar_callback_last_error := None; ar_responded_by := None;
  ar_response_payload_json := []; ar_created_at := created_at |}.

(** The request there is: of the content job, else of the related entity. *)
Definition existing_request (tenant_id : string) (s : Subject) (st : Store) : option ApprovalRequest :=
  if PyStr.opt_truthy (sb_content_job_id s) then get_request_for_content_job (or_empty (sb_content_job_id s)) st
  else if PyStr.opt_truthy (sb_related_entity_type s) && PyStr.opt_truthy (sb_related_entity_id s) then
    get_request_for_related_entity tenant_id (or_empty (sb_related_entity_type s))
      (or_empty (sb_related_entity_id s)) (sb_approval_type s) st
  else None.

Definition create_or_refresh_request (tenant_id : string) (s : Subject) : M World string :=
  w ← get_state;
  match existing_request tenant_id s (store w) with
  | Some r =>
      now ← utc_now;
      _ ← assign_request (ar_id r) (refreshed s now);
      mret (ar_id r)
  | None =>
      requested_at ← utc_now; expires_from ← utc_now;
      id ← new_id; created_at ← utc_now;
      _ ← modify (λ w, w <| ap_ops ::= λ o, o <| ow_store ::= λ st, st <| st_approvals ::= λ l,
            l ++ [new_request id tenant_id s requested_at expires_from created_at] |> |> |>);
      mret id
  end.

(** ** approval_delivery.py *)

(** The card that was sent, recorded. *)
Definition outbound_message (request_id channel message_type raw_text : string) (r : SendResult) : ApprovalMessage := {|
  am_approval_request_id := request_id; am_direction := "outbound"; am_channel := channel;
  am_provider_message_id := Some (sr_message_id r); am_message_type := message_type; am_raw_text := Some raw_text;
  am_parsed_intent := "unknown"; am_intent_confidence := 100; am_user_feedback := None;
  am_payload := send_payload r |}.

Definition sent_by_telegram (message_id : string) (now : Z) (r : ApprovalRequest) : ApprovalRequest :=
  r <| ar_provider_request_id := Some message_id |> <| ar_telegram_message_id := Some message_id |>
    <| ar_last_sent_at := Some now |>.

Definition deliver_telegram (request_id tenant_id content_job_id : string) : M World bool :=
  '(_, telegram) ← telegram_runtime tenant_id;
  match telegram with
  | None => mret false
  | Some telegram =>
      w ← get_state;
      let risk_label := match find_job tenant_id content_job_id w with
                        | Some job => (risk_payload_for_job job).1 | None => "unknown" end in
      '(headline, platform_previews) ← build_telegram_asset_previews tenant_id content_job_id;
      sent ← on_web (send_asset_card env telegram headline platform_previews request_id risk_label);
      now ← utc_now;
      _ ← assign_request request_id (λ r, sent_by_telegram (sr_message_id sent) now r <| ar_channel := "telegram" |>);
      _ ← create_message (outbound_message request_id "telegram" "asset_card" headline sent);
      mret true
  end.

Definition deliver_whatsapp (request_id tenant_id content_job_id : string) : M World bool :=
  config ← on_tenants (resolve_whatsapp_runtime_config (ae_settings env) tenant_id);
  request ← the_request request_id;
  if negb (PyStr.truthy (ar_recipient request) || PyStr.truthy (wc_recipient config) ||
           PyStr.truthy (WHATSAPP_DEFAULT_RECIPIENT (ae_settings env)))
  then mret false
  else
    message_text ← build_summary_text tenant_id content_job_id request_id;
    sent ← on_web (send_whatsapp env (get_whatsapp_provider config) (ar_recipient request) message_text);
    now ← utc_now;
    _ ← assign_request request_id (λ r,
          r <| ar_channel := "whatsapp" |> <| ar_provider := wc_provider config |>
            <| ar_provider_request_id := Some (sr_message_id sent) |> <| ar_last_sent_at := Some now |>);
    _ ← create_message (outbound_message request_id "whatsapp" "text" message_text sent);
    mret true.

(** [[str(c).strip().lower() for c in channels if str(c).strip()]] *)
Definition normalized_channels (channels : list string) : list string :=
  (λ c, PyStr.lower (PyStr.strip c)) <$> List.filter (λ c, PyStr.truthy (PyStr.strip c)) channels.

Fixpoint deliver_each (request_id tenant_id content_job_id : string) (channels : list string) : M World (list string) :=
  match channels with
  | [] => mret []
  | channel :: channels' =>
      delivered ←
        (if String.eqb channel "in_app" then mret ["in_app"]
         else if String.eqb channel "telegram" then
           ok ← deliver_telegram request_id tenant_id content_job_id;
           mret (if ok : bool then ["telegram"] else [])
         else if bool_decide (channel ∈ ["whatsapp"; "wa"]) then
           ok ← deliver_whatsapp request_id tenant_id content_job_id;
           mret (if ok : bool then ["whatsapp"] else [])
         else mret []);
      rest ← deliver_each request_id tenant_id content_job_id channels';
      mret (delivered ++ rest)
  end.

Definition deliver (request_id tenant_id content_job_id : string) (channels : list string) : M World (list string) :=
  let normalized := match normalized_channels channels with [] => ["in_app"] | l => l end in
  deliver_each request_id tenant_id content_job_id normalized.

(** ** approval_outbound.py *)

Definition set_cluster_state (tenant_id cluster_id state : string) : M World unit :=
  on_publishing (λ _, Publishing.on_rows (λ r, r <| Publishing.rw_clusters ::= map (λ c,
    if bool_decide (Publishing.sc_id c = cluster_id) && bool_decide (Publishing.sc_tenant_id c = tenant_id) &&
       Accounts.is_live (Publishing.sc_deleted_at c)
    then c <| Publishing.sc_workflow_state := state |> else c) |>)).

(** The cluster of the plan of a content job. *)
Definition mark_plan_cluster (tenant_id : string) (job : ContentJob) (state : string) : M World unit :=
  match ae_plan env tenant_id (cj_content_plan_id job) with
  | Some plan => set_cluster_state tenant_id (cp_story_cluster_id plan) state
  | None => mret ()
  end.

Definition audit (tenant_id : option string) (action : string) (request_id : option string) (message : string)
    (payload : dict json) (outcome : option string) : M World unit :=
  record_audit {| Tables.al_tenant_id := tenant_id; Tables.al_actor_user_id := None; Tables.al_action := action;
                  Tables.al_entity_type := "approval_request"; Tables.al_entity_id := request_id;
                  Tables.al_message := message; Tables.al_payload := payload; Tables.al_outcome := outcome |}.

(** [{**prior, **payload, **risk}], with the binding of [prior]. *)
Definition merged_payload (prior payload risk : dict json) : dict json :=
  let merged := Dict.update (Dict.update prior payload) risk in
  if Dict.mem "workflow" prior && negb (Dict.mem "workflow" merged)
  then Dict.set "workflow" (Json.getn "workflow" prior) merged else merged.

Definition asset_subject (content_job_id recipient : string) : Subject := {|
  sb_content_job_id := Some content_job_id; sb_recipient := recipient; sb_provider := "telegram";
  sb_approval_type := "asset"; sb_related_entity_type := Some "content_job";
  sb_related_entity_id := Some content_job_id;
  sb_buttons_json := ["approve"; "reject"; "revise"; "trim"; "edit_cta"; "publish_gate"]; sb_expires_in_hours := 48 |}.

(** [a or b] on texts *)
Definition text_or (a : option string) (b : string) : string := if PyStr.opt_truthy a then or_empty a else b.

Definition default_channels : list json := [JStr "telegram"; JStr "whatsapp"].

Definition send_for_approval (tenant_id content_job_id : string) (recipient : option string) (channels : list json)
    (delivery : bool) : M World string :=
  config ← on_tenants (resolve_whatsapp_runtime_config (ae_settings env) tenant_id);
  let resolved := PyStr.strip (text_or recipient (text_or (Some (wc_recipient config))
                                                    (WHATSAPP_DEFAULT_RECIPIENT (ae_settings env)))) in
  let channel_list := normalized_channels
    (Json.str <$> match channels with [] => default_channels | l => l end) in
  let messaging := List.filter (λ c, negb (String.eqb c "in_app")) channel_list in
  if bool_decide (messaging ≠ []) && negb (PyStr.truthy resolved) then
    raise (HTTPException 400 "No approval recipient configured for this tenant")
  else
    let resolved := if PyStr.truthy resolved then resolved else "in_app" in
    job ← content_job_or_404 tenant_id content_job_id;
    let risk := risk_payload_for_job job in
    if String.eqb risk.1 "blocked" then
      raise (HTTPException 422 "Risk review blocked this content from operator approval")
    else
      w ← get_state;
      let prior := match get_request_for_content_job content_job_id (store w) with
                   | Some r => ar_response_payload_json r | None => [] end in
      id ← create_or_refresh_request tenant_id (asset_subject content_job_id resolved);
      _ ← (if delivery then _ ← deliver id tenant_id content_job_id channel_list; mret () else mret ());
      _ ← assign_request id (λ r,
            r <| ar_response_payload_json ::= λ payload, merged_payload prior payload (risk_items risk) |>);
      _ ← mark_plan_cluster tenant_id job "asset_review";
      r ← the_request id;
      _ ← audit (Some tenant_id) "approvals.request_sent" (Some id) "Approval request sent"
            [("content_job_id", JStr content_job_id); ("recipient", JStr (ar_recipient r));
             ("approval_type", JStr "asset"); ("channels", JArr (JStr <$> channel_list))] None;
      mret id.

(** The recipient of the topic and publish cards. *)
Definition card_recipient (recipient : option string) (config : TelegramRuntimeConfig) : string :=
  text_or recipient (text_or (Some (tg_chat_id config)) (WHATSAPP_DEFAULT_RECIPIENT (ae_settings env))).

Definition get_trend_candidate (tenant_id candidate_id : string) (w : World) : option TrendCandidate :=
  List.find (λ c, bool_decide (tc_tenant_id c = tenant_id) && bool_decide (tc_id c = candidate_id)) (ap_candidates w).

Definition topic_subject (candidate_id recipient : string) : Subject := {|
  sb_content_job_id := None; sb_recipient := recipient; sb_provider := "telegram"; sb_approval_type := "topic";
  sb_related_entity_type := Some "trend_candidate"; sb_related_entity_id := Some candidate_id;
  sb_buttons_json := ["approve_topic"; "reject_topic"; "safer_topic"; "hold_topic"; "regen_topic"];
  sb_expires_in_hours := 18 |}.

Definition get_text (k : string) (o : dict json) (dflt : json) : string := Json.str (default dflt (Dict.get k o)).

Definition send_topic_for_approval (tenant_id candidate_id : string) (recipient : option string) : M World string :=
  w ← get_state;
  match get_trend_candidate tenant_id candidate_id w with
  | None => raise (HTTPException 404 "Trend candidate not found")
  | Some candidate =>
      '(config, telegram) ← telegram_runtime tenant_id;
      id ← create_or_refresh_request tenant_id (topic_subject (tc_id candidate) (card_recipient recipient config));
      match telegram with
      | None => raise (HTTPException 422 "Telegram is not configured for topic approvals")
      | Some telegram =>
          let explanation := tc_score_explanation candidate in
          why_now ← lift (json_get "why_now" (JStr "Emerging trend")
                            (default (JObj []) (Dict.get "cluster_explainability" explanation)));
          let risk_level := get_text "review_risk_label" explanation
                              (default (JStr "safe") (Dict.get "risk_level" explanation)) in
          sent ← on_web (send_topic_card env telegram (tc_primary_topic candidate) (tc_final_score candidate)
                           (Json.str why_now) (tc_evidence_links candidate) risk_level id);
          _ ← assign_request id (λ r, r <| ar_response_payload_json ::= λ payload, Dict.update payload
                [("risk_label", JStr (get_text "review_risk_label" explanation (JStr "low")));
                 ("topic_categories", default (JArr []) (Dict.get "topic_categories" explanation))] |>);
          now ← utc_now;
          _ ← assign_request id (sent_by_telegram (sr_message_id sent) now);
          _ ← create_message (outbound_message id "telegram" "topic_card" (tc_primary_topic candidate) sent);
          _ ← audit (Some tenant_id) "approvals.topic_sent" (Some id) "Topic approval request sent"
                [("trend_candidate_id", JStr (tc_id candidate))] None;
          mret id
      end
  end.

Definition publish_subject (content_job_id recipient : string) (platforms : list string) : Subject := {|
  sb_content_job_id := Some content_job_id; sb_recipient := recipient; sb_provider := "telegram";
  sb_approval_type := "publish"; sb_related_entity_type := Some "content_job";
  sb_related_entity_id := Some content_job_id;
  sb_buttons_json := ["approve_publish"; "hold_publish"; "cancel_publish"; "schedule_publish"] ++
                     ((λ p, "approve_" +:+ p) <$> platforms);
  sb_expires_in_hours := 24 |}.

(** The payload is overwritten, not merged. *)
Definition publish_payload (platforms : list string) (scheduled_for : option datetime) (risk : string * dict json) :
    dict json :=
  Dict.update [("platforms", JArr (JStr <$> platforms)); ("scheduled_for", Json.opt_str (isoformat <$> scheduled_for))]
    (risk_items risk).

Definition send_publish_for_approval (tenant_id content_job_id : string) (platforms : list string)
    (scheduled_for : option datetime) (recipient : option string) : M World string :=
  '(config, telegram) ← telegram_runtime tenant_id;
  job ← content_job_or_404 tenant_id content_job_id;
  let risk := risk_payload_for_job job in
  if String.eqb risk.1 "blocked" then
    raise (HTTPException 422 "Risk review blocked this content from publish approval")
  else
    id ← create_or_refresh_request tenant_id
           (publish_subject content_job_id (card_recipient recipient config) platforms);
    _ ← assign_request id (λ r, r <| ar_response_payload_json := publish_payload platforms scheduled_for risk |>);
    match telegram with
    | None => raise (HTTPException 422 "Telegram is not configured for publish approvals")
    | Some telegram =>
        headline ← lift (json_get "headline" (JStr "Ready to publish") (cj_grounding_bundle job));
        let headline := Json.str headline in
        sent ← on_web (send_publish_card env telegram headline id platforms (isoformat <$> scheduled_for) risk.1);
        now ← utc_now;
        _ ← assign_request id (sent_by_telegram (sr_message_id sent) now);
        _ ← create_message (outbound_message id "telegram" "publish_card" headline sent);
        _ ← audit (Some tenant_id) "approvals.publish_sent" (Some id) "Publish approval request sent"
              [("content_job_id", JStr content_job_id); ("platforms", JArr (JStr <$> platforms))] None;
        mret id
    end.
End outbound.
End ApprovalOutbound.
