(* ===== verification/ApprovalActions.v ===== *)
(** * Decisions on requests (approvals/approval_actions.py,
    approvals/service.py, content_generation/revisions.py,
    workflows/nodes/approval.py)

    What an intent does to a request: approval with its publication, revision
    with its regenerated content, rejection; and the resumption of the node of
    a workflow that waits for it. *)
From S2P Require Import Prelude PyStr Json Calendar Tables RunModels NodeIndex Nodes Inbox Webhooks.
From S2P Require Import Accounts Providers Variants Publishing Publisher Settings Approvals ApprovalCards ApprovalOutbound.

Module ApprovalActions.
Import Models Inbox Nodes Providers Variants Settings Approvals ApprovalCards ApprovalOutbound.
Local Open Scope string_scope.
Local Open Scope list_scope.
Local Open Scope Z_scope.

Definition PREFERENCES_KEY : string := "preferences.content_outcomes".

(** [v + 1] *)
Definition plus_one (v : json) : option json :=
  match v with
  | JInt z => Some (JInt (z + 1))
  | JBool b => Some (JInt (if b then 2 else 1))
  | _ => None
  end.

(** The entry of a platform and tone with one more outcome; [None] when the
    code raises. *)
Definition counted_entry (outcome : string) (entry : dict json) : option (dict json) :=
  n ← plus_one (default (JInt 0) (Dict.get outcome entry));
  let entry := Dict.set outcome n entry in
  total ← plus_one (default (JInt 0) (Dict.get "total" entry));
  Some (Dict.set "total" total entry).

Definition no_outcomes : dict json := [("approve", JInt 0); ("revise", JInt 0); ("reject", JInt 0); ("total", JInt 0)].

(** What the dashboard shows of a request. *)
Record ApprovalRequestResponse := {
  rr_request : ApprovalRequest;
  rr_risk_label : option string;
  rr_messages : list ApprovalMessage;
}.

Section actions.
Context (env : ApprovalEnv).

Notation utc_now := (utc_now env).

(** ** service.py *)

Definition list_messages (request_id : string) (w : World) : list ApprovalMessage :=
  List.filter (λ m, bool_decide (am_approval_request_id m = request_id)) (ap_messages w).

Definition request_or_404 (tenant_id request_id : string) : M World ApprovalRequest :=
  w ← get_state;
  match get_request tenant_id request_id (store w) with
  | Some r => mret r
  | None => raise (HTTPException 404 "Approval request not found")
  end.

Definition get_request_detail (tenant_id request_id : string) : M World ApprovalRequestResponse :=
  r ← request_or_404 tenant_id request_id;
  w ← get_state;
  let risk_label := Json.getn "risk_label" (ar_response_payload_json r) in
  mret {| rr_request := r; rr_risk_label := if Json.truthy risk_label then Some (Json.str risk_label) else None;
          rr_messages := list_messages (ar_id r) w |}.

(** ** revisions.py *)

Fixpoint uuids_of (items : list string) : result (list string) :=
  match items with
  | [] => Ok []
  | item :: items' =>
      if negb (PyStr.truthy item) then uuids_of items'
      else match Publisher.ev_uuid_of_text (ae_publisher env) item with
           | Some u => us ← uuids_of items'; Ok (u :: us)
           | None => Raise (ValueError "badly formed hexadecimal UUID string")
           end
  end.

Definition regenerate_with_feedback (tenant_id job_id feedback : string) (requested_by_user_id : option string)
    (source_channel : string) : M World string :=
  job ← content_job_or_404 tenant_id job_id;
  _ ← modify (λ w, w <| ap_content_revisions ::= λ l, l ++
        [{| cr_tenant_id := tenant_id; cr_content_job_id := cj_id job; cr_revision_number := 1;
            cr_feedback := feedback; cr_source_channel := source_channel; cr_status := "processing";
            cr_requested_by_user_id := requested_by_user_id;
            cr_diff_summary := Some "Regenerated copy using provided feedback";
            cr_revision_payload := [("feedback", JStr feedback)] |}] |>);
  social_account_ids ← lift (uuids_of (cj_target_social_account_ids job));
  ae_generate env tenant_id (cj_content_plan_id job) feedback (cj_id job) social_account_ids.

(** ** approval_actions.py *)

(** The settings with the outcome counted; [None] when the code raises. *)
Definition preference_settings (plan : ContentPlan) (outcome : string) (s : dict string) : option (dict string) :=
  let key := PyStr.join "," (PyStr.sorted (cp_target_platforms plan)) +:+ "|" +:+ cp_tone plan in
  match default (JObj []) (ae_loads env (default "{}" (Dict.get PREFERENCES_KEY s))) with
  | JObj prefs =>
      match default (JObj no_outcomes) (Dict.get key prefs) with
      | JObj entry =>
          entry ← counted_entry outcome entry;
          Some (Dict.set PREFERENCES_KEY (ae_dumps env (JObj (Dict.set key (JObj entry) prefs))) s)
      | _ => None
      end
  | _ => None
  end.

Definition counted_settings (tenant_id content_job_id outcome : string) (w : World) : option (dict string) :=
  job ← find_job tenant_id content_job_id w;
  plan ← ae_plan env tenant_id (cj_content_plan_id job);
  tenant ← get_tenant tenant_id (ap_tenants w);
  preference_settings plan outcome (tn_settings tenant).

(** An exception is swallowed, and nothing is written before the last step. *)
Definition record_preference (tenant_id content_job_id outcome : string) : M World unit :=
  w ← get_state;
  match counted_settings tenant_id content_job_id outcome w with
  | Some s => on_tenants (assign_tenant tenant_id (λ t, t <| tn_settings := s |>))
  | None => mret ()
  end.

Definition record_callback_failure (request_id : option string) (callback_data reason : string) : M World unit :=
  match request_id with
  | Some id =>
      _ ← assign_request id (λ r, r <| ar_callback_verification_failures ::= Z.add 1 |>
                                    <| ar_callback_last_error := Some reason |>);
      _ ← create_message
            {| am_approval_request_id := id; am_direction := "inbound"; am_channel := "telegram";
               am_provider_message_id := None; am_message_type := "callback_failure"; am_raw_text := Some callback_data;
               am_parsed_intent := "unknown"; am_intent_confidence := 0; am_user_feedback := None;
               am_payload := [("callback_data", JStr callback_data); ("error", JStr reason)] |};
      request ← the_request id;
      audit (Some (ar_tenant_id request)) "approvals.telegram_callback_failed" (Some id)
        "Telegram callback verification failed" [("error", JStr reason)] (Some "failed")
  | None =>
      audit None "approvals.telegram_callback_failed" None
        "Telegram callback verification failed without resolvable request"
        [("error", JStr reason); ("callback_data", JStr callback_data)] (Some "failed")
  end.

(** [list(payload.get("platforms", []))], which has to be texts. *)
Definition platforms_of (payload : dict json) : result (list string) :=
  items ← iterate (default (JArr []) (Dict.get "platforms" payload));
  match mapM (λ v, match v with JStr s => Some s | _ => None end) items with
  | Some l => Ok l
  | None => Raise (ValidationError "Input should be a valid string")
  end.

(** [datetime.fromisoformat(value) if isinstance(value, str) else None] *)
Definition scheduled_of (payload : dict json) : result (option datetime) :=
  match Dict.get "scheduled_for" payload with
  | Some (JStr s) => match ae_fromisoformat env s with
                     | Some d => Ok (Some d)
                     | None => Raise (ValueError ("Invalid isoformat string: '" +:+ s +:+ "'"))
                     end
  | _ => Ok None
  end.

Definition resend_request (tenant_id request_id : string) : M World string :=
  request ← request_or_404 tenant_id request_id;
  let no_job := raise (HTTPException 422 "Approval request has no content job") in
  if String.eqb (ar_approval_type request) "asset" then
    match ar_content_job_id request with
    | None => no_job
    | Some job => send_for_approval env tenant_id job (Some (ar_recipient request)) [] true
    end
  else if String.eqb (ar_approval_type request) "publish" then
    match ar_content_job_id request with
    | None => no_job
    | Some job =>
        platforms ← lift (platforms_of (ar_response_payload_json request));
        scheduled_for ← lift (scheduled_of (ar_response_payload_json request));
        send_publish_for_approval env tenant_id job platforms scheduled_for (Some (ar_recipient request))
    end
  else if String.eqb (ar_approval_type request) "topic" && PyStr.opt_truthy (ar_related_entity_id request) then
    match Publisher.ev_uuid_of_text (ae_publisher env) (or_empty (ar_related_entity_id request)) with
    | Some candidate => send_topic_for_approval env tenant_id candidate (Some (ar_recipient request))
    | None => raise (ValueError "badly formed hexadecimal UUID string")
    end
  else raise (HTTPException 422 "Approval request type cannot be resent").

Definition set_status (s : ApprovalStatus) (r : ApprovalRequest) : ApprovalRequest := r <| ar_status := s |>.

Definition to_schedule (d : datetime) : Publisher.ScheduledFor :=
  match d with (wall, Some offset) => Publisher.Aware (wall - offset) | (wall, None) => Publisher.Naive wall end.

(** [PublishNowRequest(...)] with the defaults of its fields: a dry run. *)
Definition publish_request (job : string) (platforms : list string) (scheduled_for : option datetime) :
    Publisher.PublishNowRequest := {|
  Publisher.pq_content_job_id := job; Publisher.pq_platforms := platforms; Publisher.pq_social_account_ids := [];
  Publisher.pq_content_variant_ids := []; Publisher.pq_scheduled_for := to_schedule <$> scheduled_for;
  Publisher.pq_dry_run := true; Publisher.pq_idempotency_key := None |}.

Definition publish_now (tenant_id request_id : string) (payload : Publisher.PublishNowRequest) : M World unit :=
  _ ← on_publishing (λ lib, Publisher.publish_now (ae_publisher env) lib tenant_id (Some request_id) payload);
  mret ().

(** A request without content job has none to publish or regenerate. *)
Definition job_of (r : ApprovalRequest) : option string :=
  match ar_content_job_id r with Some j => if PyStr.truthy j then Some j else None | None => None end.

Definition apply_approve (request_id : string) : M World unit :=
  _ ← assign_request request_id (set_status APPROVAL_APPROVED);
  request ← the_request request_id;
  match job_of request with
  | None => mret ()
  | Some job =>
      let tenant_id := ar_tenant_id request in
      _ ← record_preference tenant_id job "approve";
      if bool_decide (get_workflow_binding request ≠ None) then mret ()
      else if String.eqb (ar_approval_type request) "publish" then
        platforms ← lift (platforms_of (ar_response_payload_json request));
        scheduled_for ← lift (scheduled_of (ar_response_payload_json request));
        publish_now tenant_id request_id (publish_request job platforms scheduled_for)
      else if String.eqb (ar_approval_type request) "asset" then
        publish_now tenant_id request_id (publish_request job [] None)
      else mret ()
  end.

Definition MAX_REVISIONS : Z := 5.

Definition apply_revise (request_id feedback : string) : M World unit :=
  request ← the_request request_id;
  let binding := get_workflow_binding request in
  if bool_decide ((Dict.get "allow_revision" <$> binding) = Some (Some (JBool false))) then
    assign_request request_id (set_status APPROVAL_REJECTED)
  else if MAX_REVISIONS <=? ar_revision_count request then
    assign_request request_id (set_status APPROVAL_REJECTED)
  else
    _ ← assign_request request_id (λ r,
          set_status APPROVAL_REVISION_REQUESTED r <| ar_revision_count ::= Z.add 1 |>);
    match job_of request with
    | None => mret ()
    | Some job =>
        let tenant_id := ar_tenant_id request in
        _ ← record_preference tenant_id job "revise";
        revised ← regenerate_with_feedback tenant_id job feedback None (ar_channel request);
        _ ← assign_request request_id (λ r,
              stamp_workflow_binding binding
                (set_status APPROVAL_PENDING r <| ar_content_job_id := Some revised |>));
        channels ← lift match binding with
                        | Some b => list_or_empty (Json.getn "channels" b)
                        | None => Ok []
                        end;
        request ← the_request request_id;
        _ ← send_for_approval env tenant_id revised (Some (ar_recipient request)) channels true;
        assign_request request_id (stamp_workflow_binding binding)
    end.

Definition apply_reject (request_id : string) : M World unit :=
  _ ← assign_request request_id (set_status APPROVAL_REJECTED);
  request ← the_request request_id;
  match job_of request with
  | Some job => record_preference (ar_tenant_id request) job "reject"
  | None => mret ()
  end.

(** What follows a decision: its audit event, then the resumption of the node
    that waits for it. *)
Definition conclude (request_id intent : string) (feedback : option string) : M World unit :=
  request ← the_request request_id;
  _ ← audit (Some (ar_tenant_id request)) "approvals.decision" (Some request_id)
        ("Approval decision applied: " +:+ intent)
        [("intent", JStr intent); ("content_job_id", Json.opt_str (job_of request));
         ("has_feedback", JBool (PyStr.opt_truthy feedback))] (Some "success");
  on_engine (maybe_resume_workflow_from_approval (ae_engine env) request).

Definition apply_intent (request_id intent : string) (feedback : option string) : M World unit :=
  if String.eqb intent "approve" then _ ← apply_approve request_id; conclude request_id intent feedback
  else if String.eqb intent "revise" && PyStr.opt_truthy feedback then
    _ ← apply_revise request_id (or_empty feedback); conclude request_id intent feedback
  else if String.eqb intent "reject" then _ ← apply_reject request_id; conclude request_id intent feedback
  else mret ().

Definition operator_action (tenant_id request_id action : string) (feedback actor_user_id : option string) :
    M World ApprovalRequestResponse :=
  request ← request_or_404 tenant_id request_id;
  let normalized := PyStr.lower action in
  _ ← (if String.eqb normalized "regenerate" then
         match job_of request with
         | None => raise (HTTPException 422 "Regenerate is only supported for content-backed approvals")
         | Some job =>
             revised ← regenerate_with_feedback tenant_id job
               (text_or feedback "Regenerate with a fresher angle and tighter structure.") actor_user_id "dashboard";
             assign_request request_id (λ r,
               set_status APPROVAL_PENDING r <| ar_content_job_id := Some revised |>
                 <| ar_revision_count ::= Z.add 1 |>)
         end
       else if bool_decide (normalized ∈ ["approve"; "reject"; "revise"]) then apply_intent request_id normalized feedback
       else raise (HTTPException 422 ("Unsupported approval action '" +:+ action +:+ "'")));
  now ← utc_now;
  _ ← assign_request request_id (λ r,
        r <| ar_responded_by := Some (text_or actor_user_id "dashboard") |> <| ar_responded_at := Some now |>);
  get_request_detail tenant_id request_id.

(** ** nodes/approval.py *)

Record ApprovalConfig := {
  ac_required : bool;
  ac_channels : list string;
  ac_timeout_seconds : Z;
  ac_on_timeout : string;
  ac_allow_revision : bool;
  ac_recipient : option string;
}.

Definition waiting_result (output : dict json) (cfg : ApprovalConfig) : NodeResult := {|
  res_status := RS_WAITING;
  res_output := output ++ [("timeout_seconds", JInt (ac_timeout_seconds cfg)); ("on_timeout", JStr (ac_on_timeout cfg))];
  res_error := None; res_waiting_reason := Some "approval_pending" |}.

Definition approval_output (approval_request_id status channels content_job_id revision_count : json) : dict json :=
  [("approval_request_id", approval_request_id); ("status", status); ("channels", channels);
   ("content_job_id", content_job_id); ("revision_count", revision_count)].

(** What a second delivery of the node answers from the output of the first. *)
Definition redelivered (cfg : ApprovalConfig) (content_job_id : string) (prior_id : json) (prior : dict json) :
    result NodeResult :=
  channels ← iterate (Json.get_or "channels" prior (JArr (JStr <$> ac_channels cfg)));
  revision_count ← match Webhooks.python_int (Json.str (Json.get_or "revision_count" prior (JInt 0))) with
                   | Some n => Ok n
                   | None => Raise (ValueError "invalid literal for int() with base 10")
                   end;
  Ok (waiting_result (approval_output prior_id (JStr (Json.str (Json.get_or "status" prior (JStr "pending"))))
                        (JArr channels)
                        (JStr (Json.str (Json.get_or "content_job_id" prior (JStr content_job_id))))
                        (JInt revision_count)) cfg).

Definition prior_output (node_run_id : option string) (st : Store) : dict json :=
  match (id ← node_run_id; node_row id (st_node_runs st)) with Some r => nr_output_json r | None => [] end.

(** The request of a node with a resumption token: bound to it, and due as configured. *)
Definition bound_by (now : Z) (context : WorkflowNodeContext) (cfg : ApprovalConfig) (r : ApprovalRequest) :
    ApprovalRequest :=
  let binding := build_workflow_binding (ctx_workflow_run_id context) (ctx_node_run_id context)
                   (ctx_node_id context) (ctx_resume_token context) (ac_on_timeout cfg)
                   (ac_allow_revision cfg) (ac_channels cfg) in
  r <| ar_response_payload_json ::= Dict.set WORKFLOW_BINDING_KEY (JObj binding) |>
    <| ar_expires_at := Some (now + ac_timeout_seconds cfg * 1000000) |>.

Definition execute (context : WorkflowNodeContext) (content_job_id : string) (cfg : ApprovalConfig) :
    M World NodeResult :=
  if negb (ac_required cfg) then
    mret {| res_status := RS_SUCCEEDED;
            res_output := approval_output JNull (JStr "not_required") (JArr []) (JStr content_job_id) (JInt 0);
            res_error := None; res_waiting_reason := None |}
  else
    w ← get_state;
    let prior := prior_output (ctx_node_run_id context) (store w) in
    let prior_id := Json.getn "approval_request_id" prior in
    if Json.truthy prior_id then lift (redelivered cfg content_job_id prior_id prior)
    else
      let tenant_id := ctx_tenant_id context in
      id ← send_for_approval env tenant_id content_job_id (ac_recipient cfg) (JStr <$> ac_channels cfg) false;
      delivered ← deliver env id tenant_id content_job_id (ac_channels cfg);
      _ ← (if PyStr.opt_truthy (ctx_resume_token context) then
             now ← utc_now;
             assign_request id (bound_by now context cfg)
           else mret ());
      r ← the_request id;
      mret (waiting_result
        (approval_output (JStr id) (JStr (status_value (ar_status r)))
           (JArr (JStr <$> match delivered with [] => ac_channels cfg | l => l end))
           (JStr content_job_id) (JInt (ar_revision_count r))) cfg).
End actions.
End ApprovalActions.
