(* ===== verification/ApprovalChannels.v ===== *)
(** * The channels decisions come in by (approvals/telegram_callback_intents.py,
    approvals/telegram_callbacks.py, approvals/telegram_messages.py,
    approvals/webhook_processing.py, approvals/router.py)

    Pressed buttons and revision notes from Telegram, messages from WhatsApp
    through the inbox, and the routes of the operators. *)
From S2P Require Import Prelude PyStr Json Calendar Tables RunModels Scheduler Inbox.
From S2P Require Import Accounts Providers Variants Publishing Publisher Settings Approvals ApprovalCards ApprovalOutbound.
From S2P Require Import ApprovalActions.

Module ApprovalChannels.
Import Models Inbox Providers Variants Settings Approvals ApprovalCards ApprovalOutbound ApprovalActions.
Local Open Scope string_scope.
Local Open Scope list_scope.
Local Open Scope Z_scope.

Definition REVISION_TTL_SECONDS : Z := 600.
Definition TELEGRAM_REPLAY_TTL_SECONDS : Z := 600.

Record CallbackOutcome := {
  co_ack_text : string;
  co_edited_text : string;
}.
Definition outcome (ack edited : string) : CallbackOutcome := {| co_ack_text := ack; co_edited_text := edited |}.

(** [s.removeprefix("approve_")] *)
Definition remove_approve (s : string) : string := if PyStr.startswith "approve_" s then drop 8 s else s.

(** [s.split()] *)
Fixpoint words_from (word : string) (s : string) : list string :=
  match s with
  | "" => if PyStr.truthy word then [word] else []
  | String c s' =>
      if PyStr.is_space c then (if PyStr.truthy word then [word] else []) ++ words_from "" s'
      else words_from (word +:+ String c "") s'
  end.
Definition words : string → list string := words_from "".

(** A text column takes texts. *)
Definition text_column (v : json) : result (option string) :=
  match v with
  | JNull => Ok None
  | JStr s => Ok (Some s)
  | _ => Raise (OtherException "DBAPIError" "expected str")
  end.

Section channels.
Context (env : ApprovalEnv).

Notation utc_now := (utc_now env).

(** Redis has a clock of its own: reading it takes no tick of ours. *)
Definition redis_now (w : World) : Z :=
  Publisher.ev_time (ae_publisher env) (web_ticks (Publishing.pw_web (ap_publishing w))).

(** ** telegram_callback_intents.py *)

Definition revision_key (chat_id : string) : string := "approval:pending_revision:" +:+ chat_id.

Definition set_revision_session (chat_id request_id : string) : M World unit :=
  if negb (PyStr.truthy chat_id) then mret ()
  else modify (λ w, w <| ap_pending_revisions ::=
         Dict.set (revision_key chat_id) (request_id, redis_now w + REVISION_TTL_SECONDS * 1000000) |>).

Definition mark_job_cluster_state (request_id state : string) : M World unit :=
  request ← the_request request_id;
  w ← get_state;
  match (job ← ar_content_job_id request; find_job (ar_tenant_id request) job w) with
  | Some job => mark_plan_cluster env (ar_tenant_id request) job state
  | None => mret ()
  end.

Definition set_payload (payload : dict json) (r : ApprovalRequest) : ApprovalRequest :=
  r <| ar_response_payload_json := payload |>.

(** The decision on a topic: its candidate, if there is one, and the request. *)
Definition decide_topic (request : ApprovalRequest) (candidate_status : string) (status : ApprovalStatus)
    (decision : string) : M World unit :=
  match Publisher.ev_uuid_of_text (ae_publisher env) (or_empty (ar_related_entity_id request)) with
  | None => raise (ValueError "badly formed hexadecimal UUID string")
  | Some candidate_id =>
      _ ← modify (λ w, w <| ap_candidates ::= map (λ c,
            if bool_decide (tc_tenant_id c = ar_tenant_id request) && bool_decide (tc_id c = candidate_id)
            then c <| tc_status := candidate_status |> else c) |>);
      assign_request (ar_id request) (λ r,
        set_payload [("decision", JStr decision)] (set_status status r))
  end.

Definition is_topic (r : ApprovalRequest) : bool :=
  String.eqb (ar_approval_type r) "topic" && PyStr.opt_truthy (ar_related_entity_id r).

Definition assign_responded_at (request_id : string) : M World unit :=
  now ← utc_now;
  assign_request request_id (λ r, r <| ar_responded_at := Some now |>).

Definition handle_approve (request_id : string) : M World CallbackOutcome :=
  _ ← assign_responded_at request_id;
  request ← the_request request_id;
  if is_topic request then
    _ ← decide_topic request "approved_topic" APPROVAL_APPROVED "approved_topic";
    mret (outcome "✅ Topic approved." "📡 Topic Approval — ✅ <b>APPROVED</b>.")
  else
    except_exception
      (_ ← apply_intent env request_id "approve" None;
       request ← the_request request_id;
       if String.eqb (ar_approval_type request) "asset" && bool_decide (job_of request ≠ None) then
         _ ← mark_job_cluster_state request_id "publish_ready";
         mret (outcome "✅ Assets approved and queued for publishing."
                 "🎨 Content Asset — ✅ <b>APPROVED</b> — queued for publishing.")
       else if String.eqb (ar_approval_type request) "publish" then
         mret (outcome "✅ Publish approved." "🚀 Publish Approval — ✅ <b>APPROVED</b>.")
       else mret (outcome "✅ Approved." "✅ <b>APPROVED</b>."))
      (λ _, mret (outcome "✅ Approved — follow-up action failed." "✅ <b>APPROVED</b> (follow-up action failed).")).

Definition handle_reject (request_id : string) : M World CallbackOutcome :=
  _ ← assign_responded_at request_id;
  request ← the_request request_id;
  if is_topic request then
    _ ← decide_topic request "rejected_topic" APPROVAL_REJECTED "rejected_topic";
    mret (outcome "❌ Topic rejected." "📡 Topic Approval — ❌ <b>REJECTED</b>.")
  else
    _ ← apply_intent env request_id "reject" None;
    _ ← mark_job_cluster_state request_id "rejected";
    mret (outcome "❌ Rejected." "❌ <b>REJECTED</b>.").

Definition handle_revise (request_id chat_id : string) : M World CallbackOutcome :=
  _ ← set_revision_session chat_id request_id;
  _ ← assign_request request_id (set_status APPROVAL_PENDING);
  _ ← mark_job_cluster_state request_id "asset_generation";
  mret (outcome "✏️ Send your revision notes as a reply in this chat (10 min window)."
          "🎨 Content Asset — ✏️ <b>REVISION REQUESTED</b> — awaiting your feedback message.").

Definition handle_trim_or_cta (request_id chat_id intent_str : string) : M World CallbackOutcome :=
  _ ← set_revision_session chat_id request_id;
  _ ← assign_request request_id (λ r,
        set_status APPROVAL_PENDING r
          <| ar_response_payload_json ::= Dict.set "revision_mode" (JStr intent_str) |>);
  mret (outcome "✏️ Send your notes in chat."
          ("🎨 Content Asset — ✏️ <b>" +:+ upper (PyStr.replace_char "_" " " intent_str) +:+ "</b> requested.")).

Definition handle_publish_gate (request_id : string) : M World (option CallbackOutcome) :=
  request ← the_request request_id;
  match job_of request with
  | None => mret None
  | Some job =>
      w ← get_state;
      let assets := list_assets job (Publishing.lb_assets (ap_library w)) in
      let platforms := PyStr.sorted (remove_dups
        (omap (λ a, if PyStr.opt_truthy (as_platform a) then as_platform a else None) assets)) in
      id ← send_publish_for_approval env (ar_tenant_id request) job platforms None (Some (ar_recipient request));
      mret (Some (outcome "🚀 Publish approval sent."
                    ("🎨 Content Asset — 🚀 <b>PUBLISH GATE SENT</b> (" +:+ id +:+ ").")))
  end.

Definition handle_hold (request_id : string) : M World CallbackOutcome :=
  _ ← assign_request request_id (λ r, set_payload [("decision", JStr "held")] (set_status APPROVAL_PENDING r));
  mret (outcome "⏸ Held." "⏸ <b>HELD</b>.").

Definition handle_cancel_publish (request_id : string) : M World CallbackOutcome :=
  _ ← assign_request request_id (λ r, set_payload [("decision", JStr "cancelled")] (set_status APPROVAL_REJECTED r));
  mret (outcome "🛑 Publish cancelled." "🚀 Publish Approval — 🛑 <b>CANCELLED</b>.").

Definition handle_schedule_publish (request_id : string) : M World CallbackOutcome :=
  now ← utc_now;
  _ ← assign_request request_id (λ r,
        set_status APPROVAL_PENDING r <| ar_response_payload_json ::=
          Dict.set "scheduled_for" (JStr (Calendar.isoformat_utc (now + hours 2))) |>);
  mret (outcome "🕒 Scheduled for later." "🚀 Publish Approval — 🕒 <b>SCHEDULED FOR LATER</b>.").

Definition handle_approve_platform (request_id intent_str : string) : M World CallbackOutcome :=
  let platform := remove_approve intent_str in
  _ ← assign_request request_id (λ r,
        r <| ar_response_payload_json ::= Dict.set "platforms" (JArr [JStr platform]) |>);
  _ ← apply_intent env request_id "approve" None;
  mret (outcome ("✅ Publish approved for " +:+ platform +:+ ".")
          ("🚀 Publish Approval — ✅ <b>" +:+ upper platform +:+ " APPROVED</b>.")).

Definition handle_safer_topic (request_id intent_str : string) : M World CallbackOutcome :=
  _ ← assign_request request_id (λ r,
        set_payload [("decision", JStr intent_str)] (set_status APPROVAL_REVISION_REQUESTED r));
  mret (outcome "♻️ Topic routed for safer brief regeneration."
          "📡 Topic Approval — ♻️ <b>SAFER BRIEF REQUESTED</b>.").

Definition acted (m : M World CallbackOutcome) : M World (option CallbackOutcome) := o ← m; mret (Some o).

(** [None]: nothing is done. *)
Definition dispatch_intent (request_id intent_str chat_id cb_chat_id : string) : M World (option CallbackOutcome) :=
  request ← the_request request_id;
  let one_of names := bool_decide (intent_str ∈ (names : list string)) in
  if one_of ["approve"; "approve_topic"; "approve_publish"] then acted (handle_approve request_id)
  else if one_of ["reject"; "reject_topic"] then acted (handle_reject request_id)
  else if one_of ["revise"] then acted (handle_revise request_id chat_id)
  else if one_of ["trim"; "edit_cta"] then acted (handle_trim_or_cta request_id cb_chat_id intent_str)
  else if one_of ["publish_gate"] then handle_publish_gate request_id
  else if one_of ["hold_topic"; "hold_publish"] then acted (handle_hold request_id)
  else if one_of ["cancel_publish"] then acted (handle_cancel_publish request_id)
  else if one_of ["schedule_publish"] then acted (handle_schedule_publish request_id)
  else if PyStr.startswith "approve_" intent_str && String.eqb (ar_approval_type request) "publish" then
    acted (handle_approve_platform request_id intent_str)
  else if one_of ["safer_topic"; "regen_topic"] then acted (handle_safer_topic request_id intent_str)
  else mret None.

(** ** telegram_callbacks.py *)

(** The bot token, and the chat the answers go to. *)
Definition resolve_telegram_chat (tenant_id cb_chat_id : string) : M World (string * string) :=
  except_exception
    (config ← on_tenants (resolve_telegram_runtime_config (ae_settings env) tenant_id);
     mret (tg_bot_token config, if PyStr.truthy cb_chat_id then cb_chat_id else tg_chat_id config))
    (λ _, mret ("", cb_chat_id)).

Definition ack_and_edit_card (bot_token chat_id callback_query_id : string) (o : CallbackOutcome)
    (edit_message_id : string) : M World unit :=
  if negb (PyStr.truthy bot_token) then mret ()
  else
    except_exception
      (let provider := telegram_provider bot_token chat_id in
       _ ← (if PyStr.truthy callback_query_id
            then on_web (answer_callback env provider callback_query_id (co_ack_text o)) else mret ());
       if PyStr.truthy edit_message_id && PyStr.truthy chat_id && PyStr.truthy (co_edited_text o)
       then on_web (edit_message env provider chat_id edit_message_id (co_edited_text o)) else mret ())
      (λ _, mret ()).

(** The fields of a callback query. *)
Record CallbackQuery := {
  cq_id : string;
  cq_data : string;
  cq_message_id : string;
  cq_chat_id : string;
}.

Definition read_callback_query (callback_query : json) : result CallbackQuery :=
  id ← json_get "id" (JStr "") callback_query;
  data ← json_get "data" (JStr "") callback_query;
  message ← json_get "message" (JObj []) callback_query;
  message_id ← json_get "message_id" (JStr "") message;
  chat ← json_get "chat" (JObj []) message;
  chat_id ← json_get "id" (JStr "") chat;
  data ← py_text data;
  Ok {| cq_id := Json.str id; cq_data := data; cq_message_id := Json.str message_id; cq_chat_id := Json.str chat_id |}.

(** The request whose id a button carries. *)
Definition request_named (text : string) (w : World) : option ApprovalRequest :=
  match Publisher.ev_uuid_of_text (ae_publisher env) text with
  | Some id => get_request_by_id id (store w)
  | None => None
  end.

Definition responder (chat_id : string) : string :=
  if PyStr.truthy chat_id then "telegram:" +:+ chat_id else "telegram".

(** A button on a request that exists, with valid data. *)
Definition press (request_id intent_str : string) (q : CallbackQuery) : M World unit :=
  request ← the_request request_id;
  '(bot_token, chat_id) ← resolve_telegram_chat (ar_tenant_id request) (cq_chat_id q);
  result ← dispatch_intent request_id intent_str chat_id (cq_chat_id q);
  match result with
  | None => mret ()
  | Some o =>
      _ ← create_message
            {| am_approval_request_id := request_id; am_direction := "inbound"; am_channel := "telegram";
               am_provider_message_id := None; am_message_type := "callback"; am_raw_text := Some (cq_data q);
               am_parsed_intent := intent_str; am_intent_confidence := 100; am_user_feedback := None;
               am_payload := [("callback_data", JStr (cq_data q)); ("chat_id", JStr (cq_chat_id q));
                              ("message_id", JStr (cq_message_id q))] |};
      _ ← assign_request request_id (λ r, r <| ar_responded_by := Some (responder (cq_chat_id q)) |>);
      request ← the_request request_id;
      _ ← ack_and_edit_card bot_token chat_id (cq_id q) o
            (text_or (Some (cq_message_id q)) (or_empty (ar_telegram_message_id request)));
      _ ← audit (Some (ar_tenant_id request)) "approvals.telegram_callback" (Some request_id)
            ("Telegram callback: " +:+ intent_str)
            [("intent", JStr intent_str); ("approval_type", JStr (ar_approval_type request))] None;
      commit
  end.

Definition handle_telegram_callback (payload : json) : M World unit :=
  callback_query ← lift (json_get "callback_query" JNull payload);
  if negb (Json.truthy callback_query) then mret ()
  else
    q ← lift (read_callback_query callback_query);
    '(is_valid, intent_str, request_id_str) ← lift (verify_signed_callback_data env (cq_data q));
    w ← get_state;
    let request := request_named request_id_str w in
    if negb is_valid then
      _ ← record_callback_failure (ar_id <$> request) (cq_data q) "invalid_signature";
      commit
    else match request with
         | None => mret ()
         | Some request => press (ar_id request) intent_str q
         end.

(** ** telegram_messages.py *)

(** The id Redis holds for the chat, while it holds it. *)
Definition pending_revision (chat_id : string) (w : World) : option string :=
  match Dict.get (revision_key chat_id) (ap_pending_revisions w) with
  | Some (id, expires) => if (redis_now w <? expires) && PyStr.truthy id then Some id else None
  | None => None
  end.

(** Whether the message was taken as the notes of a revision. *)
Definition handle_telegram_message (payload : json) : M World bool :=
  message ← lift (json_get "message" (JObj []) payload);
  text ← lift (json_get "text" (JStr "") message);
  text ← lift (py_text text);
  chat ← lift (json_get "chat" (JObj []) message);
  chat_id ← lift (json_get "id" (JStr "") chat);
  let text := PyStr.strip text in
  let chat_id := Json.str chat_id in
  w ← get_state;
  if negb (PyStr.truthy text) || negb (PyStr.truthy chat_id) then mret false
  else match (id ← pending_revision chat_id w; Publisher.ev_uuid_of_text (ae_publisher env) id) with
       | None => mret false
       | Some request_id =>
           _ ← modify (λ w, w <| ap_pending_revisions ::= Dict.pop (revision_key chat_id) |>);
           match get_request_by_id request_id (store w) with
           | None => mret false
           | Some request =>
               _ ← assign_responded_at request_id;
               _ ← assign_request request_id (λ r, r <| ar_responded_by := Some ("telegram:" +:+ chat_id) |>);
               _ ← apply_intent env request_id "revise" (Some text);
               _ ← create_message
                     {| am_approval_request_id := request_id; am_direction := "inbound"; am_channel := "telegram";
                        am_provider_message_id := None; am_message_type := "text"; am_raw_text := Some text;
                        am_parsed_intent := "revise"; am_intent_confidence := 95; am_user_feedback := Some text;
                        am_payload := [("chat_id", JStr chat_id)] |};
               _ ← audit (Some (ar_tenant_id request)) "approvals.telegram_revision" (Some request_id)
                     "Telegram revision feedback received"
                     [("feedback_length", JInt (Z.of_nat (String.length text)))] None;
               _ ← commit;
               mret true
           end
       end.

(** ** webhook_processing.py *)

(** The tenant of the phone number and the configuration the webhook is for. *)
Definition webhook_config (payload : json) : M World (option string * WhatsAppRuntimeConfig) :=
  phone_number_id ← lift (extract_phone_number_id payload);
  w ← get_state;
  match (p ← phone_number_id; find_tenant_id_by_whatsapp_phone_number_id p (ap_tenants w)) with
  | Some tenant_id =>
      config ← on_tenants (resolve_whatsapp_runtime_config (ae_settings env) tenant_id);
      mret (Some tenant_id, config)
  | None => mret (None, global_whatsapp_runtime_config (ae_settings env))
  end.

(** The inbox row of a message, once per body. *)
Definition handle_webhook (payload : json) (raw_body : string) (signature : option string) : M World string :=
  '(tenant_id, config) ← webhook_config payload;
  signature_valid ← lift (verify_signature env (get_whatsapp_provider config) raw_body signature);
  if negb signature_valid && PyStr.truthy (wc_app_secret config) then
    raise (HTTPException 403 "Invalid webhook signature")
  else
    let dedupe_key := Publisher.ev_sha256_hex (ae_publisher env) raw_body in
    w ← get_state;
    match get_webhook_by_dedupe_key dedupe_key (ow_inbox (ap_ops w)) with
    | Some existing => mret (wi_id existing)
    | None =>
        now ← utc_now;
        id ← new_id env;
        _ ← on_ops (create_webhook
              {| wi_id := id; wi_tenant_id := tenant_id; wi_provider := wc_provider config;
                 wi_event_type := "incoming_message"; wi_dedupe_key := dedupe_key;
                 wi_payload := [("raw", JStr (ae_decode_ignore env raw_body))]; wi_received_at := Some now;
                 wi_processed_at := None; wi_signature_valid := signature_valid; wi_status := "received";
                 wi_error_message := None |});
        _ ← commit;
        mret id
    end.

(** The request a message is about: named by the payload, else by the second
    word of the text. *)
Definition message_request_id (parsed : ParsedWhatsAppMessage) : option string :=
  match pm_approval_request_id parsed with
  | Some id => Some id
  | None => match words (pm_raw_text parsed) with
            | _ :: second :: _ => Publisher.ev_uuid_of_text (ae_publisher env) second
            | _ => None
            end
  end.

(** One message; the ids of the requests it updated. *)
Definition process_message (parsed : ParsedWhatsAppMessage) : M World (list string) :=
  w ← get_state;
  match (id ← message_request_id parsed; get_request_by_id id (store w)) with
  | None => mret []
  | Some request =>
      let request_id := ar_id request in
      provider_message_id ← lift (text_column (pm_provider_message_id parsed));
      _ ← create_message
            {| am_approval_request_id := request_id; am_direction := "inbound"; am_channel := "whatsapp";
               am_provider_message_id := provider_message_id; am_message_type := "text";
               am_raw_text := Some (pm_raw_text parsed); am_parsed_intent := pm_intent parsed;
               am_intent_confidence := pm_confidence parsed; am_user_feedback := pm_feedback parsed;
               am_payload := [("raw_text", JStr (pm_raw_text parsed))] |};
      _ ← assign_responded_at request_id;
      _ ← apply_intent env request_id (pm_intent parsed) (pm_feedback parsed);
      _ ← audit (Some (ar_tenant_id request)) "approvals.response_received" (Some request_id)
            "Approval response processed"
            [("intent", JStr (pm_intent parsed)); ("confidence", JStr (hundredths (pm_confidence parsed)))] None;
      mret [request_id]
  end.

Fixpoint process_messages (messages : list ParsedWhatsAppMessage) : M World (list string) :=
  match messages with
  | [] => mret []
  | m :: messages' => l ← process_message m; l' ← process_messages messages'; mret (l ++ l')
  end.

Definition assign_inbox_row (inbox_id : string) (f : WebhookInbox → WebhookInbox) : M World unit :=
  on_ops (assign_inbox inbox_id f).

Definition failed_row (message : string) (x : WebhookInbox) : WebhookInbox :=
  x <| wi_status := "error" |> <| wi_error_message := Some message |>.

(** The ids of the requests the row updated. *)
Definition process_webhook_inbox (inbox_id : string) : M World (list string) :=
  w ← get_state;
  match get_pending_webhook inbox_id (ow_inbox (ap_ops w)) with
  | None => mret []
  | Some inbox =>
      if negb (String.eqb (wi_status inbox) "received") then mret []
      else
        match (match default (JStr "") (Dict.get "raw" (wi_payload inbox)) with
               | JStr raw => ae_loads env raw | _ => None end) with
        | None =>
            _ ← assign_inbox_row inbox_id (failed_row "JSON parse failed");
            _ ← commit;
            mret []
        | Some payload =>
            config ← match wi_tenant_id inbox with
                     | Some tenant_id => on_tenants (resolve_whatsapp_runtime_config (ae_settings env) tenant_id)
                     | None => mret (global_whatsapp_runtime_config (ae_settings env))
                     end;
            _ ← assign_inbox_row inbox_id (λ x, x <| wi_status := "processing" |>);
            updated ← except_exception
              (parsed ← lift (parse_payload env (get_whatsapp_provider config) payload); process_messages parsed)
              (λ e, _ ← assign_inbox_row inbox_id (failed_row (Scheduler.exn_str e));
                    _ ← commit;
                    raise e);
            now ← utc_now;
            _ ← assign_inbox_row inbox_id (λ x, x <| wi_status := "processed" |> <| wi_processed_at := Some now |>);
            _ ← commit;
            mret updated
        end
  end.

(** ** router.py *)

(** The update, callback or message an update is known by; [""] for none. *)
Definition replay_key (payload : dict json) : string :=
  match Json.getn "update_id" payload with
  | JNull =>
      let callback_id := Json.getn "id" (Json.as_dict (Json.getn "callback_query" payload)) in
      if Json.truthy callback_id then "telegram:callback:" +:+ Json.str callback_id
      else
        let message := Json.as_dict (Json.getn "message" payload) in
        let message_id := Json.getn "message_id" message in
        let chat_id := Json.getn "id" (Json.as_dict (Json.getn "chat" message)) in
        if Json.truthy message_id && Json.truthy chat_id
        then "telegram:message:" +:+ Json.str chat_id +:+ ":" +:+ Json.str message_id else ""
  | update_id => "telegram:update:" +:+ Json.str update_id
  end.

Definition reserve_telegram_replay_key (payload : dict json) : M World bool :=
  let key := replay_key payload in
  if negb (PyStr.truthy key) then mret true
  else
    w ← get_state;
    let now := redis_now w in
    if existsb (λ kt, bool_decide (kt.1 = key) && (now <? kt.2)) (ow_replay (ap_ops w)) then mret false
    else
      _ ← modify (λ w, w <| ap_ops ::= λ o, o <| ow_replay ::= λ l,
            (key, now + TELEGRAM_REPLAY_TTL_SECONDS * 1000000) :: l |> |>);
      mret true.

Definition TWITTER_PREFIXES : list string := ["tw_post:"; "tw_reject:"; "tw_edit:"].
Definition BRIEF_PREFIXES : list string :=
  ["approve_brief:"; "reject_brief:"; "safer_brief:"; "soften_brief:"; "text_only_brief:"; "text_video_brief:"].

(** The buttons of tweets and briefs and the edits of tweets are handled by
    other modules. *)
Record OtherHandlers := {
  oh_twitter_post_callback : json → M World unit;
  oh_brief_callback : json → M World unit;
  oh_twitter_edit_message : json → M World bool;
}.

Definition starts_with_any (prefixes : list string) (s : string) : bool := existsb (λ p, PyStr.startswith p s) prefixes.

(** An update that is no button of another module. *)
Definition approval_update (others : OtherHandlers) (payload : dict json) : M World unit :=
  consumed ←
    (if Dict.mem "message" payload && negb (Dict.mem "callback_query" payload) then
       edited ← oh_twitter_edit_message others (JObj payload);
       if edited : bool then mret true else handle_telegram_message (JObj payload)
     else mret false);
  if consumed : bool then mret () else handle_telegram_callback (JObj payload).

Definition receive_telegram_webhook (others : OtherHandlers) (secret_token : option string) (payload : dict json) :
    M World unit :=
  let expected := TELEGRAM_WEBHOOK_SECRET (ae_settings env) in
  if PyStr.truthy expected && negb (bool_decide (secret_token = Some expected)) then
    raise (HTTPException 403 "Invalid Telegram webhook secret")
  else
    reserved ← reserve_telegram_replay_key payload;
    if negb reserved then mret ()
    else
      let callback_query := default (JObj []) (Dict.get "callback_query" payload) in
      if Json.truthy callback_query then
        data ← lift (json_get "data" (JStr "") callback_query);
        data ← lift (py_text data);
        if starts_with_any TWITTER_PREFIXES data then oh_twitter_post_callback others callback_query
        else if starts_with_any BRIEF_PREFIXES data then oh_brief_callback others (JObj payload)
        else approval_update others payload
      else approval_update others payload.

(** The challenge is answered to who knows a verify token. *)
Definition verify_whatsapp_webhook (hub_mode hub_verify_token hub_challenge : string) : M World string :=
  w ← get_state;
  if String.eqb hub_mode "subscribe" && verify_whatsapp_verify_token (ae_settings env) hub_verify_token (ap_tenants w)
  then mret hub_challenge else raise (HTTPException 403 "Webhook verification failed").

Definition receive_whatsapp_webhook (raw_body : string) (signature : option string) : M World unit :=
  match ae_loads env raw_body with
  | None => raise (ValueError "Expecting value")
  | Some payload =>
      inbox_id ← handle_webhook payload raw_body signature;
      modify (λ w, w <| ap_ops ::= λ o, o <| ow_inbox_tasks ::= λ l, l ++ [inbox_id] |> |>)
  end.

Fixpoint details (tenant_id : string) (ids : list string) : M World (list ApprovalRequestResponse) :=
  match ids with
  | [] => mret []
  | id :: ids' => d ← get_request_detail tenant_id id; ds ← details tenant_id ids'; mret (d :: ds)
  end.
Definition list_approval_requests (tenant_id : string) : M World (list ApprovalRequestResponse) :=
  w ← get_state;
  details tenant_id (ar_id <$> list_requests tenant_id 50 (store w)).

Record SendApprovalRequest := {
  sq_content_job_id : option string;
  sq_recipient : option string;
  sq_approval_type : string;
  sq_related_entity_id : option string;
  sq_selected_platforms : list string;
  sq_scheduled_for : option datetime;
}.

Definition send_for_approval_route (tenant_id : string) (payload : SendApprovalRequest) :
    M World ApprovalRequestResponse :=
  id ← (if String.eqb (sq_approval_type payload) "topic" then
          if negb (PyStr.opt_truthy (sq_related_entity_id payload)) then
            raise (HTTPException 422 "related_entity_id is required for topic approval")
          else match Publisher.ev_uuid_of_text (ae_publisher env) (or_empty (sq_related_entity_id payload)) with
               | Some candidate => send_topic_for_approval env tenant_id candidate (sq_recipient payload)
               | None => raise (ValueError "badly formed hexadecimal UUID string")
               end
        else if String.eqb (sq_approval_type payload) "publish" then
          match sq_content_job_id payload with
          | None => raise (HTTPException 422 "content_job_id is required for publish approval")
          | Some job => send_publish_for_approval env tenant_id job (sq_selected_platforms payload)
                          (sq_scheduled_for payload) (sq_recipient payload)
          end
        else
          match sq_content_job_id payload with
          | None => raise (HTTPException 422 "content_job_id is required for asset approval")
          | Some job => send_for_approval env tenant_id job (sq_recipient payload) [] true
          end);
  get_request_detail tenant_id id.

Definition resend_approval_request (tenant_id request_id : string) : M World ApprovalRequestResponse :=
  id ← resend_request env tenant_id request_id;
  get_request_detail tenant_id id.
End channels.
End ApprovalChannels.
