(* ===== verification/ApprovalSpec.v ===== *)
(** * What approvals promise

    Theorems about the definitions of [Approvals], [ApprovalCards],
    [ApprovalOutbound], [ApprovalActions] and [ApprovalChannels]: the data of
    buttons, the decisions and the node of a workflow they resume, the binding
    of a request through its life, the inbox, and the expiry. *)
From S2P Require Import Prelude PyStr Json Calendar Tables RunModels Cancellation Scheduler Inbox Resume Engine Runtime Webhooks.
From S2P Require Import Accounts Providers Variants Publishing Publisher Settings Approvals ApprovalCards ApprovalOutbound.
From S2P Require Import ApprovalActions ApprovalChannels Waits Start ResumeSpec PublisherSpec PublisherKeys.

Module ApprovalSpec.
Import Models Inbox Providers Settings Approvals ApprovalCards ApprovalOutbound ApprovalActions ApprovalChannels.
Local Open Scope string_scope.
Local Open Scope list_scope.
Local Open Scope Z_scope.

(** ** The data of a button *)

Lemma split_lacks c s : PyStr.lacks c s = true → PyStr.split c s = [s].
Proof.
  induction s as [|d s IH]; [done|]. unfold PyStr.lacks. cbn -[Ascii.eqb]. intros [Hd H]%andb_true_iff.
  apply negb_true_iff in Hd. rewrite Hd. by rewrite IH.
Qed.

Lemma split_sep c a s : PyStr.lacks c a = true → PyStr.split c (a +:+ String c s) = a :: PyStr.split c s.
Proof.
  induction a as [|d a IH]; cbn -[Ascii.eqb].
  - intros _. change ("" +:+ String c s) with (String c s). cbn -[Ascii.eqb]. by rewrite Ascii.eqb_refl.
  - unfold PyStr.lacks. cbn -[Ascii.eqb]. intros [Hd H]%andb_true_iff. apply negb_true_iff in Hd.
    rewrite PyStr.append_cons. cbn -[Ascii.eqb]. rewrite Hd. by rewrite IH.
Qed.

(** What a button's data has to be.  Data of a Telegram button is taken as
    valid for an action and an id exactly when it is the bare pair "action:id",
    with no signature at all, or when its third part is the signature of the
    pair, whatever follows it. *)
Theorem verify_signed_callback_data_spec env data action identifier :
  verify_signed_callback_data env data = Ok (true, action, identifier) ↔
    PyStr.split ":" data = [action; identifier] ∨
    ∃ rest, let signature := sign_telegram_callback env (action +:+ ":" +:+ identifier) in
      PyStr.split ":" data = action :: identifier :: signature :: rest ∧ Webhooks.is_ascii signature = true.
Proof.
  unfold verify_signed_callback_data. destruct (PyStr.split ":" data) as [|a [|i [|s rest]]]; cbv zeta.
  - split; [done|]. intros [?|(? & ? & ?)]; done.
  - split; [done|]. intros [?|(? & ? & ?)]; done.
  - split; [intros [= <- <-]; by left|]. intros [[= <- <-]|(? & ? & ?)]; done.
  - unfold Webhooks.compare_digest. split.
    + destruct (Webhooks.is_ascii s && Webhooks.is_ascii _) eqn:E; [|done].
      cbn. intros [= Heq <- <-]. apply String.eqb_eq in Heq as ->. apply andb_true_iff in E as [E _].
      right. by exists rest.
    + intros [?|(r & [= <- <- -> <-] & E)]; [done|]. rewrite E. cbn. by rewrite String.eqb_refl.
Qed.

Lemma lacks_take c n s : PyStr.lacks c s = true → PyStr.lacks c (PyStr.take n s) = true.
Proof.
  revert n. induction s as [|d s IH]; intros [|n]; [done..|]. unfold PyStr.lacks. cbn -[Ascii.eqb].
  intros [Hd H]%andb_true_iff. apply andb_true_iff. split; [done|by apply IH].
Qed.
Lemma ascii_take n s : Webhooks.is_ascii s = true → Webhooks.is_ascii (PyStr.take n s) = true.
Proof.
  revert n. induction s as [|d s IH]; intros [|n]; [done..|]. unfold Webhooks.is_ascii. cbn -[Nat.ltb].
  intros [Hd H]%andb_true_iff. apply andb_true_iff. split; [done|by apply IH].
Qed.

(** A signed button verifies.  With an HMAC whose hexadecimal text is ASCII
    and has no colon, the data built for an action and an id without colons is
    valid and gives back the action and the id. *)
Theorem signed_button_verifies env action identifier :
  (∀ key message, Webhooks.is_ascii (ae_hmac env key message) = true ∧
                  PyStr.lacks ":" (ae_hmac env key message) = true) →
  PyStr.lacks ":" action = true → PyStr.lacks ":" identifier = true →
  verify_signed_callback_data env (build_signed_callback_data env action identifier) = Ok (true, action, identifier).
Proof.
  intros Hmac Ha Hi. unfold build_signed_callback_data, verify_signed_callback_data. cbv zeta.
  set (signature := sign_telegram_callback env _).
  assert (PyStr.split ":" ((action +:+ ":" +:+ identifier) +:+ ":" +:+ signature) = [action; identifier; signature]) as ->.
  { rewrite PyStr.append_assoc. change (":" +:+ identifier) with (String ":" identifier).
    change (":" +:+ signature) with (String ":" signature).
    rewrite PyStr.append_cons, split_sep, split_sep, split_lacks; try done.
    apply lacks_take, Hmac. }
  unfold Webhooks.compare_digest. fold signature.
  assert (Webhooks.is_ascii signature = true) as -> by apply ascii_take, Hmac. cbn. by rewrite String.eqb_refl.
Qed.

(** ** Rows of requests *)

Notation row id w := (get_request_by_id id (store w)).

Definition with_requests (f : Store → Store) (w : World) : World := w <| ap_ops ::= λ o, o <| ow_store ::= f |> |>.
Definition with_audit (log : Tables.AuditLog) (w : World) : World :=
  w <| ap_publishing ::= λ p, p <| Publishing.pw_rows ::= λ r, r <| Publishing.rw_audit ::= λ l, l ++ [log] |> |> |>.

Lemma row_key id st r : get_request_by_id id st = Some r → ar_id r = id.
Proof. by intros [_ H]%row_by_Some. Qed.

Lemma row_set id i f st :
  (∀ r, ar_id (f r) = ar_id r) →
  get_request_by_id i (set_request id f st) =
    if decide (i = id) then f <$> get_request_by_id id st else get_request_by_id i st.
Proof. intros Hf. apply (row_by_set_row ar_id id i f (st_approvals st)). exact Hf. Qed.

(** A value a call returns without touching anything else. *)
Lemma the_request_eq id w r : row id w = Some r → the_request id w = (Ok r, w).
Proof.
  intros H. change ((match row id w with Some r => mret r | None => raise (OtherException "ObjectDeletedError" id) end
    : M World ApprovalRequest) w = (Ok r, w)). by rewrite H.
Qed.

Lemma audit_eq t action id message payload o w :
  audit t action id message payload o w =
    (Ok (), with_audit {| Tables.al_tenant_id := t; Tables.al_actor_user_id := None; Tables.al_action := action;
              Tables.al_entity_type := "approval_request"; Tables.al_entity_id := id; Tables.al_message := message;
              Tables.al_payload := payload; Tables.al_outcome := o |} w).
Proof. reflexivity. Qed.

Lemma wp_then {A B} (m : M World A) (k : A → M World B) a w w' Q E :
  m w = (Ok a, w') → wp (k a) Q E w' → wp (m ≫= k) Q E w.
Proof. apply wp_ok. Qed.

Lemma wp_end {A} (m : M World A) a w w' (Q : A → World → Prop) E : m w = (Ok a, w') → Q a w' → wp m Q E w.
Proof. unfold wp. by intros ->. Qed.

(** ** A button with a bad signature *)

Definition failed_callback (r : ApprovalRequest) : ApprovalRequest :=
  r <| ar_callback_verification_failures ::= Z.add 1 |> <| ar_callback_last_error := Some "invalid_signature" |>.

(** C32: A button with a bad signature decides nothing.  The call ends without
    error; of the request it names, if any, only the failure counter and the
    last error change; no other request, no run, no node, no publishing job, no
    post, no tenant and no pending revision changes, and nothing is sent.  The
    failure is recorded: by one audit event, and by at most one inbound message. *)
Theorem bad_signature_decides_nothing env payload callback_query q intent id_text w :
  json_get "callback_query" JNull payload = Ok callback_query → Json.truthy callback_query = true →
  read_callback_query callback_query = Ok q →
  verify_signed_callback_data env (cq_data q) = Ok (false, intent, id_text) →
  let '(answer, w') := handle_telegram_callback env payload w in
  answer = Ok () ∧
  ap_ops w' = ap_ops w <| ow_store ::= match request_named env id_text w with
                                       | Some r => set_request (ar_id r) failed_callback
                                       | None => id
                                       end |> ∧
  (∃ log, Publishing.pw_rows (ap_publishing w') =
            Publishing.pw_rows (ap_publishing w) <| Publishing.rw_audit ::= λ l, l ++ [log] |>) ∧
  Publishing.pw_web (ap_publishing w') = Publishing.pw_web (ap_publishing w) ∧
  Publishing.pw_calls (ap_publishing w') = Publishing.pw_calls (ap_publishing w) ∧
  ap_library w' = ap_library w ∧ ap_candidates w' = ap_candidates w ∧ ap_tenants w' = ap_tenants w ∧
  ap_pending_revisions w' = ap_pending_revisions w ∧
  ∃ ms, ap_messages w' = ap_messages w ++ ms ∧ (length ms ≤ 1)%nat ∧
        Forall (λ m, am_direction m = "inbound" ∧ am_message_type m = "callback_failure") ms.
Proof.
  intros Hc Ht Hq Hv.
  match goal with |- let '(answer, w') := ?m w in _ = _ ∧ @?Q w' =>
    enough (wp m (λ _, Q) (λ _ _, False) w) as H by (unfold wp in H; destruct (m w) as [[[]|] ?]; [by split|done]) end.
  unfold handle_telegram_callback. eapply wp_then; [unfold lift; by rewrite Hc|]. rewrite Ht. cbn [negb].
  eapply wp_then; [unfold lift; by rewrite Hq|]. eapply wp_then; [unfold lift; by rewrite Hv|].
  apply wp_bind, wp_get. cbn [negb]. apply wp_bind. unfold record_callback_failure, assign_request, create_message.
  destruct (request_named env id_text w) as [r|] eqn:Hr; cbn [fmap option_fmap option_map].
  - unfold request_named in Hr. destruct (Publisher.ev_uuid_of_text _ _) as [i|]; [|done].
    pose proof (row_key _ _ _ Hr) as Hi. rewrite Hi.
    do 2 apply wp_bind, wp_modify. eapply wp_then.
    { apply the_request_eq. change (row i _) with (get_request_by_id i (set_request i failed_callback (store w))).
      rewrite row_set by done. by rewrite decide_True, Hr. }
    eapply wp_end; [apply audit_eq|]. split_and!; try done; [by eexists|].
    eexists. split; [done|]. split; [done|]. by repeat constructor.
  - eapply wp_end; [apply audit_eq|].
    split_and!; try done; [by destruct w as [[] ? ? ? ? ? ? ?]|by eexists|].
    exists []. rewrite app_nil_r. cbn. split_and!; [done|lia|done].
Qed.

(** ** Decisions on a bound request *)

Definition with_tenants (l : list Tenant) (w : World) : World := w <| ap_tenants := l |>.

Lemma record_preference_eq env t job what w :
  ∃ tenants, record_preference env t job what w = (Ok (), with_tenants tenants w).
Proof.
  change (∃ tenants, (match counted_settings env t job what w with
    | Some s => on_tenants (assign_tenant t (λ t0, t0 <| tn_settings := s |>)) | None => mret () end : M World unit) w
    = (Ok (), with_tenants tenants w)).
  destruct (counted_settings env t job what w) as [s|]; [by eexists|]. exists (ap_tenants w). by destruct w.
Qed.

(** The two decisions that end an approval. *)
Inductive Decision_of := Approve | Reject.
Definition intent_of (d : Decision_of) : string := match d with Approve => "approve" | Reject => "reject" end.
Definition decided_status (d : Decision_of) : ApprovalStatus :=
  match d with Approve => APPROVAL_APPROVED | Reject => APPROVAL_REJECTED end.
Definition decided_outcome (d : Decision_of) : string := match d with Approve => "approved" | Reject => "rejected" end.

Lemma binding_status s r : get_workflow_binding (set_status s r) = get_workflow_binding r.
Proof. done. Qed.

(** A decision up to its conclusion. *)
Definition decide_request (env : ApprovalEnv) (d : Decision_of) (id : string) : M World unit :=
  match d with Approve => apply_approve env id | Reject => apply_reject env id end.

Lemma apply_intent_eq env d id feedback w :
  apply_intent env id (intent_of d) feedback w =
    (_ ← decide_request env d id; conclude env id (intent_of d) feedback) w.
Proof. by destruct d. Qed.

Lemma row_decided id d w r :
  row id w = Some r →
  row id (with_requests (set_request id (set_status (decided_status d))) w) = Some (set_status (decided_status d) r).
Proof.
  intros Hr. change (get_request_by_id id (set_request id (set_status (decided_status d)) (store w)) =
                     Some (set_status (decided_status d) r)).
  rewrite row_set by done. by rewrite decide_True, Hr.
Qed.

Lemma decide_request_bound env d id w r :
  row id w = Some r → get_workflow_binding r ≠ None →
  ∃ tenants, decide_request env d id w =
    (Ok (), with_tenants tenants (with_requests (set_request id (set_status (decided_status d))) w)).
Proof.
  intros Hr Hb. set (w1 := with_requests _ w). pose proof (row_decided id d w r Hr) as Hr1. fold w1 in Hr1.
  assert (∃ tenants, w1 = with_tenants tenants w1) as Hsame by (exists (ap_tenants w1); by destruct w1).
  destruct d; unfold decide_request, apply_approve, apply_reject;
    (rewrite (M_bind_ok _ _ w () w1) by done); rewrite (M_bind_ok _ _ w1 _ w1 (the_request_eq _ _ _ Hr1)).
  all: destruct (job_of _) as [job|]; [|destruct Hsame as [l Hl]; exists l; by rewrite <- Hl].
  - destruct (record_preference_eq env (ar_tenant_id r) job "approve" w1) as [tenants Hp]. exists tenants.
    cbv zeta. rewrite (M_bind_ok _ _ _ _ _ Hp). by rewrite binding_status, bool_decide_eq_true_2.
  - apply record_preference_eq.
Qed.

(** C8: A decision on a bound request resumes its node and publishes nothing.
    Approving or rejecting a request that is bound to a node of a workflow is:
    marking the request, recording one audit event and the outcome among the
    settings of tenants (which are left open here), and then exactly the resumption of the node
    whose token the binding holds, with the outcome and the record of the
    decision, and with its exception if it raises one.  Nothing is published,
    scheduled or sent. *)
Theorem bound_decision_resumes_its_node env d id feedback w r binding channels :
  row id w = Some r → get_workflow_binding r = Some binding →
  list_or_empty (Json.getn "channels" binding) = Ok channels →
  let decided := set_status (decided_status d) r in
  ∃ tenants log,
    apply_intent env id (intent_of d) feedback w =
      on_engine (_ ← Resume.resume_waiting_node (ae_engine env) (ar_tenant_id r)
                       (Some (Json.str (Json.getn "resume_token" binding))) (decided_outcome d)
                       (decision_of decided binding channels) true;
                 mret ())
        (with_audit log (with_tenants tenants (with_requests (set_request id (set_status (decided_status d))) w))).
Proof.
  intros Hr Hb Hch decided.
  destruct (decide_request_bound env d id w r Hr) as [tenants Hd]; [by rewrite Hb|].
  rewrite apply_intent_eq, (M_bind_ok _ _ _ _ _ Hd). set (w1 := with_tenants _ _) in *.
  assert (row id w1 = Some decided) as Hr1 by (by apply row_decided).
  exists tenants. eexists. unfold conclude. rewrite (M_bind_ok _ _ w1 _ w1 (the_request_eq _ _ _ Hr1)).
  rewrite (M_bind_ok _ _ _ _ _ (audit_eq _ _ _ _ _ _ w1)). f_equal. f_equal.
  unfold maybe_resume_workflow_from_approval. change (get_workflow_binding decided) with (get_workflow_binding r). rewrite Hb.
  change (ar_status decided) with (decided_status d).
  assert (status_outcome (decided_status d) = Some (decided_outcome d)) as -> by (by destruct d).
  rewrite Hch. reflexivity.
Qed.

(** ** What asking for approval keeps *)

Section frames.
Context (Φ : Store → Prop).
Notation kept := (keeps (λ w, Φ (store w))).

Lemma keeps_on_publishing {A} (m : Publishing.Library → M Publishing.World A) : kept (on_publishing m).
Proof. apply keeps_fun. intros w Hw. unfold on_publishing. by destruct (m _ _). Qed.
Lemma keeps_on_tenants {A} (m : M (list Tenant) A) : kept (on_tenants m).
Proof. apply keeps_fun. intros w Hw. unfold on_tenants. by destruct (m _). Qed.
Lemma keeps_create_message m : kept (create_message m).
Proof. by apply keeps_modify. Qed.
Lemma keeps_the_request id : kept (the_request id).
Proof. unfold the_request. solve_keeps done. Qed.
Lemma keeps_content_job t job : kept (content_job_or_404 t job).
Proof. unfold content_job_or_404. solve_keeps done. Qed.
Lemma keeps_assign_request x f : (∀ st, Φ st → Φ (set_request x f st)) → kept (assign_request x f).
Proof. intros H. apply keeps_modify. intros w Hw. by apply H. Qed.
End frames.
#[export] Hint Resolve keeps_on_publishing keeps_on_tenants keeps_create_message keeps_the_request
  keeps_content_job : keeps.

Lemma keeps_telegram_runtime Φ env t : keeps (λ w, Φ (store w)) (telegram_runtime env t).
Proof. unfold telegram_runtime. solve_keeps done. Qed.
Lemma keeps_summary Φ t job id : keeps (λ w, Φ (store w)) (build_summary_text t job id).
Proof. unfold build_summary_text. solve_keeps done. Qed.
Lemma keeps_previews Φ t job : keeps (λ w, Φ (store w)) (build_telegram_asset_previews t job).
Proof. unfold build_telegram_asset_previews. solve_keeps done. Qed.
Lemma keeps_mark_plan Φ env t job state : keeps (λ w, Φ (store w)) (mark_plan_cluster env t job state).
Proof. unfold mark_plan_cluster, set_cluster_state. solve_keeps done. Qed.
Lemma keeps_audit Φ t a i m p o : keeps (λ w, Φ (store w)) (audit t a i m p o).
Proof. apply keeps_on_publishing. Qed.
Lemma keeps_on_web {A} Φ (m : M Web A) : keeps (λ w, Φ (store w)) (on_web m).
Proof. apply keeps_on_publishing. Qed.
Lemma keeps_now Φ env : keeps (λ w, Φ (store w)) (utc_now env).
Proof. apply keeps_on_publishing. Qed.
Lemma keeps_new_id Φ env : keeps (λ w, Φ (store w)) (new_id env).
Proof. apply keeps_on_publishing. Qed.
#[export] Hint Resolve keeps_telegram_runtime keeps_summary keeps_previews keeps_mark_plan keeps_audit keeps_on_web
  keeps_now keeps_new_id : keeps.

(** What deliveries leave alone of a request. *)
Definition same_matter (r r' : ApprovalRequest) : Prop :=
  ar_id r' = ar_id r ∧ ar_status r' = ar_status r ∧ ar_revision_count r' = ar_revision_count r ∧
  ar_response_payload_json r' = ar_response_payload_json r ∧ ar_approval_type r' = ar_approval_type r.

Section deliveries.
Context (Φ : Store → Prop).
Hypothesis Φ_same : ∀ x f st, (∀ r, same_matter r (f r)) → Φ st → Φ (set_request x f st).
Notation kept := (keeps (λ w, Φ (store w))).

Lemma keeps_assign_same x f : (∀ r, same_matter r (f r)) → kept (assign_request x f).
Proof. intros Hf. apply keeps_assign_request. intros st. by apply Φ_same. Qed.

Lemma keeps_deliver env id t job channels : kept (deliver env id t job channels).
Proof.
  assert (∀ channels, kept (deliver_each env id t job channels)) as H; [|apply H].
  clear channels. intros channels. induction channels as [|c channels IH]; cbn [deliver_each]; solve_keeps done.
  - unfold deliver_telegram. solve_keeps done. by apply keeps_assign_same.
  - unfold deliver_whatsapp. solve_keeps done. by apply keeps_assign_same.
Qed.
End deliveries.

(** A request of this id of which [K] holds. *)
Definition has (id : string) (K : ApprovalRequest → Prop) (st : Store) : Prop :=
  ∃ r, get_request_by_id id st = Some r ∧ K r.

Lemma has_assign id K x f st :
  (∀ r, ar_id (f r) = ar_id r) → (∀ r, ar_id r = id → K r → K (f r)) → has id K st → has id K (set_request x f st).
Proof.
  intros Hid HK (r & Hr & Hk). unfold has. rewrite row_set by done.
  case_decide as E; [|by exists r]. subst x. rewrite Hr. exists (f r). split; [done|].
  apply HK; [by apply (row_key _ _ _ Hr)|done].
Qed.

Lemma has_set id (K K' : ApprovalRequest → Prop) f st :
  (∀ r, ar_id (f r) = ar_id r) → (∀ r, K r → K' (f r)) → has id K st → has id K' (set_request id f st).
Proof.
  intros Hid HK (r & Hr & Hk). unfold has. rewrite row_set by done. rewrite decide_True, Hr by done. exists (f r). eauto.
Qed.

Lemma row_by_app id (l k : list ApprovalRequest) r :
  row_by ar_id id l = Some r → row_by ar_id id (l ++ k) = Some r.
Proof. unfold row_by. induction l as [|x l IH]; [done|]. cbn -[bool_decide]. by case_bool_decide. Qed.

Lemma has_append id K st r : has id K st → has id K (st <| st_approvals ::= λ l, l ++ [r] |>).
Proof.
  intros (r0 & Hr & Hk). exists r0. split; [|done]. exact (row_by_app id (st_approvals st) [r] r0 Hr).
Qed.

Lemma has_same id K x f st :
  (∀ r r', same_matter r r' → K r → K r') → (∀ r, same_matter r (f r)) → has id K st → has id K (set_request x f st).
Proof. intros HK Hf. apply has_assign; [intros r; apply Hf|intros r _; by apply HK]. Qed.

(** A step that keeps a property, when only the end that returns matters. *)
Lemma wp_step {A B} (P : World → Prop) (m : M World A) (k : A → M World B) Q w :
  keeps P m → P w → (∀ a w', P w' → wp (k a) Q (λ _ _, True) w') → wp (m ≫= k) Q (λ _ _, True) w.
Proof. intros Hm Hw Hk. apply wp_bind. eapply wp_mono; [by apply Hm|exact Hk|done]. Qed.

Lemma wp_assign_request {B} x f (k : unit → M World B) Q E w :
  wp (k ()) Q E (with_requests (set_request x f) w) → wp (assign_request x f ≫= k) Q E w.
Proof. intros H. exact H. Qed.

(** Refreshing the request there is. *)
Lemma wp_refresh {B} env t s r (k : string → M World B) Q w st :
  existing_request t s st = Some r → store w = st →
  (∀ now w', store w' = set_request (ar_id r) (refreshed s now) st → wp (k (ar_id r)) Q (λ _ _, True) w') →
  wp (create_or_refresh_request env t s ≫= k) Q (λ _ _, True) w.
Proof.
  intros He Hst Hk. unfold create_or_refresh_request. apply wp_bind, wp_bind, wp_get. rewrite Hst, He.
  eapply (wp_step (λ w, store w = st)); [apply (keeps_now (λ s, s = st))|done|]. intros now w' Hw'.
  apply wp_assign_request, wp_ret. apply (Hk now). cbn. by rewrite <- Hw'.
Qed.

(** ** The binding of a request that is asked again *)

Lemma risk_items_wf risk : Dict.wf (risk_items risk).
Proof. unfold Dict.wf, risk_items. cbn. apply (bool_decide_unpack _). by vm_compute. Qed.

Lemma merged_workflow payload risk :
  Dict.wf payload → Dict.get "workflow" (merged_payload payload payload (risk_items risk)) = Dict.get "workflow" payload.
Proof.
  intros Hwf. assert (Dict.get "workflow" (Dict.update (Dict.update payload payload) (risk_items risk)) =
                      Dict.get "workflow" payload) as H.
  { rewrite Dict.get_update by apply risk_items_wf. cbn -[Dict.get Dict.update].
    change (Dict.get "workflow" (risk_items risk)) with (@None json). cbv iota.
    rewrite Dict.get_update by done. by destruct (Dict.get "workflow" payload). }
  unfold merged_payload. cbv zeta. case_match eqn:E; [|exact H].
  apply andb_true_iff in E as [E1 E2]. apply negb_true_iff in E2. revert E1 E2. unfold Dict.mem. rewrite H.
  intros ->. done.
Qed.

Lemma binding_of_get p q : Dict.get "workflow" p = Dict.get "workflow" q → binding_of p = binding_of q.
Proof. unfold binding_of, WORKFLOW_BINDING_KEY. by intros ->. Qed.

Lemma truthy_some s : PyStr.truthy s = true → PyStr.opt_truthy (Some s) = true.
Proof. done. Qed.

(** C11: Asking again keeps the workflow.  When approval of a content job is
    asked for that already has a request, a call that returns returns that
    request, pending, of type asset, with the same number of revisions, and
    bound to the same node of a workflow, or to none, as before. *)
Theorem asking_again_keeps_the_workflow env t job recipient channels delivery w r id w' :
  PyStr.truthy job = true → get_request_for_content_job job (store w) = Some r → row (ar_id r) w = Some r →
  Dict.wf (ar_response_payload_json r) →
  send_for_approval env t job recipient channels delivery w = (Ok id, w') →
  id = ar_id r ∧
  ∃ r', row id w' = Some r' ∧ ar_status r' = APPROVAL_PENDING ∧ ar_approval_type r' = "asset" ∧
        ar_revision_count r' = ar_revision_count r ∧ get_workflow_binding r' = get_workflow_binding r.
Proof.
  intros Hjob Hr Hrow Hwf Hrun.
  set (K := λ r', ar_status r' = APPROVAL_PENDING ∧ ar_approval_type r' = "asset" ∧
                  ar_revision_count r' = ar_revision_count r ∧
                  ar_response_payload_json r' = ar_response_payload_json r).
  set (K' := λ r', ar_status r' = APPROVAL_PENDING ∧ ar_approval_type r' = "asset" ∧
                   ar_revision_count r' = ar_revision_count r ∧ get_workflow_binding r' = get_workflow_binding r).
  enough (wp (send_for_approval env t job recipient channels delivery)
             (λ id w', id = ar_id r ∧ has id K' (store w')) (λ _ _, True) w) as H.
  { unfold wp in H. rewrite Hrun in H. destruct H as (-> & r' & H1 & H2). split; [done|]. by exists r'. }
  clear Hrun. unfold send_for_approval. set (st := store w) in *.
  eapply (wp_step (λ w, store w = st)); [apply (keeps_on_tenants (λ s, s = st))|done|]. intros config w1 H1. cbv zeta.
  match goal with |- wp (if ?b then _ else _) _ _ _ => destruct b; [by apply wp_raise|] end.
  eapply (wp_step (λ w, store w = st)); [apply (keeps_content_job (λ s, s = st))|done|]. intros cj w2 H2.
  match goal with |- wp (if ?b then _ else _) _ _ _ => destruct b; [by apply wp_raise|] end. apply wp_bind, wp_get. rewrite H2, Hr.
  eapply wp_refresh; [|exact H2|].
  { unfold existing_request, asset_subject. cbn [sb_content_job_id]. by rewrite truthy_some. }
  intros now w3 H3.
  assert (has (ar_id r) K (store w3)) as Hk.
  { rewrite H3. apply (has_set _ (eq r)); [done| |by exists r]. intros ? <-. by unfold K. }
  eapply (wp_step (λ w, has (ar_id r) K (store w))); [|exact Hk|].
  { destruct delivery; [|apply keeps_ret]. apply keeps_bind; [|intros ?; apply keeps_ret].
    apply keeps_deliver. intros x f s Hf. apply has_same; [|done].
    intros r1 r2 (_ & Hs & Hc & Hp & Ha) (K1 & K2 & K3 & K4). unfold K. by rewrite Hs, Hc, Hp, Ha. }
  intros _ w4 H4. apply wp_assign_request.
  assert (has (ar_id r) K' (store (with_requests (set_request (ar_id r) (λ r0, r0 <| ar_response_payload_json ::=
    λ payload, merged_payload (ar_response_payload_json r) payload (risk_items (risk_payload_for_job cj)) |>)) w4))) as Hk'.
  { apply (has_set _ K); [done| |exact H4]. intros r1 (K1 & K2 & K3 & K4). unfold K'. split_and!; [done..|].
    unfold get_workflow_binding. apply binding_of_get. cbn [ar_response_payload_json].
    change (Dict.get "workflow" (merged_payload (ar_response_payload_json r) (ar_response_payload_json r1)
      (risk_items (risk_payload_for_job cj))) = Dict.get "workflow" (ar_response_payload_json r)).
    rewrite K4. by apply merged_workflow. }
  set (P := λ w, has (ar_id r) K' (store w)).
  do 3 (eapply (wp_step P); [first [apply (keeps_mark_plan (has (ar_id r) K'))|apply (keeps_the_request (has (ar_id r) K'))
    |apply (keeps_audit (has (ar_id r) K'))]|eassumption|intros ? ? ?]).
  by apply wp_ret.
Qed.

(** Asking for publication drops the workflow.  When publication of a
    content job is asked for that already has a request - which is what the
    button "Publish Gate" on that very request does - a call that returns
    returns that request, pending and bound to no workflow: its payload was
    overwritten.  No decision on it resumes the node that waits. *)
Theorem publish_gate_drops_the_workflow env t job platforms scheduled_for recipient w r id w' :
  PyStr.truthy job = true → get_request_for_content_job job (store w) = Some r → row (ar_id r) w = Some r →
  send_publish_for_approval env t job platforms scheduled_for recipient w = (Ok id, w') →
  id = ar_id r ∧
  ∃ r', row id w' = Some r' ∧ ar_status r' = APPROVAL_PENDING ∧ ar_approval_type r' = "publish" ∧
        get_workflow_binding r' = None.
Proof.
  intros Hjob Hr Hrow Hrun.
  set (K0 := λ r', ar_status r' = APPROVAL_PENDING ∧ ar_approval_type r' = "publish").
  set (K := λ r', ar_status r' = APPROVAL_PENDING ∧ ar_approval_type r' = "publish" ∧
                  get_workflow_binding r' = None).
  enough (wp (send_publish_for_approval env t job platforms scheduled_for recipient)
             (λ id w', id = ar_id r ∧ has id K (store w')) (λ _ _, True) w) as H.
  { unfold wp in H. rewrite Hrun in H. destruct H as (-> & r' & H1 & H2). split; [done|]. by exists r'. }
  clear Hrun. unfold send_publish_for_approval. set (st := store w) in *.
  eapply (wp_step (λ w, store w = st)); [apply (keeps_telegram_runtime (λ s, s = st))|done|].
  intros [config telegram] w1 H1.
  eapply (wp_step (λ w, store w = st)); [apply (keeps_content_job (λ s, s = st))|done|]. intros cj w2 H2. cbv zeta.
  match goal with |- wp (if ?b then _ else _) _ _ _ => destruct b; [by apply wp_raise|] end.
  eapply wp_refresh; [|exact H2|].
  { unfold existing_request, publish_subject. cbn [sb_content_job_id]. by rewrite truthy_some. }
  intros now w3 H3. apply wp_assign_request.
  match goal with |- wp _ _ _ ?x => assert (has (ar_id r) K (store x)) as Hk end.
  { apply (has_set _ K0); [done| |].
    - intros r1 [K1 K2]. by split_and!.
    - change (has (ar_id r) K0 (store w3)). rewrite H3. apply (has_set _ (eq r)); [done| |by exists r].
      by intros ? <-. }
  set (P := λ w, has (ar_id r) K (store w)). destruct telegram as [telegram|]; [|by apply wp_raise].
  eapply (wp_step P); [apply keeps_lift|exact Hk|intros headline w4 H4].
  eapply (wp_step P); [apply (keeps_on_web (has (ar_id r) K))|exact H4|intros sent w5 H5].
  eapply (wp_step P); [apply (keeps_now (has (ar_id r) K))|exact H5|intros now' w6 H6].
  apply wp_assign_request.
  match goal with |- wp _ _ _ ?x => assert (P x) as H7 end.
  { apply has_assign; [done| |exact H6]. intros r1 _ (K1 & K2 & K3). by split_and!. }
  eapply (wp_step P); [apply (keeps_create_message (has (ar_id r) K))|exact H7|intros ? w8 H8].
  eapply (wp_step P); [apply (keeps_audit (has (ar_id r) K))|exact H8|intros ? w9 H9]. by apply wp_ret.
Qed.

(** ** Revisions *)

(** A revision that waits for its decision. *)
Definition open_revision (s : ApprovalStatus) : bool :=
  match s with APPROVAL_PENDING | APPROVAL_REVISION_REQUESTED => true | _ => false end.

(** An assignment that keeps the number of revisions and decides nothing. *)
Definition undecided (f : ApprovalRequest → ApprovalRequest) : Prop :=
  ∀ r, ar_id (f r) = ar_id r ∧ ar_revision_count (f r) = ar_revision_count r ∧
       (ar_status (f r) = ar_status r ∨ ar_status (f r) = APPROVAL_PENDING).

Section regrow.
Context (Φ : Store → Prop).
Hypothesis Φ_set : ∀ x f st, undecided f → Φ st → Φ (set_request x f st).
Hypothesis Φ_append : ∀ st r, Φ st → Φ (st <| st_approvals ::= λ l, l ++ [r] |>).
Notation kept := (keeps (λ w, Φ (store w))).

Lemma keeps_assign_undecided x f : undecided f → kept (assign_request x f).
Proof. intros Hf. apply keeps_assign_request. intros st. by apply Φ_set. Qed.

Lemma keeps_create_or_refresh env t s : kept (create_or_refresh_request env t s).
Proof.
  unfold create_or_refresh_request. solve_keeps ltac:(by apply Φ_append). apply keeps_assign_undecided.
  intros r. split_and!; [done..|by right].
Qed.

Lemma keeps_send_for_approval env t job recipient channels delivery :
  kept (send_for_approval env t job recipient channels delivery).
Proof.
  pose proof (keeps_create_or_refresh env) as Hcreate. unfold send_for_approval.
  assert (∀ id t job l, kept (deliver env id t job l)) as Hdeliver.
  { intros. apply keeps_deliver. intros x f st Hf. apply Φ_set. intros r. destruct (Hf r) as (? & ? & ? & _). auto. }
  solve_keeps done. apply keeps_assign_undecided. intros r. split_and!; [done..|by left].
Qed.
End regrow.

(** The request is in its [n]-th revision and not decided. *)
Definition revised (n : Z) (r : ApprovalRequest) : Prop :=
  ar_revision_count r = n ∧ open_revision (ar_status r) = true.

Lemma has_revised id n (Φ := has id (revised n)) :
  (∀ x f st, undecided f → Φ st → Φ (set_request x f st)) ∧
  (∀ st r, Φ st → Φ (st <| st_approvals ::= λ l, l ++ [r] |>)).
Proof.
  split; [|intros st r; apply has_append]. intros x f st Hf. apply has_assign; [intros r; apply Hf|].
  intros r _ [H1 H2]. destruct (Hf r) as (_ & Hc & Hs). split; [by rewrite Hc|]. by destruct Hs as [->| ->].
Qed.

Lemma stamped_binding b r :
  Json.truthy (Json.getn "resume_token" b) = true →
  get_workflow_binding (stamp_workflow_binding (Some b) r) = Some b.
Proof.
  intros Hb. destruct b as [|kv b]; [done|]. unfold get_workflow_binding, binding_of, stamp_workflow_binding.
  cbn -[Dict.get Dict.set Json.truthy Json.getn WORKFLOW_BINDING_KEY]. by rewrite Dict.get_set_eq, Hb.
Qed.

Lemma binding_token r b : get_workflow_binding r = Some b → Json.truthy (Json.getn "resume_token" b) = true.
Proof.
  unfold get_workflow_binding, binding_of. intros H. repeat case_match; try done. by injection H as <-.
Qed.

Lemma keeps_record_preference Φ env t job what : keeps (λ w, Φ (store w)) (record_preference env t job what).
Proof. unfold record_preference. solve_keeps done. Qed.

(** Content generation writes no approval request. *)
Definition generation_is_apart (env : ApprovalEnv) : Prop :=
  ∀ t plan feedback job accounts w,
    st_approvals (store (ae_generate env t plan feedback job accounts w).2) = st_approvals (store w).

Lemma keeps_regenerate env id (K : ApprovalRequest → Prop) t job feedback user channel :
  generation_is_apart env →
  keeps (λ w, has id K (store w)) (regenerate_with_feedback env t job feedback user channel).
Proof.
  intros Hgen. unfold regenerate_with_feedback. apply keeps_bind; [apply (keeps_content_job (has id K))|intros cj].
  apply keeps_bind; [by apply keeps_modify|intros _]. apply keeps_bind; [apply keeps_lift|intros accounts].
  apply keeps_fun. intros w (r & Hr & Hk). exists r. split; [|done]. unfold get_request_by_id in *. by rewrite Hgen.
Qed.

(** A revision is refused by the node or after the last one. *)
Definition revision_refused (r : ApprovalRequest) : bool :=
  bool_decide ((Dict.get "allow_revision" <$> get_workflow_binding r) = Some (Some (JBool false))) ||
  (MAX_REVISIONS <=? ar_revision_count r).

(** Revising up to its conclusion, when it is not refused. *)
Lemma apply_revise_open env id feedback w r :
  generation_is_apart env → row id w = Some r → revision_refused r = false →
  wp (apply_revise env id feedback)
    (λ _ w', has id (λ r', revised (ar_revision_count r + 1) r' ∧
       (get_workflow_binding r ≠ None → get_workflow_binding r' = get_workflow_binding r)) (store w'))
    (λ _ w', has id (revised (ar_revision_count r + 1)) (store w')) w.
Proof.
  intros Hgen Hr Href. unfold apply_revise. eapply wp_then; [by apply the_request_eq|]. cbv zeta.
  apply orb_false_iff in Href as [H1 H2]. rewrite H1, H2. clear H1 H2.
  set (binding := get_workflow_binding r). set (n := ar_revision_count r + 1). set (K := revised n).
  set (P := λ w, has id K (store w)).
  apply wp_assign_request.
  match goal with |- wp _ _ _ ?x => set (w1 := x) end.
  assert (P w1) as H1 by (apply (has_set _ (eq r)); [done| |by exists r]; intros ? <-; split; [cbn; lia|done]).
  destruct (job_of r) as [job|].
  2:{ apply wp_ret. apply (has_set _ (eq r)); [done| |by exists r]. intros ? <-. split; [split; [cbn; lia|done]|done]. }
  apply (wp_keep P); [apply (keeps_record_preference (has id K))|done|intros _ w2 H2].
  apply (wp_keep P); [by apply keeps_regenerate|done|intros job' w3 H3].
  apply (wp_keep P); [|done|intros _ w4 H4].
  { apply keeps_assign_request. intros st. apply has_assign; [intros x; by destruct binding as [[|]|]|].
    intros x _ [Hc _]. split; [|by destruct binding as [[|]|]]. rewrite <- Hc. by destruct binding as [[|]|]. }
  apply (wp_keep P); [apply keeps_lift|done|intros channels w5 H5].
  apply (wp_keep P); [apply (keeps_the_request (has id K))|done|intros request w6 H6].
  apply (wp_keep P); [|done|intros _ w7 H7].
  { destruct (has_revised id n) as [Hset Happ]. by apply keeps_send_for_approval. }
  apply wp_modify. apply (has_set _ K); [by intros x; destruct binding as [[|]|]| |exact H7].
  intros r1 [Hn Ho]. split; [split; by destruct binding as [[|]|]|]. intros Hb.
  destruct binding as [b|] eqn:E; [|done]. apply stamped_binding, (binding_token r b E).
Qed.

Lemma on_engine_ret w : on_engine (mret ()) w = (Ok (), w).
Proof. by destruct w as [[] ? ? ? ? ? ? ?]. Qed.

(** C10: Revisions are counted, bounded, and keep the workflow.  An operator
    asks with notes for a revision.  When the node allows none, or the request
    was revised five times, the request is rejected and no content is generated
    or sent: the decision is audited, and the node a bound request waits for is
    resumed as rejected, with the exception of that resumption if it raises one.
    Otherwise the revision is counted and the request stays undecided, also when
    generating or sending fails; when the call succeeds, a bound request is bound
    to its node as before and only the audit event follows: nothing is resumed. *)
Theorem revision_spec env id feedback w r :
  generation_is_apart env → row id w = Some r → PyStr.truthy feedback = true →
  let '(answer, w') := apply_intent env id "revise" (Some feedback) w in
  if revision_refused r then
    let rejected := set_status APPROVAL_REJECTED r in
    ∃ log, let w1 := with_audit log (with_requests (set_request id (set_status APPROVAL_REJECTED)) w) in
    match get_workflow_binding r with
    | None => (answer, w') = (Ok (), w1)
    | Some binding => ∀ channels, list_or_empty (Json.getn "channels" binding) = Ok channels →
        (answer, w') = on_engine (_ ← Resume.resume_waiting_node (ae_engine env) (ar_tenant_id r)
                                        (Some (Json.str (Json.getn "resume_token" binding))) "rejected"
                                        (decision_of rejected binding channels) true;
                                  mret ()) w1
    end
  else
    ∃ r', row id w' = Some r' ∧ ar_revision_count r' = ar_revision_count r + 1 ∧ open_revision (ar_status r') = true ∧
          (answer = Ok () →
             (get_workflow_binding r ≠ None → get_workflow_binding r' = get_workflow_binding r) ∧
             ∃ log w1, apply_revise env id feedback w = (Ok (), w1) ∧ w' = with_audit log w1).
Proof.
  intros Hgen Hr Hf. unfold apply_intent. cbn [String.eqb Ascii.eqb Bool.eqb andb PyStr.opt_truthy or_empty]. rewrite Hf.
  cbn [PyStr.opt_truthy or_empty]. destruct (revision_refused r) eqn:Href.
  - set (w0 := with_requests (set_request id (set_status APPROVAL_REJECTED)) w).
    assert (apply_revise env id feedback w = (Ok (), w0)) as E.
    { unfold apply_revise. rewrite (M_bind_ok _ _ w r w) by by apply the_request_eq. cbv zeta.
      unfold revision_refused in Href. destruct (bool_decide _); [done|]. cbn [orb] in Href. by rewrite Href. }
    rewrite (M_bind_ok _ _ _ _ _ E). pose proof (row_decided id Reject w r Hr) as Hr0.
    unfold conclude. rewrite (M_bind_ok _ _ w0 _ w0 (the_request_eq _ _ _ Hr0)), (M_bind_ok _ _ _ _ _ (audit_eq _ _ _ _ _ _ w0)).
    unfold maybe_resume_workflow_from_approval. rewrite binding_status.
    match goal with |- context [with_audit ?l w0] => generalize l end. intros log. 
    change (status_outcome (ar_status (set_status (decided_status Reject) r))) with (Some "rejected").
    destruct (get_workflow_binding r) as [binding|].
    + destruct (on_engine _ _) as [answer w'] eqn:Er. exists log. intros channels Hch. rewrite <- Er. by rewrite Hch.
    + rewrite on_engine_ret. by exists log.
  - pose proof (apply_revise_open env id feedback w r Hgen Hr Href) as H. unfold wp in H.
    destruct (apply_revise env id feedback w) as [[[]|e] w1] eqn:E.
    + destruct H as (r' & Hr' & [Hc Ho] & Hb). rewrite (M_bind_ok _ _ _ _ _ E). unfold conclude.
      rewrite (M_bind_ok _ _ w1 _ w1 (the_request_eq _ _ _ Hr')), (M_bind_ok _ _ _ _ _ (audit_eq _ _ _ _ _ _ w1)).
      unfold maybe_resume_workflow_from_approval.
      assert (status_outcome (ar_status r') = None) as -> by (by destruct (ar_status r')).
      match goal with |- context [with_audit ?l w1] => set (log := l) end.
      assert (on_engine match get_workflow_binding r' with Some _ | _ => mret () end (with_audit log w1) = (Ok (), with_audit log w1))
        as -> by (destruct (get_workflow_binding r'); apply on_engine_ret).
      exists r'. split_and!; [done..|]. intros _. split; [done|]. by exists log, w1.
    + destruct H as (r' & Hr' & Hc & Ho). rewrite (M_bind_raise _ _ _ _ _ E). exists r'. by split_and!.
Qed.

(** ** Messages of the inbox *)

Section inboxes.
Context (Ψ : list WebhookInbox → Prop).
Notation kept := (keeps (λ w, Ψ (ow_inbox (ap_ops w)))).

Lemma inbox_publishing {A} (m : Publishing.Library → M Publishing.World A) : kept (on_publishing m).
Proof. apply keeps_fun. intros w Hw. unfold on_publishing. by destruct (m _ _). Qed.
Lemma inbox_tenants {A} (m : M (list Tenant) A) : kept (on_tenants m).
Proof. apply keeps_fun. intros w Hw. unfold on_tenants. by destruct (m _). Qed.
Lemma inbox_engine {A} (m : M Store A) : kept (on_engine m).
Proof. apply keeps_fun. intros w Hw. unfold on_engine, on_ops, on_store. by destruct (m _). Qed.
Lemma inbox_web {A} (m : M Web A) : kept (on_web m).
Proof. apply inbox_publishing. Qed.
Lemma inbox_now env : kept (utc_now env).
Proof. apply inbox_publishing. Qed.
Lemma inbox_new_id env : kept (new_id env).
Proof. apply inbox_publishing. Qed.
Lemma inbox_audit t a i m p o : kept (audit t a i m p o).
Proof. apply inbox_publishing. Qed.
Lemma inbox_message m : kept (create_message m).
Proof. by apply keeps_modify. Qed.
Lemma inbox_assign x f : kept (assign_request x f).
Proof. by apply keeps_modify. Qed.
End inboxes.
#[export] Hint Resolve inbox_publishing inbox_tenants inbox_engine inbox_web inbox_now inbox_new_id inbox_audit
  inbox_message inbox_assign : inbox.
#[export] Hint Resolve keeps_ret keeps_raise keeps_lift keeps_get_state : inbox.

Ltac keep_inbox := repeat first
  [ match goal with |- keeps _ (modify _) => by apply keeps_modify end
  | match goal with |- keeps _ (_ ≫= _) => apply keeps_bind; [|intros ?] end
  | match goal with |- keeps _ (try_except _ _) => apply keeps_try; [|intros ?] end
  | match goal with |- keeps _ (match ?x with _ => _ end) => destruct x end
  | progress cbv zeta
  | solve [eauto 3 with inbox] ].

Section processing.
Context (env : ApprovalEnv) (Ψ : list WebhookInbox → Prop).
Notation kept := (keeps (λ w, Ψ (ow_inbox (ap_ops w)))).
Hypothesis generate_kept : ∀ t plan feedback job accounts, kept (ae_generate env t plan feedback job accounts).

Lemma inbox_deliver id t job channels : kept (deliver env id t job channels).
Proof.
  assert (∀ channels, kept (deliver_each env id t job channels)) as H; [|apply H].
  clear channels. intros channels. induction channels as [|c channels IH]; cbn [deliver_each]; keep_inbox.
  - unfold deliver_telegram, telegram_runtime, build_telegram_asset_previews. keep_inbox.
  - unfold deliver_whatsapp, build_summary_text, content_job_or_404, the_request. keep_inbox.
Qed.

Lemma inbox_send t job recipient channels delivery : kept (send_for_approval env t job recipient channels delivery).
Proof.
  pose proof inbox_deliver.
  unfold send_for_approval, content_job_or_404, create_or_refresh_request, mark_plan_cluster, set_cluster_state,
    the_request. keep_inbox.
Qed.

Lemma inbox_preference t job what : kept (record_preference env t job what).
Proof. unfold record_preference. keep_inbox. Qed.

Lemma inbox_apply_intent id intent feedback : kept (apply_intent env id intent feedback).
Proof.
  pose proof inbox_send. pose proof inbox_preference.
  unfold apply_intent, apply_approve, apply_revise, apply_reject, conclude, publish_now, regenerate_with_feedback,
    content_job_or_404, the_request. keep_inbox.
Qed.

Lemma inbox_process_messages messages : kept (process_messages env messages).
Proof.
  pose proof inbox_apply_intent. induction messages as [|m messages IH]; cbn [process_messages]; [keep_inbox|].
  apply keeps_bind; [|intros l; keep_inbox]. unfold process_message, assign_responded_at. keep_inbox.
Qed.
End processing.

Definition set_inbox (id : string) (f : WebhookInbox → WebhookInbox) (w : World) : World :=
  w <| ap_ops ::= λ o, o <| ow_inbox ::= set_row wi_id id f |> |>.

(** The row is no longer waiting to be processed. *)
Definition taken (id : string) (inbox : list WebhookInbox) : Prop :=
  ∃ x, get_pending_webhook id inbox = Some x ∧ wi_status x ≠ "received".

Lemma taken_set id f inbox :
  (∀ x, wi_id (f x) = wi_id x ∧ wi_status (f x) ≠ "received") → is_Some (get_pending_webhook id inbox) →
  taken id (set_row wi_id id f inbox).
Proof.
  intros Hf [x Hx]. exists (f x). unfold get_pending_webhook. rewrite row_by_set_row by (intros; apply Hf).
  rewrite decide_True by done. unfold get_pending_webhook in Hx. rewrite Hx. split; [done|apply Hf].
Qed.

Lemma taken_some id inbox : taken id inbox → is_Some (get_pending_webhook id inbox).
Proof. intros (x & -> & _). by eexists. Qed.

Lemma process_taken env id w : taken id (ow_inbox (ap_ops w)) → process_webhook_inbox env id w = (Ok [], w).
Proof.
  intros (x & Hx & Hs). unfold process_webhook_inbox. rewrite (M_bind_ok _ _ w w w) by done. rewrite Hx.
  apply String.eqb_neq in Hs. by rewrite Hs.
Qed.

(** A received message is processed at most once.  Processing a row of the
    inbox, however it ends - processed, unreadable, or with the exception of a
    decision, whose earlier effects stay - leaves the row such that processing
    it again does nothing; only a configuration of its tenant that cannot be
    read leaves it to be tried again. *)
Theorem inbox_row_processed_once env id row w :
  (∀ Ψ t plan feedback job accounts, keeps (λ w, Ψ (ow_inbox (ap_ops w))) (ae_generate env t plan feedback job accounts)) →
  get_pending_webhook id (ow_inbox (ap_ops w)) = Some row →
  (∀ t, wi_tenant_id row = Some t → is_ok (resolve_whatsapp_runtime_config (ae_settings env) t (ap_tenants w)).1 = true) →
  let w' := (process_webhook_inbox env id w).2 in process_webhook_inbox env id w' = (Ok [], w').
Proof.
  intros Hgen Hrow Hcfg w'. apply process_taken. subst w'.
  set (T := λ w, taken id (ow_inbox (ap_ops w))). change (T (process_webhook_inbox env id w).2). apply wp_snd.
  assert (∀ f w (k : unit → M World (list string)),
    (∀ x, wi_id (f x) = wi_id x ∧ wi_status (f x) ≠ "received") →
    is_Some (get_pending_webhook id (ow_inbox (ap_ops w))) →
    (∀ w', T w' → wp (k ()) (λ _, T) (λ _, T) w') →
    wp (assign_inbox_row id f ≫= k) (λ _, T) (λ _, T) w) as Hset.
  { intros f w1 k Hf Hs Hk. apply (wp_then _ _ () w1 (set_inbox id f w1) _ _ eq_refl). apply Hk. by apply taken_set. }
  assert (∀ (l : list string) w, T w → wp (_ ← commit; mret l) (λ _, T) (λ _, T) w) as Hend.
  { intros l w1 H1. apply (wp_keep T); [apply (inbox_publishing (taken id))|done|intros _ w2 H2]. by apply wp_ret. }
  unfold process_webhook_inbox. apply wp_bind, wp_get. rewrite Hrow.
  destruct (String.eqb (wi_status row) "received") eqn:Es; cbn [negb].
  2:{ apply wp_ret. exists row. split; [done|]. by apply String.eqb_neq. }
  match goal with |- wp (match ?x with Some _ => _ | None => _ end) _ _ _ => destruct x as [payload|] end.
  2:{ apply Hset; [done|by rewrite Hrow|]. intros w1 H1. by apply Hend. }
  match goal with |- wp (?m ≫= ?k) _ _ _ => assert (∃ config, m w = (Ok config, w)) as [config Hc] end.
  { destruct (wi_tenant_id row) as [t|]; [|by eexists]. specialize (Hcfg t eq_refl). unfold on_tenants.
    assert ((resolve_whatsapp_runtime_config (ae_settings env) t (ap_tenants w)).2 = ap_tenants w) as Hsame.
    { refine (wp_snd _ (λ l, l = ap_tenants w) _ _). unfold resolve_whatsapp_runtime_config, get_tenant_settings.
      apply wp_bind, wp_bind, wp_get. case_match; [apply wp_ret, wp_lift; by case_match|by apply wp_raise]. }
    destruct (resolve_whatsapp_runtime_config _ _ _) as [[config|e] l]; [|done]. cbn in Hsame. subst l.
    exists config. by destruct w. }
  eapply wp_then; [exact Hc|]. apply Hset; [done|by rewrite Hrow|]. intros w1 H1.
  apply (wp_keep T); [|done|intros updated w2 H2].
  - unfold except_exception. apply keeps_try.
    + apply keeps_bind; [apply keeps_lift|intros parsed]. apply inbox_process_messages. intros. apply Hgen.
    + intros e. destruct (is_exception e); [|apply keeps_raise]. intros w2 H2.
      eapply (wp_then _ _ () w2 (set_inbox id (failed_row (Scheduler.exn_str e)) w2)); [done|].
      apply (wp_keep T); [apply (inbox_publishing (taken id))|by apply taken_set, taken_some|intros _ w3 H3].
      by apply wp_raise.
  - apply (wp_keep T); [apply (inbox_now (taken id))|done|intros now w3 H3].
    apply Hset; [done|by apply taken_some|]. intros w4 H4. by apply Hend.
Qed.

(** ** Expiry *)

Lemma expire_bound env id r binding channels st :
  get_request_by_id id st = Some r → get_workflow_binding r = Some binding →
  list_or_empty (Json.getn "channels" binding) = Ok channels →
  expire_request env id st =
    (_ ← Resume.resume_waiting_node env (ar_tenant_id r) (Some (Json.str (Json.getn "resume_token" binding))) "expired"
           (decision_of (set_status APPROVAL_EXPIRED r) binding channels) true;
     mret ()) (set_request id (set_status APPROVAL_EXPIRED) st).
Proof.
  intros Hr Hb Hch. set (st1 := set_request id (set_status APPROVAL_EXPIRED) st).
  assert (get_request_by_id id st1 = Some (set_status APPROVAL_EXPIRED r)) as Hr1.
  { subst st1. rewrite row_set by done. by rewrite decide_True, Hr. }
  unfold expire_request. rewrite (M_bind_ok _ _ st () st1) by done. rewrite (M_bind_ok _ _ st1 st1 st1) by done.
  rewrite Hr1. unfold maybe_resume_workflow_from_approval.
  change (get_workflow_binding (set_status APPROVAL_EXPIRED r)) with (get_workflow_binding r). rewrite Hb.
  change (status_outcome (ar_status (set_status APPROVAL_EXPIRED r))) with (Some "expired"). by rewrite Hch.
Qed.

Lemma resume_settled env t token decision node run st :
  PyStr.truthy token = true → Resume.get_by_resume_token t token st = Ok (Some node) →
  Cancellation.get_run t (nr_workflow_run_id node) st = Some run → nr_status node ∉ [WAITING; FAILED] →
  Resume.resume_waiting_node env t (Some token) "expired" decision true st =
    (Raise (HTTPException 409 ("Node is not waiting (status=" +:+ node_status_value (nr_status node) +:+ ")")), st).
Proof.
  intros Ht Hn Hrun Hs. unfold Resume.resume_waiting_node. cbv zeta.
  change (PyStr.lower (PyStr.strip "expired")) with "expired".
  rewrite bool_decide_eq_true_2 by (unfold Resume.VALID_OUTCOMES, Resume.SUCCESS_OUTCOMES, Resume.FAIL_OUTCOMES; set_solver).
  cbn [negb PyStr.opt_truthy]. rewrite Ht. cbn [negb default from_option id].
  rewrite (M_bind_ok _ _ st st st) by done. rewrite (M_bind_ok _ _ st (Some node) st) by (unfold lift; by rewrite Hn).
  cbv beta iota.
  rewrite (M_bind_ok _ _ st run st).
  2:{ unfold Engine.require_run. rewrite (M_bind_ok _ _ st st st) by done. by rewrite Hrun. }
  rewrite (bool_decide_eq_false_2 ("expired" ∈ Resume.SUCCESS_OUTCOMES)) by (unfold Resume.SUCCESS_OUTCOMES; set_solver).
  rewrite andb_false_r. rewrite (bool_decide_eq_false_2 (nr_status node = FAILED)) by set_solver. cbn [andb].
  by rewrite (bool_decide_eq_false_2 (nr_status node = WAITING)) by set_solver.
Qed.

(** C33: An orphaned request blocks every expiry.  When the first expired
    request is bound to a node that neither waits nor failed - its run was
    cancelled, which leaves the request pending and the token on the node - the
    task raises 409, and is rolled back: not one request is expired, neither this
    one nor the others, and the next run of the task meets the same request.
    (A node that failed, as after a wait that timed out, is answered without an
    exception and does not block.) *)
Theorem orphan_blocks_expiry uuid env now w r others binding token channels node run :
  list_expired_pending_requests now (ow_store w) = r :: others →
  get_request_by_id (ar_id r) (ow_store w) = Some r →
  get_workflow_binding r = Some binding → Dict.get "resume_token" binding = Some (JStr token) →
  list_or_empty (Json.getn "channels" binding) = Ok channels →
  Resume.get_by_resume_token (ar_tenant_id r) token (ow_store w) = Ok (Some node) →
  Cancellation.get_run (ar_tenant_id r) (nr_workflow_run_id node) (ow_store w) = Some run →
  nr_status node ∉ [WAITING; FAILED] →
  let '(answer, w') := expire_stale_approvals_task uuid env now w in
  answer = Raise (HTTPException 409 ("Node is not waiting (status=" +:+ node_status_value (nr_status node) +:+ ")")) ∧
  st_approvals (ow_store w') = st_approvals (ow_store w) ∧
  list_expired_pending_requests now (ow_store w') = r :: others ∧
  st_runs (ow_store w') = st_runs (ow_store w) ∧ st_node_runs (ow_store w') = st_node_runs (ow_store w).
Proof.
  intros He Hr Hb Htok Hch Hn Hrun Hs. unfold expire_stale_approvals_task. rewrite Runtime.wp_run_async_task. cbv zeta.
  set (w1 := w <| ow_store ::= _ |>). set (st1 := ow_store w1).
  assert (PyStr.truthy token = true) as Htrue.
  { pose proof (binding_token r binding Hb) as H. unfold Json.getn in H. by rewrite Htok in H. }
  set (st2 := set_request (ar_id r) (set_status APPROVAL_EXPIRED) st1).
  set (e := HTTPException 409 _).
  assert (expire_request env (ar_id r) st1 = (Raise e, st2)) as Hex.
  { rewrite (expire_bound env (ar_id r) r binding channels st1 Hr Hb Hch). unfold Json.getn. rewrite Htok. cbn [default from_option id Json.str].
    apply M_bind_raise. by apply (resume_settled env _ token _ node run st2). }
  assert (expire_stale_approvals env now w1 = (Raise e, w1 <| ow_store := st2 |>)) as ->.
  { unfold expire_stale_approvals. rewrite (M_bind_ok _ _ w1 w1 w1) by done.
    change (list_expired_pending_requests now (ow_store w1)) with (list_expired_pending_requests now (ow_store w)).
    rewrite He. cbn [fmap list_fmap]. cbv zeta. apply M_bind_raise. unfold on_store.
    cbn [mfor]. by rewrite (M_bind_raise _ _ _ _ _ Hex). }
  by split_and!.
Qed.

(** ** Approval and publication *)

Section dry.
Context (env : ApprovalEnv) (old : list string) (sent : list Request).

Notation quiet := (λ w : Publishing.World,
  PublisherKeys.dry_after old (Publishing.pw_rows w) ∧ web_sent (Publishing.pw_web w) = sent).
Notation kept := (keeps (λ w, quiet (ap_publishing w))).

Lemma dry_on_publishing {A} (m : Publishing.Library → M Publishing.World A) :
  (∀ lib, keeps quiet (m lib)) → kept (on_publishing m).
Proof.
  intros Hm. apply keeps_fun. intros w Hw. unfold on_publishing.
  pose proof (keeps_snd _ _ (ap_publishing w) (Hm (ap_library w)) Hw) as H. by destruct (m _ _).
Qed.
Lemma dry_on_tenants {A} (m : M (list Tenant) A) : kept (on_tenants m).
Proof. apply keeps_fun. intros w Hw. unfold on_tenants. by destruct (m _). Qed.
Lemma dry_on_engine {A} (m : M Store A) : kept (on_engine m).
Proof. apply keeps_fun. intros w Hw. unfold on_engine, on_ops. by destruct (on_store m _). Qed.
Lemma dry_assign id f : kept (assign_request id f).
Proof. by apply keeps_modify. Qed.
Lemma dry_the_request id : kept (the_request id).
Proof. unfold the_request. solve_keeps done. Qed.
Lemma dry_audit t action id message payload outcome : kept (audit t action id message payload outcome).
Proof.
  apply dry_on_publishing. intros _. apply keeps_modify. intros w [H Hs]. split; [|done].
  by apply (PublisherKeys.dry_after_rest old (Publishing.pw_rows w)).
Qed.
Lemma dry_preference t job outcome : kept (record_preference env t job outcome).
Proof. unfold record_preference. pose proof @dry_on_tenants. solve_keeps done. Qed.
Hint Resolve dry_on_engine dry_assign dry_the_request dry_audit dry_preference : keeps.

Lemma dry_publication t id job platforms scheduled_for : kept (publish_now env t id (publish_request job platforms scheduled_for)).
Proof.
  unfold publish_now. apply keeps_bind; [|intros _; apply keeps_ret]. apply dry_on_publishing. intros lib.
  by apply PublisherKeys.dry_publish_now.
Qed.
Hint Resolve dry_publication : keeps.

Lemma dry_approve id feedback : kept (apply_intent env id "approve" feedback).
Proof. unfold apply_intent, apply_approve, conclude. cbn [String.eqb Ascii.eqb eqb]. solve_keeps done. Qed.
End dry.

(** C9: Approving sends nothing to any platform.  However the approval of a
    request ends, not one request is sent: bound to a workflow or not, asset or
    publish gate, with whatever credentials the accounts have.  Every
    publishing job it creates is a dry run. *)
Theorem approval_is_a_dry_run env id feedback w :
  let w' := (apply_intent env id "approve" feedback w).2 in
  let jobs w := Publishing.rw_jobs (Publishing.pw_rows (ap_publishing w)) in
  web_sent (Publishing.pw_web (ap_publishing w')) = web_sent (Publishing.pw_web (ap_publishing w)) ∧
  ∀ j, j ∈ jobs w' → Publishing.pj_id j ∈ (Publishing.pj_id <$> jobs w) ∨ Publishing.pj_dry_run j = true.
Proof.
  cbv zeta. destruct (keeps_snd _ _ w (dry_approve env (Publishing.pj_id <$> Publishing.rw_jobs (Publishing.pw_rows (ap_publishing w)))
    (web_sent (Publishing.pw_web (ap_publishing w))) id feedback)) as [[_ H] Hs]; [|by split].
  split; [apply PublisherKeys.dry_after_start|done].
Qed.

(** ** A tenant with one request that a paused node waits for *)

Definition ex_binding : dict json :=
  build_workflow_binding (Some "R") (Some "n") (Some "A") (Some "a") "stop" true ["in_app"; "telegram"].

Definition ex_request : ApprovalRequest :=
  new_request "q" "T" (asset_subject "c1" "5") 0 0 0 <| ar_response_payload_json := [("workflow", JObj ex_binding)] |>.

Definition ex_library : Publishing.Library := {|
  Publishing.lb_accounts := []; Publishing.lb_connected := []; Publishing.lb_tokens := [];
  Publishing.lb_content_jobs :=
    [{| Variants.cj_id := "c1"; Variants.cj_tenant_id := "T"; Variants.cj_content_plan_id := "p1";
        Variants.cj_grounding_bundle := JObj []; Variants.cj_target_social_account_ids := [] |};
     {| Variants.cj_id := "c2"; Variants.cj_tenant_id := "T"; Variants.cj_content_plan_id := "p1";
        Variants.cj_grounding_bundle := JObj []; Variants.cj_target_social_account_ids := [] |}];
  Publishing.lb_assets := []; Publishing.lb_variants := Variants.Build_VariantRows [] [] |}.

(** Telegram is enabled without a token: the mock. *)
Definition ex_tenant : Tenant := {|
  tn_id := "T"; tn_name := "Tenant"; tn_slug := "tenant"; tn_status := "active"; tn_plan_tier := "starter";
  tn_timezone := "UTC"; tn_settings := [(TELEGRAM_ENABLED_KEY, "true"); (TELEGRAM_CHAT_ID_KEY, "5")] |}.

Definition ex_inbox : WebhookInbox := {|
  wi_id := "i"; wi_tenant_id := Some "T"; wi_provider := "stub"; wi_event_type := "incoming_message";
  wi_dedupe_key := "k"; wi_payload := [("raw", JStr "REJECT q")]; wi_received_at := Some 0; wi_processed_at := None;
  wi_signature_valid := true; wi_status := "received"; wi_error_message := None |}.

Definition ex_store : Store := ResumeSpec.ex_waiting <| st_approvals := [ex_request] |>.
Definition ex_ops (st : Store) : OpsWorld := {|
  ow_store := st; ow_tables := empty_tables; ow_inbox := [ex_inbox]; ow_inbox_tasks := []; ow_replay := [];
  ow_objects := [] |}.
Definition ex_world : World := {|
  ap_ops := ex_ops ex_store; ap_publishing := PublisherSpec.ex_world; ap_library := ex_library; ap_messages := [];
  ap_candidates := []; ap_content_revisions := []; ap_tenants := [ex_tenant]; ap_pending_revisions := [] |}.

(** A stub message is its text; every generation gives the content "c2". *)
Definition ex_approvals : ApprovalEnv := {|
  ae_engine := Start.ex_env; ae_publisher := PublisherSpec.ex_env (λ _ _, PublisherSpec.timed_out);
  ae_settings := ex_settings; ae_hmac := λ _ _, "5ca1ab1e0ddba11"; ae_plan := λ _ _, None;
  ae_generate := λ _ _ _ _ _, mret "c2"; ae_loads := λ s, Some (JObj [("text", JStr s)]); ae_dumps := Json.repr;
  ae_decode_ignore := id; ae_fromisoformat := λ _, None |}.

Lemma signed_button_verifies_witness :
  build_signed_callback_data ex_approvals "approve" "q" = "approve:q:5ca1ab1e0d" ∧
  verify_signed_callback_data ex_approvals (build_signed_callback_data ex_approvals "approve" "q") =
    Ok (true, "approve", "q").
Proof.
  split; [vm_compute; reflexivity|].
  apply (signed_button_verifies ex_approvals "approve" "q"); [intros key message; split| |]; vm_compute; reflexivity.
Defined.

(** The button was forged: the request stays as it is but for the failure. *)
Definition ex_forged : json :=
  JObj [("id", JStr "cb"); ("data", JStr "approve:q:0000000000");
        ("message", JObj [("message_id", JInt 9); ("chat", JObj [("id", JInt 5)])])].

Lemma bad_signature_decides_nothing_witness :
  let '(answer, w') := handle_telegram_callback ex_approvals (JObj [("callback_query", ex_forged)]) ex_world in
  answer = Ok () ∧ st_approvals (store w') = [failed_callback ex_request].
Proof.
  pose proof (bad_signature_decides_nothing ex_approvals (JObj [("callback_query", ex_forged)]) ex_forged
    {| cq_id := "cb"; cq_data := "approve:q:0000000000"; cq_message_id := "9"; cq_chat_id := "5" |} "approve" "q" ex_world
    eq_refl eq_refl ltac:(vm_compute; reflexivity) ltac:(vm_compute; reflexivity)) as H.
  destruct (handle_telegram_callback _ _ _) as [answer w']. destruct H as (H1 & H2 & _). split; [exact H1|].
  unfold store. rewrite H2. vm_compute. reflexivity.
Defined.

(** Approving by the button: the node that waited succeeds. *)
Definition ex_approved : World := (apply_intent ex_approvals "q" "approve" None ex_world).2.

Lemma bound_decision_resumes_its_node_witness :
  nr_status <$> st_node_runs (store ex_approved) = [SUCCEEDED] ∧
  ∃ tenants log,
    apply_intent ex_approvals "q" "approve" None ex_world =
      on_engine (_ ← Resume.resume_waiting_node Start.ex_env "T" (Some "a") "approved"
                       (decision_of (set_status APPROVAL_APPROVED ex_request) ex_binding [JStr "in_app"; JStr "telegram"])
                       true;
                 mret ())
        (with_audit log (with_tenants tenants (with_requests (set_request "q" (set_status APPROVAL_APPROVED)) ex_world))).
Proof.
  split; [vm_compute; reflexivity|].
  exact (bound_decision_resumes_its_node ex_approvals Approve "q" None ex_world ex_request ex_binding
    [JStr "in_app"; JStr "telegram"] eq_refl eq_refl eq_refl).
Defined.

(** Sent again, the request is still bound; sent for publication, it is not. *)
Definition ex_sent_again : World :=
  (send_for_approval ex_approvals "T" "c1" None [] true ex_world).2.
Definition ex_gate : World :=
  (send_publish_for_approval ex_approvals "T" "c1" ["x"] None None ex_world).2.

Lemma asking_again_keeps_the_workflow_witness :
  length (ap_messages ex_sent_again) = 2%nat ∧
  ∃ r', row "q" ex_sent_again = Some r' ∧ get_workflow_binding r' = Some ex_binding.
Proof.
  split; [vm_compute; reflexivity|].
  destruct (asking_again_keeps_the_workflow ex_approvals "T" "c1" None [] true ex_world ex_request "q" ex_sent_again)
    as (_ & r' & H1 & _ & _ & _ & H2).
  - reflexivity.
  - vm_compute. reflexivity.
  - vm_compute. reflexivity.
  - apply (bool_decide_unpack _). vm_compute. exact I.
  - vm_compute. reflexivity.
  - exists r'. split; [exact H1|]. rewrite H2. vm_compute. reflexivity.
Defined.

Lemma publish_gate_drops_the_workflow_witness :
  get_workflow_binding ex_request = Some ex_binding ∧
  ∃ r', row "q" ex_gate = Some r' ∧ get_workflow_binding r' = None.
Proof.
  split; [vm_compute; reflexivity|].
  destruct (publish_gate_drops_the_workflow ex_approvals "T" "c1" ["x"] None None ex_world ex_request "q" ex_gate)
    as (_ & r' & H1 & _ & _ & H2).
  - reflexivity.
  - vm_compute. reflexivity.
  - vm_compute. reflexivity.
  - vm_compute. reflexivity.
  - exists r'. split; [exact H1|exact H2].
Defined.

(** Notes on the request give it the new content and keep its node. *)
Lemma revision_spec_witness :
  let '(answer, w') := apply_intent ex_approvals "q" "revise" (Some "shorter") ex_world in
  ∃ r', row "q" w' = Some r' ∧ ar_revision_count r' = 1 ∧ open_revision (ar_status r') = true ∧
        (answer = Ok () →
           (get_workflow_binding ex_request ≠ None → get_workflow_binding r' = get_workflow_binding ex_request) ∧
           ∃ log w1, apply_revise ex_approvals "q" "shorter" ex_world = (Ok (), w1) ∧ w' = with_audit log w1).
Proof. exact (revision_spec ex_approvals "q" "shorter" ex_world ex_request (λ _ _ _ _ _ _, eq_refl) eq_refl eq_refl). Defined.

(** The call of that witness returns, and asks for the revised content. *)
Lemma revision_is_asked_for :
  let '(answer, w') := apply_intent ex_approvals "q" "revise" (Some "shorter") ex_world in
  answer = Ok () ∧ ar_content_job_id <$> row "q" w' = Some (Some "c2").
Proof. vm_compute. by split. Qed.

(** The message rejects the request once. *)
Lemma inbox_row_processed_once_witness :
  let w' := (process_webhook_inbox ex_approvals "i" ex_world).2 in
  process_webhook_inbox ex_approvals "i" w' = (Ok [], w').
Proof.
  apply (inbox_row_processed_once ex_approvals "i" ex_inbox ex_world).
  - intros Ψ t plan feedback job accounts. apply keeps_ret.
  - vm_compute. reflexivity.
  - intros t [= <-]. vm_compute. reflexivity.
Defined.

(** The run was cancelled while its approval was pending. *)
Definition ex_cancelled : Store := (Cancellation.cancel_run 9 "T" "R" ex_store).2.
Definition ex_orphan : WorkflowNodeRun := default ResumeSpec.ex_paused (node_row "n" (st_node_runs ex_cancelled)).
Definition ex_late : Z := 1000000000000.

Lemma orphan_blocks_expiry_witness :
  let '(answer, w') := expire_stale_approvals_task (λ _, "task") Start.ex_env ex_late (ex_ops ex_cancelled) in
  answer = Raise (HTTPException 409 "Node is not waiting (status=cancelled)") ∧
  st_approvals (ow_store w') = [ex_request].
Proof.
  pose proof (orphan_blocks_expiry (λ _, "task") Start.ex_env ex_late (ex_ops ex_cancelled) ex_request [] ex_binding "a"
    [JStr "in_app"; JStr "telegram"] ex_orphan
    (default Waits.ex_wait_run (Cancellation.get_run "T" "R" ex_cancelled))
    ltac:(vm_compute; reflexivity) ltac:(vm_compute; reflexivity) ltac:(vm_compute; reflexivity)
    ltac:(vm_compute; reflexivity) ltac:(vm_compute; reflexivity) ltac:(vm_compute; reflexivity)
    ltac:(vm_compute; reflexivity)
    ltac:(apply (bool_decide_unpack _); vm_compute; exact I)) as H.
  destruct (expire_stale_approvals_task _ _ _ _) as [answer w']. destruct H as (H1 & H2 & _).
  split; [rewrite H1; vm_compute; reflexivity|]. rewrite H2. vm_compute. reflexivity.
Defined.
End ApprovalSpec.
