(* ===== verification/NodesSpec.v ===== *)
(** * What the control nodes do to a run

    Theorems about [ControlNodes] together with the engine that executes the
    nodes: [Unlock] follows the branch of a condition, [Waits] turns the output
    of a node that pauses into a wait. *)
From Stdlib Require Import QArith.
From S2P Require Import Prelude PyStr Json Calendar Graph Nodes RunModels Unlock Retry Waits ControlNodes.
From S2P Require Import Resume Approvals ApprovalOutbound ApprovalActions.

Module NodesSpec.
Import Models Nodes ControlNodes.ControlNodes.
Local Open Scope string_scope.
Local Open Scope list_scope.
Local Open Scope Z_scope.

(** ** Conditions *)

(** The value a condition looks at: the input of that name, else the payload's,
    else the input "value"; the payload's own "value" is never read. *)
Definition condition_value (field : string) (inputs payload : dict json) : json :=
  let value := Json.getn "value" inputs in
  if bool_decide (field = "value") then value
  else if bool_decide (field = "payload") then default value (Dict.get field payload)
  else match Dict.get field inputs with Some v => v | None => default value (Dict.get field payload) end.

(** The branch as [unlock_after_node_success] reads it from an output. *)
Definition announced (branch : string) : option string :=
  if PyStr.truthy (PyStr.strip branch) then Some (PyStr.strip branch) else None.

Definition undeclared (k : string) : bool := negb (bool_decide (k ∈ ["value"; "payload"])).
Definition extras (d : dict json) : dict json :=
  List.filter (λ kv, undeclared kv.1) d.

Lemma get_extras k d :
  Dict.get k (extras d) = if bool_decide (k ∈ ["value"; "payload"]) then None else Dict.get k d.
Proof.
  etrans; [exact (Dict.get_filter k undeclared d)|].
  unfold undeclared. by case_bool_decide.
Qed.

Lemma wf_filter (p : string → bool) (d : dict json) : Dict.wf d → Dict.wf (List.filter (λ kv, p kv.1) d).
Proof.
  unfold Dict.wf. induction d as [|[k v] d IH]; [done|]. cbn [Dict.keys map fst List.filter].
  intros [Hk Hd]%NoDup_cons. destruct (p k); [|by apply IH]. cbn [Dict.keys map fst]. apply NoDup_cons. split; [|by apply IH].
  intros H%Dict.get_is_Some. rewrite Dict.get_filter in H. case_match; [by apply Hk, Dict.get_is_Some|by destruct H].
Qed.

(** A validated input is a dictionary and reads back its fields. *)
Lemma valid_condition_input d payload valid :
  Dict.wf d → dict_field "payload" (Ok []) d = Ok payload → validate_condition_input d = Ok valid →
  valid = [("value", Json.getn "value" d); ("payload", JObj payload)] ++ extras d ∧ Dict.wf valid.
Proof.
  intros Hd Hp. unfold validate_condition_input. rewrite Hp. cbn. intros [= <-]. split; [done|].
  fold (extras d). unfold Dict.wf, Dict.keys. cbn [map fst].
  assert (∀ k, k ∈ Dict.keys (extras d) → k ∉ ["value"; "payload"]) as Hk.
  { intros k Hk%Dict.get_is_Some. rewrite get_extras in Hk. case_bool_decide; [by destruct Hk|done]. }
  apply NoDup_cons. split; [|apply NoDup_cons; split].
  - intros [?|H]%elem_of_cons; [done|]. apply (Hk _ H). set_solver.
  - intros H. apply (Hk _ H). set_solver.
  - by apply (wf_filter undeclared).
Qed.
Definition no_payload (k : string) : bool := negb (bool_decide (k = "payload")).

Lemma condition_value_read field d payload valid :
  Dict.wf d → dict_field "payload" (Ok []) d = Ok payload → validate_condition_input d = Ok valid →
  dict_field "payload" (Ok []) valid = Ok payload ∧
  default (Json.getn "value" valid) (Dict.get field (condition_bag valid payload)) = condition_value field d payload.
Proof.
  intros Hd Hp Hv. destruct (valid_condition_input d payload valid Hd Hp Hv) as [Hvalid Hwf].
  split; [by rewrite Hvalid|].
  assert (∀ k, Dict.get k valid = if bool_decide (k = "value") then Some (Json.getn "value" d)
                                  else if bool_decide (k = "payload") then Some (JObj payload) else Dict.get k d) as Hget.
  { intros k. rewrite Hvalid. cbn [app Dict.get]. destruct (decide (k = "value")) as [->|H1]; [done|].
    rewrite (bool_decide_eq_false_2 (k = "value")) by done.
    destruct (decide (k = "payload")) as [->|H2]; [done|]. rewrite (bool_decide_eq_false_2 (k = "payload")) by done.
    rewrite get_extras. by rewrite bool_decide_eq_false_2 by set_solver. }
  assert (Dict.get field (condition_bag valid payload) =
            match (if no_payload field then Dict.get field valid else None) with
            | Some v => Some v | None => Dict.get field payload end) as ->.
  { etrans; [exact (Dict.get_update field payload _ (wf_filter no_payload valid Hwf))|].
    by rewrite (Dict.get_filter field no_payload valid). }
  unfold no_payload, condition_value. unfold Json.getn at 1. rewrite !Hget. cbn [default].
  destruct (decide (field = "value")) as [->|H1]; [done|]. rewrite !(bool_decide_eq_false_2 (field = "value")) by done.
  destruct (decide (field = "payload")) as [->|H2].
  - reflexivity.
  - rewrite !(bool_decide_eq_false_2 (field = "payload")) by done. destruct (Dict.get field d); reflexivity.
Qed.

Lemma get_cons_eqb k k' (v : json) d : Dict.get k ((k', v) :: d) = if String.eqb k k' then Some v else Dict.get k d.
Proof.
  cbn [Dict.get]. destruct (String.eqb_spec k k') as [->|H]; [by rewrite decide_True|by rewrite decide_False].
Qed.

(** Reads the fields of a dictionary that is written out. *)
Ltac read_fields := rewrite ?get_cons_eqb; cbn [String.eqb Ascii.eqb Bool.eqb mbind result_bind].

Section conditions.
Context (float_of_text : string → option pyfloat) (coerce_bool : json → option bool).
Hypothesis coerce_bool_id : ∀ b, coerce_bool (JBool b) = Some b.
Notation node := (ConditionNode float_of_text coerce_bool).

(** C37: A condition announces the branch of its comparison.  When the node
    returns it has compared the input of the configured name, over that of the
    payload, with the configured value; its output passes its own schema, and
    what the engine reads from it is the branch configured for the outcome. *)
Theorem condition_announces_its_branch context inputs config r :
  Dict.wf inputs → wn_execute node context inputs config = Ok r →
  ∃ cfg payload matched output,
    read_condition_config config = Ok cfg ∧ dict_field "payload" (Ok []) inputs = Ok payload ∧
    eval_condition float_of_text (condition_value (cc_field cfg) inputs payload) (cc_operator cfg) (cc_compare_to cfg)
      = Ok matched ∧
    res_status r = RS_SUCCEEDED ∧ wn_validate_output node (res_output r) = Ok output ∧
    Unlock.branch_of (Some output) = announced (if matched : bool then cc_true_branch cfg else cc_false_branch cfg).
Proof.
  intros Hwf. cbn [wn_execute node]. unfold execute_condition. destruct (validate_condition_input inputs) as [valid|e] eqn:Ev; [|done].
  destruct (dict_field "payload" (Ok []) inputs) as [payload|e] eqn:Ep;
    [|unfold validate_condition_input in Ev; by rewrite Ep in Ev].
  cbn [mbind result_bind]. destruct (read_condition_config config) as [cfg|e] eqn:Ec; [|done]. cbn [mbind result_bind].
  destruct (condition_value_read (cc_field cfg) inputs payload valid Hwf Ep Ev) as [-> Hval].
  cbn [mbind result_bind]. cbv zeta. rewrite Hval. destruct (eval_condition _ _ _ _) as [matched|e] eqn:Em; [|done].
  cbn [mbind result_bind]. intros [= <-]. eexists cfg, payload, matched, _. split_and!; [done..| |].
  - cbn [wn_validate_output ConditionNode succeeded res_output].
    unfold validate_condition_output, bool_field, str_field, Json.getn. read_fields. rewrite coerce_bool_id. reflexivity.
  - unfold Unlock.branch_of, announced. read_fields. done.
Qed.

(** The order a comparison decides. *)
Definition int_compare (operator : string) (a b : Z) : bool :=
  if String.eqb operator "eq" then a =? b
  else if String.eqb operator "neq" then negb (a =? b)
  else if String.eqb operator "gt" then b <? a
  else if String.eqb operator "gte" then b <=? a
  else if String.eqb operator "lt" then a <? b
  else a <=? b.

Lemma float_le_int a b : float_le (Finite (inject_Z a)) (Finite (inject_Z b)) = (a <=? b).
Proof. unfold float_le, Qle_bool. cbn. by rewrite !Z.mul_1_r. Qed.
Lemma float_lt_int a b : float_lt (Finite (inject_Z a)) (Finite (inject_Z b)) = (a <? b).
Proof. unfold float_lt. rewrite float_le_int. by rewrite Z.leb_antisym, negb_involutive. Qed.

Lemma to_float_int z : Z.abs z <= 2 ^ 53 → to_float float_of_text (JInt z) = Ok (Some (Finite (inject_Z z))).
Proof. intros H. unfold to_float, float_of_int. by rewrite (proj2 (Z.leb_le _ _)). Qed.

(** Integers up to 2^53 are compared exactly.  Every comparison of a
    condition node on two integers of at most 2^53 in size is their order,
    although the code compares them as floats. *)
Theorem comparison_is_exact operator a b :
  operator ∈ OPERATORS → operator ≠ "truthy" → Z.abs a <= 2 ^ 53 → Z.abs b <= 2 ^ 53 →
  eval_condition float_of_text (JInt a) operator (JInt b) = Ok (int_compare operator a b).
Proof.
  intros Hop Ht Ha Hb. unfold eval_condition. rewrite (to_float_int a Ha). cbn [mbind result_bind].
  rewrite (to_float_int b Hb). cbn [mbind result_bind]. unfold compare_floats.
  repeat (apply elem_of_cons in Hop as [->|Hop]; [try done; cbn -[float_lt float_le]; by rewrite ?float_lt_int, ?float_le_int|]).
  by apply elem_of_nil in Hop.
Qed.

(** Beyond that two integers can be equal as floats, and larger ones raise. *)
Lemma comparison_rounds :
  eval_condition float_of_text (JInt (2 ^ 53 + 1)) "gt" (JInt (2 ^ 53)) = Ok false ∧
  eval_condition float_of_text (JInt (10 ^ 400)) "gt" (JInt 0) =
    Raise (OtherException "OverflowError" "int too large to convert to float").
Proof. split; vm_compute; reflexivity. Qed.
End conditions.

(** ** Merges *)

Lemma map_as_object (l : list (dict json)) : map_result as_object (JObj <$> l) = Ok l.
Proof. induction l as [|o l IH]; [done|]. cbn [fmap list_fmap map_result as_object mbind result_bind] in *. by rewrite IH. Qed.

Section merges.
Context (coerce_int : json → option Z).
Hypothesis coerce_int_id : ∀ z, coerce_int (JInt z) = Some z.
Notation node := (MergeNode coerce_int).

(** The four fields of the output. *)
Definition merge_output (mode : string) (sources : list (dict json)) (merged : dict json) : dict json :=
  [("merged", JObj merged); ("sources", JArr (JObj <$> sources)); ("mode", JStr mode);
   ("source_count", JInt (Z.of_nat (length sources)))].

(** A merge exposes nothing but its four fields.  The node writes every
    merged key at the top level of its output, for the nodes behind it, but the
    output the engine stores after validation has the four fields of the schema
    only, when no merged key is one of them. *)
Theorem merge_exposes_nothing context inputs config sources bag mode :
  read_merge_input inputs = Ok (sources, bag) → read_merge_mode config = Ok mode →
  let merged := merged_bag bag sources in
  Dict.wf merged → (∀ k, k ∈ ["merged"; "sources"; "mode"; "source_count"] → Dict.get k merged = None) →
  ∃ r, wn_execute node context inputs config = Ok r ∧
       (∀ k v, Dict.get k merged = Some v → Dict.get k (res_output r) = Some v) ∧
       wn_validate_output node (res_output r) = Ok (merge_output mode sources merged).
Proof.
  intros Hin Hmode merged Hwf Hfree. cbn [wn_execute node]. unfold execute_merge. rewrite Hin, Hmode. cbn [mbind result_bind].
  fold merged. eexists. split; [reflexivity|]. cbn [succeeded res_output]. split.
  - intros k v Hk. rewrite Dict.get_update by done. by rewrite Hk.
  - cbn [wn_validate_output node]. unfold validate_merge_output, dict_field, list_field, str_field, int_field.
    rewrite !Dict.get_update, !Hfree by first [done|set_solver]. read_fields. rewrite map_as_object. read_fields.
    by rewrite coerce_int_id.
Qed.

(** A merged key of such a name replaces the field: here the number of sources. *)
Lemma merged_key_replaces_the_count :
  (r ← wn_execute node {| ctx_tenant_id := "T"; ctx_correlation_id := None; ctx_workflow_run_id := None;
                          ctx_automation_id := None; ctx_brand_id := None; ctx_node_id := None; ctx_node_run_id := None;
                          ctx_resume_token := None; ctx_snapshot := [] |}
         [("sources", JArr [JObj [("source_count", JInt 7)]])] [];
   o ← wn_validate_output node (res_output r); Ok (Dict.get "source_count" o)) = Ok (Some (JInt 7)).
Proof. vm_compute. by rewrite coerce_int_id. Qed.
End merges.

(** ** Pauses *)

(** How an expiry ends the wait of a decision that names the action. *)
Lemma expired_ending decision action :
  Dict.get "on_timeout" decision = Some (JStr action) →
  Resume.ending_of "expired" decision =
    if String.eqb action "continue" then Resume.EndTimedOut else Resume.EndFailure.
Proof.
  intros H. unfold Resume.ending_of. rewrite bool_decide_eq_false_2
    by (unfold Resume.SUCCESS_OUTCOMES; set_solver).
  unfold Waits.continues, Waits.str_or, Retry.get_truthy, Json.getn. rewrite H. cbn [from_option id Json.truthy].
  destruct action as [|c action]; [done|]. cbn -[String.eqb]. by destruct (String.eqb _ "continue").
Qed.

Section pauses.
Context (now : Z) (fresh : nat → string) (fromisoformat : string → option (Z * option Z)).
Context (coerce_int : json → option Z) (coerce_bool : json → option bool) (uuid_of_text : string → option string)
        (read_datetime : json → option (Z * option Z)).
Hypothesis coerce_int_id : ∀ z, coerce_int (JInt z) = Some z.
Hypothesis coerce_bool_id : ∀ b, coerce_bool (JBool b) = Some b.
Context (run : WorkflowRun) (node_run : WorkflowNodeRun) (token : string).
Hypothesis has_token : nr_resume_token node_run = Some token ∧ token ≠ "".
Notation persist := (Waits.persist_waiting_node now fresh fromisoformat run node_run).

(** When the row of a wait can be inserted, it is inserted. *)
Definition waits_as (p : WorkflowWait → Prop) (m : M Store unit) (st : Store) : Prop :=
  (m st).1 = Ok () → ∃ w, p w ∧ Waits.wait_pending w = true ∧ ww_resume_token w = token ∧
                          st_waits (m st).2 = st_waits st ++ [w].

Lemma created_wait (p : WorkflowWait → Prop) tenant run_id node_run_id ty wake key action payload (k : M Store unit) st :
  (∀ st, st_waits (k st).2 = st_waits st) →
  (∀ i, p {| ww_id := i; ww_tenant_id := tenant; ww_workflow_run_id := run_id;
             ww_workflow_node_run_id := node_run_id; ww_resume_token := token; ww_wait_type := ty;
             ww_event_key := key; ww_wake_at := wake; ww_status := WAIT_PENDING;
             ww_timeout_action := action; ww_payload := payload; ww_resolved_at := None;
             ww_resolved_outcome := None |}) →
  waits_as p (_ ← Waits.create_wait fresh tenant run_id node_run_id token ty wake key action payload; k) st.
Proof.
  intros Hk Hp. unfold waits_as.
  destruct (Waits.create_wait_store fresh tenant run_id node_run_id token ty wake key action payload st (λ _, k))
    as (w & E & Hw). rewrite E. clear E. destruct (existsb _ _); [done|]. intros _.
  exists w. subst w. split_and!; [apply Hp|done|done|]. by rewrite Hk.
Qed.

(** The instant a delay ends, as local time and offset. *)
Definition delay_end (cfg : DelayConfig) : option (Z * Z) :=
  match dc_until cfg with
  | JNull => Some (now + 1000000 * default 1 (dc_duration_seconds cfg), 0)
  | until => (λ d, (d.1, default 0 d.2)) <$> read_datetime until
  end.

Lemma bind_Ok {A B} (m : result A) (f : A → result B) b : m ≫= f = Ok b → ∃ a, m = Ok a ∧ f a = Ok b.
Proof. destruct m as [a|e]; [by exists a|done]. Qed.

Lemma opt_int_field_range k dflt lo hi d z :
  opt_int_field coerce_int k dflt lo hi d = Ok (Some z) → lo <= default lo dflt → lo <= z.
Proof.
  unfold opt_int_field. destruct (Dict.get k d) as [v|]; [|by intros [= ->]].
  destruct v; try done; destruct (coerce_int _) as [n|]; try done; destruct (Z.leb_spec lo n); cbn; try done;
    destruct (n <=? hi); by intros [= <-].
Qed.

(** A configuration that was read has a positive duration or none, in which
    case it has a valid instant. *)
Lemma read_delay config cfg : read_delay_config coerce_int read_datetime config = Ok cfg →
  duration_of cfg = default 1 (dc_duration_seconds cfg) ∧ is_Some (delay_end cfg).
Proof.
  unfold read_delay_config. intros (d & Hd & H)%bind_Ok. cbv zeta in H. apply bind_Ok in H as (u & Hu & H).
  assert (cfg = {| dc_duration_seconds := d; dc_until := Json.getn "until" config |}) as ->.
  { destruct (_ && _); [done|]. by injection H as <-. }
  unfold duration_of, delay_end. cbn [dc_duration_seconds dc_until]. split.
  - destruct d as [z|]; [|done]. apply opt_int_field_range in Hd; [|done]. cbn. by destruct (Z.eqb_spec z 0) as [->|].
  - unfold datetime_of in Hu. destruct (Json.getn "until" config); [by eexists|..];
      (destruct (read_datetime _) as [x|]; [by eexists|done]).
Qed.

Lemma token_truthy : PyStr.opt_truthy (Some token) = true.
Proof. by destruct token; [destruct (proj2 has_token)|]. Qed.

Lemma choice_field_in k dflt choices d s : choice_field k dflt choices d = Ok s → s ∈ choices.
Proof. unfold choice_field. intros (x & _ & H)%bind_Ok. case_bool_decide; by simplify_eq. Qed.

(** A timeout that was read is positive and its action is a word. *)
Lemma read_wait config cfg t : read_wait_config coerce_int config = Ok cfg → wcf_timeout_seconds cfg = Some t →
  60 <= t ∧ PyStr.truthy (wcf_on_timeout cfg) = true.
Proof.
  unfold read_wait_config. intros (e & _ & H)%bind_Ok Ht. apply bind_Ok in H as (x & Hx & H).
  apply bind_Ok in H as (action & Ha%choice_field_in & [= <-]). cbn in Ht |- *. subst x. split.
  - by apply opt_int_field_range in Hx.
  - repeat (apply elem_of_cons in Ha as [->|Ha]; [done|]). by apply elem_of_nil in Ha.
Qed.

Lemma positive_int_of z : 0 < z → Waits.positive_int (JInt z) = Some z.
Proof. intros H. unfold Waits.positive_int. cbn. by rewrite (proj2 (Z.ltb_lt _ _)). Qed.

(** What a paused node of each type leaves. *)
Lemma persists_delay output reason : nr_node_type node_run = "delay" →
  persist output reason = Waits.persist_delay now fresh fromisoformat run node_run token output.
Proof. intros Ht. unfold Waits.persist_waiting_node. by rewrite (proj1 has_token), Ht, token_truthy. Qed.
Lemma persists_event output : nr_node_type node_run = "wait" →
  persist output (Some "event_pending") = Waits.persist_event now fresh run node_run token output.
Proof. intros Ht. unfold Waits.persist_waiting_node. by rewrite (proj1 has_token), Ht, token_truthy. Qed.
Lemma persists_approval output : nr_node_type node_run = "approval" →
  persist output (Some "approval_pending") = Waits.persist_approval now fresh run node_run token output.
Proof. intros Ht. unfold Waits.persist_waiting_node. by rewrite (proj1 has_token), Ht, token_truthy. Qed.

(** C36: A delay is woken at the instant it was configured with.  The wait
    that the output of the node leaves has as deadline the end of the delay, when
    the text of that instant reads back: seconds from the reading of the clock, or
    the date of the configuration, in UTC unless it has an offset. *)
Theorem delay_wakes_at_its_end context inputs config cfg r output wall offset st :
  nr_node_type node_run = "delay" →
  read_delay_config coerce_int read_datetime config = Ok cfg → delay_end cfg = Some (wall, offset) →
  read_datetime (JStr (json_datetime wall offset)) = Some (wall, Some offset) →
  Waits.parse_resume_at fromisoformat (JStr (json_datetime wall offset)) = Some (wall, offset) →
  wn_execute (DelayNode now coerce_int coerce_bool read_datetime) context inputs config = Ok r →
  wn_validate_output (DelayNode now coerce_int coerce_bool read_datetime) (res_output r) = Ok output →
  waits_as (λ w, ww_wait_type w = DELAY ∧ ww_wake_at w = Some (wall - offset) ∧ ww_timeout_action w = None)
    (persist output (res_waiting_reason r)) st.
Proof.
  intros Ht Hcfg Hend Hread Hparse. cbn [wn_execute wn_validate_output DelayNode]. unfold execute_delay.
  rewrite Hcfg. cbn [mbind result_bind]. destruct (read_delay config cfg Hcfg) as [Hd _]. rewrite Hd.
  intros (instant & Hi & [= <-])%bind_Ok. assert (instant = (wall, offset)) as ->.
  { revert Hi Hend. unfold delay_end, datetime_of.
    destruct (dc_until cfg);
      try match goal with |- context [read_datetime ?v] => destruct (read_datetime v) as [[x y]|] end;
      cbn [mbind result_bind fmap option_fmap option_map fst snd invalid]; congruence. }
  cbn [waiting res_output res_waiting_reason fst snd]. unfold validate_delay_output, datetime_of, bool_field, str_field.
  read_fields. rewrite Hread, coerce_bool_id. read_fields. intros [= <-].
  rewrite persists_delay by done. unfold Waits.persist_delay, Json.getn. read_fields. cbn [from_option id].
  rewrite Hparse. cbn [from_option id]. by apply created_wait.
Qed.

(** An event is awaited as long as configured.  The wait that the output
    of the node leaves expires after the configured seconds with the configured
    action, or never. *)
Theorem wait_expires_as_configured context inputs config cfg r output st :
  nr_node_type node_run = "wait" → read_wait_config coerce_int config = Ok cfg →
  wn_execute (WaitNode coerce_int) context inputs config = Ok r →
  wn_validate_output (WaitNode coerce_int) (res_output r) = Ok output →
  waits_as (λ w, ww_wait_type w = EVENT ∧
                 ww_wake_at w = (λ t, now + 1000000 * t) <$> wcf_timeout_seconds cfg ∧
                 ww_timeout_action w = (λ _, wcf_on_timeout cfg) <$> wcf_timeout_seconds cfg)
    (persist output (res_waiting_reason r)) st.
Proof.
  intros Ht Hcfg. cbn [wn_execute wn_validate_output WaitNode]. unfold execute_wait.
  intros ([key payload] & _ & H)%bind_Ok. cbn [uncurry] in H. rewrite Hcfg in H. cbn [mbind result_bind] in H.
  injection H as <-. cbn [waiting res_output res_waiting_reason].
  assert (∀ t, wcf_timeout_seconds cfg = Some t → 60 <= t ∧ PyStr.truthy (wcf_on_timeout cfg) = true) as Hrange.
  { intros t. by apply read_wait with config. }
  unfold validate_wait_output, str_field, opt_str_field, dict_field. read_fields.
  intros Hout. rewrite persists_event by done.
  assert (∃ k action, output = [("status", JStr "pending"); ("event", JStr (wcf_event cfg));
    ("correlation_key", k); ("event_payload", JObj payload);
    ("timeout_seconds", opt_int (wcf_timeout_seconds cfg)); ("on_timeout", action)] ∧
    (is_Some (wcf_timeout_seconds cfg) → action = JStr (wcf_on_timeout cfg))) as (k & action & -> & Ha).
  { destruct (wcf_timeout_seconds cfg) as [t|]; cbn in Hout.
    - rewrite (proj2 (Z.eqb_neq t 0)), coerce_int_id in Hout by (destruct (Hrange t eq_refl); lia).
      destruct key; cbn in Hout; injection Hout as <-; by eexists _, _.
    - destruct key; cbn in Hout; injection Hout as <-; eexists _, _; (split; [done|by intros [? ?]]). }
  clear Hout. unfold Waits.persist_event, Waits.str_or, Retry.get_truthy, Json.getn. read_fields. cbn [from_option id].
  destruct (wcf_timeout_seconds cfg) as [t|]; cbn [opt_int].
  - destruct (Hrange t) as [Ht0 Hon]; [done|]. rewrite positive_int_of by lia. rewrite Ha by eauto.
    cbn [fmap option_fmap option_map Json.truthy Json.str]. rewrite Hon. by apply created_wait.
  - by apply created_wait.
Qed.

(** C35: An approval that waits has two expiries, which need not agree.  Its
    request is due after the configured timeout, and the task that expires
    requests resumes the node as configured: it goes on when the action is
    "continue", and fails otherwise.  But the output schema of the node has no
    field for the timeout and its action, so the durable wait under the same token
    is due after a day and fails the run, whatever the configuration says: it cuts
    off a longer timeout, and a "continue" that is not taken within the day. *)
Theorem approval_expiries_disagree context cfg at_ request0 request status channels job revisions output st :
  nr_node_type node_run = "approval" → ctx_resume_token context = Some token →
  let r := ApprovalActions.waiting_result (ApprovalActions.approval_output request status channels job revisions) cfg in
  validate_approval_output coerce_int uuid_of_text (res_output r) = Ok output →
  (let bound := ApprovalActions.bound_by at_ context cfg request0 in
   ar_expires_at bound = Some (at_ + ApprovalActions.ac_timeout_seconds cfg * 1000000) ∧
   ∃ binding, Approvals.get_workflow_binding bound = Some binding ∧
     Json.getn "resume_token" binding = JStr token ∧
     ∀ decided sent, Resume.ending_of "expired" (Approvals.decision_of decided binding sent) =
       if String.eqb (ApprovalActions.ac_on_timeout cfg) "continue" then Resume.EndTimedOut else Resume.EndFailure) ∧
  waits_as (λ w, ww_wait_type w = EVENT ∧ ww_wake_at w = Some (now + 86400 * 1000000) ∧
                 ww_timeout_action w = Some "fail" ∧
                 Resume.ending_of "expired" (Waits.expired_decision w) = Resume.EndFailure)
    (persist output (res_waiting_reason r)) st.
Proof.
  intros Ht Hctx r Hout. split.
  - split; [done|]. eexists. unfold Approvals.get_workflow_binding, Approvals.binding_of.
    match goal with |- context [ar_response_payload_json (ApprovalActions.bound_by ?t ?c ?g ?q)] =>
      change (ar_response_payload_json (ApprovalActions.bound_by t c g q)) with
        (Dict.set Approvals.WORKFLOW_BINDING_KEY (JObj (Approvals.build_workflow_binding (ctx_workflow_run_id c)
           (ctx_node_run_id c) (ctx_node_id c) (ctx_resume_token c) (ApprovalActions.ac_on_timeout g)
           (ApprovalActions.ac_allow_revision g) (ApprovalActions.ac_channels g))) (ar_response_payload_json q)) end.
    rewrite Dict.get_set_eq, Hctx.
    destruct has_token as [_ Htok]. assert (PyStr.truthy token = true) as Htrue by (by destruct token).
    unfold Json.getn at 1, Approvals.build_workflow_binding. read_fields. cbn [from_option id Json.opt_str Json.truthy].
    rewrite Htrue. split; [done|]. split; [by unfold Json.getn; read_fields|].
    intros decided sent. apply expired_ending. unfold Approvals.decision_of. by read_fields.
  - cbn [ApprovalActions.waiting_result res_waiting_reason r]. rewrite persists_approval by done.
    assert (Dict.get "timeout_seconds" output = None ∧ Dict.get "on_timeout" output = None) as [H1 H2].
    { revert Hout. unfold validate_approval_output. intros (a & _ & H)%bind_Ok.
      do 4 (apply bind_Ok in H as (? & _ & H)). apply bind_Ok in H as (? & _ & [= <-]). by read_fields. }
    unfold Waits.persist_approval, Waits.str_or, Retry.get_truthy, Json.getn. rewrite H1, H2. by apply created_wait.
Qed.
End pauses.

(** ** Witnesses *)

Definition ex_context : WorkflowNodeContext := {|
  ctx_tenant_id := "T"; ctx_correlation_id := None; ctx_workflow_run_id := Some "R"; ctx_automation_id := None;
  ctx_brand_id := None; ctx_node_id := Some "n"; ctx_node_run_id := Some "n"; ctx_resume_token := Some "tok";
  ctx_snapshot := [] |}.
Definition ex_int (v : json) : option Z := match v with JInt z => Some z | _ => None end.
Definition ex_bool (v : json) : option bool := match v with JBool b => Some b | _ => None end.
Definition ex_text (s : string) : option string := Some s.
Definition ex_row (node_type : string) : WorkflowNodeRun :=
  new_node_run "n" "T" "R" "n" node_type 1 WAITING "" [] <| nr_resume_token := Some "tok" |>.

Definition ex_config : dict json :=
  [("field", JStr "score"); ("operator", JStr "gte"); ("compare_to", JInt 5); ("true_branch", JStr " high ")].
Definition ex_inputs : dict json := [("payload", JObj [("score", JInt 8)])].
Definition ex_output : dict json :=
  [("branch", JStr " high "); ("matched", JBool true); ("evaluated_value", JInt 8); ("field", JStr "score")].

Lemma condition_announces_its_branch_witness :
  announced " high " = Some "high" ∧
  ∃ cfg payload matched output,
    read_condition_config ex_config = Ok cfg ∧ dict_field "payload" (Ok []) ex_inputs = Ok payload ∧
    eval_condition (λ _, None) (condition_value (cc_field cfg) ex_inputs payload) (cc_operator cfg) (cc_compare_to cfg)
      = Ok matched ∧
    res_status (succeeded ex_output) = RS_SUCCEEDED ∧ validate_condition_output ex_bool ex_output = Ok output ∧
    Unlock.branch_of (Some output) = announced (if matched : bool then cc_true_branch cfg else cc_false_branch cfg).
Proof.
  split; [vm_compute; reflexivity|].
  apply (condition_announces_its_branch (λ _, None) ex_bool (λ b, eq_refl) ex_context ex_inputs ex_config
           (succeeded ex_output)); [|vm_compute; reflexivity].
  apply (bool_decide_unpack _). vm_compute. exact I.
Defined.

Lemma comparison_is_exact_witness :
  eval_condition (λ _, None) (JInt (2 ^ 53 - 1)) "lt" (JInt (2 ^ 53)) = Ok true.
Proof.
  apply (comparison_is_exact (λ _, None) "lt" (2 ^ 53 - 1) (2 ^ 53)); [|done|done|done].
  apply (bool_decide_unpack _). vm_compute. exact I.
Defined.

Lemma merge_exposes_nothing_witness :
  ∃ r, wn_execute (MergeNode ex_int) ex_context [("sources", JArr [JObj [("title", JStr "a")]])] [] = Ok r ∧
       (∀ k v, Dict.get k [("title", JStr "a")] = Some v → Dict.get k (res_output r) = Some v) ∧
       wn_validate_output (MergeNode ex_int) (res_output r) =
         Ok (merge_output "all" [[("title", JStr "a")]] [("title", JStr "a")]).
Proof.
  apply (merge_exposes_nothing ex_int (λ z, eq_refl) ex_context
           [("sources", JArr [JObj [("title", JStr "a")]])] [] [[("title", JStr "a")]] [] "all").
  - vm_compute. reflexivity.
  - vm_compute. reflexivity.
  - apply (bool_decide_unpack _). vm_compute. exact I.
  - intros k Hk. repeat (apply elem_of_cons in Hk as [->|Hk]; [reflexivity|]). by apply elem_of_nil in Hk.
Defined.

Definition ex_date (_ : json) : option (Z * option Z) := Some (90000000, Some 0).
Definition ex_delayed : dict json :=
  [("resume_at", JStr "1970-01-01T00:01:30Z"); ("scheduled", JBool true); ("status", JStr "pending")].

Lemma delay_wakes_at_its_end_witness :
  let m := Waits.persist_waiting_node 0 (λ _, "w") (λ _, Some (90000000, Some 0)) Waits.ex_wait_run (ex_row "delay")
             ex_delayed (Some "delay_until") in
  (m empty_store).1 = Ok () ∧
  waits_as "tok" (λ w, ww_wait_type w = DELAY ∧ ww_wake_at w = Some (90000000 - 0) ∧ ww_timeout_action w = None) m
    empty_store.
Proof.
  split; [vm_compute; reflexivity|].
  apply (delay_wakes_at_its_end 0 (λ _, "w") (λ _, Some (90000000, Some 0)) ex_int ex_bool ex_date (λ b, eq_refl)
           Waits.ex_wait_run (ex_row "delay") "tok") with
    (context := ex_context) (inputs := []) (config := [("duration_seconds", JInt 90)])
    (cfg := {| dc_duration_seconds := Some 90; dc_until := JNull |}) (r := waiting ex_delayed "delay_until");
    first [done|vm_compute; reflexivity].
Defined.

Definition ex_waiting : dict json :=
  [("status", JStr "pending"); ("event", JStr "manual"); ("correlation_key", JNull); ("event_payload", JObj []);
   ("timeout_seconds", JInt 60); ("on_timeout", JStr "continue")].

Lemma wait_expires_as_configured_witness :
  let m := Waits.persist_waiting_node 0 (λ _, "w") (λ _, None) Waits.ex_wait_run (ex_row "wait")
             ex_waiting (Some "event_pending") in
  (m empty_store).1 = Ok () ∧
  waits_as "tok" (λ w, ww_wait_type w = EVENT ∧ ww_wake_at w = Some 60000000 ∧ ww_timeout_action w = Some "continue") m
    empty_store.
Proof.
  split; [vm_compute; reflexivity|].
  apply (wait_expires_as_configured 0 (λ _, "w") (λ _, None) ex_int (λ z, eq_refl)
           Waits.ex_wait_run (ex_row "wait") "tok") with
    (context := ex_context) (inputs := []) (config := [("timeout_seconds", JInt 60); ("on_timeout", JStr "continue")])
    (cfg := {| wcf_event := "manual"; wcf_timeout_seconds := Some 60; wcf_on_timeout := "continue" |})
    (r := waiting ex_waiting "event_pending");
    first [done|vm_compute; reflexivity].
Defined.

Definition ex_approval : dict json := ApprovalActions.approval_output (JStr "q") (JStr "pending") (JArr []) (JStr "j") (JInt 0).

Definition ex_approval_config : ApprovalActions.ApprovalConfig := {|
  ApprovalActions.ac_required := true; ApprovalActions.ac_channels := ["in_app"];
  ApprovalActions.ac_timeout_seconds := 3600; ApprovalActions.ac_on_timeout := "continue";
  ApprovalActions.ac_allow_revision := true; ApprovalActions.ac_recipient := None |}.
Definition ex_request : ApprovalRequest :=
  ApprovalOutbound.new_request "q" "T" (ApprovalOutbound.asset_subject "c1" "5") 0 0 0.

(** The request goes on after an hour, the wait fails after a day. *)
Lemma approval_expiries_disagree_witness :
  let m := Waits.persist_waiting_node 0 (λ _, "w") (λ _, None) Waits.ex_wait_run (ex_row "approval")
             ex_approval (Some "approval_pending") in
  (m empty_store).1 = Ok () ∧
  ar_expires_at (ApprovalActions.bound_by 0 ex_context ex_approval_config ex_request) = Some 3600000000 ∧
  waits_as "tok" (λ w, ww_wait_type w = EVENT ∧ ww_wake_at w = Some 86400000000 ∧ ww_timeout_action w = Some "fail" ∧
                       Resume.ending_of "expired" (Waits.expired_decision w) = Resume.EndFailure) m empty_store.
Proof.
  split; [vm_compute; reflexivity|].
  assert (validate_approval_output ex_int ex_text (res_output (ApprovalActions.waiting_result ex_approval ex_approval_config))
          = Ok ex_approval) as Hout by (vm_compute; reflexivity).
  destruct (approval_expiries_disagree 0 (λ _, "w") (λ _, None) ex_int ex_text Waits.ex_wait_run (ex_row "approval") "tok")
    with (context := ex_context) (cfg := ex_approval_config) (at_ := 0) (request0 := ex_request)
         (request := JStr "q") (status := JStr "pending") (channels := JArr []) (job := JStr "j") (revisions := JInt 0)
         (output := ex_approval) (st := empty_store) as [[H1 _] H2];
    [by split|reflexivity|reflexivity|exact Hout|]. exact (conj H1 H2).
Defined.
End NodesSpec.
