(* ===== verification/Inspection.v ===== *)
(** * Run inspection (payload_redact.py, run_inspection.py)

    What the API shows of runs to operators: the rows with sensitive keys of
    their payloads redacted and without live tokens.  Rows of a table stand in
    the order they were created. *)
From S2P Require Import Prelude PyStr Json RunModels Tables Cancellation ControlNodes.

Module Inspection.
Import Models Tables.
Local Open Scope string_scope.
Local Open Scope list_scope.
Local Open Scope Z_scope.

(** ** payload_redact.py *)

Definition REDACTED : string := "[redacted]".

Definition SENSITIVE_KEY_FRAGMENTS : list string :=
  ["password"; "passwd"; "secret"; "token"; "api_key"; "apikey"; "authorization"; "credential"; "private_key";
   "access_key"].
Definition EXACT_SENSITIVE : list string :=
  ["resume_token"; "claim_token"; "password"; "passwd"; "secret"; "token"; "api_key"; "apikey"; "authorization";
   "credential"; "private_key"; "access_key"; "refresh_token"; "oauth_token"; "webhook_secret"; "provider_secret"].

Definition is_sensitive_key (key : string) : bool :=
  let lowered := PyStr.lower (PyStr.strip key) in
  if bool_decide (lowered ∈ EXACT_SENSITIVE) then true
  else existsb (λ frag, PyStr.contains frag lowered) SENSITIVE_KEY_FRAGMENTS.

Fixpoint redact_value (value : json) : json :=
  match value with
  | JObj o => JObj (map (λ kv, (kv.1, if is_sensitive_key kv.1 then JStr REDACTED else redact_value kv.2)) o)
  | JArr l => JArr (map redact_value l)
  | _ => value
  end.

Definition redact_dict (o : dict json) : dict json := Json.as_dict (redact_value (JObj o)).

(** ** run_inspection.py *)

(** [n / d] rounded to 53 bits, for a quotient from 2^52 to 2^54. *)
Definition mantissa (n d : Z) : Z :=
  if n <? 2 ^ 53 * d then ControlNodes.round_half_even n d else 2 * ControlNodes.round_half_even n (2 * d).

(** The float nearest to [n / d], as a quotient, for positive [n] and [d]:
    its numerator has 53 bits before the scaling by a power of two. *)
Definition float_quotient (n d : Z) : Z * Z :=
  let shift := 53 - (Z.log2 n - Z.log2 d) in
  let '(n, d) := if 0 <=? shift then (n * 2 ^ shift, d) else (n, d * 2 ^ (- shift)) in
  let m := mantissa n d in
  if 0 <=? shift then (m, 2 ^ shift) else (m * 2 ^ (- shift), 1).

(** [int(delta.total_seconds() * 1000)], never negative. *)
Definition milliseconds (delta : Z) : Z :=
  if delta <=? 0 then 0
  else
    let '(p, q) := float_quotient delta 1000000 in
    let '(r, s) := float_quotient (p * 1000) q in
    r / s.

Definition duration_ms (node : WorkflowNodeRun) : option Z :=
  match nr_started_at node, nr_finished_at node with
  | Some started, Some finished => Some (milliseconds (finished - started))
  | _, _ => None
  end.

(** The response repeats the fields of the row. *)
Record WorkflowNodeRunResponse := {
  nrr_node : WorkflowNodeRun;
  nrr_duration_ms : option Z;
  nrr_can_resume : bool;
  nrr_can_retry : bool;
}.

Definition serialize_node_run (node : WorkflowNodeRun) : WorkflowNodeRunResponse := {|
  nrr_node := node <| nr_input_json ::= redact_dict |> <| nr_output_json ::= redact_dict |>
                   <| nr_error_json ::= fmap redact_dict |>
                   <| nr_resume_token := None |> <| nr_claim_token := None |>;
  nrr_duration_ms := duration_ms node;
  nrr_can_resume := bool_decide (nr_status node = WAITING) && PyStr.opt_truthy (nr_resume_token node);
  nrr_can_retry := bool_decide (nr_status node = FAILED) |}.

Definition serialize_run (run : WorkflowRun) : WorkflowRun :=
  run <| wr_trigger_payload ::= redact_dict |> <| wr_context_snapshot ::= redact_dict |>.

Record WorkflowRunInspectionMeta := {
  im_version_number : option Z;
  im_automation_name : option string;
  im_brand_name : option string;
}.

Definition load_inspection_meta (tables : Tables) (run : WorkflowRun) : WorkflowRunInspectionMeta := {|
  im_version_number := wv_version <$> row_by wv_id (wr_workflow_version_id run) (tb_versions tables);
  im_automation_name := id ← wr_automation_id run; au_name <$> row_by au_id id (tb_automations tables);
  im_brand_name := id ← wr_brand_id run; br_name <$> row_by br_id id (tb_brands tables) |}.

Record WorkflowRunDetailResponse := {
  rd_run : WorkflowRun;
  rd_nodes : list WorkflowNodeRunResponse;
  rd_meta : WorkflowRunInspectionMeta;
}.

Definition build_run_detail (tables : Tables) (run : WorkflowRun) (nodes : list WorkflowNodeRun)
    : WorkflowRunDetailResponse :=
  {| rd_run := serialize_run run; rd_nodes := serialize_node_run <$> nodes; rd_meta := load_inspection_meta tables run |}.

(** ** run_repository.py and router_operator.py *)

Definition list_runs (tenant_id : string) (limit : nat) (status : option string) (st : Store) : list WorkflowRun :=
  firstn limit (List.filter (λ r, bool_decide (wr_tenant_id r = tenant_id) &&
    (negb (PyStr.opt_truthy status) || bool_decide (status = Some (run_status_value (wr_status r)))))
    (rev (st_runs st))).

(** The response of the list repeats the rows. *)
Definition list_workflow_runs (tenant_id : string) (status : option string) (limit : Z) (st : Store)
    : result (list WorkflowRun) :=
  if (1 <=? limit) && (limit <=? 200) then Ok (list_runs tenant_id (Z.to_nat limit) status st)
  else Raise (OtherException "RequestValidationError" "limit").

Definition detail (tables : Tables) (tenant_id run_id : string) (st : Store) : result WorkflowRunDetailResponse :=
  match Cancellation.get_run tenant_id run_id st with
  | None => Raise (HTTPException 404 "Workflow run not found")
  | Some run => Ok (build_run_detail tables run (Cancellation.list_node_runs tenant_id run_id st))
  end.

(** ** Values that agree outside sensitive keys *)

Inductive agree : json → json → Prop :=
  | agree_value v : agree v v
  | agree_arr l l' : Forall2 agree l l' → agree (JArr l) (JArr l')
  | agree_obj o o' :
      Forall2 (λ kv kv', kv.1 = kv'.1 ∧ (is_sensitive_key kv.1 = true ∨ agree kv.2 kv'.2)) o o' →
      agree (JObj o) (JObj o').

Definition redact_entry (kv : string * json) : string * json :=
  (kv.1, if is_sensitive_key kv.1 then JStr REDACTED else redact_value kv.2).

Lemma map_eq_Forall2 {A B} (f : A → B) (R : A → A → Prop) l l' :
  Forall (λ x, ∀ y, f x = f y → R x y) l → map f l = map f l' → Forall2 R l l'.
Proof.
  intros Hl. revert l'. induction Hl as [|x l Hx Hl IH]; intros [|y l']; try done. intros [= Hf Hm].
  constructor; [by apply Hx|by apply IH].
Qed.

Lemma Forall2_map_eq {A B} (f : A → B) (R : A → A → Prop) l l' :
  Forall (λ x, ∀ y, R x y → f x = f y) l → Forall2 R l l' → map f l = map f l'.
Proof.
  intros Hl H. revert Hl. induction H as [|x y l l' HR H IH]; [done|]. intros [Hx Hl]%Forall_cons.
  cbn. by rewrite (Hx _ HR), IH.
Qed.

Lemma agree_redacted v v' : agree v v' → redact_value v = redact_value v'.
Proof.
  revert v'. induction v as [| | | |l IH|o IH] using json_ind'; intros v' H; inversion H as [|? l' Hl|? o' Ho]; subst; try done.
  - cbn. f_equal. by apply (Forall2_map_eq _ agree).
  - cbn. f_equal. refine (Forall2_map_eq redact_entry _ o o' _ Ho).
    eapply Forall_impl; [exact IH|]. intros [k v] Hv [k' v'] [Hk Hs]. cbn in Hk, Hs, Hv. subst k'.
    unfold redact_entry. cbn. destruct (is_sensitive_key k); [done|]. destruct Hs as [?|Hs]; [done|]. by rewrite (Hv v').
Qed.

Lemma redacted_agree v v' : redact_value v = redact_value v' → agree v v'.
Proof.
  revert v'. induction v as [| | | |l IH|o IH] using json_ind'; intros v' H; destruct v' as [| | | |l'|o']; try done.
  1-4: cbn in H; simplify_eq; apply agree_value.
  - cbn in H. injection H as H. apply agree_arr. by apply (map_eq_Forall2 redact_value).
  - cbn in H. injection H as H. apply agree_obj. refine (map_eq_Forall2 redact_entry _ o o' _ H).
    eapply Forall_impl; [exact IH|]. intros [k v] Hv [k' v']. unfold redact_entry. cbn. intros [= <- Hs].
    split; [done|]. destruct (is_sensitive_key k); [by left|right; by apply Hv].
Qed.

(** Redaction hides sensitive keys and nothing else.  Two values have the
    same redaction exactly when they agree outside sensitive keys: same shape,
    same scalars, and below an object the same keys in the same order with
    agreeing values except where the key is sensitive. *)
Theorem redact_value_spec v v' : redact_value v = redact_value v' ↔ agree v v'.
Proof. split; [apply redacted_agree|apply agree_redacted]. Qed.

Definition agree_dict (o o' : dict json) : Prop := agree (JObj o) (JObj o').

Lemma redact_dict_agree o o' : redact_dict o = redact_dict o' ↔ agree_dict o o'.
Proof.
  unfold agree_dict, redact_dict. cbn [redact_value Json.as_dict]. split; intros H.
  - apply redacted_agree. cbn. by f_equal.
  - apply agree_redacted in H. cbn in H. by injection H.
Qed.

Lemma fmap_redact_agree (e e' : option (dict json)) :
  redact_dict <$> e = redact_dict <$> e' ↔ option_Forall2 agree_dict e e'.
Proof.
  split.
  - destruct e as [o|], e' as [o'|]; cbn; intros H; try done; constructor. injection H. apply redact_dict_agree.
  - intros [o o' H|]; [|done]. cbn. f_equal. by apply redact_dict_agree.
Qed.

(** ** Rows an operator cannot tell apart *)

Definition low_node (n n' : WorkflowNodeRun) : Prop :=
  ∃ i o e token claim,
    n' = n <| nr_input_json := i |> <| nr_output_json := o |> <| nr_error_json := e |>
           <| nr_resume_token := token |> <| nr_claim_token := claim |> ∧
    agree_dict (nr_input_json n) i ∧ agree_dict (nr_output_json n) o ∧ option_Forall2 agree_dict (nr_error_json n) e ∧
    (nr_status n = WAITING → PyStr.opt_truthy (nr_resume_token n) = PyStr.opt_truthy token).

Definition low_run (r r' : WorkflowRun) : Prop :=
  ∃ payload snapshot,
    r' = r <| wr_trigger_payload := payload |> <| wr_context_snapshot := snapshot |> ∧
    agree_dict (wr_trigger_payload r) payload ∧ agree_dict (wr_context_snapshot r) snapshot.

Lemma low_run_refl r : low_run r r.
Proof. destruct r. eexists _, _. split; [reflexivity|]. split; apply agree_value. Qed.
Lemma low_node_refl n : low_node n n.
Proof.
  destruct n as [? ? ? ? ? ? ? ? ? ? ? e]. eexists _, _, _, _, _. split; [reflexivity|]. cbn.
  split_and!; try apply agree_value; [|done]. destruct e; constructor; apply agree_value.
Qed.

Lemma low_run_serialized r r' : low_run r r' → serialize_run r = serialize_run r'.
Proof.
  intros (payload & snapshot & -> & Hp%redact_dict_agree & Hs%redact_dict_agree).
  unfold serialize_run. destruct r; cbn in *. by rewrite Hp, Hs.
Qed.

Lemma low_node_serialized n n' : low_node n n' → serialize_node_run n = serialize_node_run n'.
Proof.
  intros (i & o & e & token & claim & -> & Hi%redact_dict_agree & Ho%redact_dict_agree & He%fmap_redact_agree & Ht).
  destruct n; cbn in *. unfold serialize_node_run, duration_ms. cbn in *. rewrite Hi, Ho, He. f_equal.
  case_bool_decide; [by rewrite Ht|done].
Qed.

(** The response shows everything of a row but its secrets.  Two rows have
    the same response exactly when they differ only in sensitive keys of their
    payloads, in their tokens, and not in whether a waiting node can be resumed. *)
Theorem serialize_node_run_spec n n' : serialize_node_run n = serialize_node_run n' ↔ low_node n n'.
Proof.
  split; [|apply low_node_serialized]. destruct n, n'. unfold serialize_node_run. cbn. intros H.
  injection H. intros. subst. eexists _, _, _, _, _. split; [reflexivity|]. cbn.
  rewrite <- !redact_dict_agree, <- fmap_redact_agree. split_and!; try done.
  intros ->. match goal with H : _ && _ = _ && _ |- _ => by rewrite bool_decide_eq_true_2 in H by done end.
Qed.

Section lists.
Context {A : Type} (R : A → A → Prop) (p : A → bool).
Hypothesis Hp : ∀ x y, R x y → p x = p y.

Lemma Forall2_list_filter l l' : Forall2 R l l' → Forall2 R (List.filter p l) (List.filter p l').
Proof.
  induction 1 as [|x y l l' HR H IH]; [constructor|]. cbn. rewrite (Hp _ _ HR). destruct (p y); [by constructor|done].
Qed.
Lemma Forall2_list_find l l' : Forall2 R l l' → option_Forall2 R (List.find p l) (List.find p l').
Proof.
  induction 1 as [|x y l l' HR H IH]; [constructor|]. cbn. rewrite (Hp _ _ HR). destruct (p y); [by constructor|done].
Qed.
End lists.

Lemma detail_low tables tenant_id run_id st st' :
  Forall2 low_run (st_runs st) (st_runs st') → Forall2 low_node (st_node_runs st) (st_node_runs st') →
  detail tables tenant_id run_id st = detail tables tenant_id run_id st'.
Proof.
  intros Hr Hn. unfold detail.
  assert (option_Forall2 low_run (Cancellation.get_run tenant_id run_id st) (Cancellation.get_run tenant_id run_id st'))
    as [r r' Hrun|]; [apply Forall2_list_find; [|done]; by intros ? ? (? & ? & -> & _)| |done].
  assert (Forall2 low_node (Cancellation.list_node_runs tenant_id run_id st) (Cancellation.list_node_runs tenant_id run_id st'))
    as Hnodes; [apply Forall2_list_filter; [|done]; by intros ? ? (? & ? & ? & ? & ? & -> & _)|].
  unfold build_run_detail. rewrite (low_run_serialized r r' Hrun). do 2 f_equal.
  - induction Hnodes as [|n n' l l' Hx Hl IH]; [done|]. cbn. by rewrite (low_node_serialized n n' Hx), IH.
  - by destruct Hrun as (? & ? & -> & _).
Qed.

(** C38: Inspection leaks no secret.  Over stores whose rows differ only in
    sensitive keys and tokens, the detail of every run is the same. *)
Theorem detail_hides_secrets tables tenant_id run_id st st' :
  Forall2 low_run (st_runs st) (st_runs st') → Forall2 low_node (st_node_runs st) (st_node_runs st') →
  detail tables tenant_id run_id st = detail tables tenant_id run_id st'.
Proof.
  apply detail_low.
Qed.

Definition with_run (run : WorkflowRun) (st : Store) : Store := st <| st_runs ::= λ l, l ++ [run] |>.

Lemma listed_first tenant_id st run limit :
  wr_tenant_id run = tenant_id → 1 <= limit <= 200 →
  ∃ rows, list_workflow_runs tenant_id None limit (with_run run st) = Ok (run :: rows).
Proof.
  intros Ht Hl. unfold list_workflow_runs. rewrite (proj2 (Z.leb_le _ _)), (proj2 (Z.leb_le _ _)) by lia. cbn [andb].
  unfold list_runs, with_run. cbn [st_runs]. eexists. f_equal.
  replace (Z.to_nat limit) with (S (Z.to_nat (limit - 1))) by lia.
  cbn. rewrite rev_app_distr. cbn. rewrite bool_decide_eq_true_2 by done. cbn. reflexivity.
Qed.

(** C39: The list of runs shows what the detail hides.  Two histories that
    end in runs which differ in sensitive keys only have the same detail of that
    run, but different lists of runs. *)
Theorem run_list_shows_secrets tables tenant_id st run run' limit :
  wr_tenant_id run = tenant_id → low_run run run' → run ≠ run' → 1 <= limit <= 200 →
  detail tables tenant_id (wr_id run) (with_run run st) = detail tables tenant_id (wr_id run) (with_run run' st) ∧
  list_workflow_runs tenant_id None limit (with_run run st) ≠ list_workflow_runs tenant_id None limit (with_run run' st).
Proof.
  intros Ht Hlow Hne Hl. split.
  - apply detail_low; [|cbn; induction (st_node_runs st); constructor; [apply low_node_refl|done]].
    cbn. apply Forall2_app; [|by constructor]. induction (st_runs st); constructor; [apply low_run_refl|done].
  - destruct (listed_first tenant_id st run limit Ht Hl) as [rows ->].
    destruct (listed_first tenant_id st run' limit) as [rows' ->]; [by destruct Hlow as (? & ? & -> & _)|done|].
    by intros [= ? _].
Qed.

(** ** Durations *)

Lemma round_half_even_error n d : 0 < d →
  2 * Z.abs (ControlNodes.round_half_even n d * d - n) <= d.
Proof.
  intros Hd. unfold ControlNodes.round_half_even. pose proof (Z.div_mod n d ltac:(lia)). pose proof (Z.mod_pos_bound n d Hd).
  cbv zeta. destruct (Z.ltb_spec (2 * (n mod d)) d), (Z.ltb_spec d (2 * (n mod d))); try lia. destruct (Z.even _); lia.
Qed.

(** The quotient [p / q] is within a relative error of 2^-53 of [n / d]. *)
Definition near (n d p q : Z) : Prop := 0 <= p ∧ 0 < q ∧ Z.abs (p * d - n * q) * 2 ^ 53 <= n * q.

Lemma mantissa_near n d : 0 < n → 0 < d → 2 ^ 52 * d <= n → near n d (mantissa n d) 1.
Proof.
  intros Hn Hd Hlo. unfold near, mantissa. rewrite !Z.mul_1_r. destruct (Z.ltb_spec n (2 ^ 53 * d)).
  - pose proof (round_half_even_error n d Hd). split_and!; nia.
  - pose proof (round_half_even_error n (2 * d) ltac:(lia)). split_and!; nia.
Qed.

Lemma float_quotient_near n d : 0 < n → 0 < d → near n d (float_quotient n d).1 (float_quotient n d).2.
Proof.
  intros Hn Hd. pose proof (Z.log2_spec n Hn). pose proof (Z.log2_spec d Hd). unfold float_quotient.
  pose proof (Z.log2_nonneg n). pose proof (Z.log2_nonneg d).
  set (shift := 53 - (Z.log2 n - Z.log2 d)). destruct (Z.leb_spec 0 shift) as [Hs|Hs].
  - assert (0 < 2 ^ shift) by (apply Z.pow_pos_nonneg; lia).
    destruct (mantissa_near (n * 2 ^ shift) d ltac:(nia) Hd) as (Hm & _ & He).
    + assert (2 ^ Z.log2 n * 2 ^ shift = 2 ^ 52 * 2 ^ Z.succ (Z.log2 d)) as E.
      { rewrite <- !Z.pow_add_r by lia. f_equal. unfold shift. lia. }
      nia.
    + cbn [fst snd]. unfold near. rewrite Z.mul_1_r in He. split_and!; [done|lia|].
      exact He.
  - assert (0 < 2 ^ (- shift)) by (apply Z.pow_pos_nonneg; lia).
    destruct (mantissa_near n (d * 2 ^ (- shift)) Hn ltac:(nia)) as (Hm & _ & He).
    + assert (2 ^ 52 * (2 ^ Z.succ (Z.log2 d) * 2 ^ (- shift)) = 2 ^ Z.log2 n) as E.
      { rewrite <- !Z.pow_add_r by lia. f_equal. unfold shift. lia. }
      nia.
    + cbn [fst snd]. unfold near. rewrite !Z.mul_1_r in *.
      split_and!; [nia|lia|]. by rewrite <- Z.mul_assoc, (Z.mul_comm (2 ^ (- shift)) d).
Qed.

(** Two roundings in a row. *)
Lemma near_twice n d p q r s k : 0 < n → 0 < d → 0 < k → near n d p q → near (p * k) q r s →
  n * k * s * (2 ^ 53 - 1) ^ 2 <= r * d * (2 ^ 53) ^ 2 <= n * k * s * (2 ^ 53 + 1) ^ 2.
Proof.
  intros Hn Hd Hk (Hp & Hq & H1) (Hr & Hs & H2).
  assert (p * d * 2 ^ 53 <= n * q * (2 ^ 53 + 1) ∧ n * q * (2 ^ 53 - 1) <= p * d * 2 ^ 53) as [U1 L1] by lia.
  assert (r * q * 2 ^ 53 <= p * k * s * (2 ^ 53 + 1) ∧ p * k * s * (2 ^ 53 - 1) <= r * q * 2 ^ 53) as [U2 L2] by lia.
  clear H1 H2. assert (0 < k * s) as Hks by nia.
  set (b := 2 ^ 53) in *. assert (1 < b) as Hb by done. clearbody b. split; apply (Zmult_le_reg_r _ _ q); try lia.
  - assert (n * q * (b - 1) * (k * s * (b - 1)) <= p * d * b * (k * s * (b - 1))) as E1 by (apply Z.mul_le_mono_nonneg_r; nia).
    assert (p * k * s * (b - 1) * (d * b) <= r * q * b * (d * b)) as E2 by (apply Z.mul_le_mono_nonneg_r; nia).
    lia.
  - assert (p * d * b * (k * s * (b + 1)) <= n * q * (b + 1) * (k * s * (b + 1))) as E1 by (apply Z.mul_le_mono_nonneg_r; nia).
    assert (r * q * b * (d * b) <= p * k * s * (b + 1) * (d * b)) as E2 by (apply Z.mul_le_mono_nonneg_r; nia).
    lia.
Qed.

(** C40: A duration is one millisecond off at most.  The milliseconds shown
    for a duration below 2^51 microseconds (71 years) are the whole milliseconds
    in it or one less, although they are computed with floats. *)
Theorem milliseconds_bounds delta : 0 <= delta < 2 ^ 51 →
  delta / 1000 - 1 <= milliseconds delta <= delta / 1000.
Proof.
  intros [H0 H1]. unfold milliseconds. destruct (Z.leb_spec delta 0) as [?|Hd].
  { assert (delta = 0) as -> by lia. done. }
  pose proof (float_quotient_near delta 1000000 Hd ltac:(lia)) as H2.
  destruct (float_quotient delta 1000000) as [p q]. cbn [fst snd] in H2. pose proof H2 as (Hp & Hq & H2').
  pose proof (float_quotient_near (p * 1000) q ltac:(lia) Hq) as H3.
  destruct (float_quotient (p * 1000) q) as [r s]. cbn [fst snd] in H3. pose proof H3 as (Hr & Hs & _).
  destruct (near_twice delta 1000000 p q r s 1000) as [L U]; [lia..|done|done|]. clear H2 H2' H3.
  pose proof (Z.div_mod delta 1000 ltac:(lia)). pose proof (Z.mod_pos_bound delta 1000 ltac:(lia)).
  split.
  - apply Z.div_le_lower_bound; [done|]. nia.
  - assert (r / s < delta / 1000 + 1); [|lia]. apply Z.div_lt_upper_bound; [done|]. nia.
Qed.

(** 1.001 seconds are shown as 1000 milliseconds. *)
Lemma milliseconds_bounds_witness :
  milliseconds 1001000 = 1000 ∧ 1001000 / 1000 - 1 <= milliseconds 1001000 <= 1001000 / 1000.
Proof. split; [vm_compute; reflexivity|]. apply (milliseconds_bounds 1001000). lia. Defined.

(** ** Witnesses *)

Definition ex_run (secret : string) : WorkflowRun := {|
  wr_id := "R"; wr_tenant_id := "T"; wr_automation_id := None; wr_workflow_definition_id := "D";
  wr_workflow_version_id := "V"; wr_brand_id := None; wr_trigger_type := "webhook";
  wr_trigger_payload := [("topic", JStr "news"); ("auth", JObj [("Access_Token", JStr secret)])];
  wr_status := RUN_QUEUED; wr_context_snapshot := []; wr_started_at := None; wr_finished_at := None;
  wr_error_message := None; wr_correlation_id := None |}.

Lemma ex_run_low secret secret' : low_run (ex_run secret) (ex_run secret').
Proof.
  eexists _, _. split; [reflexivity|]. split; [|apply agree_value]. apply agree_obj.
  constructor; [split; [done|right; apply agree_value]|]. constructor; [|constructor]. split; [done|right].
  apply agree_obj. constructor; [|constructor]. split; [done|left; vm_compute; reflexivity].
Qed.

Definition ex_tables : Tables := Build_Tables [] [] [] [] [] [] [] [].

Lemma detail_hides_secrets_witness :
  detail ex_tables "T" "R" (with_run (ex_run "a") empty_store) = detail ex_tables "T" "R" (with_run (ex_run "b") empty_store).
Proof.
  apply (detail_hides_secrets ex_tables "T" "R" (with_run (ex_run "a") empty_store) (with_run (ex_run "b") empty_store));
    [|constructor]. constructor; [apply ex_run_low|constructor].
Defined.

Lemma run_list_shows_secrets_witness :
  detail ex_tables "T" "R" (with_run (ex_run "a") empty_store) = detail ex_tables "T" "R" (with_run (ex_run "b") empty_store) ∧
  list_workflow_runs "T" None 50 (with_run (ex_run "a") empty_store) ≠
  list_workflow_runs "T" None 50 (with_run (ex_run "b") empty_store).
Proof.
  apply (run_list_shows_secrets ex_tables "T" empty_store (ex_run "a") (ex_run "b") 50);
    [reflexivity|apply ex_run_low|discriminate|lia].
Defined.
End Inspection.
